(* ===== verification/_CoqProject ===== *)
-Q . S2P
Prelude.v
PyValue.v
Digest.v
IsoText.v
Sqlite.v
TaskMachine.v
Snapshot.v
Identity.v
ReplayGuard.v
EnvelopeGuard.v
SqliteSnapshot.v
Capabilities.v
AgentJwt.v
Approval.v
Delegation.v
SqliteDelegation.v
AuditChain.v
SqliteAudit.v
CircuitBreaker.v
WsPool.v
RateLimit.v
SelfAuth.v
Routes.v
Registration.v
Metrics.v
Errors.v
LambdaCodec.v
Compression.v
Metering.v
SqliteMetering.v
JsonRpc.v
Handlers.v
Signing.v
Middleware.v
Challenge.v
ManifestCache.v
DelegationJwt.v
Webhook.v
RequestHandler.v
Discovery.v
Client.v
ClientFacts.v
WsClient.v
RequestMetrics.v
JsonRpcRoute.v
WsServer.v
Sla.v
OperatorApi.v
OAuth.v
TokenCaches.v
Server.v
McpServer.v
WebAuthn.v
SqliteSla.v
Market.v
Parts.v
Fields.v
Payloads.v
Entities.v
McpClient.v
OpenApiMapper.v
OpenApiHandler.v
OpenApiAdapter.v
ClientSetup.v
DnsSd.v
AutoRegistration.v
Harness.v
Compliance.v
RegistryPr.v
IssueText.v
IssueOps.v
Telemetry.v
LogTrace.v
A2h.v
Frameworks.v
System.v
