(* ===== verification/Prelude.v ===== *)
(** * ASAP protocol: a verification development

    ASAP is a protocol and a Python library (`src/src/asap/`) by which agents
    register with a server under the identity of a host, prove who they are with
    short-lived JSON Web Tokens, obtain capabilities that a user may have to
    approve, exchange tasks in envelopes over HTTP and WebSockets, delegate
    rights, meter usage, keep an audit log, and meet other worlds through MCP,
    OpenAPI and a public registry.  This library models the parts that decide:
    who is authenticated, what is granted, what is replayed, what a task may
    become, and the transport bookkeeping around them.

    ** Parts of the program and their models

    - [Prelude]: exceptions, results, the state monad of the handlers with its
      rules, shared tactics and lemmas.
    - [PyValue]: the Python values the code handles (strings, JSON values with
      their equality and ordering, floats, ordered dictionaries).
    - [Digest]: UTF-8, SHA-256, base64url, `json.dumps` and `isoformat`, as
      functions that compute (checked against published test vectors).
    - [IsoText]: the texts of date-times, their order and their reading back;
      [Sqlite]: `state/stores/_sqlite_base.py`: schema on demand, statements and
      transactions that are undone when they fail.
    - [TaskMachine]: `models/enums.py`, `models/entities.py` (Task),
      `state/machine.py`: the task statuses, the table and `transition`.
    - [Snapshot]: `state/snapshot.py`, `state/stores/memory.py`: the store's
      contract as a class with laws, the in-memory store as an instance;
      [SqliteSnapshot]: the store of `state/stores/sqlite.py` as another.
    - [Identity]: `auth/identity.py`: hosts, agent sessions, thumbprints, both
      stores with their compare-and-set writes, expiry and reactivation.
    - [ReplayGuard]: `JtiReplayCache` of `auth/agent_jwt.py` and
      `auth/jti_replay_cache.py`: the guard's interface ([JtiGuard]), the
      in-memory guard and the Redis one.
    - [EnvelopeGuard]: `transport/validators.py` and the timestamps of
      `models/envelope.py`: freshness and nonces of envelopes.
    - [Capabilities]: `auth/capabilities.py`, `auth/scopes.py` and the part of
      `transport/agent_routes.py` that turns requested specs into grants.
    - [AgentJwt]: `auth/agent_jwt.py`, `auth/agent_jwt_session.py` and
      `audience_matches_expected` of `auth/jwks.py`: creation and verification
      of Host and Agent JWTs.
    - [Approval]: `auth/approval.py`: requests for consent, their expiry,
      approval and denial, merging of payloads, the A2H channel.
    - [SelfAuth]: `auth/self_auth.py`: the fresh-session and WebAuthn gates.
    - [Routes]: `transport/_auth_helpers.py`, `transport/capability_routes.py`,
      `transport/escalation_routes.py`, and revoke and rotate-key of
      `transport/agent_routes.py`: the HTTP handlers over one application state.
    - [Registration]: register and status of `transport/agent_routes.py`.
    - [System]: all these handlers, the decisions of users and the revocation of
      hosts as events on the application state.
    - [Delegation]: scopes of `economics/delegation.py` and the in-memory
      storage of `economics/delegation_storage.py` with its cascade;
      [SqliteDelegation]: its SQLite storage, one transaction per cascade.
    - [AuditChain]: `economics/audit.py`: the hash chain in memory;
      [SqliteAudit]: the chain in a table.
    - [Metering]: `economics/hooks.py`, `economics/metering.py`,
      `economics/storage.py`, `state/metering.py`: usage events, their storage
      in memory, its filters, aggregations and retention, and the bridge store;
      [SqliteMetering]: the SQLite storages of `economics/storage.py` and
      `state/stores/sqlite.py`.
    - [CircuitBreaker]: `transport/circuit_breaker.py`; [WsPool]:
      `transport/ws/pool.py`; [RateLimit]: `transport/rate_limit.py`.
    - [Errors]: `errors.py` and `transport/errors.py`: the taxonomy, its data on
      the wire and the error a client rebuilds.
    - [JsonRpc]: `transport/jsonrpc.py`, `models/validators.py` and the payload
      types and correlation rules of `models/envelope.py`.
    - [Handlers]: `transport/handlers.py`, `transport/executors.py`: the
      registry, the three ways of dispatch and the bounded executor.
    - [Metrics]: `observability/metrics.py`; [RequestMetrics]: what one request
      adds to it.
    - [LambdaCodec], [Compression]: `transport/lambda_codec.py` and
      `transport/compression.py`.
    - [Middleware], [Challenge]: `transport/middleware.py` (authentication,
      sender check, size limit, version) and `transport/challenge.py`.
    - [RequestHandler]: `transport/_request_handler.py`: the stages of a request
      from its bytes to its reply; [JsonRpcRoute]: `transport/routes/jsonrpc.py`
      with batches and streams.
    - [Signing]: `crypto/keys.py`, `crypto/signing.py`, `crypto/models.py`,
      `crypto/trust.py`, `crypto/trust_levels.py`: keys and signed manifests.
    - [ManifestCache]: `transport/cache.py`.
    - [Discovery]: `transport/client/_discovery.py`, the cache lifetimes of
      `transport/client/_helpers.py` and the schema check of
      `discovery/validation.py`.
    - [DelegationJwt]: the tokens of `economics/delegation.py` and the routes of
      `transport/delegation_api.py`.
    - [Webhook]: `transport/webhook.py`: address checks, signatures, delivery
      with retries, dead letters.
    - [WsClient]: `transport/ws/client.py`, `_recv.py`, `_ack.py`: requests,
      acknowledgements and frames as a transition system; [WsServer]:
      `transport/ws/server.py`, `_dispatch.py`, `_actions.py`: one connection.
    - [Sla]: `economics/sla.py` and the memory half of `sla_storage.py`;
      [SqliteSla]: its SQLite half and that of `auth/webauthn_store.py`;
      [OperatorApi]: `transport/usage_api.py`, `sla_api.py` and
      `routes/audit.py`.
    - [OAuth]: `auth/jwks.py`, `auth/middleware.py`; [TokenCaches]:
      `auth/introspection.py`, `auth/oauth2.py`, `auth/oidc.py`.
    - [Server]: `transport/server.py`: what `create_app` builds, the order of its
      middleware, hot reload, shutdown, and `discovery/wellknown.py`.
    - [McpServer]: `mcp/server.py` and `mcp/auth/`; [McpClient]: `mcp/client.py`.
    - [WebAuthn]: `auth/webauthn.py` and the memory half of `webauthn_store.py`.
    - [Market]: `discovery/registry.py` and `client/`: the registry, its cache,
      resolving an agent; [AutoRegistration]: `registry/auto_registration.py`,
      `receipt_cache.py` and `discovery/validation.py`; [RegistryPr]:
      `registry/bot_pr.py` and the scripts `validate_registry.py` and
      `check_auto_registration_merge_eligible.py`.
    - [Parts]: `models/parts.py`; [Fields]: how the models of `models/base.py`
      read and write dictionaries; [Payloads]: `models/payloads.py` and the
      payloads of `models/envelope.py`; [Entities]: `models/entities.py`.
    - [IssueText], [IssueOps]: `src/scripts/lib/` and the scripts
      `process_registration.py`, `process_removal.py`, `process_revocation.py`
      and `validate_revoked.py`: the registry and the revocation list as GitHub
      issues change them; [Telemetry]: `src/scripts/telemetry/`.
    - [OpenApiMapper], [OpenApiHandler], [OpenApiAdapter]: `adapters/openapi/`:
      from a document to capabilities, from a call to an upstream request, and
      the adapter that is made of both.
    - [A2h]: `integrations/a2h.py`; [Frameworks]: `integrations/_base.py`.
    - [LogTrace]: redaction of `observability/logging.py` and
      `utils/sanitization.py`, and `observability/trace_parser.py`.
    - [Client], [ClientFacts]: `transport/client/_send.py` and what it uses of
      `_core.py` and `_helpers.py`: send with retries, back-off and breaker, the
      event stream, batches and the binding of answers; then their theorems;
      [ClientSetup]: the constructor, the context, the connection test and
      `send_batch` of `_core.py`.
    - [DnsSd]: `discovery/dnssd.py`.
    - [Harness]: `testing/compliance.py` and `cli/compliance_check.py`;
      [Compliance]: the validators of schemas, states, service levels and the
      handshake in `src/asap-compliance/`.

    Components meet through interfaces: verification is proved against the
    class [JtiGuard], which the in-memory and the Redis guard implement; clients
    of snapshots against the class [SnapshotStore]; the handlers compose the
    stores of [Identity], [Capabilities] and [Approval] in the state [app]; the
    request pipeline composes [Middleware], [JsonRpc], [EnvelopeGuard],
    [Handlers], [AuditChain] and [Metrics] in the state [server]; the client
    composes [CircuitBreaker], [ManifestCache], [Signing] and [Errors].  The
    WebSocket server runs the stages of [RequestHandler], the middleware of
    [OAuth] is placed by [Server] in front of the routes of [OperatorApi], MCP
    tools and webhooks use [AgentJwt], [Capabilities] and [RateLimit], the
    marketplace client and the registration route use [Signing] and the address
    checks of [Webhook], and the names [OpenApiAdapter] computes configure the
    gate of [SelfAuth].  The SQLite stores are related to the in-memory ones by a
    map from tables to memory, and the scripts of [IssueOps] write the files that
    [RegistryPr] checks and [Market] reads.

    ** Conventions

    An operation of the code is a function of the same name; a store is a
    record or a finite map that the operation takes and returns.  Errors are
    values: [res E A] either raises or returns.  Handlers are computations
    [ST app (res pyexn Response) A], which stop with a response or with an
    exception that escapes.  Readings of the clock, random ids and codes are
    arguments, in the order the code takes them; times are microseconds.
    Python integers are unbounded ([Z]); finite floats are the rationals they
    denote, and sums and differences of floats are exact.  A [string] holds one
    character per code point below 256.

    Concurrency is that of asyncio: tasks interleave only where a task
    suspends.  The methods of the in-memory stores do not suspend, so each is
    one step.  The verification of tokens is modelled with arbitrary work of
    other tasks at each of its awaits on a store ([interleaving]), as custom
    stores may suspend there; the handlers of [Routes] and [Registration] use
    the in-memory stores and run without interruption, on the assumption that
    the request's body has arrived and that a WebAuthn verifier answers at once.
    The pool of [WsPool] and the transport of [WsClient], its `close` included,
    are transition systems whose steps are the sections between two suspension
    points.

    The request pipeline and the client's operations are run one at a time: a
    request sees the state the previous one left.  What a socket, a server or a
    handler answers is an input of the operation, one per attempt, and so are
    the durations that the clock measures.

    Code outside the repository is a parameter with stated laws: the JOSE
    library ([Jose], [JoseLaws]), the conversions between floats and text
    ([PyRuntime]), Redis ([RedisClient]), the `limits` package
    ([RateStrategy]), a WebAuthn verifier ([WebAuthnVerifier]), the answer of
    a human ([ApprovalResult]), the models of Pydantic that the pipeline and the
    discovery parse ([Pydantic], [PydanticLaws], [ManifestModels]), gzip and
    brotli ([Codecs], [CodecLaws]), Ed25519 and the canonical form of JSON
    ([Crypto], [CryptoLaws]), the order in which SQLite scans a table and the
    conversion of its columns ([SqlScan], [Readers]), the reading of a registry
    file ([RegistryModels]), the conversions Pydantic makes of other types
    ([Coercions], [CoercionLaws]), the rendering of a JSON reply, which may
    refuse its content ([Serializer], [PlainSerializer]), the decoder of JSON texts, URL parsers, the
    resolver, `jsonschema`, the parser of rate limits, the checks of the
    `webauthn` package, the parser of OpenAPI documents, and the bodies of the
    handlers and tools ([Runtime]).  The texts of validation errors and of redacted URLs
    occur in messages only and are parameters too.

    ** What the theorems show

    - Authorization, end to end ([System], [Routes], [Registration]): a host's
      requests change only its own agents; a pending agent becomes active or
      gains grants only through an approval of its request, over any sequence
      of events; `execute` succeeds only with a verified token and a grant that
      allows the call; what a registration, a status request and a reactivation
      leave behind.
    - Tokens ([AgentJwt], [ReplayGuard]): a token that verifies was signed,
      valid, unrevoked and unused when it was checked, whatever other tasks did
      meanwhile; verified tokens are single use within the guard's window; a
      token that is created verifies.
    - Identity ([Identity]): revocation is permanent under every interleaving of
      store operations; `touch_if_current` and `save` are compare-and-set; host
      revocation reaches every agent of the host; reactivation and expiry agree.
    - Capabilities and consent ([Capabilities], [Approval]): `check_grant`
      allows exactly what the grant allows; granting at once preserves existing
      grants; the first decision on a request is final; a user code and a human
      answer act only on the payload they were shown.
    - Messages and tasks ([EnvelopeGuard], [TaskMachine], [Snapshot]): stamped
      envelopes are not replayed; tasks follow the lifecycle; the snapshot store
      refines a map and can be rolled back.
    - Economics and transport ([Delegation], [AuditChain], [CircuitBreaker],
      [WsPool], [RateLimit]): the cascade terminates and is sound, and complete
      when no more tokens are issued than its depth limit; the chain is tamper
      evident, up to a collision of SHA-256 among its own entries; one probe per
      open breaker; the pool's counts and bound; the token bucket's rate.
    - Requests ([RequestHandler], [JsonRpcRoute], [RequestMetrics], [Handlers]):
      a handler runs only behind every gate of the pipeline, on the envelope the
      request carries and the gates were passed with; every request has
      one answer bound to its id; each request is counted once; a batch answers
      its members in order; the executor never exceeds its bound.
    - Wire formats ([Errors], [LambdaCodec], [Compression], [Challenge]): a
      client rebuilds the error the server raised; what is encoded is decoded;
      the challenge of a 401 reply reaches the client.
    - Client ([ClientFacts], [Discovery], [Signing], [ManifestCache]): the
      number of attempts and the waiting are bounded; an answer that is returned
      is bound to the envelope that was sent; the parsing of a stream does not
      depend on how the bytes arrive; a manifest that is returned or cached was
      vetted; a signed manifest verifies and a verified one was signed by its
      key; the cache refines a bounded list of unexpired entries.
    - Delegation and operators ([DelegationJwt], [OperatorApi], [Sla]): a token
      that validates was issued, unexpired, unrevoked, within its limits; a
      revocation through the API is final; operator routes answer
      administrators only; aggregated service levels are valid ones.
    - SQLite ([SqliteSnapshot], [SqliteDelegation], [SqliteAudit],
      [SqliteMetering], [SqliteSla]): for what their columns can hold the stores
      answer as the in-memory ones on the mirrored state, date-times of one zone
      are ordered as their texts (usage is compared on events of one offset), and
      a statement that fails half-way through a cascade leaves no trace.
    - Models ([Parts], [Payloads], [Entities]): what a model writes it reads back,
      exactly when the value keeps the promises of its class; the type of a
      payload decides its class however it is spelled.
    - WebSockets and webhooks ([WsClient], [WsServer], [Webhook]): answers reach
      only the request they belong to under every interleaving;
      an envelope is retransmitted within its budget, sends that failed or were
      cancelled apart; a message is handled behind the gates of HTTP and answered
      once; callbacks reach hosts checked in the same attempt only.
    - OAuth2 and the server ([OAuth], [TokenCaches], [Server]): a request that
      passes the middleware carries a token that the keys of the configured
      endpoint verify, held to the issuer and the audience of the configuration,
      or of the environment where the middleware makes its own validator; token
      requests are spaced; the operator surface is guarded in every
      configuration that is accepted.
    - MCP ([McpServer], [McpClient]): a line runs at most the tool it asks for,
      behind the token and the grant as they are when it is served;
      requests are answered once, in order; the client's ids grow, and it takes
      the answers in the order they arrive.
    - Construction ([ClientSetup]): a client that is built speaks TLS unless its
      host is local or the check is off; a batch returns every answer in order or
      raises the error of one of its sends.
    - Local discovery ([DnsSd]): what is advertised is found, as far as it fits its
      record; an agent is on the network while its advertiser is started.
    - Compliance ([Harness], [Compliance]): the full score certifies exactly a
      stated list of requirements; a verdict of the suite means what it says, and
      the suite knows the transitions of the library.
    - WebAuthn ([WebAuthn]): an assertion that succeeds rests on a challenge and
      a key of the same host under every interleaving; over a store that does
      not suspend a challenge is used once.
    - Registry ([Market], [AutoRegistration]): an agent that resolves is listed,
      CA-signed and not revoked; retries are bounded; a pull request is opened
      behind every gate; the receipt cache is bounded, and a registration that
      succeeded is repeated from it.
    - Registry files ([RegistryPr], [IssueText], [IssueOps]): a pull request that
      merges by itself only adds unverified agents; an issue adds or removes only
      the agent of its author, a revocation is never lost, whatever write fails;
      what reaches the files from a form has no code spans, tags or controls.
    - Telemetry ([Telemetry]): tokens go to GitHub only; every page of issues is
      read, and none after the last; what is published conforms to its schema.
    - OpenAPI ([OpenApiMapper], [OpenApiHandler], [OpenApiAdapter]): every
      selected operation becomes one capability; the handler reads back the
      routes the mapper wrote; each argument reaches its declared place; values
      cannot change the structure of the path; what is advertised is served.
    - Integrations ([A2h], [Frameworks]): polling ends and returns answered
      interactions only; tools that share a client keep their agents apart.
    - Redaction ([LogTrace]): a projection onto records without secrets.
    - Metering ([Metering]): the rows of every aggregate add up to the summary
      under the same filter, and the bridge answers as the store it stands for.
    - Limits of the code, as theorems with concrete examples: a Host JWT replayed
      after the guard's window, a padded name that replaces a grant, a token the
      cascade misses, what the audit hash leaves out, the replay of unstamped
      envelopes, a waiting task the pool forgets, a probe that leaves the
      client's breaker half open for ever, sends the breaker does not count,
      batch replies with missing answers, unsigned manifests that skip
      verification, the trust level outside the signature, a `max-age` of zero
      that is cached, atoms the lambda codec does not bring back, keys of
      another issuer in the cache, variables for issuer and audience the server
      ignores, a hot reload that drops metering, usage of several offsets that
      SQLite orders by text, lines that
      stop the MCP server, a challenge two tasks can use, a resolved manifest of
      another agent, unsigned manifests that are registered, OpenAPI parameters
      and body members that are lost, cookies that are not encoded, lists
      redaction does not enter, and human approvals that are never sent.

    ** Bounds and fuel

    Ten loops take fuel.  The cascade runs [cascade_fuel] steps, one more than
    the pops its stack can see (each of the issued tokens pushes its children at
    most once); [revoke_cascade_total] proves that it always ends.  The eviction
    of the replay cache runs as many rounds as it has entries, each of which
    removes one; [evict_sorted] proves that the bound is reached.  The
    substitution of the lambda codec runs at most once per character of its
    text ([sub_fuel]), and the parser of event streams at most once per character
    of its buffer ([drain_fuel]); both lemmas prove that more fuel changes
    nothing.  So does [replace_enough] for the substitution of path parameters,
    which runs at most once per character of the path.  The fuel of schema
    expansion is the depth limit of the code, 50, plus one; the depth of Python's
    stack is a parameter of the resolution of references.  The polling of [A2h]
    reserves one round per interval and two more; [polling_ends] proves that they
    suffice.  The scanners of [IssueText] run at most once per character, as each
    round consumes one; the pages of issues are those GitHub has, and
    [issues_are_read_to_the_end] proves that reading stops with the last; the
    cascade in SQL has the fuel of the one in memory.  The attempts of a send run over the configured retries, and the
    printing of numbers over their size.  Every other recursion is structural.

    ** Not modelled

    Validation messages of rejected bodies, log lines, OpenTelemetry spans and
    the trace viewer, the interleaving of concurrent sends, the reconnect timing of
    the WebSocket client, the rounding of floats, TLS contexts, the
    classes of agent frameworks, the other commands of the command line, the MCP
    profile of the compliance suite, and the applications, benchmarks and examples
    outside the library: they are input and output
    through third-party packages, or test and demonstrate what is modelled.  The
    capability registry is taken as configured. *)

From Stdlib Require Import ZArith Lia.
From stdpp Require Import base tactics list gmap strings sorting.

Declare Scope asap_scope.
Delimit Scope asap_scope with asap.

(** ** Python exceptions the modelled code raises or lets through. *)
Inductive pyexn : Type :=
| TypeError (msg : string)
| ValueError (msg : string)
| KeyError (msg : string)
| AttributeError (msg : string)
| RuntimeError (msg : string)
| OverflowError (msg : string)
| ValidationError (msg : string).

#[export] Instance pyexn_eq_dec : EqDecision pyexn.
Proof. solve_decision. Defined.

(** ** Outcomes: a call either returns or raises. *)
Inductive res (E A : Type) : Type :=
| Raise (e : E)
| Ret (a : A).
Arguments Raise {E A} e.
Arguments Ret {E A} a.

Definition rbind {E A B} (m : res E A) (k : A → res E B) : res E B :=
  match m with Raise e => Raise e | Ret a => k a end.

Definition rmap {E A B} (f : A → B) (m : res E A) : res E B :=
  rbind m (λ a, Ret (f a)).

Notation "'let!' x ':=' m 'in' k" := (rbind m (λ x, k))
  (at level 10, x name, m at level 100, k at level 200) : asap_scope.

#[export] Instance res_eq_dec {E A} `{EqDecision E, EqDecision A} : EqDecision (res E A).
Proof. solve_decision. Defined.

(** ** State passing with early return.

    A handler of the server reads and writes the application state and may
    return a response early; [ST S R A] is a computation over a state [S] that
    either stops with a response [R] or continues with a value of type [A]. *)
Definition ST (S R A : Type) : Type := S → S * res R A.

Definition st_ret {S R A} (a : A) : ST S R A := λ s, (s, Ret a).
Definition st_stop {S R A} (r : R) : ST S R A := λ s, (s, Raise r).
Definition st_bind {S R A B} (m : ST S R A) (k : A → ST S R B) : ST S R B :=
  λ s, match m s with
       | (s', Raise r) => (s', Raise r)
       | (s', Ret a) => k a s'
       end.
Definition st_get {S R} : ST S R S := λ s, (s, Ret s).
Definition st_gets {S R A} (f : S → A) : ST S R A := λ s, (s, Ret (f s)).
Definition st_modify {S R} (f : S → S) : ST S R unit := λ s, (f s, Ret tt).
Definition st_lift {S R A} (r : res R A) : ST S R A := λ s, (s, r).
Definition st_when {S R} (b : bool) (m : ST S R unit) : ST S R unit :=
  if b then m else st_ret tt.

Notation "'do!' x '<-' m 'in' k" := (st_bind m (λ x, k))
  (at level 10, x name, m at level 100, k at level 200) : asap_scope.
Notation "'run!' m 'in' k" := (st_bind m (λ _, k))
  (at level 10, m at level 100, k at level 200) : asap_scope.

(** A computation that reaches its end did so through each of its steps. *)
Lemma st_bind_ret {S R A B} (m : ST S R A) (k : A → ST S R B) s s' b :
  st_bind m k s = (s', Ret b) ↔ ∃ s1 a, m s = (s1, Ret a) ∧ k a s1 = (s', Ret b).
Proof.
  unfold st_bind. destruct (m s) as [s1 [r|a]]; split; intros Hx; try done; eauto.
  - by destruct Hx as (? & ? & ? & _).
  - by destruct Hx as (? & ? & [= -> ->] & ?).
Qed.

(** Destruct the run of a [st_bind] that reached its end. *)
Tactic Notation "bind_inv" hyp(H) "as" simple_intropattern(pat) :=
  rewrite st_bind_ret in H; destruct H as pat.

Lemma st_when_ret {S R} (c : bool) (m : ST S R unit) s s' u :
  st_when c m s = (s', Ret u) ↔ if c then m s = (s', Ret u) else s' = s.
Proof. destruct c; simpl; [done|]. unfold st_ret. destruct u. split; [by intros [= ->]|by intros ->]. Qed.

(** What holds of the last state of a [st_bind] holds of the state where its
    first part stops, or of the last state of the rest. *)
Lemma st_bind_fst {S R A B} (Q : S → Prop) (m : ST S R A) (k : A → ST S R B) s :
  (∀ s1 r, m s = (s1, Raise r) → Q s1) → (∀ s1 a, m s = (s1, Ret a) → Q (fst (k a s1))) →
  Q (fst (st_bind m k s)).
Proof. intros Hr Hk. unfold st_bind. destruct (m s) as [s1 [r|a]]; [by eapply Hr|by apply Hk]. Qed.

(** A computation that leaves a view of the state alone. *)
Definition st_keeps {S R A B} (view : S → B) (m : ST S R A) : Prop := ∀ s, view (fst (m s)) = view s.

Section Keeps.
  Context {S R B : Type} (view : S → B).

Lemma keeps_ret {A} (a : A) : st_keeps view (st_ret (R := R) a).
Proof. done. Qed.
Lemma keeps_stop {A} (r : R) : st_keeps view (st_stop (A := A) r).
Proof. done. Qed.
Lemma keeps_get : st_keeps view (st_get (R := R)).
Proof. done. Qed.
Lemma keeps_gets {A} (f : S → A) : st_keeps view (st_gets (R := R) f).
Proof. done. Qed.
Lemma keeps_when c (m : ST S R unit) : st_keeps view m → st_keeps view (st_when c m).
Proof. by destruct c. Qed.
Lemma keeps_modify (f : S → S) : (∀ s, view (f s) = view s) → st_keeps view (st_modify (R := R) f).
Proof. done. Qed.
Lemma keeps_bind {A A'} (m : ST S R A) (k : A → ST S R A') :
  st_keeps view m → (∀ a, st_keeps view (k a)) → st_keeps view (st_bind m k).
Proof.
  intros Hm Hk s. unfold st_bind. specialize (Hm s). destruct (m s) as [s1 [r|a]]; [done|].
  by rewrite (Hk a s1).
Qed.
End Keeps.

Ltac keeps_step :=
  match goal with
  | |- st_keeps _ (st_bind _ _) => apply keeps_bind; [|intros ?]
  | |- st_keeps _ (match ?x with _ => _ end) => destruct x
  | |- st_keeps _ (st_when _ _) => apply keeps_when
  | |- st_keeps _ _ =>
      first [apply keeps_ret | apply keeps_stop | apply keeps_get | apply keeps_gets
            | solve [auto with asap]]
  end.

(** A computation that preserves a property of the state, whether it stops or
    goes on. *)
Definition st_inv {S R A} (P : S → Prop) (m : ST S R A) : Prop := ∀ s, P s → P (fst (m s)).

Section Inv.
  Context {S R : Type} (P : S → Prop).

Lemma inv_ret {A} (a : A) : st_inv P (st_ret (R := R) a).
Proof. by intros s Hs. Qed.
Lemma inv_stop {A} (r : R) : st_inv P (st_stop (A := A) r).
Proof. by intros s Hs. Qed.
Lemma inv_get : st_inv P (st_get (R := R)).
Proof. by intros s Hs. Qed.
Lemma inv_gets {A} (f : S → A) : st_inv P (st_gets (R := R) f).
Proof. by intros s Hs. Qed.
Lemma inv_when c (m : ST S R unit) : st_inv P m → st_inv P (st_when c m).
Proof. destruct c; [done|]. intros _. apply inv_ret. Qed.
Lemma inv_modify (f : S → S) : (∀ s, P s → P (f s)) → st_inv P (st_modify (R := R) f).
Proof. intros Hf s. apply Hf. Qed.
Lemma inv_bind {A A'} (m : ST S R A) (k : A → ST S R A') :
  st_inv P m → (∀ a, st_inv P (k a)) → st_inv P (st_bind m k).
Proof.
  intros Hm Hk s Hs. unfold st_bind. specialize (Hm s Hs). destruct (m s) as [s1 [r|a]]; [done|].
  by apply Hk.
Qed.
Lemma inv_get_bind {A} (k : S → ST S R A) :
  (∀ s, P s → P (fst (k s s))) → st_inv P (st_bind st_get k).
Proof. intros Hk s Hs. by apply Hk. Qed.
End Inv.

Ltac inv_step :=
  match goal with
  | |- st_inv _ (st_bind _ _) => apply inv_bind; [|intros ?]
  | |- st_inv _ (match ?x with _ => _ end) => destruct x
  | |- st_inv _ (st_when _ _) => apply inv_when
  | |- st_inv _ _ =>
      first [apply inv_ret | apply inv_stop | apply inv_get | apply inv_gets
            | solve [auto with asap]]
  end.

(** [from_option]-style access used by `x or default` on optional values. *)
Definition is_none {A} (o : option A) : bool :=
  match o with None => true | Some _ => false end.
Definition is_some {A} (o : option A) : bool := negb (is_none o).

(** ** Automation *)
Create HintDb asap.

(** Case analysis on the scrutinee of a match of the goal or of a hypothesis,
    keeping its equation and discarding impossible branches. *)
Ltac case_step :=
  match goal with
  | |- context [match ?x with _ => _ end] =>
      lazymatch x with context [match _ with _ => _ end] => fail | _ => destruct x eqn:? end
  end.
Ltac case_step_in H :=
  match type of H with
  | context [match ?x with _ => _ end] =>
      lazymatch x with context [match _ with _ => _ end] => fail | _ => destruct x eqn:? end
  end.
Ltac cases := repeat (case_step; simplify_eq/=).
Ltac cases_in H := repeat (case_step_in H; simplify_eq/=).

(** Boolean tests become the propositions they decide. *)
Ltac reflect_step :=
  match goal with
  | H : (_ && _)%bool = true |- _ => apply andb_prop in H as [? ?]
  | H : (_ && _)%bool = false |- _ => apply andb_false_iff in H
  | H : (_ || _)%bool = true |- _ => apply orb_true_iff in H
  | H : (_ || _)%bool = false |- _ => apply orb_false_iff in H as [? ?]
  | H : negb _ = true |- _ => apply negb_true_iff in H
  | H : negb _ = false |- _ => apply negb_false_iff in H
  | H : bool_decide _ = true |- _ => apply bool_decide_eq_true in H
  | H : bool_decide _ = false |- _ => apply bool_decide_eq_false in H
  | H : Z.leb _ _ = true |- _ => apply Z.leb_le in H
  | H : Z.leb _ _ = false |- _ => apply Z.leb_gt in H
  | H : Z.ltb _ _ = true |- _ => apply Z.ltb_lt in H
  | H : Z.ltb _ _ = false |- _ => apply Z.ltb_ge in H
  | H : Z.eqb _ _ = true |- _ => apply Z.eqb_eq in H
  | H : Z.eqb _ _ = false |- _ => apply Z.eqb_neq in H
  | H : String.eqb _ _ = true |- _ => apply String.eqb_eq in H
  | H : String.eqb _ _ = false |- _ => apply String.eqb_neq in H
  | H : Nat.leb _ _ = true |- _ => apply Nat.leb_le in H
  | H : Nat.leb _ _ = false |- _ => apply Nat.leb_gt in H
  | H : Nat.ltb _ _ = true |- _ => apply Nat.ltb_lt in H
  | H : Nat.ltb _ _ = false |- _ => apply Nat.ltb_ge in H
  | H : Nat.eqb _ _ = true |- _ => apply Nat.eqb_eq in H
  | H : Nat.eqb _ _ = false |- _ => apply Nat.eqb_neq in H
  | H : is_none ?x = true |- _ => destruct x eqn:?; cbn in H; [discriminate H | clear H]
  | H : is_none ?x = false |- _ => destruct x eqn:?; cbn in H; [clear H | discriminate H]
  | H : is_some ?x = true |- _ => destruct x eqn:?; cbn in H; [clear H | discriminate H]
  | H : is_some ?x = false |- _ => destruct x eqn:?; cbn in H; [discriminate H | clear H]
  end.
Ltac reflect := repeat reflect_step.

(** The usual finish: reflect booleans, simplify equations, decide arithmetic. *)
Ltac crush := repeat (reflect; simplify_eq/=; destruct_and?); try done; try lia; eauto with asap.

(** ** Generic lemmas *)

Lemma filter_idemp {A} (P : A → Prop) `{∀ x, Decision (P x)} (l : list A) :
  filter P (filter P l) = filter P l.
Proof.
  induction l as [|x l IH]; [done|].
  rewrite filter_cons. case_decide; [|done].
  rewrite filter_cons_True by done. by rewrite IH.
Qed.

Lemma filter_all {A} (P : A → Prop) `{∀ x, Decision (P x)} (l : list A) :
  Forall P l → filter P l = l.
Proof. induction 1; [done|]. rewrite filter_cons_True by done. by f_equal. Qed.

Lemma NoDup_app_single {A} (l : list A) (x : A) : NoDup l → x ∉ l → NoDup (l ++ [x]).
Proof.
  intros Hl Hx. apply NoDup_app. split_and!; [done| |apply NoDup_singleton].
  intros y Hy ->%list_elem_of_singleton. done.
Qed.

Lemma existsb_elem_of {A} (f : A → bool) (l : list A) :
  existsb f l = true ↔ ∃ x, x ∈ l ∧ f x = true.
Proof.
  rewrite existsb_exists. split; intros (x & Hx & ?); exists x; split; try done;
    by apply list_elem_of_In.
Qed.

Lemma forallb_elem_of {A} (f : A → bool) (l : list A) :
  forallb f l = true ↔ ∀ x, x ∈ l → f x = true.
Proof.
  rewrite forallb_forall. split; intros Hf x Hx; apply Hf; by apply list_elem_of_In.
Qed.

Lemma StronglySorted_app_r {A} (R : A → A → Prop) l1 l2 :
  StronglySorted R (l1 ++ l2) → StronglySorted R l2.
Proof. induction l1; [done|]. simpl. intros [? _]%StronglySorted_inv. auto. Qed.

Lemma StronglySorted_snoc {A} (R : A → A → Prop) l x :
  StronglySorted R l → Forall (λ y, R y x) l → StronglySorted R (l ++ [x]).
Proof.
  induction 1 as [|y l Hs IH Hall]; intros Hx; simpl; [repeat constructor|].
  apply Forall_cons in Hx as [Hy Hx]. constructor; [by apply IH|].
  apply Forall_app. split; [done|]. by constructor.
Qed.

(** Membership in a list of strings, as Python's `in` on a list of str. *)
Definition str_in (s : string) (l : list string) : bool := bool_decide (s ∈ l).

Lemma str_in_true s l : str_in s l = true ↔ s ∈ l.
Proof. apply bool_decide_eq_true. Qed.
