(* ===== verification/PyValue.v ===== *)
(** * Python strings, JSON values and insertion-ordered dictionaries

    The parts of the Python language and standard library the modelled code
    relies on: `str.strip`, `str.lower`, `str.startswith`, `in` on strings,
    JSON values with Python equality and ordering, and dictionaries that keep
    insertion order.

    A [string] stands for a Python `str` whose code points are below 256, one
    character per code point.  Finite floats are the rationals they denote
    (Python compares `int` and `float` exactly); [FInf] and [FNan] are the
    values `json.loads` accepts besides the finite ones. *)

From Stdlib Require Import ZArith QArith Lia Ascii String.
From stdpp Require Import base tactics list gmap strings sorting.
From S2P Require Import Prelude.
Open Scope Z_scope.
Open Scope string_scope.
Set Warnings "-register-all".

(** ** Strings *)
Module PyStr.

Definition code (c : ascii) : nat := nat_of_ascii c.

(** Code points below 256 that `str.strip()` removes. *)
Definition is_space (c : ascii) : bool :=
  let n := code c in
  ((9 <=? n)%nat && (n <=? 13)%nat) || ((28 <=? n)%nat && (n <=? 32)%nat)
  || (n =? 133)%nat || (n =? 160)%nat.

Fixpoint lstrip (s : string) : string :=
  match s with
  | EmptyString => EmptyString
  | String c s' => if is_space c then lstrip s' else s
  end.

Fixpoint rstrip (s : string) : string :=
  match s with
  | EmptyString => EmptyString
  | String c s' =>
      match rstrip s' with
      | EmptyString => if is_space c then EmptyString else String c EmptyString
      | s'' => String c s''
      end
  end.

Definition strip (s : string) : string := rstrip (lstrip s).

(** Truth value of a `str`: non-empty. *)
Definition truthy (s : string) : bool :=
  match s with EmptyString => false | String _ _ => true end.

(** `bool(s.strip())` *)
Definition nonblank (s : string) : bool := truthy (strip s).

Definition lower_char (c : ascii) : ascii :=
  let n := code c in
  if ((65 <=? n)%nat && (n <=? 90)%nat)
     || ((192 <=? n)%nat && (n <=? 222)%nat && negb (n =? 215)%nat)
  then ascii_of_nat (n + 32) else c.

Fixpoint lower (s : string) : string :=
  match s with
  | EmptyString => EmptyString
  | String c s' => String (lower_char c) (lower s')
  end.

Definition startswith (s p : string) : bool := String.prefix p s.

(** `sub in s` on strings. *)
Fixpoint contains (s sub : string) : bool :=
  String.prefix sub s ||
  match s with EmptyString => false | String _ s' => contains s' sub end.

(** `s[n:]` for a non-negative [n]. *)
Fixpoint drop (n : nat) (s : string) : string :=
  match n, s with
  | O, _ => s
  | _, EmptyString => EmptyString
  | S n', String _ s' => drop n' s'
  end.

(** `s.split(sep)` for a one-character separator. *)
Fixpoint split_aux (sep : ascii) (acc : string) (s : string) : list string :=
  match s with
  | EmptyString => [acc]
  | String c s' =>
      if Ascii.eqb c sep then acc :: split_aux sep EmptyString s'
      else split_aux sep (acc ++ String c EmptyString) s'
  end.
Definition split (sep : ascii) (s : string) : list string := split_aux sep EmptyString s.

(** `s.rstrip(ch)` for one character. *)
Fixpoint rstrip_char (ch : ascii) (s : string) : string :=
  match s with
  | EmptyString => EmptyString
  | String c s' =>
      match rstrip_char ch s' with
      | EmptyString => if Ascii.eqb c ch then EmptyString else String c EmptyString
      | s'' => String c s''
      end
  end.

Definition digit (n : N) : ascii := ascii_of_N (48 + n)%N.

Fixpoint dec_aux (fuel : nat) (n : N) (acc : string) : string :=
  match fuel with
  | O => acc
  | S fuel' =>
      let acc' := String (digit (n mod 10)) acc in
      if (n / 10 =? 0)%N then acc' else dec_aux fuel' (n / 10) acc'
  end.

(** Decimal notation of a natural number; the number of binary digits bounds
    the number of decimal ones. *)
Definition dec_N (n : N) : string := dec_aux (S (N.size_nat n)) n EmptyString.

(** `str(z)` of an `int`. *)
Definition dec_Z (z : Z) : string :=
  match z with
  | Z0 => "0"
  | Zpos p => dec_N (Npos p)
  | Zneg p => String "-" (dec_N (Npos p))
  end.

(** Left padding with zeros, `f"{n:0{w}d}"` for a natural number. *)
Definition pad0 (w : nat) (s : string) : string :=
  Nat.iter (w - String.length s) (String "0") s.

Lemma strip_empty : strip "" = "".
Proof. reflexivity. Qed.

Lemma nonblank_truthy s : nonblank s = true → truthy s = true.
Proof. by destruct s. Qed.

End PyStr.

Lemma append_cons c a b : String c a ++ b = String c (a ++ b).
Proof. reflexivity. Qed.
Lemma append_assoc a b c : (a ++ b) ++ c = a ++ (b ++ c).
Proof. induction a as [|x a IH]; [done|]. by rewrite !append_cons, IH. Qed.
Lemma append_nil a : a ++ "" = a.
Proof. induction a as [|x a IH]; [done|]. by rewrite append_cons, IH. Qed.

Lemma length_append a b : String.length (a ++ b) = (String.length a + String.length b)%nat.
Proof. induction a as [|c a IH]; [done|]. rewrite append_cons. simpl. by rewrite IH. Qed.

(** ** Numbers and JSON values *)
Inductive pyfloat : Type :=
| FFin (q : Q)
| FInf (negative : bool)
| FNan.

Definition qlt_bool (a b : Q) : bool := negb (Qle_bool b a).

(** `a < b` on numbers; every comparison with NaN is false. *)
Definition num_lt (a b : pyfloat) : bool :=
  match a, b with
  | FNan, _ | _, FNan => false
  | FFin p, FFin q => qlt_bool p q
  | FInf s, FInf t => s && negb t
  | FInf s, FFin _ => s
  | FFin _, FInf t => negb t
  end.

Definition num_eq (a b : pyfloat) : bool :=
  match a, b with
  | FFin p, FFin q => Qeq_bool p q
  | FInf s, FInf t => Bool.eqb s t
  | _, _ => false
  end.

Inductive json : Type :=
| JNull
| JBool (b : bool)
| JInt (z : Z)
| JFloat (f : pyfloat)
| JStr (s : string)
| JList (l : list json)
| JObj (d : list (string * json)).

Section JsonInd.
  Variable P : json → Prop.
  Hypothesis Hnull : P JNull.
  Hypothesis Hbool : ∀ b, P (JBool b).
  Hypothesis Hint : ∀ z, P (JInt z).
  Hypothesis Hfloat : ∀ f, P (JFloat f).
  Hypothesis Hstr : ∀ s, P (JStr s).
  Hypothesis Hlist : ∀ l, Forall P l → P (JList l).
  Hypothesis Hobj : ∀ d, Forall (λ kv, P kv.2) d → P (JObj d).

Fixpoint json_nested_ind (j : json) : P j :=
  match j with
  | JNull => Hnull
  | JBool b => Hbool b
  | JInt z => Hint z
  | JFloat f => Hfloat f
  | JStr s => Hstr s
  | JList l =>
      Hlist l ((fix go l : Forall P l :=
        match l with
        | [] => Forall_nil_2 _
        | x :: l' => Forall_cons_2 _ _ _ (json_nested_ind x) (go l')
        end) l)
  | JObj d =>
      Hobj d ((fix go d : Forall (λ kv, P kv.2) d :=
        match d with
        | [] => Forall_nil_2 _
        | kv :: d' => Forall_cons_2 _ _ _ (json_nested_ind kv.2) (go d')
        end) d)
  end.
End JsonInd.

(** The value of an instance of `int` or `float` (`bool` is a subclass of
    `int`), for `isinstance(x, (int, float))` and numeric comparison. *)
Definition num_of (j : json) : option pyfloat :=
  match j with
  | JBool b => Some (FFin (if b then 1 else 0))
  | JInt z => Some (FFin (inject_Z z))
  | JFloat f => Some f
  | _ => None
  end.

(** First value of a key in an association list. *)
Fixpoint assoc {A} (k : string) (d : list (string * A)) : option A :=
  match d with
  | [] => None
  | (k', v) :: d' => if String.eqb k k' then Some v else assoc k d'
  end.

(** `a == b`. *)
Fixpoint py_eq (a b : json) {struct a} : bool :=
  match a, b with
  | JNull, JNull => true
  | JStr s, JStr t => String.eqb s t
  | JList l, JList m =>
      (fix go (l m : list json) : bool :=
         match l, m with
         | [], [] => true
         | x :: l', y :: m' => py_eq x y && go l' m'
         | _, _ => false
         end) l m
  | JObj d, JObj e =>
      Nat.eqb (length d) (length e) &&
      forallb (λ kv, match assoc (fst kv) e with
                     | Some v => py_eq (snd kv) v
                     | None => false
                     end) d
  | (JBool _ | JInt _ | JFloat _), (JBool _ | JInt _ | JFloat _) =>
      match num_of a, num_of b with
      | Some x, Some y => num_eq x y
      | _, _ => false
      end
  | _, _ => false
  end.

(** Truth value of a JSON value. *)
Definition j_truthy (j : json) : bool :=
  match j with
  | JNull => false
  | JBool b => b
  | JInt z => negb (z =? 0)%Z
  | JFloat (FFin q) => negb (Qeq_bool q 0)
  | JFloat _ => true
  | JStr s => PyStr.truthy s
  | JList l => match l with [] => false | _ => true end
  | JObj d => match d with [] => false | _ => true end
  end.

(** `x in c`: membership by equality in a list, substring in a string, key in
    a dictionary; anything else is not a container.  A list or a dictionary is
    not hashable, so testing it as a key raises. *)
Definition py_in (x c : json) : res pyexn bool :=
  match c with
  | JList l => Ret (existsb (py_eq x) l)
  | JStr s =>
      match x with
      | JStr t => Ret (PyStr.contains s t)
      | _ => Raise (TypeError "'in <string>' requires string as left operand")
      end
  | JObj d =>
      match x with
      | JStr t => Ret (match assoc t d with Some _ => true | None => false end)
      | JList _ | JObj _ => Raise (TypeError "unhashable type")
      | _ => Ret false
      end
  | _ => Raise (TypeError "argument is not iterable")
  end.

(** `a < b` between a number and any value. *)
Definition py_lt_num (a : pyfloat) (b : json) : res pyexn bool :=
  match num_of b with
  | Some y => Ret (num_lt a y)
  | None => Raise (TypeError "'<' not supported between instances")
  end.

Definition py_gt_num (a : pyfloat) (b : json) : res pyexn bool :=
  match num_of b with
  | Some y => Ret (num_lt y a)
  | None => Raise (TypeError "'>' not supported between instances")
  end.

(** `d.get(k)` on a JSON object: a missing key gives None, like a null. *)
Definition j_get (k : string) (d : list (string * json)) : json :=
  match assoc k d with Some v => v | None => JNull end.

Definition as_str (j : json) : option string :=
  match j with JStr s => Some s | _ => None end.
Definition as_obj (j : json) : option (list (string * json)) :=
  match j with JObj d => Some d | _ => None end.

(** ** Printing: `repr` and `str` of JSON values

    [fr] is the interpreter's `repr` of a float. *)
Definition hexdigit (n : nat) : ascii :=
  if (n <? 10)%nat then ascii_of_nat (48 + n) else ascii_of_nat (87 + n).

(** Code points below 256 that `str.isprintable` refuses. *)
Definition unprintable (n : nat) : bool :=
  (n <? 32)%nat || ((127 <=? n)%nat && (n <=? 160)%nat) || (n =? 173)%nat.

Definition repr_char (quote c : ascii) : string :=
  let n := PyStr.code c in
  if Ascii.eqb c quote || Ascii.eqb c "\" then String "\" (String c EmptyString)
  else if (n =? 10)%nat then "\n"
  else if (n =? 13)%nat then "\r"
  else if (n =? 9)%nat then "\t"
  else if unprintable n then
    "\x" ++ String (hexdigit (n / 16)) (String (hexdigit (n mod 16)) EmptyString)
  else String c EmptyString.

Fixpoint repr_chars (quote : ascii) (s : string) : string :=
  match s with
  | EmptyString => EmptyString
  | String c s' => repr_char quote c ++ repr_chars quote s'
  end.

Definition squote : ascii := ascii_of_nat 39.
Definition dquote : ascii := ascii_of_nat 34.

(** `repr(s)`: single quotes unless the text has one and no double quote. *)
Definition repr_str (s : string) : string :=
  let q :=
    if PyStr.contains s (String squote EmptyString)
       && negb (PyStr.contains s (String dquote EmptyString))
    then dquote else squote in
  String q (repr_chars q s ++ String q EmptyString).

Fixpoint py_repr (fr : pyfloat → string) (j : json) : string :=
  match j with
  | JNull => "None"
  | JBool b => if b then "True" else "False"
  | JInt z => PyStr.dec_Z z
  | JFloat f => fr f
  | JStr s => repr_str s
  | JList l => "[" ++ String.concat ", " (map (py_repr fr) l) ++ "]"
  | JObj d =>
      "{" ++ String.concat ", " (map (λ kv, repr_str (fst kv) ++ ": " ++ py_repr fr (snd kv)) d)
      ++ "}"
  end.

Definition py_str (fr : pyfloat → string) (j : json) : string :=
  match j with JStr s => s | _ => py_repr fr j end.

(** `type(x).__name__` *)
Definition type_name (j : json) : string :=
  match j with
  | JNull => "NoneType"
  | JBool _ => "bool"
  | JInt _ => "int"
  | JFloat _ => "float"
  | JStr _ => "str"
  | JList _ => "list"
  | JObj _ => "dict"
  end.

(** ** Dates

    A `datetime`: wall-clock microseconds, without zone or with its offset
    from UTC. *)
Inductive pydatetime : Type :=
| Naive (us : Z)
| Aware (us : Z) (utc_offset : Z).

(** `a > b` where [a] is an aware reading of the clock in UTC. *)
Definition utc_gt (a : Z) (b : pydatetime) : res pyexn bool :=
  match b with
  | Naive _ => Raise (TypeError "can't compare offset-naive and offset-aware datetimes")
  | Aware us off => Ret (us - off <? a)%Z
  end.

(** ** Insertion-ordered dictionaries

    A Python `dict` whose iteration order is observable: assignment to a
    present key keeps its position, a new key goes last. *)
Close Scope string_scope.
Module PyDict.
Section Dict.
  Context {K V : Type} `{EqDecision K}.
  Implicit Types (d : list (K * V)) (k : K) (v : V).

Fixpoint get k d : option V :=
  match d with
  | [] => None
  | (k', v) :: d' => if decide (k = k') then Some v else get k d'
  end.

Fixpoint set k v d : list (K * V) :=
  match d with
  | [] => [(k, v)]
  | (k', v') :: d' =>
      if decide (k = k') then (k', v) :: d' else (k', v') :: set k v d'
  end.

Fixpoint del k d : list (K * V) :=
  match d with
  | [] => []
  | (k', v') :: d' => if decide (k = k') then d' else (k', v') :: del k d'
  end.

Definition mem k d : bool := is_some (get k d).

Definition keys d : list K := d.*1.

Definition wf d : Prop := NoDup (keys d).

Lemma get_set_eq k v d : get k (set k v d) = Some v.
Proof. induction d as [|[k' v'] d IH]; simpl; repeat (case_decide; simplify_eq/=); done. Qed.

Lemma get_set_ne k k' v d : k ≠ k' → get k (set k' v d) = get k d.
Proof.
  intros Hne. induction d as [|[k1 v1] d IH]; simpl; repeat (case_decide; simplify_eq/=); done.
Qed.

Lemma get_None k d : get k d = None ↔ k ∉ keys d.
Proof.
  unfold keys. induction d as [|[k' v'] d IH]; simpl.
  - split; [intros _; apply not_elem_of_nil|done].
  - rewrite not_elem_of_cons. case_decide; subst; [split; [done|by intros [? _]]|].
    rewrite IH. split; [done|by intros [_ ?]].
Qed.

Lemma get_Some_elem k v d : get k d = Some v → (k, v) ∈ d.
Proof.
  induction d as [|[k' v'] d IH]; simpl; [done|].
  case_decide; intros ?; simplify_eq; [by left|right; auto].
Qed.

Lemma elem_get k v d : wf d → (k, v) ∈ d → get k d = Some v.
Proof.
  unfold wf, keys. induction d as [|[k' v'] d IH]; simpl; [by intros _ ?%elem_of_nil|].
  intros [Hn Hd]%NoDup_cons [?|Hin]%elem_of_cons; simplify_eq; [by rewrite decide_True|].
  case_decide; subst; [|auto]. destruct Hn. apply list_elem_of_fmap. by exists (k', v).
Qed.

Lemma keys_set_in k v d : k ∈ keys d → keys (set k v d) = keys d.
Proof.
  unfold keys. induction d as [|[k' v'] d IH]; simpl; [by intros ?%elem_of_nil|].
  intros [->|Hin]%elem_of_cons; [by rewrite decide_True by done|].
  case_decide; simpl; [done|]. f_equal. by apply IH.
Qed.

Lemma keys_set_new k v d : k ∉ keys d → keys (set k v d) = keys d ++ [k].
Proof.
  unfold keys. induction d as [|[k' v'] d IH]; simpl; [done|].
  intros [Hne Hin]%not_elem_of_cons. rewrite decide_False by done. simpl. f_equal. by apply IH.
Qed.

Lemma wf_nil : wf [].
Proof. constructor. Qed.

Lemma wf_set k v d : wf d → wf (set k v d).
Proof.
  unfold wf. intros Hd. destruct (decide (k ∈ keys d)).
  - by rewrite keys_set_in.
  - rewrite keys_set_new by done. by apply NoDup_app_single.
Qed.

Lemma del_sublist k d : sublist (del k d) d.
Proof.
  induction d as [|[k' v'] d IH]; simpl; [constructor|].
  case_decide; [by constructor|by constructor].
Qed.

Lemma wf_del k d : wf d → wf (del k d).
Proof.
  unfold wf, keys. intros Hd. eapply sublist_NoDup; [done|].
  apply fmap_sublist, del_sublist.
Qed.

Lemma get_del_ne k k' d : k ≠ k' → get k (del k' d) = get k d.
Proof.
  intros Hne. induction d as [|[k1 v1] d IH]; simpl; repeat (case_decide; simplify_eq/=); done.
Qed.

Lemma del_subseteq k d : del k d ⊆ d.
Proof.
  induction d as [|[k' v] d IH]; [done|]. cbn. case_decide; set_solver.
Qed.

Lemma get_del_eq k d : wf d → get k (del k d) = None.
Proof.
  unfold wf, keys. induction d as [|[k' v'] d IH]; simpl; [done|].
  intros [Hn Hd]%NoDup_cons. case_decide; subst; [by apply get_None|].
  simpl. rewrite decide_False by done. auto.
Qed.

Lemma get_Permutation k d d' : wf d → d ≡ₚ d' → get k d = get k d'.
Proof.
  intros Hd Hp. assert (Hd' : wf d') by (unfold wf, keys in *; by rewrite <- Hp).
  destruct (get k d) as [v|] eqn:E; symmetry.
  - apply elem_get; [done|]. rewrite <- Hp. by apply get_Some_elem.
  - apply get_None. apply get_None in E. unfold keys in *. by rewrite <- Hp.
Qed.

Lemma set_Permutation k v d : wf d → set k v d ≡ₚ base.filter (λ kv, kv.1 ≠ k) d ++ [(k, v)].
Proof.
  unfold wf, keys. induction d as [|[k' v'] d IH]; simpl; [done|]. intros [Hn Hd]%NoDup_cons.
  rewrite filter_cons. case_decide; subst; simpl.
  - rewrite decide_False by naive_solver. rewrite (Permutation_app_comm _ [_]). simpl. f_equiv.
    rewrite (filter_all _ d); [done|]. apply Forall_forall. intros [k v0] Hin Heq. simpl in *. subst.
    apply Hn, list_elem_of_fmap. by exists (k', v0).
  - rewrite decide_True by naive_solver. simpl. by rewrite IH.
Qed.

Lemma length_set_new k v d : get k d = None → length (set k v d) = S (length d).
Proof.
  intros Hk%get_None.
  rewrite <- (length_fmap fst (set k v d)), <- (length_fmap fst d).
  pose proof (keys_set_new k v d Hk) as Hs. unfold keys in Hs. rewrite Hs, length_app. simpl. lia.
Qed.

End Dict.

Arguments wf {K V} d.
Arguments keys {K V} d.

End PyDict.

(** ** Dictionaries whose entries all have a property *)
Section Entries.
  Context {K V : Type} `{EqDecision K} (P : K * V → Prop).

Lemma Forall_dict_set k v d : P (k, v) → Forall P d → Forall P (PyDict.set k v d).
Proof.
  intros Hk. induction 1 as [|[k' v'] d Hp Hd IH]; cbn [PyDict.set]; [by constructor|].
  case_decide; subst; by constructor.
Qed.

Lemma Forall_dict_del k d : Forall P d → Forall P (PyDict.del k d).
Proof. induction 1 as [|[k' v'] d Hp Hd IH]; cbn [PyDict.del]; [constructor|]. case_decide; [done|by constructor]. Qed.

Lemma Forall_dict_get k v d : Forall P d → PyDict.get k d = Some v → P (k, v).
Proof. intros Hd Hg%PyDict.get_Some_elem. rewrite Forall_forall in Hd. by apply Hd. Qed.

End Entries.

Lemma assoc_get {A} k (d : list (string * A)) : assoc k d = PyDict.get k d.
Proof. induction d as [|[k' v] d IH]; cbn; [done|]. destruct (String.eqb_spec k k'); case_decide; done. Qed.

#[export] Hint Resolve PyDict.wf_nil PyDict.wf_set PyDict.wf_del : asap.

(** ** Stable sorting: `sorted(l, key=...)` with the order of the keys *)
Module PySort.
Section Sort.
  Context {A : Type} (R : A → A → Prop) `{∀ x y, Decision (R x y)}.

(** An element goes before the first one that is not smaller; inserting from
    the right keeps the order of equal elements. *)
Fixpoint ins (x : A) (l : list A) : list A :=
  match l with
  | [] => [x]
  | y :: l' => if decide (R x y) then x :: l else y :: ins x l'
  end.

Definition sorted (l : list A) : list A := foldr ins [] l.

Lemma ins_Permutation x l : ins x l ≡ₚ x :: l.
Proof.
  induction l as [|y l IH]; simpl; [done|]. case_decide; [done|].
  rewrite IH. apply Permutation_swap.
Qed.

Lemma sorted_Permutation l : sorted l ≡ₚ l.
Proof. induction l as [|x l IH]; simpl; [done|]. by rewrite ins_Permutation, IH. Qed.

Lemma HdRel_ins x y l : R y x → HdRel R y l → HdRel R y (ins x l).
Proof. intros Hx Hl. destruct l as [|z l]; simpl; [by constructor|]. case_decide; constructor; [done|by inversion Hl]. Qed.

Lemma Sorted_sorted `{!Total R} l : Sorted R (sorted l).
Proof.
  induction l as [|x l IH]; simpl; [constructor|].
  induction IH as [|y l' Hs IHs Hd]; simpl; [by repeat constructor|].
  case_decide as Hxy; [by repeat constructor|]. constructor; [done|].
  apply HdRel_ins; [|done]. by destruct (total R x y).
Qed.

Lemma elem_of_sorted x l : x ∈ sorted l ↔ x ∈ l.
Proof. by rewrite sorted_Permutation. Qed.
End Sort.

(** Sorting commutes with a map that respects the orders. *)
Lemma sorted_map {A B} (R : A → A → Prop) (R' : B → B → Prop)
    `{∀ x y, Decision (R x y)} `{∀ x y, Decision (R' x y)} (f : A → B) (l : list A) :
  (∀ x y, R' (f x) (f y) ↔ R x y) → sorted R' (map f l) = map f (sorted R l).
Proof.
  intros Hf.
  assert (Hi : ∀ x m, ins R' (f x) (map f m) = map f (ins R x m)).
  { intros x m. induction m as [|y m IH]; simpl; [done|].
    destruct (decide (R x y)) as [Hr|Hr].
    - by rewrite decide_True by (by apply Hf).
    - rewrite decide_False by (by rewrite Hf). simpl. by f_equal. }
  induction l as [|x l IH]; simpl; [done|]. by rewrite IH, Hi.
Qed.
End PySort.
