(* ===== verification/Digest.v ===== *)
(** * Standard-library encodings the protocol hashes over

    `str.encode`, `hashlib.sha256`, `hexdigest`, `base64.urlsafe_b64encode` and
    its decoder, `json.dumps` and `datetime.isoformat`, as executable functions.
    Bytes are integers in [0, 255]; timestamps are microseconds since the epoch,
    in UTC. *)

From Stdlib Require Import ZArith QArith Lia Ascii String.
From stdpp Require Import base tactics list gmap strings sorting.
From S2P Require Import Prelude PyValue.
Open Scope Z_scope.

(** ** UTF-8 *)
Definition utf8_char (c : ascii) : list Z :=
  let n := Z.of_nat (nat_of_ascii c) in
  if n <? 128 then [n]
  else [Z.lor 192 (Z.shiftr n 6); Z.lor 128 (Z.land n 63)].

Fixpoint encode (s : string) : list Z :=
  match s with
  | EmptyString => []
  | String c s' => utf8_char c ++ encode s'
  end.

(** ** SHA-256 (FIPS 180-4) *)
Module Sha256.

Definition mask : Z := 4294967295.
Definition add32 (a b : Z) : Z := Z.land (a + b) mask.
Definition rotr (n x : Z) : Z :=
  Z.lor (Z.shiftr x n) (Z.land (Z.shiftl x (32 - n)) mask).
Definition ch (x y z : Z) : Z := Z.lxor (Z.land x y) (Z.land (Z.lxor x mask) z).
Definition maj (x y z : Z) : Z :=
  Z.lxor (Z.lxor (Z.land x y) (Z.land x z)) (Z.land y z).
Definition bsig0 (x : Z) : Z := Z.lxor (Z.lxor (rotr 2 x) (rotr 13 x)) (rotr 22 x).
Definition bsig1 (x : Z) : Z := Z.lxor (Z.lxor (rotr 6 x) (rotr 11 x)) (rotr 25 x).
Definition ssig0 (x : Z) : Z := Z.lxor (Z.lxor (rotr 7 x) (rotr 18 x)) (Z.shiftr x 3).
Definition ssig1 (x : Z) : Z := Z.lxor (Z.lxor (rotr 17 x) (rotr 19 x)) (Z.shiftr x 10).

Definition K : list Z :=
 [1116352408; 1899447441; 3049323471; 3921009573; 961987163; 1508970993; 2453635748; 2870763221;
  3624381080; 310598401; 607225278; 1426881987; 1925078388; 2162078206; 2614888103; 3248222580;
  3835390401; 4022224774; 264347078; 604807628; 770255983; 1249150122; 1555081692; 1996064986;
  2554220882; 2821834349; 2952996808; 3210313671; 3336571891; 3584528711; 113926993; 338241895;
  666307205; 773529912; 1294757372; 1396182291; 1695183700; 1986661051; 2177026350; 2456956037;
  2730485921; 2820302411; 3259730800; 3345764771; 3516065817; 3600352804; 4094571909; 275423344;
  430227734; 506948616; 659060556; 883997877; 958139571; 1322822218; 1537002063; 1747873779;
  1955562222; 2024104815; 2227730452; 2361852424; 2428436474; 2756734187; 3204031479; 3329325298].

Definition H0 : list Z :=
 [1779033703; 3144134277; 1013904242; 2773480762; 1359893119; 2600822924; 528734635; 1541459225].

(** [n] big-endian bytes of [x]. *)
Fixpoint be_bytes (n : nat) (x : Z) : list Z :=
  match n with
  | O => []
  | S n' => Z.land (Z.shiftr x (8 * Z.of_nat n')) 255 :: be_bytes n' x
  end.

Definition pad (m : list Z) : list Z :=
  let len := Z.of_nat (length m) in
  let zeros := Z.to_nat ((55 - len) mod 64) in
  m ++ [128] ++ repeat 0 zeros ++ be_bytes 8 (8 * len).

Fixpoint words (m : list Z) : list Z :=
  match m with
  | a :: b :: c :: d :: m' =>
      Z.lor (Z.lor (Z.shiftl a 24) (Z.shiftl b 16)) (Z.lor (Z.shiftl c 8) d) :: words m'
  | _ => []
  end.

(** Message schedule, most recent word first. *)
Fixpoint extend (n : nat) (rw : list Z) : list Z :=
  match n with
  | O => rw
  | S n' =>
      let w i := nth i rw 0 in
      extend n' (add32 (add32 (ssig1 (w 1%nat)) (w 6%nat)) (add32 (ssig0 (w 14%nat)) (w 15%nat)) :: rw)
  end.

Definition round (st : list Z) (kw : Z * Z) : list Z :=
  match st with
  | [a; b; c; d; e; f; g; h] =>
      let t1 := add32 (add32 (add32 h (bsig1 e)) (add32 (ch e f g) (fst kw))) (snd kw) in
      let t2 := add32 (bsig0 a) (maj a b c) in
      [add32 t1 t2; a; b; c; add32 d t1; e; f; g]
  | _ => st
  end.

Definition compress (st : list Z) (block : list Z) : list Z :=
  let ws := rev (extend 48 (rev (words block))) in
  zip_with add32 st (fold_left round (zip K ws) st).

(** The fuel is the number of 64-byte blocks. *)
Fixpoint blocks (n : nat) (st m : list Z) : list Z :=
  match n with
  | O => st
  | S n' => blocks n' (compress st (take 64 m)) (drop 64 m)
  end.

Definition digest (m : list Z) : list Z :=
  let p := pad m in
  concat (map (be_bytes 4) (blocks (length p / 64) H0 p)).

End Sha256.

(** *** A digest is a list of bytes. *)
Lemma land_255 x : 0 <= Z.land x 255 < 256.
Proof. change 255 with (Z.ones 8). rewrite Z.land_ones by lia. apply Z.mod_pos_bound. lia. Qed.

Lemma be_bytes_range n x : Forall (λ b, 0 <= b < 256) (Sha256.be_bytes n x).
Proof. induction n; cbn [Sha256.be_bytes]; constructor; [apply land_255|done]. Qed.

Lemma digest_range m : Forall (λ b, 0 <= b < 256) (Sha256.digest m).
Proof.
  unfold Sha256.digest. generalize (Sha256.blocks (length (Sha256.pad m) / 64) Sha256.H0 (Sha256.pad m)). intros l.
  induction l as [|w l IH]; cbn [map concat]; [done|]. apply Forall_app. split; [apply be_bytes_range|done].
Qed.

Definition hex_digit (n : Z) : ascii :=
  ascii_of_nat (Z.to_nat (if n <? 10 then 48 + n else 87 + n)).

(** `bytes.hex()` *)
Fixpoint hex (m : list Z) : string :=
  match m with
  | [] => EmptyString
  | b :: m' => String (hex_digit (Z.shiftr b 4)) (String (hex_digit (Z.land b 15)) (hex m'))
  end.

(** `hashlib.sha256(s.encode()).hexdigest()` *)
Definition sha256_hex (s : string) : string := hex (Sha256.digest (encode s)).

Example sha256_abc :
  sha256_hex "abc" = "ba7816bf8f01cfea414140de5dae2223b00361a396177a9cb410ff61f20015ad"%string.
Proof. vm_compute. reflexivity. Qed.

Example sha256_two_blocks :
  sha256_hex "abcdbcdecdefdefgefghfghighijhijkijkljklmklmnlmnomnopnopq" =
  "248d6a61d20638b8e5c026930c3e6039a33ce45964ff2167f6ecedd419db06c1"%string.
Proof. vm_compute. reflexivity. Qed.

(** ** Base64, URL-safe alphabet *)
Module B64.

Definition alphabet : string :=
  "ABCDEFGHIJKLMNOPQRSTUVWXYZabcdefghijklmnopqrstuvwxyz0123456789-_".

Definition sym (n : Z) : ascii :=
  match String.get (Z.to_nat n) alphabet with Some c => c | None => "="%char end.

(** Index of a character in the alphabet. *)
Definition unsym (c : ascii) : option Z :=
  let n := Z.of_nat (nat_of_ascii c) in
  if (65 <=? n) && (n <=? 90) then Some (n - 65)
  else if (97 <=? n) && (n <=? 122) then Some (n - 71)
  else if (48 <=? n) && (n <=? 57) then Some (n + 4)
  else if n =? 45 then Some 62
  else if n =? 95 then Some 63
  else None.

(** `base64.urlsafe_b64encode(m).rstrip(b"=")`: the encoding without padding. *)
Fixpoint encode_nopad (m : list Z) : string :=
  match m with
  | [] => EmptyString
  | [a] => String (sym (a / 4)) (String (sym ((a mod 4) * 16)) EmptyString)
  | [a; b] =>
      String (sym (a / 4)) (String (sym ((a mod 4) * 16 + b / 16))
        (String (sym ((b mod 16) * 4)) EmptyString))
  | a :: b :: c :: m' =>
      String (sym (a / 4)) (String (sym ((a mod 4) * 16 + b / 16))
        (String (sym ((b mod 16) * 4 + c / 64)) (String (sym (c mod 64)) (encode_nopad m'))))
  end.

(** Decoding of groups of alphabet characters; the last group may be short,
    as it is once the padding is dropped.  A one-character group carries no
    byte and is an error. *)
Fixpoint decode_groups (s : string) : option (list Z) :=
  match s with
  | EmptyString => Some []
  | String c1 (String c2 r) =>
      match unsym c1, unsym c2 with
      | Some x, Some y =>
          match r with
          | EmptyString => Some [x * 4 + y / 16]
          | String c3 EmptyString =>
              match unsym c3 with
              | Some z => Some [x * 4 + y / 16; (y mod 16) * 16 + z / 4]
              | None => None
              end
          | String c3 (String c4 r') =>
              match unsym c3, unsym c4, decode_groups r' with
              | Some z, Some w, Some tl =>
                  Some (x * 4 + y / 16 :: (y mod 16) * 16 + z / 4 :: (z mod 4) * 64 + w :: tl)
              | _, _, _ => None
              end
          end
      | _, _ => None
      end
  | String _ EmptyString => None
  end.

End B64.

(** ** ISO 8601 timestamps

    `datetime.isoformat()` of an aware UTC datetime; the civil date of a day
    number is computed in the proleptic Gregorian calendar, as Python does. *)
Definition civil (days : Z) : Z * Z * Z :=
  let z := days + 719468 in
  let era := z / 146097 in
  let doe := z - era * 146097 in
  let yoe := (doe - doe / 1460 + doe / 36524 - doe / 146096) / 365 in
  let doy := doe - (365 * yoe + yoe / 4 - yoe / 100) in
  let mp := (5 * doy + 2) / 153 in
  let d := doy - (153 * mp + 2) / 5 + 1 in
  let m := if mp <? 10 then mp + 3 else mp - 9 in
  (yoe + era * 400 + (if m <=? 2 then 1 else 0), m, d).

Definition pad_dec (w : nat) (z : Z) : string := PyStr.pad0 w (PyStr.dec_Z z).

(** Date and time of day of a wall-clock reading, without the zone. *)
Definition iso_local (us : Z) : string :=
  let secs := us / 1000000 in
  let frac := us mod 1000000 in
  let days := secs / 86400 in
  let sod := secs mod 86400 in
  let '(y, m, d) := civil days in
  (pad_dec 4 y ++ "-" ++ pad_dec 2 m ++ "-" ++ pad_dec 2 d ++ "T" ++
   pad_dec 2 (sod / 3600) ++ ":" ++ pad_dec 2 (sod / 60 mod 60) ++ ":" ++ pad_dec 2 (sod mod 60) ++
   (if (frac =? 0)%Z then EmptyString else "." ++ pad_dec 6 frac))%string.

(** `+hh:mm`, with seconds and microseconds when they are not zero. *)
Definition iso_offset (off : Z) : string :=
  let a := Z.abs off in
  let secs := a / 1000000 in
  let frac := a mod 1000000 in
  ((if (off <? 0)%Z then "-" else "+") ++ pad_dec 2 (secs / 3600) ++ ":" ++ pad_dec 2 (secs / 60 mod 60) ++
   (if ((secs mod 60 =? 0) && (frac =? 0))%Z then EmptyString
    else ":" ++ pad_dec 2 (secs mod 60) ++
         (if (frac =? 0)%Z then EmptyString else "." ++ pad_dec 6 frac)))%string.

Definition isoformat_dt (d : pydatetime) : string :=
  match d with
  | Naive us => iso_local us
  | Aware us off => (iso_local us ++ iso_offset off)%string
  end.

(** An aware UTC datetime. *)
Definition isoformat (us : Z) : string := isoformat_dt (Aware us 0).

Example isoformat_epoch : isoformat 0 = "1970-01-01T00:00:00+00:00"%string.
Proof. reflexivity. Qed.
Example isoformat_leap : isoformat 951827696500000 = "2000-02-29T12:34:56.500000+00:00"%string.
Proof. reflexivity. Qed.

(** ** `json.dumps` *)
Section Dumps.
  (** `repr` of a float, the shortest decimal that reads back as the float. *)
  Variable float_repr : pyfloat → string.
  Variable item_sep key_sep : string.
  Variable sort_keys : bool.

(** One character of a string literal under `ensure_ascii`. *)
Definition esc_char (c : ascii) : string :=
  let n := nat_of_ascii c in
  let back c := String (ascii_of_nat 92) (String c EmptyString) in
  if (n =? 34)%nat || (n =? 92)%nat then back c
  else if (n =? 8)%nat then back "b"%char
  else if (n =? 9)%nat then back "t"%char
  else if (n =? 10)%nat then back "n"%char
  else if (n =? 12)%nat then back "f"%char
  else if (n =? 13)%nat then back "r"%char
  else if ((n <? 32) || (127 <=? n))%nat then
    (back "u"%char ++ "00" ++ hex [Z.of_nat n])%string
  else String c EmptyString.

Fixpoint esc (s : string) : string :=
  match s with
  | EmptyString => EmptyString
  | String c s' => (esc_char c ++ esc s')%string
  end.

Definition quote (s : string) : string :=
  let dq := ascii_of_nat 34 in (String dq (esc s) ++ String dq EmptyString)%string.

Fixpoint joined (sep : string) (l : list string) : string :=
  match l with
  | [] => EmptyString
  | [s] => s
  | s :: l' => (s ++ sep ++ joined sep l')%string
  end.

Definition key_le (a b : string * string) : Prop := String.leb (fst a) (fst b) = true.
#[local] Instance key_le_dec a b : Decision (key_le a b).
Proof. unfold key_le. apply _. Defined.

Definition order_keys (d : list (string * string)) : list (string * string) :=
  if sort_keys then merge_sort key_le d else d.

Fixpoint json_dumps (j : json) : string :=
  match j with
  | JNull => "null"
  | JBool true => "true"
  | JBool false => "false"
  | JInt z => PyStr.dec_Z z
  | JFloat f => float_repr f
  | JStr s => quote s
  | JList l => ("[" ++ joined item_sep (map json_dumps l) ++ "]")%string
  | JObj d =>
      let kvs := order_keys (map (λ kv, (fst kv, json_dumps (snd kv))) d) in
      ("{" ++ joined item_sep (map (λ kv, (quote (fst kv) ++ key_sep ++ snd kv)%string) kvs) ++ "}")%string
  end.

End Dumps.
