(* ===== verification/IsoText.v ===== *)
(** * Timestamps as text

    The SQLite stores keep timestamps as the text of `datetime.isoformat()` and
    compare that text (`timestamp >= ?`, `ORDER BY timestamp`).  Here: the order
    of texts, and that on UTC datetimes of the years 0 to 9999 the order of the
    texts is the order of the instants; and that such a text has no `Z`, so the
    stores' `replace("Z", "+00:00")` leaves it alone. *)

From Stdlib Require Import ZArith NArith Lia Ascii String.
From stdpp Require Import base tactics list strings.
From S2P Require Import Prelude PyValue Digest.
Local Open Scope string_scope.
Open Scope Z_scope.

(** ** Comparing texts *)

(** SQLite compares TEXT values byte by byte (collation BINARY), which on UTF-8
    is the order of the code points. *)
Definition text_cmp (a b : string) : comparison := String.compare a b.

Definition then_cmp (c d : comparison) : comparison := match c with Eq => d | _ => c end.

Lemma text_cmp_cons c d a b :
  text_cmp (String c a) (String d b) = then_cmp (Ascii.compare c d) (text_cmp a b).
Proof. unfold text_cmp. simpl. by destruct (Ascii.compare c d). Qed.

Lemma text_cmp_refl a : text_cmp a a = Eq.
Proof.
  induction a as [|c a IH]; [done|]. rewrite text_cmp_cons, IH.
  unfold Ascii.compare. by rewrite N.compare_refl.
Qed.

Lemma text_cmp_app a b x y : String.length a = String.length b →
  text_cmp (a ++ x) (b ++ y) = then_cmp (text_cmp a b) (text_cmp x y).
Proof.
  revert b. induction a as [|c a IH]; intros [|d b] Hl; simpl in Hl; try done.
  rewrite !append_cons, !text_cmp_cons. rewrite IH by congruence.
  by destruct (Ascii.compare c d).
Qed.

(** The order of texts is transitive. *)
Lemma text_le_trans a b c : text_cmp a b ≠ Gt → text_cmp b c ≠ Gt → text_cmp a c ≠ Gt.
Proof.
  revert b c. induction a as [|x a IH]; intros [|y b] [|z c]; try done.
  rewrite !text_cmp_cons. unfold Ascii.compare.
  destruct (N.compare_spec (N_of_ascii x) (N_of_ascii y)) as [Hxy|Hxy|Hxy]; [|simpl|done];
    destruct (N.compare_spec (N_of_ascii y) (N_of_ascii z)) as [Hyz|Hyz|Hyz]; simpl; try done;
    intros H1 H2.
  - rewrite Hxy, Hyz, N.compare_refl. simpl. by eapply IH.
  - rewrite Hxy, (proj2 (N.compare_lt_iff _ _) Hyz). done.
  - rewrite <- Hyz, (proj2 (N.compare_lt_iff _ _) Hxy). done.
  - rewrite (proj2 (N.compare_lt_iff _ _)) by lia. done.
Qed.

(** ** Decimal fields of a fixed width *)

(** The last [w] decimal digits of [n]. *)
Fixpoint fixed_dec (w : nat) (n : N) : string :=
  match w with
  | O => EmptyString
  | S w' => fixed_dec w' (n / 10) ++ String (PyStr.digit (n mod 10)) EmptyString
  end.

Lemma length_fixed_dec w n : String.length (fixed_dec w n) = w.
Proof.
  revert n. induction w as [|w IH]; intros n; [done|]. simpl. rewrite length_append, IH. simpl. lia.
Qed.

Lemma fixed_dec_zero w : fixed_dec w 0 = Nat.iter w (String "0") EmptyString.
Proof.
  induction w as [|w IH]; [done|]. cbn [fixed_dec]. change (0 / 10)%N with 0%N. rewrite IH.
  clear IH. induction w as [|w IH]; [done|]. simpl. rewrite append_cons, IH. done.
Qed.

Lemma iter_zero_app k s : Nat.iter k (String "0") s = Nat.iter k (String "0") EmptyString ++ s.
Proof. induction k as [|k IH]; [done|]. simpl. by rewrite IH, append_cons. Qed.

(** The number of digits `dec_aux` writes. *)
Lemma dec_aux_fixed fuel n acc : (n < 10 ^ N.of_nat fuel)%N → fuel ≠ 0%nat →
  ∃ k, (n < 10 ^ N.of_nat k)%N ∧ (n ≠ 0 → 10 ^ N.of_nat (k - 1) <= n)%N ∧ (1 <= k)%nat
       ∧ PyStr.dec_aux fuel n acc = fixed_dec k n ++ acc.
Proof.
  revert n acc. induction fuel as [|fuel IH]; intros n acc Hn Hf; [done|]. simpl.
  destruct (N.eqb_spec (n / 10) 0) as [H0|H0].
  - exists 1%nat. assert (n < 10)%N by (apply N.div_small_iff in H0; lia).
    split_and!; [done|simpl; lia|done|done].
  - destruct fuel as [|fuel'].
    { simpl in Hn. rewrite N.div_small in H0 by (simpl in Hn; lia). done. }
    destruct (IH (n / 10)%N (String (PyStr.digit (n mod 10)) acc)) as (k & Hk & Hlow & H1 & ->).
    { rewrite (Nat2N.inj_succ (S fuel')), N.pow_succ_r' in Hn.
      apply N.Div0.div_lt_upper_bound. lia. }
    { done. }
    exists (S k). rewrite Nat2N.inj_succ, N.pow_succ_r'. split_and!; [|intros Hnz| |].
    + pose proof (N.div_mod n 10 ltac:(lia)). pose proof (N.mod_lt n 10 ltac:(lia)). lia.
    + specialize (Hlow H0). replace (S k - 1)%nat with (S (k - 1)) by lia.
      rewrite Nat2N.inj_succ, N.pow_succ_r'.
      pose proof (N.div_mod n 10 ltac:(lia)) as Hdm.
      revert Hlow Hdm. generalize (10 ^ N.of_nat (k - 1))%N (n / 10)%N (n mod 10)%N. intros. lia.
    + lia.
    + simpl. by rewrite append_assoc, append_cons.
Qed.

Lemma fixed_dec_pad k j n : (n < 10 ^ N.of_nat k)%N →
  fixed_dec (j + k) n = Nat.iter j (String "0") EmptyString ++ fixed_dec k n.
Proof.
  revert n. induction k as [|k IH]; intros n Hn; simpl.
  - rewrite Nat.add_0_r. assert (n = 0)%N as -> by (simpl in Hn; lia).
    by rewrite fixed_dec_zero, append_nil.
  - replace (j + S k)%nat with (S (j + k)) by lia. simpl. rewrite IH.
    + by rewrite append_assoc.
    + rewrite Nat2N.inj_succ, N.pow_succ_r' in Hn. apply N.Div0.div_lt_upper_bound. lia.
Qed.

Lemma size_bound n : (n < 10 ^ N.of_nat (S (N.size_nat n)))%N.
Proof.
  assert (Hs : (n < 2 ^ N.of_nat (N.size_nat n))%N).
  { destruct n as [|p]; [done|]. simpl N.size_nat.
    induction p as [p IH|p IH|]; simpl Pos.size_nat; [| |done];
      rewrite Nat2N.inj_succ, N.pow_succ_r'; lia. }
  rewrite Nat2N.inj_succ, N.pow_succ_r'.
  pose proof (N.pow_le_mono_l 2 10 (N.of_nat (N.size_nat n)) ltac:(lia)). lia.
Qed.

(** `f"{n:0wd}"` writes exactly the [w] last digits when [n] fits. *)
Lemma pad_dec_fixed w z : 0 <= z < 10 ^ Z.of_nat w → (1 <= w)%nat →
  pad_dec w z = fixed_dec w (Z.to_N z).
Proof.
  intros Hz Hw. unfold pad_dec, PyStr.dec_Z, PyStr.pad0.
  destruct z as [|p|p]; [|simpl Z.to_N|lia].
  - simpl Z.to_N. rewrite iter_zero_app.
    replace w with ((w - 1) + 1)%nat at 2 by lia. rewrite fixed_dec_pad by done. done.
  - unfold PyStr.dec_N.
    destruct (dec_aux_fixed (S (N.size_nat (N.pos p))) (N.pos p) EmptyString) as (k & Hk & Hlow & H1 & ->);
      [apply size_bound|done|].
    rewrite append_nil, length_fixed_dec, iter_zero_app.
    assert (k <= w)%nat.
    { destruct (decide (k <= w)%nat) as [|Hkw]; [done|exfalso].
      specialize (Hlow ltac:(done)).
      pose proof (N.pow_le_mono_r 10 (N.of_nat w) (N.of_nat (k - 1)) ltac:(lia) ltac:(lia)).
      assert (Z.of_N (10 ^ N.of_nat w) = 10 ^ Z.of_nat w) by (rewrite N2Z.inj_pow, nat_N_Z; done).
      lia. }
    replace w with ((w - k) + k)%nat at 2 by lia. by rewrite fixed_dec_pad.
Qed.

Lemma digit_cmp a b : (a < 10)%N → (b < 10)%N →
  Ascii.compare (PyStr.digit a) (PyStr.digit b) = (a ?= b)%N.
Proof.
  intros Ha Hb. unfold Ascii.compare, PyStr.digit. rewrite !N_ascii_embedding by lia.
  destruct (N.compare_spec a b) as [->|Hl|Hl];
    [apply N.compare_refl|apply N.compare_lt_iff; lia|apply N.compare_gt_iff; lia].
Qed.

Lemma fixed_dec_cmp w a b : (a < 10 ^ N.of_nat w)%N → (b < 10 ^ N.of_nat w)%N →
  text_cmp (fixed_dec w a) (fixed_dec w b) = (a ?= b)%N.
Proof.
  revert a b. induction w as [|w IH]; intros a b Ha Hb.
  { simpl in Ha, Hb. by assert (a = 0 ∧ b = 0)%N as [-> ->] by lia. }
  rewrite Nat2N.inj_succ, N.pow_succ_r' in Ha, Hb. simpl.
  rewrite text_cmp_app by (by rewrite !length_fixed_dec).
  rewrite IH by (apply N.Div0.div_lt_upper_bound; lia).
  rewrite text_cmp_cons, digit_cmp by (apply N.mod_lt; lia).
  clear IH Ha Hb.
  pose proof (N.div_mod a 10 ltac:(lia)) as Ha. pose proof (N.div_mod b 10 ltac:(lia)) as Hb.
  pose proof (N.mod_lt a 10 ltac:(lia)) as Ha'. pose proof (N.mod_lt b 10 ltac:(lia)) as Hb'.
  revert Ha Hb Ha' Hb'. generalize (a / 10)%N (b / 10)%N (a mod 10)%N (b mod 10)%N.
  intros qa qb ra rb -> -> ? ?.
  destruct (N.compare_spec qa qb), (N.compare_spec ra rb); simpl; symmetry;
    rewrite ?N.compare_eq_iff, ?N.compare_lt_iff, ?N.compare_gt_iff; lia.
Qed.

Lemma length_pad_dec w z : 0 <= z < 10 ^ Z.of_nat w → (1 <= w)%nat → String.length (pad_dec w z) = w.
Proof. intros. by rewrite pad_dec_fixed, length_fixed_dec. Qed.

Lemma pad_dec_cmp w a b : 0 <= a < 10 ^ Z.of_nat w → 0 <= b < 10 ^ Z.of_nat w → (1 <= w)%nat →
  text_cmp (pad_dec w a) (pad_dec w b) = (a ?= b)%Z.
Proof.
  intros Ha Hb Hw. rewrite !pad_dec_fixed by done.
  assert (Z.of_N (10 ^ N.of_nat w) = 10 ^ Z.of_nat w) by (rewrite N2Z.inj_pow, nat_N_Z; done).
  rewrite fixed_dec_cmp by lia. rewrite <- N2Z.inj_compare. f_equal; lia.
Qed.

(** A field followed by the rest of the text. *)
Lemma field_cmp w a b x y : 0 <= a < 10 ^ Z.of_nat w → 0 <= b < 10 ^ Z.of_nat w → (1 <= w)%nat →
  text_cmp (pad_dec w a ++ x) (pad_dec w b ++ y) = then_cmp (a ?= b)%Z (text_cmp x y).
Proof.
  intros Ha Hb Hw. rewrite text_cmp_app by (by rewrite !length_pad_dec). by rewrite pad_dec_cmp.
Qed.

(** ** Dates *)

(** The year of the era and the day of that year, counted from March. *)
Definition yoe_of (doe : Z) : Z := (doe - doe / 1460 + doe / 36524 - doe / 146096) / 365.
Definition doy_of (doe : Z) : Z := doe - (365 * yoe_of doe + yoe_of doe / 4 - yoe_of doe / 100).

Lemma yoe_range doe : 0 <= doe <= 146096 → 0 <= yoe_of doe <= 399 ∧ 0 <= doy_of doe <= 365.
Proof. intros. unfold doy_of, yoe_of. Z.to_euclidean_division_equations; lia. Qed.

Lemma yoe_mono a b : 0 <= a → a <= b → b <= 146096 → yoe_of a <= yoe_of b.
Proof. intros. unfold yoe_of. apply Z.div_le_mono; [lia|]. Z.to_euclidean_division_equations; lia. Qed.

Lemma civil_eq days :
  let z := days + 719468 in
  let era := z / 146097 in
  let doe := z mod 146097 in
  let mp := (5 * doy_of doe + 2) / 153 in
  civil days =
  (yoe_of doe + era * 400 + (if (if mp <? 10 then mp + 3 else mp - 9) <=? 2 then 1 else 0),
   if mp <? 10 then mp + 3 else mp - 9, doy_of doe - (153 * mp + 2) / 5 + 1).
Proof.
  cbv zeta. unfold civil. cbv zeta.
  replace (days + 719468 - (days + 719468) / 146097 * 146097) with ((days + 719468) mod 146097)
    by (rewrite Z.mod_eq by done; lia).
  reflexivity.
Qed.

(** A month number and a day of the month that order like the days. *)
Lemma civil_spec days : ∃ y m d,
  civil days = (y, m, d) ∧ 1 <= m <= 12 ∧ 1 <= d <= 31
  ∧ (∀ days' y' m' d', days < days' → civil days' = (y', m', d') →
       12 * y + m < 12 * y' + m' ∨ (12 * y + m = 12 * y' + m' ∧ d < d')).
Proof.
  assert (Hm : ∀ n, 0 <= (n + 719468) mod 146097 <= 146096)
    by (intros n; pose proof (Z.mod_pos_bound (n + 719468) 146097 ltac:(lia)); lia).
  assert (Hz : ∀ n, n + 719468 = 146097 * ((n + 719468) / 146097) + (n + 719468) mod 146097)
    by (intros n; by apply Z.div_mod).
  eexists _, _, _. split; [apply civil_eq|]. cbv zeta.
  pose proof (yoe_range _ (Hm days)) as [Hy Hd]. set (doe := (days + 719468) mod 146097) in *.
  assert (0 <= (5 * doy_of doe + 2) / 153 <= 11) by (Z.to_euclidean_division_equations; lia).
  split_and!; [case_match; lia|case_match; lia|Z.to_euclidean_division_equations; lia
              |Z.to_euclidean_division_equations; lia|].
  intros days' y' m' d' Hlt Hc. rewrite civil_eq in Hc. cbv zeta in Hc.
  pose proof (yoe_range _ (Hm days')) as [Hy' Hd']. pose proof (Hz days). pose proof (Hz days').
  pose proof (Hm days). pose proof (Hm days').
  fold doe in H0. set (doe' := (days' + 719468) mod 146097) in *.
  set (era := (days + 719468) / 146097) in *. set (era' := (days' + 719468) / 146097) in *.
  assert (0 <= (5 * doy_of doe' + 2) / 153 <= 11) by (Z.to_euclidean_division_equations; lia).
  assert (Hcase : yoe_of doe + 400 * era < yoe_of doe' + 400 * era'
                  ∨ (yoe_of doe + 400 * era = yoe_of doe' + 400 * era' ∧ doy_of doe < doy_of doe')).
  { assert (era < era' ∨ era = era' ∧ doe < doe') as [|[Heq Hl]] by lia; [lia|].
    pose proof (yoe_mono doe doe' ltac:(lia) ltac:(lia) ltac:(lia)).
    destruct (decide (yoe_of doe = yoe_of doe')) as [Hyy|]; [right|lia].
    split; [lia|]. unfold doy_of. rewrite Hyy. lia. }
  assert (Hmp : doy_of doe < doy_of doe' → (5 * doy_of doe + 2) / 153 <= (5 * doy_of doe' + 2) / 153)
    by (intros; apply Z.div_le_mono; lia).
  simplify_eq.
  set (mp := (5 * doy_of doe + 2) / 153) in *. set (mp' := (5 * doy_of doe' + 2) / 153) in *.
  clearbody mp mp' era era'. destruct (Z.ltb_spec mp 10), (Z.ltb_spec mp' 10);
    repeat match goal with |- context [?a <=? 2] => destruct (Z.leb_spec a 2) end;
    (destruct (decide (mp = mp')) as [->|]; [|lia]); lia.
Qed.

(** Wall-clock readings a `datetime` can hold: 0001-01-01 to 9999-12-31. *)
Definition datetime_min : Z := -62135596800000000.
Definition datetime_max : Z := 253402300799999999.
Definition in_datetime (us : Z) : bool := (datetime_min <=? us) && (us <=? datetime_max).

Lemma civil_year us y m d : in_datetime us = true →
  civil (us / 1000000 / 86400) = (y, m, d) → 0 <= y < 10 ^ Z.of_nat 4.
Proof.
  unfold in_datetime, datetime_min, datetime_max. intros Hr Hc. reflect.
  destruct (civil_spec (us / 1000000 / 86400)) as (y0 & m0 & d0 & Hc0 & Hm & Hd & Hup).
  rewrite Hc in Hc0. simplify_eq. split.
  - destruct (civil_spec (-719162)) as (y1 & m1 & d1 & Hc1 & _ & _ & Hlow).
    change (civil (-719162)) with (1, 1, 1) in Hc1. simplify_eq.
    destruct (decide (us / 1000000 / 86400 = -719162)) as [He|Hne].
    { rewrite He in Hc. change (civil (-719162)) with (1, 1, 1) in Hc. by simplify_eq. }
    specialize (Hlow (us / 1000000 / 86400) _ _ _ ltac:(Z.to_euclidean_division_equations; lia) Hc). lia.
  - destruct (decide (us / 1000000 / 86400 = 2932896)) as [He|Hne].
    { rewrite He in Hc. change (civil 2932896) with (9999, 12, 31) in Hc. by simplify_eq. }
    specialize (Hup 2932896 9999 12 31 ltac:(Z.to_euclidean_division_equations; lia) eq_refl).
    change (10 ^ Z.of_nat 4) with 10000. lia.
Qed.

Lemma same_char_cmp c a b : text_cmp (String c EmptyString ++ a) (String c EmptyString ++ b) = text_cmp a b.
Proof.
  rewrite (text_cmp_app (String c EmptyString)) by done. by rewrite text_cmp_refl.
Qed.

Lemma then_lt (x y : Z) (c : comparison) : x < y ∨ (x = y ∧ c = Lt) → then_cmp (x ?= y)%Z c = Lt.
Proof. intros [H|[-> ->]]; [by rewrite (proj2 (Z.compare_lt_iff _ _) H)|by rewrite Z.compare_refl]. Qed.

(** The texts of two readings order like the readings, whatever follows them, as
    long as that sorts before a fraction. *)
Lemma iso_local_lt a b suffix :
  in_datetime a = true → in_datetime b = true → a < b →
  (∀ x, text_cmp suffix ("." ++ x) = Lt) →
  text_cmp (iso_local a ++ suffix) (iso_local b ++ suffix) = Lt.
Proof.
  intros Ha Hb Hlt Hs. unfold iso_local.
  destruct (civil_spec (a / 1000000 / 86400)) as (y & m & d & Hc & Hm & Hd & Hup).
  destruct (civil_spec (b / 1000000 / 86400)) as (y' & m' & d' & Hc' & Hm' & Hd' & _).
  pose proof (civil_year _ _ _ _ Ha Hc) as Hy. pose proof (civil_year _ _ _ _ Hb Hc') as Hy'.
  rewrite Hc, Hc'. clear Ha Hb. rewrite !append_assoc.
  assert (H2 : ∀ z, 0 <= z <= 59 → 0 <= z < 10 ^ Z.of_nat 2) by (intros; simpl; lia).
  rewrite field_cmp, same_char_cmp, field_cmp, same_char_cmp, field_cmp, same_char_cmp,
    field_cmp, same_char_cmp, field_cmp, same_char_cmp, field_cmp
    by (done || lia || (apply H2; Z.to_euclidean_division_equations; lia)).
  destruct (decide (a / 1000000 / 86400 = b / 1000000 / 86400)) as [Hdd|Hdd]; cycle 1.
  { destruct (Hup (b / 1000000 / 86400) y' m' d') as [?|[? ?]];
      [Z.to_euclidean_division_equations; lia|done| |].
    - apply then_lt. destruct (decide (y < y')); [by left|right]. split; [lia|].
      apply then_lt. left. lia.
    - apply then_lt. right. split; [lia|]. apply then_lt. right. split; [lia|].
      apply then_lt. by left. }
  rewrite Hdd in Hc. rewrite Hc in Hc'. simplify_eq.
  do 3 (apply then_lt; right; split; [done|]).
  destruct (decide (a / 1000000 < b / 1000000)) as [Hsec|Hsec].
  - pose proof (Z.mod_eq (a / 1000000) 86400 ltac:(lia)). pose proof (Z.mod_eq (b / 1000000) 86400 ltac:(lia)).
    set (sa := (a / 1000000) mod 86400) in *. set (sb := (b / 1000000) mod 86400) in *.
    assert (sa < sb) by lia.
    apply then_lt. destruct (decide (sa / 3600 = sb / 3600)) as [Hh|];
      [right; split; [done|]|left; Z.to_euclidean_division_equations; lia].
    apply then_lt. destruct (decide (sa / 60 mod 60 = sb / 60 mod 60)) as [Hmi|];
      [right; split; [done|]|left; Z.to_euclidean_division_equations; lia].
    apply then_lt. left. clear -Hh Hmi H1. Z.to_euclidean_division_equations; lia.
  - assert (Hse : a / 1000000 = b / 1000000) by (Z.to_euclidean_division_equations; lia).
    rewrite Hse. do 3 (apply then_lt; right; split; [done|]).
    assert (a mod 1000000 < b mod 1000000) by (Z.to_euclidean_division_equations; lia).
    destruct (Z.eqb_spec (b mod 1000000) 0); [Z.to_euclidean_division_equations; lia|].
    destruct (Z.eqb_spec (a mod 1000000) 0).
    + rewrite append_assoc. apply Hs.
    + rewrite !append_assoc, same_char_cmp, field_cmp; [apply then_lt; by left|..]; try lia;
        change (10 ^ Z.of_nat 6) with 1000000; Z.to_euclidean_division_equations; lia.
Qed.

(** The zone suffix of a datetime sorts before a fraction. *)
Lemma zone_before_fraction o x :
  text_cmp (match o with Some off => iso_offset off | None => EmptyString end) ("." ++ x) = Lt.
Proof.
  destruct o as [off|]; [|done]. unfold iso_offset. destruct (off <? 0); reflexivity.
Qed.

Definition dt_wall (d : pydatetime) : Z := match d with Naive us | Aware us _ => us end.
Definition dt_zone (d : pydatetime) : option Z :=
  match d with Naive _ => None | Aware _ off => Some off end.

Lemma isoformat_dt_eq d :
  isoformat_dt d = iso_local (dt_wall d) ++ match dt_zone d with Some off => iso_offset off | None => EmptyString end.
Proof. destruct d; simpl; [by rewrite append_nil|done]. Qed.

(** In one zone the order of the stored texts is the order of the datetimes. *)
Theorem isoformat_order (a b : pydatetime) :
  in_datetime (dt_wall a) = true → in_datetime (dt_wall b) = true → dt_zone a = dt_zone b →
  text_cmp (isoformat_dt a) (isoformat_dt b) = (dt_wall a ?= dt_wall b)%Z.
Proof.
  intros Ha Hb Hz. rewrite !isoformat_dt_eq, Hz.
  assert (Hs := zone_before_fraction (dt_zone b)).
  destruct (Z.compare_spec (dt_wall a) (dt_wall b)) as [->|Hl|Hl].
  - apply text_cmp_refl.
  - by apply iso_local_lt.
  - unfold text_cmp. rewrite String.compare_antisym. fold (text_cmp).
    change (String.compare ?x ?y) with (text_cmp x y). by rewrite iso_local_lt.
Qed.

(** Between zones it is not: 12:00 in +02:00 is before 11:00 in UTC, and its text
    is after. *)
Lemma isoformat_order_across_zones :
  let a := Aware 43200000000 7200000000 in
  let b := Aware 39600000000 0 in
  dt_wall a - 7200000000 < dt_wall b ∧ text_cmp (isoformat_dt a) (isoformat_dt b) = Gt.
Proof. split; vm_compute; done. Qed.

(** ** `value.replace("Z", "+00:00")` *)
Fixpoint replace_z (s : string) : string :=
  match s with
  | EmptyString => EmptyString
  | String c s' => if Ascii.eqb c "Z" then "+00:00" ++ replace_z s' else String c (replace_z s')
  end.

Fixpoint no_z (s : string) : bool :=
  match s with EmptyString => true | String c s' => negb (Ascii.eqb c "Z") && no_z s' end.

Lemma replace_z_id s : no_z s = true → replace_z s = s.
Proof.
  induction s as [|c s IH]; simpl; [done|]. intros [Hc Hs]%andb_prop.
  destruct (Ascii.eqb c "Z"); [done|]. by rewrite IH.
Qed.

Lemma no_z_app a b : no_z (a ++ b) = no_z a && no_z b.
Proof. induction a as [|c a IH]; [done|]. rewrite append_cons. simpl. by rewrite IH, andb_assoc. Qed.

Lemma no_z_dec_aux fuel n acc : no_z acc = true → no_z (PyStr.dec_aux fuel n acc) = true.
Proof.
  revert n acc. induction fuel as [|fuel IH]; intros n acc Hacc; simpl; [done|].
  assert (Hd : no_z (String (PyStr.digit (n mod 10)) acc) = true).
  { simpl. rewrite Hacc, andb_true_r. pose proof (N.mod_lt n 10 ltac:(lia)).
    generalize dependent (n mod 10)%N. intros k Hk.
    assert (k = 0 ∨ k = 1 ∨ k = 2 ∨ k = 3 ∨ k = 4 ∨ k = 5 ∨ k = 6 ∨ k = 7 ∨ k = 8 ∨ k = 9)%N as Hc by lia.
    by repeat destruct Hc as [->|Hc]; [..|subst]. }
  destruct (n / 10 =? 0)%N; [done|by apply IH].
Qed.

Lemma no_z_pad_dec w z : no_z (pad_dec w z) = true.
Proof.
  unfold pad_dec, PyStr.pad0.
  assert (Hd : no_z (PyStr.dec_Z z) = true).
  { destruct z as [|p|p]; [done|by apply no_z_dec_aux|]. simpl. by apply no_z_dec_aux. }
  induction (w - String.length (PyStr.dec_Z z))%nat as [|k IH]; [done|]. simpl. by rewrite IH.
Qed.

Lemma no_z_isoformat d : no_z (isoformat_dt d) = true.
Proof.
  rewrite isoformat_dt_eq. unfold iso_local, iso_offset.
  destruct (civil _) as [[y m] dd], (dt_zone d);
    repeat (case_match || rewrite no_z_app || rewrite no_z_pad_dec); done.
Qed.

(** Reading a stored text back goes through the replacement. *)
Lemma replace_z_isoformat d : replace_z (isoformat_dt d) = isoformat_dt d.
Proof. apply replace_z_id, no_z_isoformat. Qed.
