(* ===== verification/Sqlite.v ===== *)
(** * SQLite tables and the shared repository

    `src/src/asap/state/stores/_sqlite_base.py`: the plumbing every SQLite-backed
    store inherits (schema set up once, `execute`, `fetch_all`, `fetch_one`,
    `transaction`, the WHERE builder, the IN placeholders, the bounded record of
    files in WAL mode), over the statements of SQL the stores use.

    A table is the list of its rows in the order they were inserted.  SQL fixes
    the order of a result only through `ORDER BY`, so a query first reads the
    table in an order of the engine's choice: [scan], of which only that it
    neither loses nor invents rows is known.  An `INTEGER` is 64 bits wide; the
    driver refuses a Python `int` that does not fit. *)

From Stdlib Require Import ZArith Lia Ascii String.
From stdpp Require Import base tactics list gmap strings sorting.
From S2P Require Import Prelude PyValue Digest IsoText.
Open Scope Z_scope.
Open Scope asap_scope.

(** ** Errors *)
Inductive sqlexn : Type :=
| PyExn (e : pyexn)
| IntegrityError (msg : string)
| OperationalError (msg : string).

(** ** What the engine leaves open, and the readers of stored texts *)
Class SqlScan : Type := {
  scan : ∀ {R : Type}, list R → list R;
  scan_perm : ∀ R (rows : list R), scan rows ≡ₚ rows
}.

(** `datetime.fromisoformat` and `json.loads`; [None]: they raise `ValueError`
    (`JSONDecodeError` is one). *)
Class Readers : Type := {
  iso_read : string → option pydatetime;
  loads : string → option json
}.

(** ** Statements *)
Section Statements.
  Context {R : Type}.
  Implicit Types (rows : list R) (P : R → bool).

(** `DELETE FROM t WHERE P`, with the number of rows deleted. *)
Definition delete_where P rows : list R * Z :=
  (base.filter (λ r, negb (P r) = true) rows,
   Z.of_nat (length (base.filter (λ r, P r = true) rows))).

(** `UPDATE t SET ... WHERE P`. *)
Definition update_where P (set : R → R) rows : list R * Z :=
  (map (λ r, if P r then set r else r) rows,
   Z.of_nat (length (base.filter (λ r, P r = true) rows))).

(** `LIMIT ? OFFSET ?`: a negative limit is none, a negative offset is 0. *)
Definition limit_offset (limit offset : Z) rows : list R :=
  let rest := drop (Z.to_nat offset) rows in
  if limit <? 0 then rest else take (Z.to_nat limit) rest.

Section Keyed.
  Context {K : Type} `{EqDecision K} (key : R → K).

(** `INSERT OR REPLACE`: the rows with the key go, the new row comes last. *)
Definition insert_or_replace (r : R) rows : list R :=
  base.filter (λ x, key x ≠ key r) rows ++ [r].

(** `INSERT` into a table with that key. *)
Definition insert_unique (r : R) rows : res sqlexn (list R) :=
  if existsb (λ x, bool_decide (key x = key r)) rows
  then Raise (IntegrityError "UNIQUE constraint failed")
  else Ret (rows ++ [r]).

Definition keys_unique rows : Prop := NoDup (map key rows).

(** The row of a key. *)
Definition row_of (k : K) rows : option R := head (base.filter (λ x, key x = k) rows).

Lemma keys_unique_filter (Q : R → Prop) `{∀ x, Decision (Q x)} rows :
  keys_unique rows → keys_unique (base.filter Q rows).
Proof.
  unfold keys_unique. intros Hn. eapply sublist_NoDup; [done|].
  apply (fmap_sublist key), sublist_filter.
Qed.

Lemma keys_unique_replace r rows : keys_unique rows → keys_unique (insert_or_replace r rows).
Proof.
  intros Hn. unfold insert_or_replace, keys_unique. rewrite map_app. simpl.
  apply NoDup_app_single; [by apply keys_unique_filter|].
  intros (x & Hx & Hin)%list_elem_of_fmap. apply list_elem_of_filter in Hin as [Hne _]. congruence.
Qed.

Lemma keys_unique_delete P rows : keys_unique rows → keys_unique (delete_where P rows).1.
Proof. apply keys_unique_filter. Qed.

Lemma filter_key_le1 k rows : keys_unique rows → (length (base.filter (λ x, key x = k) rows) <= 1)%nat.
Proof.
  intros Hn. pose proof (keys_unique_filter (λ x, key x = k) rows Hn) as Hf.
  destruct (base.filter (λ x, key x = k) rows) as [|a [|b l]] eqn:E; simpl; [lia|lia|exfalso].
  assert (Hk : ∀ x, x ∈ a :: b :: l → key x = k)
    by (intros x Hx; rewrite <- E in Hx; by apply list_elem_of_filter in Hx as [? _]).
  unfold keys_unique in Hf. simpl in Hf. rewrite (Hk a), (Hk b) in Hf by set_solver.
  apply NoDup_cons in Hf as [Hnin _]. apply Hnin. by left.
Qed.

Lemma row_of_Some k rows r : keys_unique rows →
  row_of k rows = Some r ↔ r ∈ rows ∧ key r = k.
Proof.
  intros Hn. unfold row_of. pose proof (filter_key_le1 k rows Hn) as Hl. split.
  - intros Hh. assert (Hin : r ∈ base.filter (λ x, key x = k) rows).
    { destruct (base.filter _ rows); simplify_eq/=. by left. }
    apply list_elem_of_filter in Hin. tauto.
  - intros [Hin Hk]. assert (Hf : r ∈ base.filter (λ x, key x = k) rows) by (by apply list_elem_of_filter).
    destruct (base.filter (λ x, key x = k) rows) as [|a [|b l]]; simpl in *; [set_solver| |lia].
    by apply list_elem_of_singleton in Hf as ->.
Qed.

Lemma row_of_None k rows : row_of k rows = None ↔ ∀ r, r ∈ rows → key r ≠ k.
Proof.
  unfold row_of. rewrite head_None. split.
  - intros Hf r Hin Hk. assert (r ∈ base.filter (λ x, key x = k) rows) as Hr by (by apply list_elem_of_filter).
    rewrite Hf in Hr. by apply elem_of_nil in Hr.
  - intros Ha. destruct (base.filter _ rows) as [|a l] eqn:E; [done|exfalso].
    assert (a ∈ base.filter (λ x, key x = k) rows) as Hr by (rewrite E; by left).
    apply list_elem_of_filter in Hr as [? ?]. by apply (Ha a).
Qed.

Lemma row_of_replace k r rows : keys_unique rows →
  row_of k (insert_or_replace r rows) = if decide (k = key r) then Some r else row_of k rows.
Proof.
  intros Hn. pose proof (keys_unique_replace r rows Hn) as Hn'. unfold insert_or_replace in *.
  case_decide as Hk.
  - apply row_of_Some; [done|]. split; [set_solver|done].
  - destruct (row_of k rows) as [x|] eqn:E.
    + apply row_of_Some in E as [Hin Hx]; [|done]. apply row_of_Some; [done|]. split; [|done].
      apply elem_of_app. left. apply list_elem_of_filter. split; [congruence|done].
    + apply row_of_None. intros x [Hx|Hx]%elem_of_app.
      * apply list_elem_of_filter in Hx as [_ Hin]. by eapply row_of_None in E.
      * apply list_elem_of_singleton in Hx as ->. congruence.
Qed.

Lemma row_of_delete k P rows : keys_unique rows →
  row_of k (delete_where P rows).1 =
  match row_of k rows with Some r => if P r then None else Some r | None => None end.
Proof.
  intros Hn. destruct (row_of k rows) as [r|] eqn:E.
  - apply row_of_Some in E as [Hin Hk]; [|done]. destruct (P r) eqn:HP.
    + apply row_of_None. intros x [Hx Hxin]%list_elem_of_filter Hkx.
      assert (x = r) as ->; [|by rewrite HP in Hx].
      assert (row_of k rows = Some x) by (by apply row_of_Some).
      assert (row_of k rows = Some r) by (by apply row_of_Some). congruence.
    + apply row_of_Some; [by apply keys_unique_delete|]. split; [|done].
      apply list_elem_of_filter. by rewrite HP.
  - apply row_of_None. intros x [_ Hx]%list_elem_of_filter. by eapply row_of_None in E.
Qed.

End Keyed.

Lemma Forall_filtered (G Q : R → Prop) `{∀ x, Decision (Q x)} rows : Forall G rows → Forall G (base.filter Q rows).
Proof. rewrite !Forall_forall. intros Hg x [_ Hx]%list_elem_of_filter. by apply Hg. Qed.

Lemma deleted_some P rows : (0 <? (delete_where P rows).2) = true ↔ ∃ r, r ∈ rows ∧ P r = true.
Proof.
  unfold delete_where. simpl. rewrite Z.ltb_lt. split.
  - intros Hl. destruct (base.filter (λ r, P r = true) rows) as [|a l] eqn:E; simpl in Hl; [lia|].
    exists a. assert (a ∈ base.filter (λ r, P r = true) rows) as Ha by (rewrite E; by left).
    apply list_elem_of_filter in Ha. tauto.
  - intros (r & Hin & HP). assert (Hf : r ∈ base.filter (λ r, P r = true) rows) by (by apply list_elem_of_filter).
    destruct (base.filter (λ r, P r = true) rows); simpl; [by apply elem_of_nil in Hf|lia].
Qed.

(** `SELECT * FROM t WHERE P`, `SELECT ... WHERE key = ?` and the first row. *)
Section Select.
  Context `{SqlScan}.

Definition select P rows : list R := base.filter (λ r, P r = true) (scan rows).

Definition select_one P rows : option R := head (select P rows).

Lemma elem_of_select P rows r : r ∈ select P rows ↔ P r = true ∧ r ∈ rows.
Proof. unfold select. by rewrite list_elem_of_filter, scan_perm. Qed.

Lemma select_perm P rows : select P rows ≡ₚ base.filter (λ r, P r = true) rows.
Proof. unfold select. by rewrite scan_perm. Qed.

(** A look-up by key does not depend on the engine's order. *)
Lemma select_one_key {K} `{EqDecision K} (key : R → K) k P rows :
  keys_unique key rows → (∀ r, P r = true ↔ key r = k) → select_one P rows = row_of key k rows.
Proof.
  intros Hn HP. unfold select_one. destruct (select P rows) as [|r l] eqn:E; simpl; symmetry.
  - apply row_of_None. intros r Hin Hk.
    assert (r ∈ select P rows) as Hr by (apply elem_of_select; split; [by apply HP|done]).
    rewrite E in Hr. by apply elem_of_nil in Hr.
  - assert (r ∈ select P rows) as Hr by (rewrite E; by left).
    apply elem_of_select in Hr as [? ?]. apply row_of_Some; [done|]. split; [done|by apply HP].
Qed.

End Select.
End Statements.
Arguments row_of_Some {R K _ key} k rows r.
Arguments row_of_None {R K _ key} k rows.

(** ** `ORDER BY` a text column *)
Definition by_text {R} (column : R → string) (a b : R) : Prop := text_cmp (column a) (column b) ≠ Gt.
#[export] Instance by_text_dec {R} (column : R → string) a b : Decision (by_text column a b).
Proof. unfold by_text. apply _. Defined.

Lemma by_text_total {R} (column : R → string) : Total (by_text column).
Proof.
  intros a b. unfold by_text, text_cmp. rewrite (String.compare_antisym (column b)).
  destruct (String.compare (column a) (column b)); simpl; [by left|by left|by right].
Qed.

Lemma filter_map_pred {A B} (f : A → B) (P : B → bool) (Q : A → bool) l :
  (∀ x, x ∈ l → P (f x) = Q x) →
  base.filter (λ b, P b = true) (map f l) = map f (base.filter (λ a, Q a = true) l).
Proof.
  induction l as [|x l IH]; intros Hpq; [done|]. simpl. rewrite !filter_cons, (Hpq x) by (by left).
  destruct (Q x); simpl; rewrite IH by (intros y Hy; apply Hpq; by right); done.
Qed.

(** Two lists sorted by keys that differ, with the same elements, are equal. *)
Lemma sorted_unique_by {A} (key : A → Z) (l l' : list A) :
  Sorted (λ a b, key a <= key b) l → Sorted (λ a b, key a <= key b) l' → l ≡ₚ l' → NoDup (map key l) → l = l'.
Proof.
  intros Hl Hl' Hp Hn. assert (Ht : Transitive (λ a b, key a <= key b)) by (intros a b c; lia).
  apply (StronglySorted_unique_strong (λ a b, key a <= key b));
    [|by apply Sorted_StronglySorted|by apply Sorted_StronglySorted|done].
  intros x y Hx Hy. rewrite <- Hp in Hy. intros H2 H3.
  assert (Heq : key x = key y) by lia. clear -Hn Hx Hy Heq.
  induction l as [|z l IH]; simpl in *; [by apply elem_of_nil in Hx|].
  apply NoDup_cons in Hn as [Hz Hn]. apply elem_of_cons in Hx. apply elem_of_cons in Hy.
  destruct Hx as [->|Hx], Hy as [->|Hy]; [done|..|by apply IH]; destruct Hz; apply list_elem_of_fmap; eauto.
Qed.

(** What `SELECT ... WHERE ... ORDER BY column` reads from the rows of values
    whose column orders like their key: the matching values, sorted by key. *)
Section SortedSelection.
  Context `{SqlScan} {A R : Type} (to_row : A → R) (column : R → string) (key : A → Z) (good : A → Prop).
  Hypothesis column_cmp : ∀ a b, good a → good b →
    text_cmp (column (to_row a)) (column (to_row b)) = (key a ?= key b).

#[local] Instance pulled_dec a b : Decision (by_text column (to_row a) (to_row b)).
Proof. apply _. Defined.

Lemma sorted_selection ps (P : R → bool) (Q : A → bool) :
  Forall good ps → (∀ p, good p → P (to_row p) = Q p) →
  ∃ qs, PySort.sorted (by_text column) (select P (map to_row ps)) = map to_row qs
        ∧ Forall good qs ∧ qs ≡ₚ base.filter (λ a, Q a = true) ps ∧ Sorted (λ a b, key a <= key b) qs.
Proof.
  intros Hg HPQ. pose proof (scan_perm _ (map to_row ps)) as Hsp.
  apply Permutation_map_inv in Hsp as (ps' & Hscan & Hperm).
  assert (Hg' : Forall good ps') by (by rewrite <- Hperm). unfold select. rewrite Hscan.
  rewrite (filter_map_pred to_row P Q)
    by (intros p Hp; apply HPQ; rewrite Forall_forall in Hg'; by apply Hg').
  set (sel := base.filter (λ p, Q p = true) ps').
  rewrite (PySort.sorted_map (λ a b, by_text column (to_row a) (to_row b)) (by_text column) to_row sel) by done.
  set (qs := PySort.sorted (λ a b, by_text column (to_row a) (to_row b)) sel).
  assert (Hgs : Forall good qs).
  { subst qs. rewrite PySort.sorted_Permutation. by apply Forall_filtered. }
  exists qs. split_and!; [done|done| |].
  - subst qs sel. by rewrite PySort.sorted_Permutation, Hperm.
  - assert (Hs : Sorted (λ a b, by_text column (to_row a) (to_row b)) qs).
    { apply PySort.Sorted_sorted. intros a b. apply by_text_total. }
    clearbody qs. induction Hs as [|p qs Hs IH Hd]; [constructor|].
    apply Forall_cons in Hgs as [Hp Hgs]. constructor; [by apply IH|].
    destruct Hd as [|q qs Hpq]; constructor. apply Forall_cons in Hgs as [Hq _].
    unfold by_text in Hpq. rewrite column_cmp in Hpq by done. by rewrite Z.compare_gt_iff, Z.nlt_ge in Hpq.
Qed.
End SortedSelection.

(** `int` to `INTEGER`. *)
Definition sql_int (z : Z) : res sqlexn Z :=
  if (- 2 ^ 63 <=? z) && (z <? 2 ^ 63) then Ret z
  else Raise (PyExn (OverflowError "Python int too large to convert to SQLite INTEGER")).

Lemma sql_int_in z : - 2 ^ 63 <= z < 2 ^ 63 → sql_int z = Ret z.
Proof.
  intros Hz. unfold sql_int. rewrite (proj2 (Z.leb_le _ _)), (proj2 (Z.ltb_lt _ _)); [done|lia|lia].
Qed.

(** ** Helpers of the repository *)

(** `parse_iso(value)` *)
Definition parse_iso `{Readers} (value : option string) : option pydatetime :=
  match value with
  | Some v => if PyStr.truthy v then iso_read (replace_z v) else None
  | None => None
  end.

(** `sep.join(parts)` *)
Definition str_join (sep : string) (parts : list string) : string := String.concat sep parts.

(** The characters of a text. *)
Fixpoint chars_ok (allowed : ascii → bool) (s : string) : bool :=
  match s with EmptyString => true | String c s' => allowed c && chars_ok allowed s' end.

Definition _assert_sql_in_placeholders (placeholders : string) : res pyexn string :=
  if chars_ok (λ c, Ascii.eqb c "?" || Ascii.eqb c ",") placeholders then Ret placeholders
  else Raise (ValueError "placeholders must be `?,?,…` only").

Definition _build_sql_in_placeholders (count : nat) : res pyexn string :=
  _assert_sql_in_placeholders (str_join "," (replicate count "?"%string)).

(** `build_where(filters, allowed)`: the conditions and their parameters; the
    text of the clause joins them. *)
Fixpoint where_parts {V} (filters : list (string * option V)) (allowed : list (string * string)) :
    res pyexn (list string * list V) :=
  match filters with
  | [] => Ret ([], [])
  | (_, None) :: rest => where_parts rest allowed
  | (key, Some value) :: rest =>
      match PyDict.get key allowed with
      | None => Raise (ValueError ("unknown filter " ++ repr_str key)%string)
      | Some fragment =>
          let! cp := where_parts rest allowed in
          Ret (fragment :: fst cp, value :: snd cp)
      end
  end.

Definition where_text (conditions : list string) : string :=
  match conditions with [] => "1=1" | _ => str_join " AND " conditions end.

Definition build_where {V} (filters : list (string * option V)) (allowed : list (string * string)) :
    res pyexn (string * list V) :=
  let! cp := where_parts filters allowed in Ret (where_text (fst cp), snd cp).

(** The meaning of a clause: every condition holds of its parameter. *)
Fixpoint where_holds {R V} (sem : string → V → R → bool) (conditions : list string) (params : list V)
    (r : R) : bool :=
  match conditions, params with
  | c :: cs, v :: vs => sem c v r && where_holds sem cs vs r
  | _, _ => true
  end.

Lemma where_parts_sem {R V} (sem : string → V → R → bool) filters allowed cs vs (r : R) :
  where_parts filters allowed = Ret (cs, vs) →
  length cs = length vs ∧
  where_holds sem cs vs r =
  forallb (λ kv, match snd kv with
                 | None => true
                 | Some v => match PyDict.get (fst kv) allowed with Some c => sem c v r | None => true end
                 end) filters.
Proof.
  revert cs vs. induction filters as [|[k [v|]] filters IH]; intros cs vs; simpl.
  - intros ?. by simplify_eq.
  - destruct (PyDict.get k allowed) as [c|]; simpl; [|done].
    destruct (where_parts filters allowed) as [|[cs' vs']] eqn:E; simpl; [done|].
    intros ?. simplify_eq. destruct (IH cs' vs' eq_refl) as [Hl Hs]. simpl.
    split; [by rewrite Hl|by rewrite Hs].
  - apply IH.
Qed.

(** Every condition of a clause is a fragment of the allow-list: no filter value
    reaches the text of a query. *)
Lemma where_parts_allowed {V} (filters : list (string * option V)) allowed cs vs c :
  where_parts filters allowed = Ret (cs, vs) → c ∈ cs → c ∈ map snd allowed.
Proof.
  revert cs vs. induction filters as [|[k [v|]] filters IH]; intros cs vs; simpl.
  - intros ? Hc. simplify_eq. by apply elem_of_nil in Hc.
  - destruct (PyDict.get k allowed) as [f|] eqn:Hf; simpl; [|done].
    destruct (where_parts filters allowed) as [|[cs' vs']]; simpl; [done|].
    intros ? Hin. simplify_eq. apply elem_of_cons in Hin as [->|Hin]; [|by eapply IH].
    apply PyDict.get_Some_elem in Hf. apply list_elem_of_fmap. by exists (k, f).
  - apply IH.
Qed.

(** ** WAL mode: the files already switched, at most 512 of them *)
Definition _MAX_WAL_METADATA_KEYS : nat := 512.

(** `_wal_mark_initialized`: a known file moves to the end, a new one is added
    there and the oldest are dropped while there are too many. *)
Definition _wal_mark_initialized (db_key : string) (lru : list string) : list string :=
  if decide (db_key ∈ lru) then base.filter (λ k, k ≠ db_key) lru ++ [db_key]
  else let l := lru ++ [db_key] in drop (length l - _MAX_WAL_METADATA_KEYS) l.

Inductive pragma : Type := BusyTimeout15000 | JournalModeWal | SynchronousNormal.

(** `_apply_wal_pragmas`: the pragmas sent, and the record of files. *)
Definition _apply_wal_pragmas (db_key : string) (lru : list string) : list pragma * list string :=
  if decide (db_key ∈ lru) then ([BusyTimeout15000; SynchronousNormal], lru)
  else ([BusyTimeout15000; JournalModeWal; SynchronousNormal], _wal_mark_initialized db_key lru).

(** Whatever files are opened, in whatever order, the record stays within its
    bound, holds no file twice, and a file just opened is in it. *)
Theorem wal_record_is_bounded (opened : list string) :
  let lru := fold_left (λ l k, snd (_apply_wal_pragmas k l)) opened [] in
  (length lru <= _MAX_WAL_METADATA_KEYS)%nat ∧ NoDup lru
  ∧ ∀ k, last opened = Some k → k ∈ lru.
Proof.
  assert (Hstep : ∀ k l, (length l <= _MAX_WAL_METADATA_KEYS)%nat → NoDup l →
    let l' := snd (_apply_wal_pragmas k l) in
    (length l' <= _MAX_WAL_METADATA_KEYS)%nat ∧ NoDup l' ∧ k ∈ l').
  { intros k l Hl Hn. unfold _apply_wal_pragmas, _wal_mark_initialized.
    destruct (decide (k ∈ l)) as [Hk|Hk]; simpl; [done|].
    set (m := l ++ [k]). split_and!.
    - rewrite length_drop. lia.
    - eapply sublist_NoDup; [by apply NoDup_app_single|apply sublist_drop].
    - assert (1 <= _MAX_WAL_METADATA_KEYS)%nat by (unfold _MAX_WAL_METADATA_KEYS; lia).
      subst m. rewrite length_app. simpl. rewrite drop_app.
      replace (length l + 1 - _MAX_WAL_METADATA_KEYS - length l)%nat with 0%nat by lia.
      apply elem_of_app. right. by left. }
  assert (Hall : ∀ opened l, (length l <= _MAX_WAL_METADATA_KEYS)%nat → NoDup l →
    let lru := fold_left (λ l k, snd (_apply_wal_pragmas k l)) opened l in
    (length lru <= _MAX_WAL_METADATA_KEYS)%nat ∧ NoDup lru ∧ ∀ k, last opened = Some k → k ∈ lru).
  { clear opened. induction opened as [|k opened IH]; intros l Hl Hn; [done|].
    destruct (Hstep k l Hl Hn) as (Hl' & Hn' & Hk). simpl.
    destruct (IH _ Hl' Hn') as (? & ? & Hlast). split_and!; [done|done|].
    intros k'. destruct opened as [|k2 opened]; [by intros [= <-]|]. intros ?. by apply Hlast. }
  apply Hall; [unfold _MAX_WAL_METADATA_KEYS; simpl; lia|constructor].
Qed.

(** ** The repository

    [rp_db] is what the database file holds, [None] while its tables do not
    exist; [rp_initialized] is the instance's flag. *)
Record Repo (T : Type) : Type := mkRepo { rp_initialized : bool; rp_db : option T }.
Arguments mkRepo {T}.
Arguments rp_initialized {T}.
Arguments rp_db {T}.

Section Repository.
  Context {T : Type} (empty : T).

(** `_ensure_schema`: `CREATE TABLE IF NOT EXISTS` once per instance. *)
Definition _ensure_schema (r : Repo T) : Repo T :=
  if rp_initialized r then r else mkRepo true (Some (default empty (rp_db r))).

Definition no_table : sqlexn := OperationalError "no such table".

(** `execute(sql, params)`: a statement that fails leaves the tables as they were. *)
Definition execute {A} (stmt : T → res sqlexn (T * A)) (r : Repo T) : Repo T * res sqlexn A :=
  let r := _ensure_schema r in
  match rp_db r with
  | None => (r, Raise no_table)
  | Some db =>
      match stmt db with
      | Raise e => (r, Raise e)
      | Ret (db', a) => (mkRepo (rp_initialized r) (Some db'), Ret a)
      end
  end.

(** `fetch_all` and `fetch_one` *)
Definition fetch {A} (query : T → res sqlexn A) (r : Repo T) : Repo T * res sqlexn A :=
  let r := _ensure_schema r in
  match rp_db r with
  | None => (r, Raise no_table)
  | Some db => (r, query db)
  end.

(** `transaction()`: the body works on one connection; its writes are kept when
    it ends and rolled back when it raises. *)
Definition transaction {A} (body : T → T * res sqlexn A) (r : Repo T) : Repo T * res sqlexn A :=
  let r := _ensure_schema r in
  match rp_db r with
  | None => (r, Raise no_table)
  | Some db =>
      match body db with
      | (db', Ret a) => (mkRepo (rp_initialized r) (Some db'), Ret a)
      | (_, Raise e) => (r, Raise e)
      end
  end.

(** An instance that has set its tables up has tables, and what it reads is what
    the file holds, or the empty tables. *)
Definition repo_ok (r : Repo T) : Prop := rp_initialized r = true → is_Some (rp_db r).
Definition contents (r : Repo T) : T := default empty (rp_db r).

Lemma ensure_schema_db r : repo_ok r →
  rp_db (_ensure_schema r) = Some (contents r) ∧ repo_ok (_ensure_schema r).
Proof.
  unfold repo_ok, _ensure_schema, contents. destruct r as [[] [db|]]; simpl; intros Hr; try done; eauto.
  by destruct (Hr eq_refl).
Qed.

Lemma execute_ok {A} (stmt : T → res sqlexn (T * A)) r : repo_ok r →
  repo_ok (fst (execute stmt r)) ∧
  contents (fst (execute stmt r)) = match stmt (contents r) with Ret (db, _) => db | Raise _ => contents r end ∧
  snd (execute stmt r) = match stmt (contents r) with Ret (_, a) => Ret a | Raise e => Raise e end.
Proof.
  intros Hr. destruct (ensure_schema_db r Hr) as [Hdb Hok]. unfold execute. rewrite Hdb.
  destruct (stmt (contents r)) as [e|[db a]]; simpl; split_and!; try done.
  - unfold contents. by rewrite Hdb.
  - unfold repo_ok. simpl. eauto.
Qed.

Lemma fetch_ok {A} (query : T → res sqlexn A) r : repo_ok r →
  repo_ok (fst (fetch query r)) ∧ contents (fst (fetch query r)) = contents r ∧
  snd (fetch query r) = query (contents r).
Proof.
  intros Hr. destruct (ensure_schema_db r Hr) as [Hdb Hok]. unfold fetch. rewrite Hdb. simpl.
  split_and!; [done|unfold contents; by rewrite Hdb|done].
Qed.

Lemma fetch_out {A} (query : T → res sqlexn A) r : repo_ok r → snd (fetch query r) = query (contents r).
Proof. intros Hr. apply (fetch_ok query r Hr). Qed.

Lemma transaction_ok {A} (body : T → T * res sqlexn A) r : repo_ok r →
  repo_ok (fst (transaction body r)) ∧
  contents (fst (transaction body r)) =
    match snd (body (contents r)) with Ret _ => fst (body (contents r)) | Raise _ => contents r end ∧
  snd (transaction body r) = snd (body (contents r)).
Proof.
  intros Hr. destruct (ensure_schema_db r Hr) as [Hdb Hok]. unfold transaction. rewrite Hdb.
  destruct (body (contents r)) as [db [e|a]]; simpl; split_and!; try done.
  - unfold contents. by rewrite Hdb.
  - unfold repo_ok. simpl. eauto.
Qed.

End Repository.

Lemma repo_ok_fresh {T} (db : option T) : repo_ok (mkRepo false db).
Proof. done. Qed.
#[export] Hint Resolve repo_ok_fresh : asap.
