(* ===== verification/TaskMachine.v ===== *)
(** * The task state machine

    `src/src/asap/models/enums.py` (TaskStatus), the `Task` entity of
    `src/src/asap/models/entities.py` and `src/src/asap/state/machine.py`:
    statuses, the table of valid transitions, and `transition`, which validates
    a request, counts it in the metrics and returns an updated copy. *)

From Stdlib Require Import ZArith Lia String.
From stdpp Require Import base tactics list gmap strings relations.
From S2P Require Import Prelude PyValue.
Open Scope Z_scope.

Inductive TaskStatus : Type :=
| SUBMITTED | WORKING | COMPLETED | FAILED | CANCELLED | INPUT_REQUIRED.

#[export] Instance TaskStatus_eq_dec : EqDecision TaskStatus.
Proof. solve_decision. Defined.

(** `.value` *)
Definition status_value (s : TaskStatus) : string :=
  match s with
  | SUBMITTED => "submitted"
  | WORKING => "working"
  | COMPLETED => "completed"
  | FAILED => "failed"
  | CANCELLED => "cancelled"
  | INPUT_REQUIRED => "input_required"
  end.

Definition terminal_states : list TaskStatus := [COMPLETED; FAILED; CANCELLED].
Definition is_terminal (s : TaskStatus) : bool := bool_decide (s ∈ terminal_states).

Record Task : Type := mkTask {
  t_id : string;
  t_conversation_id : string;
  t_parent_task_id : option string;
  t_status : TaskStatus;
  t_depth : Z;
  t_progress : option (list (string * json));
  t_created_at : Z;
  t_updated_at : Z
}.

Definition MAX_TASK_DEPTH : Z := 10.

(** The field constraint `ge=0, le=MAX_TASK_DEPTH`. *)
Definition task_valid (t : Task) : Prop := 0 <= t_depth t <= MAX_TASK_DEPTH.

Definition task_is_terminal (t : Task) : bool := is_terminal (t_status t).
Definition can_be_cancelled (t : Task) : bool :=
  bool_decide (t_status t ∈ [SUBMITTED; WORKING]).

Definition VALID_TRANSITIONS (s : TaskStatus) : list TaskStatus :=
  match s with
  | SUBMITTED => [WORKING; CANCELLED]
  | WORKING => [COMPLETED; FAILED; CANCELLED; INPUT_REQUIRED]
  | INPUT_REQUIRED => [WORKING; CANCELLED]
  | COMPLETED => []
  | FAILED => []
  | CANCELLED => []
  end.

Definition can_transition (from_status to_status : TaskStatus) : bool :=
  bool_decide (to_status ∈ VALID_TRANSITIONS from_status).

Record InvalidTransition : Type := mkInvalidTransition {
  it_from_state : string; it_to_state : string; it_task_id : string }.

(** The counter `asap_state_transitions_total`, by its two labels. *)
Abbreviation TransitionCounter := (gmap (string * string) Z).

Definition increment_counter (labels : string * string) (m : TransitionCounter) : TransitionCounter :=
  <[labels := default 0 (m !! labels) + 1]> m.

(** [now] is the clock reading `datetime.now(timezone.utc)`. *)
Definition transition (now : Z) (task : Task) (new_status : TaskStatus)
    (metrics : TransitionCounter) : TransitionCounter * res InvalidTransition Task :=
  if negb (can_transition (t_status task) new_status) then
    (metrics, Raise (mkInvalidTransition (status_value (t_status task)) (status_value new_status)
                       (t_id task)))
  else
    (increment_counter (status_value (t_status task), status_value new_status) metrics,
     Ret (mkTask (t_id task) (t_conversation_id task) (t_parent_task_id task) new_status
            (t_depth task) (t_progress task) (t_created_at task) now)).

(** ** Runs: a caller that asks for statuses one after the other and keeps the
    task it had when a request is refused. *)
Definition attempt (st : TransitionCounter * Task) (req : TaskStatus * Z) : TransitionCounter * Task :=
  match transition (snd req) (snd st) (fst req) (fst st) with
  | (m, Ret t) => (m, t)
  | (m, Raise _) => (m, snd st)
  end.

Definition run (st : TransitionCounter * Task) (reqs : list (TaskStatus * Z)) :
    TransitionCounter * Task := fold_left attempt reqs st.

(** Statuses along a run, the initial one included. *)
Fixpoint history (st : TransitionCounter * Task) (reqs : list (TaskStatus * Z)) : list TaskStatus :=
  t_status (snd st) ::
  match reqs with [] => [] | r :: rs => history (attempt st r) rs end.

(** One accepted transition between statuses. *)
Definition status_step (a b : TaskStatus) : Prop := can_transition a b = true.

Definition total_transitions (m : TransitionCounter) : Z := map_fold (λ _ n acc, n + acc) 0 m.

(** ** Lemmas *)

Lemma run_snoc st reqs r : run st (reqs ++ [r]) = attempt (run st reqs) r.
Proof. unfold run. by rewrite fold_left_app. Qed.

Lemma attempt_cases st req :
  (can_transition (t_status (snd st)) (fst req) = false ∧ attempt st req = st)
  ∨ (can_transition (t_status (snd st)) (fst req) = true
     ∧ t_status (snd (attempt st req)) = fst req
     ∧ t_updated_at (snd (attempt st req)) = snd req
     ∧ t_depth (snd (attempt st req)) = t_depth (snd st)
     ∧ fst (attempt st req) =
         increment_counter (status_value (t_status (snd st)), status_value (fst req)) (fst st)).
Proof.
  destruct st as [m t], req as [s now]. unfold attempt, transition. simpl.
  destruct (can_transition (t_status t) s) eqn:E; simpl; [right|left]; by rewrite ?E.
Qed.

Lemma status_value_inj s1 s2 : status_value s1 = status_value s2 → s1 = s2.
Proof. by destruct s1, s2. Qed.

Lemma terminal_stuck s t : is_terminal s = true → can_transition s t = false.
Proof. by destruct s, t. Qed.

Lemma attempt_terminal st req : is_terminal (t_status (snd st)) = true → attempt st req = st.
Proof.
  intros Ht. destruct (attempt_cases st req) as [[_ ?]|[Hc _]]; [done|].
  by rewrite terminal_stuck in Hc.
Qed.

Lemma run_terminal st reqs : is_terminal (t_status (snd st)) = true → run st reqs = st.
Proof.
  unfold run. revert st. induction reqs as [|r reqs IH]; intros st Ht; [done|].
  simpl. rewrite attempt_terminal by done. by apply IH.
Qed.

(** A status other than SUBMITTED at the end of a history that starts at
    SUBMITTED has a predecessor in the history that steps to it. *)
Lemma history_step st reqs :
  t_status (snd (run st reqs)) = t_status (snd st)
  ∨ ∃ s, s ∈ history st reqs ∧ status_step s (t_status (snd (run st reqs))).
Proof.
  revert st. induction reqs as [|r reqs IH]; intros st; [by left|].
  simpl. destruct (IH (attempt st r)) as [Heq|(s & Hs & Hstep)].
  - unfold run in *. simpl. rewrite Heq.
    destruct (attempt_cases st r) as [[_ ->]|(Hc & Hst & _)]; [by left|right].
    exists (t_status (snd st)). split; [left|]. unfold status_step. by rewrite Hst.
  - right. exists s. split; [by right|done].
Qed.

Lemma increment_counter_total labels m :
  total_transitions (increment_counter labels m) = total_transitions m + 1.
Proof.
  unfold total_transitions, increment_counter.
  assert (Hins : ∀ i (x : Z) (m' : TransitionCounter), m' !! i = None →
    map_fold (λ _ n acc, n + acc) 0 (<[i:=x]> m') = x + map_fold (λ _ n acc, n + acc) 0 m').
  { intros i x m' Hi. rewrite map_fold_insert_L; [done| |done]. intros; lia. }
  destruct (m !! labels) as [n|] eqn:E; simpl.
  - rewrite <- (insert_delete_id m labels n E) at 2. rewrite <- insert_delete_eq.
    rewrite !Hins by apply lookup_delete_eq. lia.
  - rewrite Hins by done. lia.
Qed.

(** ** Properties *)

(** The enum's `is_terminal` and the transition table agree: a status is
    terminal exactly when no status can follow it, and from every status a
    terminal one is reached by accepted transitions. *)
Theorem terminal_agrees_with_table (s : TaskStatus) :
  (is_terminal s = true ↔ ∀ t, can_transition s t = false)
  ∧ ∃ t, is_terminal t = true ∧ rtc status_step s t.
Proof.
  split.
  - split; [intros; by apply terminal_stuck|]. intros H.
    pose proof (H WORKING). pose proof (H CANCELLED). by destruct s.
  - exists (if is_terminal s then s else CANCELLED).
    destruct s; split; try done; by apply rtc_once.
Qed.

(** C24: A caller that drives a task from SUBMITTED with any sequence of status
    requests, ignoring refusals: a task that ends COMPLETED, FAILED or
    INPUT_REQUIRED has been WORKING before; once it is terminal, further
    requests change neither the task nor the metrics. *)
Theorem run_respects_lifecycle (m : TransitionCounter) (t : Task)
    (reqs more : list (TaskStatus * Z)) :
  t_status t = SUBMITTED →
  let st := run (m, t) reqs in
  (t_status (snd st) ∈ [COMPLETED; FAILED; INPUT_REQUIRED] → WORKING ∈ history (m, t) reqs)
  ∧ (is_terminal (t_status (snd st)) = true → run st more = st).
Proof.
  intros Hsub st. split; [|apply run_terminal].
  intros Hend. destruct (history_step (m, t) reqs) as [Heq|(s & Hs & Hstep)].
  - exfalso. subst st. rewrite Heq in Hend. simpl in Hend. rewrite Hsub in Hend. set_solver.
  - fold st in Hstep. unfold status_step in Hstep.
    by destruct s, (t_status (snd st)); try done; set_solver.
Qed.

Definition demo_task : Task := mkTask "task_1" "conv_1" None SUBMITTED 0 None 10 10.

Lemma run_respects_lifecycle_witness :
  WORKING ∈ history (∅, demo_task) [(COMPLETED, 11); (WORKING, 12); (COMPLETED, 13)]
  ∧ run (run (∅, demo_task) [(WORKING, 12); (COMPLETED, 13)]) [(WORKING, 14)]
    = run (∅, demo_task) [(WORKING, 12); (COMPLETED, 13)].
Proof.
  split.
  - apply (run_respects_lifecycle ∅ demo_task [(COMPLETED, 11); (WORKING, 12); (COMPLETED, 13)] []);
      [reflexivity|vm_compute; left].
  - apply (run_respects_lifecycle ∅ demo_task [(WORKING, 12); (COMPLETED, 13)] [(WORKING, 14)]);
      reflexivity.
Defined.

(** What one request does: it is refused exactly when the table does not
    list it, and then the error names both statuses and the task and no metric
    changes; otherwise the copy differs from the task only in status and
    `updated_at`, stays a valid task, and exactly one transition is counted. *)
Theorem transition_spec (now : Z) (t : Task) (s : TaskStatus) (m : TransitionCounter) :
  match transition now t s m with
  | (m', Raise e) =>
      can_transition (t_status t) s = false ∧ m' = m
      ∧ e = mkInvalidTransition (status_value (t_status t)) (status_value s) (t_id t)
  | (m', Ret t') =>
      can_transition (t_status t) s = true
      ∧ t' = mkTask (t_id t) (t_conversation_id t) (t_parent_task_id t) s (t_depth t)
               (t_progress t) (t_created_at t) now
      ∧ (task_valid t → task_valid t')
      ∧ total_transitions m' = total_transitions m + 1
      ∧ is_terminal (t_status t) = false
  end.
Proof.
  unfold transition. destruct (can_transition (t_status t) s) eqn:E; simpl; [|done].
  split_and!; try done; [apply increment_counter_total|].
  destruct (is_terminal (t_status t)) eqn:Et; [|done]. by rewrite terminal_stuck in E.
Qed.

(** The cancellation predicate of a task is strictly narrower than the
    machine: a task waiting for input may be cancelled by the machine and yet
    `can_be_cancelled` denies it; in every other status the two agree. *)
Theorem can_be_cancelled_narrower (t : Task) :
  (can_be_cancelled t = true → can_transition (t_status t) CANCELLED = true)
  ∧ (can_be_cancelled t ≠ can_transition (t_status t) CANCELLED ↔ t_status t = INPUT_REQUIRED).
Proof. unfold can_be_cancelled. by destruct (t_status t). Qed.
