(* ===== verification/Snapshot.v ===== *)
(** * Snapshot stores

    The contract of `src/src/asap/state/snapshot.py` (SnapshotStore) as a class
    with laws, and its in-memory implementation
    `src/src/asap/state/stores/memory.py` (InMemorySnapshotStore): two
    dictionaries, the snapshots of each task by version and the latest version
    of each task.  The asyncio variant has the same bodies under another lock;
    both run each operation to its end under the lock, so an operation is one
    step here. *)

From Stdlib Require Import ZArith Lia String.
From stdpp Require Import base tactics list gmap strings sorting.
From S2P Require Import Prelude PyValue.
Open Scope Z_scope.

Record StateSnapshot : Type := mkSnapshot {
  sn_id : string;
  sn_task_id : string;
  sn_version : Z;
  sn_data : list (string * json);
  sn_checkpoint : bool;
  sn_created_at : Z
}.

(** The field constraint `version >= 1`. *)
Definition snapshot_valid (s : StateSnapshot) : Prop := 1 <= sn_version s.

(** ** The contract *)
Class SnapshotStore (S : Type) : Type := {
  ss_inv : S → Prop;
  (** what the store holds for a task and a version *)
  ss_view : S → string → Z → option StateSnapshot;
  ss_empty : S;
  ss_save : StateSnapshot → S → S;
  ss_get : string → option Z → S → option StateSnapshot;
  ss_list_versions : string → S → list Z;
  ss_delete : string → option Z → S → S * bool;

  ss_empty_ok : ss_inv ss_empty ∧ ∀ t v, ss_view ss_empty t v = None;
  ss_save_inv : ∀ sn s, snapshot_valid sn → ss_inv s → ss_inv (ss_save sn s);
  ss_save_view : ∀ sn s t v, snapshot_valid sn → ss_inv s →
    ss_view (ss_save sn s) t v =
      if decide (t = sn_task_id sn ∧ v = sn_version sn) then Some sn else ss_view s t v;
  ss_get_version : ∀ t v s, ss_inv s → ss_get t (Some v) s = ss_view s t v;
  ss_get_latest : ∀ t s, ss_inv s →
    match ss_get t None s with
    | Some sn => ss_view s t (sn_version sn) = Some sn
                 ∧ ∀ v sn', ss_view s t v = Some sn' → v <= sn_version sn
    | None => ∀ v, ss_view s t v = None
    end;
  ss_versions : ∀ t s, ss_inv s →
    StronglySorted Z.lt (ss_list_versions t s)
    ∧ ∀ v, v ∈ ss_list_versions t s ↔ is_Some (ss_view s t v);
  ss_delete_inv : ∀ t ov s, ss_inv s → ss_inv (fst (ss_delete t ov s));
  ss_delete_view : ∀ t ov s t' v', ss_inv s →
    ss_view (fst (ss_delete t ov s)) t' v' =
      if decide (t' = t ∧ (ov = None ∨ ov = Some v')) then None else ss_view s t' v';
  ss_delete_result : ∀ t ov s, ss_inv s →
    snd (ss_delete t ov s) = true ↔
    ∃ v, (ov = None ∨ ov = Some v) ∧ is_Some (ss_view s t v)
}.

(** ** The in-memory implementation *)
Module InMemorySnapshotStore.

Record t : Type := mk {
  snapshots : gmap string (gmap Z StateSnapshot);
  latest_versions : gmap string Z
}.

Definition init : t := mk ∅ ∅.

Definition versions (d : gmap Z StateSnapshot) : list Z := (map_to_list d).*1.

(** `sorted(d.keys())` *)
Definition sorted_keys (d : gmap Z StateSnapshot) : list Z := merge_sort Z.le (versions d).

(** `max(d.keys())` of a non-empty dictionary. *)
Definition max_key (d : gmap Z StateSnapshot) : Z :=
  match versions d with [] => 0 | v :: vs => fold_left Z.max vs v end.

Definition save (sn : StateSnapshot) (s : t) : t :=
  let task_id := sn_task_id sn in
  let s1 := match snapshots s !! task_id with
            | None => <[task_id := ∅]> (snapshots s)
            | Some _ => snapshots s
            end in
  let d := default ∅ (s1 !! task_id) in
  mk (<[task_id := <[sn_version sn := sn]> d]> s1)
     (<[task_id := Z.max (default 0 (latest_versions s !! task_id)) (sn_version sn)]>
        (latest_versions s)).

Definition get (task_id : string) (version : option Z) (s : t) : option StateSnapshot :=
  match snapshots s !! task_id with
  | None => None
  | Some d =>
      match version with
      | None =>
          match latest_versions s !! task_id with
          | None => None
          | Some latest_version => d !! latest_version
          end
      | Some v => d !! v
      end
  end.

Definition list_versions (task_id : string) (s : t) : list Z :=
  match snapshots s !! task_id with
  | None => []
  | Some d => sorted_keys d
  end.

Definition delete (task_id : string) (version : option Z) (s : t) : t * bool :=
  match snapshots s !! task_id with
  | None => (s, false)
  | Some d =>
      match version with
      | None =>
          (mk (base.delete task_id (snapshots s)) (base.delete task_id (latest_versions s)), true)
      | Some v =>
          match d !! v with
          | None => (s, false)
          | Some _ =>
              let d' := base.delete v d in
              let snaps1 := <[task_id := d']> (snapshots s) in
              let latest1 :=
                if decide (latest_versions s !! task_id = Some v) then
                  if decide (d' = ∅) then base.delete task_id (latest_versions s)
                  else <[task_id := max_key d']> (latest_versions s)
                else latest_versions s in
              if decide (d' = ∅) then
                (mk (base.delete task_id snaps1) (base.delete task_id latest1), true)
              else (mk snaps1 latest1, true)
          end
      end
  end.

(** Invariant: the two dictionaries have the same tasks; no task has an empty
    dictionary; a snapshot is filed under its own task and version; the latest
    version is a version of the task and bounds all of them. *)
Definition task_ok (tid : string) (od : option (gmap Z StateSnapshot)) (ol : option Z) : Prop :=
  match od, ol with
  | None, None => True
  | Some d, Some l =>
      is_Some (d !! l)
      ∧ (∀ v sn, d !! v = Some sn →
           sn_task_id sn = tid ∧ sn_version sn = v ∧ 1 <= v ∧ v <= l)
  | _, _ => False
  end.

Definition inv (s : t) : Prop := ∀ tid, task_ok tid (snapshots s !! tid) (latest_versions s !! tid).

Definition view (s : t) (tid : string) (v : Z) : option StateSnapshot :=
  match snapshots s !! tid with None => None | Some d => d !! v end.

(** *** Lemmas *)

Lemma elem_of_versions v d : v ∈ versions d ↔ is_Some (d !! v).
Proof.
  unfold versions. rewrite list_elem_of_fmap. split.
  - intros ([k sn] & -> & H%elem_of_map_to_list). by exists sn.
  - intros [sn H]. exists (v, sn). split; [done|]. by apply elem_of_map_to_list.
Qed.

Lemma fold_max_spec l x :
  fold_left Z.max l x ∈ x :: l ∧ ∀ y, y ∈ x :: l → y <= fold_left Z.max l x.
Proof.
  revert x. induction l as [|z l IH]; intros x; simpl.
  - split; [left|]. by intros y ->%list_elem_of_singleton.
  - destruct (IH (Z.max x z)) as [Hin Hmax]. split.
    + apply elem_of_cons in Hin as [->|Hin]; [|by right; right].
      destruct (Z.max_spec x z) as [[_ ->]|[_ ->]]; [right; left|left].
    + intros y [->|[->|Hy]%elem_of_cons]%elem_of_cons.
      * transitivity (Z.max x z); [lia|]. apply Hmax. left.
      * transitivity (Z.max x z); [lia|]. apply Hmax. left.
      * apply Hmax. by right.
Qed.

Lemma max_key_spec d : d ≠ ∅ →
  is_Some (d !! max_key d) ∧ ∀ v, is_Some (d !! v) → v <= max_key d.
Proof.
  intros Hne. unfold max_key. destruct (versions d) as [|v vs] eqn:E.
  - exfalso. apply Hne, map_eq. intros i. rewrite lookup_empty.
    destruct (d !! i) eqn:Hi; [|done].
    assert (i ∈ versions d) as Hin by (apply elem_of_versions; eauto).
    rewrite E in Hin. by apply elem_of_nil in Hin.
  - destruct (fold_max_spec vs v) as [Hin Hmax]. rewrite <- E in Hin. split.
    + by apply elem_of_versions.
    + intros w Hw. apply Hmax. rewrite <- E. by apply elem_of_versions.
Qed.

Lemma sorted_keys_spec d :
  StronglySorted Z.lt (sorted_keys d) ∧ ∀ v, v ∈ sorted_keys d ↔ is_Some (d !! v).
Proof.
  unfold sorted_keys. split; cycle 1.
  { intros v. rewrite <- elem_of_versions. by rewrite merge_sort_Permutation. }
  assert (Hnd : NoDup (merge_sort Z.le (versions d))).
  { rewrite merge_sort_Permutation. apply NoDup_fst_map_to_list. }
  pose proof (StronglySorted_merge_sort Z.le (versions d)) as Hs.
  induction Hs as [|x l Hl IH Hx]; [constructor|].
  apply NoDup_cons in Hnd as [Hx' Hnd']. constructor; [by apply IH|].
  apply Forall_forall. intros y Hy. rewrite Forall_forall in Hx. specialize (Hx y Hy).
  assert (x ≠ y) by congruence. lia.
Qed.

Lemma inv_init : inv init.
Proof. intros tid. unfold task_ok, init. simpl. by rewrite !lookup_empty. Qed.

Lemma save_lookup sn s :
  snapshots (save sn s) =
  <[sn_task_id sn := <[sn_version sn := sn]> (default ∅ (snapshots s !! sn_task_id sn))]> (snapshots s).
Proof.
  unfold save. simpl. destruct (snapshots s !! sn_task_id sn) eqn:E; simpl; [by rewrite E|].
  rewrite lookup_insert_eq. simpl. by rewrite insert_insert_eq.
Qed.

Lemma inv_save sn s : snapshot_valid sn → inv s → inv (save sn s).
Proof.
  intros Hv Hs tid. specialize (Hs tid). rewrite save_lookup. unfold save. simpl.
  destruct (decide (tid = sn_task_id sn)) as [->|Hne]; cycle 1.
  { by rewrite !lookup_insert_ne by done. }
  rewrite !lookup_insert_eq. unfold snapshot_valid in Hv.
  destruct (snapshots s !! sn_task_id sn) as [d|], (latest_versions s !! sn_task_id sn) as [l|];
    try done; simpl in *.
  - destruct Hs as [[sl Hl] Hd]. split.
    + destruct (decide (sn_version sn = Z.max l (sn_version sn))) as [<-|Hn].
      * rewrite lookup_insert_eq. eauto.
      * replace (Z.max l (sn_version sn)) with l in * by lia.
        rewrite lookup_insert_ne by lia. eauto.
    + intros v sn'. rewrite lookup_insert. case_decide; intros Hsn; simplify_eq.
      { split_and!; try done; lia. }
      destruct (Hd v sn' Hsn) as (?&?&?&?). split_and!; try done; lia.
  - split; [exists sn; rewrite Z.max_r by lia; apply lookup_insert_eq|].
    intros v sn'. rewrite lookup_insert, lookup_empty. case_decide; intros; simplify_eq.
    split_and!; try done; lia.
Qed.

Lemma view_save sn s t v :
  view (save sn s) t v =
  if decide (t = sn_task_id sn ∧ v = sn_version sn) then Some sn else view s t v.
Proof.
  unfold view. rewrite save_lookup.
  destruct (decide (t = sn_task_id sn)) as [->|Hne].
  - rewrite lookup_insert_eq. destruct (decide (v = sn_version sn)) as [->|Hv].
    + rewrite lookup_insert_eq. by rewrite decide_True.
    + rewrite lookup_insert_ne by done. rewrite decide_False by naive_solver.
      by destruct (snapshots s !! sn_task_id sn).
  - rewrite lookup_insert_ne by done. by rewrite decide_False by naive_solver.
Qed.

Lemma get_version_view t v s : get t (Some v) s = view s t v.
Proof. done. Qed.

Lemma get_latest_spec t s : inv s →
  match get t None s with
  | Some sn => view s t (sn_version sn) = Some sn
               ∧ ∀ v sn', view s t v = Some sn' → v <= sn_version sn
  | None => ∀ v, view s t v = None
  end.
Proof.
  intros Hs. specialize (Hs t). unfold get, view.
  destruct (snapshots s !! t) as [d|], (latest_versions s !! t) as [l|]; try done.
  destruct Hs as [[sn Hl] Hd]. rewrite Hl. destruct (Hd l sn Hl) as (_ & -> & _).
  split; [done|]. intros v sn' Hv. by destruct (Hd v sn' Hv) as (?&?&?&?).
Qed.

Lemma list_versions_spec t s :
  StronglySorted Z.lt (list_versions t s) ∧ ∀ v, v ∈ list_versions t s ↔ is_Some (view s t v).
Proof.
  unfold list_versions, view. destruct (snapshots s !! t) as [d|]; [apply sorted_keys_spec|].
  split; [constructor|]. intros v. split; [by intros ?%elem_of_nil|by intros [? ?]].
Qed.

(** Every operation touches one task; [delete] on that task is described by
    the dictionary it leaves. *)
Lemma delete_other t ov s t' : t' ≠ t →
  snapshots (fst (delete t ov s)) !! t' = snapshots s !! t'
  ∧ latest_versions (fst (delete t ov s)) !! t' = latest_versions s !! t'.
Proof.
  intros Hne. unfold delete. destruct (snapshots s !! t) as [d|]; [|done].
  destruct ov as [v|]; simpl; [|by rewrite !lookup_delete_ne].
  destruct (d !! v); [|done]. repeat case_decide; simpl; by simplify_map_eq.
Qed.

Lemma delete_same t ov s : inv s →
  task_ok t (snapshots (fst (delete t ov s)) !! t) (latest_versions (fst (delete t ov s)) !! t)
  ∧ ∀ v', view (fst (delete t ov s)) t v' =
          if decide (ov = None ∨ ov = Some v') then None else view s t v'.
Proof.
  intros Hs. specialize (Hs t). unfold delete, view.
  destruct (snapshots s !! t) as [d|] eqn:Ed; cbn [fst snapshots latest_versions]; cycle 1.
  { rewrite Ed. split; [done|]. intros. by case_decide. }
  destruct (latest_versions s !! t) as [l|] eqn:El; [|done].
  destruct ov as [v|]; cbn [fst snapshots latest_versions].
  2: { rewrite !lookup_delete_eq. split; [done|]. intros. by rewrite decide_True by auto. }
  destruct (d !! v) as [sv|] eqn:Ev; cbn [fst snapshots latest_versions]; cycle 1.
  { rewrite Ed, El. split; [done|]. intros v'. case_decide as Hc; [|done].
    destruct Hc as [?|?]; by simplify_eq. }
  assert (Hview : ∀ v', base.delete v d !! v' =
    if decide (Some v = None ∨ Some v = Some v') then None else d !! v').
  { intros v'. rewrite lookup_delete. repeat case_decide; try done; naive_solver. }
  destruct Hs as [[sl Hl] Hd].
  destruct (decide (base.delete v d = ∅)) as [He|He].
  { cbn [fst snapshots latest_versions]. rewrite lookup_delete_eq.
    split; [case_decide; by rewrite ?lookup_delete_eq|].
    intros v'. rewrite <- Hview, He. by rewrite lookup_empty. }
  cbn [fst snapshots latest_versions]. rewrite lookup_insert_eq. split; [|done].
  assert (Hd' : ∀ w sn, base.delete v d !! w = Some sn →
            v ≠ w ∧ sn_task_id sn = t ∧ sn_version sn = w ∧ 1 <= w ∧ w <= l).
  { intros w sn [Hne Hw]%lookup_delete_Some. split; [done|]. by apply Hd. }
  destruct (decide (Some l = Some v)) as [[= ->]|Hlv]; cbn [fst snapshots latest_versions].
  - rewrite lookup_insert_eq. destruct (max_key_spec _ He) as [Hm Hmax]. split; [done|].
    intros w sn Hw. destruct (Hd' w sn Hw) as (?&?&?&?&?). split_and!; try done.
    apply Hmax. eauto.
  - rewrite El. split; [|intros w sn Hw; apply Hd' in Hw; naive_solver].
    exists sl. rewrite lookup_delete_ne; [done|naive_solver].
Qed.

Lemma inv_delete t ov s : inv s → inv (fst (delete t ov s)).
Proof.
  intros Hs t'. destruct (decide (t' = t)) as [->|Hne]; [by apply delete_same|].
  destruct (delete_other t ov s t' Hne) as [-> ->]. apply Hs.
Qed.

Lemma view_delete t ov s t' v' : inv s →
  view (fst (delete t ov s)) t' v' =
  if decide (t' = t ∧ (ov = None ∨ ov = Some v')) then None else view s t' v'.
Proof.
  intros Hs. destruct (decide (t' = t)) as [->|Hne].
  - rewrite (proj2 (delete_same t ov s Hs)). repeat case_decide; naive_solver.
  - rewrite decide_False by naive_solver. unfold view.
    by rewrite (proj1 (delete_other t ov s t' Hne)).
Qed.

Lemma delete_result t ov s : inv s →
  snd (delete t ov s) = true ↔ ∃ v, (ov = None ∨ ov = Some v) ∧ is_Some (view s t v).
Proof.
  intros Hs. specialize (Hs t). unfold delete, view.
  destruct (snapshots s !! t) as [d|] eqn:Ed; simpl; [|split; [done|by intros (?&_&?&?)]].
  destruct (latest_versions s !! t) as [l|] eqn:El; [|done].
  destruct Hs as [Hl Hd]. destruct ov as [v|]; simpl; [|split; eauto].
  destruct (d !! v) as [sv|] eqn:Ev; simpl.
  - split; [|by repeat case_decide]. intros _. exists v. rewrite Ev. split; [by right|eauto].
  - split; [done|]. intros (w & [?|?] & [? ?]); simplify_eq.
Qed.

End InMemorySnapshotStore.

#[export] Instance memory_snapshot_store : SnapshotStore InMemorySnapshotStore.t := {|
  ss_inv := InMemorySnapshotStore.inv;
  ss_view := InMemorySnapshotStore.view;
  ss_empty := InMemorySnapshotStore.init;
  ss_save := InMemorySnapshotStore.save;
  ss_get := InMemorySnapshotStore.get;
  ss_list_versions := InMemorySnapshotStore.list_versions;
  ss_delete := InMemorySnapshotStore.delete;
  ss_empty_ok := conj InMemorySnapshotStore.inv_init (λ t v, eq_refl);
  ss_save_inv := InMemorySnapshotStore.inv_save;
  ss_save_view := λ sn s t v _ _, InMemorySnapshotStore.view_save sn s t v;
  ss_get_version := λ t v s _, InMemorySnapshotStore.get_version_view t v s;
  ss_get_latest := InMemorySnapshotStore.get_latest_spec;
  ss_versions := λ t s _, InMemorySnapshotStore.list_versions_spec t s;
  ss_delete_inv := InMemorySnapshotStore.inv_delete;
  ss_delete_view := InMemorySnapshotStore.view_delete;
  ss_delete_result := InMemorySnapshotStore.delete_result
|}.

(** ** Sequences of operations against the contract *)
Inductive snap_op : Type :=
| OpSave (sn : StateSnapshot)
| OpDelete (t : string) (v : option Z).

Definition op_valid (o : snap_op) : Prop :=
  match o with OpSave sn => snapshot_valid sn | OpDelete _ _ => True end.

Section Client.
  Context {S : Type} `{SnapshotStore S}.

Definition apply_op (s : S) (o : snap_op) : S :=
  match o with
  | OpSave sn => ss_save sn s
  | OpDelete t v => fst (ss_delete t v s)
  end.

Definition apply_ops (s : S) (os : list snap_op) : S := fold_left apply_op os s.

(** The reference: one map from task and version to snapshot. *)
Definition ref_op (m : gmap (string * Z) StateSnapshot) (o : snap_op) :
    gmap (string * Z) StateSnapshot :=
  match o with
  | OpSave sn => <[(sn_task_id sn, sn_version sn) := sn]> m
  | OpDelete t (Some v) => base.delete (t, v) m
  | OpDelete t None => filter (λ kv, kv.1.1 ≠ t) m
  end.

Definition ref_ops (m : gmap (string * Z) StateSnapshot) (os : list snap_op) :=
  fold_left ref_op os m.

Definition refines (s : S) (m : gmap (string * Z) StateSnapshot) : Prop :=
  ss_inv s ∧ ∀ t v, ss_view s t v = m !! (t, v).

Lemma apply_op_refines s m o : op_valid o → refines s m → refines (apply_op s o) (ref_op m o).
Proof.
  intros Ho [Hs Hm]. destruct o as [sn|t ov]; simpl.
  - split; [by apply ss_save_inv|]. intros t v.
    rewrite ss_save_view, Hm by done. rewrite lookup_insert.
    repeat case_decide; naive_solver.
  - split; [by apply ss_delete_inv|]. intros t' v'.
    rewrite ss_delete_view, Hm by done. destruct ov as [v|].
    + rewrite lookup_delete. repeat case_decide; naive_solver.
    + case_decide as Hc.
      * symmetry. apply map_lookup_filter_None. right. intros x _. simpl. naive_solver.
      * destruct (m !! (t', v')) as [x|] eqn:E; symmetry.
        -- apply map_lookup_filter_Some. split; [done|]. simpl. naive_solver.
        -- apply map_lookup_filter_None. by left.
Qed.

Lemma apply_ops_refines s m os :
  Forall op_valid os → refines s m → refines (apply_ops s os) (ref_ops m os).
Proof.
  revert s m. induction os as [|o os IH]; intros s m Hos Hr; [done|].
  apply Forall_cons in Hos as [Ho Hos]. simpl. apply IH; [done|]. by apply apply_op_refines.
Qed.

(** The latest snapshot of a task depends only on the task's view. *)
Lemma latest_determined (sa sb : S) t :
  ss_inv sa → ss_inv sb → (∀ v, ss_view sa t v = ss_view sb t v) →
  ss_get t None sa = ss_get t None sb.
Proof.
  intros Ha Hb Heq.
  pose proof (ss_get_latest t sa Ha) as La. pose proof (ss_get_latest t sb Hb) as Lb.
  destruct (ss_get t None sa) as [x|], (ss_get t None sb) as [y|]; try done.
  - destruct La as [Lx Mx], Lb as [Ly My].
    assert (sn_version x = sn_version y) as Hxy.
    { pose proof (Mx _ y (eq_trans (Heq _) Ly)). pose proof (My _ x (eq_trans (eq_sym (Heq _)) Lx)).
      lia. }
    rewrite Heq, Hxy in Lx. congruence.
  - destruct La as [Lx _]. by rewrite Heq, Lb in Lx.
  - destruct Lb as [Ly _]. by rewrite <- Heq, La in Ly.
Qed.

End Client.

(** ** Properties *)

(** The in-memory store is a map from task and version to snapshot: after
    any sequence of saves and deletes, reading a version, reading the latest
    snapshot, listing versions and the result of a further delete are what the
    reference map gives; the latest version is never stale. *)
Theorem memory_store_refines_map (os : list snap_op) (t : string) (v : Z) :
  Forall op_valid os →
  let s := apply_ops InMemorySnapshotStore.init os in
  let m := ref_ops ∅ os in
  InMemorySnapshotStore.get t (Some v) s = m !! (t, v)
  ∧ match InMemorySnapshotStore.get t None s with
    | Some sn => m !! (t, sn_version sn) = Some sn
                 ∧ ∀ v' sn', m !! (t, v') = Some sn' → v' <= sn_version sn
    | None => ∀ v', m !! (t, v') = None
    end
  ∧ StronglySorted Z.lt (InMemorySnapshotStore.list_versions t s)
  ∧ (∀ v', v' ∈ InMemorySnapshotStore.list_versions t s ↔ is_Some (m !! (t, v')))
  ∧ (snd (InMemorySnapshotStore.delete t (Some v) s) = true ↔ is_Some (m !! (t, v))).
Proof.
  intros Hos s m.
  assert (InMemorySnapshotStore.inv s ∧ ∀ t v, InMemorySnapshotStore.view s t v = m !! (t, v))
    as [Hinv Hv].
  { refine (apply_ops_refines InMemorySnapshotStore.init ∅ os Hos _).
    split; [apply InMemorySnapshotStore.inv_init|]. intros. by rewrite lookup_empty. }
  split_and!.
  - by rewrite <- Hv.
  - pose proof (InMemorySnapshotStore.get_latest_spec t s Hinv) as Hl.
    destruct (InMemorySnapshotStore.get t None s) as [sn|].
    + destruct Hl as [Hl Hm]. rewrite <- Hv. split; [done|]. intros v' sn'. rewrite <- Hv. apply Hm.
    + intros. by rewrite <- Hv.
  - apply InMemorySnapshotStore.list_versions_spec.
  - intros v'. rewrite <- Hv. apply InMemorySnapshotStore.list_versions_spec.
  - rewrite <- Hv, InMemorySnapshotStore.delete_result by done. naive_solver.
Qed.

Definition demo_snap (v : Z) : StateSnapshot :=
  mkSnapshot "snap" "task_1" v [("step"%string, JInt v)] false 0.

Lemma memory_store_refines_map_witness :
  let os := [OpSave (demo_snap 1); OpSave (demo_snap 3); OpDelete "task_1" (Some 3)] in
  InMemorySnapshotStore.get "task_1" (Some 1) (apply_ops InMemorySnapshotStore.init os)
  = Some (demo_snap 1).
Proof.
  intros os. etransitivity; [apply (memory_store_refines_map os "task_1" 1)|reflexivity].
  repeat constructor; unfold op_valid, snapshot_valid; simpl; lia.
Defined.

(** Checkpoint and roll back, for every store that meets the contract:
    saving a snapshot newer than all of its task makes it the latest one, and
    deleting that version makes the previous latest snapshot the latest again;
    other tasks never see the difference. *)
Theorem save_then_rollback {S} `{SnapshotStore S} (s : S) (sn : StateSnapshot) (t' : string) :
  ss_inv s → snapshot_valid sn →
  (∀ v sn', ss_view s (sn_task_id sn) v = Some sn' → v < sn_version sn) →
  let s1 := ss_save sn s in
  let s2 := fst (ss_delete (sn_task_id sn) (Some (sn_version sn)) s1) in
  ss_get (sn_task_id sn) None s1 = Some sn
  ∧ ss_get t' None s2 = ss_get t' None s
  ∧ (t' ≠ sn_task_id sn → ss_get t' None s1 = ss_get t' None s)
  ∧ snd (ss_delete (sn_task_id sn) (Some (sn_version sn)) s1) = true.
Proof.
  intros Hs Hsn Hnew s1 s2.
  assert (Hs1 : ss_inv s1) by (by apply ss_save_inv).
  assert (Hs2 : ss_inv s2) by (by apply ss_delete_inv).
  assert (Hv1 : ∀ t v, ss_view s1 t v =
    if decide (t = sn_task_id sn ∧ v = sn_version sn) then Some sn else ss_view s t v).
  { intros. by apply ss_save_view. }
  assert (Hv2 : ∀ t v, ss_view s2 t v = ss_view s t v).
  { intros t v. unfold s2. rewrite ss_delete_view, Hv1 by done.
    repeat case_decide; destruct_and?; subst; try naive_solver.
    destruct (ss_view s (sn_task_id sn) v) eqn:E; [|done].
    assert (v = sn_version sn) by naive_solver. specialize (Hnew _ _ E). lia. }
  split_and!.
  - pose proof (ss_get_latest (sn_task_id sn) s1 Hs1) as L.
    destruct (ss_get (sn_task_id sn) None s1) as [x|].
    + destruct L as [Lx Mx]. rewrite Hv1 in Lx. case_decide as Hc; [by simplify_eq|].
      specialize (Hnew _ _ Lx). specialize (Mx (sn_version sn) sn).
      rewrite Hv1, decide_True in Mx by done. specialize (Mx eq_refl). lia.
    + specialize (L (sn_version sn)). by rewrite Hv1, decide_True in L.
  - by apply latest_determined.
  - intros Hne. apply latest_determined; [done|done|]. intros v. rewrite Hv1. by rewrite decide_False by naive_solver.
  - apply ss_delete_result; [done|]. exists (sn_version sn). split; [by right|].
    rewrite Hv1, decide_True by done. eauto.
Qed.

Lemma save_then_rollback_witness :
  let s := InMemorySnapshotStore.save (demo_snap 1) InMemorySnapshotStore.init in
  ss_get "task_1" None (fst (ss_delete "task_1" (Some 2) (ss_save (demo_snap 2) s)))
  = Some (demo_snap 1).
Proof.
  intros s. etransitivity; [apply (save_then_rollback s (demo_snap 2) "task_1")|reflexivity].
  - apply InMemorySnapshotStore.inv_save; [unfold snapshot_valid; simpl; lia|].
    apply InMemorySnapshotStore.inv_init.
  - unfold snapshot_valid. simpl. lia.
  - intros v sn'. change (ss_view s) with (InMemorySnapshotStore.view s). unfold s.
    rewrite InMemorySnapshotStore.view_save. case_decide as Hc; [|done].
    destruct Hc as [_ ->]. simpl. lia.
Defined.
