(* ===== verification/Identity.v ===== *)
(** * Hosts and agent sessions

    `src/src/asap/auth/identity.py`: the RFC 7638 thumbprint of a public JWK,
    host and agent records, their in-memory stores with the compare-and-set
    rules of `save` and `touch_if_current`, expiry and reactivation.

    A method of the in-memory stores has no suspension point, so each is one
    step; what other tasks do between two calls is the step relation
    [agent_step].  Times are microseconds; every reading of the clock is an
    explicit argument. *)

From Stdlib Require Import ZArith Lia Ascii String.
From stdpp Require Import base tactics list gmap strings sorting relations.
From S2P Require Import Prelude PyValue Digest.
Open Scope Z_scope.

(** A public JWK: the JSON object that carries it. *)
Abbreviation jwk := (list (string * json)).

(** The interpreter's conversions between floats and text: `repr(f)` and
    `float(s)` ([None]: ValueError); no statement depends on them. *)
Class PyRuntime : Type := {
  float_repr : pyfloat → string;
  float_of_str : string → option pyfloat
}.

(** ** Data *)
Inductive HostStatus : Type := HostActive | HostPending | HostRevoked.
Inductive AgentMode : Type := Delegated | Autonomous.
Inductive AgentSessionStatus : Type :=
| StPending | StActive | StExpired | StRevoked | StRejected.
Inductive ExpiryStatus : Type := ExActive | ExExpired | ExRevoked.

#[export] Instance HostStatus_eq_dec : EqDecision HostStatus.
Proof. solve_decision. Defined.
#[export] Instance AgentSessionStatus_eq_dec : EqDecision AgentSessionStatus.
Proof. solve_decision. Defined.
#[export] Instance ExpiryStatus_eq_dec : EqDecision ExpiryStatus.
Proof. solve_decision. Defined.

Definition session_status_str (s : AgentSessionStatus) : string :=
  match s with
  | StPending => "pending" | StActive => "active" | StExpired => "expired"
  | StRevoked => "revoked" | StRejected => "rejected"
  end.

Record HostIdentity : Type := mkHost {
  h_host_id : string;
  h_name : option string;
  h_public_key : jwk;
  h_user_id : option string;
  h_default_capabilities : list string;
  h_status : HostStatus;
  h_created_at : Z;
  h_updated_at : Z
}.

Record AgentSession : Type := mkAgent {
  a_agent_id : string;
  a_host_id : string;
  a_public_key : jwk;
  a_mode : AgentMode;
  a_status : AgentSessionStatus;
  a_session_ttl : option Z;
  a_max_lifetime : option Z;
  a_absolute_lifetime : option Z;
  a_activated_at : option Z;
  a_last_used_at : option Z;
  a_created_at : Z
}.

(** `model_copy(update=...)` on the fields the code updates. *)
Definition with_status (st : AgentSessionStatus) (a : AgentSession) : AgentSession :=
  mkAgent (a_agent_id a) (a_host_id a) (a_public_key a) (a_mode a) st (a_session_ttl a)
    (a_max_lifetime a) (a_absolute_lifetime a) (a_activated_at a) (a_last_used_at a) (a_created_at a).
Definition with_public_key (k : jwk) (a : AgentSession) : AgentSession :=
  mkAgent (a_agent_id a) (a_host_id a) k (a_mode a) (a_status a) (a_session_ttl a)
    (a_max_lifetime a) (a_absolute_lifetime a) (a_activated_at a) (a_last_used_at a) (a_created_at a).
Definition with_last_used_at (t : Z) (a : AgentSession) : AgentSession :=
  mkAgent (a_agent_id a) (a_host_id a) (a_public_key a) (a_mode a) (a_status a) (a_session_ttl a)
    (a_max_lifetime a) (a_absolute_lifetime a) (a_activated_at a) (Some t) (a_created_at a).
Definition with_activated_at (t : Z) (a : AgentSession) : AgentSession :=
  mkAgent (a_agent_id a) (a_host_id a) (a_public_key a) (a_mode a) (a_status a) (a_session_ttl a)
    (a_max_lifetime a) (a_absolute_lifetime a) (Some t) (a_last_used_at a) (a_created_at a).
Definition host_with_status (st : HostStatus) (now : Z) (h : HostIdentity) : HostIdentity :=
  mkHost (h_host_id h) (h_name h) (h_public_key h) (h_user_id h) (h_default_capabilities h) st
    (h_created_at h) now.

(** ** Thumbprints *)

(** `public_key[k]` *)
Definition jwk_member (k : string) (public_key : jwk) : res pyexn (string * json) :=
  match assoc k public_key with
  | Some v => Ret (k, v)
  | None => Raise (KeyError k)
  end.

Definition required_members (public_key : jwk) : res pyexn (list (string * json)) :=
  let kty := j_get "kty" public_key in
  if py_eq kty (JStr "OKP") then
    rbind (jwk_member "crv" public_key) (λ crv,
    rbind (jwk_member "x" public_key) (λ x, Ret [crv; ("kty"%string, kty); x]))
  else if py_eq kty (JStr "EC") then
    rbind (jwk_member "crv" public_key) (λ crv,
    rbind (jwk_member "x" public_key) (λ x,
    rbind (jwk_member "y" public_key) (λ y, Ret [crv; ("kty"%string, kty); x; y])))
  else if py_eq kty (JStr "RSA") then
    rbind (jwk_member "e" public_key) (λ e,
    rbind (jwk_member "n" public_key) (λ n, Ret [e; ("kty"%string, kty); n]))
  else if py_eq kty (JStr "oct") then
    rbind (jwk_member "k" public_key) (λ k, Ret [k; ("kty"%string, kty)])
  else Raise (ValueError "unsupported kty for thumbprint").

Definition jwk_thumbprint_sha256 `{PyRuntime} (public_key : jwk) : res pyexn string :=
  rbind (required_members public_key) (λ required,
    let canonical := json_dumps float_repr "," ":" true (JObj required) in
    Ret (B64.encode_nopad (Sha256.digest (encode canonical)))).

Definition host_urn_from_thumbprint (thumbprint : string) : string :=
  String.append "urn:asap:host:" thumbprint.

(** ** Expiry *)
Definition exceeds (limit : option Z) (elapsed : Z) : bool :=
  match limit with Some l => l <? elapsed | None => false end.

Definition check_agent_expiry (now : Z) (agent : AgentSession) : ExpiryStatus :=
  if exceeds (a_absolute_lifetime agent) (now - a_created_at agent) then ExRevoked
  else if match a_activated_at agent with
          | Some t => exceeds (a_max_lifetime agent) (now - t)
          | None => false
          end then ExExpired
  else if match a_last_used_at agent with
          | Some t => exceeds (a_session_ttl agent) (now - t)
          | None => false
          end then ExExpired
  else ExActive.

Definition extend_session (now : Z) (agent : AgentSession) : AgentSession :=
  with_last_used_at now agent.

Definition reactivatable (st : AgentSessionStatus) : bool :=
  bool_decide (st ∈ [StActive; StExpired]).

Definition reactivate_refusal_message (agent_id : string) (st : AgentSessionStatus) : string :=
  match st with
  | StRevoked => "Agent " ++ agent_id ++ " is permanently revoked"
  | StPending => "Agent " ++ agent_id ++
      " is still pending approval; cannot reactivate until registration is approved"
  | StRejected => "Agent " ++ agent_id ++
      " was rejected during registration; re-register instead of reactivating"
  | _ => "Agent " ++ agent_id ++ " cannot be reactivated from status '" ++
      session_status_str st ++ "'; expected 'active' or 'expired'"
  end%string.

Definition reactivate_agent (now : Z) (agent : AgentSession) (_host : HostIdentity) :
    res pyexn AgentSession :=
  if negb (reactivatable (a_status agent)) then
    Raise (ValueError (reactivate_refusal_message (a_agent_id agent) (a_status agent)))
  else if exceeds (a_absolute_lifetime agent) (now - a_created_at agent) then
    Raise (ValueError ("Agent " ++ a_agent_id agent ++
      " has exceeded absolute lifetime; reactivation is not possible")%string)
  else
    Ret (with_last_used_at now (with_activated_at now (with_status StActive agent))).

(** ** Agent store *)

Inductive save_error : Type :=
| RevokedAgentOverwriteError
| StaleAgentPublicKeyError
| SaveRaised (e : pyexn).

Module InMemoryAgentStore.
Section Store.
  Context `{PyRuntime}.
  Abbreviation t := (gmap string AgentSession).

(** `_cas_public_key_row` *)
Definition cas_public_key_row (existing agent : AgentSession) (expected_public_key : jwk) :
    res save_error AgentSession :=
  match jwk_thumbprint_sha256 (a_public_key existing),
        jwk_thumbprint_sha256 (a_public_key agent),
        jwk_thumbprint_sha256 expected_public_key with
  | Ret stored_tp, Ret incoming_tp, Ret expected_tp =>
      if negb (String.eqb stored_tp expected_tp) then Raise StaleAgentPublicKeyError
      else if negb (String.eqb incoming_tp expected_tp) then
        Ret (with_public_key (a_public_key agent) existing)
      else Ret agent
  | _, _, _ => Raise StaleAgentPublicKeyError
  end.

Definition save (agent : AgentSession) (expected_public_key : option jwk) (s : t) :
    t * res save_error unit :=
  let existing := s !! a_agent_id agent in
  match existing with
  | Some e =>
      if bool_decide (a_status e = StRevoked) && negb (bool_decide (a_status agent = StRevoked))
      then (s, Raise RevokedAgentOverwriteError)
      else
        match expected_public_key with
        | Some k =>
            match cas_public_key_row e agent k with
            | Raise err => (s, Raise err)
            | Ret row => (<[a_agent_id row := row]> s, Ret tt)
            end
        | None => (<[a_agent_id agent := agent]> s, Ret tt)
        end
  | None => (<[a_agent_id agent := agent]> s, Ret tt)
  end.

(** [now] is the reading inside `check_agent_expiry`. *)
Definition touch_if_current (now : Z) (agent_id : string) (expected_public_key : jwk)
    (last_used_at : Z) (expected_host_id : string) (s : t) : t * option AgentSession :=
  match s !! agent_id with
  | None => (s, None)
  | Some current =>
      if negb (bool_decide (a_status current = StActive)) then (s, None)
      else if negb (String.eqb (a_host_id current) expected_host_id) then (s, None)
      else
        match jwk_thumbprint_sha256 expected_public_key,
              jwk_thumbprint_sha256 (a_public_key current) with
        | Ret expected_tp, Ret current_tp =>
            if negb (String.eqb current_tp expected_tp) then (s, None)
            else if negb (bool_decide (check_agent_expiry now current = ExActive)) then (s, None)
            else
              let updated := with_last_used_at last_used_at current in
              (<[agent_id := updated]> s, Some updated)
        | _, _ => (s, None)
        end
  end.

Definition get (agent_id : string) (s : t) : option AgentSession := s !! agent_id.

Definition by_agent_id (a b : AgentSession) : Prop :=
  String.leb (a_agent_id a) (a_agent_id b) = true.
#[local] Instance by_agent_id_dec a b : Decision (by_agent_id a b).
Proof. unfold by_agent_id. apply _. Defined.

Definition sessions_of (host_id : string) (s : t) : list AgentSession :=
  filter (λ a, a_host_id a = host_id) (map_to_list s).*2.

Definition list_by_host (host_id : string) (s : t) : list AgentSession :=
  merge_sort by_agent_id (sessions_of host_id s).

Definition revoke (agent_id : string) (s : t) : t :=
  match s !! agent_id with
  | None => s
  | Some agent =>
      if bool_decide (a_status agent = StRevoked) then s
      else <[agent_id := with_status StRevoked agent]> s
  end.

Definition revoke_by_host (host_id : string) (s : t) : t :=
  fold_left (λ acc aid, revoke aid acc) (map a_agent_id (sessions_of host_id s)) s.

End Store.
End InMemoryAgentStore.

(** `save_agent_unless_revoked`: the store's `save`, retried without the
    keyword when a custom store does not take it. *)
Definition save_agent_unless_revoked {S : Type}
    (save : AgentSession → option jwk → S → S * res save_error unit)
    (agent : AgentSession) (expected_public_key : option jwk) (s : S) : S * res save_error unit :=
  match expected_public_key with
  | None => save agent None s
  | Some k =>
      match save agent (Some k) s with
      | (s', Raise (SaveRaised (TypeError msg))) =>
          if PyStr.contains msg "expected_public_key" then save agent None s'
          else (s', Raise (SaveRaised (TypeError msg)))
      | r => r
      end
  end.

(** ** Host store *)
Module InMemoryHostStore.
Section Store.
  Context `{PyRuntime}.

Record t : Type := mk {
  hosts : gmap string HostIdentity;
  thumb_to_host_id : gmap string string
}.

Definition init : t := mk ∅ ∅.

Definition save (host : HostIdentity) (s : t) : t * res pyexn unit :=
  let drop_old : res pyexn (gmap string string) :=
    match hosts s !! h_host_id host with
    | None => Ret (thumb_to_host_id s)
    | Some previous =>
        rbind (jwk_thumbprint_sha256 (h_public_key previous)) (λ old_tp,
        rbind (jwk_thumbprint_sha256 (h_public_key host)) (λ new_tp,
          if negb (String.eqb old_tp new_tp)
             && bool_decide (thumb_to_host_id s !! old_tp = Some (h_host_id host))
          then Ret (delete old_tp (thumb_to_host_id s))
          else Ret (thumb_to_host_id s)))
    end in
  match drop_old with
  | Raise e => (s, Raise e)
  | Ret index =>
      match jwk_thumbprint_sha256 (h_public_key host) with
      | Raise e => (mk (hosts s) index, Raise e)
      | Ret thumb =>
          (mk (<[h_host_id host := host]> (hosts s)) (<[thumb := h_host_id host]> index), Ret tt)
      end
  end.

Definition get (host_id : string) (s : t) : option HostIdentity := hosts s !! host_id.

Definition get_by_public_key (thumbprint : string) (s : t) : option HostIdentity :=
  match thumb_to_host_id s !! thumbprint with
  | None => None
  | Some host_id => hosts s !! host_id
  end.

(** The agent store is the optional constructor argument. *)
Definition revoke (now : Z) (host_id : string) (s : t) (agents : option (gmap string AgentSession)) :
    t * option (gmap string AgentSession) :=
  match hosts s !! host_id with
  | None => (s, agents)
  | Some host =>
      if bool_decide (h_status host = HostRevoked) then (s, agents)
      else
        (mk (<[host_id := host_with_status HostRevoked now host]> (hosts s)) (thumb_to_host_id s),
         match agents with
         | None => None
         | Some a => Some (InMemoryAgentStore.revoke_by_host host_id a)
         end)
  end.

(** Invariant: the index is sound, a host is filed under its own id. *)
Definition inv (s : t) : Prop :=
  (∀ hid h, hosts s !! hid = Some h → h_host_id h = hid)
  ∧ ∀ tp hid, thumb_to_host_id s !! tp = Some hid →
      ∃ h, hosts s !! hid = Some h ∧ jwk_thumbprint_sha256 (h_public_key h) = Ret tp.

End Store.
End InMemoryHostStore.

(** ** What tasks do to the agent store *)
Section Steps.
  Context `{PyRuntime}.

Inductive agent_step : gmap string AgentSession → gmap string AgentSession → Prop :=
| step_save agent k s : agent_step s (fst (InMemoryAgentStore.save agent k s))
| step_touch now aid k ts hid s :
    agent_step s (fst (InMemoryAgentStore.touch_if_current now aid k ts hid s))
| step_revoke aid s : agent_step s (InMemoryAgentStore.revoke aid s)
| step_revoke_by_host hid s : agent_step s (InMemoryAgentStore.revoke_by_host hid s).

Definition agents_keyed (s : gmap string AgentSession) : Prop :=
  ∀ aid a, s !! aid = Some a → a_agent_id a = aid.

End Steps.

(** ** Lemmas on the agent store *)
Section AgentLemmas.
  Context `{PyRuntime}.
  Implicit Types (s : gmap string AgentSession) (a : AgentSession).

(** What `save` leaves behind, case by case. *)
Lemma save_cases a k s :
  InMemoryAgentStore.save a k s = (s, Raise RevokedAgentOverwriteError)
  ∨ InMemoryAgentStore.save a k s = (s, Raise StaleAgentPublicKeyError)
  ∨ ∃ row, InMemoryAgentStore.save a k s = (<[a_agent_id row := row]> s, Ret tt)
      ∧ (row = a ∨ ∃ e, s !! a_agent_id a = Some e ∧ row = with_public_key (a_public_key a) e)
      ∧ (∀ e, s !! a_agent_id a = Some e → a_status e = StRevoked → a_status row = StRevoked).
Proof.
  unfold InMemoryAgentStore.save.
  destruct (s !! a_agent_id a) as [e|] eqn:E; [|right; right; exists a; naive_solver].
  destruct (bool_decide (a_status e = StRevoked)) eqn:Er, (bool_decide (a_status a = StRevoked)) eqn:Ea;
    simpl; try (by left); right; reflect.
  all: destruct k as [k|]; [|right; exists a; naive_solver].
  all: unfold InMemoryAgentStore.cas_public_key_row; repeat case_step; simplify_eq; try (by left);
    right; eexists; (split; [done|]); naive_solver.
Qed.

Lemma revoke_lookup aid s i :
  InMemoryAgentStore.revoke aid s !! i =
  if decide (i = aid) then with_status StRevoked <$> s !! i else s !! i.
Proof.
  unfold InMemoryAgentStore.revoke.
  assert (Hid : ∀ x, a_status x = StRevoked → with_status StRevoked x = x)
    by (intros [] ; unfold with_status; simpl; by intros ->).
  destruct (s !! aid) as [x|] eqn:E; [case_bool_decide|]; case_decide; subst;
    rewrite ?E; simpl; rewrite ?lookup_insert_eq, ?lookup_insert_ne by done;
    rewrite ?Hid by done; done.
Qed.

Lemma with_status_revoked_idemp a :
  with_status StRevoked (with_status StRevoked a) = with_status StRevoked a.
Proof. done. Qed.

Lemma revoke_fold_lookup aids s i :
  fold_left (λ acc aid, InMemoryAgentStore.revoke aid acc) aids s !! i =
  if decide (i ∈ aids) then with_status StRevoked <$> s !! i else s !! i.
Proof.
  revert s. induction aids as [|aid aids IH]; intros s; cbn [fold_left].
  - case_decide as Hc; [by apply elem_of_nil in Hc|done].
  - rewrite IH, revoke_lookup.
    destruct (decide (i = aid)) as [->|Hne].
    + destruct (decide (aid ∈ aids)), (decide (aid ∈ aid :: aids)) as [?|Hn]; try set_solver;
        by destruct (s !! aid).
    + destruct (decide (i ∈ aids)), (decide (i ∈ aid :: aids)); set_solver.
Qed.

Lemma elem_of_sessions_of hid s a :
  a ∈ InMemoryAgentStore.sessions_of hid s ↔ a_host_id a = hid ∧ ∃ i, s !! i = Some a.
Proof.
  unfold InMemoryAgentStore.sessions_of. rewrite list_elem_of_filter, list_elem_of_fmap.
  split.
  - intros [Hh ([i x] & -> & Hi%elem_of_map_to_list)]. eauto.
  - intros [Hh [i Hi]]. split; [done|]. exists (i, a). split; [done|]. by apply elem_of_map_to_list.
Qed.

Lemma revoke_by_host_lookup hid s i : agents_keyed s →
  InMemoryAgentStore.revoke_by_host hid s !! i =
  match s !! i with
  | Some a => Some (if decide (a_host_id a = hid) then with_status StRevoked a else a)
  | None => None
  end.
Proof.
  intros Hk. unfold InMemoryAgentStore.revoke_by_host. rewrite revoke_fold_lookup.
  destruct (s !! i) as [a|] eqn:E; [|by case_decide].
  destruct (decide (a_host_id a = hid)) as [Hh|Hh].
  - rewrite decide_True; [done|]. apply list_elem_of_fmap. exists a. split; [by rewrite (Hk i a)|].
    apply elem_of_sessions_of. eauto.
  - rewrite decide_False; [done|]. intros (b & -> & [Hb [j Hj]]%elem_of_sessions_of)%list_elem_of_fmap.
    rewrite (Hk j b Hj) in E. by simplify_eq.
Qed.

(** The exact condition under which a touch succeeds, and its effect. *)
Definition touch_allowed (now : Z) (expected : jwk) (host_id : string) (a : AgentSession) : Prop :=
  a_status a = StActive ∧ a_host_id a = host_id ∧ check_agent_expiry now a = ExActive
  ∧ ∃ tp, jwk_thumbprint_sha256 (a_public_key a) = Ret tp ∧ jwk_thumbprint_sha256 expected = Ret tp.

Ltac refuse := left; split; [done|]; intros ? [= <-] (?&?&?&?&?&?); congruence.

Lemma touch_cases now aid k ts hid s :
  (InMemoryAgentStore.touch_if_current now aid k ts hid s = (s, None)
   ∧ ∀ a, s !! aid = Some a → ¬ touch_allowed now k hid a)
  ∨ ∃ a, s !! aid = Some a ∧ touch_allowed now k hid a
      ∧ InMemoryAgentStore.touch_if_current now aid k ts hid s =
          (<[aid := with_last_used_at ts a]> s, Some (with_last_used_at ts a)).
Proof.
  unfold InMemoryAgentStore.touch_if_current, touch_allowed.
  destruct (s !! aid) as [a|]; [|by left].
  destruct (bool_decide (a_status a = StActive)) eqn:E1; simpl; reflect; [|refuse].
  destruct (String.eqb (a_host_id a) hid) eqn:E2; simpl; reflect; [|refuse].
  destruct (jwk_thumbprint_sha256 k) as [|tp1] eqn:E3; [refuse|].
  destruct (jwk_thumbprint_sha256 (a_public_key a)) as [|tp2] eqn:E4; [refuse|].
  destruct (String.eqb tp2 tp1) eqn:E5; simpl; reflect; [|refuse].
  destruct (bool_decide (check_agent_expiry now a = ExActive)) eqn:E6; simpl; reflect;
    [right|refuse].
  exists a. split; [done|]. split; [|done]. split_and!; try done. exists tp1. by subst.
Qed.

Lemma agents_keyed_insert a s : agents_keyed s → agents_keyed (<[a_agent_id a := a]> s).
Proof. intros Hk i b. rewrite lookup_insert. case_decide; naive_solver. Qed.

Lemma agent_step_keyed s s' : agents_keyed s → agent_step s s' → agents_keyed s'.
Proof.
  intros Hk Hs. destruct Hs as [a k s|now aid k ts hid s|aid s|hid s].
  - destruct (save_cases a k s) as [->|[->|(row & -> & _)]]; [done|done|by apply agents_keyed_insert].
  - destruct (touch_cases now aid k ts hid s) as [[-> _]|(a & Ha & _ & ->)]; [done|].
    simpl. intros i b. rewrite lookup_insert. case_decide; intros; simplify_eq; [|by apply Hk].
    simpl. by apply Hk.
  - intros i b. rewrite revoke_lookup. case_decide; [|apply Hk]. subst.
    destruct (s !! aid) as [x|] eqn:E; intros; simplify_eq/=. by apply Hk.
  - intros i b. rewrite revoke_by_host_lookup by done.
    destruct (s !! i) as [x|] eqn:E; [|done]. intros [= <-]. apply Hk in E.
    by case_decide.
Qed.

Lemma agent_step_revoked s s' aid a :
  agents_keyed s → agent_step s s' → s !! aid = Some a → a_status a = StRevoked →
  ∃ a', s' !! aid = Some a' ∧ a_status a' = StRevoked.
Proof.
  intros Hk Hs Ha Hr. destruct Hs as [b k s|now i k ts hid s|i s|hid s].
  - destruct (save_cases b k s) as [->|[->|(row & -> & Hrow & Hrev)]]; [eauto|eauto|].
    simpl. rewrite lookup_insert. case_decide as Hc; [|eauto].
    exists row. split; [done|]. apply (Hrev a); [|done].
    destruct Hrow as [->|(e & He & ->)]; [congruence|].
    pose proof (Hk _ _ He) as Hid. simpl in Hc. by rewrite <- Hc, Hid in Ha; rewrite Ha in *.
  - destruct (touch_cases now i k ts hid s) as [[-> _]|(b & Hb & Hal & ->)]; [eauto|].
    simpl. rewrite lookup_insert. case_decide; [|eauto]. subst. simplify_eq.
    destruct Hal as [Hact _]. congruence.
  - rewrite revoke_lookup, Ha. case_decide; simpl; eauto.
  - rewrite revoke_by_host_lookup, Ha by done. case_decide; eauto.
Qed.

End AgentLemmas.

(** ** Lemmas on the host store *)
Section HostLemmas.
  Context `{PyRuntime}.
  Implicit Types (s : InMemoryHostStore.t) (h : HostIdentity).

Lemma host_inv_init : InMemoryHostStore.inv InMemoryHostStore.init.
Proof. split; intros ? ? Hl; simpl in Hl; by rewrite lookup_empty in Hl. Qed.

(** A successful save files the host under its id and its thumbprint; a failed
    one (no thumbprint for the key) leaves hosts and index alone. *)
Lemma host_save_cases h s : InMemoryHostStore.inv s →
  match jwk_thumbprint_sha256 (h_public_key h) with
  | Raise e => InMemoryHostStore.save h s = (s, Raise e)
      ∨ ∃ e', InMemoryHostStore.save h s = (s, Raise e')
  | Ret tp =>
      (∃ e', InMemoryHostStore.save h s = (s, Raise e'))
      ∨ ∃ index, InMemoryHostStore.save h s =
          (InMemoryHostStore.mk (<[h_host_id h := h]> (InMemoryHostStore.hosts s))
             (<[tp := h_host_id h]> index), Ret tt)
        ∧ ∀ tp' hid, index !! tp' = Some hid →
            InMemoryHostStore.thumb_to_host_id s !! tp' = Some hid
            ∧ (hid = h_host_id h → tp' = tp)
  end.
Proof.
  intros [_ Hidx]. unfold InMemoryHostStore.save.
  destruct (InMemoryHostStore.hosts s !! h_host_id h) as [p|] eqn:Ep; simpl.
  - destruct (jwk_thumbprint_sha256 (h_public_key p)) as [e|old] eqn:Eo; simpl.
    { destruct (jwk_thumbprint_sha256 (h_public_key h)); eauto. }
    destruct (jwk_thumbprint_sha256 (h_public_key h)) as [e|tp] eqn:Et; simpl; [eauto|].
    right. exists (if negb (String.eqb old tp)
        && bool_decide (InMemoryHostStore.thumb_to_host_id s !! old = Some (h_host_id h))
      then delete old (InMemoryHostStore.thumb_to_host_id s)
      else InMemoryHostStore.thumb_to_host_id s).
    split; [by destruct (negb (String.eqb old tp) && _)|].
    assert (Hown : ∀ tp', InMemoryHostStore.thumb_to_host_id s !! tp' = Some (h_host_id h) → tp' = old).
    { intros tp' Htp'. destruct (Hidx _ _ Htp') as (h' & Hh' & Hk). congruence. }
    destruct (String.eqb old tp) eqn:Eq; simpl; reflect.
    { intros tp' hid Htp'. split; [done|]. intros ->. rewrite (Hown _ Htp'). done. }
    case_bool_decide as Hc.
    + intros tp' hid [Hne Htp']%lookup_delete_Some. split; [done|]. intros ->.
      by destruct Hne; rewrite (Hown _ Htp').
    + intros tp' hid Htp'. split; [done|]. intros ->. pose proof (Hown _ Htp'). by subst.
  - destruct (jwk_thumbprint_sha256 (h_public_key h)) as [e|tp] eqn:Et; simpl.
    { left. by destruct s. }
    right. eexists. split; [done|]. intros tp' hid Htp'. split; [done|]. intros ->.
    destruct (Hidx _ _ Htp') as (h' & Hh' & _). congruence.
Qed.

Lemma host_inv_save h s : InMemoryHostStore.inv s → InMemoryHostStore.inv (fst (InMemoryHostStore.save h s)).
Proof.
  intros Hs. pose proof (host_save_cases h s Hs) as Hc.
  destruct (jwk_thumbprint_sha256 (h_public_key h)) as [e|tp] eqn:Et.
  { by destruct Hc as [->|[e' ->]]. }
  destruct Hc as [[e' ->]|(index & -> & Hi)]; [done|].
  destruct Hs as [Hk Hidx]. split; simpl.
  - intros hid h'. rewrite lookup_insert. case_decide; naive_solver.
  - intros tp' hid. rewrite lookup_insert. case_decide as Htp.
    + intros [= <-]. exists h. rewrite lookup_insert_eq. by subst.
    + intros Hl. destruct (Hi _ _ Hl) as [Hl' Hne]. destruct (Hidx _ _ Hl') as (h' & Hh' & Ht').
      exists h'. rewrite lookup_insert_ne by (intros Heq; apply Htp; symmetry; by apply Hne). done.
Qed.

Lemma host_inv_revoke now hid s ag :
  InMemoryHostStore.inv s → InMemoryHostStore.inv (fst (InMemoryHostStore.revoke now hid s ag)).
Proof.
  intros [Hk Hidx]. unfold InMemoryHostStore.revoke.
  destruct (InMemoryHostStore.hosts s !! hid) as [h|] eqn:E; [|done].
  case_bool_decide; [done|]. simpl. split; simpl.
  - intros i h'. rewrite lookup_insert. case_decide; intros; simplify_eq; [|by apply Hk].
    simpl. by apply Hk.
  - intros tp i Hl. destruct (Hidx _ _ Hl) as (h' & Hh' & Ht').
    destruct (decide (i = hid)) as [->|Hne].
    + rewrite E in Hh'. injection Hh' as <-. exists (host_with_status HostRevoked now h).
      by rewrite lookup_insert_eq.
    + exists h'. by rewrite lookup_insert_ne.
Qed.

End HostLemmas.

#[export] Hint Resolve host_inv_init host_inv_save host_inv_revoke : asap.

(** ** Properties *)

(** C10: Revocation is permanent: whatever sequence of saves (of any snapshot,
    with or without an expected key), touches and revocations follows, a
    revoked agent row stays present and revoked. *)
Theorem revoked_is_permanent `{PyRuntime} (s s' : gmap string AgentSession) (aid : string)
    (a : AgentSession) :
  agents_keyed s → rtc agent_step s s' →
  s !! aid = Some a → a_status a = StRevoked →
  ∃ a', s' !! aid = Some a' ∧ a_status a' = StRevoked.
Proof.
  intros Hk Hs. revert a. induction Hs as [s|s s1 s' Hstep Hs IH]; intros a Ha Hr; [eauto|].
  destruct (agent_step_revoked s s1 aid a Hk Hstep Ha Hr) as (a1 & Ha1 & Hr1).
  eapply IH; eauto using agent_step_keyed.
Qed.

(** `touch_if_current` is one compare-and-set: it succeeds exactly when the
    stored row is active, belongs to the expected host, has the expected key
    (same thumbprint) and has not expired; then only `last_used_at` of that row
    changes.  Otherwise the store is untouched. *)
Theorem touch_is_compare_and_set `{PyRuntime} (now ts : Z) (aid hid : string) (k : jwk)
    (s : gmap string AgentSession) :
  match InMemoryAgentStore.touch_if_current now aid k ts hid s with
  | (s', Some row) =>
      ∃ a, s !! aid = Some a ∧ touch_allowed now k hid a
           ∧ row = with_last_used_at ts a ∧ s' = <[aid := row]> s
  | (s', None) => s' = s ∧ ∀ a, s !! aid = Some a → ¬ touch_allowed now k hid a
  end.
Proof.
  destruct (touch_cases now aid k ts hid s) as [[-> Hn]|(a & Ha & Hal & ->)]; [done|].
  exists a. done.
Qed.

(** `save` with an expected key never undoes a concurrent key rotation: it
    fails and leaves the store alone when the stored key is no longer the
    expected one; when it succeeds over an existing row, that row had the
    expected thumbprint, and the written row is either the caller's session
    (carrying that same thumbprint) or the stored row with only its key replaced. *)
Theorem save_respects_rotation `{PyRuntime} (a e : AgentSession) (k : jwk)
    (s : gmap string AgentSession) :
  s !! a_agent_id a = Some e →
  match InMemoryAgentStore.save a (Some k) s with
  | (s', Raise err) => s' = s ∧ (err = RevokedAgentOverwriteError ∨ err = StaleAgentPublicKeyError)
  | (s', Ret _) =>
      ∃ tp row, jwk_thumbprint_sha256 k = Ret tp
        ∧ jwk_thumbprint_sha256 (a_public_key e) = Ret tp
        ∧ s' = <[a_agent_id row := row]> s
        ∧ (row = a ∧ jwk_thumbprint_sha256 (a_public_key a) = Ret tp
           ∨ row = with_public_key (a_public_key a) e
             ∧ jwk_thumbprint_sha256 (a_public_key a) ≠ Ret tp)
        ∧ ¬ (a_status e = StRevoked ∧ a_status a ≠ StRevoked)
  end.
Proof.
  intros He. unfold InMemoryAgentStore.save. rewrite He.
  destruct (bool_decide (a_status e = StRevoked) && negb (bool_decide (a_status a = StRevoked))) eqn:Eg.
  { split; [done|by left]. }
  assert (Hg : ¬ (a_status e = StRevoked ∧ a_status a ≠ StRevoked)).
  { intros [Hr Ha]. rewrite bool_decide_true, bool_decide_false in Eg by done. done. }
  unfold InMemoryAgentStore.cas_public_key_row.
  destruct (jwk_thumbprint_sha256 (a_public_key e)) as [|t1] eqn:E1; [by auto|].
  destruct (jwk_thumbprint_sha256 (a_public_key a)) as [|t2] eqn:E2; [by auto|].
  destruct (jwk_thumbprint_sha256 k) as [|t3] eqn:E3; [by auto|].
  destruct (String.eqb t1 t3) eqn:E13; simpl; reflect; [subst|by auto].
  destruct (String.eqb t2 t3) eqn:E23; simpl; reflect; subst.
  - exists t3, a. split_and!; try done. by left.
  - exists t3, (with_public_key (a_public_key a) e). split_and!; try done. right. split; congruence.
Qed.

(** The thumbprint index of the host store is sound after any sequence of
    saves and revocations: a lookup by thumbprint returns only a host whose
    current key has that thumbprint (a rotated-out key resolves to no one or to
    the host that carries it now), and a saved host is found by its own key. *)
Theorem host_lookup_by_key_sound `{PyRuntime}
    (ops : list (HostIdentity + Z * string)) (tp : string) (h : HostIdentity) :
  let step s op := match op with
                   | inl h => fst (InMemoryHostStore.save h s)
                   | inr (now, hid) => fst (InMemoryHostStore.revoke now hid s None)
                   end in
  let s := fold_left step ops InMemoryHostStore.init in
  (∀ h', InMemoryHostStore.get_by_public_key tp s = Some h' →
     jwk_thumbprint_sha256 (h_public_key h') = Ret tp
     ∧ InMemoryHostStore.get (h_host_id h') s = Some h')
  ∧ (∀ s', InMemoryHostStore.save h s = (s', Ret tt) →
     jwk_thumbprint_sha256 (h_public_key h) = Ret tp →
     InMemoryHostStore.get_by_public_key tp s' = Some h).
Proof.
  intros step s.
  assert (Hs : InMemoryHostStore.inv s).
  { unfold s. assert (Hi : InMemoryHostStore.inv InMemoryHostStore.init) by auto with asap.
    revert Hi. generalize InMemoryHostStore.init.
    induction ops as [|[h0|[now hid]] ops IH]; intros s0 Hs0; simpl; auto with asap. }
  split.
  - unfold InMemoryHostStore.get_by_public_key, InMemoryHostStore.get. intros h'.
    destruct (InMemoryHostStore.thumb_to_host_id s !! tp) as [hid|] eqn:Et; [|done].
    intros Hh'. destruct Hs as [Hk Hidx]. destruct (Hidx _ _ Et) as (h1 & Hh1 & Htp).
    simplify_eq. split; [done|]. by rewrite (Hk _ _ Hh').
  - intros s' Hsave Htp. pose proof (host_save_cases h s Hs) as Hc. rewrite Htp, Hsave in Hc.
    destruct Hc as [[e' ?]|(index & [= ->] & _)]; [done|].
    unfold InMemoryHostStore.get_by_public_key. simpl. rewrite lookup_insert_eq.
    apply lookup_insert_eq.
Qed.

(** Revoking a host revokes, in the same step, every agent session of that
    host and no other; a revoked host has no live agent left. *)
Theorem host_revoke_cascades `{PyRuntime} (now : Z) (hid : string) (s : InMemoryHostStore.t)
    (ag : gmap string AgentSession) (h : HostIdentity) :
  agents_keyed ag →
  InMemoryHostStore.get hid s = Some h → h_status h ≠ HostRevoked →
  ∃ s' ag', InMemoryHostStore.revoke now hid s (Some ag) = (s', Some ag')
  ∧ InMemoryHostStore.get hid s' = Some (host_with_status HostRevoked now h)
  ∧ (∀ aid a, ag !! aid = Some a → a_host_id a = hid →
       ag' !! aid = Some (with_status StRevoked a))
  ∧ (∀ aid a, ag !! aid = Some a → a_host_id a ≠ hid → ag' !! aid = Some a)
  ∧ (∀ aid, ag !! aid = None → ag' !! aid = None).
Proof.
  intros Hk Hh Hst. unfold InMemoryHostStore.revoke, InMemoryHostStore.get in *. rewrite Hh.
  rewrite bool_decide_false by done. eexists _, _. split; [done|]. simpl.
  rewrite lookup_insert_eq. split; [done|].
  split_and!; intros aid; [intros a|intros a|]; rewrite revoke_by_host_lookup by done;
    intros Ha; rewrite Ha; [..|done]; intros Hhost; [by rewrite decide_True|by rewrite decide_False].
Qed.

(** Reactivation succeeds exactly for active or expired sessions within
    their absolute lifetime; the session it returns is active, keeps its
    identity and key, and passes the expiry check at that instant.  Past the
    absolute lifetime it is refused for ever. *)
Theorem reactivate_spec (now later : Z) (a : AgentSession) (h : HostIdentity) :
  now <= later →
  (∀ l, a_session_ttl a = Some l → 0 <= l) → (∀ l, a_max_lifetime a = Some l → 0 <= l) →
  match reactivate_agent now a h with
  | Ret a' =>
      a_status a ∈ [StActive; StExpired] ∧ a_status a' = StActive
      ∧ check_agent_expiry now a' = ExActive
      ∧ a_agent_id a' = a_agent_id a ∧ a_host_id a' = a_host_id a
      ∧ a_public_key a' = a_public_key a ∧ a_created_at a' = a_created_at a
  | Raise _ =>
      a_status a ∉ [StActive; StExpired]
      ∨ check_agent_expiry now a = ExRevoked ∧ ∃ e, reactivate_agent later a h = Raise e
  end.
Proof.
  intros Hle Httl Hmax. unfold reactivate_agent, reactivatable.
  case_bool_decide as Hst; simpl; [|by left].
  destruct (exceeds (a_absolute_lifetime a) (now - a_created_at a)) eqn:Eabs.
  - right. split; [unfold check_agent_expiry; by rewrite Eabs|].
    assert (exceeds (a_absolute_lifetime a) (later - a_created_at a) = true) as ->; [|eauto].
    unfold exceeds in *. destruct (a_absolute_lifetime a); [|done]. apply Z.ltb_lt. reflect. lia.
  - assert (Hnn : ∀ o, (∀ l, o = Some l → 0 <= l) → exceeds o (now - now) = false).
    { intros [l|] Ho; [|done]. simpl. apply Z.ltb_ge. specialize (Ho l eq_refl). lia. }
    split_and!; try done. unfold check_agent_expiry. simpl. rewrite Eabs, !Hnn by done. done.
Qed.

(** ** Witnesses *)
#[local] Instance demo_runtime : PyRuntime := {| float_repr := λ _, "0.0"%string; float_of_str := λ _, None |}.

Definition demo_key (x : string) : jwk :=
  [("kty", JStr "OKP"); ("crv", JStr "Ed25519"); ("x", JStr x)]%string.
Definition demo_agent (st : AgentSessionStatus) (x : string) : AgentSession :=
  mkAgent "a1" "h1" (demo_key x) Delegated st (Some 100) None (Some 1000) (Some 0) (Some 0) 0.
Definition demo_host : HostIdentity :=
  mkHost "h1" None (demo_key "H") None [] HostActive 0 0.

Lemma demo_agents_keyed st x : agents_keyed {[ "a1"%string := demo_agent st x ]}.
Proof. intros i a. rewrite lookup_singleton_Some. by intros [<- <-]. Qed.

Lemma revoked_is_permanent_witness :
  ∃ a', fst (InMemoryAgentStore.save (demo_agent StActive "K") None
               {[ "a1"%string := demo_agent StRevoked "K" ]}) !! "a1"%string = Some a'
        ∧ a_status a' = StRevoked.
Proof.
  apply (revoked_is_permanent {[ "a1"%string := demo_agent StRevoked "K" ]} _ "a1"
           (demo_agent StRevoked "K")).
  - apply demo_agents_keyed.
  - apply rtc_once. constructor.
  - reflexivity.
  - reflexivity.
Defined.

(** A lifecycle save that still expects the old key after a rotation to "K2". *)
Lemma save_respects_rotation_witness :
  fst (InMemoryAgentStore.save (demo_agent StActive "K1") (Some (demo_key "K1"))
         {[ "a1"%string := demo_agent StActive "K2" ]}) = {[ "a1"%string := demo_agent StActive "K2" ]}.
Proof.
  pose proof (save_respects_rotation (demo_agent StActive "K1") (demo_agent StActive "K2")
    (demo_key "K1") {[ "a1"%string := demo_agent StActive "K2" ]} eq_refl) as Hw.
  vm_compute in Hw. vm_compute. apply Hw.
Defined.

Lemma host_revoke_cascades_witness :
  ∃ ag', snd (InMemoryHostStore.revoke 5 "h1"
           (InMemoryHostStore.mk {[ "h1"%string := demo_host ]} ∅)
           (Some {[ "a1"%string := demo_agent StActive "K" ]})) = Some ag'
         ∧ ag' !! "a1"%string = Some (with_status StRevoked (demo_agent StActive "K")).
Proof.
  destruct (host_revoke_cascades 5 "h1" (InMemoryHostStore.mk {[ "h1"%string := demo_host ]} ∅)
    {[ "a1"%string := demo_agent StActive "K" ]} demo_host) as (s' & ag' & -> & _ & Hag & _).
  - apply demo_agents_keyed.
  - reflexivity.
  - discriminate.
  - exists ag'. split; [reflexivity|]. apply Hag; reflexivity.
Defined.

Lemma reactivate_spec_witness :
  check_agent_expiry 500 (with_last_used_at 500 (with_activated_at 500
    (with_status StActive (demo_agent StExpired "K")))) = ExActive
  ∧ reactivate_agent 500 (demo_agent StExpired "K") demo_host
    = Ret (with_last_used_at 500 (with_activated_at 500
        (with_status StActive (demo_agent StExpired "K")))).
Proof.
  split; [|reflexivity].
  apply (reactivate_spec 500 600 (demo_agent StExpired "K") demo_host); simpl; intros; simplify_eq; lia.
Defined.
