(* ===== verification/ReplayGuard.v ===== *)
(** * Replay guards

    - `JtiReplayCache` of `src/src/asap/auth/agent_jwt.py` (lines 95-149): the
      in-memory guard on JWT ids, a dictionary of expiries in insertion order,
      pruned on every call and bounded by `max_size`;
    - `src/src/asap/auth/jti_replay_cache.py`: the guard's interface and its
      Redis variant, over a client given by its documented commands.

    Clock readings are arguments, in microseconds. *)

From Stdlib Require Import ZArith Lia Ascii String.
From stdpp Require Import base tactics list gmap strings sorting.
From S2P Require Import Prelude PyValue.
Open Scope Z_scope.

Definition second : Z := 1000000.

(** ** The in-memory JWT id guard *)
Module JtiReplayCache.

Abbreviation entries := (list ((string * string) * Z)).

Record t : Type := mk {
  ttl : Z;
  max_size : Z;
  expiry_by_key : entries
}.

Definition init (ttl_seconds max_size : Z) : t := mk ttl_seconds max_size [].

Definition with_entries (d : entries) (c : t) : t := mk (ttl c) (max_size c) d.

(** `_prune_expired` *)
Definition prune_expired (now : Z) (c : t) : t :=
  with_entries (filter (λ kv, ¬ (kv.2 <= now)) (expiry_by_key c)) c.

(** `min(d, key=...)`: the first key with the least expiry. *)
Fixpoint oldest (best : (string * string) * Z) (d : entries) : (string * string) * Z :=
  match d with
  | [] => best
  | kv :: d' => oldest (if kv.2 <? best.2 then kv else best) d'
  end.

(** `_evict_to_max_size`; each round removes one entry, so the number of
    entries bounds the number of rounds. *)
Fixpoint evict_loop (fuel : nat) (bound : Z) (d : entries) : entries :=
  match fuel, d with
  | S fuel', kv :: d' =>
      if bound <? Z.of_nat (length d)
      then evict_loop fuel' bound (PyDict.del (oldest kv d').1 d)
      else d
  | _, _ => d
  end.

Definition evict_to_max_size (c : t) : t :=
  with_entries (evict_loop (length (expiry_by_key c)) (max_size c) (expiry_by_key c)) c.

(** `not jti or not str(jti).strip()` *)
Definition jti_blank (jti : string) : bool := negb (PyStr.truthy jti) || negb (PyStr.nonblank jti).

Definition live (now : Z) (key : string * string) (d : entries) : bool :=
  match PyDict.get key d with Some exp => now <? exp | None => false end.

Definition contains (now : Z) (partition_key jti : string) (c : t) : t * bool :=
  if jti_blank jti then (c, false)
  else
    let c := prune_expired now c in
    (c, live now (partition_key, jti) (expiry_by_key c)).

Definition check_and_record (now : Z) (partition_key jti : string) (c : t) : t * bool :=
  if jti_blank jti then (c, false)
  else
    let c := prune_expired now c in
    if live now (partition_key, jti) (expiry_by_key c) then (c, false)
    else
      let c := with_entries (PyDict.set (partition_key, jti) (now + ttl c) (expiry_by_key c)) c in
      (evict_to_max_size c, true).

(** What callers may do at one instant. *)
Inductive call : Type :=
| Contains (partition_key jti : string)
| Record_ (partition_key jti : string).

Definition do_call (c : t) (tc : Z * call) : t :=
  match tc with
  | (now, Contains p j) => fst (contains now p j c)
  | (now, Record_ p j) => fst (check_and_record now p j c)
  end.

Definition do_calls (c : t) (l : list (Z * call)) : t := fold_left do_call l c.

(** Readings that never go back, from [from] to [upto]. *)
Fixpoint clocked (from upto : Z) (l : list (Z * call)) : Prop :=
  match l with
  | [] => from <= upto
  | (now, _) :: l' => from <= now ∧ clocked now upto l'
  end.

(** Invariant at time [now]: one entry per key, in the order of their
    expiries, none beyond [now + ttl], within the size bound. *)
Definition exp_le (a b : (string * string) * Z) : Prop := a.2 <= b.2.

Definition inv (now : Z) (c : t) : Prop :=
  PyDict.wf (expiry_by_key c)
  ∧ StronglySorted exp_le (expiry_by_key c)
  ∧ Forall (λ kv, kv.2 <= now + ttl c) (expiry_by_key c)
  ∧ Z.of_nat (length (expiry_by_key c)) <= max_size c.

(** *** Lemmas *)

Lemma oldest_sorted best d : Forall (exp_le best) d → oldest best d = best.
Proof.
  revert best. induction d as [|kv d IH]; intros best Hb; [done|].
  apply Forall_cons in Hb as [Hle Hb]. simpl.
  assert ((kv.2 <? best.2) = false) as -> by (apply Z.ltb_ge; done). by apply IH.
Qed.

(** On entries sorted by expiry, eviction drops from the front. *)
Lemma evict_sorted fuel bound d :
  StronglySorted exp_le d → (length d <= fuel)%nat → 0 <= bound →
  ∃ dropped, d = dropped ++ evict_loop fuel bound d
    ∧ Z.of_nat (length (evict_loop fuel bound d)) <= bound
    ∧ (dropped = [] ∨ Z.of_nat (length (evict_loop fuel bound d)) = bound).
Proof.
  revert d. induction fuel as [|fuel IH]; intros d Hs Hlen Hb.
  { destruct d; [|simpl in Hlen; lia]. exists []. simpl. split_and!; auto with lia. }
  destruct d as [|kv d]; [exists []; simpl; split_and!; auto with lia|].
  cbn [evict_loop]. destruct (bound <? Z.of_nat (length (kv :: d))) eqn:E; reflect; cycle 1.
  { exists []. split_and!; [done|lia|by left]. }
  apply StronglySorted_inv in Hs as [Hs Hall].
  rewrite oldest_sorted by done.
  assert (Hdel : PyDict.del kv.1 (kv :: d) = d) by (destruct kv; simpl; by rewrite decide_True).
  rewrite Hdel. destruct (IH d) as (dr & Hd & Hle & Hor); [done|simpl in Hlen; lia|done|].
  exists (kv :: dr). rewrite Hd at 1. split_and!; [done|done|].
  right. destruct Hor as [->|?]; [|done]. simpl in Hd. rewrite <- Hd in *. simpl in E. lia.
Qed.

Lemma prune_get now key c : PyDict.wf (expiry_by_key c) →
  PyDict.get key (expiry_by_key (prune_expired now c)) =
  match PyDict.get key (expiry_by_key c) with
  | Some exp => if decide (exp <= now) then None else Some exp
  | None => None
  end.
Proof.
  unfold prune_expired. simpl. unfold PyDict.wf, PyDict.keys.
  induction (expiry_by_key c) as [|[k e] d IH]; [done|].
  simpl. intros [Hk Hd]%NoDup_cons.
  assert (Hnone : k = key → PyDict.get key (filter (λ kv : (string * string) * Z, ¬ (kv.2 <= now)) d) = None).
  { intros ->. rewrite IH by done. by rewrite (proj2 (PyDict.get_None key d)) by done. }
  rewrite filter_cons. simpl. destruct (decide (e <= now)) as [Hle|Hgt].
  - rewrite decide_False by naive_solver. case_decide; subst; [|by apply IH].
    rewrite decide_True by done. by apply Hnone.
  - rewrite decide_True by done. simpl. case_decide; subst; [by rewrite decide_False|by apply IH].
Qed.

Lemma prune_suffix_sorted now d : StronglySorted exp_le d →
  ∃ gone, d = gone ++ filter (λ kv, ¬ (kv.2 <= now)) d ∧ Forall (λ kv, kv.2 <= now) gone.
Proof.
  induction 1 as [|kv d Hs IH Hall]; [exists []; done|].
  rewrite filter_cons. case_decide as Hc.
  - exists []. split; [|done]. simpl. f_equal. symmetry. apply filter_all.
    eapply Forall_impl; [exact Hall|]. intros x Hx. unfold exp_le in Hx. simpl. lia.
  - destruct IH as (g & Hd & Hg). exists (kv :: g). simpl. rewrite <- Hd. split; [done|].
    by constructor; [lia|].
Qed.

Lemma inv_suffix now c d' gone : inv now c → expiry_by_key c = gone ++ d' → inv now (with_entries d' c).
Proof.
  intros (Hwf & Hs & Hb & Hl) He. rewrite He in *. unfold inv. simpl. split_and!.
  - unfold PyDict.wf, PyDict.keys in *. rewrite fmap_app in Hwf. by apply NoDup_app in Hwf as (_&_&?).
  - by eapply StronglySorted_app_r.
  - by apply Forall_app in Hb as [_ ?].
  - rewrite length_app in Hl. lia.
Qed.

Lemma inv_later now now' c : now <= now' → inv now c → inv now' c.
Proof.
  intros Hle (?&?&Hb&?). split_and!; try done. eapply Forall_impl; [done|]. simpl. intros; lia.
Qed.

Lemma inv_prune now c : inv now c → inv now (prune_expired now c).
Proof.
  intros Hi. destruct (prune_suffix_sorted now (expiry_by_key c)) as (g & Hg & _); [apply Hi|].
  by eapply inv_suffix.
Qed.

(** After pruning, an entry is there exactly when it is live. *)
Lemma pruned_live now key c : PyDict.wf (expiry_by_key c) →
  live now key (expiry_by_key (prune_expired now c)) = live now key (expiry_by_key c)
  ∧ (live now key (expiry_by_key c) = false →
     PyDict.get key (expiry_by_key (prune_expired now c)) = None).
Proof.
  intros Hwf. unfold live. rewrite prune_get by done.
  destruct (PyDict.get key (expiry_by_key c)) as [e|]; [|done].
  case_decide; split; try done; reflect.
  - symmetry. apply Z.ltb_ge. done.
  - intros Hf. reflect. lia.
Qed.

(** A recorded entry goes last; the bound may push out entries in front. *)
Lemma record_appends now p j c : inv now c → 0 <= ttl c → 0 <= max_size c → jti_blank j = false →
  live now (p, j) (expiry_by_key c) = false →
  ∃ gone dropped, snd (check_and_record now p j c) = true
    ∧ expiry_by_key c ++ [((p, j), now + ttl c)]
      = (gone ++ dropped) ++ expiry_by_key (fst (check_and_record now p j c))
    ∧ Forall (λ kv, kv.2 <= now) gone
    ∧ (dropped = [] ∨
       Z.of_nat (length (expiry_by_key (fst (check_and_record now p j c)))) = max_size c)
    ∧ inv now (fst (check_and_record now p j c)).
Proof.
  intros Hi Httl Hmax Hj Hl. unfold check_and_record. rewrite Hj.
  destruct (prune_suffix_sorted now (expiry_by_key c)) as (g & Hg & Hgone); [apply Hi|].
  destruct (pruned_live now (p, j) c) as [Hlive Hnone]; [apply Hi|].
  rewrite Hlive, Hl. specialize (Hnone Hl). cbn [fst snd].
  set (d := expiry_by_key (prune_expired now c)) in *.
  pose proof (inv_prune now c Hi) as (Hwf & Hs & Hb & Hlen). fold d in Hwf, Hs, Hb, Hlen.
  change (max_size (prune_expired now c)) with (max_size c) in Hlen.
  change (ttl (prune_expired now c)) with (ttl c) in Hb.
  assert (Hset : PyDict.set (p, j) (now + ttl c) d = d ++ [((p, j), now + ttl c)]).
  { clear -Hnone. induction d as [|[k e] d IH]; [done|]. simpl in *. case_decide; [done|].
    rewrite IH by done. done. }
  assert (Hs' : StronglySorted exp_le (d ++ [((p, j), now + ttl c)])) by (by apply StronglySorted_snoc).
  destruct (evict_sorted (length (d ++ [((p, j), now + ttl c)])) (max_size c)
              (d ++ [((p, j), now + ttl c)])) as (dr & Hdr & Hle & Hor); [done|done|done|].
  exists g, dr. split; [done|].
  unfold evict_to_max_size, with_entries. cbn [ttl max_size expiry_by_key].
  change (ttl (prune_expired now c)) with (ttl c).
  change (max_size (prune_expired now c)) with (max_size c). rewrite Hset. split_and!.
  - rewrite Hg at 1. rewrite <- !app_assoc. f_equal. exact Hdr.
  - done.
  - done.
  - assert (Hi' : inv now (mk (ttl c) (max_size c + 1) (d ++ [((p, j), now + ttl c)]))).
    { unfold inv. simpl. split_and!; [|done| |rewrite length_app; simpl; lia].
      - rewrite <- Hset. by apply PyDict.wf_set.
      - apply Forall_app. split; [done|]. constructor; [simpl; lia|done]. }
    apply (inv_suffix _ _ _ _ Hi') in Hdr. destruct Hdr as (?&?&?&_). by split_and!.
Qed.

Lemma do_call_inv now c tc : inv now c → 0 <= ttl c → 0 <= max_size c → now <= tc.1 →
  inv tc.1 (do_call c tc) ∧ ttl (do_call c tc) = ttl c ∧ max_size (do_call c tc) = max_size c.
Proof.
  destruct tc as [now' [p j|p j]]; simpl; intros Hi Httl Hmax Hle;
    apply (inv_later _ _ _ Hle) in Hi.
  - unfold contains. destruct (jti_blank j); [done|]. split; [by apply inv_prune|done].
  - destruct (jti_blank j) eqn:Ej; [unfold check_and_record; by rewrite Ej|].
    destruct (live now' (p, j) (expiry_by_key c)) eqn:El.
    + unfold check_and_record. rewrite Ej. rewrite (proj1 (pruned_live now' (p, j) c (proj1 Hi))), El.
      split; [by apply inv_prune|done].
    + destruct (record_appends now' p j c) as (? & ? & _ & _ & _ & _ & ?); try done.
      split; [done|]. unfold check_and_record. rewrite Ej. by case_match.
Qed.

(** Dropping a prefix that cannot contain [x] keeps [x] and all after it. *)
Lemma suffix_keeps {A} (front back gone rest : list A) (x : A) :
  front ++ x :: back = gone ++ rest → (x ∉ gone ∨ (length back < length rest)%nat) →
  ∃ front', rest = front' ++ x :: back.
Proof.
  revert front. induction gone as [|y gone IH]; intros front Heq Hor; simpl in *; [by exists front|].
  destruct front as [|z front]; simplify_eq/=.
  - exfalso. destruct Hor as [Hn|Hlt]; [set_solver|]. rewrite length_app in Hlt. lia.
  - eapply IH; [done|]. set_solver.
Qed.

Lemma do_call_keeps c from tc key exp front back :
  inv from c → 0 <= ttl c → from <= tc.1 → tc.1 < exp →
  expiry_by_key c = front ++ (key, exp) :: back → Z.of_nat (length back) + 1 < max_size c →
  ∃ front' back', expiry_by_key (do_call c tc) = front' ++ (key, exp) :: back'
    ∧ (length back' <= S (length back))%nat.
Proof.
  intros Hi Httl Hle Hexp He Hlen. apply (inv_later _ _ _ Hle) in Hi.
  assert (Hnot : ∀ g, Forall (λ kv, kv.2 <= tc.1) g → (key, exp) ∉ g).
  { intros g Hg Hin. rewrite Forall_forall in Hg. specialize (Hg _ Hin). simpl in Hg. lia. }
  assert (Hprune : ∃ front', expiry_by_key (prune_expired tc.1 c) = front' ++ (key, exp) :: back).
  { destruct (prune_suffix_sorted tc.1 (expiry_by_key c)) as (g & Hg & Hgone); [apply Hi|].
    eapply suffix_keeps; [rewrite <- He; exact Hg|left; by apply Hnot]. }
  destruct Hprune as [fp Hfp].
  destruct tc as [now [p j|p j]]; simpl in *.
  - unfold contains. destruct (jti_blank j); simpl; [eauto|]. exists fp, back. split; [done|lia].
  - destruct (jti_blank j) eqn:Ej; [unfold check_and_record; rewrite Ej; simpl; eauto|].
    destruct (live now (p, j) (expiry_by_key c)) eqn:El.
    + unfold check_and_record. rewrite Ej, (proj1 (pruned_live now (p, j) c (proj1 Hi))), El.
      exists fp, back. split; [done|lia].
    + destruct (record_appends now p j c) as (g & dr & _ & Heq & Hg & Hor & _); try done; [lia|].
      rewrite He, <- app_assoc in Heq. simpl in Heq.
      assert (Hsk : ∃ front', expiry_by_key (fst (check_and_record now p j c)) =
                front' ++ (key, exp) :: (back ++ [(p, j, now + ttl c)])).
      { eapply suffix_keeps; [exact Heq|]. destruct Hor as [->|Hmax].
        - left. rewrite app_nil_r. by apply Hnot.
        - right. rewrite length_app. simpl. lia. }
      destruct Hsk as [front' Hsk]. exists front', (back ++ [(p, j, now + ttl c)]).
      split; [done|]. rewrite length_app. simpl. lia.
Qed.

Lemma clocked_le from upto l : clocked from upto l → from <= upto.
Proof. revert from. induction l as [|[now tc] l IH]; simpl; [done|]. intros from [? ?%IH]. lia. Qed.

Lemma do_calls_keeps l c from upto key exp front back :
  inv from c → 0 <= ttl c → clocked from upto l → upto < exp →
  expiry_by_key c = front ++ (key, exp) :: back →
  Z.of_nat (length back + length l) < max_size c →
  (∃ front' back', expiry_by_key (do_calls c l) = front' ++ (key, exp) :: back')
  ∧ inv upto (do_calls c l) ∧ ttl (do_calls c l) = ttl c ∧ max_size (do_calls c l) = max_size c.
Proof.
  revert c from front back. induction l as [|[now tc] l IH]; intros c from front back Hi Httl Hcl Hexp He Hlen.
  { simpl in *. split_and!; eauto. by eapply inv_later. }
  destruct Hcl as [Hfrom Hcl].
  pose proof (clocked_le _ _ _ Hcl) as Hup.
  simpl in Hlen.
  destruct (do_call_keeps c from (now, tc) key exp front back) as (f' & b' & He' & Hb'); simpl; try done; try lia.
  destruct (do_call_inv from c (now, tc)) as (Hi' & Ht' & Hm'); try done; [lia|].
  simpl. change (do_calls c ((now, tc) :: l)) with (do_calls (do_call c (now, tc)) l).
  rewrite <- Ht', <- Hm'. eapply IH; eauto; rewrite ?Ht', ?Hm'; [done|lia].
Qed.

Lemma do_calls_inv l c from upto :
  inv from c → 0 <= ttl c → 0 <= max_size c → clocked from upto l →
  inv upto (do_calls c l) ∧ ttl (do_calls c l) = ttl c ∧ max_size (do_calls c l) = max_size c.
Proof.
  revert c from. induction l as [|[now tc] l IH]; intros c from Hi Ht Hm Hcl; simpl in *.
  { split; [by eapply inv_later|done]. }
  destruct Hcl as [Hfrom Hcl].
  destruct (do_call_inv from c (now, tc)) as (Hi' & Ht' & Hm'); try done.
  change (do_calls c ((now, tc) :: l)) with (do_calls (do_call c (now, tc)) l).
  rewrite <- Ht', <- Hm'. eapply IH; eauto; by rewrite ?Ht', ?Hm'.
Qed.

(** When an id is accepted, and what acceptance leaves behind. *)
Lemma accepts_iff now p j c : PyDict.wf (expiry_by_key c) →
  snd (check_and_record now p j c) = true ↔
  jti_blank j = false ∧ live now (p, j) (expiry_by_key c) = false.
Proof.
  intros Hwf. unfold check_and_record. destruct (jti_blank j); [naive_solver|].
  rewrite (proj1 (pruned_live now (p, j) c Hwf)).
  destruct (live now (p, j) (expiry_by_key c)); naive_solver.
Qed.

Lemma check_and_record_config now p j c :
  ttl (fst (check_and_record now p j c)) = ttl c
  ∧ max_size (fst (check_and_record now p j c)) = max_size c.
Proof. unfold check_and_record. by repeat case_match. Qed.

Lemma accepted_entry_last now p j c : inv now c → 0 < ttl c → 0 < max_size c →
  snd (check_and_record now p j c) = true →
  inv now (fst (check_and_record now p j c))
  ∧ ∃ front, expiry_by_key (fst (check_and_record now p j c)) = front ++ [((p, j), now + ttl c)].
Proof.
  intros Hi Httl Hmax [Hj Hl]%accepts_iff; [|apply Hi].
  destruct (record_appends now p j c) as (g & dr & _ & Heq & Hg & Hor & Hi1); try done; [lia|lia|].
  split; [done|]. eapply suffix_keeps; [exact Heq|]. destruct Hor as [->|Hm].
  - left. rewrite app_nil_r. intros Hin. rewrite Forall_forall in Hg. specialize (Hg _ Hin).
    simpl in Hg. lia.
  - right. simpl. lia.
Qed.

Lemma inv_start ttl0 max0 now : 0 <= max0 → inv now (init ttl0 max0).
Proof. intros. unfold inv, init. simpl. split_and!; try constructor. lia. Qed.

End JtiReplayCache.

(** ** Properties of the JWT id guard *)

(** C25: Within the window a recorded id is refused: start from an empty guard,
    let any calls happen, record an id at [t1], let fewer than `max_size` calls
    follow, and present the id again at [t2] before the window ends.  The second
    presentation is refused and the id is still reported as known. *)
Theorem jti_replay_refused (ttl0 max0 t0 t1 t2 : Z) (before after : list (Z * JtiReplayCache.call))
    (p j : string) :
  0 <= ttl0 →
  JtiReplayCache.clocked t0 t1 before → JtiReplayCache.clocked t1 t2 after →
  Z.of_nat (length after) < max0 → t2 < t1 + ttl0 →
  let c0 := JtiReplayCache.do_calls (JtiReplayCache.init ttl0 max0) before in
  snd (JtiReplayCache.check_and_record t1 p j c0) = true →
  let c := JtiReplayCache.do_calls (fst (JtiReplayCache.check_and_record t1 p j c0)) after in
  snd (JtiReplayCache.check_and_record t2 p j c) = false
  ∧ snd (JtiReplayCache.contains t2 p j c) = true.
Proof.
  intros Httl Hb Ha Hlen Ht2 c0 Hrec c. pose proof (JtiReplayCache.clocked_le _ _ _ Ha) as H12.
  destruct (JtiReplayCache.do_calls_inv before (JtiReplayCache.init ttl0 max0) t0 t1) as (Hi & Et & Em);
    try done; [apply JtiReplayCache.inv_start; lia|simpl; lia|]. fold c0 in Hi, Et, Em. simpl in Et, Em.
  destruct (JtiReplayCache.accepted_entry_last t1 p j c0) as (Hi1 & front & Hfront); try done; [lia|lia|].
  destruct (JtiReplayCache.check_and_record_config t1 p j c0) as [Ht1 Hm1]. rewrite Et in Ht1, Hfront.
  rewrite Em in Hm1.
  destruct (JtiReplayCache.do_calls_keeps after _ t1 t2 (p, j) (t1 + ttl0) front [] Hi1)
    as ((f & b & Hc) & Hi2 & _ & _); try done; [by rewrite Ht1|simpl; lia|].
  fold c in Hc, Hi2.
  assert (Hlive : JtiReplayCache.live t2 (p, j) (JtiReplayCache.expiry_by_key c) = true).
  { unfold JtiReplayCache.live. rewrite (PyDict.elem_get (p, j) (t1 + ttl0)).
    - apply Z.ltb_lt. lia.
    - apply Hi2.
    - rewrite Hc. set_solver. }
  pose proof (proj1 (JtiReplayCache.accepts_iff t1 p j c0 (proj1 Hi)) Hrec) as [Hj _]. split.
  - apply not_true_iff_false. rewrite JtiReplayCache.accepts_iff by apply Hi2. rewrite Hlive. naive_solver.
  - unfold JtiReplayCache.contains. rewrite Hj. cbn [snd].
    rewrite (proj1 (JtiReplayCache.pruned_live t2 (p, j) c (proj1 Hi2))). done.
Qed.

Lemma jti_replay_refused_witness :
  let c0 := JtiReplayCache.do_calls (JtiReplayCache.init 90 3) [(0, JtiReplayCache.Record_ "h" "x")] in
  let c := JtiReplayCache.do_calls (fst (JtiReplayCache.check_and_record 5 "h" "tok" c0))
             [(7, JtiReplayCache.Record_ "h" "y")] in
  snd (JtiReplayCache.check_and_record 60 "h" "tok" c) = false
  ∧ snd (JtiReplayCache.contains 60 "h" "tok" c) = true.
Proof.
  refine (jti_replay_refused 90 3 0 5 60 [(0, JtiReplayCache.Record_ "h" "x")]
    [(7, JtiReplayCache.Record_ "h" "y")] "h" "tok" _ _ _ _ _ _); [simpl; lia..|vm_compute; reflexivity].
Defined.

(** The guard at any instant of any history with a clock that does not go
    back: it accepts an id exactly when the id is not blank and no unexpired
    record of it is held, so a first use is never refused; and it never holds
    more than `max_size` records, all of them distinct and none valid beyond
    one window from now. *)
Theorem jti_guard_exact (ttl0 max0 t0 t1 : Z) (before : list (Z * JtiReplayCache.call)) (p j : string) :
  0 <= ttl0 → 0 <= max0 → JtiReplayCache.clocked t0 t1 before →
  let c := JtiReplayCache.do_calls (JtiReplayCache.init ttl0 max0) before in
  (snd (JtiReplayCache.check_and_record t1 p j c) = true ↔
   JtiReplayCache.jti_blank j = false ∧
   ∀ e, ((p, j), e) ∈ JtiReplayCache.expiry_by_key c → e <= t1)
  ∧ let c' := fst (JtiReplayCache.check_and_record t1 p j c) in
    Z.of_nat (length (JtiReplayCache.expiry_by_key c')) <= max0
    ∧ NoDup (PyDict.keys (JtiReplayCache.expiry_by_key c'))
    ∧ ∀ k e, (k, e) ∈ JtiReplayCache.expiry_by_key c' → e <= t1 + ttl0.
Proof.
  intros Httl Hmax Hb c.
  destruct (JtiReplayCache.do_calls_inv before (JtiReplayCache.init ttl0 max0) t0 t1) as (Hi & Et & Em);
    try done; [by apply JtiReplayCache.inv_start|]. fold c in Hi, Et, Em. simpl in Et, Em.
  split.
  - rewrite JtiReplayCache.accepts_iff by apply Hi. f_equiv. unfold JtiReplayCache.live.
    destruct (PyDict.get (p, j) (JtiReplayCache.expiry_by_key c)) as [e|] eqn:E.
    + rewrite Z.ltb_ge. split; [|intros Hall; by apply Hall, PyDict.get_Some_elem].
      intros Hle e' Hin. apply PyDict.elem_get in Hin; [|apply Hi]. naive_solver.
    + split; [|done]. intros _ e Hin. apply PyDict.elem_get in Hin; [congruence|apply Hi].
  - destruct (JtiReplayCache.do_call_inv t1 c (t1, JtiReplayCache.Record_ p j)) as ((Hwf & _ & Hle & Hlen) & Ht & Hm);
      try done; try (simpl; lia). simpl in *. rewrite Ht, Hm, Et, Em in *.
    split_and!; [done|done|]. intros k e Hin. rewrite Forall_forall in Hle. apply (Hle _ Hin).
Qed.

Lemma jti_guard_exact_witness :
  snd (JtiReplayCache.check_and_record 100 "h" "tok"
    (JtiReplayCache.do_calls (JtiReplayCache.init 90 3) [(5, JtiReplayCache.Record_ "h" "tok")])) = true.
Proof.
  apply (jti_guard_exact 90 3 0 100 [(5, JtiReplayCache.Record_ "h" "tok")]); try (simpl; lia).
  split; [reflexivity|]. vm_compute. intros e He. apply list_elem_of_singleton in He.
  injection He as ->. discriminate.
Defined.

(** ** The guard's interface *)

(** `JtiReplayCacheProtocol`, with the promise its callers rely on: an id
    accepted at some instant is known, and refused, when presented again
    before the window of [jg_window] has passed. *)
Class JtiGuard (C : Type) : Type := {
  jg_contains : Z → string → string → C → C * bool;
  jg_check_and_record : Z → string → string → C → C * bool;
  jg_inv : Z → C → Prop;
  jg_window : C → Z;
  jg_single_use : ∀ t1 t2 p j c, jg_inv t1 c → t1 <= t2 → t2 < t1 + jg_window c →
    snd (jg_check_and_record t1 p j c) = true →
    snd (jg_check_and_record t2 p j (fst (jg_check_and_record t1 p j c))) = false
    ∧ snd (jg_contains t2 p j (fst (jg_check_and_record t1 p j c))) = true
}.

Lemma memory_single_use t1 t2 p j c :
  JtiReplayCache.inv t1 c ∧ 0 < JtiReplayCache.max_size c → t1 <= t2 → t2 < t1 + JtiReplayCache.ttl c →
  snd (JtiReplayCache.check_and_record t1 p j c) = true →
  snd (JtiReplayCache.check_and_record t2 p j (fst (JtiReplayCache.check_and_record t1 p j c))) = false
  ∧ snd (JtiReplayCache.contains t2 p j (fst (JtiReplayCache.check_and_record t1 p j c))) = true.
Proof.
  intros [Hi Hmax] H12 Ht2 Hrec.
  destruct (JtiReplayCache.accepted_entry_last t1 p j c) as (Hi1 & front & Hfront); try done; [lia|].
  pose proof (proj1 (JtiReplayCache.accepts_iff t1 p j c (proj1 Hi)) Hrec) as [Hj _].
  assert (Hlive : JtiReplayCache.live t2 (p, j)
            (JtiReplayCache.expiry_by_key (fst (JtiReplayCache.check_and_record t1 p j c))) = true).
  { unfold JtiReplayCache.live. rewrite (PyDict.elem_get (p, j) (t1 + JtiReplayCache.ttl c)).
    - apply Z.ltb_lt. lia.
    - apply Hi1.
    - rewrite Hfront. set_solver. }
  split.
  - apply not_true_iff_false. rewrite JtiReplayCache.accepts_iff by apply Hi1. rewrite Hlive. naive_solver.
  - unfold JtiReplayCache.contains at 1. rewrite Hj. cbn [snd].
    by rewrite (proj1 (JtiReplayCache.pruned_live t2 (p, j) _ (proj1 Hi1))).
Qed.

#[export] Instance memory_jti_guard : JtiGuard JtiReplayCache.t := {|
  jg_contains := JtiReplayCache.contains;
  jg_check_and_record := JtiReplayCache.check_and_record;
  jg_inv := λ now c, JtiReplayCache.inv now c ∧ 0 < JtiReplayCache.max_size c;
  jg_window := JtiReplayCache.ttl;
  jg_single_use := memory_single_use
|}.

(** ** The Redis guard *)

(** The two commands of the client, with what Redis documents of them: SET with
    NX and EX stores the key and answers true exactly when the key does not
    exist, and the key then exists for [ex] seconds. *)
Class RedisClient (R : Type) : Type := {
  r_exists : Z → string → R → bool;
  r_set_nx_ex : Z → string → Z → R → R * bool;
  r_set_answer : ∀ now k ex r, snd (r_set_nx_ex now k ex r) = negb (r_exists now k r);
  r_set_lives : ∀ now now' k ex r, r_exists now k r = false →
    now <= now' → now' < now + ex * second →
    r_exists now' k (fst (r_set_nx_ex now k ex r)) = true
}.

Module RedisJtiReplayCache.
Section Guard.
  Context {R : Type} `{RedisClient R}.

Record t : Type := mk { client : R; ttl : Z; key_prefix : string }.

Definition redis_key (prefix partition_key jti : string) : string :=
  (prefix ++ ":" ++ partition_key ++ ":" ++ jti)%string.

Definition contains (now : Z) (partition_key jti : string) (c : t) : t * bool :=
  if JtiReplayCache.jti_blank jti then (c, false)
  else (c, r_exists now (redis_key (key_prefix c) partition_key jti) (client c)).

(** `max(1, int(self._ttl))` with the TTL in microseconds. *)
Definition ttl_int (c : t) : Z := Z.max 1 (Z.quot (ttl c) second).

Definition check_and_record (now : Z) (partition_key jti : string) (c : t) : t * bool :=
  if JtiReplayCache.jti_blank jti then (c, false)
  else
    let '(r, ok) := r_set_nx_ex now (redis_key (key_prefix c) partition_key jti) (ttl_int c) (client c) in
    (mk r (ttl c) (key_prefix c), ok).

Lemma redis_single_use t1 t2 p j c :
  True → t1 <= t2 → t2 < t1 + ttl_int c * second →
  snd (check_and_record t1 p j c) = true →
  snd (check_and_record t2 p j (fst (check_and_record t1 p j c))) = false
  ∧ snd (contains t2 p j (fst (check_and_record t1 p j c))) = true.
Proof.
  intros _ H12 Ht2. unfold check_and_record, contains.
  destruct (JtiReplayCache.jti_blank j); [done|].
  set (k := redis_key (key_prefix c) p j).
  pose proof (r_set_answer t1 k (ttl_int c) (client c)) as Ha.
  pose proof (r_set_lives t1 t2 k (ttl_int c) (client c)) as Hl.
  destruct (r_set_nx_ex t1 k (ttl_int c) (client c)) as [r ok] eqn:E. simpl in *.
  intros ->. destruct (r_exists t1 k (client c)); [done|].
  fold k. rewrite Hl by done. split; [|done].
  pose proof (r_set_answer t2 k (ttl_int (mk r (ttl c) (key_prefix c))) r) as Hb.
  destruct (r_set_nx_ex t2 k _ r) as [r' ok']. simpl in *. by rewrite Hb, Hl.
Qed.

#[export] Instance redis_jti_guard : JtiGuard t := {|
  jg_contains := contains;
  jg_check_and_record := check_and_record;
  jg_inv := λ _ _, True;
  jg_window := λ c, ttl_int c * second;
  jg_single_use := redis_single_use
|}.

End Guard.
End RedisJtiReplayCache.

(** A client that keeps the expiry of each key, for evaluation. *)
Definition expiring_exists (now : Z) (k : string) (r : gmap string Z) : bool :=
  match r !! k with Some e => now <? e | None => false end.
Definition expiring_set (now : Z) (k : string) (ex : Z) (r : gmap string Z) : gmap string Z * bool :=
  if expiring_exists now k r then (r, false) else (<[k := now + ex * second]> r, true).

#[export] Instance expiring_client : RedisClient (gmap string Z).
Proof.
  refine {| r_exists := expiring_exists; r_set_nx_ex := expiring_set |}.
  - intros. unfold expiring_set. by destruct (expiring_exists now k r).
  - intros now now' k ex r He ? ?. unfold expiring_set. rewrite He. unfold expiring_exists. simpl.
    rewrite lookup_insert_eq. by apply Z.ltb_lt.
Defined.
