(* ===== verification/EnvelopeGuard.v ===== *)
(** * Envelope freshness: timestamps and nonces

    `src/src/asap/transport/validators.py` and the constants of
    `src/src/asap/models/constants.py` it uses, on the fields of
    `src/src/asap/models/envelope.py` that matter here.  The two checks run in
    this order on every request (`_request_handler.py`). *)

From Stdlib Require Import ZArith Lia Ascii String.
From stdpp Require Import base tactics list gmap strings.
From S2P Require Import Prelude PyValue ReplayGuard.
Open Scope Z_scope.

Definition MAX_ENVELOPE_AGE_SECONDS : Z := 300.
Definition MAX_FUTURE_TOLERANCE_SECONDS : Z := 30.
Definition NONCE_TTL_SECONDS : Z := MAX_ENVELOPE_AGE_SECONDS * 2.

Record Envelope : Type := mkEnvelope {
  e_id : option string;
  e_asap_version : string;
  e_timestamp : option pydatetime;
  e_sender : string;
  e_recipient : string;
  e_payload_type : string;
  e_payload : json;
  e_correlation_id : option string;
  e_trace_id : option string;
  e_requires_ack : bool;
  e_extensions : option (list (string * json))
}.

(** The validator `generate_timestamp_if_missing`, run when the envelope is
    built from the wire at time [now]. *)
Definition generate_timestamp_if_missing (now : Z) (v : option pydatetime) : pydatetime :=
  match v with None => Aware now 0 | Some d => d end.

Definition stamp (now : Z) (e : Envelope) : Envelope :=
  mkEnvelope (e_id e) (e_asap_version e) (Some (generate_timestamp_if_missing now (e_timestamp e)))
    (e_sender e) (e_recipient e) (e_payload_type e) (e_payload e) (e_correlation_id e)
    (e_trace_id e) (e_requires_ack e) (e_extensions e).

Inductive InvalidTimestamp : Type :=
| TimestampMissing
| TimestampTooOld (age : Z)
| TimestampTooFarInFuture (offset : Z).

(** A naive timestamp is read as UTC, an aware one converted to UTC. *)
Definition to_utc (d : pydatetime) : Z :=
  match d with Naive us => us | Aware us off => us - off end.

Definition validate_envelope_timestamp (now : Z) (e : Envelope) : res InvalidTimestamp unit :=
  match e_timestamp e with
  | None => Raise TimestampMissing
  | Some d =>
      let timestamp := to_utc d in
      let age := now - timestamp in
      if MAX_ENVELOPE_AGE_SECONDS * second <? age then Raise (TimestampTooOld age)
      else
        let future_offset := timestamp - now in
        if MAX_FUTURE_TOLERANCE_SECONDS * second <? future_offset
        then Raise (TimestampTooFarInFuture future_offset)
        else Ret tt
  end.

(** ** Nonces *)
Module InMemoryNonceStore.

Abbreviation t := (gmap string Z).

Definition MAX_NONCE_STORE_SIZE : Z := 50000.

(** [draw]: the random draw falls below the cleanup probability. *)
Definition cleanup_expired (draw : bool) (now : Z) (s : t) : t :=
  if (Z.of_nat (size s) <=? MAX_NONCE_STORE_SIZE) && negb draw then s
  else filter (λ kv, ¬ (kv.2 < now)) s.

(** Three readings of the clock: in the cleanup, in the comparison, and for the
    new expiry. *)
Definition check_and_mark (draw : bool) (now0 now1 now2 : Z) (nonce : string) (ttl_seconds : Z) (s : t) :
    t * bool :=
  let s := cleanup_expired draw now0 s in
  match s !! nonce with
  | Some expiry =>
      if now1 <=? expiry then (s, true)
      else (<[nonce := now2 + ttl_seconds * second]> s, false)
  | None => (<[nonce := now2 + ttl_seconds * second]> s, false)
  end.

(** A mark that has not expired survives every call. *)
Lemma mark_survives draw now0 now1 now2 n n' ttl s exp :
  s !! n = Some exp → now0 <= exp → now1 <= exp →
  fst (check_and_mark draw now0 now1 now2 n' ttl s) !! n = Some exp.
Proof.
  intros Hn H0 H1. unfold check_and_mark.
  assert (Hc : cleanup_expired draw now0 s !! n = Some exp).
  { unfold cleanup_expired. destruct (_ && _); [done|]. apply map_lookup_filter_Some. simpl.
    split; [done|lia]. }
  destruct (decide (n' = n)) as [->|Hne].
  - rewrite Hc. assert ((now1 <=? exp) = true) as -> by (by apply Z.leb_le). done.
  - destruct (cleanup_expired draw now0 s !! n') as [e|]; [destruct (now1 <=? e); [done|]|];
      simpl; by rewrite lookup_insert_ne.
Qed.

Lemma mark_seen draw now0 now1 now2 n ttl s exp :
  s !! n = Some exp → now0 <= exp → now1 <= exp →
  snd (check_and_mark draw now0 now1 now2 n ttl s) = true.
Proof.
  intros Hn H0 H1. unfold check_and_mark.
  assert (Hc : cleanup_expired draw now0 s !! n = Some exp).
  { unfold cleanup_expired. destruct (_ && _); [done|]. apply map_lookup_filter_Some. simpl.
    split; [done|lia]. }
  rewrite Hc. assert ((now1 <=? exp) = true) as -> by (by apply Z.leb_le). done.
Qed.

End InMemoryNonceStore.

Inductive InvalidNonce : Type :=
| NonceNotAString (nonce : json)
| DuplicateNonce (nonce : string).

(** The clock readings and the random draw of one nonce check. *)
Record reading : Type := mkReading { rd_draw : bool; rd0 : Z; rd1 : Z; rd2 : Z }.

Definition validate_envelope_nonce (r : reading) (e : Envelope)
    (nonce_store : option InMemoryNonceStore.t) :
    option InMemoryNonceStore.t * res InvalidNonce unit :=
  match nonce_store with
  | None => (None, Ret tt)
  | Some store =>
      match e_extensions e with
      | None | Some [] => (Some store, Ret tt)
      | Some ext =>
          match assoc "nonce" ext with
          | None => (Some store, Ret tt)
          | Some (JStr nonce) =>
              if PyStr.truthy nonce then
                let '(store', used) :=
                  InMemoryNonceStore.check_and_mark (rd_draw r) (rd0 r) (rd1 r) (rd2 r) nonce
                    NONCE_TTL_SECONDS store in
                if used then (Some store', Raise (DuplicateNonce nonce)) else (Some store', Ret tt)
              else (Some store, Raise (NonceNotAString (JStr nonce)))
          | Some other => (Some store, Raise (NonceNotAString other))
          end
      end
  end.

(** One request through both checks: the timestamp at [now], then the nonce. *)
Definition accept (now : Z) (r : reading) (e : Envelope) (store : option InMemoryNonceStore.t) :
    option InMemoryNonceStore.t * bool :=
  match validate_envelope_timestamp now e with
  | Raise _ => (store, false)
  | Ret _ =>
      match validate_envelope_nonce r e store with
      | (store', Raise _) => (store', false)
      | (store', Ret _) => (store', true)
      end
  end.

(** Traffic between two requests: other requests at later instants. *)
Fixpoint traffic (from upto : Z) (l : list (Z * reading * Envelope)) : Prop :=
  match l with
  | [] => from <= upto
  | (now, r, _) :: l' =>
      from <= now ∧ now <= rd0 r ∧ rd0 r <= rd1 r ∧ rd1 r <= rd2 r ∧ traffic (rd2 r) upto l'
  end.

Definition serve (store : option InMemoryNonceStore.t) (x : Z * reading * Envelope) :
    option InMemoryNonceStore.t :=
  let '(now, r, e) := x in fst (accept now r e store).

Definition serve_all (store : option InMemoryNonceStore.t) (l : list (Z * reading * Envelope)) :
    option InMemoryNonceStore.t := fold_left serve l store.

(** The nonce an envelope carries. *)
Definition nonce_of (e : Envelope) : option string :=
  match e_extensions e with
  | Some ext => match assoc "nonce" ext with
                | Some (JStr n) => if PyStr.truthy n then Some n else None
                | _ => None
                end
  | None => None
  end.

(** ** Lemmas *)

Lemma traffic_le from upto l : traffic from upto l → from <= upto.
Proof.
  revert from. induction l as [|[[now r] e] l IH]; simpl; [done|].
  intros from (?&?&?&?&?%IH). lia.
Qed.

(** Whatever the request, an unexpired mark stays. *)
Lemma accept_keeps now r e s n exp :
  s !! n = Some exp → rd0 r <= exp → rd1 r <= exp →
  ∃ s', fst (accept now r e (Some s)) = Some s' ∧ s' !! n = Some exp.
Proof.
  intros Hn H0 H1. unfold accept, validate_envelope_nonce.
  destruct (validate_envelope_timestamp now e); [by exists s|].
  destruct (e_extensions e) as [[|kv ext]|]; [by exists s| |by exists s].
  destruct (assoc "nonce" (kv :: ext)) as [[]|]; try (by exists s).
  destruct (PyStr.truthy s0); [|by exists s].
  pose proof (InMemoryNonceStore.mark_survives (rd_draw r) (rd0 r) (rd1 r) (rd2 r) n s0
    NONCE_TTL_SECONDS s exp Hn H0 H1) as Hs.
  destruct (InMemoryNonceStore.check_and_mark _ _ _ _ _ _ _) as [s' used]. simpl in Hs.
  destruct used; by exists s'.
Qed.

Lemma serve_all_keeps l s n exp from upto :
  s !! n = Some exp → traffic from upto l → upto <= exp →
  ∃ s', serve_all (Some s) l = Some s' ∧ s' !! n = Some exp.
Proof.
  revert s from. induction l as [|[[now r] e] l IH]; intros s from Hn Ht Hu; [by exists s|].
  simpl in Ht. destruct Ht as (?&?&?&?&Ht). pose proof (traffic_le _ _ _ Ht).
  destruct (accept_keeps now r e s n exp) as (s1 & Hs1 & Hn1); [done|lia|lia|].
  cbn [serve_all fold_left serve]. unfold serve_all in *. simpl. rewrite Hs1. by eapply IH.
Qed.

(** An accepted envelope with a nonce leaves the nonce marked. *)
Lemma accept_marks now r e s n s' :
  nonce_of e = Some n → accept now r e (Some s) = (s', true) →
  ∃ st, s' = Some st ∧ st !! n = Some (rd2 r + NONCE_TTL_SECONDS * second).
Proof.
  unfold nonce_of, accept, validate_envelope_nonce. intros Hn.
  destruct (e_extensions e) as [[|kv ext]|]; [done| |done].
  destruct (assoc "nonce" (kv :: ext)) as [[]|]; try done. destruct (PyStr.truthy s0); simplify_eq.
  destruct (validate_envelope_timestamp now e); [done|].
  unfold InMemoryNonceStore.check_and_mark.
  destruct (InMemoryNonceStore.cleanup_expired _ _ _ !! n) as [ex|]; [destruct (rd1 r <=? ex); [done|]|];
    intros [= <-]; eexists; (split; [done|]); apply lookup_insert_eq.
Qed.

Lemma timestamp_window now e : validate_envelope_timestamp now e = Ret tt →
  ∃ d, e_timestamp e = Some d
    ∧ to_utc d - MAX_FUTURE_TOLERANCE_SECONDS * second <= now
    ∧ now <= to_utc d + MAX_ENVELOPE_AGE_SECONDS * second.
Proof.
  unfold validate_envelope_timestamp. destruct (e_timestamp e) as [d|]; [|done].
  destruct (_ <? now - to_utc d) eqn:E1; [done|]. destruct (_ <? to_utc d - now) eqn:E2; [done|].
  intros _. reflect. exists d. split; [done|lia].
Qed.

Lemma accept_timestamp now r e s s' : accept now r e s = (s', true) →
  validate_envelope_timestamp now e = Ret tt.
Proof. unfold accept. destruct (validate_envelope_timestamp now e) as [|[]]; [done|]. done. Qed.

(** ** Properties *)

(** C26: No replay: an envelope that carries a timestamp and a nonce and was
    accepted once is never accepted again, whatever requests come in between,
    as long as the nonce check follows the timestamp check within 270 seconds.
    (The age and skew limits allow 330 seconds between the two presentations;
    the nonce is remembered for 600.) *)
Theorem stamped_envelope_not_replayed (e : Envelope) (n : string) (s : InMemoryNonceStore.t)
    (s1 : option InMemoryNonceStore.t) (now1 now2 : Z) (r1 r2 : reading)
    (between : list (Z * reading * Envelope)) :
  nonce_of e = Some n →
  now1 <= rd2 r1 → traffic (rd2 r1) now2 between →
  rd0 r2 <= rd1 r2 → rd1 r2 - now2 <= 270 * second →
  accept now1 r1 e (Some s) = (s1, true) →
  snd (accept now2 r2 e (serve_all s1 between)) = false.
Proof.
  intros Hn Hr1 Ht Hr2 Hdelay Hacc.
  destruct (accept_marks _ _ _ _ _ _ Hn Hacc) as (st & -> & Hst).
  destruct (timestamp_window _ _ (accept_timestamp _ _ _ _ _ Hacc)) as (d & Hd & Hlo & _).
  pose proof (traffic_le _ _ _ Ht) as Hle.
  unfold NONCE_TTL_SECONDS, MAX_ENVELOPE_AGE_SECONDS, MAX_FUTURE_TOLERANCE_SECONDS, second in *.
  destruct (accept now2 r2 e (serve_all (Some st) between)) as [s2 []] eqn:E2; [|done]. exfalso.
  destruct (timestamp_window _ _ (accept_timestamp _ _ _ _ _ E2)) as (d' & Hd' & _ & Hhi).
  rewrite Hd in Hd'. injection Hd' as <-.
  unfold MAX_ENVELOPE_AGE_SECONDS, second in Hhi.
  destruct (serve_all_keeps between st n _ _ _ Hst Ht) as (st' & Hs' & Hn'); [lia|].
  rewrite Hs' in E2. unfold nonce_of in Hn. unfold accept, validate_envelope_nonce in E2.
  destruct (validate_envelope_timestamp now2 e); [done|].
  destruct (e_extensions e) as [[|kv ext]|]; [done| |done].
  destruct (assoc "nonce" (kv :: ext)) as [[]|]; try done. destruct (PyStr.truthy s0); simplify_eq.
  pose proof (InMemoryNonceStore.mark_seen (rd_draw r2) (rd0 r2) (rd1 r2) (rd2 r2) n
    (300 * 2) st' _ Hn') as Hused.
  unfold NONCE_TTL_SECONDS, MAX_ENVELOPE_AGE_SECONDS in E2.
  destruct (InMemoryNonceStore.check_and_mark _ _ _ _ _ _ _) as [s3 used]. simpl in Hused.
  rewrite Hused in E2 by lia. done.
Qed.

Definition demo_envelope (ts : option pydatetime) : Envelope :=
  mkEnvelope (Some "env"%string) "0.1" ts "urn:asap:agent:a" "urn:asap:agent:b" "TaskRequest"
    (JObj []) None None false (Some [("nonce"%string, JStr "n-1")]).

Lemma stamped_envelope_not_replayed_witness :
  snd (accept (200 * second) (mkReading false (200 * second) (200 * second) (200 * second))
        (demo_envelope (Some (Aware 0 0)))
        (serve_all (fst (accept 1 (mkReading false 1 1 1) (demo_envelope (Some (Aware 0 0))) (Some ∅))) []))
  = false.
Proof.
  refine (stamped_envelope_not_replayed (demo_envelope (Some (Aware 0 0))) "n-1" ∅ _ 1 (200 * second)
    (mkReading false 1 1 1) (mkReading false (200 * second) (200 * second) (200 * second)) [] _ _ _ _ _ _).
  - reflexivity.
  - simpl. lia.
  - unfold second. simpl. lia.
  - simpl. lia.
  - unfold second. simpl. lia.
  - vm_compute. reflexivity.
Defined.

(** The limit of that protection: an envelope sent without a timestamp is
    stamped on arrival, so it always passes the age check, and the same bytes
    are accepted again as soon as the nonce has expired. *)
Theorem unstamped_envelope_replayable (e : Envelope) (n : string) (s : InMemoryNonceStore.t)
    (now1 now2 : Z) (r1 r2 : reading) :
  e_timestamp e = None → nonce_of e = Some n → s !! n = None →
  rd2 r1 + NONCE_TTL_SECONDS * second < rd1 r2 →
  snd (accept now1 r1 (stamp now1 e) (Some s)) = true
  ∧ snd (accept now2 r2 (stamp now2 e) (fst (accept now1 r1 (stamp now1 e) (Some s)))) = true.
Proof.
  intros Hts Hn Hs Hr.
  assert (Hfresh : ∀ now, validate_envelope_timestamp now (stamp now e) = Ret tt).
  { intros now. unfold validate_envelope_timestamp, stamp. simpl. rewrite Hts. simpl.
    rewrite Z.sub_0_r, Z.sub_diag. reflexivity. }
  unfold accept. rewrite !Hfresh. unfold validate_envelope_nonce. simpl. unfold nonce_of in Hn.
  destruct (e_extensions e) as [[|kv ext]|]; [done| |done].
  destruct (assoc "nonce" (kv :: ext)) as [[]|]; try done.
  destruct (PyStr.truthy s0) eqn:Et; simplify_eq. unfold InMemoryNonceStore.check_and_mark.
  assert (Hc : ∀ draw now st, st !! n = None →
            InMemoryNonceStore.cleanup_expired draw now st !! n = None).
  { intros draw now st Hst. unfold InMemoryNonceStore.cleanup_expired. destruct (_ && _); [done|].
    apply map_lookup_filter_None. by left. }
  rewrite Hc by done. split; [done|]. simpl.
  set (st := <[n := _]> _).
  assert (Hst : InMemoryNonceStore.cleanup_expired (rd_draw r2) (rd0 r2) st !! n = None
    ∨ InMemoryNonceStore.cleanup_expired (rd_draw r2) (rd0 r2) st !! n
      = Some (rd2 r1 + NONCE_TTL_SECONDS * second)).
  { unfold InMemoryNonceStore.cleanup_expired. destruct (_ && _);
      [right; apply lookup_insert_eq|].
    destruct (decide (rd2 r1 + NONCE_TTL_SECONDS * second < rd0 r2)).
    - left. apply map_lookup_filter_None. right. intros x. unfold st. rewrite lookup_insert_eq.
      intros [= <-]. simpl. lia.
    - right. apply map_lookup_filter_Some. split; [apply lookup_insert_eq|done]. }
  destruct Hst as [-> | ->]; [done|].
  assert ((rd1 r2 <=? rd2 r1 + NONCE_TTL_SECONDS * second) = false) as -> by (apply Z.leb_gt; lia).
  done.
Qed.

Lemma unstamped_envelope_replayable_witness :
  let e := demo_envelope None in
  snd (accept 0 (mkReading true 0 0 0) (stamp 0 e) (Some ∅)) = true
  ∧ snd (accept (601 * second) (mkReading false (601 * second) (601 * second) (601 * second))
          (stamp (601 * second) e)
          (fst (accept 0 (mkReading true 0 0 0) (stamp 0 e) (Some ∅)))) = true.
Proof.
  refine (unstamped_envelope_replayable (demo_envelope None) "n-1" ∅ 0 (601 * second)
    (mkReading true 0 0 0) (mkReading false (601 * second) (601 * second) (601 * second)) _ _ _ _).
  - reflexivity.
  - reflexivity.
  - reflexivity.
  - vm_compute. reflexivity.
Defined.
