(* ===== verification/SqliteSnapshot.v ===== *)
(** * The SQLite snapshot stores

    `src/src/asap/state/stores/sqlite.py` (_SQLiteSnapshotBackend with
    SQLiteAsyncSnapshotStore and SQLiteSnapshotStore, which only forward to it
    through `_sync_bridge.py`): the `snapshots` table, its rows as texts and
    integers, and the six statements.  The store is shown to answer every
    sequence of operations as any store that meets the contract of
    [Snapshot.SnapshotStore] does, for versions that fit an `INTEGER` and data
    whose JSON text reads back. *)

From Stdlib Require Import ZArith Lia Ascii String.
From stdpp Require Import base tactics list gmap strings sorting.
From S2P Require Import Prelude PyValue Digest IsoText Sqlite Identity Snapshot EnvelopeGuard.
Open Scope Z_scope.
Open Scope asap_scope.

(** A row of `snapshots`; `PRIMARY KEY (task_id, version)`. *)
Record snap_row : Type := mkSnapRow {
  rw_task_id : string;
  rw_id : string;
  rw_version : Z;
  rw_data : string;
  rw_checkpoint : Z;
  rw_created_at : string
}.

Definition snap_key (r : snap_row) : string * Z := (rw_task_id r, rw_version r).

Section Store.
  Context `{PyRuntime} `{Readers} `{SqlScan}.

Definition _snapshot_to_row (sn : StateSnapshot) : res sqlexn snap_row :=
  let! version := sql_int (sn_version sn) in
  Ret (mkSnapRow (sn_task_id sn) (sn_id sn) version
         (json_dumps float_repr ", " ": " false (JObj (sn_data sn)))
         (if sn_checkpoint sn then 1 else 0) (isoformat (sn_created_at sn))).

(** A text that does not read back raises `ValueError`, data that is no object
    fails the model's validation. *)
Definition _row_to_snapshot (row : snap_row) : res sqlexn StateSnapshot :=
  match loads (rw_data row), iso_read (replace_z (rw_created_at row)) with
  | Some (JObj data), Some created =>
      Ret (mkSnapshot (rw_id row) (rw_task_id row) (rw_version row) data
             (negb (rw_checkpoint row =? 0)) (to_utc created))
  | Some _, Some _ => Raise (PyExn (ValidationError "data"))
  | _, _ => Raise (PyExn (ValueError "snapshot row"))
  end.

Definition of_task (task_id : string) (r : snap_row) : bool := String.eqb (rw_task_id r) task_id.
Definition of_version (task_id : string) (version : Z) (r : snap_row) : bool :=
  String.eqb (rw_task_id r) task_id && (rw_version r =? version).

Definition version_asc (a b : snap_row) : Prop := rw_version a <= rw_version b.
Definition version_desc (a b : snap_row) : Prop := rw_version b <= rw_version a.
#[global] Instance version_asc_dec a b : Decision (version_asc a b).
Proof. unfold version_asc. apply _. Defined.
#[global] Instance version_desc_dec a b : Decision (version_desc a b).
Proof. unfold version_desc. apply _. Defined.

Abbreviation store := (Repo (list snap_row)).

Definition _save_impl (sn : StateSnapshot) : store → store * res sqlexn unit :=
  execute [] (λ rows, let! r := _snapshot_to_row sn in Ret (insert_or_replace snap_key r rows, tt)).

Definition read_row (row : option snap_row) : res sqlexn (option StateSnapshot) :=
  match row with None => Ret None | Some r => rmap Some (_row_to_snapshot r) end.

Definition _get_impl (task_id : string) (version : option Z) :
    store → store * res sqlexn (option StateSnapshot) :=
  fetch [] (λ rows,
    match version with
    | Some v => let! v := sql_int v in read_row (select_one (of_version task_id v) rows)
    | None =>
        read_row (head (limit_offset 1 0 (PySort.sorted version_desc (select (of_task task_id) rows))))
    end).

Definition _list_versions_impl (task_id : string) : store → store * res sqlexn (list Z) :=
  fetch [] (λ rows, Ret (map rw_version (PySort.sorted version_asc (select (of_task task_id) rows)))).

Definition _delete_impl (task_id : string) (version : option Z) (r : store) : store * res sqlexn bool :=
  let '(r', affected) :=
    execute [] (λ rows,
      match version with
      | Some v => let! v := sql_int v in Ret (delete_where (of_version task_id v) rows)
      | None => Ret (delete_where (of_task task_id) rows)
      end) r in
  (r', rmap (λ n, 0 <? n) affected).

(** ** Sequences of operations *)
Inductive request : Type :=
| Save (sn : StateSnapshot)
| Get (task_id : string) (version : option Z)
| ListVersions (task_id : string)
| Delete (task_id : string) (version : option Z).

Inductive answer : Type :=
| Saved
| Got (o : option StateSnapshot)
| Versions (l : list Z)
| Deleted (b : bool).

Definition sqlite_step (q : request) (r : store) : store * res sqlexn answer :=
  match q with
  | Save sn => let '(r', a) := _save_impl sn r in (r', rmap (λ _, Saved) a)
  | Get t v => let '(r', a) := _get_impl t v r in (r', rmap Got a)
  | ListVersions t => let '(r', a) := _list_versions_impl t r in (r', rmap Versions a)
  | Delete t v => let '(r', a) := _delete_impl t v r in (r', rmap Deleted a)
  end.

Definition contract_step {S} `{SnapshotStore S} (q : request) (s : S) : S * answer :=
  match q with
  | Save sn => (ss_save sn s, Saved)
  | Get t v => (s, Got (ss_get t v s))
  | ListVersions t => (s, Versions (ss_list_versions t s))
  | Delete t v => let '(s', b) := ss_delete t v s in (s', Deleted b)
  end.

Fixpoint sqlite_run (qs : list request) (r : store) : list (res sqlexn answer) :=
  match qs with
  | [] => []
  | q :: qs' => let '(r', a) := sqlite_step q r in a :: sqlite_run qs' r'
  end.

Fixpoint contract_run {S} `{SnapshotStore S} (qs : list request) (s : S) : list answer :=
  match qs with
  | [] => []
  | q :: qs' => let '(s', a) := contract_step q s in a :: contract_run qs' s'
  end.

(** ** The simulation *)
Definition int64 (z : Z) : bool := (- 2 ^ 63 <=? z) && (z <? 2 ^ 63).

(** The data of a snapshot reads back from its JSON text, its date from its ISO
    text. *)
Definition storable (sn : StateSnapshot) : Prop :=
  snapshot_valid sn ∧ int64 (sn_version sn) = true
  ∧ loads (json_dumps float_repr ", " ": " false (JObj (sn_data sn))) = Some (JObj (sn_data sn))
  ∧ iso_read (isoformat (sn_created_at sn)) = Some (Aware (sn_created_at sn) 0).

Definition request_ok (q : request) : Prop :=
  match q with
  | Save sn => storable sn
  | Get _ (Some v) | Delete _ (Some v) => int64 v = true
  | _ => True
  end.

Lemma sql_int_ok z : int64 z = true → sql_int z = Ret z.
Proof. unfold int64, sql_int. by intros ->. Qed.

Lemma row_roundtrip sn : storable sn →
  ∃ row, _snapshot_to_row sn = Ret row ∧ _row_to_snapshot row = Ret sn
         ∧ snap_key row = (sn_task_id sn, sn_version sn).
Proof.
  intros (_ & Hv & Hd & Hc). unfold _snapshot_to_row. rewrite sql_int_ok by done. cbn [rbind].
  eexists. split; [done|]. unfold _row_to_snapshot.
  cbn [rw_data rw_created_at rw_id rw_task_id rw_version rw_checkpoint].
  unfold isoformat in *. rewrite replace_z_isoformat, Hd, Hc. cbn [to_utc]. rewrite Z.sub_0_r.
  split; [|done].
  destruct sn as [i t v d [] c]; done.
Qed.

Definition row_good (row : snap_row) : Prop :=
  ∃ sn, _row_to_snapshot row = Ret sn ∧ snap_key row = (sn_task_id sn, sn_version sn).

Definition row_view (rows : list snap_row) (t : string) (v : Z) : option StateSnapshot :=
  match row_of snap_key (t, v) rows with
  | Some row => match _row_to_snapshot row with Ret sn => Some sn | Raise _ => None end
  | None => None
  end.

Record simulates {S} `{SnapshotStore S} (r : store) (s : S) : Prop := {
  sim_repo : repo_ok r;
  sim_inv : ss_inv s;
  sim_keys : keys_unique snap_key (contents [] r);
  sim_rows : Forall row_good (contents [] r);
  sim_view : ∀ t v, row_view (contents [] r) t v = ss_view s t v
}.

Lemma of_version_key t v r : of_version t v r = true ↔ snap_key r = (t, v).
Proof.
  unfold of_version, snap_key. rewrite andb_true_iff, String.eqb_eq, Z.eqb_eq. split.
  - by intros [-> ->].
  - by intros [= -> ->].
Qed.

Lemma of_task_key t r : of_task t r = true ↔ rw_task_id r = t.
Proof. unfold of_task. apply String.eqb_eq. Qed.

(** Reading the row of a key gives the view. *)
Lemma read_row_view rows t v : Forall row_good rows → keys_unique snap_key rows →
  read_row (row_of snap_key (t, v) rows) = Ret (row_view rows t v).
Proof.
  intros Hg Hk. unfold row_view. destruct (row_of snap_key (t, v) rows) as [row|] eqn:E; [|done]. simpl.
  apply row_of_Some in E as [Hin _]; [|done].
  rewrite Forall_forall in Hg. destruct (Hg row Hin) as (sn & Hsn & _). by rewrite Hsn.
Qed.

Lemma row_view_elem rows row sn : keys_unique snap_key rows → row ∈ rows →
  _row_to_snapshot row = Ret sn → row_view rows (rw_task_id row) (rw_version row) = Some sn.
Proof.
  intros Hk Hin Hsn. unfold row_view.
  rewrite (proj2 (row_of_Some (key := snap_key) (rw_task_id row, rw_version row) rows row Hk)) by done.
  by rewrite Hsn.
Qed.

Lemma row_view_Some rows t v sn : keys_unique snap_key rows → row_view rows t v = Some sn →
  ∃ row, row ∈ rows ∧ rw_task_id row = t ∧ rw_version row = v ∧ _row_to_snapshot row = Ret sn.
Proof.
  intros Hk. unfold row_view. destruct (row_of snap_key (t, v) rows) as [row|] eqn:E; [|done].
  apply row_of_Some in E as [Hin Hkey]; [|done]. destruct (_row_to_snapshot row) eqn:Er; [done|].
  intros [= <-]. unfold snap_key in Hkey. simplify_eq. by exists row.
Qed.

(** `ORDER BY version DESC LIMIT 1` is the row of the greatest version. *)
Lemma latest_row rows t :
  match head (limit_offset 1 0 (PySort.sorted version_desc (select (of_task t) rows))) with
  | Some row => row ∈ rows ∧ rw_task_id row = t
                ∧ ∀ row', row' ∈ rows → rw_task_id row' = t → rw_version row' <= rw_version row
  | None => ∀ row, row ∈ rows → rw_task_id row ≠ t
  end.
Proof.
  assert (Hin : ∀ row, row ∈ PySort.sorted version_desc (select (of_task t) rows) ↔ row ∈ rows ∧ rw_task_id row = t).
  { intros row. rewrite PySort.elem_of_sorted, elem_of_select, of_task_key. tauto. }
  assert (Hs : StronglySorted version_desc (PySort.sorted version_desc (select (of_task t) rows))).
  { apply Sorted_StronglySorted; [intros a b c; unfold version_desc; lia|].
    apply PySort.Sorted_sorted. intros a b. unfold version_desc. lia. }
  unfold limit_offset. simpl.
  destruct (PySort.sorted version_desc (select (of_task t) rows)) as [|row l] eqn:E; simpl.
  - intros row Hr Ht. apply (not_elem_of_nil row). apply Hin. done.
  - destruct (proj1 (Hin row) ltac:(by left)) as [? ?]. split_and!; [done|done|].
    intros row' Hr Ht. inversion Hs as [|? ? _ Hall]; subst.
    destruct (proj1 (elem_of_cons l row' row) (proj2 (Hin row') (conj Hr Ht))) as [->|Hl]; [lia|].
    rewrite Forall_forall in Hall. exact (Hall row' Hl).
Qed.

Section Simulation.
  Context {S : Type} `{!SnapshotStore S}.

Lemma sim_get t ov r (s : S) : simulates r s → request_ok (Get t ov) →
  simulates (fst (_get_impl t ov r)) s ∧ snd (_get_impl t ov r) = Ret (ss_get t ov s).
Proof.
  intros [Hr Hi Hk Hg Hv] Hq. unfold _get_impl.
  destruct (fetch_ok [] (λ rows : list snap_row,
    match ov with
    | Some v => let! v := sql_int v in read_row (select_one (of_version t v) rows)
    | None => read_row (head (limit_offset 1 0 (PySort.sorted version_desc (select (of_task t) rows))))
    end) r Hr) as (Hok & Hc & ->).
  split; [split; rewrite ?Hc; done|]. destruct ov as [v|].
  - rewrite sql_int_ok by done. cbn [rbind].
    rewrite (select_one_key snap_key (t, v)) by (done || apply of_version_key).
    rewrite read_row_view, ss_get_version by done. by rewrite Hv.
  - pose proof (latest_row (contents [] r) t) as Hl. pose proof (ss_get_latest t s Hi) as Hs.
    rewrite Forall_forall in Hg.
    destruct (head _) as [row|]; cbn [read_row].
    + destruct Hl as (Hin & Ht & Hmax). destruct (Hg row Hin) as (sn & Hsn & Hkey). rewrite Hsn. cbn.
      pose proof (row_view_elem _ row sn Hk Hin Hsn) as Hrv. rewrite Hv in Hrv.
      destruct (ss_get t None s) as [sn'|]; [|by rewrite Ht, (Hs (rw_version row)) in Hrv].
      destruct Hs as [Hv' Hmax']. rewrite <- Hv in Hv'.
      apply row_view_Some in Hv' as (row' & Hin' & Ht' & Hver' & Hsn'); [|done].
      rewrite Ht in Hrv. pose proof (Hmax' _ _ Hrv). specialize (Hmax row' Hin' Ht').
      assert (Heq : rw_version row = sn_version sn') by lia.
      rewrite Heq, <- Hver' in Hrv. rewrite <- Ht' in Hrv at 1. rewrite <- Hv in Hrv.
      rewrite (row_view_elem _ row' sn' Hk Hin' Hsn') in Hrv. congruence.
    + destruct (ss_get t None s) as [sn'|]; [exfalso|done]. destruct Hs as [Hv' _]. rewrite <- Hv in Hv'.
      apply row_view_Some in Hv' as (row' & Hin' & Ht' & _); [|done]. by apply (Hl row').
Qed.

Lemma strictly_sorted (l : list Z) : StronglySorted Z.lt l → Sorted Z.le l ∧ NoDup l.
Proof.
  intros Hs. split.
  - apply StronglySorted_Sorted. induction Hs as [|v l Hl IH Hall]; constructor; [done|].
    eapply Forall_impl; [done|]. intros; simpl in *; lia.
  - induction Hs as [|v l Hl IH Hall]; constructor; [|done].
    intros Hin. rewrite Forall_forall in Hall. specialize (Hall v Hin). lia.
Qed.

Lemma Sorted_map_version l : Sorted version_asc l → Sorted Z.le (map rw_version l).
Proof.
  induction 1 as [|a l Hs IH Hd]; simpl; constructor; [done|].
  destruct Hd; simpl; constructor. done.
Qed.

Lemma sim_list t r (s : S) : simulates r s →
  simulates (fst (_list_versions_impl t r)) s
  ∧ snd (_list_versions_impl t r) = Ret (ss_list_versions t s).
Proof.
  intros [Hr Hi Hk Hg Hv]. unfold _list_versions_impl.
  destruct (fetch_ok [] (λ rows : list snap_row, Ret (E := sqlexn)
    (map rw_version (PySort.sorted version_asc (select (of_task t) rows)))) r Hr) as (Hok & Hc & ->).
  split; [split; rewrite ?Hc; done|]. f_equal.
  destruct (ss_versions t s Hi) as [Hs Hmem].
  destruct (strictly_sorted _ Hs) as [Hsle Hnd].
  rewrite Forall_forall in Hg.
  apply (Sorted_unique Z.le);
    [apply Sorted_map_version, PySort.Sorted_sorted; intros a b; unfold version_asc; lia|done|].
  apply NoDup_Permutation; [|done|].
  - rewrite (Permutation_map rw_version (PySort.sorted_Permutation version_asc _)).
    rewrite (Permutation_map rw_version (select_perm _ _)).
    pose proof (keys_unique_filter snap_key (λ x, of_task t x = true) _ Hk) as Hf. unfold keys_unique in Hf.
    assert (Hmap : map snap_key (base.filter (λ x, of_task t x = true) (contents [] r))
                   = map (pair t) (map rw_version (base.filter (λ x, of_task t x = true) (contents [] r)))).
    { rewrite map_map. apply map_ext_in. intros x [Hx _]%list_elem_of_In%list_elem_of_filter.
      apply of_task_key in Hx. unfold snap_key. by rewrite Hx. }
    rewrite Hmap in Hf. by apply NoDup_fmap_1 in Hf.
  - intros v. rewrite Hmem. rewrite <- (Hv t v). rewrite list_elem_of_fmap. split.
    + intros (row & -> & Hin). rewrite PySort.elem_of_sorted, elem_of_select, of_task_key in Hin.
      destruct Hin as [<- Hin]. destruct (Hg row Hin) as (sn & Hsn & _).
      exists sn. by apply row_view_elem.
    + intros [sn Hsn]. apply row_view_Some in Hsn as (row & Hin & Ht & <- & _); [|done].
      exists row. split; [done|]. by rewrite PySort.elem_of_sorted, elem_of_select, of_task_key.
Qed.

Lemma sim_save sn r (s : S) : simulates r s → storable sn →
  simulates (fst (_save_impl sn r)) (ss_save sn s) ∧ snd (_save_impl sn r) = Ret tt.
Proof.
  intros [Hr Hi Hk Hg Hv] Hq. destruct (row_roundtrip sn Hq) as (row & Hrow & Hback & Hkey).
  assert (Hsv : snapshot_valid sn) by apply Hq. unfold _save_impl.
  set (stmt := λ rows : list snap_row, _). destruct (execute_ok [] stmt r Hr) as (Hok & Hc & ->).
  assert (Hst : stmt (contents [] r) = Ret (insert_or_replace snap_key row (contents [] r), tt))
    by (subst stmt; simpl; by rewrite Hrow).
  rewrite Hst in Hc |- *. split; [|done]. split; rewrite ?Hc.
  - done.
  - by apply ss_save_inv.
  - by apply keys_unique_replace.
  - unfold insert_or_replace. apply Forall_app. split; [by apply Forall_filtered|].
    constructor; [|constructor]. exists sn. done.
  - intros t v. rewrite ss_save_view by done. rewrite <- Hv. unfold row_view.
    rewrite row_of_replace, Hkey by done. repeat case_decide; simplify_eq; try naive_solver.
    by rewrite Hback.
Qed.

Lemma sim_delete t ov r (s : S) : simulates r s → request_ok (Delete t ov) →
  simulates (fst (_delete_impl t ov r)) (fst (ss_delete t ov s))
  ∧ snd (_delete_impl t ov r) = Ret (snd (ss_delete t ov s)).
Proof.
  intros [Hr Hi Hk Hg Hv] Hq. unfold _delete_impl.
  set (P := match ov with Some v => of_version t v | None => of_task t end).
  set (stmt := λ rows : list snap_row, _).
  destruct (execute_ok [] stmt r Hr) as (Hok & Hc & Hout).
  assert (Hst : stmt (contents [] r) = Ret (delete_where P (contents [] r))).
  { subst stmt P. simpl. destruct ov as [v|]; [|done]. by rewrite sql_int_ok. }
  rewrite Hst in Hc, Hout. rewrite (surjective_pairing (delete_where P _)) in Hc, Hout.
  destruct (execute [] stmt r) as [r' out]. cbn [fst snd] in *. subst out. cbn [rmap rbind].
  assert (HP : ∀ row, P row = true ↔ rw_task_id row = t ∧ (ov = None ∨ ov = Some (rw_version row))).
  { intros row. subst P. destruct ov as [v|].
    - rewrite of_version_key. unfold snap_key. naive_solver.
    - rewrite of_task_key. naive_solver. }
  assert (Hview : ∀ t' v', row_view (contents [] r') t' v' =
     if decide (t' = t ∧ (ov = None ∨ ov = Some v')) then None else row_view (contents [] r) t' v').
  { intros t' v'. rewrite Hc. unfold row_view. rewrite row_of_delete by done.
    destruct (row_of snap_key (t', v') (contents [] r)) as [row|] eqn:E; [|by case_decide].
    apply row_of_Some in E as [_ Hkey]; [|done]. unfold snap_key in Hkey. simplify_eq.
    destruct (P row) eqn:HPr; case_decide as Hd; try done.
    - exfalso. apply Hd. by apply HP.
    - exfalso. apply HP in Hd. congruence. }
  split; [split|].
  - done.
  - by apply ss_delete_inv.
  - rewrite Hc. by apply keys_unique_delete.
  - rewrite Hc. by apply Forall_filtered.
  - intros t' v'. rewrite Hview, Hv. symmetry. by apply ss_delete_view.
  - f_equal. apply eq_true_iff_eq. rewrite deleted_some, ss_delete_result by done.
    rewrite Forall_forall in Hg. split.
    + intros (row & Hin & [Ht Ho]%HP). destruct (Hg row Hin) as (sn & Hsn & _).
      exists (rw_version row). split; [done|]. rewrite <- Hv, <- Ht. exists sn. by apply row_view_elem.
    + intros (v & Ho & [sn Hsn]). rewrite <- Hv in Hsn.
      apply row_view_Some in Hsn as (row & Hin & Ht & <- & _); [|done]. exists row. split; [done|]. by apply HP.
Qed.

Lemma sim_step q r (s : S) : simulates r s → request_ok q →
  simulates (fst (sqlite_step q r)) (fst (contract_step q s))
  ∧ snd (sqlite_step q r) = Ret (snd (contract_step q s)).
Proof.
  intros Hs Hq. destruct q as [sn|t v|t|t v]; simpl.
  - destruct (sim_save sn r s Hs Hq). destruct (_save_impl sn r); simpl in *. by subst.
  - destruct (sim_get t v r s Hs Hq). destruct (_get_impl t v r); simpl in *. by subst.
  - destruct (sim_list t r s Hs). destruct (_list_versions_impl t r); simpl in *. by subst.
  - destruct (sim_delete t v r s Hs Hq).
    destruct (_delete_impl t v r), (ss_delete t v s); simpl in *. by subst.
Qed.

Lemma sim_run qs r (s : S) : simulates r s → Forall request_ok qs →
  sqlite_run qs r = map Ret (contract_run qs s).
Proof.
  revert r s. induction qs as [|q qs IH]; intros r s Hs Hq; [done|].
  apply Forall_cons in Hq as [Hq Hqs]. simpl. destruct (sim_step q r s Hs Hq) as [Hs' Ha].
  destruct (sqlite_step q r), (contract_step q s); simpl in *. subst. f_equal. by apply IH.
Qed.

Lemma sim_empty : simulates (mkRepo false None) (ss_empty : S).
Proof.
  destruct (ss_empty_ok (S := S)) as [Hi Hv]. split; simpl; try done. constructor.
Qed.
End Simulation.

End Store.

(** C28: Asked any sequence of requests that SQLite can hold (versions, saved or
    asked for, within 64 bits; valid snapshots, dated in UTC, whose data and date
    read back from their texts), the SQLite store answers each as the contract of
    snapshot stores says: as any store that meets the contract, the in-memory one
    for instance, whatever order the engine reads its tables in. *)
Theorem sqlite_snapshots_meet_contract `{PyRuntime} `{Readers} `{SqlScan} {S} `{!SnapshotStore S}
    (qs : list request) :
  Forall request_ok qs →
  sqlite_run qs (mkRepo false None) = map Ret (contract_run qs (ss_empty : S)).
Proof. intros Hq. apply sim_run; [apply sim_empty|done]. Qed.

(** A version that does not fit an `INTEGER` is refused by SQLite and accepted by
    the in-memory store. *)
Lemma wide_version_diverges `{PyRuntime} `{Readers} `{SqlScan} :
  let sn := mkSnapshot "s" "t" (2 ^ 63) [] false 0 in
  sqlite_run [Save sn] (mkRepo false None)
    = [Raise (PyExn (OverflowError "Python int too large to convert to SQLite INTEGER"))]
  ∧ contract_run [Save sn] InMemorySnapshotStore.init = [Saved].
Proof. done. Qed.

(** A reader for the texts of the example, an engine that reads backwards. *)
Definition demo_float (f : pyfloat) : string := "0.5".
#[local] Instance demo_runtime : PyRuntime := {| float_repr := demo_float; float_of_str := λ _, None |}.
#[local] Instance demo_readers : Readers := {|
  iso_read := λ s, if String.eqb s (isoformat 0) then Some (Aware 0 0) else None;
  loads := λ s, if String.eqb s "{}" then Some (JObj []) else None |}.
#[local] Instance demo_scan : SqlScan := {| scan := λ R l, reverse l; scan_perm := λ R l, reverse_Permutation l |}.

Definition demo_requests : list request :=
  [Save (mkSnapshot "a" "t" 1 [] false 0); Save (mkSnapshot "b" "t" 2 [] true 0); Get "t" None;
   ListVersions "t"; Delete "t" (Some 2); Get "t" None; Delete "t" None; Delete "t" None].

Lemma sqlite_snapshots_meet_contract_witness :
  Forall request_ok demo_requests
  ∧ sqlite_run demo_requests (mkRepo false None)
    = map Ret (contract_run demo_requests InMemorySnapshotStore.init).
Proof.
  assert (Hq : Forall request_ok demo_requests).
  { repeat (apply Forall_cons; split); try done; split_and!; vm_compute; done. }
  split; [exact Hq|].
  exact (sqlite_snapshots_meet_contract (S := InMemorySnapshotStore.t) demo_requests Hq).
Defined.
