(* ===== verification/Capabilities.v ===== *)
(** * Capabilities, grants and constraints

    `src/src/asap/auth/capabilities.py`: constraint operators, the registry of
    definitions and per-agent grants, the split of an escalation request into
    specs that need consent and specs granted at once, the mapping of OAuth2
    scopes; and, from `src/src/asap/transport/agent_routes.py`, the parsing of
    requested specs and their application to the registry. *)

From Stdlib Require Import ZArith Lia Ascii String.
From stdpp Require Import base tactics list gmap strings sorting.
From S2P Require Import Prelude PyValue Digest Identity.
Open Scope Z_scope.
Open Scope asap_scope.

Abbreviation pydict := (list (string * json)).

Inductive GrantStatus : Type := GActive | GPending | GDenied.
#[export] Instance GrantStatus_eq_dec : EqDecision GrantStatus.
Proof. solve_decision. Defined.

Definition grant_status_str (s : GrantStatus) : string :=
  match s with GActive => "active" | GPending => "pending" | GDenied => "denied" end.

Record CapabilityDefinition : Type := mkDefinition {
  cd_name : string;
  cd_description : string;
  cd_input_schema : option pydict;
  cd_output_schema : option pydict;
  cd_location : option string
}.

Record CapabilityGrant : Type := mkGrant {
  g_capability : string;
  g_status : GrantStatus;
  g_constraints : option pydict;
  g_granted_by : option string;
  g_reason : option string;
  g_expires_at : option pydatetime
}.

(** ** Constraint operators *)
Definition OPERATOR_KEYS : list string := ["max"; "min"; "in"; "not_in"]%string.

Record ConstraintViolation : Type := mkViolation {
  v_field : string;
  v_operator : string;
  v_expected : json;
  v_actual : json;
  v_message : string
}.

Section Operators.
  Context `{PyRuntime}.

Definition not_a_number (field operator : string) (expected actual : json) : ConstraintViolation :=
  mkViolation field operator expected actual
    (field ++ ": expected a number, got " ++ type_name actual)%string.

Definition check_operator (field operator : string) (expected actual : json) :
    res pyexn (option ConstraintViolation) :=
  if String.eqb operator "max" then
    match num_of actual with
    | None => Ret (Some (not_a_number field operator expected actual))
    | Some a =>
        let! exceeded := py_gt_num a expected in
        Ret (if exceeded then
               Some (mkViolation field operator expected actual
                 (field ++ ": " ++ py_str float_repr actual ++ " exceeds maximum "
                  ++ py_str float_repr expected)%string)
             else None)
    end
  else if String.eqb operator "min" then
    match num_of actual with
    | None => Ret (Some (not_a_number field operator expected actual))
    | Some a =>
        let! below := py_lt_num a expected in
        Ret (if below then
               Some (mkViolation field operator expected actual
                 (field ++ ": " ++ py_str float_repr actual ++ " is below minimum "
                  ++ py_str float_repr expected)%string)
             else None)
    end
  else if String.eqb operator "in" then
    let! found := py_in actual expected in
    Ret (if negb found then
           Some (mkViolation field operator expected actual
             (field ++ ": " ++ py_repr float_repr actual ++ " not in allowed values "
              ++ py_repr float_repr expected)%string)
         else None)
  else if String.eqb operator "not_in" then
    let! found := py_in actual expected in
    Ret (if found then
           Some (mkViolation field operator expected actual
             (field ++ ": " ++ py_repr float_repr actual ++ " is in forbidden values "
              ++ py_repr float_repr expected)%string)
         else None)
  else Ret None.

(** The inner loop over the items of an operator dictionary. *)
Fixpoint check_operators (field : string) (actual : json) (spec : pydict) :
    res pyexn (list ConstraintViolation) :=
  match spec with
  | [] => Ret []
  | (op, expected) :: spec' =>
      if negb (str_in op OPERATOR_KEYS) then check_operators field actual spec'
      else
        let! v := check_operator field op expected actual in
        let! vs := check_operators field actual spec' in
        Ret (match v with Some v => v :: vs | None => vs end)
  end.

(** `isinstance(spec, dict) and OPERATOR_KEYS & spec.keys()` *)
Definition operator_spec (spec : json) : option pydict :=
  match spec with
  | JObj d => if existsb (λ kv, str_in (fst kv) OPERATOR_KEYS) d then Some d else None
  | _ => None
  end.

Definition check_field (arguments : pydict) (field : string) (spec : json) :
    res pyexn (list ConstraintViolation) :=
  let actual := j_get field arguments in
  match actual with
  | JNull =>
      Ret [mkViolation field "required" spec JNull (field ++ ": missing required argument")%string]
  | _ =>
      match operator_spec spec with
      | Some d => check_operators field actual d
      | None =>
          Ret (if negb (py_eq actual spec) then
                 [mkViolation field "eq" spec actual
                    (field ++ ": expected " ++ py_repr float_repr spec ++ ", got "
                     ++ py_repr float_repr actual)%string]
               else [])
      end
  end.

Fixpoint validate_constraints (constraints arguments : pydict) :
    res pyexn (list ConstraintViolation) :=
  match constraints with
  | [] => Ret []
  | (field, spec) :: constraints' =>
      let! vs := check_field arguments field spec in
      let! rest := validate_constraints constraints' arguments in
      Ret (vs ++ rest)
  end.

End Operators.

(** ** Registry *)
Record GrantCheckResult : Type := mkCheck {
  gc_allowed : bool;
  gc_violations : list ConstraintViolation;
  gc_grant : option CapabilityGrant
}.

Module CapabilityRegistry.

Record t : Type := mk {
  definitions : list (string * CapabilityDefinition);
  grants : list (string * list (string * CapabilityGrant))
}.

Definition init : t := mk [] [].

Definition register (definition : CapabilityDefinition) (r : t) : t :=
  mk (PyDict.set (cd_name definition) definition (definitions r)) (grants r).

Definition list_capabilities (r : t) : list CapabilityDefinition := (definitions r).*2.

Definition describe (name : string) (r : t) : option CapabilityDefinition :=
  PyDict.get name (definitions r).

(** Model validation of the `constraints` argument: null or an object. *)
Definition grant_constraints (constraints : json) : res pyexn (option pydict) :=
  match constraints with
  | JNull => Ret None
  | JObj d => Ret (Some d)
  | _ => Raise (ValidationError "constraints: Input should be a valid dictionary")
  end.

Definition agent_grants (agent_id : string) (r : t) : list (string * CapabilityGrant) :=
  default [] (PyDict.get agent_id (grants r)).

Definition grant (agent_id capability : string) (constraints : json) (granted_by : option string)
    (status : GrantStatus) (reason : option string) (expires_at : option pydatetime) :
    ST t pyexn CapabilityGrant :=
  do! constraints <- st_lift (grant_constraints constraints) in
  let g := mkGrant capability status constraints granted_by reason expires_at in
  run! st_modify (λ r,
    mk (definitions r)
       (PyDict.set agent_id (PyDict.set capability g (agent_grants agent_id r)) (grants r))) in
  st_ret g.

Definition get_grants (agent_id : string) (r : t) : list CapabilityGrant :=
  (agent_grants agent_id r).*2.

Definition check_grant `{PyRuntime} (now : Z) (agent_id capability : string)
    (arguments : option pydict) (r : t) : res pyexn GrantCheckResult :=
  match PyDict.get capability (agent_grants agent_id r) with
  | None => Ret (mkCheck false [] None)
  | Some g =>
      if negb (bool_decide (g_status g = GActive)) then Ret (mkCheck false [] (Some g))
      else
        let! expired := match g_expires_at g with
                        | None => Ret false
                        | Some e => utc_gt now e
                        end in
        if (expired : bool) then Ret (mkCheck false [] (Some g))
        else
          match g_constraints g with
          | None | Some [] => Ret (mkCheck true [] (Some g))
          | Some cs =>
              let! violations := validate_constraints cs (default [] arguments) in
              match violations with
              | [] => Ret (mkCheck true [] (Some g))
              | _ => Ret (mkCheck false violations (Some g))
              end
          end
  end.

(** The grant of one capability to one agent. *)
Definition lookup (agent_id capability : string) (r : t) : option CapabilityGrant :=
  PyDict.get capability (agent_grants agent_id r).

(** Every grant is filed under its own capability, once. *)
Definition ok (r : t) : Prop :=
  ∀ aid, PyDict.wf (agent_grants aid r) ∧
    ∀ cap g, PyDict.get cap (agent_grants aid r) = Some g → g_capability g = cap.

End CapabilityRegistry.

(** ** Escalation *)
Definition escalation_requires_user_consent (host : HostIdentity)
    (requested_capability_names : list string) : bool :=
  if negb (bool_decide (h_status host = HostActive)) then true
  else negb (forallb (λ n, str_in n (h_default_capabilities host)) requested_capability_names).

(** `x` of type `dict | None` as a JSON value. *)
Definition opt_obj (o : option pydict) : json :=
  match o with None => JNull | Some d => JObj d end.

Definition auto_grant_would_replace_existing_grant (existing : option CapabilityGrant)
    (requested_constraints : json) : bool :=
  match existing with
  | None => false
  | Some g =>
      if negb (bool_decide (g_status g = GActive))
         || negb (py_eq (opt_obj (g_constraints g)) requested_constraints) then true
      else is_some (g_expires_at g)
  end.

(** `{g.capability: g for g in grants}` *)
Definition grant_by_name (gs : list CapabilityGrant) : list (string * CapabilityGrant) :=
  fold_left (λ d g, PyDict.set (g_capability g) g d) gs [].

Definition str_or_empty (j : json) : string := match j with JStr s => s | _ => "" end.

Fixpoint partition_loop (host : HostIdentity) (by_name : list (string * CapabilityGrant))
    (specs : list json) : list pydict * list pydict :=
  match specs with
  | [] => ([], [])
  | JObj spec :: specs' =>
      let name := PyStr.strip (str_or_empty (j_get "name" spec)) in
      let '(needs_consent, auto_grant) := partition_loop host by_name specs' in
      if negb (PyStr.truthy name) then (needs_consent, auto_grant)
      else
        let replace_existing :=
          auto_grant_would_replace_existing_grant (PyDict.get name by_name)
            (j_get "constraints" spec) in
        if escalation_requires_user_consent host [name] || replace_existing
        then (spec :: needs_consent, auto_grant)
        else (needs_consent, spec :: auto_grant)
  | _ :: specs' => partition_loop host by_name specs'
  end.

Definition partition_escalation_capability_specs (host : HostIdentity)
    (capability_specs : list json) (existing_grants : option (list CapabilityGrant)) :
    list pydict * list pydict :=
  partition_loop host (grant_by_name (default [] existing_grants)) capability_specs.

(** ** Requested specs, and their application to the registry *)
Definition parse_capability_registration_body (raw_body : pydict) : list string * list pydict :=
  match j_get "capabilities" raw_body with
  | JList requested =>
      fold_left (λ acc cap_req,
        let '(names, specs) := acc in
        match cap_req with
        | JStr s =>
            if PyStr.nonblank s then (names ++ [s], specs ++ [[("name"%string, JStr s)]]) else acc
        | JObj d =>
            let n := str_or_empty (j_get "name" d) in
            if PyStr.truthy n then (names ++ [n], specs ++ [d]) else acc
        | _ => acc
        end) requested ([], [])
  | _ => ([], [])
  end.

Definition applied_grant_payload (g : CapabilityGrant) : json :=
  JObj ([("capability"%string, JStr (g_capability g));
         ("status"%string, JStr (grant_status_str (g_status g)))]
        ++ match g_reason g with
           | Some r => if PyStr.truthy r then [("reason"%string, JStr r)] else []
           | None => []
           end).

(** The body of the loop for a named spec that is not already granted. *)
Definition issue_spec (agent_id host_id cap_name : string) (constraints : json) :
    ST CapabilityRegistry.t pyexn CapabilityGrant :=
  do! defn <- st_gets (CapabilityRegistry.describe cap_name) in
  if is_some defn then
    CapabilityRegistry.grant agent_id cap_name constraints (Some host_id) GActive None None
  else
    CapabilityRegistry.grant agent_id cap_name JNull (Some host_id) GDenied
      (Some ("capability " ++ repr_str cap_name ++ " not found")%string) None.

Fixpoint apply_specs (existing_by_name : list (string * CapabilityGrant))
    (agent_id host_id : string) (capability_specs : list pydict) :
    ST CapabilityRegistry.t pyexn (list json) :=
  match capability_specs with
  | [] => st_ret []
  | cap_req :: specs' =>
      let cap_name := str_or_empty (j_get "name" cap_req) in
      if negb (PyStr.truthy cap_name) then apply_specs existing_by_name agent_id host_id specs'
      else
        let constraints := j_get "constraints" cap_req in
        do! g <-
          (match PyDict.get cap_name existing_by_name with
           | Some existing =>
               if auto_grant_would_replace_existing_grant (Some existing) constraints
               then issue_spec agent_id host_id cap_name constraints
               else st_ret existing
           | None => issue_spec agent_id host_id cap_name constraints
           end) in
        do! rest <- apply_specs existing_by_name agent_id host_id specs' in
        st_ret (applied_grant_payload g :: rest)
  end.

Definition apply_capability_specs_to_registry (agent_id host_id : string)
    (capability_specs : list pydict) : ST CapabilityRegistry.t pyexn (list json) :=
  do! existing <- st_gets (CapabilityRegistry.get_grants agent_id) in
  apply_specs (grant_by_name existing) agent_id host_id capability_specs.

(** ** OAuth2 scopes *)
Definition SCOPE_READ : string := "asap:read".
Definition SCOPE_EXECUTE : string := "asap:execute".
Definition SCOPE_ADMIN : string := "asap:admin".

Definition str_le (a b : string) : Prop := String.leb a b = true.
#[export] Instance str_le_dec a b : Decision (str_le a b).
Proof. unfold str_le. apply _. Defined.

(** `sorted(set(names))` *)
Definition sorted_set (names : list string) : list string :=
  merge_sort str_le (remove_dups names).

Definition names_with (keywords : list string) (caps : list CapabilityDefinition) : list string :=
  filter (λ n, existsb (PyStr.contains (PyStr.lower n)) keywords = true) (map cd_name caps).

Definition map_scopes_to_capabilities (scopes : list string) (registry : CapabilityRegistry.t) :
    list CapabilityGrant :=
  let all_caps := CapabilityRegistry.list_capabilities registry in
  let granted_names :=
    if str_in SCOPE_ADMIN scopes then map cd_name all_caps
    else
      (if str_in SCOPE_READ scopes then names_with ["read"; "list"; "describe"]%string all_caps else [])
      ++ (if str_in SCOPE_EXECUTE scopes then names_with ["execute"; "write"; "invoke"]%string all_caps
          else []) in
  map (λ name, mkGrant name GActive None None None None) (sorted_set granted_names).

(** ** Lemmas: constraints *)

(** What an operator requires of an argument; a comparison that would raise
    requires the impossible. *)
Definition op_holds (operator : string) (expected actual : json) : Prop :=
  (operator = "max" →
     ∃ a e, num_of actual = Some a ∧ num_of expected = Some e ∧ num_lt e a = false) ∧
  (operator = "min" →
     ∃ a e, num_of actual = Some a ∧ num_of expected = Some e ∧ num_lt a e = false) ∧
  (operator = "in" → py_in actual expected = Ret true) ∧
  (operator = "not_in" → py_in actual expected = Ret false).

(** What a constraint requires of the arguments. *)
Definition field_ok (arguments : pydict) (field : string) (spec : json) : Prop :=
  j_get field arguments ≠ JNull ∧
  match operator_spec spec with
  | Some d => ∀ op expected, (op, expected) ∈ d → op_holds op expected (j_get field arguments)
  | None => py_eq (j_get field arguments) spec = true
  end.

Section ConstraintLemmas.
  Context `{PyRuntime}.

Lemma check_operator_holds field op expected actual :
  check_operator field op expected actual = Ret None ↔ op_holds op expected actual.
Proof.
  unfold check_operator, op_holds, py_gt_num, py_lt_num, rbind.
  destruct (String.eqb_spec op "max") as [->|H1].
  { split.
    - intros Hr. split_and!; intros ?; simplify_eq.
      destruct (num_of actual) as [a|]; [|done]. destruct (num_of expected) as [e|]; [|done].
      exists a, e. destruct (num_lt e a); done.
    - intros (Hm & _). destruct Hm as (a & e & -> & -> & ->); done. }
  destruct (String.eqb_spec op "min") as [->|H2].
  { split.
    - intros Hr. split_and!; intros ?; simplify_eq.
      destruct (num_of actual) as [a|]; [|done]. destruct (num_of expected) as [e|]; [|done].
      exists a, e. destruct (num_lt a e); done.
    - intros (_ & Hm & _). destruct Hm as (a & e & -> & -> & ->); done. }
  destruct (String.eqb_spec op "in") as [->|H3].
  { split.
    - intros Hr. split_and!; intros ?; simplify_eq. by destruct (py_in actual expected) as [|[]].
    - intros (_ & _ & Hm & _). by rewrite Hm. }
  destruct (String.eqb_spec op "not_in") as [->|H4].
  { split.
    - intros Hr. split_and!; intros ?; simplify_eq. by destruct (py_in actual expected) as [|[]].
    - intros (_ & _ & _ & Hm). by rewrite Hm. }
  split; [|done]. intros _. by split_and!.
Qed.

Lemma op_holds_ignored op expected actual :
  str_in op OPERATOR_KEYS = false → op_holds op expected actual.
Proof.
  unfold str_in. intros Hn%bool_decide_eq_false. unfold op_holds.
  split_and!; intros ->; destruct Hn; set_solver.
Qed.

Lemma check_operators_nil field actual d :
  check_operators field actual d = Ret [] ↔
  ∀ op expected, (op, expected) ∈ d → op_holds op expected actual.
Proof.
  induction d as [|[op e] d IH]; simpl; [set_solver|].
  destruct (str_in op OPERATOR_KEYS) eqn:Hop; simpl.
  - pose proof (check_operator_holds field op e actual) as Hc.
    destruct (check_operator field op e actual) as [x|[v|]]; simpl.
    + split; [done|]. intros Hall. by pose proof (proj2 Hc (Hall op e ltac:(left))).
    + split; [by destruct (check_operators field actual d)|].
      intros Hall. by pose proof (proj2 Hc (Hall op e ltac:(left))).
    + destruct (check_operators field actual d) as [x|vs]; simpl.
      * split; [done|]. intros Hall.
        by pose proof (proj2 IH (λ o e' Hin, Hall o e' ltac:(by right))).
      * rewrite IH. set_solver.
  - rewrite IH. pose proof (op_holds_ignored op e actual Hop). set_solver.
Qed.

Lemma check_field_nil arguments field spec :
  check_field arguments field spec = Ret [] ↔ field_ok arguments field spec.
Proof.
  unfold check_field, field_ok.
  destruct (j_get field arguments) eqn:Hg; [naive_solver|..];
    (destruct (operator_spec spec) as [ops|];
      [rewrite check_operators_nil; naive_solver
      |match goal with |- context [py_eq ?a ?b] => destruct (py_eq a b) eqn:? end; naive_solver]).
Qed.

Lemma validate_constraints_nil constraints arguments :
  validate_constraints constraints arguments = Ret [] ↔
  ∀ field spec, (field, spec) ∈ constraints → field_ok arguments field spec.
Proof.
  induction constraints as [|[f sp] cs IH]; simpl; [set_solver|].
  pose proof (check_field_nil arguments f sp) as Hf.
  destruct (check_field arguments f sp) as [x|vs]; simpl.
  { split; [done|]. intros Hall. by pose proof (proj2 Hf (Hall f sp ltac:(left))). }
  destruct (validate_constraints cs arguments) as [x|vs']; simpl.
  { split; [done|]. intros Hall.
    by pose proof (proj2 IH (λ o e' Hin, Hall o e' ltac:(by right))). }
  split.
  - intros [= [-> ->]%app_nil]. set_solver.
  - intros Hall.
    assert (Ret (E := pyexn) vs = Ret []) as [= ->] by (apply Hf; set_solver).
    assert (Ret (E := pyexn) vs' = Ret []) as [= ->] by (apply IH; set_solver). done.
Qed.
End ConstraintLemmas.

(** ** Lemmas: the registry *)
Import CapabilityRegistry.

Lemma ok_init : ok init.
Proof. intros aid. split; [apply PyDict.wf_nil|done]. Qed.

Lemma ok_register d r : ok r → ok (register d r).
Proof. done. Qed.

Lemma agent_grants_set aid aid' d r :
  agent_grants aid' (mk (definitions r) (PyDict.set aid d (grants r))) =
  if decide (aid' = aid) then d else agent_grants aid' r.
Proof.
  unfold agent_grants. simpl. case_decide; subst.
  - by rewrite PyDict.get_set_eq.
  - by rewrite PyDict.get_set_ne.
Qed.

(** A grant writes one cell, or nothing when its constraints are refused. *)
Lemma grant_cases aid cap cs by_ st reason ex r :
  (∃ e, grant_constraints cs = Raise e ∧ grant aid cap cs by_ st reason ex r = (r, Raise e)) ∨
  (∃ o r' g, grant_constraints cs = Ret o ∧ g = mkGrant cap st o by_ reason ex ∧
     grant aid cap cs by_ st reason ex r = (r', Ret g) ∧
     definitions r' = definitions r ∧
     (∀ aid', agent_grants aid' r' =
        if decide (aid' = aid) then PyDict.set cap g (agent_grants aid r) else agent_grants aid' r)).
Proof.
  unfold grant, st_bind, st_lift, st_modify, st_ret.
  destruct (grant_constraints cs) as [e|o] eqn:E; [left; eauto|].
  right. exists o. eexists _, _. split_and!; try done.
  intros aid'. by rewrite agent_grants_set.
Qed.

Lemma grant_lookup aid cap cs by_ st reason ex r aid' cap' :
  lookup aid' cap' (fst (grant aid cap cs by_ st reason ex r)) = lookup aid' cap' r ∨
  (aid' = aid ∧ cap' = cap ∧ ∃ o, grant_constraints cs = Ret o ∧
   lookup aid' cap' (fst (grant aid cap cs by_ st reason ex r)) =
     Some (mkGrant cap st o by_ reason ex)).
Proof.
  destruct (grant_cases aid cap cs by_ st reason ex r)
    as [(e & _ & ->)|(o & r' & g & Ho & -> & -> & _ & Hr')]; [by left|].
  unfold lookup. simpl. rewrite Hr'. case_decide; [subst|by left].
  destruct (decide (cap' = cap)) as [->|]; [|left; by rewrite PyDict.get_set_ne].
  right. rewrite PyDict.get_set_eq. eauto.
Qed.

Lemma grant_ok aid cap cs by_ st reason ex r :
  ok r → ok (fst (grant aid cap cs by_ st reason ex r)).
Proof.
  intros Hr. destruct (grant_cases aid cap cs by_ st reason ex r)
    as [(e & _ & ->)|(o & r' & g & _ & -> & -> & _ & Hr')]; [done|].
  intros aid'. simpl. rewrite Hr'. case_decide; [subst|apply Hr].
  destruct (Hr aid) as [Hwf Hk]. split; [by apply PyDict.wf_set|].
  intros c g. destruct (decide (c = cap)) as [->|Hne].
  - rewrite PyDict.get_set_eq. by intros [= <-].
  - rewrite PyDict.get_set_ne by done. apply Hk.
Qed.

#[export] Hint Resolve ok_init ok_register grant_ok : asap.

(** Indexing the grants of an agent by name gives back its dictionary. *)
Lemma grant_by_name_get_aux (d acc : list (string * CapabilityGrant)) cap :
  PyDict.wf d → (∀ c g, (c, g) ∈ d → g_capability g = c) →
  PyDict.get cap (fold_left (λ m g, PyDict.set (g_capability g) g m) d.*2 acc) =
  match PyDict.get cap d with Some g => Some g | None => PyDict.get cap acc end.
Proof.
  revert acc. induction d as [|[c g] d IH]; intros acc Hwf Hk; [done|].
  unfold PyDict.wf, PyDict.keys in *. apply NoDup_cons in Hwf as [Hc Hwf].
  simpl. rewrite IH by (try done; intros; apply Hk; by right).
  rewrite (Hk c g) by left. case_decide; subst.
  - assert (PyDict.get c d = None) as -> by (by apply PyDict.get_None).
    by rewrite PyDict.get_set_eq.
  - by rewrite PyDict.get_set_ne by done.
Qed.

Lemma grant_by_name_get aid cap r :
  ok r → PyDict.get cap (grant_by_name (get_grants aid r)) = lookup aid cap r.
Proof.
  intros Hr. destruct (Hr aid) as [Hwf Hk]. unfold grant_by_name, get_grants, lookup.
  rewrite grant_by_name_get_aux; [by case_match|done|].
  intros c g Hin. apply Hk. by apply PyDict.elem_get.
Qed.

(** The cells an application of specs may write. *)
Definition writes_spec (by_name : list (string * CapabilityGrant)) (specs : list pydict)
    (cap : string) : Prop :=
  ∃ spec, spec ∈ specs ∧ str_or_empty (j_get "name" spec) = cap ∧ PyStr.truthy cap = true ∧
    (PyDict.get cap by_name = None ∨
     auto_grant_would_replace_existing_grant (PyDict.get cap by_name) (j_get "constraints" spec) = true).

(** What a spec writes: an active grant of a defined capability, with the
    requested constraints, or a denial. *)
Definition written_grant (r : t) (host_id : string) (specs : list pydict) (g : CapabilityGrant) : Prop :=
  g_expires_at g = None ∧ g_granted_by g = Some host_id ∧
  ((g_status g = GActive ∧ is_some (describe (g_capability g) r) = true ∧
    ∃ spec, spec ∈ specs ∧ grant_constraints (j_get "constraints" spec) = Ret (g_constraints g) ∧
      str_or_empty (j_get "name" spec) = g_capability g)
   ∨ (g_status g = GDenied ∧ describe (g_capability g) r = None)).

Lemma issue_spec_effect aid hid spec r aid' cap' :
  let cap := str_or_empty (j_get "name" spec) in
  let r' := fst (issue_spec aid hid cap (j_get "constraints" spec) r) in
  definitions r' = definitions r ∧
  (lookup aid' cap' r' = lookup aid' cap' r ∨
   (aid' = aid ∧ cap' = cap ∧ ∃ g, lookup aid' cap' r' = Some g ∧ g_capability g = cap ∧
      written_grant r hid [spec] g)).
Proof.
  intros cap. unfold issue_spec, st_bind at 1, st_gets. cbn [fst snd].
  set (r' := fst _).
  assert (Hd : definitions r' = definitions r).
  { subst r'. destruct (is_some _);
      match goal with |- context [grant ?a ?b ?c ?d ?e ?f ?x r] =>
        destruct (grant_cases a b c d e f x r)
          as [(? & _ & ->)|(? & ? & ? & _ & _ & -> & ? & _)]; done
      end. }
  split; [done|]. subst r'. unfold written_grant.
  destruct (describe cap r) as [df|] eqn:Hdf; cbn [is_some is_none negb].
  - destruct (grant_lookup aid cap (j_get "constraints" spec) (Some hid) GActive None None r aid' cap')
      as [->|(-> & -> & o & Ho & ->)]; [by left|].
    right. split_and!; try done. eexists; split_and!; try done. left. simpl. rewrite Hdf.
    split_and!; try done. exists spec. split_and!; [by left|done|done].
  - destruct (grant_lookup aid cap JNull (Some hid) GDenied
        (Some ("capability " ++ repr_str cap ++ " not found")%string) None r aid' cap')
      as [->|(-> & -> & o & Ho & ->)]; [by left|].
    right. split_and!; try done. eexists; split_and!; try done. by right.
Qed.

Lemma written_grant_mono r1 r2 hid specs1 specs2 g :
  definitions r1 = definitions r2 → specs1 ⊆ specs2 →
  written_grant r1 hid specs1 g → written_grant r2 hid specs2 g.
Proof. unfold written_grant, describe. intros -> Hs. set_solver. Qed.

Lemma writes_spec_mono by_name specs1 specs2 cap :
  specs1 ⊆ specs2 → writes_spec by_name specs1 cap → writes_spec by_name specs2 cap.
Proof. unfold writes_spec. set_solver. Qed.

(** What one spec of the loop does to the registry. *)
Definition apply_one (by_name : list (string * CapabilityGrant)) (aid hid : string) (spec : pydict) :
    ST t pyexn CapabilityGrant :=
  let cap := str_or_empty (j_get "name" spec) in
  match PyDict.get cap by_name with
  | Some existing =>
      if auto_grant_would_replace_existing_grant (Some existing) (j_get "constraints" spec)
      then issue_spec aid hid cap (j_get "constraints" spec)
      else st_ret existing
  | None => issue_spec aid hid cap (j_get "constraints" spec)
  end.

Definition cell_effect by_name aid hid specs (r r' : t) aid' cap' : Prop :=
  lookup aid' cap' r' = lookup aid' cap' r ∨
  (aid' = aid ∧ writes_spec by_name specs cap' ∧
   ∃ g, lookup aid' cap' r' = Some g ∧ g_capability g = cap' ∧ written_grant r hid specs g).

Lemma apply_one_effect by_name aid hid spec r aid' cap' :
  PyStr.truthy (str_or_empty (j_get "name" spec)) = true →
  let r' := fst (apply_one by_name aid hid spec r) in
  definitions r' = definitions r ∧ cell_effect by_name aid hid [spec] r r' aid' cap'.
Proof.
  intros Ht. unfold apply_one, cell_effect.
  pose proof (issue_spec_effect aid hid spec r aid' cap') as [Hd Hi]. cbv zeta in Hi.
  set (cap := str_or_empty (j_get "name" spec)) in *.
  destruct (PyDict.get cap by_name) as [g|] eqn:Hg.
  2: { split; [done|]. destruct Hi as [Hi|(-> & -> & Hi)]; [by left|].
       right. split_and!; [done| |done]. exists spec. split_and!; [by left|done..|by left]. }
  destruct (auto_grant_would_replace_existing_grant (Some g) _) eqn:Hw; [|split; [done|by left]].
  split; [done|]. destruct Hi as [Hi|(-> & -> & Hi)]; [by left|].
  right. split_and!; [done| |done]. exists spec. split_and!; [by left|done..|].
  right. by rewrite Hg.
Qed.

Lemma cell_effect_mono by_name aid hid specs1 specs2 r r' aid' cap' :
  specs1 ⊆ specs2 → cell_effect by_name aid hid specs1 r r' aid' cap' →
  cell_effect by_name aid hid specs2 r r' aid' cap'.
Proof.
  intros Hs [He|(-> & Hw & g & ? & ? & Hg)]; [by left|]. right.
  split_and!; [done|by eapply writes_spec_mono|].
  exists g. split_and!; [done..|]. by eapply written_grant_mono.
Qed.

Lemma cell_effect_trans by_name aid hid specs r1 r2 r3 aid' cap' :
  definitions r2 = definitions r1 →
  cell_effect by_name aid hid specs r1 r2 aid' cap' →
  cell_effect by_name aid hid specs r2 r3 aid' cap' →
  cell_effect by_name aid hid specs r1 r3 aid' cap'.
Proof.
  intros Hd H1 [H2|(-> & Hw & g & ? & ? & Hg)].
  - unfold cell_effect in *. by rewrite H2.
  - right. split_and!; [done..|]. exists g. split_and!; [done..|].
    by eapply written_grant_mono.
Qed.

Lemma apply_specs_effect by_name aid hid specs r aid' cap' :
  let r' := fst (apply_specs by_name aid hid specs r) in
  definitions r' = definitions r ∧ cell_effect by_name aid hid specs r r' aid' cap'.
Proof.
  revert r. induction specs as [|spec specs IH]; intros r; [split; [done|by left]|].
  cbn [apply_specs]. destruct (PyStr.truthy _) eqn:Ht; cbn [negb].
  2: { destruct (IH r) as [Hd He]. split; [done|]. eapply cell_effect_mono; [|done]. set_solver. }
  change (match PyDict.get (str_or_empty (j_get "name" spec)) by_name with
          | Some existing => _ | None => _ end) with (apply_one by_name aid hid spec).
  destruct (apply_one_effect by_name aid hid spec r aid' cap' Ht) as [Hd1 H1].
  apply (cell_effect_mono _ _ _ _ (spec :: specs)) in H1; [|set_solver].
  unfold st_bind. destruct (apply_one by_name aid hid spec r) as [r1 [e|g1]]; cbn [fst] in *;
    [done|].
  destruct (IH r1) as [Hd2 H2]. apply (cell_effect_mono _ _ _ _ (spec :: specs)) in H2; [|set_solver].
  destruct (apply_specs by_name aid hid specs r1) as [r2 out].
  assert (fst match out with Raise x => (r2, Raise x)
              | Ret a => st_ret (applied_grant_payload g1 :: a) r2 end = r2) as ->
    by (by destruct out).
  cbn [fst] in *. split; [by rewrite Hd2|]. by eapply cell_effect_trans.
Qed.

(** The escalation split, spec by spec. *)
Lemma partition_loop_auto host by_name specs spec :
  spec ∈ snd (partition_loop host by_name specs) →
  JObj spec ∈ specs ∧
  let name := PyStr.strip (str_or_empty (j_get "name" spec)) in
  PyStr.truthy name = true ∧ h_status host = HostActive ∧ name ∈ h_default_capabilities host ∧
  auto_grant_would_replace_existing_grant (PyDict.get name by_name) (j_get "constraints" spec) = false.
Proof.
  induction specs as [|j specs IH]; [by intros ?%elem_of_nil|].
  intros Hin. cbn [partition_loop] in Hin.
  destruct j as [| | | | | |d]; try (destruct (IH Hin) as [? ?]; split; [by right|done]).
  destruct (partition_loop host by_name specs) as [needs auto].
  destruct (PyStr.truthy _) eqn:Ht; cbn [negb] in Hin;
    [|destruct (IH Hin) as [? ?]; split; [by right|done]].
  destruct (escalation_requires_user_consent _ _ || _) eqn:Hc; cbn [snd] in *;
    [destruct (IH Hin) as [? ?]; split; [by right|done]|].
  apply elem_of_cons in Hin as [->|Hin]; [|destruct (IH Hin) as [? ?]; split; [by right|done]].
  split; [by left|]. apply orb_false_iff in Hc as [Hc Hr]. unfold escalation_requires_user_consent in Hc.
  destruct (bool_decide_reflect (h_status host = HostActive)); [|done]. cbn in Hc.
  reflect. split_and!; [done..| |done]. by apply str_in_true.
Qed.

(** ** Properties *)

(** C12: `check_grant` allows a call exactly when the agent holds a grant of
    that capability which is active and not past its expiry, and every
    constrained field is present (not null) among the arguments and satisfies
    its constraint: equality, or every operator of an operator dictionary;
    omitted arguments count as none, and a comparison that would raise never
    allows the call. *)
Theorem check_grant_allows_iff `{PyRuntime} (now : Z) (aid cap : string)
    (arguments : option pydict) (r : CapabilityRegistry.t) :
  (∃ out, check_grant now aid cap arguments r = Ret out ∧ gc_allowed out = true) ↔
  ∃ g, lookup aid cap r = Some g ∧ g_status g = GActive ∧
    (∀ e, g_expires_at g = Some e → ∃ us off, e = Aware us off ∧ now <= us - off) ∧
    ∀ field spec, (field, spec) ∈ default [] (g_constraints g) →
      field_ok (default [] arguments) field spec.
Proof.
  unfold check_grant, lookup.
  destruct (PyDict.get cap (agent_grants aid r)) as [g|];
    [|split; [by intros (? & [= <-] & ?)|by intros (? & ? & _)]].
  destruct (bool_decide_reflect (g_status g = GActive)) as [Hs|Hs]; cbn [negb];
    [|split; [by intros (? & [= <-] & ?)|by intros (? & [= <-] & ? & _)]].
  assert (Hc : (∃ out, match g_constraints g with
            | None | Some [] => Ret (mkCheck true [] (Some g))
            | Some cs =>
                let! violations := validate_constraints cs (default [] arguments) in
                match violations with
                | [] => Ret (mkCheck true [] (Some g))
                | _ => Ret (mkCheck false violations (Some g))
                end
            end = Ret out ∧ gc_allowed out = true) ↔
          ∀ field spec, (field, spec) ∈ default [] (g_constraints g) →
            field_ok (default [] arguments) field spec).
  { destruct (g_constraints g) as [[|c cs]|]; [split; [set_solver|eauto]| |split; [set_solver|eauto]].
    change (default [] (Some (c :: cs))) with (c :: cs).
    rewrite <- (validate_constraints_nil (c :: cs) (default [] arguments)).
    destruct (validate_constraints (c :: cs) (default [] arguments)) as [e|[|v vs]]; simpl.
    - split; [by intros (? & ? & ?)|done].
    - split; eauto.
    - split; [by intros (? & [= <-] & ?)|done]. }
  destruct (g_expires_at g) as [[us|us off]|] eqn:He; simpl.
  - split; [by intros (? & ? & ?)|]. intros (g' & [= <-] & _ & Hx & _). destruct (Hx _ He) as (? & ? & ? & _). done.
  - destruct (us - off <? now) eqn:Hlt; reflect.
    + split; [by intros (? & [= <-] & ?)|]. intros (g' & [= <-] & _ & Hx & _).
      destruct (Hx _ He) as (? & ? & [= -> ->] & ?). lia.
    + rewrite Hc. split.
      * intros Hf. exists g. split_and!; try done. intros e Hx. rewrite He in Hx. injection Hx as <-. eauto.
      * by intros (g' & [= <-] & _ & _ & Hf).
  - rewrite Hc. split.
    + intros Hf. exists g. split_and!; try done. intros e Hx. congruence.
    + by intros (g' & [= <-] & _ & _ & Hf).
Qed.

(** The registry after the specs an escalation request grants at once. *)
Definition auto_granted (host : HostIdentity) (aid : string) (specs : list pydict) (r : t) : t :=
  let auto := snd (partition_escalation_capability_specs host (map JObj specs)
                     (Some (get_grants aid r))) in
  fst (apply_capability_specs_to_registry aid (h_host_id host) auto r).

(** Granting at once the specs that an escalation request splits off as
    needing no consent leaves every grant that exists as it is, even when the
    application stops in an error, provided the requested names carry no
    surrounding blanks; and each grant it adds belongs to the requesting agent,
    names a default capability of an active host, never expires, and is active
    only for a defined capability with the constraints that were asked for. *)
Theorem auto_grant_preserves_existing (host : HostIdentity) (aid : string)
    (specs : list pydict) (r : CapabilityRegistry.t) (aid' cap : string) :
  ok r →
  (∀ spec, spec ∈ specs →
     PyStr.strip (str_or_empty (j_get "name" spec)) = str_or_empty (j_get "name" spec)) →
  let r' := auto_granted host aid specs r in
  (∀ g, lookup aid' cap r = Some g → lookup aid' cap r' = Some g) ∧
  (∀ g, lookup aid' cap r = None → lookup aid' cap r' = Some g →
     aid' = aid ∧ h_status host = HostActive ∧ cap ∈ h_default_capabilities host ∧
     written_grant r (h_host_id host) specs g).
Proof.
  intros Hr Hnames. unfold auto_granted, apply_capability_specs_to_registry, st_bind, st_gets.
  set (by_name := grant_by_name (get_grants aid r)).
  set (auto := snd _). cbn [fst].
  assert (Hauto : ∀ spec, spec ∈ auto → spec ∈ specs ∧ h_status host = HostActive ∧
            str_or_empty (j_get "name" spec) ∈ h_default_capabilities host ∧
            auto_grant_would_replace_existing_grant
              (PyDict.get (str_or_empty (j_get "name" spec)) by_name) (j_get "constraints" spec) = false).
  { intros spec (Hin & _ & Hact & Hdef & Hno)%partition_loop_auto.
    apply list_elem_of_fmap in Hin as (d & [= <-] & Hin). rewrite (Hnames _ Hin) in Hdef, Hno. done. }
  destruct (apply_specs_effect by_name aid (h_host_id host) auto r aid' cap) as [_ He].
  cbv zeta in He |- *. set (r' := fst (apply_specs _ _ _ _ _)) in *.
  destruct He as [He|(-> & (spec & Hin & <- & _ & Hw) & g' & Hg' & _ & Hwr)].
  { split; intros; congruence. }
  destruct (Hauto _ Hin) as (_ & Hact & Hdef & Hno). rewrite Hno in Hw.
  destruct Hw as [Hw|]; [|done]. unfold by_name in Hw. rewrite grant_by_name_get in Hw by done.
  split; [intros g Hg; by rewrite Hg in Hw|].
  intros g _ Hg. rewrite Hg in Hg'. injection Hg' as <-. split_and!; [done..|].
  eapply written_grant_mono; [done| |done]. intros sp Hsp. by apply Hauto.
Qed.

(** Without that proviso it fails: the split looks a request up under its
    name stripped of blanks, the application under the name as sent, so a
    request for a padded name replaces an existing constrained grant of that
    padded name by an unconstrained one without consent. *)
Theorem padded_name_replaces_grant :
  ∃ (host : HostIdentity) (aid : string) (specs : list pydict) (r : CapabilityRegistry.t)
    (cap : string) (g g' : CapabilityGrant),
    ok r ∧ (cap ∉ h_default_capabilities host) ∧
    lookup aid cap r = Some g ∧ g_constraints g = Some [("path"%string, JStr "/tmp")] ∧
    lookup aid cap (auto_granted host aid specs r) = Some g' ∧
    g_status g' = GActive ∧ g_constraints g' = None.
Proof.
  set (c := " file:read"%string).
  set (host := mkHost "h1" None [] None ["file:read"%string] HostActive 0 0).
  set (r0 := register (mkDefinition c "padded" None None None) init).
  set (r := fst (grant "a1" c (JObj [("path"%string, JStr "/tmp")]) (Some "h1"%string) GActive None None r0)).
  exists host, "a1"%string, [[("name"%string, JStr c)]], r, c.
  eexists _, _. split; [subst r r0; auto with asap|].
  split; [set_solver|]. split; [vm_compute; reflexivity|]. split; [reflexivity|].
  split; [vm_compute; reflexivity|]. done.
Qed.

(** The grants synthesised from OAuth2 scopes are active and
    unconstrained, in strictly increasing order of name, and cover exactly the
    registered capabilities when the scopes include admin, and otherwise those
    whose lower-cased name contains a reading word under the read scope or an
    executing word under the execute scope. *)
Theorem scopes_grant_exactly (scopes : list string) (r : CapabilityRegistry.t) :
  let gs := map_scopes_to_capabilities scopes r in
  let named kws n := existsb (PyStr.contains (PyStr.lower n)) kws = true in
  Forall (λ g, g_status g = GActive ∧ g_constraints g = None ∧ g_expires_at g = None) gs ∧
  NoDup (map g_capability gs) ∧ Sorted str_le (map g_capability gs) ∧
  ∀ n, n ∈ map g_capability gs ↔
    n ∈ map cd_name (list_capabilities r) ∧
    (SCOPE_ADMIN ∈ scopes ∨
     (SCOPE_READ ∈ scopes ∧ named ["read"; "list"; "describe"]%string n) ∨
     (SCOPE_EXECUTE ∈ scopes ∧ named ["execute"; "write"; "invoke"]%string n)).
Proof.
  intros gs named. subst gs. unfold map_scopes_to_capabilities. set (names := if str_in _ _ then _ else _).
  rewrite map_map. cbn [g_capability]. rewrite map_id.
  split_and!.
  - apply Forall_map, Forall_true. done.
  - unfold sorted_set. rewrite merge_sort_Permutation. apply NoDup_remove_dups.
  - apply Sorted_merge_sort. intros a b. unfold str_le. destruct (String.leb_total a b); auto.
  - intros n. unfold sorted_set. rewrite merge_sort_Permutation, elem_of_remove_dups.
    subst names. unfold str_in, named, names_with.
    repeat case_bool_decide; rewrite ?elem_of_app, ?list_elem_of_filter, ?elem_of_nil; tauto.
Qed.

(** ** Witness *)
Lemma auto_grant_preserves_existing_witness :
  let host := mkHost "h1" None [] None ["file:read"; "file:list"]%string HostActive 0 0 in
  let r0 := register (mkDefinition "file:read" "d" None None None) init in
  let r := fst (grant "a1" "file:read" (JObj [("path"%string, JStr "/tmp")]) (Some "h1"%string)
                  GActive None None r0) in
  let specs := [[("name"%string, JStr "file:read")]; [("name"%string, JStr "file:list")]] in
  lookup "a1" "file:read" (auto_granted host "a1" specs r) =
    Some (mkGrant "file:read" GActive (Some [("path"%string, JStr "/tmp")]) (Some "h1"%string) None None).
Proof.
  intros host r0 r specs.
  refine (proj1 (auto_grant_preserves_existing host "a1" specs r "a1" "file:read" _ _) _ _).
  - subst r r0. auto with asap.
  - intros spec [->|[->|[]%elem_of_nil]%elem_of_cons]%elem_of_cons; reflexivity.
  - reflexivity.
Defined.
