(* ===== verification/AgentJwt.v ===== *)
(** * Host and Agent JWT verification

    `src/src/asap/auth/agent_jwt.py` (claims gate, verification of Host and
    Agent JWTs, the claims the creators sign), `audience_matches_expected` of
    `src/src/asap/auth/jwks.py`, and the session slide of
    `src/src/asap/auth/agent_jwt_session.py`.

    joserfc is a parameter ([Jose]).  Other tasks may run at every `await`: an
    [interleaving] says what they do to the stores there. *)

From Stdlib Require Import ZArith QArith Lia Ascii String.
From stdpp Require Import base tactics list gmap strings relations.
From S2P Require Import Prelude PyValue Digest Identity ReplayGuard.
Open Scope Z_scope.
Open Scope asap_scope.

Abbreviation claims_t := (list (string * json)).

(** joserfc: a failure carries the text of a `JoseError`, `ValueError` or
    `TypeError`, the classes the callers catch.  [jws_extract_compact] gives
    the decoded header and the payload read by `json.loads`;
    [okp_as_dict_public] is `as_dict(private=False)`. *)
Class Jose : Type := {
  okp_key : Type;
  okp_import_key : jwk → res string okp_key;
  jws_extract_compact : string → res string (claims_t * json);
  jwt_decode : string → okp_key → res string claims_t;
  okp_as_dict_public : okp_key → jwk;
  jwt_encode : claims_t → claims_t → okp_key → string
}.

Definition HOST_JWT_TYP : string := "host+jwt".
Definition AGENT_JWT_TYP : string := "agent+jwt".
Definition HOST_PUBLIC_KEY_CLAIM : string := "host_public_key".
Definition AGENT_PUBLIC_KEY_CLAIM : string := "agent_public_key".
Definition CAPABILITIES_CLAIM : string := "capabilities".
Definition DEFAULT_HOST_JWT_TTL_SECONDS : Z := 300.
Definition AGENT_JWT_TTL_SECONDS : Z := 60.
Definition HOST_REVOKED_ERROR : string := "host revoked".
Definition IAT_MAX_FUTURE_SKEW_SECONDS : Z := 60.

Record JwtVerifyResult : Type := mkVerify {
  vr_ok : bool;
  vr_claims : option claims_t;
  vr_host : option HostIdentity;
  vr_agent : option AgentSession;
  vr_error : option string
}.

Definition failed (error : string) : JwtVerifyResult := mkVerify false None None None (Some error).

(** The property `capabilities` of a result. *)
Definition vr_capabilities (r : JwtVerifyResult) : list string :=
  match vr_claims r with
  | None => []
  | Some claims =>
      match j_get CAPABILITIES_CLAIM claims with
      | JList l => omap as_str l
      | _ => []
      end
  end.

(** ** `float(x)` of a claim *)

(** An integer rounded to the nearest double, ties to even; [None]: overflow. *)
Definition round_to_double (z : Z) : option Z :=
  let a := Z.abs z in
  let s := Z.log2 a - 52 in
  let r :=
    if s <=? 0 then a
    else
      let q := Z.shiftr a s in
      let rest := a - q * 2 ^ s in
      let half := 2 ^ (s - 1) in
      (if (rest <? half) || ((rest =? half) && Z.even q) then q else q + 1) * 2 ^ s in
  if 2 ^ 1024 <=? r then None else Some (Z.sgn z * r).

Definition num_le (a b : pyfloat) : bool := num_lt a b || num_eq a b.

(** A reading of `time.time()`, in seconds, from microseconds. *)
Definition seconds (us : Z) : pyfloat := FFin (us # 1000000).

Section Claims.
  Context `{PyRuntime}.

Definition py_float (j : json) : res pyexn pyfloat :=
  match j with
  | JBool b => Ret (FFin (if b then 1 else 0))
  | JInt z =>
      match round_to_double z with
      | Some r => Ret (FFin (inject_Z r))
      | None => Raise (OverflowError "int too large to convert to float")
      end
  | JFloat f => Ret f
  | JStr s =>
      match float_of_str s with
      | Some f => Ret f
      | None => Raise (ValueError "could not convert string to float")
      end
  | _ => Raise (TypeError "float() argument must be a string or a real number")
  end.

(** `except (TypeError, ValueError): return False` around a conversion. *)
Definition or_false (m : res pyexn bool) : res pyexn bool :=
  match m with
  | Raise (TypeError _) | Raise (ValueError _) => Ret false
  | _ => m
  end.

Definition iat_not_in_future (claims : claims_t) (now : Z) : res pyexn bool :=
  match j_get "iat" claims with
  | JNull => Ret true
  | iat =>
      or_false (let! iat_ts := py_float iat in
                Ret (num_le iat_ts (seconds (now + IAT_MAX_FUTURE_SKEW_SECONDS * second))))
  end.

Definition exp_valid (claims : claims_t) (now : Z) : res pyexn bool :=
  match j_get "exp" claims with
  | JNull => Ret false
  | exp => or_false (let! exp_ts := py_float exp in Ret (num_lt (seconds now) exp_ts))
  end.

Definition jti_present (claims : claims_t) : bool :=
  match j_get "jti" claims with JStr s => PyStr.nonblank s | _ => false end.

(** [expected_audience]: the list, or the one string, as a list. *)
Definition audience_matches_expected (claims : claims_t) (expected_audience : list string) : bool :=
  match j_get "aud" claims with
  | JStr aud => str_in aud expected_audience
  | JList l => existsb (λ a, str_in a expected_audience) (omap as_str l)
  | _ => false
  end.

Definition validate_standard_claims (claims : claims_t) (now : Z)
    (expected_audience : option (list string)) : res pyexn (option string) :=
  let! exp_ok := exp_valid claims now in
  if negb exp_ok then Ret (Some "token expired or missing exp"%string)
  else
    let! iat_ok := iat_not_in_future claims now in
    if negb iat_ok then Ret (Some "invalid iat (too far in the future)"%string)
    else if negb (jti_present claims) then Ret (Some "missing jti"%string)
    else
      match expected_audience with
      | Some expected =>
          if negb (audience_matches_expected claims expected) then Ret (Some "audience mismatch"%string)
          else Ret None
      | None => Ret None
      end.

End Claims.

(** ** Agent session checks *)
Definition unusable_agent_error (agent : AgentSession) : option string :=
  if bool_decide (a_status agent ∈ [StRevoked; StExpired; StPending; StRejected])
  then Some ("agent session not usable: " ++ session_status_str (a_status agent))%string
  else None.

Definition expired_agent_error (now : Z) (agent : AgentSession) : option string :=
  match check_agent_expiry now agent with
  | ExRevoked => Some "agent_revoked"%string
  | ExExpired => Some "agent_expired"%string
  | ExActive => None
  end.

Definition agent_public_key_changed `{PyRuntime} (current verified : AgentSession) : res pyexn bool :=
  let! a := jwk_thumbprint_sha256 (a_public_key current) in
  let! b := jwk_thumbprint_sha256 (a_public_key verified) in
  Ret (negb (String.eqb a b)).

(** ** Verification *)
Section Verify.
  Context `{PyRuntime, Jose} {C : Type} `{JtiGuard C}.

(** The stores a verification reads and writes; [w_cache] is the optional
    replay guard. *)
Record world : Type := mkWorld {
  w_hosts : InMemoryHostStore.t;
  w_agents : gmap string AgentSession;
  w_cache : option C
}.

Definition with_agents (a : gmap string AgentSession) (w : world) : world :=
  mkWorld (w_hosts w) a (w_cache w).
Definition with_cache (c : C) (w : world) : world := mkWorld (w_hosts w) (w_agents w) (Some c).

(** What other tasks do while the verification waits for: the first read of
    the agent, the read of the host, the re-read, the touch. *)
Record interleaving : Type := mkInterleaving {
  il_agent : world → world;
  il_host : world → world;
  il_reread : world → world;
  il_touch : world → world
}.

(** The readings of the clock, in the order they are taken. *)
Record clock : Type := mkClock {
  ck_claims : Z;
  ck_jti : Z;
  ck_expiry : Z;
  ck_reread : Z;
  ck_stamp : Z;
  ck_touch : Z
}.

(** A verification stops early with its result, or with an exception that
    leaves it. *)
Abbreviation V A := (ST world (res pyexn JwtVerifyResult) A).

Definition reject {A} (error : string) : V A := st_stop (Ret (failed error)).
Definition raise {A} (e : pyexn) : V A := st_stop (Raise e).
Definition reject_if (error : option string) : V unit :=
  match error with Some e => reject e | None => st_ret tt end.
Definition call {A} (m : res pyexn A) : V A :=
  match m with Raise e => raise e | Ret a => st_ret a end.
(** A call whose failure becomes a rejection. *)
Definition guarded {A} (prefix : string) (m : res string A) : V A :=
  match m with Raise e => reject (prefix ++ e)%string | Ret a => st_ret a end.

Definition finish (m : V JwtVerifyResult) (w : world) : world * res pyexn JwtVerifyResult :=
  match m w with
  | (w', Raise out) => (w', out)
  | (w', Ret r) => (w', Ret r)
  end.

(** `payload.get`, where the payload may be any JSON value. *)
Definition dict_of (payload : json) : V claims_t :=
  match payload with
  | JObj d => st_ret d
  | _ => raise (AttributeError ("'" ++ type_name payload ++ "' object has no attribute 'get'")%string)
  end.

Definition check_jti (now : Z) (record_jti : bool) (partition jti : string) : V unit :=
  do! cache <- st_gets w_cache in
  match cache with
  | None => st_ret tt
  | Some c =>
      let '(c', jti_ok) :=
        if record_jti then jg_check_and_record now partition jti c
        else let '(c', seen) := jg_contains now partition jti c in (c', negb seen) in
      run! st_modify (with_cache c') in
      st_when (negb jti_ok) (reject "jti replay detected")
  end.

Definition verify_host_jwt (il : interleaving) (ck : clock) (token : string)
    (expected_audience : option (list string)) (record_jti : bool) :
    world → world * res pyexn JwtVerifyResult :=
  finish (
    do! parsed <- guarded "invalid JWT structure: " (jws_extract_compact token) in
    let '(header, payload) := parsed in
    run! st_when (negb (py_eq (j_get "typ" header) (JStr HOST_JWT_TYP)))
           (reject "invalid typ for host JWT") in
    do! unverified_payload <- dict_of payload in
    do! host_pub_claim <-
      match j_get HOST_PUBLIC_KEY_CLAIM unverified_payload with
      | JObj d => st_ret d
      | _ => reject "missing or invalid host_public_key claim"
      end in
    do! okp <- guarded "invalid host JWT: " (okp_import_key host_pub_claim) in
    do! claims <- guarded "invalid host JWT: " (jwt_decode token okp) in
    do! err <- call (validate_standard_claims claims (ck_claims ck) expected_audience) in
    run! reject_if err in
    do! host_pub <-
      match j_get HOST_PUBLIC_KEY_CLAIM claims with
      | JObj d => st_ret d
      | _ => reject "missing host_public_key in verified claims"
      end in
    do! expected_iss <- call (jwk_thumbprint_sha256 host_pub) in
    run! st_when (negb (py_eq (j_get "iss" claims) (JStr expected_iss)))
           (reject "iss does not match host_public_key thumbprint") in
    run! check_jti (ck_jti ck) record_jti expected_iss (match j_get "jti" claims with
                                                        | JStr s => s | _ => "" end) in
    run! st_modify (il_host il) in
    do! host <- st_gets (λ w, InMemoryHostStore.get_by_public_key expected_iss (w_hosts w)) in
    run! match host with
         | Some h => st_when (bool_decide (h_status h = HostRevoked)) (reject HOST_REVOKED_ERROR)
         | None => st_ret tt
         end in
    st_ret (mkVerify true (Some claims) host None None)).

(** `slide_session_if_still_current`: the error, or the session persisted. *)
Definition slide_session_if_still_current (il : interleaving) (ck : clock) (verified : AgentSession) :
    V AgentSession :=
  run! st_modify (il_reread il) in
  do! current <- st_gets (λ w, InMemoryAgentStore.get (a_agent_id verified) (w_agents w)) in
  match current with
  | None => reject "unknown agent"
  | Some current =>
      run! reject_if (unusable_agent_error current) in
      run! st_when (negb (String.eqb (a_host_id current) (a_host_id verified)))
             (reject "agent host_id changed during verification") in
      do! changed <- call (agent_public_key_changed current verified) in
      run! st_when changed (reject "agent key changed during verification") in
      run! reject_if (expired_agent_error (ck_reread ck) current) in
      run! st_modify (il_touch il) in
      do! w <- st_get in
      let '(agents, touched) :=
        InMemoryAgentStore.touch_if_current (ck_touch ck) (a_agent_id verified)
          (a_public_key verified) (ck_stamp ck) (a_host_id verified) (w_agents w) in
      run! st_modify (with_agents agents) in
      match touched with
      | None => reject "agent session changed during verification"
      | Some session => st_ret session
      end
  end.

Definition verify_agent_jwt (il : interleaving) (ck : clock) (token : string)
    (expected_audience : option (list string)) : world → world * res pyexn JwtVerifyResult :=
  finish (
    do! parsed <- guarded "invalid JWT structure: " (jws_extract_compact token) in
    let '(header, payload) := parsed in
    run! st_when (negb (py_eq (j_get "typ" header) (JStr AGENT_JWT_TYP)))
           (reject "invalid typ for agent JWT") in
    do! unverified_payload <- dict_of payload in
    do! sub_raw <-
      match j_get "sub" unverified_payload with
      | JStr s => if PyStr.nonblank s then st_ret s else reject "missing sub (agent id)"
      | _ => reject "missing sub (agent id)"
      end in
    run! st_modify (il_agent il) in
    do! found <- st_gets (λ w, InMemoryAgentStore.get sub_raw (w_agents w)) in
    do! agent <- match found with Some a => st_ret a | None => reject "unknown agent" end in
    run! reject_if (unusable_agent_error agent) in
    do! okp <- guarded "invalid agent JWT: " (okp_import_key (a_public_key agent)) in
    do! claims <- guarded "invalid agent JWT: " (jwt_decode token okp) in
    do! err <- call (validate_standard_claims claims (ck_claims ck) expected_audience) in
    run! reject_if err in
    run! st_when (negb (py_eq (j_get "sub" claims) (JStr (a_agent_id agent))))
           (reject "sub does not match verified agent id") in
    do! iss <-
      match j_get "iss" claims with
      | JStr s => if PyStr.nonblank s then st_ret s else reject "missing iss (host thumbprint)"
      | _ => reject "missing iss (host thumbprint)"
      end in
    run! st_modify (il_host il) in
    do! found_host <- st_gets (λ w, InMemoryHostStore.get_by_public_key iss (w_hosts w)) in
    do! host <- match found_host with Some h => st_ret h | None => reject "unknown host for iss" end in
    run! st_when (bool_decide (h_status host = HostRevoked)) (reject HOST_REVOKED_ERROR) in
    run! st_when (negb (String.eqb (h_host_id host) (a_host_id agent)))
           (reject "agent host_id does not match iss host") in
    run! check_jti (ck_jti ck) true (a_agent_id agent) (match j_get "jti" claims with
                                                        | JStr s => s | _ => "" end) in
    run! reject_if (expired_agent_error (ck_expiry ck) agent) in
    do! session <- slide_session_if_still_current il ck agent in
    st_ret (mkVerify true (Some claims) (Some host) (Some session) None)).

End Verify.
Arguments world C : clear implicits.
Arguments interleaving C : clear implicits.

(** ** Creation *)
Section Create.
  Context `{PyRuntime, Jose}.

Definition JWT_ALGS_SIGN : string := "EdDSA".

(** An Ed25519 key pair by its raw bytes. *)
Record keypair : Type := mkKeypair { raw_private : list Z; raw_public : list Z }.

Definition private_jwk (k : keypair) : jwk :=
  [("kty", JStr "OKP"); ("crv", JStr "Ed25519"); ("d", JStr (B64.encode_nopad (raw_private k)));
   ("x", JStr (B64.encode_nopad (raw_public k)))]%string.

Definition ed25519_private_key_to_okp_key (k : keypair) : res string okp_key :=
  okp_import_key (private_jwk k).

(** `int(time.time())` *)
Definition epoch_seconds (now : Z) : Z := now / second.

Definition opt_member (k : string) (v : option json) : claims_t :=
  match v with Some j => [(k, j)] | None => [] end.

Definition host_claims (iss : string) (aud : json) (now ttl_seconds : Z) (id : string) (host_pub : jwk)
    (agent_public_key : option jwk) : claims_t :=
  [("iss", JStr iss); ("aud", aud); ("iat", JInt (epoch_seconds now));
   ("exp", JInt (epoch_seconds now + ttl_seconds)); ("jti", JStr ("jwt_" ++ id));
   (HOST_PUBLIC_KEY_CLAIM, JObj host_pub)]%string
  ++ opt_member AGENT_PUBLIC_KEY_CLAIM (option_map JObj agent_public_key).

Definition jwt_header (typ : string) : claims_t :=
  [("alg", JStr JWT_ALGS_SIGN); ("typ", JStr typ)]%string.

(** [inl]: the text of an error of joserfc, [inr]: any other exception. *)
Definition create_host_jwt (host_keypair : keypair) (aud : json) (agent_public_key : option jwk)
    (ttl_seconds now : Z) (id : string) : res (string + pyexn) string :=
  match ed25519_private_key_to_okp_key host_keypair with
  | Raise e => Raise (inl e)
  | Ret okp =>
      let host_pub := okp_as_dict_public okp in
      match jwk_thumbprint_sha256 host_pub with
      | Raise e => Raise (inr e)
      | Ret iss =>
          Ret (jwt_encode (jwt_header HOST_JWT_TYP)
                 (host_claims iss aud now ttl_seconds id host_pub agent_public_key) okp)
      end
  end.

Definition agent_claims (host_thumbprint agent_id : string) (aud : json) (now : Z) (id : string)
    (capabilities : option (list string)) : claims_t :=
  [("iss", JStr host_thumbprint); ("sub", JStr agent_id); ("aud", aud);
   ("iat", JInt (epoch_seconds now)); ("exp", JInt (epoch_seconds now + AGENT_JWT_TTL_SECONDS));
   ("jti", JStr ("jwt_" ++ id))]%string
  ++ opt_member CAPABILITIES_CLAIM (option_map (λ l, JList (map JStr l)) capabilities).

Definition create_agent_jwt (agent_keypair : keypair) (host_thumbprint agent_id : string) (aud : json)
    (capabilities : option (list string)) (now : Z) (id : string) : res string string :=
  let! okp := ed25519_private_key_to_okp_key agent_keypair in
  Ret (jwt_encode (jwt_header AGENT_JWT_TYP)
         (agent_claims host_thumbprint agent_id aud now id capabilities) okp).

End Create.

(** ** Lemmas *)
Lemma py_eq_str j s : py_eq j (JStr s) = true → j = JStr s.
Proof. destruct j; try done. simpl. by intros ->%String.eqb_eq. Qed.

Lemma or_false_true m : or_false m = Ret true → m = Ret true.
Proof. by destruct m as [[]|[]]. Qed.

(** What the claims gate lets through. *)
Definition claims_ok `{PyRuntime} (claims : claims_t) (now : Z) (aud : option (list string)) : Prop :=
  (∃ e, py_float (j_get "exp" claims) = Ret e ∧ num_lt (seconds now) e = true) ∧
  (j_get "iat" claims = JNull ∨
   ∃ i, py_float (j_get "iat" claims) = Ret i ∧
     num_le i (seconds (now + IAT_MAX_FUTURE_SKEW_SECONDS * second)) = true) ∧
  (∃ jti, j_get "jti" claims = JStr jti ∧ PyStr.nonblank jti = true) ∧
  (∀ l, aud = Some l → audience_matches_expected claims l = true).

Lemma exp_valid_true `{PyRuntime} claims now :
  exp_valid claims now = Ret true ↔
  ∃ e, py_float (j_get "exp" claims) = Ret e ∧ num_lt (seconds now) e = true.
Proof.
  unfold exp_valid. set (exp := j_get "exp" claims). split.
  - intros He. destruct exp eqn:Hexp; [done|..]; apply or_false_true in He;
      match type of He with rbind ?m _ = _ => destruct m as [|e] eqn:Hm end; try done;
      injection He as He; exists e; by rewrite <- Hm, <- Hexp.
  - intros (e & Hf & Hl). destruct exp; try done; rewrite Hf; cbn [rbind]; by rewrite Hl.
Qed.

Lemma iat_not_in_future_true `{PyRuntime} claims now :
  iat_not_in_future claims now = Ret true ↔
  j_get "iat" claims = JNull ∨
   ∃ i, py_float (j_get "iat" claims) = Ret i ∧
     num_le i (seconds (now + IAT_MAX_FUTURE_SKEW_SECONDS * second)) = true.
Proof.
  unfold iat_not_in_future. set (iat := j_get "iat" claims). split.
  - intros He. destruct iat eqn:Hiat; [by left|..]; right; apply or_false_true in He;
      match type of He with rbind ?m _ = _ => destruct m as [|e] eqn:Hm end; try done;
      injection He as He; exists e; by rewrite <- Hm, <- Hiat.
  - intros [->|(e & Hf & Hl)]; [done|]. destruct iat; try done; rewrite Hf; cbn [rbind]; by rewrite Hl.
Qed.

Lemma validate_standard_claims_ok `{PyRuntime} claims now aud :
  validate_standard_claims claims now aud = Ret None ↔ claims_ok claims now aud.
Proof.
  unfold validate_standard_claims, claims_ok.
  rewrite <- exp_valid_true, <- iat_not_in_future_true.
  destruct (exp_valid claims now) as [|[]]; simpl; [split; [done|by intros [? _]]| |split; [done|by intros [? _]]].
  destruct (iat_not_in_future claims now) as [|[]]; simpl;
    [split; [done|by intros (_ & ? & _)]| |split; [done|by intros (_ & ? & _)]].
  unfold jti_present. destruct (j_get "jti" claims) as [| | | |s| |]; simpl;
    try (split; [done|by intros (_ & _ & (? & ? & _) & _)]).
  destruct (PyStr.nonblank s) eqn:Hs; simpl; [|split; [done|intros (_ & _ & (? & [= <-] & ?) & _); congruence]].
  destruct aud as [l|].
  - destruct (audience_matches_expected claims l) eqn:Ha; simpl.
    + split; [|done]. intros _. split_and!; [done|done|eauto|]. by intros ? [= <-].
    + split; [done|]. intros (_ & _ & _ & Hl). by rewrite (Hl l) in Ha.
  - split; [|done]. intros _. split_and!; [done|done|eauto|done].
Qed.

Section VerifyLemmas.
  Context `{PyRuntime, Jose} {C : Type} `{JtiGuard C}.
  Implicit Types w : world C.

Lemma reject_ret {A} e w w' (a : A) : reject e w = (w', Ret a) ↔ False.
Proof. done. Qed.
Lemma raise_ret {A} e w w' (a : A) : raise e w = (w', Ret a) ↔ False.
Proof. done. Qed.
Lemma when_reject_ret c e w w' u : st_when c (reject e) w = (w', Ret u) ↔ c = false ∧ w' = w.
Proof. rewrite st_when_ret. destruct c; simpl; naive_solver. Qed.
Lemma reject_if_ret o w w' u : reject_if o w = (w', Ret u) ↔ o = None ∧ w' = w.
Proof. destruct o; simpl; [naive_solver|]. unfold st_ret. destruct u. naive_solver. Qed.
Lemma call_ret {A} (m : res pyexn A) w w' a : call m w = (w', Ret a) ↔ m = Ret a ∧ w' = w.
Proof. destruct m; simpl; [naive_solver|]. unfold st_ret. naive_solver. Qed.
Lemma guarded_ret {A} p (m : res string A) w w' a : guarded p m w = (w', Ret a) ↔ m = Ret a ∧ w' = w.
Proof. destruct m; simpl; [naive_solver|]. unfold st_ret. naive_solver. Qed.
Lemma dict_of_ret j w w' d : dict_of j w = (w', Ret d) ↔ j = JObj d ∧ w' = w.
Proof. destruct j; simpl; try naive_solver. unfold st_ret. naive_solver. Qed.
Lemma gets_ret {A} (f : world C → A) w w' (a : A) :
  st_gets (R := res pyexn JwtVerifyResult) f w = (w', Ret a) ↔ a = f w ∧ w' = w.
Proof. unfold st_gets. naive_solver. Qed.
Lemma modify_ret (f : world C → world C) w w' u :
  st_modify (R := res pyexn JwtVerifyResult) f w = (w', Ret u) ↔ w' = f w.
Proof. unfold st_modify. destruct u. naive_solver. Qed.
Lemma ret_ret {A} (a b : A) w w' :
  st_ret (R := res pyexn JwtVerifyResult) a w = (w', Ret b) ↔ a = b ∧ w' = w.
Proof. unfold st_ret. naive_solver. Qed.

(** Only failures stop a verification early. *)
Definition rejects {A} (m : ST (world C) (res pyexn JwtVerifyResult) A) : Prop :=
  ∀ w w' e, m w = (w', Raise (Ret e)) → vr_ok e = false.

(** A successful verification is one that reached its end. *)
Lemma finish_ok m w w' r :
  rejects m → finish m w = (w', Ret r) → vr_ok r = true → m w = (w', Ret r).
Proof.
  intros Hm. unfold finish. destruct (m w) as [w1 [[e|r1]|r1]] eqn:E; intros [= -> ->]; [|done].
  intros Hr. apply Hm in E. congruence.
Qed.

Lemma rejects_ret {A} (a : A) : rejects (st_ret a).
Proof. done. Qed.
Lemma rejects_reject {A} e : rejects (reject (A := A) e).
Proof. by intros w w' x [= _ <-]. Qed.
Lemma rejects_raise {A} e : rejects (raise (A := A) e).
Proof. done. Qed.
Lemma rejects_reject_if o : rejects (reject_if o).
Proof. destruct o; [apply rejects_reject|apply rejects_ret]. Qed.
Lemma rejects_call {A} (m : res pyexn A) : rejects (call m).
Proof. by destruct m. Qed.
Lemma rejects_guarded {A} p (m : res string A) : rejects (guarded p m).
Proof. destruct m; [apply rejects_reject|apply rejects_ret]. Qed.
Lemma rejects_when c m : rejects m → rejects (st_when c m).
Proof. destruct c; [done|]. intros _. apply rejects_ret. Qed.
Lemma rejects_gets {A} (f : world C → A) : rejects (st_gets f).
Proof. done. Qed.
Lemma rejects_get : rejects st_get.
Proof. done. Qed.
Lemma rejects_modify (f : world C → world C) : rejects (st_modify f).
Proof. done. Qed.
Lemma rejects_dict_of j : rejects (dict_of j).
Proof. destruct j; try apply rejects_raise. apply rejects_ret. Qed.
Lemma rejects_bind {A B} (m : ST (world C) (res pyexn JwtVerifyResult) A)
    (k : A → ST (world C) (res pyexn JwtVerifyResult) B) :
  rejects m → (∀ a, rejects (k a)) → rejects (st_bind m k).
Proof.
  intros Hm Hk w w' e. unfold st_bind. destruct (m w) as [w1 [r|a]] eqn:E.
  - intros [= -> ->]. by eapply Hm.
  - apply Hk.
Qed.
Lemma rejects_check_jti now b p j : rejects (check_jti now b p j).
Proof.
  apply rejects_bind; [done|]. intros [c|]; [|apply rejects_ret].
  destruct (if b then _ else _) as [c' ok]. apply rejects_bind; [done|]. intros _.
  apply rejects_when, rejects_reject.
Qed.
End VerifyLemmas.

#[export] Hint Resolve rejects_ret rejects_reject rejects_raise rejects_reject_if rejects_call
  rejects_guarded rejects_when rejects_gets rejects_get rejects_modify rejects_dict_of
  rejects_check_jti : asap.

(** Walk through a computation, bind by bind and case by case. *)
Ltac rejects_step :=
  match goal with
  | |- rejects (st_bind _ _) => apply rejects_bind; [|intros ?]
  | |- rejects (match ?x with _ => _ end) => destruct x
  | |- rejects _ => solve [auto with asap]
  end.

Section VerifyTraces.
  Context `{PyRuntime, Jose} {C : Type} `{JtiGuard C}.
  Implicit Types w : world C.

Definition jti_of (claims : claims_t) : string :=
  match j_get "jti" claims with JStr s => s | _ => "" end.

(** The replay check let the token through. *)
Definition jti_passed (now : Z) (record_jti : bool) (p j : string) w w' : Prop :=
  match w_cache w with
  | None => w' = w
  | Some c =>
      if record_jti
      then snd (jg_check_and_record now p j c) = true ∧ w' = with_cache (fst (jg_check_and_record now p j c)) w
      else snd (jg_contains now p j c) = false ∧ w' = with_cache (fst (jg_contains now p j c)) w
  end.

Lemma check_jti_ret now b p j w w' u :
  check_jti now b p j w = (w', Ret u) ↔ jti_passed now b p j w w'.
Proof.
  unfold check_jti, jti_passed. rewrite st_bind_ret. unfold st_gets.
  split.
  - intros (w1 & c & [= <- <-] & Hm). destruct (w_cache w) as [c|]; [|unfold st_ret in Hm; by simplify_eq].
    destruct b.
    + destruct (jg_check_and_record now p j c) as [c' ok]; simpl in *.
      bind_inv Hm as (w1 & [] & Hmod & Hw).
      apply modify_ret in Hmod as ->. apply when_reject_ret in Hw as [? ->]. by destruct ok.
    + destruct (jg_contains now p j c) as [c' seen]; simpl in *.
      bind_inv Hm as (w1 & [] & Hmod & Hw).
      apply modify_ret in Hmod as ->. apply when_reject_ret in Hw as [? ->]. by destruct seen.
  - intros Hp. exists w, (w_cache w). split; [done|]. destruct (w_cache w) as [c|]; [|destruct u; by subst].
    destruct b.
    + destruct (jg_check_and_record now p j c) as [c' ok]; simpl in *. destruct Hp as [-> ->], u. done.
    + destruct (jg_contains now p j c) as [c' seen]; simpl in *. destruct Hp as [-> ->], u. done.
Qed.

(** The trace of a successful session slide, from world [w] to [w']. *)
Definition slide_trace (il : interleaving C) (ck : clock) (verified session : AgentSession) w w' : Prop :=
  let w5 := il_touch il (il_reread il w) in
  ∃ agents, InMemoryAgentStore.touch_if_current (ck_touch ck) (a_agent_id verified)
              (a_public_key verified) (ck_stamp ck) (a_host_id verified) (w_agents w5) = (agents, Some session)
    ∧ w' = with_agents agents w5.

Lemma slide_ret il ck verified w w' session :
  slide_session_if_still_current il ck verified w = (w', Ret session) →
  slide_trace il ck verified session w w'.
Proof.
  unfold slide_session_if_still_current, slide_trace. intros Hs.
  bind_inv Hs as (w4 & ? & ->%modify_ret & Hs).
  bind_inv Hs as (? & cur & [-> ->]%gets_ret & Hs).
  destruct (InMemoryAgentStore.get _ _) as [cur|]; [|done].
  bind_inv Hs as (? & ? & [_ ->]%reject_if_ret & Hs).
  bind_inv Hs as (? & ? & [_ ->]%when_reject_ret & Hs).
  bind_inv Hs as (? & ? & [_ ->]%call_ret & Hs).
  bind_inv Hs as (? & ? & [_ ->]%when_reject_ret & Hs).
  bind_inv Hs as (? & ? & [_ ->]%reject_if_ret & Hs).
  bind_inv Hs as (w5 & ? & ->%modify_ret & Hs).
  bind_inv Hs as (? & ? & Hg & Hs). injection Hg as <- <-.
  destruct (InMemoryAgentStore.touch_if_current _ _ _ _ _ _) as [agents [touched|]].
  2: { rewrite st_bind_ret in Hs. by destruct Hs as (? & ? & _ & ?). }
  bind_inv Hs as (? & ? & ->%modify_ret & [<- ->]%ret_ret). eauto.
Qed.

(** The trace of a successful agent verification. *)
Definition agent_trace (il : interleaving C) (ck : clock) (token : string) (aud : option (list string))
    w w' (claims : claims_t) (host : HostIdentity) (verified session : AgentSession) : Prop :=
  let w2 := il_host il (il_agent il w) in
  ∃ header payload sub pk iss w3,
    jws_extract_compact token = Ret (header, JObj payload) ∧
    j_get "sub" payload = JStr sub ∧
    w_agents (il_agent il w) !! sub = Some verified ∧
    okp_import_key (a_public_key verified) = Ret pk ∧
    jwt_decode token pk = Ret claims ∧
    claims_ok claims (ck_claims ck) aud ∧
    j_get "sub" claims = JStr (a_agent_id verified) ∧
    j_get "iss" claims = JStr iss ∧
    InMemoryHostStore.get_by_public_key iss (w_hosts w2) = Some host ∧
    h_status host ≠ HostRevoked ∧ h_host_id host = a_host_id verified ∧
    jti_passed (ck_jti ck) true (a_agent_id verified) (jti_of claims) w2 w3 ∧
    slide_trace il ck verified session w3 w'.

Lemma rejects_slide (il : interleaving C) ck verified : rejects (slide_session_if_still_current il ck verified).
Proof.
  unfold slide_session_if_still_current. repeat rejects_step.
Qed.

Lemma verify_agent_trace il ck token aud w w' r :
  verify_agent_jwt il ck token aud w = (w', Ret r) → vr_ok r = true →
  ∃ claims host verified session,
    r = mkVerify true (Some claims) (Some host) (Some session) None ∧
    agent_trace il ck token aud w w' claims host verified session.
Proof.
  intros Hv Hok. unfold verify_agent_jwt in Hv.
  eapply finish_ok in Hv; [clear Hok|repeat rejects_step; apply rejects_slide|done].
  bind_inv Hv as (? & [header payload] & [Hx ->]%guarded_ret & Hv).
  bind_inv Hv as (? & ? & [_ ->]%when_reject_ret & Hv).
  bind_inv Hv as (? & p & [-> ->]%dict_of_ret & Hv).
  bind_inv Hv as (? & sub & Hsub & Hv).
  destruct (j_get "sub" p) as [| | | |s| |] eqn:Hs; try done.
  destruct (PyStr.nonblank s); [|done]. apply ret_ret in Hsub as [<- ->].
  bind_inv Hv as (w1 & ? & ->%modify_ret & Hv).
  bind_inv Hv as (? & found & [-> ->]%gets_ret & Hv).
  bind_inv Hv as (? & verified & Hf & Hv).
  destruct (InMemoryAgentStore.get s _) as [a|] eqn:Ha; [|done]. apply ret_ret in Hf as [-> ->].
  bind_inv Hv as (? & ? & [_ ->]%reject_if_ret & Hv).
  bind_inv Hv as (? & pk & [Hpk ->]%guarded_ret & Hv).
  bind_inv Hv as (? & claims & [Hdec ->]%guarded_ret & Hv).
  bind_inv Hv as (? & err & [Hstd ->]%call_ret & Hv).
  bind_inv Hv as (? & ? & [-> ->]%reject_if_ret & Hv).
  apply validate_standard_claims_ok in Hstd.
  bind_inv Hv as (? & ? & [Hsub ->]%when_reject_ret & Hv).
  apply negb_false_iff, py_eq_str in Hsub.
  bind_inv Hv as (? & iss & Hiss & Hv).
  destruct (j_get "iss" claims) as [| | | |i| |] eqn:Hi; try done.
  destruct (PyStr.nonblank i); [|done]. apply ret_ret in Hiss as [<- ->].
  bind_inv Hv as (w2 & ? & ->%modify_ret & Hv).
  bind_inv Hv as (? & fh & [-> ->]%gets_ret & Hv).
  bind_inv Hv as (? & host & Hh & Hv).
  destruct (InMemoryHostStore.get_by_public_key i _) as [h|] eqn:Hhost; [|done].
  apply ret_ret in Hh as [-> ->].
  bind_inv Hv as (? & ? & [Hrev ->]%when_reject_ret & Hv).
  bind_inv Hv as (? & ? & [Hid ->]%when_reject_ret & Hv).
  bind_inv Hv as (w3 & ? & Hj%check_jti_ret & Hv).
  bind_inv Hv as (? & ? & [_ ->]%reject_if_ret & Hv).
  bind_inv Hv as (w4 & session & Hslide%slide_ret & [<- ->]%ret_ret).
  reflect. exists claims, host, verified, session. split; [done|].
  unfold agent_trace. eauto 25.
Qed.

(** The trace of a successful host verification. *)
Definition host_trace (il : interleaving C) (ck : clock) (token : string) (aud : option (list string))
    (record_jti : bool) w w' (claims : claims_t) (host : option HostIdentity) : Prop :=
  ∃ header payload key pk host_pub iss w1,
    jws_extract_compact token = Ret (header, JObj payload) ∧
    j_get HOST_PUBLIC_KEY_CLAIM payload = JObj key ∧
    okp_import_key key = Ret pk ∧ jwt_decode token pk = Ret claims ∧
    claims_ok claims (ck_claims ck) aud ∧
    j_get HOST_PUBLIC_KEY_CLAIM claims = JObj host_pub ∧
    jwk_thumbprint_sha256 host_pub = Ret iss ∧ j_get "iss" claims = JStr iss ∧
    jti_passed (ck_jti ck) record_jti iss (jti_of claims) w w1 ∧
    w' = il_host il w1 ∧
    host = InMemoryHostStore.get_by_public_key iss (w_hosts w') ∧
    (∀ h, host = Some h → h_status h ≠ HostRevoked).

Lemma verify_host_trace il ck token aud b w w' r :
  verify_host_jwt il ck token aud b w = (w', Ret r) → vr_ok r = true →
  ∃ claims host, r = mkVerify true (Some claims) host None None ∧
    host_trace il ck token aud b w w' claims host.
Proof.
  intros Hv Hok. unfold verify_host_jwt in Hv.
  eapply finish_ok in Hv; [clear Hok|repeat rejects_step|done].
  bind_inv Hv as (? & [header payload] & [Hx ->]%guarded_ret & Hv).
  bind_inv Hv as (? & ? & [_ ->]%when_reject_ret & Hv).
  bind_inv Hv as (? & p & [-> ->]%dict_of_ret & Hv).
  bind_inv Hv as (? & key & Hkey & Hv).
  destruct (j_get HOST_PUBLIC_KEY_CLAIM p) as [| | | | | |d] eqn:Hk; try done.
  apply ret_ret in Hkey as [<- ->].
  bind_inv Hv as (? & pk & [Hpk ->]%guarded_ret & Hv).
  bind_inv Hv as (? & claims & [Hdec ->]%guarded_ret & Hv).
  bind_inv Hv as (? & err & [Hstd ->]%call_ret & Hv).
  bind_inv Hv as (? & ? & [-> ->]%reject_if_ret & Hv). apply validate_standard_claims_ok in Hstd.
  bind_inv Hv as (? & host_pub & Hpub & Hv).
  destruct (j_get HOST_PUBLIC_KEY_CLAIM claims) as [| | | | | |d'] eqn:Hk'; try done.
  apply ret_ret in Hpub as [<- ->].
  bind_inv Hv as (? & iss & [Htp ->]%call_ret & Hv).
  bind_inv Hv as (? & ? & [Hiss ->]%when_reject_ret & Hv).
  apply negb_false_iff, py_eq_str in Hiss.
  bind_inv Hv as (w1 & ? & Hj%check_jti_ret & Hv).
  bind_inv Hv as (w2 & ? & ->%modify_ret & Hv).
  bind_inv Hv as (? & host & [Hhost ->]%gets_ret & Hv).
  bind_inv Hv as (w3 & ? & Hr & [<- ->]%ret_ret).
  exists claims, host. split; [done|].
  assert (w3 = il_host il w1 ∧ ∀ h, host = Some h → h_status h ≠ HostRevoked) as [-> Hrev].
  { destruct host as [h|]; [|by apply ret_ret in Hr as [_ ->]].
    apply when_reject_ret in Hr as [Hr ->]. reflect. split; [done|]. by intros ? [= <-]. }
  unfold host_trace. eauto 25.
Qed.
End VerifyTraces.

(** A verified JWT's claims are the payload of the token (RFC 7515: the payload
    that was signed). *)
Class JoseLaws `{Jose} : Prop := {
  decode_payload : ∀ token k claims, jwt_decode token k = Ret claims →
    ∃ header, jws_extract_compact token = Ret (header, JObj claims)
}.

Section Consequences.
  Context `{PyRuntime, Jose} {C : Type} `{JtiGuard C}.
  Implicit Types w : world C.

Lemma decode_same `{!JoseLaws} token k1 k2 c1 c2 :
  jwt_decode token k1 = Ret c1 → jwt_decode token k2 = Ret c2 → c1 = c2.
Proof. intros (h1 & Hx)%decode_payload (h2 & Hy)%decode_payload. congruence. Qed.

(** Other tasks reach the agent store only through its operations. *)
Definition il_agents_ok (il : interleaving C) : Prop :=
  ∀ w, rtc agent_step (w_agents w) (w_agents (il_agent il w))
     ∧ rtc agent_step (w_agents w) (w_agents (il_host il w))
     ∧ rtc agent_step (w_agents w) (w_agents (il_reread il w))
     ∧ rtc agent_step (w_agents w) (w_agents (il_touch il w)).

(** Other tasks leave the replay guard alone while this one waits. *)
Definition il_cache_quiet (il : interleaving C) : Prop :=
  ∀ w, w_cache (il_agent il w) = w_cache w ∧ w_cache (il_host il w) = w_cache w
     ∧ w_cache (il_reread il w) = w_cache w ∧ w_cache (il_touch il w) = w_cache w.

Lemma jti_passed_agents now b p j w w' :
  jti_passed now b p j w w' → w_agents w' = w_agents w ∧ w_hosts w' = w_hosts w.
Proof. unfold jti_passed. destruct (w_cache w), b; intros Hj; by (destruct Hj; subst) || by subst. Qed.

(** The row a successful verification leaves in the store. *)
Lemma slide_row il ck verified session w w' :
  slide_trace il ck verified session w w' →
  w_agents w' !! a_agent_id verified = Some session ∧ a_status session = StActive ∧
  a_last_used_at session = Some (ck_stamp ck) ∧ a_host_id session = a_host_id verified ∧
  ∃ tp, jwk_thumbprint_sha256 (a_public_key session) = Ret tp ∧
        jwk_thumbprint_sha256 (a_public_key verified) = Ret tp.
Proof.
  intros (agents & Ht & ->).
  destruct (touch_cases (ck_touch ck) (a_agent_id verified) (a_public_key verified) (ck_stamp ck)
              (a_host_id verified) (w_agents (il_touch il (il_reread il w))))
    as [[He _]|(a & Ha & (Hact & Hh & _ & Htp) & He)]; rewrite He in Ht; simplify_eq.
  cbn. rewrite lookup_insert, decide_True by done. split_and!; done.
Qed.

Lemma agents_keyed_rtc s s' : rtc agent_step s s' → agents_keyed s → agents_keyed s'.
Proof. induction 1 as [|x y z Hs _ IH]; [done|]. intros Hk. by apply IH, (agent_step_keyed x). Qed.

Lemma revoked_rtc s s' aid a :
  rtc agent_step s s' → agents_keyed s → s !! aid = Some a → a_status a = StRevoked →
  ∃ a', s' !! aid = Some a' ∧ a_status a' = StRevoked.
Proof.
  intros Hs. revert a. induction Hs as [|x y z Hxy _ IH]; intros a Hk Ha Hr; [eauto|].
  destruct (agent_step_revoked x y aid a) as (a1 & Ha1 & Hr1); [done..|].
  eapply IH; [by eapply agent_step_keyed|done|done].
Qed.

Lemma trace_agents il ck token aud w w' claims host verified session :
  il_agents_ok il → agent_trace il ck token aud w w' claims host verified session →
  rtc agent_step (w_agents w) (w_agents w').
Proof.
  intros Hil (header & payload & sub & pk & iss & w3 & _ & _ & _ & _ & _ & _ & _ & _ & _ & _ & _ & Hj & Hs).
  apply jti_passed_agents in Hj as [Hj _]. destruct Hs as (agents & Ht & ->).
  etrans; [exact (proj1 (Hil w))|].
  etrans; [exact (proj1 (proj2 (Hil (il_agent il w))))|]. rewrite <- Hj.
  etrans; [exact (proj1 (proj2 (proj2 (Hil w3))))|].
  etrans; [exact (proj2 (proj2 (proj2 (Hil (il_reread il w3)))))|].
  apply rtc_once. cbn.
  replace agents with (fst (InMemoryAgentStore.touch_if_current (ck_touch ck) (a_agent_id verified)
    (a_public_key verified) (ck_stamp ck) (a_host_id verified)
    (w_agents (il_touch il (il_reread il w3))))) by (by rewrite Ht). constructor.
Qed.

(** A jti that was recorded is refused, and found, within the window. *)
Lemma jti_replay_refused_by_guard now now' b p j w w1 w2 c :
  w_cache w = Some c → jg_inv now c → now <= now' → now' < now + jg_window c →
  jti_passed now true p j w w1 → w_cache w2 = w_cache w1 → ∀ w3, ¬ jti_passed now' b p j w2 w3.
Proof.
  unfold jti_passed. intros Hc Hi Hle Hlt. rewrite Hc. intros [Hok ->] Hc2 w3. rewrite Hc2. cbn.
  destruct (jg_single_use now now' p j c) as [Hr Hf]; [done..|].
  destruct b; intros [? _]; congruence.
Qed.
End Consequences.

(** ** Properties *)

(** C9: whatever other tasks do to the stores while it waits, an Agent JWT
    that verifies is signed with the key of the agent named by `sub`, passes
    the claims gate (unexpired, `iat` not in the future, a `jti`, a matching
    audience), was issued under a host found by `iss` that is not revoked and
    owns the agent; and at the end the store holds, under that agent id, the
    returned session, active, stamped with this use, with the same host and a
    key of the same thumbprint as the one that verified the signature. *)
Theorem agent_verify_sound `{PyRuntime, Jose} {C : Type} `{JtiGuard C} (il : interleaving C)
    (ck : clock) (token : string) (aud : option (list string)) (w w' : world C) (r : JwtVerifyResult) :
  verify_agent_jwt il ck token aud w = (w', Ret r) → vr_ok r = true →
  ∃ claims host session verified pk iss tp,
    r = mkVerify true (Some claims) (Some host) (Some session) None ∧
    okp_import_key (a_public_key verified) = Ret pk ∧ jwt_decode token pk = Ret claims ∧
    claims_ok claims (ck_claims ck) aud ∧
    j_get "sub" claims = JStr (a_agent_id verified) ∧ j_get "iss" claims = JStr iss ∧
    InMemoryHostStore.get_by_public_key iss (w_hosts (il_host il (il_agent il w))) = Some host ∧
    h_status host ≠ HostRevoked ∧ a_host_id session = h_host_id host ∧
    w_agents w' !! a_agent_id verified = Some session ∧
    a_status session = StActive ∧ a_last_used_at session = Some (ck_stamp ck) ∧
    jwk_thumbprint_sha256 (a_public_key session) = Ret tp ∧
    jwk_thumbprint_sha256 (a_public_key verified) = Ret tp.
Proof.
  intros Hv Hok.
  destruct (verify_agent_trace il ck token aud w w' r Hv Hok) as (claims & host & verified & session & -> & Ht).
  destruct Ht as (header & payload & sub & pk & iss & w3 & _ & _ & _ & Hpk & Hdec & Hcl & Hsub & Hiss
                  & Hhost & Hrev & Hid & _ & Hs).
  destruct (slide_row _ _ _ _ _ _ Hs) as (Hrow & Hact & Hst & Hh & tp & Htp & Htp').
  exists claims, host, session, verified, pk, iss, tp. split_and!; try done. by rewrite Hh, Hid.
Qed.

(** An agent that is revoked when the verification starts is never the
    agent of a successful verification, whatever operations of the store other
    tasks perform while it waits. *)
Theorem revoked_agent_never_verifies `{PyRuntime, Jose} {C : Type} `{JtiGuard C} (il : interleaving C)
    (ck : clock) (token : string) (aud : option (list string)) (w w' : world C)
    (out : res pyexn JwtVerifyResult) (aid : string) (a : AgentSession) :
  agents_keyed (w_agents w) → il_agents_ok il →
  w_agents w !! aid = Some a → a_status a = StRevoked →
  verify_agent_jwt il ck token aud w = (w', out) →
  ∀ r session, out = Ret r → vr_ok r = true → vr_agent r = Some session → a_agent_id session ≠ aid.
Proof.
  intros Hk Hil Ha Hr Hv r session -> Hok Hag Heq. subst aid.
  destruct (verify_agent_trace il ck token aud w w' r Hv Hok) as (claims & host & verified & s & -> & Ht).
  assert (s = session) as -> by (cbn in Hag; congruence). clear Hag.
  pose proof (trace_agents _ _ _ _ _ _ _ _ _ _ Hil Ht) as Hrtc.
  destruct Ht as (? & ? & ? & ? & ? & ? & _ & _ & _ & _ & _ & _ & _ & _ & _ & _ & _ & _ & Hs).
  destruct (slide_row _ _ _ _ _ _ Hs) as (Hrow & Hact & _).
  destruct (revoked_rtc _ _ (a_agent_id session) a Hrtc Hk) as (a' & Ha' & Hr'); [done..|].
  pose proof (agents_keyed_rtc _ _ Hrtc Hk _ _ Hrow) as Hid. rewrite Hid, Hrow in Ha'. congruence.
Qed.

(** An Agent JWT is single use: once a token verified with a replay guard,
    a later verification of the same token within the guard's window does not
    succeed, whatever happened to the host and agent stores in between. *)
Theorem agent_token_single_use `{PyRuntime, Jose, !JoseLaws} {C : Type} `{JtiGuard C}
    (il1 il2 : interleaving C) (ck1 ck2 : clock) (token : string) (aud1 aud2 : option (list string))
    (w w1 w2 w3 : world C) (c : C) (r1 r2 : JwtVerifyResult) :
  il_cache_quiet il1 → il_cache_quiet il2 →
  w_cache w = Some c → jg_inv (ck_jti ck1) c →
  ck_jti ck1 <= ck_jti ck2 → ck_jti ck2 < ck_jti ck1 + jg_window c →
  verify_agent_jwt il1 ck1 token aud1 w = (w1, Ret r1) → vr_ok r1 = true →
  w_cache w2 = w_cache w1 →
  verify_agent_jwt il2 ck2 token aud2 w2 = (w3, Ret r2) → vr_ok r2 = false.
Proof.
  intros Hq1 Hq2 Hc Hi Hle Hlt Hv1 Hok1 Hc2 Hv2. destruct (vr_ok r2) eqn:Hok2; [|done]. exfalso.
  destruct (verify_agent_trace _ _ _ _ _ _ _ Hv1 Hok1) as (c1 & h1 & v1 & s1 & _ & Ht1).
  destruct (verify_agent_trace _ _ _ _ _ _ _ Hv2 Hok2) as (c2 & h2 & v2 & s2 & _ & Ht2).
  destruct Ht1 as (? & ? & ? & ? & ? & w1' & _ & _ & _ & _ & Hd1 & _ & Hs1 & _ & _ & _ & _ & Hj1 & Hsl).
  destruct Ht2 as (? & ? & ? & ? & ? & w2' & _ & _ & _ & _ & Hd2 & _ & Hs2 & _ & _ & _ & _ & Hj2 & _).
  rewrite (decode_same _ _ _ _ _ Hd2 Hd1) in Hj2, Hs2. rewrite Hs1 in Hs2. injection Hs2 as Hs2.
  rewrite <- Hs2 in Hj2. destruct Hsl as (agents & _ & ->). cbn in Hc2.
  refine (jti_replay_refused_by_guard (ck_jti ck1) (ck_jti ck2) true _ _ _ w1' _ c _ Hi Hle Hlt Hj1 _ _ Hj2).
  - by rewrite (proj1 (proj2 (Hq1 _))), (proj1 (Hq1 _)).
  - rewrite (proj1 (proj2 (Hq2 _))), (proj1 (Hq2 _)), Hc2.
    by rewrite (proj2 (proj2 (proj2 (Hq1 _)))), (proj1 (proj2 (proj2 (Hq1 _)))).
Qed.

(** A Host JWT that verifies carries a host key whose thumbprint is its
    `iss`, is signed with the key it presents, passes the claims gate, and
    resolves to the host stored for that thumbprint, which is not revoked, or
    to none (first contact); a token that a recording verification accepted is
    refused by every later verification within the guard's window, recording
    or read-only. *)
Theorem host_verify_sound_single_use `{PyRuntime, Jose, !JoseLaws} {C : Type} `{JtiGuard C}
    (il1 il2 : interleaving C) (ck1 ck2 : clock) (token : string) (aud1 aud2 : option (list string))
    (record2 : bool) (w w1 w2 w3 : world C) (c : C) (r1 r2 : JwtVerifyResult) :
  il_cache_quiet il1 → il_cache_quiet il2 →
  w_cache w = Some c → jg_inv (ck_jti ck1) c →
  ck_jti ck1 <= ck_jti ck2 → ck_jti ck2 < ck_jti ck1 + jg_window c →
  verify_host_jwt il1 ck1 token aud1 true w = (w1, Ret r1) → vr_ok r1 = true →
  (∃ claims host_pub iss pk, vr_claims r1 = Some claims ∧
     j_get HOST_PUBLIC_KEY_CLAIM claims = JObj host_pub ∧
     jwk_thumbprint_sha256 host_pub = Ret iss ∧ j_get "iss" claims = JStr iss ∧
     okp_import_key host_pub = Ret pk ∧ jwt_decode token pk = Ret claims ∧
     claims_ok claims (ck_claims ck1) aud1 ∧
     vr_host r1 = InMemoryHostStore.get_by_public_key iss (w_hosts w1) ∧
     (∀ h, vr_host r1 = Some h → h_status h ≠ HostRevoked)) ∧
  (w_cache w2 = w_cache w1 →
   verify_host_jwt il2 ck2 token aud2 record2 w2 = (w3, Ret r2) → vr_ok r2 = false).
Proof.
  intros Hq1 Hq2 Hc Hi Hle Hlt Hv1 Hok1.
  destruct (verify_host_trace _ _ _ _ _ _ _ _ Hv1 Hok1) as (c1 & h1 & -> & Ht1).
  destruct Ht1 as (hd & pay & key & pk & hp & iss & w1' & Hx & Hkey & Hpk & Hd1 & Hcl & Hhp & Htp & Hiss & Hj1 & -> & -> & Hrev).
  destruct (decode_payload _ _ _ Hd1) as (hd' & Hx'). rewrite Hx in Hx'. injection Hx' as <- ->.
  rewrite Hkey in Hhp. injection Hhp as ->.
  split; [exists c1, hp, iss, pk; by split_and!|].
  intros Hc2 Hv2. destruct (vr_ok r2) eqn:Hok2; [|done]. exfalso.
  destruct (verify_host_trace _ _ _ _ _ _ _ _ Hv2 Hok2) as (c2 & h2 & _ & Ht2).
  destruct Ht2 as (? & ? & ? & ? & ? & iss2 & w2' & _ & _ & _ & Hd2 & _ & _ & _ & Hiss2 & Hj2 & _).
  rewrite (decode_same _ _ _ _ _ Hd2 Hd1) in Hj2, Hiss2. rewrite Hiss in Hiss2. injection Hiss2 as <-.
  refine (jti_replay_refused_by_guard (ck_jti ck1) (ck_jti ck2) record2 _ _ _ w1' _ c Hc Hi Hle Hlt Hj1 _ _ Hj2).
  by rewrite Hc2, (proj1 (proj2 (Hq1 _))).
Qed.

(** ** Completeness: a created Agent JWT verifies *)
Lemma round_to_double_exact z : 0 <= z < 2 ^ 52 → round_to_double z = Some z.
Proof.
  intros [H0 H1]. unfold round_to_double. rewrite Z.abs_eq by lia.
  assert (Hl : (Z.log2 z - 52 <=? 0) = true).
  { apply Z.leb_le. destruct (decide (z = 0)) as [->|]; [done|].
    assert (Z.log2 z < 52) by (apply Z.log2_lt_pow2; lia). lia. }
  rewrite Hl. assert ((2 ^ 1024 <=? z) = false) as ->.
  { apply Z.leb_gt. etrans; [apply H1|]. apply Z.pow_lt_mono_r; lia. }
  f_equal. destruct (decide (z = 0)) as [->|]; [done|]. rewrite Z.sgn_pos; lia.
Qed.

Lemma seconds_lt us z : num_lt (seconds us) (FFin (inject_Z z)) = (us <? z * 1000000).
Proof.
  unfold num_lt, seconds, qlt_bool, Qle_bool, inject_Z. cbn [Qnum Qden].
  rewrite Z.mul_1_r. destruct (Z.leb_spec (z * 1000000) us), (Z.ltb_spec us (z * 1000000)); simpl; lia || done.
Qed.

Lemma seconds_ge us z : num_le (FFin (inject_Z z)) (seconds us) = (z * 1000000 <=? us).
Proof.
  unfold num_le, num_lt, num_eq, seconds, qlt_bool, Qle_bool, Qeq_bool, inject_Z. cbn [Qnum Qden].
  rewrite Z.mul_1_r. destruct (Z.leb_spec us (z * 1000000)), (Z.leb_spec (z * 1000000) us); simpl; try lia;
    try done; destruct (Z.eqb_spec (z * 1000000) us); lia || done.
Qed.

Lemma nonblank_prefix c s : PyStr.is_space c = false → PyStr.nonblank (String c s) = true.
Proof.
  intros Hc. unfold PyStr.nonblank, PyStr.strip. cbn [PyStr.lstrip]. rewrite Hc. cbn [PyStr.rstrip].
  destruct (PyStr.rstrip s); [by rewrite Hc|done].
Qed.

(** The claims of a token created at [t0] pass the gate from [t0 - 60s] (a
    verifier whose clock is behind) until it expires. *)
Lemma agent_claims_ok `{PyRuntime} tp aid aud id caps t0 now l :
  0 <= t0 < 2 ^ 51 * second →
  epoch_seconds t0 * second <= now + 60 * second →
  now < (epoch_seconds t0 + AGENT_JWT_TTL_SECONDS) * second →
  (∀ e, l = Some e → audience_matches_expected [("aud"%string, aud)] e = true) →
  claims_ok (agent_claims tp aid aud t0 id caps) now l.
Proof.
  intros Ht0 Hiat Hexp Haud. unfold epoch_seconds, second, AGENT_JWT_TTL_SECONDS in *.
  assert (0 <= t0 / 1000000 < 2 ^ 51).
  { split; [apply Z.div_pos; lia|apply Z.div_lt_upper_bound; lia]. }
  set (i := t0 / 1000000) in *.
  unfold claims_ok. split_and!.
  - exists (FFin (inject_Z (i + 60))). split; [|rewrite seconds_lt; by apply Z.ltb_lt].
    cbn. fold i. unfold epoch_seconds, second, AGENT_JWT_TTL_SECONDS. fold i.
    by rewrite round_to_double_exact by lia.
  - right. exists (FFin (inject_Z i)). split.
    + cbn. unfold epoch_seconds, second. fold i. by rewrite round_to_double_exact by lia.
    + rewrite seconds_ge. apply Z.leb_le. unfold IAT_MAX_FUTURE_SKEW_SECONDS, second. lia.
  - eexists. split; [reflexivity|]. by apply nonblank_prefix.
  - intros e He. by apply Haud in He.
Qed.

(** No other task runs. *)
Definition il_none {C} : interleaving C := mkInterleaving (λ w, w) (λ w, w) (λ w, w) (λ w, w).

(** One step of a run: the lemma that inverts it, used backwards. *)
Tactic Notation "bind_step" uconstr(lem) "by" tactic3(tac) :=
  apply st_bind_ret; eexists _, _; split;
    [apply lem; repeat (split; [first [reflexivity | tac]|]); first [reflexivity | tac]|].

Section Complete.
  Context `{PyRuntime, Jose} {C : Type} `{JtiGuard C}.

Lemma finish_ret m (w w' : world C) r : m w = (w', Ret r) → finish m w = (w', Ret r).
Proof. unfold finish. by intros ->. Qed.

Lemma usable_active a : a_status a = StActive → unusable_agent_error a = None.
Proof. unfold unusable_agent_error. intros ->. done. Qed.

Lemma unexpired_active now a : check_agent_expiry now a = ExActive → expired_agent_error now a = None.
Proof. unfold expired_agent_error. by intros ->. Qed.

Lemma slide_succeeds ck a (w : world C) tp :
  w_agents w !! a_agent_id a = Some a → a_status a = StActive →
  jwk_thumbprint_sha256 (a_public_key a) = Ret tp →
  check_agent_expiry (ck_reread ck) a = ExActive → check_agent_expiry (ck_touch ck) a = ExActive →
  slide_session_if_still_current il_none ck a w =
    (with_agents (<[a_agent_id a := with_last_used_at (ck_stamp ck) a]> (w_agents w)) w,
     Ret (with_last_used_at (ck_stamp ck) a)).
Proof.
  intros Ha Hact Htp He1 He2. unfold slide_session_if_still_current.
  unfold InMemoryAgentStore.get. cbn. unfold st_bind, st_modify, st_gets, st_get; cbn. rewrite Ha.
  rewrite usable_active by done. cbn. rewrite String.eqb_refl. cbn.
  unfold agent_public_key_changed. rewrite Htp. cbn. rewrite String.eqb_refl. cbn.
  rewrite unexpired_active by done. cbn.
  unfold InMemoryAgentStore.touch_if_current. rewrite Ha, bool_decide_true by done. cbn.
  rewrite String.eqb_refl. cbn. rewrite Htp, String.eqb_refl. cbn. rewrite bool_decide_true by done. done.
Qed.
End Complete.

(** A token made by `create_agent_jwt` for an active, unexpired agent of a
    host that is not revoked verifies, when no other task interferes, at every
    time from 60 seconds before its issue to its expiry, provided joserfc reads
    back the header and claims it signed, the audience matches and the `jti`
    is not yet recorded; the session returned is the stored one, stamped. *)
Theorem created_agent_jwt_verifies `{PyRuntime, Jose} {C : Type} `{JtiGuard C} (kp : keypair)
    (tp aid id token : string) (aud : json) (caps : option (list string)) (t0 : Z) (ck : clock)
    (expected : option (list string)) (w : world C) (a : AgentSession) (host : HostIdentity)
    (pk : okp_key) (atp : string) :
  let claims := agent_claims tp aid aud t0 id caps in
  create_agent_jwt kp tp aid aud caps t0 id = Ret token →
  jws_extract_compact token = Ret (jwt_header AGENT_JWT_TYP, JObj claims) →
  okp_import_key (a_public_key a) = Ret pk → jwt_decode token pk = Ret claims →
  w_agents w !! aid = Some a → a_agent_id a = aid → a_status a = StActive →
  jwk_thumbprint_sha256 (a_public_key a) = Ret atp →
  Forall (λ now, check_agent_expiry now a = ExActive) [ck_expiry ck; ck_reread ck; ck_touch ck] →
  InMemoryHostStore.get_by_public_key tp (w_hosts w) = Some host →
  h_status host ≠ HostRevoked → h_host_id host = a_host_id a →
  PyStr.nonblank aid = true → PyStr.nonblank tp = true →
  0 <= t0 < 2 ^ 51 * second →
  epoch_seconds t0 * second <= ck_claims ck + 60 * second →
  ck_claims ck < (epoch_seconds t0 + AGENT_JWT_TTL_SECONDS) * second →
  (∀ e, expected = Some e → audience_matches_expected [("aud"%string, aud)] e = true) →
  (∀ c, w_cache w = Some c → snd (jg_check_and_record (ck_jti ck) aid ("jwt_" ++ id)%string c) = true) →
  ∃ w' r, verify_agent_jwt il_none ck token expected w = (w', Ret r) ∧ vr_ok r = true ∧
    vr_agent r = Some (with_last_used_at (ck_stamp ck) a) ∧ vr_claims r = Some claims.
Proof.
  intros claims _ Hx Hpk Hd Ha <- Hact Htp Hexp Hhost Hrev Hid Hb1 Hb2 Ht0 Hi He Haud Hj.
  apply Forall_cons in Hexp as [He1 [He2 [He3 _]%Forall_cons]%Forall_cons].
  assert (Hcl : validate_standard_claims claims (ck_claims ck) expected = Ret None).
  { by apply validate_standard_claims_ok, agent_claims_ok. }
  assert (Hsub : j_get "sub" claims = JStr (a_agent_id a)) by done.
  assert (Hiss : j_get "iss" claims = JStr tp) by done.
  assert (Hjti : j_get "jti" claims = JStr ("jwt_" ++ id)%string) by done.
  clearbody claims.
  assert (Hjw : ∃ w1, check_jti (ck_jti ck) true (a_agent_id a) ("jwt_" ++ id)%string w = (w1, Ret tt)
                  ∧ w_agents w1 = w_agents w).
  { destruct (w_cache w) as [c|] eqn:Hc.
    - eexists. split; [apply check_jti_ret; unfold jti_passed; rewrite Hc; by split; [apply Hj|]|done].
    - exists w. split; [|done]. apply check_jti_ret. unfold jti_passed. by rewrite Hc. }
  destruct Hjw as (w1 & Hjw & Hw1).
  eexists _, (mkVerify true (Some claims) (Some host) (Some (with_last_used_at (ck_stamp ck) a)) None).
  split; [|done]. unfold verify_agent_jwt. apply finish_ret.
  bind_step guarded_ret by (exact Hx).
  bind_step when_reject_ret by done.
  bind_step dict_of_ret by done.
  rewrite Hsub, Hb1. bind_step ret_ret by done.
  bind_step modify_ret by done. bind_step gets_ret by done.
  unfold InMemoryAgentStore.get. cbn [il_agent il_none]. rewrite Ha. bind_step ret_ret by done.
  bind_step reject_if_ret by (by apply usable_active).
  bind_step guarded_ret by (exact Hpk). bind_step guarded_ret by (exact Hd).
  bind_step call_ret by (exact Hcl). bind_step reject_if_ret by done.
  bind_step when_reject_ret by (rewrite ?Hsub; cbn; by rewrite String.eqb_refl).
  rewrite Hiss, Hb2. bind_step ret_ret by done.
  bind_step modify_ret by done. bind_step gets_ret by done.
  cbn [il_host il_none]. rewrite Hhost. bind_step ret_ret by done.
  bind_step when_reject_ret by (by apply bool_decide_eq_false).
  bind_step when_reject_ret by (by rewrite Hid, String.eqb_refl).
  rewrite Hjti. apply st_bind_ret. eexists _, _. split; [exact Hjw|].
  bind_step reject_if_ret by (by apply unexpired_active).
  apply st_bind_ret. eexists _, _. split; [apply (slide_succeeds ck a w1 atp); congruence|]. done.
  Unshelve. all: exact tt.
Qed.

(** ** Witnesses and the replay window *)
#[local] Instance demo_runtime : PyRuntime :=
  {| float_repr := λ _, "0.0"%string; float_of_str := λ _, None |}.

(** A library that reads every token as one fixed header and payload, and
    accepts every key. *)
Definition fixed_jose (header claims : claims_t) (public : jwk) : Jose := {|
  okp_key := unit;
  okp_import_key := λ _, Ret tt;
  jws_extract_compact := λ _, Ret (header, JObj claims);
  jwt_decode := λ _ _, Ret claims;
  okp_as_dict_public := λ _, public;
  jwt_encode := λ _ _ _, "token"%string
|}.

Lemma fixed_jose_laws header claims public : @JoseLaws (fixed_jose header claims public).
Proof. split. cbn. intros _ _ c [= ->]. eauto. Qed.

Definition demo_tp : string :=
  match jwk_thumbprint_sha256 (demo_key "H") with Ret tp => tp | Raise _ => "" end.

Definition demo_hosts : InMemoryHostStore.t := fst (InMemoryHostStore.save demo_host InMemoryHostStore.init).

Definition demo_world (st : AgentSessionStatus) : world JtiReplayCache.t :=
  mkWorld demo_hosts {[ "a1"%string := demo_agent st "K" ]} (Some (JtiReplayCache.init (90 * second) 10000)).

Definition at_time (t : Z) : clock := mkClock t t t t t t.

(** The claims of a Host JWT and of an Agent JWT made at time 0. *)
Definition demo_host_claims : claims_t :=
  host_claims demo_tp (JStr "srv") 0 DEFAULT_HOST_JWT_TTL_SECONDS "1" (demo_key "H") None.
Definition demo_agent_claims : claims_t := agent_claims demo_tp "a1" (JStr "srv") 0 "1" None.
Definition demo_host_jose : Jose := fixed_jose (jwt_header HOST_JWT_TYP) demo_host_claims (demo_key "H").
Definition demo_agent_jose : Jose := fixed_jose (jwt_header AGENT_JWT_TYP) demo_agent_claims (demo_key "K").

(** The default lifetime of a Host JWT (300 s) outlives the default window
    of the replay guard (90 s): a token made by `create_host_jwt` with the
    default lifetime is accepted by a recording verification, and accepted
    again by another one 91 seconds later. *)
Theorem host_jwt_replayed_after_window :
  ∃ (J : Jose) (kp : keypair) (token : string) (w w1 w2 : world JtiReplayCache.t)
    (r1 r2 : JwtVerifyResult),
    w_cache w = Some (JtiReplayCache.init (90 * second) 10000) ∧
    create_host_jwt kp (JStr "srv") None DEFAULT_HOST_JWT_TTL_SECONDS 0 "1" = Ret token ∧
    verify_host_jwt il_none (at_time 0) token (Some ["srv"%string]) true w = (w1, Ret r1) ∧
    vr_ok r1 = true ∧
    verify_host_jwt il_none (at_time (91 * second)) token (Some ["srv"%string]) true w1 = (w2, Ret r2) ∧
    vr_ok r2 = true.
Proof.
  exists demo_host_jose, (mkKeypair [] []), "token"%string, (demo_world StActive).
  eexists _, _, _, _. split; [reflexivity|]. split; [vm_compute; reflexivity|].
  split; [vm_compute; reflexivity|]. split; [reflexivity|].
  split; [vm_compute; reflexivity|]. reflexivity.
Qed.

Definition verified_at (st : AgentSessionStatus) (t : Z) : world JtiReplayCache.t * res pyexn JwtVerifyResult :=
  @verify_agent_jwt _ demo_agent_jose _ _ il_none (at_time t) "token" (Some ["srv"%string]) (demo_world st).
Definition result_of (out : res pyexn JwtVerifyResult) : JwtVerifyResult :=
  match out with Ret r => r | Raise _ => failed "raised" end.

Lemma agent_verify_sound_witness :
  let '(w', out) := verified_at StActive 0 in
  ∃ session, vr_agent (result_of out) = Some session ∧ a_status session = StActive
    ∧ a_last_used_at session = Some 0.
Proof.
  destruct (verified_at StActive 0) as [w' out] eqn:Hv.
  assert (Hr : out = Ret (result_of out)).
  { change out with (snd (w', out)). rewrite <- Hv. vm_compute. reflexivity. }
  assert (Hok : vr_ok (result_of out) = true).
  { change out with (snd (w', out)). rewrite <- Hv. vm_compute. reflexivity. }
  rewrite Hr in Hv. unfold verified_at in Hv.
  destruct (@agent_verify_sound _ demo_agent_jose _ _ il_none (at_time 0) "token" (Some ["srv"%string])
              (demo_world StActive) w' (result_of out) Hv Hok)
    as (claims & host & session & verified & pk & iss & tp & He & _ & _ & _ & _ & _ & _ & _ & _ & _ & Hact & Hst & _).
  exists session. split; [rewrite He; exact eq_refl|]. split; [exact Hact|exact Hst].
Defined.

Lemma il_none_agents_ok {C} : il_agents_ok (C := C) il_none.
Proof. intros w. split_and!; apply rtc_refl. Qed.
Lemma il_none_cache_quiet {C} : il_cache_quiet (C := C) il_none.
Proof. done. Qed.

(** Nothing succeeds here: the revoked agent's token is refused. *)
Lemma revoked_agent_never_verifies_witness :
  vr_ok (result_of (snd (verified_at StRevoked 0))) = false ∧
  ∀ r session, snd (verified_at StRevoked 0) = Ret r → vr_ok r = true →
    vr_agent r = Some session → a_agent_id session ≠ "a1"%string.
Proof.
  split; [vm_compute; reflexivity|].
  refine (@revoked_agent_never_verifies _ demo_agent_jose _ _ il_none (at_time 0) "token"
            (Some ["srv"%string]) (demo_world StRevoked) (fst (verified_at StRevoked 0))
            (snd (verified_at StRevoked 0)) "a1" (demo_agent StRevoked "K") _ _ _ _ _).
  - apply demo_agents_keyed.
  - apply il_none_agents_ok.
  - reflexivity.
  - reflexivity.
  - apply surjective_pairing.
Defined.

Lemma demo_cache_inv : jg_inv 0 (JtiReplayCache.init (90 * second) 10000).
Proof. cbn. unfold JtiReplayCache.inv. cbn. split_and!; try constructor; lia. Qed.

Lemma agent_token_single_use_witness :
  vr_ok (result_of (snd (@verify_agent_jwt _ demo_agent_jose _ _ il_none (at_time 10) "token" None
                           (fst (verified_at StActive 0))))) = false.
Proof.
  pose (w1 := fst (verified_at StActive 0)).
  pose (second_run := @verify_agent_jwt _ demo_agent_jose _ _ il_none (at_time 10) "token" None w1).
  refine (@agent_token_single_use _ demo_agent_jose (fixed_jose_laws _ _ _) _ _ il_none il_none
            (at_time 0) (at_time 10) "token" (Some ["srv"%string]) None (demo_world StActive) w1 w1
            (fst second_run) (JtiReplayCache.init (90 * second) 10000)
            (result_of (snd (verified_at StActive 0))) (result_of (snd second_run))
            _ _ _ _ _ _ _ _ _ _).
  - done.
  - done.
  - reflexivity.
  - apply demo_cache_inv.
  - cbn. lia.
  - cbn. unfold second. lia.
  - vm_compute. reflexivity.
  - vm_compute. reflexivity.
  - reflexivity.
  - vm_compute. reflexivity.
Defined.

Lemma host_verify_sound_single_use_witness :
  let w0 := demo_world StActive in
  let run1 := @verify_host_jwt _ demo_host_jose _ _ il_none (at_time 0) "token" None true w0 in
  let run2 := @verify_host_jwt _ demo_host_jose _ _ il_none (at_time 10) "token" None false (fst run1) in
  vr_ok (result_of (snd run2)) = false.
Proof.
  intros w0 run1 run2.
  refine (proj2 (@host_verify_sound_single_use _ demo_host_jose (fixed_jose_laws _ _ _) _ _ il_none il_none
            (at_time 0) (at_time 10) "token" None None false w0 (fst run1) (fst run1)
            (fst run2) (JtiReplayCache.init (90 * second) 10000)
            (result_of (snd run1)) (result_of (snd run2)) _ _ _ _ _ _ _ _) _ _).
  - done.
  - done.
  - reflexivity.
  - apply demo_cache_inv.
  - cbn. lia.
  - cbn. unfold second. lia.
  - vm_compute. reflexivity.
  - vm_compute. reflexivity.
  - reflexivity.
  - vm_compute. reflexivity.
Defined.

Lemma created_agent_jwt_verifies_witness :
  ∃ w' r, @verify_agent_jwt _ demo_agent_jose _ _ il_none (at_time 0) "token" (Some ["srv"%string])
            (demo_world StActive) = (w', Ret r) ∧ vr_ok r = true ∧
    vr_agent r = Some (with_last_used_at 0 (demo_agent StActive "K")) ∧ vr_claims r = Some demo_agent_claims.
Proof.
  refine (@created_agent_jwt_verifies _ demo_agent_jose _ _ (mkKeypair [] []) demo_tp "a1" "1" "token"
            (JStr "srv") None 0 (at_time 0) (Some ["srv"%string]) (demo_world StActive)
            (demo_agent StActive "K") demo_host tt
            (match jwk_thumbprint_sha256 (demo_key "K") with Ret tp => tp | Raise _ => "" end)
            _ _ _ _ _ _ _ _ _ _ _ _ _ _ _ _ _ _ _).
  all: try (vm_compute; reflexivity).
  - repeat constructor.
  - done.
  - unfold second. lia.
  - vm_compute. discriminate.
  - by intros e [= <-].
  - by intros c [= <-].
Defined.
