(* ===== verification/Approval.v ===== *)
(** * User approval of registrations and escalations

    `src/src/asap/auth/approval.py`: approval rows and their expiry, the
    in-memory store, Device Authorization and CIBA requests with the merge of
    later payloads, and the resolution of a row through the A2H channel.

    A method of the store runs under its lock and has no suspension point
    inside, so each is one step.  Times are microseconds; every reading of the
    clock and every random user code is an explicit argument. *)

From Stdlib Require Import ZArith Lia Ascii String.
From stdpp Require Import base tactics list gmap strings.
From S2P Require Import Prelude PyValue Identity ReplayGuard Capabilities.
Open Scope Z_scope.
Open Scope asap_scope.

Inductive ApprovalMethod : Type := DeviceAuthorization | Ciba.
Inductive ApprovalStatus : Type := ApPending | ApApproved | ApDenied | ApExpired.
Inductive ApprovalKind : Type := Registration | Escalation.

#[export] Instance ApprovalMethod_eq_dec : EqDecision ApprovalMethod.
Proof. solve_decision. Defined.
#[export] Instance ApprovalStatus_eq_dec : EqDecision ApprovalStatus.
Proof. solve_decision. Defined.
#[export] Instance ApprovalKind_eq_dec : EqDecision ApprovalKind.
Proof. solve_decision. Defined.

Definition approval_status_str (s : ApprovalStatus) : string :=
  match s with
  | ApPending => "pending" | ApApproved => "approved" | ApDenied => "denied" | ApExpired => "expired"
  end.

Definition DEFAULT_DEVICE_VERIFICATION_URI : string := "https://asap.local/device".
Definition DEFAULT_DEVICE_EXPIRES_IN_SECONDS : Z := 600.
Definition DEFAULT_POLL_INTERVAL_SECONDS : Z := 5.
Definition DEFAULT_CIBA_BINDING_MESSAGE : string := "Approve ASAP agent registration".

Record ApprovalObject : Type := mkObject {
  ao_method : ApprovalMethod;
  ao_verification_uri : option string;
  ao_verification_uri_complete : option string;
  ao_user_code : option string;
  ao_binding_message : option string;
  ao_expires_in : Z;
  ao_interval : Z
}.

Record ApprovalRequestState : Type := mkRequest {
  ar_agent_id : string;
  ar_method : ApprovalMethod;
  ar_capabilities : list string;
  ar_capability_specs : list pydict;
  ar_approval_kind : ApprovalKind;
  ar_status : ApprovalStatus;
  ar_user_code : option string;
  ar_verification_uri : option string;
  ar_verification_uri_complete : option string;
  ar_binding_message : option string;
  ar_expires_in : Z;
  ar_interval : Z;
  ar_created_at : Z;
  ar_approved_by : option string;
  ar_deny_reason : option string
}.

(** `model_copy(update=...)` of the status and of who decided. *)
Definition with_outcome (st : ApprovalStatus) (approved_by deny_reason : option string)
    (s : ApprovalRequestState) : ApprovalRequestState :=
  mkRequest (ar_agent_id s) (ar_method s) (ar_capabilities s) (ar_capability_specs s)
    (ar_approval_kind s) st (ar_user_code s) (ar_verification_uri s)
    (ar_verification_uri_complete s) (ar_binding_message s) (ar_expires_in s) (ar_interval s)
    (ar_created_at s) approved_by deny_reason.

Definition deadline (s : ApprovalRequestState) : Z := ar_created_at s + ar_expires_in s * second.

Definition refresh_expired (now : Z) (s : ApprovalRequestState) : ApprovalRequestState :=
  if negb (bool_decide (ar_status s = ApPending)) then s
  else if deadline s <=? now then with_outcome ApExpired (ar_approved_by s) (ar_deny_reason s) s
  else s.

(** `int` truncates towards zero. *)
Definition state_to_approval_object (now : Z) (s : ApprovalRequestState) : ApprovalObject :=
  mkObject (ar_method s) (ar_verification_uri s) (ar_verification_uri_complete s) (ar_user_code s)
    (ar_binding_message s) (Z.max 1 (Z.quot (deadline s - now) second)) (ar_interval s).

Definition select_approval_method (host : HostIdentity) (host_supports_ciba : bool)
    (preferred_method : option ApprovalMethod) (agent_controls_browser : bool) : ApprovalMethod :=
  let linked := match h_user_id host with Some u => PyStr.nonblank u | None => false end in
  let can_ciba := linked && host_supports_ciba in
  if agent_controls_browser && can_ciba then Ciba
  else
    match preferred_method with
    | Some DeviceAuthorization => DeviceAuthorization
    | Some Ciba => if can_ciba then Ciba else DeviceAuthorization
    | None => if can_ciba then Ciba else DeviceAuthorization
    end.

(** ** Store *)
Module InMemoryApprovalStore.

Abbreviation t := (gmap string ApprovalRequestState).

(** [now] is the creation time; the model refuses lifetimes below one second. *)
Definition create (now : Z) (agent_id : string) (method : ApprovalMethod) (capabilities : list string)
    (expires_in interval : Z) (user_code verification_uri verification_uri_complete
    binding_message : option string) (capability_specs : option (list pydict))
    (approval_kind : ApprovalKind) (s : t) : t * res pyexn unit :=
  if (expires_in <? 1) || (interval <? 1)
  then (s, Raise (ValidationError "Input should be greater than or equal to 1"))
  else
    (<[agent_id := mkRequest agent_id method capabilities (default [] capability_specs) approval_kind
        ApPending user_code verification_uri verification_uri_complete binding_message expires_in
        interval now None None]> s, Ret tt).

Definition remove (agent_id : string) (s : t) : t := delete agent_id s.

Definition get (now : Z) (agent_id : string) (s : t) : t * option ApprovalRequestState :=
  match s !! agent_id with
  | None => (s, None)
  | Some raw =>
      let updated := refresh_expired now raw in
      (<[agent_id := updated]> s, Some updated)
  end.

Definition no_request {A} (agent_id : string) : res pyexn A :=
  Raise (KeyError ("No approval request for agent_id=" ++ agent_id)%string).

(** The common part of `approve` and `deny`: [outcome] on a pending row. *)
Definition resolve (verb : string) (outcome : ApprovalRequestState → ApprovalRequestState)
    (now : Z) (agent_id : string) (s : t) : t * res pyexn unit :=
  match s !! agent_id with
  | None => (s, no_request agent_id)
  | Some raw =>
      let current := refresh_expired now raw in
      if bool_decide (ar_status current = ApExpired)
      then (<[agent_id := current]> s, Raise (ValueError "Approval request expired"))
      else if negb (bool_decide (ar_status current = ApPending))
      then (s, Raise (ValueError ("Cannot " ++ verb ++ " request in status '"
                                  ++ approval_status_str (ar_status current) ++ "'")%string))
      else (<[agent_id := outcome current]> s, Ret tt)
  end.

Definition approve (now : Z) (agent_id user_id : string) (s : t) : t * res pyexn unit :=
  resolve "approve" (λ c, with_outcome ApApproved (Some user_id) (ar_deny_reason c) c) now agent_id s.

Definition deny (now : Z) (agent_id reason : string) (s : t) : t * res pyexn unit :=
  resolve "deny" (λ c, with_outcome ApDenied (ar_approved_by c) (Some reason) c) now agent_id s.

End InMemoryApprovalStore.

(** ** Payloads *)
Section Payloads.
  Context `{PyRuntime}.

Definition spec_name (spec : pydict) : string :=
  match assoc "name" spec with Some j => py_str float_repr j | None => "" end.

(** `by_name` keeps the order in which names first occur, which is `order`. *)
Definition merge_capability_specs (existing incoming : list pydict) : list pydict :=
  (fold_left (λ by_name spec, PyDict.set (spec_name spec) spec by_name) (existing ++ incoming) []).*2.

(** `list(dict.fromkeys(names))` *)
Definition first_occurrences (names : list string) : list string :=
  PyDict.keys (fold_left (λ d n, PyDict.set n tt d) names []).

Definition merged_pending_payload (existing : ApprovalRequestState) (capabilities : list string)
    (capability_specs : option (list pydict)) : list string * list pydict :=
  (first_occurrences (ar_capabilities existing ++ capabilities),
   merge_capability_specs (ar_capability_specs existing) (default [] capability_specs)).

(** `==` on lists of dictionaries. *)
Definition specs_eq (a b : list pydict) : bool := py_eq (JList (map JObj a)) (JList (map JObj b)).

Definition pending_matches_expected (state : option ApprovalRequestState) (expected : list pydict) : bool :=
  match state with
  | Some s => bool_decide (ar_status s = ApPending) && specs_eq (ar_capability_specs s) expected
  | None => false
  end.

Definition pending_payload_unchanged (existing : ApprovalRequestState) (capabilities : list string)
    (capability_specs : list pydict) : bool :=
  specs_eq capability_specs (ar_capability_specs existing)
  && bool_decide (capabilities = ar_capabilities existing).

(** ** Requests *)

(** The row that a later request may extend. *)
Definition extends (method : ApprovalMethod) (kind : ApprovalKind)
    (existing : option ApprovalRequestState) : option ApprovalRequestState :=
  match existing with
  | Some e =>
      if bool_decide (ar_method e = method) && bool_decide (ar_status e = ApPending)
         && bool_decide (ar_approval_kind e = kind)
      then Some e else None
  | None => None
  end.

(** The clock of one request: reading the row, creating it, reading it back,
    building the answer. *)
Record request_clock : Type := mkRClock { rc_get : Z; rc_create : Z; rc_fresh : Z; rc_answer : Z }.

(** The store operation `create` with its result read back. *)
Definition create_and_answer (rc : request_clock)
    (create : InMemoryApprovalStore.t → InMemoryApprovalStore.t * res pyexn unit) (agent_id : string)
    (s : InMemoryApprovalStore.t) : InMemoryApprovalStore.t * res pyexn ApprovalObject :=
  match create s with
  | (s1, Raise e) => (s1, Raise e)
  | (s1, Ret _) =>
      match InMemoryApprovalStore.get (rc_fresh rc) agent_id s1 with
      | (s2, None) => (s2, Raise (RuntimeError "Internal error: approval request missing after create"))
      | (s2, Some fresh) => (s2, Ret (state_to_approval_object (rc_answer rc) fresh))
      end
  end.

Definition create_device_authorization (rc : request_clock) (user_code agent_id : string)
    (capabilities : list string) (expires_in interval : Z) (verification_uri : option string)
    (capability_specs : option (list pydict)) (approval_kind : ApprovalKind)
    (s : InMemoryApprovalStore.t) : InMemoryApprovalStore.t * res pyexn ApprovalObject :=
  let base_uri := match verification_uri with
                  | Some u => if PyStr.truthy u then u else DEFAULT_DEVICE_VERIFICATION_URI
                  | None => DEFAULT_DEVICE_VERIFICATION_URI
                  end in
  let '(s, existing) := InMemoryApprovalStore.get (rc_get rc) agent_id s in
  let issue capabilities capability_specs :=
    create_and_answer rc
      (InMemoryApprovalStore.create (rc_create rc) agent_id DeviceAuthorization capabilities expires_in
         interval (Some user_code) (Some base_uri)
         (Some (base_uri ++ "?user_code=" ++ user_code)%string) None capability_specs approval_kind)
      agent_id s in
  match extends DeviceAuthorization approval_kind existing with
  | Some e =>
      let '(capabilities, specs) := merged_pending_payload e capabilities capability_specs in
      if pending_payload_unchanged e capabilities specs
      then (s, Ret (state_to_approval_object (rc_answer rc) e))
      else issue capabilities (Some specs)
  | None => issue capabilities capability_specs
  end.

Definition create_ciba_approval (rc : request_clock) (agent_id : string) (capabilities : list string)
    (binding_message : option string) (expires_in interval : Z)
    (capability_specs : option (list pydict)) (approval_kind : ApprovalKind)
    (s : InMemoryApprovalStore.t) : InMemoryApprovalStore.t * res pyexn ApprovalObject :=
  let msg := default DEFAULT_CIBA_BINDING_MESSAGE binding_message in
  let '(s, existing) := InMemoryApprovalStore.get (rc_get rc) agent_id s in
  let issue capabilities capability_specs :=
    create_and_answer rc
      (InMemoryApprovalStore.create (rc_create rc) agent_id Ciba capabilities expires_in interval
         None None None (Some msg) capability_specs approval_kind)
      agent_id s in
  match extends Ciba approval_kind existing with
  | Some e =>
      let '(capabilities, specs) := merged_pending_payload e capabilities capability_specs in
      if pending_payload_unchanged e capabilities specs
      then (s, Ret (state_to_approval_object (rc_answer rc) e))
      else issue capabilities (Some specs)
  | None => issue capabilities capability_specs
  end.

Definition check_approval_status (now : Z) (agent_id : string) (s : InMemoryApprovalStore.t) :
    InMemoryApprovalStore.t * res pyexn ApprovalStatus :=
  match InMemoryApprovalStore.get now agent_id s with
  | (s', None) => (s', InMemoryApprovalStore.no_request agent_id)
  | (s', Some state) => (s', Ret (ar_status state))
  end.

(** ** The A2H channel

    What the human answered: the decision and the data that may hold a reason. *)
Record ApprovalResult : Type := mkResult {
  res_approved : bool;
  res_data : option pydict
}.

Definition decline_reason (r : ApprovalResult) : string :=
  match res_data r with
  | Some d => match j_get "reason" d with JStr s => s | _ => "declined" end
  | None => "declined"
  end.

(** `resolve_via_a2h` after the provider has answered; [now1] and [now2] are
    the readings in the store's `get` and in `approve` or `deny`. *)
Definition resolve_via_a2h (now1 now2 : Z) (answer : ApprovalResult) (agent_id principal_id : string)
    (expected_capability_specs : option (list pydict)) (s : InMemoryApprovalStore.t) :
    InMemoryApprovalStore.t * res pyexn unit :=
  let decide s :=
    if res_approved answer then InMemoryApprovalStore.approve now2 agent_id principal_id s
    else InMemoryApprovalStore.deny now2 agent_id (decline_reason answer) s in
  match expected_capability_specs with
  | None => decide s
  | Some expected =>
      let '(s, state) := InMemoryApprovalStore.get now1 agent_id s in
      if negb (pending_matches_expected state expected) then (s, Ret tt) else decide s
  end.

End Payloads.

(** ** Operations on rows, and the decision that counts *)
Inductive approval_op : Type :=
| OpGet (agent_id : string)
| OpApprove (agent_id user_id : string)
| OpDeny (agent_id reason : string).

Definition op_agent (op : approval_op) : string :=
  match op with OpGet a | OpApprove a _ | OpDeny a _ => a end.

Definition do_op (s : InMemoryApprovalStore.t) (e : Z * approval_op) : InMemoryApprovalStore.t :=
  match e with
  | (now, OpGet a) => fst (InMemoryApprovalStore.get now a s)
  | (now, OpApprove a u) => fst (InMemoryApprovalStore.approve now a u s)
  | (now, OpDeny a r) => fst (InMemoryApprovalStore.deny now a r s)
  end.

(** The first event that settles a pending row: any operation on it once its
    deadline has passed, an approval or a denial before. *)
Definition settles (row : ApprovalRequestState) (aid : string) (e : Z * approval_op) : bool :=
  bool_decide (op_agent (snd e) = aid)
  && ((deadline row <=? fst e) || match snd e with OpGet _ => false | _ => true end).

Definition settled (row : ApprovalRequestState) (e : Z * approval_op) : ApprovalRequestState :=
  if deadline row <=? fst e then with_outcome ApExpired (ar_approved_by row) (ar_deny_reason row) row
  else match snd e with
       | OpGet _ => row
       | OpApprove _ u => with_outcome ApApproved (Some u) (ar_deny_reason row) row
       | OpDeny _ r => with_outcome ApDenied (ar_approved_by row) (Some r) row
       end.

Lemma refresh_pending now row : ar_status row = ApPending →
  refresh_expired now row =
    if deadline row <=? now then with_outcome ApExpired (ar_approved_by row) (ar_deny_reason row) row else row.
Proof. intros Hp. unfold refresh_expired. by rewrite bool_decide_true. Qed.

Lemma refresh_final now row : ar_status row ≠ ApPending → refresh_expired now row = row.
Proof. intros Hp. unfold refresh_expired. by rewrite bool_decide_false. Qed.

Lemma resolve_other verb f now a s aid :
  a ≠ aid → fst (InMemoryApprovalStore.resolve verb f now a s) !! aid = s !! aid.
Proof.
  intros Hne. unfold InMemoryApprovalStore.resolve. destruct (s !! a) as [raw|]; [|done].
  destruct (bool_decide (_ = ApExpired)); [cbn [negb fst]; by rewrite lookup_insert_ne|].
  destruct (bool_decide (_ = ApPending)); [cbn [negb fst]; by rewrite lookup_insert_ne|done].
Qed.

Lemma resolve_row verb f now aid s row :
  s !! aid = Some row →
  fst (InMemoryApprovalStore.resolve verb f now aid s) !! aid =
  Some (if bool_decide (ar_status row = ApPending)
        then if deadline row <=? now
             then with_outcome ApExpired (ar_approved_by row) (ar_deny_reason row) row
             else f row
        else row).
Proof.
  intros Hrow. unfold InMemoryApprovalStore.resolve. rewrite Hrow.
  destruct (bool_decide_reflect (ar_status row = ApPending)) as [Hp|Hp].
  - rewrite refresh_pending by done. destruct (deadline row <=? now).
    + rewrite bool_decide_true by done. cbn [fst]. by rewrite lookup_insert, decide_True.
    + rewrite bool_decide_false, bool_decide_true by congruence. cbn [negb fst].
      by rewrite lookup_insert, decide_True.
  - rewrite refresh_final by done.
    destruct (bool_decide_reflect (ar_status row = ApExpired)).
    + cbn [fst]. by rewrite lookup_insert, decide_True.
    + by rewrite bool_decide_false.
Qed.

Lemma get_row now a s aid row :
  s !! aid = Some row →
  fst (InMemoryApprovalStore.get now a s) !! aid =
  Some (if bool_decide (a = aid) then refresh_expired now row else row).
Proof.
  intros Hrow. unfold InMemoryApprovalStore.get.
  case_bool_decide as Ha; subst.
  - rewrite Hrow. cbn [fst]. by rewrite lookup_insert, decide_True.
  - destruct (s !! a); [|done]. cbn [fst]. by rewrite lookup_insert_ne.
Qed.

(** One operation, seen from one row. *)
Lemma do_op_row s aid row e :
  s !! aid = Some row →
  do_op s e !! aid =
  Some (if bool_decide (ar_status row = ApPending) && settles row aid e then settled row e else row).
Proof.
  intros Hrow. destruct e as [now op]. unfold settles, settled. cbn [fst snd].
  destruct op as [a|a u|a r]; cbn [do_op op_agent].
  - rewrite (get_row now a s aid row) by done. f_equal.
    destruct (bool_decide_reflect (a = aid)), (bool_decide_reflect (ar_status row = ApPending)); cbn;
      rewrite ?andb_false_r, ?orb_false_r; try done.
    + rewrite refresh_pending by done. by destruct (deadline row <=? now).
    + by apply refresh_final.
  - destruct (decide (a = aid)) as [->|Hne].
    + unfold InMemoryApprovalStore.approve. rewrite (resolve_row _ _ now aid s row) by done.
      rewrite (bool_decide_true (aid = aid)), orb_true_r by done. cbn.
      by destruct (bool_decide (ar_status row = ApPending)), (deadline row <=? now).
    + unfold InMemoryApprovalStore.approve. rewrite resolve_other by done.
      by rewrite Hrow, (bool_decide_false (a = aid)), andb_false_r.
  - destruct (decide (a = aid)) as [->|Hne].
    + unfold InMemoryApprovalStore.deny. rewrite (resolve_row _ _ now aid s row) by done.
      rewrite (bool_decide_true (aid = aid)), orb_true_r by done. cbn.
      by destruct (bool_decide (ar_status row = ApPending)), (deadline row <=? now).
    + unfold InMemoryApprovalStore.deny. rewrite resolve_other by done.
      by rewrite Hrow, (bool_decide_false (a = aid)), andb_false_r.
Qed.

Lemma settled_final row aid e :
  settles row aid e = true → ar_status (settled row e) ≠ ApPending.
Proof.
  unfold settles, settled. destruct e as [now op]. cbn [fst snd].
  destruct (deadline row <=? now); [done|]. by destruct op; rewrite ?andb_false_r.
Qed.

Lemma do_ops_final ops s aid row :
  s !! aid = Some row → ar_status row ≠ ApPending → fold_left do_op ops s !! aid = Some row.
Proof.
  revert s. induction ops as [|e ops IH]; intros s Hrow Hf; [done|]. cbn [fold_left].
  apply IH; [|done]. rewrite (do_op_row s aid row) by done. by rewrite bool_decide_false.
Qed.

(** C13: whatever reads, approvals and denials follow, in any order and for
    any agents, a row that is approved, denied or expired never changes again;
    a pending row keeps its payload and its code, and its final state is the
    one given by the first event that settles it: expired if that event comes
    at or after the deadline, otherwise the approval or the denial; so nothing
    is approved after its deadline and a decision cannot be reversed. *)
Theorem first_decision_counts (s : InMemoryApprovalStore.t) (aid : string)
    (row : ApprovalRequestState) (ops : list (Z * approval_op)) :
  s !! aid = Some row →
  (ar_status row ≠ ApPending → fold_left do_op ops s !! aid = Some row) ∧
  (ar_status row = ApPending →
   fold_left do_op ops s !! aid =
     Some (match List.find (settles row aid) ops with Some e => settled row e | None => row end)).
Proof.
  intros Hrow. split; [by apply do_ops_final|]. intros Hp. revert s Hrow.
  induction ops as [|e ops IH]; intros s Hrow; [done|]. cbn [fold_left List.find].
  pose proof (do_op_row s aid row e Hrow) as Hs. rewrite bool_decide_true in Hs by done. cbn in Hs.
  destruct (settles row aid e) eqn:He; [|by apply IH].
  apply do_ops_final; [done|]. by eapply settled_final.
Qed.

Lemma first_decision_counts_witness :
  let row := mkRequest "a1" DeviceAuthorization ["read"%string] [] Registration ApPending
               (Some "ABCD1234"%string) None None None 600 5 0 None None in
  let ops := [(10, OpGet "a1"); (20, OpDeny "a2" "no"); (30, OpApprove "a1" "u1"); (40, OpDeny "a1" "late")]%string in
  fold_left do_op ops {[ "a1"%string := row ]} !! "a1"%string =
    Some (with_outcome ApApproved (Some "u1"%string) None row).
Proof.
  intros row ops.
  refine (proj2 (first_decision_counts {[ "a1"%string := row ]} "a1" row ops _) _).
  - apply lookup_singleton_Some. done.
  - reflexivity.
Defined.

(** ** Payloads: merging *)
Section Merge.
  Context `{PyRuntime}.

(** The last spec of a list with a given name. *)
Definition latest (n : string) (specs : list pydict) : option pydict :=
  List.find (λ sp, bool_decide (spec_name sp = n)) (rev specs).

Lemma latest_snoc n specs sp :
  latest n (specs ++ [sp]) = if decide (spec_name sp = n) then Some sp else latest n specs.
Proof.
  unfold latest. rewrite rev_unit. cbn [List.find].
  destruct (bool_decide_reflect (spec_name sp = n)); by case_decide.
Qed.

Definition specs_by_name (specs : list pydict) : list (string * pydict) :=
  fold_left (λ by_name sp, PyDict.set (spec_name sp) sp by_name) specs [].

Lemma specs_by_name_snoc specs sp :
  specs_by_name (specs ++ [sp]) = PyDict.set (spec_name sp) sp (specs_by_name specs).
Proof. unfold specs_by_name. by rewrite fold_left_app. Qed.

Lemma specs_by_name_get n specs : PyDict.get n (specs_by_name specs) = latest n specs.
Proof.
  induction specs as [|sp specs IH] using rev_ind; [done|].
  rewrite specs_by_name_snoc, latest_snoc. case_decide as Hn; subst.
  - by rewrite PyDict.get_set_eq.
  - by rewrite PyDict.get_set_ne.
Qed.

Lemma specs_by_name_wf specs :
  PyDict.wf (specs_by_name specs) ∧ map spec_name (specs_by_name specs).*2 = PyDict.keys (specs_by_name specs).
Proof.
  induction specs as [|sp specs [IHw IHk]] using rev_ind; [split; [apply PyDict.wf_nil|done]|].
  rewrite specs_by_name_snoc. split; [by apply PyDict.wf_set|].
  revert IHk. generalize (specs_by_name specs) as d. clear.
  induction d as [|[k v] d IH]; [done|]. unfold PyDict.keys in *. cbn. intros [= Hk Hd].
  case_decide; cbn; [subst k; by f_equal|f_equal; auto].
Qed.

Lemma find_NoDup_key (d : list (string * pydict)) n :
  NoDup (PyDict.keys d) → map spec_name d.*2 = PyDict.keys d → latest n d.*2 = PyDict.get n d.
Proof.
  unfold PyDict.keys. induction d as [|[k v] d IH] using rev_ind; [done|].
  rewrite !fmap_app. cbn. intros Hnd Hk.
  apply app_inj_tail in Hk as [Hk Hv].
  apply NoDup_app in Hnd as (Hnd & Hdis & _). rewrite latest_snoc. subst k.
  assert (Hget : PyDict.get n (d ++ [(spec_name v, v)]) =
                 match PyDict.get n d with Some x => Some x
                 | None => if decide (n = spec_name v) then Some v else None end).
  { clear. induction d as [|[k x] d IH]; cbn; [by case_decide|]. destruct (decide (n = k)); [done|apply IH]. }
  rewrite Hget. destruct (decide (spec_name v = n)) as [Hn|Hn].
  - assert (PyDict.get n d = None) as ->.
    { apply PyDict.get_None. subst n. intros Hin. apply (Hdis _ Hin). set_solver. }
    by rewrite decide_True by congruence.
  - rewrite <- IH by done. destruct (latest n d.*2); [done|]. by rewrite decide_False by congruence.
Qed.

(** The merge holds each name once, with its latest spec. *)
Lemma merge_spec existing incoming :
  NoDup (map spec_name (merge_capability_specs existing incoming)) ∧
  ∀ n, latest n (merge_capability_specs existing incoming) =
    match latest n incoming with Some sp => Some sp | None => latest n existing end.
Proof.
  unfold merge_capability_specs. change (fold_left _ (existing ++ incoming) []) with (specs_by_name (existing ++ incoming)).
  destruct (specs_by_name_wf (existing ++ incoming)) as [Hw Hk]. split; [by rewrite Hk|].
  intros n. rewrite find_NoDup_key by done. rewrite specs_by_name_get.
  induction incoming as [|sp incoming IH] using rev_ind; [by rewrite app_nil_r|].
  rewrite app_assoc, !latest_snoc. case_decide; [done|]. apply IH; apply specs_by_name_wf.
Qed.

Lemma refresh_payload now row :
  ar_user_code (refresh_expired now row) = ar_user_code row ∧
  ar_capabilities (refresh_expired now row) = ar_capabilities row ∧
  ar_capability_specs (refresh_expired now row) = ar_capability_specs row ∧
  ar_created_at (refresh_expired now row) = ar_created_at row.
Proof. unfold refresh_expired. by repeat case_match. Qed.

(** What issuing a challenge leaves behind: nothing new when the lifetimes are
    refused, the new row otherwise. *)
Lemma issue_row rc now aid m cs ei iv code u uc bm sp kind (s : InMemoryApprovalStore.t) :
  let s' := fst (create_and_answer rc
    (InMemoryApprovalStore.create now aid m cs ei iv code u uc bm sp kind) aid s) in
  s' = s ∨
  ∃ row', s' !! aid = Some row' ∧ ar_user_code row' = code ∧ ar_created_at row' = now ∧
    ar_capabilities row' = cs ∧ ar_capability_specs row' = default [] sp.
Proof.
  unfold create_and_answer, InMemoryApprovalStore.create.
  destruct ((ei <? 1) || (iv <? 1)); [by left|]. right.
  unfold InMemoryApprovalStore.get. rewrite lookup_insert, decide_True by done. cbn [fst].
  match goal with |- context [refresh_expired ?n ?r] => destruct (refresh_payload n r) as (Hc & Ha & Hs & Ht);
    exists (refresh_expired n r) end.
  rewrite Hc, Ha, Hs, Ht. split_and!; try done. by rewrite lookup_insert, decide_True.
Qed.

End Merge.

(** A user code stands for one payload: after a Device Authorization
    request for an agent that has a row, either the row keeps its code and its
    payload, or the row is a new one that carries the new code; the new row
    holds the requested payload, or, when the old row was a pending one of the
    same kind, the merge of both, in which each name occurs once with its
    latest spec and which differs from the old payload. *)
Theorem device_code_keeps_payload `{PyRuntime} (rc : request_clock) (code aid : string)
    (caps : list string) (expires_in interval : Z) (uri : option string)
    (specs : option (list pydict)) (kind : ApprovalKind) (s s' : InMemoryApprovalStore.t)
    (out : res pyexn ApprovalObject) (row : ApprovalRequestState) :
  s !! aid = Some row →
  create_device_authorization rc code aid caps expires_in interval uri specs kind s = (s', out) →
  ∃ row', s' !! aid = Some row' ∧
    ((ar_user_code row' = ar_user_code row ∧ ar_capabilities row' = ar_capabilities row ∧
      ar_capability_specs row' = ar_capability_specs row) ∨
     (ar_user_code row' = Some code ∧ ar_created_at row' = rc_create rc ∧
      match extends DeviceAuthorization kind (Some (refresh_expired (rc_get rc) row)) with
      | None => ar_capabilities row' = caps ∧ ar_capability_specs row' = default [] specs
      | Some e =>
          pending_payload_unchanged e (ar_capabilities row') (ar_capability_specs row') = false ∧
          NoDup (map spec_name (ar_capability_specs row')) ∧
          ∀ n, latest n (ar_capability_specs row') =
            match latest n (default [] specs) with
            | Some sp => Some sp
            | None => latest n (ar_capability_specs row)
            end
      end)).
Proof.
  intros Hrow. unfold create_device_authorization, InMemoryApprovalStore.get at 1. rewrite Hrow.
  set (e0 := refresh_expired (rc_get rc) row). set (s0 := <[aid := e0]> s).
  assert (Hs0 : s0 !! aid = Some e0) by (unfold s0; by rewrite lookup_insert, decide_True).
  destruct (refresh_payload (rc_get rc) row) as (Hc0 & Hca0 & Hsp0 & _). fold e0 in Hc0, Hca0, Hsp0.
  assert (Hkeep : ∃ row', s0 !! aid = Some row' ∧ ar_user_code row' = ar_user_code row ∧
            ar_capabilities row' = ar_capabilities row ∧ ar_capability_specs row' = ar_capability_specs row)
    by (exists e0; by split_and!).
  destruct (extends DeviceAuthorization kind (Some e0)) as [e|] eqn:Hext.
  - assert (e = e0) as ->.
    { cbn in Hext. by destruct (_ && _ && _) in Hext; simplify_eq. }
    unfold merged_pending_payload.
    set (mc := first_occurrences _). set (ms := merge_capability_specs _ _).
    destruct (pending_payload_unchanged e0 mc ms) eqn:Hun.
    { intros [= <- <-]. destruct Hkeep as (row' & ? & ?). exists row'. split; [done|by left]. }
    intros Hs'.
    match type of Hs' with create_and_answer ?rc (InMemoryApprovalStore.create ?n ?a ?m ?c ?ei ?iv ?co ?u ?uc ?b ?sp ?k) _ _ = _ =>
      pose proof (issue_row rc n a m c ei iv co u uc b sp k s0) as Hi end.
    rewrite Hs' in Hi. cbn [fst] in Hi. destruct Hi as [->|(row' & Hr & Hco & Hcr & Hca & Hsp)].
    { destruct Hkeep as (row' & ? & ?). exists row'. split; [done|by left]. }
    exists row'. split; [done|]. right. split_and!; [done|done|..].
    + rewrite Hca, Hsp. done.
    + rewrite Hsp. apply merge_spec.
    + rewrite Hsp. intros n. rewrite <- Hsp0. apply merge_spec.
  - intros Hs'.
    match type of Hs' with create_and_answer ?rc (InMemoryApprovalStore.create ?n ?a ?m ?c ?ei ?iv ?co ?u ?uc ?b ?sp ?k) _ _ = _ =>
      pose proof (issue_row rc n a m c ei iv co u uc b sp k s0) as Hi end.
    rewrite Hs' in Hi. cbn [fst] in Hi. destruct Hi as [->|(row' & Hr & Hco & Hcr & Hca & Hsp)].
    { destruct Hkeep as (row' & ? & ?). exists row'. split; [done|by left]. }
    exists row'. split; [done|]. right. by split_and!.
Qed.

(** The answer a human gave to an A2H prompt acts on the row only when,
    at that time, the row is still pending, unexpired and asks for exactly the
    specs the prompt showed; then it is approved by that principal or denied
    (or expires if the deadline passes in between); otherwise the answer is
    dropped and at most the expiry of the row is recorded.  No other agent's
    row changes. *)
Theorem a2h_decides_only_what_was_shown `{PyRuntime} (now1 now2 : Z) (answer : ApprovalResult)
    (aid principal : string) (expected : list pydict) (s : InMemoryApprovalStore.t) :
  let s' := fst (resolve_via_a2h now1 now2 answer aid principal (Some expected) s) in
  s' !! aid =
    option_map (λ row,
      if bool_decide (ar_status row = ApPending) && (now1 <? deadline row)
         && specs_eq (ar_capability_specs row) expected
      then settled row (now2, if res_approved answer then OpApprove aid principal
                              else OpDeny aid (decline_reason answer))
      else refresh_expired now1 row) (s !! aid) ∧
  ∀ other, other ≠ aid → s' !! other = s !! other.
Proof.
  unfold resolve_via_a2h, InMemoryApprovalStore.get.
  destruct (s !! aid) as [row|] eqn:Hrow; cbn [option_map pending_matches_expected negb];
    [|cbn [fst]; by rewrite Hrow].
  set (s0 := <[aid := refresh_expired now1 row]> s).
  assert (Hs0 : s0 !! aid = Some (refresh_expired now1 row))
    by (unfold s0; by rewrite lookup_insert, decide_True).
  assert (Ho : ∀ other, other ≠ aid → s0 !! other = s !! other)
    by (intros; unfold s0; by rewrite lookup_insert_ne).
  destruct (refresh_payload now1 row) as (_ & _ & Hsp & _). rewrite Hsp.
  destruct (bool_decide_reflect (ar_status row = ApPending)) as [Hp|Hp].
  2: { rewrite (refresh_final now1 row) in * by done. rewrite bool_decide_false by done. by split. }
  rewrite refresh_pending in * by done.
  destruct (Z.ltb_spec now1 (deadline row)) as [Hlt|Hge].
  2: { assert ((deadline row <=? now1) = true) as Hd by (by apply Z.leb_le). rewrite Hd in *. by split. }
  assert ((deadline row <=? now1) = false) as Hd by (apply Z.leb_gt; lia). rewrite Hd in *.
  rewrite bool_decide_true by done. destruct (specs_eq _ _); cbn [andb negb]; [|by split].
  unfold InMemoryApprovalStore.approve, InMemoryApprovalStore.deny. split.
  - destruct (res_approved answer); rewrite (resolve_row _ _ now2 aid s0 row) by done;
      rewrite bool_decide_true by done; reflexivity.
  - intros other Hne. rewrite <- Ho by done. by destruct (res_approved answer); apply resolve_other.
Qed.

#[local] Instance demo_runtime : PyRuntime :=
  {| float_repr := λ _, "0.0"%string; float_of_str := λ _, None |}.

Lemma device_code_keeps_payload_witness :
  let row := mkRequest "a1" DeviceAuthorization ["read"%string] [[("name"%string, JStr "read")]]
               Escalation ApPending (Some "OLDCODE1"%string) None None None 600 5 0 None None in
  let r := create_device_authorization (mkRClock 1 2 3 4) "NEWCODE1" "a1" ["write"%string] 600 5 None
             (Some [[("name"%string, JStr "write")]]) Escalation {[ "a1"%string := row ]} in
  ∃ row', fst r !! "a1"%string = Some row' ∧ ar_user_code row' = Some "NEWCODE1"%string.
Proof.
  intros row r.
  destruct (device_code_keeps_payload (mkRClock 1 2 3 4) "NEWCODE1" "a1" ["write"%string] 600 5 None
              (Some [[("name"%string, JStr "write")]]) Escalation {[ "a1"%string := row ]} (fst r) (snd r) row)
    as (row' & Hr & [(Hc & _)|(Hc & _)]).
  - apply lookup_singleton_Some. done.
  - apply surjective_pairing.
  - exfalso. assert (Hx : option_map ar_user_code (fst r !! "a1"%string) = Some (Some "NEWCODE1"%string))
      by (vm_compute; reflexivity).
    rewrite Hr in Hx. cbn in Hx. rewrite Hc in Hx. discriminate Hx.
  - exists row'. split; [exact Hr|exact Hc].
Defined.
