(* ===== verification/Delegation.v ===== *)
(** * Delegation tokens: scopes, issuance and revocation

    `scope_includes_action` of `src/src/asap/economics/delegation.py` and the
    storage of `src/src/asap/economics/delegation_storage.py`: issued tokens,
    revocations, and the cascade that revokes a token and the tokens derived
    from it, under the lock of the in-memory store. *)

From Stdlib Require Import ZArith Lia Ascii String.
From stdpp Require Import base tactics list gmap strings sets relations.
From S2P Require Import Prelude PyValue.
Open Scope Z_scope.

Definition WILDCARD_SCOPE : string := "*".

(** The scopes of a token are the JSON values of its claim, texts or not. *)
Definition scope_includes_action (scopes : list json) (action : string) : bool :=
  match scopes with
  | [] => false
  | _ =>
      if existsb (py_eq (JStr WILDCARD_SCOPE)) scopes then true
      else existsb (py_eq (JStr action)) scopes
  end.

Definition MAX_CASCADE_DEPTH : Z := 50.

Record IssuedSummary : Type := mkSummary {
  is_id : string;
  is_delegate_urn : option string;
  is_created_at : Z
}.

Record TokenDetail : Type := mkDetail {
  td_id : string;
  td_delegator_urn : string;
  td_delegate_urn : option string;
  td_created_at : Z;
  td_is_revoked : bool;
  td_revoked_at : option Z
}.

Module InMemoryDelegationStorage.

(** `(delegator_urn, delegate_urn, created_at)` *)
Abbreviation issue := (string * option string * Z)%type.

Record t : Type := mk {
  revoked : gmap string (Z * option string);
  issued : list (string * issue)
}.

Definition init : t := mk ∅ [].

Definition revoke (now : Z) (token_id : string) (reason : option string) (s : t) : t :=
  mk (<[token_id := (now, reason)]> (revoked s)) (issued s).

Definition is_revoked (token_id : string) (s : t) : bool := is_some (revoked s !! token_id).

Definition register_issued (now : Z) (token_id delegator_urn : string) (delegate_urn : option string)
    (s : t) : t :=
  mk (revoked s) (PyDict.set token_id (delegator_urn, delegate_urn, now) (issued s)).

Definition get_delegator (token_id : string) (s : t) : option string :=
  option_map (λ e : issue, e.1.1) (PyDict.get token_id (issued s)).

Definition get_delegate (token_id : string) (s : t) : option string :=
  match PyDict.get token_id (issued s) with Some (_, d, _) => d | None => None end.

Definition list_token_ids_issued_by (delegator_urn : string) (s : t) : list string :=
  (filter (λ kv : string * issue, kv.2.1.1 = delegator_urn) (issued s)).*1.

Definition list_issued_summaries (delegator_urn : string) (s : t) : list IssuedSummary :=
  map (λ kv : string * issue, mkSummary kv.1 kv.2.1.2 kv.2.2)
    (filter (λ kv : string * issue, kv.2.1.1 = delegator_urn) (issued s)).

Definition get_issued_at (token_id : string) (s : t) : option Z :=
  option_map (λ e : issue, e.2) (PyDict.get token_id (issued s)).

Definition get_revoked_at (token_id : string) (s : t) : option Z :=
  option_map fst (revoked s !! token_id).

Definition are_revoked (token_ids : list string) (s : t) : list (string * bool) :=
  fold_left (λ d tid, PyDict.set tid (is_revoked tid s) d) token_ids [].

Definition get_token_detail (token_id : string) (s : t) : option TokenDetail :=
  match PyDict.get token_id (issued s) with
  | None => None
  | Some (delegator, delegate, created) =>
      let rev := revoked s !! token_id in
      Some (mkDetail token_id delegator delegate created (is_some rev) (option_map fst rev))
  end.

(** The tokens issued by the delegate of a token, in the order they were
    registered; none when it has no delegate or an empty one. *)
Definition children (tid : string) (s : t) : list string :=
  match get_delegate tid s with
  | Some delegate_urn =>
      if PyStr.truthy delegate_urn then list_token_ids_issued_by delegate_urn s else []
  | None => []
  end.

(** The walk.  The stack is a list whose head is its top: `pop` takes the last
    element appended, so the children appended in order are popped in reverse.
    [stamp tid] is the reading of the clock when [tid] is revoked (each token is
    revoked at most once in a walk).  [None]: out of fuel. *)
Fixpoint cascade_loop (fuel : nat) (stamp : string → Z) (reason : option string)
    (visited : gset string) (stack : list (string * Z)) (s : t) : option t :=
  match fuel with
  | O => None
  | S fuel' =>
      match stack with
      | [] => Some s
      | (tid, depth) :: stack' =>
          if bool_decide (tid ∈ visited) || (MAX_CASCADE_DEPTH <? depth)
          then cascade_loop fuel' stamp reason visited stack' s
          else
            let pushed := map (λ c, (c, depth + 1)) (children tid s) in
            cascade_loop fuel' stamp reason ({[tid]} ∪ visited) (reverse pushed ++ stack')
              (revoke (stamp tid) tid reason s)
      end
  end.

(** Every step pops an entry, and at most one token per issued token, and the
    root, pushes its children; so this many steps are enough. *)
Definition cascade_fuel (s : t) : nat := (2 + (1 + length (issued s)) * length (issued s))%nat.

Definition revoke_cascade (stamp : string → Z) (token_id : string) (reason : option string) (s : t) :
    option t :=
  cascade_loop (cascade_fuel s) stamp reason ∅ [(token_id, 0)] s.

End InMemoryDelegationStorage.

(** ** Lemmas on the walk *)
Import InMemoryDelegationStorage.

Definition child (s : t) (a b : string) : Prop := b ∈ children a s.

(** The root and the issued tokens: all the walk can meet. *)
Definition universe (root : string) (s : t) : gset string :=
  {[root]} ∪ list_to_set (PyDict.keys (issued s)).

Lemma children_revoke now tid reason x s : children x (revoke now tid reason s) = children x s.
Proof. done. Qed.

Lemma children_issued a b s : child s a b → b ∈ PyDict.keys (issued s).
Proof.
  unfold child, children, list_token_ids_issued_by, PyDict.keys.
  destruct (get_delegate a s) as [u|]; [|by intros ?%elem_of_nil].
  destruct (PyStr.truthy u); [|by intros ?%elem_of_nil].
  intros (kv & -> & [_ Hin]%list_elem_of_filter)%list_elem_of_fmap. apply list_elem_of_fmap. eauto.
Qed.

Lemma children_universe root a b s : child s a b → b ∈ universe root s.
Proof. intros ?%children_issued. unfold universe. set_solver. Qed.

Lemma length_children a s : (length (children a s) <= length (issued s))%nat.
Proof.
  unfold children, list_token_ids_issued_by. destruct (get_delegate a s) as [u|]; [|simpl; lia].
  destruct (PyStr.truthy u); [|simpl; lia]. rewrite length_fmap. apply length_filter.
Qed.

Lemma size_list_to_set_le (l : list string) : (size (list_to_set l : gset string) <= length l)%nat.
Proof.
  induction l as [|x l IH]; [done|]. cbn [list_to_set length].
  rewrite size_union_alt, size_singleton.
  assert (size (list_to_set l ∖ {[x]} : gset string) <= size (list_to_set l : gset string))%nat
    by (apply subseteq_size; set_solver). lia.
Qed.

Lemma size_universe root s : (size (universe root s) <= 1 + length (issued s))%nat.
Proof.
  unfold universe. pose proof (size_list_to_set_le (root :: PyDict.keys (issued s))) as Hs.
  cbn [list_to_set length] in Hs. unfold PyDict.keys in *. by rewrite length_fmap in Hs.
Qed.

Lemma is_revoked_revoke now tid reason x s :
  is_revoked x (revoke now tid reason s) = bool_decide (x = tid) || is_revoked x s.
Proof.
  unfold is_revoked, revoke. cbn [revoked]. rewrite lookup_insert. case_decide; subst.
  - by rewrite bool_decide_true.
  - by rewrite bool_decide_false by done.
Qed.

Lemma elem_of_pushed (x : string) (d depth : Z) (stack : list (string * Z)) s tid :
  (x, d) ∈ reverse (map (λ c, (c, depth)) (children tid s)) ++ stack ↔
  (child s tid x ∧ d = depth) ∨ (x, d) ∈ stack.
Proof.
  rewrite elem_of_app, elem_of_reverse. unfold child.
  rewrite list_elem_of_fmap. naive_solver.
Qed.

(** The walk ends: enough fuel for the pops and pushes that remain. *)
Lemma cascade_loop_total fuel stamp reason visited stack s U :
  (∀ x d, (x, d) ∈ stack → x ∈ U) → (∀ a b, child s a b → b ∈ U) →
  (size (U ∖ visited) * length (issued s) + length stack < fuel)%nat →
  ∃ s', cascade_loop fuel stamp reason visited stack s = Some s'.
Proof.
  revert visited stack s. induction fuel as [|fuel IH]; intros visited stack s Hst HU Hf; [lia|].
  destruct stack as [|[tid depth] stack]; [by eexists|]. cbn [cascade_loop].
  destruct (bool_decide (tid ∈ visited) || (MAX_CASCADE_DEPTH <? depth)) eqn:Hskip.
  { apply IH; [set_solver|done|]. cbn in Hf. lia. }
  reflect. apply IH.
  - intros x d [[Hc _]|Hx]%elem_of_pushed; [by eapply HU|]. apply (Hst x d). by right.
  - done.
  - rewrite length_app, length_reverse, length_map. pose proof (length_children tid s).
    assert (Hsz : size (U ∖ visited) = S (size (U ∖ ({[tid]} ∪ visited)))).
    { replace (U ∖ visited) with ({[tid]} ∪ (U ∖ ({[tid]} ∪ visited))).
      - rewrite size_union by set_solver. by rewrite size_singleton.
      - assert (tid ∈ U) by (apply (Hst tid depth); by left).
        apply set_eq. intros y. destruct (decide (y = tid)); set_solver. }
    rewrite Hsz in Hf. cbn [length] in Hf. cbn [issued revoke]. lia.
Qed.

(** What the walk does: it visits tokens reachable from the stack, revokes
    exactly those, and, when no entry is ever too deep, all of them. *)
Lemma cascade_loop_spec fuel stamp reason visited stack s s' U :
  cascade_loop fuel stamp reason visited stack s = Some s' →
  ∃ V, visited ⊆ V ∧ issued s' = issued s ∧
    (∀ x, is_revoked x s' = true ↔ is_revoked x s = true ∨ (x ∈ V ∧ x ∉ visited)) ∧
    (∀ x, x ∈ V → x ∈ visited ∨ ∃ y d, (y, d) ∈ stack ∧ rtc (child s) y x) ∧
    ((∀ a b, child s a b → b ∈ U) → visited ⊆ U → Z.of_nat (size U) <= MAX_CASCADE_DEPTH + 1 →
     (∀ y d, (y, d) ∈ stack → y ∈ U ∧ d <= Z.of_nat (size visited)) →
     (∀ v c, v ∈ visited → child s v c → c ∈ visited ∨ ∃ d, (c, d) ∈ stack) →
     (∀ y d, (y, d) ∈ stack → y ∈ V) ∧ (∀ v c, v ∈ V → child s v c → c ∈ V)).
Proof.
  revert visited stack s. induction fuel as [|fuel IH]; intros visited stack s Hl; [done|].
  destruct stack as [|[tid depth] stack].
  { injection Hl as <-. exists visited. split_and!; [done|done|set_solver|set_solver|].
    intros _ _ _ _ Hcl. split; [by intros y d ?%elem_of_nil|].
    intros v c Hv Hc. destruct (Hcl v c Hv Hc) as [?|(d & []%elem_of_nil)]. done. }
  cbn [cascade_loop] in Hl.
  destruct (bool_decide (tid ∈ visited) || (MAX_CASCADE_DEPTH <? depth)) eqn:Hskip.
  { destruct (IH _ _ _ Hl) as (V & Hsub & Hi & Hrev & Hre & Hcomp). exists V. split_and!; try done.
    { intros x [?|(y & d & Hin & Hr)]%Hre; [by left|]. right. exists y, d. split; [by right|done]. }
    intros HU HvU Hsz Hst Hcl.
    assert (Htv : tid ∈ visited).
    { destruct (bool_decide_reflect (tid ∈ visited)) as [?|Hn]; [done|]. exfalso. cbn in Hskip. reflect.
      destruct (Hst tid depth) as [HtU Hd]; [by left|].
      assert (size visited < size U)%nat by (apply subset_size; set_solver). lia. }
    destruct Hcomp as [HsV HV]; [done|done|done|intros y d ?; apply Hst; by right| |].
    { intros v c Hv Hc. destruct (Hcl v c Hv Hc) as [?|(d & [[= <- <-]|Hin]%elem_of_cons)]; eauto. }
    split; [|done]. intros y d [[= -> ->]|Hin]%elem_of_cons; [set_solver|eauto]. }
  reflect. destruct (IH _ _ _ Hl) as (V & Hsub & Hi & Hrev & Hre & Hcomp). exists V. split_and!.
  - set_solver.
  - done.
  - intros x. rewrite Hrev, is_revoked_revoke.
    clear IH Hl Hre Hcomp Hrev Hi. destruct (bool_decide_reflect (x = tid)) as [->|]; cbn; set_solver.
  - intros x [Hx|(y & d & [[Hc _]|Hin]%elem_of_pushed & Hr)]%Hre.
    + apply elem_of_union in Hx as [->%elem_of_singleton|?]; [|by left].
      right. exists tid, depth. split; [by left|apply rtc_refl].
    + right. exists tid, depth. split; [by left|]. by eapply rtc_l.
    + right. exists y, d. split; [by right|done].
  - intros HU HvU Hsz Hst Hcl.
    destruct (Hst tid depth) as [HtU Hd]; [by left|].
    assert (Hsv : size ({[tid]} ∪ visited) = S (size visited))
      by (rewrite size_union by set_solver; by rewrite size_singleton).
    destruct Hcomp as [HsV HV]; [done|set_solver|done| | |].
    + intros y d [[Hc ->]|Hin]%elem_of_pushed; rewrite Hsv.
      * split; [by eapply HU|lia].
      * destruct (Hst y d) as [? ?]; [by right|]. split; [done|lia].
    + intros v c [->%elem_of_singleton|Hv]%elem_of_union Hc.
      * right. exists (depth + 1). apply elem_of_pushed. by left.
      * destruct (Hcl v c Hv Hc) as [?|(d & [[= -> ->]|Hin]%elem_of_cons)]; [set_solver|set_solver|].
        right. exists d. apply elem_of_pushed. by right.
    + split; [|done]. intros y d [[= -> ->]|Hin]%elem_of_cons; [set_solver|].
      apply (HsV y d). apply elem_of_pushed. by right.
Qed.

Lemma revoke_cascade_total stamp root reason s :
  ∃ s', revoke_cascade stamp root reason s = Some s'.
Proof.
  apply (cascade_loop_total _ _ _ _ _ _ (universe root s)).
  - intros x d [= -> ->]%list_elem_of_singleton. unfold universe. set_solver.
  - intros a b. apply children_universe.
  - unfold cascade_fuel. cbn [length]. pose proof (size_universe root s).
    rewrite difference_empty_L. nia.
Qed.

Lemma cascade_loop_first fuel stamp root reason s :
  cascade_loop (S fuel) stamp reason ∅ [(root, 0)] s =
  cascade_loop fuel stamp reason ({[root]} ∪ ∅)
    (reverse (map (λ c, (c, 0 + 1)) (children root s)) ++ []) (revoke (stamp root) root reason s).
Proof. cbn [cascade_loop]. by rewrite bool_decide_false by set_solver. Qed.

(** What every cascade guarantees. *)
Lemma revoke_cascade_sound stamp root reason s s' :
  revoke_cascade stamp root reason s = Some s' →
  issued s' = issued s ∧ is_revoked root s' = true ∧
  (∀ x, is_revoked x s = true → is_revoked x s' = true) ∧
  (∀ x, is_revoked x s' = true → is_revoked x s = true ∨ rtc (child s) root x).
Proof.
  unfold revoke_cascade, cascade_fuel.
  rewrite (cascade_loop_first (1 + (1 + length (issued s)) * length (issued s))). intros Hl.
  destruct (cascade_loop_spec _ _ _ _ _ _ _ ∅ Hl) as (V & _ & Hi & Hrev & Hre & _).
  split_and!; [done|..].
  - apply Hrev. left. rewrite is_revoked_revoke. by rewrite bool_decide_true.
  - intros x Hx. apply Hrev. left. rewrite is_revoked_revoke, Hx. apply orb_true_r.
  - intros x [Hx|[Hx _]]%Hrev.
    + rewrite is_revoked_revoke in Hx. destruct (decide (x = root)) as [->|Hne]; [right; apply rtc_refl|].
      rewrite bool_decide_false in Hx by done. by left.
    + right. apply Hre in Hx as [Hx|(y & d & [[Hc _]|[]%elem_of_nil]%elem_of_pushed & Hr)].
      * apply elem_of_union in Hx as [->%elem_of_singleton|[]%not_elem_of_empty]. apply rtc_refl.
      * by eapply rtc_l.
Qed.

(** When at most 50 tokens are issued, the depth limit cannot cut the walk
    short, cycles of delegations included: the tokens revoked afterwards are
    exactly those revoked before, the token itself and every token derived from
    it. *)
Lemma cascade_complete_within_limit (stamp : string → Z) (root : string) (reason : option string)
    (s : InMemoryDelegationStorage.t) :
  Z.of_nat (length (issued s)) <= MAX_CASCADE_DEPTH →
  ∃ s', revoke_cascade stamp root reason s = Some s' ∧
    ∀ x, is_revoked x s' = true ↔ is_revoked x s = true ∨ rtc (child s) root x.
Proof.
  intros Hlen. destruct (revoke_cascade_total stamp root reason s) as [s' Hs']. exists s'. split; [done|].
  destruct (revoke_cascade_sound _ _ _ _ _ Hs') as (_ & _ & Hmono & Hsound).
  intros x. split; [apply Hsound|]. intros [Hx|Hx]; [by apply Hmono|].
  destruct (cascade_loop_spec _ _ _ _ _ _ _ (universe root s) Hs') as (V & _ & _ & Hrev & _ & Hcomp).
  apply Hrev. right. split; [|set_solver].
  destruct Hcomp as [Hroot Hcl].
  - intros a b. apply children_universe.
  - set_solver.
  - pose proof (size_universe root s). lia.
  - intros y d [= -> ->]%list_elem_of_singleton. unfold universe. rewrite size_empty. set_solver by lia.
  - set_solver.
  - assert (Hr : root ∈ V) by (apply (Hroot root 0); by left).
    clear -Hx Hr Hcl. induction Hx as [|a b c Hab _ IH]; [done|]. apply IH. by eapply Hcl.
Qed.

(** ** Properties *)

(** The cascade always terminates; it revokes the token itself and, beyond
    it, only tokens derived from it (issued, directly or through further
    delegations, by its delegate); it never clears a revocation and leaves the
    record of issued tokens as it is.  When at most 50 tokens are issued it
    revokes every token derived from the given one, cycles of delegations
    included. *)
Theorem cascade_terminates_soundly (stamp : string → Z) (root : string) (reason : option string)
    (s : InMemoryDelegationStorage.t) :
  ∃ s', revoke_cascade stamp root reason s = Some s' ∧ issued s' = issued s ∧
    is_revoked root s' = true ∧
    (∀ x, is_revoked x s = true → is_revoked x s' = true) ∧
    (∀ x, is_revoked x s' = true → is_revoked x s = true ∨ rtc (child s) root x) ∧
    (Z.of_nat (length (issued s)) <= MAX_CASCADE_DEPTH →
     ∀ x, rtc (child s) root x → is_revoked x s' = true).
Proof.
  destruct (revoke_cascade_total stamp root reason s) as [s' Hs']. exists s'. split; [done|].
  destruct (revoke_cascade_sound _ _ _ _ _ Hs') as (? & ? & ? & ?). split_and!; [done..|].
  intros Hlen x Hx. destruct (cascade_complete_within_limit stamp root reason s Hlen) as (s2 & Hs2 & Hc).
  rewrite Hs' in Hs2. injection Hs2 as <-. apply Hc. by right.
Qed.

(** A delegation from A that comes back to A through 49 tokens, next to a
    token [x] issued by A and a token [y] issued by [x]'s delegate. *)
Definition ring_urn (i : nat) : string :=
  match i with O => "A" | _ => "B" ++ PyStr.dec_N (N.of_nat i) end.
Definition ring_token (i : nat) : string * issue :=
  ("t" ++ PyStr.dec_N (N.of_nat i), (ring_urn i, Some (ring_urn (if Nat.eqb i 48 then O else S i)), 0))%string.
Definition ring : t :=
  mk ∅ ([("r", ("Z", Some "A", 0)); ("x", ("A", Some "C", 0)); ("y", ("C", None, 0))]%string
        ++ map ring_token (seq 0 49)).

(** Beyond that size the cascade can miss a token: the walk takes the
    newest child first and marks a token as visited at whatever depth it meets
    it, so a token first met at the limit keeps its children out of reach even
    when it is also a direct child; here a token two delegations below the
    revoked one stays valid. *)
Theorem cascade_misses_grandchild :
  ∃ (s s' : InMemoryDelegationStorage.t) (root x y : string),
    child s root x ∧ child s x y ∧ is_revoked y s = false ∧
    revoke_cascade (λ _, 0) root None s = Some s' ∧
    is_revoked x s' = true ∧ is_revoked y s' = false.
Proof.
  exists ring, (default init (revoke_cascade (λ _, 0) "r" None ring)), "r"%string, "x"%string, "y"%string.
  split; [unfold child; vm_compute; repeat constructor|].
  split; [unfold child; vm_compute; repeat constructor|].
  split; [reflexivity|]. split; [vm_compute; reflexivity|]. split; vm_compute; reflexivity.
Qed.
