(* ===== verification/SqliteDelegation.v ===== *)
(** * The SQLite delegation store

    `src/src/asap/economics/delegation_storage.py` (SQLiteDelegationStorage): the
    tables `revocations` and `issued_delegations`, the migration that adds
    `delegate_urn` to old files, every operation, and the cascading revocation in
    one transaction.  The store is compared with the in-memory one of
    [Delegation]: same answers, listings up to their order, and a cascade that
    either is the in-memory cascade or leaves no trace. *)

From Stdlib Require Import ZArith Lia Ascii String.
From stdpp Require Import base tactics list gmap strings.
From S2P Require Import Prelude PyValue Digest IsoText Sqlite EnvelopeGuard Delegation.
Open Scope Z_scope.
Open Scope asap_scope.

Module SQLiteDelegationStorage.

Record rev_row : Type := mkRev { rv_id : string; rv_revoked_at : string; rv_reason : option string }.
Record iss_row : Type := mkIss {
  is_id : string; is_delegator_urn : string; is_delegate_urn : option string; is_created_at : string }.

(** The tables, and the columns of `issued_delegations`. *)
Record tables : Type := mkTables {
  revocations : list rev_row;
  issued_delegations : list iss_row;
  issued_columns : list string
}.

Definition empty_tables : tables :=
  mkTables [] [] ["id"; "delegator_urn"; "delegate_urn"; "created_at"]%string.

Record t : Type := mk { repo : Repo tables; migration_done : bool }.

(** A new instance on a database file. *)
Definition init (file : option tables) : t := mk (mkRepo false file) false.

(** `ALTER TABLE ... ADD COLUMN delegate_urn TEXT`: NULL in every row. *)
Definition _migrate_issued_delegations (db : tables) : tables :=
  if str_in "delegate_urn" (issued_columns db) then db
  else mkTables (revocations db)
         (map (λ r, mkIss (is_id r) (is_delegator_urn r) None (is_created_at r)) (issued_delegations db))
         (issued_columns db ++ ["delegate_urn"%string]).

Definition _ensure_schema (s : t) : t :=
  let r := Sqlite._ensure_schema empty_tables (repo s) in
  if migration_done s then mk r true
  else mk (mkRepo (rp_initialized r) (option_map _migrate_issued_delegations (rp_db r))) true.

(** A statement that names `delegate_urn` needs the column. *)
Definition with_delegate {A} (db : tables) (k : res sqlexn A) : res sqlexn A :=
  if str_in "delegate_urn" (issued_columns db) then k
  else Raise (OperationalError "no such column: delegate_urn").

Definition lift {A} (op : Repo tables → Repo tables * A) (s : t) : t * A :=
  let s := _ensure_schema s in
  let '(r, a) := op (repo s) in (mk r (migration_done s), a).

Definition execute {A} (stmt : tables → res sqlexn (tables * A)) : t → t * res sqlexn A :=
  lift (Sqlite.execute empty_tables stmt).
Definition fetch {A} (query : tables → res sqlexn A) : t → t * res sqlexn A :=
  lift (Sqlite.fetch empty_tables query).
Definition transaction {A} (body : tables → tables * res sqlexn A) : t → t * res sqlexn A :=
  lift (Sqlite.transaction empty_tables body).

Section Store.
  Context `{Readers} `{SqlScan}.

(** `INSERT OR REPLACE INTO revocations` *)
Definition put_revocation (now : Z) (token_id : string) (reason : option string) (db : tables) : tables :=
  mkTables (insert_or_replace rv_id (mkRev token_id (isoformat now) reason) (revocations db))
    (issued_delegations db) (issued_columns db).

Definition revoke (now : Z) (token_id : string) (reason : option string) : t → t * res sqlexn unit :=
  execute (λ db, Ret (put_revocation now token_id reason db, tt)).

Definition is_revoked (token_id : string) : t → t * res sqlexn bool :=
  fetch (λ db, Ret (is_some (select_one (λ r, String.eqb (rv_id r) token_id) (revocations db)))).

Definition register_issued (now : Z) (token_id delegator_urn : string) (delegate_urn : option string) :
    t → t * res sqlexn unit :=
  execute (λ db, with_delegate db
    (Ret (mkTables (revocations db)
            (insert_or_replace is_id (mkIss token_id delegator_urn delegate_urn (isoformat now))
               (issued_delegations db)) (issued_columns db), tt))).

(** `str(row[0]) if row and row[0] else None` *)
Definition truthy_text (o : option string) : option string :=
  match o with Some x => if PyStr.truthy x then Some x else None | None => None end.

Definition issued_row (token_id : string) (db : tables) : option iss_row :=
  select_one (λ r, String.eqb (is_id r) token_id) (issued_delegations db).
Definition issued_by (delegator_urn : string) (db : tables) : list iss_row :=
  select (λ r, String.eqb (is_delegator_urn r) delegator_urn) (issued_delegations db).

Definition get_delegator (token_id : string) : t → t * res sqlexn (option string) :=
  fetch (λ db, Ret (truthy_text (option_map is_delegator_urn (issued_row token_id db)))).

Definition delegate_of (token_id : string) (db : tables) : option string :=
  match issued_row token_id db with Some r => truthy_text (is_delegate_urn r) | None => None end.

Definition get_delegate (token_id : string) : t → t * res sqlexn (option string) :=
  fetch (λ db, with_delegate db (Ret (delegate_of token_id db))).

Definition list_token_ids_issued_by (delegator_urn : string) : t → t * res sqlexn (list string) :=
  fetch (λ db, Ret (map is_id (issued_by delegator_urn db))).

(** `parse_iso(...) or datetime.now(timezone.utc)` *)
Definition date_or_now (now : Z) (text : string) : Z :=
  match parse_iso (Some text) with Some d => to_utc d | None => now end.

Definition newest_first (a b : iss_row) : Prop := text_cmp (is_created_at b) (is_created_at a) ≠ Gt.
#[global] Instance newest_first_dec a b : Decision (newest_first a b).
Proof. unfold newest_first. apply _. Defined.

Definition list_issued_summaries (now : Z) (delegator_urn : string) : t → t * res sqlexn (list IssuedSummary) :=
  fetch (λ db, with_delegate db
    (Ret (map (λ r, mkSummary (is_id r) (truthy_text (is_delegate_urn r)) (date_or_now now (is_created_at r)))
            (PySort.sorted newest_first (issued_by delegator_urn db))))).

Definition get_issued_at (token_id : string) : t → t * res sqlexn (option Z) :=
  fetch (λ db, Ret (option_map to_utc
    (parse_iso (truthy_text (option_map is_created_at (issued_row token_id db)))))).

Definition revoked_row (token_id : string) (db : tables) : option rev_row :=
  select_one (λ r, String.eqb (rv_id r) token_id) (revocations db).

Definition get_revoked_at (token_id : string) : t → t * res sqlexn (option Z) :=
  fetch (λ db, Ret (option_map to_utc
    (parse_iso (truthy_text (option_map rv_revoked_at (revoked_row token_id db)))))).

(** One query for the whole batch; none for an empty one. *)
Definition are_revoked (token_ids : list string) (s : t) : t * res sqlexn (list (string * bool)) :=
  match token_ids with
  | [] => (s, Ret [])
  | _ =>
      fetch (λ db,
        let revoked_ids := map rv_id (select (λ r, str_in (rv_id r) token_ids) (revocations db)) in
        Ret (fold_left (λ d tid, PyDict.set tid (str_in tid revoked_ids) d) token_ids [])) s
  end.

(** `LEFT JOIN revocations` *)
Definition get_token_detail (now : Z) (token_id : string) : t → t * res sqlexn (option TokenDetail) :=
  fetch (λ db, with_delegate db
    (Ret match issued_row token_id db with
         | None => None
         | Some r =>
             let rev := revoked_row token_id db in
             Some (mkDetail (is_id r) (is_delegator_urn r) (truthy_text (is_delegate_urn r))
                     (date_or_now now (is_created_at r)) (is_some rev)
                     (option_map to_utc (parse_iso (truthy_text (option_map rv_revoked_at rev)))))
         end)).

(** The children of a token, as the two queries of the walk find them. *)
Definition child_ids (tid : string) (db : tables) : list string :=
  match delegate_of tid db with
  | Some delegate_urn => map is_id (issued_by delegate_urn db)
  | None => []
  end.

(** The walk inside the transaction.  [fault tid] is an error of the database
    when the revocation of [tid] is inserted; the boolean of a walk that ends
    tells that it did not run out of fuel. *)
Fixpoint cascade_walk (fuel : nat) (fault : string → option sqlexn) (stamp : string → Z)
    (reason : option string) (visited : gset string) (stack : list (string * Z)) (db : tables) :
    tables * res sqlexn bool :=
  match fuel with
  | O => (db, Ret false)
  | S fuel' =>
      match stack with
      | [] => (db, Ret true)
      | (tid, depth) :: stack' =>
          if bool_decide (tid ∈ visited) || (MAX_CASCADE_DEPTH <? depth)
          then cascade_walk fuel' fault stamp reason visited stack' db
          else
            let pushed := map (λ c, (c, depth + 1)) (child_ids tid db) in
            match fault tid with
            | Some e => (db, Raise e)
            | None =>
                cascade_walk fuel' fault stamp reason ({[tid]} ∪ visited) (reverse pushed ++ stack')
                  (put_revocation (stamp tid) tid reason db)
            end
      end
  end.

Definition _revoke_cascade_atomic (fault : string → option sqlexn) (stamp : string → Z)
    (token_id : string) (reason : option string) : t → t * res sqlexn bool :=
  transaction (λ db,
    let n := length (issued_delegations db) in
    cascade_walk (2 + (1 + n) * n) fault stamp reason ∅ [(token_id, 0)] db).

End Store.
End SQLiteDelegationStorage.

Module SQL := SQLiteDelegationStorage.
Module Mem := InMemoryDelegationStorage.

(** ** What the tables mean *)
Section Facts.
  Context `{Readers} `{SqlScan}.
  Implicit Types (db : SQL.tables) (m : Mem.t).

(** A date whose text reads back. *)
Definition readable (us : Z) : Prop := iso_read (isoformat us) = Some (Aware us 0).

(** The in-memory dictionaries the tables stand for; the issued tokens in the
    order the engine reads them. *)
Definition rev_entry (r : SQL.rev_row) : string * (Z * option string) :=
  (SQL.rv_id r, (SQL.date_or_now 0 (SQL.rv_revoked_at r), SQL.rv_reason r)).
Definition iss_entry (r : SQL.iss_row) : string * Mem.issue :=
  (SQL.is_id r, (SQL.is_delegator_urn r, SQL.is_delegate_urn r, SQL.date_or_now 0 (SQL.is_created_at r))).

Definition mirror db : Mem.t :=
  Mem.mk (list_to_map (map rev_entry (SQL.revocations db)))
         (map iss_entry (scan (SQL.issued_delegations db))).

Definition rev_good (r : SQL.rev_row) : Prop := ∃ us, readable us ∧ SQL.rv_revoked_at r = isoformat us.
Definition iss_good (r : SQL.iss_row) : Prop :=
  (∃ us, readable us ∧ SQL.is_created_at r = isoformat us)
  ∧ PyStr.truthy (SQL.is_delegator_urn r) = true ∧ SQL.is_delegate_urn r ≠ Some ""%string.

(** What the schema gives: the primary keys, and the migrated column. *)
Record db_keyed db : Prop := {
  good_revs : keys_unique SQL.rv_id (SQL.revocations db);
  good_iss : keys_unique SQL.is_id (SQL.issued_delegations db);
  good_columns : str_in "delegate_urn" (SQL.issued_columns db) = true
}.

(** Rows whose dates read back and that name the agents. *)
Record db_good db : Prop := {
  good_keyed :> db_keyed db;
  good_rev_rows : Forall rev_good (SQL.revocations db);
  good_iss_rows : Forall iss_good (SQL.issued_delegations db)
}.

Lemma truthy_isoformat us : PyStr.truthy (isoformat us) = true.
Proof.
  unfold isoformat. rewrite isoformat_dt_eq. unfold iso_local.
  destruct (civil _) as [[y m] d]. rewrite append_assoc.
  assert (Hn : ∀ a b, PyStr.truthy b = true → PyStr.truthy (a ++ b)%string = true)
    by (intros [|] ?; done).
  apply Hn. done.
Qed.

Lemma parse_isoformat us : readable us → parse_iso (Some (isoformat us)) = Some (Aware us 0).
Proof. intros Hr. unfold parse_iso. rewrite truthy_isoformat. unfold isoformat. by rewrite replace_z_isoformat. Qed.

Lemma date_isoformat now us : readable us → SQL.date_or_now now (isoformat us) = us.
Proof. intros Hr. unfold SQL.date_or_now. rewrite parse_isoformat by done. simpl. lia. Qed.

Lemma surjective_mirror db : mirror db = Mem.mk (Mem.revoked (mirror db)) (map iss_entry (scan (SQL.issued_delegations db))).
Proof. done. Qed.

(** *** Look-ups *)
Lemma mirror_revoked db k : keys_unique SQL.rv_id (SQL.revocations db) →
  Mem.revoked (mirror db) !! k = option_map (λ r, (rev_entry r).2) (row_of SQL.rv_id k (SQL.revocations db)).
Proof.
  intros Hk. simpl. destruct (row_of SQL.rv_id k (SQL.revocations db)) as [r|] eqn:E; simpl.
  - apply row_of_Some in E as [Hin <-]; [|done]. apply elem_of_list_to_map_1.
    + unfold keys_unique in Hk. by rewrite <- list_fmap_compose.
    + apply list_elem_of_fmap. by exists r.
  - apply not_elem_of_list_to_map_1. rewrite <- list_fmap_compose.
    intros (r & -> & Hin)%list_elem_of_fmap. by eapply row_of_None in E.
Qed.

Lemma mirror_wf db : keys_unique SQL.is_id (SQL.issued_delegations db) → PyDict.wf (Mem.issued (mirror db)).
Proof.
  unfold keys_unique, PyDict.wf, PyDict.keys. simpl. intros Hk. rewrite <- list_fmap_compose.
  change (fst ∘ iss_entry) with SQL.is_id. by rewrite scan_perm.
Qed.

Lemma issued_row_key db k : keys_unique SQL.is_id (SQL.issued_delegations db) →
  SQL.issued_row k db = row_of SQL.is_id k (SQL.issued_delegations db).
Proof. intros Hk. apply select_one_key; [done|]. intros r. apply String.eqb_eq. Qed.

Lemma revoked_row_key db k : keys_unique SQL.rv_id (SQL.revocations db) →
  SQL.revoked_row k db = row_of SQL.rv_id k (SQL.revocations db).
Proof. intros Hk. apply select_one_key; [done|]. intros r. apply String.eqb_eq. Qed.

Lemma mirror_issued db k : keys_unique SQL.is_id (SQL.issued_delegations db) →
  PyDict.get k (Mem.issued (mirror db)) = option_map (λ r, (iss_entry r).2) (SQL.issued_row k db).
Proof.
  intros Hk. rewrite issued_row_key by done.
  destruct (row_of SQL.is_id k (SQL.issued_delegations db)) as [r|] eqn:E; simpl.
  - apply row_of_Some in E as [Hin <-]; [|done].
    apply PyDict.elem_get; [by apply (mirror_wf db)|].
    apply list_elem_of_fmap. exists r. by rewrite scan_perm.
  - apply PyDict.get_None. unfold PyDict.keys. rewrite <- list_fmap_compose.
    intros (r & -> & Hin)%list_elem_of_fmap. rewrite scan_perm in Hin. by eapply row_of_None in E.
Qed.

Lemma issued_row_good db k r : db_good db → SQL.issued_row k db = Some r →
  iss_good r ∧ SQL.is_id r = k.
Proof.
  intros Hg Hr. rewrite issued_row_key in Hr by apply Hg.
  apply row_of_Some in Hr as [Hin Hk]; [|apply Hg].
  pose proof (good_iss_rows db Hg) as Hf. rewrite Forall_forall in Hf. split; [by apply Hf|done].
Qed.

Lemma truthy_text_delegate r : iss_good r → SQL.truthy_text (SQL.is_delegate_urn r) = SQL.is_delegate_urn r.
Proof. intros (_ & _ & Hd). destruct (SQL.is_delegate_urn r) as [[|c s]|]; done. Qed.

Lemma issued_by_mirror db d :
  map iss_entry (SQL.issued_by d db)
  = base.filter (λ kv : string * Mem.issue, kv.2.1.1 = d) (Mem.issued (mirror db)).
Proof.
  simpl. unfold SQL.issued_by, select. induction (scan (SQL.issued_delegations db)) as [|r l IH]; [done|].
  simpl. rewrite !filter_cons. simpl.
  destruct (String.eqb_spec (SQL.is_delegator_urn r) d) as [He|He].
  - rewrite !decide_True by done. simpl. by rewrite IH.
  - rewrite decide_False by done. by rewrite decide_False.
Qed.

Lemma issued_ids_mirror db d :
  map SQL.is_id (SQL.issued_by d db) = Mem.list_token_ids_issued_by d (mirror db).
Proof. unfold Mem.list_token_ids_issued_by. rewrite <- issued_by_mirror. by rewrite <- list_fmap_compose. Qed.

(** The walk finds the same children; an empty delegate has none in either store. *)
Lemma child_ids_mirror db tid : db_keyed db → SQL.child_ids tid db = Mem.children tid (mirror db).
Proof.
  intros Hg. unfold SQL.child_ids, Mem.children, SQL.delegate_of, Mem.get_delegate. rewrite mirror_issued by apply Hg.
  destruct (SQL.issued_row tid db) as [r|]; [|done]. simpl.
  destruct (SQL.is_delegate_urn r) as [d|]; [|done]. simpl. destruct (PyStr.truthy d); [|done]. apply issued_ids_mirror.
Qed.

(** *** Writes *)
Lemma put_revocation_mirror db now k reason : db_keyed db → readable now →
  mirror (SQL.put_revocation now k reason db) = Mem.revoke now k reason (mirror db)
  ∧ db_keyed (SQL.put_revocation now k reason db).
Proof.
  intros Hg Hr. pose proof (good_revs db Hg) as Hk. split.
  - unfold Mem.revoke. rewrite (surjective_mirror (SQL.put_revocation now k reason db)). f_equal.
    apply map_eq. intros i. rewrite mirror_revoked by (by apply keys_unique_replace). simpl SQL.revocations.
    rewrite row_of_replace by done. simpl SQL.rv_id. rewrite lookup_insert.
    destruct (decide (i = k)) as [->|Hne].
    + rewrite decide_True by done. simpl. by rewrite date_isoformat.
    + rewrite decide_False by congruence. by rewrite <- mirror_revoked.
  - destruct Hg. split; simpl; try done. by apply keys_unique_replace.
Qed.

Lemma put_revocation_good db now k reason : db_good db → readable now → db_good (SQL.put_revocation now k reason db).
Proof.
  intros [Hg Hv Hi] Hr. split; [by apply put_revocation_mirror| |done]. simpl.
  unfold insert_or_replace. apply Forall_app. split; [by apply Forall_filtered|].
  constructor; [|constructor]. by exists now.
Qed.

(** *** The walk *)
Lemma cascade_loop_mirror fuel fault stamp reason visited stack db :
  db_keyed db → (∀ x, readable (stamp x)) →
  match SQL.cascade_walk fuel fault stamp reason visited stack db with
  | (db', Ret true) =>
      Mem.cascade_loop fuel stamp reason visited stack (mirror db) = Some (mirror db') ∧ db_keyed db'
  | (_, Ret false) => Mem.cascade_loop fuel stamp reason visited stack (mirror db) = None
  | (_, Raise e) => ∃ tid, fault tid = Some e
  end.
Proof.
  intros Hg Hst. revert visited stack db Hg.
  induction fuel as [|fuel IH]; intros visited stack db Hg; [done|].
  destruct stack as [|[tid depth] stack]; [done|]. cbn [SQL.cascade_walk Mem.cascade_loop].
  destruct (bool_decide (tid ∈ visited) || (MAX_CASCADE_DEPTH <? depth)); [by apply IH|].
  destruct (fault tid) as [e|] eqn:Ef; [by exists tid|].
  destruct (put_revocation_mirror db (stamp tid) tid reason Hg (Hst tid)) as [Hm Hg'].
  rewrite <- (child_ids_mirror db tid Hg), <- Hm. by apply IH.
Qed.

End Facts.

(** ** The instance and its file *)
Definition store_ok `{Readers} (s : SQL.t) : Prop :=
  repo_ok (SQL.repo s) ∧ (SQL.migration_done s = true → rp_initialized (SQL.repo s) = true)
  ∧ (SQL.migration_done s = true → str_in "delegate_urn" (SQL.issued_columns (contents SQL.empty_tables (SQL.repo s))) = true).

(** What an operation of the instance works on. *)
Definition view (s : SQL.t) : SQL.tables :=
  let db := contents SQL.empty_tables (SQL.repo s) in
  if SQL.migration_done s then db else SQL._migrate_issued_delegations db.

Section Instance.
  Context `{Readers} `{SqlScan}.

Lemma migrate_columns db : str_in "delegate_urn" (SQL.issued_columns (SQL._migrate_issued_delegations db)) = true.
Proof.
  unfold SQL._migrate_issued_delegations.
  destruct (str_in "delegate_urn" (SQL.issued_columns db)) eqn:E; [done|]. simpl.
  apply str_in_true, elem_of_app. right. by left.
Qed.

Lemma view_columns s : store_ok s → str_in "delegate_urn" (SQL.issued_columns (view s)) = true.
Proof.
  intros (_ & _ & Hc). unfold view. destruct (SQL.migration_done s); [by apply Hc|apply migrate_columns].
Qed.

Lemma ensure_view s : store_ok s →
  repo_ok (SQL.repo (SQL._ensure_schema s)) ∧ rp_initialized (SQL.repo (SQL._ensure_schema s)) = true
  ∧ SQL.migration_done (SQL._ensure_schema s) = true
  ∧ contents SQL.empty_tables (SQL.repo (SQL._ensure_schema s)) = view s.
Proof.
  intros (Hr & Hi & Hc). unfold SQL._ensure_schema, view.
  destruct (ensure_schema_db SQL.empty_tables (SQL.repo s) Hr) as [Hdb Hok].
  assert (Hinit : rp_initialized (Sqlite._ensure_schema SQL.empty_tables (SQL.repo s)) = true).
  { unfold Sqlite._ensure_schema. by destruct (rp_initialized (SQL.repo s)) eqn:E. }
  destruct (SQL.migration_done s); cbn [SQL.repo SQL.migration_done rp_initialized].
  - split_and!; [done|done|done|]. unfold contents at 1. by rewrite Hdb.
  - rewrite Hdb, Hinit. split_and!; try done. unfold repo_ok. simpl. eauto.
Qed.

(** An operation reads the migrated tables, and what it writes is read next. *)
Lemma fetch_view {A} (query : SQL.tables → res sqlexn A) s : store_ok s →
  store_ok (fst (SQL.fetch query s)) ∧ view (fst (SQL.fetch query s)) = view s
  ∧ snd (SQL.fetch query s) = query (view s).
Proof.
  intros Hs. pose proof (view_columns s Hs) as Hcol.
  destruct (ensure_view s Hs) as (Hr & Hi & Hm & Hc). unfold SQL.fetch, SQL.lift.
  destruct (fetch_ok SQL.empty_tables query _ Hr) as (Hok & Hcon & Hout).
  unfold Sqlite.fetch, Sqlite._ensure_schema in *. rewrite Hi in *. rewrite Hm.
  destruct (rp_db (SQL.repo (SQL._ensure_schema s))) as [db|] eqn:Edb; cbn [fst snd] in *;
    rewrite Hc in *; (split_and!; [|unfold view at 1; cbn [SQL.repo SQL.migration_done]; by rewrite Hc|done]);
    unfold store_ok; cbn [SQL.repo SQL.migration_done]; rewrite Hc; done.
Qed.

Lemma execute_view {A} (stmt : SQL.tables → res sqlexn (SQL.tables * A)) s db a :
  store_ok s → stmt (view s) = Ret (db, a) → str_in "delegate_urn" (SQL.issued_columns db) = true →
  store_ok (fst (SQL.execute stmt s)) ∧ view (fst (SQL.execute stmt s)) = db
  ∧ snd (SQL.execute stmt s) = Ret a.
Proof.
  intros Hs Hst Hcol. destruct (ensure_view s Hs) as (Hr & Hi & Hm & Hc). unfold SQL.execute, SQL.lift.
  unfold Sqlite.execute, Sqlite._ensure_schema. rewrite Hi, Hm.
  destruct (Hr Hi) as [d Hd]. unfold contents in Hc. rewrite Hd in *. simpl in Hc. subst d.
  rewrite Hst. cbn [fst snd]. split_and!; [|done|done].
  unfold store_ok, repo_ok. simpl. eauto.
Qed.

Lemma transaction_view {A} (body : SQL.tables → SQL.tables * res sqlexn A) s :
  store_ok s → str_in "delegate_urn" (SQL.issued_columns (fst (body (view s)))) = true →
  store_ok (fst (SQL.transaction body s))
  ∧ view (fst (SQL.transaction body s)) =
      match snd (body (view s)) with Ret _ => fst (body (view s)) | Raise _ => view s end
  ∧ snd (SQL.transaction body s) = snd (body (view s)).
Proof.
  intros Hs Hcol. pose proof (view_columns s Hs) as Hcs.
  destruct (ensure_view s Hs) as (Hr & Hi & Hm & Hc). unfold SQL.transaction, SQL.lift.
  unfold Sqlite.transaction, Sqlite._ensure_schema. rewrite Hi, Hm.
  destruct (Hr Hi) as [d Hd]. unfold contents in Hc. rewrite Hd in *. simpl in Hc. subst d.
  destruct (body (view s)) as [db [e|a]]; cbn [fst snd] in *; split_and!; try done.
  - unfold store_ok, contents. cbn [SQL.repo SQL.migration_done]. rewrite Hd. done.
  - unfold view at 1. cbn [SQL.repo SQL.migration_done]. unfold contents. by rewrite Hd.
  - unfold store_ok, repo_ok. simpl. eauto.
Qed.

(** ** The cascade *)
Lemma cascade_loop_columns fuel fault stamp reason visited stack db :
  SQL.issued_columns (fst (SQL.cascade_walk fuel fault stamp reason visited stack db)) = SQL.issued_columns db.
Proof.
  revert visited stack db. induction fuel as [|fuel IH]; intros visited stack db; [done|].
  destruct stack as [|[tid depth] stack]; [done|]. cbn [SQL.cascade_walk].
  destruct (_ || _); [apply IH|]. destruct (fault tid); [done|]. by rewrite IH.
Qed.

Lemma length_mirror db : length (Mem.issued (mirror db)) = length (SQL.issued_delegations db).
Proof. simpl. rewrite length_map. apply Permutation_length, scan_perm. Qed.

Lemma cascade_outcome fault stamp root reason s :
  store_ok s → db_keyed (view s) → (∀ x, readable (stamp x)) →
  let '(s', out) := SQL._revoke_cascade_atomic fault stamp root reason s in
  store_ok s' ∧
  match out with
  | Ret true => Mem.revoke_cascade stamp root reason (mirror (view s)) = Some (mirror (view s')) ∧ db_keyed (view s')
  | Ret false => False
  | Raise e => view s' = view s ∧ ∃ tid, fault tid = Some e
  end.
Proof.
  intros Hs Hg Hst. unfold SQL._revoke_cascade_atomic. set (body := λ db, _).
  destruct (transaction_view body s Hs) as (Hok & Hv & Hout).
  { subst body. cbn beta zeta. rewrite cascade_loop_columns. by apply view_columns. }
  destruct (SQL.transaction body s) as [s' out]. cbn [fst snd] in *. split; [done|]. rewrite Hv. subst out.
  pose proof (cascade_loop_mirror
    (2 + (1 + length (SQL.issued_delegations (view s))) * length (SQL.issued_delegations (view s)))
    fault stamp reason ∅ [(root, 0)] (view s) Hg Hst) as Hl.
  destruct (revoke_cascade_total stamp root reason (mirror (view s))) as [m' Hm'].
  unfold Mem.revoke_cascade, Mem.cascade_fuel in *. rewrite length_mirror in *. subst body. cbn beta zeta.
  destruct (SQL.cascade_walk _ _ _ _ _ _ _) as [db' [e|[]]]; cbn [fst snd]; [done|done|].
  by rewrite Hl in Hm'.
Qed.

End Instance.

(** ** The operations against the in-memory store *)
Section Refinement.
  Context `{Readers} `{SqlScan}.

Record agrees (s : SQL.t) (m : Mem.t) : Prop := {
  ag_store : store_ok s;
  ag_good : db_good (view s);
  ag_revoked : Mem.revoked (mirror (view s)) = Mem.revoked m;
  ag_issued : Mem.issued (mirror (view s)) ≡ₚ Mem.issued m
}.

Lemma fetch_agrees {A} (query : SQL.tables → res sqlexn A) s m : agrees s m →
  agrees (fst (SQL.fetch query s)) m ∧ snd (SQL.fetch query s) = query (view s).
Proof.
  intros [Hs Hg Hr Hi]. destruct (fetch_view query s Hs) as (? & Hv & ?).
  split; [|done]. by split; rewrite ?Hv.
Qed.

Lemma agrees_wf s m : agrees s m → PyDict.wf (Mem.issued m).
Proof.
  intros [_ Hg _ Hi]. pose proof (mirror_wf (view s) (good_iss _ Hg)) as Hw.
  unfold PyDict.wf, PyDict.keys in *. by rewrite <- Hi.
Qed.

(** The row of a token, in both stores. *)
Lemma agrees_issued s m k : agrees s m →
  PyDict.get k (Mem.issued m) = option_map (λ r, (iss_entry r).2) (SQL.issued_row k (view s)).
Proof.
  intros [_ Hg _ Hi]. rewrite <- mirror_issued by apply Hg. symmetry.
  apply PyDict.get_Permutation; [by apply mirror_wf, Hg|done].
Qed.

Lemma agrees_revoked s m k : agrees s m →
  Mem.revoked m !! k = option_map (λ r, (rev_entry r).2) (SQL.revoked_row k (view s)).
Proof.
  intros [_ Hg Hr _]. rewrite <- Hr, mirror_revoked by apply Hg. by rewrite revoked_row_key by apply Hg.
Qed.

Lemma issued_date db k r : db_good db → SQL.issued_row k db = Some r →
  SQL.truthy_text (Some (SQL.is_created_at r)) = Some (SQL.is_created_at r)
  ∧ (∀ now, SQL.date_or_now now (SQL.is_created_at r) = SQL.date_or_now 0 (SQL.is_created_at r))
  ∧ option_map to_utc (parse_iso (Some (SQL.is_created_at r))) = Some (SQL.date_or_now 0 (SQL.is_created_at r)).
Proof.
  intros Hg Hr. destruct (issued_row_good db k r Hg Hr) as [((us & Hread & ->) & _) _].
  cbn [SQL.truthy_text]. rewrite truthy_isoformat. split_and!; [done| |].
  - intros now. by rewrite !date_isoformat.
  - rewrite parse_isoformat, date_isoformat by done. simpl. f_equal. lia.
Qed.

Lemma revoked_date db k r : db_good db → SQL.revoked_row k db = Some r →
  option_map to_utc (parse_iso (SQL.truthy_text (Some (SQL.rv_revoked_at r))))
  = Some (SQL.date_or_now 0 (SQL.rv_revoked_at r)).
Proof.
  intros Hg Hr. rewrite revoked_row_key in Hr by apply Hg. apply row_of_Some in Hr as [Hin _]; [|apply Hg].
  pose proof (good_rev_rows db Hg) as Hf. rewrite Forall_forall in Hf.
  destruct (Hf r Hin) as (us & Hread & ->). cbn [SQL.truthy_text]. rewrite truthy_isoformat.
  rewrite parse_isoformat, date_isoformat by done. simpl. f_equal. lia.
Qed.

Lemma agrees_revoke s m now k reason : agrees s m → readable now →
  agrees (fst (SQL.revoke now k reason s)) (Mem.revoke now k reason m) ∧ snd (SQL.revoke now k reason s) = Ret tt.
Proof.
  intros [Hs Hg Hr Hi] Hnow. unfold SQL.revoke.
  destruct (put_revocation_mirror (view s) now k reason (good_keyed _ Hg) Hnow) as [Hm _].
  pose proof (put_revocation_good (view s) now k reason Hg Hnow) as Hg'.
  destruct (execute_view (λ db, Ret (SQL.put_revocation now k reason db, tt)) s _ _ Hs eq_refl) as (? & Hv & ?);
    [by apply view_columns|].
  split; [|done]. split; rewrite ?Hv; [done|done|rewrite Hm; simpl; by rewrite <- Hr|rewrite Hm; done].
Qed.

Lemma filter_iss_entry k l :
  map iss_entry (base.filter (λ x, SQL.is_id x ≠ k) l)
  = base.filter (λ kv : string * Mem.issue, kv.1 ≠ k) (map iss_entry l).
Proof.
  induction l as [|r l IH]; [done|]. cbn [map]. rewrite !filter_cons.
  destruct (decide (SQL.is_id r = k)) as [He|He].
  - rewrite !decide_False by (simpl; naive_solver). exact IH.
  - rewrite !decide_True by (simpl; naive_solver). cbn [map]. by rewrite IH.
Qed.

Lemma agrees_register s m now k delegator delegate : agrees s m → readable now →
  PyStr.truthy delegator = true → delegate ≠ Some ""%string →
  agrees (fst (SQL.register_issued now k delegator delegate s)) (Mem.register_issued now k delegator delegate m)
  ∧ snd (SQL.register_issued now k delegator delegate s) = Ret tt.
Proof.
  intros Ha Hnow Hd1 Hd2. pose proof (agrees_wf _ _ Ha) as Hwf. destruct Ha as [Hs Hg Hr Hi].
  pose proof (view_columns s Hs) as Hcol. unfold SQL.register_issued.
  set (row := SQL.mkIss k delegator delegate (isoformat now)). set (stmt := λ db : SQL.tables, _).
  destruct (execute_view stmt s (SQL.mkTables (SQL.revocations (view s))
      (insert_or_replace SQL.is_id row (SQL.issued_delegations (view s))) (SQL.issued_columns (view s))) tt Hs)
    as (? & Hv & ?); [subst stmt; unfold SQL.with_delegate; by rewrite Hcol|done|].
  split; [|done]. split; rewrite ?Hv; [done| |done|].
  - destruct Hg as [[? ? ?] ? ?]. split; [split; simpl; try done; by apply keys_unique_replace|done|]. simpl.
    unfold insert_or_replace. apply Forall_app. split; [by apply Forall_filtered|].
    constructor; [|constructor]. split; [by exists now|done].
  - cbn [Mem.register_issued Mem.issued mirror SQL.issued_delegations].
    rewrite PyDict.set_Permutation, <- Hi by done. cbn [mirror Mem.issued]. rewrite !scan_perm.
    unfold insert_or_replace. rewrite map_app. cbn [map].
    replace (iss_entry row) with (k, (delegator, delegate, now))
      by (subst row; unfold iss_entry; cbn [SQL.is_id SQL.is_delegator_urn SQL.is_delegate_urn SQL.is_created_at];
          by rewrite date_isoformat).
    f_equiv.
    by rewrite filter_iss_entry.
Qed.

Lemma agrees_reads s m k now : agrees s m →
  snd (SQL.is_revoked k s) = Ret (Mem.is_revoked k m)
  ∧ snd (SQL.get_delegator k s) = Ret (Mem.get_delegator k m)
  ∧ snd (SQL.get_delegate k s) = Ret (Mem.get_delegate k m)
  ∧ snd (SQL.get_issued_at k s) = Ret (Mem.get_issued_at k m)
  ∧ snd (SQL.get_revoked_at k s) = Ret (Mem.get_revoked_at k m)
  ∧ snd (SQL.get_token_detail now k s) = Ret (Mem.get_token_detail k m).
Proof.
  intros Ha. pose proof (agrees_issued s m k Ha) as Hi. pose proof (agrees_revoked s m k Ha) as Hr.
  pose proof (view_columns s (ag_store _ _ Ha)) as Hcol. pose proof (ag_good _ _ Ha) as Hg.
  unfold SQL.is_revoked, SQL.get_delegator, SQL.get_delegate, SQL.get_issued_at, SQL.get_revoked_at,
    SQL.get_token_detail.
  split_and!; rewrite (proj2 (fetch_agrees _ _ _ Ha)); unfold SQL.with_delegate; rewrite ?Hcol; f_equal.
  - unfold Mem.is_revoked. rewrite Hr. fold (SQL.revoked_row k (view s)). by destruct (SQL.revoked_row k (view s)).
  - unfold Mem.get_delegator. rewrite Hi. destruct (SQL.issued_row k (view s)) as [r|] eqn:E; [|done]. simpl.
    destruct (issued_row_good _ k r Hg E) as [(_ & -> & _) _]. done.
  - unfold Mem.get_delegate, SQL.delegate_of. rewrite Hi. destruct (SQL.issued_row k (view s)) as [r|] eqn:E; [|done].
    simpl. apply truthy_text_delegate. by eapply issued_row_good.
  - unfold Mem.get_issued_at. rewrite Hi. destruct (SQL.issued_row k (view s)) as [r|] eqn:E; [|done].
    destruct (issued_date _ k r Hg E) as (Ht & _ & Hp). cbn [option_map]. rewrite Ht. exact Hp.
  - unfold Mem.get_revoked_at. rewrite Hr. destruct (SQL.revoked_row k (view s)) as [r|] eqn:E; [|done].
    cbn [option_map]. rewrite (revoked_date _ k r Hg E). done.
  - unfold Mem.get_token_detail. rewrite Hi, Hr. destruct (SQL.issued_row k (view s)) as [r|] eqn:E; [|done].
    cbn [option_map iss_entry snd]. destruct (issued_row_good _ k r Hg E) as [Hgr Hid].
    destruct (issued_date _ k r Hg E) as (_ & Hn & _).
    rewrite truthy_text_delegate, Hn, Hid by done. do 2 f_equal.
    + by destruct (SQL.revoked_row k (view s)).
    + destruct (SQL.revoked_row k (view s)) as [x|] eqn:Ex; [|done]. cbn [option_map].
      by rewrite (revoked_date _ k x Hg Ex).
Qed.

Lemma agrees_listings s m delegator now : agrees s m →
  (∃ ids, snd (SQL.list_token_ids_issued_by delegator s) = Ret ids
          ∧ ids ≡ₚ Mem.list_token_ids_issued_by delegator m)
  ∧ (∃ l, snd (SQL.list_issued_summaries now delegator s) = Ret l
          ∧ l ≡ₚ Mem.list_issued_summaries delegator m).
Proof.
  intros Ha. pose proof (ag_issued _ _ Ha) as Hp. pose proof (view_columns s (ag_store _ _ Ha)) as Hcol.
  pose proof (good_iss_rows _ (ag_good _ _ Ha)) as Hgood.
  unfold SQL.list_token_ids_issued_by, SQL.list_issued_summaries.
  split; rewrite (proj2 (fetch_agrees _ _ _ Ha)); unfold SQL.with_delegate; rewrite ?Hcol; eexists;
    (split; [done|]).
  - rewrite issued_ids_mirror. unfold Mem.list_token_ids_issued_by. by rewrite Hp.
  - unfold Mem.list_issued_summaries. rewrite <- Hp, <- issued_by_mirror, map_map.
    rewrite (PySort.sorted_Permutation SQL.newest_first).
    erewrite map_ext_in; [done|]. intros r Hr. apply list_elem_of_In, elem_of_select in Hr as [_ Hin].
    rewrite Forall_forall in Hgood. pose proof (Hgood r Hin) as Hg.
    rewrite truthy_text_delegate by done. destruct Hg as ((us & Hread & Hus) & _).
    simpl. rewrite Hus. by rewrite !date_isoformat.
Qed.

Lemma fold_set_ext {V} (f g : string → V) l d : (∀ k, k ∈ l → f k = g k) →
  fold_left (λ d k, PyDict.set k (f k) d) l d = fold_left (λ d k, PyDict.set k (g k) d) l d.
Proof.
  revert d. induction l as [|k l IH]; intros d Hfg; [done|]. simpl.
  rewrite (Hfg k) by (by left). apply IH. intros k' Hk'. apply Hfg. by right.
Qed.

Lemma agrees_are_revoked s m ids : agrees s m →
  snd (SQL.are_revoked ids s) = Ret (Mem.are_revoked ids m).
Proof.
  intros Ha. pose proof (ag_good _ _ Ha) as Hg. unfold SQL.are_revoked.
  destruct ids as [|i ids]; [done|]. set (l := i :: ids) in *.
  rewrite (proj2 (fetch_agrees _ _ _ Ha)). f_equal. apply fold_set_ext. intros k Hk.
  apply eq_true_iff_eq. rewrite str_in_true, list_elem_of_fmap. unfold Mem.is_revoked.
  rewrite (agrees_revoked s m k Ha), revoked_row_key by apply Hg.
  destruct (row_of SQL.rv_id k (SQL.revocations (view s))) as [r|] eqn:E; simpl.
  - split; [done|]. intros _. apply row_of_Some in E as [Hin <-]; [|apply Hg].
    exists r. split; [done|]. apply elem_of_select. split; [by apply str_in_true|done].
  - split; [|done]. intros (r & -> & [_ Hin]%elem_of_select). exfalso. by eapply row_of_None in E.
Qed.

End Refinement.

(** ** Properties *)

(** What a cascade from [root] did, between two meanings of the tables: the
    token is revoked, no revocation is lost, beyond it only tokens derived from it
    are revoked, and all of those when no more tokens are issued than the depth
    limit counts. *)
Definition cascaded (root : string) (before after : Mem.t) : Prop :=
  Mem.issued after = Mem.issued before ∧ Mem.is_revoked root after = true ∧
  (∀ x, Mem.is_revoked x before = true → Mem.is_revoked x after = true) ∧
  (∀ x, Mem.is_revoked x after = true → Mem.is_revoked x before = true ∨ rtc (child before) root x) ∧
  (Z.of_nat (length (Mem.issued before)) <= MAX_CASCADE_DEPTH →
   ∀ x, rtc (child before) root x → Mem.is_revoked x after = true).

Lemma cascaded_memory stamp root reason m m' :
  Mem.revoke_cascade stamp root reason m = Some m' → cascaded root m m'.
Proof.
  intros Hm. destruct (revoke_cascade_sound _ _ _ _ _ Hm) as (? & ? & ? & ?). split_and!; [done..|].
  intros Hlen x Hx. destruct (cascade_complete_within_limit stamp root reason m Hlen) as (m2 & Hm2 & Hc).
  rewrite Hm in Hm2. injection Hm2 as <-. apply Hc. by right.
Qed.

(** C16: A cascading revocation on SQLite ends, and is all or nothing, on any
    database with its primary keys and with a clock whose readings read back.
    When no statement fails, the tables afterwards mean exactly what the
    in-memory cascade makes of what they meant before: the token is revoked, no
    revocation is lost, every other token that becomes revoked derives from it,
    and all tokens that derive from it are revoked when at most 50 are issued
    (with more, the walk can miss some).  When the database fails at any
    insertion, the error is raised and every table is as it was. *)
Theorem sqlite_cascade_is_atomic `{Readers} `{SqlScan} (fault : string → option sqlexn) (stamp : string → Z)
    (root : string) (reason : option string) (s : SQL.t) :
  store_ok s → db_keyed (view s) → (∀ x, readable (stamp x)) →
  match SQL._revoke_cascade_atomic fault stamp root reason s with
  | (s', Ret ended) =>
      ended = true ∧ db_keyed (view s')
      ∧ Mem.revoke_cascade stamp root reason (mirror (view s)) = Some (mirror (view s'))
      ∧ cascaded root (mirror (view s)) (mirror (view s'))
  | (s', Raise e) => view s' = view s ∧ ∃ tid, fault tid = Some e
  end.
Proof.
  intros Hs Hg Hst. pose proof (cascade_outcome fault stamp root reason s Hs Hg Hst) as Ho.
  destruct (SQL._revoke_cascade_atomic fault stamp root reason s) as [s' [e|[]]]; destruct Ho as [_ Ho]; [done| |done].
  destruct Ho as [Hm ?]. split_and!; [done..|]. by eapply cascaded_memory.
Qed.

(** Every other operation of the SQLite store does what the in-memory store does:
    the writes keep the two in agreement and every answer is the same, listings
    up to the order of their entries; an old file is migrated on the way. *)
Theorem sqlite_delegations_refine_memory `{Readers} `{SqlScan} (s : SQL.t) (m : Mem.t) (now : Z)
    (k delegator : string) (delegate reason : option string) (ids : list string) :
  agrees s m → readable now → PyStr.truthy delegator = true → delegate ≠ Some ""%string →
  agrees (fst (SQL.revoke now k reason s)) (Mem.revoke now k reason m)
  ∧ agrees (fst (SQL.register_issued now k delegator delegate s)) (Mem.register_issued now k delegator delegate m)
  ∧ snd (SQL.is_revoked k s) = Ret (Mem.is_revoked k m)
  ∧ snd (SQL.get_delegator k s) = Ret (Mem.get_delegator k m)
  ∧ snd (SQL.get_delegate k s) = Ret (Mem.get_delegate k m)
  ∧ snd (SQL.get_issued_at k s) = Ret (Mem.get_issued_at k m)
  ∧ snd (SQL.get_revoked_at k s) = Ret (Mem.get_revoked_at k m)
  ∧ snd (SQL.get_token_detail now k s) = Ret (Mem.get_token_detail k m)
  ∧ snd (SQL.are_revoked ids s) = Ret (Mem.are_revoked ids m)
  ∧ (∃ l, snd (SQL.list_token_ids_issued_by delegator s) = Ret l ∧ l ≡ₚ Mem.list_token_ids_issued_by delegator m)
  ∧ (∃ l, snd (SQL.list_issued_summaries now delegator s) = Ret l ∧ l ≡ₚ Mem.list_issued_summaries delegator m).
Proof.
  intros Ha Hnow Hd1 Hd2. destruct (agrees_reads s m k now Ha) as (?&?&?&?&?&?).
  destruct (agrees_listings s m delegator now Ha) as [? ?].
  split_and!; try done; [by apply agrees_revoke|by apply agrees_register|by apply agrees_are_revoked].
Qed.

(** An empty delegate URN is `""` in memory and `None` on SQLite. *)
Lemma empty_delegate_diverges `{Readers} `{SqlScan} :
  let s := fst (SQL.register_issued 0 "tok" "urn:a" (Some ""%string) (SQL.init None)) in
  let m := Mem.register_issued 0 "tok" "urn:a" (Some ""%string) Mem.init in
  snd (SQL.get_delegate "tok" s) = Ret None ∧ Mem.get_delegate "tok" m = Some ""%string.
Proof.
  split; [|done].
  assert (Hs : ∀ r : SQL.iss_row, scan [r] = [r])
    by (intros r; apply Permutation_length_1_inv, symmetry, scan_perm).
  cbv -[scan isoformat]. by rewrite Hs.
Qed.

(** Readers for the texts of the examples. *)
#[local] Instance demo_readers : Readers := {|
  iso_read := λ s, if String.eqb s (isoformat 0) then Some (Aware 0 0) else None;
  loads := λ _, None |}.
#[local] Instance demo_scan : SqlScan := {| scan := λ R l, reverse l; scan_perm := λ R l, reverse_Permutation l |}.

Definition demo_db : SQL.tables :=
  SQL.mkTables []
    [SQL.mkIss "t1" "urn:a" (Some "urn:b"%string) (isoformat 0); SQL.mkIss "t2" "urn:b" (Some "urn:c"%string) (isoformat 0);
     SQL.mkIss "t3" "urn:c" None (isoformat 0)]
    ["id"; "delegator_urn"; "delegate_urn"; "created_at"]%string.

Lemma demo_db_good : db_good demo_db.
Proof.
  assert (Hr : readable 0) by reflexivity.
  split; [split; [by vm_compute; constructor| |done]|constructor|].
  - unfold keys_unique. simpl. repeat (apply NoDup_cons; split; [set_solver|]). constructor.
  - repeat (apply Forall_cons; split;
      [split; [exists 0; split; [exact Hr|reflexivity]|split; [reflexivity|discriminate]]|]). constructor.
Qed.

(** The third token has an empty delegate, and the failing insertion is a fourth
    token's: the cascade from the first revokes the three. *)
Definition open_db : SQL.tables :=
  SQL.mkTables []
    [SQL.mkIss "t1" "urn:a" (Some "urn:b"%string) (isoformat 0); SQL.mkIss "t2" "urn:b" (Some "urn:c"%string) (isoformat 0);
     SQL.mkIss "t3" "urn:c" (Some ""%string) "no date"; SQL.mkIss "t4" "" None (isoformat 0)]
    ["id"; "delegator_urn"; "delegate_urn"; "created_at"]%string.

Lemma sqlite_cascade_is_atomic_witness :
  let fault x := if String.eqb x "t4" then Some (OperationalError "disk I/O error") else None in
  let s := SQL.init (Some open_db) in
  match SQL._revoke_cascade_atomic fault (λ _, 0) "t1" None s with
  | (s', Ret ended) =>
      ended = true ∧ cascaded "t1" (mirror open_db) (mirror (view s')) ∧
      map (λ k, Mem.is_revoked k (mirror (view s'))) ["t1"; "t2"; "t3"; "t4"]%string = [true; true; true; false]
  | (s', Raise e) => False
  end.
Proof.
  intros fault s. assert (Hk : db_keyed (view s)).
  { split; [by vm_compute; constructor| |done].
    unfold keys_unique. simpl. repeat (apply NoDup_cons; split; [set_solver|]). constructor. }
  pose proof (sqlite_cascade_is_atomic fault (λ _, 0) "t1" None s) as Ht.
  specialize (Ht ltac:(done) Hk (λ _, eq_refl)).
  destruct (SQL._revoke_cascade_atomic fault (λ _, 0) "t1" None s) as [s' [e|ended]] eqn:Hr.
  - vm_compute in Hr. discriminate Hr.
  - destruct Ht as (He & _ & _ & Hc). split; [exact He|]. split; [exact Hc|].
    vm_compute in Hr. injection Hr as <- _. vm_compute. reflexivity.
Defined.

Lemma sqlite_delegations_refine_memory_witness :
  snd (SQL.is_revoked "t1" (SQL.init (Some demo_db))) = Ret (Mem.is_revoked "t1" (mirror demo_db)).
Proof.
  apply (sqlite_delegations_refine_memory (SQL.init (Some demo_db)) (mirror demo_db) 0 "t1" "urn:a" None None []);
    [|reflexivity|reflexivity|done].
  split; [done|exact demo_db_good|done|done].
Defined.
