(* ===== verification/AuditChain.v ===== *)
(** * Audit log: the SHA-256 hash chain

    `src/src/asap/economics/audit.py`: the hash of an entry and the in-memory
    store with `append`, `query`, `verify_chain` and `count`.  Details are JSON
    objects, so `json.dumps` never falls back to its `default`. *)

From Stdlib Require Import ZArith Lia Ascii String.
From stdpp Require Import base tactics list gmap strings.
From S2P Require Import Prelude PyValue Digest Identity.
Open Scope Z_scope.
Open Scope asap_scope.

Record AuditEntry : Type := mkEntry {
  ae_id : string;
  ae_timestamp : pydatetime;
  ae_operation : string;
  ae_agent_urn : string;
  ae_details : list (string * json);
  ae_prev_hash : string;
  ae_hash : string
}.

Definition seal (prev_hash hash : string) (e : AuditEntry) : AuditEntry :=
  mkEntry (ae_id e) (ae_timestamp e) (ae_operation e) (ae_agent_urn e) (ae_details e) prev_hash hash.

Section Chain.
  Context `{PyRuntime}.

Definition canonical (prev_hash : string) (timestamp : pydatetime) (operation : string)
    (details : list (string * json)) : string :=
  (prev_hash ++ "|" ++ isoformat_dt timestamp ++ "|" ++ operation ++ "|"
   ++ json_dumps float_repr ", " ": " true (JObj details))%string.

Definition compute_entry_hash (prev_hash : string) (timestamp : pydatetime) (operation : string)
    (details : list (string * json)) : string :=
  sha256_hex (canonical prev_hash timestamp operation details).

End Chain.

(** `l[i:j]` for any integers. *)
Definition slice_index (n i : Z) : nat :=
  Z.to_nat (if i <? 0 then Z.max 0 (n + i) else Z.min i n).
Definition py_slice {A} (i j : Z) (l : list A) : list A :=
  let n := Z.of_nat (length l) in
  let a := slice_index n i in
  let b := slice_index n j in
  take (b - a) (drop a l).

(** `a <= b` on datetimes. *)
Definition dt_le (a b : pydatetime) : res pyexn bool :=
  match a, b with
  | Naive x, Naive y => Ret (x <=? y)
  | Aware x xo, Aware y yo => Ret (x - xo <=? y - yo)
  | _, _ => Raise (TypeError "can't compare offset-naive and offset-aware datetimes")
  end.

(** A list comprehension whose condition may raise. *)
Fixpoint filter_res {A} (f : A → res pyexn bool) (l : list A) : res pyexn (list A) :=
  match l with
  | [] => Ret []
  | x :: l' =>
      let! keep := f x in
      let! rest := filter_res f l' in
      Ret (if (keep : bool) then x :: rest else rest)
  end.

Module InMemoryAuditStore.
Section Store.
  Context `{PyRuntime}.

Abbreviation t := (list AuditEntry).

(** `self._entries[-1].hash if self._entries else ""` *)
Definition last_hash (s : t) : string :=
  match last s with Some e => ae_hash e | None => "" end.

Definition append (entry : AuditEntry) (s : t) : t * AuditEntry :=
  let prev_hash := last_hash s in
  let computed_hash :=
    compute_entry_hash prev_hash (ae_timestamp entry) (ae_operation entry) (ae_details entry) in
  let sealed := seal prev_hash computed_hash entry in
  (s ++ [sealed], sealed).

Definition query (agent_urn : option string) (start end_ : option pydatetime) (limit offset : Z)
    (s : t) : res pyexn (list AuditEntry) :=
  let by_agent :=
    match agent_urn with
    | Some u => if PyStr.truthy u then filter (λ e, ae_agent_urn e = u) s else s
    | None => s
    end in
  let! from_start :=
    match start with
    | Some t0 => filter_res (λ e, dt_le t0 (ae_timestamp e)) by_agent
    | None => Ret by_agent
    end in
  let! until_end :=
    match end_ with
    | Some t1 => filter_res (λ e, dt_le (ae_timestamp e) t1) from_start
    | None => Ret from_start
    end in
  Ret (py_slice offset (offset + limit) until_end).

Fixpoint verify_from (prev_hash : string) (s : t) : bool :=
  match s with
  | [] => true
  | entry :: s' =>
      let expected :=
        compute_entry_hash prev_hash (ae_timestamp entry) (ae_operation entry) (ae_details entry) in
      if negb (String.eqb (ae_hash entry) expected) || negb (String.eqb (ae_prev_hash entry) prev_hash)
      then false
      else verify_from (ae_hash entry) s'
  end.

Definition verify_chain (s : t) : bool := verify_from "" s.

Definition count (s : t) : Z := Z.of_nat (length s).

End Store.
End InMemoryAuditStore.

(** ** Lemmas *)
Import InMemoryAuditStore.

(** No `|` in a string. *)
Fixpoint no_bar (s : string) : bool :=
  match s with
  | EmptyString => true
  | String c s' => negb (Ascii.eqb c "|") && no_bar s'
  end.

Lemma no_bar_split a b r r' :
  no_bar a = true → no_bar b = true → (a ++ "|" ++ r = b ++ "|" ++ r')%string → a = b.
Proof.
  revert b. induction a as [|c a IH]; intros [|d b]; cbn; intros Ha Hb He; try done.
  - injection He as <- _. apply andb_prop in Hb as [Hb _]. by rewrite Ascii.eqb_refl in Hb.
  - injection He as -> _. apply andb_prop in Ha as [Ha _]. by rewrite Ascii.eqb_refl in Ha.
  - injection He as -> He. reflect. f_equal. by apply IH.
Qed.

Lemma hex_digit_no_bar n : 0 <= n < 16 → Ascii.eqb (hex_digit n) "|" = false.
Proof.
  intros Hn.
  assert (n = 0 ∨ n = 1 ∨ n = 2 ∨ n = 3 ∨ n = 4 ∨ n = 5 ∨ n = 6 ∨ n = 7 ∨ n = 8 ∨ n = 9 ∨ n = 10
          ∨ n = 11 ∨ n = 12 ∨ n = 13 ∨ n = 14 ∨ n = 15) as Hc by lia.
  destruct_or! Hc; subst n; reflexivity.
Qed.

Lemma hex_no_bar m : Forall (λ b, 0 <= b < 256) m → no_bar (hex m) = true.
Proof.
  induction 1 as [|b m Hb _ IH]; [done|]. cbn [hex no_bar].
  rewrite IH, !hex_digit_no_bar; [done|..].
  - change 15 with (Z.ones 4). rewrite Z.land_ones by lia. apply Z.mod_pos_bound. lia.
  - rewrite Z.shiftr_div_pow2 by lia. change (2 ^ 4) with 16.
    split; [apply Z.div_pos; lia|apply Z.div_lt_upper_bound; lia].
Qed.

Lemma sha256_hex_no_bar s : no_bar (sha256_hex s) = true.
Proof. apply hex_no_bar, digest_range. Qed.

Section ChainLemmas.
  Context `{PyRuntime}.
  Implicit Types s : list AuditEntry.

(** What one entry must satisfy after [prev]. *)
Definition linked (prev : string) (e : AuditEntry) : bool :=
  String.eqb (ae_hash e) (compute_entry_hash prev (ae_timestamp e) (ae_operation e) (ae_details e))
  && String.eqb (ae_prev_hash e) prev.

Lemma verify_from_cons prev e s :
  verify_from prev (e :: s) = linked prev e && verify_from (ae_hash e) s.
Proof.
  cbn [verify_from]. unfold linked.
  destruct (String.eqb (ae_hash e) _), (String.eqb (ae_prev_hash e) prev); done.
Qed.

Definition last_from (prev : string) s : string :=
  match last s with Some e => ae_hash e | None => prev end.

Lemma verify_from_snoc prev s e :
  verify_from prev (s ++ [e]) = verify_from prev s && linked (last_from prev s) e.
Proof.
  revert prev. induction s as [|x s IH]; intros prev.
  { rewrite app_nil_l, verify_from_cons. apply andb_true_r. }
  change ((x :: s) ++ [e]) with (x :: (s ++ [e])). rewrite !verify_from_cons, IH, andb_assoc. f_equal.
  f_equal. unfold last_from. destruct s as [|y s]; [done|]. rewrite (last_cons x (y :: s)).
  destruct (last (y :: s)) eqn:E; [done|]. by apply last_None in E.
Qed.

Lemma verify_chain_snoc s e :
  verify_chain (s ++ [e]) = verify_chain s && linked (last_hash s) e.
Proof. apply verify_from_snoc. Qed.

Lemma verify_append e s : verify_chain s = true → verify_chain (fst (append e s)) = true.
Proof.
  intros Hs. unfold append. cbn [fst]. rewrite verify_chain_snoc, Hs. unfold linked, seal. cbn.
  by rewrite !String.eqb_refl.
Qed.

Lemma last_hash_no_bar s : verify_chain s = true → no_bar (last_hash s) = true.
Proof.
  destruct s as [|e s _] using rev_ind; [done|]. rewrite verify_chain_snoc. unfold last_hash.
  rewrite last_snoc. unfold linked. intros [_ [Hh%String.eqb_eq _]%andb_prop]%andb_prop.
  rewrite Hh. apply sha256_hex_no_bar.
Qed.
End ChainLemmas.

(** ** Properties *)

(** Appending never breaks the chain: from a store that verifies, any
    sequence of appends gives a store that verifies, keeps the earlier entries
    as they were, and holds the appended ones in order, each with the same
    content as submitted. *)
Theorem appends_keep_chain `{PyRuntime} (s es : list AuditEntry) :
  verify_chain s = true →
  let s' := fold_left (λ acc e, fst (append e acc)) es s in
  verify_chain s' = true ∧ count s' = count s + Z.of_nat (length es) ∧
  ∃ added, s' = s ++ added ∧
    Forall2 (λ e a, a = seal (ae_prev_hash a) (ae_hash a) e) es added.
Proof.
  revert s. induction es as [|e es IH]; intros s Hs; cbn [fold_left].
  { split_and!; [done|cbn; lia|]. exists []. by rewrite app_nil_r. }
  destruct (IH (fst (append e s)) (verify_append e s Hs)) as (Hv & Hc & added & Ha & Hf).
  split_and!; [done|rewrite Hc; unfold count, append; cbn; rewrite length_app; cbn; lia|].
  unfold append in Ha. cbn [fst] in Ha. rewrite <- app_assoc in Ha.
  eexists. split; [exact Ha|]. constructor; [done|done].
Qed.

(** The text whose digest an entry's hash must be. *)
Definition hashed_text `{PyRuntime} (e : AuditEntry) : string :=
  canonical (ae_prev_hash e) (ae_timestamp e) (ae_operation e) (ae_details e).

(** Entries at the same place of two stores, with different texts of one digest. *)
Definition entries_collide `{PyRuntime} (s1 s2 : list AuditEntry) : Prop :=
  ∃ i a b, s1 !! i = Some a ∧ s2 !! i = Some b
    ∧ hashed_text a ≠ hashed_text b ∧ sha256_hex (hashed_text a) = sha256_hex (hashed_text b).

(** C40: tamper evidence: two stores of the same length that verify and end in
    the same hash agree, entry by entry, on the hash, the link to the previous
    entry and the hashed text (timestamp, operation and details), or else two of
    their own entries, at the same place, are a collision of SHA-256: their
    hashed texts differ and have the same digest. *)
Theorem same_head_same_history `{PyRuntime} (s1 s2 : list AuditEntry) :
  verify_chain s1 = true → verify_chain s2 = true → length s1 = length s2 →
  last_hash s1 = last_hash s2 →
  Forall2 (λ a b, ae_hash a = ae_hash b ∧ ae_prev_hash a = ae_prev_hash b ∧ hashed_text a = hashed_text b) s1 s2
  ∨ entries_collide s1 s2.
Proof.
  revert s2. induction s1 as [|a s1 IH] using rev_ind; intros s2 Hv1 Hv2 Hlen Hlast.
  { destruct s2; [|done]. left. constructor. }
  destruct s2 as [|b s2 _] using rev_ind; [rewrite length_app in Hlen; cbn in Hlen; lia|].
  rewrite verify_chain_snoc in Hv1, Hv2. apply andb_prop in Hv1 as [Hv1 Hl1], Hv2 as [Hv2 Hl2].
  unfold linked in Hl1, Hl2. apply andb_prop in Hl1 as [Hh1 Hp1], Hl2 as [Hh2 Hp2].
  apply String.eqb_eq in Hh1, Hh2, Hp1, Hp2.
  assert (Hlen' : length s1 = length s2) by (rewrite !length_app in Hlen; cbn in Hlen; lia).
  unfold last_hash in Hlast. rewrite !last_snoc in Hlast.
  rewrite Hh1, Hh2, <- Hp1, <- Hp2 in Hlast. change (sha256_hex (hashed_text a) = sha256_hex (hashed_text b)) in Hlast.
  destruct (decide (hashed_text a = hashed_text b)) as [Hcan|Hne].
  2: { right. exists (length s1), a, b. rewrite list_lookup_middle, Hlen', list_lookup_middle by done. done. }
  assert (Hprev : last_hash s1 = last_hash s2).
  { unfold hashed_text, canonical in Hcan. rewrite Hp1, Hp2 in Hcan. eapply no_bar_split; [| |exact Hcan]; by apply last_hash_no_bar. }
  destruct (IH s2 Hv1 Hv2 Hlen' Hprev) as [Hf|(i & x & y & Hx & Hy & Hc)].
  - left. apply Forall2_app; [done|]. constructor; [|constructor]. unfold compute_entry_hash in Hh1, Hh2.
    split_and!; [|by rewrite Hp1, Hp2|done]. rewrite Hh1, Hh2, <- Hp1, <- Hp2. exact Hlast.
  - right. exists i, x, y. by rewrite !(lookup_app_l_Some _ _ _ _ Hx), !(lookup_app_l_Some _ _ _ _ Hy).
Qed.

(** Another id and another acting agent on an entry. *)
Definition relabel (id agent : AuditEntry → string) (e : AuditEntry) : AuditEntry :=
  mkEntry (id e) (ae_timestamp e) (ae_operation e) (agent e) (ae_details e) (ae_prev_hash e) (ae_hash e).

(** What the chain does not protect: the verdict does not change when the
    ids and the acting agents of stored entries are rewritten, and every prefix
    of a chain that verifies also verifies, so rewriting who acted and dropping
    the newest entries are not detected. *)
Theorem chain_ignores_actor_and_tail `{PyRuntime} (s : list AuditEntry) :
  (∀ id agent, verify_chain (map (relabel id agent) s) = verify_chain s) ∧
  (verify_chain s = true → ∀ n, verify_chain (take n s) = true).
Proof.
  split.
  - intros id agent. unfold verify_chain. generalize ""%string as prev.
    induction s as [|e s IH]; intros prev; [done|]. cbn [map]. rewrite !verify_from_cons, <- IH. done.
  - unfold verify_chain. generalize ""%string as prev.
    induction s as [|e s IH]; intros prev Hv n; [by rewrite take_nil|].
    destruct n as [|n]; [done|]. cbn [take]. rewrite verify_from_cons in Hv |- *. reflect.
    apply andb_true_intro. auto.
Qed.

#[local] Instance demo_runtime : PyRuntime :=
  {| float_repr := λ _, "0.0"%string; float_of_str := λ _, None |}.

Definition demo_entry (op : string) : AuditEntry := mkEntry "1" (Aware 0 0) op "urn:a" [] "" "".
Definition demo_log : list AuditEntry :=
  fst (append (demo_entry "b") (fst (append (demo_entry "a") []))).

Lemma appends_keep_chain_witness :
  verify_chain (fold_left (λ acc e, fst (append e acc)) [demo_entry "a"; demo_entry "b"] []) = true.
Proof. refine (proj1 (appends_keep_chain [] [demo_entry "a"; demo_entry "b"] _)). reflexivity. Defined.

Lemma same_head_same_history_witness :
  let other := map (relabel (λ _, "2"%string) (λ _, "urn:mallory"%string)) demo_log in
  Forall2 (λ a b, ae_hash a = ae_hash b ∧ ae_prev_hash a = ae_prev_hash b ∧ hashed_text a = hashed_text b) demo_log other
  ∨ entries_collide demo_log other.
Proof.
  refine (same_head_same_history demo_log
            (map (relabel (λ _, "2"%string) (λ _, "urn:mallory"%string)) demo_log) _ _ _ _);
    vm_compute; reflexivity.
Defined.
