(* ===== verification/SqliteAudit.v ===== *)
(** * The SQLite audit store

    `src/src/asap/economics/audit.py` (SQLiteAuditStore): the `audit_log` table,
    `append`, `query`, `verify_chain` and `count` over rows of texts, compared
    with the in-memory store of [AuditChain].  `rowid` is `AUTOINCREMENT`, so the
    order of the rowids is the order of the list of rows. *)

From Stdlib Require Import ZArith Lia Ascii String.
From stdpp Require Import base tactics list gmap strings.
From S2P Require Import Prelude PyValue Digest IsoText Sqlite Identity AuditChain.
Open Scope Z_scope.
Open Scope asap_scope.

Record audit_row : Type := mkAuditRow {
  al_id : string; al_timestamp : string; al_operation : string; al_agent_urn : string;
  al_details : string; al_prev_hash : string; al_hash : string }.

Module SQLiteAuditStore.
Abbreviation t := (Repo (list audit_row)).

Section Store.
  Context `{PyRuntime} `{Readers}.

(** `row[0] if row else ""` of the last row. *)
Definition last_stored_hash (rows : list audit_row) : string :=
  match last rows with Some r => al_hash r | None => "" end.

(** `json.dumps(details, sort_keys=True, default=str)` *)
Definition details_text (details : list (string * json)) : string :=
  json_dumps float_repr ", " ": " true (JObj details).

Definition audit_to_row (e : AuditEntry) : audit_row :=
  mkAuditRow (ae_id e) (isoformat_dt (ae_timestamp e)) (ae_operation e) (ae_agent_urn e)
    (details_text (ae_details e)) (ae_prev_hash e) (ae_hash e).

(** The entry sealed on the hash read. *)
Definition sealed_on (prev_hash : string) (entry : AuditEntry) : AuditEntry :=
  seal prev_hash
    (compute_entry_hash prev_hash (ae_timestamp entry) (ae_operation entry) (ae_details entry)) entry.

(** `INSERT INTO audit_log`, `id` being UNIQUE. *)
Definition insert_sealed (sealed : AuditEntry) (rows : list audit_row) : res sqlexn (list audit_row) :=
  insert_unique al_id (audit_to_row sealed) rows.

Definition append (entry : AuditEntry) : t → t * res sqlexn AuditEntry :=
  execute [] (λ rows,
    let sealed := sealed_on (last_stored_hash rows) entry in
    let! rows' := insert_sealed sealed rows in Ret (rows', sealed)).

(** The conditions of the query, in the order they are written. *)
Definition row_matches (agent_urn : option string) (start end_ : option pydatetime) (r : audit_row) : bool :=
  match agent_urn with
  | Some u => negb (PyStr.truthy u) || String.eqb (al_agent_urn r) u
  | None => true
  end
  && match start with
     | Some d => match text_cmp (al_timestamp r) (isoformat_dt d) with Lt => false | _ => true end
     | None => true
     end
  && match end_ with
     | Some d => match text_cmp (al_timestamp r) (isoformat_dt d) with Gt => false | _ => true end
     | None => true
     end.

Definition row_to_entry (r : audit_row) : res sqlexn AuditEntry :=
  match iso_read (al_timestamp r), loads (al_details r) with
  | Some ts, Some (JObj details) =>
      Ret (mkEntry (al_id r) ts (al_operation r) (al_agent_urn r) details (al_prev_hash r) (al_hash r))
  | Some _, Some _ => Raise (PyExn (ValidationError "details"))
  | _, _ => Raise (PyExn (ValueError "audit row"))
  end.

Fixpoint rows_to_entries (rows : list audit_row) : res sqlexn (list AuditEntry) :=
  match rows with
  | [] => Ret []
  | r :: rows' =>
      let! e := row_to_entry r in
      let! es := rows_to_entries rows' in
      Ret (e :: es)
  end.

Definition query (agent_urn : option string) (start end_ : option pydatetime) (limit offset : Z) :
    t → t * res sqlexn (list AuditEntry) :=
  fetch [] (λ rows,
    let! limit := sql_int limit in
    let! offset := sql_int offset in
    rows_to_entries (limit_offset limit offset
      (base.filter (λ r, row_matches agent_urn start end_ r = true) rows))).

Fixpoint verify_rows (prev_hash : string) (rows : list audit_row) : res sqlexn bool :=
  match rows with
  | [] => Ret true
  | r :: rows' =>
      let! e := row_to_entry r in
      let expected := compute_entry_hash prev_hash (ae_timestamp e) (al_operation r) (ae_details e) in
      if negb (String.eqb (al_hash r) expected) || negb (String.eqb (al_prev_hash r) prev_hash)
      then Ret false
      else verify_rows (al_hash r) rows'
  end.

Definition verify_chain : t → t * res sqlexn bool := fetch [] (verify_rows "").

Definition count : t → t * res sqlexn Z := fetch [] (λ rows, Ret (Z.of_nat (length rows))).

End Store.
End SQLiteAuditStore.
Import SQLiteAuditStore.
Module MemLog := InMemoryAuditStore.

(** A slice from a non-negative offset is a page. *)
Lemma py_slice_page {A} (l : list A) offset limit : 0 <= offset → 0 <= limit →
  py_slice offset (offset + limit) l = take (Z.to_nat limit) (drop (Z.to_nat offset) l).
Proof.
  intros Ho Hl. unfold py_slice, slice_index.
  rewrite !(proj2 (Z.ltb_ge _ _)) by lia.
  destruct (decide (Z.of_nat (length l) <= offset)).
  - rewrite Z.min_r, Z.min_r by lia. rewrite Nat.sub_diag.
    by rewrite take_0, (drop_ge l (Z.to_nat offset)), take_nil by lia.
  - rewrite (Z.min_l offset) by lia.
    destruct (decide (offset + limit <= Z.of_nat (length l))).
    + rewrite Z.min_l by lia. f_equal. lia.
    + rewrite Z.min_r by lia. rewrite Nat2Z.id. rewrite !take_ge; [done|rewrite length_drop; lia..].
Qed.

Section Agreement.
  Context `{PyRuntime} `{Readers}.

(** An entry that reads back from its row: UTC, within the calendar, with its
    keys in the order the text has them. *)
Definition entry_storable (e : AuditEntry) : Prop :=
  dt_zone (ae_timestamp e) = Some 0 ∧ in_datetime (dt_wall (ae_timestamp e)) = true
  ∧ iso_read (isoformat_dt (ae_timestamp e)) = Some (ae_timestamp e)
  ∧ loads (details_text (ae_details e)) = Some (JObj (ae_details e)).

Record log_agrees (s : t) (es : list AuditEntry) : Prop := {
  la_repo : repo_ok s;
  la_rows : contents [] s = map audit_to_row es;
  la_entries : Forall entry_storable es
}.

Lemma row_to_entry_back e : entry_storable e → row_to_entry (audit_to_row e) = Ret e.
Proof.
  intros (_ & _ & Hts & Hd). unfold row_to_entry, audit_to_row.
  cbn [al_timestamp al_details al_id al_operation al_agent_urn al_prev_hash al_hash].
  rewrite Hts, Hd. by destruct e.
Qed.

Lemma rows_to_entries_back es : Forall entry_storable es → rows_to_entries (map audit_to_row es) = Ret es.
Proof.
  induction 1 as [|e es He Hes IH]; [done|]. simpl. rewrite row_to_entry_back by done. simpl. by rewrite IH.
Qed.

Lemma verify_rows_back prev es : Forall entry_storable es →
  verify_rows prev (map audit_to_row es) = Ret (MemLog.verify_from prev es).
Proof.
  intros Hes. revert prev. induction Hes as [|e es He Hes IH]; intros prev; [done|].
  cbn [map verify_rows MemLog.verify_from]. rewrite row_to_entry_back by done. cbn [rbind].
  change (al_hash (audit_to_row e)) with (ae_hash e). change (al_prev_hash (audit_to_row e)) with (ae_prev_hash e).
  change (al_operation (audit_to_row e)) with (ae_operation e).
  destruct (_ || _); [done|]. apply IH.
Qed.

Lemma last_stored_back es : last_stored_hash (map audit_to_row es) = MemLog.last_hash es.
Proof. unfold last_stored_hash, MemLog.last_hash. rewrite fmap_last. by destruct (last es). Qed.

Lemma storable_seal p h e : entry_storable (seal p h e) ↔ entry_storable e.
Proof. done. Qed.

(** The conditions on texts are the conditions on dates. *)
Definition bound_ok (o : option pydatetime) : Prop :=
  match o with Some d => dt_zone d = Some 0 ∧ in_datetime (dt_wall d) = true | None => True end.

Definition after (start : option pydatetime) (e : AuditEntry) : bool :=
  match start with Some d => dt_wall d <=? dt_wall (ae_timestamp e) | None => true end.
Definition before (end_ : option pydatetime) (e : AuditEntry) : bool :=
  match end_ with Some d => dt_wall (ae_timestamp e) <=? dt_wall d | None => true end.
Definition by_agent (agent_urn : option string) (e : AuditEntry) : bool :=
  match agent_urn with
  | Some u => negb (PyStr.truthy u) || String.eqb (ae_agent_urn e) u
  | None => true
  end.

Lemma row_matches_entry agent_urn start end_ e : entry_storable e → bound_ok start → bound_ok end_ →
  row_matches agent_urn start end_ (audit_to_row e) = by_agent agent_urn e && after start e && before end_ e.
Proof.
  intros (Hz & Hr & _) Hs He. unfold row_matches. cbn [audit_to_row al_timestamp al_agent_urn].
  f_equal; [f_equal|].
  - destruct start as [d|]; [|done]. destruct Hs as [Hzd Hrd].
    rewrite isoformat_order by (done || congruence). unfold after.
    destruct (Z.compare_spec (dt_wall (ae_timestamp e)) (dt_wall d)); symmetry; (apply Z.leb_le || apply Z.leb_gt); lia.
  - destruct end_ as [d|]; [|done]. destruct He as [Hzd Hrd].
    rewrite isoformat_order by (done || congruence). unfold before.
    destruct (Z.compare_spec (dt_wall (ae_timestamp e)) (dt_wall d)); symmetry; (apply Z.leb_le || apply Z.leb_gt); lia.
Qed.

Lemma filter_res_total {A} (f : A → res pyexn bool) (g : A → bool) l :
  (∀ x, x ∈ l → f x = Ret (g x)) → filter_res f l = Ret (base.filter (λ x, g x = true) l).
Proof.
  induction l as [|x l IH]; intros Hf; [done|]. simpl. rewrite (Hf x) by (by left). simpl.
  rewrite IH by (intros y Hy; apply Hf; by right). simpl. rewrite filter_cons.
  destruct (g x); [by rewrite decide_True by done|by rewrite decide_False by done].
Qed.

Lemma filter_filter_and {A} (f g : A → bool) (l : list A) :
  base.filter (λ x, g x = true) (base.filter (λ x, f x = true) l) = base.filter (λ x, f x && g x = true) l.
Proof.
  induction l as [|x l IH]; [done|]. rewrite !filter_cons.
  destruct (f x) eqn:Ef; simpl; [|exact IH].
  rewrite filter_cons. destruct (g x); simpl; by rewrite IH.
Qed.

(** What the in-memory query gives for bounds in the calendar. *)
Lemma memory_query agent_urn start end_ limit offset es :
  Forall entry_storable es → bound_ok start → bound_ok end_ → 0 <= limit → 0 <= offset →
  MemLog.query agent_urn start end_ limit offset es =
  Ret (take (Z.to_nat limit) (drop (Z.to_nat offset)
         (base.filter (λ e, by_agent agent_urn e && after start e && before end_ e = true) es))).
Proof.
  intros Hes Hs He Hl Ho. unfold MemLog.query.
  set (l1 := match agent_urn with
             | Some u => if PyStr.truthy u then base.filter (λ e, ae_agent_urn e = u) es else es
             | None => es end).
  assert (H1 : l1 = base.filter (λ e, by_agent agent_urn e = true) es).
  { subst l1. unfold by_agent. destruct agent_urn as [u|]; [|symmetry; apply filter_all, Forall_forall; done].
    destruct (PyStr.truthy u); simpl.
    - apply list_filter_iff. intros e. symmetry. apply String.eqb_eq.
    - symmetry. apply filter_all, Forall_forall. done. }
  assert (Hin : ∀ e, e ∈ l1 → dt_zone (ae_timestamp e) = Some 0).
  { intros e Hel. rewrite H1 in Hel. apply list_elem_of_filter in Hel as [_ Hel].
    rewrite Forall_forall in Hes. apply (Hes e Hel). }
  assert (Hle : ∀ a b, dt_zone a = Some 0 → dt_zone b = Some 0 → dt_le a b = Ret (dt_wall a <=? dt_wall b)).
  { intros [x|x xo] [y|y yo]; simpl; intros; simplify_eq. by rewrite !Z.sub_0_r. }
  assert (Hf1 : (match start with Some t0 => filter_res (λ e, dt_le t0 (ae_timestamp e)) l1 | None => Ret l1 end)
    = Ret (base.filter (λ e, after start e = true) l1)).
  { unfold after. destruct start as [d|].
    - apply filter_res_total. intros e Hel. apply Hle; [apply Hs|by apply Hin].
    - f_equal. symmetry. apply filter_all, Forall_forall. done. }
  rewrite Hf1. cbn [rbind]. set (l2 := base.filter (λ e, after start e = true) l1).
  assert (Hf2 : (match end_ with Some t1 => filter_res (λ e, dt_le (ae_timestamp e) t1) l2 | None => Ret l2 end)
    = Ret (base.filter (λ e, before end_ e = true) l2)).
  { unfold before. destruct end_ as [d|].
    - apply filter_res_total. intros e [_ Hel]%list_elem_of_filter. apply Hle; [by apply Hin|apply He].
    - f_equal. symmetry. apply filter_all, Forall_forall. done. }
  rewrite Hf2. cbn [rbind]. f_equal. subst l2.
  rewrite H1, (filter_filter_and (by_agent agent_urn) (after start)),
    (filter_filter_and (λ e, by_agent agent_urn e && after start e) (before end_)).
  by apply py_slice_page.
Qed.

End Agreement.

(** ** Properties *)

(** The SQLite store agrees with the in-memory one: appending an entry with a new
    id gives the same sealed entry and keeps the two logs equal, verification and
    count answer the same, and so does every query with UTC bounds. *)
Theorem sqlite_audit_refines_memory `{PyRuntime} `{Readers} (s : t) (es : list AuditEntry) (entry : AuditEntry)
    (agent_urn : option string) (start end_ : option pydatetime) (limit offset : Z) :
  log_agrees s es → entry_storable entry → ae_id entry ∉ map ae_id es →
  bound_ok start → bound_ok end_ → 0 <= limit < 2 ^ 63 → 0 <= offset < 2 ^ 63 →
  log_agrees (fst (append entry s)) (fst (MemLog.append entry es))
  ∧ snd (append entry s) = Ret (snd (MemLog.append entry es))
  ∧ snd (verify_chain s) = Ret (MemLog.verify_chain es)
  ∧ snd (count s) = Ret (MemLog.count es)
  ∧ snd (query agent_urn start end_ limit offset s)
    = match MemLog.query agent_urn start end_ limit offset es with Ret l => Ret l | Raise e => Raise (PyExn e) end.
Proof.
  intros [Hr Hrows Hes] He Hid Hs Hend Hl Ho. unfold append, verify_chain, count, query.
  set (stmt := λ rows : list audit_row, _). rewrite !fetch_out by done. cbn beta.
  destruct (execute_ok [] stmt s Hr) as (Hok & Hc & ->).
  assert (Hst : stmt (contents [] s) = Ret (map audit_to_row (fst (MemLog.append entry es)), snd (MemLog.append entry es))).
  { subst stmt. cbn beta zeta. rewrite Hrows, last_stored_back. unfold insert_sealed, insert_unique.
    destruct (existsb _ _) eqn:Ex; [exfalso|cbn [rbind]; unfold MemLog.append; cbn [fst snd]; by rewrite map_app].
    apply existsb_elem_of in Ex as (r & (e & -> & Hin)%list_elem_of_fmap & Heq).
    apply bool_decide_eq_true in Heq. apply Hid, list_elem_of_fmap. by exists e. }
  rewrite Hst in Hc |- *. split_and!; [|done|..].
  - split; [done|done|]. unfold MemLog.append. cbn [fst]. apply Forall_app. split; [done|]. constructor; [done|constructor].
  - rewrite Hrows. by apply verify_rows_back.
  - by rewrite Hrows, length_map.
  - assert (Hint : ∀ z, 0 <= z < 2 ^ 63 → sql_int z = Ret z).
    { intros z Hz. unfold sql_int. by rewrite (proj2 (Z.leb_le _ _)), (proj2 (Z.ltb_lt _ _)) by lia. }
    rewrite !Hint by done. cbn [rbind]. rewrite memory_query by (done || lia).
    rewrite Hrows, (filter_map_pred audit_to_row _ (λ e, by_agent agent_urn e && after start e && before end_ e)).
    + unfold limit_offset. rewrite (proj2 (Z.ltb_ge _ _)) by lia.
      rewrite <- fmap_drop, <- fmap_take. apply rows_to_entries_back.
      apply Forall_take, Forall_drop. by apply Forall_filtered.
    + intros e Hin. rewrite Forall_forall in Hes. apply row_matches_entry; [by apply Hes|done|done].
Qed.

(** The lock of `append` belongs to the instance.  Two instances on one file may
    both read the last hash before either inserts: both entries are then linked to
    the same predecessor and the chain no longer verifies. *)
Definition two_writers `{PyRuntime} (e1 e2 : AuditEntry) (rows : list audit_row) : res sqlexn (list audit_row) :=
  let prev1 := last_stored_hash rows in
  let prev2 := last_stored_hash rows in
  let! rows1 := insert_sealed (sealed_on prev1 e1) rows in
  insert_sealed (sealed_on prev2 e2) rows1.

Lemma two_writers_break_chain `{PyRuntime} `{Readers} (e1 e2 : AuditEntry) (es : list AuditEntry) :
  Forall entry_storable (es ++ [e1; e2]) → NoDup (map ae_id (es ++ [e1; e2])) →
  MemLog.last_hash es ≠ ae_hash (sealed_on (MemLog.last_hash es) e1) →
  ∃ rows, two_writers e1 e2 (map audit_to_row es) = Ret rows ∧ verify_rows "" rows = Ret false.
Proof.
  intros Hst Hnd Hne. unfold two_writers. rewrite last_stored_back.
  set (s1 := sealed_on (MemLog.last_hash es) e1). set (s2 := sealed_on (MemLog.last_hash es) e2).
  assert (Hnew : ∀ (l : list AuditEntry) e, ae_id e ∉ map ae_id l →
    insert_sealed e (map audit_to_row l) = Ret (map audit_to_row (l ++ [e]))).
  { intros l e Hn. unfold insert_sealed, insert_unique. rewrite map_app.
    destruct (existsb _ _) eqn:Ex; [exfalso|done].
    apply existsb_elem_of in Ex as (r & (x & -> & Hin)%list_elem_of_fmap & Heq%bool_decide_eq_true).
    apply Hn, list_elem_of_fmap. by exists x. }
  rewrite map_app in Hnd. simpl in Hnd. apply NoDup_app in Hnd as (_ & Hd & H12).
  apply NoDup_cons in H12 as [H12 _].
  rewrite Hnew by (intros Hin; apply (Hd _ Hin); by left). cbn [rbind].
  rewrite Hnew; cycle 1.
  { rewrite map_app. intros [Hin|Hin]%elem_of_app; [apply (Hd _ Hin); right; by left|].
    apply list_elem_of_singleton in Hin. apply H12. change (ae_id s1) with (ae_id e1) in Hin.
    change (ae_id s2) with (ae_id e2) in Hin. rewrite Hin. by left. }
  eexists. split; [done|]. rewrite <- app_assoc. simpl. apply Forall_app in Hst as [Hes H12s].
  apply Forall_cons in H12s as [H1s H2s]. apply Forall_cons in H2s as [H2s _].
  rewrite verify_rows_back.
  - f_equal. replace (es ++ [s1; s2]) with ((es ++ [s1]) ++ [s2]) by (by rewrite <- app_assoc).
    change (MemLog.verify_chain ((es ++ [s1]) ++ [s2]) = false). rewrite verify_chain_snoc.
    unfold MemLog.last_hash at 1. rewrite last_snoc. unfold linked.
    change (ae_prev_hash s2) with (MemLog.last_hash es).
    rewrite (proj2 (String.eqb_neq (MemLog.last_hash es) (ae_hash s1))) by done.
    by rewrite !andb_false_r.
  - apply Forall_app. split; [done|]. by repeat (constructor; [done|]).
Qed.

#[local] Instance demo_runtime : PyRuntime := {| float_repr := λ _, ""%string; float_of_str := λ _, None |}.
#[local] Instance demo_readers : Readers := {|
  iso_read := λ s, if String.eqb s (isoformat 0) then Some (Aware 0 0) else None;
  loads := λ s, if String.eqb s "{}" then Some (JObj []) else None |}.

Lemma sqlite_audit_refines_memory_witness :
  snd (append (demo_entry "op") (mkRepo false None)) = Ret (snd (MemLog.append (demo_entry "op") [])).
Proof.
  apply (sqlite_audit_refines_memory (mkRepo false None) [] (demo_entry "op") None None None 10 0);
    [split; [done|done|constructor]|vm_compute; done|set_solver|done|done|lia|lia].
Defined.
