(* ===== verification/CircuitBreaker.v ===== *)
(** * Circuit breaker

    `src/src/asap/transport/circuit_breaker.py`: the breaker, whose methods run
    under its lock and are one step each, and the registry that shares breakers
    by base URL.  Times are microseconds. *)

From Stdlib Require Import ZArith Lia Ascii String.
From stdpp Require Import base tactics list gmap strings.
From S2P Require Import Prelude PyValue ReplayGuard.
Open Scope Z_scope.

Inductive CircuitState : Type := CLOSED | OPEN | HALF_OPEN.
#[export] Instance CircuitState_eq_dec : EqDecision CircuitState.
Proof. solve_decision. Defined.

Definition DEFAULT_CIRCUIT_BREAKER_THRESHOLD : Z := 5.
Definition DEFAULT_CIRCUIT_BREAKER_TIMEOUT : Z := 60 * second.

Module CircuitBreaker.

Record t : Type := mk {
  threshold : Z;
  timeout : Z;
  state : CircuitState;
  consecutive_failures : Z;
  last_failure_time : option Z;
  half_open_permit : bool
}.

Definition init (threshold timeout : Z) : t := mk threshold timeout CLOSED 0 None true.

Definition record_success (b : t) : t :=
  if bool_decide (state b = HALF_OPEN)
  then mk (threshold b) (timeout b) CLOSED 0 None (half_open_permit b)
  else mk (threshold b) (timeout b) (state b) 0 (last_failure_time b) (half_open_permit b).

Definition record_failure (now : Z) (b : t) : t :=
  let failures := consecutive_failures b + 1 in
  let threshold_reached := (threshold b <=? failures) && bool_decide (state b = CLOSED) in
  mk (threshold b) (timeout b)
    (if bool_decide (state b = HALF_OPEN) || threshold_reached then OPEN else state b)
    failures (Some now) (half_open_permit b).

Definition can_attempt (now : Z) (b : t) : t * bool :=
  let b1 :=
    if bool_decide (state b = OPEN) then
      match last_failure_time b with
      | Some last =>
          if timeout b <=? now - last
          then mk (threshold b) (timeout b) HALF_OPEN (consecutive_failures b) (last_failure_time b) true
          else b
      | None => b
      end
    else b in
  match state b1 with
  | OPEN => (b1, false)
  | HALF_OPEN =>
      if negb (half_open_permit b1) then (b1, false)
      else (mk (threshold b1) (timeout b1) HALF_OPEN (consecutive_failures b1) (last_failure_time b1) false,
            true)
  | CLOSED => (b1, true)
  end.

Definition get_state (b : t) : CircuitState := state b.
Definition get_consecutive_failures (b : t) : Z := consecutive_failures b.

End CircuitBreaker.

(** ** Registry: a heap of shared breakers, and the names they go by *)
Module CircuitBreakerRegistry.

(** Clients hold references ([nat]) to breakers of the heap; [clear] forgets
    the names, not the breakers clients still hold. *)
Record t : Type := mk {
  heap : list CircuitBreaker.t;
  breakers : gmap string nat
}.

Definition init : t := mk [] ∅.

Definition get_or_create (base_url : string) (threshold timeout : Z) (r : t) : t * nat :=
  match breakers r !! base_url with
  | Some ref => (r, ref)
  | None =>
      let ref := length (heap r) in
      (mk (heap r ++ [CircuitBreaker.init threshold timeout]) (<[base_url := ref]> (breakers r)), ref)
  end.

Definition clear (r : t) : t := mk (heap r) ∅.

End CircuitBreakerRegistry.

(** ** Lemmas *)
Import CircuitBreaker.

(** The answers to a sequence of requests for permission. *)
Fixpoint attempts (ts : list Z) (b : t) : list bool :=
  match ts with
  | [] => []
  | now :: ts' => let '(b', ok) := can_attempt now b in ok :: attempts ts' b'
  end.

(** Only the first reading that satisfies a test. *)
Fixpoint only_first (p : Z → bool) (ts : list Z) : list bool :=
  match ts with
  | [] => []
  | now :: ts' => if p now then true :: map (λ _, false) ts' else false :: only_first p ts'
  end.

Lemma attempts_probe_taken ts b :
  state b = HALF_OPEN → half_open_permit b = false → attempts ts b = map (λ _, false) ts.
Proof.
  intros Hs Hp. induction ts as [|now ts IH]; [done|]. cbn [attempts].
  assert (can_attempt now b = (b, false)) as ->.
  { unfold can_attempt. rewrite bool_decide_false by congruence. rewrite Hs. by rewrite Hp. }
  cbn. by f_equal.
Qed.

(** Failures recorded in a row by a closed breaker. *)
Fixpoint failures (times : list Z) (b : t) : t :=
  match times with [] => b | now :: ts => failures ts (record_failure now b) end.

Lemma failures_below ts b :
  state b = CLOSED → consecutive_failures b + Z.of_nat (length ts) < threshold b →
  state (failures ts b) = CLOSED ∧
  consecutive_failures (failures ts b) = consecutive_failures b + Z.of_nat (length ts) ∧
  threshold (failures ts b) = threshold b ∧ timeout (failures ts b) = timeout b.
Proof.
  revert b. induction ts as [|now ts IH]; intros b Hs Hlt; [cbn in *; split_and!; [done|lia|done|done]|].
  cbn [failures length] in *. rewrite Nat2Z.inj_succ in *.
  assert (Hst : state (record_failure now b) = CLOSED).
  { unfold record_failure. cbn [state]. rewrite Hs. cbn.
    assert ((threshold b <=? consecutive_failures b + 1) = false) as -> by (apply Z.leb_gt; lia). done. }
  destruct (IH (record_failure now b)) as (H1 & H2 & H3 & H4); [done|cbn; lia|].
  split_and!; [done|rewrite H2; cbn; lia|done|done].
Qed.

(** ** Properties *)

(** A breaker that has just opened, at a failure recorded at time [t0],
    answers a sequence of requests for permission (until an outcome is
    recorded) with yes exactly once: to the first request that comes at least
    the timeout after [t0]; all earlier and all later ones are refused. *)
Theorem open_breaker_lets_one_probe (b : CircuitBreaker.t) (t0 : Z) (ts : list Z) :
  state b = OPEN → last_failure_time b = Some t0 →
  attempts ts b = only_first (λ now, t0 + timeout b <=? now) ts.
Proof.
  intros Hs Ht. induction ts as [|now ts IH]; [done|]. cbn [attempts only_first].
  unfold can_attempt. rewrite bool_decide_true by done. rewrite Ht.
  destruct (Z.leb_spec (timeout b) (now - t0)) as [Hle|Hgt].
  - assert ((t0 + timeout b <=? now) = true) as -> by (apply Z.leb_le; lia).
    cbn. f_equal. by apply attempts_probe_taken.
  - assert ((t0 + timeout b <=? now) = false) as -> by (apply Z.leb_gt; lia).
    rewrite Hs. cbn. by f_equal.
Qed.

(** A closed breaker with a positive threshold opens on exactly the
    failure that makes the run of consecutive failures reach the threshold,
    not before; a success recorded in between starts the count again; once
    open, one failed probe opens it again and one successful probe closes it
    with the count at zero. *)
Theorem breaker_opens_at_threshold (b : CircuitBreaker.t) (ts : list Z) (now : Z) :
  state b = CLOSED → consecutive_failures b = 0 →
  Z.of_nat (length ts) + 1 = threshold b →
  state (failures ts b) = CLOSED ∧ state (record_failure now (failures ts b)) = OPEN ∧
  last_failure_time (record_failure now (failures ts b)) = Some now ∧
  (let b' := record_success (failures ts b) in
   state b' = CLOSED ∧ consecutive_failures b' = 0 ∧ threshold b' = threshold b) ∧
  (∀ later, timeout b <= later - now →
     let '(probe, ok) := can_attempt later (record_failure now (failures ts b)) in
     ok = true ∧ state (record_failure later probe) = OPEN ∧
     state (record_success probe) = CLOSED ∧ consecutive_failures (record_success probe) = 0).
Proof.
  intros Hs Hc Hlen. destruct (failures_below ts b Hs) as (H1 & H2 & H3 & H4); [lia|].
  assert (Hopen : state (record_failure now (failures ts b)) = OPEN).
  { unfold record_failure. cbn [state]. rewrite H1, H2, H3. cbn.
    assert ((threshold b <=? consecutive_failures b + Z.of_nat (length ts) + 1) = true) as ->
      by (apply Z.leb_le; lia). done. }
  split_and!; [done|done|done| |].
  - unfold record_success. rewrite bool_decide_false by congruence. by rewrite H1, H3.
  - intros later Hl. unfold can_attempt. rewrite bool_decide_true by done.
    change (last_failure_time (record_failure now (failures ts b))) with (Some now). cbv iota beta.
    change (timeout (record_failure now (failures ts b))) with (timeout (failures ts b)). rewrite H4.
    assert ((timeout b <=? later - now) = true) as -> by (by apply Z.leb_le). done.
Qed.

Lemma open_breaker_lets_one_probe_witness :
  attempts [10; 70; 71; 1000] (mk 5 60 OPEN 5 (Some 8) true) = [false; true; false; false].
Proof.
  refine (open_breaker_lets_one_probe (mk 5 60 OPEN 5 (Some 8) true) 8 [10; 70; 71; 1000] _ _); reflexivity.
Defined.

Lemma breaker_opens_at_threshold_witness :
  state (failures [1; 2] (init 3 60)) = CLOSED ∧
  state (record_failure 3 (failures [1; 2] (init 3 60))) = OPEN.
Proof.
  destruct (breaker_opens_at_threshold (init 3 60) [1; 2] 3) as (H1 & H2 & _);
    [reflexivity|reflexivity|reflexivity|]. split; [exact H1|exact H2].
Defined.
