(* ===== verification/WsPool.v ===== *)
(** * WebSocket connection pool

    `src/src/asap/transport/ws/pool.py`.  A section under the pool's lock is one
    step; a task blocked in `await self._available.get()` holds no lock, so
    taking an entry off the queue and resuming under the lock are two steps.
    Transports are numbered; [open_ws] are those whose `_ws` is not None.  Whether
    `connect` succeeds is an argument, and connections may drop at any time.
    Times are microseconds. *)

From Stdlib Require Import ZArith Lia Ascii String.
From stdpp Require Import base tactics list gmap strings sets relations.
From S2P Require Import Prelude.
Open Scope Z_scope.

(** Removes one occurrence. *)
Fixpoint remove_first (x : nat) (l : list nat) : list nat :=
  match l with
  | [] => []
  | y :: l' => if Nat.eqb x y then l' else y :: remove_first x l'
  end.

Module WebSocketConnectionPool.

Record t : Type := mk {
  max_size : Z;
  idle_timeout : Z;
  available : list (nat * Z);
  in_use_count : Z;
  total_count : Z;
  closed : bool;
  (* the world around the pool *)
  open_ws : gset nat;
  next_transport : nat;
  waiting : nat;                 (* tasks blocked in `_available.get()` *)
  held : list (nat * Z);         (* entries such tasks took, not yet resumed *)
  borrowed : list nat            (* transports handed to callers *)
}.

Definition init (max_size idle_timeout : Z) : t :=
  mk max_size idle_timeout [] 0 0 false ∅ 0 0 [] [].

Inductive outcome : Type :=
| Acquired (transport : nat)
| MustWait
| PoolClosed
| ConnectFailed.

(** The scan of the queue: idle and dead transports are dropped. *)
Fixpoint scan (now idle : Z) (open : gset nat) (q : list (nat * Z)) (total : Z) :
    option nat * list (nat * Z) * gset nat * Z :=
  match q with
  | [] => (None, [], open, total)
  | (x, last_used) :: q' =>
      if idle <? now - last_used then scan now idle (open ∖ {[x]}) q' (total - 1)
      else if negb (bool_decide (x ∈ open)) then scan now idle open q' (total - 1)
      else (Some x, q', open, total)
  end.

(** The first, locked part of `acquire`. *)
Definition acquire (now : Z) (connects : bool) (p : t) : t * outcome :=
  if closed p then (p, PoolClosed)
  else
    let '(found, q, open, total) := scan now (idle_timeout p) (open_ws p) (available p) (total_count p) in
    match found with
    | Some x =>
        (mk (max_size p) (idle_timeout p) q (in_use_count p + 1) total false open (next_transport p)
            (waiting p) (held p) (x :: borrowed p), Acquired x)
    | None =>
        if total <? max_size p then
          if connects then
            let x := next_transport p in
            (mk (max_size p) (idle_timeout p) q (in_use_count p + 1) (total + 1) false ({[x]} ∪ open)
                (S x) (waiting p) (held p) (x :: borrowed p), Acquired x)
          else
            (mk (max_size p) (idle_timeout p) q (in_use_count p) total false open (next_transport p)
                (waiting p) (held p) (borrowed p), ConnectFailed)
        else
          (mk (max_size p) (idle_timeout p) q (in_use_count p) total false open (next_transport p)
              (S (waiting p)) (held p) (borrowed p), MustWait)
    end.

(** A waiting task takes the head of the queue. *)
Definition dequeue (p : t) : option t :=
  match waiting p, available p with
  | S w, e :: q =>
      Some (mk (max_size p) (idle_timeout p) q (in_use_count p) (total_count p) (closed p) (open_ws p)
              (next_transport p) w (e :: held p) (borrowed p))
  | _, _ => None
  end.

(** The body of the second loop of `acquire`, for the entry the task took. *)
Definition resume (now : Z) (p : t) : option (t * outcome) :=
  match held p with
  | [] => None
  | (x, last_used) :: h =>
      if closed p then
        Some (mk (max_size p) (idle_timeout p) (available p) (in_use_count p) (total_count p) true
                (open_ws p ∖ {[x]}) (next_transport p) (waiting p) h (borrowed p), PoolClosed)
      else if idle_timeout p <? now - last_used then
        Some (mk (max_size p) (idle_timeout p) (available p) (in_use_count p) (total_count p - 1) false
                (open_ws p ∖ {[x]}) (next_transport p) (S (waiting p)) h (borrowed p), MustWait)
      else if negb (bool_decide (x ∈ open_ws p)) then
        Some (mk (max_size p) (idle_timeout p) (available p) (in_use_count p) (total_count p - 1) false
                (open_ws p) (next_transport p) (S (waiting p)) h (borrowed p), MustWait)
      else
        Some (mk (max_size p) (idle_timeout p) (available p) (in_use_count p + 1) (total_count p) false
                (open_ws p) (next_transport p) (waiting p) h (x :: borrowed p), Acquired x)
  end.

(** `release` of a transport the caller holds. *)
Definition release (now : Z) (x : nat) (p : t) : t :=
  let b := remove_first x (borrowed p) in
  if closed p then
    mk (max_size p) (idle_timeout p) (available p) (in_use_count p - 1) (total_count p) true
      (open_ws p ∖ {[x]}) (next_transport p) (waiting p) (held p) b
  else if negb (bool_decide (x ∈ open_ws p)) then
    mk (max_size p) (idle_timeout p) (available p) (in_use_count p - 1) (total_count p - 1) false
      (open_ws p) (next_transport p) (waiting p) (held p) b
  else
    mk (max_size p) (idle_timeout p) (available p ++ [(x, now)]) (in_use_count p - 1) (total_count p) false
      (open_ws p) (next_transport p) (waiting p) (held p) b.

(** `close`: the flag under the lock, then the drain and the counters.  The
    drain is one step: once the flag is set no entry joins the queue, and a
    waiter that takes one closes it as the drain would. *)
Definition close_flag (p : t) : t :=
  mk (max_size p) (idle_timeout p) (available p) (in_use_count p) (total_count p) true (open_ws p)
    (next_transport p) (waiting p) (held p) (borrowed p).
Definition close_drain (p : t) : t :=
  mk (max_size p) (idle_timeout p) [] 0 0 (closed p) (open_ws p ∖ list_to_set (available p).*1)
    (next_transport p) (waiting p) (held p) (borrowed p).

(** A connection goes down. *)
Definition drop_ws (x : nat) (p : t) : t :=
  mk (max_size p) (idle_timeout p) (available p) (in_use_count p) (total_count p) (closed p)
    (open_ws p ∖ {[x]}) (next_transport p) (waiting p) (held p) (borrowed p).

End WebSocketConnectionPool.

Import WebSocketConnectionPool.

(** ** Steps *)
Inductive pool_step : t → t → Prop :=
| ps_acquire now ok p : pool_step p (fst (acquire now ok p))
| ps_dequeue p p' : dequeue p = Some p' → pool_step p p'
| ps_resume now p p' o : resume now p = Some (p', o) → pool_step p p'
| ps_release now x p : x ∈ borrowed p → pool_step p (release now x p)
| ps_close_flag p : pool_step p (close_flag p)
| ps_close_drain p : closed p = true → pool_step p (close_drain p)
| ps_drop x p : pool_step p (drop_ws x p).

(** The transports the pool answers for. *)
Definition live (p : t) : Z :=
  Z.of_nat (length (available p)) + Z.of_nat (length (held p)) + Z.of_nat (length (borrowed p)).

Definition inv (p : t) : Prop :=
  closed p = false →
  total_count p = live p ∧ in_use_count p = Z.of_nat (length (borrowed p)) ∧ total_count p <= max_size p.

Lemma scan_count now idle open q total found q' open' total' :
  scan now idle open q total = (found, q', open', total') →
  total' - Z.of_nat (length q') - (if is_some found then 1 else 0) = total - Z.of_nat (length q)
  ∧ (total' <= total) ∧ (found = None → q' = []).
Proof.
  revert open total. induction q as [|[x last] q IH]; intros open total; cbn [scan].
  { intros [= <- <- <- <-]. cbn. split_and!; [lia|lia|done]. }
  destruct (idle <? now - last).
  { intros Hs%IH. destruct Hs as (He & Hle & Hn). cbn [length]. split_and!; [lia|lia|done]. }
  destruct (bool_decide (x ∈ open)); cbn [negb].
  - intros [= <- <- <- <-]. cbn [length is_some is_none negb]. split_and!; [lia|lia|done].
  - intros Hs%IH. destruct Hs as (He & Hle & Hn). cbn [length]. split_and!; [lia|lia|done].
Qed.

Lemma remove_first_length x l : x ∈ l → length l = S (length (remove_first x l)).
Proof.
  induction l as [|y l IH]; [by intros ?%elem_of_nil|]. cbn.
  destruct (Nat.eqb_spec x y); [done|]. intros [->|Hin]%elem_of_cons; [done|]. cbn. by rewrite <- IH.
Qed.

Lemma inv_acquire now ok p : inv p → inv (fst (acquire now ok p)).
Proof.
  unfold inv, acquire. intros Hi. destruct (closed p) eqn:Hc; [cbn; congruence|].
  destruct (Hi eq_refl) as (Ht & Hu & Hm). unfold live in *.
  destruct (scan now (idle_timeout p) (open_ws p) (available p) (total_count p))
    as [[[found q] open] total] eqn:Hs.
  apply scan_count in Hs as (He & Hle & Hn). destruct found as [x|]; cbn [is_some is_none negb] in He.
  - cbn. intros _. lia.
  - rewrite (Hn eq_refl) in *. cbn [length] in *.
    destruct (Z.ltb_spec total (max_size p)); [destruct ok|]; cbn; intros _; lia.
Qed.

Lemma inv_step p p' : inv p → pool_step p p' → inv p'.
Proof.
  intros Hi Hs. destruct Hs as [now ok p|p p' Hd|now p p' o Hr|now x p Hx|p|p Hc|x p].
  - by apply inv_acquire.
  - unfold dequeue in Hd. destruct (waiting p); [done|]. destruct (available p) as [|e q] eqn:Hq; [done|].
    injection Hd as <-. unfold inv, live in *. cbn. intros Hc. destruct (Hi Hc) as (? & ? & ?).
    rewrite Hq in *. cbn in *. split_and!; lia.
  - unfold resume in Hr. destruct (held p) as [|[x last] h] eqn:Hh; [done|].
    unfold inv, live in *. rewrite Hh in Hi. cbn in Hi.
    destruct (closed p); [by injection Hr as <- <-; intros [=]|]. specialize (Hi eq_refl).
    destruct (idle_timeout p <? now - last); [injection Hr as <- <-; cbn; intros _; lia|].
    destruct (bool_decide _); cbn in Hr; injection Hr as <- <-; cbn; intros _; lia.
  - unfold inv, release, live in *. pose proof (remove_first_length x (borrowed p) Hx).
    destruct (closed p); [by intros [=]|]. specialize (Hi eq_refl).
    destruct (bool_decide _); cbn; rewrite ?length_app; cbn; intros _; lia.
  - by intros [=].
  - unfold inv. cbn. congruence.
  - done.
Qed.

(** ** Properties *)

(** In every state the pool can reach before it is closed, its count is
    the number of transports that are queued, taken by a waiting task or lent
    to callers, its in-use count is the number of lent ones, and there are
    never more than the maximum. *)
Theorem pool_counts_and_bound (max idle : Z) (p : WebSocketConnectionPool.t) :
  0 <= max → rtc pool_step (init max idle) p → closed p = false →
  total_count p = live p ∧ in_use_count p = Z.of_nat (length (borrowed p)) ∧
  live p <= max.
Proof.
  intros Hmax Hr Hc.
  assert (Hi : inv p ∧ max_size p = max).
  { assert (H0 : inv (init max idle) ∧ max_size (init max idle) = max)
      by (split; [|done]; intros _; cbn; unfold live; cbn; lia).
    revert H0. induction Hr as [|x y z Hs _ IH]; [done|]. intros [Hx Hm]. apply IH; [done|].
    split; [by eapply inv_step|]. rewrite <- Hm. clear -Hs.
    destruct Hs as [now ok p|p p' Hd|now p p' o Hr|now x p Hx|p|p Hc|x p]; try done.
    - unfold acquire. destruct (closed p); [done|]. destruct (scan _ _ _ _ _) as [[[[x|] q] open] total]; [done|].
      destruct (total <? max_size p); [by destruct ok|done].
    - unfold dequeue in Hd. destruct (waiting p), (available p); simplify_eq; done.
    - unfold resume in Hr. destruct (held p) as [|[x last] h]; [done|].
      destruct (closed p); [by simplify_eq|]. destruct (_ <? _); [by simplify_eq|].
      destruct (bool_decide _); cbn in Hr; by simplify_eq.
    - unfold release. destruct (closed p); [done|]. by destruct (bool_decide _). }
  destruct Hi as [Hi Hm]. destruct (Hi Hc) as (Ht & Hu & Hle). split_and!; [done|done|lia].
Qed.

(** A state no step of the pool, of a waiting task or of a caller that holds
    a transport can change: only a new caller, a close or a failing connection. *)
Definition stalled (p : t) : Prop :=
  dequeue p = None ∧ (∀ now, resume now p = None) ∧ borrowed p = [].

(** A waiting task can be forgotten: the pool can reach a state in which
    it is open, owns no transport at all, is below its maximum, and yet a task
    waits in `acquire`, with no step of the pool left that would serve it (the
    transport it waited for was released dead, which frees a place without
    waking the task). *)
Theorem waiter_can_starve :
  ∃ p, rtc pool_step (init 1 60) p ∧ closed p = false ∧ waiting p = 1%nat ∧
    total_count p = 0 ∧ total_count p < max_size p ∧ stalled p.
Proof.
  set (p1 := fst (acquire 0 true (init 1 60))).
  set (p2 := fst (acquire 1 true p1)).
  set (p3 := drop_ws 0 p2).
  exists (release 2 0 p3). split.
  - eapply rtc_l; [apply (ps_acquire 0 true)|]. fold p1.
    eapply rtc_l; [apply (ps_acquire 1 true)|]. fold p2.
    eapply rtc_l; [apply (ps_drop 0)|]. fold p3.
    apply rtc_once. apply ps_release. vm_compute. left.
  - split_and!; try (vm_compute; reflexivity).
    split_and!; [vm_compute; reflexivity|intros now; vm_compute; reflexivity|vm_compute; reflexivity].
Qed.

Lemma pool_counts_and_bound_witness :
  let p := fst (acquire 0 true (init 2 60)) in
  total_count p = live p ∧ in_use_count p = Z.of_nat (length (borrowed p)) ∧ live p <= 2.
Proof.
  intros p. refine (pool_counts_and_bound 2 60 p _ _ _).
  - lia.
  - apply rtc_once. apply ps_acquire.
  - reflexivity.
Defined.
