(* ===== verification/RateLimit.v ===== *)
(** * Rate limiting

    `src/src/asap/transport/rate_limit.py`: the two-phase check of HTTP
    requests over the `limits` package (a parameter, [RateStrategy]), the keys
    of requests, and the token bucket of WebSocket connections.  The bucket's
    floats are the rationals they denote; times are microseconds. *)

From Stdlib Require Import ZArith QArith Qminmax Lqa Lia Ascii String.
From stdpp Require Import base tactics list gmap strings.
From S2P Require Import Prelude PyValue Digest ReplayGuard.
Open Scope Z_scope.
Open Scope asap_scope.

(** What the limiter uses of a request: the client's address and the
    `Authorization` header. *)
Record Request : Type := mkHttp {
  rq_client : option string;
  rq_authorization : option string
}.

Definition get_remote_address (r : Request) : string := default "127.0.0.1"%string (rq_client r).

Definition registration_token_key (r : Request) : string :=
  let fallback := ("ip:" ++ get_remote_address r)%string in
  match rq_authorization r with
  | Some auth =>
      if PyStr.startswith auth "Bearer " then
        let token := PyStr.strip (PyStr.drop 7 auth) in
        if PyStr.truthy token then ("regtok:" ++ sha256_hex token)%string else fallback
      else fallback
  | None => fallback
  end.

Record RateLimitExceeded : Type := mkExceeded {
  rl_detail : string;
  rl_retry_after : Z;
  rl_limit : string
}.

(** The moving-window strategy of `limits` over its storage: [rs_test] only
    reads, [rs_hit] consumes when it answers true; [rs_reset] is the reset
    time of the window, in microseconds. *)
Class RateStrategy : Type := {
  rate_limit_item : Type;
  rate_storage : Type;
  rs_str : rate_limit_item → string;
  rs_test : rate_limit_item → string → Z → rate_storage → bool;
  rs_hit : rate_limit_item → string → Z → rate_storage → rate_storage * bool;
  rs_reset : rate_limit_item → string → rate_storage → Z
}.

Module ASAPRateLimiter.
Section Limiter.
  Context `{RateStrategy}.

Record t : Type := mk {
  key_func : Request → string;
  rate_limits : list rate_limit_item;
  storage : rate_storage
}.

Definition exceeded (now : Z) (item : rate_limit_item) (key : string) (s : rate_storage) : RateLimitExceeded :=
  mkExceeded ("Rate limit exceeded: " ++ rs_str item)%string
    (Z.max 1 (Z.quot (rs_reset item key s - now) second)) (rs_str item).

(** The first limit a request would break. *)
Fixpoint first_broken (key : string) (cost : Z) (items : list rate_limit_item) (s : rate_storage) :
    option rate_limit_item :=
  match items with
  | [] => None
  | item :: items' => if rs_test item key cost s then first_broken key cost items' s else Some item
  end.

(** `check`: the answers of `hit` are not looked at. *)
Definition check (now : Z) (request : Request) (l : t) : t * res RateLimitExceeded unit :=
  let key := key_func l request in
  match first_broken key 1 (rate_limits l) (storage l) with
  | Some item => (l, Raise (exceeded now item key (storage l)))
  | None =>
      (mk (key_func l) (rate_limits l)
         (fold_left (λ s item, fst (rs_hit item key 1 s)) (rate_limits l) (storage l)), Ret tt)
  end.

Fixpoint hit_all (now : Z) (key : string) (n : Z) (items : list rate_limit_item) (s : rate_storage) :
    rate_storage * res RateLimitExceeded unit :=
  match items with
  | [] => (s, Ret tt)
  | item :: items' =>
      let '(s', ok) := rs_hit item key n s in
      if negb ok then (s', Raise (exceeded now item key s')) else hit_all now key n items' s'
  end.

Definition check_n (now : Z) (request : Request) (n : Z) (l : t) : t * res RateLimitExceeded unit :=
  if n <=? 0 then (l, Ret tt)
  else
    let key := key_func l request in
    match first_broken key n (rate_limits l) (storage l) with
    | Some item => (l, Raise (exceeded now item key (storage l)))
    | None =>
        let '(s', r) := hit_all now key n (rate_limits l) (storage l) in
        (mk (key_func l) (rate_limits l) s', r)
    end.

Definition test (request : Request) (l : t) : bool :=
  forallb (λ item, rs_test item (key_func l request) 1 (storage l)) (rate_limits l).

(** The read-only test foretells the check, and a refused check consumes
    nothing. *)
Lemma check_agrees_with_test now request l :
  match snd (check now request l) with
  | Ret _ => test request l = true
  | Raise _ => test request l = false ∧ fst (check now request l) = l
  end.
Proof.
  unfold check, test. set (key := key_func l request).
  assert (Hf : first_broken key 1 (rate_limits l) (storage l) = None ↔
               forallb (λ item, rs_test item key 1 (storage l)) (rate_limits l) = true).
  { induction (rate_limits l) as [|i items IH]; [done|]. cbn.
    destruct (rs_test i key 1 (storage l)); cbn; [done|]. split; done. }
  destruct (first_broken _ _ _ _); cbn.
  - split; [|done]. destruct (forallb _ _); [|done]. by pose proof (proj2 Hf eq_refl).
  - by apply Hf.
Qed.

End Limiter.
End ASAPRateLimiter.

(** ** WebSocket token bucket *)
Module WebSocketTokenBucket.

Record t : Type := mk {
  rate : Q;
  capacity : Q;
  tokens : Q;
  last_refill : Z
}.

Definition init (now : Z) (rate : Q) (capacity : option Q) : res pyexn t :=
  if Qle_bool rate 0 then Raise (ValueError "rate must be positive")
  else let c := default rate capacity in Ret (mk rate c c now).

(** Seconds between two readings. *)
Definition elapsed (a b : Z) : Q := (b - a) # 1000000.

Definition refill (now : Z) (b : t) : t :=
  mk (rate b) (capacity b) (Qmin (capacity b) (tokens b + elapsed (last_refill b) now * rate b)) now.

Definition consume (now : Z) (n : Z) (b : t) : t * bool :=
  if n <=? 0 then (b, true)
  else
    let b := refill now b in
    if Qle_bool (inject_Z n) (tokens b)
    then (mk (rate b) (capacity b) (tokens b - inject_Z n) (last_refill b), true)
    else (b, false).

End WebSocketTokenBucket.

Import WebSocketTokenBucket.

(** The messages a sequence of timed calls lets through (refusals and calls
    for nothing count for none). *)
Fixpoint granted (calls : list (Z * Z)) (b : t) : Z :=
  match calls with
  | [] => 0
  | (now, n) :: calls' =>
      let '(b', ok) := consume now n b in
      (if ok then Z.max 0 n else 0) + granted calls' b'
  end.

(** Readings that never go back, ending at [upto]. *)
Fixpoint ordered (from upto : Z) (calls : list (Z * Z)) : Prop :=
  match calls with
  | [] => from <= upto
  | (now, _) :: calls' => from <= now ∧ ordered now upto calls'
  end.

Lemma elapsed_add a b c : (elapsed a c == elapsed a b + elapsed b c)%Q.
Proof. unfold elapsed, Qeq, Qplus. cbn. lia. Qed.

Lemma elapsed_nonneg a b : a <= b → (0 <= elapsed a b)%Q.
Proof. intros Hab. unfold elapsed, Qle. cbn. lia. Qed.

Lemma ordered_le from upto calls : ordered from upto calls → from <= upto.
Proof.
  revert from. induction calls as [|[now n] calls IH]; cbn; intros from; [done|].
  intros [Hle Ho%IH]. lia.
Qed.

Lemma ordered_weaken a b upto calls : a <= b → ordered b upto calls → ordered a upto calls.
Proof. destruct calls as [|[now n] calls]; cbn; [lia|]. intros ? [? ?]. split; [lia|done]. Qed.

(** One call, against the allowance: what it grants is paid from the tokens
    and the refill. *)
Lemma consume_pays now n b :
  (0 < rate b)%Q → (0 <= tokens b <= capacity b)%Q → last_refill b <= now →
  let '(b', ok) := consume now n b in
  (inject_Z (if ok then Z.max 0 n else 0) + tokens b' <=
     tokens b + elapsed (last_refill b) (last_refill b') * rate b)%Q ∧
  (0 <= tokens b' <= capacity b')%Q ∧ rate b' = rate b ∧ capacity b' = capacity b ∧
  last_refill b <= last_refill b' <= now.
Proof.
  intros Hr [H0 Hc] Hle. unfold consume. destruct (Z.leb_spec n 0) as [Hn|Hn].
  { rewrite Z.max_l by done. enough (inject_Z 0 + tokens b <= tokens b + elapsed (last_refill b) (last_refill b) * rate b)%Q
      by (split_and!; done || lia).
    assert (elapsed (last_refill b) (last_refill b) == 0)%Q as -> by (unfold elapsed; rewrite Z.sub_diag; done).
    change (inject_Z 0) with 0%Q. lra. }
  pose proof (elapsed_nonneg _ _ Hle) as He.
  assert (Hrefill : (0 <= elapsed (last_refill b) now * rate b)%Q) by (apply Qmult_le_0_compat; lra).
  set (x := (elapsed (last_refill b) now * rate b)%Q) in *.
  assert (Hm1 : (tokens (refill now b) <= capacity b)%Q) by apply Q.le_min_l.
  assert (Hm2 : (tokens (refill now b) <= tokens b + x)%Q) by apply Q.le_min_r.
  assert (Hm0 : (0 <= tokens (refill now b))%Q) by (cbn; apply Q.min_glb; fold x; lra).
  set (tk := tokens (refill now b)) in *.
  destruct (Qle_bool (inject_Z n) tk) eqn:Hq.
  - rewrite Z.max_r by lia. apply Qle_bool_iff in Hq.
    change (rate (refill now b)) with (rate b). change (capacity (refill now b)) with (capacity b).
    cbn [rate capacity tokens last_refill]. change (last_refill (refill now b)) with now. fold x.
    assert (0 < inject_Z n)%Q by (change 0%Q with (inject_Z 0); rewrite <- Zlt_Qlt; lia).
    split_and!; done || lra || lia.
  - change (rate (refill now b)) with (rate b). change (capacity (refill now b)) with (capacity b).
    change (last_refill (refill now b)) with now. fold x tk. change (inject_Z 0) with 0%Q.
    split_and!; done || lra || lia.
Qed.

Lemma granted_bound calls b upto :
  (0 < rate b)%Q → (0 <= tokens b <= capacity b)%Q → ordered (last_refill b) upto calls →
  (inject_Z (granted calls b) <= tokens b + elapsed (last_refill b) upto * rate b)%Q.
Proof.
  revert b. induction calls as [|[now n] calls IH]; intros b Hr Hb Ho.
  { cbn in Ho |- *. assert (0 <= elapsed (last_refill b) upto * rate b)%Q
      by (apply Qmult_le_0_compat; [by apply elapsed_nonneg|lra]).
    change (inject_Z 0) with 0%Q. lra. }
  destruct Ho as [Hle Ho]. pose proof (consume_pays now n b Hr Hb Hle) as Hp. cbn [granted].
  destruct (consume now n b) as [b' ok]. destruct Hp as (Hpay & Hb' & Hr' & Hc' & Hl).
  specialize (IH b'). rewrite Hr' in IH. specialize (IH Hr Hb').
  assert (Ho' : ordered (last_refill b') upto calls) by (eapply ordered_weaken; [|done]; lia).
  specialize (IH Ho'). rewrite inject_Z_plus.
  rewrite (elapsed_add (last_refill b) (last_refill b') upto), Qmult_plus_distr_l. lra.
Qed.

(** ** Properties *)

(** The token bucket keeps its promise: over any sequence of calls at
    times that do not go back, the messages let through are at most what the
    bucket held plus the rate times the time elapsed since its last refill;
    since it never holds more than its capacity, every period of [d] seconds
    lets through at most capacity + rate * d messages. *)
Theorem token_bucket_bound (b : WebSocketTokenBucket.t) (calls : list (Z * Z)) (upto : Z) :
  (0 < rate b)%Q → (0 <= tokens b <= capacity b)%Q → ordered (last_refill b) upto calls →
  (inject_Z (granted calls b) <= tokens b + elapsed (last_refill b) upto * rate b)%Q ∧
  (inject_Z (granted calls b) <= capacity b + elapsed (last_refill b) upto * rate b)%Q.
Proof.
  intros Hr Hb Ho. pose proof (granted_bound calls b upto Hr Hb Ho) as Hg. split; [done|]. lra.
Qed.

Lemma token_bucket_bound_witness :
  let b := mk 10 10 10 0 in
  let calls := [(0, 4); (100000, 9); (200000, 2)] in
  (inject_Z (granted calls b) <= 10 + elapsed 0 200000 * 10)%Q ∧
  (inject_Z (granted calls b) <= 10 + elapsed 0 200000 * 10)%Q.
Proof.
  intros b calls. refine (token_bucket_bound b calls 200000 _ _ _).
  - reflexivity.
  - split; discriminate.
  - cbn. lia.
Defined.
