(* ===== verification/SelfAuth.v ===== *)
(** * Self-authorization prevention

    `src/src/asap/auth/self_auth.py`: the fresh-session rule for approval
    paths, and the WebAuthn gate of agent registration.  A verifier is given by
    what the gate uses of the protocol: whether it performs real checks, and
    its answer, which may also be an exception.  Clock readings are arguments,
    in microseconds; differences of floats are those of the rationals they
    denote. *)

From Stdlib Require Import ZArith QArith Lia Ascii String.
From stdpp Require Import base tactics list gmap strings.
From S2P Require Import Prelude PyValue Identity ReplayGuard Capabilities AgentJwt.
Open Scope Z_scope.
Open Scope asap_scope.

(** `window_seconds` is at least 1. *)
Record FreshSessionConfig : Type := mkFresh {
  window_seconds : Z;
  require_webauthn_for : list string
}.

Record WebAuthnVerifier : Type := mkVerifier {
  performs_real_webauthn : bool;
  wa_verify : string → json → option string → bool → res pyexn bool
}.

Definition PlaceholderWebAuthnVerifier : WebAuthnVerifier := mkVerifier false (λ _ _ _ _, Ret true).

Definition uses_real_webauthn_verifier (verifier : WebAuthnVerifier) : bool :=
  performs_real_webauthn verifier.

(** The cached default: the key it was made for and the verifier. *)
Definition verifier_cache : Type := option ((bool * string * string) * WebAuthnVerifier).

Definition reset_default_webauthn_verifier_cache (_ : verifier_cache) : verifier_cache := None.

(** [has_extra]: whether the webauthn package is installed; [rp_env] and
    [origin_env]: the environment variables ([""] when unset); [make_impl]: the
    constructor of the real verifier. *)
Definition default_webauthn_verifier (has_extra : bool) (rp_env origin_env : string)
    (make_impl : string → string → WebAuthnVerifier) (cache : verifier_cache) :
    verifier_cache * WebAuthnVerifier :=
  let rp_id := PyStr.strip rp_env in
  let origin := PyStr.strip origin_env in
  let key := (has_extra, rp_id, origin) in
  let fresh :=
    let verifier := if negb has_extra || negb (PyStr.truthy rp_id) || negb (PyStr.truthy origin)
                    then PlaceholderWebAuthnVerifier else make_impl rp_id origin in
    (Some (key, verifier), verifier) in
  match cache with
  | Some (k, v) => if bool_decide (k = key) then (cache, v) else fresh
  | None => fresh
  end.

Section SelfAuth.
  Context `{PyRuntime}.

Definition host_jwt_issued_at_seconds (claims : claims_t) : res pyexn (option pyfloat) :=
  if (match j_get "iat" claims with JNull => true | _ => false end) then Ret None
  else
    match py_float (j_get "iat" claims) with
    | Raise (TypeError _) | Raise (ValueError _) => Ret None
    | Raise e => Raise e
    | Ret f => Ret (Some f)
    end.

(** `(now_ts - session_timestamp) <= float(config.window_seconds)` *)
Definition check_fresh_session (session_timestamp : pyfloat) (config : FreshSessionConfig) (now : Z) : bool :=
  match session_timestamp with
  | FFin q => Qle_bool ((now # 1000000) - q) (inject_Z (window_seconds config))
  | FInf negative => negb negative
  | FNan => false
  end.

Definition fresh_session_violation_detail (claims : claims_t) (config : FreshSessionConfig) (now : Z) :
    res pyexn (option string) :=
  let! iat_ts := host_jwt_issued_at_seconds claims in
  match iat_ts with
  | None => Ret (Some "missing iat on host token; cannot enforce fresh session for approval"%string)
  | Some t =>
      if negb (check_fresh_session t config now)
      then Ret (Some ("stale host session; re-authenticate within the fresh-session window ("
                      ++ PyStr.dec_Z (window_seconds config) ++ "s) to use approval endpoints")%string)
      else Ret None
  end.

Definition webauthn_required_capability_names (requested_capabilities : list string)
    (config : FreshSessionConfig) : list string :=
  filter (λ n, n ∈ require_webauthn_for config) requested_capabilities.

Record WebAuthnApprovalCheckResult : Type := mkWaCheck { wc_detail : option string; wc_http_status : Z }.

Definition check_webauthn_for_approval_path (requested_capabilities : list string) (raw_body : pydict)
    (config : option FreshSessionConfig) (verifier : WebAuthnVerifier) (host_id : option string)
    (agent_controls_browser : bool) : res pyexn WebAuthnApprovalCheckResult :=
  let needed := match config with
                | Some c => webauthn_required_capability_names requested_capabilities c
                | None => []
                end in
  let no_need := match needed with [] => true | _ => false end in
  let browser_gate := agent_controls_browser && uses_real_webauthn_verifier verifier in
  let http_status := if browser_gate then 403 else 400 in
  if no_need && negb browser_gate then Ret (mkWaCheck None 400)
  else
    match j_get "webauthn" raw_body with
    | JObj block =>
        match j_get "challenge" block with
        | JStr challenge =>
            if negb (PyStr.nonblank challenge)
            then Ret (mkWaCheck (Some "webauthn.challenge must be a non-empty string"%string) http_status)
            else
              match j_get "response" block with
              | JNull => Ret (mkWaCheck (Some "webauthn.response is required"%string) http_status)
              | response =>
                  let! ok := wa_verify verifier challenge response host_id browser_gate in
                  if negb ok
                  then Ret (mkWaCheck (Some "webauthn verification failed"%string) http_status)
                  else Ret (mkWaCheck None 400)
              end
        | _ => Ret (mkWaCheck (Some "webauthn.challenge must be a non-empty string"%string) http_status)
        end
    | _ =>
        Ret (mkWaCheck
          (Some (if browser_gate && no_need
                 then "webauthn object required for browser-controlled agent registration"
                 else "webauthn object required for high-risk capabilities")%string) http_status)
    end.

Definition verify_webauthn_if_required (requested_capabilities : list string) (raw_body : pydict)
    (config : FreshSessionConfig) (verifier : WebAuthnVerifier) (host_id : option string) :
    res pyexn (option string) :=
  let! result := check_webauthn_for_approval_path requested_capabilities raw_body (Some config) verifier
                   host_id false in
  Ret (wc_detail result).

(** ** Lemmas *)

(** What a token that passes the fresh-session rule carries. *)
Lemma fresh_session_ok claims config now :
  fresh_session_violation_detail claims config now = Ret None →
  ∃ t, py_float (j_get "iat" claims) = Ret t ∧ check_fresh_session t config now = true.
Proof.
  unfold fresh_session_violation_detail, host_jwt_issued_at_seconds.
  destruct (match j_get "iat" claims with JNull => true | _ => false end); [done|].
  destruct (py_float (j_get "iat" claims)) as [[]|t] eqn:Ht; cbn [rbind]; try done.
  destruct (check_fresh_session t config now) eqn:Hc; cbn [negb]; [|done]. eauto.
Qed.

(** The gate passes only when nothing requires an assertion, or the verifier
    accepted the response to the challenge of the body, with user verification
    when the agent controls the browser. *)
Lemma webauthn_gate_passes names raw config verifier host_id browser status :
  check_webauthn_for_approval_path names raw config verifier host_id browser = Ret (mkWaCheck None status) →
  ((∀ c n, config = Some c → n ∈ names → n ∉ require_webauthn_for c) ∧
   (browser = false ∨ uses_real_webauthn_verifier verifier = false)) ∨
  ∃ block challenge response, j_get "webauthn" raw = JObj block ∧
    j_get "challenge" block = JStr challenge ∧ j_get "response" block = response ∧ response ≠ JNull ∧
    wa_verify verifier challenge response host_id (browser && uses_real_webauthn_verifier verifier) = Ret true.
Proof.
  unfold check_webauthn_for_approval_path. set (gate := browser && _).
  set (needed := match config with Some c => _ | None => [] end).
  destruct ((match needed with [] => true | _ => false end) && negb gate) eqn:Hn.
  { intros _. left. reflect. split; [|subst gate; by destruct browser; [right|left]].
    intros c n -> Hin Hreq. subst needed. unfold webauthn_required_capability_names in *.
    assert (Hf : n ∈ filter (λ n, n ∈ require_webauthn_for c) names) by by apply list_elem_of_filter.
    destruct (filter _ names); [by apply elem_of_nil in Hf|done]. }
  intros Hg. right. clear Hn.
  destruct (j_get "webauthn" raw) as [| | | | | |block] eqn:Hb; try done.
  destruct (j_get "challenge" block) as [| | | |challenge| |] eqn:Hch; try done.
  destruct (PyStr.nonblank challenge); cbn [negb] in Hg; [|done].
  exists block, challenge, (j_get "response" block). split_and!; [done..| |].
  - by intros Hr; rewrite Hr in Hg.
  - destruct (wa_verify verifier challenge (j_get "response" block) host_id gate) as [e|[]] eqn:Hv; [|done|];
      destruct (j_get "response" block); cbn [rbind negb] in Hg; try done; rewrite Hv in Hg; done.
Qed.

End SelfAuth.
