(* ===== verification/Routes.v ===== *)
(** * HTTP handlers for agent identity and capabilities

    The bearer checks of `src/src/asap/transport/_auth_helpers.py`, the
    handlers of `capability_routes.py` (list, describe, execute, reactivate),
    of `agent_routes.py` (revoke, rotate-key) and of `escalation_routes.py`
    (request-capability), composing the stores of the other files.

    A handler runs over the application state and stops with a response or
    with an exception that escapes it; the in-memory stores never suspend, and
    the body of the request has arrived, so no other task runs inside a
    handler.  Where a response lists the errors of
    a rejected body, the model says "invalid body". *)

From Stdlib Require Import ZArith Lia Ascii String.
From stdpp Require Import base tactics list gmap strings.
From S2P Require Import Prelude PyValue Digest Identity ReplayGuard Capabilities AgentJwt Approval.
Open Scope Z_scope.
Open Scope asap_scope.

Record Response : Type := mkResponse { rs_status : Z; rs_content : json }.

(** What a handler reads of a request: the header, the body as JSON (or the
    text of the parse error), the id middleware gave it, and a fresh UUID. *)
Record HttpRequest : Type := mkHttpRequest {
  hr_authorization : option string;
  hr_json : res string json;
  hr_request_id : option string;
  hr_uuid : string
}.

(** Work a handler leaves for after the response: the A2H resolution. *)
Record a2h_task : Type := mkTask {
  at_agent_id : string;
  at_context : string;
  at_principal_id : string;
  at_expected_specs : list pydict
}.

Definition obj (l : list (string * json)) : json := JObj l.
Definition detail (s : string) : json := JObj [("detail"%string, JStr s)].

Definition opt_str (o : option string) : json :=
  match o with Some s => JStr s | None => JNull end.

Section Routes.
  Context `{PyRuntime, Jose} {C : Type} `{JtiGuard C}.

(** `app.state`: the stores with the replay guard, the registry, the approval
    store when configured, and the background tasks; the rest is fixed at
    start-up. *)
Record app : Type := mkApp {
  ap_world : world C;
  ap_registry : CapabilityRegistry.t;
  ap_approvals : option InMemoryApprovalStore.t;
  ap_tasks : list a2h_task
}.

Record config : Type := mkConfig {
  cf_audience : list string;
  cf_host_supports_ciba : bool;
  cf_a2h_channel : bool
}.

Abbreviation Handler A := (ST app (res pyexn Response) A).

Definition respond {A} (status : Z) (content : json) : Handler A :=
  st_stop (Ret (mkResponse status content)).
Definition escape {A} (e : pyexn) : Handler A := st_stop (Raise e).
Definition lift_exn {A} (m : res pyexn A) : Handler A :=
  match m with Raise e => escape e | Ret a => st_ret a end.

(** Run a verification on the stores. *)
Definition verifying (f : world C → world C * res pyexn JwtVerifyResult) : Handler JwtVerifyResult :=
  do! ap <- st_get in
  let '(w', out) := f (ap_world ap) in
  run! st_modify (λ a, mkApp w' (ap_registry a) (ap_approvals a) (ap_tasks a)) in
  lift_exn out.

Definition agents_of (ap : app) : gmap string AgentSession := w_agents (ap_world ap).
Definition set_agents (s : gmap string AgentSession) (ap : app) : app :=
  mkApp (with_agents s (ap_world ap)) (ap_registry ap) (ap_approvals ap) (ap_tasks ap).
Definition set_registry (r : CapabilityRegistry.t) (ap : app) : app :=
  mkApp (ap_world ap) r (ap_approvals ap) (ap_tasks ap).

(** Run an operation of the registry. *)
Definition on_registry {A} (m : ST CapabilityRegistry.t pyexn A) : Handler A :=
  do! ap <- st_get in
  let '(r', out) := m (ap_registry ap) in
  run! st_modify (set_registry r') in
  lift_exn out.

(** `save_agent_unless_revoked` on the agent store. *)
Definition save_agent (agent : AgentSession) (expected : jwk) : Handler (res save_error unit) :=
  do! ap <- st_get in
  let '(s', out) := save_agent_unless_revoked InMemoryAgentStore.save agent (Some expected) (agents_of ap) in
  run! st_modify (set_agents s') in
  st_ret out.

(** ** Bearer tokens *)
Definition bearer_token_from_request (rq : HttpRequest) : option string :=
  match hr_authorization rq with
  | Some auth =>
      if PyStr.startswith auth "Bearer " then
        let t := PyStr.strip (PyStr.drop 7 auth) in
        if PyStr.truthy t then Some t else None
      else None
  | None => None
  end.

Definition nonempty_or (o : option string) (d : string) : string :=
  match o with Some s => if PyStr.truthy s then s else d | None => d end.

Definition verify_host_bearer (cf : config) (ck : clock) (rq : HttpRequest) (require_active_host record_jti : bool) :
    Handler JwtVerifyResult :=
  match bearer_token_from_request rq with
  | None => respond 401 (detail "Authentication required")
  | Some token =>
      do! result <- verifying (verify_host_jwt il_none ck token (Some (cf_audience cf)) record_jti) in
      if negb (vr_ok result) then
        if require_active_host && bool_decide (vr_error result = Some HOST_REVOKED_ERROR)
        then respond 403 (detail "host revoked")
        else respond 401 (detail (nonempty_or (vr_error result) "Invalid host token"))
      else
        match vr_claims result with
        | None => respond 401 (detail "Invalid host token")
        | Some claims =>
            let iss_ok := match j_get "iss" claims with JStr s => PyStr.nonblank s | _ => false end in
            if negb iss_ok then respond 400 (detail "missing iss in host JWT")
            else
              match vr_host result with
              | Some h =>
                  if require_active_host && bool_decide (h_status h = HostRevoked)
                  then respond 403 (detail "host revoked") else st_ret result
              | None => st_ret result
              end
        end
  end.

Definition http_error_request_id (rq : HttpRequest) : string := nonempty_or (hr_request_id rq) (hr_uuid rq).

Definition verify_agent_bearer (cf : config) (ck : clock) (rq : HttpRequest) : Handler JwtVerifyResult :=
  match bearer_token_from_request rq with
  | None => respond 401 (detail "Authentication required")
  | Some token =>
      do! result <- verifying (verify_agent_jwt il_none ck token (Some (cf_audience cf))) in
      if negb (vr_ok result) then
        let forbidden := match vr_error result with
                         | Some e => str_in e ["agent_expired"; "agent_revoked"; HOST_REVOKED_ERROR]%string
                         | None => false
                         end in
        respond (if forbidden then 403 else 401)
          (obj [("detail"%string, opt_str (vr_error result));
                ("request_id"%string, JStr (http_error_request_id rq))])
      else st_ret result
  end.

(** Host id from the store, or the synthetic id of a first-seen key. *)
Definition effective_identity_host_id (result : JwtVerifyResult) : res pyexn string :=
  match vr_claims result with
  | None => Raise (ValueError "verified host JWT must include claims")
  | Some claims =>
      match j_get "iss" claims with
      | JStr iss =>
          Ret (match vr_host result with
               | Some h => h_host_id h
               | None => host_urn_from_thumbprint iss
               end)
      | _ => Raise (ValueError "verified host JWT must include iss")
      end
  end.

(** ** Revoke and rotate-key *)

(** The agent of the request, owned by the host of the token. *)
Definition own_agent (host_id agent_id : string) : Handler AgentSession :=
  do! ap <- st_get in
  match InMemoryAgentStore.get agent_id (agents_of ap) with
  | None => respond 404 (detail "unknown agent_id")
  | Some session =>
      if negb (String.eqb (a_host_id session) host_id)
      then respond 403 (detail "agent does not belong to this host")
      else st_ret session
  end.

Definition handle_agent_revoke (cf : config) (ck : clock) (rq : HttpRequest) (agent_id : string) :
    Handler Response :=
  do! result <- verify_host_bearer cf ck rq true true in
  do! host_id <- lift_exn (effective_identity_host_id result) in
  do! session <- own_agent host_id agent_id in
  run! st_modify (λ ap, set_agents (InMemoryAgentStore.revoke agent_id (agents_of ap)) ap) in
  st_ret (mkResponse 200 (obj [("agent_id"%string, JStr agent_id); ("status"%string, JStr "revoked")])).

Definition agent_status_response (a : AgentSession) : Response :=
  mkResponse 200 (obj [("agent_id"%string, JStr (a_agent_id a));
                       ("status"%string, JStr (session_status_str (a_status a)))]).

(** Whether another agent of the list has the key. *)
Fixpoint key_taken (agent_id new_tp : string) (others : list AgentSession) : res pyexn bool :=
  match others with
  | [] => Ret false
  | other :: others' =>
      if String.eqb (a_agent_id other) agent_id then key_taken agent_id new_tp others'
      else
        let! tp := jwk_thumbprint_sha256 (a_public_key other) in
        if String.eqb tp new_tp then Ret true else key_taken agent_id new_tp others'
  end.

Definition handle_agent_rotate_key (cf : config) (ck : clock) (rq : HttpRequest) (agent_id : string)
    (new_public_key : jwk) : Handler Response :=
  do! result <- verify_host_bearer cf ck rq true true in
  do! host_id <- lift_exn (effective_identity_host_id result) in
  do! session <- own_agent host_id agent_id in
  run! st_when (bool_decide (a_status session = StRevoked))
         (respond 400 (detail "cannot rotate key for revoked agent")) in
  run! match okp_import_key new_public_key with
       | Raise _ => respond 400 (detail "invalid new_public_key JWK")
       | Ret _ => st_ret tt
       end in
  do! new_tp <- lift_exn (jwk_thumbprint_sha256 new_public_key) in
  do! old_tp <- lift_exn (jwk_thumbprint_sha256 (a_public_key session)) in
  if String.eqb new_tp old_tp then st_ret (agent_status_response session)
  else
    do! ap <- st_get in
    do! taken <- lift_exn (key_taken (a_agent_id session) new_tp
                             (InMemoryAgentStore.list_by_host host_id (agents_of ap))) in
    run! st_when taken
           (respond 409 (detail "another agent under this host already uses this public key")) in
    do! ap <- st_get in
    match InMemoryAgentStore.get agent_id (agents_of ap) with
    | None => respond 404 (detail "unknown agent_id")
    | Some fresh =>
        run! st_when (bool_decide (a_status fresh = StRevoked))
               (respond 400 (detail "cannot rotate key for revoked agent")) in
        let rotated := with_public_key new_public_key fresh in
        do! saved <- save_agent rotated (a_public_key fresh) in
        match saved with
        | Raise RevokedAgentOverwriteError => respond 400 (detail "cannot rotate key for revoked agent")
        | Raise StaleAgentPublicKeyError => respond 409 (detail "agent public key changed concurrently")
        | Raise (SaveRaised e) => escape e
        | Ret _ => st_ret (agent_status_response rotated)
        end
    end.

(** ** Reactivation *)

(** `AgentReactivateBody.model_validate`: one member, a string. *)
Definition reactivate_body (raw : json) : option string :=
  match raw with
  | JObj [(k, JStr agent_id)] => if String.eqb k "agent_id" then Some agent_id else None
  | _ => None
  end.

Definition grant_to_dict (g : CapabilityGrant) : json :=
  obj ([("capability"%string, JStr (g_capability g));
        ("status"%string, JStr (grant_status_str (g_status g)))]
       ++ (match g_constraints g with
           | Some (c :: cs) => [("constraints"%string, JObj (c :: cs))] | _ => [] end)
       ++ (match g_granted_by g with
           | Some b => if PyStr.truthy b then [("granted_by"%string, JStr b)] else [] | None => [] end)
       ++ (match g_reason g with
           | Some r => if PyStr.truthy r then [("reason"%string, JStr r)] else [] | None => [] end)
       ++ (match g_expires_at g with
           | Some e => [("expires_at"%string, JStr (isoformat_dt e))] | None => [] end)).

(** Deny every current grant, then grant the host's defaults. *)
Fixpoint deny_all (agent_id : string) (gs : list CapabilityGrant) : ST CapabilityRegistry.t pyexn unit :=
  match gs with
  | [] => st_ret tt
  | g :: gs' =>
      run! CapabilityRegistry.grant agent_id (g_capability g) JNull None GDenied
             (Some "capability decayed on reactivation"%string) None in
      deny_all agent_id gs'
  end.

Fixpoint grant_defaults (agent_id host_id : string) (caps : list string) :
    ST CapabilityRegistry.t pyexn unit :=
  match caps with
  | [] => st_ret tt
  | c :: caps' =>
      run! CapabilityRegistry.grant agent_id c JNull (Some host_id) GActive None None in
      grant_defaults agent_id host_id caps'
  end.

Definition decay_grants (agent_id : string) (host : HostIdentity) :
    ST CapabilityRegistry.t pyexn (list CapabilityGrant) :=
  do! existing <- st_gets (CapabilityRegistry.get_grants agent_id) in
  run! deny_all agent_id existing in
  run! grant_defaults agent_id (h_host_id host) (h_default_capabilities host) in
  st_gets (CapabilityRegistry.get_grants agent_id).

(** [now] is the reading inside `reactivate_agent`. *)
Definition handle_agent_reactivate (cf : config) (ck : clock) (now : Z) (rq : HttpRequest) :
    Handler Response :=
  do! result <- verify_host_bearer cf ck rq true true in
  do! claims <- match vr_claims result with
                | Some c => st_ret c
                | None => respond 401 (detail "Invalid host token")
                end in
  do! raw_body <- match hr_json rq with
                  | Raise e => respond 400 (detail ("Invalid JSON: " ++ e)%string)
                  | Ret j => st_ret j
                  end in
  do! agent_id <- match reactivate_body raw_body with
                  | Some a => st_ret a
                  | None => respond 400 (detail "invalid body")
                  end in
  do! ap <- st_get in
  do! agent <- match InMemoryAgentStore.get agent_id (agents_of ap) with
               | Some a => st_ret a
               | None => respond 404 (detail "unknown agent_id")
               end in
  do! iss <- match j_get "iss" claims with
             | JStr s => st_ret s
             | _ => respond 400 (detail "missing iss")
             end in
  do! host <- match InMemoryHostStore.get_by_public_key iss (w_hosts (ap_world ap)) with
              | Some h => st_ret h
              | None => respond 404 (detail "unknown host")
              end in
  run! st_when (negb (String.eqb (h_host_id host) (a_host_id agent)))
         (respond 403 (detail "agent does not belong to this host")) in
  do! ap <- st_get in
  do! fresh <- match InMemoryAgentStore.get agent_id (agents_of ap) with
               | Some a => st_ret a
               | None => respond 404 (detail "unknown agent_id")
               end in
  do! reactivated <- match reactivate_agent now fresh host with
                     | Ret a => st_ret a
                     | Raise (ValueError msg) => respond 403 (detail msg)
                     | Raise e => escape e
                     end in
  do! saved <- save_agent reactivated (a_public_key fresh) in
  run! match saved with
       | Raise RevokedAgentOverwriteError =>
           respond 403 (detail ("Agent " ++ agent_id ++ " is permanently revoked")%string)
       | Raise StaleAgentPublicKeyError => respond 409 (detail "agent public key changed concurrently")
       | Raise (SaveRaised e) => escape e
       | Ret _ => st_ret tt
       end in
  do! grants <- on_registry (decay_grants agent_id host) in
  st_ret (mkResponse 200
    (obj [("agent_id"%string, JStr (a_agent_id reactivated));
          ("status"%string, JStr (session_status_str (a_status reactivated)));
          ("capabilities"%string, JList (map grant_to_dict grants))])).

(** ** Execution *)

(** `CapabilityExecuteBody.model_validate`: `capability`, and `arguments` an
    object or null; nothing else. *)
Definition execute_body (raw : json) : option (string * option pydict) :=
  match raw with
  | JObj d =>
      if forallb (λ kv : string * json, str_in kv.1 ["capability"; "arguments"]%string) d then
        match assoc "capability" d, j_get "arguments" d with
        | Some (JStr c), JNull => Some (c, None)
        | Some (JStr c), JObj a => Some (c, Some a)
        | _, _ => None
        end
      else None
  | _ => None
  end.

Definition violation_json (v : ConstraintViolation) : json :=
  obj [("field"%string, JStr (v_field v)); ("operator"%string, JStr (v_operator v));
       ("message"%string, JStr (v_message v))].

(** [now] is the reading inside `check_grant`. *)
Definition handle_capability_execute (cf : config) (ck : clock) (now : Z) (rq : HttpRequest) :
    Handler Response :=
  do! result <- verify_agent_bearer cf ck rq in
  do! agent <- match vr_agent result with
               | Some a => st_ret a
               | None => respond 401 (detail "Invalid agent token")
               end in
  do! raw_body <- match hr_json rq with
                  | Raise e => respond 400 (detail ("Invalid JSON: " ++ e)%string)
                  | Ret j => st_ret j
                  end in
  do! body <- match execute_body raw_body with
              | Some b => st_ret b
              | None => respond 400 (detail "invalid body")
              end in
  let '(capability, arguments) := body in
  do! ap <- st_get in
  do! check <- lift_exn (CapabilityRegistry.check_grant now (a_agent_id agent) capability arguments
                           (ap_registry ap)) in
  if negb (gc_allowed check) then
    match gc_violations check with
    | [] =>
        respond 403 (obj [("error"%string, obj
          [("code"%string, JStr "capability_not_granted");
           ("message"%string, JStr ("agent has no active grant for " ++ repr_str capability)%string);
           ("data"%string, obj [("required_capability"%string, JStr capability)]);
           ("request_id"%string, JStr (http_error_request_id rq))])])
    | vs =>
        respond 403 (obj [("error"%string, JStr "constraint_violated");
                          ("capability"%string, JStr capability);
                          ("violations"%string, JList (map violation_json vs));
                          ("request_id"%string, JStr (http_error_request_id rq))])
    end
  else
    st_ret (mkResponse 200 (obj [("capability"%string, JStr capability);
                                 ("status"%string, JStr "executed");
                                 ("agent_id"%string, JStr (a_agent_id agent))])).

(** ** Listing and description *)

(** A verification that is given no replay guard. *)
Definition verifying_unguarded (f : world C → world C * res pyexn JwtVerifyResult) : Handler JwtVerifyResult :=
  do! ap <- st_get in
  let w := ap_world ap in
  let '(w', out) := f (mkWorld (w_hosts w) (w_agents w) None) in
  run! st_modify (λ a, mkApp (mkWorld (w_hosts w') (w_agents w') (w_cache w)) (ap_registry a)
                         (ap_approvals a) (ap_tasks a)) in
  lift_exn out.

Definition truthy_member (k : string) (o : option string) : pydict :=
  match o with Some s => if PyStr.truthy s then [(k, JStr s)] else [] | None => [] end.

Definition list_item (r : CapabilityRegistry.t) (agent_id : option string) (d : CapabilityDefinition) : json :=
  obj ([("name"%string, JStr (cd_name d)); ("description"%string, JStr (cd_description d))]
       ++ truthy_member "location" (cd_location d)
       ++ match agent_id with
          | Some a =>
              if PyStr.truthy a then
                let matching := filter (λ g, g_capability g = cd_name d) (CapabilityRegistry.get_grants a r) in
                [("grant_status"%string,
                  match matching with g :: _ => JStr (grant_status_str (g_status g)) | [] => JNull end)]
              else []
          | None => []
          end).

(** [cursor] and [limit] are non-negative and positive (checked by the route). *)
Definition handle_capability_list (cf : config) (ck : clock) (rq : HttpRequest) (query : string)
    (cursor limit : nat) : Handler Response :=
  do! ap <- st_get in
  let query := PyStr.lower query in
  let definitions :=
    let all := CapabilityRegistry.list_capabilities (ap_registry ap) in
    if PyStr.truthy query then
      filter (λ d, PyStr.contains (PyStr.lower (cd_name d)) query
                   || PyStr.contains (PyStr.lower (cd_description d)) query = true) all
    else all in
  let page := take limit (drop cursor definitions) in
  do! agent_id <-
    match bearer_token_from_request rq with
    | None => st_ret None
    | Some token =>
        do! r <- verifying_unguarded (verify_agent_jwt il_none ck token (Some (cf_audience cf))) in
        st_ret (if vr_ok r then option_map a_agent_id (vr_agent r) else None)
    end in
  do! ap <- st_get in
  st_ret (mkResponse 200 (obj
    ([("capabilities"%string, JList (map (list_item (ap_registry ap) agent_id) page))]
     ++ if (cursor + limit <? length definitions)%nat
        then [("next_cursor"%string, JInt (Z.of_nat (cursor + limit)))] else []))).

Definition handle_capability_describe (name : string) : Handler Response :=
  do! ap <- st_get in
  match CapabilityRegistry.describe name (ap_registry ap) with
  | None => respond 404 (detail ("capability " ++ repr_str name ++ " not found")%string)
  | Some d =>
      let schema k o := match o with Some (e :: s) => [(k, JObj (e :: s))] | _ => [] end in
      st_ret (mkResponse 200 (obj
        ([("name"%string, JStr (cd_name d)); ("description"%string, JStr (cd_description d))]
         ++ schema "input_schema"%string (cd_input_schema d)
         ++ schema "output_schema"%string (cd_output_schema d)
         ++ truthy_member "location" (cd_location d))))
  end.

(** ** Escalation *)
Definition escalation_part (spec : pydict) : string :=
  let name := match assoc "name" spec with Some j => py_str float_repr j | None => "" end in
  match j_get "constraints" spec with
  | JNull => (name ++ " (no constraints)")%string
  | c => (name ++ " constraints=" ++ py_repr float_repr c)%string
  end.

Definition escalation_a2h_context (agent_id host_id : string) (needs_specs : list pydict) : string :=
  let joined := match needs_specs with
                | [] => "(none)"%string
                | _ => String.concat "; " (map escalation_part needs_specs)
                end in
  ("ASAP capability escalation " ++ agent_id ++ " for host " ++ host_id ++ ": " ++ joined)%string.

(** `RequestCapabilityBody.model_validate`: one member, a non-empty list of
    objects. *)
Definition request_capability_body (raw : pydict) : option (list json) :=
  match raw with
  | [(k, JList (c :: cs))] =>
      if String.eqb k "capabilities" && forallb (λ j, is_some (as_obj j)) (c :: cs)
      then Some (c :: cs) else None
  | _ => None
  end.

Definition approval_method_str (m : ApprovalMethod) : string :=
  match m with DeviceAuthorization => "device_authorization" | Ciba => "ciba" end.

Definition approval_json (o : ApprovalObject) : json :=
  obj [("method"%string, JStr (approval_method_str (ao_method o)));
       ("verification_uri"%string, opt_str (ao_verification_uri o));
       ("verification_uri_complete"%string, opt_str (ao_verification_uri_complete o));
       ("user_code"%string, opt_str (ao_user_code o));
       ("binding_message"%string, opt_str (ao_binding_message o));
       ("expires_in"%string, JInt (ao_expires_in o)); ("interval"%string, JInt (ao_interval o))].

(** Run an operation of the approval store. *)
Definition on_approvals {A} (s : InMemoryApprovalStore.t)
    (f : InMemoryApprovalStore.t → InMemoryApprovalStore.t * A) : Handler A :=
  let '(s', out) := f s in
  run! st_modify (λ a, mkApp (ap_world a) (ap_registry a) (Some s') (ap_tasks a)) in
  st_ret out.

Definition approvals : Handler InMemoryApprovalStore.t :=
  do! ap <- st_get in
  match ap_approvals ap with
  | None => respond 500 (detail "approval store not configured")
  | Some s => st_ret s
  end.

(** [rc]: the clock of the approval request; [pending_now]: the reading when
    its row is read back; [user_code]: the random code. *)
Definition handle_request_capability (cf : config) (ck : clock) (rc : request_clock) (pending_now : Z)
    (user_code : string) (rq : HttpRequest) : Handler Response :=
  do! result <- verify_agent_bearer cf ck rq in
  do! both <- match vr_agent result, vr_host result with
              | Some a, Some h => st_ret (a, h)
              | _, _ => respond 401 (detail "Invalid agent token")
              end in
  let '(agent, host) := both in
  run! st_when (negb (bool_decide (a_status agent = StActive)))
         (respond 400 (detail "agent must be active to request capability escalation")) in
  do! raw <- match hr_json rq with
             | Raise e => respond 400 (detail ("Invalid JSON: " ++ e)%string)
             | Ret (JObj d) => st_ret d
             | Ret _ => respond 400 (detail "JSON body must be an object")
             end in
  do! requested <- match request_capability_body raw with
                   | Some l => st_ret l
                   | None => respond 400 (detail "invalid body")
                   end in
  let '(names, capability_specs) :=
    parse_capability_registration_body [("capabilities"%string, JList requested)] in
  run! st_when (match names with [] => true | _ => false end)
         (respond 400 (detail "each capability must include a non-empty name")) in
  do! ap <- st_get in
  let agent_id := a_agent_id agent in
  let host_id := h_host_id host in
  let '(needs_specs, auto_specs) :=
    partition_escalation_capability_specs host (map JObj capability_specs)
      (Some (CapabilityRegistry.get_grants agent_id (ap_registry ap))) in
  do! grant_payloads <- on_registry (apply_capability_specs_to_registry agent_id host_id auto_specs) in
  match needs_specs with
  | [] =>
      st_ret (mkResponse 200 (obj
        [("agent_id"%string, JStr agent_id); ("host_id"%string, JStr host_id);
         ("status"%string, JStr "active"); ("agent_capability_grants"%string, JList grant_payloads)]))
  | _ =>
      do! store <- approvals in
      let need_names := omap (λ s, as_str (j_get "name" s)) needs_specs in
      do! created <- on_approvals store (
        match select_approval_method host (cf_host_supports_ciba cf) None false with
        | Ciba => create_ciba_approval rc agent_id need_names None DEFAULT_DEVICE_EXPIRES_IN_SECONDS
                    DEFAULT_POLL_INTERVAL_SECONDS (Some needs_specs) Escalation
        | DeviceAuthorization =>
            create_device_authorization rc user_code agent_id need_names
              DEFAULT_DEVICE_EXPIRES_IN_SECONDS DEFAULT_POLL_INTERVAL_SECONDS None (Some needs_specs)
              Escalation
        end) in
      do! approval_obj <- lift_exn created in
      do! store <- approvals in
      do! pending <- on_approvals store (InMemoryApprovalStore.get pending_now agent_id) in
      let consent_specs := match pending with Some p => ar_capability_specs p | None => needs_specs end in
      let principal := nonempty_or (h_user_id host) host_id in
      run! st_when (cf_a2h_channel cf) (st_modify (λ a,
        mkApp (ap_world a) (ap_registry a) (ap_approvals a)
          (ap_tasks a ++ [mkTask agent_id (escalation_a2h_context agent_id host_id consent_specs)
                            principal consent_specs]))) in
      st_ret (mkResponse 200 (obj
        ([("agent_id"%string, JStr agent_id); ("host_id"%string, JStr host_id);
          ("status"%string, JStr "pending"); ("approval"%string, approval_json approval_obj)]
         ++ match grant_payloads with
            | [] => [] | _ => [("agent_capability_grants"%string, JList grant_payloads)] end)))
  end.

End Routes.
Arguments app C : clear implicits.

(** ** Lemmas on handlers *)
Section RouteLemmas.
  Context `{PyRuntime, Jose} {C : Type} `{JtiGuard C}.
  Implicit Types ap : app C.

(** A response, wherever the handler produced it. *)
Definition serve (h : ST (app C) (res pyexn Response) Response) (ap : app C) : app C * res pyexn Response :=
  match h ap with
  | (ap', Raise out) => (ap', out)
  | (ap', Ret r) => (ap', Ret r)
  end.

Lemma serve_fst h ap : fst (serve h ap) = fst (h ap).
Proof. unfold serve. by destruct (h ap) as [? []]. Qed.

Lemma keeps_reject {A B} (view : world C → B) e : st_keeps view (reject (A := A) e).
Proof. done. Qed.
Lemma keeps_raise {A B} (view : world C → B) e : st_keeps view (raise (A := A) e).
Proof. done. Qed.
Lemma keeps_reject_if {B} (view : world C → B) o : st_keeps view (reject_if o).
Proof. by destruct o. Qed.
Lemma keeps_call {A B} (view : world C → B) (m : res pyexn A) : st_keeps view (call m).
Proof. by destruct m. Qed.
Lemma keeps_guarded {A B} (view : world C → B) p (m : res string A) : st_keeps view (guarded p m).
Proof. by destruct m. Qed.
Lemma keeps_dict_of {B} (view : world C → B) j : st_keeps view (dict_of j).
Proof. by destruct j. Qed.
Lemma keeps_check_jti now b p j : st_keeps (λ w : world C, (w_hosts w, w_agents w)) (check_jti now b p j).
Proof.
  unfold check_jti. apply keeps_bind; [done|]. intros [c|]; [|done].
  destruct (if b then _ else _) as [c' ok]. apply keeps_bind; [by apply keeps_modify|].
  intros _. by apply keeps_when.
Qed.
#[local] Hint Resolve keeps_reject keeps_raise keeps_reject_if keeps_call keeps_guarded keeps_dict_of
  keeps_check_jti : asap.

(** Verifying a Host JWT changes neither hosts nor agents. *)
Lemma verify_host_keeps ck token aud b (w : world C) :
  w_hosts (fst (verify_host_jwt il_none ck token aud b w)) = w_hosts w ∧
  w_agents (fst (verify_host_jwt il_none ck token aud b w)) = w_agents w.
Proof.
  assert (Hk : ∀ m, st_keeps (λ w : world C, (w_hosts w, w_agents w)) m →
            (w_hosts (fst (finish m w)), w_agents (fst (finish m w))) = (w_hosts w, w_agents w)).
  { intros m Hm. specialize (Hm w). unfold finish. destruct (m w) as [w' [o|r]]; done. }
  assert (He : (w_hosts (fst (verify_host_jwt il_none ck token aud b w)),
                w_agents (fst (verify_host_jwt il_none ck token aud b w))) = (w_hosts w, w_agents w)).
  { apply Hk. repeat keeps_step; try apply keeps_modify; done. }
  by injection He.
Qed.

(** The token of a request authenticates a host, under an id; [record]: the
    request consumes the token's id, or only looks it up. *)
Definition authenticated (cf : config) (ck : clock) (rq : HttpRequest) (record : bool) ap
    (host_id : string) : Prop :=
  ∃ token w' r, bearer_token_from_request rq = Some token ∧
    verify_host_jwt il_none ck token (Some (cf_audience cf)) record (ap_world ap) = (w', Ret r) ∧
    vr_ok r = true ∧ effective_identity_host_id r = Ret host_id.

(** What the bearer check does: it leaves agents and grants alone, and passes
    only for a token that verifies. *)
Lemma verify_host_bearer_run cf ck rq b ap :
  let '(ap1, o) := verify_host_bearer cf ck rq true b ap in
  w_hosts (ap_world ap1) = w_hosts (ap_world ap) ∧
  agents_of ap1 = agents_of ap ∧ ap_registry ap1 = ap_registry ap ∧
  ap_approvals ap1 = ap_approvals ap ∧ ap_tasks ap1 = ap_tasks ap ∧
  match o with
  | Raise (Ret resp) => rs_status resp ≠ 200
  | Raise (Raise _) => True
  | Ret r => ∃ token, bearer_token_from_request rq = Some token ∧
      verify_host_jwt il_none ck token (Some (cf_audience cf)) b (ap_world ap) = (ap_world ap1, Ret r) ∧
      vr_ok r = true
  end.
Proof.
  unfold verify_host_bearer. destruct (bearer_token_from_request rq) as [token|]; [|done].
  unfold st_bind at 1, verifying. unfold st_bind at 1. cbn [st_get].
  pose proof (verify_host_keeps ck token (Some (cf_audience cf)) b (ap_world ap)) as [Hh Ha].
  destruct (verify_host_jwt il_none ck token (Some (cf_audience cf)) b (ap_world ap)) as [w' out] eqn:Hv.
  cbn [fst] in *. unfold st_bind, st_modify. cbn [lift_exn].
  unfold agents_of. destruct out as [e|r]; cbn; [done|].
  destruct (vr_ok r) eqn:Hok; cbn [negb].
  2: { destruct (bool_decide _); cbn; done. }
  destruct (vr_claims r) as [claims|]; [|done].
  destruct (match j_get "iss" claims with JStr s => PyStr.nonblank s | _ => false end); [|done]. cbn [negb].
  destruct (vr_host r) as [h|]; [destruct (bool_decide _); cbn; [done|]|]; cbn; split_and!; eauto.
Qed.

(** Agents change only for the host the token authenticates: a row that
    changes belongs to that host, before (if it was there) and after. *)
Definition own_change (cf : config) (ck : clock) (rq : HttpRequest) (record : bool) ap ap' : Prop :=
  ∀ aid, agents_of ap' !! aid ≠ agents_of ap !! aid →
    ∃ host_id a', authenticated cf ck rq record ap host_id ∧
      agents_of ap' !! aid = Some a' ∧ a_host_id a' = host_id ∧
      ∀ a, agents_of ap !! aid = Some a → a_host_id a = host_id.

Lemma own_change_none cf ck rq b ap ap' : agents_of ap' = agents_of ap → own_change cf ck rq b ap ap'.
Proof. intros He aid Hne. by rewrite He in Hne. Qed.

(** After the bearer check, [k] starts from the same agents with the verified
    token at hand. *)
Lemma own_change_bearer {A} cf ck rq b (k : JwtVerifyResult → ST (app C) (res pyexn Response) A) ap :
  (∀ ap1 r token, agents_of ap1 = agents_of ap →
     bearer_token_from_request rq = Some token →
     verify_host_jwt il_none ck token (Some (cf_audience cf)) b (ap_world ap) = (ap_world ap1, Ret r) →
     vr_ok r = true → own_change cf ck rq b ap (fst (k r ap1))) →
  own_change cf ck rq b ap (fst (st_bind (verify_host_bearer cf ck rq true b) k ap)).
Proof.
  intros Hk. pose proof (verify_host_bearer_run cf ck rq b ap) as Hr. unfold st_bind.
  destruct (verify_host_bearer cf ck rq true b ap) as [ap1 [o|r]]; destruct Hr as (_ & Ha & _ & _ & _ & Hr).
  - by apply own_change_none.
  - destruct Hr as (token & Ht & Hv & Hok). by apply (Hk ap1 r token).
Qed.

Lemma save_wrapper a k (s : gmap string AgentSession) :
  save_agent_unless_revoked InMemoryAgentStore.save a (Some k) s = InMemoryAgentStore.save a (Some k) s.
Proof.
  unfold save_agent_unless_revoked.
  destruct (save_cases a (Some k) s) as [->|[->|(row & -> & _)]]; done.
Qed.

Lemma save_changes a k (s : gmap string AgentSession) i :
  agents_keyed s → fst (InMemoryAgentStore.save a k s) !! i ≠ s !! i → i = a_agent_id a.
Proof.
  intros Hk. destruct (save_cases a k s) as [->|[->|(row & -> & Hrow & _)]]; [done|done|]. cbn [fst].
  destruct (decide (a_agent_id row = i)) as [<-|Hne]; [|by rewrite lookup_insert_ne].
  intros _. destruct Hrow as [->|(e & He & ->)]; [done|]. cbn. by apply Hk in He.
Qed.

Lemma own_change_revoke cf ck rq aid ap : own_change cf ck rq true ap (fst (handle_agent_revoke cf ck rq aid ap)).
Proof.
  unfold handle_agent_revoke. apply own_change_bearer. intros ap1 r token Ha Ht Hv Hok.
  unfold st_bind. destruct (effective_identity_host_id r) as [e|hid] eqn:Hid;
    [by apply own_change_none|]. cbn [lift_exn st_ret].
  unfold own_agent, st_bind, st_get, InMemoryAgentStore.get. rewrite Ha.
  destruct (agents_of ap !! aid) as [a|] eqn:Hag; [|by apply own_change_none].
  destruct (String.eqb_spec (a_host_id a) hid) as [Hh|]; cbn [negb]; [|by apply own_change_none].
  cbn [st_ret st_modify fst]. intros i Hne.
  assert (Hl : agents_of (set_agents (InMemoryAgentStore.revoke aid (agents_of ap1)) ap1) !! i =
               InMemoryAgentStore.revoke aid (agents_of ap) !! i) by (by rewrite Ha).
  rewrite Hl, revoke_lookup in *. case_decide as Hia; [subst i|done].
  rewrite Hag in *. exists hid, (with_status StRevoked a). cbn.
  split_and!; [exists token, (ap_world ap1), r; by split_and!|done|done|by intros ? [= <-]].
Qed.

(** A computation that stops or goes on in the same state. *)
Definition still {A} (m : ST (app C) (res pyexn Response) A) : Prop := ∀ ap, fst (m ap) = ap.

Lemma own_change_still {A B} cf ck rq b (m : ST (app C) (res pyexn Response) A)
    (k : A → ST (app C) (res pyexn Response) B) ap ap1 :
  still m → agents_of ap1 = agents_of ap →
  (∀ a, m ap1 = (ap1, Ret a) → own_change cf ck rq b ap (fst (k a ap1))) →
  own_change cf ck rq b ap (fst (st_bind m k ap1)).
Proof.
  intros Hm Ha Hk. unfold st_bind. specialize (Hm ap1). destruct (m ap1) as [ap2 [o|a]]; cbn in Hm; subst.
  - by apply own_change_none.
  - by apply Hk.
Qed.

Lemma still_lift {A} (m : res pyexn A) : still (lift_exn m).
Proof. by destruct m. Qed.
Lemma still_when c s j : still (st_when c (respond s j)).
Proof. by destruct c. Qed.
Lemma still_own_agent hid aid : still (own_agent hid aid).
Proof.
  intros ap. unfold own_agent, st_bind, st_get. destruct (InMemoryAgentStore.get _ _); [|done].
  by destruct (negb _).
Qed.
Lemma own_agent_ret hid aid ap ap' a :
  own_agent hid aid ap = (ap', Ret a) → agents_of ap !! aid = Some a ∧ a_host_id a = hid.
Proof.
  unfold own_agent, st_bind, st_get, InMemoryAgentStore.get. destruct (agents_of ap !! aid) as [x|]; [|done].
  destruct (String.eqb_spec (a_host_id x) hid); cbn; [|done]. by intros [= <- <-].
Qed.
Lemma lift_exn_ret {A} (m : res pyexn A) ap ap' a : lift_exn m ap = (ap', Ret a) → m = Ret a.
Proof. destruct m; cbn; unfold st_ret; intros [=]; by subst. Qed.

(** What `save_agent` does before its continuation. *)
Lemma save_agent_bind {B} (k : res save_error unit → ST (app C) (res pyexn Response) B) a key ap1 :
  ∃ r, st_bind (save_agent a key) k ap1 =
    k r (set_agents (fst (InMemoryAgentStore.save a (Some key) (agents_of ap1))) ap1).
Proof.
  unfold save_agent, st_bind, st_get. rewrite save_wrapper.
  destruct (InMemoryAgentStore.save a (Some key) (agents_of ap1)) as [s' out]. by exists out.
Qed.

(** Saving an agent of the store under its own id, for its own host. *)
Lemma own_change_save {B} cf ck rq b (k : res save_error unit → ST (app C) (res pyexn Response) B) ap ap1 a x key hid :
  agents_keyed (agents_of ap) → agents_of ap1 = agents_of ap →
  authenticated cf ck rq b ap hid → agents_of ap !! a_agent_id a = Some x →
  a_host_id x = hid → a_host_id a = hid →
  (∀ r, st_keeps agents_of (k r)) →
  own_change cf ck rq b ap (fst (st_bind (save_agent a key) k ap1)).
Proof.
  intros Hkeyed Ha Hauth Hx Hh Hha Hk.
  destruct (save_agent_bind k a key ap1) as [r ->]. rewrite Ha. intros i Hne. rewrite Hk in Hne |- *.
  change (fst (InMemoryAgentStore.save a (Some key) (agents_of ap)) !! i ≠ agents_of ap !! i) in Hne.
  change (agents_of (set_agents ?m ap1)) with m.
  assert (i = a_agent_id a) as -> by (by eapply (save_changes a (Some key) (agents_of ap))).
  destruct (save_cases a (Some key) (agents_of ap)) as [Hs|[Hs|(row & Hs & Hrow & _)]];
    rewrite Hs in Hne |- *; [done|done|]. cbn [fst].
  assert (Hr : a_agent_id row = a_agent_id a ∧ a_host_id row = hid).
  { destruct Hrow as [->|(e & He & ->)]; [done|]. rewrite Hx in He. injection He as <-. cbn.
    split; [by apply Hkeyed in Hx|done]. }
  destruct Hr as [<- Hr]. exists hid, row. rewrite lookup_insert_eq.
  split_and!; [done|done|done|]. intros y Hy. destruct Hrow as [->|(e & He & ->)]; [congruence|].
  cbn in Hy. rewrite Hx in He. injection He as <-. apply Hkeyed in Hx as Hid.
  assert (agents_of ap !! a_agent_id x = Some x) by congruence. congruence.
Qed.

#[local] Hint Resolve still_lift still_when still_own_agent : asap.

Ltac own_still := eapply own_change_still; [|eassumption|].

Lemma own_change_rotate cf ck rq aid key ap :
  agents_keyed (agents_of ap) → own_change cf ck rq true ap (fst (handle_agent_rotate_key cf ck rq aid key ap)).
Proof.
  intros Hkeyed. unfold handle_agent_rotate_key. apply own_change_bearer. intros ap1 r token Ha Ht Hv Hok.
  own_still; [apply still_lift|]. intros hid Hid%lift_exn_ret.
  assert (Hauth : authenticated cf ck rq true ap hid) by (exists token, (ap_world ap1), r; by split_and!).
  own_still; [apply still_own_agent|]. intros session [Hs Hh]%own_agent_ret. rewrite Ha in Hs.
  own_still; [apply still_when|]. intros _ _.
  own_still; [by destruct (okp_import_key key)|]. intros _ _.
  own_still; [apply still_lift|]. intros new_tp _.
  own_still; [apply still_lift|]. intros old_tp _.
  destruct (String.eqb new_tp old_tp); [by apply own_change_none|].
  own_still; [done|]. intros ap2 _.
  own_still; [apply still_lift|]. intros taken _.
  own_still; [apply still_when|]. intros _ _.
  own_still; [done|]. intros ap3 [= <-].
  unfold InMemoryAgentStore.get. rewrite Ha, Hs.
  own_still; [apply still_when|]. intros _ _.
  assert (Hid' : a_agent_id (with_public_key key session) = aid) by (cbn; by apply Hkeyed in Hs).
  eapply own_change_save; [done|done|done|rewrite Hid'; done|done|done|].
  intros [[]|]; done.
Qed.

Lemma own_change_reactivate cf ck now rq ap :
  agents_keyed (agents_of ap) → own_change cf ck rq true ap (fst (handle_agent_reactivate cf ck now rq ap)).
Proof.
  intros Hkeyed. unfold handle_agent_reactivate. apply own_change_bearer. intros ap1 r token Ha Ht Hv Hok.
  destruct (verify_host_trace _ _ _ _ _ _ _ _ Hv Hok) as (claims & host0 & -> & Htr).
  destruct Htr as (? & ? & ? & ? & ? & iss0 & w1 & _ & _ & _ & _ & _ & _ & _ & Hiss & _ & Hw1 & Hhost0 & _).
  own_still; [done|]. intros c [= <-].
  own_still; [by destruct (hr_json rq)|]. intros raw _.
  own_still; [by destruct (reactivate_body raw)|]. intros aid _.
  own_still; [done|]. intros ap2 [= <-].
  own_still; [by destruct (InMemoryAgentStore.get _ _)|]. intros agent Hagent.
  own_still; [by destruct (j_get "iss" claims)|]. intros iss Hi. rewrite Hiss in Hi. injection Hi as <-.
  own_still; [by destruct (InMemoryHostStore.get_by_public_key _ _)|]. intros host Hhost.
  own_still; [apply still_when|]. intros u Hown.
  own_still; [done|]. intros ap3 [= <-].
  own_still; [by destruct (InMemoryAgentStore.get _ _)|]. intros fresh Hfresh.
  own_still; [by destruct (reactivate_agent _ _ _) as [[]|]|]. intros re Hre.
  unfold InMemoryAgentStore.get in Hagent, Hfresh. rewrite Ha in Hagent, Hfresh.
  destruct (agents_of ap !! aid) as [a|] eqn:Hag; [|done].
  assert (agent = a ∧ fresh = a) as [-> ->] by (cbn in Hagent, Hfresh; unfold st_ret in *; split; congruence).
  rewrite <- Hhost0 in Hhost. destruct host0 as [h|]; [|done].
  assert (host = h) as -> by (cbn in Hhost; unfold st_ret in Hhost; congruence).
  assert (Hh : h_host_id h = a_host_id a).
  { destruct (String.eqb_spec (h_host_id h) (a_host_id a)); [done|]. cbn in Hown. done. }
  assert (Hauth : authenticated cf ck rq true ap (a_host_id a)).
  { exists token, (ap_world ap1). eexists. split_and!; [done|exact Hv|done|].
    unfold effective_identity_host_id. cbn. rewrite Hiss. by rewrite Hh. }
  assert (Hre' : a_agent_id re = aid ∧ a_host_id re = a_host_id a).
  { unfold reactivate_agent in Hre. destruct (reactivatable (a_status a)); [|done].
    destruct (exceeds (a_absolute_lifetime a) (now - a_created_at a)); [done|].
    cbn in Hre. unfold st_ret in Hre. injection Hre as <-. cbn. split; [by apply Hkeyed in Hag|done]. }
  destruct Hre' as [Hre' Hreh].
  eapply own_change_save; [done|done|exact Hauth|by rewrite Hre'|done|done|].
  intros saved. apply keeps_bind; [by destruct saved as [[]|]|]. intros _.
  apply keeps_bind; [|done]. intros s. unfold on_registry, st_bind, st_get.
  destruct (decay_grants _ _ _) as [r' out]. by destruct out.
Qed.

(** Lines that produce no success. *)
Definition no200 {A} (m : ST (app C) (res pyexn Response) A) : Prop :=
  ∀ ap ap' resp, m ap = (ap', Raise (Ret resp)) → rs_status resp ≠ 200.

Lemma no200_ret {A} (a : A) : no200 (st_ret a).
Proof. done. Qed.
Lemma no200_get : no200 st_get.
Proof. done. Qed.
Lemma no200_modify f : no200 (st_modify f).
Proof. done. Qed.
Lemma no200_respond {A} s j : s ≠ 200 → no200 (respond (A := A) s j).
Proof. by intros Hs ap ap' resp [= _ <-]. Qed.
Lemma no200_escape {A} e : no200 (escape (A := A) e).
Proof. done. Qed.
Lemma no200_lift {A} (m : res pyexn A) : no200 (lift_exn m).
Proof. by destruct m. Qed.
Lemma no200_when c m : no200 m → no200 (st_when c m).
Proof. by destruct c. Qed.
Lemma no200_bind {A B} (m : ST (app C) (res pyexn Response) A) (k : A → ST (app C) (res pyexn Response) B) :
  no200 m → (∀ a, no200 (k a)) → no200 (st_bind m k).
Proof.
  intros Hm Hk ap ap' resp. unfold st_bind. destruct (m ap) as [ap1 [o|a]] eqn:E.
  - intros [= -> ->]. by eapply Hm.
  - apply Hk.
Qed.

Lemma no200_approvals : no200 approvals.
Proof. apply no200_bind; [done|]. intros ap. destruct (ap_approvals ap); [done|by apply no200_respond]. Qed.
Lemma no200_on_registry {A} (m : ST CapabilityRegistry.t pyexn A) : no200 (on_registry m).
Proof.
  apply no200_bind; [done|]. intros ap. destruct (m (ap_registry ap)).
  apply no200_bind; [done|]. intros _. apply no200_lift.
Qed.
Lemma no200_on_approvals {A} s (f : InMemoryApprovalStore.t → InMemoryApprovalStore.t * A) : no200 (on_approvals s f).
Proof. unfold on_approvals. destruct (f s). by apply no200_bind. Qed.

(** A success comes from the last line of the handler. *)
Lemma serve_200 h ap ap' resp :
  no200 h → serve h ap = (ap', Ret resp) → rs_status resp = 200 → h ap = (ap', Ret resp).
Proof.
  intros Hn. unfold serve. destruct (h ap) as [ap1 [[e|r]|r]] eqn:E; intros [= -> ->]; [|done].
  intros Hs. by apply Hn in E.
Qed.

Lemma verify_agent_bearer_ret cf ck rq ap ap1 r :
  verify_agent_bearer cf ck rq ap = (ap1, Ret r) →
  ∃ token, bearer_token_from_request rq = Some token ∧
    verify_agent_jwt il_none ck token (Some (cf_audience cf)) (ap_world ap) = (ap_world ap1, Ret r) ∧
    vr_ok r = true ∧ ap_registry ap1 = ap_registry ap.
Proof.
  unfold verify_agent_bearer. destruct (bearer_token_from_request rq) as [token|]; [|done].
  unfold verifying, st_bind, st_get, st_modify.
  destruct (verify_agent_jwt il_none ck token _ (ap_world ap)) as [w' [e|r0]] eqn:Hv; cbn; [done|].
  destruct (vr_ok r0) eqn:Hok; cbn; [|done]. intros [= <- <-]. cbn. eauto.
Qed.

Lemma no200_verify_agent_bearer cf ck rq : no200 (verify_agent_bearer cf ck rq).
Proof.
  unfold verify_agent_bearer. destruct (bearer_token_from_request rq); [|by apply no200_respond].
  apply no200_bind.
  - apply no200_bind; [done|]. intros ap. destruct (verify_agent_jwt _ _ _ _ _).
    apply no200_bind; [done|]. intros _. apply no200_lift.
  - intros r. destruct (negb _); [|done]. apply no200_respond. by repeat case_match.
Qed.

Lemma no200_verify_host_bearer cf ck rq : no200 (verify_host_bearer cf ck rq true true).
Proof.
  intros ap ap' resp Hr. pose proof (verify_host_bearer_run cf ck rq true ap) as Hrun. rewrite Hr in Hrun.
  apply Hrun.
Qed.

Lemma no200_execute cf ck now rq : no200 (handle_capability_execute cf ck now rq).
Proof.
  unfold handle_capability_execute. apply no200_bind; [apply no200_verify_agent_bearer|]. intros r.
  apply no200_bind; [destruct (vr_agent r); [done|by apply no200_respond]|]. intros a.
  apply no200_bind; [destruct (hr_json rq); [by apply no200_respond|done]|]. intros raw.
  apply no200_bind; [destruct (execute_body raw); [done|by apply no200_respond]|]. intros [c args].
  apply no200_bind; [done|]. intros ap. apply no200_bind; [apply no200_lift|]. intros out.
  destruct (gc_allowed out); cbn [negb]; [done|]. destruct (gc_violations out); by apply no200_respond.
Qed.

Lemma no200_save_agent a k : no200 (save_agent a k).
Proof.
  unfold save_agent. apply no200_bind; [done|]. intros ap.
  destruct (save_agent_unless_revoked _ _ _ _). by apply no200_bind.
Qed.

Lemma no200_reactivate cf ck now rq : no200 (handle_agent_reactivate cf ck now rq).
Proof.
  unfold handle_agent_reactivate. apply no200_bind; [apply no200_verify_host_bearer|]. intros r.
  apply no200_bind; [destruct (vr_claims r); [done|by apply no200_respond]|]. intros c.
  apply no200_bind; [destruct (hr_json rq); [by apply no200_respond|done]|]. intros raw.
  apply no200_bind; [destruct (reactivate_body raw); [done|by apply no200_respond]|]. intros aid.
  apply no200_bind; [done|]. intros ap.
  apply no200_bind; [destruct (InMemoryAgentStore.get _ _); [done|by apply no200_respond]|]. intros a.
  apply no200_bind; [destruct (j_get "iss" c); try done; by apply no200_respond|]. intros iss.
  apply no200_bind; [destruct (InMemoryHostStore.get_by_public_key _ _); [done|by apply no200_respond]|].
  intros h. apply no200_bind; [apply no200_when; by apply no200_respond|]. intros _.
  apply no200_bind; [done|]. intros ap2.
  apply no200_bind; [destruct (InMemoryAgentStore.get _ _); [done|by apply no200_respond]|]. intros f.
  apply no200_bind; [destruct (reactivate_agent _ _ _) as [[]|]; try done; by apply no200_respond|].
  intros re. apply no200_bind; [apply no200_save_agent|]. intros saved.
  apply no200_bind; [destruct saved as [[]|]; try done; by apply no200_respond|]. intros _.
  apply no200_bind; [|done]. unfold on_registry. apply no200_bind; [done|]. intros ap3.
  destruct (decay_grants _ _ _). apply no200_bind; [done|]. intros _. apply no200_lift.
Qed.

End RouteLemmas.

Ltac no200_step :=
  match goal with
  | |- no200 (st_bind _ _) => apply no200_bind; [|intros ?]
  | |- no200 (match ?x with _ => _ end) => destruct x
  | |- no200 (st_when _ _) => apply no200_when
  | |- no200 _ =>
      first [apply no200_ret | apply no200_get | apply no200_modify | apply no200_escape | apply no200_lift
            | apply no200_on_registry | apply no200_on_approvals | apply no200_approvals
            | apply no200_verify_host_bearer | apply no200_respond; done]
  end.

(** ** Lemmas on capability decay *)
Lemma deny_all_run aid gs r :
  ∃ r', deny_all aid gs r = (r', Ret tt) ∧
    ∀ aid' cap, CapabilityRegistry.lookup aid' cap r' =
      if bool_decide (aid' = aid ∧ cap ∈ map g_capability gs)
      then Some (mkGrant cap GDenied None None (Some "capability decayed on reactivation"%string) None)
      else CapabilityRegistry.lookup aid' cap r.
Proof.
  revert r. induction gs as [|g gs IH]; intros r.
  { exists r. split; [done|]. intros aid' cap. rewrite bool_decide_false; [done|]. set_solver. }
  cbn [deny_all]. unfold st_bind.
  set (reason := Some "capability decayed on reactivation"%string).
  destruct (grant_cases aid (g_capability g) JNull None GDenied reason None r)
    as [(e & He & _)|(o & r1 & g1 & Ho & Hg1 & Hgr & _ & Hl)]; [done|].
  rewrite Hgr. destruct (IH r1) as (r' & -> & Hr'). exists r'. split; [done|].
  injection Ho as <-. intros aid' cap. rewrite Hr'. unfold CapabilityRegistry.lookup. rewrite Hl.
  destruct (decide (aid' = aid)) as [->|Hne]; cycle 1.
  { by rewrite !bool_decide_false by (by intros [? _]). }
  destruct (decide (cap ∈ map g_capability gs)).
  { by rewrite !bool_decide_true by set_solver. }
  rewrite (bool_decide_false (aid = aid ∧ cap ∈ map g_capability gs)) by set_solver.
  destruct (decide (cap = g_capability g)) as [->|].
  - rewrite PyDict.get_set_eq, bool_decide_true by set_solver. by subst.
  - rewrite PyDict.get_set_ne by done. by rewrite bool_decide_false by set_solver.
Qed.

Lemma grant_defaults_run aid hid caps r :
  ∃ r', grant_defaults aid hid caps r = (r', Ret tt) ∧
    ∀ aid' cap, CapabilityRegistry.lookup aid' cap r' =
      if bool_decide (aid' = aid ∧ cap ∈ caps)
      then Some (mkGrant cap GActive None (Some hid) None None)
      else CapabilityRegistry.lookup aid' cap r.
Proof.
  revert r. induction caps as [|c caps IH]; intros r.
  { exists r. split; [done|]. intros aid' cap. rewrite bool_decide_false; [done|]. set_solver. }
  cbn [grant_defaults]. unfold st_bind.
  destruct (grant_cases aid c JNull (Some hid) GActive None None r)
    as [(e & He & _)|(o & r1 & g1 & Ho & Hg1 & Hgr & _ & Hl)]; [done|].
  rewrite Hgr. destruct (IH r1) as (r' & -> & Hr'). exists r'. split; [done|].
  injection Ho as <-. intros aid' cap. rewrite Hr'. unfold CapabilityRegistry.lookup. rewrite Hl.
  destruct (decide (aid' = aid)) as [->|Hne]; cycle 1.
  { by rewrite !bool_decide_false by (by intros [? _]). }
  destruct (decide (cap ∈ caps)).
  { by rewrite !bool_decide_true by set_solver. }
  rewrite (bool_decide_false (aid = aid ∧ cap ∈ caps)) by set_solver.
  destruct (decide (cap = c)) as [->|].
  - rewrite PyDict.get_set_eq, bool_decide_true by set_solver. by subst.
  - rewrite PyDict.get_set_ne by done. by rewrite bool_decide_false by set_solver.
Qed.

(** After the decay exactly the defaults are active; nothing else of the agent
    is, and no other agent's grants change. *)
Lemma decay_grants_run aid host r : CapabilityRegistry.ok r →
  ∃ r' gs, decay_grants aid host r = (r', Ret gs) ∧
    (∀ cap, (∃ g, CapabilityRegistry.lookup aid cap r' = Some g ∧ g_status g = GActive) ↔
            cap ∈ h_default_capabilities host) ∧
    (∀ aid' cap, aid' ≠ aid → CapabilityRegistry.lookup aid' cap r' = CapabilityRegistry.lookup aid' cap r).
Proof.
  intros Hok. unfold decay_grants, st_bind, st_gets.
  destruct (deny_all_run aid (CapabilityRegistry.get_grants aid r) r) as (r1 & -> & H1).
  destruct (grant_defaults_run aid (h_host_id host) (h_default_capabilities host) r1) as (r2 & -> & H2).
  eexists _, _. split; [done|]. split.
  - intros cap. rewrite H2. case_bool_decide as Hc.
    + split; [by intros _; apply Hc|]. intros _. by eexists.
    + split; [|intros Hin; by destruct Hc]. intros (g & Hg & Hact). exfalso.
      rewrite H1 in Hg. case_bool_decide as Hd; [injection Hg as <-; done|].
      apply Hd. split; [done|]. destruct (Hok aid) as [Hwf Hkey].
      unfold CapabilityRegistry.lookup in Hg. apply list_elem_of_fmap.
      exists g. split; [by symmetry; apply Hkey|]. unfold CapabilityRegistry.get_grants.
      apply list_elem_of_fmap. exists (cap, g). split; [done|]. by apply PyDict.get_Some_elem.
  - intros aid' cap Hne. rewrite H2, H1. by rewrite !bool_decide_false by (by intros [? _]).
Qed.

(** ** Properties *)

(** C3: `execute` answers 200 only to a bearer token that verifies as an
    Agent JWT, for the capability of the body, when the registry's check of
    that agent's grant allows the arguments of the body; and it changes no
    grant. *)
Theorem execute_requires_grant `{PyRuntime, Jose} {C : Type} `{JtiGuard C}
    (cf : config) (ck : clock) (now : Z) (rq : HttpRequest) (ap ap' : app C) (resp : Response) :
  serve (handle_capability_execute cf ck now rq) ap = (ap', Ret resp) → rs_status resp = 200 →
  ∃ token r session raw capability arguments check,
    bearer_token_from_request rq = Some token ∧
    verify_agent_jwt il_none ck token (Some (cf_audience cf)) (ap_world ap) = (ap_world ap', Ret r) ∧
    vr_ok r = true ∧ vr_agent r = Some session ∧
    hr_json rq = Ret raw ∧ execute_body raw = Some (capability, arguments) ∧
    CapabilityRegistry.check_grant now (a_agent_id session) capability arguments (ap_registry ap) = Ret check ∧
    gc_allowed check = true ∧ ap_registry ap' = ap_registry ap.
Proof.
  intros Hs H200. apply serve_200 in Hs; [|apply no200_execute|done]. unfold handle_capability_execute in Hs.
  bind_inv Hs as (ap1 & r & (token & Ht & Hv & Hok & Hreg)%verify_agent_bearer_ret & Hs).
  bind_inv Hs as (ap2 & session & Ha & Hs).
  destruct (vr_agent r) as [a|] eqn:Hag; [|done]. injection Ha as <- <-.
  bind_inv Hs as (ap2 & raw & Hj & Hs).
  destruct (hr_json rq) as [e|j] eqn:Hjson; [done|]. injection Hj as <- <-.
  bind_inv Hs as (ap2 & [capability arguments] & Hb & Hs).
  destruct (execute_body j) as [b|] eqn:Hbody; [|done]. injection Hb as <- ->.
  bind_inv Hs as (ap2 & ap3 & Hg & Hs). injection Hg as <- <-.
  bind_inv Hs as (ap2 & check & Hc & Hs).
  pose proof (still_lift (CapabilityRegistry.check_grant now (a_agent_id a) capability arguments
    (ap_registry ap1)) ap1) as Hst. rewrite Hc in Hst. cbn in Hst. subst ap2.
  apply lift_exn_ret in Hc. rewrite Hreg in Hc.
  destruct (gc_allowed check) eqn:Hal; cbn [negb] in Hs; [|by destruct (gc_violations check)].
  injection Hs as <- <-. exists token, r, a, j, capability, arguments, check. by split_and!.
Qed.

(** After a reactivation that answers 200, exactly the default
    capabilities of the agent's host are active for the agent: everything else
    it had been granted has decayed; and no other agent's grants change. *)
Theorem reactivation_resets_grants `{PyRuntime, Jose} {C : Type} `{JtiGuard C}
    (cf : config) (ck : clock) (now : Z) (rq : HttpRequest) (ap ap' : app C) (resp : Response) :
  CapabilityRegistry.ok (ap_registry ap) →
  serve (handle_agent_reactivate cf ck now rq) ap = (ap', Ret resp) → rs_status resp = 200 →
  ∃ raw aid host, hr_json rq = Ret raw ∧ reactivate_body raw = Some aid ∧
    authenticated cf ck rq true ap (h_host_id host) ∧
    (∀ cap, (∃ g, CapabilityRegistry.lookup aid cap (ap_registry ap') = Some g ∧ g_status g = GActive) ↔
            cap ∈ h_default_capabilities host) ∧
    (∀ aid' cap, aid' ≠ aid →
       CapabilityRegistry.lookup aid' cap (ap_registry ap') = CapabilityRegistry.lookup aid' cap (ap_registry ap)).
Proof.
  intros Hreg Hs H200. apply serve_200 in Hs; [|apply no200_reactivate|done].
  unfold handle_agent_reactivate in Hs.
  bind_inv Hs as (ap1 & r & Hb & Hs). pose proof (verify_host_bearer_run cf ck rq true ap) as Hrun.
  rewrite Hb in Hrun. destruct Hrun as (_ & _ & Hr1 & _ & _ & token & Ht & Hv & Hok).
  destruct (verify_host_trace _ _ _ _ _ _ _ _ Hv Hok) as (claims & host0 & -> & Htr).
  destruct Htr as (? & ? & ? & ? & ? & iss0 & w1 & _ & _ & _ & _ & _ & _ & _ & Hiss & _ & Hw1 & Hhost0 & _).
  bind_inv Hs as (ap2 & c & Hc & Hs). injection Hc as <- <-.
  bind_inv Hs as (ap2 & raw & Hj & Hs). destruct (hr_json rq) as [e|j] eqn:Hjson; [done|].
  injection Hj as <- <-.
  bind_inv Hs as (ap2 & aid & Ha & Hs). destruct (reactivate_body j) as [b|] eqn:Hbody; [|done].
  injection Ha as <- <-.
  bind_inv Hs as (ap2 & ap3 & Hg & Hs). injection Hg as <- <-.
  bind_inv Hs as (ap2 & agent & Hg & Hs). destruct (InMemoryAgentStore.get b _) as [a|]; [|done].
  injection Hg as <- <-.
  bind_inv Hs as (ap2 & iss & Hi & Hs). rewrite Hiss in Hi. injection Hi as <- <-.
  bind_inv Hs as (ap2 & host & Hh & Hs). rewrite <- Hhost0 in Hh. destruct host0 as [h|]; [|done].
  injection Hh as <- <-.
  bind_inv Hs as (ap2 & u & Hw & Hs).
  assert (ap2 = ap1) as -> by (destruct (negb _) in Hw; [done|by injection Hw as <-]).
  bind_inv Hs as (ap2 & ap3 & Hg & Hs). injection Hg as <- <-.
  bind_inv Hs as (ap2 & fresh & Hf & Hs). destruct (InMemoryAgentStore.get b _) as [f|]; [|done].
  injection Hf as <- <-.
  bind_inv Hs as (ap2 & re & Hre & Hs).
  assert (ap2 = ap1) as -> by (destruct (reactivate_agent now f h) as [[]|]; try done; by injection Hre as <-).
  bind_inv Hs as (ap2 & saved & Hsv & Hs).
  assert (Hr2 : ap_registry ap2 = ap_registry ap1).
  { unfold save_agent, st_bind, st_get in Hsv. destruct (save_agent_unless_revoked _ _ _ _).
    injection Hsv as <- _. done. }
  bind_inv Hs as (ap3 & u2 & Hsr & Hs).
  assert (ap3 = ap2) as -> by (destruct saved as [[]|]; try done; by injection Hsr as <-).
  bind_inv Hs as (ap4 & grants & Hd & Hs). injection Hs as <- <-.
  destruct (decay_grants_run b h (ap_registry ap2)) as (r' & gs & Hdec & Hact & Hoth).
  { rewrite Hr2, Hr1. exact Hreg. }
  unfold on_registry, st_bind, st_get in Hd. rewrite Hdec in Hd. cbn in Hd. injection Hd as <- <-. cbn.
  exists j, b, h. split_and!; [done|done| |done|].
  - exists token, (ap_world ap1). eexists. split_and!; [done|exact Hv|done|].
    unfold effective_identity_host_id. cbn. by rewrite Hiss.
  - intros aid' cap Hne. rewrite Hoth by done. by rewrite Hr2, Hr1.
Qed.

(** ** Witnesses *)
#[local] Existing Instance AgentJwt.demo_runtime.

Definition demo_config : config := mkConfig ["srv"%string] true false.
Definition demo_request (body : json) : HttpRequest :=
  mkHttpRequest (Some "Bearer token"%string) (Ret body) None "uuid".
Definition demo_registry : CapabilityRegistry.t :=
  fst (CapabilityRegistry.grant "a1" "file:read" JNull None GActive None None
         (CapabilityRegistry.register (mkDefinition "file:read" "reads" None None None) CapabilityRegistry.init)).
Definition demo_app : app JtiReplayCache.t := mkApp (demo_world StActive) demo_registry None [].

Lemma execute_requires_grant_witness :
  let rq := demo_request (obj [("capability"%string, JStr "file:read")]) in
  let out := serve (@handle_capability_execute _ demo_agent_jose _ _ demo_config (at_time 0) 0 rq) demo_app in
  ∃ session capability arguments check,
    CapabilityRegistry.check_grant 0 (a_agent_id session) capability arguments demo_registry = Ret check ∧
    gc_allowed check = true.
Proof.
  intros rq out.
  destruct (@execute_requires_grant _ demo_agent_jose _ _ demo_config (at_time 0) 0 rq demo_app (fst out)
              (match snd out with Ret r => r | Raise _ => mkResponse 500 JNull end))
    as (token & r & session & raw & capability & arguments & check & _ & _ & _ & _ & _ & _ & Hc & Hal & _).
  - vm_compute. reflexivity.
  - vm_compute. reflexivity.
  - exists session, capability, arguments, check. split; [exact Hc|exact Hal].
Defined.

Lemma reactivation_resets_grants_witness :
  let rq := demo_request (obj [("agent_id"%string, JStr "a1")]) in
  let out := serve (@handle_agent_reactivate _ demo_host_jose _ _ demo_config (at_time 0) 0 rq) demo_app in
  ∃ aid host, ∀ cap,
    (∃ g, CapabilityRegistry.lookup aid cap (ap_registry (fst out)) = Some g ∧ g_status g = GActive) ↔
    cap ∈ h_default_capabilities host.
Proof.
  intros rq out.
  destruct (@reactivation_resets_grants _ demo_host_jose _ _ demo_config (at_time 0) 0 rq demo_app (fst out)
              (match snd out with Ret r => r | Raise _ => mkResponse 500 JNull end))
    as (raw & aid & host & _ & _ & _ & Hact & _).
  - apply grant_ok, ok_init.
  - vm_compute. reflexivity.
  - vm_compute. reflexivity.
  - exists aid, host. exact Hact.
Defined.
