(* ===== verification/Registration.v ===== *)
(** * Agent registration and status polling

    `_handle_agent_register` and `_handle_agent_status` of
    `src/src/asap/transport/agent_routes.py`, with their helpers: the
    fresh-session and WebAuthn gates, the lifecycle members of a response and
    `approval_object_for_client` of `src/src/asap/auth/approval.py`.

    Fresh ids and user codes and all readings of the clock are arguments, as is
    the WebAuthn verifier of the request; the registry is configured. *)

From Stdlib Require Import ZArith QArith Lia Ascii String.
From stdpp Require Import base tactics list gmap strings sorting.
From S2P Require Import Prelude PyValue Digest Identity ReplayGuard Capabilities AgentJwt Approval SelfAuth Routes.
Open Scope Z_scope.
Open Scope asap_scope.

Section Registration.
  Context `{PyRuntime, Jose} {C : Type} `{JtiGuard C}.

Abbreviation Handler A := (ST (app C) (res pyexn Response) A).

Definition parse_agent_controls_browser (raw_body : pydict) : bool :=
  match j_get "agent_controls_browser" raw_body with JBool true => true | _ => false end.

(** [now]: the reading of `time.time()`. *)
Definition approval_fresh_session_response (fresh : option FreshSessionConfig) (now : Z)
    (claims : claims_t) : Handler unit :=
  match fresh with
  | None => st_ret tt
  | Some cfg =>
      do! violation <- lift_exn (fresh_session_violation_detail claims cfg now) in
      match violation with
      | None => st_ret tt
      | Some d => respond 403 (detail d)
      end
  end.

Definition approval_webauthn_response (fresh : option FreshSessionConfig) (verifier : WebAuthnVerifier)
    (raw_body : pydict) (requested_names : list string) (host_id : string)
    (agent_controls_browser : bool) : Handler unit :=
  do! result <- lift_exn (check_webauthn_for_approval_path requested_names raw_body fresh verifier
                            (Some host_id) agent_controls_browser) in
  match wc_detail result with
  | None => st_ret tt
  | Some d =>
      if wc_http_status result =? 403 then respond 403 (detail "webauthn_required")
      else respond 400 (detail d)
  end.

Definition needs_registration_approval (host : HostIdentity) (requested_names : list string) : bool :=
  escalation_requires_user_consent host requested_names.

Definition grants_for_agent (registry : CapabilityRegistry.t) (agent_id : string) : list json :=
  map grant_to_dict (CapabilityRegistry.get_grants agent_id registry).

Definition approval_object_for_client (now : Z) (state : ApprovalRequestState) : ApprovalObject :=
  state_to_approval_object now state.

Definition mode_str (m : AgentMode) : string :=
  match m with Delegated => "delegated" | Autonomous => "autonomous" end.

Definition agent_lifecycle_json (session : AgentSession) : json :=
  let td_seconds o := match o with Some us => JFloat (seconds us) | None => JNull end in
  let iso o := match o with Some us => JStr (isoformat us) | None => JNull end in
  obj [("mode"%string, JStr (mode_str (a_mode session)));
       ("session_ttl"%string, td_seconds (a_session_ttl session));
       ("max_lifetime"%string, td_seconds (a_max_lifetime session));
       ("absolute_lifetime"%string, td_seconds (a_absolute_lifetime session));
       ("created_at"%string, JStr (isoformat (a_created_at session)));
       ("activated_at"%string, iso (a_activated_at session));
       ("last_used_at"%string, iso (a_last_used_at session))].

(** ** Register *)

(** `await host_store.save(host)` *)
Definition save_host (host : HostIdentity) : Handler unit :=
  do! ap <- st_get in
  let w := ap_world ap in
  let '(hosts, out) := InMemoryHostStore.save host (w_hosts w) in
  run! st_modify (λ a, mkApp (mkWorld hosts (w_agents (ap_world a)) (w_cache (ap_world a)))
                         (ap_registry a) (ap_approvals a) (ap_tasks a)) in
  lift_exn out.

(** `await agent_store.save(session)`; its errors are subclasses of ValueError. *)
Definition save_new_agent (agent : AgentSession) : Handler unit :=
  do! ap <- st_get in
  let '(s', out) := InMemoryAgentStore.save agent None (agents_of ap) in
  run! st_modify (set_agents s') in
  match out with
  | Raise (SaveRaised e) => escape e
  | Raise RevokedAgentOverwriteError | Raise StaleAgentPublicKeyError =>
      escape (ValueError "refusing to overwrite agent")
  | Ret _ => st_ret tt
  end.

(** The first session with the key. *)
Fixpoint session_with_key (agent_tp : string) (sessions : list AgentSession) :
    res pyexn (option AgentSession) :=
  match sessions with
  | [] => Ret None
  | sess :: rest =>
      let! tp := jwk_thumbprint_sha256 (a_public_key sess) in
      if String.eqb tp agent_tp then Ret (Some sess) else session_with_key agent_tp rest
  end.

(** The pending host of a first-seen key; the model validates the key. *)
Definition first_seen_host (now : Z) (iss : string) (host_pub : jwk) : Handler HostIdentity :=
  run! match okp_import_key host_pub with
       | Raise _ => escape (ValidationError "Invalid OKP public key JWK")
       | Ret _ => st_ret tt
       end in
  let host := mkHost (host_urn_from_thumbprint iss) None host_pub None [] HostPending now now in
  run! save_host host in
  st_ret host.

Definition preferred_approval_method (raw_body : pydict) : option ApprovalMethod :=
  match j_get "approval_method" raw_body with
  | JStr s => if String.eqb s "device_authorization" then Some DeviceAuthorization
              else if String.eqb s "ciba" then Some Ciba else None
  | _ => None
  end.

(** What a request brings that is not in the code: readings of the clock, the
    random id and code, and the verifier of the application. *)
Record register_env : Type := mkRegisterEnv {
  re_now : Z;
  re_fresh_now : Z;
  re_rc : request_clock;
  re_agent_id : string;
  re_user_code : string;
  re_verifier : WebAuthnVerifier
}.

(** `if ...capability_specs: apply_capability_specs_to_registry(...)` *)
Definition grant_requested (agent_id host_id : string) (capability_specs : list pydict) :
    Handler (list json) :=
  match capability_specs with
  | [] => st_ret []
  | _ => on_registry (apply_capability_specs_to_registry agent_id host_id capability_specs)
  end.

(** The last part of the handler: a new session, granted at once or left
    pending with an approval request. *)
Definition register_session (cf : config) (env : register_env) (host : HostIdentity) (agent_pub : jwk)
    (raw_body : pydict) (needs : bool) : Handler Response :=
  let '(requested_names, capability_specs) := parse_capability_registration_body raw_body in
  let host_id := h_host_id host in
  let agent_id := re_agent_id env in
  let session := mkAgent agent_id host_id agent_pub Delegated StPending None None None None None
                   (re_now env) in
  run! save_new_agent session in
  if negb needs then
    do! capability_grants <- grant_requested agent_id host_id capability_specs in
    run! save_new_agent (with_activated_at (re_now env) (with_status StActive session)) in
    st_ret (mkResponse 200 (obj
      ([("agent_id"%string, JStr agent_id); ("host_id"%string, JStr host_id);
        ("status"%string, JStr "active")]
       ++ match capability_grants with
          | [] => [] | _ => [("agent_capability_grants"%string, JList capability_grants)] end)))
  else
    do! store <- approvals in
    do! created <- on_approvals store (
      match select_approval_method host (cf_host_supports_ciba cf) (preferred_approval_method raw_body)
              (parse_agent_controls_browser raw_body) with
      | Ciba => create_ciba_approval (re_rc env) agent_id requested_names None
                  DEFAULT_DEVICE_EXPIRES_IN_SECONDS DEFAULT_POLL_INTERVAL_SECONDS
                  (Some capability_specs) Approval.Registration
      | DeviceAuthorization =>
          create_device_authorization (re_rc env) (re_user_code env) agent_id requested_names
            DEFAULT_DEVICE_EXPIRES_IN_SECONDS DEFAULT_POLL_INTERVAL_SECONDS None
            (Some capability_specs) Approval.Registration
      end) in
    do! approval_obj <- lift_exn created in
    run! st_when (cf_a2h_channel cf) (st_modify (λ a,
      mkApp (ap_world a) (ap_registry a) (ap_approvals a)
        (ap_tasks a ++ [mkTask agent_id
           ("ASAP agent registration " ++ agent_id ++ " for host " ++ host_id)%string
           (nonempty_or (h_user_id host) host_id) capability_specs]))) in
    st_ret (mkResponse 200 (obj
      [("agent_id"%string, JStr agent_id); ("host_id"%string, JStr host_id);
       ("status"%string, JStr "pending"); ("approval"%string, approval_json approval_obj)])).

Definition handle_agent_register (cf : config) (fresh : option FreshSessionConfig) (ck : clock)
    (env : register_env) (rq : HttpRequest) : Handler Response :=
  do! result <- verify_host_bearer cf ck rq true true in
  do! claims <- match vr_claims result with
                | Some c => st_ret c
                | None => respond 401 (detail "Invalid host token")
                end in
  do! agent_pub <- match j_get AGENT_PUBLIC_KEY_CLAIM claims with
                   | JObj d => st_ret d
                   | _ => respond 400 (detail "missing or invalid agent_public_key claim in host JWT")
                   end in
  run! match okp_import_key agent_pub with
       | Raise _ => respond 400 (detail "invalid agent_public_key JWK")
       | Ret _ => st_ret tt
       end in
  do! host_pub <- match j_get HOST_PUBLIC_KEY_CLAIM claims with
                  | JObj d => st_ret d
                  | _ => respond 400 (detail "missing host_public_key in host JWT")
                  end in
  do! iss <- match j_get "iss" claims with
             | JStr s => if PyStr.nonblank s then st_ret s
                         else respond 400 (detail "missing iss in host JWT")
             | _ => respond 400 (detail "missing iss in host JWT")
             end in
  do! host <- match vr_host result with
              | Some h => st_ret h
              | None => first_seen_host (re_now env) iss host_pub
              end in
  let host_id := h_host_id host in
  do! agent_tp <- lift_exn (jwk_thumbprint_sha256 agent_pub) in
  do! ap <- st_get in
  do! existing <- lift_exn (session_with_key agent_tp
                              (InMemoryAgentStore.list_by_host host_id (agents_of ap))) in
  match existing with
  | Some sess =>
      st_ret (mkResponse 200 (obj [("agent_id"%string, JStr (a_agent_id sess));
                                   ("host_id"%string, JStr (a_host_id sess));
                                   ("status"%string, JStr (session_status_str (a_status sess)))]))
  | None =>
      let raw_body := match hr_json rq with Ret (JObj d) => d | _ => [] end in
      let requested_names := fst (parse_capability_registration_body raw_body) in
      let needs := needs_registration_approval host requested_names in
      run! st_when needs (
        run! approvals in
        run! approval_fresh_session_response fresh (re_fresh_now env) claims in
        approval_webauthn_response fresh (re_verifier env) raw_body requested_names host_id
          (parse_agent_controls_browser raw_body)) in
      register_session cf env host agent_pub raw_body needs
  end.

(** ** Status *)

(** The readings of the clock of a status request. *)
Record status_clock : Type := mkSClock {
  sc_get : Z;
  sc_fresh : Z;
  sc_activate : Z;
  sc_client : Z
}.

Definition apply_approved (agent_id host_id : string) (specs : list pydict) : Handler unit :=
  run! grant_requested agent_id host_id specs in st_ret tt.

(** Approved or closed escalations of an active agent leave the store; what is
    left of the row. *)
Definition settle_escalation (agent_id host_id : string) (session : AgentSession)
    (appr : option ApprovalRequestState) : Handler (option ApprovalRequestState) :=
  let remove : Handler (option ApprovalRequestState) :=
    run! st_modify (λ a, mkApp (ap_world a) (ap_registry a)
           (option_map (InMemoryApprovalStore.remove agent_id) (ap_approvals a)) (ap_tasks a)) in
    st_ret None in
  match appr with
  | Some row =>
      if bool_decide (a_status session = StActive) && bool_decide (ar_approval_kind row = Escalation) then
        match ar_status row with
        | ApApproved => run! apply_approved agent_id host_id (ar_capability_specs row) in remove
        | ApDenied | ApExpired => remove
        | ApPending => st_ret appr
        end
      else st_ret appr
  | None => st_ret None
  end.

(** A decided registration activates or rejects the agent, if it is still
    pending. *)
Definition settle_registration (now : Z) (agent_id host_id : string) (session : AgentSession)
    (appr : option ApprovalRequestState) : Handler unit :=
  match appr with
  | Some row =>
      if negb (bool_decide (a_status session = StPending)) then st_ret tt
      else
        do! ap <- st_get in
        match ar_status row, InMemoryAgentStore.get agent_id (agents_of ap) with
        | ApApproved, Some fresh =>
            if negb (bool_decide (a_status fresh = StPending)) then st_ret tt
            else
              do! saved <- save_agent (with_activated_at now (with_status StActive fresh))
                             (a_public_key fresh) in
              match saved with
              | Raise (SaveRaised e) => escape e
              | Raise _ => st_ret tt
              | Ret _ => apply_approved agent_id host_id (ar_capability_specs row)
              end
        | ApDenied, Some fresh =>
            if negb (bool_decide (a_status fresh = StPending)) then st_ret tt
            else
              do! saved <- save_agent (with_status StRejected fresh) (a_public_key fresh) in
              match saved with
              | Raise (SaveRaised e) => escape e
              | _ => st_ret tt
              end
        | _, _ => st_ret tt
        end
  | None => st_ret tt
  end.

(** The members a response has for what is left of the row. *)
Definition approval_members (now : Z) (session : AgentSession) (row : ApprovalRequestState) :
    list (string * json) :=
  let pending_or_expired := bool_decide (ar_status row ∈ [ApPending; ApExpired]) in
  let shown :=
    (bool_decide (a_status session = StPending) && pending_or_expired)
    || (bool_decide (a_status session = StActive) && bool_decide (ar_approval_kind row = Escalation)
        && bool_decide (ar_status row = ApPending)) in
  [("approval_status"%string, JStr (approval_status_str (ar_status row)))]
  ++ if shown then
       let base := match approval_json (approval_object_for_client now row) with JObj d => d | _ => [] end in
       [("approval"%string, obj (base ++ [("state"%string, JStr (approval_status_str (ar_status row)))]))]
     else
       match a_status session, ar_deny_reason row with
       | StRejected, Some r => if PyStr.truthy r then [("deny_reason"%string, JStr r)] else []
       | _, _ => []
       end.

Definition handle_agent_status (cf : config) (fresh : option FreshSessionConfig) (ck : clock)
    (sc : status_clock) (rq : HttpRequest) (agent_id : string) : Handler Response :=
  do! result <- verify_host_bearer cf ck rq true false in
  do! host_id <- lift_exn (effective_identity_host_id result) in
  do! session <- own_agent host_id agent_id in
  do! ap <- st_get in
  do! appr <- match ap_approvals ap with
              | None => st_ret None
              | Some store => on_approvals store (InMemoryApprovalStore.get (sc_get sc) agent_id)
              end in
  run! match vr_claims result, appr with
       | Some claims, Some row =>
           st_when (bool_decide (a_status session = StPending) && bool_decide (ar_status row = ApPending))
             (approval_fresh_session_response fresh (sc_fresh sc) claims)
       | _, _ => st_ret tt
       end in
  do! appr <- settle_escalation agent_id host_id session appr in
  run! settle_registration (sc_activate sc) agent_id host_id session appr in
  do! ap <- st_get in
  let session := default session (InMemoryAgentStore.get agent_id (agents_of ap)) in
  let caps_out := if bool_decide (a_status session = StActive)
                  then grants_for_agent (ap_registry ap) agent_id else [] in
  st_ret (mkResponse 200 (obj
    ([("agent_id"%string, JStr (a_agent_id session)); ("host_id"%string, JStr (a_host_id session));
      ("status"%string, JStr (session_status_str (a_status session)));
      ("capabilities"%string, JList caps_out); ("agent_capability_grants"%string, JList caps_out);
      ("lifecycle"%string, agent_lifecycle_json session)]
     ++ match appr with Some row => approval_members (sc_client sc) session row | None => [] end))).

End Registration.

(** ** Lemmas: which agents a handler changes *)
Section AgentChanges.
  Context `{PyRuntime, Jose} {C : Type} `{JtiGuard C}.
  Implicit Types ap : app C.

(** Goes on after a computation that leaves the agents alone. *)
Lemma own_change_keeps {A B} cf ck rq b (m : ST (app C) (res pyexn Response) A)
    (k : A → ST (app C) (res pyexn Response) B) ap ap1 :
  st_keeps agents_of m → agents_of ap1 = agents_of ap →
  (∀ a ap2, m ap1 = (ap2, Ret a) → agents_of ap2 = agents_of ap → own_change cf ck rq b ap (fst (k a ap2))) →
  own_change cf ck rq b ap (fst (st_bind m k ap1)).
Proof.
  intros Hm Ha Hk. unfold st_bind. specialize (Hm ap1). destruct (m ap1) as [ap2 [o|a]]; cbn [fst] in Hm.
  - apply own_change_none. by transitivity (agents_of ap1).
  - apply Hk; [done|]. by transitivity (agents_of ap1).
Qed.

Lemma keeps_lift {A B} (view : app C → B) (m : res pyexn A) : st_keeps view (lift_exn m).
Proof. by destruct m. Qed.
Lemma keeps_respond {A B} (view : app C → B) s j : st_keeps view (respond (A := A) s j).
Proof. done. Qed.
Lemma keeps_escape {A B} (view : app C → B) e : st_keeps view (escape (A := A) e).
Proof. done. Qed.
Lemma keeps_approvals {B} (view : app C → B) : st_keeps view approvals.
Proof. unfold approvals. by repeat keeps_step; destruct (ap_approvals _). Qed.
Lemma keeps_fresh {B} (view : app C → B) f now claims :
  st_keeps view (approval_fresh_session_response f now claims).
Proof.
  unfold approval_fresh_session_response. destruct f as [cfg|]; [|done].
  apply keeps_bind; [apply keeps_lift|]. by intros [].
Qed.
Lemma keeps_webauthn {B} (view : app C → B) f v raw names hid br :
  st_keeps view (approval_webauthn_response f v raw names hid br).
Proof.
  unfold approval_webauthn_response. apply keeps_bind; [apply keeps_lift|]. intros r.
  destruct (wc_detail r); [|done]. by destruct (_ =? _).
Qed.
Lemma keeps_on_registry {A} (m : ST CapabilityRegistry.t pyexn A) :
  st_keeps (λ ap, (ap_world ap, ap_approvals ap)) (on_registry m).
Proof.
  intros ap. unfold on_registry, st_bind, st_get. destruct (m (ap_registry ap)) as [r' out].
  by destruct out.
Qed.
Lemma keeps_on_registry_agents {A} (m : ST CapabilityRegistry.t pyexn A) : st_keeps (agents_of (C := C)) (on_registry m).
Proof.
  intros ap. pose proof (keeps_on_registry m ap) as Hk. unfold agents_of. by injection Hk as -> _.
Qed.
Lemma keeps_on_approvals {A} s (f : InMemoryApprovalStore.t → InMemoryApprovalStore.t * A) :
  st_keeps (λ ap, (ap_world ap, ap_registry ap)) (on_approvals s f).
Proof. intros ap. unfold on_approvals. by destruct (f s). Qed.
Lemma keeps_on_approvals_agents {A} s (f : InMemoryApprovalStore.t → InMemoryApprovalStore.t * A) :
  st_keeps (agents_of (C := C)) (on_approvals s f).
Proof. intros ap. unfold on_approvals. by destruct (f s). Qed.
Lemma keeps_save_host h : st_keeps (λ ap, (agents_of ap, ap_registry ap, ap_approvals ap)) (save_host h).
Proof.
  intros ap. unfold save_host, st_bind, st_get. destruct (InMemoryHostStore.save h _) as [s out].
  by destruct out.
Qed.
Lemma keeps_first_seen now iss pub :
  st_keeps (λ ap, (agents_of ap, ap_registry ap, ap_approvals ap)) (first_seen_host now iss pub).
Proof.
  unfold first_seen_host. apply keeps_bind; [by destruct (okp_import_key pub)|]. intros _.
  apply keeps_bind; [apply keeps_save_host|done].
Qed.
Lemma keeps_view {A V W} (view : app C → V) (g : V → W) (m : ST (app C) (res pyexn Response) A) :
  st_keeps view m → st_keeps (λ ap, g (view ap)) m.
Proof. intros Hm ap. by rewrite (Hm ap). Qed.
Lemma keeps_grant_requested aid hid specs :
  st_keeps (λ ap, (ap_world ap, ap_approvals ap)) (grant_requested aid hid specs).
Proof. unfold grant_requested. destruct specs; [done|apply keeps_on_registry]. Qed.
Lemma keeps_apply_approved aid hid specs :
  st_keeps (λ ap, (ap_world ap, ap_approvals ap)) (apply_approved aid hid specs).
Proof.
  unfold apply_approved. apply keeps_bind; [apply keeps_grant_requested|done].
Qed.
Lemma keeps_settle_escalation aid hid session appr :
  st_keeps (ap_world (C := C)) (settle_escalation aid hid session appr).
Proof.
  unfold settle_escalation. destruct appr as [row|]; [|done]. destruct (_ && _); [|done].
  destruct (ar_status row); [done| |done..].
  apply keeps_bind; [|intros _; apply keeps_bind; [by apply keeps_modify|done]].
  apply (keeps_view (λ ap, (ap_world ap, ap_approvals ap)) fst), keeps_apply_approved.
Qed.

(** A new session is written under its own id, for the given host. *)
Lemma save_new_agent_run a ap :
  (∃ o, save_new_agent a ap = (ap, Raise o)) ∨
  save_new_agent a ap = (set_agents (<[a_agent_id a := a]> (agents_of ap)) ap, Ret tt).
Proof.
  unfold save_new_agent, st_bind, st_get, InMemoryAgentStore.save, st_modify.
  assert (He : set_agents (agents_of ap) ap = ap) by (by destruct ap as [[]]).
  destruct (agents_of ap !! a_agent_id a) as [e|]; [|by right].
  destruct (_ && _); [|by right]. left. rewrite He. eexists. done.
Qed.

(** What registering a session does to the agents. *)
Definition registers (env : register_env) (host : HostIdentity) (needs : bool) ap ap' : Prop :=
  agents_of ap' = agents_of ap ∨
  ∃ a, agents_of ap' = <[re_agent_id env := a]> (agents_of ap) ∧ a_agent_id a = re_agent_id env ∧
    a_host_id a = h_host_id host ∧ (a_status a = StPending ∨ (a_status a = StActive ∧ needs = false)).

Lemma registers_ext env host needs ap ap1 ap2 :
  agents_of ap2 = agents_of ap1 → registers env host needs ap ap1 → registers env host needs ap ap2.
Proof. intros He. unfold registers. by rewrite He. Qed.

Lemma register_session_agents cf env host pub raw needs ap :
  registers env host needs ap (fst (register_session cf env host pub raw needs ap)).
Proof.
  unfold register_session. destruct (parse_capability_registration_body raw) as [names specs].
  set (session := mkAgent _ _ _ _ _ _ _ _ _ _ _). unfold st_bind at 1.
  destruct (save_new_agent_run session ap) as [[o ->]| ->]; [by left|]. cbn [fst].
  set (ap1 := set_agents _ ap).
  assert (Hreg1 : registers env host needs ap ap1) by (right; exists session; split_and!; auto; done).
  assert (Hkeep : ∀ m : ST (app C) (res pyexn Response) Response,
            st_keeps agents_of m → registers env host needs ap (fst (m ap1))).
  { intros m Hm. eapply registers_ext; [apply Hm|exact Hreg1]. }
  destruct needs; cbn [negb].
  - apply Hkeep. apply keeps_bind; [apply keeps_approvals|]. intros s.
    apply keeps_bind; [apply keeps_on_approvals_agents|]. intros created.
    apply keeps_bind; [apply keeps_lift|]. intros o.
    apply keeps_bind; [by apply keeps_when, keeps_modify|done].
  - pose proof (keeps_grant_requested (re_agent_id env) (h_host_id host) specs ap1) as Hk.
    assert (Hg : agents_of (fst (grant_requested (re_agent_id env) (h_host_id host) specs ap1)) = agents_of ap1)
      by (unfold agents_of; by injection Hk as -> _). clear Hk.
    unfold st_bind at 1. destruct (grant_requested _ _ specs ap1) as [ap2 [o|gs]];
      cbn [fst] in Hg; [eapply registers_ext; [exact Hg|exact Hreg1]|].
    unfold st_bind at 1.
    destruct (save_new_agent_run (with_activated_at (re_now env) (with_status StActive session)) ap2)
      as [[o ->]| ->]; [eapply registers_ext; [exact Hg|exact Hreg1]|].
    right. exists (with_activated_at (re_now env) (with_status StActive session)). cbn [fst st_ret].
    split_and!; [|done|done|by right]. change (agents_of (set_agents ?m ap2)) with m. rewrite Hg.
    unfold ap1. change (agents_of (set_agents ?m ap)) with m. apply insert_insert_eq.
Qed.

(** What settling a registration does to the agents: nothing, or one write to
    the pending row of the agent, which activates it only when approved. *)
Definition settles_row (aid : string) (appr : option ApprovalRequestState) ap ap' : Prop :=
  agents_of ap' = agents_of ap ∨
  ∃ row fresh a, appr = Some row ∧ agents_of ap !! aid = Some fresh ∧ a_status fresh = StPending ∧
    agents_of ap' = <[aid := a]> (agents_of ap) ∧ a_agent_id a = aid ∧ a_host_id a = a_host_id fresh ∧
    (a_status a = StPending ∨ (a_status a = StActive ∧ ar_status row = ApApproved) ∨
     (a_status a = StRejected ∧ ar_status row = ApDenied)).

(** The write of such a row, whatever the continuation does besides. *)
Lemma settle_save (k : res save_error unit → ST (app C) (res pyexn Response) unit) aid row fresh a ap :
  agents_keyed (agents_of ap) → agents_of ap !! aid = Some fresh → a_status fresh = StPending →
  a_agent_id a = aid → a_host_id a = a_host_id fresh →
  (a_status a = StActive ∧ ar_status row = ApApproved) ∨ (a_status a = StRejected ∧ ar_status row = ApDenied) →
  (∀ r, st_keeps agents_of (k r)) →
  settles_row aid (Some row) ap (fst (st_bind (save_agent a (a_public_key fresh)) k ap)).
Proof.
  intros Hkeyed Hf Hp Hid Hh Hst Hk. destruct (save_agent_bind k a (a_public_key fresh) ap) as [r ->].
  set (s' := fst (InMemoryAgentStore.save _ _ _)).
  assert (He : agents_of (fst (k r (set_agents s' ap))) = s') by apply Hk.
  unfold settles_row. rewrite He. subst s'. clear He.
  destruct (save_cases a (Some (a_public_key fresh)) (agents_of ap)) as [->|[->|(x & -> & Hx & _)]];
    [by left|by left|]. right. cbn [fst].
  destruct Hx as [->|(e & He & ->)].
  - exists row, fresh, a. rewrite Hid. split_and!; auto.
  - rewrite Hid in He. rewrite Hf in He. injection He as <-. pose proof (Hkeyed _ _ Hf) as Hfid.
    exists row, fresh, (with_public_key (a_public_key a) fresh).
    change (a_agent_id (with_public_key (a_public_key a) fresh)) with (a_agent_id fresh). rewrite Hfid.
    split_and!; auto.
Qed.

Lemma settle_registration_agents now aid hid session appr ap :
  agents_keyed (agents_of ap) →
  settles_row aid appr ap (fst (settle_registration now aid hid session appr ap)).
Proof.
  intros Hkeyed. unfold settle_registration. destruct appr as [row|]; [|by left].
  destruct (negb _); [by left|]. unfold st_bind at 1. cbn [st_get]. unfold InMemoryAgentStore.get.
  destruct (agents_of ap !! aid) as [fresh|] eqn:Hf; [|by left; destruct (ar_status row)].
  pose proof (Hkeyed _ _ Hf) as Hid.
  destruct (bool_decide_reflect (a_status fresh = StPending)) as [Hp|]; cbn [negb];
    [|by left; destruct (ar_status row)].
  destruct (ar_status row) eqn:Hr; try by left.
  - eapply settle_save; try done; [by left|]. intros [[]|]; try done. intros ap1.
    pose proof (keeps_apply_approved aid hid (ar_capability_specs row) ap1) as Hk.
    unfold agents_of. by injection Hk as -> _.
  - eapply settle_save; try done; [by right|]. by intros [[]|].
Qed.

Lemma own_change_status cf fresh ck sc rq aid ap :
  agents_keyed (agents_of ap) →
  own_change cf ck rq false ap (fst (handle_agent_status cf fresh ck sc rq aid ap)).
Proof.
  intros Hkeyed. unfold handle_agent_status. apply own_change_bearer. intros ap1 r token Ha Ht Hv Hok.
  eapply own_change_still; [apply still_lift|done|]. intros hid Hid%lift_exn_ret.
  eapply own_change_still; [apply still_own_agent|done|]. intros session [Hs Hh]%own_agent_ret.
  rewrite Ha in Hs. eapply own_change_still; [done|done|]. intros ap2 [= <-].
  eapply own_change_keeps; [destruct (ap_approvals ap1); [apply keeps_on_approvals_agents|done]|done|].
  intros appr ap2 _ Ha2.
  eapply own_change_keeps; [|done|].
  { destruct (vr_claims r), appr; try done. apply keeps_when, keeps_fresh. }
  intros _ ap3 _ Ha3.
  eapply own_change_keeps; [|done|].
  { apply (keeps_view ap_world w_agents), keeps_settle_escalation. }
  intros appr2 ap4 _ Ha4.
  assert (Hk4 : agents_keyed (agents_of ap4)) by (by rewrite Ha4).
  pose proof (settle_registration_agents (sc_activate sc) aid hid session appr2 ap4 Hk4) as Hset.
  assert (Hrest : ∀ ap5, settles_row aid appr2 ap4 ap5 → own_change cf ck rq false ap ap5).
  { intros ap5 [He|(row & f & a & -> & Hf & _ & He & Hida & Hha & _)]; [apply own_change_none; congruence|].
    intros i. rewrite He. rewrite Ha4 in *. destruct (decide (i = aid)) as [->|Hne];
      [|by rewrite lookup_insert_ne].
    intros _. rewrite Hs in Hf. injection Hf as <-. exists hid, a. rewrite lookup_insert_eq.
    split_and!; [exists token, (ap_world ap1), r; by split_and!|done|congruence|congruence]. }
  unfold st_bind at 1.
  destruct (settle_registration _ _ _ _ _ ap4) as [ap5 [o|u]]; by apply Hrest.
Qed.

Lemma own_change_register cf fresh ck env rq ap :
  agents_of ap !! re_agent_id env = None →
  own_change cf ck rq true ap (fst (handle_agent_register cf fresh ck env rq ap)).
Proof.
  intros Hnew. unfold handle_agent_register. apply own_change_bearer. intros ap1 r token Ha Ht Hv Hok.
  eapply own_change_still; [by destruct (vr_claims r)|done|]. intros claims Hc.
  destruct (vr_claims r) as [c|] eqn:Hcl; [|done]. injection Hc as ->.
  eapply own_change_still; [by destruct (j_get _ claims)|done|]. intros pub _.
  eapply own_change_still; [by destruct (okp_import_key pub)|done|]. intros _ _.
  eapply own_change_still; [by destruct (j_get _ claims)|done|]. intros hpub _.
  eapply own_change_still; [by destruct (j_get "iss" claims); try destruct (PyStr.nonblank _)|done|].
  intros iss Hiss.
  assert (Hi : j_get "iss" claims = JStr iss).
  { destruct (j_get "iss" claims); try done. destruct (PyStr.nonblank s); [|done]. by injection Hiss as ->. }
  eapply own_change_keeps; [|done|].
  { destruct (vr_host r); [done|]. apply (keeps_view (λ ap, (agents_of ap, ap_registry ap, ap_approvals ap))
      (λ v, v.1.1)), keeps_first_seen. }
  intros host ap2 Hhost Ha2.
  assert (Hauth : authenticated cf ck rq true ap (h_host_id host)).
  { exists token, (ap_world ap1), r. split_and!; [done..|]. unfold effective_identity_host_id.
    rewrite Hcl, Hi. destruct (vr_host r) as [h|]; [by injection Hhost as <- ->|].
    unfold first_seen_host in Hhost. bind_inv Hhost as (? & ? & _ & Hhost).
    bind_inv Hhost as (? & ? & _ & Hhost). by injection Hhost as <- <-. }
  clear Hhost. eapply own_change_still; [apply still_lift|done|]. intros tp _.
  eapply own_change_still; [done|done|]. intros ap3 _.
  eapply own_change_still; [apply still_lift|done|]. intros [sess|] _; [by apply own_change_none|].
  set (raw := match hr_json rq with Ret (JObj d) => d | _ => [] end). cbv zeta.
  eapply own_change_keeps; [|done|].
  { apply keeps_when. apply keeps_bind; [apply keeps_approvals|]. intros _.
    apply keeps_bind; [apply keeps_fresh|]. intros _. apply keeps_webauthn. }
  intros _ ap4 _ Ha4.
  destruct (register_session_agents cf env host pub raw
    (needs_registration_approval host (fst (parse_capability_registration_body raw))) ap4)
    as [He|(a & He & Hid & Hh & _)]; [by apply own_change_none; rewrite He|].
  intros i. rewrite He. rewrite Ha4. destruct (decide (i = re_agent_id env)) as [->|Hne];
    [|by rewrite lookup_insert_ne].
  intros _. exists (h_host_id host), a. rewrite lookup_insert_eq. split_and!; try done. congruence.
Qed.

End AgentChanges.

(** ** What a registration produces *)
Section Outcome.
  Context `{PyRuntime, Jose} {C : Type} `{JtiGuard C}.
  Implicit Types ap : app C.

(** The gates of a registration that needs approval: the token is fresh when a
    window is configured; and either no requested capability is marked and no
    real verifier watches a browser-controlled agent, or the verifier accepted
    the assertion of the body for this host. *)
Definition gates_ok (fresh : option FreshSessionConfig) (env : register_env) (claims : claims_t)
    (raw : pydict) (host_id : string) : Prop :=
  let names := fst (parse_capability_registration_body raw) in
  let browser := parse_agent_controls_browser raw in
  let v := re_verifier env in
  (∀ cfg, fresh = Some cfg → ∃ t, py_float (j_get "iat" claims) = Ret t ∧
     check_fresh_session t cfg (re_fresh_now env) = true) ∧
  (((∀ cfg n, fresh = Some cfg → n ∈ names → n ∉ require_webauthn_for cfg) ∧
    (browser = false ∨ uses_real_webauthn_verifier v = false)) ∨
   ∃ block challenge response, j_get "webauthn" raw = JObj block ∧ j_get "challenge" block = JStr challenge ∧
     j_get "response" block = response ∧ response ≠ JNull ∧
     wa_verify v challenge response (Some host_id) (browser && uses_real_webauthn_verifier v) = Ret true).

Lemma gates_passed fresh env claims raw host_id ap ap' u :
  (run! approvals in
   run! approval_fresh_session_response fresh (re_fresh_now env) claims in
   approval_webauthn_response fresh (re_verifier env) raw (fst (parse_capability_registration_body raw)) host_id
     (parse_agent_controls_browser raw)) ap = (ap', Ret u) →
  ap' = ap ∧ gates_ok fresh env claims raw host_id.
Proof.
  intros Hr. bind_inv Hr as (ap1 & s & Hs & Hr).
  assert (ap1 = ap) as ->.
  { unfold approvals, st_bind, st_get in Hs. destruct (ap_approvals ap); [|done]. by injection Hs. }
  bind_inv Hr as (ap2 & u2 & Hf & Hr).
  assert (Hf' : ap2 = ap ∧ ∀ cfg, fresh = Some cfg →
            fresh_session_violation_detail claims cfg (re_fresh_now env) = Ret None).
  { unfold approval_fresh_session_response in Hf. destruct fresh as [cfg|]; [|by injection Hf].
    bind_inv Hf as (ap3 & d & Hd & Hf). pose proof (still_lift (fresh_session_violation_detail claims cfg
      (re_fresh_now env)) ap) as Hst. rewrite Hd in Hst. cbn in Hst. subst ap3. apply lift_exn_ret in Hd.
    destruct d; [done|]. injection Hf as <-. split; [done|]. by intros c [= <-]. }
  destruct Hf' as [-> Hfresh]. unfold approval_webauthn_response in Hr.
  bind_inv Hr as (ap3 & w & Hw & Hr).
  match type of Hw with lift_exn ?m _ = _ => pose proof (still_lift m ap) as Hst end.
  rewrite Hw in Hst. cbn in Hst. subst ap3. apply lift_exn_ret in Hw. destruct w as [[d|] status]; cbn in Hr.
  { by destruct (status =? 403) in Hr. }
  injection Hr as <-. split; [done|]. split.
  - intros cfg Hcfg. by apply fresh_session_ok, Hfresh.
  - by apply webauthn_gate_passes in Hw.
Qed.

(** A first approval request of the agent: its row holds the requested specs
    and nobody has approved it. *)
Lemma first_request env kind (m : ApprovalMethod) names specs (s : InMemoryApprovalStore.t) s' o :
  s !! re_agent_id env = None →
  (match m with
   | Ciba => create_ciba_approval (re_rc env) (re_agent_id env) names None
               DEFAULT_DEVICE_EXPIRES_IN_SECONDS DEFAULT_POLL_INTERVAL_SECONDS (Some specs) kind
   | DeviceAuthorization => create_device_authorization (re_rc env) (re_user_code env) (re_agent_id env) names
               DEFAULT_DEVICE_EXPIRES_IN_SECONDS DEFAULT_POLL_INTERVAL_SECONDS None (Some specs) kind
   end) s = (s', Ret o) →
  ∃ row, s' !! re_agent_id env = Some row ∧ ar_capability_specs row = specs ∧ ar_approval_kind row = kind ∧
    (ar_status row = ApPending ∨ ar_status row = ApExpired).
Proof.
  intros Hs. assert (Hg : InMemoryApprovalStore.get (rc_get (re_rc env)) (re_agent_id env) s = (s, None))
    by (unfold InMemoryApprovalStore.get; by rewrite Hs).
  assert (Hrow : ∀ row0, ar_status row0 = ApPending →
    ∃ row, <[re_agent_id env := refresh_expired (rc_fresh (re_rc env)) row0]>
             (<[re_agent_id env := row0]> s) !! re_agent_id env = Some row ∧
      ar_capability_specs row = ar_capability_specs row0 ∧ ar_approval_kind row = ar_approval_kind row0 ∧
      (ar_status row = ApPending ∨ ar_status row = ApExpired)).
  { intros row0 Hp. eexists. rewrite lookup_insert_eq. split; [done|]. rewrite refresh_pending by done.
    case_match; cbn; auto. }
  destruct m; unfold create_device_authorization, create_ciba_approval; rewrite Hg; cbn [extends];
    unfold create_and_answer, InMemoryApprovalStore.create;
    change ((DEFAULT_DEVICE_EXPIRES_IN_SECONDS <? 1) || (DEFAULT_POLL_INTERVAL_SECONDS <? 1)) with false;
    cbv iota beta;
    unfold InMemoryApprovalStore.get; rewrite lookup_insert_eq; cbn beta iota; intros [= <- _]; by apply Hrow.
Qed.

(** The claims of the Host JWT of a request. *)
Definition token_claims (cf : config) (ck : clock) (rq : HttpRequest) ap (claims : claims_t) : Prop :=
  ∃ token w' r, bearer_token_from_request rq = Some token ∧
    verify_host_jwt il_none ck token (Some (cf_audience cf)) true (ap_world ap) = (w', Ret r) ∧
    vr_ok r = true ∧ vr_claims r = Some claims.

(** The host of a registration is the authenticated one. *)
Lemma resolved_host cf ck rq now ap ap1 ap2 token r claims iss hpub host :
  bearer_token_from_request rq = Some token →
  verify_host_jwt il_none ck token (Some (cf_audience cf)) true (ap_world ap) = (ap_world ap1, Ret r) →
  vr_ok r = true → vr_claims r = Some claims → j_get "iss" claims = JStr iss →
  (match vr_host r with Some h => st_ret h | None => first_seen_host now iss hpub end) ap1 = (ap2, Ret host) →
  authenticated cf ck rq true ap (h_host_id host) ∧ agents_of ap2 = agents_of ap1 ∧
  ap_registry ap2 = ap_registry ap1 ∧ ap_approvals ap2 = ap_approvals ap1.
Proof.
  intros Ht Hv Hok Hcl Hi Hhost. split.
  - exists token, (ap_world ap1), r. split_and!; [done..|]. unfold effective_identity_host_id.
    rewrite Hcl, Hi. destruct (vr_host r) as [h|]; [by injection Hhost as <- ->|].
    unfold first_seen_host in Hhost. bind_inv Hhost as (? & ? & _ & Hhost).
    bind_inv Hhost as (? & ? & _ & Hhost). by injection Hhost as <- <-.
  - destruct (vr_host r) as [h|]; [by injection Hhost as <- _|].
    pose proof (keeps_first_seen now iss hpub ap1) as Hk. rewrite Hhost in Hk. cbn [fst] in Hk.
    by injection Hk as -> -> ->.
Qed.

Lemma session_with_key_found tp host_id (s : gmap string AgentSession) sess :
  session_with_key tp (InMemoryAgentStore.list_by_host host_id s) = Ret (Some sess) →
  ∃ i, s !! i = Some sess ∧ a_host_id sess = host_id ∧ jwk_thumbprint_sha256 (a_public_key sess) = Ret tp.
Proof.
  assert (Hl : ∀ l, session_with_key tp l = Ret (Some sess) →
            sess ∈ l ∧ jwk_thumbprint_sha256 (a_public_key sess) = Ret tp).
  { induction l as [|x l IH]; [done|]. cbn [session_with_key].
    destruct (jwk_thumbprint_sha256 (a_public_key x)) as [|t] eqn:Hx; [done|]. cbn [rbind].
    destruct (String.eqb_spec t tp) as [->|]; [intros [= ->]; split; [by left|done]|].
    intros [? ?]%IH. split; [by right|done]. }
  intros [Hin Htp]%Hl. unfold InMemoryAgentStore.list_by_host in Hin.
  rewrite merge_sort_Permutation in Hin. apply elem_of_sessions_of in Hin as (? & i & ?). by exists i.
Qed.

Lemma consent_not_required host names :
  escalation_requires_user_consent host names = false →
  h_status host = HostActive ∧ ∀ n, n ∈ names → n ∈ h_default_capabilities host.
Proof.
  unfold escalation_requires_user_consent. destruct (bool_decide_reflect (h_status host = HostActive)); [|done].
  cbn [negb]. intros Hf%negb_false_iff. split; [done|]. intros n Hn. rewrite forallb_elem_of in Hf.
  by apply str_in_true, Hf.
Qed.

Lemma no200_save_new a : no200 (C := C) (save_new_agent a).
Proof.
  unfold save_new_agent. no200_step; [no200_step|]. destruct (InMemoryAgentStore.save _ _ _) as [s' out].
  no200_step; [no200_step|]. destruct out as [[]|]; no200_step.
Qed.

Lemma no200_register_session cf env host pub raw needs : no200 (C := C) (register_session cf env host pub raw needs).
Proof.
  unfold register_session. destruct (parse_capability_registration_body raw) as [names specs].
  no200_step; [apply no200_save_new|]. destruct needs; cbn [negb].
  - no200_step; [no200_step|]. no200_step; [no200_step|]. repeat no200_step.
  - no200_step; [unfold grant_requested; repeat no200_step|]. no200_step; [apply no200_save_new|no200_step].
Qed.

Lemma no200_first_seen now iss pub : no200 (C := C) (first_seen_host now iss pub).
Proof.
  unfold first_seen_host, save_host. repeat no200_step.
Qed.

(** An early return of the handler is never a success. *)
Lemma no200_register cf fresh ck env rq : no200 (C := C) (handle_agent_register cf fresh ck env rq).
Proof.
  unfold handle_agent_register, approval_fresh_session_response, approval_webauthn_response.
  repeat first [apply no200_register_session | apply no200_first_seen | no200_step].
Qed.

Lemma on_registry_ret {A} (m : ST CapabilityRegistry.t pyexn A) ap ap' a :
  on_registry m ap = (ap', Ret a) →
  agents_of ap' = agents_of ap ∧ ap_approvals ap' = ap_approvals ap ∧ ap_registry ap' = fst (m (ap_registry ap)).
Proof.
  unfold on_registry, st_bind, st_get. destruct (m (ap_registry ap)) as [r' out].
  destruct out; [done|]. by intros [= <- _].
Qed.

Lemma register_session_ret cf env host pub raw needs ap ap' resp :
  (∀ s, ap_approvals ap = Some s → s !! re_agent_id env = None) →
  register_session cf env host pub raw needs ap = (ap', Ret resp) →
  let specs := snd (parse_capability_registration_body raw) in
  ∃ a, agents_of ap' = <[re_agent_id env := a]> (agents_of ap) ∧ a_agent_id a = re_agent_id env ∧
    a_host_id a = h_host_id host ∧ a_public_key a = pub ∧
    if needs then
      a_status a = StPending ∧ ap_registry ap' = ap_registry ap ∧
      ∃ s row, ap_approvals ap' = Some s ∧ s !! re_agent_id env = Some row ∧ ar_capability_specs row = specs ∧
        ar_approval_kind row = Approval.Registration ∧ (ar_status row = ApPending ∨ ar_status row = ApExpired)
    else
      a_status a = StActive ∧ ap_approvals ap' = ap_approvals ap ∧
      ap_registry ap' = fst (apply_capability_specs_to_registry (re_agent_id env) (h_host_id host) specs
                               (ap_registry ap)).
Proof.
  intros Hnew Hr. unfold register_session in Hr. destruct (parse_capability_registration_body raw) as [names specs].
  cbn [snd]. bind_inv Hr as (ap1 & u & Hsave & Hr).
  match type of Hsave with save_new_agent ?x _ = _ => set (session := x) in * end.
  destruct (save_new_agent_run session ap) as [[o Ho]|Ho]; rewrite Ho in Hsave; [done|]. injection Hsave as <- <-.
  destruct needs; cbn [negb] in Hr.
  - bind_inv Hr as (ap2 & s & Hs & Hr). unfold approvals, st_bind, st_get in Hs. cbn [ap_approvals set_agents] in Hs.
    destruct (ap_approvals ap) as [s0|] eqn:Hap; [|done]. injection Hs as <- <-.
    bind_inv Hr as (ap3 & created & Hc & Hr). unfold on_approvals in Hc.
    match type of Hc with (let '(_, _) := ?t in _) _ = _ => destruct t as [s' out] eqn:Hcr end.
    unfold st_bind, st_modify, st_ret in Hc. injection Hc as <- <-.
    bind_inv Hr as (ap4 & o & Hl & Hr). destruct out as [e|obj]; [done|]. injection Hl as <- <-.
    bind_inv Hr as (ap5 & u2 & Hw & Hr). injection Hr as <- _.
    apply first_request in Hcr as (row & Hrow & Hspecs & Hkind & Hst); [|by apply Hnew].
    exists session. destruct (cf_a2h_channel cf); injection Hw as <- _; cbn; split_and!; try done; eauto 10.
  - bind_inv Hr as (ap2 & gs & Hg & Hr). bind_inv Hr as (ap3 & u2 & Hsave2 & Hr). injection Hr as <- _.
    match type of Hsave2 with save_new_agent ?x _ = _ => destruct (save_new_agent_run x ap2) as [[o Ho2]|Ho2] end;
      rewrite Ho2 in Hsave2; [done|]. injection Hsave2 as <- _.
    exists (with_activated_at (re_now env) (with_status StActive session)).
    assert (Hg' : agents_of ap2 = <[re_agent_id env := session]> (agents_of ap) ∧
              ap_approvals ap2 = ap_approvals ap ∧
              ap_registry ap2 = fst (apply_capability_specs_to_registry (re_agent_id env) (h_host_id host) specs
                                       (ap_registry ap))).
    { unfold grant_requested in Hg. destruct specs as [|sp specs]; [by injection Hg as <- _|].
      apply on_registry_ret in Hg as (-> & -> & ->). done. }
    destruct Hg' as (Ha & Hp & Hr). cbn. split_and!; try done.
    change (agents_of (set_agents ?m ap2)) with m. rewrite Ha. apply insert_insert_eq.
Qed.

End Outcome.

(** ** What a status request applies *)
Section StatusGrants.
  Context `{PyRuntime, Jose} {C : Type} `{JtiGuard C}.
  Implicit Types ap : app C.

(** The registry is left alone, or the specs of an approved row are applied. *)
Definition applies_row (aid hid : string) (appr : option ApprovalRequestState) ap ap' : Prop :=
  ap_registry ap' = ap_registry ap ∨
  ∃ row, appr = Some row ∧ ar_status row = ApApproved ∧
    ap_registry ap' = fst (apply_capability_specs_to_registry aid hid (ar_capability_specs row) (ap_registry ap)).

Lemma apply_approved_registry aid hid specs ap :
  ap_registry (fst (apply_approved aid hid specs ap)) =
  fst (apply_capability_specs_to_registry aid hid specs (ap_registry ap)).
Proof.
  unfold apply_approved, grant_requested. destruct specs as [|sp specs]; [done|].
  unfold on_registry, st_bind at 1 2 3, st_get.
  destruct (apply_capability_specs_to_registry aid hid (sp :: specs) (ap_registry ap)) as [r' out]. by destruct out.
Qed.

Lemma save_agent_registry a k : st_keeps (ap_registry (C := C)) (save_agent a k).
Proof.
  intros ap. unfold save_agent, st_bind, st_get. by destruct (save_agent_unless_revoked _ _ _ _).
Qed.

(** Reading the approval row of the agent. *)
Lemma appr_read aid now ap :
  ∃ ap2 appr, (match ap_approvals ap with
               | None => st_ret None
               | Some store => on_approvals store (InMemoryApprovalStore.get now aid)
               end) ap = (ap2, Ret appr) ∧ ap_registry ap2 = ap_registry ap ∧
    ∀ row, appr = Some row → ar_status row = ApApproved → ∃ s, ap_approvals ap = Some s ∧ s !! aid = Some row.
Proof.
  destruct (ap_approvals ap) as [s|] eqn:Hs; [|by exists ap, None].
  unfold on_approvals, InMemoryApprovalStore.get. destruct (s !! aid) as [raw|] eqn:Hraw; cycle 1.
  { eexists _, None. by split. }
  eexists _, (Some (refresh_expired now raw)). split; [done|]. split; [done|].
  intros row [= <-] Hap. exists s. split; [done|]. rewrite Hraw. f_equal. revert Hap. unfold refresh_expired.
  repeat case_match; cbn; done.
Qed.

(** Settling applies nothing for an agent in another status. *)
Lemma settle_escalation_registry aid hid session appr ap :
  applies_row aid hid appr ap (fst (settle_escalation aid hid session appr ap)) ∧
  (a_status session ≠ StActive → settle_escalation aid hid session appr ap = (ap, Ret appr)).
Proof.
  unfold settle_escalation. destruct appr as [row|]; [|by split; [left|]].
  destruct (bool_decide_reflect (a_status session = StActive)); cbn [andb]; [|by split; [left|]].
  split; [|done]. destruct (bool_decide _); [|by left]. destruct (ar_status row) eqn:Hr; try by left.
  right. exists row. split_and!; [done..|].
  rewrite <- apply_approved_registry. unfold st_bind. by destruct (apply_approved _ _ _ ap) as [ap1 [o|u]].
Qed.

Lemma settle_registration_registry now aid hid session appr ap :
  applies_row aid hid appr ap (fst (settle_registration now aid hid session appr ap)) ∧
  (a_status session ≠ StPending → fst (settle_registration now aid hid session appr ap) = ap).
Proof.
  unfold settle_registration. destruct appr as [row|]; [|by split; [left|]].
  destruct (bool_decide_reflect (a_status session = StPending)); cbn [negb]; [|by split; [left|]].
  split; [|done]. unfold st_bind at 1. cbn [st_get].
  destruct (InMemoryAgentStore.get aid (agents_of ap)) as [f|]; [|by destruct (ar_status row); left].
  destruct (negb _); [by destruct (ar_status row); left|].
  destruct (ar_status row) eqn:Hr; try by left.
  - match goal with |- context [save_agent ?a ?k] => pose proof (save_agent_registry a k ap) as Hs;
      unfold st_bind at 1; destruct (save_agent a k ap) as [ap1 [o|[[]|u]]] end; cbn [fst] in Hs; try by left.
    right. exists row. split_and!; [done..|]. by rewrite apply_approved_registry, Hs.
  - match goal with |- context [save_agent ?a ?k] => pose proof (save_agent_registry a k ap) as Hs;
      unfold st_bind at 1; destruct (save_agent a k ap) as [ap1 [o|[[]|u]]] end; cbn [fst] in Hs; by left.
Qed.

(** What a status request may do to the grants. *)
Definition grants_settled cf ck rq aid ap ap' : Prop :=
  ap_registry ap' = ap_registry ap ∨
  ∃ a s row, authenticated cf ck rq false ap (a_host_id a) ∧ agents_of ap !! aid = Some a ∧
    ap_approvals ap = Some s ∧ s !! aid = Some row ∧ ar_status row = ApApproved ∧
    ap_registry ap' = fst (apply_capability_specs_to_registry aid (a_host_id a) (ar_capability_specs row)
                             (ap_registry ap)).

(** The last part of the handler, with the row that was read. *)
Lemma settle_grants cf ck rq aid now session appr ap ap3
    (k : option ApprovalRequestState → ST (app C) (res pyexn Response) Response) :
  authenticated cf ck rq false ap (a_host_id session) → agents_of ap !! aid = Some session →
  ap_registry ap3 = ap_registry ap →
  (∀ row, appr = Some row → ar_status row = ApApproved → ∃ s, ap_approvals ap = Some s ∧ s !! aid = Some row) →
  (∀ a, still (k a)) →
  grants_settled cf ck rq aid ap (fst ((
    do! appr <- settle_escalation aid (a_host_id session) session appr in
    run! settle_registration now aid (a_host_id session) session appr in k appr) ap3)).
Proof.
  intros Hauth Hs Hr Happr Hk.
  assert (Hfin : ∀ ap4, applies_row aid (a_host_id session) appr ap3 ap4 → grants_settled cf ck rq aid ap ap4).
  { intros ap4 [Heq|(row & Hrow & Happ & Heq)]; [left; congruence|]. right.
    destruct (Happr row Hrow Happ) as (s & Hs1 & Hs2). exists session, s, row. rewrite <- Hr. by split_and!. }
  destruct (settle_escalation_registry aid (a_host_id session) session appr ap3) as [He Hne].
  apply st_bind_fst; [intros ap4 o Hap4; rewrite Hap4 in He; by apply Hfin|]. intros ap4 appr2 Hap4.
  rewrite Hap4 in He. cbn [fst] in He.
  destruct (settle_registration_registry now aid (a_host_id session) session appr2 ap4) as [Hset Hskip].
  assert (Hend : grants_settled cf ck rq aid ap (fst (settle_registration now aid (a_host_id session) session appr2 ap4))).
  { destruct (decide (a_status session = StActive)) as [Hact|Hnact].
    - rewrite Hskip by congruence. by apply Hfin.
    - rewrite Hne in Hap4 by done. injection Hap4 as <- <-. by apply Hfin. }
  apply st_bind_fst; intros ap5 u Hap5; rewrite Hap5 in Hend; [done|]. by rewrite Hk.
Qed.

Lemma status_registry cf fresh ck sc rq aid ap :
  grants_settled cf ck rq aid ap (fst (handle_agent_status cf fresh ck sc rq aid ap)).
Proof.
  assert (Hleft : ∀ ap1, ap_registry ap1 = ap_registry ap → grants_settled cf ck rq aid ap ap1) by (by left).
  pose proof (verify_host_bearer_run cf ck rq false ap) as Hrun. unfold handle_agent_status.
  apply st_bind_fst; intros ap1 r Hb; rewrite Hb in Hrun; destruct Hrun as (_ & Ha1 & Hr1 & Hp1 & _ & Hrun);
    [by apply Hleft|]. destruct Hrun as (token & Ht & Hv & Hok).
  apply st_bind_fst; intros ap2 hid Hl.
  all: pose proof (still_lift (effective_identity_host_id r) ap1) as Hst; rewrite Hl in Hst; cbn in Hst; subst ap2.
  { by apply Hleft. }
  apply lift_exn_ret in Hl.
  apply st_bind_fst; intros ap2 session Hown.
  all: pose proof (still_own_agent hid aid ap1) as Hst; rewrite Hown in Hst; cbn in Hst; subst ap2.
  { by apply Hleft. }
  apply own_agent_ret in Hown as [Hs <-]. apply st_bind_fst; intros ap2 x [= <- <-].
  destruct (appr_read aid (sc_get sc) ap1) as (ap3 & appr & Hread & Hr3 & Happr).
  apply st_bind_fst; intros ap2 y Hy; rewrite Hread in Hy; [done|]. injection Hy as <- <-.
  apply st_bind_fst; intros ap4 u Hu.
  all: assert (Hr4 : ap_registry ap4 = ap_registry ap3)
    by (match type of Hu with ?m _ = _ => assert (Hk : st_keeps ap_registry m)
          by (destruct (vr_claims r), appr; try done; apply keeps_when, keeps_fresh) end;
        specialize (Hk ap3); by rewrite Hu in Hk).
  { apply Hleft. congruence. }
  apply settle_grants; [by exists token, (ap_world ap1), r|by rewrite <- Ha1|congruence|by rewrite <- Hp1|done].
Qed.

End StatusGrants.

(** ** Properties *)


(** A status request changes grants only by applying the specs of the
    agent's own approved request, once, for the authenticated host that owns
    the agent; with no approved request in the store it changes no grant. *)
Theorem status_grants_only_approved `{PyRuntime, Jose} {C : Type} `{JtiGuard C} (cf : config)
    (fresh : option FreshSessionConfig) (ck : clock) (sc : status_clock) (rq : HttpRequest) (aid : string)
    (ap : app C) :
  let ap' := fst (serve (handle_agent_status cf fresh ck sc rq aid) ap) in
  ap_registry ap' = ap_registry ap ∨
  ∃ a s row, authenticated cf ck rq false ap (a_host_id a) ∧ agents_of ap !! aid = Some a ∧
    ap_approvals ap = Some s ∧ s !! aid = Some row ∧ ar_status row = ApApproved ∧
    ap_registry ap' = fst (apply_capability_specs_to_registry aid (a_host_id a) (ar_capability_specs row)
                             (ap_registry ap)).
Proof. cbv zeta. rewrite serve_fst. apply status_registry. Qed.

(** ** Witness *)
#[local] Existing Instance AgentJwt.demo_runtime.

(** A host whose token carries the key of a new agent. *)
Definition demo_register_jose : Jose :=
  fixed_jose (jwt_header HOST_JWT_TYP)
    (host_claims demo_tp (JStr "srv") 0 DEFAULT_HOST_JWT_TTL_SECONDS "1" (demo_key "H") (Some (demo_key "N")))
    (demo_key "H").
Definition demo_env : register_env :=
  mkRegisterEnv 0 0 (mkRClock 0 0 0 0) "a2" "ABCD1234" PlaceholderWebAuthnVerifier.
Definition demo_register_app : app JtiReplayCache.t := mkApp (demo_world StActive) demo_registry (Some ∅) [].

