(* ===== verification/Metrics.v ===== *)
(** * Metrics

    `src/src/asap/observability/metrics.py`: counters, histograms and the
    collector with its Prometheus export.  The values are floats that hold
    counts and durations, here the rationals they denote. *)

From Stdlib Require Import ZArith QArith Lqa Lia Ascii String.
From stdpp Require Import base tactics list gmap strings sorting.
From S2P Require Import Prelude PyValue Digest Identity.
Open Scope string_scope.
Open Scope Q_scope.

(** `tuple(sorted(labels.items()))`: the keys of a dictionary differ, so the
    order is that of the keys. *)
Abbreviation label_key := (list (string * string)).
Definition label_key_of (labels : list (string * string)) : label_key := order_keys true labels.

(** ** Counters *)
Module Counter.

Record t : Type := mk { name : string; help_text : string; values : list (label_key * Q) }.

Definition increment (labels : list (string * string)) (value : Q) (c : t) : t :=
  let k := label_key_of labels in
  mk (name c) (help_text c) (PyDict.set k (default 0 (PyDict.get k (values c)) + value) (values c)).

Definition get (labels : list (string * string)) (c : t) : Q :=
  default 0 (PyDict.get (label_key_of labels) (values c)).

(** The sum over all labels. *)
Definition total (c : t) : Q := foldr (λ kv acc, snd kv + acc) 0 (values c).

Lemma total_set k v (d : list (label_key * Q)) :
  foldr (λ kv acc, snd kv + acc) 0 (PyDict.set k (default 0 (PyDict.get k d) + v) d)
  == foldr (λ kv acc, snd kv + acc) 0 d + v.
Proof.
  induction d as [|[k' v'] d IH]; simpl; [ring|].
  case_decide; simpl; [ring|]. rewrite IH. ring.
Qed.

Lemma total_increment labels v c : total (increment labels v c) == total c + v.
Proof. apply total_set. Qed.

Lemma get_increment labels v c : get labels (increment labels v c) == get labels c + v.
Proof. unfold get, increment. simpl. by rewrite PyDict.get_set_eq. Qed.

Lemma get_increment_ne labels labels' v c :
  label_key_of labels ≠ label_key_of labels' → get labels (increment labels' v c) = get labels c.
Proof. intros Hne. unfold get, increment. simpl. by rewrite PyDict.get_set_ne. Qed.

End Counter.

(** ** Histograms *)
Definition DEFAULT_LATENCY_BUCKETS : list Q :=
  [5#1000; 1#100; 25#1000; 5#100; 1#10; 25#100; 5#10; 1; 25#10; 5; 10].

(** A dictionary from bounds to counts; the bounds are floats, equal as numbers. *)
Module Buckets.

Fixpoint get (b : Q) (d : list (Q * Q)) : option Q :=
  match d with
  | [] => None
  | (b', n) :: d' => if Qeq_bool b b' then Some n else get b d'
  end.

Fixpoint bump (b : Q) (d : list (Q * Q)) : list (Q * Q) :=
  match d with
  | [] => []
  | (b', n) :: d' => if Qeq_bool b b' then (b', n + 1) :: d' else (b', n) :: bump b d'
  end.

(** `dict.fromkeys(bounds, 0.0)` *)
Fixpoint fromkeys_into (bounds : list Q) (d : list (Q * Q)) : list (Q * Q) :=
  match bounds with
  | [] => d
  | b :: bs =>
      fromkeys_into bs (match get b d with Some _ => d | None => d ++ [(b, 0)] end)
  end.
Definition fromkeys (bounds : list Q) : list (Q * Q) := fromkeys_into bounds [].

End Buckets.

Module Histogram.

Record cell : Type := mkCell { buckets : list (Q * Q); sum : Q; count : Q }.

Record t : Type := mk {
  name : string; help_text : string; bounds : list Q; values : list (label_key * cell)
}.

Definition new_cell (bs : list Q) : cell := mkCell (Buckets.fromkeys bs) 0 0.

(** The loop over the bounds. *)
Definition bump_all (bs : list Q) (value : Q) (d : list (Q * Q)) : list (Q * Q) :=
  fold_left (λ d b, if Qle_bool value b then Buckets.bump b d else d) bs d.

Definition observe_cell (bs : list Q) (value : Q) (c : cell) : cell :=
  mkCell (bump_all bs value (buckets c)) (sum c + value) (count c + 1).

Definition observe (value : Q) (labels : list (string * string)) (h : t) : t :=
  let k := label_key_of labels in
  let data := default (new_cell (bounds h)) (PyDict.get k (values h)) in
  mk (name h) (help_text h) (bounds h) (PyDict.set k (observe_cell (bounds h) value data) (values h)).

Definition get_count (labels : list (string * string)) (h : t) : Q :=
  match PyDict.get (label_key_of labels) (values h) with Some c => count c | None => 0 end.

(** The loop of the export: the bucket lines of one cell, with their values. *)
Fixpoint cumulate (cumulative : Q) (bs : list Q) (d : list (Q * Q)) : list (Q * Q) :=
  match bs with
  | [] => []
  | b :: bs' =>
      let cumulative := cumulative + default 0 (Buckets.get b d) in
      (b, cumulative) :: cumulate cumulative bs' d
  end.

End Histogram.

(** ** The collector *)
Module MetricsCollector.

Record t : Type := mk {
  counters : list (string * Counter.t);
  histograms : list (string * Histogram.t);
  start_time : Q
}.

Definition DEFAULT_COUNTERS : list (string * string) :=
  [("asap_requests_total", "Total number of ASAP requests received");
   ("asap_requests_success_total", "Total number of successful ASAP requests");
   ("asap_requests_error_total", "Total number of failed ASAP requests");
   ("asap_thread_pool_exhausted_total", "Total number of thread pool exhaustion events");
   ("asap_handler_executions_total", "Total number of handler executions");
   ("asap_handler_errors_total", "Total number of handler execution failures");
   ("asap_state_transitions_total", "Total number of state machine transitions");
   ("asap_transport_send_total", "Total number of transport send attempts");
   ("asap_transport_send_errors_total", "Total number of transport send errors");
   ("asap_transport_retries_total", "Total number of transport retries");
   ("asap_parse_errors_total", "Total number of JSON-RPC parse errors");
   ("asap_auth_failures_total", "Total number of authentication failures");
   ("asap_validation_errors_total", "Total number of envelope validation errors");
   ("asap_invalid_timestamp_total", "Total number of invalid timestamp rejections");
   ("asap_invalid_nonce_total", "Total number of invalid nonce rejections");
   ("asap_sender_mismatch_total", "Total number of sender identity mismatches")].

Definition DEFAULT_HISTOGRAMS : list (string * string) :=
  [("asap_request_duration_seconds", "Request processing duration in seconds");
   ("asap_handler_duration_seconds", "Handler execution duration in seconds");
   ("asap_transport_send_duration_seconds", "Transport send duration in seconds")].

Definition init (now : Q) : t :=
  mk (map (λ nh, (fst nh, Counter.mk (fst nh) (snd nh) [])) DEFAULT_COUNTERS)
     (map (λ nh, (fst nh, Histogram.mk (fst nh) (snd nh) DEFAULT_LATENCY_BUCKETS [])) DEFAULT_HISTOGRAMS)
     now.

Definition register_counter (name help_text : string) (m : t) : t :=
  match PyDict.get name (counters m) with
  | Some _ => m
  | None => mk (PyDict.set name (Counter.mk name help_text []) (counters m)) (histograms m) (start_time m)
  end.

Definition register_histogram (name help_text : string) (buckets : list Q) (m : t) : t :=
  match PyDict.get name (histograms m) with
  | Some _ => m
  | None => mk (counters m) (PyDict.set name (Histogram.mk name help_text buckets []) (histograms m))
              (start_time m)
  end.

Definition increment_counter (name : string) (labels : list (string * string)) (value : Q) (m : t) : t :=
  match PyDict.get name (counters m) with
  | Some c => mk (PyDict.set name (Counter.increment labels value c) (counters m)) (histograms m)
                (start_time m)
  | None => m
  end.

Definition observe_histogram (name : string) (value : Q) (labels : list (string * string)) (m : t) : t :=
  match PyDict.get name (histograms m) with
  | Some h => mk (counters m) (PyDict.set name (Histogram.observe value labels h) (histograms m))
                (start_time m)
  | None => m
  end.

Definition get_counter (name : string) (labels : list (string * string)) (m : t) : Q :=
  match PyDict.get name (counters m) with Some c => Counter.get labels c | None => 0 end.

Definition get_histogram_count (name : string) (labels : list (string * string)) (m : t) : Q :=
  match PyDict.get name (histograms m) with Some h => Histogram.get_count labels h | None => 0 end.

Definition reset (m : t) : t :=
  mk (map (λ nc, (fst nc, Counter.mk (Counter.name (snd nc)) (Counter.help_text (snd nc)) [])) (counters m))
     (map (λ nh, (fst nh, Histogram.mk (Histogram.name (snd nh)) (Histogram.help_text (snd nh))
                            (Histogram.bounds (snd nh)) [])) (histograms m))
     (start_time m).

(** ** Export in the Prometheus text format *)
Section Export.
  Context `{PyRuntime}.
  (** `f"{x:.3f}"` *)
  Variable fixed3 : Q → string.

Definition flt (q : Q) : string := float_repr (FFin q).
Definition nl : string := String (ascii_of_nat 10) "".
Definition dq : string := String dquote "".
Definition bs : string := String (ascii_of_nat 92) "".

(** `value.replace(c, by)` for one character. *)
Fixpoint replace_char (c : ascii) (by_ : string) (s : string) : string :=
  match s with
  | EmptyString => EmptyString
  | String x s' => if Ascii.eqb x c then by_ ++ replace_char c by_ s' else String x (replace_char c by_ s')
  end.

Definition escape_label_value (value : string) : string :=
  replace_char dquote (bs ++ dq) (replace_char (ascii_of_nat 92) (bs ++ bs) value).

Definition format_parts (labels : label_key) : string :=
  joined "," (map (λ kv, fst kv ++ "=" ++ dq ++ escape_label_value (snd kv) ++ dq) labels).

Definition format_labels (labels : label_key) : string :=
  match labels with [] => "" | _ => "{" ++ format_parts labels ++ "}" end.

(** The labels with the bound inserted before the closing brace. *)
Definition with_le (labels : label_key) (le : string) : string :=
  match labels with
  | [] => "{le=" ++ dq ++ le ++ dq ++ "}"
  | _ => "{" ++ format_parts labels ++ ",le=" ++ dq ++ le ++ dq ++ "}"
  end.

Definition export_counter (c : Counter.t) : list string :=
  let n := Counter.name c in
  ["# HELP " ++ n ++ " " ++ Counter.help_text c; "# TYPE " ++ n ++ " counter"] ++
  match Counter.values c with
  | [] => [n ++ " 0"]
  | vs => map (λ kv, n ++ format_labels (fst kv) ++ " " ++ flt (snd kv)) vs
  end.

Definition export_cell (n : string) (bounds : list Q) (kc : label_key * Histogram.cell) : list string :=
  let '(k, c) := kc in
  map (λ bv, n ++ "_bucket" ++ with_le k (flt (fst bv)) ++ " " ++ flt (snd bv))
      (Histogram.cumulate 0 bounds (Histogram.buckets c)) ++
  [n ++ "_bucket" ++ with_le k "+Inf" ++ " " ++ flt (Histogram.count c);
   n ++ "_sum" ++ format_labels k ++ " " ++ flt (Histogram.sum c);
   n ++ "_count" ++ format_labels k ++ " " ++ flt (Histogram.count c)].

Definition export_histogram (h : Histogram.t) : list string :=
  let n := Histogram.name h in
  ["# HELP " ++ n ++ " " ++ Histogram.help_text h; "# TYPE " ++ n ++ " histogram"] ++
  match Histogram.values h with
  | [] =>
      map (λ b, n ++ "_bucket{le=" ++ dq ++ flt b ++ dq ++ "} 0") (Histogram.bounds h) ++
      [n ++ "_bucket{le=" ++ dq ++ "+Inf" ++ dq ++ "} 0"; n ++ "_sum 0"; n ++ "_count 0"]
  | vs => concat (map (export_cell n (Histogram.bounds h)) vs)
  end.

Definition export_prometheus (now : Q) (m : t) : string :=
  joined nl (concat (map (λ nc, export_counter (snd nc)) (counters m)) ++
             concat (map (λ nh, export_histogram (snd nh)) (histograms m)) ++
             ["# HELP asap_process_uptime_seconds Time since server start";
              "# TYPE asap_process_uptime_seconds gauge";
              "asap_process_uptime_seconds " ++ fixed3 (now - start_time m)]) ++ nl.
End Export.

(** The sum of a counter over all its labels. *)
Definition counter_total (name : string) (m : t) : Q :=
  match PyDict.get name (counters m) with Some c => Counter.total c | None => 0 end.

(** Whether the counter is registered. *)
Definition has_counter (name : string) (m : t) : bool := is_some (PyDict.get name (counters m)).

(** ** Lemmas on the collector *)
Lemma counter_total_increment name labels v m : has_counter name m = true →
  counter_total name (increment_counter name labels v m) == counter_total name m + v.
Proof.
  unfold has_counter, counter_total, increment_counter.
  destruct (PyDict.get name (counters m)) eqn:E; [|done]. intros _. simpl.
  rewrite PyDict.get_set_eq. apply Counter.total_increment.
Qed.

Lemma counter_total_increment_ne name name' labels v m : name ≠ name' →
  counter_total name (increment_counter name' labels v m) = counter_total name m.
Proof.
  intros Hne. unfold counter_total, increment_counter.
  destruct (PyDict.get name' (counters m)); [|done]. simpl. by rewrite PyDict.get_set_ne.
Qed.

Lemma counter_total_observe name h v labels m :
  counter_total name (observe_histogram h v labels m) = counter_total name m.
Proof. unfold counter_total, observe_histogram. by destruct (PyDict.get h (histograms m)). Qed.

Lemma has_counter_increment name name' labels v m :
  has_counter name (increment_counter name' labels v m) = has_counter name m.
Proof.
  unfold has_counter, increment_counter. destruct (PyDict.get name' (counters m)) eqn:E; [|done].
  simpl. destruct (decide (name = name')) as [->|Hne].
  - by rewrite PyDict.get_set_eq, E.
  - by rewrite PyDict.get_set_ne.
Qed.

Lemma has_counter_observe name h v labels m :
  has_counter name (observe_histogram h v labels m) = has_counter name m.
Proof. unfold has_counter, observe_histogram. by destruct (PyDict.get h (histograms m)). Qed.

End MetricsCollector.

(** ** What a histogram holds *)
Module HistogramFacts.
Import Histogram.

(** Bounds that differ as numbers. *)
Fixpoint distinct (bs : list Q) : bool :=
  match bs with
  | [] => true
  | b :: bs' => forallb (λ b', negb (Qeq_bool b b')) bs' && distinct bs'
  end.

Definition value_of (b : Q) (d : list (Q * Q)) : Q := default 0 (Buckets.get b d).
Definition present (b : Q) (d : list (Q * Q)) : bool := is_some (Buckets.get b d).

(** The number of observations not above a bound. *)
Definition count_le (b : Q) (vs : list Q) : Q :=
  foldr (λ v acc, (if Qle_bool v b then 1 else 0) + acc) 0 vs.

(** Observing a sequence of values with the same labels. *)
Definition observe_cells (bs : list Q) (vs : list Q) (c : cell) : cell :=
  fold_left (λ c v, observe_cell bs v c) vs c.

(** How often the loop over the bounds adds one to the bucket of [b]. *)
Definition hits (b v : Q) (bs : list Q) : Q :=
  foldr (λ b' acc, (if Qle_bool v b' && Qeq_bool b b' then 1 else 0) + acc) 0 bs.

Lemma present_bump b b' d : present b (Buckets.bump b' d) = present b d.
Proof.
  unfold present. induction d as [|[k n] d IH]; simpl; [done|].
  destruct (Qeq_bool b' k); simpl; destruct (Qeq_bool b k); done.
Qed.

Lemma value_bump b b' d : present b d = true →
  value_of b (Buckets.bump b' d) == value_of b d + (if Qeq_bool b b' then 1 else 0).
Proof.
  unfold present, value_of. induction d as [|[k n] d IH]; simpl; [done|].
  destruct (Qeq_bool b' k) eqn:E1; simpl; destruct (Qeq_bool b k) eqn:E2; simpl.
  - intros _. assert (Qeq_bool b b' = true) as ->; [|done].
    apply Qeq_bool_iff in E1, E2. apply Qeq_bool_iff. by rewrite E1.
  - intros _. destruct (Qeq_bool b b') eqn:E3; [|by rewrite Qplus_0_r].
    apply Qeq_bool_iff in E1, E3. by rewrite (proj2 (Qeq_bool_iff b k)) in E2 by (by rewrite E3).
  - intros _. destruct (Qeq_bool b b') eqn:E3; [|by rewrite Qplus_0_r].
    apply Qeq_bool_iff in E2, E3. by rewrite (proj2 (Qeq_bool_iff b' k)) in E1 by (by rewrite <- E3).
  - apply IH.
Qed.

Lemma present_bump_all b bs v d : present b (bump_all bs v d) = present b d.
Proof.
  unfold bump_all. revert d. induction bs as [|b' bs IH]; intros d; simpl; [done|].
  rewrite IH. destruct (Qle_bool v b'); [apply present_bump|done].
Qed.

Lemma value_bump_all b bs v d : present b d = true →
  value_of b (bump_all bs v d) == value_of b d + hits b v bs.
Proof.
  unfold bump_all. revert d. induction bs as [|b' bs IH]; intros d Hd; simpl; [by rewrite Qplus_0_r|].
  destruct (Qle_bool v b'); simpl.
  - rewrite IH by (by rewrite present_bump). rewrite value_bump by done. ring.
  - rewrite IH by done. ring.
Qed.

Lemma hits_absent b v bs : forallb (λ b', negb (Qeq_bool b b')) bs = true → hits b v bs == 0.
Proof.
  induction bs as [|b' bs IH]; simpl; [done|]. intros [Hb Hbs]%andb_prop.
  apply negb_true_iff in Hb. rewrite Hb, andb_false_r, IH by done. done.
Qed.

Lemma hits_distinct b v bs : distinct bs = true → b ∈ bs →
  hits b v bs == if Qle_bool v b then 1 else 0.
Proof.
  induction bs as [|b' bs IH]; simpl; [by intros _ ?%elem_of_nil|].
  intros [Hb Hbs]%andb_prop [->|Hin]%elem_of_cons.
  - rewrite hits_absent by done. rewrite (proj2 (Qeq_bool_iff b' b')), andb_true_r by done. ring.
  - rewrite forallb_forall in Hb. apply list_elem_of_In in Hin as Hin'.
    specialize (Hb b Hin'). apply negb_true_iff in Hb.
    assert (Qeq_bool b b' = false) as ->.
    { destruct (Qeq_bool b b') eqn:E; [|done]. apply Qeq_bool_iff in E.
      by rewrite (proj2 (Qeq_bool_iff b' b)) in Hb. }
    rewrite andb_false_r, IH by done. ring.
Qed.

Lemma observe_cells_value bs vs c b : distinct bs = true → b ∈ bs → present b (buckets c) = true →
  value_of b (buckets (observe_cells bs vs c)) == value_of b (buckets c) + count_le b vs.
Proof.
  intros Hbs Hb. revert c. unfold observe_cells. induction vs as [|v vs IH]; intros c Hc; simpl; [by rewrite Qplus_0_r|].
  rewrite IH by (simpl; by rewrite present_bump_all). simpl.
  rewrite value_bump_all, hits_distinct by done. ring.
Qed.

Lemma observe_cells_count bs vs c :
  count (observe_cells bs vs c) == count c + inject_Z (Z.of_nat (length vs)).
Proof.
  unfold observe_cells. revert c. induction vs as [|v vs IH]; intros c; cbn [fold_left length].
  - by rewrite Qplus_0_r.
  - rewrite IH. simpl count. rewrite Nat2Z.inj_succ. unfold Z.succ. rewrite inject_Z_plus. ring.
Qed.

Lemma fromkeys_into_present bs d b :
  (present b d = true ∨ b ∈ bs) → present b (Buckets.fromkeys_into bs d) = true.
Proof.
  revert d. induction bs as [|b' bs IH]; intros d; simpl.
  { intros [?|?%elem_of_nil]; done. }
  assert (Happ : ∀ l x, Buckets.get x (d ++ l) = match Buckets.get x d with Some n => Some n | None => Buckets.get x l end).
  { intros l x. clear. induction d as [|[k n] d IH]; simpl; [done|]. by destruct (Qeq_bool x k). }
  intros [Hp|[->|Hin]%elem_of_cons]; apply IH; [left|left|by right].
  - destruct (Buckets.get b' d) eqn:E; [done|]. unfold present in *. rewrite Happ.
    by destruct (Buckets.get b d).
  - unfold present. destruct (Buckets.get b' d) eqn:E; [by rewrite E|]. rewrite Happ, E. simpl.
    by rewrite (proj2 (Qeq_bool_iff b' b')).
Qed.

Lemma fromkeys_zero bs b : value_of b (Buckets.fromkeys bs) == 0.
Proof.
  unfold Buckets.fromkeys. assert (H0 : ∀ d, Forall (λ kn, snd kn == 0) d →
    Forall (λ kn, snd kn == 0) (Buckets.fromkeys_into bs d)).
  { induction bs as [|b' bs IH]; intros d Hd; simpl; [done|]. apply IH.
    destruct (Buckets.get b' d); [done|]. apply Forall_app. split; [done|]. by repeat constructor. }
  specialize (H0 [] (Forall_nil_2 _)). unfold value_of.
  induction H0 as [|[k n] d Hn Hd IH]; simpl; [done|]. by destruct (Qeq_bool b k).
Qed.

(** A cell that has seen the values [vs] since it was created. *)
Definition cell_after (bs vs : list Q) : cell := observe_cells bs vs (new_cell bs).

Lemma cell_after_value bs vs b : distinct bs = true → b ∈ bs →
  value_of b (buckets (cell_after bs vs)) == count_le b vs.
Proof.
  intros Hbs Hb. unfold cell_after. rewrite observe_cells_value; [|done|done|].
  - simpl. rewrite fromkeys_zero. ring.
  - simpl. apply fromkeys_into_present. by right.
Qed.

(** The values the export prints for the buckets of a cell, by position: the
    sum of the buckets up to that bound. *)
Lemma cumulate_lookup acc bs d i :
  (i < length bs)%nat →
  ∃ b x, cumulate acc bs d !! i = Some (b, x) ∧ bs !! i = Some b
    ∧ x == acc + foldr (λ b acc, value_of b d + acc) 0 (take (S i) bs).
Proof.
  revert acc i. induction bs as [|b bs IH]; intros acc i Hi; simpl in Hi; [lia|].
  destruct i as [|i].
  - exists b, (acc + value_of b d). split_and!; [done|done|]. simpl. ring.
  - destruct (IH (acc + value_of b d) i) as (b' & x & H1 & H2 & H3); [lia|].
    exists b', x. split_and!; [done|done|]. rewrite H3. cbn [take foldr]. ring.
Qed.

Lemma count_le_all b vs : Forall (λ v, v <= b) vs → count_le b vs == inject_Z (Z.of_nat (length vs)).
Proof.
  induction 1 as [|v vs Hv Hvs IH]; [done|]. cbn [count_le foldr length].
  rewrite (proj2 (Qle_bool_iff v b)) by done. fold (count_le b vs). rewrite IH.
  rewrite Nat2Z.inj_succ. unfold Z.succ. rewrite inject_Z_plus. ring.
Qed.

(** Equivalence with the definition of a Prometheus histogram: after any
    sequence of observations, the bucket of each bound holds the number of
    observed values not above that bound, and the cell counts every
    observation. *)
Theorem histogram_counts_observations (bs vs : list Q) (b : Q) :
  distinct bs = true → b ∈ bs →
  value_of b (buckets (cell_after bs vs)) == count_le b vs
  ∧ count (cell_after bs vs) == inject_Z (Z.of_nat (length vs)).
Proof.
  intros Hbs Hb. split; [by apply cell_after_value|].
  unfold cell_after. rewrite observe_cells_count. simpl. ring.
Qed.

Lemma histogram_counts_observations_witness :
  value_of 5 (buckets (cell_after DEFAULT_LATENCY_BUCKETS [3; 1#2; 7])) == 2
  ∧ count (cell_after DEFAULT_LATENCY_BUCKETS [3; 1#2; 7]) == 3.
Proof.
  destruct (histogram_counts_observations DEFAULT_LATENCY_BUCKETS [3; 1#2; 7] 5) as [H1 H2];
    [reflexivity|repeat (first [left; reflexivity|right])|].
  split; [rewrite H1|rewrite H2]; reflexivity.
Defined.

(** The export adds the buckets up again although they already are
    cumulative: when every observed value is at most the first bound, the line
    of the second bound reports twice the number of observations, more than the
    total count printed with it. *)
Theorem export_counts_twice (b1 b2 : Q) (bs vs : list Q) :
  distinct (b1 :: b2 :: bs) = true → b1 <= b2 → Forall (λ v, v <= b1) vs →
  let c := cell_after (b1 :: b2 :: bs) vs in
  ∃ x, cumulate 0 (b1 :: b2 :: bs) (buckets c) !! 1%nat = Some (b2, x) ∧ x == 2 * count c.
Proof.
  intros Hd H12 Hvs c. destruct (cumulate_lookup 0 (b1 :: b2 :: bs) (buckets c) 1) as (b & x & Hx & Hb & Hs);
    [simpl; lia|]. simpl in Hb. injection Hb as <-. exists x. split; [done|].
  rewrite Hs. cbn [take foldr]. rewrite take_0. cbn [foldr]. unfold c.
  rewrite !cell_after_value by (try done; repeat (first [left; reflexivity|right])).
  unfold cell_after. rewrite observe_cells_count. simpl count.
  rewrite (count_le_all b1), (count_le_all b2); [ring| |done].
  eapply Forall_impl; [exact Hvs|]. intros v Hv. cbn in Hv |- *. by apply (Qle_trans _ b1).
Qed.

Lemma export_counts_twice_witness :
  ∃ x, cumulate 0 [1; 2] (buckets (cell_after [1; 2] [1#2])) !! 1%nat = Some (2, x)
    ∧ x == 2 * count (cell_after [1; 2] [1#2]).
Proof.
  apply (export_counts_twice 1 2 [] [1#2]); [reflexivity|discriminate|].
  constructor; [discriminate|constructor].
Defined.

End HistogramFacts.
