(* ===== verification/Errors.v ===== *)
(** * The error taxonomy

    `src/src/asap/errors.py`, `HandlerNotFoundError` of
    `src/src/asap/transport/handlers.py` and `ProtocolCorrelationError` of
    `transport/errors.py`: the exception classes with their
    taxonomy codes, JSON-RPC codes and recovery hints, the data a server puts on
    the wire and the error a client rebuilds from it. *)

From Stdlib Require Import ZArith QArith Lia Ascii String.
From stdpp Require Import base tactics list gmap strings sorting.
From S2P Require Import Prelude PyValue Digest Identity.
Open Scope string_scope.
Open Scope Z_scope.
Open Scope asap_scope.

Definition JSON_RPC_ASAP_MIN : Z := -32059.
Definition JSON_RPC_ASAP_MAX : Z := -32000.

Definition RPC_INVALID_STATE : Z := -32000.
Definition RPC_MALFORMED_ENVELOPE : Z := -32001.
Definition RPC_INVALID_TIMESTAMP : Z := -32002.
Definition RPC_INVALID_NONCE : Z := -32003.
Definition RPC_TASK_NOT_FOUND : Z := -32010.
Definition RPC_CIRCUIT_OPEN : Z := -32011.
Definition RPC_HANDLER_NOT_FOUND : Z := -32012.
Definition RPC_UNSUPPORTED_AUTH_SCHEME : Z := -32020.
Definition RPC_TASK_ALREADY_COMPLETED : Z := -32030.
Definition RPC_THREAD_POOL_EXHAUSTED : Z := -32031.
Definition RPC_CONNECTION_ERROR : Z := -32032.
Definition RPC_TIMEOUT : Z := -32033.
Definition RPC_REMOTE_GENERIC : Z := -32034.
Definition RPC_RESOURCE_EXHAUSTED : Z := -32040.
Definition RPC_WEBHOOK_URL_REJECTED : Z := -32050.
Definition RPC_AGENT_REVOKED : Z := -32051.
Definition RPC_SIGNATURE_VERIFICATION : Z := -32052.

Definition is_asap_json_rpc_code (code : Z) : bool :=
  (JSON_RPC_ASAP_MIN <=? code) && (code <=? JSON_RPC_ASAP_MAX).

(** ** Classes *)
Inductive error_class : Type :=
| ClsASAPError
| ClsInvalidTransitionError
| ClsMalformedEnvelopeError
| ClsTaskNotFoundError
| ClsTaskAlreadyCompletedError
| ClsThreadPoolExhaustedError
| ClsInvalidTimestampError
| ClsInvalidNonceError
| ClsCircuitOpenError
| ClsWebhookURLValidationError
| ClsAgentRevokedException
| ClsSignatureVerificationError
| ClsUnsupportedAuthSchemeError
| ClsASAPConnectionError
| ClsASAPTimeoutError
| ClsHandlerNotFoundError
| ClsProtocolCorrelationError
| ClsRemoteRPCError
| ClsRemoteFatalRPCError
| ClsRemoteRecoverableRPCError.

#[export] Instance error_class_eq_dec : EqDecision error_class.
Proof. solve_decision. Defined.

(** `type(e).__name__` *)
Definition class_name (c : error_class) : string :=
  match c with
  | ClsASAPError => "ASAPError"
  | ClsInvalidTransitionError => "InvalidTransitionError"
  | ClsMalformedEnvelopeError => "MalformedEnvelopeError"
  | ClsTaskNotFoundError => "TaskNotFoundError"
  | ClsTaskAlreadyCompletedError => "TaskAlreadyCompletedError"
  | ClsThreadPoolExhaustedError => "ThreadPoolExhaustedError"
  | ClsInvalidTimestampError => "InvalidTimestampError"
  | ClsInvalidNonceError => "InvalidNonceError"
  | ClsCircuitOpenError => "CircuitOpenError"
  | ClsWebhookURLValidationError => "WebhookURLValidationError"
  | ClsAgentRevokedException => "AgentRevokedException"
  | ClsSignatureVerificationError => "SignatureVerificationError"
  | ClsUnsupportedAuthSchemeError => "UnsupportedAuthSchemeError"
  | ClsASAPConnectionError => "ASAPConnectionError"
  | ClsASAPTimeoutError => "ASAPTimeoutError"
  | ClsHandlerNotFoundError => "HandlerNotFoundError"
  | ClsProtocolCorrelationError => "ProtocolCorrelationError"
  | ClsRemoteRPCError => "RemoteRPCError"
  | ClsRemoteFatalRPCError => "RemoteFatalRPCError"
  | ClsRemoteRecoverableRPCError => "RemoteRecoverableRPCError"
  end.

(** `isinstance(e, RecoverableError)` *)
Definition is_RecoverableError (c : error_class) : bool :=
  match c with
  | ClsThreadPoolExhaustedError | ClsInvalidTimestampError | ClsCircuitOpenError
  | ClsASAPConnectionError | ClsASAPTimeoutError | ClsRemoteRecoverableRPCError => true
  | _ => false
  end.

(** `isinstance(e, FatalError)` *)
Definition is_FatalError (c : error_class) : bool :=
  match c with
  | ClsInvalidTransitionError | ClsMalformedEnvelopeError | ClsTaskNotFoundError
  | ClsTaskAlreadyCompletedError | ClsInvalidNonceError | ClsWebhookURLValidationError
  | ClsAgentRevokedException | ClsSignatureVerificationError | ClsUnsupportedAuthSchemeError
  | ClsHandlerNotFoundError | ClsProtocolCorrelationError | ClsRemoteFatalRPCError => true
  | _ => false
  end.

(** ** The base class *)
Record ASAPError : Type := mkError {
  x_class : error_class;
  x_code : string;
  x_rpc_code : Z;
  x_message : string;
  x_details : list (string * json);
  x_retry_after_ms : option Z;
  x_alternative_agents : option (list string);
  x_fallback_action : option string
}.

Definition hints : Type := option Z * option (list string) * option string.
Definition no_hints : hints := (None, None, None).

(** `ASAPError.__init__` *)
Definition asap_error (cls : error_class) (code message : string) (details : list (string * json))
    (rpc_code : Z) (h : hints) : res pyexn ASAPError :=
  if is_asap_json_rpc_code rpc_code then
    let '(retry, agents, fallback) := h in
    Ret (mkError cls code rpc_code message details retry agents fallback)
  else
    Raise (ValueError ("rpc_code must be in [" ++ PyStr.dec_Z JSON_RPC_ASAP_MIN ++ ", "
             ++ PyStr.dec_Z JSON_RPC_ASAP_MAX ++ "], got " ++ PyStr.dec_Z rpc_code)).

(** `{**d, **e}`: the entries of [e] replace or follow those of [d]. *)
Definition dict_merge {V} (d e : list (string * V)) : list (string * V) :=
  fold_left (λ d kv, PyDict.set (fst kv) (snd kv) d) e d.

Definition opt_item (k : string) (v : option json) : list (string * json) :=
  match v with Some j => [(k, j)] | None => [] end.

Definition to_dict (e : ASAPError) : list (string * json) :=
  [("code", JStr (x_code e)); ("rpc_code", JInt (x_rpc_code e)); ("message", JStr (x_message e));
   ("details", JObj (x_details e))] ++
  opt_item "retry_after_ms" (JInt <$> x_retry_after_ms e) ++
  opt_item "alternative_agents" ((λ l, JList (map JStr l)) <$> x_alternative_agents e) ++
  opt_item "fallback_action" (JStr <$> x_fallback_action e).

(** ** Subclasses.  [details]: the optional extra details, `details or {}`. *)
Definition InvalidTransitionError (from_state to_state : string) (details : list (string * json)) :=
  asap_error ClsInvalidTransitionError "asap:protocol/invalid_state"
    ("Invalid transition from '" ++ from_state ++ "' to '" ++ to_state ++ "'")
    (dict_merge [("from_state", JStr from_state); ("to_state", JStr to_state)] details)
    RPC_INVALID_STATE no_hints.

Definition MalformedEnvelopeError (reason : string) (details : list (string * json)) :=
  asap_error ClsMalformedEnvelopeError "asap:protocol/malformed_envelope"
    ("Malformed envelope: " ++ reason) details RPC_MALFORMED_ENVELOPE no_hints.

Definition TaskNotFoundError (task_id : string) (details : list (string * json)) :=
  asap_error ClsTaskNotFoundError "asap:task/not_found" ("Task not found: " ++ task_id)
    (dict_merge [("task_id", JStr task_id)] details) RPC_TASK_NOT_FOUND no_hints.

Definition TaskAlreadyCompletedError (task_id current_status : string) (details : list (string * json)) :=
  asap_error ClsTaskAlreadyCompletedError "asap:task/already_completed"
    ("Task already completed: " ++ task_id ++ " (status: " ++ current_status ++ ")")
    (dict_merge [("task_id", JStr task_id); ("current_status", JStr current_status)] details)
    RPC_TASK_ALREADY_COMPLETED no_hints.

Definition ThreadPoolExhaustedError (max_threads active_threads : Z) (details : list (string * json))
    (retry_after_ms : option Z) :=
  asap_error ClsThreadPoolExhaustedError "asap:transport/thread_pool_exhausted"
    ("Thread pool exhausted: " ++ PyStr.dec_Z active_threads ++ "/" ++ PyStr.dec_Z max_threads
       ++ " threads in use. Service temporarily unavailable.")
    (dict_merge [("max_threads", JInt max_threads); ("active_threads", JInt active_threads)] details)
    RPC_THREAD_POOL_EXHAUSTED (retry_after_ms, None, Some "retry_later").

Definition InvalidTimestampError (timestamp message : string) (age_seconds future_offset_seconds : option pyfloat)
    (details : list (string * json)) (retry_after_ms : option Z) :=
  asap_error ClsInvalidTimestampError "asap:protocol/invalid_timestamp" message
    (dict_merge
       ([("timestamp", JStr timestamp)] ++ opt_item "age_seconds" (JFloat <$> age_seconds)
          ++ opt_item "future_offset_seconds" (JFloat <$> future_offset_seconds)) details)
    RPC_INVALID_TIMESTAMP (retry_after_ms, None, Some "resend_with_fresh_timestamp").

Definition InvalidNonceError (nonce : json) (message : string) (details : list (string * json)) :=
  asap_error ClsInvalidNonceError "asap:protocol/invalid_nonce" message
    (dict_merge [("nonce", nonce)] details) RPC_INVALID_NONCE no_hints.

Definition CircuitOpenError (base_url : string) (consecutive_failures : Z) (details : list (string * json))
    (retry_after_ms : option Z) :=
  asap_error ClsCircuitOpenError "asap:transport/circuit_open"
    ("Circuit breaker is OPEN for " ++ base_url ++ ". Too many consecutive failures ("
       ++ PyStr.dec_Z consecutive_failures ++ "). Service temporarily unavailable.")
    (dict_merge [("base_url", JStr base_url); ("consecutive_failures", JInt consecutive_failures)] details)
    RPC_CIRCUIT_OPEN (retry_after_ms, None, Some "retry_later_or_failover").

Definition WebhookURLValidationError (url reason : string) (details : list (string * json)) :=
  asap_error ClsWebhookURLValidationError "asap:transport/webhook_url_rejected"
    ("Webhook URL rejected: " ++ reason)
    (dict_merge [("url", JStr url); ("reason", JStr reason)] details) RPC_WEBHOOK_URL_REJECTED no_hints.

Definition AgentRevokedException (urn : string) (details : list (string * json)) :=
  asap_error ClsAgentRevokedException "asap:agent/revoked" ("Agent revoked: " ++ urn)
    (dict_merge [("urn", JStr urn)] details) RPC_AGENT_REVOKED no_hints.

Definition SignatureVerificationError (message : string) (details : list (string * json)) :=
  asap_error ClsSignatureVerificationError "asap:error/signature-verification" message details
    RPC_SIGNATURE_VERIFICATION no_hints.

Definition str_le (a b : string) : Prop := String.leb a b = true.
#[local] Instance str_le_dec a b : Decision (str_le a b).
Proof. unfold str_le. apply _. Defined.

(** [supported_schemes]: the elements of the set, in any order. *)
Definition UnsupportedAuthSchemeError (scheme : string) (supported_schemes : list string)
    (details : list (string * json)) :=
  let supported_list := merge_sort str_le supported_schemes in
  asap_error ClsUnsupportedAuthSchemeError "asap:auth/unsupported_scheme"
    ("Unsupported authentication scheme '" ++ scheme ++ "'. Supported schemes: "
       ++ joined ", " supported_list)
    (dict_merge [("scheme", JStr scheme); ("supported_schemes", JList (map JStr supported_list))] details)
    RPC_UNSUPPORTED_AUTH_SCHEME no_hints.

Definition newline : string := String (ascii_of_nat 10) "".

(** [cause]: `str(cause)`; [rpc_code] and the hints are keyword arguments of
    the caller. *)
Definition ASAPConnectionError (message : string) (cause url : option string) (rpc_code : Z)
    (retry_after_ms : option Z) (alternative_agents : option (list string)) :=
  let enhanced_message :=
    match url with
    | Some u =>
        if PyStr.truthy u && negb (PyStr.contains message "Verify")
           && negb (PyStr.contains (PyStr.lower message) "troubleshooting")
        then message ++ newline ++ "Troubleshooting: Connection failed to " ++ u ++ ". "
               ++ "Verify the agent is running and accessible. "
               ++ "Check the URL format, network connectivity, and firewall settings."
        else message
    | None => message
    end in
  asap_error ClsASAPConnectionError "asap:transport/connection_error" enhanced_message
    (opt_item "url" (JStr <$> url) ++ opt_item "cause" (JStr <$> cause))
    rpc_code (retry_after_ms, alternative_agents, Some "retry_or_check_connectivity").

Definition ASAPTimeoutError (message : string) (timeout : option pyfloat) (retry_after_ms : option Z) :=
  asap_error ClsASAPTimeoutError "asap:transport/timeout" message
    (opt_item "timeout_seconds" (JFloat <$> timeout)) RPC_TIMEOUT
    (retry_after_ms, None, Some "retry_with_backoff").

Definition HandlerNotFoundError (payload_type : string) :=
  asap_error ClsHandlerNotFoundError "asap:transport/handler_not_found"
    ("No handler registered for payload type: " ++ payload_type)
    [("payload_type", JStr payload_type)] RPC_HANDLER_NOT_FOUND no_hints.

Definition str_or_null (o : option string) : json := match o with Some s => JStr s | None => JNull end.

(** `ProtocolCorrelationError` of `transport/errors.py` *)
Definition ProtocolCorrelationError (request_id : string) (correlation_id : option string)
    (details : list (string * json)) :=
  asap_error ClsProtocolCorrelationError "asap:protocol/malformed_envelope"
    ("correlation_id mismatch: expected " ++ repr_str request_id ++ ", got "
       ++ match correlation_id with Some c => repr_str c | None => "None" end)
    (dict_merge [("request_id", JStr request_id); ("correlation_id", str_or_null correlation_id)] details)
    RPC_MALFORMED_ENVELOPE no_hints.

(** ** Errors received from a peer *)
Record RemoteRPCError : Type := mkRemote {
  r_error : ASAPError;
  r_json_rpc_code : Z;
  r_is_recoverable : bool
}.

(** `RemoteRPCError.__init__`, and with the class those of its two deprecated
    subclasses, which fix [is_recoverable]. *)
Definition remote_rpc_error (cls : error_class) (wire_jsonrpc_code : Z) (message : string)
    (details : list (string * json)) (is_recoverable : bool) (taxonomy_code : string) (h : hints) :
    res pyexn RemoteRPCError :=
  let asap_slot := if is_asap_json_rpc_code wire_jsonrpc_code then wire_jsonrpc_code else RPC_REMOTE_GENERIC in
  let! e := asap_error cls taxonomy_code message details asap_slot h in
  Ret (mkRemote e wire_jsonrpc_code is_recoverable).

Definition RemoteFatalRPCError (code : Z) (message : string) (details : list (string * json))
    (taxonomy_code : string) (h : hints) :=
  remote_rpc_error ClsRemoteFatalRPCError code message details false taxonomy_code h.

Definition RemoteRecoverableRPCError (code : Z) (message : string) (details : list (string * json))
    (taxonomy_code : string) (h : hints) :=
  remote_rpc_error ClsRemoteRecoverableRPCError code message details true taxonomy_code h.

(** `str(e)` of the two kinds. *)
Definition str_error (e : ASAPError) : string := x_message e.
Definition str_remote (r : RemoteRPCError) : string :=
  "Remote error " ++ PyStr.dec_Z (r_json_rpc_code r) ++ ": " ++ x_message (r_error r).

(** ** `int(x)` *)
Module PyInt.

(** Decimal digits, with single underscores between them. *)
Fixpoint digits (acc : Z) (after_digit : bool) (s : string) : option Z :=
  match s with
  | EmptyString => if after_digit then Some acc else None
  | String c s' =>
      let n := PyStr.code c in
      if ((48 <=? n) && (n <=? 57))%nat then digits (acc * 10 + (Z.of_nat n - 48)) true s'
      else if (n =? 95)%nat && after_digit then
        match s' with
        | EmptyString => None
        | _ => digits acc false s'
        end
      else None
  end.

(** `int(s)` of a string; [None]: ValueError. *)
Definition of_str (s : string) : option Z :=
  match PyStr.strip s with
  | String "-" s' => Z.opp <$> digits 0 false s'
  | String "+" s' => digits 0 false s'
  | s' => digits 0 false s'
  end.

(** `int(x)` of a JSON value. *)
Definition of_json (j : json) : res pyexn Z :=
  match j with
  | JBool b => Ret (if b then 1 else 0)
  | JInt z => Ret z
  | JFloat (FFin q) => Ret (Z.quot (Qnum q) (Zpos (Qden q)))
  | JFloat (FInf _) => Raise (OverflowError "cannot convert float infinity to integer")
  | JFloat FNan => Raise (ValueError "cannot convert float NaN to integer")
  | JStr s => match of_str s with
              | Some z => Ret z
              | None => Raise (ValueError "invalid literal for int() with base 10")
              end
  | _ => Raise (TypeError "int() argument must be a string, a bytes-like object or a real number")
  end.

End PyInt.

Section Remote.
  Context `{PyRuntime}.

(** `_pop_remote_meta`: taxonomy code, remaining details and recovery hints.
    The agents are what the peer sent, whatever their type. *)
Definition _pop_remote_meta (raw : list (string * json)) :
    res pyexn (string * list (string * json) * (option Z * option (list json) * option string)) :=
  let d := raw in
  let taxonomy := match assoc "asap_taxonomy_code" d with
                  | Some j => py_str float_repr j
                  | None => "asap:rpc/remote_error" end in
  let d := PyDict.del "recoverable" (PyDict.del "asap_taxonomy_code" d) in
  let retry_raw := j_get "retry_after_ms" d in
  let d := PyDict.del "retry_after_ms" d in
  let agents_raw := j_get "alternative_agents" d in
  let d := PyDict.del "alternative_agents" d in
  let fallback_raw := j_get "fallback_action" d in
  let d := PyDict.del "rpc_code" (PyDict.del "fallback_action" d) in
  let taxonomy_alt := j_get "code" d in
  let d := PyDict.del "code" d in
  let taxonomy := match taxonomy_alt with
                  | JStr s => if PyStr.startswith s "asap:" then s else taxonomy
                  | _ => taxonomy end in
  let! retry_after_ms := match retry_raw with
                         | JNull => Ret None
                         | j => rmap Some (PyInt.of_json j) end in
  let alternative_agents := match agents_raw with JList l => Some l | _ => None end in
  let fallback_action := match fallback_raw with
                         | JNull => None
                         | j => Some (py_str float_repr j) end in
  Ret (taxonomy, d, (retry_after_ms, alternative_agents, fallback_action)).

(** A remote error with the agents as received. *)
Record Received : Type := mkReceived {
  rc_error : RemoteRPCError;
  rc_alternative_agents : option (list json)
}.

(** `from_jsonrpc` and `remote_rpc_error_from_json`. *)
Definition from_jsonrpc (rpc_code : Z) (message : string) (data : option (list (string * json))) :
    res pyexn Received :=
  let raw := default [] data in
  let! m := _pop_remote_meta raw in
  let '(taxonomy, details, (retry, agents, fallback)) := m in
  let is_recoverable := match j_get "recoverable" raw with JBool true => true | _ => false end in
  let! r := remote_rpc_error ClsRemoteRPCError rpc_code message details is_recoverable taxonomy
              (retry, None, fallback) in
  Ret (mkReceived r agents).

Definition remote_rpc_error_from_json := from_jsonrpc.
End Remote.

(** The data member of a JSON-RPC error a server sends for an exception. *)
Definition jsonrpc_error_data_for_asap_exception (e : ASAPError) : list (string * json) :=
  dict_merge (to_dict e)
    [("recoverable", JBool (is_RecoverableError (x_class e))); ("asap_taxonomy_code", JStr (x_code e))].

(** ** Errors the library builds

    An error made by one of the constructors above, with any arguments. *)
Inductive built : ASAPError → Prop :=
| built_transition a b d e : InvalidTransitionError a b d = Ret e → built e
| built_malformed r d e : MalformedEnvelopeError r d = Ret e → built e
| built_not_found i d e : TaskNotFoundError i d = Ret e → built e
| built_completed i st d e : TaskAlreadyCompletedError i st d = Ret e → built e
| built_pool m a d r e : ThreadPoolExhaustedError m a d r = Ret e → built e
| built_timestamp t m a f d r e : InvalidTimestampError t m a f d r = Ret e → built e
| built_nonce n m d e : InvalidNonceError n m d = Ret e → built e
| built_circuit u n d r e : CircuitOpenError u n d r = Ret e → built e
| built_webhook u r d e : WebhookURLValidationError u r d = Ret e → built e
| built_revoked u d e : AgentRevokedException u d = Ret e → built e
| built_signature m d e : SignatureVerificationError m d = Ret e → built e
| built_scheme s l d e : UnsupportedAuthSchemeError s l d = Ret e → built e
| built_connection m c u k r a e : ASAPConnectionError m c u k r a = Ret e → built e
| built_timeout m t r e : ASAPTimeoutError m t r = Ret e → built e
| built_handler p e : HandlerNotFoundError p = Ret e → built e
| built_correlation i c d e : ProtocolCorrelationError i c d = Ret e → built e.

(** What the base class guarantees of an error and what its class adds. *)
Definition well_formed (e : ASAPError) : Prop :=
  is_asap_json_rpc_code (x_rpc_code e) = true
  ∧ PyStr.startswith (x_code e) "asap:" = true
  ∧ is_RecoverableError (x_class e) = negb (is_FatalError (x_class e)).

Lemma asap_error_ret cls code msg d k h e : asap_error cls code msg d k h = Ret e →
  is_asap_json_rpc_code (x_rpc_code e) = true ∧ x_class e = cls ∧ x_code e = code.
Proof.
  unfold asap_error. destruct (is_asap_json_rpc_code k) eqn:E; [|done].
  destruct h as [[r a] f]. by intros [= <-].
Qed.

Lemma built_wf e : built e → well_formed e.
Proof.
  intros Hb. unfold well_formed.
  destruct Hb as [? ? ? e He|? ? e He|? ? e He|? ? ? e He|? ? ? ? e He|? ? ? ? ? ? e He|? ? ? e He
    |? ? ? ? e He|? ? ? e He|? ? e He|? ? e He|? ? ? e He|? ? ? ? ? ? e He|? ? ? e He|? e He|? ? ? e He];
    destruct (asap_error_ret _ _ _ _ _ _ _ He) as (Hk & -> & ->); done.
Qed.

(** Every error of the taxonomy is well typed for the wire: its JSON-RPC
    code lies in the band reserved for ASAP, its taxonomy code is an `asap:`
    URI, and it is either recoverable or fatal, never both and never neither. *)
Theorem built_errors_well_formed (e : ASAPError) : built e → well_formed e.
Proof. apply built_wf. Qed.

Lemma built_errors_well_formed_witness :
  match HandlerNotFoundError "task.request" with Ret e => well_formed e | Raise _ => False end.
Proof.
  destruct (HandlerNotFoundError "task.request") as [x|e] eqn:E; [discriminate E|].
  apply built_errors_well_formed. exact (built_handler "task.request" e E).
Defined.

(** ** From the server's error to the client's *)
Section Wire.
  Context `{PyRuntime}.

(** The data the server sends, with its extra `error` text. *)
Definition wire_data (e : ASAPError) (text : string) : list (string * json) :=
  dict_merge (jsonrpc_error_data_for_asap_exception e) [("error", JStr text)].

Lemma pop_wire_data e text :
  _pop_remote_meta (wire_data e text)
  = Ret (x_code e, [("message", JStr (x_message e)); ("details", JObj (x_details e)); ("error", JStr text)],
         (x_retry_after_ms e, map JStr <$> x_alternative_agents e, x_fallback_action e)).
Proof.
  transitivity (Ret (E := pyexn)
    (if PyStr.startswith (x_code e) "asap:" then x_code e else x_code e,
     [("message", JStr (x_message e)); ("details", JObj (x_details e)); ("error", JStr text)],
     (x_retry_after_ms e, map JStr <$> x_alternative_agents e, x_fallback_action e))).
  - destruct e as [cls code k msg d [r|] [a|] [f|]]; reflexivity.
  - by destruct (PyStr.startswith (x_code e) "asap:").
Qed.

Lemma wire_recoverable e text :
  j_get "recoverable" (wire_data e text) = JBool (is_RecoverableError (x_class e)).
Proof. by destruct e as [cls code k msg d [r|] [a|] [f|]]. Qed.

(** Round trip of errors: the client that receives the JSON-RPC error a
    server builds from an error of the taxonomy recovers its taxonomy code,
    numeric code, message, details, all recovery hints and whether a retry can
    succeed. *)
Theorem error_wire_roundtrip (e : ASAPError) (text : string) :
  built e →
  ∃ r, from_jsonrpc (x_rpc_code e) (x_message e) (Some (wire_data e text)) = Ret r
    ∧ let x := r_error (rc_error r) in
      x_code x = x_code e ∧ x_rpc_code x = x_rpc_code e ∧ r_json_rpc_code (rc_error r) = x_rpc_code e
    ∧ x_message x = x_message e
    ∧ assoc "details" (x_details x) = Some (JObj (x_details e))
    ∧ x_retry_after_ms x = x_retry_after_ms e
    ∧ rc_alternative_agents r = map JStr <$> x_alternative_agents e
    ∧ x_fallback_action x = x_fallback_action e
    ∧ r_is_recoverable (rc_error r) = is_RecoverableError (x_class e).
Proof.
  intros Hb.
  destruct (built_wf e Hb) as (Hk & _ & _).
  unfold from_jsonrpc. cbv zeta. cbn [from_option]. unfold id.
  rewrite pop_wire_data. cbn [rbind]. rewrite wire_recoverable.
  unfold remote_rpc_error, asap_error. rewrite Hk, Hk. cbn [rbind].
  eexists. split; [reflexivity|]. cbn. split_and!; try done.
  by destruct (is_RecoverableError (x_class e)).
Qed.

End Wire.

(** A runtime for the examples; none of them prints a float. *)
#[local] Instance plain_runtime : PyRuntime := {| float_repr := λ _, "0.0"; float_of_str := λ _, None |}.

Lemma error_wire_roundtrip_witness :
  match ThreadPoolExhaustedError 4 4 [] (Some 1000) with
  | Ret e => ∃ r, from_jsonrpc (x_rpc_code e) (x_message e) (Some (wire_data e "busy")) = Ret r
      ∧ x_retry_after_ms (r_error (rc_error r)) = Some 1000 ∧ r_is_recoverable (rc_error r) = true
  | Raise _ => False
  end.
Proof.
  destruct (ThreadPoolExhaustedError 4 4 [] (Some 1000)) as [x|e] eqn:E; [discriminate E|].
  destruct (error_wire_roundtrip e "busy" (built_pool _ _ _ _ e E))
    as (r & Hr & _ & _ & _ & _ & _ & Hretry & _ & _ & Hrec).
  exists r. split; [exact Hr|]. rewrite Hretry, Hrec. injection E as <-. split; reflexivity.
Defined.

(** A peer's hint that is no number makes the client raise a `ValueError`
    instead of an error of the taxonomy. *)
Lemma bad_retry_hint_escapes code message :
  from_jsonrpc code message (Some [("retry_after_ms", JStr "soon")])
  = Raise (ValueError "invalid literal for int() with base 10").
Proof. reflexivity. Qed.
