(* ===== verification/LambdaCodec.v ===== *)
(** * The Lambda codec

    `src/src/asap/transport/lambda_codec.py`: substitution of common JSON
    tokens by short atoms.  A text is the list of its code points, since the
    version prefix and the atoms use characters beyond ASCII.  A substitution
    is the one of `re.sub` with an alternation of literals: leftmost match,
    alternatives in the order of the table. *)

From Stdlib Require Import ZArith Lia Ascii String.
From stdpp Require Import base tactics list strings.
From S2P Require Import Prelude PyValue.
Open Scope Z_scope.

Abbreviation text := (list Z).

(** A literal: the code points of a string of the source. *)
Fixpoint lit (s : string) : text :=
  match s with
  | EmptyString => []
  | String c s' => Z.of_nat (nat_of_ascii c) :: lit s'
  end.

Definition section_sign : Z := 167.   (* "§" *)
Definition quotation_mark : Z := 34.

Definition _VERSION_PREFIX : text := 955 :: lit "1:".   (* "λ1:" *)

(** A key or value in double quotes, and an atom between section signs. *)
Definition token (s : string) : text := [quotation_mark] ++ lit s ++ [quotation_mark].
Definition atom (s : string) : text := [section_sign] ++ lit s ++ [section_sign].

Definition _ENCODE_MAP : list (text * text) :=
  map (λ ka, (token (fst ka), atom (snd ka)))
  [("jsonrpc", "Jrpc"); ("method", "Mthd"); ("params", "Prms"); ("result", "Rslt"); ("error", "Er");
   ("id", "Id"); ("code", "Cd"); ("message", "Msg"); ("data", "Dt");
   ("envelope", "Env"); ("sender", "Snd"); ("recipient", "Rcp"); ("payload", "Pld");
   ("payload_type", "Pt"); ("task_id", "Ta"); ("status", "St"); ("trace_id", "Tr");
   ("timestamp", "Ts"); ("nonce", "Nc"); ("version", "Vr"); ("description", "Ds");
   ("idempotency_key", "Ik");
   ("asap.message", "Am"); ("2.0", "V2");
   ("task.request", "Treq"); ("task.response", "Tres"); ("task.status", "Tst"); ("task.cancel", "Tcn");
   ("heartbeat", "Hb");
   ("success", "Ok"); ("pending", "Pn"); ("running", "Rn"); ("completed", "Cp"); ("failed", "Fl");
   ("cancelled", "Cx")]%string.

Definition _DECODE_MAP : list (text * text) := map (λ kv, (snd kv, fst kv)) _ENCODE_MAP.

(** The rest of a text after a literal it starts with. *)
Fixpoint strip_prefix (p s : text) : option text :=
  match p, s with
  | [], _ => Some s
  | c :: p', d :: s' => if c =? d then strip_prefix p' s' else None
  | _ :: _, [] => None
  end.

(** The first alternative that matches at the start of a text: its replacement
    and the text after the match. *)
Fixpoint first_match (table : list (text * text)) (s : text) : option (text * text) :=
  match table with
  | [] => None
  | (p, r) :: table' =>
      match strip_prefix p s with
      | Some rest => Some (r, rest)
      | None => first_match table' s
      end
  end.

(** `pattern.sub(f, s)`.  The literals are not empty, so every round consumes a
    character and the length of the text is enough fuel. *)
Fixpoint sub (fuel : nat) (table : list (text * text)) (s : text) : text :=
  match fuel, s with
  | O, _ | _, [] => []
  | S fuel', c :: s' =>
      match first_match table s with
      | Some (r, rest) => r ++ sub fuel' table rest
      | None => c :: sub fuel' table s'
      end
  end.

Definition encode (json_str : text) : text :=
  _VERSION_PREFIX ++ sub (length json_str) _ENCODE_MAP json_str.

Definition decode (encoded : text) : res pyexn text :=
  match strip_prefix _VERSION_PREFIX encoded with
  | None => Raise (ValueError "Invalid Lambda codec format: missing version prefix.")
  | Some json_str => Ret (sub (length json_str) _DECODE_MAP json_str)
  end.

(** ** Lemmas *)

Lemma strip_prefix_app p s : strip_prefix p (p ++ s) = Some s.
Proof. induction p as [|c p IH]; simpl; [done|]. by rewrite Z.eqb_refl. Qed.

Lemma strip_prefix_Some p s rest : strip_prefix p s = Some rest → s = p ++ rest.
Proof.
  revert s. induction p as [|c p IH]; intros s; simpl; [by intros [= ->]|].
  destruct s as [|d s]; [done|]. destruct (c =? d) eqn:E; [|done].
  apply Z.eqb_eq in E as ->. by intros ->%IH.
Qed.

Lemma first_match_elem table s r rest : first_match table s = Some (r, rest) →
  ∃ p, (p, r) ∈ table ∧ s = p ++ rest.
Proof.
  induction table as [|[p r'] table IH]; simpl; [done|].
  destruct (strip_prefix p s) as [rest'|] eqn:E.
  - intros [= -> ->]. exists p. split; [left|]. by apply strip_prefix_Some.
  - intros (p' & ? & ?)%IH. exists p'. by split; [right|].
Qed.

(** More fuel than the length of the text changes nothing. *)
Lemma sub_fuel table s n m : Forall (λ pr, pr.1 ≠ []) table →
  (length s <= n)%nat → (length s <= m)%nat → sub n table s = sub m table s.
Proof.
  intros Ht. revert s m. induction n as [|n IH]; intros s m Hn Hm.
  { destruct s; [|simpl in Hn; lia]. by destruct m. }
  destruct m as [|m]; [destruct s; [done|simpl in Hm; lia]|].
  destruct s as [|c s]; [done|]. cbn [sub]. simpl in Hn, Hm.
  destruct (first_match table (c :: s)) as [[r rest]|] eqn:E; [|f_equal; apply IH; lia].
  f_equal. apply first_match_elem in E as (p & Hp & Hs).
  rewrite Forall_forall in Ht. specialize (Ht _ Hp). destruct p as [|d p]; [done|].
  apply (f_equal length) in Hs. rewrite length_app in Hs. simpl in Hs. apply IH; lia.
Qed.

Definition subst (table : list (text * text)) (s : text) : text := sub (length s) table s.

Lemma subst_match table s r rest : Forall (λ pr, pr.1 ≠ []) table →
  first_match table s = Some (r, rest) → subst table s = r ++ subst table rest.
Proof.
  intros Ht E. pose proof E as (p & Hp & Hs)%first_match_elem.
  pose proof Ht as Ht'. rewrite Forall_forall in Ht'. specialize (Ht' _ Hp).
  destruct p as [|d p]; [done|]. subst s. unfold subst. cbn [app length sub].
  cbn [app] in E. rewrite E. f_equal. apply sub_fuel; [done| |done]. rewrite length_app. lia.
Qed.

Lemma subst_plain table c s : first_match table (c :: s) = None → subst table (c :: s) = c :: subst table s.
Proof. intros E. unfold subst. cbn [length sub]. by rewrite E. Qed.

(** Neither map has an empty literal. *)
Lemma encode_map_literals : Forall (λ pr, pr.1 ≠ []) _ENCODE_MAP.
Proof. by repeat constructor. Qed.
Lemma decode_map_literals : Forall (λ pr, pr.1 ≠ []) _DECODE_MAP.
Proof. by repeat constructor. Qed.

(** In a table of atoms, an atom is found whatever follows it, as long as the
    ones before it are different: a section sign ends every one of them. *)
Definition no_sign (s : text) : bool := forallb (λ c, negb (c =? section_sign)) s.

Lemma strip_prefix_atom a b s : no_sign a = true → no_sign b = true →
  strip_prefix (a ++ [section_sign]) (b ++ section_sign :: s) = if decide (a = b) then Some s else None.
Proof.
  revert b. induction a as [|c a IH]; intros b Ha Hb; destruct b as [|d b].
  - cbn [app strip_prefix]. rewrite Z.eqb_refl. by case_decide.
  - simpl in Hb. apply andb_prop in Hb as [Hd _]. apply negb_true_iff in Hd.
    cbn [app strip_prefix]. rewrite Z.eqb_sym, Hd. by case_decide.
  - simpl in Ha. apply andb_prop in Ha as [Hc _]. apply negb_true_iff in Hc.
    cbn [app strip_prefix]. rewrite Hc. by case_decide.
  - simpl in Ha, Hb. apply andb_prop in Ha as [_ Ha], Hb as [_ Hb]. cbn [app strip_prefix].
    destruct (c =? d) eqn:E.
    + apply Z.eqb_eq in E as ->. rewrite IH by done. repeat case_decide; congruence.
    + apply Z.eqb_neq in E. by case_decide; [congruence|].
Qed.

(** A table whose patterns are distinct atoms. *)
Definition atoms_table (names : list text) (table : list (text * text)) : Prop :=
  table.*1 = map (λ a, section_sign :: a ++ [section_sign]) names ∧ NoDup names
  ∧ Forall (λ a, no_sign a = true) names.

Lemma first_match_atom names table a r s :
  atoms_table names table → (section_sign :: a ++ [section_sign], r) ∈ table → no_sign a = true →
  first_match table (section_sign :: a ++ section_sign :: s) = Some (r, s).
Proof.
  intros (Ht & Hnd & Hn). revert names Ht Hnd Hn.
  induction table as [|[p r'] table IH]; intros names Ht Hnd Hn Hin Ha; [by apply elem_of_nil in Hin|].
  destruct names as [|b names]; [done|]. cbn in Ht. injection Ht as -> Ht.
  apply NoDup_cons in Hnd as [Hb Hnd]. apply Forall_cons in Hn as [Hbn Hn].
  cbn [first_match strip_prefix]. rewrite Z.eqb_refl, strip_prefix_atom by done.
  apply elem_of_cons in Hin as [[= Hab ->]|Hin].
  - apply app_inj_tail in Hab as [-> _]. by rewrite decide_True.
  - rewrite decide_False; [by eapply IH|]. intros ->. apply Hb.
    assert (Hk : section_sign :: a ++ [section_sign] ∈ table.*1) by (apply list_elem_of_fmap; by exists (section_sign :: a ++ [section_sign], r)).
    rewrite Ht in Hk. apply list_elem_of_fmap in Hk as (x & Hx & Hin'). injection Hx as Hx.
    by apply app_inj_tail in Hx as [-> _].
Qed.

Lemma first_match_no_sign names table c s : atoms_table names table → c ≠ section_sign →
  first_match table (c :: s) = None.
Proof.
  intros (Ht & _ & _) Hc. revert names Ht. induction table as [|[p r] table IH]; intros names Ht; [done|].
  destruct names as [|b names]; [done|]. cbn in Ht. injection Ht as -> Ht.
  cbn [first_match strip_prefix]. rewrite (proj2 (Z.eqb_neq section_sign c)) by congruence. by eapply IH.
Qed.

(** The names of the atoms, read off the map. *)
Definition atom_names : list text :=
  map (λ kv, match snd kv with _ :: a => removelast a | [] => [] end) _ENCODE_MAP.

Lemma decode_map_atoms : atoms_table atom_names _DECODE_MAP.
Proof.
  split_and!; [reflexivity| |by repeat constructor].
  apply (bool_decide_unpack _). vm_compute. done.
Qed.

Lemma encode_map_entry k v : (k, v) ∈ _ENCODE_MAP →
  ∃ a, v = section_sign :: a ++ [section_sign] ∧ no_sign a = true ∧ (v, k) ∈ _DECODE_MAP.
Proof.
  intros Hin.
  assert (Hd : (v, k) ∈ _DECODE_MAP) by (apply list_elem_of_fmap; by exists (k, v)).
  assert (Hv : v ∈ _DECODE_MAP.*1) by (apply list_elem_of_fmap; by exists (v, k)).
  destruct decode_map_atoms as (Ht & _ & Hn). rewrite Ht in Hv.
  apply list_elem_of_fmap in Hv as (a & -> & Ha). rewrite Forall_forall in Hn.
  exists a. split_and!; [done|by apply Hn|done].
Qed.

(** ** Properties *)

(** Decoding undoes encoding character by character when the text has no
    section sign of its own. *)
Lemma decode_undoes_encode (s : text) :
  no_sign s = true → subst _DECODE_MAP (subst _ENCODE_MAP s) = s.
Proof.
  induction s as [s IH] using (induction_ltof1 _ (@length Z)). unfold ltof in IH. intros Hs.
  destruct s as [|c s]; [done|].
  destruct (first_match _ENCODE_MAP (c :: s)) as [[r rest]|] eqn:E.
  - rewrite (subst_match _ _ _ _ encode_map_literals E).
    pose proof E as (p & Hp & Hcs)%first_match_elem.
    destruct (encode_map_entry _ _ Hp) as (a & -> & Ha & Hd).
    cbn [app]. rewrite <- app_assoc. cbn [app].
    rewrite (subst_match _ _ p (subst _ENCODE_MAP rest) decode_map_literals)
      by (by apply (first_match_atom _ _ _ _ _ decode_map_atoms)).
    rewrite Hcs. f_equal. pose proof encode_map_literals as Hl. rewrite Forall_forall in Hl.
    specialize (Hl _ Hp). apply IH.
    + rewrite Hcs, length_app. destruct p; [done|simpl; lia].
    + rewrite Hcs in Hs. unfold no_sign in *. rewrite forallb_app in Hs. by apply andb_prop in Hs as [_ ?].
  - rewrite (subst_plain _ _ _ E). simpl in Hs. apply andb_prop in Hs as [Hc Hs].
    apply negb_true_iff, Z.eqb_neq in Hc.
    rewrite (subst_plain _ c) by (by apply (first_match_no_sign _ _ _ _ decode_map_atoms)).
    f_equal. apply IH; [simpl; lia|done].
Qed.

(** Round trip: decoding an encoded text returns the text, for every text
    without a section sign. *)
Theorem lambda_roundtrip (s : text) : no_sign s = true → decode (encode s) = Ret s.
Proof.
  intros Hs. unfold decode, encode. rewrite strip_prefix_app. f_equal.
  exact (decode_undoes_encode s Hs).
Qed.

Lemma lambda_roundtrip_witness :
  decode (encode (token "jsonrpc" ++ lit ":" ++ token "2.0")) = Ret (token "jsonrpc" ++ lit ":" ++ token "2.0").
Proof. apply lambda_roundtrip. reflexivity. Defined.

(** The round trip fails on a JSON string that spells an atom: a section
    sign is an ordinary character of a JSON string, and the decoder replaces the
    spelled atom by the quoted token, so a string value `§Id§` comes back as
    `"id"` between two more quotation marks. *)
Theorem lambda_spelled_atom_corrupted (k v : text) : (k, v) ∈ _ENCODE_MAP →
  decode (encode ([quotation_mark] ++ v ++ [quotation_mark]))
  = Ret ([quotation_mark] ++ k ++ [quotation_mark]).
Proof.
  assert (H : Forall (λ kv, decode (encode ([quotation_mark] ++ snd kv ++ [quotation_mark]))
                = Ret ([quotation_mark] ++ fst kv ++ [quotation_mark])) _ENCODE_MAP)
    by (repeat constructor; vm_compute; reflexivity).
  intros Hin. rewrite Forall_forall in H. exact (H _ Hin).
Qed.

Lemma lambda_spelled_atom_corrupted_witness :
  decode (encode ([quotation_mark] ++ atom "Id" ++ [quotation_mark]))
  = Ret ([quotation_mark] ++ token "id" ++ [quotation_mark]).
Proof. apply (lambda_spelled_atom_corrupted (token "id") (atom "Id")). do 5 right. left. Defined.
