(* ===== verification/Compression.v ===== *)
(** * Compression of bodies

    `src/src/asap/transport/compression.py` without the negotiation of
    `select_best_encoding`.  The compressors themselves (zlib, the optional
    brotli package) are a parameter, [Codecs], with the law that decompression
    undoes compression. *)

From Stdlib Require Import ZArith Lia Ascii String.
From stdpp Require Import base tactics list strings.
From S2P Require Import Prelude PyValue Digest.
Open Scope string_scope.
Open Scope Z_scope.

Abbreviation bytes := (list Z).

Definition COMPRESSION_THRESHOLD : Z := 1024.
Definition GZIP_COMPRESSION_LEVEL : Z := 6.

Inductive CompressionAlgorithm : Type := GZIP | BROTLI | IDENTITY.

#[export] Instance CompressionAlgorithm_eq_dec : EqDecision CompressionAlgorithm.
Proof. solve_decision. Defined.

Definition algorithm_value (a : CompressionAlgorithm) : string :=
  match a with GZIP => "gzip" | BROTLI => "br" | IDENTITY => "identity" end.

(** What the code distinguishes of the exceptions of the compressors. *)
Inductive codec_error : Type :=
| CodecValueError (msg : string)
| CodecOSError (msg : string)
| CodecEOFError (msg : string)
| CodecImportError
| CodecOther (msg : string).

(** The compressors: `gzip`, and the brotli package when it is installed. *)
Class Codecs : Type := {
  brotli_installed : bool;
  gzip_compress : Z → bytes → res codec_error bytes;
  gzip_decompress : bytes → res codec_error bytes;
  brotli_compress : Z → bytes → res codec_error bytes;
  brotli_decompress : bytes → res codec_error bytes
}.

(** Decompression undoes compression, as both formats promise. *)
Class CodecLaws `{Codecs} : Prop := {
  gzip_inverse : ∀ lvl d c, gzip_compress lvl d = Ret c → gzip_decompress c = Ret d;
  brotli_inverse : ∀ q d c, brotli_compress q d = Ret c → brotli_decompress c = Ret d
}.

Section Compression.
  Context `{Codecs}.

Definition is_brotli_available : bool := brotli_installed.

Definition get_supported_encodings : list string :=
  if is_brotli_available then ["br"; "gzip"] else ["gzip"].

Definition get_accept_encoding_header : string := joined ", " (get_supported_encodings ++ ["identity"])%list.

Definition compress_gzip (data : bytes) : res codec_error bytes := gzip_compress GZIP_COMPRESSION_LEVEL data.
Definition decompress_gzip (data : bytes) : res codec_error bytes := gzip_decompress data.

Definition compress_brotli (data : bytes) : res codec_error bytes :=
  if brotli_installed then brotli_compress 4 data else Raise CodecImportError.

(** An error of the package becomes an `OSError`. *)
Definition decompress_brotli (data : bytes) : res codec_error bytes :=
  if brotli_installed then
    match brotli_decompress data with
    | Raise (CodecOther msg) => Raise (CodecOSError ("Brotli decompression failed: " ++ msg))
    | r => r
    end
  else Raise CodecImportError.

Definition size (d : bytes) : Z := Z.of_nat (length d).

(** The attempt with the chosen algorithm; [None]: the package is missing. *)
Definition try_compress (data : bytes) (algorithm : CompressionAlgorithm) :
    option (bytes * CompressionAlgorithm) :=
  match (if decide (algorithm = BROTLI) then compress_brotli data else compress_gzip data) with
  | Ret compressed =>
      if size data <=? size compressed then Some (data, IDENTITY) else Some (compressed, algorithm)
  | Raise CodecImportError => None
  | Raise _ => Some (data, IDENTITY)
  end.

Definition choose_algorithm (preferred : option CompressionAlgorithm) (prefer_fast : bool) : CompressionAlgorithm :=
  match preferred with
  | Some a => a
  | None => if prefer_fast || negb is_brotli_available then GZIP else BROTLI
  end.

(** One pass of `compress_payload`; [None]: it calls itself with gzip. *)
Definition compress_once (data : bytes) (preferred : option CompressionAlgorithm) (threshold : Z)
    (prefer_fast : bool) : option (bytes * CompressionAlgorithm) :=
  if size data <? threshold then Some (data, IDENTITY)
  else
    let algorithm := choose_algorithm preferred prefer_fast in
    if decide (algorithm = IDENTITY) then Some (data, IDENTITY) else try_compress data algorithm.

(** An empty body that is not below the threshold divides by its size, which
    the code catches. *)
Definition compress_payload (data : bytes) (preferred : option CompressionAlgorithm) (threshold : Z)
    (prefer_fast : bool) : bytes * CompressionAlgorithm :=
  match compress_once data preferred threshold prefer_fast with
  | Some r => r
  | None => default (data, IDENTITY) (compress_once data (Some GZIP) threshold false)
  end.

Definition decompress_payload (data : bytes) (encoding : string) : res codec_error bytes :=
  let encoding_lower := PyStr.strip (PyStr.lower encoding) in
  if str_in encoding_lower ["identity"; ""] then Ret data
  else
    let r :=
      if String.eqb encoding_lower "gzip" then decompress_gzip data
      else if String.eqb encoding_lower "br" then
        if negb is_brotli_available then
          Raise (CodecValueError ("Brotli decompression requested but brotli package is not installed. "
                                  ++ "Install with: pip install brotli"))
        else decompress_brotli data
      else Raise (CodecValueError ("Unsupported Content-Encoding: " ++ encoding
                                   ++ ". Supported: gzip, br, identity")) in
    match r with
    | Raise CodecImportError =>
        Raise (CodecValueError ("Cannot decompress " ++ encoding ++ ": required package not installed. "))
    | r => r
    end.

(** ** Properties *)

(** What the compressor attempts either leaves the data or is undone by the
    decompressor, and is never longer. *)
Definition faithful (data : bytes) (out : bytes * CompressionAlgorithm) : Prop :=
  decompress_payload (fst out) (algorithm_value (snd out)) = Ret data ∧ size (fst out) <= size data.

Lemma identity_faithful data : faithful data (data, IDENTITY).
Proof. split; [reflexivity|]. simpl. lia. Qed.

Lemma try_compress_faithful `{!CodecLaws} data algorithm out :
  algorithm ≠ IDENTITY → try_compress data algorithm = Some out → faithful data out.
Proof.
  unfold try_compress. intros Ha Hout.
  destruct (decide (algorithm = BROTLI)) as [->|Hg].
  - unfold compress_brotli in Hout. destruct brotli_installed eqn:Hb; [|done].
    destruct (brotli_compress 4 data) as [[]|c] eqn:E; simplify_eq; try apply identity_faithful.
    destruct (size data <=? size c) eqn:Hs; simplify_eq; [apply identity_faithful|].
    split; [|simpl; reflect; lia]. cbn [fst snd algorithm_value]. unfold decompress_payload.
    change (PyStr.strip (PyStr.lower "br")) with "br". cbn -[decompress_brotli is_brotli_available].
    unfold is_brotli_available, decompress_brotli. rewrite Hb. cbn.
    by rewrite (brotli_inverse _ _ _ E).
  - assert (algorithm = GZIP) as -> by (by destruct algorithm).
    unfold compress_gzip in Hout.
    destruct (gzip_compress GZIP_COMPRESSION_LEVEL data) as [[]|c] eqn:E; simplify_eq;
      try apply identity_faithful.
    destruct (size data <=? size c) eqn:Hs; simplify_eq; [apply identity_faithful|].
    split; [|simpl; reflect; lia]. cbn [fst snd algorithm_value]. unfold decompress_payload.
    change (PyStr.strip (PyStr.lower "gzip")) with "gzip". cbn -[decompress_gzip]. unfold decompress_gzip.
    by rewrite (gzip_inverse _ _ _ E).
Qed.

Lemma compress_once_faithful `{!CodecLaws} data preferred threshold fast out :
  compress_once data preferred threshold fast = Some out → faithful data out.
Proof.
  unfold compress_once. destruct (size data <? threshold); [intros [= <-]; apply identity_faithful|].
  destruct (decide _) as [?|Hi]; [intros [= <-]; apply identity_faithful|].
  by apply try_compress_faithful.
Qed.

(** Round trip: whatever the preference, threshold and installed packages,
    decompressing a payload under the encoding that compression reports returns
    the original bytes, and the payload sent is never longer than the original. *)
Theorem compression_roundtrip `{!CodecLaws} (data : bytes) (preferred : option CompressionAlgorithm)
    (threshold : Z) (fast : bool) :
  let out := compress_payload data preferred threshold fast in
  decompress_payload (fst out) (algorithm_value (snd out)) = Ret data ∧ size (fst out) <= size data.
Proof.
  cbv zeta. unfold compress_payload. destruct (compress_once data preferred threshold fast) eqn:E.
  - exact (compress_once_faithful _ _ _ _ _ E).
  - destruct (compress_once data (Some GZIP) threshold false) eqn:E2;
      [exact (compress_once_faithful _ _ _ _ _ E2)|]. apply identity_faithful.
Qed.

End Compression.

(** A toy compressor that satisfies the laws: a run of zeros becomes its length. *)
Module ToyCodec.
Definition squeeze (d : bytes) : bytes :=
  if decide (d = replicate (length d) 0) then [Z.of_nat (length d)] else -1 :: d.
Definition unsqueeze (d : bytes) : res codec_error bytes :=
  match d with
  | -1 :: d' => Ret d'
  | [n] => if 0 <=? n then Ret (replicate (Z.to_nat n) 0) else Raise (CodecOSError "bad data")
  | _ => Raise (CodecEOFError "truncated")
  end.
#[local] Instance toy : Codecs :=
  {| brotli_installed := false; gzip_compress := λ _ d, Ret (squeeze d); gzip_decompress := unsqueeze;
     brotli_compress := λ _ d, Ret (squeeze d); brotli_decompress := unsqueeze |}.

Lemma unsqueeze_squeeze d : unsqueeze (squeeze d) = Ret d.
Proof.
  unfold squeeze. case_decide as Hd; [|done]. unfold unsqueeze.
  destruct (Z.of_nat (length d)) as [|p|p] eqn:E; try lia.
  - by destruct d.
  - change (0 <=? Z.pos p) with true. rewrite <- E, Nat2Z.id. by rewrite <- Hd.
Qed.

#[local] Instance toy_laws : CodecLaws.
Proof. split; intros x d c [= <-]; apply unsqueeze_squeeze. Qed.

Lemma compression_roundtrip_witness :
  decompress_payload (fst (compress_payload (replicate 2000 0) None COMPRESSION_THRESHOLD false))
    (algorithm_value (snd (compress_payload (replicate 2000 0) None COMPRESSION_THRESHOLD false)))
  = Ret (replicate 2000 0)
  ∧ snd (compress_payload (replicate 2000 0) None COMPRESSION_THRESHOLD false) = GZIP.
Proof.
  split; [|vm_compute; reflexivity].
  exact (proj1 (compression_roundtrip (replicate 2000 0) None COMPRESSION_THRESHOLD false)).
Defined.
End ToyCodec.
