(* ===== verification/Metering.v ===== *)
(** * Usage metering

    `src/src/asap/economics/hooks.py`, `economics/metering.py`, the in-memory
    half of `economics/storage.py` and `state/metering.py`: what a finished task
    records, the two stores and the bridge between them, filters, aggregation
    and retention.  Timestamps are datetimes with any offset or none, as the
    models accept them, and comparing a naive with an aware one raises; averages
    are exact quotients. *)

From Stdlib Require Import ZArith QArith Qround Lia Ascii String.
From stdpp Require Import base tactics list gmap strings sorting.
From S2P Require Import Prelude PyValue Digest IsoText Identity ReplayGuard EnvelopeGuard AuditChain Errors.
Open Scope string_scope.
Open Scope Z_scope.
Open Scope asap_scope.

(** ** Dates *)
Definition same_kind (a b : pydatetime) : bool :=
  match a, b with Naive _, Naive _ | Aware _ _, Aware _ _ => true | _, _ => false end.

Definition mixed_dates : pyexn := TypeError "can't compare offset-naive and offset-aware datetimes".

(** `a < b` *)
Definition dt_lt (a b : pydatetime) : res pyexn bool :=
  if same_kind a b then Ret (to_utc a <? to_utc b) else Raise mixed_dates.

(** The dates are all naive or all aware. *)
Definition one_kind (ds : list pydatetime) : bool :=
  match ds with [] => true | d :: ds => forallb (same_kind d) ds end.

(** `min(ds)` and `max(ds)`: the first of the extreme elements. *)
Definition dt_pick (better : pydatetime → pydatetime → bool) (ds : list pydatetime) : res pyexn pydatetime :=
  match ds with
  | [] => Raise (ValueError "min() iterable argument is empty")
  | d :: rest => if one_kind ds then Ret (fold_left (λ acc x, if better x acc then x else acc) rest d) else Raise mixed_dates
  end.
Definition dt_min : list pydatetime → res pyexn pydatetime := dt_pick (λ x acc, to_utc x <? to_utc acc).
Definition dt_max : list pydatetime → res pyexn pydatetime := dt_pick (λ x acc, to_utc acc <? to_utc x).

Section SortBy.
  Context {A : Type} (key : A → pydatetime).

Definition dt_order (a b : A) : Prop := to_utc (key a) <= to_utc (key b).
#[export] Instance dt_order_dec a b : Decision (dt_order a b).
Proof. unfold dt_order. apply _. Defined.

(** `sorted(l, key=key)` *)
Definition sorted_by (l : list A) : res pyexn (list A) :=
  if one_kind (map key l) then Ret (PySort.sorted dt_order l) else Raise mixed_dates.
End SortBy.

(** ** Data *)
Module State.
Record UsageMetrics : Type := mkMetrics {
  tokens_in : Z; tokens_out : Z; duration_ms : Z; api_calls : Z
}.
Record UsageEvent : Type := mkEvent {
  task_id : string; agent_id : string; consumer_id : string;
  metrics : UsageMetrics; timestamp : pydatetime
}.
Record UsageAggregate : Type := mkAggregate {
  ag_agent_id : string; ag_period : string; total_tokens : Z; total_duration : Z;
  total_tasks : Z; total_api_calls : Z
}.
End State.

Record UsageMetrics : Type := mkUsage {
  u_task_id : string; u_agent_id : string; u_consumer_id : string;
  u_tokens_in : Z; u_tokens_out : Z; u_duration_ms : Z; u_api_calls : Z;
  u_timestamp : pydatetime
}.

Definition to_usage_event (u : UsageMetrics) : State.UsageEvent :=
  State.mkEvent (u_task_id u) (u_agent_id u) (u_consumer_id u)
    (State.mkMetrics (u_tokens_in u) (u_tokens_out u) (u_duration_ms u) (u_api_calls u)) (u_timestamp u).

Definition from_usage_event (e : State.UsageEvent) : UsageMetrics :=
  mkUsage (State.task_id e) (State.agent_id e) (State.consumer_id e)
    (State.tokens_in (State.metrics e)) (State.tokens_out (State.metrics e))
    (State.duration_ms (State.metrics e)) (State.api_calls (State.metrics e)) (State.timestamp e).

Record UsageAggregateByAgent : Type := mkByAgent {
  ba_agent_id : string; ba_period : string; ba_total_tokens : Z; ba_total_duration_ms : Z;
  ba_total_tasks : Z; ba_total_api_calls : Z; ba_avg_tokens : Q; ba_avg_duration : Q
}.
Record UsageAggregateByConsumer : Type := mkByConsumer {
  bc_consumer_id : string; bc_period : string; bc_total_tokens : Z; bc_total_duration_ms : Z;
  bc_total_tasks : Z; bc_total_api_calls : Z; bc_avg_tokens : Q
}.
Record UsageAggregateByPeriod : Type := mkByPeriod {
  bp_period : string; bp_total_tokens : Z; bp_total_duration_ms : Z; bp_total_tasks : Z;
  bp_total_api_calls : Z; bp_unique_agents : Z; bp_unique_consumers : Z
}.
Inductive UsageAggregate : Type :=
| ByAgent (a : UsageAggregateByAgent)
| ByConsumer (a : UsageAggregateByConsumer)
| ByPeriod (a : UsageAggregateByPeriod).

Record UsageSummary : Type := mkSummary {
  su_total_tasks : Z; su_total_tokens : Z; su_total_duration_ms : Z;
  su_unique_agents : Z; su_unique_consumers : Z; su_total_api_calls : Z
}.
Record StorageStats : Type := mkStats {
  st_total_events : Z; st_oldest_timestamp : option pydatetime; st_retention_ttl_seconds : option Z
}.

(** ** Recording a finished task *)

(** `_safe_int(value)` with default 0; `int` of an infinite float raises an
    `OverflowError` that the function does not catch. *)
Definition _safe_int (value : json) : res pyexn Z :=
  match value with
  | JNull => Ret 0
  | JBool b => Ret (if b then 1 else 0)
  | JInt z => Ret (if 0 <=? z then z else 0)
  | JFloat _ | JStr _ =>
      match PyInt.of_json value with
      | Ret n => Ret (if 0 <=? n then n else 0)
      | Raise (OverflowError m) => Raise (OverflowError m)
      | Raise _ => Ret 0
      end
  | _ => Ret 0
  end.

(** `round(x)`: to the nearest integer, ties to the even one. *)
Definition py_round (q : Q) : Z :=
  let f := Qfloor q in
  match Qcompare (q - inject_Z f) (1 # 2) with
  | Lt => f
  | Gt => f + 1
  | Eq => if Z.even f then f else f + 1
  end.

Section Hook.
  Context `{PyRuntime}.

(** The fields an agent reports in `metrics`. *)
Definition reported (metrics_dict : json) : res pyexn (Z * Z * Z) :=
  match metrics_dict with
  | JObj m =>
      let! tokens_in := _safe_int (j_get "tokens_in" m) in
      let! tokens_out := _safe_int (j_get "tokens_out" m) in
      let! tokens_out := if tokens_out =? 0 then _safe_int (j_get "tokens_used" m) else Ret tokens_out in
      let! api_calls := _safe_int (j_get "api_calls" m) in
      Ret (tokens_in, tokens_out, api_calls)
  | _ => Ret (0, 0, 0)
  end.

(** The event `record_task_usage` records, if any. *)
Definition usage_of_task (now : Z) (envelope response_envelope : Envelope) (duration_ms : Q)
    (manifest_id : string) : res pyexn (option UsageMetrics) :=
  if negb (String.eqb (e_payload_type envelope) "task.request") then Ret None
  else if negb (String.eqb (e_payload_type response_envelope) "task.response") then Ret None
  else
    let payload := default [] (as_obj (e_payload response_envelope)) in
    let task_id := j_get "task_id" payload in
    if negb (j_truthy task_id) then Ret None
    else
      let! r := reported (j_get "metrics" payload) in
      let '(tokens_in, tokens_out, api_calls) := r in
      let duration_ms_int := Z.max 0 (py_round duration_ms) in
      Ret (Some (mkUsage (py_str float_repr task_id) manifest_id (e_sender envelope)
                   tokens_in tokens_out duration_ms_int api_calls (Aware now 0))).

(** `record_task_usage` over the in-memory store of the state layer. *)
Definition record_task_usage (now : Z) (envelope response_envelope : Envelope) (duration_ms : Q)
    (manifest_id : string) (store : list State.UsageEvent) : list State.UsageEvent * res pyexn unit :=
  match usage_of_task now envelope response_envelope duration_ms manifest_id with
  | Raise e => (store, Raise e)
  | Ret None => (store, Ret tt)
  | Ret (Some usage) => ((store ++ [to_usage_event usage])%list, Ret tt)
  end.
End Hook.

(** ** Queries and filters *)
Record MeteringQuery : Type := mkQuery {
  q_agent_id : option string; q_consumer_id : option string; q_task_id : option string;
  q_start : option pydatetime; q_end : option pydatetime; q_limit : option Z; q_offset : Z
}.

Definition opt_eqb (o : option string) (s : string) : bool :=
  match o with None => true | Some t => String.eqb s t end.

(** The conditions are read from left to right until one fails. *)
Definition _matches (f : MeteringQuery) (e : UsageMetrics) : res pyexn bool :=
  if negb (opt_eqb (q_agent_id f) (u_agent_id e) && opt_eqb (q_consumer_id f) (u_consumer_id e)
           && opt_eqb (q_task_id f) (u_task_id e)) then Ret false
  else
    let! begun := match q_start f with None => Ret true | Some t => dt_le t (u_timestamp e) end in
    if negb begun then Ret false
    else match q_end f with None => Ret true | Some t => dt_le (u_timestamp e) t end.

(** `l[offset:]` and `l[:limit]` for the non-negative values the query admits. *)
Definition paged (filters : MeteringQuery) (filtered : list UsageMetrics) : list UsageMetrics :=
  let out := drop (Z.to_nat (q_offset filters)) filtered in
  match q_limit filters with
  | None => out
  | Some l => if l =? 0 then out else take (Z.to_nat l) out
  end.

Definition _apply_query_filters (events : list UsageMetrics) (filters : MeteringQuery) :
    res pyexn (list UsageMetrics) :=
  let! matching := filter_res (_matches filters) events in
  let! filtered := sorted_by u_timestamp matching in
  Ret (paged filters filtered).

(** ** Aggregation *)

(** `d.setdefault(key(e), []).append(e)` over the events. *)
Definition group_by {E} (key : E → string) (events : list E) : list (string * list E) :=
  fold_left (λ d e, PyDict.set (key e) (default [] (PyDict.get (key e) d) ++ [e])%list d) events [].

Definition sum_of {E} (f : E → Z) (events : list E) : Z := foldr (λ e acc, f e + acc) 0 events.

Definition tokens (e : UsageMetrics) : Z := u_tokens_in e + u_tokens_out e.

(** The number of distinct values. *)
Definition unique (f : UsageMetrics → string) (events : list UsageMetrics) : Z :=
  Z.of_nat (base.size (list_to_set (C := gset string) (f <$> events))).

Definition average (total n : Z) : Q := if n =? 0 then 0 else inject_Z total / inject_Z n.

Definition agent_row (agent_id : string) (es : list UsageMetrics) : UsageAggregateByAgent :=
  let total_tasks := Z.of_nat (length es) in
  mkByAgent agent_id "all" (sum_of tokens es) (sum_of u_duration_ms es) total_tasks (sum_of u_api_calls es)
    (average (sum_of tokens es) total_tasks) (average (sum_of u_duration_ms es) total_tasks).

Definition consumer_row (consumer_id : string) (es : list UsageMetrics) : UsageAggregateByConsumer :=
  let total_tasks := Z.of_nat (length es) in
  mkByConsumer consumer_id "all" (sum_of tokens es) (sum_of u_duration_ms es) total_tasks
    (sum_of u_api_calls es) (average (sum_of tokens es) total_tasks).

Definition period_row (period : string) (es : list UsageMetrics) : UsageAggregateByPeriod :=
  mkByPeriod period (sum_of tokens es) (sum_of u_duration_ms es) (Z.of_nat (length es))
    (sum_of u_api_calls es) (unique u_agent_id es) (unique u_consumer_id es).

(** The groups in the order of their keys; the keys of a dictionary differ. *)
Definition key_order {A} (a b : string * A) : Prop := String.leb (fst a) (fst b) = true.
#[export] Instance key_order_dec {A} (a b : string * A) : Decision (key_order a b).
Proof. unfold key_order. apply _. Defined.

Definition rows {A} (row : string → list UsageMetrics → A) (key : UsageMetrics → string)
    (events : list UsageMetrics) : list (string * A) :=
  PySort.sorted key_order (map (λ kg, (fst kg, row (fst kg) (snd kg))) (group_by key events)).

Definition _aggregate_by_agent (events : list UsageMetrics) : list UsageAggregateByAgent :=
  (rows agent_row u_agent_id events).*2.
Definition _aggregate_by_consumer (events : list UsageMetrics) : list UsageAggregateByConsumer :=
  (rows consumer_row u_consumer_id events).*2.

(** Days since 1970-01-01 of the first of January. *)
Definition january_first (y : Z) : Z :=
  let y1 := y - 1 in 365 * (y - 1970) + (y1 / 4 - 492) - (y1 / 100 - 19) + (y1 / 400 - 4).

(** `isocalendar()`: year and number of the week, which belongs to the year of
    its Thursday; 1970-01-01 was a Thursday. *)
Definition iso_week (days : Z) : Z * Z :=
  let thursday := days - (days + 3) mod 7 + 3 in
  let '(y, _, _) := civil thursday in
  (y, (thursday - january_first y) / 7 + 1).

(** `ts.date()`: the day on the wall clock of the timestamp. *)
Definition day_of (ts : pydatetime) : Z := dt_wall ts / (86400 * second).

Definition _period_key (period_format : string) (ts : pydatetime) : string :=
  if String.eqb period_format "day" then
    let '(y, m, d) := civil (day_of ts) in
    pad_dec 4 y ++ "-" ++ pad_dec 2 m ++ "-" ++ pad_dec 2 d
  else
    let '(y, w) := iso_week (day_of ts) in PyStr.dec_Z y ++ "-W" ++ pad_dec 2 w.

Definition _aggregate_by_period (events : list UsageMetrics) (period_format : string) :
    list UsageAggregateByPeriod :=
  (rows period_row (λ e, _period_key period_format (u_timestamp e)) events).*2.

Definition _compute_summary (events : list UsageMetrics) : UsageSummary :=
  match events with
  | [] => mkSummary 0 0 0 0 0 0
  | _ => mkSummary (Z.of_nat (length events)) (sum_of tokens events) (sum_of u_duration_ms events)
           (unique u_agent_id events) (unique u_consumer_id events) (sum_of u_api_calls events)
  end.

Definition _dispatch_aggregate (events : list UsageMetrics) (group_by : string) :
    res pyexn (list UsageAggregate) :=
  if String.eqb group_by "agent" then Ret (map ByAgent (_aggregate_by_agent events))
  else if String.eqb group_by "consumer" then Ret (map ByConsumer (_aggregate_by_consumer events))
  else if str_in group_by ["day"; "week"] then Ret (map ByPeriod (_aggregate_by_period events group_by))
  else Raise (ValueError ("group_by must be one of ('agent', 'consumer', 'day', 'week'); got "
                          ++ repr_str group_by)).

(** ** The in-memory storage of the economics layer *)
Module InMemoryMeteringStorage.

Record t : Type := mk { events : list UsageMetrics; retention_ttl_seconds : option Z }.

Definition record (m : UsageMetrics) (s : t) : t := mk (events s ++ [m])%list (retention_ttl_seconds s).

Definition query (filters : MeteringQuery) (s : t) : res pyexn (list UsageMetrics) :=
  _apply_query_filters (events s) filters.

Definition agg_filters (f : MeteringQuery) : MeteringQuery :=
  mkQuery (q_agent_id f) (q_consumer_id f) (q_task_id f) (q_start f) (q_end f) None 0.

Definition selected (filters : option MeteringQuery) (s : t) : res pyexn (list UsageMetrics) :=
  match filters with
  | None => Ret (events s)
  | Some f => _apply_query_filters (events s) (agg_filters f)
  end.

Definition aggregate (group_by : string) (filters : option MeteringQuery) (s : t) :
    res pyexn (list UsageAggregate) :=
  let! es := selected filters s in _dispatch_aggregate es group_by.

Definition summary (filters : option MeteringQuery) (s : t) : res pyexn UsageSummary :=
  let! es := selected filters s in Ret (_compute_summary es).

Definition stats (s : t) : res pyexn StorageStats :=
  match events s with
  | [] => Ret (mkStats 0 None (retention_ttl_seconds s))
  | es =>
      let! oldest := dt_min (map u_timestamp es) in
      Ret (mkStats (Z.of_nat (length es)) (Some oldest) (retention_ttl_seconds s))
  end.

(** The cutoff is a whole second. *)
Definition cutoff (now ttl : Z) : Z :=
  let c := now - ttl * second in c - c mod second.

(** The events are replaced only once all of them have been compared. *)
Definition purge_expired (now : Z) (s : t) : t * res pyexn Z :=
  match retention_ttl_seconds s with
  | None => (s, Ret 0)
  | Some ttl =>
      match filter_res (λ e, dt_le (Aware (cutoff now ttl) 0) (u_timestamp e)) (events s) with
      | Raise x => (s, Raise x)
      | Ret kept => (mk kept (Some ttl), Ret (Z.of_nat (length (events s)) - Z.of_nat (length kept)))
      end
  end.

End InMemoryMeteringStorage.

(** ** The in-memory store of the state layer *)
Module InMemoryMeteringStore.

Abbreviation t := (list State.UsageEvent).

Definition record (e : State.UsageEvent) (s : t) : t := (s ++ [e])%list.

(** `e.agent_id == agent_id and start <= e.timestamp <= end` *)
Definition in_window (agent_id : string) (start end_ : pydatetime) (e : State.UsageEvent) : res pyexn bool :=
  if negb (String.eqb (State.agent_id e) agent_id) then Ret false
  else
    let! begun := dt_le start (State.timestamp e) in
    if negb begun then Ret false else dt_le (State.timestamp e) end_.

(** The end of a slice may be negative when the limit is. *)
Definition query (agent_id : string) (start end_ : pydatetime) (limit : option Z) (offset : Z) (s : t) :
    res pyexn (list State.UsageEvent) :=
  if offset <? 0 then Raise (ValueError "offset must be non-negative")
  else
    let! matching := filter_res (in_window agent_id start end_) s in
    let! out := sorted_by State.timestamp matching in
    Ret match limit with
        | None => drop (Z.to_nat offset) out
        | Some l =>
            let stop := offset + l in
            let stop := if stop <? 0 then Z.max 0 (stop + Z.of_nat (length out)) else stop in
            take (Z.to_nat (stop - offset)) (drop (Z.to_nat offset) out)
        end.

Definition aggregate (agent_id period : string) (s : t) : State.UsageAggregate :=
  let es := filter (λ e, State.agent_id e = agent_id) s in
  State.mkAggregate agent_id period
    (sum_of (λ e, State.tokens_in (State.metrics e) + State.tokens_out (State.metrics e)) es)
    (sum_of (λ e, State.duration_ms (State.metrics e)) es) (Z.of_nat (length es))
    (sum_of (λ e, State.api_calls (State.metrics e)) es).

End InMemoryMeteringStore.

(** ** The bridge: the economics storage seen as a state store *)
Module MeteringStorageBridge.

Definition record (e : State.UsageEvent) (s : InMemoryMeteringStorage.t) : InMemoryMeteringStorage.t :=
  InMemoryMeteringStorage.record (from_usage_event e) s.

Definition query (agent_id : string) (start end_ : pydatetime) (limit : option Z) (offset : Z)
    (s : InMemoryMeteringStorage.t) : res pyexn (list State.UsageEvent) :=
  let! events :=
    InMemoryMeteringStorage.query (mkQuery (Some agent_id) None None (Some start) (Some end_) limit offset) s in
  Ret (map to_usage_event events).

Definition hour : Z := 3600 * second.
Definition _period_to_metering_query (now : Z) (agent_id period : string) : MeteringQuery :=
  let window start := mkQuery (Some agent_id) None None (Some (Aware start 0)) (Some (Aware now 0)) None 0 in
  if str_in period ["hour"; "h"] then window (now - hour)
  else if str_in period ["day"; "d"; "today"] then window (now - now mod (24 * hour))
  else if str_in period ["week"; "w"] then window (now - 7 * 24 * hour)
  else mkQuery (Some agent_id) None None None None None 0.

Fixpoint find_agent (agent_id : string) (aggs : list UsageAggregate) : option UsageAggregateByAgent :=
  match aggs with
  | [] => None
  | ByAgent a :: aggs' => if String.eqb (ba_agent_id a) agent_id then Some a else find_agent agent_id aggs'
  | _ :: aggs' => find_agent agent_id aggs'
  end.

Definition aggregate (now : Z) (agent_id period : string) (s : InMemoryMeteringStorage.t) :
    res pyexn State.UsageAggregate :=
  let filters := _period_to_metering_query now agent_id period in
  let! aggs := InMemoryMeteringStorage.aggregate "agent" (Some filters) s in
  Ret match find_agent agent_id aggs with
      | Some a => State.mkAggregate (ba_agent_id a) period (ba_total_tokens a) (ba_total_duration_ms a)
                    (ba_total_tasks a) (ba_total_api_calls a)
      | None => State.mkAggregate agent_id period 0 0 0 0
      end.

End MeteringStorageBridge.

(** ** Grouping *)
Section Grouping.
  Context {E : Type} (key : E → string).
  Implicit Types (d : list (string * list E)) (es : list E).

Definition add_event d (e : E) := PyDict.set (key e) (default [] (PyDict.get (key e) d) ++ [e])%list d.

Lemma group_wf d es : PyDict.wf d → PyDict.wf (fold_left add_event es d).
Proof. revert d. induction es as [|e es IH]; intros d Hd; simpl; [done|]. apply IH. by apply PyDict.wf_set. Qed.

(** A group holds the events of its key, in their order. *)
Lemma group_get d es k :
  default [] (PyDict.get k (fold_left add_event es d))
  = (default [] (PyDict.get k d) ++ filter (λ e, key e = k) es)%list.
Proof.
  revert d. induction es as [|e es IH]; intros d; simpl; [by rewrite filter_nil, app_nil_r|].
  rewrite IH, filter_cons. unfold add_event. case_decide as Hk.
  - subst k. rewrite PyDict.get_set_eq. simpl. by rewrite <- app_assoc.
  - by rewrite PyDict.get_set_ne by done.
Qed.

Lemma group_present d es k :
  PyDict.get k (fold_left add_event es d) ≠ None ↔ PyDict.get k d ≠ None ∨ k ∈ key <$> es.
Proof.
  revert d. induction es as [|e es IH]; intros d; simpl.
  - split; [by left|]. by intros [?|?%elem_of_nil].
  - rewrite IH, elem_of_cons. unfold add_event. destruct (decide (k = key e)) as [->|Hne].
    + rewrite PyDict.get_set_eq. split; [intros _; right; by left|by left].
    + rewrite PyDict.get_set_ne by done. split; [intros [?|?]; auto|]. intros [?|[?|?]]; auto; done.
Qed.

(** The events of all groups add up to all events. *)
Lemma group_total (f : E → Z) d es :
  sum_of (λ kg, sum_of f (snd kg)) (fold_left add_event es d)
  = sum_of (λ kg, sum_of f (snd kg)) d + sum_of f es.
Proof.
  assert (Hadd : ∀ d e, sum_of (λ kg, sum_of f (snd kg)) (add_event d e)
    = sum_of (λ kg, sum_of f (snd kg)) d + f e).
  { clear. intros d e. unfold add_event, sum_of. induction d as [|[k g] d IH]; simpl; [lia|].
    case_decide; simpl; [|lia]. rewrite foldr_app. simpl. clear.
    enough (∀ a, foldr (λ e acc, f e + acc) a g = foldr (λ e acc, f e + acc) 0 g + a) as Hg.
    { rewrite (Hg (f e + 0)). lia. }
    intros a. induction g as [|x g IH]; simpl; [lia|]. rewrite IH. lia. }
  revert d. induction es as [|e es IH]; intros d; cbn [fold_left]; [simpl; lia|].
  rewrite IH, Hadd. cbn [sum_of foldr]. fold (sum_of f es). lia.
Qed.

Lemma elem_of_groups es k g :
  (k, g) ∈ group_by key es ↔ k ∈ key <$> es ∧ g = filter (λ e, key e = k) es.
Proof.
  unfold group_by. change (λ d e, PyDict.set (key e) _ d) with add_event.
  pose proof (group_wf [] es PyDict.wf_nil) as Hwf. pose proof (group_get [] es k) as Hg.
  pose proof (group_present [] es k) as Hp. simpl in Hg, Hp. split.
  - intros Hin%(PyDict.elem_get _ _ _ Hwf). rewrite Hin in Hg, Hp. simpl in Hg. split; [|done].
    destruct (proj1 Hp) as [?|?]; done.
  - intros [Hk ->]. apply PyDict.get_Some_elem. destruct (PyDict.get k _) as [g|] eqn:E2.
    + simpl in Hg. by subst.
    + destruct (proj2 Hp (or_intror Hk)). done.
Qed.
End Grouping.

Lemma sum_of_Permutation {E} (f : E → Z) (l m : list E) : l ≡ₚ m → sum_of f l = sum_of f m.
Proof. unfold sum_of. induction 1; simpl; lia. Qed.

Lemma sum_of_map {E F} (f : F → Z) (g : E → F) (l : list E) : sum_of f (map g l) = sum_of (λ x, f (g x)) l.
Proof. unfold sum_of. induction l as [|x l IH]; simpl; [done|]. by rewrite IH. Qed.

Lemma sum_of_ext {E} (f g : E → Z) (l : list E) : (∀ x, f x = g x) → sum_of f l = sum_of g l.
Proof. intros Hf. unfold sum_of. induction l as [|x l IH]; simpl; [done|]. by rewrite Hf, IH. Qed.

(** Summing a field of the rows gives the sum over the events, when the field
    of a row is the sum over its group. *)
Lemma rows_total {A} (row : string → list UsageMetrics → A) key (field : A → Z) (f : UsageMetrics → Z) es :
  (∀ k g, field (row k g) = sum_of f g) → sum_of field (rows row key es).*2 = sum_of f es.
Proof.
  intros Hf. unfold rows. change ((?l).*2) with (map snd l). rewrite sum_of_map.
  rewrite (sum_of_Permutation _ _ _ (PySort.sorted_Permutation _ _)), sum_of_map. simpl.
  rewrite (sum_of_ext _ (λ kg, sum_of f (snd kg))) by (intros kg; apply Hf).
  unfold group_by. change (λ d e, PyDict.set (key e) _ d) with (add_event key).
  by rewrite (group_total key f [] es).
Qed.

Lemma length_sum {E} (es : list E) : Z.of_nat (length es) = sum_of (λ _, 1) es.
Proof. unfold sum_of. induction es as [|e es IH]; simpl length; cbn [foldr]; lia. Qed.

(** ** Totals of a row of any kind *)
Definition row_tokens (a : UsageAggregate) : Z :=
  match a with ByAgent x => ba_total_tokens x | ByConsumer x => bc_total_tokens x | ByPeriod x => bp_total_tokens x end.
Definition row_duration (a : UsageAggregate) : Z :=
  match a with ByAgent x => ba_total_duration_ms x | ByConsumer x => bc_total_duration_ms x
             | ByPeriod x => bp_total_duration_ms x end.
Definition row_tasks (a : UsageAggregate) : Z :=
  match a with ByAgent x => ba_total_tasks x | ByConsumer x => bc_total_tasks x | ByPeriod x => bp_total_tasks x end.
Definition row_api_calls (a : UsageAggregate) : Z :=
  match a with ByAgent x => ba_total_api_calls x | ByConsumer x => bc_total_api_calls x
             | ByPeriod x => bp_total_api_calls x end.

Lemma dispatch_total es g aggs (field : UsageAggregate → Z) (f : UsageMetrics → Z) :
  _dispatch_aggregate es g = Ret aggs →
  (∀ k l, field (ByAgent (agent_row k l)) = sum_of f l) →
  (∀ k l, field (ByConsumer (consumer_row k l)) = sum_of f l) →
  (∀ k l, field (ByPeriod (period_row k l)) = sum_of f l) →
  sum_of field aggs = sum_of f es.
Proof.
  unfold _dispatch_aggregate. intros Hd Ha Hc Hp.
  destruct (String.eqb g "agent"); [injection Hd as <-|destruct (String.eqb g "consumer");
    [injection Hd as <-|destruct (str_in g _); [injection Hd as <-|done]]];
    rewrite sum_of_map; eapply rows_total; done.
Qed.

(** Aggregation loses nothing and counts nothing twice: for every grouping
    and filter, the tokens, durations, tasks and API calls of the rows add up to
    those of the summary under the same filter. *)
Theorem aggregates_partition_usage (group : string) (filters : option MeteringQuery)
    (s : InMemoryMeteringStorage.t) (aggs : list UsageAggregate) :
  InMemoryMeteringStorage.aggregate group filters s = Ret aggs →
  ∃ sm, InMemoryMeteringStorage.summary filters s = Ret sm
  ∧ sum_of row_tokens aggs = su_total_tokens sm
  ∧ sum_of row_duration aggs = su_total_duration_ms sm
  ∧ sum_of row_tasks aggs = su_total_tasks sm
  ∧ sum_of row_api_calls aggs = su_total_api_calls sm.
Proof.
  unfold InMemoryMeteringStorage.aggregate, InMemoryMeteringStorage.summary. intros Hd.
  destruct (InMemoryMeteringStorage.selected filters s) as [x|es]; [done|]. cbn [rbind] in *.
  exists (_compute_summary es). split; [done|].
  assert (Hs : su_total_tokens (_compute_summary es) = sum_of tokens es
    ∧ su_total_duration_ms (_compute_summary es) = sum_of u_duration_ms es
    ∧ su_total_tasks (_compute_summary es) = sum_of (λ _, 1) es
    ∧ su_total_api_calls (_compute_summary es) = sum_of u_api_calls es).
  { unfold _compute_summary. destruct es; [done|]. split_and!; try done. apply length_sum. }
  destruct Hs as (-> & -> & -> & ->).
  split_and!; (eapply dispatch_total; [exact Hd|..]; try done); intros k l; apply length_sum.
Qed.

Definition usage (agent consumer : string) (tin tout ts : Z) : UsageMetrics :=
  mkUsage "t" agent consumer tin tout 10 1 (Aware ts 0).
Definition demo_storage : InMemoryMeteringStorage.t :=
  InMemoryMeteringStorage.mk [usage "a" "x" 1 2 0; usage "b" "x" 3 4 5; usage "a" "y" 5 6 7] None.

Lemma aggregates_partition_usage_witness :
  ∃ aggs, InMemoryMeteringStorage.aggregate "agent" None demo_storage = Ret aggs
    ∧ length aggs = 2%nat ∧ sum_of row_tokens aggs = 21.
Proof.
  eexists. split; [reflexivity|]. split; [reflexivity|].
  destruct (aggregates_partition_usage "agent" None demo_storage _ eq_refl) as (sm & Hs & Ht & _).
  injection Hs as <-. exact Ht.
Defined.

(** ** The two layers agree *)

(** The storage of the economics layer holds what the store of the state layer
    holds. *)
Definition mirrors (st : InMemoryMeteringStore.t) (s : InMemoryMeteringStorage.t) : Prop :=
  InMemoryMeteringStorage.events s = map from_usage_event st.

Lemma to_from_usage e : to_usage_event (from_usage_event e) = e.
Proof. by destruct e as [? ? ? [] ?]. Qed.

Lemma map_to_from st : map to_usage_event (map from_usage_event st) = st.
Proof. rewrite map_map. induction st as [|e st IH]; simpl; [done|]. by rewrite to_from_usage, IH. Qed.

Lemma filter_res_map {A B} (g : A → B) (f : B → res pyexn bool) (f' : A → res pyexn bool) l :
  (∀ x, f (g x) = f' x) → filter_res f (map g l) = rmap (map g) (filter_res f' l).
Proof.
  intros Hf. induction l as [|x l IH]; cbn [map filter_res]; [done|]. rewrite Hf, IH.
  destruct (f' x) as [|[]]; [done|..]; unfold rmap; cbn [rbind]; by destruct (filter_res f' l).
Qed.

Lemma sorted_by_map {A B} (g : A → B) (key : B → pydatetime) (key' : A → pydatetime) l :
  (∀ x, key (g x) = key' x) → sorted_by key (map g l) = rmap (map g) (sorted_by key' l).
Proof.
  intros Hk. unfold sorted_by. rewrite map_map, (map_ext _ key') by done. destruct (one_kind (map key' l)); [|done].
  unfold rmap. cbn [rbind]. f_equal. apply PySort.sorted_map. intros a b. unfold dt_order. by rewrite !Hk.
Qed.

Lemma matches_window id a b limit offset e :
  _matches (mkQuery (Some id) None None (Some a) (Some b) limit offset) (from_usage_event e)
  = InMemoryMeteringStore.in_window id a b e.
Proof. unfold _matches, InMemoryMeteringStore.in_window. cbn. rewrite !andb_true_r. done. Qed.

Lemma bridge_query_eq id a b limit offset st s : mirrors st s → 0 <= offset →
  (∀ l, limit = Some l → 0 < l) →
  InMemoryMeteringStore.query id a b limit offset st
  = MeteringStorageBridge.query id a b limit offset s.
Proof.
  intros Hm Hoff Hl. unfold InMemoryMeteringStore.query, MeteringStorageBridge.query,
    InMemoryMeteringStorage.query, _apply_query_filters. rewrite Hm.
  assert ((offset <? 0) = false) as -> by lia.
  rewrite (filter_res_map _ _ (InMemoryMeteringStore.in_window id a b)) by (intros; apply matches_window).
  destruct (filter_res _ st) as [x|es]; [done|]. unfold rmap. cbn [rbind].
  rewrite (sorted_by_map _ _ State.timestamp) by done.
  destruct (sorted_by _ es) as [x|out]; [done|]. unfold rmap. cbn [rbind]. f_equal. unfold paged. cbn [q_offset q_limit].
  rewrite skipn_map. destruct limit as [l|].
  - specialize (Hl l eq_refl). assert ((l =? 0) = false) as -> by lia.
    assert ((offset + l <? 0) = false) as -> by lia.
    rewrite firstn_map, map_to_from. f_equal. lia.
  - by rewrite map_to_from.
Qed.

Lemma find_agent_rows id es : 
  MeteringStorageBridge.find_agent id (map ByAgent (_aggregate_by_agent es))
  = if decide (id ∈ u_agent_id <$> es) then Some (agent_row id (filter (λ e, u_agent_id e = id) es)) else None.
Proof.
  unfold _aggregate_by_agent.
  assert (Hrows : ∀ k a, (k, a) ∈ rows agent_row u_agent_id es ↔
    k ∈ u_agent_id <$> es ∧ a = agent_row k (filter (λ e, u_agent_id e = k) es)).
  { intros k a. unfold rows. rewrite PySort.elem_of_sorted. split.
    - intros Hin. apply list_elem_of_fmap in Hin as ([k' g] & Heq & Hin). simpl in Heq. injection Heq as -> ->.
      apply elem_of_groups in Hin as [? ->]. done.
    - intros [Hk ->]. apply list_elem_of_fmap. exists (k, filter (λ e, u_agent_id e = k) es).
      split; [done|]. by apply elem_of_groups. }
  revert Hrows. generalize (rows agent_row u_agent_id es) as rs. intros rs Hrows.
  assert (Hsome : ∀ rs', (∀ x, x ∈ rs' → x ∈ rs) → 
    MeteringStorageBridge.find_agent id (map ByAgent (map snd rs'))
    = if decide (id ∈ map fst rs') then Some (agent_row id (filter (λ e, u_agent_id e = id) es)) else None).
  { induction rs' as [|[k a] rs' IH]; intros Hsub; [by rewrite decide_False by apply not_elem_of_nil|].
    destruct (proj1 (Hrows k a)) as [_ ->]; [apply Hsub; by left|].
    cbn [map MeteringStorageBridge.find_agent fst snd ba_agent_id agent_row].
    destruct (String.eqb k id) eqn:E.
    - apply String.eqb_eq in E as ->. by rewrite decide_True by (by left).
    - apply String.eqb_neq in E. rewrite IH by (intros x Hx; apply Hsub; by right).
      destruct (decide (id ∈ map fst rs')); [by rewrite decide_True by (by right)|].
      rewrite decide_False; [done|]. rewrite not_elem_of_cons. split; [congruence|done]. }
  change (rs.*2) with (map snd rs). rewrite Hsome by done.
  destruct (decide (id ∈ map fst rs)) as [Hin|Hin].
  - apply list_elem_of_fmap in Hin as ([k a] & -> & Hin%Hrows). by rewrite decide_True by apply Hin.
  - rewrite decide_False; [done|]. intros Hk. apply Hin. apply list_elem_of_fmap.
    exists (id, agent_row id (filter (λ e, u_agent_id e = id) es)). split; [done|]. by apply Hrows.
Qed.

Definition unbounded_period (period : string) : Prop :=
  period ∉ ["hour"; "h"; "day"; "d"; "today"; "week"; "w"].

(** The events of an agent, on either side of the bridge. *)
Lemma agent_events id st :
  filter_res (_matches (mkQuery (Some id) None None None None None 0)) (map from_usage_event st)
  = Ret (map from_usage_event (filter (λ e, State.agent_id e = id) st)).
Proof.
  rewrite (filter_res_map _ _ (λ e, Ret (String.eqb (State.agent_id e) id))).
  2:{ intros e. unfold _matches. cbn. rewrite !andb_true_r. by destruct (String.eqb _ _). }
  assert (Hf : filter_res (λ e, Ret (String.eqb (State.agent_id e) id)) st
               = Ret (filter (λ e, State.agent_id e = id) st)); [|by rewrite Hf].
  induction st as [|e st IH]; [done|]. cbn [filter_res rbind]. rewrite IH, filter_cons. cbn [rbind].
  destruct (String.eqb_spec (State.agent_id e) id); [by rewrite decide_True|by rewrite decide_False].
Qed.

(** The row of an agent adds up its events, in whatever order. *)
Lemma bridge_row id period es out : es ≡ₚ out → (∀ e, e ∈ es → State.agent_id e = id) →
  match MeteringStorageBridge.find_agent id (map ByAgent (_aggregate_by_agent (map from_usage_event out))) with
  | Some a => State.mkAggregate (ba_agent_id a) period (ba_total_tokens a) (ba_total_duration_ms a)
                (ba_total_tasks a) (ba_total_api_calls a)
  | None => State.mkAggregate id period 0 0 0 0
  end = State.mkAggregate id period
          (sum_of (λ e, State.tokens_in (State.metrics e) + State.tokens_out (State.metrics e)) es)
          (sum_of (λ e, State.duration_ms (State.metrics e)) es) (Z.of_nat (length es))
          (sum_of (λ e, State.api_calls (State.metrics e)) es).
Proof.
  intros Hperm Hall. rewrite find_agent_rows. case_decide as Hin.
  - rewrite filter_all.
    2:{ apply Forall_forall. intros u Hu. apply list_elem_of_fmap in Hu as (e & -> & He). apply Hall. by rewrite Hperm. }
    cbn. rewrite !sum_of_map, length_map. unfold tokens. cbn.
    rewrite !(sum_of_Permutation _ _ _ Hperm), (Permutation_length Hperm). done.
  - destruct es as [|e es']; [reflexivity|]. destruct Hin. apply list_elem_of_fmap.
    exists (from_usage_event e). split; [symmetry; apply Hall; by left|].
    apply list_elem_of_fmap. exists e. split; [done|]. rewrite <- Hperm. by left.
Qed.

(** The economics storage refines the state layer's store through the
    bridge: recording keeps the two in step, a query with a valid offset and
    limit answers the same events in the same order or raises the same error, and
    the aggregate of an agent over a period that names no window is the same when
    its timestamps can be compared (the bridge sorts them, the store does not). *)
Theorem metering_bridge_refines (st : InMemoryMeteringStore.t) (s : InMemoryMeteringStorage.t) :
  mirrors st s →
  (∀ e, mirrors (InMemoryMeteringStore.record e st) (MeteringStorageBridge.record e s))
  ∧ (∀ id a b limit offset, 0 <= offset → (∀ l, limit = Some l → 0 < l) →
       InMemoryMeteringStore.query id a b limit offset st
       = MeteringStorageBridge.query id a b limit offset s)
  ∧ (∀ now id period, unbounded_period period →
       one_kind (map State.timestamp (filter (λ e, State.agent_id e = id) st)) = true →
       MeteringStorageBridge.aggregate now id period s
       = Ret (InMemoryMeteringStore.aggregate id period st)).
Proof.
  intros Hm. split_and!.
  - intros e. unfold mirrors, InMemoryMeteringStore.record in *. rewrite map_app, <- Hm. done.
  - intros. by apply bridge_query_eq.
  - intros now id period Hp Hkind. unfold MeteringStorageBridge.aggregate, InMemoryMeteringStorage.aggregate,
      MeteringStorageBridge._period_to_metering_query.
    assert (Hno : ∀ l, (∀ x, x ∈ l → x ∈ ["hour"; "h"; "day"; "d"; "today"; "week"; "w"]) → str_in period l = false).
    { intros l Hl. destruct (str_in period l) eqn:E; [|done]. destruct Hp. by apply Hl, str_in_true. }
    rewrite !Hno by (intros x Hx; rewrite !elem_of_cons in *; tauto).
    cbn [InMemoryMeteringStorage.selected]. unfold InMemoryMeteringStorage.agg_filters, _apply_query_filters.
    cbn [q_agent_id q_consumer_id q_task_id q_start q_end]. rewrite Hm, agent_events. cbn [rbind].
    rewrite (sorted_by_map _ _ State.timestamp) by done. unfold sorted_by. rewrite Hkind. unfold rmap. cbn [rbind].
    unfold paged. cbn [q_offset q_limit Z.to_nat]. rewrite drop_0.
    change (_dispatch_aggregate ?x "agent") with (Ret (E := pyexn) (map ByAgent (_aggregate_by_agent x))).
    cbn [rbind]. f_equal. apply bridge_row; [by rewrite PySort.sorted_Permutation|].
    intros e He. by apply list_elem_of_filter in He as [? _].
Qed.

Lemma metering_bridge_refines_witness :
  MeteringStorageBridge.aggregate 0 "a" "all" demo_storage
  = Ret (InMemoryMeteringStore.aggregate "a" "all" (map to_usage_event (InMemoryMeteringStorage.events demo_storage))).
Proof.
  apply (metering_bridge_refines (map to_usage_event (InMemoryMeteringStorage.events demo_storage)) demo_storage);
    [reflexivity| |reflexivity]. apply (bool_decide_unpack _). reflexivity.
Defined.

(** One naive timestamp among aware ones makes a filtered query raise. *)
Lemma mixed_timestamps_raise :
  InMemoryMeteringStorage.query (mkQuery None None None None None None 0)
    (InMemoryMeteringStorage.mk [usage "a" "x" 1 2 0; mkUsage "t" "a" "x" 1 2 10 1 (Naive 0)] None)
  = Raise mixed_dates.
Proof. reflexivity. Qed.

(** A report of infinitely many tokens makes the hook raise, although the
    function promises the default for an invalid value. *)
Lemma infinite_report_raises :
  _safe_int (JFloat (FInf false)) = Raise (OverflowError "cannot convert float infinity to integer").
Proof. reflexivity. Qed.

Example iso_week_new_year : iso_week (january_first 2021) = (2020, 53).
Proof. reflexivity. Qed.
