(* ===== verification/SqliteMetering.v ===== *)
(** * The SQLite usage stores

    `src/src/asap/economics/storage.py` (SQLiteMeteringStorage) and the recording
    and querying half of `src/src/asap/state/stores/sqlite.py`
    (SQLiteMeteringStore): the `usage_events` table both share, its rows, the
    WHERE clause of a query, `ORDER BY timestamp LIMIT ? OFFSET ?`, the aggregates
    and the summary over what a query returns, the statistics and the purge.
    Compared with the in-memory storage of [Metering].  The column is text:
    SQLite compares the ISO texts of the timestamps, which is the order of the
    instants only among timestamps of one offset ([mixed_offsets_diverge]), so the
    two storages are compared on events and bounds that share one.  `ORDER BY
    timestamp` says nothing about events with equal timestamps, so a query is
    compared on events whose timestamps differ; the aggregates do not depend on
    the order and are compared on all events. *)

From Stdlib Require Import ZArith Lia Ascii String.
From stdpp Require Import base tactics list gmap strings sorting.
From S2P Require Import Prelude PyValue Digest IsoText Sqlite Identity EnvelopeGuard AuditChain Metering.
Open Scope Z_scope.
Open Scope asap_scope.

Record usage_row : Type := mkUsageRow {
  ur_id : string; ur_task_id : string; ur_agent_id : string; ur_consumer_id : string;
  ur_metrics : string; ur_timestamp : string }.

(** `MeteringQuery` field to WHERE fragment. *)
Definition _USAGE_EVENTS_WHERE : list (string * string) :=
  [("agent_id", "agent_id = ?"); ("consumer_id", "consumer_id = ?"); ("task_id", "task_id = ?");
   ("start", "timestamp >= ?"); ("end", "timestamp <= ?")]%string.

(** What the fragments say of a row. *)
Definition usage_sem (fragment value : string) (r : usage_row) : bool :=
  if String.eqb fragment "agent_id = ?" then String.eqb (ur_agent_id r) value
  else if String.eqb fragment "consumer_id = ?" then String.eqb (ur_consumer_id r) value
  else if String.eqb fragment "task_id = ?" then String.eqb (ur_task_id r) value
  else if String.eqb fragment "timestamp >= ?" then
    match text_cmp (ur_timestamp r) value with Lt => false | _ => true end
  else match text_cmp (ur_timestamp r) value with Gt => false | _ => true end.

Definition _filters_to_where (f : MeteringQuery) : list (string * option string) :=
  [("agent_id", q_agent_id f); ("consumer_id", q_consumer_id f); ("task_id", q_task_id f);
   ("start", option_map isoformat_dt (q_start f)); ("end", option_map isoformat_dt (q_end f))]%string.

Section Rows.
  Context `{PyRuntime} `{Readers}.

Definition metrics_object (m : UsageMetrics) : json :=
  JObj [("tokens_in", JInt (u_tokens_in m)); ("tokens_out", JInt (u_tokens_out m));
        ("duration_ms", JInt (u_duration_ms m)); ("api_calls", JInt (u_api_calls m))]%string.

Definition metrics_text (m : UsageMetrics) : string := json_dumps float_repr ", " ": " false (metrics_object m).

Definition _metrics_to_row (m : UsageMetrics) (event_id : string) : usage_row :=
  mkUsageRow event_id (u_task_id m) (u_agent_id m) (u_consumer_id m) (metrics_text m) (isoformat_dt (u_timestamp m)).

(** `data.get(key, 0)` as an `int` field of the model.  The stores write only
    non-negative `int`s; any other value is taken to be refused. *)
Definition int_field (key : string) (data : list (string * json)) : res sqlexn Z :=
  match PyDict.get key data with
  | None => Ret 0
  | Some (JInt z) => if z <? 0 then Raise (PyExn (ValidationError key)) else Ret z
  | Some _ => Raise (PyExn (ValidationError key))
  end.

Definition _row_to_metrics (row : usage_row) : res sqlexn UsageMetrics :=
  match loads (ur_metrics row), iso_read (replace_z (ur_timestamp row)) with
  | Some (JObj data), Some ts =>
      let! tokens_in := int_field "tokens_in" data in
      let! tokens_out := int_field "tokens_out" data in
      let! duration_ms := int_field "duration_ms" data in
      let! api_calls := int_field "api_calls" data in
      Ret (mkUsage (ur_task_id row) (ur_agent_id row) (ur_consumer_id row)
             tokens_in tokens_out duration_ms api_calls ts)
  | Some _, Some _ => Raise (PyExn (AttributeError "get"))
  | _, _ => Raise (PyExn (ValueError "usage row"))
  end.

Fixpoint read_rows (rows : list usage_row) : res sqlexn (list UsageMetrics) :=
  match rows with
  | [] => Ret []
  | r :: rows' =>
      let! m := _row_to_metrics r in
      let! ms := read_rows rows' in
      Ret (m :: ms)
  end.
End Rows.

(** ** The storage of the economics layer *)
Module SQLiteMeteringStorage.

Record t : Type := mk { repo : Repo (list usage_row); retention_ttl_seconds : option Z }.

Section Store.
  Context `{PyRuntime} `{Readers} `{SqlScan}.

Definition on_repo {A} (op : Repo (list usage_row) → Repo (list usage_row) * A) (s : t) : t * A :=
  let '(r, a) := op (repo s) in (mk r (retention_ttl_seconds s), a).

(** [event_id] is the fresh `evt_...` of the row. *)
Definition record (event_id : string) (m : UsageMetrics) : t → t * res sqlexn unit :=
  on_repo (execute [] (λ rows, let! rows' := insert_unique ur_id (_metrics_to_row m event_id) rows in Ret (rows', tt))).

(** The fragments the query would use are checked against the allow-list. *)
Definition active_fragments (f : MeteringQuery) : list string :=
  omap (λ kv : string * option string,
    match kv.2 with Some _ => PyDict.get kv.1 _USAGE_EVENTS_WHERE | None => None end) (_filters_to_where f).

Definition _query_impl (f : MeteringQuery) : Repo (list usage_row) → Repo (list usage_row) * res sqlexn (list UsageMetrics) :=
  fetch [] (λ rows,
    if negb (forallb (λ c, str_in c (map snd _USAGE_EVENTS_WHERE)) (active_fragments f))
    then Raise (PyExn (ValueError "unexpected WHERE fragment"))
    else
      match where_parts (_filters_to_where f) _USAGE_EVENTS_WHERE with
      | Raise e => Raise (PyExn e)
      | Ret (conditions, params) =>
          let! limit := sql_int (default (-1) (q_limit f)) in
          let! offset := sql_int (q_offset f) in
          read_rows (limit_offset limit offset
            (PySort.sorted (by_text ur_timestamp) (select (where_holds usage_sem conditions params) rows)))
      end).

Definition query (f : MeteringQuery) : t → t * res sqlexn (list UsageMetrics) := on_repo (_query_impl f).

Definition _fetch_all_events : Repo (list usage_row) → Repo (list usage_row) * res sqlexn (list UsageMetrics) :=
  fetch [] (λ rows, read_rows (PySort.sorted (by_text ur_timestamp) (scan rows))).

Definition selected (filters : option MeteringQuery) : t → t * res sqlexn (list UsageMetrics) :=
  on_repo match filters with
          | Some f => _query_impl (InMemoryMeteringStorage.agg_filters f)
          | None => _fetch_all_events
          end.

Definition aggregate (group_by : string) (filters : option MeteringQuery) (s : t) :
    t * res sqlexn (list UsageAggregate) :=
  let '(s', events) := selected filters s in
  (s', let! es := events in
       match _dispatch_aggregate es group_by with Ret l => Ret l | Raise e => Raise (PyExn e) end).

Definition summary (filters : option MeteringQuery) (s : t) : t * res sqlexn UsageSummary :=
  let '(s', events) := selected filters s in (s', rmap _compute_summary events).

(** `SELECT COUNT( * ), MIN(timestamp)` *)
Definition text_min (l : list string) : option string :=
  match l with
  | [] => None
  | x :: l' => Some (fold_left (λ acc y, match text_cmp y acc with Lt => y | _ => acc end) l' x)
  end.

Definition stats (s : t) : t * res sqlexn StorageStats :=
  on_repo (fetch [] (λ rows,
    Ret (mkStats (Z.of_nat (length rows))
           (parse_iso (text_min (map ur_timestamp (scan rows))))
           (retention_ttl_seconds s)))) s.

Definition purge_expired (now : Z) (s : t) : t * res sqlexn Z :=
  match retention_ttl_seconds s with
  | None => (s, Ret 0)
  | Some ttl =>
      on_repo (execute [] (λ rows,
        Ret (delete_where (λ r, match text_cmp (ur_timestamp r) (isoformat (InMemoryMeteringStorage.cutoff now ttl)) with
                                | Lt => true | _ => false end) rows))) s
  end.

End Store.
End SQLiteMeteringStorage.

(** ** The store of the state layer *)
Module SQLiteMeteringStore.
Section Store.
  Context `{PyRuntime} `{Readers} `{SqlScan}.

(** The row of an event: `metrics.model_dump_json()` writes the four counters
    without spaces. *)
Definition _event_to_row (e : State.UsageEvent) (event_id : string) : usage_row :=
  mkUsageRow event_id (State.task_id e) (State.agent_id e) (State.consumer_id e)
    (json_dumps float_repr "," ":" false (metrics_object (from_usage_event e))) (isoformat_dt (State.timestamp e)).

Definition record (event_id : string) (e : State.UsageEvent) :
    Repo (list usage_row) → Repo (list usage_row) * res sqlexn unit :=
  execute [] (λ rows, let! rows' := insert_unique ur_id (_event_to_row e event_id) rows in Ret (rows', tt)).

Definition row_in_range (agent_id : string) (start end_ : pydatetime) (r : usage_row) : bool :=
  String.eqb (ur_agent_id r) agent_id
  && match text_cmp (ur_timestamp r) (isoformat_dt start) with Lt => false | _ => true end
  && match text_cmp (ur_timestamp r) (isoformat_dt end_) with Gt => false | _ => true end.

(** `LIMIT ? OFFSET ?`, `LIMIT -1 OFFSET ?` or neither. *)
Definition _query_impl (agent_id : string) (start end_ : pydatetime) (limit : option Z) (offset : Z) :
    Repo (list usage_row) → Repo (list usage_row) * res sqlexn (list State.UsageEvent) :=
  fetch [] (λ rows,
    let sorted := PySort.sorted (by_text ur_timestamp) (select (row_in_range agent_id start end_) rows) in
    let! limit := sql_int (default (-1) limit) in
    let! offset := sql_int offset in
    rmap (map to_usage_event) (read_rows (limit_offset limit offset sorted))).

Definition query (agent_id : string) (start end_ : pydatetime) (limit : option Z) (offset : Z) (r : Repo (list usage_row)) :
    Repo (list usage_row) * res sqlexn (list State.UsageEvent) :=
  if offset <? 0 then (r, Raise (PyExn (ValueError "offset must be non-negative")))
  else _query_impl agent_id start end_ limit offset r.

End Store.
End SQLiteMeteringStore.

Module SqlUsage := SQLiteMeteringStorage.
Module MemUsage := InMemoryMeteringStorage.

(** ** Facts on rows *)

Lemma filter_res_pure {A} (f : A → res pyexn bool) (g : A → bool) l :
  (∀ x, x ∈ l → f x = Ret (g x)) → filter_res f l = Ret (base.filter (λ x, g x = true) l).
Proof.
  induction l as [|x l IH]; intros Hf; [done|]. cbn [filter_res]. rewrite (Hf x) by (by left).
  rewrite IH by (intros y Hy; apply Hf; by right). cbn [rbind]. rewrite filter_cons.
  destruct (g x); [by rewrite decide_True|by rewrite decide_False].
Qed.

(** Datetimes of one offset, or all naive, are ordered as their wall clocks. *)
Lemma dt_le_zone a b : dt_zone a = dt_zone b → dt_le a b = Ret (dt_wall a <=? dt_wall b).
Proof.
  destruct a as [x|x xo], b as [y|y yo]; try done. cbn. intros [= ->]. f_equal.
  destruct (Z.leb_spec x y), (Z.leb_spec (x - yo) (y - yo)); lia || done.
Qed.

Lemma to_utc_zone a b : dt_zone a = dt_zone b → to_utc a - to_utc b = dt_wall a - dt_wall b.
Proof. destruct a as [x|x xo], b as [y|y yo]; cbn; try done. intros [= ->]. lia. Qed.

Lemma one_kind_zone z ds : (∀ d, d ∈ ds → dt_zone d = z) → one_kind ds = true.
Proof.
  intros Hz. destruct ds as [|d ds]; [done|]. apply forallb_forall. intros d' Hd%list_elem_of_In.
  assert (Hk : dt_zone d = dt_zone d') by (rewrite !Hz; [done|by right|by left]). by destruct d, d'.
Qed.

Section Facts.
  Context `{PyRuntime} `{Readers} `{SqlScan}.
  (** the offset of the timestamps, [None] for naive ones *)
  Variable zone : option Z.
  Implicit Types (p : string * UsageMetrics) (ps : list (string * UsageMetrics)).

(** A date of the zone, in the range of `datetime`. *)
Definition in_zone (d : pydatetime) : Prop := in_datetime (dt_wall d) = true ∧ dt_zone d = zone.

(** An event of the zone whose texts read back. *)
Definition usage_storable (m : UsageMetrics) : Prop :=
  in_zone (u_timestamp m)
  ∧ iso_read (isoformat_dt (u_timestamp m)) = Some (u_timestamp m)
  ∧ loads (metrics_text m) = Some (metrics_object m)
  ∧ 0 <= u_tokens_in m ∧ 0 <= u_tokens_out m ∧ 0 <= u_duration_ms m ∧ 0 <= u_api_calls m.

Definition row_of_event p : usage_row := _metrics_to_row (snd p) (fst p).
Definition good p : Prop := usage_storable (snd p).

Lemma row_to_metrics_back p : good p → _row_to_metrics (row_of_event p) = Ret (snd p).
Proof.
  destruct p as [i m]. unfold good. cbn [snd]. intros (_ & Hts & Hm & ? & ? & ? & ?). unfold _row_to_metrics, row_of_event, _metrics_to_row.
  cbn [fst snd ur_metrics ur_timestamp ur_task_id ur_agent_id ur_consumer_id].
  rewrite replace_z_isoformat, Hts, Hm. unfold metrics_object, int_field. simpl.
  do 4 (rewrite (proj2 (Z.ltb_ge _ _)) by lia; simpl). by destruct m.
Qed.

Lemma read_rows_back ps : Forall good ps → read_rows (map row_of_event ps) = Ret (map snd ps).
Proof.
  induction 1 as [|p ps Hp Hps IH]; [done|]. cbn [map read_rows]. rewrite row_to_metrics_back by done.
  cbn [rbind]. by rewrite IH.
Qed.

(** Text comparison of timestamps is comparison of their wall clocks. *)
Lemma iso_cmp a b : in_zone a → in_zone b → text_cmp (isoformat_dt a) (isoformat_dt b) = (dt_wall a ?= dt_wall b)%Z.
Proof. intros [Ha Hza] [Hb Hzb]. apply isoformat_order; congruence. Qed.

Definition range_ok (f : MeteringQuery) : Prop :=
  (∀ t, q_start f = Some t → in_zone t) ∧ (∀ t, q_end f = Some t → in_zone t).

(** What a query asks of an event of the zone. *)
Definition asked (f : MeteringQuery) (e : UsageMetrics) : bool :=
  opt_eqb (q_agent_id f) (u_agent_id e) && opt_eqb (q_consumer_id f) (u_consumer_id e)
  && opt_eqb (q_task_id f) (u_task_id e)
  && match q_start f with None => true | Some t => dt_wall t <=? dt_wall (u_timestamp e) end
  && match q_end f with None => true | Some t => dt_wall (u_timestamp e) <=? dt_wall t end.

Lemma matches_asked f e : usage_storable e → range_ok f → _matches f e = Ret (asked f e).
Proof.
  intros ((_ & Hz) & _) [Hs He]. unfold _matches, asked.
  destruct (_ && _ && _); [|done]. cbn [negb andb].
  destruct (q_start f) as [t|]; [rewrite dt_le_zone by (rewrite Hz; by apply Hs)|]; cbn [rbind andb negb];
    [destruct (dt_wall t <=? _); [|done]; cbn [negb andb]|];
    (destruct (q_end f) as [u|]; [|done]); (rewrite dt_le_zone by (rewrite Hz; symmetry; by apply He)); done.
Qed.

(** The clause built for a query selects the events the query matches. *)
Lemma where_matches f cs vs p : good p → range_ok f →
  where_parts (_filters_to_where f) _USAGE_EVENTS_WHERE = Ret (cs, vs) →
  where_holds usage_sem cs vs (row_of_event p) = asked f (snd p).
Proof.
  intros (Hr & _) [Hs He] Hw. rewrite (proj2 (where_parts_sem usage_sem _ _ _ _ _ Hw)).
  unfold _filters_to_where, asked, opt_eqb. cbn [forallb fst snd].
  destruct p as [i m]. cbn [snd] in *.
  destruct f as [a c t st en l o]. cbn [q_agent_id q_consumer_id q_task_id q_start q_end] in *.
  rewrite andb_true_r, !andb_assoc.
  refine (f_equal2 andb (f_equal2 andb (f_equal2 andb (f_equal2 andb _ _) _) _) _).
  - by destruct a.
  - by destruct c.
  - by destruct t.
  - destruct st as [x|]; [|done].
    change (match text_cmp (isoformat_dt (u_timestamp m)) (isoformat_dt x) with Lt => false | _ => true end
            = (dt_wall x <=? dt_wall (u_timestamp m))). rewrite iso_cmp by (done || by apply Hs).
    destruct (Z.compare_spec (dt_wall (u_timestamp m)) (dt_wall x)); symmetry; (apply Z.leb_le || apply Z.leb_gt); lia.
  - destruct en as [x|]; [|done].
    change (match text_cmp (isoformat_dt (u_timestamp m)) (isoformat_dt x) with Gt => false | _ => true end
            = (dt_wall (u_timestamp m) <=? dt_wall x)). rewrite iso_cmp by (done || by apply He).
    destruct (Z.compare_spec (dt_wall (u_timestamp m)) (dt_wall x)); symmetry; (apply Z.leb_le || apply Z.leb_gt); lia.
Qed.

Lemma where_total f : ∃ cs vs, where_parts (_filters_to_where f) _USAGE_EVENTS_WHERE = Ret (cs, vs).
Proof. destruct f as [[] [] [] [] [] l o]; by eexists _, _. Qed.

Lemma fragments_allowed f :
  forallb (λ c, str_in c (map snd _USAGE_EVENTS_WHERE)) (SqlUsage.active_fragments f) = true.
Proof. by destruct f as [[] [] [] [] [] l o]. Qed.

(** The rows a query reads, as the events they hold. *)
Lemma row_text_cmp a b : good a → good b →
  text_cmp (ur_timestamp (row_of_event a)) (ur_timestamp (row_of_event b))
  = (dt_wall (u_timestamp (snd a)) ?= dt_wall (u_timestamp (snd b)))%Z.
Proof. intros Ha Hb. apply iso_cmp; [apply Ha|apply Hb]. Qed.

Definition by_wall (a b : UsageMetrics) : Prop := dt_wall (u_timestamp a) <= dt_wall (u_timestamp b).

Lemma usage_selection ps (P : usage_row → bool) (Q : UsageMetrics → bool) :
  Forall good ps → (∀ p, good p → P (row_of_event p) = Q (snd p)) →
  ∃ qs, PySort.sorted (by_text ur_timestamp) (select P (map row_of_event ps)) = map row_of_event qs
        ∧ Forall good qs ∧ map snd qs ≡ₚ base.filter (λ e, Q e = true) (map snd ps)
        ∧ Sorted by_wall (map snd qs).
Proof.
  intros Hg HPQ.
  destruct (sorted_selection row_of_event ur_timestamp (λ p, dt_wall (u_timestamp (snd p))) good row_text_cmp
              ps P (λ p, Q (snd p)) Hg HPQ) as (qs & Hq & Hgq & Hp & Hs).
  exists qs. split_and!; [done|done| |].
  - rewrite (Permutation_map snd Hp). by rewrite (filter_map_pred snd Q (λ p, Q (snd p))).
  - clear -Hs. induction Hs as [|p qs Hs IH Hd]; simpl; constructor; [done|].
    by destruct Hd; simpl; constructor.
Qed.

(** The in-memory side of a query on events of the zone. *)
Lemma memory_usage_query f es : Forall usage_storable es → range_ok f →
  ∃ out, _apply_query_filters es f = Ret (paged f out) ∧
    out ≡ₚ base.filter (λ e, asked f e = true) es ∧ Sorted by_wall out.
Proof.
  intros Hg Hr. rewrite Forall_forall in Hg. unfold _apply_query_filters.
  rewrite (filter_res_pure _ (asked f)) by (intros e He; apply matches_asked; auto). cbn [rbind].
  set (sel := base.filter _ es).
  assert (Hz : ∀ e, e ∈ sel → dt_zone (u_timestamp e) = zone).
  { intros e [_ He]%list_elem_of_filter. apply (Hg e He). }
  unfold sorted_by. rewrite (one_kind_zone zone) by (intros d (e & -> & He)%list_elem_of_fmap; auto).
  cbn [rbind]. eexists. split; [done|]. split; [apply PySort.sorted_Permutation|].
  assert (Hs : Sorted (dt_order u_timestamp) (PySort.sorted (dt_order u_timestamp) sel)).
  { apply PySort.Sorted_sorted. intros a b. unfold dt_order. lia. }
  assert (Hin : ∀ e, e ∈ PySort.sorted (dt_order u_timestamp) sel → dt_zone (u_timestamp e) = zone)
    by (intros e He; apply Hz; by apply PySort.elem_of_sorted in He).
  revert Hs Hin. generalize (PySort.sorted (dt_order u_timestamp) sel) as l. clear.
  induction 1 as [|a l Hs IH Hd]; intros Hin; constructor; [apply IH; intros e He; apply Hin; by right|].
  destruct Hd as [|b l Hab]; constructor. unfold by_wall, dt_order in *.
  pose proof (to_utc_zone (u_timestamp a) (u_timestamp b)) as Hd. rewrite !Hin in Hd by (set_solver). specialize (Hd eq_refl). lia.
Qed.

End Facts.

(** ** Aggregates do not depend on the order of the events *)
Section OrderFree.

Lemma leb_text a b : String.leb a b = true ↔ text_cmp a b ≠ Gt.
Proof. unfold String.leb, text_cmp. by destruct (String.compare a b). Qed.

Lemma unique_Permutation f (l m : list UsageMetrics) : l ≡ₚ m → unique f l = unique f m.
Proof. intros Hp. unfold unique. by rewrite Hp. Qed.

Lemma rows_Permutation {A} (row : string → list UsageMetrics → A) (key : UsageMetrics → string) (l m : list UsageMetrics) :
  (∀ k g g', g ≡ₚ g' → row k g = row k g') → l ≡ₚ m → rows row key l = rows row key m.
Proof.
  intros Hrow Hp. unfold rows.
  assert (Hwf : ∀ es, NoDup (map fst (map (λ kg, (fst kg, row (fst kg) (snd kg))) (group_by key es)))).
  { intros es. rewrite map_map. apply (group_wf key [] es PyDict.wf_nil). }
  assert (Hmem : ∀ es es' x, es ≡ₚ es' →
    x ∈ map (λ kg, (fst kg, row (fst kg) (snd kg))) (group_by key es) →
    x ∈ map (λ kg, (fst kg, row (fst kg) (snd kg))) (group_by key es')).
  { intros es es' x He ([k g] & -> & [Hk ->]%elem_of_groups)%list_elem_of_fmap.
    apply list_elem_of_fmap. exists (k, filter (λ e, key e = k) es'). split.
    - simpl. f_equal. apply Hrow. by rewrite He.
    - apply elem_of_groups. split; [by rewrite <- He|done]. }
  assert (Htotal : Total (key_order (A := A))).
  { intros a b. unfold key_order. apply String.leb_total. }
  assert (Htrans : Transitive (key_order (A := A))).
  { intros a b c. unfold key_order. rewrite !leb_text. apply text_le_trans. }
  apply (StronglySorted_unique_strong key_order);
    [|apply Sorted_StronglySorted, PySort.Sorted_sorted; apply _..|].
  - intros x y. rewrite !PySort.elem_of_sorted. intros Hx Hy Hxy Hyx.
    assert (Hk : fst x = fst y) by (by apply String.leb_antisym).
    apply (Hmem m l) in Hy; [|done]. specialize (Hwf l).
    destruct x as [k1 v1], y as [k2 v2]. simpl in *. subst.
    apply (PyDict.elem_get _ _ _ Hwf) in Hx, Hy. congruence.
  - rewrite !PySort.sorted_Permutation. apply NoDup_Permutation.
    + by eapply NoDup_fmap_1.
    + by eapply NoDup_fmap_1.
    + intros x. split; apply Hmem; done.
Qed.

Lemma dispatch_Permutation g (l m : list UsageMetrics) : l ≡ₚ m → _dispatch_aggregate l g = _dispatch_aggregate m g.
Proof.
  intros Hp. assert (Hlen : ∀ a b : list UsageMetrics, a ≡ₚ b → length a = length b) by apply Permutation_length.
  unfold _dispatch_aggregate, _aggregate_by_agent, _aggregate_by_consumer, _aggregate_by_period.
  rewrite (rows_Permutation agent_row u_agent_id l m), (rows_Permutation consumer_row u_consumer_id l m),
    (rows_Permutation period_row (λ e, _period_key g (u_timestamp e)) l m); [done|..|done]; try done;
    intros k a b Hab; unfold agent_row, consumer_row, period_row;
    rewrite ?(sum_of_Permutation _ a b Hab), ?(Hlen a b Hab), ?(unique_Permutation _ a b Hab); done.
Qed.

Lemma summary_Permutation (l m : list UsageMetrics) : l ≡ₚ m → _compute_summary l = _compute_summary m.
Proof.
  intros Hp. unfold _compute_summary. pose proof (Permutation_length Hp) as Hl.
  destruct l as [|x l], m as [|y m]; try done. rewrite Hl.
  rewrite !(sum_of_Permutation _ _ _ Hp), !(unique_Permutation _ _ _ Hp). done.
Qed.
End OrderFree.

(** ** Agreement with the in-memory storage *)
Section Agreement.
  Context `{PyRuntime} `{Readers} `{SqlScan}.
  Variable zone : option Z.

(** The in-memory outcome, as SQLite's callers see it. *)
Definition py_out {A} (r : res pyexn A) : res sqlexn A :=
  match r with Ret a => Ret a | Raise x => Raise (PyExn x) end.

Record usage_agrees (s : SqlUsage.t) (m : MemUsage.t) : Prop := {
  ug_repo : repo_ok (SqlUsage.repo s);
  ug_ttl : SqlUsage.retention_ttl_seconds s = MemUsage.retention_ttl_seconds m;
  ug_rows : ∃ ps, contents [] (SqlUsage.repo s) = map row_of_event ps ∧ map snd ps = MemUsage.events m
                  ∧ Forall (good zone) ps
}.

Lemma on_repo_snd {A} (op : Repo (list usage_row) → Repo (list usage_row) * A) s :
  snd (SqlUsage.on_repo op s) = snd (op (SqlUsage.repo s)).
Proof. unfold SqlUsage.on_repo. by destruct (op (SqlUsage.repo s)). Qed.

Lemma on_repo_fst {A} (op : Repo (list usage_row) → Repo (list usage_row) * A) s :
  fst (SqlUsage.on_repo op s) = SqlUsage.mk (fst (op (SqlUsage.repo s))) (SqlUsage.retention_ttl_seconds s).
Proof. unfold SqlUsage.on_repo. by destruct (op (SqlUsage.repo s)). Qed.

Definition paging_ok (f : MeteringQuery) : Prop :=
  0 <= q_offset f < 2 ^ 63 ∧ (∀ l, q_limit f = Some l → 1 <= l < 2 ^ 63).

Lemma agrees_storable s m : usage_agrees s m → Forall (usage_storable zone) (MemUsage.events m).
Proof. intros [_ _ (ps & _ & <- & Hg)]. by apply Forall_map. Qed.

(** A query reads the matching events sorted, then pages. *)
Lemma query_selects f s m : usage_agrees s m → range_ok zone f → paging_ok f →
  ∃ es, snd (SqlUsage._query_impl f (SqlUsage.repo s)) =
          Ret (limit_offset (default (-1) (q_limit f)) (q_offset f) es)
        ∧ es ≡ₚ base.filter (λ e, asked f e = true) (MemUsage.events m)
        ∧ Sorted by_wall es.
Proof.
  intros [Hr _ (ps & Hps & Hev & Hg)] Hrange [Ho Hl]. unfold SqlUsage._query_impl.
  rewrite fetch_out by done. rewrite fragments_allowed. cbn [negb].
  destruct (where_total f) as (cs & vs & Hw). rewrite Hw.
  assert (Hlim : - 2 ^ 63 <= default (-1) (q_limit f) < 2 ^ 63)
    by (destruct (q_limit f) as [l|] eqn:E; simpl; [specialize (Hl l eq_refl)|]; lia).
  rewrite !sql_int_in by lia. cbn [rbind]. rewrite Hps.
  destruct (usage_selection zone ps (where_holds usage_sem cs vs) (asked f) Hg) as (qs & -> & Hgq & Hp & Hs).
  { intros p Hp. by apply (where_matches zone). }
  exists (map snd qs). split_and!; [|by rewrite <- Hev|done].
  assert (Hlo : ∀ a b, limit_offset a b (map row_of_event qs) = map row_of_event (limit_offset a b qs)
                       ∧ limit_offset a b (map snd qs) = map snd (limit_offset a b qs)).
  { intros a b. unfold limit_offset. destruct (a <? 0); split; by rewrite <- ?fmap_drop, <- ?fmap_take. }
  rewrite (proj1 (Hlo _ _)), (proj2 (Hlo _ _)). apply (read_rows_back zone).
  unfold limit_offset. destruct (_ <? 0); [by apply Forall_drop|by apply Forall_take, Forall_drop].
Qed.

Lemma query_agrees f s m : usage_agrees s m → range_ok zone f → paging_ok f →
  NoDup (map (λ e, dt_wall (u_timestamp e)) (MemUsage.events m)) →
  snd (SqlUsage.query f s) = py_out (MemUsage.query f m).
Proof.
  intros Ha Hr Hp Hn. unfold SqlUsage.query. rewrite on_repo_snd.
  destruct (query_selects f s m Ha Hr Hp) as (es & -> & Hes & Hs).
  destruct (memory_usage_query zone f _ (agrees_storable _ _ Ha) Hr) as (out & Hout & Hperm & Hso).
  unfold MemUsage.query. rewrite Hout. cbn [py_out]. f_equal.
  assert (Heq : es = out).
  { apply (sorted_unique_by (λ e, dt_wall (u_timestamp e))); [done|done|by rewrite Hes, Hperm|].
    rewrite (Permutation_map _ Hes). eapply sublist_NoDup; [exact Hn|].
    apply (fmap_sublist (λ e, dt_wall (u_timestamp e))), sublist_filter. }
  rewrite Heq. unfold limit_offset, paged. destruct Hp as [Ho Hl].
  destruct (q_limit f) as [l|]; simpl; [|done]. specialize (Hl l eq_refl).
  rewrite (proj2 (Z.ltb_ge _ _)), (proj2 (Z.eqb_neq _ _)) by lia. done.
Qed.

(** The events an aggregate or a summary is computed from. *)
Lemma selected_agrees filters s m : usage_agrees s m → (∀ f, filters = Some f → range_ok zone f) →
  ∃ es es', snd (SqlUsage.selected filters s) = Ret es ∧ MemUsage.selected filters m = Ret es' ∧ es ≡ₚ es'.
Proof.
  intros Ha Hr. unfold SqlUsage.selected. rewrite on_repo_snd. destruct filters as [f|].
  - assert (Hrange : range_ok zone (MemUsage.agg_filters f)) by exact (Hr f eq_refl).
    destruct (query_selects (MemUsage.agg_filters f) s m Ha Hrange) as (es & Hes & Hp & _).
    { split; simpl; [lia|done]. }
    destruct (memory_usage_query zone _ _ (agrees_storable _ _ Ha) Hrange) as (out & Hout & Hperm & _).
    exists es, out. split_and!; [exact Hes|exact Hout|by rewrite Hp, Hperm].
  - destruct Ha as [Hrepo _ (ps & Hps & Hev & Hg)]. unfold SqlUsage._fetch_all_events.
    rewrite fetch_out by done. rewrite Hps.
    destruct (usage_selection zone ps (λ _, true) (λ _, true) Hg) as (qs & Hq & Hgq & Hp & _); [done|].
    assert (Hall : ∀ {A} (l : list A), base.filter (λ _ : A, true = true) l = l)
      by (intros A l; apply filter_all, Forall_forall; done).
    unfold select in Hq. rewrite Hall in Hq, Hp. rewrite Hq, (read_rows_back zone) by done.
    eexists _, _. split_and!; [done|done|]. by rewrite Hp, Hev.
Qed.

(** *** Writes *)
Lemma record_agrees id e s m : usage_agrees s m → usage_storable zone e →
  id ∉ map ur_id (contents [] (SqlUsage.repo s)) →
  usage_agrees (fst (SqlUsage.record id e s)) (MemUsage.record e m) ∧ snd (SqlUsage.record id e s) = Ret tt.
Proof.
  intros [Hr Ht (ps & Hps & Hev & Hg)] He Hid. unfold SqlUsage.record. rewrite on_repo_snd, on_repo_fst.
  set (stmt := λ rows : list usage_row, _). destruct (execute_ok [] stmt _ Hr) as (Hok & Hc & ->).
  assert (Hst : stmt (contents [] (SqlUsage.repo s))
                = Ret ((contents [] (SqlUsage.repo s) ++ [_metrics_to_row e id])%list, tt)).
  { subst stmt. cbn beta. unfold insert_unique. destruct (existsb _ _) eqn:Ex; [exfalso|done].
    apply existsb_elem_of in Ex as (r & Hin & Heq%bool_decide_eq_true).
    apply Hid, list_elem_of_fmap. by exists r. }
  rewrite Hst in Hc |- *. split; [|done]. split; simpl; [done|done|].
  exists (ps ++ [(id, e)])%list. rewrite Hc, Hps, !map_app, Hev. split_and!; [done|done|].
  apply Forall_app. split; [done|]. constructor; [done|constructor].
Qed.

Lemma purge_agrees now s m : zone = Some 0 → usage_agrees s m →
  (∀ ttl, MemUsage.retention_ttl_seconds m = Some ttl → in_datetime (MemUsage.cutoff now ttl) = true) →
  usage_agrees (fst (SqlUsage.purge_expired now s)) (fst (MemUsage.purge_expired now m))
  ∧ snd (SqlUsage.purge_expired now s) = py_out (snd (MemUsage.purge_expired now m)).
Proof.
  intros Hutc Ha Hcut. pose proof (agrees_storable _ _ Ha) as Hst. destruct Ha as [Hr Ht (ps & Hps & Hev & Hg)].
  unfold SqlUsage.purge_expired, MemUsage.purge_expired. rewrite Ht.
  destruct (MemUsage.retention_ttl_seconds m) as [ttl|] eqn:Ettl;
    [|cbn [fst snd]; split; [split; [done|congruence|by exists ps]|done]].
  specialize (Hcut ttl eq_refl). set (c := MemUsage.cutoff now ttl) in *.
  assert (Hc0 : in_zone zone (Aware c 0)) by (by rewrite Hutc).
  rewrite (filter_res_pure _ (λ e, c <=? dt_wall (u_timestamp e))).
  2:{ rewrite Forall_forall in Hst. intros e He. destruct (Hst e He) as ((_ & Hz) & _).
      apply (dt_le_zone (Aware c 0)). rewrite Hz. apply Hc0. }
  rewrite on_repo_snd, on_repo_fst. set (stmt := λ rows : list usage_row, _).
  destruct (execute_ok [] stmt _ Hr) as (Hok & Hc & ->). subst stmt. cbn beta in *.
  set (P := λ r : usage_row, match text_cmp (ur_timestamp r) (isoformat c) with Lt => true | _ => false end) in *.
  assert (HP : ∀ p, good zone p → P (row_of_event p) = negb (c <=? dt_wall (u_timestamp (snd p)))).
  { intros p Hp. subst P. cbn beta. change (ur_timestamp (row_of_event p)) with (isoformat_dt (u_timestamp (snd p))).
    unfold isoformat. rewrite (iso_cmp zone) by (done || apply Hp). rewrite <- Z.ltb_antisym. cbn [dt_wall].
    destruct (Z.compare_spec (dt_wall (u_timestamp (snd p))) c); symmetry; (apply Z.ltb_lt || apply Z.ltb_ge); lia. }
  rewrite Forall_forall in Hg.
  unfold delete_where in *. rewrite Hps in Hc |- *.
  rewrite (filter_map_pred row_of_event (λ r, negb (P r)) (λ p, c <=? dt_wall (u_timestamp (snd p)))) in Hc
    by (intros p Hp; rewrite HP by (by apply Hg); by rewrite negb_involutive).
  rewrite (filter_map_pred row_of_event P (λ p, negb (c <=? dt_wall (u_timestamp (snd p)))))
    by (intros p Hp; by rewrite HP by (by apply Hg)).
  assert (Hkept : base.filter (λ e, (c <=? dt_wall (u_timestamp e)) = true) (MemUsage.events m)
                  = map snd (base.filter (λ p, (c <=? dt_wall (u_timestamp (snd p))) = true) ps)).
  { by rewrite <- Hev, <- (filter_map_pred snd (λ e, c <=? dt_wall (u_timestamp e)) _) by done. }
  split.
  - split; cbn [fst snd SqlUsage.repo SqlUsage.retention_ttl_seconds MemUsage.retention_ttl_seconds MemUsage.events];
      [done|congruence|]. rewrite Hkept.
    exists (base.filter (λ p, (c <=? dt_wall (u_timestamp (snd p))) = true) ps). split_and!; [done|done|].
    apply Forall_filtered. by apply Forall_forall.
  - simpl. f_equal. rewrite Hkept, !length_map, <- Hev, length_map.
    clear. induction ps as [|p ps IH]; [done|]. rewrite !filter_cons.
    destruct (c <=? dt_wall (u_timestamp p.2)); simpl; lia.
Qed.

End Agreement.

(** ** Properties *)

(** C29: On events of one offset from UTC (or all naive) the SQLite usage storage
    agrees with the in-memory one, although it compares the ISO texts of the
    timestamps: recording an event under a new id keeps the two in agreement, an
    aggregate or a summary over a filter whose bounds have that offset is the
    same, errors included, and so is every page of such a query when no two events
    have the same timestamp; where the offset is that of UTC, a purge keeps the
    agreement and removes as many events.  The counters of an event and its
    timestamp read back from their texts, dates are within the years of
    `datetime`, and limits and offsets fit 64 bits.  Timestamps of several offsets
    are outside: there the storages differ. *)
Theorem sqlite_usage_refines_memory `{PyRuntime} `{Readers} `{SqlScan} (zone : option Z) (s : SqlUsage.t)
    (m : MemUsage.t) (id group : string) (e : UsageMetrics) (f : MeteringQuery) (filters : option MeteringQuery) (now : Z) :
  usage_agrees zone s m → usage_storable zone e → id ∉ map ur_id (contents [] (SqlUsage.repo s)) →
  range_ok zone f → paging_ok f → (∀ g, filters = Some g → range_ok zone g) →
  (∀ ttl, MemUsage.retention_ttl_seconds m = Some ttl → in_datetime (MemUsage.cutoff now ttl) = true) →
  usage_agrees zone (fst (SqlUsage.record id e s)) (MemUsage.record e m)
  ∧ snd (SqlUsage.record id e s) = Ret tt
  ∧ snd (SqlUsage.aggregate group filters s) = py_out (MemUsage.aggregate group filters m)
  ∧ snd (SqlUsage.summary filters s) = py_out (MemUsage.summary filters m)
  ∧ (NoDup (map (λ e, dt_wall (u_timestamp e)) (MemUsage.events m)) →
     snd (SqlUsage.query f s) = py_out (MemUsage.query f m))
  ∧ (zone = Some 0 →
     usage_agrees zone (fst (SqlUsage.purge_expired now s)) (fst (MemUsage.purge_expired now m))
     ∧ snd (SqlUsage.purge_expired now s) = py_out (snd (MemUsage.purge_expired now m))).
Proof.
  intros Ha He Hid Hf Hp Hfs Hcut. destruct (record_agrees zone id e s m Ha He Hid) as [Hra Hrr].
  destruct (selected_agrees zone filters s m Ha Hfs) as (es & es' & Hsel & Hmem & Hperm).
  split_and!; [done|done| | |by apply (query_agrees zone)|intros; by apply purge_agrees].
  - unfold SqlUsage.aggregate, MemUsage.aggregate. destruct (SqlUsage.selected filters s) as [s' out].
    cbn [snd] in *. subst out. rewrite Hmem. cbn [rbind]. by rewrite (dispatch_Permutation group es _ Hperm).
  - unfold SqlUsage.summary, MemUsage.summary. destruct (SqlUsage.selected filters s) as [s' out].
    cbn [snd] in *. subst out. rewrite Hmem. unfold rmap. cbn [rbind py_out]. by rewrite (summary_Permutation es _ Hperm).
Qed.

#[local] Instance demo_runtime : PyRuntime := {| float_repr := λ _, ""%string; float_of_str := λ _, None |}.
Definition demo_usage : UsageMetrics := usage "urn:a" "urn:c" 3 4 0.
#[local] Instance demo_readers : Readers := {|
  iso_read := λ s, if String.eqb s (isoformat 0) then Some (Aware 0 0) else None;
  loads := λ s, if String.eqb s (metrics_text demo_usage) then Some (metrics_object demo_usage) else None |}.
#[local] Instance demo_scan : SqlScan := {| scan := λ R l, reverse l; scan_perm := λ R l, reverse_Permutation l |}.

Lemma sqlite_usage_refines_memory_witness :
  let s := SqlUsage.mk (mkRepo false (Some [_metrics_to_row demo_usage "evt_1"])) (Some 60) in
  let m := MemUsage.mk [demo_usage] (Some 60) in
  snd (SqlUsage.summary None s) = py_out (MemUsage.summary None m)
  ∧ snd (SqlUsage.purge_expired 90000000 s) = Ret 1.
Proof.
  assert (Hg : usage_storable (Some 0) demo_usage) by (vm_compute; repeat split; discriminate).
  destruct (sqlite_usage_refines_memory (Some 0)
           (SqlUsage.mk (mkRepo false (Some [_metrics_to_row demo_usage "evt_1"])) (Some 60))
           (MemUsage.mk [demo_usage] (Some 60)) "evt_2" "agent" demo_usage
           (mkQuery None None None None None None 0) None 90000000) as (_ & _ & _ & Hs & _ & Hpurge).
  - split; [done|done|]. exists [("evt_1"%string, demo_usage)]. split_and!; [done|done|by repeat constructor].
  - exact Hg.
  - change ("evt_2"%string ∉ ["evt_1"%string]). set_solver.
  - done.
  - split; simpl; [lia|done].
  - done.
  - intros ttl [= <-]. reflexivity.
  - split; [exact Hs|]. destruct (Hpurge eq_refl) as [_ Hn]. exact Hn.
Defined.

(** Two events of different offsets: the in-memory storage puts 12:00 in +02:00
    before 11:00 in UTC, SQLite after it. *)
Definition noon_cest : UsageMetrics := mkUsage "t-cest" "urn:a" "urn:c" 0 0 0 0 (Aware 43200000000 7200000000).
Definition eleven_utc : UsageMetrics := mkUsage "t-utc" "urn:a" "urn:c" 0 0 0 0 (Aware 39600000000 0).
Definition two_zones : Readers := {|
  iso_read := λ s, if String.eqb s (isoformat_dt (u_timestamp noon_cest)) then Some (u_timestamp noon_cest)
                   else Some (u_timestamp eleven_utc);
  loads := λ _, Some (metrics_object noon_cest) |}.

Lemma mixed_offsets_diverge :
  let all := mkQuery None None None None None None 0 in
  let rows := [_metrics_to_row noon_cest "evt_1"; _metrics_to_row eleven_utc "evt_2"] in
  rmap (map u_task_id) (snd (@SqlUsage.query two_zones demo_scan all (SqlUsage.mk (mkRepo false (Some rows)) None)))
  = Ret ["t-utc"; "t-cest"]%string
  ∧ rmap (map u_task_id) (MemUsage.query all (MemUsage.mk [noon_cest; eleven_utc] None)) = Ret ["t-cest"; "t-utc"]%string.
Proof. split; vm_compute; reflexivity. Qed.
