(* ===== verification/JsonRpc.v ===== *)
(** * JSON-RPC messages and envelope validation

    `src/src/asap/transport/jsonrpc.py`: error codes and message models;
    `src/src/asap/models/envelope.py` and `models/validators.py`: the validators
    of an envelope.  What the pydantic package does with the field declarations
    is a parameter, [Pydantic], with its documented behaviour as laws. *)

From Stdlib Require Import ZArith Lia Ascii String.
From stdpp Require Import base tactics list gmap strings.
From S2P Require Import Prelude PyValue ReplayGuard EnvelopeGuard.
Open Scope string_scope.
Open Scope Z_scope.
Open Scope asap_scope.

Definition PARSE_ERROR : Z := -32700.
Definition INVALID_REQUEST : Z := -32600.
Definition METHOD_NOT_FOUND : Z := -32601.
Definition INVALID_PARAMS : Z := -32602.
Definition INTERNAL_ERROR : Z := -32603.
Definition VERSION_INCOMPATIBLE : Z := -32000.
Definition ASAP_METHOD : string := "asap.send".
Definition DEFAULT_MAX_BATCH_SIZE : Z := 50.

Definition ERROR_MESSAGES : list (Z * string) :=
  [(PARSE_ERROR, "Parse error"); (INVALID_REQUEST, "Invalid request");
   (METHOD_NOT_FOUND, "Method not found"); (INVALID_PARAMS, "Invalid params");
   (INTERNAL_ERROR, "Internal error"); (VERSION_INCOMPATIBLE, "ASAP protocol version incompatible")].

Abbreviation obj := (list (string * json)).

(** `str | int` *)
Inductive rpc_id : Type := IdStr (s : string) | IdInt (z : Z).

#[export] Instance rpc_id_eq_dec : EqDecision rpc_id.
Proof. solve_decision. Defined.

Definition id_json (i : option rpc_id) : json :=
  match i with None => JNull | Some (IdStr s) => JStr s | Some (IdInt z) => JInt z end.

Record JsonRpcError : Type := mkRpcError {
  er_code : Z; er_message : string; er_data : option obj
}.

Definition from_code (code : Z) (data : option obj) : JsonRpcError :=
  mkRpcError code (default "Unknown error" (PyDict.get code ERROR_MESSAGES)) data.

Record JsonRpcRequest : Type := mkRequest {
  rq_method : string; rq_params : obj; rq_id : rpc_id
}.

Record JsonRpcResponse : Type := mkResponse { rp_result : obj; rp_id : rpc_id }.

Record JsonRpcErrorResponse : Type := mkErrorResponse { re_error : JsonRpcError; re_id : option rpc_id }.

(** `model_dump()` of the two replies. *)
Definition dump_error (e : JsonRpcError) : json :=
  JObj [("code", JInt (er_code e)); ("message", JStr (er_message e));
        ("data", match er_data e with Some d => JObj d | None => JNull end)].
Definition dump_error_response (r : JsonRpcErrorResponse) : json :=
  JObj [("jsonrpc", JStr "2.0"); ("error", dump_error (re_error r)); ("id", id_json (re_id r))].
Definition dump_response (r : JsonRpcResponse) : json :=
  JObj [("jsonrpc", JStr "2.0"); ("result", JObj (rp_result r)); ("id", id_json (Some (rp_id r)))].

(** ** Agent URNs *)
Definition MAX_URN_LENGTH : nat := 256.

Definition urn_char (c : ascii) : bool :=
  let n := PyStr.code c in
  ((97 <=? n) && (n <=? 122))%nat || ((48 <=? n) && (n <=? 57))%nat || (n =? 45)%nat.

(** The longest prefix of characters of the class, and the rest. *)
Fixpoint span_urn (s : string) : nat * string :=
  match s with
  | String c s' => if urn_char c then let '(n, r) := span_urn s' in (S n, r) else (O, s)
  | EmptyString => (O, s)
  end.

(** `$` matches at the end and before a final newline. *)
Definition at_end (s : string) : bool :=
  match s with
  | EmptyString => true
  | String c EmptyString => (PyStr.code c =? 10)%nat
  | _ => false
  end.

(** `^urn:asap:agent:[a-z0-9-]+(?::[a-z0-9-]+)?$`: neither the end nor the
    colon is in the class, so the greedy runs never have to give back. *)
Definition urn_matches (v : string) : bool :=
  PyStr.startswith v "urn:asap:agent:" &&
  let '(n, rest) := span_urn (PyStr.drop 15 v) in
  negb (n =? 0)%nat &&
  match rest with
  | String ":" rest' =>
      let '(m, rest'') := span_urn rest' in negb (m =? 0)%nat && at_end rest''
  | _ => at_end rest
  end.

Definition validate_agent_urn (v : string) : res pyexn string :=
  if (MAX_URN_LENGTH <? String.length v)%nat then
    Raise (ValueError ("Agent URN must be at most 256 characters, got "
                       ++ PyStr.dec_Z (Z.of_nat (String.length v))))
  else if negb (urn_matches v) then
    Raise (ValueError ("Agent ID must follow URN format 'urn:asap:agent:{name}', got: " ++ v))
  else Ret v.

(** ** Envelopes *)

(** `str.isalnum()` of a code point below 256. *)
Definition is_alnum (c : ascii) : bool :=
  let n := PyStr.code c in
  ((48 <=? n) && (n <=? 57))%nat || ((65 <=? n) && (n <=? 90))%nat || ((97 <=? n) && (n <=? 122))%nat
  || ((192 <=? n) && negb (n =? 215) && negb (n =? 247))%nat
  || existsb (Nat.eqb n) [170; 178; 179; 181; 185; 186; 188; 189; 190]%nat.

Fixpoint keep_alnum (s : string) : string :=
  match s with
  | EmptyString => EmptyString
  | String c s' => if is_alnum c then String c (keep_alnum s') else keep_alnum s'
  end.

Definition _normalize_payload_type (pt : string) : string := keep_alnum (PyStr.lower pt).

Definition CORRELATION_REQUIRED_PAYLOAD_KEYS : list string :=
  ["taskresponse"; "taskstream"; "mcptoolresult"; "mcpresourcedata"].

Definition validate_response_correlation (payload_type : string) (correlation_id : option string) :
    res pyexn unit :=
  if str_in (_normalize_payload_type payload_type) CORRELATION_REQUIRED_PAYLOAD_KEYS
     && negb (match correlation_id with Some c => PyStr.truthy c | None => false end)
  then Raise (ValueError (payload_type ++ " must have correlation_id for request tracking"))
  else Ret tt.

(** What the validators guarantee of an envelope that exists. *)
Definition envelope_checked (e : Envelope) : Prop :=
  validate_agent_urn (e_sender e) = Ret (e_sender e)
  ∧ validate_agent_urn (e_recipient e) = Ret (e_recipient e)
  ∧ validate_response_correlation (e_payload_type e) (e_correlation_id e) = Ret tt
  ∧ is_some (e_id e) = true ∧ is_some (e_timestamp e) = true.

(** ** Pydantic

    Validation errors are the list `json_safe_validation_errors` returns. *)
Class Pydantic : Type := {
  (** `JsonRpcRequest(body)` *)
  pd_request : obj → res (list json) JsonRpcRequest;
  (** the fields of `Envelope` at a time, with a fresh id for a missing one *)
  pd_envelope : Z → string → obj → res (list json) Envelope;
  (** the field `id: str | int | None`; [None]: a validation error *)
  pd_error_id : json → option (option rpc_id);
  (** `envelope.model_dump(mode="json")` *)
  pd_dump_envelope : Envelope → json
}.

Definition params_dict_error (errors : list json) : bool :=
  existsb (λ e, match e with
                | JObj d =>
                    match assoc "loc" d, assoc "type" d with
                    | Some (JList [JStr l]), Some (JStr t) => String.eqb l "params" && String.eqb t "dict_type"
                    | _, _ => false
                    end
                | _ => false
                end) errors.

(** A body with the declared fields, each of its declared type. *)
Definition well_typed_request (body : obj) (r : JsonRpcRequest) : Prop :=
  assoc "method" body = Some (JStr (rq_method r))
  ∧ assoc "params" body = Some (JObj (rq_params r))
  ∧ assoc "id" body = Some (id_json (Some (rq_id r)))
  ∧ (assoc "jsonrpc" body = None ∨ assoc "jsonrpc" body = Some (JStr "2.0"))
  ∧ Forall (λ kv, fst kv ∈ ["jsonrpc"; "method"; "params"; "id"]) body.

Class PydanticLaws `{Pydantic} : Prop := {
  (** a body of the declared types is accepted as it is *)
  pd_request_typed : ∀ body r, well_typed_request body r → pd_request body = Ret r;
  (** strings and dictionaries are not converted from anything else *)
  pd_request_fields : ∀ body r, pd_request body = Ret r →
    assoc "method" body = Some (JStr (rq_method r)) ∧ assoc "params" body = Some (JObj (rq_params r));
  (** all errors are reported, those of `params` among them *)
  pd_request_errors : ∀ body errors, pd_request body = Raise errors →
    params_dict_error errors = true ↔
      ∃ j, assoc "params" body = Some j ∧ as_obj j = None;
  (** an envelope exists only if its validators passed *)
  pd_envelope_checked : ∀ now fresh body e, pd_envelope now fresh body = Ret e →
    envelope_checked e ∧ assoc "sender" body = Some (JStr (e_sender e));
  pd_error_id_str : ∀ s, pd_error_id (JStr s) = Some (Some (IdStr s));
  pd_error_id_int : ∀ z, pd_error_id (JInt z) = Some (Some (IdInt z));
  pd_error_id_null : pd_error_id JNull = Some None;
  pd_error_id_list : ∀ l, pd_error_id (JList l) = None;
  pd_error_id_obj : ∀ d, pd_error_id (JObj d) = None
}.

(** How building a model fails: with a `ValidationError`, or with an exception
    of a validator that pydantic does not convert. *)
Inductive model_error : Type :=
| ValidationErrors (errors : list json)
| Escapes (e : pyexn).

Section Models.
  Context `{Pydantic}.

Definition has_str_payload_type (body : obj) : bool :=
  match j_get "payload" body, j_get "payload_type" body with
  | JObj _, JStr _ => true
  | JObj _, pt => negb (j_truthy pt)
  | _, _ => true
  end.

(** `Envelope(body)`: `parse_payload_from_dict` runs first and normalizes a
    true `payload_type` with `str.lower`, which other types do not have. *)
Definition new_envelope (now : Z) (fresh_id : string) (body : obj) : res model_error Envelope :=
  if has_str_payload_type body then
    match pd_envelope now fresh_id body with
    | Ret e => Ret e
    | Raise errors => Raise (ValidationErrors errors)
    end
  else
    Raise (Escapes (AttributeError ("'" ++ type_name (j_get "payload_type" body)
                                    ++ "' object has no attribute 'lower'"))).

(** `JsonRpcErrorResponse(error=..., id=...)` *)
Definition new_error_response (error : JsonRpcError) (id : json) : res pyexn JsonRpcErrorResponse :=
  match pd_error_id id with
  | Some i => Ret (mkErrorResponse error i)
  | None => Raise (ValidationError "JsonRpcErrorResponse")
  end.
End Models.

(** ** Facts on URNs *)

(** A valid URN stays valid with a newline after it: the pattern's `$` matches
    before a final newline, so two different strings name the same agent. *)
Lemma urn_newline_accepted :
  validate_agent_urn ("urn:asap:agent:a" ++ String (ascii_of_nat 10) EmptyString)
  = Ret ("urn:asap:agent:a" ++ String (ascii_of_nat 10) EmptyString).
Proof. reflexivity. Qed.

(** ** An instance

    A validator that accepts exactly the declared types and converts nothing; it
    shows that the laws can hold and runs the examples.  Its envelopes carry no
    timestamp of their own. *)
Module StrictPydantic.

Definition strict_id (j : json) : option rpc_id :=
  match j with JStr s => Some (IdStr s) | JInt z => Some (IdInt z) | _ => None end.

Definition error_entry (loc type : string) : json := JObj [("type", JStr type); ("loc", JList [JStr loc])].

Definition version_ok (body : obj) : bool :=
  match assoc "jsonrpc" body with None => true | Some (JStr v) => String.eqb v "2.0" | Some _ => false end.
Definition keys_ok (body : obj) : bool :=
  forallb (λ kv, str_in (fst kv) ["jsonrpc"; "method"; "params"; "id"]) body.

Definition strict_request (body : obj) : res (list json) JsonRpcRequest :=
  match assoc "params" body with
  | Some (JObj p) =>
      match assoc "method" body, assoc "id" body with
      | Some (JStr m), Some j =>
          match strict_id j with
          | Some i => if version_ok body && keys_ok body then Ret (mkRequest m p i)
                      else Raise [error_entry "jsonrpc" "literal_error"]
          | None => Raise [error_entry "id" "string_type"]
          end
      | _, _ => Raise [error_entry "method" "missing"]
      end
  | Some _ => Raise [error_entry "params" "dict_type"]
  | None => Raise [error_entry "params" "missing"]
  end.

Definition checked (e : Envelope) : bool :=
  match validate_agent_urn (e_sender e), validate_agent_urn (e_recipient e),
        validate_response_correlation (e_payload_type e) (e_correlation_id e) with
  | Ret _, Ret _, Ret _ => true
  | _, _, _ => false
  end.

Definition strict_envelope (now : Z) (fresh : string) (body : obj) : res (list json) Envelope :=
  match assoc "asap_version" body, assoc "sender" body, assoc "recipient" body, assoc "payload_type" body with
  | Some (JStr v), Some (JStr s), Some (JStr r), Some (JStr pt) =>
      let e := mkEnvelope (Some (default fresh (as_str (j_get "id" body)))) v (Some (Aware now 0)) s r pt
                 (j_get "payload" body) (as_str (j_get "correlation_id" body)) None false
                 (as_obj (j_get "extensions" body)) in
      if checked e then Ret e else Raise [error_entry "sender" "value_error"]
  | _, _, _, _ => Raise [error_entry "sender" "missing"]
  end.

Definition dump (e : Envelope) : json :=
  JObj [("sender", JStr (e_sender e)); ("recipient", JStr (e_recipient e));
        ("payload_type", JStr (e_payload_type e)); ("payload", e_payload e)].

#[local] Instance strict : Pydantic :=
  {| pd_request := strict_request; pd_envelope := strict_envelope;
     pd_error_id := λ j, match j with JNull => Some None | _ => Some <$> strict_id j end;
     pd_dump_envelope := dump |}.

Lemma urn_returns v x : validate_agent_urn v = Ret x → x = v.
Proof. unfold validate_agent_urn. repeat case_match; by intros [= <-]. Qed.

Lemma checked_ok e : checked e = true → is_some (e_id e) = true → is_some (e_timestamp e) = true →
  envelope_checked e.
Proof.
  unfold checked, envelope_checked. intros Hc Hi Ht.
  destruct (validate_agent_urn (e_sender e)) eqn:E1; [done|]. apply urn_returns in E1 as E1'.
  destruct (validate_agent_urn (e_recipient e)) eqn:E2; [done|]. apply urn_returns in E2 as E2'.
  destruct (validate_response_correlation _ _) as [|[]]; [done|]. by subst.
Qed.

Lemma strict_typed body r : well_typed_request body r → strict_request body = Ret r.
Proof.
  intros (Hm & Hp & Hi & Hv & Hk). unfold strict_request. rewrite Hm, Hp, Hi.
  assert (strict_id (id_json (Some (rq_id r))) = Some (rq_id r)) as -> by (by destruct (rq_id r)).
  assert (version_ok body = true) as ->. { unfold version_ok. by destruct Hv as [-> | ->]. }
  assert (keys_ok body = true) as ->; [|by destruct r].
  unfold keys_ok. apply forallb_elem_of. intros kv Hkv. rewrite Forall_forall in Hk. apply str_in_true. by apply Hk.
Qed.

#[local] Instance strict_laws : PydanticLaws.
Proof.
  split; cbn [pd_request pd_envelope pd_error_id strict].
  - apply strict_typed.
  - intros body r. unfold strict_request.
    repeat case_match; intros ?; simplify_eq; done.
  - intros body errors. unfold strict_request.
    destruct (assoc "params" body) as [p|]; [|intros [= <-]; split; [done|by intros (? & ? & _)]].
    assert (Hno : ∀ d, p = JObj d → (∃ j, Some p = Some j ∧ as_obj j = None) → False).
    { intros d -> (? & [= <-] & ?). done. }
    destruct p as [| | | | | |d]; try (intros [= <-]; split; [by eexists|done]).
    specialize (Hno d eq_refl).
    destruct (assoc "method" body) as [[]|]; destruct (assoc "id" body) as [j|];
      try (intros [= <-]; split; [done|intros ?; by destruct Hno]).
    destruct (strict_id j); [|intros [= <-]; split; [done|intros ?; by destruct Hno]].
    destruct (_ && _); [done|]. intros [= <-]; split; [done|intros ?; by destruct Hno].
  - intros now fresh body e. unfold strict_envelope.
    destruct (assoc "asap_version" body) as [[]|]; try done.
    destruct (assoc "sender" body) as [[]|]; try done.
    destruct (assoc "recipient" body) as [[]|]; try done.
    destruct (assoc "payload_type" body) as [[]|]; try done.
    cbv zeta. destruct (checked _) eqn:Ec; [|done]. intros [= <-]. split; [|done]. by apply checked_ok.
  - done.
  - done.
  - done.
  - done.
  - done.
Qed.

End StrictPydantic.
