(* ===== verification/Handlers.v ===== *)
(** * Handlers and their dispatch

    `src/src/asap/transport/handlers.py` (the registry and the three ways to
    dispatch an envelope) and `src/src/asap/transport/executors.py` (the bounded
    thread pool).  A handler is the application's code: a function that may
    change a world of its own, [W], and returns an envelope or raises.  Readings
    of the clock are arguments. *)

From Stdlib Require Import ZArith QArith Lqa Lia Ascii String.
From stdpp Require Import base tactics list gmap strings.
From S2P Require Import Prelude PyValue Digest Identity ReplayGuard EnvelopeGuard Metrics Errors Metering.
Open Scope string_scope.
Open Scope Z_scope.
Open Scope asap_scope.

(** ** Exceptions *)
Inductive exn : Type :=
| XAsap (e : ASAPError)
| XRemote (r : RemoteRPCError)
| XOther (type_name text : string).

Definition of_pyexn (e : pyexn) : exn :=
  match e with
  | TypeError m => XOther "TypeError" m
  | ValueError m => XOther "ValueError" m
  | KeyError m => XOther "KeyError" m
  | AttributeError m => XOther "AttributeError" m
  | RuntimeError m => XOther "RuntimeError" m
  | OverflowError m => XOther "OverflowError" m
  | ValidationError m => XOther "ValidationError" m
  end.

(** An exception under construction: its constructor may itself raise. *)
Definition raised (r : res pyexn ASAPError) : exn :=
  match r with Ret e => XAsap e | Raise p => of_pyexn p end.

(** `isinstance(e, ASAPError)`: the error and `str(e)`. *)
Definition as_asap (x : exn) : option (ASAPError * string) :=
  match x with
  | XAsap e => Some (e, str_error e)
  | XRemote r => Some (r_error r, str_remote r)
  | XOther _ _ => None
  end.

Definition has_class (c : error_class) (x : exn) : bool :=
  match x with XAsap e => bool_decide (x_class e = c) | _ => false end.

(** What the transport uses of a manifest. *)
Record Manifest : Type := mkManifest {
  m_id : string;
  m_auth_schemes : option (list string)
}.

(** ** The bounded executor *)
Module BoundedExecutor.

(** [held]: the permits of the semaphore that running tasks hold. *)
Record t : Type := mk { max_threads : Z; held : Z }.

Definition init (cpu_count : Z) (max_threads : option Z) : res pyexn t :=
  let n := match max_threads with
           | Some n => n
           | None => Z.min 32 ((if cpu_count =? 0 then 1 else cpu_count) + 4)
           end in
  if n <? 1 then Raise (ValueError ("max_threads must be >= 1, got " ++ PyStr.dec_Z n))
  else Ret (mk n 0).

(** `submit` up to the start of the task. *)
Definition submit (x : t) (m : MetricsCollector.t) : t * MetricsCollector.t * res exn unit :=
  if held x <? max_threads x then (mk (max_threads x) (held x + 1), m, Ret tt)
  else (x, MetricsCollector.increment_counter "asap_thread_pool_exhausted_total" [] 1 m,
        Raise (raised (ThreadPoolExhaustedError (max_threads x) (max_threads x) [] (Some 1000)))).

(** `release_on_done`, when the task is done. *)
Definition release (x : t) : t := mk (max_threads x) (held x - 1).

(** Tasks start and finish; [running] is their number. *)
Inductive step : t * Z → t * Z → Prop :=
| step_submit x m running x' m' :
    submit x m = (x', m', Ret tt) → step (x, running) (x', running + 1)
| step_refused x m running x' m' e :
    submit x m = (x', m', Raise e) → step (x, running) (x', running)
| step_done x running : 0 < running → step (x, running) (release x, running - 1).

Inductive reachable (x0 : t) : t * Z → Prop :=
| reach_init : reachable x0 (x0, 0)
| reach_step s s' : reachable x0 s → step s s' → reachable x0 s'.

End BoundedExecutor.

(** ** Handlers *)
Section Handlers.
  Context {W : Type}.

(** What calling a handler gives: an envelope, or an awaitable that will. *)
Inductive called : Type :=
| Now (e : Envelope)
| Later (k : W → W * res exn Envelope).

Record Handler : Type := mkHandler {
  h_callable : bool;
  (** the parameter names `inspect.signature` finds; [None]: it raises *)
  h_signature : option (list string);
  (** `inspect.iscoroutinefunction` *)
  h_async : bool;
  h_call : Envelope → Manifest → W → W * res exn called
}.

Record StreamingHandler : Type := mkStreaming {
  sh_callable : bool;
  sh_asyncgen : bool;
  sh_signature : option (list string);
  (** the envelopes it yields, and how it ends *)
  sh_stream : Envelope → Manifest → W → W * list Envelope * option exn
}.

Definition self_or_cls (params : list string) : bool :=
  match params with p :: _ => str_in p ["self"; "cls"] | [] => false end.

Definition two_params (params : list string) : bool :=
  (length params =? 2)%nat || ((length params =? 3)%nat && self_or_cls params).

Definition arity_message (what : string) (params : list string) : string :=
  what ++ " must accept (envelope, manifest); got " ++ PyStr.dec_Z (Z.of_nat (length params))
  ++ " parameters: [" ++ joined ", " (map repr_str params) ++ "]".

Definition validate_handler (h : Handler) : res pyexn unit :=
  if negb (h_callable h) then Raise (TypeError "Handler must be callable")
  else match h_signature h with
       | None => Raise (TypeError "Handler signature could not be inspected")
       | Some params =>
           if two_params params then Ret tt else Raise (TypeError (arity_message "Handler" params))
       end.

Definition validate_streaming_handler (h : StreamingHandler) : res pyexn unit :=
  if negb (sh_callable h) then Raise (TypeError "Streaming handler must be callable")
  else if negb (sh_asyncgen h) then
    Raise (TypeError ("Streaming handler must be an async generator function "
                      ++ "(async def ... (envelope, manifest) with yield)"))
  else match sh_signature h with
       | None => Raise (TypeError "Streaming handler signature could not be inspected")
       | Some params =>
           if two_params params then Ret tt
           else Raise (TypeError (arity_message "Streaming handler" params))
       end.

(** ** The registry *)
Record HandlerRegistry : Type := mkRegistry {
  r_handlers : list (string * Handler);
  r_streaming_handlers : list (string * StreamingHandler)
}.

Definition empty_registry : HandlerRegistry := mkRegistry [] [].

Definition register (payload_type : string) (h : Handler) (r : HandlerRegistry) :
    HandlerRegistry * res pyexn unit :=
  match validate_handler h with
  | Raise e => (r, Raise e)
  | Ret _ => (mkRegistry (PyDict.set payload_type h (r_handlers r)) (r_streaming_handlers r), Ret tt)
  end.

Definition has_handler (payload_type : string) (r : HandlerRegistry) : bool :=
  PyDict.mem payload_type (r_handlers r).

Definition register_streaming_handler (payload_type : string) (h : StreamingHandler) (r : HandlerRegistry) :
    HandlerRegistry * res pyexn unit :=
  match validate_streaming_handler h with
  | Raise e => (r, Raise e)
  | Ret _ => (mkRegistry (r_handlers r) (PyDict.set payload_type h (r_streaming_handlers r)), Ret tt)
  end.

Definition has_streaming_handler (payload_type : string) (r : HandlerRegistry) : bool :=
  PyDict.mem payload_type (r_streaming_handlers r).

Definition list_handlers (r : HandlerRegistry) : list string := PyDict.keys (r_handlers r).

(** ** Dispatch

    The state a dispatch works on: the metrics, the executor (if any), the
    metering store (if any) and the world of the handlers. *)
Record dstate : Type := mkD {
  d_metrics : MetricsCollector.t;
  d_executor : option BoundedExecutor.t;
  d_metering : option InMemoryMeteringStore.t;
  d_world : W
}.

Definition set_metering_store (store : option InMemoryMeteringStore.t) (s : dstate) : dstate :=
  mkD (d_metrics s) (d_executor s) store (d_world s).

Abbreviation D := (ST dstate exn).

Definition on_metrics (f : MetricsCollector.t → MetricsCollector.t) (s : dstate) : dstate :=
  mkD (f (d_metrics s)) (d_executor s) (d_metering s) (d_world s).

Definition _record_success (payload_type : string) (duration_ms : Q) (m : MetricsCollector.t) :
    MetricsCollector.t :=
  MetricsCollector.observe_histogram "asap_handler_duration_seconds" (duration_ms / 1000)
    [("payload_type", payload_type)]
    (MetricsCollector.increment_counter "asap_handler_executions_total" [("payload_type", payload_type)] 1 m).

Definition _record_error (payload_type : string) (m : MetricsCollector.t) : MetricsCollector.t :=
  MetricsCollector.increment_counter "asap_handler_errors_total" [("payload_type", payload_type)] 1 m.

(** Run code of the handler on its world. *)
Definition in_world {A} (f : W → W * res exn A) : D A := λ s,
  let '(w, r) := f (d_world s) in
  (mkD (d_metrics s) (d_executor s) (d_metering s) w, r).

Definition acquire : D unit := λ s,
  match d_executor s with
  | None => (s, Ret tt)
  | Some x =>
      let '(x', m', r) := BoundedExecutor.submit x (d_metrics s) in
      (mkD m' (Some x') (d_metering s) (d_world s), r)
  end.

Definition done : D unit :=
  st_modify (λ s, mkD (d_metrics s) (BoundedExecutor.release <$> d_executor s) (d_metering s) (d_world s)).

(** Call in the thread pool; the permit is released however the call ends. *)
Definition in_executor {A} (f : W → W * res exn A) : D A :=
  run! acquire in
  λ s, let '(s1, r) := in_world f s in let '(s2, _) := done s1 in (s2, r).

Definition await_called (c : called) : D Envelope :=
  match c with Now e => st_ret e | Later k => in_world k end.

Definition not_awaitable : exn := XOther "TypeError" "object Envelope can't be used in 'await' expression".

Definition run_handler (h : Handler) (envelope : Envelope) (manifest : Manifest) : D Envelope :=
  if h_async h then
    do! c <- in_world (h_call h envelope manifest) in
    match c with Now _ => st_stop not_awaitable | Later k => in_world k end
  else
    do! c <- in_executor (h_call h envelope manifest) in await_called c.

Section Dispatch.
  Context `{PyRuntime}.
  Variable registry : HandlerRegistry.
  Variable manifest : Manifest.

(** `_record_metering` at time [now]. *)
Definition _record_metering (now : Z) (envelope response : Envelope) (duration_ms : Q) : D unit := λ s,
  match d_metering s with
  | None => (s, Ret tt)
  | Some store =>
      let '(store', r) := record_task_usage now envelope response duration_ms (m_id manifest) store in
      (mkD (d_metrics s) (d_executor s) (Some store') (d_world s),
       match r with Ret _ => Ret tt | Raise e => Raise (of_pyexn e) end)
  end.

(** `try: ... except Exception as e: _record_error(...); raise` *)
Definition recording_errors {A} (payload_type : string) (m : D A) : D A := λ s,
  match m s with
  | (s', Raise e) => (on_metrics (_record_error payload_type) s', Raise e)
  | r => r
  end.

(** `dispatch`: synchronous; an awaitable result is refused. *)
Definition dispatch (duration_ms : Q) (envelope : Envelope) : D Envelope :=
  let payload_type := e_payload_type envelope in
  match PyDict.get payload_type (r_handlers registry) with
  | None => st_stop (raised (HandlerNotFoundError payload_type))
  | Some h =>
      recording_errors payload_type
        (do! c <- in_world (h_call h envelope manifest) in
         match c with
         | Later _ => st_stop (XOther "TypeError" "Handler returned awaitable in sync dispatch().")
         | Now response =>
             run! st_modify (on_metrics (_record_success payload_type duration_ms)) in
             st_ret response
         end)
  end.

Definition dispatch_async (now : Z) (duration_ms : Q) (envelope : Envelope) : D Envelope :=
  let payload_type := e_payload_type envelope in
  match PyDict.get payload_type (r_handlers registry) with
  | None => st_stop (raised (HandlerNotFoundError payload_type))
  | Some h =>
      recording_errors payload_type
        (do! response <- run_handler h envelope manifest in
         run! st_modify (on_metrics (_record_success payload_type duration_ms)) in
         run! _record_metering now envelope response duration_ms in
         st_ret response)
  end.

(** `dispatch_stream_async`, consumed to its end: the envelopes it yields and
    the exception that ends it, if any. *)
Definition dispatch_stream_async (duration_ms : Q) (envelope : Envelope) (s : dstate) :
    dstate * list Envelope * option exn :=
  let payload_type := e_payload_type envelope in
  match PyDict.get payload_type (r_streaming_handlers registry) with
  | None => (s, [], Some (raised (HandlerNotFoundError payload_type)))
  | Some h =>
      let '(w, out, e) := sh_stream h envelope manifest (d_world s) in
      let s' := mkD (d_metrics s) (d_executor s) (d_metering s) w in
      match e with
      | None => (on_metrics (_record_success payload_type duration_ms) s', out, None)
      | Some x => (on_metrics (_record_error payload_type) s', out, Some x)
      end
  end.

End Dispatch.

End Handlers.

Arguments called W : clear implicits.
Arguments Handler W : clear implicits.
Arguments StreamingHandler W : clear implicits.
Arguments HandlerRegistry W : clear implicits.
Arguments dstate W : clear implicits.

(** ** The pool is never oversubscribed *)
Lemma executor_step_inv (n : Z) (s s' : BoundedExecutor.t * Z) :
  BoundedExecutor.step s s' →
  BoundedExecutor.max_threads (fst s) = n ∧ BoundedExecutor.held (fst s) = snd s ∧ 0 <= snd s <= n →
  BoundedExecutor.max_threads (fst s') = n ∧ BoundedExecutor.held (fst s') = snd s' ∧ 0 <= snd s' <= n.
Proof.
  destruct 1 as [x m running x' m' Hs|x m running x' m' e Hs|x running Hr]; simpl; intros (Hn & Hh & Hb);
    unfold BoundedExecutor.submit in *.
  - destruct (_ <? _) eqn:E; simplify_eq/=. reflect. lia.
  - destruct (_ <? _) eqn:E; simplify_eq/=. lia.
  - lia.
Qed.

Lemma executor_reachable_inv x0 s :
  0 <= BoundedExecutor.max_threads x0 → BoundedExecutor.held x0 = 0 → BoundedExecutor.reachable x0 s →
  BoundedExecutor.max_threads (fst s) = BoundedExecutor.max_threads x0
  ∧ BoundedExecutor.held (fst s) = snd s ∧ 0 <= snd s <= BoundedExecutor.max_threads x0.
Proof.
  intros Hn Hh. induction 1 as [|s s' _ IH Hs]; [simpl; lia|]. by eapply executor_step_inv.
Qed.

(** The thread pool is never oversubscribed: over any sequence of
    submissions and completions the permits held are exactly the running tasks,
    never more than the configured maximum, and a submission is refused exactly
    when that many are running. *)
Theorem executor_bounds_threads (cpu_count : Z) (max_threads : option Z) (x0 x : BoundedExecutor.t)
    (running : Z) (m : MetricsCollector.t) :
  BoundedExecutor.init cpu_count max_threads = Ret x0 →
  BoundedExecutor.reachable x0 (x, running) →
  0 <= running <= BoundedExecutor.max_threads x0
  ∧ BoundedExecutor.held x = running
  ∧ ((∃ e, snd (BoundedExecutor.submit x m) = Raise e) ↔ running = BoundedExecutor.max_threads x0).
Proof.
  intros Hinit Hreach.
  assert (Hx0 : 1 <= BoundedExecutor.max_threads x0 ∧ BoundedExecutor.held x0 = 0).
  { unfold BoundedExecutor.init in Hinit. destruct (_ <? 1) eqn:E; [done|]. simplify_eq/=. reflect. done. }
  destruct (executor_reachable_inv x0 (x, running)) as (Hn & Hh & Hb); [lia|lia|done|]. simpl in *. split_and!; try lia; try done.
  unfold BoundedExecutor.submit. destruct (_ <? _) eqn:E; simpl; reflect.
  - split; [by intros [? ?]|lia].
  - split; [lia|]. intros _. by eexists.
Qed.

Lemma executor_bounds_threads_witness :
  0 <= 1 <= 1
  ∧ BoundedExecutor.held (BoundedExecutor.mk 1 1) = 1
  ∧ ((∃ e, snd (BoundedExecutor.submit (BoundedExecutor.mk 1 1) (MetricsCollector.init 0)) = Raise e) ↔ 1 = 1).
Proof.
  apply (executor_bounds_threads 4 (Some 1) (BoundedExecutor.mk 1 0) (BoundedExecutor.mk 1 1) 1
    (MetricsCollector.init 0)); [reflexivity|].
  eapply BoundedExecutor.reach_step; [apply BoundedExecutor.reach_init|].
  apply (BoundedExecutor.step_submit (BoundedExecutor.mk 1 0) (MetricsCollector.init 0) 0 _ (MetricsCollector.init 0)).
  reflexivity.
Defined.

(** ** What a dispatch leaves alone *)
Section Keeps.
  Context {W : Type} `{PyRuntime}.
  Implicit Types (s : dstate W).

(** A counter that no dispatch writes. *)
Definition not_dispatch_counter (name : string) : Prop :=
  name ∉ ["asap_handler_executions_total"; "asap_handler_errors_total"; "asap_thread_pool_exhausted_total"].

Definition counter_view (name : string) s : Q * bool :=
  (MetricsCollector.counter_total name (d_metrics s), MetricsCollector.has_counter name (d_metrics s)).

Variable name : string.
Hypothesis Hname : not_dispatch_counter name.

Lemma not_these n : n ∈ ["asap_handler_executions_total"; "asap_handler_errors_total";
  "asap_thread_pool_exhausted_total"] → name ≠ n.
Proof. intros Hn ->. by apply Hname. Qed.

Lemma view_increment n labels v s : name ≠ n →
  counter_view name (on_metrics (MetricsCollector.increment_counter n labels v) s) = counter_view name s.
Proof.
  intros Hne. unfold counter_view, on_metrics. simpl.
  by rewrite MetricsCollector.counter_total_increment_ne, MetricsCollector.has_counter_increment.
Qed.

Lemma view_record_error pt s : counter_view name (on_metrics (_record_error pt) s) = counter_view name s.
Proof. apply view_increment, not_these. rewrite !elem_of_cons. tauto. Qed.

Lemma view_record_success pt d s : counter_view name (on_metrics (_record_success pt d) s) = counter_view name s.
Proof.
  unfold counter_view, on_metrics, _record_success. simpl.
  rewrite MetricsCollector.counter_total_observe, MetricsCollector.has_counter_observe.
  rewrite MetricsCollector.counter_total_increment_ne, MetricsCollector.has_counter_increment; [done|].
  apply not_these. rewrite !elem_of_cons. tauto.
Qed.

Lemma keeps_in_world {A} (f : W → W * res exn A) : st_keeps (counter_view name) (in_world f).
Proof. intros s. unfold in_world. by destruct (f (d_world s)). Qed.

Lemma keeps_acquire : st_keeps (counter_view name) acquire.
Proof.
  intros s. unfold acquire. destruct (d_executor s) as [x|]; [|reflexivity].
  unfold BoundedExecutor.submit. destruct (_ <? _); [done|]. simpl.
  apply (view_increment "asap_thread_pool_exhausted_total" [] 1 s), not_these. rewrite !elem_of_cons. tauto.
Qed.

Lemma keeps_in_executor {A} (f : W → W * res exn A) : st_keeps (counter_view name) (in_executor f).
Proof.
  unfold in_executor. apply keeps_bind; [apply keeps_acquire|]. intros _ s.
  pose proof (keeps_in_world f s) as Hw. destruct (in_world f s) as [s1 r]. simpl in *. by rewrite <- Hw.
Qed.

Lemma keeps_run_handler h envelope manifest :
  st_keeps (counter_view name) (run_handler h envelope manifest).
Proof.
  unfold run_handler, await_called.
  repeat first [apply keeps_in_world | apply keeps_in_executor | keeps_step].
Qed.

Lemma keeps_record_metering manifest now envelope response d :
  st_keeps (counter_view name) (_record_metering manifest now envelope response d).
Proof.
  intros s. unfold _record_metering. destruct (d_metering s); [|done].
  by destruct (record_task_usage _ _ _ _ _ _).
Qed.

Lemma keeps_recording_errors {A} pt (m : ST (dstate W) exn A) :
  st_keeps (counter_view name) m → st_keeps (counter_view name) (recording_errors pt m).
Proof.
  intros Hm s. unfold recording_errors. specialize (Hm s). destruct (m s) as [s' [e|a]]; simpl in *; [|done].
  by rewrite view_record_error.
Qed.

Lemma keeps_dispatch_async registry manifest now d envelope :
  st_keeps (counter_view name) (dispatch_async registry manifest now d envelope).
Proof.
  unfold dispatch_async. destruct (PyDict.get _ _); [|apply keeps_stop].
  apply keeps_recording_errors. apply keeps_bind; [apply keeps_run_handler|]. intros response.
  apply keeps_bind; [apply keeps_modify; intros s; apply view_record_success|]. intros _.
  apply keeps_bind; [apply keeps_record_metering|]. intros _. apply keeps_ret.
Qed.
End Keeps.
