(* ===== verification/Signing.v ===== *)
(** * Keys, manifest signatures and trust levels

    `src/src/asap/crypto/keys.py` (base64 keys), `signing.py`, `models.py`,
    `trust.py` and `trust_levels.py`.  Ed25519 and the JSON canonicalization of
    the `jcs` package are the parameter [Crypto]; `base64` is written out as the
    interpreter decodes it, which skips characters outside the alphabet. *)

From Stdlib Require Import ZArith Lia Ascii String.
From stdpp Require Import base tactics list gmap strings.
From S2P Require Import Prelude PyValue Digest Errors Handlers.
Open Scope string_scope.
Open Scope Z_scope.
Open Scope asap_scope.

Abbreviation octets := (list Z).

(** ** `base64.b64encode` and `base64.b64decode` *)
Module Base64.

Definition alphabet : string :=
  "ABCDEFGHIJKLMNOPQRSTUVWXYZabcdefghijklmnopqrstuvwxyz0123456789+/".

Definition sym (n : Z) : ascii :=
  match String.get (Z.to_nat n) alphabet with Some c => c | None => "="%char end.

Definition unsym (c : ascii) : option Z :=
  let n := Z.of_nat (nat_of_ascii c) in
  if (65 <=? n) && (n <=? 90) then Some (n - 65)
  else if (97 <=? n) && (n <=? 122) then Some (n - 71)
  else if (48 <=? n) && (n <=? 57) then Some (n + 4)
  else if n =? 43 then Some 62
  else if n =? 47 then Some 63
  else None.

Fixpoint b64encode (m : octets) : string :=
  match m with
  | [] => ""
  | [a] => String (sym (a / 4)) (String (sym ((a mod 4) * 16)) "==")
  | [a; b] =>
      String (sym (a / 4)) (String (sym ((a mod 4) * 16 + b / 16)) (String (sym ((b mod 16) * 4)) "="))
  | a :: b :: c :: m' =>
      String (sym (a / 4)) (String (sym ((a mod 4) * 16 + b / 16))
        (String (sym ((b mod 16) * 4 + c / 64)) (String (sym (c mod 64)) (b64encode m'))))
  end.

Inductive error : Type :=
| BinasciiError (msg : string)
| NotAscii.

(** The decoder's loop: position in the group of four, padding characters seen
    in it, bits left over, number of data characters. *)
Fixpoint a2b (quad_pos pads : nat) (leftchar chars : Z) (s : string) : res error octets :=
  match s with
  | EmptyString =>
      match quad_pos with
      | O => Ret []
      | S O => Raise (BinasciiError ("Invalid base64-encoded string: number of data characters ("
                        ++ PyStr.dec_Z chars ++ ") cannot be 1 more than a multiple of 4"))
      | _ => Raise (BinasciiError "Incorrect padding")
      end
  | String c s' =>
      if Ascii.eqb c "=" then
        if (2 <=? quad_pos)%nat && (4 <=? quad_pos + S pads)%nat then Ret []
        else a2b quad_pos (if (2 <=? quad_pos)%nat then S pads else pads) leftchar chars s'
      else
        match unsym c with
        | None => a2b quad_pos pads leftchar chars s'
        | Some x =>
            match quad_pos with
            | O => a2b 1 0 x (chars + 1) s'
            | S O => rmap (cons (leftchar * 4 + x / 16)) (a2b 2 0 (x mod 16) (chars + 1) s')
            | S (S O) => rmap (cons (leftchar * 16 + x / 4)) (a2b 3 0 (x mod 4) (chars + 1) s')
            | _ => rmap (cons (leftchar * 64 + x)) (a2b 0 0 0 (chars + 1) s')
            end
        end
  end.

Fixpoint is_ascii (s : string) : bool :=
  match s with EmptyString => true | String c s' => (PyStr.code c <? 128)%nat && is_ascii s' end.

Definition b64decode (s : string) : res error octets :=
  if is_ascii s then a2b 0 0 0 0 s else Raise NotAscii.

(** `str(e)` *)
Definition message (e : error) : string :=
  match e with BinasciiError m => m | NotAscii => "string argument should contain only ASCII characters" end.

(** *** Round trip *)
Definition octet (b : Z) : Prop := 0 <= b < 256.

Lemma sym_facts x : 0 <= x < 64 →
  unsym (sym x) = Some x ∧ Ascii.eqb (sym x) "=" = false ∧ (PyStr.code (sym x) <? 128)%nat = true.
Proof.
  intros Hx.
  assert (Hall : forallb (λ x, bool_decide (unsym (sym x) = Some x) && negb (Ascii.eqb (sym x) "=")
                               && (PyStr.code (sym x) <? 128)%nat) (seqZ 0 64) = true) by (vm_compute; reflexivity).
  rewrite forallb_elem_of in Hall. specialize (Hall x). cbv beta in Hall.
  assert (Hin : x ∈ seqZ 0 64) by (apply elem_of_seqZ; lia). specialize (Hall Hin).
  apply andb_prop in Hall as [Hall H3]. apply andb_prop in Hall as [H1 H2].
  apply bool_decide_eq_true in H1. apply negb_true_iff in H2. done.
Qed.

Lemma a2b_sym q p l n x s : 0 <= x < 64 →
  a2b q p l n (String (sym x) s) =
  match q with
  | O => a2b 1 0 x (n + 1) s
  | S O => rmap (cons (l * 4 + x / 16)) (a2b 2 0 (x mod 16) (n + 1) s)
  | S (S O) => rmap (cons (l * 16 + x / 4)) (a2b 3 0 (x mod 4) (n + 1) s)
  | _ => rmap (cons (l * 64 + x)) (a2b 0 0 0 (n + 1) s)
  end.
Proof. intros Hx. destruct (sym_facts x Hx) as (H1 & H2 & _). cbn [a2b]. by rewrite H2, H1. Qed.

(** Induction by groups of three. *)
Lemma groups_ind (P : octets → Prop) :
  P [] → (∀ a, P [a]) → (∀ a b, P [a; b]) → (∀ a b c m, P m → P (a :: b :: c :: m)) → ∀ m, P m.
Proof.
  intros H0 H1 H2 H3. refine (fix IH m := _).
  destruct m as [|a [|b [|c m]]]; [exact H0|apply H1|apply H2|apply H3, IH].
Qed.

Ltac bits := unfold octet in *; Z.div_mod_to_equations; lia.

Lemma a2b_encode m n : Forall octet m → a2b 0 0 0 n (b64encode m) = Ret m.
Proof.
  revert n. induction m as [|a|a b|a b c m IH] using groups_ind; intros n Hm; [done|..]; cbn [b64encode].
  - apply Forall_cons in Hm as [Ha _]. rewrite a2b_sym by bits. rewrite a2b_sym by bits.
    cbn. do 2 f_equal. bits.
  - apply Forall_cons in Hm as [Ha Hm]. apply Forall_cons in Hm as [Hb _].
    do 3 (rewrite a2b_sym by bits). cbn. do 2 f_equal; [bits|]. f_equal. bits.
  - apply Forall_cons in Hm as [Ha Hm]. apply Forall_cons in Hm as [Hb Hm]. apply Forall_cons in Hm as [Hc Hm].
    do 4 (rewrite a2b_sym by bits). rewrite IH by done. cbn. do 2 f_equal; [bits|]. f_equal; [bits|]. f_equal. bits.
Qed.

Lemma encode_ascii m : Forall octet m → is_ascii (b64encode m) = true.
Proof.
  induction m as [|a|a b|a b c m IH] using groups_ind; intros Hm; [done|..]; cbn [b64encode is_ascii].
  - apply Forall_cons in Hm as [Ha _].
    rewrite !(λ x H, proj2 (proj2 (sym_facts x H))) by bits. done.
  - apply Forall_cons in Hm as [Ha Hm]. apply Forall_cons in Hm as [Hb _].
    rewrite !(λ x H, proj2 (proj2 (sym_facts x H))) by bits. done.
  - apply Forall_cons in Hm as [Ha Hm]. apply Forall_cons in Hm as [Hb Hm]. apply Forall_cons in Hm as [Hc Hm].
    rewrite !(λ x H, proj2 (proj2 (sym_facts x H))) by bits. by apply IH.
Qed.

Lemma decode_encode m : Forall octet m → b64decode (b64encode m) = Ret m.
Proof. intros Hm. unfold b64decode. by rewrite encode_ascii, a2b_encode. Qed.

Lemma encode_nonempty a m : PyStr.truthy (b64encode (a :: m)) = true.
Proof. destruct m as [|b [|c m]]; done. Qed.

End Base64.

(** ** Data *)
Inductive TrustLevel : Type := SELF_SIGNED | VERIFIED | ENTERPRISE.
#[export] Instance TrustLevel_eq_dec : EqDecision TrustLevel.
Proof. solve_decision. Defined.

Definition trust_value (l : TrustLevel) : string :=
  match l with SELF_SIGNED => "self-signed" | VERIFIED => "verified" | ENTERPRISE => "enterprise" end.

Record SignatureBlock : Type := mkSignature { alg : string; signature : string; trust_level : TrustLevel }.

Record SignedManifest (M : Type) : Type := mkSigned {
  sm_manifest : M;
  sm_signature : SignatureBlock;
  sm_public_key : option string
}.
Arguments mkSigned {M}.
Arguments sm_manifest {M}.
Arguments sm_signature {M}.
Arguments sm_public_key {M}.

(** The `cryptography` and `jcs` packages; keys are their raw bytes, and
    [ed_load] says which 32 bytes `from_public_bytes` accepts. *)
Class Crypto (M : Type) : Type := {
  private_key : Type;
  ed_public : private_key → octets;
  ed_sign : private_key → octets → octets;
  ed_verify : octets → octets → octets → bool;
  ed_load : octets → res pyexn unit;
  (** `jcs.canonicalize(manifest.model_dump(exclude={"signature"}))` *)
  jcs_dump : M → octets
}.

Definition ED25519_ORDER : Z := 2 ^ 252 + 27742317777372353535851937790883648493.

(** `int.from_bytes(b, "little")` *)
Fixpoint from_bytes_little (b : octets) : Z :=
  match b with [] => 0 | x :: b' => x + 256 * from_bytes_little b' end.

Class CryptoLaws (M : Type) `{Crypto M} : Prop := {
  public_size : ∀ k, length (ed_public k) = 32%nat;
  public_octets : ∀ k, Forall Base64.octet (ed_public k);
  public_loads : ∀ k, ed_load (ed_public k) = Ret tt;
  sign_size : ∀ k m, length (ed_sign k m) = 64%nat;
  sign_octets : ∀ k m, Forall Base64.octet (ed_sign k m);
  sign_strict : ∀ k m, from_bytes_little (drop 32 (ed_sign k m)) < ED25519_ORDER;
  sign_verifies : ∀ k m, ed_verify (ed_public k) (ed_sign k m) m = true
}.

Fixpoint hex_aux (fuel : nat) (z : Z) (acc : string) : string :=
  match fuel with
  | O => acc
  | S fuel' =>
      let acc' := String (hex_digit (z mod 16)) acc in
      if z / 16 =? 0 then acc' else hex_aux fuel' (z / 16) acc'
  end.
(** `hex(z)` of a natural number. *)
Definition py_hex (z : Z) : string := "0x" ++ hex_aux (S (Z.to_nat (Z.log2 z))) z "".

Section Signing.
  Context {M : Type} `{Crypto M}.

Definition octets_len (b : octets) : string := PyStr.dec_Z (Z.of_nat (length b)).

Definition public_key_to_base64 (key : octets) : string := Base64.b64encode key.

Definition load_public_key_from_base64 (b64 : string) : res pyexn octets :=
  match Base64.b64decode b64 with
  | Raise e => Raise (ValueError (Base64.message e))
  | Ret raw =>
      if negb (length raw =? 32)%nat then
        Raise (ValueError ("Ed25519 public key must be 32 bytes, got " ++ octets_len raw))
      else let! _ := ed_load raw in Ret raw
  end.

Definition canonicalize (manifest : M) : octets := jcs_dump manifest.

Definition sign_manifest (manifest : M) (key : private_key) : res pyexn (SignedManifest M) :=
  let payload_bytes := canonicalize manifest in
  let raw_signature := ed_sign key payload_bytes in
  if negb (length raw_signature =? 64)%nat then
    Raise (ValueError ("Ed25519 signature must be 64 bytes, got " ++ octets_len raw_signature))
  else
    let block := mkSignature "ed25519" (Base64.b64encode raw_signature) SELF_SIGNED in
    Ret (mkSigned manifest block (Some (public_key_to_base64 (ed_public key)))).

Definition refuse (message : string) (details : list (string * json)) : exn :=
  raised (SignatureVerificationError message details).

Definition _enforce_strict_scalar (raw_sig : octets) : res exn unit :=
  let s_int := from_bytes_little (drop 32 raw_sig) in
  if ED25519_ORDER <=? s_int then
    Raise (refuse "Signature malleability detected: scalar s >= group order l (RFC 8032 strict violation)."
             [("s_value_hex", JStr (py_hex s_int))])
  else Ret tt.

(** The key to verify with. *)
Definition verification_key (signed : SignedManifest M) (public_key : option octets) : res exn octets :=
  match public_key with
  | Some pk => Ret pk
  | None =>
      match sm_public_key signed with
      | Some b64 =>
          if PyStr.truthy b64 then
            match load_public_key_from_base64 b64 with
            | Ret pk => Ret pk
            | Raise (ValueError m) => Raise (refuse ("Invalid public_key in signed manifest: " ++ m ++ ".") [])
            | Raise e => Raise (of_pyexn e)
            end
          else Raise (refuse "Cannot verify: no public key provided and signed manifest has no public_key." [])
      | None => Raise (refuse "Cannot verify: no public key provided and signed manifest has no public_key." [])
      end
  end.

Definition decode_signature (b64 : string) : res exn octets :=
  match Base64.b64decode b64 with
  | Ret raw => Ret raw
  | Raise (Base64.BinasciiError m) => Raise (refuse ("Invalid signature encoding (base64): " ++ m ++ ".") [])
  | Raise e => Raise (of_pyexn (ValueError (Base64.message e)))
  end.

Definition verify_manifest (signed : SignedManifest M) (public_key : option octets) : res exn bool :=
  if negb (String.eqb (alg (sm_signature signed)) "ed25519") then
    Raise (refuse ("Unsupported signature algorithm: " ++ alg (sm_signature signed)
                   ++ ". Only ed25519 is supported.") [("alg", JStr (alg (sm_signature signed)))])
  else
    let! pk := verification_key signed public_key in
    let! raw_sig := decode_signature (signature (sm_signature signed)) in
    if negb (length raw_sig =? 64)%nat then
      Raise (refuse ("Ed25519 signature must be 64 bytes, got " ++ octets_len raw_sig ++ ". Possible tampering.")
               [("signature_length", JInt (Z.of_nat (length raw_sig)))])
    else
      let! _ := _enforce_strict_scalar raw_sig in
      let payload_bytes := canonicalize (sm_manifest signed) in
      if ed_verify pk raw_sig payload_bytes then Ret true
      else Raise (refuse "Signature verification failed: manifest may have been tampered with or signature is invalid."
                    [("cause", JStr "")]).

(** ** Trust *)
Definition detect_trust_level (signed : SignedManifest M) : TrustLevel := trust_level (sm_signature signed).

Definition sign_with_ca (manifest : M) (agent_key ca_key : private_key) : SignedManifest M :=
  let payload_bytes := canonicalize manifest in
  let raw_signature := ed_sign ca_key payload_bytes in
  let sig_block := mkSignature "ed25519" (Base64.b64encode raw_signature) VERIFIED in
  mkSigned manifest sig_block (Some (public_key_to_base64 (ed_public ca_key))).

(** A known CA is given by its base64 text or by its key. *)
Definition ca_base64 (ca : string + octets) : string :=
  match ca with inl b64 => b64 | inr key => public_key_to_base64 key end.

Definition verify_ca_signature (signed : SignedManifest M) (known_cas : list (string + octets)) : res exn bool :=
  if bool_decide (trust_level (sm_signature signed) ≠ VERIFIED) then
    Raise (refuse ("Expected trust_level=verified for CA verification, got "
                   ++ trust_value (trust_level (sm_signature signed)) ++ ".")
             [("trust_level", JStr (trust_value (trust_level (sm_signature signed))))])
  else
    match sm_public_key signed with
    | Some b64 =>
        if negb (PyStr.truthy b64) then
          Raise (refuse "Cannot verify CA: signed manifest has no public_key." [])
        else
          match load_public_key_from_base64 b64 with
          | Raise e => Raise (of_pyexn e)
          | Ret public_key =>
              let known_ca_b64 := map ca_base64 known_cas in
              if negb (str_in (public_key_to_base64 public_key) known_ca_b64) then
                Raise (refuse "CA not in known_cas: signature from unknown CA."
                         [("public_key_preview", JStr (String.substring 0 16 b64 ++ "..."))])
              else let! _ := verify_manifest signed (Some public_key) in Ret true
          end
    | None => Raise (refuse "Cannot verify CA: signed manifest has no public_key." [])
    end.

(** ** What a verified manifest carries *)

(** The signature of the block is one of the manifest's canonical text under
    the key, 64 bytes long with a reduced scalar. *)
Definition properly_signed (signed : SignedManifest M) (pk : octets) : Prop :=
  ∃ raw, Base64.b64decode (signature (sm_signature signed)) = Ret raw
    ∧ length raw = 64%nat ∧ from_bytes_little (drop 32 raw) < ED25519_ORDER
    ∧ ed_verify pk raw (canonicalize (sm_manifest signed)) = true.

Lemma decode_signature_ret b64 raw : decode_signature b64 = Ret raw → Base64.b64decode b64 = Ret raw.
Proof. unfold decode_signature. destruct (Base64.b64decode b64) as [[]|]; [done..|]. by intros [= <-]. Qed.

Lemma verify_manifest_inv signed key b : verify_manifest signed key = Ret b →
  b = true ∧ ∃ pk, verification_key signed key = Ret pk ∧ properly_signed signed pk.
Proof.
  unfold verify_manifest. destruct (String.eqb _ _); cbn [negb]; [|done].
  destruct (verification_key signed key) as [|pk] eqn:Hk; cbn [rbind]; [done|].
  destruct (decode_signature _) as [|raw] eqn:Hd; cbn [rbind]; [done|].
  destruct (length raw =? 64)%nat eqn:Hl; cbn [negb]; [|done].
  unfold _enforce_strict_scalar. destruct (ED25519_ORDER <=? _) eqn:Hs; cbn [rbind]; [done|].
  destruct (ed_verify _ _ _) eqn:Hv; [|done]. intros [= <-]. split; [done|]. exists pk. split; [done|].
  exists raw. apply Z.leb_gt in Hs. apply Nat.eqb_eq in Hl. by apply decode_signature_ret in Hd.
Qed.

(** Verification with a given key, when the parts are in order. *)
Lemma verify_manifest_ok signed key pk : alg (sm_signature signed) = "ed25519" →
  verification_key signed key = Ret pk → properly_signed signed pk → verify_manifest signed key = Ret true.
Proof.
  intros Ha Hk (raw & Hd & Hl & Hs & Hv). unfold verify_manifest, decode_signature, _enforce_strict_scalar.
  rewrite Ha, Hk, Hd. cbn [negb rbind]. change (String.eqb "ed25519" "ed25519") with true. cbn [negb rbind].
  rewrite Hl. cbn [Nat.eqb negb]. rewrite (proj2 (Z.leb_gt _ _) Hs). cbn [rbind]. by rewrite Hv.
Qed.

Lemma load_public_key_inv b64 pk : load_public_key_from_base64 b64 = Ret pk →
  Base64.b64decode b64 = Ret pk ∧ length pk = 32%nat ∧ ed_load pk = Ret tt.
Proof.
  unfold load_public_key_from_base64. destruct (Base64.b64decode b64) as [|raw]; [done|].
  destruct (length raw =? 32)%nat eqn:E; cbn [negb]; [|done].
  destruct (ed_load raw) as [|[]] eqn:El; [done|]. intros [= <-]. by apply Nat.eqb_eq in E.
Qed.

Section Laws.
  Context `{!CryptoLaws M}.

Lemma load_own_key k : load_public_key_from_base64 (public_key_to_base64 (ed_public k)) = Ret (ed_public k).
Proof.
  unfold load_public_key_from_base64, public_key_to_base64. rewrite Base64.decode_encode by apply public_octets.
  rewrite public_size, public_loads. done.
Qed.

Lemma own_key_truthy k : PyStr.truthy (public_key_to_base64 (ed_public k)) = true.
Proof.
  unfold public_key_to_base64. pose proof (public_size k). destruct (ed_public k); [done|].
  apply Base64.encode_nonempty.
Qed.

Lemma own_signature m k block pk' : alg block = "ed25519" →
  signature block = Base64.b64encode (ed_sign k (canonicalize m)) →
  properly_signed (mkSigned m block pk') (ed_public k).
Proof.
  intros Ha Hs. exists (ed_sign k (canonicalize m)). cbn [sm_signature sm_manifest]. rewrite Hs.
  split_and!; [apply Base64.decode_encode, sign_octets|apply sign_size|apply sign_strict|apply sign_verifies].
Qed.

Lemma embedded_key m block k :
  verification_key (mkSigned m block (Some (public_key_to_base64 (ed_public k)))) None = Ret (ed_public k).
Proof. unfold verification_key. cbn [sm_public_key]. by rewrite own_key_truthy, load_own_key. Qed.

End Laws.
End Signing.

(** Round trip of signatures.  A manifest signed with any key verifies, with
    the embedded key and with the signer's, as self-signed; one signed by a CA
    verifies as such for every list of known CAs that has the CA, by its text or
    by its key. *)
Theorem signed_manifest_verifies {M} `{CryptoLaws M} (m : M) (k ca : private_key)
    (known_cas : list (string + octets)) :
  inl (public_key_to_base64 (ed_public ca)) ∈ known_cas ∨ inr (ed_public ca) ∈ known_cas →
  (∃ signed, sign_manifest m k = Ret signed
     ∧ verify_manifest signed None = Ret true
     ∧ verify_manifest signed (Some (ed_public k)) = Ret true
     ∧ sm_manifest signed = m ∧ detect_trust_level signed = SELF_SIGNED)
  ∧ verify_ca_signature (sign_with_ca m k ca) known_cas = Ret true.
Proof.
  intros Hca. split.
  - unfold sign_manifest. rewrite sign_size. cbn [Nat.eqb negb]. eexists. split; [reflexivity|].
    split_and!; [| |done|done]; (eapply verify_manifest_ok; [done| |by apply own_signature]);
      [apply embedded_key|done].
  - unfold verify_ca_signature, sign_with_ca. cbn [sm_signature trust_level sm_public_key].
    rewrite bool_decide_false by (intros Hn; by apply Hn).
    rewrite own_key_truthy, load_own_key. cbn [negb].
    assert (str_in (public_key_to_base64 (ed_public ca)) (map ca_base64 known_cas) = true) as ->.
    { apply str_in_true. destruct Hca as [Hin|Hin]; apply (list_elem_of_fmap_2 ca_base64) in Hin; exact Hin. }
    cbn [negb]. erewrite verify_manifest_ok; [done|done|reflexivity|by apply own_signature].
Qed.

Lemma verify_ca_signature_inv {M} `{Crypto M} (signed : SignedManifest M) (known_cas : list (string + octets)) (b : bool) :
  verify_ca_signature signed known_cas = Ret b →
  b = true ∧ ∃ pk, properly_signed signed pk
    ∧ public_key_to_base64 pk ∈ map ca_base64 known_cas ∧ detect_trust_level signed = VERIFIED.
Proof.
  unfold verify_ca_signature. case_bool_decide as Ht; [done|].
  destruct (sm_public_key signed) as [b64|]; [|done]. destruct (PyStr.truthy b64); [|done]. cbn [negb].
  destruct (load_public_key_from_base64 b64) as [|pk]; [done|].
  destruct (str_in _ _) eqn:Ein; cbn [negb]; [|done].
  destruct (verify_manifest signed (Some pk)) as [|v] eqn:Hv; [done|]. intros [= <-]. split; [done|].
  apply verify_manifest_inv in Hv as (_ & pk' & [= <-] & Hs). exists pk. split; [done|].
  split; [by apply str_in_true|]. unfold detect_trust_level. by destruct (decide (trust_level (sm_signature signed) = VERIFIED)).
Qed.

(** C23: Verification is sound.  Whatever key it is given, `verify_manifest`
    answers true or raises, and true means: the key used is the given one (or,
    with none given, the embedded one, of 32 bytes), and under it the manifest's
    canonical text carries a 64-byte signature whose scalar is below the group
    order.  A CA verification that succeeds was in addition made with a key among
    the known CAs. *)
Theorem verify_manifest_sound {M} `{Crypto M} (signed : SignedManifest M) (key : option octets)
    (known_cas : list (string + octets)) (b : bool) :
  (verify_manifest signed key = Ret b →
   b = true ∧ ∃ pk, properly_signed signed pk ∧
     match key with
     | Some k => pk = k
     | None => ∃ b64, sm_public_key signed = Some b64 ∧ Base64.b64decode b64 = Ret pk ∧ length pk = 32%nat
     end)
  ∧ (verify_ca_signature signed known_cas = Ret b →
     b = true ∧ ∃ pk, properly_signed signed pk
       ∧ public_key_to_base64 pk ∈ map ca_base64 known_cas ∧ detect_trust_level signed = VERIFIED).
Proof.
  split.
  - intros (-> & pk & Hk & Hs)%verify_manifest_inv. split; [done|]. exists pk. split; [done|].
    destruct key as [k|]; [by injection Hk|]. unfold verification_key in Hk.
    destruct (sm_public_key signed) as [b64|]; [|done]. destruct (PyStr.truthy b64); [|done].
    destruct (load_public_key_from_base64 b64) as [[]|pk'] eqn:El; try done. injection Hk as ->.
    apply load_public_key_inv in El as (? & ? & _). by exists b64.
  - apply verify_ca_signature_inv.
Qed.

(** The same signed manifest under another trust level. *)
Definition relabel {M} (l : TrustLevel) (signed : SignedManifest M) : SignedManifest M :=
  mkSigned (sm_manifest signed)
    (mkSignature (alg (sm_signature signed)) (signature (sm_signature signed)) l) (sm_public_key signed).

(** The trust level is outside the signature: whatever level anybody writes
    into the block of a signed manifest, verification succeeds or fails as
    before and the detected level is the one written, so a self-signed manifest
    passes for a verified or enterprise one until a CA check is made. *)
Theorem trust_level_is_not_signed {M} `{Crypto M} (signed : SignedManifest M) (key : option octets)
    (l : TrustLevel) :
  verify_manifest (relabel l signed) key = verify_manifest signed key
  ∧ detect_trust_level (relabel l signed) = l.
Proof. by destruct signed as [m [a s t] pk]. Qed.

(** ** An instance for the examples

    A signature that repeats the key byte and a checksum of the message. *)
Module ToyCrypto.
Definition checksum (m : octets) : Z := foldr Z.add 0 m mod 256.
Definition toy_public (k : Z) : octets := replicate 32 (k mod 256).
Definition toy_sign (k : Z) (m : octets) : octets :=
  (replicate 32 (k mod 256) ++ [checksum m] ++ replicate 31 0)%list.
Definition toy_verify (pk raw m : octets) : bool :=
  bool_decide (raw = (pk ++ [checksum m] ++ replicate 31 0)%list).

#[local] Instance toy : Crypto octets :=
  {| private_key := Z; ed_public := toy_public; ed_sign := toy_sign; ed_verify := toy_verify;
     ed_load := λ _, Ret tt; jcs_dump := λ m, m |}.

Lemma octet_mod x : Base64.octet (x mod 256).
Proof. unfold Base64.octet. apply Z.mod_pos_bound. lia. Qed.

Lemma octets_replicate n x : Base64.octet x → Forall Base64.octet (replicate n x).
Proof. intros Hx. by apply Forall_replicate. Qed.

Lemma strict_scalar c : c < 256 → from_bytes_little (c :: replicate 31 0) < ED25519_ORDER.
Proof.
  intros Hc. change (from_bytes_little (c :: replicate 31 0)) with (c + 0).
  assert (256 < ED25519_ORDER) by reflexivity. lia.
Qed.

#[local] Instance toy_laws : CryptoLaws octets.
Proof.
  split; cbn [ed_public ed_sign ed_verify ed_load private_key toy].
  - intros k. apply length_replicate.
  - intros k. apply octets_replicate, octet_mod.
  - done.
  - intros k m. unfold toy_sign. by rewrite length_app, length_replicate.
  - intros k m. apply Forall_app. split; [apply octets_replicate, octet_mod|].
    apply Forall_app. split; [repeat constructor; apply octet_mod|apply octets_replicate; unfold Base64.octet; lia].
  - intros k m. unfold toy_sign. rewrite drop_app_length' by done.
    apply strict_scalar, octet_mod.
  - intros k m. by apply bool_decide_eq_true.
Qed.
End ToyCrypto.

Lemma signed_manifest_verifies_witness :
  verify_ca_signature (H := ToyCrypto.toy) (sign_with_ca (H := ToyCrypto.toy) [1; 2] 7 9)
    [inr (ToyCrypto.toy_public 9)] = Ret true.
Proof.
  destruct (@signed_manifest_verifies _ ToyCrypto.toy ToyCrypto.toy_laws [1; 2] 7 9 [inr (ToyCrypto.toy_public 9)])
    as [_ H]; [right; by apply list_elem_of_singleton|exact H].
Defined.

Lemma verify_manifest_sound_witness :
  ∃ pk, properly_signed (H := ToyCrypto.toy) (sign_with_ca (H := ToyCrypto.toy) [1; 2] 7 9) pk
    ∧ public_key_to_base64 pk ∈ map ca_base64 [inr (ToyCrypto.toy_public 9)].
Proof.
  destruct (proj2 (@verify_manifest_sound _ ToyCrypto.toy (sign_with_ca (H := ToyCrypto.toy) [1; 2] 7 9) None
    [inr (ToyCrypto.toy_public 9)] true) ltac:(vm_compute; reflexivity)) as (_ & pk & H1 & H2 & _).
  exists pk. split; [exact H1|exact H2].
Defined.
