(* ===== verification/Middleware.v ===== *)
(** * HTTP requests, replies and the transport's middleware

    `src/src/asap/transport/middleware.py`: bearer authentication, the sender
    check, the size limit, the negotiation of the protocol version and the reply
    to a rate-limited request. *)

From Stdlib Require Import ZArith Lia Ascii String.
From stdpp Require Import base tactics list gmap strings sorting.
From S2P Require Import Prelude PyValue Digest ReplayGuard EnvelopeGuard Metrics Errors Compression JsonRpc Handlers RateLimit.
Open Scope string_scope.
Open Scope Z_scope.
Open Scope asap_scope.

(** ** Requests and replies *)
Record HttpRequest : Type := mkHttpRequest {
  hq_method : string;
  hq_path : string;
  (** header names in lower case *)
  hq_headers : list (string * string);
  (** scheme and token FastAPI's `HTTPBearer` extracts *)
  hq_credentials : option (string * string);
  (** the address of the client *)
  hq_client : option string;
  (** the chunks of the body *)
  hq_stream : list bytes
}.

Definition header (name : string) (r : HttpRequest) : option string := assoc name (hq_headers r).

Inductive body : Type :=
| JsonBody (content : json)
| LambdaBody (content : list Z)
| EventStream (events : list json).

Record HttpResponse : Type := mkHttpResponse {
  hs_status : Z;
  hs_body : body;
  hs_headers : list (string * string)
}.

Record HTTPException : Type := mkHTTPException {
  hx_status_code : Z;
  hx_detail : string;
  hx_headers : list (string * string)
}.

(** `json.dumps(..., allow_nan=False)` refuses a float that is not finite. *)
Fixpoint finite_json (j : json) : bool :=
  match j with
  | JFloat (FFin _) => true
  | JFloat _ => false
  | JList l => forallb finite_json l
  | JObj d => forallb (λ kv, finite_json (snd kv)) d
  | _ => true
  end.

Definition not_compliant : exn := XOther "ValueError" "Out of range float values are not JSON compliant".

(** What serializing a reply can raise beside the refusal of a float that is not
    finite: `json.dumps` on a value that has no JSON form (an exception's details may
    hold any object), the encoding of its text or of a header that does not allow
    it.  [None]: it is serialized. *)
Class Serializer : Type := { render_error : json → list (string * string) → option exn }.

(** JSON values and headers that can be encoded are serialized. *)
Class PlainSerializer `{Serializer} : Prop := {
  plain_renders : ∀ content headers, finite_json content = true → render_error content headers = None
}.

(** What rendering the content raises, if anything. *)
Definition unrendered `{Serializer} (content : json) (headers : list (string * string)) : option exn :=
  if finite_json content then render_error content headers else Some not_compliant.

(** `JSONResponse(status_code, content, headers)`, which renders its content. *)
Definition JSONResponse `{Serializer} (status_code : Z) (content : json) (headers : list (string * string)) :
    res exn HttpResponse :=
  match unrendered content headers with
  | None => Ret (mkHttpResponse status_code (JsonBody content) headers)
  | Some x => Raise x
  end.

Definition HTTP_UNAUTHORIZED : Z := 401.
Definition HTTP_FORBIDDEN : Z := 403.
Definition HTTP_TOO_MANY_REQUESTS : Z := 429.
Definition AUTH_SCHEME_BEARER : string := "bearer".
Definition ERROR_AUTH_REQUIRED : string := "Authentication required".
Definition ERROR_INVALID_TOKEN : string := "Invalid authentication token".
Definition ERROR_SENDER_MISMATCH : string := "Sender does not match authenticated identity".
Definition ERROR_RATE_LIMIT_EXCEEDED : string := "Rate limit exceeded".

(** ** Authentication *)
Inductive auth_exn : Type :=
| AuthHttp (e : HTTPException)
| AuthEscapes (x : exn).

Section Auth.
  Context {W : Type}.

(** A token validator is the application's code. *)
Record AuthenticationMiddleware : Type := mkAuth {
  am_manifest : Manifest;
  am_validator : option (string → W → W * res exn (option string))
}.

Definition _is_auth_required (m : Manifest) : bool := is_some (m_auth_schemes m).

(** `AuthenticationMiddleware(manifest, validator)` *)
Definition new_auth (manifest : Manifest) (validator : option (string → W → W * res exn (option string))) :
    res pyexn AuthenticationMiddleware :=
  if _is_auth_required manifest && is_none validator then
    Raise (ValueError "Token validator required when authentication is configured in manifest")
  else Ret (mkAuth manifest validator).

Definition _supports_bearer_auth (a : AuthenticationMiddleware) : bool :=
  match m_auth_schemes (am_manifest a) with
  | None => false
  | Some schemes => str_in AUTH_SCHEME_BEARER schemes
  end.

Definition unauthorized (detail : string) : auth_exn :=
  AuthHttp (mkHTTPException HTTP_UNAUTHORIZED detail [("WWW-Authenticate", "Bearer")]).

Definition verify_authentication (a : AuthenticationMiddleware) (request : HttpRequest) (w : W) :
    W * res auth_exn (option string) :=
  if negb (_is_auth_required (am_manifest a)) then (w, Ret None)
  else
    match hq_credentials request with
    | None => (w, Raise (unauthorized ERROR_AUTH_REQUIRED))
    | Some (scheme, token) =>
        if negb (String.eqb (PyStr.lower scheme) AUTH_SCHEME_BEARER) then
          (w, Raise (unauthorized ERROR_INVALID_TOKEN))
        else if negb (_supports_bearer_auth a) then (w, Raise (unauthorized ERROR_INVALID_TOKEN))
        else
          match am_validator a with
          | None =>
              (w, Raise (AuthEscapes (XOther "RuntimeError"
                 ("Token validator is None but authentication is required. "
                  ++ "This should not happen if middleware was initialized correctly."))))
          | Some validator =>
              match validator token w with
              | (w', Raise x) => (w', Raise (AuthEscapes x))
              | (w', Ret None) => (w', Raise (unauthorized ERROR_INVALID_TOKEN))
              | (w', Ret (Some agent_id)) => (w', Ret (Some agent_id))
              end
          end
    end.

Definition verify_sender_matches_auth (authenticated_agent_id : option string) (envelope_sender : string) :
    res HTTPException unit :=
  match authenticated_agent_id with
  | None => Ret tt
  | Some id =>
      if negb (String.eqb envelope_sender id) then
        Raise (mkHTTPException HTTP_FORBIDDEN ERROR_SENDER_MISMATCH [])
      else Ret tt
  end.

(** An authenticated identity was vouched for by the validator. *)
Lemma verify_authentication_sound a request w w' id :
  verify_authentication a request w = (w', Ret id) →
  (id = None ∧ m_auth_schemes (am_manifest a) = None ∧ w' = w)
  ∨ ∃ agent scheme token validator,
      id = Some agent ∧ hq_credentials request = Some (scheme, token)
      ∧ am_validator a = Some validator ∧ validator token w = (w', Ret (Some agent)).
Proof.
  unfold verify_authentication, _is_auth_required. destruct (m_auth_schemes (am_manifest a)) eqn:E; simpl.
  - destruct (hq_credentials request) as [[scheme token]|]; [|done].
    destruct (negb _); [done|]. destruct (negb _); [done|].
    destruct (am_validator a) as [v|] eqn:Ev; [|done].
    destruct (v token w) as [w1 [x|[agent|]]] eqn:Et; intros Hr; simplify_eq.
    right. by exists agent, scheme, token, v.
  - intros [= <- <-]. by left.
Qed.
End Auth.
Arguments AuthenticationMiddleware W : clear implicits.

(** ** Size limit *)
Definition MAX_REQUEST_SIZE : Z := 10 * 1024 * 1024.

Definition size_limit_init (max_size : Z) : res pyexn Z :=
  if max_size <? 1 then Raise (ValueError ("max_size must be >= 1, got " ++ PyStr.dec_Z max_size))
  else Ret max_size.

Definition size_detail (size max_size : Z) : string :=
  "Request size (" ++ PyStr.dec_Z size ++ " bytes) exceeds maximum (" ++ PyStr.dec_Z max_size ++ " bytes)".

(** The header announces more than the limit; a header that is no number is
    ignored. *)
Definition announced_too_large (max_size : Z) (request : HttpRequest) : option Z :=
  match header "content-length" request with
  | Some v =>
      if PyStr.truthy v then
        match PyInt.of_str v with
        | Some size => if max_size <? size then Some size else None
        | None => None
        end
      else None
  | None => None
  end.

(** `_validate_request_size` of the request handler. *)
Definition _validate_request_size (request : HttpRequest) (max_size : Z) : res HTTPException unit :=
  match announced_too_large max_size request with
  | Some size => Raise (mkHTTPException 413 (size_detail size max_size) [])
  | None => Ret tt
  end.

Section Stack.
  Context {S : Type} `{Serializer}.
  (** What the middleware calls: the next middleware or the route. *)
  Abbreviation app := (HttpRequest → S → S * res exn HttpResponse).

Definition size_limit (max_size : Z) (call_next : app) : app := λ request s,
  match announced_too_large max_size request with
  | Some size => (s, JSONResponse 413 (JObj [("detail", JStr (size_detail size max_size))]) [])
  | None => call_next request s
  end.

(** ** Version negotiation *)
Definition ASAP_VERSION_HEADER : string := "ASAP-Version".
Definition ASAP_DEFAULT_TRANSPORT_VERSION : string := "2.2".
Definition ASAP_SUPPORTED_TRANSPORT_VERSIONS : list string := ["2.1"; "2.2"].
Definition _ASAP_VERSION_NEGOTIATION_PATHS : list string := ["/asap"; "/asap/stream"].

Fixpoint first_supported (parts : list string) : option string :=
  match parts with
  | [] => None
  | part :: parts' =>
      let token := PyStr.strip part in
      if str_in token ASAP_SUPPORTED_TRANSPORT_VERSIONS then Some token else first_supported parts'
  end.

Definition _first_supported_transport_version (header_value : string) : option string :=
  first_supported (PyStr.split "," header_value).

(** `response.headers[name] = value` *)
Definition with_header (name value : string) (r : res exn HttpResponse) : res exn HttpResponse :=
  rmap (λ h, mkHttpResponse (hs_status h) (hs_body h) (PyDict.set name value (hs_headers h))) r.

Definition version_error (requested : string) : json :=
  dump_error_response
    (mkErrorResponse
       (mkRpcError VERSION_INCOMPATIBLE (er_message (from_code VERSION_INCOMPATIBLE None))
          (Some [("requested", JStr requested);
                 ("supported", JList (map JStr ASAP_SUPPORTED_TRANSPORT_VERSIONS))])) None).

(** The version to answer with, or the unsupported header. *)
Definition negotiate (request : HttpRequest) : res string string :=
  if String.eqb (hq_method request) "POST" && str_in (hq_path request) _ASAP_VERSION_NEGOTIATION_PATHS then
    match header "asap-version" request with
    | Some raw =>
        let stripped := PyStr.strip raw in
        if PyStr.truthy stripped then
          match _first_supported_transport_version stripped with
          | None => Raise stripped
          | Some v => Ret v
          end
        else Ret ASAP_DEFAULT_TRANSPORT_VERSION
    | None => Ret ASAP_DEFAULT_TRANSPORT_VERSION
    end
  else Ret ASAP_DEFAULT_TRANSPORT_VERSION.

Definition asap_version (call_next : app) : app := λ request s,
  match negotiate request with
  | Raise stripped =>
      (s, with_header ASAP_VERSION_HEADER ASAP_DEFAULT_TRANSPORT_VERSION
            (JSONResponse 200 (version_error stripped) []))
  | Ret v => let '(s', r) := call_next request s in (s', with_header ASAP_VERSION_HEADER v r)
  end.

(** ** Properties *)

Lemma first_supported_sound parts v : first_supported parts = Some v →
  v ∈ ASAP_SUPPORTED_TRANSPORT_VERSIONS ∧ ∃ p, p ∈ parts ∧ v = PyStr.strip p.
Proof.
  induction parts as [|p parts IH]; simpl; [done|].
  destruct (str_in (PyStr.strip p) _) eqn:E.
  - intros [= <-]. apply str_in_true in E. split; [done|]. exists p. split; [left|done].
  - intros (? & p' & ? & ?)%IH. split; [done|]. exists p'. by split; [right|].
Qed.

(** Every reply names a supported version, and the route runs only under one. *)
Lemma version_is_negotiated (call_next : app) request s s' h :
  asap_version call_next request s = (s', Ret h) →
  ∃ v, PyDict.get ASAP_VERSION_HEADER (hs_headers h) = Some v ∧ v ∈ ASAP_SUPPORTED_TRANSPORT_VERSIONS.
Proof.
  assert (Hn : ∀ v, negotiate request = Ret v → v ∈ ASAP_SUPPORTED_TRANSPORT_VERSIONS).
  { intros v. unfold negotiate.
    assert (Hdef : Ret (E := string) ASAP_DEFAULT_TRANSPORT_VERSION = Ret v → v ∈ ASAP_SUPPORTED_TRANSPORT_VERSIONS).
    { intros [= <-]. by apply str_in_true. }
    destruct (_ && _); [|done]. destruct (header _ request) as [raw|]; [|done].
    destruct (PyStr.truthy _); [|done].
    destruct (_first_supported_transport_version _) eqn:E; [|done]. intros [= <-].
    by apply first_supported_sound in E as [? _]. }
  unfold asap_version. destruct (negotiate request) as [st|v] eqn:E.
  - unfold with_header, rmap. destruct (JSONResponse _ _ _) eqn:Ej; simpl; [done|]. intros [= <- <-]. simpl.
    exists ASAP_DEFAULT_TRANSPORT_VERSION. split; [by rewrite PyDict.get_set_eq|by apply str_in_true].
  - destruct (call_next request s) as [s1 r]. unfold with_header, rmap. destruct r; simpl; [done|].
    intros [= <- <-]. exists v. simpl. split; [by rewrite PyDict.get_set_eq|by apply Hn].
Qed.

(** A request that announces too large a body never reaches the route. *)
Lemma size_limit_shields `{!PlainSerializer} max_size (call_next : app) request s size :
  announced_too_large max_size request = Some size →
  fst (size_limit max_size call_next request s) = s
  ∧ ∃ h, snd (size_limit max_size call_next request s) = Ret h ∧ hs_status h = 413.
Proof.
  intros E. unfold size_limit, JSONResponse, unrendered. rewrite E, plain_renders by done. split; [done|]. eexists. by split.
Qed.

End Stack.

(** ** Rate limits *)

(** `rate_limit_handler` for a [RateLimitExceeded]; the request id is what the
    application put on the request's state. *)
Definition rate_limit_handler `{Serializer} (request_id : json) (e : RateLimit.RateLimitExceeded) : res exn HttpResponse :=
  let retry_after := rl_retry_after e in
  let limit_str := if PyStr.truthy (rl_limit e) then rl_limit e else "10/second;100/minute" in
  JSONResponse HTTP_TOO_MANY_REQUESTS
    (JObj [("jsonrpc", JStr "2.0"); ("id", request_id);
           ("error", JObj [("code", JInt HTTP_TOO_MANY_REQUESTS); ("message", JStr ERROR_RATE_LIMIT_EXCEEDED);
                           ("data", JObj [("retry_after", JInt retry_after); ("limit", JStr limit_str)])])])
    [("Retry-After", PyStr.dec_Z retry_after)].
