(* ===== verification/Challenge.v ===== *)
(** * The `WWW-Authenticate: ASAP` challenge

    `src/src/asap/transport/challenge.py`: how a server names its manifest in a
    401 response and how the client reads the name back.  The two regular
    expressions are written out as scanners. *)

From Stdlib Require Import ZArith Lia Ascii String.
From stdpp Require Import base tactics list gmap strings.
From S2P Require Import Prelude PyValue Digest Errors Handlers Metrics JsonRpc Middleware.
Open Scope string_scope.
Open Scope Z_scope.
Open Scope asap_scope.

Definition backslash : ascii := ascii_of_nat 92.
Definition quot : string := String dquote "".

(** ** Printing *)
Definition escape_discovery (url : string) : string :=
  MetricsCollector.replace_char dquote (String backslash quot)
    (MetricsCollector.replace_char backslash (String backslash (String backslash "")) url).

Definition format_www_authenticate_asap (discovery_url : string) : string :=
  "ASAP discovery=" ++ quot ++ escape_discovery discovery_url ++ quot.

(** ** Parsing *)

(** `\w` on a character of the string, or past its ends. *)
Definition is_word (c : option ascii) : bool :=
  match c with Some c => is_alnum c || Ascii.eqb c "_" | None => false end.
Definition first_char (s : string) : option ascii :=
  match s with String c _ => Some c | EmptyString => None end.

(** `re.search(r"\bASAP\b", s, re.IGNORECASE)`, with the character before [s]. *)
Fixpoint has_asap_scheme (before : option ascii) (s : string) : bool :=
  (negb (is_word before) && PyStr.startswith (PyStr.lower s) "asap"
   && negb (is_word (first_char (PyStr.drop 4 s))))
  || match s with EmptyString => false | String c s' => has_asap_scheme (Some c) s' end.

(** `((?:[^"\\]|\\.)* )"`: the characters before the closing quote; an escaped
    character is anything but a newline. *)
Fixpoint quoted (s : string) : option string :=
  match s with
  | EmptyString => None
  | String c s' =>
      if Ascii.eqb c dquote then Some ""
      else if Ascii.eqb c backslash then
        match s' with
        | String c' s'' =>
            if (PyStr.code c' =? 10)%nat then None
            else (λ r, String c (String c' r)) <$> quoted s''
        | EmptyString => None
        end
      else String c <$> quoted s'
  end.

(** `discovery\s*=\s*"..."` at the start of [s]. *)
Definition discovery_at (s : string) : option string :=
  if PyStr.startswith (PyStr.lower s) "discovery" then
    match PyStr.lstrip (PyStr.drop 9 s) with
    | String "=" s1 =>
        match PyStr.lstrip s1 with
        | String c s2 => if Ascii.eqb c dquote then quoted s2 else None
        | EmptyString => None
        end
    | _ => None
    end
  else None.

Fixpoint search_discovery (s : string) : option string :=
  match discovery_at s with
  | Some raw => Some raw
  | None => match s with EmptyString => None | String _ s' => search_discovery s' end
  end.

(** `s.replace(ab, c)` for a pattern of two characters. *)
Fixpoint replace_pair (a b c : ascii) (s : string) : string :=
  match s with
  | String x ((String y s'') as s') =>
      if Ascii.eqb x a && Ascii.eqb y b then String c (replace_pair a b c s'')
      else String x (replace_pair a b c s')
  | _ => s
  end.

Definition unescape_discovery (raw : string) : string :=
  replace_pair backslash backslash backslash (replace_pair backslash dquote dquote raw).

Definition parse_www_authenticate_asap (header_value : option string) : option string :=
  match header_value with
  | Some v =>
      if PyStr.truthy v && has_asap_scheme None v then unescape_discovery <$> search_discovery v else None
  | None => None
  end.

(** ** The middleware *)
Record WWWAuthenticateASAPMiddleware : Type := mkChallenge {
  ch_default_discovery_url : string;
  ch_path_prefixes : option (list string);
  ch_path_matcher : option (string → bool)
}.

Definition _should_challenge (m : WWWAuthenticateASAPMiddleware) (path : string) : bool :=
  match ch_path_matcher m with
  | Some f => f path
  | None =>
      match ch_path_prefixes m with
      | Some ((_ :: _) as ps) => existsb (PyStr.startswith path) ps
      | _ => true
      end
  end.

(** [override]: the attribute of `request.state`, if it is a string. *)
Definition _discovery_for (m : WWWAuthenticateASAPMiddleware) (override : option string) : string :=
  match override with
  | Some o => if PyStr.nonblank o then PyStr.strip o else ch_default_discovery_url m
  | None => ch_default_discovery_url m
  end.

(** Header names are compared without case. *)
Definition get_header (name : string) (hs : list (string * string)) : option string :=
  snd <$> find (λ kv, String.eqb (PyStr.lower (fst kv)) (PyStr.lower name)) hs.
Definition same_header (name : string) (kv : string * string) : bool :=
  String.eqb (PyStr.lower (fst kv)) (PyStr.lower name).

(** `headers[name] = value`: the first of the name is replaced where it is, any
    other of the name dropped; a new one goes last. *)
Fixpoint set_header (name value : string) (hs : list (string * string)) : list (string * string) :=
  match hs with
  | [] => [(name, value)]
  | kv :: hs' =>
      if same_header name kv then (name, value) :: filter (λ kv, same_header name kv = false) hs'
      else kv :: set_header name value hs'
  end.

Definition challenge_headers (discovery : string) (hs : list (string * string)) : list (string * string) :=
  let header_value := format_www_authenticate_asap discovery in
  set_header "WWW-Authenticate"
    match get_header "www-authenticate" hs with
    | Some existing => if PyStr.truthy existing then existing ++ ", " ++ header_value else header_value
    | None => header_value
    end hs.

Definition dispatch {S} (m : WWWAuthenticateASAPMiddleware) (override : HttpRequest → option string)
    (call_next : HttpRequest → S → S * res exn HttpResponse) (request : HttpRequest) (s : S) :
    S * res exn HttpResponse :=
  let '(s', r) := call_next request s in
  (s', rmap (λ response,
         if negb (hs_status response =? HTTP_UNAUTHORIZED) then response
         else if negb (_should_challenge m (hq_path request)) then response
         else mkHttpResponse (hs_status response) (hs_body response)
                (challenge_headers (_discovery_for m (override request)) (hs_headers response))) r).

(** ** Escaping *)

(** Both replacements in one pass. *)
Fixpoint esc (s : string) : string :=
  match s with
  | EmptyString => ""
  | String c s' =>
      if Ascii.eqb c backslash then String backslash (String backslash (esc s'))
      else if Ascii.eqb c dquote then String backslash (String dquote (esc s'))
      else String c (esc s')
  end.
(** The backslashes doubled. *)
Fixpoint dbl (s : string) : string :=
  match s with
  | EmptyString => ""
  | String c s' => if Ascii.eqb c backslash then String backslash (String backslash (dbl s')) else String c (dbl s')
  end.

Lemma escape_esc s : escape_discovery s = esc s.
Proof.
  unfold escape_discovery. induction s as [|c s IH]; [done|]. cbn [esc MetricsCollector.replace_char].
  destruct (Ascii.eqb_spec c backslash) as [-> | Hb]; [rewrite <- IH; reflexivity|].
  cbn [MetricsCollector.replace_char]. rewrite IH. by destruct (Ascii.eqb_spec c dquote) as [-> | ].
Qed.

(** No quote of an escaped text stands alone. *)
Lemma quote_after_backslash s :
  replace_pair backslash dquote dquote (String backslash (esc s))
  = String backslash (replace_pair backslash dquote dquote (esc s)).
Proof.
  destruct s as [|c s]; [done|]. cbn [esc].
  destruct (Ascii.eqb_spec c backslash) as [-> | Hb]; [done|].
  destruct (Ascii.eqb_spec c dquote) as [-> | Hq]; [done|]. cbn [replace_pair].
  by rewrite (proj2 (Ascii.eqb_neq c dquote) Hq), andb_false_r.
Qed.

Lemma replace_pair_other a b x c s : c ≠ a →
  replace_pair a b x (String c s) = String c (replace_pair a b x s).
Proof. intros Hne. cbn. destruct s; [done|]. by rewrite (proj2 (Ascii.eqb_neq c a) Hne). Qed.

Lemma unescape_quotes s : replace_pair backslash dquote dquote (esc s) = dbl s.
Proof.
  induction s as [|c s IH]; [done|]. cbn [esc dbl].
  destruct (Ascii.eqb_spec c backslash) as [-> | Hb].
  - rewrite <- IH, <- quote_after_backslash. reflexivity.
  - destruct (Ascii.eqb_spec c dquote) as [-> | Hq]; [by rewrite <- IH|].
    by rewrite replace_pair_other, IH.
Qed.

Lemma unescape_backslashes s : replace_pair backslash backslash backslash (dbl s) = s.
Proof.
  induction s as [|c s IH]; [done|]. cbn [dbl].
  destruct (Ascii.eqb_spec c backslash) as [-> | Hb]; [cbn; by rewrite IH|].
  by rewrite replace_pair_other, IH.
Qed.

Lemma unescape_escape s : unescape_discovery (esc s) = s.
Proof. unfold unescape_discovery. by rewrite unescape_quotes, unescape_backslashes. Qed.

Lemma quoted_esc s rest : quoted (esc s ++ String dquote rest) = Some (esc s).
Proof.
  induction s as [|c s IH]; [done|]. cbn [esc].
  destruct (Ascii.eqb_spec c backslash) as [-> | Hb].
  { transitivity ((λ r, String backslash (String backslash r)) <$> quoted (esc s ++ String dquote rest));
      [reflexivity|by rewrite IH]. }
  destruct (Ascii.eqb_spec c dquote) as [-> | Hq].
  { transitivity ((λ r, String backslash (String dquote r)) <$> quoted (esc s ++ String dquote rest));
      [reflexivity|by rewrite IH]. }
  change (String c (esc s) ++ String dquote rest) with (String c (esc s ++ String dquote rest)).
  cbn [quoted]. rewrite (proj2 (Ascii.eqb_neq c dquote) Hq), (proj2 (Ascii.eqb_neq c backslash) Hb). by rewrite IH.
Qed.

(** ** Searching *)
Lemma lower_app a b : PyStr.lower (a ++ b) = PyStr.lower a ++ PyStr.lower b.
Proof. induction a as [|c a IH]; [done|]. change (String c a ++ b) with (String c (a ++ b)). cbn [PyStr.lower]. by rewrite IH. Qed.

Fixpoint has_char (x : ascii) (s : string) : bool :=
  match s with EmptyString => false | String c s' => Ascii.eqb c x || has_char x s' end.

Lemma prefix_before_sep p x sep r : has_char sep p = false →
  String.prefix p (x ++ String sep r) = String.prefix p x.
Proof.
  revert x. induction p as [|c p IH]; intros x Hp; [by destruct x|].
  cbn in Hp. apply orb_false_iff in Hp as [Hc Hp]. apply Ascii.eqb_neq in Hc.
  destruct x as [|d x].
  - cbn [String.append String.prefix]. change ("" ++ String sep r) with (String sep r). cbn [String.prefix].
    by destruct (ascii_dec c sep).
  - change (String d x ++ String sep r) with (String d (x ++ String sep r)). cbn [String.prefix].
    destruct (ascii_dec c d); [|done]. by apply IH.
Qed.

Lemma search_skips a r : PyStr.contains (PyStr.lower a) "discovery" = false →
  search_discovery (a ++ String "," r) = search_discovery r.
Proof.
  induction a as [|c a IH]; intros Ha; [done|].
  cbn [PyStr.lower PyStr.contains] in Ha. apply orb_false_iff in Ha as [Hp Ha].
  change (String c a ++ String "," r) with (String c (a ++ String "," r)). cbn [search_discovery].
  unfold discovery_at, PyStr.startswith. rewrite <- (IH Ha).
  change (String c (a ++ String "," r)) with (String c a ++ String "," r).
  rewrite lower_app. change (PyStr.lower (String "," r)) with (String "," (PyStr.lower r)).
  rewrite prefix_before_sep by done. change (PyStr.lower (String c a)) with (String (PyStr.lower_char c) (PyStr.lower a)).
  by rewrite Hp.
Qed.

Lemma search_format url : search_discovery (format_www_authenticate_asap url) = Some (esc url).
Proof.
  unfold format_www_authenticate_asap. rewrite escape_esc.
  change (search_discovery ("ASAP discovery=" ++ quot ++ esc url ++ quot))
    with (match quoted (esc url ++ quot) with
          | Some raw => Some raw
          | None => search_discovery ("iscovery=" ++ quot ++ esc url ++ quot) end).
  unfold quot at 1. by rewrite quoted_esc.
Qed.

Lemma asap_scheme_after a before r : has_asap_scheme before (a ++ ", ASAP " ++ r) = true.
Proof.
  revert before. induction a as [|c a IH]; intros before.
  - change ("" ++ ", ASAP " ++ r) with (", ASAP " ++ r).
    change (has_asap_scheme before (", ASAP " ++ r)) with ((negb (is_word before) && false && false) || true).
    by rewrite orb_true_r.
  - change (String c a ++ ", ASAP " ++ r) with (String c (a ++ ", ASAP " ++ r)). cbn [has_asap_scheme].
    by rewrite IH, orb_true_r.
Qed.

Lemma parse_format url : parse_www_authenticate_asap (Some (format_www_authenticate_asap url)) = Some url.
Proof.
  unfold parse_www_authenticate_asap. rewrite search_format. cbn [fmap option_fmap option_map].
  rewrite unescape_escape. reflexivity.
Qed.

Lemma parse_appended existing url : PyStr.contains (PyStr.lower existing) "discovery" = false →
  parse_www_authenticate_asap (Some (existing ++ ", " ++ format_www_authenticate_asap url)) = Some url.
Proof.
  intros He. unfold parse_www_authenticate_asap.
  assert (PyStr.truthy (existing ++ ", " ++ format_www_authenticate_asap url) = true) as ->
    by (by destruct existing).
  unfold format_www_authenticate_asap at 1.
  change (", " ++ "ASAP discovery=" ++ quot ++ escape_discovery url ++ quot)
    with (", ASAP " ++ ("discovery=" ++ quot ++ escape_discovery url ++ quot)).
  rewrite asap_scheme_after. cbn [andb].
  change (", " ++ format_www_authenticate_asap url) with (String "," (" " ++ format_www_authenticate_asap url)).
  rewrite search_skips by done.
  change (search_discovery (" " ++ format_www_authenticate_asap url))
    with (search_discovery (format_www_authenticate_asap url)).
  rewrite search_format. cbn. by rewrite unescape_escape.
Qed.

Lemma get_set_header hs name value :
  get_header name (set_header name value hs) = Some value.
Proof.
  unfold get_header. induction hs as [|kv hs IH]; cbn.
  - by rewrite String.eqb_refl.
  - unfold same_header at 1. destruct (String.eqb _ _) eqn:E; cbn; [by rewrite String.eqb_refl|by rewrite E].
Qed.

(** Round trip of the challenge: behind the middleware, a client that reads
    the `WWW-Authenticate` header of a 401 response of a challenged path gets
    exactly the discovery URL the server configured, whatever characters it
    contains and whatever other challenge the response already carried (as long
    as that one has no `discovery` parameter); responses of another status or
    path are left as they are. *)
Theorem challenge_reaches_client {S} (m : WWWAuthenticateASAPMiddleware)
    (override : HttpRequest → option string) (call_next : HttpRequest → S → S * res exn HttpResponse)
    (request : HttpRequest) (s s' : S) (response : HttpResponse) :
  call_next request s = (s', Ret response) →
  (∀ existing, get_header "www-authenticate" (hs_headers response) = Some existing →
     PyStr.contains (PyStr.lower existing) "discovery" = false) →
  ∃ h, dispatch m override call_next request s = (s', Ret h) ∧
    hs_status h = hs_status response ∧ hs_body h = hs_body response ∧
    if (hs_status response =? 401) && _should_challenge m (hq_path request)
    then parse_www_authenticate_asap (get_header "WWW-Authenticate" (hs_headers h))
         = Some (_discovery_for m (override request))
    else h = response.
Proof.
  intros Hc He. unfold dispatch. rewrite Hc. cbn [rmap rbind]. unfold HTTP_UNAUTHORIZED.
  destruct (hs_status response =? 401); cbn [negb andb]; [|by exists response].
  destruct (_should_challenge m (hq_path request)); cbn [negb]; [|by exists response].
  eexists. split_and!; [done..|]. cbn [hs_headers]. unfold challenge_headers.
  rewrite get_set_header.
  destruct (get_header "www-authenticate" (hs_headers response)) as [existing|]; [|apply parse_format].
  specialize (He existing eq_refl).
  destruct (PyStr.truthy existing); [by apply parse_appended|apply parse_format].
Qed.

Lemma challenge_reaches_client_witness :
  ∃ h, dispatch (mkChallenge "https://a.example/m.json" None None) (λ _, None)
         (λ _ s, (s, Ret (mkHttpResponse 401 (JsonBody JNull) [("www-authenticate", "Bearer")])))
         (mkHttpRequest "POST" "/asap" [] None None []) tt = (tt, Ret h)
    ∧ parse_www_authenticate_asap (get_header "WWW-Authenticate" (hs_headers h)) = Some "https://a.example/m.json".
Proof.
  destruct (challenge_reaches_client (mkChallenge "https://a.example/m.json" None None) (λ _, None)
    (λ _ s, (s, Ret (mkHttpResponse 401 (JsonBody JNull) [("www-authenticate", "Bearer")])))
    (mkHttpRequest "POST" "/asap" [] None None []) tt tt
    (mkHttpResponse 401 (JsonBody JNull) [("www-authenticate", "Bearer")]) eq_refl) as (h & Hd & _ & _ & Hp).
  - intros existing [= <-]. reflexivity.
  - exists h. split; [exact Hd|exact Hp].
Defined.
