(* ===== verification/ManifestCache.v ===== *)
(** * The manifest cache

    `src/src/asap/transport/cache.py`: an ordered dictionary, least recently
    used first, whose entries expire.  Every method runs under the cache's lock
    and is one step; the clock is `time.monotonic()` in microseconds.  The theorems
    compare the cache with the history of calls made on it. *)

From Stdlib Require Import ZArith Lia Ascii String.
From stdpp Require Import base tactics list gmap strings.
From S2P Require Import Prelude PyValue ReplayGuard.
Open Scope Z_scope.
Set Warnings "-clear-no-such-hyp".

Definition DEFAULT_TTL : Z := 300 * second.
Definition DEFAULT_MAX_SIZE : Z := 1000.

Module ManifestCache.
Section Cache.
  Context {M : Type}.

Record CacheEntry : Type := mkCacheEntry { manifest : M; expires_at : Z }.

Definition new_entry (now : Z) (m : M) (ttl : Z) : CacheEntry := mkCacheEntry m (now + ttl).
Definition is_expired (now : Z) (e : CacheEntry) : bool := expires_at e <=? now.

Record t : Type := mk {
  cache : list (string * CacheEntry);
  default_ttl : Z;
  max_size : Z
}.

Definition init (default_ttl max_size : Z) : t := mk [] default_ttl max_size.
Definition with_cache (d : list (string * CacheEntry)) (c : t) : t := mk d (default_ttl c) (max_size c).

(** `OrderedDict.move_to_end` of a present key. *)
Definition move_to_end (url : string) (e : CacheEntry) (d : list (string * CacheEntry)) :=
  PyDict.del url d ++ [(url, e)].

Definition get (now : Z) (url : string) (c : t) : t * option M :=
  match PyDict.get url (cache c) with
  | None => (c, None)
  | Some entry =>
      if is_expired now entry then (with_cache (PyDict.del url (cache c)) c, None)
      else (with_cache (move_to_end url entry (cache c)) c, Some (manifest entry))
  end.

(** `while len(cache) >= max_size: cache.popitem(last=False)` *)
Fixpoint evict (max : Z) (d : list (string * CacheEntry)) : list (string * CacheEntry) :=
  if max <=? Z.of_nat (length d) then
    match d with [] => [] | _ :: d' => evict max d' end
  else d.

Definition set (now : Z) (url : string) (m : M) (ttl : option Z) (c : t) : t :=
  let ttl := default (default_ttl c) ttl in
  let d :=
    if PyDict.mem url (cache c) then PyDict.del url (cache c)
    else if 0 <? max_size c then evict (max_size c) (cache c)
    else cache c in
  with_cache (PyDict.set url (new_entry now m ttl) d) c.

Definition invalidate (url : string) (c : t) : t := with_cache (PyDict.del url (cache c)) c.
Definition clear_all (c : t) : t := with_cache [] c.
Definition size (c : t) : Z := Z.of_nat (length (cache c)).

(** The keys collected first, then deleted one by one. *)
Definition expired_urls (now : Z) (d : list (string * CacheEntry)) : list string :=
  (filter (λ kv, is_expired now kv.2 = true) d).*1.
Definition cleanup_expired (now : Z) (c : t) : t * Z :=
  let urls := expired_urls now (cache c) in
  (with_cache (fold_left (λ d url, PyDict.del url d) urls (cache c)) c, Z.of_nat (length urls)).

(** ** Histories of calls *)
Inductive call : Type :=
| Get (url : string)
| Set_ (url : string) (m : M) (ttl : option Z)
| Invalidate (url : string)
| ClearAll
| Cleanup.

Definition do_call (c : t) (tc : Z * call) : t :=
  match tc with
  | (now, Get url) => fst (get now url c)
  | (now, Set_ url m ttl) => set now url m ttl c
  | (_, Invalidate url) => invalidate url c
  | (_, ClearAll) => clear_all c
  | (now, Cleanup) => fst (cleanup_expired now c)
  end.
Definition do_calls (c : t) (l : list (Z * call)) : t := fold_left do_call l c.

(** What a map without bound or expiry would hold for a URL. *)
Definition written_by (ttl0 : Z) (url : string) (w : option CacheEntry) (tc : Z * call) : option CacheEntry :=
  match tc with
  | (now, Set_ url' m ttl) =>
      if decide (url = url') then Some (new_entry now m (default ttl0 ttl)) else w
  | (_, Invalidate url') => if decide (url = url') then None else w
  | (_, ClearAll) => None
  | _ => w
  end.
Definition last_written (ttl0 : Z) (url : string) (l : list (Z * call)) : option CacheEntry :=
  fold_left (written_by ttl0 url) l None.

(** ** Invariant *)
Definition inv (c : t) : Prop :=
  PyDict.wf (cache c) ∧ (0 < max_size c → size c <= max_size c).

Lemma evict_suffix max d : ∃ pre, d = pre ++ evict max d.
Proof.
  induction d as [|kv d [pre IH]]; cbn [evict]; [exists []; by case_match|].
  case_match; [|by exists []]. exists (kv :: pre). cbn. by f_equal.
Qed.

Lemma evict_below max d : 0 < max → Z.of_nat (length (evict max d)) < max.
Proof. intros Hm. induction d as [|kv d IH]; cbn [evict]; case_match; crush. Qed.

Lemma wf_suffix (pre d : list (string * CacheEntry)) : PyDict.wf (pre ++ d) → PyDict.wf d.
Proof. unfold PyDict.wf, PyDict.keys. rewrite fmap_app. by intros (_ & _ & ?)%NoDup_app. Qed.

Lemma wf_evict max d : PyDict.wf d → PyDict.wf (evict max d).
Proof. destruct (evict_suffix max d) as [pre Hp]. rewrite Hp at 1. apply wf_suffix. Qed.

Lemma del_le url d : (length (PyDict.del url d : list (string * CacheEntry)) <= length d)%nat.
Proof. apply sublist_length, PyDict.del_sublist. Qed.

Lemma del_lt url d e : PyDict.get url d = Some e →
  S (length (PyDict.del url d : list (string * CacheEntry))) = length d.
Proof.
  induction d as [|[k v] d IH]; cbn; [done|]. case_decide; cbn; [done|]. intros ?. by rewrite IH.
Qed.

Lemma fold_del_sublist urls d :
  sublist (fold_left (λ d url, PyDict.del url d) urls d : list (string * CacheEntry)) d.
Proof.
  revert d. induction urls as [|u urls IH]; intros d; cbn; [done|].
  etrans; [apply IH|apply PyDict.del_sublist].
Qed.

Lemma wf_sublist (d d' : list (string * CacheEntry)) : sublist d' d → PyDict.wf d → PyDict.wf d'.
Proof. unfold PyDict.wf, PyDict.keys. intros Hs Hd. eapply sublist_NoDup; [done|]. by apply fmap_sublist. Qed.

Lemma inv_sublist d c : sublist d (cache c) → inv c → inv (with_cache d c).
Proof.
  intros Hs [Hw Hb]. split; [by eapply wf_sublist|]. intros Hm. cbn in *.
  specialize (Hb Hm). unfold size in *. cbn. apply sublist_length in Hs. lia.
Qed.

Lemma wf_move_to_end url e d : PyDict.wf d → PyDict.wf (move_to_end url e d).
Proof.
  intros Hd. unfold move_to_end, PyDict.wf, PyDict.keys. rewrite fmap_app. cbn.
  apply NoDup_app_single; [by apply PyDict.wf_del|]. apply PyDict.get_None. by apply PyDict.get_del_eq.
Qed.

Lemma cache_inv_get now url c : inv c → inv (fst (get now url c)).
Proof.
  intros Hi. unfold get. destruct (PyDict.get url (cache c)) as [e|] eqn:E; [|done].
  destruct (is_expired now e); cbn [fst]; [apply inv_sublist; [apply PyDict.del_sublist|done]|].
  destruct Hi as [Hw Hb]. split; [by apply wf_move_to_end|]. intros Hm. specialize (Hb Hm).
  unfold size, move_to_end in *. cbn. rewrite length_app. cbn. rewrite Nat.add_1_r.
  by rewrite (del_lt _ _ _ E).
Qed.

(** The dictionary [set] writes into: it has no entry for the URL and room for
    one more. *)
Definition base (url : string) (c : t) : list (string * CacheEntry) :=
  if PyDict.mem url (cache c) then PyDict.del url (cache c)
  else if 0 <? max_size c then evict (max_size c) (cache c) else cache c.

Lemma base_spec url c : inv c →
  PyDict.wf (base url c) ∧ PyDict.get url (base url c) = None ∧
  (0 < max_size c → Z.of_nat (length (base url c)) < max_size c).
Proof.
  intros [Hw Hb]. unfold base, PyDict.mem.
  destruct (PyDict.get url (cache c)) as [e|] eqn:E; cbn.
  - split_and!; [by apply PyDict.wf_del|by apply PyDict.get_del_eq|]. intros Hm. specialize (Hb Hm).
    unfold size in Hb. pose proof (del_lt _ _ _ E). lia.
  - destruct (Z.ltb_spec 0 (max_size c)) as [Hm|Hm]; [|split_and!; [done..|lia]].
    split_and!; [by apply wf_evict| |intros _; by apply evict_below].
    apply PyDict.get_None. destruct (evict_suffix (max_size c) (cache c)) as [pre Hp].
    apply PyDict.get_None in E. rewrite Hp in E. unfold PyDict.keys in *. rewrite fmap_app in E.
    intros Hin. apply E, elem_of_app. by right.
Qed.

Lemma inv_set now url m ttl c : inv c → inv (set now url m ttl c).
Proof.
  intros Hi. destruct (base_spec url c Hi) as (Hw & Hg & Hl). fold (base url c).
  unfold set. fold (base url c). split; [by apply PyDict.wf_set|]. intros Hm. cbn in Hm. specialize (Hl Hm).
  unfold size. cbn. rewrite PyDict.length_set_new by done. lia.
Qed.

Lemma cache_inv_call c tc : inv c → inv (do_call c tc).
Proof.
  destruct tc as [now [url|url m ttl|url| |]]; cbn [do_call]; intros Hi.
  - by apply cache_inv_get.
  - by apply inv_set.
  - apply inv_sublist; [apply PyDict.del_sublist|done].
  - apply inv_sublist; [apply sublist_nil_l|done].
  - apply inv_sublist; [apply fold_del_sublist|done].
Qed.

Lemma inv_calls l c : inv c → inv (do_calls c l).
Proof. revert c. induction l as [|tc l IH]; intros c Hc; [done|]. cbn. by apply IH, cache_inv_call. Qed.

Lemma cache_inv_init ttl0 max : inv (init ttl0 max).
Proof. split; [constructor|]. cbn. unfold size. cbn. lia. Qed.

Lemma do_call_params c tc : default_ttl (do_call c tc) = default_ttl c ∧ max_size (do_call c tc) = max_size c.
Proof.
  destruct tc as [now [url|url m ttl|url| |]]; cbn [do_call]; try done.
  unfold get. by repeat case_match.
Qed.

Lemma do_calls_params l c : default_ttl (do_calls c l) = default_ttl c ∧ max_size (do_calls c l) = max_size c.
Proof.
  revert c. induction l as [|tc l IH]; intros c; [done|]. cbn. destruct (IH (do_call c tc)) as [H1 H2].
  destruct (do_call_params c tc) as [H3 H4]. unfold do_calls in *. by rewrite H1, H2.
Qed.

(** ** A hit is what was last written *)
Lemma get_sublist k (d d' : list (string * CacheEntry)) e :
  sublist d' d → PyDict.wf d → PyDict.get k d' = Some e → PyDict.get k d = Some e.
Proof.
  intros Hs Hw He%PyDict.get_Some_elem. apply PyDict.elem_get; [done|]. by eapply elem_of_sublist.
Qed.

Lemma get_move_to_end k url e d : PyDict.wf d → PyDict.get url d = Some e →
  PyDict.get k (move_to_end url e d) = PyDict.get k d.
Proof.
  intros Hw He. unfold move_to_end.
  assert (Happ : ∀ a b : list (string * CacheEntry), PyDict.get k (a ++ b)
    = match PyDict.get k a with Some x => Some x | None => PyDict.get k b end).
  { intros a b. induction a as [|[k1 v1] a IH]; cbn; [done|]. by case_decide. }
  rewrite Happ. cbn. destruct (decide (k = url)) as [-> | Hne].
  - by rewrite PyDict.get_del_eq, He.
  - rewrite PyDict.get_del_ne by done. by destruct (PyDict.get k d).
Qed.

Lemma base_sublist url c : sublist (base url c) (cache c).
Proof.
  unfold base. repeat case_match; [apply PyDict.del_sublist| |done].
  destruct (evict_suffix (max_size c) (cache c)) as [pre Hp]. rewrite Hp at 2. by apply sublist_inserts_l.
Qed.

Lemma get_fold_del k urls (d : list (string * CacheEntry)) : PyDict.wf d → k ∉ urls →
  PyDict.get k (fold_left (λ d url, PyDict.del url d) urls d) = PyDict.get k d.
Proof.
  revert d. induction urls as [|u urls IH]; intros d Hw Hn; cbn; [done|].
  apply not_elem_of_cons in Hn as [? ?]. rewrite IH by auto with asap. by apply PyDict.get_del_ne.
Qed.

Lemma get_fold_del_in k urls (d : list (string * CacheEntry)) : PyDict.wf d → k ∈ urls →
  PyDict.get k (fold_left (λ d url, PyDict.del url d) urls d) = None.
Proof.
  revert d. induction urls as [|u urls IH]; intros d Hw Hin; [by apply elem_of_nil in Hin|]. cbn.
  destruct (decide (k ∈ urls)) as [Hu|Hu]; [apply IH; auto with asap|].
  apply elem_of_cons in Hin as [-> |]; [|done].
  rewrite get_fold_del by auto with asap. by apply PyDict.get_del_eq.
Qed.

Definition agrees (l : list (Z * call)) (c : t) : Prop :=
  ∀ url e, PyDict.get url (cache c) = Some e → last_written (default_ttl c) url l = Some e.

Lemma last_written_snoc ttl0 url l tc :
  last_written ttl0 url (l ++ [tc]) = written_by ttl0 url (last_written ttl0 url l) tc.
Proof. unfold last_written. by rewrite fold_left_app. Qed.

Lemma agrees_call l c tc : inv c → agrees l c → agrees (l ++ [tc]) (do_call c tc).
Proof.
  intros Hi Ha url e. rewrite (proj1 (do_call_params c tc)), last_written_snoc.
  pose proof (proj1 Hi) as Hw.
  destruct tc as [now [url'|url' m ttl|url'| |]]; cbn [do_call written_by].
  - intros He. apply Ha. revert He. unfold get. destruct (PyDict.get url' (cache c)) as [e'|] eqn:E; [|done].
    destruct (is_expired now e'); cbn.
    + apply get_sublist; [apply PyDict.del_sublist|done].
    + by rewrite get_move_to_end.
  - unfold set. fold (base url' c). cbn [cache with_cache]. destruct (decide (url = url')) as [-> | Hne].
    + by rewrite PyDict.get_set_eq.
    + rewrite PyDict.get_set_ne by done. intros He. apply Ha.
      eapply get_sublist; [apply (base_sublist url')|done|done].
  - cbn. case_decide as Hd; [subst; by rewrite PyDict.get_del_eq|]. rewrite PyDict.get_del_ne by done. apply Ha.
  - done.
  - cbn. intros He. apply Ha. eapply get_sublist; [apply fold_del_sublist|done|done].
Qed.

Lemma agrees_calls ttl0 max l : agrees l (do_calls (init ttl0 max) l).
Proof.
  induction l as [|tc l IH] using rev_ind; [by intros ? ? ?|].
  unfold do_calls. rewrite fold_left_app. apply agrees_call; [|done].
  apply (inv_calls l), cache_inv_init.
Qed.

(** ** What was used recently is kept *)
Definition touched (tc : Z * call) : gset string :=
  match tc with (_, Get url) | (_, Set_ url _ _) => {[ url ]} | _ => ∅ end.
Definition touched_by (l : list (Z * call)) : gset string := ⋃ (touched <$> l).

(** Calls that replace or remove the entry of a URL on request. *)
Definition overwrites (url : string) (tc : Z * call) : bool :=
  match tc with
  | (_, Set_ url' _ _) | (_, Invalidate url') => bool_decide (url = url')
  | (_, ClearAll) => true
  | _ => false
  end.

(** The entry is in the cache, and what is more recent than it was touched. *)
Definition kept (url : string) (e : CacheEntry) (T : gset string) (c : t) : Prop :=
  ∃ pre post, cache c = pre ++ (url, e) :: post ∧ list_to_set (PyDict.keys post) ⊆ T.

Lemma kept_get url e T c : inv c → kept url e T c → PyDict.get url (cache c) = Some e.
Proof.
  intros [Hw _] (pre & post & Hc & _). apply PyDict.elem_get; [done|]. rewrite Hc. set_solver.
Qed.

Lemma kept_mono url e T T' c : T ⊆ T' → kept url e T c → kept url e T' c.
Proof. intros Hs (pre & post & Hc & Hp). exists pre, post. split; [done|]. set_solver. Qed.

Lemma del_app_notin k (a b : list (string * CacheEntry)) : k ∉ PyDict.keys a →
  PyDict.del k (a ++ b) = a ++ PyDict.del k b.
Proof.
  unfold PyDict.keys. induction a as [|[k' v'] a IH]; cbn; [done|].
  intros [? ?]%not_elem_of_cons. rewrite decide_False by done. by rewrite IH.
Qed.

Lemma del_app_in k (a b : list (string * CacheEntry)) : k ∈ PyDict.keys a →
  PyDict.del k (a ++ b) = PyDict.del k a ++ b.
Proof.
  unfold PyDict.keys. induction a as [|[k' v'] a IH]; cbn; [by intros ?%elem_of_nil|].
  intros Hin. case_decide; [done|]. cbn. rewrite IH; [done|]. set_solver.
Qed.

Lemma keys_del_sub k (d : list (string * CacheEntry)) :
  list_to_set (PyDict.keys (PyDict.del k d)) ⊆@{gset string} list_to_set (PyDict.keys d).
Proof.
  intros x. rewrite !elem_of_list_to_set. intros Hx. eapply elem_of_sublist; [exact Hx|]. unfold PyDict.keys.
  apply fmap_sublist, PyDict.del_sublist.
Qed.

(** Deleting another entry. *)
Lemma kept_del url e T c k : k ≠ url → kept url e T c → kept url e T (with_cache (PyDict.del k (cache c)) c).
Proof.
  intros Hne (pre & post & Hc & Hp). unfold kept. cbn [cache with_cache]. rewrite Hc.
  destruct (decide (k ∈ PyDict.keys pre)) as [Hin|Hin].
  - exists (PyDict.del k pre), post. split; [by apply del_app_in|done].
  - exists pre, (PyDict.del k post). split; [|pose proof (keys_del_sub k post); set_solver].
    rewrite del_app_notin by done. cbn. by rewrite decide_False.
Qed.

Lemma kept_app url e T c k e' : kept url e T c →
  kept url e ({[ k ]} ∪ T) (with_cache (cache c ++ [(k, e')]) c).
Proof.
  intros (pre & post & Hc & Hp). exists pre, (post ++ [(k, e')]). cbn [cache with_cache]. rewrite Hc.
  split; [by rewrite <- app_assoc|]. unfold PyDict.keys in *. rewrite fmap_app, list_to_set_app_L. cbn. set_solver.
Qed.

Lemma evict_keeps max pre kv post : Z.of_nat (length post) + 1 < max →
  ∃ pre', evict max (pre ++ kv :: post) = pre' ++ kv :: post.
Proof.
  intros Hl. induction pre as [|x pre [pre' IH]]; cbn [app evict].
  - exists []. cbn [length]. by rewrite (proj2 (Z.leb_gt _ _)) by lia.
  - case_match; [by exists pre'|by exists (x :: pre)].
Qed.

(** Adding an entry evicts the kept one only if [max_size] others were touched. *)
Lemma kept_base url e T c k : inv c → k ≠ url → kept url e T c →
  (0 < max_size c → Z.of_nat (base.size (({[ k ]} ∪ T) ∖ {[ url ]})) < max_size c) →
  kept url e T (with_cache (base k c) c).
Proof.
  intros Hi Hne Hk Hroom. unfold base, PyDict.mem. destruct (PyDict.get k (cache c)) eqn:E; cbn [is_some is_none negb].
  { by apply kept_del. }
  destruct (Z.ltb_spec 0 (max_size c)) as [Hm|Hm]; [|by destruct c].
  destruct Hk as (pre & post & Hc & Hp). unfold kept. cbn [cache with_cache]. rewrite Hc.
  destruct Hi as [Hw _]. rewrite Hc in Hw. apply wf_suffix in Hw as Hw'.
  apply PyDict.get_None in E. rewrite Hc in E.
  unfold PyDict.wf, PyDict.keys in *. rewrite fmap_app in E. cbn in Hw', E. apply NoDup_cons in Hw' as [Hu Hd].
  destruct (evict_keeps (max_size c) pre (url, e) post) as [pre' Hpre']; [|by exists pre', post].
  specialize (Hroom Hm).
  assert (Hsub : list_to_set (k :: post.*1) ⊆ ({[k]} ∪ T) ∖ {[url]}) by set_solver.
  apply subseteq_size in Hsub. rewrite size_list_to_set in Hsub; [|apply NoDup_cons; split; [set_solver|done]].
  cbn in Hsub. rewrite length_fmap in Hsub. lia.
Qed.

Lemma expired_not_kept now url e c : inv c → PyDict.get url (cache c) = Some e → now < expires_at e →
  url ∉ expired_urls now (cache c).
Proof.
  intros [Hw _] He Hn ([k v] & -> & [Hx Hin]%list_elem_of_filter)%list_elem_of_fmap. cbn in *.
  apply PyDict.elem_get in Hin; [|done]. simplify_eq. unfold is_expired in Hx. crush.
Qed.

Lemma kept_fold url e T c urls : url ∉ urls → kept url e T c →
  kept url e T (with_cache (fold_left (λ d k, PyDict.del k d) urls (cache c)) c).
Proof.
  revert c. induction urls as [|k urls IH]; intros c Hn Hk; cbn; [by destruct c|].
  apply not_elem_of_cons in Hn as [Hn1 Hn2].
  apply (IH (with_cache (PyDict.del k (cache c)) c)); [done|]. by apply kept_del.
Qed.

Lemma set_app (k : string) (v : CacheEntry) d : PyDict.get k d = None → PyDict.set k v d = d ++ [(k, v)].
Proof. induction d as [|[k' v'] d IH]; cbn; [done|]. case_decide; [done|]. intros ?. by rewrite IH. Qed.

Lemma kept_call url e T c tc : inv c → kept url e T c →
  overwrites url tc = false → fst tc < expires_at e →
  (0 < max_size c → Z.of_nat (base.size ((touched tc ∪ T) ∖ {[ url ]})) < max_size c) →
  kept url e (touched tc ∪ T) (do_call c tc).
Proof.
  intros Hi Hk Ho Hn Hroom. pose proof (kept_get _ _ _ _ Hi Hk) as He.
  destruct tc as [now [k|k m ttl|k| |]]; cbn [do_call touched overwrites fst] in *.
  - unfold get. destruct (PyDict.get k (cache c)) as [e'|] eqn:E; cbn [fst]; [|by eapply kept_mono; [|done]; set_solver].
    destruct (decide (k = url)) as [-> | Hne].
    + simplify_eq. unfold is_expired. rewrite (proj2 (Z.leb_gt _ _)) by lia. cbn [fst].
      exists (PyDict.del url (cache c)), []. split; [done|]. cbn. set_solver.
    + apply (kept_del _ _ _ _ k) in Hk; [|done].
      destruct (is_expired now e'); cbn [fst]; [by eapply kept_mono; [|done]; set_solver|].
      by apply (kept_app _ _ _ _ k e') in Hk.
  - apply bool_decide_eq_false in Ho. unfold set. fold (base k c). rewrite set_app by (by apply base_spec).
    apply kept_base with (k := k) in Hk; [|done..].
    by apply (kept_app _ _ _ _ k (new_entry now m (default (default_ttl c) ttl))) in Hk.
  - apply bool_decide_eq_false in Ho. eapply kept_mono; [|apply kept_del; [|exact Hk]; done]. set_solver.
  - done.
  - eapply kept_mono; [|apply kept_fold; [|exact Hk]]; [set_solver|]. by eapply expired_not_kept.
Qed.

Lemma kept_calls url e l : ∀ T c, inv c → kept url e T c →
  Forall (λ tc, overwrites url tc = false ∧ fst tc < expires_at e) l →
  (0 < max_size c → Z.of_nat (base.size ((touched_by l ∪ T) ∖ {[ url ]})) < max_size c) →
  kept url e (touched_by l ∪ T) (do_calls c l).
Proof.
  induction l as [|tc l IH]; intros T c Hi Hk Hl Hroom.
  { eapply kept_mono; [|exact Hk]. set_solver. }
  apply Forall_cons in Hl as [[Ho Hn] Hl].
  assert (Heq : touched_by (tc :: l) ∪ T = touched_by l ∪ (touched tc ∪ T)).
  { unfold touched_by. cbn. set_solver. }
  rewrite Heq in *. apply (IH (touched tc ∪ T) (do_call c tc)); [by apply cache_inv_call| |done|].
  - apply kept_call; try done. intros Hm. eapply Z.le_lt_trans; [|by apply Hroom].
    apply Nat2Z.inj_le, subseteq_size. set_solver.
  - by rewrite (proj2 (do_call_params c tc)).
Qed.

(** A call that uses a URL leaves its entry last. *)
Lemma use_kept c t0 u url e : inv c →
  (u = Get url ∨ ∃ m ttl, u = Set_ url m ttl) →
  PyDict.get url (cache (do_call c (t0, u))) = Some e → t0 < expires_at e ∨ (∃ m ttl, u = Set_ url m ttl) →
  kept url e ∅ (do_call c (t0, u)).
Proof.
  intros Hi [-> | (m & ttl & ->)] He Ht; cbn [do_call] in *.
  - destruct Ht as [Ht|(? & ? & ?)]; [|done]. revert He. unfold get.
    destruct (PyDict.get url (cache c)) as [e'|] eqn:E; cbn [fst]; [|by rewrite E].
    destruct (is_expired t0 e') eqn:Ex; cbn.
    + rewrite PyDict.get_del_eq; [done|apply Hi].
    + rewrite get_move_to_end, E by (done || apply Hi). intros [= ->]. by exists (PyDict.del url (cache c)), [].
  - clear Ht. revert He. unfold set. fold (base url c). cbn [cache with_cache].
    rewrite PyDict.get_set_eq. intros [= <-]. rewrite set_app by (by apply base_spec).
    by exists (base url c), [].
Qed.
End Cache.
Arguments call M : clear implicits.
Arguments t M : clear implicits.
End ManifestCache.

Import ManifestCache.

(** C27: The manifest cache implements a least-recently-used cache of its write
    history.  After any calls it holds at most [max_size] entries (when that is
    positive), one per URL; a hit returns exactly the manifest last written for
    the URL, before its expiry; and a manifest in the cache after a use (a write
    or a read) is still returned at a later time before its expiry if meanwhile
    nobody overwrote it and fewer than [max_size] other URLs were used. *)
Theorem manifest_cache_is_lru {M} (ttl0 max : Z) (l1 : list (Z * call M)) :
  let c := do_calls (init ttl0 max) l1 in
  PyDict.wf (cache c) ∧ (0 < max → size c <= max) ∧
  (∀ now url m, snd (get now url c) = Some m →
     ∃ e, last_written ttl0 url l1 = Some e ∧ manifest e = m ∧ now < expires_at e) ∧
  (∀ t0 u url e l2 now,
     u = Get url ∨ (∃ m ttl, u = Set_ url m ttl) →
     PyDict.get url (cache (do_call c (t0, u))) = Some e →
     t0 <= now → Forall (λ tc, overwrites url tc = false ∧ fst tc <= now) l2 →
     now < expires_at e →
     (0 < max → Z.of_nat (base.size (touched_by l2 ∖ {[ url ]})) < max) →
     snd (get now url (do_calls (do_call c (t0, u)) l2)) = Some (manifest e)).
Proof.
  intros c. assert (Hi : inv c) by (apply inv_calls, cache_inv_init).
  destruct (do_calls_params l1 (init ttl0 max)) as [Httl Hmax]. fold c in Httl, Hmax. cbn in Httl, Hmax.
  split; [apply Hi|]. split; [intros Hm; rewrite <- Hmax; apply Hi; lia|]. split.
  - intros now url m. unfold get. destruct (PyDict.get url (cache c)) as [e|] eqn:E; [|done].
    destruct (is_expired now e) eqn:Ex; [done|]. cbn. intros [= <-]. exists e.
    apply agrees_calls in E. fold c in E. rewrite Httl in E. unfold is_expired in Ex. crush.
  - intros t0 u url e l2 now Hu He Ht Hl Hn Hroom.
    assert (Hk : kept url e ∅ (do_call c (t0, u))) by (apply use_kept; [done..|left; lia]).
    assert (Hi' : inv (do_call c (t0, u))) by (by apply cache_inv_call).
    apply (kept_calls _ _ l2) in Hk; [|done| |].
    + apply kept_get in Hk; [|by apply inv_calls]. unfold get. rewrite Hk. unfold is_expired.
      by rewrite (proj2 (Z.leb_gt _ _)) by lia.
    + eapply Forall_impl; [exact Hl|]. intros tc [? ?]. split; [done|lia].
    + rewrite (proj2 (do_call_params c (t0, u))), Hmax. by rewrite (right_id_L ∅ (∪)).
Qed.

(** The cleanup counts what it removes, and leaves no expired entry. *)
Lemma cleanup_removes_expired {M} (now : Z) (c : ManifestCache.t M) (url : string) :
  PyDict.wf (cache c) →
  PyDict.get url (cache (fst (cleanup_expired now c)))
  = match PyDict.get url (cache c) with
    | Some e => if is_expired now e then None else Some e
    | None => None
    end.
Proof.
  intros Hw. cbn. destruct (PyDict.get url (cache c)) as [e|] eqn:E.
  - destruct (is_expired now e) eqn:Ex.
    + assert (Hin : url ∈ expired_urls now (cache c)).
      { apply list_elem_of_fmap. exists (url, e). split; [done|]. apply list_elem_of_filter.
        split; [done|]. by apply PyDict.get_Some_elem. }
      by apply get_fold_del_in.
    + rewrite get_fold_del; [done|done|].
      intros ([k v] & -> & [Hx Hin]%list_elem_of_filter)%list_elem_of_fmap. cbn in *.
      apply PyDict.elem_get in Hin; [|done]. congruence.
  - destruct (PyDict.get url (fold_left _ _ _)) as [e|] eqn:E'; [|done].
    rewrite <- E. symmetry. eapply get_sublist; [apply fold_del_sublist|done|exact E'].
Qed.

(** Three writes to a cache of two: the first manifest survives one other use,
    not two. *)
Lemma manifest_cache_is_lru_witness :
  snd (get 20 "a" (do_calls (do_call (do_calls (init 300 2) []) (0, Set_ "a" 7%Z None)) [(10, Set_ "b" 8 None)]))
  = Some 7
  ∧ snd (get 20 "a" (do_calls (init 300 2) [(0, Set_ "a" 7 None); (10, Set_ "b" 8 None); (11, Set_ "c" 9 None)]))
    = None.
Proof.
  split; [|reflexivity].
  destruct (manifest_cache_is_lru (M := Z) 300 2 []) as (_ & _ & _ & H).
  apply (H 0 (Set_ "a" 7 None) "a" (mkCacheEntry 7 300)); [right; by exists 7, None|reflexivity|lia| |cbn; lia|].
  - repeat constructor; cbn; lia.
  - intros _. vm_compute. reflexivity.
Defined.
