(* ===== verification/DelegationJwt.v ===== *)
(** * Delegation tokens and the delegation API

    `validate_delegation` and `create_delegation_jwt` of
    `src/src/asap/economics/delegation.py`, and the four handlers of
    `src/src/asap/transport/delegation_api.py` over the in-memory storage of
    [Delegation].  The JOSE library is the class [Jose] of [AgentJwt]; the JSON
    decoder of the interpreter is a parameter, as texts beyond Latin-1 are
    outside the model's strings. *)

From Stdlib Require Import ZArith QArith Lia Ascii String.
From stdpp Require Import base tactics list gmap strings relations.
From S2P Require Import Prelude PyValue Digest Identity Capabilities AgentJwt Delegation.
From S2P Require Import ReplayGuard Errors Handlers Signing Middleware.
Open Scope string_scope.
Open Scope Z_scope.
Open Scope asap_scope.

Definition JWT_ALG : string := "Ed25519".
Definition X_ASAP_CONSTRAINTS_CLAIM : string := "x-asap-constraints".

Record ValidationResult : Type := mkValidation {
  dv_success : bool;
  dv_error : option string;
  dv_delegator : option string;
  dv_delegate : option json;
  dv_jti : option string;
  dv_scopes : option (list json)
}.

Definition invalid (error : string) : ValidationResult := mkValidation false (Some error) None None None None.

(** ** `int(x)` of a JSON value *)

Definition digit_value (c : ascii) : option Z :=
  let n := Z.of_nat (PyStr.code c) in
  if (48 <=? n) && (n <=? 57) then Some (n - 48) else None.

(** Decimal digits with single underscores between them; [after] says whether
    the last character was a digit. *)
Fixpoint int_digits (after : bool) (acc : Z) (s : string) : option Z :=
  match s with
  | EmptyString => if after then Some acc else None
  | String c s' =>
      match digit_value c with
      | Some d => int_digits true (acc * 10 + d) s'
      | None => if Ascii.eqb c "_" && after then int_digits false acc s' else None
      end
  end.

Fixpoint count_digits (s : string) : nat :=
  match s with
  | EmptyString => 0
  | String c s' => ((if digit_value c is Some _ then 1 else 0) + count_digits s')%nat
  end.

(** `sys.get_int_max_str_digits()` *)
Definition INT_MAX_STR_DIGITS : nat := 4300.

Definition int_of_str (s : string) : option Z :=
  let t := PyStr.strip s in
  if (INT_MAX_STR_DIGITS <? count_digits t)%nat then None
  else
    match t with
    | String "-" u => option_map Z.opp (int_digits false 0 u)
    | String "+" u => int_digits false 0 u
    | _ => int_digits false 0 t
    end.

Definition py_int (j : json) : res pyexn Z :=
  match j with
  | JBool b => Ret (if b then 1 else 0)
  | JInt z => Ret z
  | JFloat (FFin q) => Ret (Z.quot (Qnum q) (Zpos (Qden q)))
  | JFloat (FInf _) => Raise (OverflowError "cannot convert float infinity to integer")
  | JFloat FNan => Raise (ValueError "cannot convert float NaN to integer")
  | JStr s =>
      match int_of_str s with
      | Some z => Ret z
      | None => Raise (ValueError ("invalid literal for int() with base 10: " ++ repr_str s))
      end
  | _ => Raise (TypeError ("int() argument must be a string, a bytes-like object or a real number, not '"
                             ++ type_name j ++ "'"))
  end.

Example int_of_str_forms :
  map int_of_str [" 12"; "1_000"; "-7"; "+0"; ""; "1__0"; "_1"; "1.0"]
  = [Some 12; Some 1000; Some (-7); Some 0; None; None; None; None].
Proof. reflexivity. Qed.

(** ** Reading a claim without verification *)

(** `base64.urlsafe_b64decode` *)
Fixpoint from_urlsafe (s : string) : string :=
  match s with
  | EmptyString => EmptyString
  | String c s' =>
      String (if Ascii.eqb c "-" then "+" else if Ascii.eqb c "_" then "/" else c) (from_urlsafe s')
  end.

Definition urlsafe_b64decode (s : string) : res Base64.error (list Z) := Base64.b64decode (from_urlsafe s).

Definition _b64url_decode (payload_b64 : string) : res Base64.error (list Z) :=
  let pad := (4 - String.length payload_b64 mod 4)%nat in
  urlsafe_b64decode
    (if (pad =? 4)%nat then payload_b64
     else payload_b64 ++ match pad with 1%nat => "=" | 2%nat => "==" | _ => "===" end).

(** `str(e)` of an exception. *)
Definition exn_str (e : pyexn) : string :=
  match e with
  | KeyError m => repr_str m
  | TypeError m | ValueError m | AttributeError m | RuntimeError m | OverflowError m | ValidationError m => m
  end.

Section Validate.
  Context `{PyRuntime, Jose}.
  (** `json.loads(b.decode("utf-8"))`; [None]: ValueError. *)
  Variable json_loads : list Z → option json.

(** What the middle part of a compact token holds. *)
Definition jwt_payload (token : string) : option json :=
  match PyStr.split "." token with
  | [_; payload; _] =>
      match _b64url_decode payload with
      | Ret payload_bytes => json_loads payload_bytes
      | Raise _ => None
      end
  | _ => None
  end.

Definition _parse_claim_from_jwt (token claim : string) : option string :=
  match jwt_payload token with
  | Some (JObj claims) =>
      match j_get claim claims with
      | JNull => None
      | val => Some (py_str float_repr val)
      end
  | _ => None
  end.

Definition _parse_iss_from_jwt (token : string) : option string := _parse_claim_from_jwt token "iss".
Definition get_jti_from_jwt (token : string) : option string := _parse_claim_from_jwt token "jti".

(** ** Validation *)

(** An Ed25519 key is its raw bytes. *)
Definition public_jwk (raw : list Z) : jwk :=
  [("kty", JStr "OKP"); ("crv", JStr "Ed25519"); ("x", JStr (B64.encode_nopad raw))].

Definition _ed25519_public_key_to_okp_key (public_key : list Z) : res string okp_key :=
  okp_import_key (public_jwk public_key).

(** Whether `exp` has passed: the value when it is a number above zero. *)
Definition exp_passed (claims : claims_t) (now : Z) : res pyexn bool :=
  match j_get "exp" claims with
  | (JBool _ | JInt _ | JFloat _) as exp =>
      match py_int exp with
      | Ret exp_ts => Ret (negb (exp_ts <=? 0) && (exp_ts * second <=? now))
      | Raise (TypeError _) | Raise (ValueError _) => Ret false
      | Raise e => Raise e
      end
  | _ => Ret false
  end.

(** Whether the task limit is reached; errors of the counter and of the
    conversion leave the token unlimited. *)
Definition limit_reached (claims : claims_t) (jti : option string)
    (usage_count_for_token : option (string → res pyexn Z)) : res pyexn bool :=
  match j_get X_ASAP_CONSTRAINTS_CLAIM claims, usage_count_for_token, jti with
  | JObj x_constraints, Some usage, Some jti_str =>
      if negb (PyStr.truthy jti_str) then Ret false
      else
        match j_get "max_tasks" x_constraints with
        | JNull => Ret false
        | max_tasks =>
            match (let! used := usage jti_str in let! m := py_int max_tasks in Ret (m <=? used)) with
            | Raise (TypeError _) | Raise (ValueError _) | Raise (ValidationError _) => Ret false
            | out => out
            end
        end
  | _, _, _ => Ret false
  end.

Definition claim_jti (claims : claims_t) : option string :=
  match j_get "jti" claims with JNull => None | jti => Some (py_str float_repr jti) end.

Definition claim_scopes (claims : claims_t) : list json :=
  match j_get "scp" claims with JList l => l | _ => [] end.

Definition claim_delegate (claims : claims_t) : option json :=
  match j_get "aud" claims with
  | JList l => head l
  | JNull => None
  | aud => Some (JStr (py_str float_repr aud))
  end.

(** What the caller provides beside the token. *)
Record validation_env : Type := mkEnv {
  public_key_resolver : string → res pyexn (list Z);
  usage_count_for_token : option (string → res pyexn Z);
  allowed_delegators : option (list string);
  is_revoked_cb : option (string → res pyexn bool)
}.

(** The checks on the verified claims. *)
Definition check_claims (env : validation_env) (iss action : string) (claims : claims_t) (now : Z) :
    res pyexn ValidationResult :=
  let! expired := exp_passed claims now in
  if expired : bool then Ret (invalid "Token expired")
  else
    let scp := claim_scopes claims in
    if negb (scope_includes_action scp action) then Ret (invalid "Action not allowed by token scopes")
    else
      let jti_str := claim_jti claims in
      let! revoked :=
        match jti_str, is_revoked_cb env with
        | Some j, Some f => if PyStr.truthy j then f j else Ret false
        | _, _ => Ret false
        end in
      if revoked : bool then Ret (invalid "Token revoked")
      else
        let! over := limit_reached claims jti_str (usage_count_for_token env) in
        if over : bool then Ret (invalid "Delegation task limit exceeded")
        else Ret (mkValidation true None (Some iss) (claim_delegate claims) jti_str (Some scp)).

(** [inl]: the text of an error of joserfc, [inr]: any other exception. *)
Definition validate_delegation (env : validation_env) (token action : string) (now : Z) :
    res (string + pyexn) ValidationResult :=
  match _parse_iss_from_jwt token with
  | None => Ret (invalid "Invalid or malformed token")
  | Some iss =>
      if negb (PyStr.truthy iss) then Ret (invalid "Invalid or malformed token")
      else if match allowed_delegators env with Some l => negb (str_in iss l) | None => false end
      then Ret (invalid "Delegator not allowed to issue delegations")
      else
        match public_key_resolver env iss with
        | Raise ((KeyError _ | ValueError _ | ValidationError _) as e) =>
            Ret (invalid ("Delegator key not found or invalid: " ++ exn_str e))
        | Raise e => Raise (inr e)
        | Ret public_key =>
            match _ed25519_public_key_to_okp_key public_key with
            | Raise e => Raise (inl e)
            | Ret okp =>
                match jwt_decode token okp with
                | Raise e => Ret (invalid ("Invalid or expired token: " ++ e))
                | Ret claims =>
                    match check_claims env iss action claims now with
                    | Raise e => Raise (inr e)
                    | Ret r => Ret r
                    end
                end
            end
        end
  end.

(** ** Creation *)
Record DelegationConstraints : Type := mkConstraints {
  max_cost_usd : option pyfloat;
  max_tasks : option Z;
  expires_at : pydatetime
}.

(** `int(dt.timestamp())`, a datetime without zone being read as UTC. *)
Definition int_timestamp (d : pydatetime) : Z :=
  match d with
  | Naive us => Z.quot us second
  | Aware us off => Z.quot (us - off) second
  end.

Definition x_constraints (c : DelegationConstraints) : claims_t :=
  opt_member "max_tasks" (option_map JInt (max_tasks c))
  ++ opt_member "max_cost_usd" (option_map JFloat (max_cost_usd c)).

Definition delegation_claims (delegator_urn delegate_urn jti : string) (now : Z) (scopes : list string)
    (c : DelegationConstraints) : claims_t :=
  ([("iss", JStr delegator_urn); ("aud", JStr delegate_urn); ("jti", JStr jti);
    ("iat", JInt (int_timestamp (Aware now 0))); ("exp", JInt (int_timestamp (expires_at c)));
    ("scp", JList (map JStr scopes))]
   ++ match x_constraints c with [] => [] | x => [(X_ASAP_CONSTRAINTS_CLAIM, JObj x)] end)%list.

Definition _ed25519_private_key_to_okp_key (private_key : keypair) : res string okp_key :=
  okp_import_key (private_jwk private_key).

(** [id] is the result of `generate_id`. *)
Definition create_delegation_jwt (delegator_urn delegate_urn : string) (scopes : list string)
    (constraints : DelegationConstraints) (private_key : keypair) (token_id : option string)
    (now : Z) (id : string) : res (string + pyexn) string :=
  match scopes with
  | [] => Raise (inr (ValueError "scopes must not be empty"))
  | _ =>
      let jti := default ("del_" ++ id) token_id in
      match _ed25519_private_key_to_okp_key private_key with
      | Raise e => Raise (inl e)
      | Ret okp =>
          Ret (jwt_encode [("alg", JStr JWT_ALG); ("typ", JStr "JWT")]
                 (delegation_claims delegator_urn delegate_urn jti now scopes constraints) okp)
      end
  end.

(** ** The API *)
Record OAuth2Claims : Type := mkOAuth { oc_sub : string; oc_scope : list string; oc_exp : Z }.

Definition ERROR_INSUFFICIENT_SCOPE : string := "Insufficient scope".

Definition require_scope (scope : string) (oauth2_claims : option OAuth2Claims) :
    res HTTPException OAuth2Claims :=
  match oauth2_claims with
  | None => Raise (mkHTTPException 401 "Authentication required" [("WWW-Authenticate", "Bearer")])
  | Some claims =>
      if negb (str_in scope (oc_scope claims)) then Raise (mkHTTPException 403 ERROR_INSUFFICIENT_SCOPE [])
      else Ret claims
  end.

Record CreateDelegationRequest : Type := mkCreate {
  cd_delegate : string;
  cd_scopes : list string;
  cd_expires_in_seconds : option Z;
  cd_max_tasks : option Z
}.

Definition create_request_valid (b : CreateDelegationRequest) : bool :=
  negb (bool_decide (cd_scopes b = []))
  && match cd_expires_in_seconds b with Some e => (1 <=? e) && (e <=? 365 * 24 * 3600) | None => true end
  && match cd_max_tasks b with Some m => 0 <=? m | None => true end.

(** The body as FastAPI sees it: a text that is not JSON is refused before the
    dependencies run, a value that does not fit the model after them. *)
Inductive create_body : Type :=
| NotJson
| NotModel
| CreateBody (b : CreateDelegationRequest).

Inductive api_exn : Type :=
| ApiHttp (e : HTTPException)
| ApiUnprocessable
| ApiEscapes (e : string + pyexn).

(** What `app.state` holds for these routes. *)
Record delegation_app : Type := mkDelegationApp {
  da_key_store : option (string → res pyexn keypair);
  da_storage : option InMemoryDelegationStorage.t
}.

Definition require_state {A} (attr : option A) (message : string) : res api_exn A :=
  match attr with
  | None => Raise (ApiHttp (mkHTTPException 503 message []))
  | Some a => Ret a
  end.

Definition _get_delegation_key_store (a : delegation_app) : res api_exn (string → res pyexn keypair) :=
  require_state (da_key_store a) "Delegation API not configured (delegation_key_store not set)".

Definition _get_delegation_storage (a : delegation_app) : res api_exn InMemoryDelegationStorage.t :=
  require_state (da_storage a) "Delegation revocation not configured (delegation_storage not set)".

Definition scoped (oauth : option OAuth2Claims) : res api_exn OAuth2Claims :=
  match require_scope SCOPE_EXECUTE oauth with Raise e => Raise (ApiHttp e) | Ret c => Ret c end.

(** The readings of the clock by the handler, the token and the storage, and
    the generated id. *)
Record post_inputs : Type := mkPost { pi_now : Z; pi_jwt : Z; pi_registered : Z; pi_id : string }.

Definition post_constraints (b : CreateDelegationRequest) (i : post_inputs) : DelegationConstraints :=
  mkConstraints None (cd_max_tasks b)
    (Aware (pi_now i + default 86400 (cd_expires_in_seconds b) * second) 0).

(** The token and the storage after it was recorded. *)
Definition issue_delegation (a : delegation_app) (claims : OAuth2Claims) (b : CreateDelegationRequest)
    (i : post_inputs) : res api_exn (string * delegation_app) :=
  let delegator_urn := oc_sub claims in
  let! key_store := _get_delegation_key_store a in
  match key_store delegator_urn with
  | Raise (KeyError _ | ValueError _ | ValidationError _) =>
      Raise (ApiHttp (mkHTTPException 503 "Delegation key not configured for this agent" []))
  | Raise e => Raise (ApiEscapes (inr e))
  | Ret private_key =>
      match create_delegation_jwt delegator_urn (cd_delegate b) (cd_scopes b) (post_constraints b i)
              private_key None (pi_jwt i) (pi_id i) with
      | Raise e => Raise (ApiEscapes e)
      | Ret token =>
          Ret (token,
            match da_storage a, get_jti_from_jwt token with
            | Some storage, Some jti =>
                if PyStr.truthy jti then
                  mkDelegationApp (da_key_store a)
                    (Some (InMemoryDelegationStorage.register_issued (pi_registered i) jti delegator_urn
                             (Some (cd_delegate b)) storage))
                else a
            | _, _ => a
            end)
      end
  end.

Definition post_delegation (a : delegation_app) (oauth : option OAuth2Claims) (body : create_body)
    (i : post_inputs) : delegation_app * res api_exn json :=
  match body with
  | NotJson => (a, Raise ApiUnprocessable)
  | _ =>
      match scoped oauth with
      | Raise e => (a, Raise e)
      | Ret claims =>
          match body with
          | CreateBody b =>
              if negb (create_request_valid b) then (a, Raise ApiUnprocessable)
              else
                match issue_delegation a claims b i with
                | Raise e => (a, Raise e)
                | Ret (token, a') => (a', Ret (JObj [("token", JStr token)]))
                end
          | _ => (a, Raise ApiUnprocessable)
          end
      end
  end.

(** The cascade always ends ([revoke_cascade_total]), so the storage stays. *)
Definition delete_delegation (a : delegation_app) (oauth : option OAuth2Claims) (token_id : string)
    (stamp : string → Z) : delegation_app * res api_exn unit :=
  match (let! claims := scoped oauth in
         let! storage := _get_delegation_storage a in
         match InMemoryDelegationStorage.get_delegator token_id storage with
         | None =>
             Raise (ApiHttp (mkHTTPException 404 "Delegation token not found or not issued via this server" []))
         | Some delegator_urn =>
             if negb (String.eqb delegator_urn (oc_sub claims)) then
               Raise (ApiHttp (mkHTTPException 403 "Only the delegator that issued this token can revoke it" []))
             else Ret storage
         end) with
  | Raise e => (a, Raise e)
  | Ret storage =>
      (mkDelegationApp (da_key_store a)
         (InMemoryDelegationStorage.revoke_cascade stamp token_id None storage), Ret tt)
  end.

Record DelegationTokenSummary : Type := mkTokenSummary {
  ts_id : string;
  ts_delegator : string;
  ts_delegate : string;
  ts_created_at : Z;
  ts_active : bool
}.

Definition list_delegations (a : delegation_app) (oauth : option OAuth2Claims) (active : bool) :
    res api_exn (list DelegationTokenSummary) :=
  let! claims := scoped oauth in
  let! storage := _get_delegation_storage a in
  let delegator_urn := oc_sub claims in
  let summaries := InMemoryDelegationStorage.list_issued_summaries delegator_urn storage in
  let revoked_map := InMemoryDelegationStorage.are_revoked (map is_id summaries) storage in
  let revoked s := default false (PyDict.get (is_id s) revoked_map) in
  Ret (map (λ s, mkTokenSummary (is_id s) delegator_urn (default "" (is_delegate_urn s)) (is_created_at s)
                   (negb (revoked s)))
         (List.filter (λ s, negb (active && revoked s)) summaries)).

Record DelegationTokenDetail : Type := mkTokenDetail {
  dd_id : string;
  dd_delegator : string;
  dd_delegate : string;
  dd_created_at : Z;
  dd_active : bool;
  dd_revoked_at : option Z
}.

Definition get_delegation (a : delegation_app) (oauth : option OAuth2Claims) (token_id : string) :
    res api_exn DelegationTokenDetail :=
  let! claims := scoped oauth in
  let! storage := _get_delegation_storage a in
  match InMemoryDelegationStorage.get_token_detail token_id storage with
  | None => Raise (ApiHttp (mkHTTPException 404 "Delegation token not found" []))
  | Some detail =>
      let delegate_urn := default "" (td_delegate_urn detail) in
      if negb (String.eqb (oc_sub claims) (td_delegator_urn detail))
         && negb (String.eqb (oc_sub claims) delegate_urn)
      then Raise (ApiHttp (mkHTTPException 403 "Only the issuer or holder of this token can view it" []))
      else
        Ret (mkTokenDetail (td_id detail) (td_delegator_urn detail) delegate_urn (td_created_at detail)
               (negb (td_is_revoked detail)) (td_revoked_at detail))
  end.

End Validate.

(** ** Laws and lemmas *)

(** A token that joserfc decodes is a compact serialization whose middle part
    is the base64url text of its claims (RFC 7515, section 3.1). *)
Class CompactJws `{Jose} (json_loads : list Z → option json) : Prop :=
  decode_compact : ∀ token k claims, jwt_decode token k = Ret claims →
    jwt_payload json_loads token = Some (JObj claims).

Section Facts.
  Context `{PyRuntime, Jose} (json_loads : list Z → option json).
  Implicit Types (env : validation_env) (claims : claims_t).

Lemma parse_claim_decoded `{!CompactJws json_loads} token k claims claim :
  jwt_decode token k = Ret claims →
  _parse_claim_from_jwt json_loads token claim =
  match j_get claim claims with JNull => None | v => Some (py_str float_repr v) end.
Proof. intros Hd. unfold _parse_claim_from_jwt. by rewrite (decode_compact _ _ _ Hd). Qed.

(** What the checks on the claims let through. *)
Definition claims_accepted env (action : string) claims (now : Z) : Prop :=
  (∀ z, py_int (j_get "exp" claims) = Ret z → (∀ s, j_get "exp" claims ≠ JStr s) → 0 < z → now < z * second) ∧
  (JStr action ∈ claim_scopes claims ∨ JStr WILDCARD_SCOPE ∈ claim_scopes claims) ∧
  (∀ j f, claim_jti claims = Some j → j ≠ "" → is_revoked_cb env = Some f → f j = Ret false) ∧
  (∀ j f x u m, claim_jti claims = Some j → j ≠ "" → usage_count_for_token env = Some f →
     j_get X_ASAP_CONSTRAINTS_CLAIM claims = JObj x → f j = Ret u →
     py_int (j_get "max_tasks" x) = Ret m → u < m).

Lemma exp_passed_false claims now :
  exp_passed claims now = Ret false →
  ∀ z, py_int (j_get "exp" claims) = Ret z → (∀ s, j_get "exp" claims ≠ JStr s) → 0 < z → now < z * second.
Proof.
  unfold exp_passed. intros He z Hz Hs Hpos.
  destruct (j_get "exp" claims) as [| | | |s| |] eqn:Hexp; try done; [..|by destruct (Hs s)];
    rewrite Hz in He; injection He as He; destruct (z <=? 0) eqn:E; reflect; lia.
Qed.

Lemma existsb_str s l : existsb (py_eq (JStr s)) l = true ↔ JStr s ∈ l.
Proof.
  rewrite existsb_exists. setoid_rewrite <- list_elem_of_In. split.
  - intros (x & Hin & Hx). destruct x; try done. cbn in Hx. by apply String.eqb_eq in Hx as ->.
  - intros Hin. exists (JStr s). split; [done|]. apply String.eqb_refl.
Qed.

Lemma scope_includes_action_iff l a :
  scope_includes_action l a = true ↔ JStr a ∈ l ∨ JStr WILDCARD_SCOPE ∈ l.
Proof.
  rewrite <- !existsb_str. unfold scope_includes_action. destruct l as [|x l]; [by split; [|intros [|]]|].
  destruct (existsb (py_eq (JStr WILDCARD_SCOPE)) (x :: l)); intuition congruence.
Qed.

Lemma truthy_true s : PyStr.truthy s = true ↔ s ≠ "".
Proof. by destruct s. Qed.

Lemma limit_reached_false claims j f x u m :
  limit_reached claims (Some j) (Some f) = Ret false → j ≠ "" →
  j_get X_ASAP_CONSTRAINTS_CLAIM claims = JObj x → f j = Ret u → py_int (j_get "max_tasks" x) = Ret m → u < m.
Proof.
  intros Hl Hj Hx Hu Hm. unfold limit_reached in Hl. rewrite Hx in Hl.
  apply truthy_true in Hj. rewrite Hj in Hl. cbn [negb] in Hl.
  destruct (j_get "max_tasks" x) eqn:Hmt; try done; rewrite Hu in Hl; cbn [rbind] in Hl;
    rewrite Hm in Hl; cbn [rbind] in Hl; injection Hl as Hl; reflect; lia.
Qed.

Lemma check_claims_sound env iss action claims now r :
  check_claims env iss action claims now = Ret r → dv_success r = true →
  claims_accepted env action claims now ∧
  r = mkValidation true None (Some iss) (claim_delegate claims) (claim_jti claims) (Some (claim_scopes claims)).
Proof.
  unfold check_claims. intros Hc Hok.
  destruct (exp_passed claims now) as [|[]] eqn:He; cbn [rbind] in Hc; try (by simplify_eq).
  destruct (scope_includes_action _ _) eqn:Hs; cbn [negb] in Hc; [|by simplify_eq].
  match type of Hc with rbind ?m _ = _ => destruct m as [|[]] eqn:Hr end; cbn [rbind] in Hc; try (by simplify_eq).
  destruct (limit_reached _ _ _) as [|[]] eqn:Hl; cbn [rbind] in Hc; simplify_eq; try done.
  split; [|done]. split_and!.
  - by apply exp_passed_false.
  - by apply scope_includes_action_iff.
  - intros j f Hj Hne Hf. rewrite Hj, Hf in Hr. by rewrite (proj2 (truthy_true j) Hne) in Hr.
  - intros j f x u m Hj Hne Hf Hx Hu Hm. rewrite Hj, Hf in Hl. by eapply limit_reached_false.
Qed.

Lemma validate_delegation_trace env token action now r :
  validate_delegation json_loads env token action now = Ret r → dv_success r = true →
  ∃ iss pk okp claims,
    _parse_iss_from_jwt json_loads token = Some iss ∧ iss ≠ "" ∧
    (∀ l, allowed_delegators env = Some l → iss ∈ l) ∧
    public_key_resolver env iss = Ret pk ∧ _ed25519_public_key_to_okp_key pk = Ret okp ∧
    jwt_decode token okp = Ret claims ∧ check_claims env iss action claims now = Ret r.
Proof.
  unfold validate_delegation. intros Hv Hok.
  destruct (_parse_iss_from_jwt _ _) as [iss|] eqn:Hiss; [|by simplify_eq].
  destruct (PyStr.truthy iss) eqn:Ht; cbn [negb] in Hv; [|by simplify_eq].
  destruct (match allowed_delegators env with Some l => _ | None => _ end) eqn:Ha; [by simplify_eq|].
  destruct (public_key_resolver env iss) as [[]|pk] eqn:Hpk; try (by simplify_eq).
  destruct (_ed25519_public_key_to_okp_key pk) as [|okp] eqn:Hok'; [done|].
  destruct (jwt_decode token okp) as [|claims] eqn:Hd; [by simplify_eq|].
  destruct (check_claims env iss action claims now) as [|r'] eqn:Hc; [done|]. injection Hv as <-.
  exists iss, pk, okp, claims. split_and!; try done.
  - by apply truthy_true.
  - intros l Hl. rewrite Hl in Ha. apply negb_false_iff in Ha. by apply str_in_true in Ha.
Qed.

End Facts.

Section Created.
  Context `{PyRuntime, Jose} (json_loads : list Z → option json).

(** What a token with these contents should be answered. *)
Definition verdict (delegator delegate jti : string) (scopes : list string) (c : DelegationConstraints)
    (action : string) (now : Z) (revoked : bool) (used : Z) : ValidationResult :=
  if int_timestamp (expires_at c) * second <=? now then invalid "Token expired"
  else if negb (str_in action scopes || str_in WILDCARD_SCOPE scopes) then
    invalid "Action not allowed by token scopes"
  else if revoked then invalid "Token revoked"
  else if match max_tasks c with Some m => m <=? used | None => false end then
    invalid "Delegation task limit exceeded"
  else mkValidation true None (Some delegator) (Some (JStr delegate)) (Some jti) (Some (map JStr scopes)).

Lemma scope_includes_strings scopes action :
  scope_includes_action (map JStr scopes) action = str_in action scopes || str_in WILDCARD_SCOPE scopes.
Proof.
  apply eq_true_iff_eq. rewrite scope_includes_action_iff, orb_true_iff, !str_in_true.
  assert (He : ∀ s, JStr s ∈ map JStr scopes ↔ s ∈ scopes).
  { intros s. rewrite list_elem_of_fmap. split; [by intros (y & [= ->] & ?)|eauto]. }
  by rewrite !He.
Qed.

Lemma limit_reached_created delegator delegate jti t0 scopes c usage :
  jti ≠ "" →
  limit_reached (delegation_claims delegator delegate jti t0 scopes c) (Some jti) (Some (λ j, Ret (usage j)))
  = Ret match max_tasks c with Some m => m <=? usage jti | None => false end.
Proof.
  intros Hj%truthy_true. unfold limit_reached, delegation_claims, x_constraints.
  destruct (max_tasks c) as [m|], (max_cost_usd c) as [f|]; cbn; by rewrite ?Hj.
Qed.

Lemma check_created env delegator delegate jti t0 scopes c action now revoked usage :
  jti ≠ "" → 0 < int_timestamp (expires_at c) →
  usage_count_for_token env = Some (λ j, Ret (usage j)) → is_revoked_cb env = Some (λ j, Ret (revoked j)) →
  check_claims env delegator action (delegation_claims delegator delegate jti t0 scopes c) now
  = Ret (verdict delegator delegate jti scopes c action now (revoked jti) (usage jti)).
Proof.
  intros Hj Hexp Hu Hr. unfold check_claims, verdict.
  assert (He : exp_passed (delegation_claims delegator delegate jti t0 scopes c) now
               = Ret (int_timestamp (expires_at c) * second <=? now)).
  { unfold exp_passed, delegation_claims. cbn. by rewrite (proj2 (Z.leb_gt _ _)) by done. }
  rewrite He. cbn [rbind]. destruct (_ <=? now); [done|].
  change (claim_scopes (delegation_claims delegator delegate jti t0 scopes c)) with (map JStr scopes).
  rewrite scope_includes_strings. destruct (negb _); [done|].
  change (claim_jti (delegation_claims delegator delegate jti t0 scopes c)) with (Some jti).
  rewrite Hr, Hu, (proj2 (truthy_true jti) Hj). cbn [rbind]. destruct (revoked jti); [done|].
  rewrite limit_reached_created by done. cbn [rbind]. by destruct (match max_tasks c with Some _ => _ | None => _ end).
Qed.

Lemma validate_created `{!CompactJws json_loads} env pk okp token delegator delegate jti t0 scopes c action now :
  delegator ≠ "" → (∀ l, allowed_delegators env = Some l → delegator ∈ l) →
  public_key_resolver env delegator = Ret pk → _ed25519_public_key_to_okp_key pk = Ret okp →
  jwt_decode token okp = Ret (delegation_claims delegator delegate jti t0 scopes c) →
  validate_delegation json_loads env token action now =
  match check_claims env delegator action (delegation_claims delegator delegate jti t0 scopes c) now with
  | Raise e => Raise (inr e) | Ret r => Ret r
  end.
Proof.
  intros Hd Hal Hpk Hok Hdec. unfold validate_delegation, _parse_iss_from_jwt.
  rewrite (parse_claim_decoded json_loads _ _ _ _ Hdec).
  change (j_get "iss" (delegation_claims delegator delegate jti t0 scopes c)) with (JStr delegator).
  cbn [py_str]. rewrite (proj2 (truthy_true delegator) Hd). cbn [negb].
  assert (Ha : match allowed_delegators env with Some l => negb (str_in delegator l) | None => false end = false).
  { destruct (allowed_delegators env) as [l|]; [|done]. apply negb_false_iff, str_in_true, Hal. done. }
  by rewrite Ha, Hpk, Hok, Hdec.
Qed.

End Created.

(** *** The API *)
Section Api.
  Context `{PyRuntime, Jose} (json_loads : list Z → option json).
  Implicit Types a : delegation_app.

(** A request that may change the storage. *)
Inductive api_step a : delegation_app → Prop :=
| step_post oauth body i : api_step a (fst (post_delegation json_loads a oauth body i))
| step_delete oauth token_id stamp : api_step a (fst (delete_delegation a oauth token_id stamp)).

Definition app_revoked (a : delegation_app) (x : string) : Prop :=
  ∃ s, da_storage a = Some s ∧ InMemoryDelegationStorage.is_revoked x s = true.

Lemma scoped_ret oauth c : scoped oauth = Ret c → oauth = Some c.
Proof. destruct oauth as [c'|]; cbn; [|done]. unfold scoped. cbn. by destruct (negb _); intros [= ->]. Qed.

(** A deletion does nothing, or cascades from a token of the requester. *)
Lemma delete_cases a oauth id stamp :
  (∃ e, delete_delegation a oauth id stamp = (a, Raise e)) ∨
  ∃ c s s', oauth = Some c ∧ da_storage a = Some s ∧
    InMemoryDelegationStorage.get_delegator id s = Some (oc_sub c) ∧
    InMemoryDelegationStorage.revoke_cascade stamp id None s = Some s' ∧
    delete_delegation a oauth id stamp = (mkDelegationApp (da_key_store a) (Some s'), Ret tt).
Proof.
  unfold delete_delegation. destruct (scoped oauth) as [e|c] eqn:Hc; cbn [rbind]; [by left; eexists|].
  apply scoped_ret in Hc as ->. unfold _get_delegation_storage, require_state.
  destruct (da_storage a) as [s|] eqn:Hs; cbn [rbind]; [|by left; eexists].
  destruct (InMemoryDelegationStorage.get_delegator id s) as [u|] eqn:Hu; [|by left; eexists].
  destruct (String.eqb u (oc_sub c)) eqn:Heq; cbn [negb]; [|by left; eexists].
  apply String.eqb_eq in Heq as ->.
  destruct (revoke_cascade_total stamp id None s) as [s' Hs']. right. exists c, s, s'. by rewrite Hs'.
Qed.

(** A creation leaves the revocations as they are. *)
Lemma post_revoked a oauth body i x : app_revoked (fst (post_delegation json_loads a oauth body i)) x ↔ app_revoked a x.
Proof.
  unfold post_delegation. destruct body as [| |b]; [done|by destruct (scoped oauth)|].
  destruct (scoped oauth) as [|c]; [done|]. destruct (negb _); [done|].
  destruct (issue_delegation json_loads a c b i) as [|[token a']] eqn:Hi; [done|]. cbn [fst].
  unfold issue_delegation in Hi. unfold _get_delegation_key_store, require_state in Hi.
  destruct (da_key_store a) as [ks|]; [|done]. cbn [rbind] in Hi.
  destruct (ks (oc_sub c)) as [[]|kp]; try done.
  destruct (create_delegation_jwt _ _ _ _ _ _ _ _) as [|tok]; [done|].
  destruct (da_storage a) as [s|] eqn:Hs, (get_jti_from_jwt json_loads tok) as [j|]; try (by simplify_eq).
  destruct (PyStr.truthy j); simplify_eq; [|done].
  unfold app_revoked. rewrite Hs. cbn [da_storage]. unfold InMemoryDelegationStorage.register_issued.
  split; intros (s1 & [= <-] & Hr); eauto.
Qed.

Lemma delete_revoked a oauth id stamp x :
  app_revoked a x → app_revoked (fst (delete_delegation a oauth id stamp)) x.
Proof.
  destruct (delete_cases a oauth id stamp) as [(e & ->)|(c & s & s' & _ & Hs & _ & Hc & ->)]; [done|].
  intros (s1 & Hs1 & Hx). rewrite Hs in Hs1. injection Hs1 as <-. exists s'. split; [done|].
  by apply (revoke_cascade_sound _ _ _ _ _ Hc).
Qed.

Lemma api_revoked_mono a a' x : rtc api_step a a' → app_revoked a x → app_revoked a' x.
Proof.
  induction 1 as [|a1 a2 a3 Hstep _ IH]; [done|]. intros Hx. apply IH.
  destruct Hstep; [by apply post_revoked|by apply delete_revoked].
Qed.

End Api.

(** ** Properties *)

(** C14: a delegation that validates was issued: its issuer is an allowed
    delegator, the key found for that issuer verified the signature of the very
    claims that are returned, an `exp` above zero has not passed, the scopes
    include the action or the wildcard, the callback does not report its id as
    revoked, and the tasks counted for it are below its limit. *)
Theorem delegation_validation_sound `{PyRuntime, Jose} (json_loads : list Z → option json)
    `{!CompactJws json_loads} (env : validation_env) (token action : string) (now : Z) (r : ValidationResult) :
  validate_delegation json_loads env token action now = Ret r → dv_success r = true →
  ∃ iss pk okp claims,
    j_get "iss" claims ≠ JNull ∧ iss = py_str float_repr (j_get "iss" claims) ∧
    (∀ l, allowed_delegators env = Some l → iss ∈ l) ∧
    public_key_resolver env iss = Ret pk ∧ okp_import_key (public_jwk pk) = Ret okp ∧
    jwt_decode token okp = Ret claims ∧ claims_accepted env action claims now ∧
    r = mkValidation true None (Some iss) (claim_delegate claims) (claim_jti claims) (Some (claim_scopes claims)).
Proof.
  intros Hv Hok.
  destruct (validate_delegation_trace json_loads env token action now r Hv Hok)
    as (iss & pk & okp & claims & Hiss & Hne & Hal & Hpk & Hokp & Hd & Hc).
  destruct (check_claims_sound env iss action claims now r Hc Hok) as [Hacc Hr].
  unfold _parse_iss_from_jwt in Hiss. rewrite (parse_claim_decoded json_loads _ _ _ _ Hd) in Hiss.
  exists iss, pk, okp, claims.
  destruct (j_get "iss" claims) eqn:Hi; [done|..]; injection Hiss as <-; split_and!; done.
Qed.

(** What `create_delegation_jwt` makes is judged by its constraints: when
    the delegator's key reads the token back, validation answers exactly as the
    reference decision does for its scopes, expiry, revocation and task limit,
    for every action, time and count. *)
Theorem created_delegation_judged `{PyRuntime, Jose} (json_loads : list Z → option json)
    `{!CompactJws json_loads} (env : validation_env) (kp : keypair) (okp : okp_key)
    (delegator delegate id token action : string) (token_id : option string) (scopes : list string)
    (c : DelegationConstraints) (t0 now : Z) (revoked : string → bool) (usage : string → Z) :
  let jti := default ("del_" ++ id) token_id in
  create_delegation_jwt delegator delegate scopes c kp token_id t0 id = Ret token →
  okp_import_key (public_jwk (raw_public kp)) = Ret okp →
  jwt_decode token okp = Ret (delegation_claims delegator delegate jti t0 scopes c) →
  public_key_resolver env delegator = Ret (raw_public kp) →
  (∀ l, allowed_delegators env = Some l → delegator ∈ l) →
  usage_count_for_token env = Some (λ j, Ret (usage j)) → is_revoked_cb env = Some (λ j, Ret (revoked j)) →
  delegator ≠ "" → jti ≠ "" → 0 < int_timestamp (expires_at c) →
  validate_delegation json_loads env token action now =
  Ret (verdict delegator delegate jti scopes c action now (revoked jti) (usage jti)).
Proof.
  intros jti _ Hokp Hd Hpk Hal Hu Hr Hne Hj Hexp.
  rewrite (validate_created json_loads env (raw_public kp) okp token delegator delegate jti t0 scopes c) by done.
  by rewrite (check_created env delegator delegate jti t0 scopes c action now revoked usage).
Qed.

(** C15: revocation through the API is the issuer's, and final: a deletion that
    succeeds was asked by the delegator on record, and whatever creations and
    deletions follow, no token with that id, nor, when at most 50 tokens are
    recorded, with the id of a token derived from it, validates for a caller
    that consults the storage. *)
Theorem api_revocation_is_final `{PyRuntime, Jose} (json_loads : list Z → option json)
    `{!CompactJws json_loads} (a a1 a2 : delegation_app) (s s2 : InMemoryDelegationStorage.t)
    (oauth : option OAuth2Claims) (id x token action : string) (stamp : string → Z) (now : Z)
    (env : validation_env) (r : ValidationResult) :
  da_storage a = Some s → delete_delegation a oauth id stamp = (a1, Ret tt) →
  rtc (api_step json_loads) a1 a2 → da_storage a2 = Some s2 →
  is_revoked_cb env = Some (λ j, Ret (InMemoryDelegationStorage.is_revoked j s2)) →
  x = id ∨ (Z.of_nat (length (InMemoryDelegationStorage.issued s)) <= MAX_CASCADE_DEPTH ∧ rtc (child s) id x) →
  get_jti_from_jwt json_loads token = Some x → x ≠ "" →
  validate_delegation json_loads env token action now = Ret r →
  (∃ c, oauth = Some c ∧ InMemoryDelegationStorage.get_delegator id s = Some (oc_sub c)) ∧
  dv_success r = false.
Proof.
  intros Hs Hdel Hsteps Hs2 Henv Hx Hj Hne Hv.
  destruct (delete_cases a oauth id stamp) as [(e & He)|(c & s0 & s' & Hc & Hs0 & Hg & Hcas & He)];
    rewrite He in Hdel; [done|]. injection Hdel as <-. rewrite Hs in Hs0. injection Hs0 as <-.
  split; [by exists c|]. destruct (dv_success r) eqn:Hok; [|done]. exfalso.
  assert (Hrx : InMemoryDelegationStorage.is_revoked x s' = true).
  { destruct (revoke_cascade_sound _ _ _ _ _ Hcas) as (_ & Hroot & _).
    destruct Hx as [->|[Hlen Hx]]; [done|].
    destruct (cascade_complete_within_limit stamp id None s Hlen) as (s3 & Hs3 & Hall).
    rewrite Hcas in Hs3. injection Hs3 as <-. apply Hall. by right. }
  destruct (api_revoked_mono json_loads _ _ x Hsteps) as (s3 & Hs3 & Hr); [by exists s'|].
  rewrite Hs2 in Hs3. injection Hs3 as <-.
  destruct (validate_delegation_trace json_loads env token action now r Hv Hok)
    as (iss & pk & okp & claims & _ & _ & _ & _ & _ & Hd & Hcc).
  destruct (check_claims_sound env iss action claims now r Hcc Hok) as [(_ & _ & Hrev & _) _].
  unfold get_jti_from_jwt in Hj. rewrite (parse_claim_decoded json_loads _ _ _ _ Hd) in Hj.
  specialize (Hrev x _ Hj Hne Henv). cbv beta in Hrev. congruence.
Qed.

(** A token is revoked by a request only when the requester issued a token from
    which it derives. *)
Lemma api_revokes_for_issuer (a : delegation_app)
    (oauth : option OAuth2Claims) (id x : string) (stamp : string → Z) :
  app_revoked (fst (delete_delegation a oauth id stamp)) x →
  app_revoked a x ∨
  ∃ c s, oauth = Some c ∧ da_storage a = Some s ∧
    InMemoryDelegationStorage.get_delegator id s = Some (oc_sub c) ∧ rtc (child s) id x.
Proof.
  destruct (delete_cases a oauth id stamp) as [(e & ->)|(c & s & s' & Hc & Hs & Hg & Hcas & ->)]; [by left|].
  intros (s1 & [= <-] & Hx). apply (revoke_cascade_sound _ _ _ _ _ Hcas) in Hx as [Hx|Hx].
  - left. by exists s.
  - right. by exists c, s.
Qed.

(** ** A toy library *)
Module ToyDelegation.

#[export] Instance runtime : PyRuntime := {| float_repr := λ _, "0.0"; float_of_str := λ _, None |}.

Definition constraints (exp : Z) : DelegationConstraints := mkConstraints None (Some 2) (Aware exp 0).
Definition the_claims (exp : Z) : claims_t :=
  delegation_claims "urn:a" "urn:b" "del_1" 0 ["data.read"] (constraints exp).

(** Keys are their JWKs' `x`; every token carries the same claims, and its last
    part names the key that signed it. *)
Definition key_x (k : jwk) : string := match j_get "x" k with JStr x => x | _ => "" end.

Definition jose (exp : Z) : Jose := {|
  okp_key := string;
  okp_import_key := λ k, Ret (key_x k);
  jws_extract_compact := λ _, Ret ([], JObj (the_claims exp));
  jwt_decode := λ token k,
    if bool_decide (PyStr.split "." token = ["h"; "e30"; k]) then Ret (the_claims exp)
    else Raise "bad_signature: ";
  okp_as_dict_public := λ k, [("x", JStr k)];
  jwt_encode := λ _ _ k, "h.e30." ++ k
|}.

Definition loads (exp : Z) (b : list Z) : option json := Some (JObj (the_claims exp)).

#[export] Instance compact exp : @CompactJws (jose exp) (loads exp).
Proof.
  intros token k claims. cbn. unfold jwt_payload. case_bool_decide as Hs; [|done].
  intros [= <-]. rewrite Hs. reflexivity.
Qed.

Definition kp : keypair := mkKeypair [1; 2; 3] [4; 5; 6].
Definition key : string := B64.encode_nopad (raw_public kp).
Definition token : string := "h.e30." ++ key.

Definition env (s : InMemoryDelegationStorage.t) : validation_env :=
  mkEnv (λ iss, if String.eqb iss "urn:a" then Ret (raw_public kp) else Raise (KeyError iss))
    (Some (λ _, Ret 1)) (Some ["urn:a"]) (Some (λ j, Ret (InMemoryDelegationStorage.is_revoked j s))).

Definition store : InMemoryDelegationStorage.t :=
  InMemoryDelegationStorage.register_issued 0 "del_1" "urn:a" (Some "urn:b") InMemoryDelegationStorage.init.

Definition app : delegation_app := mkDelegationApp None (Some store).
Definition caller : option OAuth2Claims := Some (mkOAuth "urn:a" [SCOPE_EXECUTE] 0).

End ToyDelegation.
#[local] Existing Instances ToyDelegation.runtime ToyDelegation.compact.

Lemma delegation_validation_sound_witness :
  ∃ iss pk okp claims,
    j_get "iss" claims ≠ JNull ∧ iss = py_str float_repr (j_get "iss" claims) ∧
    (∀ l, Some ["urn:a"] = Some l → iss ∈ l) ∧
    public_key_resolver (ToyDelegation.env ToyDelegation.store) iss = Ret pk ∧
    @okp_import_key (ToyDelegation.jose (5 * second)) (public_jwk pk) = Ret okp ∧
    @jwt_decode (ToyDelegation.jose (5 * second)) ToyDelegation.token okp = Ret claims ∧
    claims_accepted (ToyDelegation.env ToyDelegation.store) "data.read" claims 0 ∧
    mkValidation true None (Some "urn:a") (Some (JStr "urn:b")) (Some "del_1") (Some [JStr "data.read"])
    = mkValidation true None (Some iss) (claim_delegate claims) (claim_jti claims) (Some (claim_scopes claims)).
Proof.
  refine (@delegation_validation_sound _ (ToyDelegation.jose (5 * second)) (ToyDelegation.loads (5 * second)) _
            (ToyDelegation.env ToyDelegation.store) ToyDelegation.token "data.read" 0 _ _ _);
    vm_compute; reflexivity.
Defined.

Lemma created_delegation_judged_witness :
  @validate_delegation _ (ToyDelegation.jose (5 * second)) (ToyDelegation.loads (5 * second))
    (ToyDelegation.env ToyDelegation.store) ToyDelegation.token "data.write" 0
  = Ret (invalid "Action not allowed by token scopes").
Proof.
  refine (@created_delegation_judged _ (ToyDelegation.jose (5 * second)) (ToyDelegation.loads (5 * second)) _
            (ToyDelegation.env ToyDelegation.store) ToyDelegation.kp ToyDelegation.key "urn:a" "urn:b" "1"
            ToyDelegation.token "data.write" None ["data.read"] (ToyDelegation.constraints (5 * second)) 0 0
            (λ j, InMemoryDelegationStorage.is_revoked j ToyDelegation.store) (λ _, 1) _ _ _ _ _ _ _ _ _ _).
  all: try (vm_compute; reflexivity).
  - intros l [= <-]. by left.
  - done.
  - done.
Defined.

Lemma api_revocation_is_final_witness :
  (∃ c, ToyDelegation.caller = Some c ∧
     InMemoryDelegationStorage.get_delegator "del_1" ToyDelegation.store = Some (oc_sub c)) ∧
  dv_success (invalid "Token revoked") = false.
Proof.
  pose (a1 := fst (delete_delegation ToyDelegation.app ToyDelegation.caller "del_1" (λ _, 0))).
  pose (s2 := default ToyDelegation.store (da_storage a1)).
  refine (@api_revocation_is_final _ (ToyDelegation.jose (5 * second)) (ToyDelegation.loads (5 * second)) _
            ToyDelegation.app a1 a1 ToyDelegation.store s2 ToyDelegation.caller "del_1" "del_1"
            ToyDelegation.token "data.read" (λ _, 0) 0 (ToyDelegation.env s2) _ _ _ _ _ _ _ _ _ _).
  - reflexivity.
  - vm_compute. reflexivity.
  - apply rtc_refl.
  - vm_compute. reflexivity.
  - reflexivity.
  - by left.
  - vm_compute. reflexivity.
  - done.
  - vm_compute. reflexivity.
Defined.

(** An expiry at the epoch, or before it, is read as no expiry at all: a token
    created with such constraints, which its limits call expired for decades,
    is accepted at any time. *)
Theorem epoch_expiry_never_expires :
  ∃ (J : Jose) (loads : list Z → option json) (env : validation_env) (token : string),
    create_delegation_jwt "urn:a" "urn:b" ["data.read"] (mkConstraints None (Some 2) (Aware 0 0))
      ToyDelegation.kp None 0 "1" = Ret token ∧
    ∀ now, ∃ r, validate_delegation loads env token "data.read" now = Ret r ∧ dv_success r = true.
Proof.
  exists (ToyDelegation.jose 0), (ToyDelegation.loads 0), (ToyDelegation.env ToyDelegation.store), ToyDelegation.token.
  split; [vm_compute; reflexivity|]. intros now. eexists. split; [vm_compute; reflexivity|reflexivity].
Qed.
