(* ===== verification/Webhook.v ===== *)
(** * Webhooks

    `src/src/asap/transport/webhook.py`: the checks that keep callbacks away
    from internal addresses, the signature of a payload, its delivery, and the
    retries with back-off, a token bucket per URL and a queue of dead letters.

    The ranges of addresses and their texts are those of the `ipaddress` module
    of Python 3.13.  The URL parser is a parameter; the answers of the resolver
    and of the receiver, and the readings of the clock, are inputs of each
    attempt.  Floats of the bucket and of the delays are rationals. *)

From Stdlib Require Import ZArith QArith Qminmax Lqa Lia Ascii String.
From stdpp Require Import base tactics list gmap strings.
From S2P Require Import Prelude PyValue Digest Errors RateLimit.
Open Scope string_scope.
Open Scope Z_scope.
Open Scope asap_scope.

Definition X_ASAP_SIGNATURE_HEADER : string := "X-ASAP-Signature".
Definition MAX_DEAD_LETTERS : nat := 1000.
Definition _ALLOWED_SCHEMES_STRICT : list string := ["https"].
Definition _ALLOWED_SCHEMES_RELAXED : list string := ["http"; "https"].
Definition _WS_TO_HTTP_SCHEMES : list (string * string) := [("ws", "http"); ("wss", "https")].

(** ** Addresses *)
Module Ip.

Inductive address : Type := IPv4 (z : Z) | IPv6 (z : Z).

(** Whether [z] is in the network of [len] leading bits of [net]. *)
Definition in_net (bits : Z) (z : Z) (net : Z * Z) : bool :=
  Z.shiftr z (bits - net.2) =? Z.shiftr net.1 (bits - net.2).

Definition v4 (a b c d : Z) : Z := ((a * 256 + b) * 256 + c) * 256 + d.
(** An IPv6 network by its first three groups. *)
Definition v6 (a b c : Z) : Z := Z.shiftl ((a * 65536 + b) * 65536 + c) 80.

Definition v4_private : list (Z * Z) :=
  [(v4 0 0 0 0, 8); (v4 10 0 0 0, 8); (v4 127 0 0 0, 8); (v4 169 254 0 0, 16); (v4 172 16 0 0, 12);
   (v4 192 0 0 0, 24); (v4 192 0 0 170, 31); (v4 192 0 2 0, 24); (v4 192 168 0 0, 16); (v4 198 18 0 0, 15);
   (v4 198 51 100 0, 24); (v4 203 0 113 0, 24); (v4 240 0 0 0, 4); (v4 255 255 255 255, 32)].
Definition v4_exceptions : list (Z * Z) := [(v4 192 0 0 9, 32); (v4 192 0 0 10, 32)].
Definition v4_reserved : Z * Z := (v4 240 0 0 0, 4).
Definition v4_loopback : Z * Z := (v4 127 0 0 0, 8).
Definition v4_link_local : Z * Z := (v4 169 254 0 0, 16).

Definition v6_private : list (Z * Z) :=
  [(1, 128); (0, 128); (Z.shiftl 65535 32, 96); (v6 0x64 0xff9b 1, 48); (v6 0x100 0 0, 64); (v6 0x2001 0 0, 23);
   (v6 0x2001 0xdb8 0, 32); (v6 0x2002 0 0, 16); (v6 0xfc00 0 0, 7); (v6 0xfe80 0 0, 10)].
Definition v6_exceptions : list (Z * Z) :=
  [(v6 0x2001 1 0 + 1, 128); (v6 0x2001 1 0 + 2, 128); (v6 0x2001 3 0, 32); (v6 0x2001 4 0x112, 48);
   (v6 0x2001 0x20 0, 28); (v6 0x2001 0x30 0, 28)].
Definition v6_reserved : list (Z * Z) :=
  [(0, 8); (v6 0x100 0 0, 8); (v6 0x200 0 0, 7); (v6 0x400 0 0, 6); (v6 0x800 0 0, 5); (v6 0x1000 0 0, 4);
   (v6 0x4000 0 0, 3); (v6 0x6000 0 0, 3); (v6 0x8000 0 0, 3); (v6 0xa000 0 0, 3); (v6 0xc000 0 0, 3);
   (v6 0xe000 0 0, 4); (v6 0xf000 0 0, 5); (v6 0xf800 0 0, 6); (v6 0xfe00 0 0, 9)].
Definition v6_link_local : Z * Z := (v6 0xfe80 0 0, 10).

(** The IPv4 address that `::ffff:a.b.c.d` carries. *)
Definition ipv4_mapped (z : Z) : option Z :=
  if Z.shiftr z 32 =? 65535 then Some (Z.land z 0xffffffff) else None.

Definition any_net (bits z : Z) (nets : list (Z * Z)) : bool := existsb (in_net bits z) nets.

Definition v4_is_private (z : Z) : bool := any_net 32 z v4_private && negb (any_net 32 z v4_exceptions).

Definition is_private (a : address) : bool :=
  match a with
  | IPv4 z => v4_is_private z
  | IPv6 z =>
      match ipv4_mapped z with
      | Some m => v4_is_private m
      | None => any_net 128 z v6_private && negb (any_net 128 z v6_exceptions)
      end
  end.

Definition is_loopback (a : address) : bool :=
  match a with
  | IPv4 z => in_net 32 z v4_loopback
  | IPv6 z => match ipv4_mapped z with Some m => in_net 32 m v4_loopback | None => z =? 1 end
  end.

Definition is_link_local (a : address) : bool :=
  match a with
  | IPv4 z => in_net 32 z v4_link_local
  | IPv6 z => match ipv4_mapped z with Some m => in_net 32 m v4_link_local | None => in_net 128 z v6_link_local end
  end.

Definition is_reserved (a : address) : bool :=
  match a with
  | IPv4 z => in_net 32 z v4_reserved
  | IPv6 z => match ipv4_mapped z with Some m => in_net 32 m v4_reserved | None => any_net 128 z v6_reserved end
  end.

(** *** Texts *)
Definition digit_of (base : Z) (c : ascii) : option Z :=
  let n := Z.of_nat (PyStr.code c) in
  if (48 <=? n) && (n <=? 57) then Some (n - 48)
  else if (base =? 16) && (97 <=? n) && (n <=? 102) then Some (n - 87)
  else if (base =? 16) && (65 <=? n) && (n <=? 70) then Some (n - 55)
  else None.

Fixpoint number (base acc : Z) (s : string) : option Z :=
  match s with
  | EmptyString => Some acc
  | String c s' => match digit_of base c with Some d => number base (acc * base + d) s' | None => None end
  end.

(** An octet: one to three digits, without a leading zero, at most 255. *)
Definition parse_octet (s : string) : option Z :=
  match s with
  | EmptyString => None
  | String c s' =>
      if (3 <? String.length s)%nat || (Ascii.eqb c "0" && negb (String.eqb s' "")) then None
      else match number 10 0 s with Some z => if z <=? 255 then Some z else None | None => None end
  end.

Definition parse_v4 (s : string) : option Z :=
  match map parse_octet (PyStr.split "." s) with
  | [Some a; Some b; Some c; Some d] => Some (v4 a b c d)
  | _ => None
  end.

Definition parse_hextet (s : string) : option Z :=
  if (4 <? String.length s)%nat || String.eqb s "" then None else number 16 0 s.

(** The groups in order, 16 bits each. *)
Fixpoint hextets (acc : Z) (l : list string) : option Z :=
  match l with
  | [] => Some acc
  | s :: l' => match parse_hextet s with Some h => hextets (acc * 65536 + h) l' | None => None end
  end.

(** The text of a 16-bit group. *)
Definition hex_group (z : Z) : string := hex [Z.shiftr z 8; Z.land z 255].

(** The last group may be an IPv4 address, which stands for two groups. *)
Definition expand_v4_tail (parts : list string) : option (list string) :=
  let tail := List.last parts "" in
  if PyStr.contains tail "." then
    match parse_v4 tail with
    | Some z => Some (removelast parts ++ [hex_group (Z.shiftr z 16); hex_group (Z.land z 65535)])%list
    | None => None
    end
  else Some parts.

(** Positions of the empty groups strictly inside. *)
Definition inner_gaps (parts : list string) : list nat :=
  List.filter (λ i, match nth i parts "x" with "" => true | _ => false end) (seq 1 (length parts - 2)).

Definition parse_v6_parts (parts : list string) : option Z :=
  let n := length parts in
  if (n <? 3)%nat || (9 <? n)%nat then None
  else
    match inner_gaps parts with
    | _ :: _ :: _ => None
    | [i] =>
        let no_head := String.eqb (nth 0 parts "x") "" in
        let no_tail := String.eqb (List.last parts "x") "" in
        let hi := if no_head then (i - 1)%nat else i in
        let lo := if no_tail then (n - i - 2)%nat else (n - i - 1)%nat in
        if (no_head && negb (hi =? 0)%nat) || (no_tail && negb (lo =? 0)%nat) || (8 <=? hi + lo)%nat then None
        else
          match hextets 0 (firstn hi parts) with
          | Some h => hextets (h * 65536 ^ Z.of_nat (8 - (hi + lo))) (skipn (n - lo) parts)
          | None => None
          end
    | [] => if (n =? 8)%nat then hextets 0 parts else None
    end.

Definition parse_v6_address (s : string) : option Z :=
  let parts := PyStr.split ":" s in
  if (length parts <? 3)%nat then None
  else match expand_v4_tail parts with Some parts => parse_v6_parts parts | None => None end.

(** A zone after `%`: present, and without another `%`. *)
Definition parse_v6 (s : string) : option Z :=
  match PyStr.split "%" s with
  | [a] => parse_v6_address a
  | [a; zone] => if String.eqb zone "" then None else parse_v6_address a
  | _ => None
  end.

(** `ipaddress.ip_address(s)`; [None]: ValueError.  A `/` is in neither text. *)
Definition ip_address (s : string) : option address :=
  match parse_v4 s with
  | Some z => Some (IPv4 z)
  | None => if PyStr.contains s "/" then None else option_map IPv6 (parse_v6 s)
  end.

End Ip.

Definition _is_ip_blocked (addr : string) : bool :=
  match Ip.ip_address addr with
  | None => false
  | Some ip => Ip.is_private ip || Ip.is_loopback ip || Ip.is_link_local ip || Ip.is_reserved ip
  end.

Example blocked_addresses :
  map _is_ip_blocked
    ["10.1.2.3"; "172.31.0.1"; "172.32.0.1"; "192.0.0.9"; "8.8.8.8"; "127.0.0.1"; "::1"; "fe80::1%eth0";
     "::ffff:10.0.0.1"; "::ffff:8.8.8.8"; "2001:4860:4860::8888"; "fd00::1"; "01.2.3.4"; "example.com"; "100.64.0.1"]
  = [true; true; false; false; false; true; true; true; true; false; false; true; false; false; false].
Proof. vm_compute. reflexivity. Qed.

(** ** Signatures *)

(** `hmac.new(key, msg, hashlib.sha256).digest()` *)
Definition hmac_sha256 (key msg : list Z) : list Z :=
  let key := if (64 <? length key)%nat then Sha256.digest key else key in
  let block := (key ++ replicate (64 - length key) 0)%list in
  Sha256.digest (map (Z.lxor 0x5c) block ++ Sha256.digest (map (Z.lxor 0x36) block ++ msg)).

(** The second test case of RFC 4231. *)
Example hmac_rfc4231 :
  hex (hmac_sha256 (encode "Jefe") (encode "what do ya want for nothing?"))
  = "5bdcc146bf60754e6a042426089575c75a003f089d2739839dec58b964ec3843".
Proof. vm_compute. reflexivity. Qed.

Definition compute_signature (body secret : list Z) : string := "sha256=" ++ hex (hmac_sha256 secret body).

Definition all_ascii (s : string) : bool := forallb (λ c, (PyStr.code c <? 128)%nat) (list_ascii_of_string s).

(** `hmac.compare_digest` refuses texts that are not ASCII. *)
Definition verify_signature (body secret : list Z) (signature : string) : res pyexn bool :=
  if all_ascii signature then Ret (String.eqb (compute_signature body secret) signature)
  else Raise (TypeError "comparing strings with non-ASCII characters is not supported").

(** ** Validation of URLs *)

(** What the code reads of `urlparse(url)`. *)
Record url_parts : Type := mkUrl { u_scheme : string; u_hostname : option string }.

Inductive webhook_exn : Type :=
| Rejected (e : ASAPError)
| Escapes (e : pyexn).

Definition reject (url reason : string) (details : list (string * json)) : webhook_exn :=
  match WebhookURLValidationError url reason details with Ret e => Rejected e | Raise e => Escapes e end.

(** The addresses of a name, each once, in the order of the answer. *)
Definition dedup (l : list string) : list string :=
  fold_left (λ ips ip, if str_in ip ips then ips else (ips ++ [ip])%list) l [].

(** [answer]: the addresses, or the text of the resolver's error. *)
Definition _resolve_hostname (hostname : string) (answer : res string (list string)) :
    res webhook_exn (list string) :=
  match answer with
  | Raise exc => Raise (reject hostname ("DNS resolution failed for '" ++ hostname ++ "': " ++ exc) [])
  | Ret results => Ret (dedup results)
  end.

(** The bucket of a URL: the bucket of [RateLimit], taken one token at a time. *)
Abbreviation bucket := WebSocketTokenBucket.t.

(** How a call ends: still waiting for a token, or done. *)
Inductive progress (A : Type) : Type :=
| Waiting
| Done (out : res webhook_exn A).
Arguments Waiting {A}.
Arguments Done {A}.

Section Webhook.
  Context (urlparse : string → res pyexn url_parts).
  (** `urlunparse(urlparse(url)._replace(scheme=scheme))` *)
  Context (with_scheme : string → string → string).
  Context (float_repr : pyfloat → string).

Definition check_resolved (url hostname : string) (ips : list string) : res webhook_exn unit :=
  match List.find _is_ip_blocked ips with
  | Some ip =>
      Raise (reject url ("Host '" ++ hostname ++ "' resolved to blocked IP '" ++ ip
                         ++ "' (private/loopback/link-local)")
               [("resolved_ips", JList (map JStr ips))])
  | None => Ret tt
  end.

Definition validate_callback_url (url : string) (require_https : bool) (answer : res string (list string)) :
    res webhook_exn unit :=
  match urlparse url with
  | Raise e => Raise (Escapes e)
  | Ret parsed =>
      let allowed := if require_https then _ALLOWED_SCHEMES_STRICT else _ALLOWED_SCHEMES_RELAXED in
      if negb (str_in (u_scheme parsed) allowed) then
        Raise (reject url ("Scheme '" ++ u_scheme parsed ++ "' is not allowed. Allowed schemes: "
                           ++ String.concat ", " allowed) [])
      else
        match u_hostname parsed with
        | None | Some "" => Raise (reject url "URL must include a hostname" [])
        | Some hostname =>
            if _is_ip_blocked hostname then
              Raise (reject url ("Host '" ++ hostname
                ++ "' resolves to a blocked address range (private/loopback/link-local)") [])
            else
              let! resolved_ips := _resolve_hostname hostname answer in
              check_resolved url hostname resolved_ips
        end
  end.

Definition validate_agent_endpoint_url (url : string) (require_https : bool) (answer : res string (list string)) :
    res webhook_exn unit :=
  match urlparse url with
  | Raise e => Raise (Escapes e)
  | Ret parsed =>
      let url :=
        match PyDict.get (PyStr.lower (u_scheme parsed)) _WS_TO_HTTP_SCHEMES with
        | Some scheme => with_scheme scheme url
        | None => url
        end in
      validate_callback_url url require_https answer
  end.

(** ** Delivery *)
Record WebhookResult : Type := mkResult {
  wr_url : string;
  wr_status_code : Z;
  wr_success : bool;
  wr_elapsed_ms : pyfloat;
  wr_error : option string
}.

Record WebhookDelivery : Type := mkDelivery {
  wd_secret : option (list Z);
  wd_timeout_text : string;
  wd_require_https : bool
}.

(** How the POST ends: a status, a timeout, another error of httpx, or an
    exception that is none of httpx's. *)
Inductive post_outcome : Type :=
| Status (code : Z)
| TimeoutException (text : string)
| HTTPError (text : string)
| PostEscapes (e : pyexn).

(** A request that leaves. *)
Record post : Type := mkPost {
  p_url : string;
  p_body : list Z;
  p_headers : list (string * string)
}.

Definition webhook_body (payload : list (string * json)) : list Z :=
  encode (json_dumps float_repr "," ":" true (JObj payload)).

Definition webhook_headers (d : WebhookDelivery) (body : list Z) (extra_headers : list (string * string)) :
    list (string * string) :=
  dict_merge
    ([("Content-Type", "application/json")]
     ++ match wd_secret d with
        | Some secret => [(X_ASAP_SIGNATURE_HEADER, compute_signature body secret)]
        | None => []
        end)%list
    extra_headers.

(** The outcome, and the request when one was made. *)
Definition deliver (d : WebhookDelivery) (url : string) (payload : list (string * json))
    (extra_headers : list (string * string)) (answer : res string (list string)) (outcome : post_outcome)
    (elapsed_ms : pyfloat) : option post * res webhook_exn WebhookResult :=
  match validate_callback_url url (wd_require_https d) answer with
  | Raise e => (None, Raise e)
  | Ret _ =>
      let body := webhook_body payload in
      let request := mkPost url body (webhook_headers d body extra_headers) in
      (Some request,
       match outcome with
       | Status code => Ret (mkResult url code ((200 <=? code) && (code <? 300)) elapsed_ms None)
       | TimeoutException exc =>
           Ret (mkResult url 0 false elapsed_ms (Some ("Timeout after " ++ wd_timeout_text d ++ "s: " ++ exc)))
       | HTTPError exc => Ret (mkResult url 0 false elapsed_ms (Some exc))
       | PostEscapes e => Raise (Escapes e)
       end)
  end.

(** ** Retries *)
Record RetryPolicy : Type := mkPolicy {
  rp_max_retries : Z;
  rp_base_delay : Q;
  rp_max_delay : Q;
  rp_rate_per_second : Q
}.

Definition default_policy : RetryPolicy := mkPolicy 5 1 16 10.

Definition backoff_delay (p : RetryPolicy) (attempt : nat) : Q :=
  Qmin (rp_base_delay p * inject_Z (2 ^ Z.of_nat attempt)) (rp_max_delay p).

Record DeadLetterEntry : Type := mkDead {
  dl_url : string;
  dl_payload : list (string * json);
  dl_last_result : WebhookResult;
  dl_attempts : Z;
  dl_created_at : Z
}.

Definition consume_one (now : Z) (b : bucket) : bucket * bool := WebSocketTokenBucket.consume now 1 b.

Definition seconds_until_available (now : Z) (b : bucket) : bucket * Q :=
  let b := WebSocketTokenBucket.refill now b in
  if Qle_bool 1 (WebSocketTokenBucket.tokens b) then (b, 0%Q)
  else (b, ((1 - WebSocketTokenBucket.tokens b) / WebSocketTokenBucket.rate b)%Q).

(** The state of the manager, and what it did: the requests that left and the
    delays between attempts. *)
Record manager : Type := mkManager {
  wm_dead_letters : list DeadLetterEntry;
  wm_buckets : list (string * bucket);
  wm_posts : list post;
  wm_delays : list Q
}.

Definition MAX_BUCKETS : Z := 10000.

(** The new bucket may be refused by its constructor. *)
Definition _get_bucket (p : RetryPolicy) (now : Z) (url : string) (m : manager) : manager * res pyexn bucket :=
  match PyDict.get url (wm_buckets m) with
  | Some b => (m, Ret b)
  | None =>
      let kept := if MAX_BUCKETS <=? Z.of_nat (length (wm_buckets m)) then tail (wm_buckets m) else wm_buckets m in
      let m' := mkManager (wm_dead_letters m) kept (wm_posts m) (wm_delays m) in
      match WebSocketTokenBucket.init now (rp_rate_per_second p) None with
      | Raise e => (m', Raise e)
      | Ret b =>
          (mkManager (wm_dead_letters m) (PyDict.set url b kept) (wm_posts m) (wm_delays m), Ret b)
      end
  end.

(** The wait for a token.  [ticks]: the readings of the clock, two per round;
    [None]: they are used up and the task still waits. *)
Fixpoint wait_rounds (ticks : list (Z * Z)) (b : bucket) : bucket * option (list Q) :=
  match ticks with
  | [] => (b, None)
  | (now, now') :: ticks' =>
      let '(b, ok) := consume_one now b in
      if ok then (b, Some [])
      else
        let '(b, wait) := seconds_until_available now' b in
        let '(b, waits) := wait_rounds ticks' b in
        (b, option_map (cons wait) waits)
  end.

(** What the environment contributes to an attempt. *)
Record attempt_input : Type := mkAttempt {
  ai_created : Z;
  ai_ticks : list (Z * Z);
  ai_answer : res string (list string);
  ai_outcome : post_outcome;
  ai_elapsed_ms : pyfloat
}.

Definition _wait_for_rate_limit (p : RetryPolicy) (url : string) (i : attempt_input) (m : manager) :
    manager * res pyexn (option (list Q)) :=
  let '(m, r) := _get_bucket p (ai_created i) url m in
  match r with
  | Raise e => (m, Raise e)
  | Ret b =>
      let '(b, waits) := wait_rounds (ai_ticks i) b in
      (mkManager (wm_dead_letters m) (PyDict.set url b (wm_buckets m)) (wm_posts m) (wm_delays m), Ret waits)
  end.

(** `deque(maxlen=MAX_DEAD_LETTERS).append` *)
Definition push_dead (entry : DeadLetterEntry) (l : list DeadLetterEntry) : list DeadLetterEntry :=
  let l := (l ++ [entry])%list in drop (length l - MAX_DEAD_LETTERS) l.

(** The callback's errors are logged and dropped, so only the queue changes. *)
Definition _send_to_dead_letter (p : RetryPolicy) (created_at : Z) (url : string)
    (payload : list (string * json)) (last_result : WebhookResult) (m : manager) : manager :=
  mkManager (push_dead (mkDead url payload last_result (1 + rp_max_retries p) created_at) (wm_dead_letters m))
    (wm_buckets m) (wm_posts m) (wm_delays m).

Definition is_non_retryable (code : Z) : bool := (400 <=? code) && (code <? 500).

(** The attempts that are left; [attempt] counts from 0. *)
Fixpoint retry_loop (d : WebhookDelivery) (p : RetryPolicy) (url : string) (payload : list (string * json))
    (extra_headers : list (string * string)) (inputs : nat → attempt_input) (created_at : Z)
    (left attempt : nat) (last_result : option WebhookResult) (m : manager) : manager * progress WebhookResult :=
  match left with
  | O =>
      match last_result with
      | None => (m, Done (Raise (Escapes (RuntimeError "webhook retry loop produced no result"))))
      | Some r => (_send_to_dead_letter p created_at url payload r m, Done (Ret r))
      end
  | S left' =>
      let i := inputs attempt in
      let '(m, waited) := _wait_for_rate_limit p url i m in
      match waited with
      | Raise e => (m, Done (Raise (Escapes e)))
      | Ret None => (m, Waiting)
      | Ret (Some _) =>
          let '(request, out) :=
            deliver d url payload extra_headers (ai_answer i) (ai_outcome i) (ai_elapsed_ms i) in
          let m := mkManager (wm_dead_letters m) (wm_buckets m) (wm_posts m ++ option_list request) (wm_delays m) in
          match out with
          | Raise e => (m, Done (Raise e))
          | Ret r =>
              if wr_success r || is_non_retryable (wr_status_code r) then (m, Done (Ret r))
              else if Z.of_nat attempt =? rp_max_retries p then
                (_send_to_dead_letter p created_at url payload r m, Done (Ret r))
              else
                retry_loop d p url payload extra_headers inputs created_at left' (S attempt) (Some r)
                  (mkManager (wm_dead_letters m) (wm_buckets m) (wm_posts m)
                     (wm_delays m ++ [backoff_delay p attempt]))
          end
      end
  end.

Definition deliver_with_retry (d : WebhookDelivery) (p : RetryPolicy) (url : string)
    (payload : list (string * json)) (extra_headers : list (string * string)) (inputs : nat → attempt_input)
    (created_at : Z) (m : manager) : manager * progress WebhookResult :=
  retry_loop d p url payload extra_headers inputs created_at (Z.to_nat (1 + rp_max_retries p)) 0 None m.

End Webhook.

(** ** Lemmas *)
Section Facts.
  Context (urlparse : string → res pyexn url_parts) (float_repr : pyfloat → string).

(** What validation lets through. *)
Definition url_ok (url : string) (require_https : bool) (ips : list string) : Prop :=
  ∃ parsed host, urlparse url = Ret parsed ∧
    u_scheme parsed ∈ (if require_https then _ALLOWED_SCHEMES_STRICT else _ALLOWED_SCHEMES_RELAXED) ∧
    u_hostname parsed = Some host ∧ host ≠ "" ∧ _is_ip_blocked host = false ∧
    Forall (λ ip, _is_ip_blocked ip = false) ips.

Lemma dedup_elem l x : x ∈ l → x ∈ dedup l.
Proof.
  unfold dedup. enough (Hg : ∀ acc, x ∈ l ∨ x ∈ acc →
    x ∈ fold_left (λ ips ip, if str_in ip ips then ips else (ips ++ [ip])%list) l acc) by (intros Hx; apply Hg; by left).
  induction l as [|y l IH]; intros acc Hx; cbn [fold_left]; [by destruct Hx as [?%elem_of_nil|?]|].
  apply IH. destruct (str_in y acc) eqn:Hy; destruct Hx as [[->|Hx]%elem_of_cons|Hx];
    rewrite ?elem_of_app, ?list_elem_of_singleton; auto.
  right. by apply str_in_true.
Qed.

Lemma find_none {A} (f : A → bool) l : List.find f l = None → ∀ x, x ∈ l → f x = false.
Proof. intros Hf x Hx%list_elem_of_In. by eapply find_none in Hf. Qed.

Lemma validate_callback_url_ok url https answer u :
  validate_callback_url urlparse url https answer = Ret u → ∃ ips, answer = Ret ips ∧ url_ok url https ips.
Proof.
  unfold validate_callback_url. intros Hv.
  destruct (urlparse url) as [|parsed] eqn:Hp; [done|].
  destruct (str_in (u_scheme parsed) _) eqn:Hs; cbn [negb] in Hv; [|done].
  destruct (u_hostname parsed) as [[|c h]|] eqn:Hh; [done| |done].
  destruct (_is_ip_blocked (String c h)) eqn:Hb; [done|].
  unfold _resolve_hostname in Hv. destruct answer as [|ips]; [done|]. cbn [rbind] in Hv.
  unfold check_resolved in Hv. destruct (List.find _ _) as [|] eqn:Hf; [done|].
  exists ips. split; [done|]. exists parsed, (String c h). split_and!; try done.
  - by apply str_in_true in Hs.
  - apply Forall_forall. intros ip Hip. by eapply find_none, dedup_elem.
Qed.

(** *** Signatures *)
Lemma hex_digit_ascii n : 0 <= n < 16 → (PyStr.code (hex_digit n) <? 128)%nat = true.
Proof.
  intros Hn. unfold hex_digit, PyStr.code. apply Nat.ltb_lt.
  destruct (Z.ltb_spec n 10); rewrite nat_ascii_embedding; lia.
Qed.

Lemma hex_ascii m : Forall (λ b, 0 <= b < 256) m → all_ascii (hex m) = true.
Proof.
  unfold all_ascii. induction 1 as [|b m Hb _ IH]; [done|]. cbn [hex list_ascii_of_string forallb].
  rewrite IH, !hex_digit_ascii; [done|..].
  - change 15 with (Z.ones 4). rewrite Z.land_ones by lia. by apply Z.mod_pos_bound.
  - rewrite Z.shiftr_div_pow2 by lia. change (2 ^ 4) with 16. split; [apply Z.div_pos|apply Z.div_lt_upper_bound]; lia.
Qed.

Lemma signature_ascii body secret : all_ascii (compute_signature body secret) = true.
Proof.
  change (all_ascii ("sha256=" ++ hex (hmac_sha256 secret body))) with (all_ascii (hex (hmac_sha256 secret body))).
  apply hex_ascii, digest_range.
Qed.

Lemma signature_verifies body secret : verify_signature body secret (compute_signature body secret) = Ret true.
Proof. unfold verify_signature. by rewrite signature_ascii, String.eqb_refl. Qed.

Lemma dict_merge_get {V} k (d e : list (string * V)) :
  k ∉ PyDict.keys e → PyDict.get k (dict_merge d e) = PyDict.get k d.
Proof.
  unfold dict_merge. revert d. induction e as [|[k' v] e IH]; intros d Hk; [done|].
  cbn [fold_left fst snd]. cbn [PyDict.keys fmap list_fmap fst] in Hk. apply not_elem_of_cons in Hk as [Hne Hk].
  rewrite IH by done. by apply PyDict.get_set_ne.
Qed.

(** *** One delivery *)
Definition request_ok (d : WebhookDelivery) (url : string) (payload : list (string * json))
    (extra : list (string * string)) (i : attempt_input) (q : post) : Prop :=
  p_url q = url ∧ p_body q = webhook_body float_repr payload ∧
  (∃ ips, ai_answer i = Ret ips ∧ url_ok url (wd_require_https d) ips) ∧
  (∀ secret, wd_secret d = Some secret → X_ASAP_SIGNATURE_HEADER ∉ PyDict.keys extra →
     ∃ signature, PyDict.get X_ASAP_SIGNATURE_HEADER (p_headers q) = Some signature ∧
       verify_signature (p_body q) secret signature = Ret true).

Abbreviation delivered d url payload extra i :=
  (deliver urlparse float_repr d url payload extra (ai_answer i) (ai_outcome i) (ai_elapsed_ms i)).

Lemma deliver_request d url payload extra i q :
  fst (delivered d url payload extra i) = Some q → request_ok d url payload extra i q.
Proof.
  unfold deliver. destruct (validate_callback_url _ _ _ _) as [|u] eqn:Hv; [done|]. cbn [fst]. intros [= <-].
  split; [done|]. split; [done|]. split; [by eapply validate_callback_url_ok|].
  intros secret Hs Hx. exists (compute_signature (webhook_body float_repr payload) secret). cbn [p_headers p_body].
  split; [|apply signature_verifies]. unfold webhook_headers. rewrite dict_merge_get by done. by rewrite Hs.
Qed.

Lemma deliver_ret_request d url payload extra i r :
  snd (delivered d url payload extra i) = Ret r → is_Some (fst (delivered d url payload extra i)).
Proof. unfold deliver. by destruct (validate_callback_url _ _ _ _). Qed.

(** *** The attempts *)
Lemma wait_keeps p url i m :
  let m' := fst (_wait_for_rate_limit p url i m) in
  wm_posts m' = wm_posts m ∧ wm_delays m' = wm_delays m ∧ wm_dead_letters m' = wm_dead_letters m.
Proof.
  unfold _wait_for_rate_limit, _get_bucket.
  destruct (PyDict.get url (wm_buckets m)) as [b|]; [by destruct (wait_rounds _ _)|].
  destruct (WebSocketTokenBucket.init _ _ _) as [|b]; [done|]. by destruct (wait_rounds _ _).
Qed.

Definition retryable (r : WebhookResult) : Prop := wr_success r = false ∧ is_non_retryable (wr_status_code r) = false.

(** The request an attempt sends, if its checks let it. *)
Definition attempt_post d url payload extra (inputs : nat → attempt_input) (k : nat) : option post :=
  fst (delivered d url payload extra (inputs k)).

(** The requests that leave are those of the attempts, in turn. *)
Lemma retry_loop_posts d p url payload extra inputs created left attempt last m :
  ∃ n, (n <= left)%nat ∧
    wm_posts (fst (retry_loop urlparse float_repr d p url payload extra inputs created left attempt last m))
    = (wm_posts m ++ omap (attempt_post d url payload extra inputs) (seq attempt n))%list.
Proof.
  revert attempt last m. induction left as [|left IH]; intros attempt last m; cbn [retry_loop].
  { exists 0%nat. split; [done|]. rewrite app_nil_r. by destruct last. }
  pose proof (wait_keeps p url (inputs attempt) m) as (Hw & _ & _).
  destruct (_wait_for_rate_limit p url (inputs attempt) m) as [m1 waited]. cbn [fst] in Hw.
  destruct waited as [e|[waits|]]; cbn [fst]; try (exists 0%nat; rewrite app_nil_r, Hw; split; [lia|done]).
  destruct (delivered d url payload extra (inputs attempt)) as [request out] eqn:Hd.
  assert (Hone : omap (attempt_post d url payload extra inputs) (seq attempt 1) = option_list request).
  { cbn. unfold attempt_post. rewrite Hd. cbn. by destruct request. }
  destruct out as [e|r]; [|destruct (_ || _); [|destruct (_ =? _)]];
    try (exists 1%nat; cbn [fst wm_posts]; rewrite Hw, Hone; split; [lia|done]).
  edestruct IH as (n & Hn & ->). exists (S n). cbn [wm_posts]. split; [lia|].
  change (seq attempt (S n)) with (seq attempt 1 ++ seq (S attempt) n)%list.
  by rewrite omap_app, Hone, Hw, app_assoc.
Qed.

(** How the attempts end: [n] of them failed and were followed by a delay, and
    the next one decided. *)
Lemma retry_loop_outcome d p url payload extra inputs created left attempt last m m' out :
  retry_loop urlparse float_repr d p url payload extra inputs created left attempt last m = (m', Done out) →
  (0 < left)%nat → Z.of_nat (left + attempt) = 1 + rp_max_retries p →
  ∃ n, (n < left)%nat ∧
    wm_delays m' = (wm_delays m ++ map (backoff_delay p) (seq attempt n))%list ∧
    (∀ k, (attempt <= k < attempt + n)%nat → ∃ r, snd (delivered d url payload extra (inputs k)) = Ret r ∧ retryable r) ∧
    match out with
    | Raise e => wm_dead_letters m' = wm_dead_letters m
    | Ret r =>
        snd (delivered d url payload extra (inputs (attempt + n)%nat)) = Ret r ∧
        ((~ retryable r ∧ wm_dead_letters m' = wm_dead_letters m) ∨
         (retryable r ∧ S n = left ∧
          wm_dead_letters m' = push_dead (mkDead url payload r (1 + rp_max_retries p) created) (wm_dead_letters m)))
    end.
Proof.
  revert attempt last m. induction left as [|left IH]; intros attempt last m Hrun Hpos Hmax; [lia|]. cbn [retry_loop] in Hrun.
  pose proof (wait_keeps p url (inputs attempt) m) as (_ & Hdl & Hdead).
  destruct (_wait_for_rate_limit p url (inputs attempt) m) as [m1 waited]. cbn [fst] in Hdl, Hdead.
  assert (Hstop : wm_delays m1 = (wm_delays m ++ map (backoff_delay p) (seq attempt 0))%list) by (by rewrite app_nil_r).
  destruct waited as [e|[waits|]]; [|destruct (delivered d url payload extra (inputs attempt)) as [request out1] eqn:Hd|done].
  { injection Hrun as <- <-. exists 0%nat. split_and!; [lia|done|lia|done]. }
  destruct out1 as [e|r]; [injection Hrun as <- <-; exists 0%nat; split_and!; [lia|done|lia|done]|].
  destruct (wr_success r || is_non_retryable (wr_status_code r)) eqn:Hend.
  { injection Hrun as <- <-. exists 0%nat. rewrite Nat.add_0_r, Hd. split_and!; [lia|done|lia|done|].
    left. split; [|done]. intros [H1 H2]. by rewrite H1, H2 in Hend. }
  apply orb_false_iff in Hend. destruct (Z.eqb_spec (Z.of_nat attempt) (rp_max_retries p)) as [Hlast|Hlast].
  { injection Hrun as <- <-. exists 0%nat. rewrite Nat.add_0_r, Hd. split_and!; [lia|done|lia|done|].
    right. split_and!; [done|lia|]. cbn. by rewrite Hdead. }
  apply IH in Hrun as (n & Hn & Hde & Hfail & Hout); [|lia|lia].
  exists (S n). cbn [wm_delays wm_dead_letters] in Hde, Hout.
  split_and!; [lia|by rewrite Hde, Hdl, <- app_assoc|..].
  - intros k Hk. destruct (decide (k = attempt)) as [->|Hne]; [|apply Hfail; lia]. exists r. by rewrite Hd.
  - rewrite Hdead in Hout. replace (attempt + S n)%nat with (S attempt + n)%nat by lia.
    destruct out as [e|r']; [done|]. destruct Hout as [? [?|(? & ? & ?)]]; split; try done; [by left|].
    right. split_and!; [done|lia|done].
Qed.

End Facts.

(** *** The bucket *)
Section Bucket.
  Implicit Types b : bucket.
  Import WebSocketTokenBucket.

Lemma consume_one_cases now b :
  consume_one now b =
  (if Qle_bool 1 (tokens (refill now b))
   then (mk (rate b) (capacity b) (tokens (refill now b) - 1) now, true) else (refill now b, false)).
Proof. reflexivity. Qed.

(** A bucket that cannot hold a whole token never gives one. *)
Lemma wait_starves ticks b : (capacity b < 1)%Q → snd (wait_rounds ticks b) = None.
Proof.
  revert b. induction ticks as [|[now now'] ticks IH]; intros b Hc; [done|]. cbn [wait_rounds].
  assert (Hm : ∀ t c, (capacity c < 1)%Q → Qle_bool 1 (tokens (refill t c)) = false).
  { intros t c Hcc. destruct (Qle_bool 1 _) eqn:Hq; [|done]. apply Qle_bool_iff in Hq.
    assert (tokens (refill t c) <= capacity c)%Q by apply Q.le_min_l. lra. }
  rewrite consume_one_cases, Hm by done. unfold seconds_until_available.
  rewrite (Hm now' (refill now b)) by done.
  specialize (IH (refill now' (refill now b)) Hc). destruct (wait_rounds ticks _) as [b' waits].
  cbn [snd] in IH |- *. by rewrite IH.
Qed.

(** One sleep is enough: after it, a bucket that can hold a token has one. *)
Lemma wait_once n1 n1' n2 n2' ticks b :
  (1 <= capacity b)%Q → (0 < rate b)%Q →
  (snd (seconds_until_available n1' (refill n1 b)) <= elapsed n1' n2)%Q →
  ∃ waits, snd (wait_rounds ((n1, n1') :: (n2, n2') :: ticks) b) = Some waits ∧ (length waits <= 1)%nat.
Proof.
  intros Hc Hr Hslept. cbn [wait_rounds]. rewrite consume_one_cases.
  destruct (Qle_bool 1 (tokens (refill n1 b))); [by exists []; cbn; split; [|lia]|].
  unfold seconds_until_available in *.
  set (b1 := refill n1' (refill n1 b)) in *.
  assert (Hb1 : capacity b1 = capacity b ∧ rate b1 = rate b ∧ last_refill b1 = n1') by done.
  destruct Hb1 as (Hcap & Hrate & Hlast).
  destruct (Qle_bool 1 (tokens b1)) eqn:Hq; cbn [snd] in Hslept;
    rewrite consume_one_cases; (rewrite (proj2 (Qle_bool_iff 1 (tokens (refill n2 b1)))); [eexists; split; [done|cbn; lia]|]);
    unfold refill; cbn [tokens]; apply Q.min_glb; rewrite ?Hcap, ?Hrate, ?Hlast; try done.
  - apply Qle_bool_iff in Hq. assert (0 <= elapsed n1' n2 * rate b)%Q by (apply Qmult_le_0_compat; lra). lra.
  - assert (Hm : ((1 - tokens b1) / rate b * rate b <= elapsed n1' n2 * rate b)%Q)
      by (apply Qmult_le_compat_r; [by rewrite <- Hrate|lra]).
    rewrite Qmult_comm, Qmult_div_r in Hm by lra. lra.
Qed.

End Bucket.

(** ** Properties *)

(** C22: a webhook request leaves only after the checks of its own attempt.
    The requests of a delivery are those of its first attempts, one attempt after
    the other, at most one per attempt and at most one attempt more than the
    policy has retries.  Whatever the resolver answers in each of them, the
    request of an attempt goes to the URL that was asked for, which has an
    allowed scheme and a host that is no blocked address, and every address the
    resolver gave in that very attempt is outside the blocked ranges.  It carries
    the canonical text of the payload, and, with a secret and no header that
    replaces it, a signature that verifies. *)
Theorem webhooks_reach_checked_hosts (urlparse : string → res pyexn url_parts) (float_repr : pyfloat → string)
    (d : WebhookDelivery) (p : RetryPolicy) (url : string) (payload : list (string * json))
    (extra : list (string * string)) (inputs : nat → attempt_input) (created : Z) (m : manager) :
  let sent := attempt_post urlparse float_repr d url payload extra inputs in
  (∃ n, Z.of_nat n <= Z.max 0 (1 + rp_max_retries p) ∧
     wm_posts (fst (deliver_with_retry urlparse float_repr d p url payload extra inputs created m))
     = (wm_posts m ++ omap sent (seq 0 n))%list)
  ∧ ∀ k q, sent k = Some q → request_ok urlparse float_repr d url payload extra (inputs k) q.
Proof.
  split; [|intros k q; apply deliver_request].
  destruct (retry_loop_posts urlparse float_repr d p url payload extra inputs created
              (Z.to_nat (1 + rp_max_retries p)) 0 None m) as (n & Hl & Hn).
  exists n. split; [lia|exact Hn].
Qed.

(** A delivery that ends does so after [n] failed attempts that may be
    retried, with the delays of the policy between them.  The next attempt
    decides: an error that leaves is recorded nowhere, a result that is a
    success or a client error is returned, and any other result is returned
    only after the last retry, with an entry in the queue of dead letters,
    which keeps the 1000 latest. *)
Theorem webhook_retries_end (urlparse : string → res pyexn url_parts) (float_repr : pyfloat → string)
    (d : WebhookDelivery) (p : RetryPolicy) (url : string) (payload : list (string * json))
    (extra : list (string * string)) (inputs : nat → attempt_input) (created : Z) (m m' : manager)
    (out : res webhook_exn WebhookResult) :
  deliver_with_retry urlparse float_repr d p url payload extra inputs created m = (m', Done out) →
  0 <= rp_max_retries p →
  let result k := snd (deliver urlparse float_repr d url payload extra (ai_answer (inputs k)) (ai_outcome (inputs k))
                         (ai_elapsed_ms (inputs k))) in
  ∃ n, Z.of_nat n <= rp_max_retries p ∧
    wm_delays m' = (wm_delays m ++ map (backoff_delay p) (seq 0 n))%list ∧
    (∀ k, (k < n)%nat → ∃ r, result k = Ret r ∧ retryable r) ∧
    match out with
    | Raise e => wm_dead_letters m' = wm_dead_letters m
    | Ret r =>
        result n = Ret r ∧
        ((~ retryable r ∧ wm_dead_letters m' = wm_dead_letters m) ∨
         (retryable r ∧ Z.of_nat n = rp_max_retries p ∧
          wm_dead_letters m' = push_dead (mkDead url payload r (1 + rp_max_retries p) created) (wm_dead_letters m) ∧
          (length (wm_dead_letters m') <= MAX_DEAD_LETTERS)%nat))
    end.
Proof.
  intros Hrun Hmax result. apply retry_loop_outcome in Hrun as (n & Hn & Hde & Hfail & Hout); [|lia|lia].
  exists n. split_and!; [lia|done|intros k Hk; apply Hfail; lia|].
  destruct out as [e|r]; [done|]. destruct Hout as [Hr [?|(? & Hlast & Hpush)]]; split; try done; [by left|].
  right. split_and!; [done|lia|done|]. rewrite Hpush. unfold push_dead. rewrite length_drop. lia.
Qed.

(** The wait for a token depends on the rate alone: for a URL without a
    bucket, a rate of at least one per second lets the first request go after at
    most one sleep that the clock honours, while a positive rate below one
    keeps every delivery waiting for ever, however the clock runs, and nothing
    leaves. *)
Theorem slow_rate_never_delivers (urlparse : string → res pyexn url_parts) (float_repr : pyfloat → string)
    (d : WebhookDelivery) (p : RetryPolicy) (url : string) (payload : list (string * json))
    (extra : list (string * string)) (inputs : nat → attempt_input) (created : Z) (m : manager) :
  (0 < rp_rate_per_second p)%Q → PyDict.get url (wm_buckets m) = None → 0 <= rp_max_retries p →
  ((1 <= rp_rate_per_second p)%Q →
   ∀ i b n1 n1' n2 n2' ticks, snd (_get_bucket p (ai_created i) url m) = Ret b →
     ai_ticks i = (n1, n1') :: (n2, n2') :: ticks →
     (snd (seconds_until_available n1' (WebSocketTokenBucket.refill n1 b)) <= WebSocketTokenBucket.elapsed n1' n2)%Q →
     ∃ waits, snd (_wait_for_rate_limit p url i m) = Ret (Some waits) ∧ (length waits <= 1)%nat) ∧
  ((rp_rate_per_second p < 1)%Q →
   ∃ m', deliver_with_retry urlparse float_repr d p url payload extra inputs created m = (m', Waiting) ∧
     wm_posts m' = wm_posts m).
Proof.
  intros Hr Hnew Hmax.
  assert (Hinit : ∀ now, WebSocketTokenBucket.init now (rp_rate_per_second p) None =
            Ret (WebSocketTokenBucket.mk (rp_rate_per_second p) (rp_rate_per_second p) (rp_rate_per_second p) now)).
  { intros now. unfold WebSocketTokenBucket.init. destruct (Qle_bool _ 0) eqn:Hq; [|done].
    apply Qle_bool_iff in Hq. lra. }
  split.
  - intros H1 i b n1 n1' n2 n2' ticks Hb Ht Hs. unfold _wait_for_rate_limit.
    assert (Hb' : WebSocketTokenBucket.capacity b = rp_rate_per_second p ∧ WebSocketTokenBucket.rate b = rp_rate_per_second p).
    { unfold _get_bucket in Hb. rewrite Hnew, Hinit in Hb. cbn [snd] in Hb. by injection Hb as <-. }
    destruct Hb' as [Hc Hrt].
    destruct (_get_bucket p (ai_created i) url m) as [m1 r]. cbn [snd] in Hb. subst r. rewrite Ht.
    destruct (wait_once n1 n1' n2 n2' ticks b) as (waits & Hw & Hl); [by rewrite Hc|by rewrite Hrt|done|].
    destruct (wait_rounds _ _) as [b' w]. cbn [snd] in Hw |- *. subst w. by exists waits.
  - intros H1. unfold deliver_with_retry. replace (Z.to_nat (1 + rp_max_retries p)) with (S (Z.to_nat (rp_max_retries p))) by lia.
    cbn [retry_loop]. unfold _wait_for_rate_limit, _get_bucket. rewrite Hnew, Hinit.
    set (b := WebSocketTokenBucket.mk _ _ _ _). pose proof (wait_starves (ai_ticks (inputs 0%nat)) b H1) as Hw.
    destruct (wait_rounds _ b) as [b' w]. cbn [snd] in Hw. subst w. by eexists.
Qed.

(** ** Examples *)
Module ToyWebhook.

Definition parse (url : string) : res pyexn url_parts := Ret (mkUrl "https" (Some "hooks.example.com")).
Definition repr (f : pyfloat) : string := "0.0".
Definition delivery : WebhookDelivery := mkDelivery (Some [1; 2]) "10.0" true.
Definition policy (rate : Q) : RetryPolicy := mkPolicy 2 1 16 rate.
Definition fresh : manager := mkManager [] [] [] [].
Definition try (answer : res string (list string)) (o : post_outcome) : attempt_input :=
  mkAttempt 0 [(0, 0); (1000000, 1000000)] answer o (FFin 0).
Definition up : res string (list string) := Ret ["93.184.216.34"].

(** A receiver that fails for good, and one that cannot be resolved any more
    when the request is tried again. *)
Definition broken (_ : nat) : attempt_input := try up (Status 500).
Definition vanished (k : nat) : attempt_input :=
  match k with O => try up (Status 500) | _ => try (Raise "Temporary failure in name resolution") (Status 200) end.

Definition run (rate : Q) (inputs : nat → attempt_input) : manager * progress WebhookResult :=
  deliver_with_retry parse repr delivery (policy rate) "https://hooks.example.com/x" [] [] inputs 0 fresh.

End ToyWebhook.
Import ToyWebhook(policy, fresh, broken, vanished, run).

Lemma webhook_retries_end_witness :
  ∃ n, Z.of_nat n <= 2 ∧
    wm_delays (fst (run 10 broken)) = ([] ++ map (backoff_delay (policy 10)) (seq 0 n))%list ∧
    (∀ k, (k < n)%nat → ∃ r, snd (deliver ToyWebhook.parse ToyWebhook.repr ToyWebhook.delivery
        "https://hooks.example.com/x" [] [] (ai_answer (broken k)) (ai_outcome (broken k)) (ai_elapsed_ms (broken k)))
        = Ret r ∧ retryable r) ∧
    (let r := mkResult "https://hooks.example.com/x" 500 false (FFin 0) None in
     snd (deliver ToyWebhook.parse ToyWebhook.repr ToyWebhook.delivery "https://hooks.example.com/x" [] []
        (ai_answer (broken n)) (ai_outcome (broken n)) (ai_elapsed_ms (broken n))) = Ret r ∧
     ((~ retryable r ∧ wm_dead_letters (fst (run 10 broken)) = []) ∨
      (retryable r ∧ Z.of_nat n = 2 ∧
       wm_dead_letters (fst (run 10 broken)) = push_dead (mkDead "https://hooks.example.com/x" [] r 3 0) [] ∧
       (length (wm_dead_letters (fst (run 10 broken))) <= MAX_DEAD_LETTERS)%nat))).
Proof.
  refine (webhook_retries_end ToyWebhook.parse ToyWebhook.repr ToyWebhook.delivery (policy 10)
            "https://hooks.example.com/x" [] [] broken 0 fresh (fst (run 10 broken))
            (Ret (mkResult "https://hooks.example.com/x" 500 false (FFin 0) None)) _ _).
  - vm_compute. reflexivity.
  - cbn. lia.
Defined.

Lemma slow_rate_never_delivers_witness :
  ∃ m', run (1 # 2) broken = (m', Waiting) ∧ wm_posts m' = [].
Proof.
  refine (proj2 (slow_rate_never_delivers ToyWebhook.parse ToyWebhook.repr ToyWebhook.delivery (policy (1 # 2))
            "https://hooks.example.com/x" [] [] broken 0 fresh _ _ _) _).
  - reflexivity.
  - reflexivity.
  - cbn. lia.
  - reflexivity.
Defined.

(** A failure of the resolver is an exception of validation: it ends the
    retries of a delivery that had begun, and leaves no dead letter. *)
Theorem dns_failure_loses_webhook :
  ∃ e, run 10 vanished = (fst (run 10 vanished), Done (Raise e)) ∧
    length (wm_posts (fst (run 10 vanished))) = 1%nat ∧ wm_dead_letters (fst (run 10 vanished)) = [].
Proof. eexists. split; [vm_compute; reflexivity|]. split; vm_compute; reflexivity. Qed.
