(* ===== verification/RequestHandler.v ===== *)
(** * The JSON-RPC request handler

    `src/src/asap/transport/_request_handler.py`: the pipeline every message
    goes through (parse, authenticate, envelope, sender, timestamp, nonce), the
    dispatch to a handler, the replies for each kind of failure and the metrics
    they record.

    A computation of the pipeline runs on the server's state and may stop with a
    reply ([Reply]) or with an exception on its way to the outer `except`
    ([Crash]).  Logging and trace tokens are left out; the annotation of the
    reply with the current span is the parameter [inject_trace]. *)

From Stdlib Require Import ZArith QArith Lqa Lia Ascii String.
From stdpp Require Import base tactics list gmap strings.
From S2P Require Import Prelude PyValue Digest Identity ReplayGuard EnvelopeGuard AuditChain Metrics Errors LambdaCodec Compression Metering JsonRpc Handlers Middleware.
Open Scope string_scope.
Open Scope Z_scope.
Open Scope asap_scope.

(** The outcome of `json.loads(body.decode("utf-8"))`. *)
Inductive decoded : Type :=
| Decoded (j : json)
| BadUtf8 (msg : string)
| BadJson (msg : string)
| DecoderRaises (x : exn).

(** The interpreter and the packages around the handler. *)
Class Runtime : Type := {
  json_loads : bytes → decoded;
  (** `f"{x:.1f}"` of a number of microseconds, in seconds *)
  fixed1 : Z → string;
  (** `traceback.format_exc()` *)
  format_exc : exn → string;
  (** `inject_envelope_trace_context` *)
  inject_trace : Envelope → Envelope;
  (** `rpc_response.model_dump_json(by_alias=True)` *)
  dump_json_text : JsonRpcResponse → list Z;
  (** the rendering of JSON replies *)
  reply_serializer :: Serializer
}.

Inductive stop : Type :=
| Reply (h : HttpResponse)
| Crash (x : exn).

(** The readings and fresh values one request consumes. *)
Record inputs : Type := mkInputs {
  i_env_now : Z;          (* clock when the envelope is built *)
  i_env_id : string;      (* id for an envelope without one *)
  i_check_now : Z;        (* clock of the timestamp check *)
  i_nonce : reading;      (* readings of the nonce check *)
  i_handler_ms : Q;       (* duration of the handler *)
  i_usage_now : Z;        (* clock of the usage record *)
  i_audit_now : Z;        (* clock of the audit entry *)
  i_audit_id : string;    (* id of the audit entry *)
  i_duration : Q          (* duration of the request, in seconds *)
}.

Section Handler.
  Context {W : Type} `{PyRuntime, Pydantic, Codecs, Runtime}.

Record sstate : Type := mkS {
  s_disp : dstate W;
  s_nonces : option InMemoryNonceStore.t;
  s_audit : option (list AuditEntry)
}.

Abbreviation P := (ST sstate stop).

(** The attributes of `ASAPRequestHandler` and the process's debug mode. *)
Record config : Type := mkConfig {
  cf_registry : HandlerRegistry W;
  cf_manifest : Manifest;
  cf_auth : option (AuthenticationMiddleware W);
  cf_max_request_size : Z;
  cf_debug : bool
}.

Variable cf : config.

(** ** Replies *)
Definition build_error_response (code : Z) (data : option obj) (request_id : json) : res exn HttpResponse :=
  match new_error_response (from_code code data) request_id with
  | Raise e => Raise (of_pyexn e)
  | Ret r => JSONResponse 200 (dump_error_response r) []
  end.

Definition www_authenticate (data : obj) : obj * list (string * string) :=
  match assoc "details" data with
  | Some (JObj details) =>
      (PyDict.set "details" (JObj (PyDict.del "_www_authenticate_asap" details)) data,
       match assoc "_www_authenticate_asap" details with
       | Some (JStr wa) => [("WWW-Authenticate", wa)]
       | _ => []
       end)
  | _ => (data, [])
  end.

Definition build_jsonrpc_error_for_asap_exception (e : ASAPError) (request_id : rpc_id) (extra_data : obj) :
    res exn HttpResponse :=
  let data := dict_merge (jsonrpc_error_data_for_asap_exception e) extra_data in
  let '(data, extra_headers) := www_authenticate data in
  JSONResponse 200
    (dump_error_response (mkErrorResponse (mkRpcError (x_rpc_code e) (x_message e) (Some data)) (Some request_id)))
    extra_headers.

(** ** Metrics *)
Definition _normalize_payload_type_for_metrics (payload_type : string) : string :=
  if has_handler payload_type (cf_registry cf) then payload_type else "other".

Definition specific_counter (error_type : string) (m : MetricsCollector.t) : MetricsCollector.t :=
  let inc name labels := MetricsCollector.increment_counter name labels 1 m in
  if String.eqb error_type "parse_error" then inc "asap_parse_errors_total" []
  else if String.eqb error_type "auth_failed" then inc "asap_auth_failures_total" []
  else if String.eqb error_type "invalid_timestamp" then inc "asap_invalid_timestamp_total" []
  else if String.eqb error_type "invalid_nonce" then inc "asap_invalid_nonce_total" []
  else if String.eqb error_type "sender_mismatch" then inc "asap_sender_mismatch_total" []
  else if str_in error_type ["invalid_envelope"; "missing_envelope"; "invalid_params"] then
    inc "asap_validation_errors_total" [("reason", error_type)]
  else m.

Definition record_error_metrics (payload_type error_type : string) (duration : Q) (m : MetricsCollector.t) :
    MetricsCollector.t :=
  let p := _normalize_payload_type_for_metrics payload_type in
  specific_counter error_type
    (MetricsCollector.observe_histogram "asap_request_duration_seconds" duration
       [("payload_type", p); ("status", "error")]
       (MetricsCollector.increment_counter "asap_requests_error_total"
          [("payload_type", p); ("error_type", error_type)] 1
          (MetricsCollector.increment_counter "asap_requests_total"
             [("payload_type", p); ("status", "error")] 1 m))).

Definition record_success_metrics (payload_type : string) (duration : Q) (m : MetricsCollector.t) :
    MetricsCollector.t :=
  let p := _normalize_payload_type_for_metrics payload_type in
  MetricsCollector.observe_histogram "asap_request_duration_seconds" duration
    [("payload_type", p); ("status", "success")]
    (MetricsCollector.increment_counter "asap_requests_success_total" [("payload_type", p)] 1
       (MetricsCollector.increment_counter "asap_requests_total"
          [("payload_type", p); ("status", "success")] 1 m)).

Definition on_disp (f : dstate W → dstate W) (s : sstate) : sstate := mkS (f (s_disp s)) (s_nonces s) (s_audit s).

Definition rec_err (payload_type error_type : string) (duration : Q) : P unit :=
  st_modify (on_disp (on_metrics (record_error_metrics payload_type error_type duration))).

(** Stop with a reply; building it may itself raise. *)
Definition stop_with {A} (r : res exn HttpResponse) : P A :=
  st_stop match r with Ret h => Reply h | Raise x => Crash x end.

(** Build the reply, record the metrics, then return the reply. *)
Definition reply_and_record {A} (r : res exn HttpResponse) (payload_type error_type : string) (duration : Q) : P A :=
  do! h <- st_lift match r with Ret h => Ret h | Raise x => Raise (Crash x) end in
  run! rec_err payload_type error_type duration in
  st_stop (Reply h).

(** ** Parsing *)
Inductive body_error : Type :=
| BodyHttp (e : HTTPException)
| BodyValueError (msg : string)
| BodyEscapes (x : exn).

(** The loop over the chunks. *)
Fixpoint read_stream (acc : bytes) (chunks : list bytes) : res body_error bytes :=
  match chunks with
  | [] => Ret acc
  | chunk :: chunks' =>
      let acc := (acc ++ chunk)%list in
      if cf_max_request_size cf <? size acc then
        Raise (BodyHttp (mkHTTPException 413 (size_detail (size acc) (cf_max_request_size cf)) []))
      else read_stream acc chunks'
  end.

Definition decompress_body (body_bytes : bytes) (content_encoding : string) : res body_error bytes :=
  match decompress_payload body_bytes content_encoding with
  | Ret d =>
      if cf_max_request_size cf <? size d then
        Raise (BodyHttp (mkHTTPException 413 ("Decompressed request size (" ++ PyStr.dec_Z (size d)
          ++ " bytes) exceeds maximum (" ++ PyStr.dec_Z (cf_max_request_size cf) ++ " bytes)") []))
      else Ret d
  | Raise (CodecValueError m) =>
      Raise (BodyHttp (mkHTTPException 400 ("Failed to decompress request: " ++ m) []))
  | Raise (CodecOSError m) | Raise (CodecEOFError m) =>
      Raise (BodyHttp (mkHTTPException 400 ("Invalid compressed data: " ++ m) []))
  | Raise CodecImportError => Raise (BodyEscapes (XOther "ImportError" ""))
  | Raise (CodecOther m) => Raise (BodyEscapes (XOther "error" m))
  end.

Definition parse_json_body (request : HttpRequest) : res body_error json :=
  let content_encoding := PyStr.strip (PyStr.lower (default "" (header "content-encoding" request))) in
  let supported_encodings := (get_supported_encodings ++ ["identity"; ""])%list in
  if PyStr.truthy content_encoding && negb (str_in content_encoding supported_encodings) then
    Raise (BodyHttp (mkHTTPException 415 ("Unsupported Content-Encoding: " ++ content_encoding
                       ++ ". Supported: " ++ joined ", " get_supported_encodings) []))
  else
    let! body_bytes := read_stream [] (hq_stream request) in
    let! body_bytes :=
      if PyStr.truthy content_encoding && negb (str_in content_encoding ["identity"; ""])
      then decompress_body body_bytes content_encoding else Ret body_bytes in
    match json_loads body_bytes with
    | Decoded j => Ret j
    | BadUtf8 m => Raise (BodyValueError ("Invalid UTF-8 encoding: " ++ m))
    | BadJson m => Raise (BodyValueError ("Invalid JSON: " ++ m))
    | DecoderRaises x => Raise (BodyEscapes x)
    end.

(** `validate_jsonrpc_request` on a JSON object. *)
Definition validate_jsonrpc_request (body : obj) : res (res exn HttpResponse) JsonRpcRequest :=
  match pd_request body with
  | Raise errors =>
      let dict_error := params_dict_error errors in
      let error_code := if dict_error then INVALID_PARAMS else INVALID_REQUEST in
      let error_message := if dict_error then "JSON-RPC 'params' must be an object"
                           else "Invalid JSON-RPC structure" in
      Raise (build_error_response error_code
               (Some [("error", JStr error_message); ("validation_errors", JList errors)])
               (j_get "id" body))
  | Ret rpc_request =>
      if negb (String.eqb (rq_method rpc_request) ASAP_METHOD) then
        Raise (build_error_response METHOD_NOT_FOUND (Some [("method", JStr (rq_method rpc_request))])
                 (id_json (Some (rq_id rpc_request))))
      else Ret rpc_request
  end.

Definition _parse_and_validate_request (request : HttpRequest) : P JsonRpcRequest :=
  match parse_json_body request with
  | Raise (BodyHttp e) =>
      stop_with (JSONResponse (hx_status_code e) (JObj [("detail", JStr (hx_detail e))]) (hx_headers e))
  | Raise (BodyValueError m) =>
      reply_and_record (build_error_response PARSE_ERROR (Some [("error", JStr m)]) JNull)
        "unknown" "parse_error" 0
  | Raise (BodyEscapes x) => st_stop (Crash x)
  | Ret (JObj body) =>
      match validate_jsonrpc_request body with
      | Raise error => reply_and_record error "unknown" "invalid_request" 0
      | Ret rpc_request => st_ret rpc_request
      end
  | Ret body =>
      reply_and_record
        (build_error_response INVALID_REQUEST
           (Some [("error", JStr "JSON-RPC request must be an object"); ("received_type", JStr (type_name body))])
           JNull)
        "unknown" "invalid_request" 0
  end.

(** ** The gates *)
Definition _authenticate_request (i : inputs) (request : HttpRequest) (request_id : rpc_id) : P (option string) :=
  match cf_auth cf with
  | None => st_ret None
  | Some auth => λ s,
      let '(w, r) := verify_authentication auth request (d_world (s_disp s)) in
      let s := on_disp (λ d, mkD (d_metrics d) (d_executor d) (d_metering d) w) s in
      match r with
      | Ret agent_id => (s, Ret agent_id)
      | Raise (AuthEscapes x) => (s, Raise (Crash x))
      | Raise (AuthHttp e) =>
          let error_code := if hx_status_code e =? 401 then INVALID_REQUEST else INVALID_PARAMS in
          reply_and_record
            (build_error_response error_code
               (Some [("error", JStr (hx_detail e)); ("status_code", JInt (hx_status_code e))])
               (id_json (Some request_id)))
            "unknown" "auth_failed" (i_duration i) s
      end
  end.

(** `rpc_request.params` is a dictionary: the model of the request says so. *)
Definition _validate_envelope (i : inputs) (rpc_request : JsonRpcRequest) : P Envelope :=
  let bad msg kind :=
    reply_and_record
      (build_error_response INVALID_PARAMS (Some [("error", JStr msg)]) (id_json (Some (rq_id rpc_request))))
      "unknown" kind (i_duration i) in
  match j_get "envelope" (rq_params rpc_request) with
  | JNull => bad "Missing 'envelope' in params" "missing_envelope"
  | JObj envelope_data =>
      match new_envelope (i_env_now i) (i_env_id i) envelope_data with
      | Ret envelope => st_ret envelope
      | Raise (Escapes e) => st_stop (Crash (of_pyexn e))
      | Raise (ValidationErrors errors) =>
          run! rec_err "unknown" "invalid_envelope" (i_duration i) in
          stop_with
            (build_error_response INVALID_PARAMS
               (Some [("error", JStr "Invalid envelope structure"); ("validation_errors", JList errors)])
               (id_json (Some (rq_id rpc_request))))
      end
  | _ => bad "'envelope' must be a JSON object" "invalid_envelope"
  end.

Definition _verify_sender_matches_auth (i : inputs) (authenticated_agent_id : option string)
    (envelope : Envelope) (request_id : rpc_id) : P unit :=
  match cf_auth cf with
  | None => st_ret tt
  | Some _ =>
      match verify_sender_matches_auth authenticated_agent_id (e_sender envelope) with
      | Ret _ => st_ret tt
      | Raise e =>
          reply_and_record
            (build_error_response INVALID_PARAMS
               (Some [("error", JStr (hx_detail e)); ("status_code", JInt (hx_status_code e))])
               (id_json (Some request_id)))
            (e_payload_type envelope) "sender_mismatch" (i_duration i)
      end
  end.

(** The exceptions of `validators.py` for the two checks. *)
Definition opt_str (o : option string) : json := match o with Some s => JStr s | None => JNull end.

Definition timestamp_error (envelope : Envelope) (e : InvalidTimestamp) : res pyexn ASAPError :=
  let iso := match e_timestamp envelope with Some d => isoformat (to_utc d) | None => "" end in
  let id := opt_str (e_id envelope) in
  match e with
  | TimestampMissing =>
      InvalidTimestampError "" "Envelope timestamp is required for validation" None None
        [("envelope_id", id)] (Some 5000)
  | TimestampTooOld age =>
      InvalidTimestampError iso
        ("Envelope timestamp is too old: " ++ fixed1 age ++ " seconds (max: 300 seconds)")
        (Some (FFin (age # 1000000))) None
        [("envelope_id", id); ("max_age_seconds", JInt MAX_ENVELOPE_AGE_SECONDS)] (Some 5000)
  | TimestampTooFarInFuture offset =>
      InvalidTimestampError iso
        ("Envelope timestamp is too far in the future: " ++ fixed1 offset
         ++ " seconds (max tolerance: 30 seconds)")
        None (Some (FFin (offset # 1000000)))
        [("envelope_id", id); ("max_future_tolerance_seconds", JInt MAX_FUTURE_TOLERANCE_SECONDS)] (Some 5000)
  end.

Definition nonce_error (envelope : Envelope) (e : InvalidNonce) : res pyexn ASAPError :=
  let id := opt_str (e_id envelope) in
  match e with
  | NonceNotAString nonce =>
      InvalidNonceError (JStr (py_str float_repr nonce))
        ("Nonce must be a non-empty string, got "
         ++ match nonce with JStr _ => "empty string" | _ => type_name nonce end)
        [("envelope_id", id)]
  | DuplicateNonce nonce =>
      InvalidNonceError (JStr nonce) ("Duplicate nonce detected: " ++ nonce) [("envelope_id", id)]
  end.

(** Record, then reply with the error of the taxonomy. *)
Definition refuse_envelope {A} (i : inputs) (e : res pyexn ASAPError) (envelope : Envelope)
    (request_id : rpc_id) (error_type text : string) : P A :=
  match e with
  | Raise p => st_stop (Crash (of_pyexn p))
  | Ret err =>
      run! rec_err (e_payload_type envelope) error_type (i_duration i) in
      stop_with (build_jsonrpc_error_for_asap_exception err request_id [("error", JStr text)])
  end.

Definition _validate_timestamp (i : inputs) (envelope : Envelope) (request_id : rpc_id) : P unit :=
  match validate_envelope_timestamp (i_check_now i) envelope with
  | Ret _ => st_ret tt
  | Raise e =>
      refuse_envelope i (timestamp_error envelope e) envelope request_id
        "invalid_timestamp" "Invalid envelope timestamp"
  end.

Definition _validate_nonce (i : inputs) (envelope : Envelope) (request_id : rpc_id) : P unit := λ s,
  let '(store, r) := validate_envelope_nonce (i_nonce i) envelope (s_nonces s) in
  let s := mkS (s_disp s) store (s_audit s) in
  match r with
  | Ret _ => (s, Ret tt)
  | Raise e =>
      refuse_envelope i (nonce_error envelope e) envelope request_id
        "invalid_nonce" "Invalid envelope nonce" s
  end.

Record PreparedRequest : Type := mkPrepared {
  pr_request_id : rpc_id;
  pr_envelope : Envelope;
  pr_authenticated_agent_id : option string
}.

Definition _prepare_request (i : inputs) (request : HttpRequest) : P PreparedRequest :=
  do! rpc_request <- _parse_and_validate_request request in
  let request_id := rq_id rpc_request in
  do! authenticated_agent_id <- _authenticate_request i request request_id in
  do! envelope <- _validate_envelope i rpc_request in
  run! _verify_sender_matches_auth i authenticated_agent_id envelope request_id in
  run! _validate_timestamp i envelope request_id in
  run! _validate_nonce i envelope request_id in
  st_ret (mkPrepared request_id envelope authenticated_agent_id).

(** ** Dispatch and success *)
Definition unavailable (e : ASAPError) : json :=
  JObj [("error", JStr "Service Temporarily Unavailable"); ("code", JStr (x_code e));
        ("rpc_code", JInt (x_rpc_code e)); ("message", JStr (x_message e)); ("details", JObj (x_details e));
        ("recoverable", JBool true);
        ("retry_after_ms", match x_retry_after_ms e with Some n => JInt n | None => JNull end);
        ("fallback_action", opt_str (x_fallback_action e))].

Definition _dispatch_to_handler (i : inputs) (envelope : Envelope) (request_id : rpc_id) : P Envelope := λ s,
  let '(d, r) := dispatch_async (cf_registry cf) (cf_manifest cf) (i_usage_now i) (i_handler_ms i) envelope (s_disp s) in
  let s := on_disp (λ _, d) s in
  match r with
  | Ret response => (s, Ret response)
  | Raise (XAsap e) =>
      if bool_decide (x_class e = ClsThreadPoolExhaustedError) then
        (run! rec_err (e_payload_type envelope) "thread_pool_exhausted" (i_duration i) in
         stop_with (JSONResponse 503 (unavailable e) [])) s
      else if bool_decide (x_class e = ClsHandlerNotFoundError) then
        (run! rec_err (e_payload_type envelope) "handler_not_found" (i_duration i) in
         stop_with (build_jsonrpc_error_for_asap_exception e request_id [("error", JStr (str_error e))])) s
      else (s, Raise (Crash (XAsap e)))
  | Raise x => (s, Raise (Crash x))
  end.

(** `_audit_log_operation`; the in-memory store does not fail. *)
Definition _audit_log_operation (i : inputs) (operation agent_urn : string) (details : obj) : P unit :=
  st_modify (λ s,
    match s_audit s with
    | None => s
    | Some store =>
        mkS (s_disp s) (s_nonces s)
          (Some (fst (InMemoryAuditStore.append
             (mkEntry (i_audit_id i) (Aware (i_audit_now i) 0) operation agent_urn details "" "") store)))
    end).

Definition LAMBDA_CONTENT_TYPE : string := "application/vnd.asap+lambda".

Definition _build_success_response (i : inputs) (response : Envelope) (request_id : rpc_id)
    (payload_type : string) (accept_lambda : bool) : P HttpResponse :=
  let response := inject_trace response in
  run! st_modify (on_disp (on_metrics (record_success_metrics payload_type (i_duration i)))) in
  let rpc_response := mkResponse [("envelope", pd_dump_envelope response)] request_id in
  if accept_lambda then
    st_ret (mkHttpResponse 200 (LambdaBody (LambdaCodec.encode (dump_json_text rpc_response)))
              [("content-type", LAMBDA_CONTENT_TYPE)])
  else
    st_lift match JSONResponse 200 (dump_response rpc_response) [] with
            | Ret h => Ret h
            | Raise x => Raise (Crash x)
            end.

Definition internal_error_data (x : exn) : obj :=
  if cf_debug cf then
    match x with
    | XOther ty text =>
        [("error", JStr text); ("type", JStr ty); ("traceback", JStr (format_exc x))]
    | XAsap e =>
        [("error", JStr (str_error e)); ("type", JStr (class_name (x_class e)));
         ("traceback", JStr (format_exc x))]
    | XRemote r =>
        [("error", JStr (str_remote r)); ("type", JStr (class_name (x_class (r_error r))));
         ("traceback", JStr (format_exc x))]
    end
  else [("error", JStr "Internal server error")].

Definition _handle_internal_error (i : inputs) (x : exn) (request_id : rpc_id) (payload_type : string) (s : sstate) :
    sstate * res exn HttpResponse :=
  (on_disp (on_metrics (record_error_metrics payload_type "internal_error" (i_duration i))) s,
   JSONResponse 200
     (dump_error_response
        (mkErrorResponse (from_code INTERNAL_ERROR (Some (internal_error_data x))) (Some request_id))) []).

(** The outer `except` clauses. *)
Definition on_exception (i : inputs) (x : exn) (request_id : rpc_id) (payload_type : string) (s : sstate) :
    sstate * res exn HttpResponse :=
  match as_asap x with
  | Some (e, text) =>
      (on_disp (on_metrics (record_error_metrics payload_type (class_name (x_class e)) (i_duration i))) s,
       build_jsonrpc_error_for_asap_exception e request_id [("error", JStr text)])
  | None => _handle_internal_error i x request_id payload_type s
  end.

(** `_fallback_context`: the id before a request is prepared. *)
Definition fallback_id : rpc_id := IdStr "".

(** What follows the preparation. *)
Definition process (i : inputs) (request : HttpRequest) (p : PreparedRequest) : P HttpResponse :=
  let envelope := pr_envelope p in
  do! response <- _dispatch_to_handler i envelope (pr_request_id p) in
  let accept_lambda := PyStr.contains (default "" (header "accept" request)) LAMBDA_CONTENT_TYPE in
  run! _audit_log_operation i (e_payload_type envelope) (e_sender envelope)
         [("envelope_id", opt_str (e_id envelope)); ("response_id", opt_str (e_id response))] in
  _build_success_response i response (pr_request_id p) (e_payload_type envelope) accept_lambda.

Definition handle_message (i : inputs) (request : HttpRequest) (s : sstate) : sstate * res exn HttpResponse :=
  match _prepare_request i request s with
  | (s, Raise (Reply h)) => (s, Ret h)
  | (s, Raise (Crash x)) => on_exception i x fallback_id "unknown" s
  | (s, Ret p) =>
      match process i request p s with
      | (s, Raise (Reply h)) => (s, Ret h)
      | (s, Raise (Crash x)) => on_exception i x (pr_request_id p) (e_payload_type (pr_envelope p)) s
      | (s, Ret h) => (s, Ret h)
      end
  end.

(** ** Streaming *)
Definition _prepare_streaming_request (i : inputs) (request : HttpRequest) : P PreparedRequest :=
  do! p <- _prepare_request i request in
  let payload_type := e_payload_type (pr_envelope p) in
  if has_streaming_handler payload_type (cf_registry cf) then st_ret p
  else
    run! rec_err payload_type "handler_not_found" (i_duration i) in
    match HandlerNotFoundError payload_type with
    | Raise e => st_stop (Crash (of_pyexn e))
    | Ret e =>
        stop_with (build_jsonrpc_error_for_asap_exception e (pr_request_id p)
                     [("error", JStr "No streaming handler registered for payload type")])
    end.

(** `handle_stream`, with the stream read to its end: the events sent and, when
    the generator ends with an exception, that exception. *)
Definition handle_stream (i : inputs) (request : HttpRequest) (s : sstate) :
    sstate * res exn (HttpResponse * option exn) :=
  let answer h := (h, None) in
  match _prepare_streaming_request i request s with
  | (s, Raise (Reply h)) => (s, Ret (answer h))
  | (s, Raise (Crash x)) =>
      let '(s, r) := _handle_internal_error i x fallback_id "unknown" s in (s, rmap answer r)
  | (s, Ret p) =>
      let envelope := pr_envelope p in
      let '(d, out, e) := dispatch_stream_async (cf_registry cf) (cf_manifest cf) (i_handler_ms i) envelope (s_disp s) in
      let s := on_disp (λ _, d) s in
      let events := map (λ r, pd_dump_envelope (inject_trace r)) out in
      let h := mkHttpResponse 200 (EventStream events)
                 [("Cache-Control", "no-cache"); ("Connection", "keep-alive")] in
      match e with
      | None =>
          (on_disp (on_metrics (record_success_metrics (e_payload_type envelope) (i_duration i))) s, Ret (h, None))
      | Some x => (s, Ret (h, Some x))
      end
  end.

End Handler.

Arguments sstate W : clear implicits.
Arguments config W : clear implicits.

(** ** What the gates leave alone *)
Section Frame.
  Context {W : Type} `{PyRuntime, Pydantic, Codecs, Runtime} {B : Type}.
  Variable cf : config W.
  Variable view : sstate W → B.
  Hypothesis view_metrics : ∀ f s, view (on_disp (on_metrics f) s) = view s.
  Hypothesis view_nonces : ∀ n s, view (mkS (s_disp s) n (s_audit s)) = view s.

Lemma keeps_rec_err pt et d : st_keeps view (rec_err cf pt et d).
Proof. intros s. apply view_metrics. Qed.

Lemma keeps_lift_res {A} (r : res stop A) : st_keeps view (st_lift r).
Proof. done. Qed.

Lemma keeps_stop_with {A} r : st_keeps view (stop_with (A := A) r).
Proof. apply keeps_stop. Qed.

Lemma keeps_reply {A} r pt et d : st_keeps view (reply_and_record (A := A) cf r pt et d).
Proof.
  unfold reply_and_record. repeat keeps_step; first [apply keeps_lift_res | apply keeps_rec_err].
Qed.

Lemma keeps_parse request : st_keeps view (_parse_and_validate_request cf request).
Proof.
  unfold _parse_and_validate_request. destruct (parse_json_body cf request) as [[e|m|x]|[]];
    repeat first [apply keeps_reply | apply keeps_stop_with | keeps_step].
Qed.

Lemma keeps_envelope i r : st_keeps view (_validate_envelope cf i r).
Proof.
  unfold _validate_envelope. cbv zeta.
  repeat first [apply keeps_reply | apply keeps_stop_with | apply keeps_rec_err | keeps_step].
Qed.

Lemma keeps_sender i a e id : st_keeps view (_verify_sender_matches_auth cf i a e id).
Proof. unfold _verify_sender_matches_auth. repeat first [apply keeps_reply | keeps_step]. Qed.

Lemma keeps_refuse {A} i e env id et text : st_keeps view (refuse_envelope (A := A) cf i e env id et text).
Proof.
  unfold refuse_envelope. repeat first [apply keeps_stop_with | apply keeps_rec_err | keeps_step].
Qed.

Lemma keeps_timestamp i e id : st_keeps view (_validate_timestamp cf i e id).
Proof. unfold _validate_timestamp. repeat first [apply keeps_refuse | keeps_step]. Qed.

Lemma keeps_nonce i e id : st_keeps view (_validate_nonce cf i e id).
Proof.
  intros s. unfold _validate_nonce. destruct (validate_envelope_nonce _ _ _) as [store [x|u]]; simpl.
  - rewrite keeps_refuse. apply view_nonces.
  - apply view_nonces.
Qed.

(** Everything after authentication. *)
Lemma keeps_after_auth i r a :
  st_keeps view
    (do! envelope <- _validate_envelope cf i r in
     run! _verify_sender_matches_auth cf i a envelope (rq_id r) in
     run! _validate_timestamp cf i envelope (rq_id r) in
     run! _validate_nonce cf i envelope (rq_id r) in
     st_ret (mkPrepared (rq_id r) envelope a)).
Proof.
  repeat first [apply keeps_envelope | apply keeps_sender | apply keeps_timestamp | apply keeps_nonce
               | keeps_step].
Qed.

Lemma on_exception_view i x id pt s : view (fst (on_exception cf i x id pt s)) = view s.
Proof.
  unfold on_exception, _handle_internal_error. destruct (as_asap x) as [[e text]|]; apply view_metrics.
Qed.
End Frame.

(** ** Properties *)
Section Properties.
  Context {W : Type} `{PyRuntime, Pydantic, Codecs, Runtime}.
  Variable cf : config W.

(** What a handler, the executor, metering and the audit log work on. *)
Definition untouched (s s' : sstate W) : Prop :=
  d_metering (s_disp s') = d_metering (s_disp s) ∧ d_executor (s_disp s') = d_executor (s_disp s)
  ∧ s_audit s' = s_audit s.

(** The world after the token validator ran, if it did. *)
Definition after_auth (request : HttpRequest) (w : W) : W :=
  match cf_auth cf with
  | None => w
  | Some auth => fst (verify_authentication auth request w)
  end.

(** The envelope that a request carries: its body is a JSON-RPC request of the ASAP
    method, whose `params` hold the data of the envelope. *)
Definition carries (i : inputs) (request : HttpRequest) (e : Envelope) : Prop :=
  ∃ body rpc data,
    parse_json_body cf request = Ret (JObj body) ∧ pd_request body = Ret rpc ∧ rq_method rpc = ASAP_METHOD
    ∧ j_get "envelope" (rq_params rpc) = JObj data ∧ new_envelope (i_env_now i) (i_env_id i) data = Ret e.

Lemma carries_one i request e e' : carries i request e → carries i request e' → e = e'.
Proof. intros (b & r & d & ? & ? & _ & ? & ?) (b' & r' & d' & ? & ? & _ & ? & ?). simplify_eq. congruence. Qed.

(** The conditions under which the envelope of a message may reach a handler. *)
Definition gates_passed (i : inputs) (request : HttpRequest) (s : sstate W) (e : Envelope) : Prop :=
  carries i request e
  ∧ envelope_checked e
  ∧ validate_envelope_timestamp (i_check_now i) e = Ret tt
  ∧ snd (validate_envelope_nonce (i_nonce i) e (s_nonces s)) = Ret tt
  ∧ ∀ auth, cf_auth cf = Some auth → m_auth_schemes (am_manifest auth) ≠ None →
      ∃ scheme token validator w,
        hq_credentials request = Some (scheme, token) ∧ am_validator auth = Some validator
        ∧ validator token (d_world (s_disp s)) = (w, Ret (Some (e_sender e))).

(** The state in which a handler is entered: only the token validator ran before. *)
Definition entered (request : HttpRequest) (s : sstate W) : dstate W :=
  let d := s_disp s in mkD (d_metrics d) (d_executor d) (d_metering d) (after_auth request (d_world d)).

(** What a dispatch works on beside the metrics. *)
Definition work (d : dstate W) := (d_metering d, d_executor d, d_world d).

(** The dispatch of an envelope from there. *)
Definition dispatched (i : inputs) (request : HttpRequest) (s : sstate W) (e : Envelope) : dstate W * res exn Envelope :=
  dispatch_async (cf_registry cf) (cf_manifest cf) (i_usage_now i) (i_handler_ms i) e (entered request s).

Definition frame (s : sstate W) := (d_metering (s_disp s), d_executor (s_disp s), s_audit s).

Lemma frame_untouched s s' : frame s' = frame s → untouched s s'.
Proof. unfold frame, untouched. by intros [= -> -> ->]. Qed.

Lemma authenticate_cases i request id s s1 r :
  _authenticate_request cf i request id s = (s1, r) →
  frame s1 = frame s ∧ s_nonces s1 = s_nonces s
  ∧ d_world (s_disp s1) = after_auth request (d_world (s_disp s))
  ∧ (∀ a, r = Ret a → s_disp s1 = entered request s ∧
       match cf_auth cf with
       | None => a = None
       | Some auth => ∃ w, verify_authentication auth request (d_world (s_disp s)) = (w, Ret a)
       end).
Proof.
  unfold _authenticate_request, entered, after_auth. destruct (cf_auth cf) as [auth|].
  - destruct (verify_authentication auth request (d_world (s_disp s))) as [w [[e|x]|a]] eqn:E; simpl.
    + unfold reply_and_record, st_bind, st_lift. destruct (build_error_response _ _ _); simpl;
        intros [= <- <-]; split_and!; done.
    + intros [= <- <-]. by split_and!.
    + intros [= <- <-]. split_and!; try done. intros a' [= <-]. split; [done|by exists w].
  - intros [= <- <-]. split_and!; try done. intros a [= <-]. by destruct s as [[]].
Qed.

Lemma parse_ok request s s' r :
  _parse_and_validate_request cf request s = (s', Ret r) →
  s' = s ∧ ∃ body, parse_json_body cf request = Ret (JObj body) ∧ pd_request body = Ret r ∧ rq_method r = ASAP_METHOD.
Proof.
  unfold _parse_and_validate_request. destruct (parse_json_body cf request) as [[|m|x]|j]; [done| |done|].
  - unfold reply_and_record, st_bind, st_lift. by destruct (build_error_response _ _ _).
  - destruct j; try (unfold reply_and_record, st_bind, st_lift; by destruct (build_error_response _ _ _)).
    destruct (validate_jsonrpc_request d) as [[x|h]|r'] eqn:Hv; [done|done|]. intros [= <- <-]. split; [done|].
    exists d. split; [done|]. unfold validate_jsonrpc_request in Hv. destruct (pd_request d) as [errors|r]; [done|].
    destruct (String.eqb_spec (rq_method r) ASAP_METHOD); [|done]. by injection Hv as ->.
Qed.

Lemma validate_envelope_ok `{!PydanticLaws} i r s s' e :
  _validate_envelope cf i r s = (s', Ret e) →
  s' = s ∧ envelope_checked e
  ∧ ∃ data, j_get "envelope" (rq_params r) = JObj data ∧ new_envelope (i_env_now i) (i_env_id i) data = Ret e.
Proof.
  unfold _validate_envelope. cbv zeta. unfold reply_and_record, rec_err, stop_with, st_bind, st_lift, st_modify, st_stop.
  destruct (j_get "envelope" (rq_params r)) as [| | | | | |d]; try (by destruct (build_error_response _ _ _)).
  destruct (new_envelope _ _ d) as [[]|e'] eqn:En; [by destruct (build_error_response _ _ _)|done|].
  intros [= <- <-]. split; [done|]. split; [|by exists d]. unfold new_envelope in En.
  destruct (has_str_payload_type d); [|done].
  destruct (pd_envelope _ _ d) as [errs|e''] eqn:E; [done|]. injection En as <-. by apply pd_envelope_checked in E as [? _].
Qed.

Lemma sender_ok i a e id s s' u :
  _verify_sender_matches_auth cf i a e id s = (s', Ret u) →
  s' = s ∧ (is_some (cf_auth cf) = true → ∀ agent, a = Some agent → e_sender e = agent).
Proof.
  unfold _verify_sender_matches_auth, verify_sender_matches_auth. destruct (cf_auth cf) as [auth|].
  - destruct a as [agent|].
    + destruct (String.eqb (e_sender e) agent) eqn:E; simpl.
      * intros [= <-]. split; [done|]. intros _ agent' [= <-]. by apply String.eqb_eq.
      * unfold reply_and_record, st_bind, st_lift. by destruct (build_error_response _ _ _).
    + intros [= <-]. by split.
  - intros [= <-]. by split.
Qed.

Lemma refuse_never_returns {A} i e env id et text s s' (a : A) :
  refuse_envelope cf i e env id et text s = (s', Ret a) → False.
Proof. unfold refuse_envelope, stop_with, st_bind, rec_err, st_modify, st_stop. by destruct e. Qed.

Lemma timestamp_ok i e id s s' u :
  _validate_timestamp cf i e id s = (s', Ret u) →
  s' = s ∧ validate_envelope_timestamp (i_check_now i) e = Ret tt.
Proof.
  unfold _validate_timestamp. destruct (validate_envelope_timestamp _ e) as [x|[]].
  - by intros ?%refuse_never_returns.
  - by intros [= <-].
Qed.

Lemma nonce_ok i e id s s' u :
  _validate_nonce cf i e id s = (s', Ret u) →
  snd (validate_envelope_nonce (i_nonce i) e (s_nonces s)) = Ret tt ∧ s_disp s' = s_disp s ∧ s_audit s' = s_audit s.
Proof.
  unfold _validate_nonce. destruct (validate_envelope_nonce _ _ _) as [store [x|[]]].
  - by intros ?%refuse_never_returns.
  - by intros [= <- <-].
Qed.

Lemma prepared_passed `{!PydanticLaws} i request s s' p :
  _prepare_request cf i request s = (s', Ret p) →
  gates_passed i request s (pr_envelope p) ∧ s_disp s' = entered request s ∧ s_audit s' = s_audit s.
Proof.
  unfold _prepare_request. intros Hp.
  bind_inv Hp as (s1 & r & G1 & Hp). apply parse_ok in G1 as (-> & body & Hbody & Hr & Hm).
  bind_inv Hp as (s2 & a & G2 & Hp).
  destruct (authenticate_cases _ _ _ _ _ _ G2) as (Hf2 & Hn2 & _ & Ha). destruct (Ha a eq_refl) as [Hd Hauth0].
  bind_inv Hp as (s3 & e & G3 & Hp). apply validate_envelope_ok in G3 as (-> & Hc & data & Hj & He).
  bind_inv Hp as (s4 & u & G4 & Hp). apply sender_ok in G4 as [-> Hs].
  bind_inv Hp as (s5 & u' & G5 & Hp). apply timestamp_ok in G5 as [-> Ht].
  bind_inv Hp as (s6 & u'' & G6 & Hp). apply nonce_ok in G6 as (Hn & Hd6 & Ha6). injection Hp as <- <-. cbn [pr_envelope].
  split; [|by rewrite Hd6, Ha6, Hd; injection Hf2].
  split_and!; [by exists body, r, data|done|done|by rewrite Hn2 in Hn|].
  intros auth Hauth Hreq. rewrite Hauth in Hauth0. destruct Hauth0 as (w & Hv).
  destruct (verify_authentication_sound _ _ _ _ _ Hv) as [(_ & Hno & _)|(agent & scheme & token & v & -> & Hcr & Hval & Hrun)];
    [done|].
  exists scheme, token, v, w. split_and!; [done|done|]. rewrite (Hs (eq_trans (f_equal is_some Hauth) eq_refl) agent eq_refl).
  done.
Qed.

Lemma stopped_frame i request s s' st :
  _prepare_request cf i request s = (s', Raise st) →
  frame s' = frame s
  ∧ (d_world (s_disp s') = d_world (s_disp s) ∨ d_world (s_disp s') = after_auth request (d_world (s_disp s))).
Proof.
  unfold _prepare_request. intros Hp. unfold st_bind at 1 in Hp.
  pose proof (keeps_parse cf frame (λ _ _, eq_refl) request s) as Kf.
  pose proof (keeps_parse cf (λ s, d_world (s_disp s)) (λ _ _, eq_refl) request s) as Kw.
  destruct (_parse_and_validate_request cf request s) as [s1 [x|r]]; simpl in Kf, Kw.
  { injection Hp as <- _. auto. }
  cbv zeta in Hp. unfold st_bind at 1 in Hp.
  destruct (_authenticate_request cf i request (rq_id r) s1) as [s2 o] eqn:E2.
  destruct (authenticate_cases _ _ _ _ _ _ E2) as (Hf2 & _ & Hw2 & _).
  destruct o as [x|a].
  { injection Hp as <- _. split; [by rewrite Hf2|]. right. by rewrite Hw2, Kw. }
  pose proof (keeps_after_auth cf frame (λ _ _, eq_refl) (λ _ _, eq_refl) i r a s2) as Af.
  pose proof (keeps_after_auth cf (λ s, d_world (s_disp s)) (λ _ _, eq_refl) (λ _ _, eq_refl) i r a s2) as Aw.
  cbv beta in Aw. rewrite Hp in Af, Aw. cbn [fst] in Af, Aw. split; [by rewrite Af, Hf2|].
  right. by rewrite Aw, Hw2, Kw.
Qed.

(** What follows the preparation: the dispatch of the prepared envelope decides what
    happens to the work, and at most one entry about it is added to the audit log. *)
Lemma process_work i request p s s' r :
  process cf i request p s = (s', r) →
  let e := pr_envelope p in
  let out := dispatch_async (cf_registry cf) (cf_manifest cf) (i_usage_now i) (i_handler_ms i) e (s_disp s) in
  work (s_disp s') = work (fst out)
  ∧ (s_audit s' = s_audit s
     ∨ ∃ response store, snd out = Ret response ∧ s_audit s = Some store
         ∧ s_audit s' = Some (fst (InMemoryAuditStore.append
             (mkEntry (i_audit_id i) (Aware (i_audit_now i) 0) (e_payload_type e) (e_sender e)
                [("envelope_id", opt_str (e_id e)); ("response_id", opt_str (e_id response))] "" "") store))).
Proof.
  unfold process. cbv zeta. unfold st_bind at 1. unfold _dispatch_to_handler.
  destruct (dispatch_async _ _ _ _ _ _) as [d [x|response]]; cbn [fst snd].
  - destruct x as [err|rx|ty text].
    + destruct (bool_decide _); [|destruct (bool_decide _)]; unfold st_bind, rec_err, st_modify, stop_with, st_stop;
        intros [= <- _]; (split; [done|by left]).
    + intros [= <- _]. split; [done|by left].
    + intros [= <- _]. split; [done|by left].
  - unfold st_bind, _audit_log_operation, _build_success_response, st_modify, st_ret, st_lift. cbn [s_audit on_disp].
    destruct (s_audit s) as [store|] eqn:Ea; destruct (PyStr.contains _ _); intros [= <- _]; (split; [done|]);
      try (left; by cbn; rewrite Ea); right; by exists response, store.
Qed.

(** C4: A message reaches a handler only through every gate.  Whatever the
    request, either the envelope that its body carries was built and validated,
    its timestamp was in the window, its nonce was fresh, and, when the manifest
    asks for authentication, the validator vouched for exactly the sender of that
    envelope, and then exactly this envelope was dispatched, from the state the
    request found with only the token validator run before, and at most one audit
    entry, about its sender, was added; or no handler ran: the thread pool, the
    usage records and the audit log are as before and only the token validator
    may have run. *)
Theorem handler_reached_only_through_gates `{!PydanticLaws} (i : inputs) (request : HttpRequest) (s : sstate W) :
  let s' := fst (handle_message cf i request s) in
  (∃ e, gates_passed i request s e
     ∧ work (s_disp s') = work (fst (dispatched i request s e))
     ∧ (s_audit s' = s_audit s
        ∨ ∃ response store, snd (dispatched i request s e) = Ret response ∧ s_audit s = Some store
            ∧ s_audit s' = Some (fst (InMemoryAuditStore.append
                (mkEntry (i_audit_id i) (Aware (i_audit_now i) 0) (e_payload_type e) (e_sender e)
                   [("envelope_id", opt_str (e_id e)); ("response_id", opt_str (e_id response))] "" "") store))))
  ∨ (untouched s s'
     ∧ (d_world (s_disp s') = d_world (s_disp s)
        ∨ d_world (s_disp s') = after_auth request (d_world (s_disp s)))).
Proof.
  cbv zeta. unfold handle_message. destruct (_prepare_request cf i request s) as [s1 [st|p]] eqn:E.
  - right. destruct (stopped_frame _ _ _ _ _ E) as [Hf Hw].
    destruct st as [h|x]; [by split; [apply frame_untouched|]|]. split.
    + apply frame_untouched. by rewrite (on_exception_view cf frame (λ _ _, eq_refl)).
    + by rewrite (on_exception_view cf (λ s, d_world (s_disp s)) (λ _ _, eq_refl)).
  - left. apply prepared_passed in E as (Hg & Hd & Ha). exists (pr_envelope p). split; [done|].
    destruct (process cf i request p s1) as [s2 r] eqn:Ep. apply process_work in Ep as [Hw Hau].
    unfold dispatched. rewrite Hd in Hw, Hau. rewrite Ha in Hau.
    destruct r as [[h|x]|h]; cbn [fst]; [done| |done].
    rewrite (on_exception_view cf (λ s, work (s_disp s)) (λ _ _, eq_refl)),
      (on_exception_view cf s_audit (λ _ _, eq_refl)). done.
Qed.

(** ** Every message is answered *)

(** A JSON-RPC 2.0 reply: an error with a code and a message, or a result. *)
Definition rpc_error_reply (j : json) : Prop :=
  ∃ code message data id, j = dump_error_response (mkErrorResponse (mkRpcError code message data) id).
Definition rpc_result_reply (j : json) : Prop :=
  ∃ envelope id, j = dump_response (mkResponse [("envelope", envelope)] id).

Definition http_refusal (status : Z) : bool := (status =? 400) || (status =? 413) || (status =? 415).

Definition reply_ok (h : HttpResponse) : Prop :=
  match hs_body h with
  | JsonBody j =>
      (hs_status h = 200 ∧ (rpc_error_reply j ∨ rpc_result_reply j))
      ∨ (hs_status h = 503 ∧ ∃ e, j = unavailable e)
      ∨ (http_refusal (hs_status h) = true ∧ ∃ detail, j = JObj [("detail", JStr detail)])
  | LambdaBody _ => hs_status h = 200
  | EventStream _ => False
  end.

(** The replies that stop the preparation of a request, and the reply of a
    full pool. *)
Definition answer_ok (h : HttpResponse) : Prop :=
  ∃ j, hs_body h = JsonBody j ∧
    ((hs_status h = 200 ∧ rpc_error_reply j)
     ∨ (http_refusal (hs_status h) = true ∧ ∃ detail, j = JObj [("detail", JStr detail)])).
Definition pool_full_reply (h : HttpResponse) : Prop :=
  hs_status h = 503 ∧ ∃ e, hs_body h = JsonBody (unavailable e).

Lemma answer_reply h : answer_ok h ∨ pool_full_reply h → reply_ok h.
Proof.
  unfold reply_ok. intros [(j & -> & Hj)|(Hs & e & ->)]; [destruct Hj as [[]|]; auto|]. right. left. split; [done|by eexists].
Qed.

Definition replies_with (P : HttpResponse → Prop) {A} (m : ST (sstate W) stop A) : Prop :=
  ∀ s, match snd (m s) with Raise (Reply h) => P h | _ => True end.
Abbreviation answers := (replies_with answer_ok).

Lemma answers_ret {A} (a : A) : answers (st_ret a).
Proof. by intros s. Qed.
Lemma answers_crash {A} x : answers (st_stop (A := A) (Crash x)).
Proof. by intros s. Qed.
Lemma answers_reply {A} h : answer_ok h → answers (st_stop (A := A) (Reply h)).
Proof. by intros ? s. Qed.
Lemma answers_modify f : answers (st_modify f).
Proof. by intros s. Qed.
Lemma answers_bind {A B} (m : ST (sstate W) stop A) (k : A → ST (sstate W) stop B) :
  answers m → (∀ a, answers (k a)) → answers (st_bind m k).
Proof.
  intros Hm Hk s. unfold st_bind. specialize (Hm s). destruct (m s) as [s1 [st|a]]; [done|]. apply Hk.
Qed.

Lemma JSONResponse_ret status j hd h : JSONResponse status j hd = Ret h →
  hs_status h = status ∧ hs_body h = JsonBody j.
Proof. unfold JSONResponse. destruct (unrendered j hd); [done|]. by intros [= <-]. Qed.

Lemma build_error_ok code data id h : build_error_response code data id = Ret h → answer_ok h.
Proof.
  unfold build_error_response. destruct (new_error_response _ _) as [e|r] eqn:E; [done|].
  intros [Hs Hb]%JSONResponse_ret. exists (dump_error_response r). split; [done|]. left. split; [done|].
  destruct r as [[c m d] i]. by exists c, m, d, i.
Qed.

Lemma build_asap_ok e id extra h : build_jsonrpc_error_for_asap_exception e id extra = Ret h → answer_ok h.
Proof.
  unfold build_jsonrpc_error_for_asap_exception. destruct (www_authenticate _) as [data hd].
  intros [Hs Hb]%JSONResponse_ret. eexists. split; [done|]. left. split; [done|]. by do 4 eexists.
Qed.

Lemma answers_stop_with {A} r : (∀ h, r = Ret h → answer_ok h) → answers (stop_with (A := A) r).
Proof. intros Hr s. unfold stop_with, st_stop. destruct r; [done|]. by apply Hr. Qed.

Lemma answers_record {A} r pt et d : (∀ h, r = Ret h → answer_ok h) →
  answers (reply_and_record (A := A) cf r pt et d).
Proof. intros Hr s. unfold reply_and_record, st_bind, st_lift. destruct r; [done|]. simpl. by apply Hr. Qed.

Lemma answers_refuse {A} i e env id et text : answers (refuse_envelope (A := A) cf i e env id et text).
Proof.
  unfold refuse_envelope. destruct e; [apply answers_crash|]. apply answers_bind; [apply answers_modify|].
  intros _. apply answers_stop_with. intros h. apply build_asap_ok.
Qed.

Ltac answers_step :=
  first [ apply answers_ret | apply answers_crash | apply answers_modify | apply answers_refuse
        | apply answers_record; intros ? ?; by eapply build_error_ok
        | apply answers_stop_with; intros ? ?; by eapply build_error_ok
        | apply answers_stop_with; intros ? ?; by eapply build_asap_ok
        | apply answers_bind; [|intros ?]
        | match goal with |- replies_with _ (match ?x with _ => _ end) => destruct x eqn:? end ].

Lemma read_stream_refusal acc chunks e : read_stream cf acc chunks = Raise e →
  ∃ x, e = BodyHttp x ∧ http_refusal (hx_status_code x) = true.
Proof.
  revert acc. induction chunks as [|c chunks IH]; intros acc; simpl; [done|].
  destruct (_ <? _); [|apply IH]. intros [= <-]. by eexists.
Qed.

Lemma parse_refusal request x : parse_json_body cf request = Raise (BodyHttp x) →
  http_refusal (hx_status_code x) = true.
Proof.
  unfold parse_json_body. destruct (_ && _); [by intros [= <-]|].
  destruct (read_stream cf [] _) as [e|b] eqn:E; simpl.
  { intros [= ->]. apply read_stream_refusal in E as (? & [= <-] & ?). done. }
  destruct (PyStr.truthy _ && _).
  - unfold decompress_body. destruct (decompress_payload _ _) as [[]|d]; simpl; try (by intros [= <-]); try done.
    destruct (_ <? _); simpl; [by intros [= <-]|]. by destruct (json_loads d).
  - simpl. by destruct (json_loads b).
Qed.

Lemma answers_parse request : answers (_parse_and_validate_request cf request).
Proof.
  unfold _parse_and_validate_request. destruct (parse_json_body cf request) as [[e|m|x]|j] eqn:E.
  - apply answers_stop_with. intros h [Hs Hb]%JSONResponse_ret. eexists. split; [done|]. right. rewrite Hs.
    split; [by eapply parse_refusal|]. by eexists.
  - repeat answers_step.
  - repeat answers_step.
  - destruct j; try (by repeat answers_step).
    destruct (validate_jsonrpc_request d) as [r|r] eqn:Ev; [|apply answers_ret].
    apply answers_record. intros h ->. unfold validate_jsonrpc_request in Ev.
    destruct (pd_request d); simplify_eq; [by eapply build_error_ok|].
    destruct (negb _); simplify_eq. by eapply build_error_ok.
Qed.

Lemma answers_authenticate i request id : answers (_authenticate_request cf i request id).
Proof.
  unfold _authenticate_request. destruct (cf_auth cf) as [auth|]; [|apply answers_ret]. intros s.
  destruct (verify_authentication _ _ _) as [w [[e|x]|a]]; [|done|done].
  apply (answers_record (A := option string)). intros h. apply build_error_ok.
Qed.

Lemma answers_nonce i e id : answers (_validate_nonce cf i e id).
Proof.
  intros s. unfold _validate_nonce. destruct (validate_envelope_nonce _ _ _) as [store [x|u]]; [|done].
  apply (answers_refuse (A := unit)).
Qed.

Lemma answers_prepare i request : answers (_prepare_request cf i request).
Proof.
  unfold _prepare_request. apply answers_bind; [apply answers_parse|]. intros r. cbv zeta.
  apply answers_bind; [apply answers_authenticate|]. intros a.
  apply answers_bind; [unfold _validate_envelope; cbv zeta; repeat answers_step|]. intros e.
  apply answers_bind; [unfold _verify_sender_matches_auth; repeat answers_step|]. intros _.
  apply answers_bind; [unfold _validate_timestamp; repeat answers_step|]. intros _.
  apply answers_bind; [apply answers_nonce|]. intros _. apply answers_ret.
Qed.

Lemma dispatch_replies i e id : replies_with (λ h, answer_ok h ∨ pool_full_reply h) (_dispatch_to_handler cf i e id).
Proof.
  intros s. unfold _dispatch_to_handler. destruct (dispatch_async _ _ _ _ _ _) as [d [x|response]]; [|done].
  destruct x as [err|r|ty text]; [|done|done].
  destruct (bool_decide _); [|destruct (bool_decide _); [|done]]; unfold st_bind, st_modify, stop_with, st_stop.
  - destruct (JSONResponse _ _ _) as [|h] eqn:E; cbn [snd]; [done|]. apply JSONResponse_ret in E as [Hs Hb].
    right. split; [done|]. by eexists.
  - destruct (build_jsonrpc_error_for_asap_exception _ _ _) as [|h] eqn:E; cbn [snd]; [done|]. left. by eapply build_asap_ok.
Qed.

(** The reply of a request that went through, and the ways it can end. *)
Lemma success_cases i response id pt lam s s' r :
  _build_success_response cf i response id pt lam s = (s', r) →
  match r with
  | Ret h => reply_ok h
  | Raise (Reply _) => False
  | Raise (Crash x) => True
  end.
Proof.
  unfold _build_success_response, st_bind, st_modify. cbv zeta. destruct lam; [by intros [= <- <-]|].
  unfold st_lift, JSONResponse. destruct (unrendered _ _); intros [= <- <-]; [done|].
  left. split; [done|]. right. by do 2 eexists.
Qed.

(** Serializing the error reply [j] raised [x]. *)
Definition reply_refused (j : json) (x : exn) : Prop := ∃ headers, unrendered j headers = Some x.

Lemma JSONResponse_raise status j hd x : JSONResponse status j hd = Raise x → reply_refused j x.
Proof. unfold JSONResponse. destruct (unrendered j hd) eqn:E; [|done]. intros [= <-]. by exists hd. Qed.

Lemma on_exception_cases i x id pt s :
  match snd (on_exception cf i x id pt s) with
  | Ret h => reply_ok h
  | Raise y => ∃ j, rpc_error_reply j ∧ reply_refused j y
  end.
Proof.
  unfold on_exception. destruct (as_asap x) as [[e text]|]; cbn [snd].
  - destruct (build_jsonrpc_error_for_asap_exception e id _) as [y|h] eqn:E; [|apply answer_reply; left; by eapply build_asap_ok].
    unfold build_jsonrpc_error_for_asap_exception in E. destruct (www_authenticate _).
    apply JSONResponse_raise in E. eexists. split; [|exact E]. by do 4 eexists.
  - unfold _handle_internal_error. cbn [snd]. destruct (JSONResponse _ _ _) as [y|h] eqn:E.
    + apply JSONResponse_raise in E. eexists. split; [|exact E]. by do 4 eexists.
    + apply JSONResponse_ret in E as [Hs Hb]. unfold reply_ok. rewrite Hb, Hs. left. split; [done|]. left. by do 4 eexists.
Qed.

(** C6: Every message gets exactly one well-formed answer: a JSON-RPC 2.0
    result or error with status 200 (or its Lambda encoding), the 503 reply of a
    full thread pool, or a plain refusal (400, 413, 415) of a body that cannot be
    read.  Exceptions on the way are answered with a JSON-RPC error; one leaves
    the handler only when this error reply itself cannot be serialized, and it is
    what serializing it raised: a float that is not finite, a detail that has no
    JSON form or a text that cannot be encoded. *)
Theorem every_message_answered (i : inputs) (request : HttpRequest) (s : sstate W) :
  match snd (handle_message cf i request s) with
  | Ret h => reply_ok h
  | Raise x => ∃ j, rpc_error_reply j ∧ reply_refused j x
  end.
Proof.
  unfold handle_message. pose proof (answers_prepare i request s) as Hp.
  destruct (_prepare_request cf i request s) as [s1 [[h|x]|p]]; cbn [snd] in *;
    [by apply answer_reply; left|apply on_exception_cases|].
  unfold process. cbv zeta. unfold st_bind at 1.
  pose proof (dispatch_replies i (pr_envelope p) (pr_request_id p) s1) as Hd.
  destruct (_dispatch_to_handler cf i _ _ s1) as [s2 [[h|x]|response]]; cbn [snd] in *;
    [by apply answer_reply|apply on_exception_cases|].
  unfold st_bind, _audit_log_operation, st_modify.
  destruct (_build_success_response _ _ _ _ _ _ _) as [s3 r] eqn:E. apply success_cases in E.
  destruct r as [[h|x]|h]; [done|apply on_exception_cases|done].
Qed.

End Properties.
