(* ===== verification/Discovery.v ===== *)
(** * Discovery: manifests, health and capability requests of the client

    `src/src/asap/transport/client/_discovery.py`, `_parse_max_age_from_cache_control`
    of `_helpers.py`, and `validate_manifest_schema` of
    `src/src/asap/discovery/validation.py`.  The network is a parameter: an
    operation takes the outcomes of the requests it makes.  A fetch holds its
    URL's lock, so that nobody else writes the URL's cache entry meanwhile. *)

From Stdlib Require Import ZArith QArith Lia Ascii String.
From stdpp Require Import base tactics list gmap strings.
From S2P Require Import Prelude PyValue Digest Identity ReplayGuard Errors LambdaCodec Handlers Signing Middleware Challenge ManifestCache.
Open Scope string_scope.
Open Scope Z_scope.
Open Scope asap_scope.

(** ** Replies of the network *)
Record http_reply : Type := mkReply {
  hr_status : Z;
  hr_headers : list (string * string);
  hr_text : text;
  (** `response.json()`, with the text of its exception *)
  hr_json : res string json
}.

Inductive http_outcome : Type :=
| HttpTimeout (msg : string)
| HttpConnectError (msg : string)
| HttpRaises (x : exn)
| HttpReply (r : http_reply).

(** `text[:n]`; characters a [string] cannot hold become `?`. *)
Definition excerpt (n : nat) (t : text) : string :=
  fold_right (λ c s, String (if (0 <=? c) && (c <? 256) then ascii_of_nat (Z.to_nat c) else "?"%char) s)
    "" (take n t).

(** `str(e)` *)
Definition exn_text (x : exn) : string :=
  match x with XAsap e => str_error e | XRemote r => str_remote r | XOther _ t => t end.

(** ** `Cache-Control` *)
Definition DISCOVER_CACHE_MAX_AGE_CAP : Z := 86400.
Definition INT_MAX_STR_DIGITS : nat := 4300.

Definition is_digit (c : ascii) : bool := let n := PyStr.code c in ((48 <=? n) && (n <=? 57))%nat.

Fixpoint leading_digits (s : string) : string :=
  match s with
  | String c s' => if is_digit c then String c (leading_digits s') else ""
  | EmptyString => ""
  end.

(** `max-age\s*=\s*(\d+)` at the start of the text. *)
Definition max_age_at (s : string) : option string :=
  if PyStr.startswith (PyStr.lower s) "max-age" then
    match PyStr.lstrip (PyStr.drop 7 s) with
    | String "=" s1 =>
        let d := leading_digits (PyStr.lstrip s1) in
        if PyStr.truthy d then Some d else None
    | _ => None
    end
  else None.

Fixpoint search_max_age (s : string) : option string :=
  match max_age_at s with
  | Some d => Some d
  | None => match s with EmptyString => None | String _ s' => search_max_age s' end
  end.

Fixpoint digits_value (acc : Z) (s : string) : Z :=
  match s with
  | EmptyString => acc
  | String c s' => digits_value (acc * 10 + (Z.of_nat (PyStr.code c) - 48)) s'
  end.

(** In seconds; `int` refuses a text of too many digits. *)
Definition _parse_max_age_from_cache_control (cache_control : option string) : res pyexn (option Z) :=
  match cache_control with
  | None => Ret None
  | Some v =>
      match search_max_age v with
      | None => Ret None
      | Some d =>
          if (INT_MAX_STR_DIGITS <? String.length d)%nat then
            Raise (ValueError "Exceeds the limit (4300 digits) for integer string conversion")
          else
            let seconds := digits_value 0 d in
            Ret (if 0 <? seconds then Some (Z.min seconds DISCOVER_CACHE_MAX_AGE_CAP) else None)
      end
  end.

(** ** Manifests *)

(** `Manifest.model_validate` and `SignedManifest.model_validate`, with the
    texts of their `ValidationError`s. *)
Class ManifestModels (M : Type) : Type := {
  md_manifest : json → res string M;
  md_signed : json → res string (SignedManifest M)
}.

Definition MANIFEST_REQUEST_TIMEOUT : Z := 10.
Definition WELLKNOWN_MANIFEST_PATH : string := "/.well-known/asap/manifest.json".
Definition WELLKNOWN_HEALTH_PATH : string := "/.well-known/asap/health".

Definition manifest_validation_error (message : string) : exn := XOther "ManifestValidationError" message.
Definition value_error (message : string) : exn := XOther "ValueError" message.

(** Classes of exceptions that `except ValueError` catches. *)
Definition is_value_error (type_name : string) : bool :=
  str_in type_name ["ValueError"; "ValidationError"; "JSONDecodeError"; "UnicodeDecodeError"; "UnicodeEncodeError"].

Section Discovery.
  Context {M : Type} `{PyRuntime, Crypto M, ManifestModels M}.
  (** `sanitize_url`, used in messages only *)
  Variable sanitize_url : string → string.

Record client : Type := mkClient {
  c_connected : bool;
  c_base_url : string;
  c_http_base_url : string;
  c_timeout : pyfloat;
  c_verify_signatures : bool;
  c_trusted_manifest_keys : list (string * string)
}.
Variable cl : client.

Definition validate_manifest_schema (data : json) : res exn M :=
  match md_manifest data with
  | Ret m => Ret m
  | Raise e => Raise (manifest_validation_error ("Invalid manifest schema: " ++ e))
  end.

(** The `except` clauses of `_coerce_manifest_payload`. *)
Definition coerce_error (x : exn) : exn :=
  match x with
  | XAsap e => if bool_decide (x_class e = ClsSignatureVerificationError) then x
               else value_error ("Invalid manifest format: " ++ exn_text x)
  | XOther n t => if String.eqb n "ManifestValidationError" then x
                  else value_error ("Invalid manifest format: " ++ exn_text x)
  | XRemote _ => value_error ("Invalid manifest format: " ++ exn_text x)
  end.

Definition lift_py {A} (r : res pyexn A) : res exn A :=
  match r with Ret a => Ret a | Raise e => Raise (of_pyexn e) end.

Definition no_trusted_key (url : string) : exn :=
  refuse ("Cannot verify signed manifest from " ++ sanitize_url url
          ++ ": no trusted public key provided. Pass trusted_manifest_keys "
          ++ "to ASAPClient (or disable verify_signatures).") [("url", JStr (sanitize_url url))].

(** `"manifest" in data and "signature" in data` *)
Definition looks_signed (manifest_data : json) : res pyexn bool :=
  let! has_manifest := py_in (JStr "manifest") manifest_data in
  if has_manifest then py_in (JStr "signature") manifest_data else Ret false.

Definition coerce_body (manifest_data : json) (url : string) (use_schema_validator : bool) :
    res exn (M * option string) :=
  let! signed_form := lift_py (looks_signed manifest_data) in
  if signed_form then
    let! signed := match md_signed manifest_data with
                   | Ret s => Ret s
                   | Raise e => Raise (XOther "ValidationError" e) end in
    let! _ :=
      if c_verify_signatures cl then
        match assoc url (c_trusted_manifest_keys cl) with
        | Some trusted_b64 =>
            if PyStr.truthy trusted_b64 then
              let! trusted_key := lift_py (load_public_key_from_base64 trusted_b64) in
              verify_manifest signed (Some trusted_key)
            else Raise (no_trusted_key url)
        | None => Raise (no_trusted_key url)
        end
      else Ret true in
    Ret (sm_manifest signed, Some (trust_value (trust_level (sm_signature signed))))
  else if use_schema_validator then
    let! m := validate_manifest_schema manifest_data in Ret (m, None)
  else
    match md_manifest manifest_data with
    | Ret m => Ret (m, None)
    | Raise e => Raise (XOther "ValidationError" e)
    end.

Definition _coerce_manifest_payload (manifest_data : json) (url : string) (use_schema_validator : bool) :
    res exn (M * option string) :=
  match coerce_body manifest_data url use_schema_validator with
  | Ret r => Ret r
  | Raise x => Raise (coerce_error x)
  end.

Abbreviation cache_state := (ManifestCache.t M).

Definition connection_error (message : string) (cause : option string) (url : string) : exn :=
  raised (ASAPConnectionError message cause (Some url) RPC_CONNECTION_ERROR None None).
Definition timeout_error (message : string) (timeout : pyfloat) : exn :=
  raised (ASAPTimeoutError message (Some timeout) None).
Definition not_connected (url : string) : exn :=
  connection_error "Client not connected. Use 'async with' context." None (sanitize_url url).

(** The body of the `try`: the manifest and the TTL to cache it with, or an
    exception, and whether the entry was invalidated before it was raised. *)
Definition accept_reply (r : http_reply) (url : string) (use_schema_validator parse_ttl : bool) :
    res (bool * exn) (M * option Z) :=
  if 400 <=? hr_status r then
    Raise (true, connection_error ("HTTP error " ++ PyStr.dec_Z (hr_status r) ++ " fetching manifest from " ++ url
                   ++ ". Server response: " ++ excerpt 200 (hr_text r)) None (sanitize_url url))
  else
    match hr_json r with
    | Raise e => Raise (true, value_error ("Invalid JSON in manifest response: " ++ e))
    | Ret manifest_data =>
        match _coerce_manifest_payload manifest_data url use_schema_validator with
        | Raise x => Raise (false, x)
        | Ret (manifest, _) =>
            match (if parse_ttl then _parse_max_age_from_cache_control (get_header "Cache-Control" (hr_headers r))
                   else Ret None) with
            | Raise e => Raise (false, of_pyexn e)
            | Ret ttl => Ret (manifest, Z.mul second <$> ttl)
            end
        end
    end.

(** Exceptions the last-but-one clause re-raises. *)
Definition passes_through (x : exn) : bool :=
  match x with
  | XAsap e => str_in (class_name (x_class e)) ["ASAPConnectionError"; "ASAPTimeoutError"; "SignatureVerificationError"]
  | XOther n _ => is_value_error n || String.eqb n "ManifestValidationError"
  | XRemote _ => false
  end.

Definition unexpected (url : string) (x : exn) : exn :=
  connection_error ("Unexpected error fetching manifest from " ++ url ++ ": " ++ exn_text x
                    ++ ". Verify the agent is running and accessible.") (Some (exn_text x)) (sanitize_url url).

(** The fetch after a cache miss: the `try` and its clauses. *)
Definition fetch_on_miss (url : string) (use_schema_validator parse_ttl : bool) (now_set : Z) (net : http_outcome)
    (c : cache_state) : cache_state * res exn M :=
  match net with
  | HttpTimeout _ =>
      (ManifestCache.invalidate url c,
       Raise (timeout_error ("Manifest request timeout after " ++ float_repr (c_timeout cl) ++ "s") (c_timeout cl)))
  | HttpConnectError e =>
      (ManifestCache.invalidate url c,
       Raise (connection_error ("Connection error fetching manifest from " ++ url ++ ": " ++ e
                ++ ". Verify the agent is running and accessible.") (Some e) (sanitize_url url)))
  | HttpRaises x =>
      if passes_through x then (c, Raise x)
      else (ManifestCache.invalidate url c, Raise (unexpected url x))
  | HttpReply r =>
      match accept_reply r url use_schema_validator parse_ttl with
      | Ret (manifest, ttl) => (ManifestCache.set now_set url manifest ttl c, Ret manifest)
      | Raise (invalidated, x) =>
          let c := if invalidated then ManifestCache.invalidate url c else c in
          if passes_through x then (c, Raise x)
          else (ManifestCache.invalidate url c, Raise (unexpected url x))
      end
  end.

(** Readings of the clock: when the cache is asked, when the entry is made. *)
Definition _fetch_and_cache_manifest (url : string) (use_schema_validator parse_ttl : bool)
    (now_get now_set : Z) (net : http_outcome) (c : cache_state) : cache_state * res exn M :=
  if negb (c_connected cl) then (c, Raise (not_connected url))
  else
    let '(c, cached) := ManifestCache.get now_get url c in
    match cached with
    | Some m => (c, Ret m)
    | None => fetch_on_miss url use_schema_validator parse_ttl now_set net c
    end.

Definition get_manifest (url : option string) :=
  _fetch_and_cache_manifest (default (c_http_base_url cl ++ "/.well-known/asap/manifest.json") url) false false.

Definition discover (base_url : string) :=
  _fetch_and_cache_manifest (PyStr.rstrip_char "/" base_url ++ WELLKNOWN_MANIFEST_PATH) true true.

(** ** Health *)
Definition health_passes_through (x : exn) : bool :=
  match x with
  | XAsap e => str_in (class_name (x_class e)) ["ASAPConnectionError"; "ASAPTimeoutError"]
  | XOther n _ => is_value_error n
  | XRemote _ => false
  end.

(** [md_health]: `HealthStatus.model_validate` *)
Definition health_check {Hs} (md_health : json → res string Hs) (base_url : option string) (net : http_outcome) :
    res exn Hs :=
  let health_url := PyStr.rstrip_char "/" (default (c_http_base_url cl) base_url) ++ WELLKNOWN_HEALTH_PATH in
  if negb (c_connected cl) then Raise (not_connected health_url)
  else
    match net with
    | HttpTimeout _ =>
        Raise (timeout_error ("Health request timeout after " ++ float_repr (c_timeout cl) ++ "s") (c_timeout cl))
    | HttpConnectError e =>
        Raise (connection_error ("Connection error fetching health from " ++ health_url ++ ": " ++ e
                 ++ ". Verify the agent is running and accessible.") (Some e) (sanitize_url health_url))
    | HttpRaises x =>
        if health_passes_through x then Raise x
        else Raise (connection_error ("Unexpected error checking health at " ++ health_url ++ ": " ++ exn_text x
                      ++ ". Verify the agent is running and accessible.") (Some (exn_text x)) (sanitize_url health_url))
    | HttpReply r =>
        if 400 <=? hr_status r then
          Raise (connection_error ("HTTP error " ++ PyStr.dec_Z (hr_status r) ++ " fetching health from " ++ health_url
                   ++ ". Server response: " ++ excerpt 200 (hr_text r)) None (sanitize_url health_url))
        else
          match hr_json r with
          | Raise e => Raise (value_error ("Invalid JSON in health response: " ++ e))
          | Ret data =>
              match md_health data with
              | Ret h => Ret h
              | Raise e => Raise (value_error ("Invalid health response schema: " ++ e))
              end
          end
    end.

(** ** Capability requests *)
Record CapabilityRequestReceipt : Type := mkReceipt {
  cr_agent_id : string;
  cr_host_id : string;
  cr_status : string;
  cr_approval : option (list (string * json));
  cr_agent_capability_grants : list json
}.

Definition str_of (j : json) : string := py_str float_repr j.
Definition as_list (j : json) : option (list json) := match j with JList l => Some l | _ => None end.

(** `str(data[key])` *)
Definition str_item (key : string) (data : list (string * json)) : res exn string :=
  match assoc key data with
  | Some j => Ret (str_of j)
  | None => Raise (of_pyexn (KeyError ("'" ++ key ++ "'")))
  end.

Definition _capability_receipt_from_register_json (data : list (string * json)) : res exn CapabilityRequestReceipt :=
  let grants := default [] (as_list (j_get "agent_capability_grants" data)) in
  let appr_dict := as_obj (j_get "approval" data) in
  let! agent_id := str_item "agent_id" data in
  let! host_id := str_item "host_id" data in
  let! status := str_item "status" data in
  Ret (mkReceipt agent_id host_id status appr_dict grants).

(** The entries that are neither a string nor an object are dropped. *)
Definition norm_caps (capabilities : list json) : list json :=
  flat_map (λ c, match c with JStr s => [JObj [("name", JStr s)]] | JObj d => [JObj d] | _ => [] end) capabilities.

(** The body of the request. *)
Definition request_capability_body (capabilities : list json) : json :=
  JObj [("capabilities", JList (norm_caps capabilities))].

(** One turn of the polling loop: the clock at the loop's test, the outcome of
    the status request. *)
Record poll : Type := mkPoll { p_now : Z; p_net : http_outcome }.

Inductive polled : Type :=
| Settled (r : CapabilityRequestReceipt)
| Failed (x : exn)
| Again.

Definition to_retry (p : polled) : bool := match p with Again => true | _ => false end.

Definition settled_receipt (agent_id : string) (data sj : list (string * json)) : CapabilityRequestReceipt :=
  let caps_raw := match as_list (j_get "agent_capability_grants" sj) with
                  | Some l => Some l
                  | None => as_list (j_get "capabilities" sj) end in
  mkReceipt (match assoc "agent_id" sj with Some j => str_of j | None => agent_id end)
    (match assoc "host_id" sj with
     | Some j => str_of j
     | None => match assoc "host_id" data with Some j => str_of j | None => "" end end)
    (match assoc "status" sj with Some j => str_of j | None => "active" end)
    None (default [] caps_raw).

Definition poll_once (agent_id st_url : string) (data : list (string * json)) (net : http_outcome) : polled :=
  match net with
  | HttpTimeout m => Failed (XOther "TimeoutException" m)
  | HttpConnectError m => Failed (XOther "ConnectError" m)
  | HttpRaises x => Failed x
  | HttpReply st =>
      if negb (hr_status st =? 200) then
        if existsb (Z.eqb (hr_status st)) [401; 403; 404] then
          Failed (connection_error ("Escalation status polling failed with HTTP " ++ PyStr.dec_Z (hr_status st))
                    None (sanitize_url st_url))
        else Again
      else
        match hr_json st with
        | Raise e => Failed (XOther "JSONDecodeError" e)
        | Ret (JObj sj) =>
            if py_eq (j_get "approval_status" sj) (JStr "pending") then Again
            else Settled (settled_receipt agent_id data sj)
        | Ret _ => Again
        end
  end.

(** The loop, over the turns the run supplies; [None]: it is still polling when
    they end. *)
Fixpoint poll_loop (agent_id st_url : string) (data : list (string * json)) (timeout : pyfloat) (deadline : Z)
    (turns : list poll) : option (res exn CapabilityRequestReceipt) :=
  match turns with
  | [] => None
  | p :: turns' =>
      if p_now p <? deadline then
        match poll_once agent_id st_url data (p_net p) with
        | Settled r => Some (Ret r)
        | Failed x => Some (Raise x)
        | Again => poll_loop agent_id st_url data timeout deadline turns'
        end
      else
        Some (Raise (timeout_error ("Timed out after " ++ float_repr timeout
                       ++ "s waiting for capability escalation") timeout))
  end.

(** [timeout_us]: `status_timeout_seconds` in microseconds. *)
Definition request_capability (agent_id : string) (timeout : pyfloat) (timeout_us now : Z) (post : http_outcome)
    (turns : list poll) : option (res exn CapabilityRequestReceipt) :=
  let base := PyStr.rstrip_char "/" (c_http_base_url cl) in
  let post_url := base ++ "/asap/agent/request-capability" in
  if negb (c_connected cl) then Some (Raise (not_connected (c_base_url cl)))
  else
    match post with
    | HttpTimeout m => Some (Raise (XOther "TimeoutException" m))
    | HttpConnectError m => Some (Raise (XOther "ConnectError" m))
    | HttpRaises x => Some (Raise x)
    | HttpReply resp =>
        if 400 <=? hr_status resp then
          Some (Raise (connection_error ("HTTP " ++ PyStr.dec_Z (hr_status resp) ++ " from request-capability: "
                         ++ repr_str (excerpt 300 (hr_text resp))) None (sanitize_url post_url)))
        else
          match hr_json resp with
          | Raise e => Some (Raise (XOther "JSONDecodeError" e))
          | Ret (JObj data) =>
              if negb (py_eq (j_get "status" data) (JStr "pending")) || is_none (assoc "approval" data) then
                Some (_capability_receipt_from_register_json data)
              else poll_loop agent_id (base ++ "/asap/agent/status") data timeout (now + timeout_us) turns
          | Ret _ => Some (Raise (connection_error "Invalid JSON object from request-capability" None (sanitize_url post_url)))
          end
    end.

(** ** Histories of fetches *)
Import ManifestCache(cache, manifest, expires_at, default_ttl, with_cache, invalidate, is_expired, base,
  wf_sublist, get_sublist, wf_move_to_end, get_move_to_end, base_sublist).

Record fetch : Type := mkFetch {
  f_url : string; f_schema : bool; f_ttl : bool; f_get : Z; f_set : Z; f_net : http_outcome
}.

Definition run_fetch (f : fetch) (c : cache_state) : cache_state * res exn M :=
  _fetch_and_cache_manifest (f_url f) (f_schema f) (f_ttl f) (f_get f) (f_set f) (f_net f) c.
Definition run_fetches (c : cache_state) (l : list fetch) : cache_state :=
  fold_left (λ c f, fst (run_fetch f c)) l c.

(** The manifest a fetch accepted from the network, with the time its entry
    expires. *)
Definition fetched (ttl0 : Z) (f : fetch) (m : M) (expires : Z) : Prop :=
  ∃ r ttl, f_net f = HttpReply r
    ∧ accept_reply r (f_url f) (f_schema f) (f_ttl f) = Ret (m, ttl)
    ∧ expires = f_set f + default ttl0 ttl.

Definition cache_ok (l : list fetch) (c : cache_state) : Prop :=
  PyDict.wf (cache c) ∧
  ∀ url e, PyDict.get url (cache c) = Some e →
    ∃ f, f ∈ l ∧ f_url f = url ∧ fetched (default_ttl c) f (manifest e) (expires_at e).

Lemma cache_ok_mono l l' c : cache_ok l c → cache_ok (l ++ l')%list c.
Proof.
  intros [Hw Hc]. split; [done|]. intros url e He. destruct (Hc url e He) as (f & Hf & ?).
  exists f. split; [|done]. apply elem_of_app. by left.
Qed.

Lemma cache_ok_sublist l c d : sublist d (cache c) → cache_ok l c → cache_ok l (with_cache d c).
Proof.
  intros Hs [Hw Hc]. split; [by eapply wf_sublist|]. intros url e He. apply Hc.
  by eapply get_sublist.
Qed.

Lemma cache_ok_get l c now url c' o : ManifestCache.get now url c = (c', o) → cache_ok l c →
  cache_ok l c' ∧ default_ttl c' = default_ttl c ∧
  match o with
  | Some m => ∃ e, PyDict.get url (cache c) = Some e ∧ manifest e = m ∧ now < expires_at e
  | None => PyDict.get url (cache c') = None
  end.
Proof.
  unfold ManifestCache.get. intros Hg [Hw Hc].
  destruct (PyDict.get url (cache c)) as [e|] eqn:E; [|injection Hg as <- <-; by rewrite E].
  destruct (is_expired now e) eqn:Ex; injection Hg as <- <-.
  - split; [apply cache_ok_sublist; [apply PyDict.del_sublist|by split]|]. split; [done|]. by apply PyDict.get_del_eq.
  - split; [|split; [done|]].
    + split; [by apply wf_move_to_end|]. intros url' e' He'. apply Hc. cbn in He'. by rewrite get_move_to_end in He'.
    + exists e. unfold is_expired in Ex. crush.
Qed.

Lemma cache_ok_invalidate l c url : cache_ok l c → cache_ok l (invalidate url c).
Proof. intros Hc. apply cache_ok_sublist; [apply PyDict.del_sublist|done]. Qed.

Lemma cache_ok_set l c f m r ttl : cache_ok l c → f ∈ l → f_net f = HttpReply r →
  accept_reply r (f_url f) (f_schema f) (f_ttl f) = Ret (m, ttl) →
  cache_ok l (ManifestCache.set (f_set f) (f_url f) m ttl c).
Proof.
  intros [Hw Hc] Hf Hn Ha. unfold ManifestCache.set. fold (base (f_url f) c).
  pose proof (base_sublist (f_url f) c) as Hb.
  split; [apply PyDict.wf_set; by eapply wf_sublist|]. intros url e. cbn [cache with_cache].
  destruct (decide (url = f_url f)) as [-> | Hne].
  - rewrite PyDict.get_set_eq. intros [= <-]. exists f. split_and!; [done..|]. by exists r, ttl.
  - rewrite PyDict.get_set_ne by done. intros He. apply Hc. by eapply get_sublist.
Qed.

(** One fetch: the cache stays sound, and what is returned was fetched. *)
Lemma run_fetch_ok l f c : f ∈ l → cache_ok l c → cache_ok l (fst (run_fetch f c)).
Proof.
  intros Hf Hc. unfold run_fetch, _fetch_and_cache_manifest. destruct (c_connected cl); cbn [negb]; [|done].
  destruct (ManifestCache.get (f_get f) (f_url f) c) as [c' o] eqn:Hg.
  destruct (cache_ok_get _ _ _ _ _ _ Hg Hc) as (Hc' & _ & _).
  destruct o as [m|]; [done|]. unfold fetch_on_miss. destruct (f_net f) as [| |x|r] eqn:Hn; cbn [fst].
  - by apply cache_ok_invalidate.
  - by apply cache_ok_invalidate.
  - destruct (passes_through x); [done|by apply cache_ok_invalidate].
  - destruct (accept_reply r _ _ _) as [[inv x]|[m ttl]] eqn:Ha.
    + destruct inv, (passes_through x); cbn; repeat apply cache_ok_invalidate; done.
    + cbn. by eapply cache_ok_set.
Qed.

Lemma fetch_on_miss_raise url schema p now_set net c c' x :
  fetch_on_miss url schema p now_set net c = (c', Raise x) →
  PyDict.wf (cache c) → PyDict.get url (cache c) = None →
  PyDict.get url (cache c') = None ∧ ∀ k, k ≠ url → PyDict.get k (cache c') = PyDict.get k (cache c).
Proof.
  intros Hf Hw Hn.
  assert (Hc : c' = c ∨ c' = invalidate url c ∨ c' = invalidate url (invalidate url c)).
  { revert Hf. unfold fetch_on_miss. repeat case_match; intros ?; simplify_eq; auto. }
  destruct Hc as [-> | [-> | ->]]; cbn; split; intros;
    rewrite ?PyDict.get_del_eq, ?PyDict.get_del_ne by auto with asap; done.
Qed.

Lemma run_fetches_ok l l' c : cache_ok l c → cache_ok (l ++ l')%list (run_fetches c l').
Proof.
  revert l c. induction l' as [|f l' IH]; intros l c Hc; cbn; [by rewrite app_nil_r|].
  replace (l ++ f :: l')%list with ((l ++ [f]) ++ l')%list by (by rewrite <- app_assoc).
  apply IH. apply run_fetch_ok; [|by apply cache_ok_mono]. apply elem_of_app. right. by apply list_elem_of_singleton.
Qed.

Lemma default_ttl_run f c : default_ttl (fst (run_fetch f c)) = default_ttl c.
Proof.
  unfold run_fetch, _fetch_and_cache_manifest, fetch_on_miss, ManifestCache.get.
  destruct (c_connected cl); cbn [negb]; [|done].
  destruct (PyDict.get (f_url f) (cache c)) as [e|]; [destruct (is_expired (f_get f) e)|];
    destruct (f_net f) as [| |x|r]; try done; cbn; try (by destruct (passes_through x));
    destruct (accept_reply r _ _ _) as [[[] x]|[m ttl]]; try done; by destruct (passes_through x).
Qed.

Lemma default_ttl_runs l c : default_ttl (run_fetches c l) = default_ttl c.
Proof. revert c. induction l as [|f l IH]; intros c; [done|].
  change (run_fetches c (f :: l)) with (run_fetches (fst (run_fetch f c)) l). rewrite IH. apply default_ttl_run.
Qed.

(** The document of a manifest accepted while signatures are verified. *)
Definition vetted (url : string) (m : M) (data : json) : Prop :=
  (looks_signed data = Ret false ∧ md_manifest data = Ret m)
  ∨ (looks_signed data = Ret true ∧ ∃ signed pk b64,
       md_signed data = Ret signed ∧ sm_manifest signed = m
       ∧ (c_verify_signatures cl = true →
          assoc url (c_trusted_manifest_keys cl) = Some b64
          ∧ load_public_key_from_base64 b64 = Ret pk ∧ properly_signed signed pk)).

Lemma coerce_vetted data url schema m lvl :
  _coerce_manifest_payload data url schema = Ret (m, lvl) → vetted url m data.
Proof.
  unfold _coerce_manifest_payload. destruct (coerce_body data url schema) as [|r] eqn:Hb; [done|]. intros [= ->].
  revert Hb. unfold coerce_body, vetted. destruct (looks_signed data) as [|[]]; cbn [lift_py rbind]; [done| |].
  - destruct (md_signed data) as [|signed]; cbn [rbind]; [done|]. intros Hb. right. split; [done|].
    destruct (c_verify_signatures cl).
    + destruct (assoc url (c_trusted_manifest_keys cl)) as [b64|]; [|done].
      destruct (PyStr.truthy b64); [|done].
      destruct (load_public_key_from_base64 b64) as [|pk] eqn:Hl; cbn [lift_py rbind] in Hb; [done|].
      destruct (verify_manifest signed (Some pk)) as [|b] eqn:Hv; cbn [rbind] in Hb; [done|]. simplify_eq.
      apply verify_manifest_inv in Hv as (_ & pk' & [= <-] & Hs). by exists signed, pk, b64.
    + simplify_eq/=. exists signed, [], "". split_and!; [done..|]. by intros ?.
  - intros Hb. left. split; [done|]. unfold validate_manifest_schema in Hb.
    destruct schema, (md_manifest data); simplify_eq/=; done.
Qed.

Lemma max_age_bounds v ttl : _parse_max_age_from_cache_control v = Ret (Some ttl) → 0 < ttl <= DISCOVER_CACHE_MAX_AGE_CAP.
Proof.
  unfold _parse_max_age_from_cache_control. destruct v as [v|]; [|done].
  destruct (search_max_age v) as [d|]; [|done]. destruct (_ <? _)%nat; [done|]. cbv zeta.
  destruct (Z.ltb_spec 0 (digits_value 0 d)); [|done]. intros [= <-]. unfold DISCOVER_CACHE_MAX_AGE_CAP. lia.
Qed.

Lemma accept_reply_inv r url schema p m ttl : accept_reply r url schema p = Ret (m, ttl) →
  hr_status r < 400 ∧ (∃ data, hr_json r = Ret data ∧ vetted url m data) ∧
  (∀ t, ttl = Some t → 0 < t <= DISCOVER_CACHE_MAX_AGE_CAP * second).
Proof.
  unfold accept_reply. destruct (Z.leb_spec 400 (hr_status r)); [done|].
  destruct (hr_json r) as [|data]; [done|].
  destruct (_coerce_manifest_payload data url schema) as [|[m' lvl]] eqn:Hc; [done|].
  destruct (if p then _ else _) as [|ttl'] eqn:Ht; [done|]. intros [= <- <-]. split; [done|].
  split; [exists data; split; [done|by eapply coerce_vetted]|].
  intros t Hs. destruct ttl' as [t'|]; [|done]. cbn in Hs. injection Hs as <-. destruct p; [|done].
  apply max_age_bounds in Ht. unfold second. lia.
Qed.
End Discovery.

Section Claims.
  Context {M : Type} `{PyRuntime, Crypto M, ManifestModels M}.
  Variable sanitize_url : string → string.

(** C20: Every manifest that `get_manifest` or `discover` returns, after any
    history of fetches, was accepted by this fetch or an earlier one of the same
    URL, from a reply of status below 400, at most the default TTL or one day ago
    (whichever is longer).  If its document was a signed one and the client
    verifies signatures, it carries a valid signature under the key configured
    for that URL. *)
Theorem discovered_manifests_are_vetted (cl : client) (ttl0 max : Z) (l : list fetch) (f : fetch)
    (c' : ManifestCache.t M) (m : M) :
  run_fetch sanitize_url cl f (run_fetches sanitize_url cl (ManifestCache.init ttl0 max) l) = (c', Ret m) →
  ∃ g r expires data, g ∈ (l ++ [f])%list ∧ f_url g = f_url f
    ∧ f_net g = HttpReply r ∧ hr_status r < 400 ∧ hr_json r = Ret data ∧ vetted cl (f_url f) m data
    ∧ (g = f ∨ f_get f < expires)
    ∧ expires <= f_set g + Z.max ttl0 (DISCOVER_CACHE_MAX_AGE_CAP * second).
Proof.
  set (c := run_fetches _ _ _ _). intros Hrun.
  assert (Hc : cache_ok sanitize_url cl l c).
  { apply (run_fetches_ok sanitize_url cl [] l). split; [constructor|done]. }
  assert (Httl : ManifestCache.default_ttl c = ttl0) by apply default_ttl_runs.
  assert (Hfetched : ∀ g expires, g ∈ (l ++ [f])%list → f_url g = f_url f → fetched sanitize_url cl ttl0 g m expires →
    g = f ∨ f_get f < expires → ∃ g r expires data, g ∈ (l ++ [f])%list ∧ f_url g = f_url f
    ∧ f_net g = HttpReply r ∧ hr_status r < 400 ∧ hr_json r = Ret data ∧ vetted cl (f_url f) m data
    ∧ (g = f ∨ f_get f < expires)
    ∧ expires <= f_set g + Z.max ttl0 (DISCOVER_CACHE_MAX_AGE_CAP * second)).
  { intros g expires Hg Hu (r & ttl & Hn & Ha & ->) Hl. rewrite Hu in Ha.
    destruct (accept_reply_inv _ _ _ _ _ _ _ _ Ha) as (Hs & (data & Hd & Hv) & Ht).
    exists g, r, (f_set g + default ttl0 ttl), data. split_and!; [done..|].
    destruct ttl as [t|]; cbn; [specialize (Ht t eq_refl)|]; lia. }
  revert Hrun. unfold run_fetch, _fetch_and_cache_manifest. destruct (c_connected cl); cbn [negb]; [|done].
  destruct (ManifestCache.get (f_get f) (f_url f) c) as [c1 o] eqn:Hg.
  destruct (cache_ok_get _ _ _ _ _ _ _ _ Hg Hc) as (_ & _ & Ho).
  destruct o as [m'|].
  - intros [= <- <-]. destruct Ho as (e & He & <- & Hlt).
    destruct (proj2 Hc _ _ He) as (g & Hin & Hu & Hf). rewrite Httl in Hf.
    apply (Hfetched g (ManifestCache.expires_at e)); [apply elem_of_app; by left|done|done|by right].
  - unfold fetch_on_miss. destruct (f_net f) as [| |x|r] eqn:Hn; try done; [by destruct (passes_through x)|].
    destruct (accept_reply sanitize_url cl r _ _ _) as [[inv x]|[m' ttl]] eqn:Ha; [by destruct (passes_through x)|].
    intros [= <- <-]. apply (Hfetched f (f_set f + default ttl0 ttl)); [|done|by exists r, ttl|by left].
    apply elem_of_app. right. by apply list_elem_of_singleton.
Qed.

(** A fetch that fails leaves no manifest for its URL in the cache,
    whichever of its error paths it took, and does not disturb the entries of
    other URLs. *)
Theorem failed_fetch_caches_nothing (cl : client) (f : fetch) (c c' : ManifestCache.t M) (x : exn) :
  PyDict.wf (ManifestCache.cache c) → c_connected cl = true →
  run_fetch sanitize_url cl f c = (c', Raise x) →
  PyDict.get (f_url f) (ManifestCache.cache c') = None ∧
  ∀ url, url ≠ f_url f → PyDict.get url (ManifestCache.cache c') = PyDict.get url (ManifestCache.cache c).
Proof.
  intros Hw Hconn. unfold run_fetch, _fetch_and_cache_manifest. rewrite Hconn. cbn [negb].
  unfold ManifestCache.get. destruct (PyDict.get (f_url f) (ManifestCache.cache c)) as [e|] eqn:E.
  - destruct (ManifestCache.is_expired (f_get f) e); [|done]. intros Hr.
    apply (fetch_on_miss_raise sanitize_url) in Hr as [Hu Hk]; cbn; [|by apply PyDict.wf_del|by apply PyDict.get_del_eq].
    split; [done|]. intros url Hne. rewrite Hk by done. by apply PyDict.get_del_ne.
  - intros Hr. by apply (fetch_on_miss_raise sanitize_url) in Hr.
Qed.

(** Signature verification can be opted out of by the peer: a document
    without a `signature` member is accepted as a plain manifest by every client,
    also by one that verifies signatures and has a trusted key for the URL. *)
Theorem unsigned_manifest_skips_verification (cl : client) (url : string) (d : list (string * json)) (m : M)
    (schema : bool) :
  assoc "signature" d = None → md_manifest (JObj d) = Ret m →
  _coerce_manifest_payload sanitize_url cl (JObj d) url schema = Ret (m, None).
Proof.
  intros Hs Hm. unfold _coerce_manifest_payload, coerce_body.
  assert (looks_signed (JObj d) = Ret false) as ->.
  { unfold looks_signed. cbn. rewrite Hs. by destruct (assoc "manifest" d). }
  cbn [lift_py rbind]. unfold validate_manifest_schema. rewrite Hm. by destruct schema.
Qed.

(** A reply that forbids caching is cached all the same: a manifest
    discovered with `Cache-Control: max-age=0` is served from the cache, without
    asking the agent, for the default five minutes. *)
Theorem max_age_zero_is_cached (cl : client) (base_url : string) (max now_get now_set later later' : Z)
    (r : http_reply) (net : http_outcome) (data : json) (m : M) (lvl : option string) :
  c_connected cl = true → hr_status r < 400 → hr_headers r = [("Cache-Control", "max-age=0")] →
  hr_json r = Ret data →
  _coerce_manifest_payload sanitize_url cl data (PyStr.rstrip_char "/" base_url ++ WELLKNOWN_MANIFEST_PATH) true
    = Ret (m, lvl) →
  later < now_set + 300 * second →
  let c := fst (discover sanitize_url cl base_url now_get now_set (HttpReply r)
                  (ManifestCache.init DEFAULT_TTL max)) in
  snd (discover sanitize_url cl base_url later later' net c) = Ret m.
Proof.
  intros Hconn Hst Hh Hj Hc Hl c.
  assert (Hcache : PyDict.get (PyStr.rstrip_char "/" base_url ++ WELLKNOWN_MANIFEST_PATH) (ManifestCache.cache c)
    = Some (ManifestCache.mkCacheEntry m (now_set + DEFAULT_TTL))).
  { unfold c, discover, _fetch_and_cache_manifest. rewrite Hconn. cbn [negb].
    unfold fetch_on_miss, accept_reply. cbn [ManifestCache.get ManifestCache.init ManifestCache.cache PyDict.get].
    rewrite (proj2 (Z.leb_gt _ _) Hst), Hj, Hc, Hh. cbn [fst].
    change (match _parse_max_age_from_cache_control _ with Raise _ => _ | Ret _ => _ end)
      with (Ret (E := bool * exn) (m, @None Z)).
    cbv iota beta. cbn [fst]. unfold ManifestCache.set. cbn [ManifestCache.cache ManifestCache.with_cache].
    by rewrite PyDict.get_set_eq. }
  unfold discover, _fetch_and_cache_manifest. rewrite Hconn. cbn [negb]. unfold ManifestCache.get.
  rewrite Hcache. unfold ManifestCache.is_expired. cbn [ManifestCache.expires_at].
  rewrite (proj2 (Z.leb_gt _ _)) by (unfold DEFAULT_TTL; lia). done.
Qed.
End Claims.

(** ** Polling *)

(** The polling loop ends: as soon as one turn sees the deadline passed it
    has an outcome, and the outcome is the answer of the first turn before the
    deadline that was not `pending` or not to be retried; a timeout is reported
    only when every turn before the deadline was to be retried. *)
Theorem polling_ends_at_deadline `{PyRuntime} (sanitize_url : string → string) (agent_id st_url : string)
    (data : list (string * json)) (timeout : pyfloat) (deadline : Z) (before : list poll) (p : poll)
    (after : list poll) :
  Forall (λ q, p_now q < deadline) before → deadline <= p_now p →
  poll_loop sanitize_url agent_id st_url data timeout deadline (before ++ p :: after)%list =
  match find (λ q, negb (to_retry (poll_once sanitize_url agent_id st_url data (p_net q)))) before with
  | Some q =>
      match poll_once sanitize_url agent_id st_url data (p_net q) with
      | Settled r => Some (Ret r)
      | Failed x => Some (Raise x)
      | Again => None
      end
  | None => Some (Raise (timeout_error ("Timed out after " ++ float_repr timeout
                           ++ "s waiting for capability escalation") timeout))
  end.
Proof.
  intros Hb Hd. induction Hb as [|q before Hq Hb IH]; cbn [app poll_loop find].
  - by rewrite (proj2 (Z.ltb_ge _ _) Hd).
  - rewrite (proj2 (Z.ltb_lt _ _) Hq).
    destruct (poll_once sanitize_url agent_id st_url data (p_net q)) eqn:E; cbn [negb to_retry];
      [by rewrite E|by rewrite E|exact IH].
Qed.

(** ** Examples *)
Module ToyDiscovery.
#[local] Instance plain_runtime : PyRuntime := {| float_repr := λ _, "0.0"; float_of_str := λ _, None |}.
#[local] Existing Instance ToyCrypto.toy.

(** A manifest is a number, the `id` of its document. *)
Definition manifest_of (j : json) : res string octets :=
  match j with
  | JObj d => match assoc "id" d with Some (JInt z) => Ret [z] | _ => Raise "id: field required" end
  | _ => Raise "not an object"
  end.
Definition signed_of (j : json) : res string (SignedManifest octets) :=
  match j with
  | JObj d =>
      match assoc "manifest" d, assoc "signature" d with
      | Some m, Some (JStr s) =>
          let! x := manifest_of m in Ret (mkSigned x (mkSignature "ed25519" s SELF_SIGNED) None)
      | _, _ => Raise "signature: field required"
      end
  | _ => Raise "not an object"
  end.
#[local] Instance models : ManifestModels octets := {| md_manifest := manifest_of; md_signed := signed_of |}.

Definition url : string := "https://a.example/.well-known/asap/manifest.json".
Definition signed_doc : json :=
  JObj [("manifest", JObj [("id", JInt 5)]); ("signature", JStr (Base64.b64encode (ToyCrypto.toy_sign 7 [5])))].
Definition cl : client :=
  mkClient true "https://a.example" "https://a.example" (FFin 60) true
    [(url, Base64.b64encode (ToyCrypto.toy_public 7))].
Definition reply (j : json) (headers : list (string * string)) : http_reply := mkReply 200 headers [] (Ret j).
Definition show_url : string → string := λ u, u.

Definition first : fetch := mkFetch url true true 0 0 (HttpReply (reply signed_doc [])).
Definition second_ : fetch := mkFetch url true true 10 10 (HttpTimeout "slow").

Lemma second_hits : snd (run_fetch show_url cl second_
  (run_fetches show_url cl (ManifestCache.init DEFAULT_TTL 10) [first])) = Ret [5].
Proof. vm_compute. reflexivity. Qed.
End ToyDiscovery.

Lemma discovered_manifests_are_vetted_witness :
  ∃ c' m data, snd (@run_fetch _ ToyDiscovery.plain_runtime ToyCrypto.toy ToyDiscovery.models
      ToyDiscovery.show_url ToyDiscovery.cl ToyDiscovery.second_ c') = Ret m
    ∧ @vetted _ ToyCrypto.toy ToyDiscovery.models ToyDiscovery.cl ToyDiscovery.url m data.
Proof.
  pose (c := @run_fetches _ ToyDiscovery.plain_runtime ToyCrypto.toy ToyDiscovery.models
    ToyDiscovery.show_url ToyDiscovery.cl (ManifestCache.init DEFAULT_TTL 10) [ToyDiscovery.first]).
  destruct (@run_fetch _ ToyDiscovery.plain_runtime ToyCrypto.toy ToyDiscovery.models
    ToyDiscovery.show_url ToyDiscovery.cl ToyDiscovery.second_ c) as [c'' r] eqn:E.
  assert (Hr : r = Ret [5]) by (change r with (snd (c'', r)); rewrite <- E; exact ToyDiscovery.second_hits).
  subst r.
  destruct (@discovered_manifests_are_vetted _ ToyDiscovery.plain_runtime ToyCrypto.toy ToyDiscovery.models
    ToyDiscovery.show_url ToyDiscovery.cl DEFAULT_TTL 10 [ToyDiscovery.first] ToyDiscovery.second_ c'' [5] E)
    as (g & r & ex & data & _ & _ & _ & _ & _ & Hv & _).
  exists c, [5], data. split; [exact ToyDiscovery.second_hits|exact Hv].
Defined.

Lemma failed_fetch_caches_nothing_witness :
  PyDict.get ToyDiscovery.url (ManifestCache.cache (fst
    (@run_fetch _ ToyDiscovery.plain_runtime ToyCrypto.toy ToyDiscovery.models
      ToyDiscovery.show_url ToyDiscovery.cl ToyDiscovery.second_ (ManifestCache.init DEFAULT_TTL 10)))) = None.
Proof.
  destruct (@run_fetch _ ToyDiscovery.plain_runtime ToyCrypto.toy ToyDiscovery.models
    ToyDiscovery.show_url ToyDiscovery.cl ToyDiscovery.second_ (ManifestCache.init DEFAULT_TTL 10)) as [c' r] eqn:E.
  destruct r as [x|m]; [|discriminate E].
  exact (proj1 (@failed_fetch_caches_nothing _ ToyDiscovery.plain_runtime ToyCrypto.toy ToyDiscovery.models
    ToyDiscovery.show_url ToyDiscovery.cl ToyDiscovery.second_ (ManifestCache.init DEFAULT_TTL 10) c' x
    (NoDup_nil_2) eq_refl E)).
Defined.

Lemma unsigned_manifest_skips_verification_witness :
  @_coerce_manifest_payload _ ToyCrypto.toy ToyDiscovery.models ToyDiscovery.show_url ToyDiscovery.cl
    (JObj [("id", JInt 6)]) ToyDiscovery.url true = Ret ([6], None).
Proof.
  exact (@unsigned_manifest_skips_verification _ ToyCrypto.toy ToyDiscovery.models ToyDiscovery.show_url
    ToyDiscovery.cl ToyDiscovery.url [("id", JInt 6)] [6] true eq_refl eq_refl).
Defined.

Lemma max_age_zero_is_cached_witness :
  let r := ToyDiscovery.reply (JObj [("id", JInt 6)]) [("Cache-Control", "max-age=0")] in
  let discover := @discover _ ToyDiscovery.plain_runtime ToyCrypto.toy ToyDiscovery.models
                    ToyDiscovery.show_url ToyDiscovery.cl "https://a.example" in
  snd (discover (299 * second) 0 (HttpTimeout "slow")
        (fst (discover 0 0 (HttpReply r) (ManifestCache.init DEFAULT_TTL 10)))) = Ret [6].
Proof.
  intros r discover.
  apply (@max_age_zero_is_cached _ ToyDiscovery.plain_runtime ToyCrypto.toy ToyDiscovery.models
    ToyDiscovery.show_url ToyDiscovery.cl "https://a.example" 10 0 0 (299 * second) 0 r (HttpTimeout "slow")
    (JObj [("id", JInt 6)]) [6] None); reflexivity.
Defined.

Lemma polling_ends_at_deadline_witness :
  @poll_loop ToyDiscovery.plain_runtime ToyDiscovery.show_url "a" "u" [] (FFin 1) 10
    [mkPoll 3 (HttpReply (ToyDiscovery.reply (JObj [("approval_status", JStr "pending")]) []));
     mkPoll 12 (HttpTimeout "slow")]
  = Some (Raise (timeout_error "Timed out after 0.0s waiting for capability escalation" (FFin 1))).
Proof.
  refine (@polling_ends_at_deadline ToyDiscovery.plain_runtime ToyDiscovery.show_url "a" "u" [] (FFin 1) 10
    [mkPoll 3 (HttpReply (ToyDiscovery.reply (JObj [("approval_status", JStr "pending")]) []))]
    (mkPoll 12 (HttpTimeout "slow")) [] _ _); [repeat constructor|cbn; lia].
Defined.
