(* ===== verification/Client.v ===== *)
(** * The client's send path

    `src/src/asap/transport/client/_send.py` (`send` with its retries, breaker and
    metrics, `stream`), the helpers of `_helpers.py`, and of `_core.py` the
    back-off, the version and challenge headers, and `batch`;
    `src/src/asap/transport/errors.py` (binding of responses to requests).

    What one attempt meets (the network's outcome, readings of the clocks, the
    random draw, the parsed date header) is its [tick].  Durations are rationals:
    the rounding of floats is not modelled, nor are log lines.  One `send` runs
    without interleaving; the breaker it shares with other clients is the one of
    the state. *)

From Stdlib Require Import ZArith QArith Lia Ascii String.
From stdpp Require Import base tactics list gmap strings.
From S2P Require Import Prelude PyValue Digest Identity ReplayGuard EnvelopeGuard CircuitBreaker Metrics Errors LambdaCodec Compression JsonRpc Handlers Signing Middleware Challenge ManifestCache RequestHandler Discovery.
Open Scope string_scope.
Open Scope Z_scope.
Open Scope asap_scope.

(** ** Binding of responses *)
Definition RESPONSE_PAYLOAD_KEYS : list string := ["taskresponse"; "mcptoolresult"; "mcpresourcedata"].
Definition STREAM_BOUND_PAYLOAD_KEYS : list string := (RESPONSE_PAYLOAD_KEYS ++ ["taskstream"])%list.

Definition _assert_correlation_binds (request_envelope_id : string) (response : Envelope) (bound_keys : list string) :
    res exn unit :=
  if negb (str_in (_normalize_payload_type (e_payload_type response)) bound_keys) then Ret tt
  else if bool_decide (e_correlation_id response = Some request_envelope_id) then Ret tt
  else Raise (raised (ProtocolCorrelationError request_envelope_id (e_correlation_id response) [])).

Definition assert_correlation_binds (request_envelope_id : string) (response : Envelope) : res exn unit :=
  _assert_correlation_binds request_envelope_id response RESPONSE_PAYLOAD_KEYS.
Definition assert_stream_correlation_binds (request_envelope_id : string) (response : Envelope) : res exn unit :=
  _assert_correlation_binds request_envelope_id response STREAM_BOUND_PAYLOAD_KEYS.

(** `str(envelope.id)` *)
Definition str_id (e : Envelope) : string := default "None" (e_id e).

(** ** Configuration, inputs, state *)
Record conf : Type := mkConf {
  k_client : client;
  k_websocket : bool;
  k_max_retries : Z;
  k_base_delay : Q;
  k_max_delay : Q;
  k_jitter : bool;
  k_compression : bool;
  k_compression_threshold : Z;
  k_lambda_codec_enabled : bool;
  k_auth_token : option string;
  k_asap_version_header_value : string;
  k_auto_register_on_asap_challenge : bool
}.

Record tick : Type := mkTick {
  a_net : http_outcome;                    (* outcome of the POST *)
  a_now : Z;                               (* clock of the breaker *)
  a_elapsed : Q;                           (* seconds since the send began *)
  a_draw : Q;                              (* jitter, as a share of its range *)
  a_retry_date : option Q;                 (* seconds until the HTTP date of Retry-After *)
  a_env_now : Z;                           (* clock and fresh id of the response's envelope *)
  a_env_id : string;
  a_prefetch : Z * Z * http_outcome        (* the manifest request after a challenge *)
}.

Inductive event : Type :=
| Posted (headers : list (string * string)) (body : bytes)
| Slept (delay : pyfloat).

(** How an attempt leaves its `try`: `_RetryableSend`, or any other exception. *)
Inductive signal : Type :=
| Retry (x : exn)
| Throw (x : exn).

Section Send.
  Context {M : Type} `{PyRuntime, Pydantic, Codecs, Crypto M, ManifestModels M}.
  Variable sanitize_url : string → string.
  (** `json.loads` of a text, with the text of its exception *)
  Variable json_loads_text : text → res string json.
  (** the text of a `ValidationError` *)
  Variable validation_text : list json → string.

Record cstate : Type := mkC {
  c_breaker : option CircuitBreaker.t;
  c_metrics : MetricsCollector.t;
  c_cache : ManifestCache.t M;
  c_last_version : option string;
  c_last_discovery : option string;
  c_request_counter : Z;
  c_trace : list event
}.

Abbreviation A := (ST cstate signal).
Variable k : conf.

Definition base_url : string := c_base_url (k_client k).

Definition on_breaker (f : CircuitBreaker.t → CircuitBreaker.t) (s : cstate) : cstate :=
  mkC (f <$> c_breaker s) (c_metrics s) (c_cache s) (c_last_version s) (c_last_discovery s) (c_request_counter s)
    (c_trace s).
Definition on_cmetrics (f : MetricsCollector.t → MetricsCollector.t) (s : cstate) : cstate :=
  mkC (c_breaker s) (f (c_metrics s)) (c_cache s) (c_last_version s) (c_last_discovery s) (c_request_counter s)
    (c_trace s).
Definition emit (e : event) (s : cstate) : cstate :=
  mkC (c_breaker s) (c_metrics s) (c_cache s) (c_last_version s) (c_last_discovery s) (c_request_counter s)
    (c_trace s ++ [e])%list.

Definition record_failure (now : Z) : A unit := st_modify (on_breaker (CircuitBreaker.record_failure now)).
Definition record_success : A unit := st_modify (on_breaker CircuitBreaker.record_success).
Definition sleep (d : pyfloat) : A unit := st_modify (emit (Slept d)).
Definition raise {X} (x : exn) : A X := st_stop (Throw x).
Definition retry {X} (x : exn) : A X := st_stop (Retry x).
Definition try_ {X} (r : res exn X) : A X := st_lift match r with Ret x => Ret x | Raise e => Raise (Throw e) end.

(** `type(error).__name__` *)
Definition exn_name (x : exn) : string :=
  match x with
  | XAsap e => class_name (x_class e)
  | XRemote r => class_name (x_class (r_error r))
  | XOther n _ => n
  end.

Definition _record_send_error_metrics (duration : Q) (x : exn) : MetricsCollector.t → MetricsCollector.t := λ m,
  MetricsCollector.observe_histogram "asap_transport_send_duration_seconds" duration [("status", "error")]
    (MetricsCollector.increment_counter "asap_transport_send_errors_total" [("reason", exn_name x)] 1
       (MetricsCollector.increment_counter "asap_transport_send_total" [("status", "error")] 1 m)).

(** ** Delays *)
Definition _calculate_backoff (draw : Q) (attempt : nat) : Q :=
  let delay := (k_base_delay k * inject_Z (2 ^ Z.of_nat attempt))%Q in
  let delay := if Qle_bool delay (k_max_delay k) then delay else k_max_delay k in
  if k_jitter k then (delay + draw * (delay * (1 # 10)))%Q else delay.

(** `raw.replace(".", "", 1).isdigit()`; three Latin-1 superscripts are digits
    to `isdigit` and not to `float`. *)
Definition isdigit_char (c : ascii) : bool :=
  is_digit c || existsb (Nat.eqb (PyStr.code c)) [178; 179; 185]%nat.
Fixpoint all_digits (s : string) : bool :=
  match s with EmptyString => true | String c s' => isdigit_char c && all_digits s' end.
Fixpoint without_first_dot (s : string) : string :=
  match s with
  | EmptyString => ""
  | String c s' => if Ascii.eqb c "." then s' else String c (without_first_dot s')
  end.
Definition is_delta_seconds (raw : string) : bool :=
  let s := without_first_dot raw in PyStr.truthy s && all_digits s.

Definition _parse_retry_after (r : http_reply) (date : option Q) : res pyexn (option pyfloat) :=
  match get_header "Retry-After" (hr_headers r) with
  | None => Ret None
  | Some raw =>
      if negb (PyStr.truthy raw) then Ret None
      else if is_delta_seconds raw then
        match float_of_str raw with
        | Some f => Ret (Some f)
        | None => Raise (ValueError "could not convert string to float")
        end
      else Ret (match date with Some d => if Qle_bool d 0 then None else Some (FFin d) | None => None end)
  end.

(** ** Requests *)
Definition json_rpc_request (envelope : Envelope) (idempotency_key : string) (n : Z) : json :=
  JObj [("jsonrpc", JStr "2.0"); ("method", JStr ASAP_METHOD);
        ("params", JObj [("envelope", pd_dump_envelope envelope); ("idempotency_key", JStr idempotency_key)]);
        ("id", JStr ("req-" ++ PyStr.dec_Z n))].

Definition request_body (j : json) : bytes := Digest.encode (json_dumps float_repr ", " ": " false j).

Definition _compress_request_body (body : bytes) : bytes * option string :=
  if negb (k_compression k) then (body, None)
  else
    let '(compressed_body, algorithm) := compress_payload body None (k_compression_threshold k) false in
    if bool_decide (algorithm = IDENTITY) then (body, None)
    else (compressed_body, Some (algorithm_value algorithm)).

Definition _build_send_headers (idempotency_key : string) (content_encoding : option string) :
    list (string * string) :=
  let accept_value := if k_lambda_codec_enabled k then LAMBDA_CONTENT_TYPE ++ ", application/json;q=0.9"
                      else "application/json" in
  let opt name prefix (v : option string) := match v with
                  | Some x => if PyStr.truthy x then [(name, prefix ++ x)] else []
                  | None => [] end in
  ([("Content-Type", "application/json"); ("Accept", accept_value); ("X-Idempotency-Key", idempotency_key);
    ("Accept-Encoding", get_accept_encoding_header); (ASAP_VERSION_HEADER, k_asap_version_header_value k)]
   ++ opt "Content-Encoding" "" content_encoding ++ opt "Authorization" "Bearer " (k_auth_token k))%list.

(** ** Replies *)
Definition _capture_asap_version_header (r : http_reply) (s : cstate) : cstate :=
  let v := match get_header "asap-version" (hr_headers r) with
           | Some raw => if PyStr.truthy raw then Some (PyStr.strip raw) else None
           | None => None end in
  mkC (c_breaker s) (c_metrics s) (c_cache s) v (c_last_discovery s) (c_request_counter s) (c_trace s).

(** The prefetch swallows every exception. *)
Definition _ingest_asap_challenge_401 (t : tick) (r : http_reply) (s : cstate) : cstate :=
  let disc := parse_www_authenticate_asap (get_header "www-authenticate" (hr_headers r)) in
  let cache :=
    match disc with
    | Some url =>
        if PyStr.truthy url && k_auto_register_on_asap_challenge k then
          let '(now_get, now_set, net) := a_prefetch t in
          fst (get_manifest sanitize_url (k_client k) (Some url) now_get now_set net (c_cache s))
        else c_cache s
    | None => c_cache s
    end in
  mkC (c_breaker s) (c_metrics s) cache (c_last_version s) disc (c_request_counter s) (c_trace s).

Definition last_attempt (attempt : nat) : bool := k_max_retries k - 1 <=? Z.of_nat attempt.

Definition server_error (r : http_reply) : exn :=
  connection_error ("HTTP server error " ++ PyStr.dec_Z (hr_status r) ++ " from " ++ base_url
                    ++ ". Server returned: " ++ excerpt 200 (hr_text r)) None base_url.

Definition _handle_server_error (t : tick) (r : http_reply) (attempt : nat) : A Envelope :=
  if negb (last_attempt attempt) then
    run! sleep (FFin (_calculate_backoff (a_draw t) attempt)) in retry (server_error r)
  else
    run! record_failure (a_now t) in raise (server_error r).

Definition _handle_rate_limited (t : tick) (r : http_reply) (attempt : nat) : A Envelope :=
  if last_attempt attempt then
    run! record_failure (a_now t) in
    raise (connection_error ("HTTP rate limit error 429 from " ++ base_url ++ " after "
             ++ PyStr.dec_Z (k_max_retries k) ++ " attempts. Server response: " ++ excerpt 200 (hr_text r))
             None (sanitize_url base_url))
  else
    do! parsed <- try_ (lift_py (_parse_retry_after r (a_retry_date t))) in
    run! sleep (default (FFin (_calculate_backoff (a_draw t) attempt)) parsed) in
    retry (connection_error ("HTTP rate limit error 429 from " ++ base_url ++ ". Server response: "
             ++ excerpt 200 (hr_text r)) None (sanitize_url base_url)).

Definition _handle_client_error (t : tick) (r : http_reply) : A Envelope :=
  run! record_failure (a_now t) in
  raise (connection_error ("HTTP client error " ++ PyStr.dec_Z (hr_status r) ++ " from " ++ base_url
           ++ ". This indicates a problem with the request. Server response: " ++ excerpt 200 (hr_text r))
           None (sanitize_url base_url)).

(** `remote_rpc_error_from_json` and `ASAPRemoteError.from_jsonrpc` *)
Definition remote_error (code : Z) (message : string) (data : option obj) : res exn RemoteRPCError :=
  rmap rc_error (lift_py (from_jsonrpc code message data)).
Definition raise_remote {X} (code : Z) (message : string) : A X :=
  do! r <- try_ (remote_error code message None) in raise (XRemote r).

Definition no_attribute (j : json) (name : string) : exn :=
  XOther "AttributeError" ("'" ++ type_name j ++ "' object has no attribute '" ++ name ++ "'").

(** `d.get(key, default)` of a value that should be a dictionary. *)
Definition dict_get (key : string) (dflt : json) (j : json) : res exn json :=
  match j with
  | JObj d => Ret (default dflt (assoc key d))
  | _ => Raise (no_attribute j "get")
  end.

(** The error a JSON-RPC `error` member stands for. *)
Definition read_error (default_message : string) (error : json) : res exn RemoteRPCError :=
  let! err_payload := dict_get "data" JNull error in
  let err_data := as_obj err_payload in
  let! code := dict_get "code" (JInt (-32603)) error in
  let! wire_code := lift_py (PyInt.of_json code) in
  let! message := dict_get "message" (JStr default_message) error in
  remote_error wire_code (py_str float_repr message) err_data.

Definition _handle_jsonrpc_error (json_response : json) (attempt : nat) : A Envelope :=
  run! record_success in
  do! error <- try_ match json_response with
                    | JObj d => Ret (j_get "error" d)
                    | _ => Raise (XOther "TypeError" "indices must be integers or slices, not str") end in
  do! rpc_exc <- try_ (read_error "Unknown error" error) in
  match x_retry_after_ms (r_error rpc_exc) with
  | Some ms =>
      if r_is_recoverable rpc_exc && negb (last_attempt attempt) then
        run! sleep (FFin (if 0 <=? ms then ms # 1000 else 0)) in retry (XRemote rpc_exc)
      else raise (XRemote rpc_exc)
  | None => raise (XRemote rpc_exc)
  end.

Definition read_reply (r : http_reply) : res string json :=
  if PyStr.contains (default "" (get_header "content-type" (hr_headers r))) LAMBDA_CONTENT_TYPE then
    match LambdaCodec.decode (hr_text r) with
    | Raise e => Raise (exn_text (of_pyexn e))
    | Ret json_str => json_loads_text json_str
    end
  else hr_json r.

(** `Envelope( ** envelope_data)` of a true value *)
Definition build_envelope (t : tick) (envelope_data : json) : res exn Envelope :=
  match envelope_data with
  | JObj d =>
      match new_envelope (a_env_now t) (a_env_id t) d with
      | Ret e => Ret e
      | Raise (ValidationErrors errors) => Raise (XOther "ValidationError" (validation_text errors))
      | Raise (Escapes e) => Raise (of_pyexn e)
      end
  | _ => Raise (XOther "TypeError" "argument after ** must be a mapping")
  end.

Definition _handle_success_response (t : tick) (r : http_reply) (envelope : Envelope) (attempt : nat) : A Envelope :=
  match read_reply r with
  | Raise e => raise_remote (-32700) ("Invalid response: " ++ e)
  | Ret json_response =>
      do! has_error <- try_ (lift_py (py_in (JStr "error") json_response)) in
      if has_error : bool then _handle_jsonrpc_error json_response attempt
      else
        do! result <- try_ (dict_get "result" (JObj []) json_response) in
        do! envelope_data <- try_ (dict_get "envelope" JNull result) in
        if negb (j_truthy envelope_data) then raise_remote (-32603) "Missing envelope in response"
        else
          do! response_envelope <- try_ (build_envelope t envelope_data) in
          run! try_ (assert_correlation_binds (str_id envelope) response_envelope) in
          run! record_success in
          run! st_modify (on_cmetrics (λ m,
                 MetricsCollector.observe_histogram "asap_transport_send_duration_seconds" (a_elapsed t)
                   [("status", "success")]
                   (MetricsCollector.increment_counter "asap_transport_send_total" [("status", "success")] 1 m))) in
          st_ret response_envelope
  end.

Definition _handle_send_response (t : tick) (r : http_reply) (envelope : Envelope) (attempt : nat) : A Envelope :=
  if 500 <=? hr_status r then _handle_server_error t r attempt
  else if hr_status r =? 429 then _handle_rate_limited t r attempt
  else if 400 <=? hr_status r then _handle_client_error t r
  else _handle_success_response t r envelope attempt.

(** ** Attempts *)
Definition _handle_send_transport_exception (t : tick) (is_timeout : bool) (error : string) (attempt : nat) :
    A Envelope :=
  let last_exception :=
    if is_timeout then
      timeout_error ("Request timeout after " ++ float_repr (c_timeout (k_client k)) ++ "s") (c_timeout (k_client k))
    else
      connection_error ("Connection error to " ++ base_url ++ ": " ++ error
                        ++ ". Verify the agent is running and accessible.") (Some error) base_url in
  if negb (last_attempt attempt) then
    run! sleep (FFin (_calculate_backoff (a_draw t) attempt)) in retry last_exception
  else
    run! record_failure (a_now t) in raise last_exception.

(** The errors `send` raises itself, which it lets pass. *)
Definition is_own_error (x : exn) : bool :=
  match x with
  | XAsap e => str_in (class_name (x_class e)) ["ASAPConnectionError"; "ASAPTimeoutError"; "ProtocolCorrelationError"]
  | XRemote _ => true
  | XOther _ _ => false
  end.

Definition unexpected_error (x : exn) : exn :=
  connection_error ("Unexpected error connecting to " ++ base_url ++ ": " ++ exn_text x
                    ++ ". Verify the agent is running and accessible.") (Some (exn_text x)) (sanitize_url base_url).

(** `except Exception`: record the failure, count it, wrap it. *)
Definition catch_unexpected {X} (t : tick) (m : A X) : A X := λ s,
  match m s with
  | (s, Raise (Throw x)) =>
      if is_own_error x then (s, Raise (Throw x))
      else (on_cmetrics (_record_send_error_metrics (a_elapsed t) x)
              (on_breaker (CircuitBreaker.record_failure (a_now t)) s), Raise (Throw (unexpected_error x)))
  | r => r
  end.

(** The `try` of one attempt. *)
Definition attempt_once (t : tick) (envelope : Envelope) (headers : list (string * string)) (body : bytes)
    (attempt : nat) : A Envelope :=
  run! st_when (0 <? attempt)%nat
         (st_modify (on_cmetrics (MetricsCollector.increment_counter "asap_transport_retries_total" [] 1))) in
  run! st_modify (emit (Posted headers body)) in
  match a_net t with
  | HttpTimeout e => _handle_send_transport_exception t true e attempt
  | HttpConnectError e => _handle_send_transport_exception t false e attempt
  | HttpRaises x => catch_unexpected t (raise x)
  | HttpReply r =>
      run! st_modify (_capture_asap_version_header r) in
      run! st_when (hr_status r =? 401) (st_modify (_ingest_asap_challenge_401 t r)) in
      catch_unexpected t (_handle_send_response t r envelope attempt)
  end.

Definition retries_exceeded : exn :=
  connection_error ("Max retries (" ++ PyStr.dec_Z (k_max_retries k) ++ ") exceeded for " ++ base_url
                    ++ ". Verify the agent is running and accessible.") None (sanitize_url base_url).

(** `for attempt in range(max_retries)`, with the turns still to come and the
    exception of the last one; [ticks] are the attempts' inputs. *)
Fixpoint attempt_loop (ticks : nat → tick) (envelope : Envelope) (headers : list (string * string)) (body : bytes)
    (turns attempt : nat) (last_exception : option exn) (s : cstate) : cstate * res exn Envelope :=
  match turns with
  | O =>
      match last_exception with
      | Some x => (on_cmetrics (_record_send_error_metrics (a_elapsed (ticks attempt)) x) s, Raise x)
      | None => (s, Raise retries_exceeded)
      end
  | S turns' =>
      match attempt_once (ticks attempt) envelope headers body attempt s with
      | (s, Ret e) => (s, Ret e)
      | (s, Raise (Throw x)) => (s, Raise x)
      | (s, Raise (Retry x)) => attempt_loop ticks envelope headers body turns' (S attempt) (Some x) s
      end
  end.

Definition circuit_open (b : CircuitBreaker.t) : exn :=
  raised (CircuitOpenError (sanitize_url base_url) (CircuitBreaker.get_consecutive_failures b) [] None).

(** Ask the breaker, if there is one. *)
Definition breaker_gate (now : Z) (s : cstate) : cstate * option exn :=
  match c_breaker s with
  | None => (s, None)
  | Some b =>
      let '(b, ok) := CircuitBreaker.can_attempt now b in
      (on_breaker (λ _, b) s, if ok then None else Some (circuit_open b))
  end.

(** What `send_and_receive` of the WebSocket transport does; it records its
    own outcomes on the shared breaker. *)
Inductive ws_outcome : Type :=
| WsReceived (e : Envelope)
| WsRemoteError (code : Z) (message : string) (data : option obj)
| WsTimeout
| WsRaises (x : exn).

Definition _send_websocket (now : Z) (ws : option CircuitBreaker.t → option CircuitBreaker.t * ws_outcome) (s : cstate) :
    cstate * res exn Envelope :=
  match breaker_gate now s with
  | (s, Some x) => (s, Raise x)
  | (s, None) =>
      let '(b, o) := ws (c_breaker s) in
      (mkC b (c_metrics s) (c_cache s) (c_last_version s) (c_last_discovery s) (c_request_counter s) (c_trace s),
       match o with
       | WsReceived e => Ret e
       | WsRemoteError code message data =>
           match remote_error code message data with Ret r => Raise (XRemote r) | Raise x => Raise x end
       | WsTimeout =>
           Raise (timeout_error ("WebSocket receive timed out after " ++ float_repr (c_timeout (k_client k)) ++ "s")
                    (c_timeout (k_client k)))
       | WsRaises x => Raise x
       end)
  end.

Definition count_request (s : cstate) : cstate :=
  mkC (c_breaker s) (c_metrics s) (c_cache s) (c_last_version s) (c_last_discovery s) (c_request_counter s + 1)
    (c_trace s).

(** `send`: [now] is the breaker's clock at the start, [key] the fresh
    idempotency key. *)
Definition send (now : Z) (key : string) (ticks : nat → tick)
    (ws : option CircuitBreaker.t → option CircuitBreaker.t * ws_outcome) (envelope : Envelope) (s : cstate) :
    cstate * res exn Envelope :=
  if negb (c_connected (k_client k)) && negb (k_websocket k) then (s, Raise (not_connected sanitize_url base_url))
  else if k_websocket k then _send_websocket now ws s
  else
    match breaker_gate now s with
    | (s, Some x) => (s, Raise x)
    | (s, None) =>
        let body := request_body (json_rpc_request envelope key (c_request_counter s)) in
        let '(body, content_encoding) := _compress_request_body body in
        attempt_loop ticks envelope (_build_send_headers key content_encoding) body
          (Z.to_nat (k_max_retries k)) 0 None (count_request s)
    end.

(** ** Streaming *)

(** `Envelope.model_validate(data)`; a value that is not an object has no fields. *)
Definition validate_envelope (now : Z) (fresh : string) (data : json) : res exn Envelope :=
  match data with
  | JObj d =>
      match new_envelope now fresh d with
      | Ret e => Ret e
      | Raise (ValidationErrors errors) => Raise (XOther "ValidationError" (validation_text errors))
      | Raise (Escapes e) => Raise (of_pyexn e)
      end
  | _ => Raise (XOther "ValidationError" (validation_text []))
  end.

(** `buffer.split("\n\n", 1)`, if the separator is there. *)
Fixpoint split_event (s : string) : option (string * string) :=
  match s with
  | String c1 ((String c2 r) as s1) =>
      if (PyStr.code c1 =? 10)%nat && (PyStr.code c2 =? 10)%nat then Some ("", r)
      else (λ er, (String c1 (fst er), snd er)) <$> split_event s1
  | _ => None
  end.

(** The JSON text of a line of an event, if it has one. *)
Definition data_of (line : string) : option string :=
  let line_stripped := PyStr.strip line in
  if PyStr.startswith line_stripped "data:" then
    let json_str := PyStr.strip (PyStr.drop 5 line_stripped) in
    if PyStr.truthy json_str then Some json_str else None
  else None.

Section Stream.
  (** the request's id, and the clock and fresh id for the n-th envelope *)
  Variable request_id : string.
  Variable fresh : nat → Z * string.

Definition read_event (n : nat) (json_str : string) : res exn Envelope :=
  match json_loads_text (lit json_str) with
  | Raise e => Raise (XOther "JSONDecodeError" e)
  | Ret data =>
      let! stream_envelope := validate_envelope (fst (fresh n)) (snd (fresh n)) data in
      let! _ := assert_stream_correlation_binds request_id stream_envelope in
      Ret stream_envelope
  end.

(** The lines of an event: the envelopes yielded and the exception that stops
    the generator, or the number of envelopes so far. *)
Fixpoint read_lines (n : nat) (lines : list string) : list Envelope * res exn nat :=
  match lines with
  | [] => ([], Ret n)
  | line :: lines' =>
      match data_of line with
      | None => read_lines n lines'
      | Some json_str =>
          match read_event n json_str with
          | Raise x => ([], Raise x)
          | Ret e => let '(es, r) := read_lines (S n) lines' in (e :: es, r)
          end
      end
  end.

Definition newline_char : ascii := ascii_of_nat 10.

(** `while "\n\n" in buffer`; the buffer gets shorter, so its length is fuel
    enough. *)
Fixpoint drain (fuel : nat) (n : nat) (buffer : string) : list Envelope * res exn (nat * string) :=
  match fuel with
  | O => ([], Ret (n, buffer))
  | S fuel' =>
      match split_event buffer with
      | None => ([], Ret (n, buffer))
      | Some (raw_event, rest) =>
          match read_lines n (PyStr.split newline_char raw_event) with
          | (es, Raise x) => (es, Raise x)
          | (es, Ret n') => let '(es', r) := drain fuel' n' rest in ((es ++ es')%list, r)
          end
      end
  end.

(** `async for chunk in response.aiter_text()` *)
Fixpoint consume (n : nat) (buffer : string) (chunks : list string) : list Envelope * res exn (nat * string) :=
  match chunks with
  | [] => ([], Ret (n, buffer))
  | chunk :: chunks' =>
      let buffer := buffer ++ chunk in
      match drain (String.length buffer) n buffer with
      | (es, Raise x) => (es, Raise x)
      | (es, Ret (n', rest)) => let '(es', r) := consume n' rest chunks' in ((es ++ es')%list, r)
      end
  end.
End Stream.

(** A streamed reply: an error status comes with a body to read. *)
Record stream_reply : Type := mkStreamReply {
  sr_status : Z;
  sr_headers : list (string * string);
  sr_body : text;
  sr_chunks : list string
}.

(** The error of a reply of status 400 or more: a JSON-RPC error body, if it can
    be read as one.  (The text of the `repr` is exact for ASCII bodies.) *)
Definition stream_error (r : stream_reply) : exn :=
  let http := connection_error ("HTTP error " ++ PyStr.dec_Z (sr_status r) ++ " on stream: b"
                ++ repr_str (excerpt 200 (sr_body r))) None (sanitize_url base_url) in
  match json_loads_text (sr_body r) with
  | Ret (JObj d) =>
      match assoc "error" d with
      | Some error =>
          match read_error "Unknown error" error with
          | Ret rpc => XRemote rpc
          | Raise (XOther n t) =>
              if str_in n ["JSONDecodeError"; "KeyError"; "TypeError"; "ValueError"] then http else XOther n t
          | Raise x => x
          end
      | None => http
      end
  | _ => http
  end.

(** `stream`: the envelopes yielded and the exception that ends it, if any. *)
Definition stream (fresh : nat → Z * string) (net : res exn stream_reply) (envelope : Envelope) (s : cstate) :
    cstate * (list Envelope * option exn) :=
  if negb (c_connected (k_client k)) then (s, ([], Some (not_connected sanitize_url base_url)))
  else if k_websocket k then
    (s, ([], Some (connection_error ("HTTP streaming only: disconnect WebSocket mode or use "
                     ++ "WebSocketTransport.send_and_receive_stream for /asap/ws.") None (sanitize_url base_url))))
  else
    let s := count_request s in
    match net with
    | Raise x => (s, ([], Some x))
    | Ret r =>
        let s := _capture_asap_version_header (mkReply (sr_status r) (sr_headers r) [] (Raise "")) s in
        if 400 <=? sr_status r then (s, ([], Some (stream_error r)))
        else
          let '(es, res) := consume (str_id envelope) fresh 0 "" (sr_chunks r) in
          (s, (es, match res with Raise x => Some x | Ret _ => None end))
    end.

(** ** Batches *)
Definition requests_by_id (envelopes : list Envelope) : list (string * Envelope) :=
  fold_left (λ d env, PyDict.set (str_id env) env d) envelopes [].

Definition batch_body (envelopes : list Envelope) : json :=
  JList (map (λ env, JObj [("jsonrpc", JStr "2.0"); ("method", JStr ASAP_METHOD);
                           ("params", JObj [("envelope", pd_dump_envelope env)]); ("id", str_or_null (e_id env))])
           envelopes).

Definition not_sent (rpc_id : json) (response : Envelope) : exn :=
  raised (ProtocolCorrelationError (match rpc_id with JNull => "" | j => py_str float_repr j end)
            (e_correlation_id response)
            [("reason", JStr "batch sub-response id does not match any sent request")]).

Definition read_item (requests : list (string * Envelope)) (now : Z) (fresh : string) (item : json) :
    res exn Envelope :=
  let! has_error := lift_py (py_in (JStr "error") item) in
  if has_error : bool then
    let! err := match item with
                | JObj d => Ret (j_get "error" d)
                | _ => Raise (XOther "TypeError" "indices must be integers or slices, not str") end in
    let! rpc := read_error "Batch sub-request error" err in
    Raise (XRemote rpc)
  else
    let! result_data := dict_get "result" (JObj []) item in
    let! env_data := dict_get "envelope" result_data result_data in
    let! response_envelope := validate_envelope now fresh env_data in
    let! rpc_id := dict_get "id" JNull item in
    let request_envelope :=
      match rpc_id with JNull => None | j => PyDict.get (py_str float_repr j) requests end in
    match request_envelope with
    | None => Raise (not_sent rpc_id response_envelope)
    | Some request =>
        let! _ := assert_correlation_binds (str_id request) response_envelope in
        Ret response_envelope
    end.

Fixpoint read_items (requests : list (string * Envelope)) (fresh : nat → Z * string) (n : nat) (items : list json) :
    res exn (list Envelope) :=
  match items with
  | [] => Ret []
  | item :: items' =>
      let! e := read_item requests (fst (fresh n)) (snd (fresh n)) item in
      let! es := read_items requests fresh (S n) items' in
      Ret (e :: es)
  end.

(** `raise_for_status` accepts the 2xx statuses. *)
Definition batch (fresh : nat → Z * string) (envelopes : list Envelope) (net : http_outcome) : res exn (list Envelope) :=
  match envelopes with
  | [] => Raise (value_error "envelopes list cannot be empty")
  | _ =>
      if k_websocket k then
        Raise (XOther "NotImplementedError" "batch is not supported with WebSocket transport.")
      else if negb (c_connected (k_client k)) then Raise (not_connected sanitize_url base_url)
      else
        match net with
        | HttpTimeout m => Raise (XOther "TimeoutException" m)
        | HttpConnectError m => Raise (XOther "ConnectError" m)
        | HttpRaises x => Raise x
        | HttpReply r =>
            if negb ((200 <=? hr_status r) && (hr_status r <? 300)) then
              Raise (XOther "HTTPStatusError" (PyStr.dec_Z (hr_status r)))
            else
              match hr_json r with
              | Raise e => Raise (XOther "JSONDecodeError" e)
              | Ret (JList results) => read_items (requests_by_id envelopes) fresh 0 results
              | Ret _ =>
                  match remote_rpc_error ClsRemoteRPCError (-32603)
                          ("Batch response is not an array from " ++ sanitize_url (base_url ++ "/asap")) [] false
                          "asap:rpc/remote_error" no_hints with
                  | Ret rpc => Raise (XRemote rpc)
                  | Raise e => Raise (of_pyexn e)
                  end
              end
        end
  end.
End Send.
