(* ===== verification/ClientFacts.v ===== *)
(** * Properties of the client's send path

    Bounded retries with one idempotency key, binding of responses, the outcomes
    a send reports to the circuit breaker, reassembly of event streams, and the
    gaps: replies that leave a half-open breaker without an outcome, failures
    that are not counted, batch replies that are incomplete. *)

From Stdlib Require Import ZArith QArith Lia Ascii String.
From stdpp Require Import base tactics list gmap strings.
From S2P Require Import Prelude PyValue Digest Identity ReplayGuard EnvelopeGuard CircuitBreaker Metrics Errors LambdaCodec Compression JsonRpc Handlers Signing Middleware Challenge ManifestCache RequestHandler Discovery Client.
Open Scope string_scope.
Open Scope Z_scope.
Open Scope asap_scope.

Create HintDb client.

Section Facts.
  Context {M : Type} `{PyRuntime, Pydantic, Codecs, Crypto M, ManifestModels M}.
  Variable sanitize_url : string → string.
  Variable json_loads_text : text → res string json.
  Variable validation_text : list json → string.
  Variable k : conf.

Abbreviation St := (@cstate M).
Abbreviation Act := (ST St signal).

(** ** What a computation of one attempt may do

    [mark] is what the next attempt's decision depends on: a computation leaves
    the trace alone, or sleeps once and asks for a retry, which it does not do on
    the last attempt; the breaker is told at most once of a failure, last. *)
Definition silent {X} (m : Act X) : Prop :=
  ∀ s, c_trace (fst (m s)) = c_trace s ∧ ∀ x, snd (m s) ≠ Raise (Retry x).

Definition quiet {X} (attempt : nat) (m : Act X) : Prop :=
  ∀ s, match snd (m s) with
       | Raise (Retry _) => last_attempt k attempt = false ∧ ∃ d, c_trace (fst (m s)) = (c_trace s ++ [Slept d])%list
       | _ => c_trace (fst (m s)) = c_trace s
       end.

Lemma silent_quiet {X} attempt (m : Act X) : silent m → quiet attempt m.
Proof.
  intros Hm s. destruct (Hm s) as [Ht Hn]. destruct (snd (m s)) as [[x|x]|]; [by destruct (Hn x)|done..].
Qed.

Lemma silent_bind {X Y} (m : Act X) (f : X → Act Y) : silent m → (∀ x, silent (f x)) → silent (st_bind m f).
Proof.
  intros Hm Hf s. unfold st_bind. destruct (Hm s) as [Ht Hn]. destruct (m s) as [s1 [e|x]]; cbn in *.
  - split; [done|]. intros x [= ->]. by apply (Hn x).
  - destruct (Hf x s1) as [Ht1 Hn1]. by rewrite Ht1.
Qed.

Lemma quiet_bind {X Y} attempt (m : Act X) (f : X → Act Y) :
  silent m → (∀ x, quiet attempt (f x)) → quiet attempt (st_bind m f).
Proof.
  intros Hm Hf s. unfold st_bind. destruct (Hm s) as [Ht Hn]. destruct (m s) as [s1 [[e|e]|x]]; cbn in *.
  - by destruct (Hn e).
  - done.
  - specialize (Hf x s1). by rewrite Ht in Hf.
Qed.

Lemma silent_modify (f : St → St) : (∀ s, c_trace (f s) = c_trace s) → silent (st_modify f).
Proof. intros Hf s. split; [apply Hf|done]. Qed.
Lemma silent_ret {X} (x : X) : silent (st_ret x : Act X).
Proof. by intros s. Qed.
Lemma silent_raise {X} x : silent (raise x : Act X).
Proof. by intros s. Qed.
Lemma silent_try {X} (r : res exn X) : silent (try_ r : Act X).
Proof. by destruct r. Qed.
Lemma silent_failure now : silent (record_failure now : Act unit).
Proof. by apply silent_modify. Qed.
Lemma silent_success : silent (record_success : Act unit).
Proof. by apply silent_modify. Qed.

Lemma quiet_sleep {X} attempt d x : last_attempt k attempt = false →
  quiet attempt (run! sleep d in (retry x : Act X)).
Proof. intros Hl s. cbn. split; [done|]. by exists d. Qed.

Hint Resolve silent_quiet silent_ret silent_raise silent_try silent_failure silent_success : client.

Ltac walk := repeat match goal with
  | |- silent (st_bind _ _) => apply silent_bind; [|intros ?]
  | |- quiet _ (st_bind (sleep _) _) => apply quiet_sleep
  | |- quiet _ (st_bind _ _) => apply quiet_bind; [|intros ?]
  | |- quiet _ (match ?x with _ => _ end) => destruct x eqn:?
  | |- silent (match ?x with _ => _ end) => destruct x eqn:?
  | |- _ => solve [eauto with client]
  end.

Lemma quiet_raise_remote {X} attempt code msg : quiet attempt (raise_remote code msg : Act X).
Proof. unfold raise_remote. walk. Qed.
Hint Resolve quiet_raise_remote : client.

Lemma quiet_rpc_error j attempt : quiet attempt (_handle_jsonrpc_error k j attempt : Act Envelope).
Proof. unfold _handle_jsonrpc_error. walk. all: reflect; done. Qed.
Hint Resolve quiet_rpc_error : client.

Lemma quiet_success t r env attempt :
  quiet attempt (_handle_success_response json_loads_text validation_text k t r env attempt : Act Envelope).
Proof.
  unfold _handle_success_response. walk.
Qed.

Lemma quiet_response t r env attempt :
  quiet attempt (_handle_send_response sanitize_url json_loads_text validation_text k t r env attempt : Act Envelope).
Proof.
  unfold _handle_send_response, _handle_server_error, _handle_rate_limited, _handle_client_error.
  walk; try (by reflect); apply quiet_success.
Qed.

Lemma quiet_catch {X} attempt t (m : Act X) : quiet attempt m → quiet attempt (catch_unexpected sanitize_url k t m).
Proof.
  intros Hm s. specialize (Hm s). unfold catch_unexpected. destruct (m s) as [s1 [[x|x]|a]]; cbn in *; [done| |done].
  by destruct (is_own_error x).
Qed.

Abbreviation once := (attempt_once sanitize_url json_loads_text validation_text k).

(** One attempt posts once, and sleeps before asking for another. *)
Lemma attempt_trace t env h b attempt (s : St) :
  match snd (once t env h b attempt s) with
  | Raise (Retry _) => last_attempt k attempt = false ∧
      ∃ d, c_trace (fst (once t env h b attempt s)) = (c_trace s ++ [Posted h b; Slept d])%list
  | _ => c_trace (fst (once t env h b attempt s)) = (c_trace s ++ [Posted h b])%list
  end.
Proof.
  unfold attempt_once. set (rest := match a_net t with HttpTimeout e => _ | _ => _ end).
  assert (Hq : quiet attempt rest).
  { subst rest. destruct (a_net t) as [e|e|x|r].
    - unfold _handle_send_transport_exception. walk; by reflect.
    - unfold _handle_send_transport_exception. walk; by reflect.
    - apply quiet_catch. auto with client.
    - apply quiet_bind; [by apply silent_modify|intros _]. apply quiet_bind.
      + unfold st_when. destruct (_ =? _); [by apply silent_modify|apply silent_ret].
      + intros _. apply quiet_catch, quiet_response. }
  unfold st_bind, st_when.
  destruct (0 <? attempt)%nat; cbn -[rest]; specialize (Hq (emit (Posted h b) s)) as Hq0.
  - match goal with |- context [rest ?x] => specialize (Hq x) end. cbn [c_trace emit on_cmetrics] in Hq.
    destruct (rest _) as [s1 [[x|x]|a]]; cbn in *; [|done..].
    destruct Hq as [Hl [d Hd]]. split; [done|]. exists d. by rewrite Hd, <- app_assoc.
  - clear Hq. rename Hq0 into Hq. cbn [c_trace emit] in Hq.
    destruct (rest _) as [s1 [[x|x]|a]]; cbn in *; [|done..].
    destruct Hq as [Hl [d Hd]]. split; [done|]. exists d. by rewrite Hd, <- app_assoc.
Qed.

(** A run of attempts with waits between them. *)
Definition rounds (h : list (string * string)) (b : bytes) (delays : list pyfloat) : list event :=
  Posted h b :: flat_map (λ d, [Slept d; Posted h b]) delays.

Lemma last_attempt_false attempt : last_attempt k attempt = false →
  Z.of_nat attempt + 1 < k_max_retries k.
Proof. unfold last_attempt. intros ?. reflect. lia. Qed.

Lemma loop_trace ticks env h b : ∀ turns attempt last (s : St),
  (turns + attempt)%nat = Z.to_nat (k_max_retries k) → (0 < turns)%nat →
  ∃ delays, c_trace (fst (attempt_loop sanitize_url json_loads_text validation_text k ticks env h b turns attempt last s))
    = (c_trace s ++ rounds h b delays)%list ∧ (length delays < turns)%nat.
Proof.
  induction turns as [|turns IH]; intros attempt last s Hsum Hpos; [lia|]. cbn [attempt_loop].
  pose proof (attempt_trace (ticks attempt) env h b attempt s) as Ht.
  destruct (once (ticks attempt) env h b attempt s) as [s1 [[x|x]|e]]; cbn [fst snd] in *.
  - destruct Ht as [Hl [d Hd]]. apply last_attempt_false in Hl.
    destruct (IH (S attempt) (Some x) s1) as (ds & Hds & Hlen); [lia|lia|].
    exists (d :: ds). split; [|cbn; lia]. rewrite Hds, Hd. unfold rounds. cbn. by rewrite <- !app_assoc.
  - exists []. split; [done|cbn; lia].
  - exists []. split; [done|cbn; lia].
Qed.

(** ** What the breaker is told *)
Abbreviation brk := (option CircuitBreaker.t).

Definition succ (b : brk) : brk := CircuitBreaker.record_success <$> b.
Definition fail (now : Z) (b : brk) : brk := CircuitBreaker.record_failure now <$> b.

Lemma succ_idem b : succ (succ b) = succ b.
Proof.
  destruct b as [[th ti st cf lf hp]|]; [|done]. cbn. f_equal. unfold CircuitBreaker.record_success. cbn.
  by destruct st.
Qed.

(** Nothing, or one success. *)
Definition mild (b b' : brk) : Prop := b' = b ∨ b' = succ b.

Lemma mild_trans b1 b2 b3 : mild b1 b2 → mild b2 b3 → mild b1 b3.
Proof. intros [-> | ->] [-> | ->]; rewrite ?succ_idem; unfold mild; auto. Qed.

Definition verdict {X} (b b' : brk) (r : res signal X) : Prop :=
  match r with
  | Ret _ => b' = succ b
  | Raise (Retry _) => mild b b'
  | Raise (Throw x) => mild b b' ∨ (is_own_error x = true ∧ ∃ b1 now, mild b b1 ∧ b' = fail now b1)
  end.

Definition tells {X} (m : Act X) : Prop := ∀ s, verdict (c_breaker s) (c_breaker (fst (m s))) (snd (m s)).
Definition calm {X} (m : Act X) : Prop :=
  ∀ s, c_breaker (fst (m s)) = c_breaker s ∧ ∀ x, snd (m s) ≠ Raise (Retry x).
(** A computation that never returns and tells nothing. *)
Definition mute {X} (m : Act X) : Prop :=
  ∀ s, c_breaker (fst (m s)) = c_breaker s ∧ ∀ a, snd (m s) ≠ Ret a.

Lemma tells_calm_bind {X Y} (m : Act X) (f : X → Act Y) : calm m → (∀ x, tells (f x)) → tells (st_bind m f).
Proof.
  intros Hm Hf s. unfold st_bind. destruct (Hm s) as [Hb Hn]. destruct (m s) as [s1 [[e|e]|x]]; cbn in *.
  - by destruct (Hn e).
  - left. by left.
  - specialize (Hf x s1). by rewrite Hb in Hf.
Qed.

Lemma mute_calm_bind {X Y} (m : Act X) (f : X → Act Y) : calm m → (∀ x, mute (f x)) → mute (st_bind m f).
Proof.
  intros Hm Hf s. unfold st_bind. destruct (Hm s) as [Hb Hn]. destruct (m s) as [s1 [e|x]]; cbn in *; [done|].
  destruct (Hf x s1) as [Hb1 Hn1]. by rewrite Hb1.
Qed.

Lemma tells_mute {X} (m : Act X) : mute m → tells m.
Proof.
  intros Hm s. destruct (Hm s) as [Hb Hn]. destruct (snd (m s)) as [[x|x]|a]; cbn; [by left|left; by left|by destruct (Hn a)].
Qed.

Lemma tells_success_mute {X} (m : Act X) : mute m → tells (run! record_success in m).
Proof.
  intros Hm s. cbn. set (s1 := on_breaker _ s).
  destruct (Hm s1) as [Hb Hn]. destruct (m s1) as [s2 [[x|x]|a]]; cbn in *.
  - right. by rewrite Hb.
  - left. right. by rewrite Hb.
  - by destruct (Hn a).
Qed.

Lemma tells_failure now x : is_own_error x = true → tells (run! record_failure now in (raise x : Act Envelope)).
Proof. intros Hx s. cbn. right. split; [done|]. exists (c_breaker s), now. split; [by left|done]. Qed.

Lemma calm_try {X} (r : res exn X) : calm (try_ r : Act X).
Proof. by destruct r. Qed.
Lemma calm_modify (f : St → St) : (∀ s, c_breaker (f s) = c_breaker s) → calm (st_modify f).
Proof. intros Hf s. split; [apply Hf|done]. Qed.
Lemma mute_raise {X} x : mute (raise x : Act X).
Proof. by intros s. Qed.
Lemma mute_retry {X} d x : mute (run! sleep d in (retry x : Act X)).
Proof. by intros s. Qed.
Lemma mute_raise_remote {X} code msg : mute (raise_remote code msg : Act X).
Proof. unfold raise_remote. apply mute_calm_bind; [apply calm_try|intros ?; apply mute_raise]. Qed.

Lemma own_connection m c u : is_own_error (connection_error m c u) = true.
Proof. reflexivity. Qed.
Lemma own_timeout m t : is_own_error (timeout_error m t) = true.
Proof. reflexivity. Qed.

Hint Resolve tells_mute tells_failure calm_try mute_raise mute_retry mute_raise_remote own_connection own_timeout : client.

Ltac listen := repeat match goal with
  | |- tells (st_bind record_success _) => apply tells_success_mute
  | |- mute (st_bind (sleep _) _) => apply mute_retry
  | |- tells (st_bind (record_failure _) _) => apply tells_failure
  | |- tells (st_bind (sleep _) _) => apply tells_mute
  | |- tells (st_bind _ _) => apply tells_calm_bind; [|intros ?]
  | |- mute (st_bind _ _) => apply mute_calm_bind; [|intros ?]
  | |- tells (match ?x with _ => _ end) => destruct x eqn:?
  | |- mute (match ?x with _ => _ end) => destruct x eqn:?
  | |- _ => solve [eauto with client]
  end.

Lemma tells_rpc_error j attempt : tells (_handle_jsonrpc_error k j attempt : Act Envelope).
Proof. unfold _handle_jsonrpc_error. listen. Qed.

Lemma tells_accept (f : St → St) (e : Envelope) : (∀ s, c_breaker (f s) = c_breaker s) →
  tells (run! record_success in run! st_modify f in st_ret e).
Proof. intros Hf s. cbn. by rewrite Hf. Qed.

Lemma tells_success t r env attempt :
  tells (_handle_success_response json_loads_text validation_text k t r env attempt : Act Envelope).
Proof.
  unfold _handle_success_response. destruct (read_reply _ r); [eauto with client|].
  apply tells_calm_bind; [apply calm_try|intros [] ]; [apply tells_rpc_error|].
  do 2 (apply tells_calm_bind; [apply calm_try|intros ?]).
  destruct (negb _); [eauto with client|].
  do 2 (apply tells_calm_bind; [apply calm_try|intros ?]). by apply tells_accept.
Qed.

Lemma tells_response t r env attempt :
  tells (_handle_send_response sanitize_url json_loads_text validation_text k t r env attempt : Act Envelope).
Proof.
  unfold _handle_send_response, _handle_server_error, _handle_rate_limited, _handle_client_error.
  listen. apply tells_success.
Qed.

Lemma tells_catch {X} t (m : Act X) : tells m → tells (catch_unexpected sanitize_url k t m).
Proof.
  intros Hm s. specialize (Hm s). unfold catch_unexpected. destruct (m s) as [s1 [[x|x]|a]]; cbn in *; [done| |done].
  destruct (is_own_error x) eqn:Ex; cbn; [by rewrite Ex in *|].
  destruct Hm as [Hm|[? _]]; [|done]. right. split; [done|]. by exists (c_breaker s1), (a_now t).
Qed.

Lemma tells_once t env h b attempt : tells (once t env h b attempt : Act Envelope).
Proof.
  unfold attempt_once. apply tells_calm_bind.
  { unfold st_when. destruct (_ <? _)%nat; [by apply calm_modify|by intros s]. }
  intros _. apply tells_calm_bind; [by apply calm_modify|intros _]. destruct (a_net t) as [e|e|x|r].
  - unfold _handle_send_transport_exception. listen.
  - unfold _handle_send_transport_exception. listen.
  - apply tells_catch. eauto with client.
  - apply tells_calm_bind; [by apply calm_modify|intros _]. apply tells_calm_bind.
    + unfold st_when. destruct (_ =? _); [by apply calm_modify|by intros s].
    + intros _. apply tells_catch, tells_response.
Qed.

Lemma loop_tells ticks env h b : ∀ turns attempt last (s : St),
  (0 < turns)%nat → (turns + attempt)%nat = Z.to_nat (k_max_retries k) →
  let '(s', r) := attempt_loop sanitize_url json_loads_text validation_text k ticks env h b turns attempt last s in
  match r with
  | Ret _ => c_breaker s' = succ (c_breaker s)
  | Raise x => mild (c_breaker s) (c_breaker s')
      ∨ ∃ b1 now, mild (c_breaker s) b1 ∧ c_breaker s' = fail now b1
  end.
Proof.
  induction turns as [|turns IH]; intros attempt last s Hpos Hsum; [lia|]. cbn [attempt_loop].
  pose proof (tells_once (ticks attempt) env h b attempt s) as Ht.
  pose proof (attempt_trace (ticks attempt) env h b attempt s) as Htr.
  destruct (once (ticks attempt) env h b attempt s) as [s1 [[x|x]|e]]; cbn [fst snd verdict] in *;
    [|destruct Ht as [Ht|[_ Ht]]; [by left|by right]|done].
  destruct Htr as [Hl _]. apply last_attempt_false in Hl.
  specialize (IH (S attempt) (Some x) s1 ltac:(lia) ltac:(lia)).
  destruct (attempt_loop _ _ _ _ _ _ _ _ turns _ _ s1) as [s2 [y|e]].
  - destruct IH as [IH|(b1 & now & Hb1 & IH)]; [left; by eapply mild_trans|].
    right. exists b1, now. split; [by eapply mild_trans|done].
  - rewrite IH. destruct Ht as [-> | ->]; [done|apply succ_idem].
Qed.

(** ** What a send returns *)
Definition bound (env e : Envelope) : Prop :=
  _normalize_payload_type (e_payload_type e) ∈ RESPONSE_PAYLOAD_KEYS → e_correlation_id e = Some (str_id env).

Lemma binds_keys id e keys : _assert_correlation_binds id e keys = Ret tt →
  _normalize_payload_type (e_payload_type e) ∈ keys → e_correlation_id e = Some id.
Proof.
  unfold _assert_correlation_binds. intros Ha Hin. rewrite (proj2 (str_in_true _ _) Hin) in Ha. cbn [negb] in Ha.
  by case_bool_decide.
Qed.

Definition yields {X} (Q : X → Prop) (m : Act X) : Prop := ∀ s a, snd (m s) = Ret a → Q a.

Lemma yields_bind {X Y} (Q : Y → Prop) (m : Act X) (f : X → Act Y) :
  (∀ s x, snd (m s) = Ret x → yields Q (f x)) → yields Q (st_bind m f).
Proof.
  intros Hf s a. unfold st_bind. specialize (Hf s). destruct (m s) as [s1 [e|x]]; [done|]. by apply (Hf x).
Qed.

Lemma yields_never {X} (Q : X → Prop) (m : Act X) : (∀ s a, snd (m s) ≠ Ret a) → yields Q m.
Proof. intros Hm s a ?. by destruct (Hm s a). Qed.

Lemma yields_mute {X} (Q : X → Prop) (m : Act X) : mute m → yields Q m.
Proof. intros Hm. apply yields_never. intros s. apply Hm. Qed.

Lemma yields_success t r env attempt :
  yields (bound env) (_handle_success_response json_loads_text validation_text k t r env attempt : Act Envelope).
Proof.
  unfold _handle_success_response. destruct (read_reply _ r) as [|j]; [apply yields_mute, mute_raise_remote|].
  apply yields_bind. intros _ [] _.
  { apply yields_never. intros s a. unfold _handle_jsonrpc_error, st_bind, record_success, st_modify.
    unfold try_, st_lift. destruct (match _ with JObj d => _ | _ => _ end); [done|].
    destruct (read_error _ _); [done|]. destruct (x_retry_after_ms _); [|done]. by destruct (_ && _). }
  do 2 (apply yields_bind; intros ? ? ?). destruct (negb _); [apply yields_mute, mute_raise_remote|].
  apply yields_bind. intros _ e _. apply yields_bind. intros sa [] Ha.
  assert (Hb : bound env e).
  { unfold try_, st_lift in Ha. cbn in Ha. unfold bound. apply binds_keys.
    destruct (assert_correlation_binds (str_id env) e) as [|[]] eqn:E; [done|exact E]. }
  intros sb a. cbn. by intros [= <-].
Qed.

Lemma yields_once t env h b attempt : yields (bound env) (once t env h b attempt : Act Envelope).
Proof.
  unfold attempt_once. apply yields_bind. intros _ _ _. apply yields_bind. intros _ _ _.
  destruct (a_net t) as [e|e|x|r].
  - apply yields_never. intros s a. unfold _handle_send_transport_exception. by destruct (negb _).
  - apply yields_never. intros s a. unfold _handle_send_transport_exception. by destruct (negb _).
  - apply yields_never. intros s a. unfold catch_unexpected. cbn. by destruct (is_own_error x).
  - apply yields_bind. intros _ _ _. apply yields_bind. intros _ _ _. intros s a.
    assert (Hr : yields (bound env)
      (_handle_send_response sanitize_url json_loads_text validation_text k t r env attempt : Act Envelope)).
    { unfold _handle_send_response. repeat case_match; [..|apply yields_success]; apply yields_never; intros s1 a1.
      - unfold _handle_server_error. by destruct (negb _).
      - unfold _handle_rate_limited. destruct (last_attempt _ _); [done|].
        unfold st_bind, try_, st_lift. by destruct (lift_py _).
      - done. }
    specialize (Hr s). unfold catch_unexpected.
    destruct (_handle_send_response _ _ _ _ _ _ _ _ s) as [s1 [[y|y]|y]]; [done| |apply Hr].
    by destruct (is_own_error y).
Qed.

Lemma loop_yields ticks env h b : ∀ turns attempt last (s s' : St) e,
  attempt_loop sanitize_url json_loads_text validation_text k ticks env h b turns attempt last s = (s', Ret e) →
  bound env e.
Proof.
  induction turns as [|turns IH]; intros attempt last s s' e; cbn [attempt_loop]; [by destruct last|].
  pose proof (yields_once (ticks attempt) env h b attempt s) as Hy.
  destruct (once (ticks attempt) env h b attempt s) as [s1 [[x|x]|y]]; [apply IH|done|].
  intros [= <- <-]. by apply Hy.
Qed.

(** ** The whole operation *)
Abbreviation send := (send sanitize_url json_loads_text validation_text k).

(** The breaker after the gate let a send through. *)
Definition gated (now : Z) (b : brk) : brk := (λ b, fst (CircuitBreaker.can_attempt now b)) <$> b.
Definition refused (now : Z) (b : brk) : bool :=
  match b with Some b => negb (snd (CircuitBreaker.can_attempt now b)) | None => false end.

Lemma gate_spec now (s : St) :
  let '(s', x) := breaker_gate sanitize_url k now s in
  c_breaker s' = gated now (c_breaker s) ∧ c_trace s' = c_trace s ∧ c_metrics s' = c_metrics s
  ∧ is_some x = refused now (c_breaker s).
Proof.
  unfold breaker_gate, gated, refused. destruct s as [[b|] m c v d n t]; cbn; [|done].
  by destruct (CircuitBreaker.can_attempt now b) as [b' []].
Qed.

Lemma send_cases now key ticks ws env (s : St) :
  c_connected (k_client k) = true → k_websocket k = false →
  (refused now (c_breaker s) = true ∧ ∃ s' x, send now key ticks ws env s = (s', Raise x)
     ∧ c_breaker s' = gated now (c_breaker s) ∧ c_trace s' = c_trace s ∧ c_metrics s' = c_metrics s)
  ∨ (refused now (c_breaker s) = false ∧ ∃ s0 h b, assoc "X-Idempotency-Key" h = Some key
     ∧ c_breaker s0 = gated now (c_breaker s) ∧ c_trace s0 = c_trace s ∧ c_metrics s0 = c_metrics s
     ∧ send now key ticks ws env s
       = attempt_loop sanitize_url json_loads_text validation_text k ticks env h b (Z.to_nat (k_max_retries k)) 0 None s0).
Proof.
  intros Hc Hw. unfold Client.send. rewrite Hc, Hw. cbn [negb andb].
  pose proof (gate_spec now s) as Hg. destruct (breaker_gate _ _ now s) as [s1 [x|]]; destruct Hg as (Hb & Ht & Hm & Hr); cbn in Hr.
  - left. split; [done|]. by exists s1, x.
  - right. split; [done|]. destruct (_compress_request_body _ _) as [body enc].
    exists (count_request s1), (_build_send_headers k key enc), body. split_and!; done.
Qed.

(** A reply that cannot be read ends the send at once, with nothing told. *)
Lemma unreadable_once t env h b r e (s : St) :
  a_net t = HttpReply r → hr_status r < 400 → read_reply json_loads_text r = Raise e →
  ∃ s' x, once t env h b 0 s = (s', Raise (Throw x)) ∧ c_breaker s' = c_breaker s
    ∧ c_trace s' = (c_trace s ++ [Posted h b])%list.
Proof.
  intros Hn Hs Hr. unfold attempt_once, st_bind at 1. cbn [Nat.ltb Nat.leb st_when st_ret].
  unfold st_bind at 1. cbn [st_modify]. rewrite Hn. unfold st_bind at 1. cbn [st_modify].
  unfold st_bind at 1. unfold st_when. rewrite (proj2 (Z.eqb_neq _ 401)) by lia. cbn [st_ret].
  unfold catch_unexpected, _handle_send_response. rewrite !(proj2 (Z.leb_gt _ _)) by lia.
  rewrite (proj2 (Z.eqb_neq _ 429)) by lia. unfold _handle_success_response. rewrite Hr.
  unfold raise_remote, st_bind, try_, st_lift.
  change (remote_error (-32700) ("Invalid response: " ++ e) None)
    with (Ret (E := exn) (mkRemote (mkError ClsRemoteRPCError "asap:rpc/remote_error" RPC_REMOTE_GENERIC
            ("Invalid response: " ++ e) [] None None None) (-32700) false)).
  cbn. by eexists _, _.
Qed.

(** A half-open breaker whose permit is taken stays so under refusals. *)
Definition wedged (b : brk) : Prop :=
  ∃ b0, b = Some b0 ∧ CircuitBreaker.state b0 = HALF_OPEN ∧ CircuitBreaker.half_open_permit b0 = false.

Lemma wedged_refuses now b : wedged b → refused now b = true ∧ wedged (gated now b).
Proof.
  intros (b0 & -> & Hs & Hp). cbn.
  assert (CircuitBreaker.can_attempt now b0 = (b0, false)) as ->.
  { unfold CircuitBreaker.can_attempt. rewrite bool_decide_false by congruence. rewrite Hs. by rewrite Hp. }
  split; [done|]. by exists b0.
Qed.

Lemma probe_takes_permit now b t0 :
  CircuitBreaker.state b = OPEN → CircuitBreaker.last_failure_time b = Some t0 →
  CircuitBreaker.timeout b <= now - t0 →
  refused now (Some b) = false ∧ wedged (gated now (Some b)).
Proof.
  intros Hs Ht Hl. cbn. unfold CircuitBreaker.can_attempt. rewrite bool_decide_true by done. rewrite Ht.
  rewrite (proj2 (Z.leb_le _ _) Hl). cbn. split; [done|]. by eexists.
Qed.

(** A timeout on every attempt: only the retries are counted. *)
Lemma timeouts_metrics ticks env h b : (∀ i, ∃ e, a_net (ticks i) = HttpTimeout e) →
  ∀ turns attempt last (s : St), (0 < turns)%nat → (turns + attempt)%nat = Z.to_nat (k_max_retries k) →
  c_metrics (fst (attempt_loop sanitize_url json_loads_text validation_text k ticks env h b turns attempt last s))
  = Nat.iter (if (0 <? attempt)%nat then turns else pred turns)
      (MetricsCollector.increment_counter "asap_transport_retries_total" [] 1) (c_metrics s).
Proof.
  intros Hall. induction turns as [|turns IH]; intros attempt last s Hpos Hsum; [lia|]. cbn [attempt_loop].
  destruct (Hall attempt) as [e He].
  set (s0 := if (0 <? attempt)%nat
             then on_cmetrics (MetricsCollector.increment_counter "asap_transport_retries_total" [] 1) s else s).
  assert (Ho : once (ticks attempt) env h b attempt s
    = _handle_send_transport_exception k (ticks attempt) true e attempt (emit (Posted h b) s0)).
  { unfold attempt_once, st_bind, st_when. rewrite He. subst s0. by destruct (0 <? attempt)%nat. }
  rewrite Ho. unfold _handle_send_transport_exception. destruct (last_attempt k attempt) eqn:Hl; cbn [negb].
  - unfold last_attempt in Hl. assert (turns = 0)%nat as -> by (reflect; lia). subst s0. by destruct attempt.
  - apply last_attempt_false in Hl. cbn [st_bind sleep retry st_modify st_stop].
    rewrite IH by lia. subst s0. destruct attempt as [|attempt]; [done|].
    change (0 <? S (S attempt))%nat with true. change (0 <? S attempt)%nat with true.
    cbn [c_metrics emit on_cmetrics]. by rewrite Nat.iter_succ_r.
Qed.

(** ** Claims *)

(** C18: A send over HTTP makes at most `max_retries` requests and then ends:
    either it is refused (by the breaker, or because no attempt is allowed)
    without any request, or it posts, waits and posts again, every time the same
    body under the same headers with one idempotency key, and with fewer waits
    than allowed attempts. *)
Theorem send_retries_are_bounded now key ticks ws env (s : St) :
  c_connected (k_client k) = true → k_websocket k = false →
  let '(s', r) := send now key ticks ws env s in
  (c_trace s' = c_trace s ∧ (refused now (c_breaker s) = true ∨ k_max_retries k <= 0) ∧ ∃ x, r = Raise x)
  ∨ ∃ h b delays, c_trace s' = (c_trace s ++ rounds h b delays)%list
      ∧ Z.of_nat (length delays) < k_max_retries k
      ∧ assoc "X-Idempotency-Key" h = Some key.
Proof.
  intros Hc Hw. destruct (send_cases now key ticks ws env s Hc Hw)
    as [(Hr & s1 & x & -> & _ & Ht & _)|(Hr & s0 & h & b & Hk & _ & Ht & _ & ->)].
  - left. split; [done|]. split; [by left|by exists x].
  - destruct (decide (0 < k_max_retries k)) as [Hp|Hp].
    + destruct (loop_trace ticks env h b (Z.to_nat (k_max_retries k)) 0 None s0) as (ds & Hds & Hlen); [lia|lia|].
      destruct (attempt_loop _ _ _ _ _ _ _ _ _ _ _ s0) as [s' r]. right. exists h, b, ds. cbn in Hds.
      rewrite Hds, Ht. split; [done|]. split; [lia|done].
    + replace (Z.to_nat (k_max_retries k)) with 0%nat by lia. cbn. left. split; [done|].
      split; [right; lia|by eexists].
Qed.


(** Any number of sends, one after another. *)
Definition call : Type := Z * string * (nat → tick) * (brk → brk * ws_outcome) * Envelope.
Fixpoint sends (l : list call) (s : St) : St * list (res exn Envelope) :=
  match l with
  | [] => (s, [])
  | (now, key, ticks, ws, env) :: l' =>
      let '(s1, r) := send now key ticks ws env s in
      let '(s2, rs) := sends l' s1 in (s2, r :: rs)
  end.

Lemma wedged_sends l : ∀ s : St, c_connected (k_client k) = true → k_websocket k = false → wedged (c_breaker s) →
  c_trace (fst (sends l s)) = c_trace s ∧ Forall (λ r, ∃ x, r = Raise x) (snd (sends l s)).
Proof.
  induction l as [|[[[[now key] ticks] ws] env] l IH]; intros s Hc Hw Hs; [by split|]. cbn [sends].
  destruct (wedged_refuses now _ Hs) as [Hr Hg].
  destruct (send_cases now key ticks ws env s Hc Hw) as [(_ & s1 & x & -> & Hb & Ht & _)|(Hr' & _)]; [|congruence].
  rewrite <- Hb in Hg. destruct (IH s1 Hc Hw Hg) as [Ht1 Hf]. destruct (sends l s1) as [s2 rs]. cbn in *.
  split; [congruence|]. constructor; [by exists x|done].
Qed.

(** A reply the client cannot read wedges the breaker.  If the one probe an
    open breaker lets through after its timeout is answered with a success
    status and a body that is not JSON, neither a success nor a failure is
    recorded: the breaker stays half open with its permit taken, and every later
    send, at whatever time, is refused without a request. *)
Theorem unreadable_probe_wedges_breaker now key ticks ws env (s : St) b t0 r e (later : list call) :
  c_connected (k_client k) = true → k_websocket k = false → 0 < k_max_retries k →
  c_breaker s = Some b → CircuitBreaker.state b = OPEN → CircuitBreaker.last_failure_time b = Some t0 →
  CircuitBreaker.timeout b <= now - t0 →
  a_net (ticks 0%nat) = HttpReply r → hr_status r < 400 → read_reply json_loads_text r = Raise e →
  let s1 := fst (send now key ticks ws env s) in
  c_trace (fst (sends later s1)) = c_trace s1 ∧ Forall (λ x, ∃ err, x = Raise err) (snd (sends later s1)).
Proof.
  intros Hc Hw Hp Hb Hs Ht Hl Hn Hst Hr s1. apply wedged_sends; [done|done|].
  destruct (probe_takes_permit now b t0 Hs Ht Hl) as [Href Hwg].
  destruct (send_cases now key ticks ws env s Hc Hw) as [(Hr' & _)|(_ & s0 & h & body & _ & Hb0 & _ & _ & Heq)];
    [rewrite Hb in Hr'; congruence|].
  unfold s1. rewrite Heq. destruct (Z.to_nat (k_max_retries k)) as [|n] eqn:En; [lia|]. cbn [attempt_loop].
  destruct (unreadable_once (ticks 0%nat) env h body r e s0 Hn Hst Hr) as (s2 & x & -> & Hb2 & _). cbn [fst].
  by rewrite Hb2, Hb0, Hb.
Qed.

(** Failed sends are not counted.  A send whose every attempt times out
    leaves the metrics as they were except for its retries: neither
    `asap_transport_send_total` nor `asap_transport_send_errors_total` nor the
    duration histogram learns of it. *)
Theorem timed_out_send_is_not_counted now key ticks ws env (s : St) :
  c_connected (k_client k) = true → k_websocket k = false → refused now (c_breaker s) = false →
  0 < k_max_retries k → (∀ i, ∃ e, a_net (ticks i) = HttpTimeout e) →
  c_metrics (fst (send now key ticks ws env s))
  = Nat.iter (pred (Z.to_nat (k_max_retries k)))
      (MetricsCollector.increment_counter "asap_transport_retries_total" [] 1) (c_metrics s).
Proof.
  intros Hc Hw Hr Hp Hall. destruct (send_cases now key ticks ws env s Hc Hw)
    as [(Hr' & _)|(_ & s0 & h & body & _ & _ & _ & Hm & ->)]; [congruence|].
  rewrite (timeouts_metrics ticks env h body Hall) by lia. by rewrite Hm.
Qed.
End Facts.

(** ** Event streams *)
Section StreamFacts.
  Context `{PyRuntime, Pydantic}.
  Variable json_loads_text : text → res string json.
  Variable validation_text : list json → string.
  Variable request_id : string.
  Variable fresh : nat → Z * string.

Abbreviation drain := (drain json_loads_text validation_text request_id fresh).
Abbreviation consume := (consume json_loads_text validation_text request_id fresh).
Abbreviation read_lines := (read_lines json_loads_text validation_text request_id fresh).

Lemma split_event_cons c1 c2 r : split_event (String c1 (String c2 r)) =
  if (PyStr.code c1 =? 10)%nat && (PyStr.code c2 =? 10)%nat then Some ("", r)
  else (λ er, (String c1 (fst er), snd er)) <$> split_event (String c2 r).
Proof. reflexivity. Qed.

Lemma split_event_app a c e r : split_event a = Some (e, r) → split_event (a ++ c) = Some (e, r ++ c).
Proof.
  revert e. induction a as [|c1 a IH]; intros e; [done|]. destruct a as [|c2 a]; [done|].
  change (String c1 (String c2 a) ++ c) with (String c1 (String c2 (a ++ c))).
  rewrite !split_event_cons. destruct (_ && _); [by intros [= <- <-]|].
  change (String c2 (a ++ c)) with (String c2 a ++ c).
  destruct (split_event (String c2 a)) as [[e' r']|]; [|done]. cbn [fmap option_fmap option_map fst snd].
  intros [= <- ->]. by rewrite (IH e' eq_refl).
Qed.

Lemma split_event_shorter a e r : split_event a = Some (e, r) → (String.length r < String.length a)%nat.
Proof.
  revert e. induction a as [|c1 a IH]; intros e; [done|]. destruct a as [|c2 a]; [done|].
  rewrite split_event_cons. destruct (_ && _); [intros [= _ <-]; cbn; lia|].
  destruct (split_event (String c2 a)) as [[e' r']|]; [|done]. cbn [fmap option_fmap option_map fst snd].
  intros [= _ ->]. specialize (IH e' eq_refl). cbn in *. lia.
Qed.

Lemma drain_fuel f1 : ∀ f2 n b, (String.length b <= f1)%nat → (String.length b <= f2)%nat → drain f1 n b = drain f2 n b.
Proof.
  induction f1 as [|f1 IH]; intros f2 n b H1 H2.
  - destruct b; [|cbn in H1; lia]. by destruct f2.
  - destruct f2 as [|f2]; [destruct b; [done|cbn in H2; lia]|]. cbn [Client.drain].
    destruct (split_event b) as [[e r]|] eqn:E; [|done]. apply split_event_shorter in E.
    destruct (read_lines n _) as [es [x|n']]; [done|]. rewrite (IH f2) by lia. done.
Qed.

(** The whole buffer, with fuel enough. *)
Definition drained (n : nat) (b : string) := drain (String.length b) n b.

Lemma drained_step n b : drained n b =
  match split_event b with
  | None => ([], Ret (n, b))
  | Some (e, rest) =>
      match read_lines n (PyStr.split newline_char e) with
      | (es, Raise x) => (es, Raise x)
      | (es, Ret n') => let '(es', r) := drained n' rest in ((es ++ es')%list, r)
      end
  end.
Proof.
  unfold drained. rewrite (drain_fuel _ (S (String.length b))) by lia. cbn [Client.drain].
  destruct (split_event b) as [[e r]|] eqn:E; [|done]. apply split_event_shorter in E.
  destruct (read_lines n _) as [es [x|n']]; [done|]. by rewrite (drain_fuel _ (String.length r)) by lia.
Qed.

Lemma drained_app c : ∀ m a n, (String.length a <= m)%nat →
  drained n (a ++ c) = match drained n a with
                       | (es, Raise x) => (es, Raise x)
                       | (es, Ret (n', rest)) => let '(es', r) := drained n' (rest ++ c) in ((es ++ es')%list, r)
                       end.
Proof.
  induction m as [|m IH]; intros a n Hm; rewrite (drained_step n a).
  - destruct a; [|cbn in Hm; lia]. cbn [split_event]. by destruct (drained n ("" ++ c)).
  - destruct (split_event a) as [[e r]|] eqn:E; [|by destruct (drained n (a ++ c))].
    pose proof (split_event_shorter _ _ _ E) as Hl.
    rewrite (drained_step n (a ++ c)), (split_event_app _ _ _ _ E).
    destruct (read_lines n _) as [es [x|n']]; [done|]. rewrite IH by lia.
    destruct (drained n' r) as [es1 [x|[n2 rest]]]; [done|].
    destruct (drained n2 (rest ++ c)) as [es2 r2]. by rewrite app_assoc.
Qed.

Lemma drained_rest : ∀ m b n es n' rest, (String.length b <= m)%nat →
  drained n b = (es, Ret (n', rest)) → split_event rest = None.
Proof.
  induction m as [|m IH]; intros b n es n' rest Hm; rewrite drained_step.
  - destruct b; [|cbn in Hm; lia]. by intros [= <- <- <-].
  - destruct (split_event b) as [[e r]|] eqn:E; [|intros [= <- <- <-]; done].
    apply split_event_shorter in E. destruct (read_lines n _) as [es1 [x|n1]]; [done|].
    destruct (drained n1 r) as [es2 r2] eqn:Ed. intros [= <- ->]. eapply IH; [|exact Ed]. lia.
Qed.

Definition concat_text (chunks : list string) : string := fold_right String.append "" chunks.

(** Reassembly: what comes in chunks is read as what comes at once. *)
Lemma consume_concat chunks : ∀ n b, split_event b = None →
  consume n b chunks = drained n (b ++ concat_text chunks).
Proof.
  induction chunks as [|ch chunks IH]; intros n b Hb; cbn [Client.consume concat_text fold_right].
  - rewrite append_nil, drained_step. by rewrite Hb.
  - change (drain (String.length (b ++ ch)) n (b ++ ch)) with (drained n (b ++ ch)).
    fold (concat_text chunks). rewrite <- append_assoc.
    rewrite (drained_app (concat_text chunks) (String.length (b ++ ch)) (b ++ ch) n) by lia.
    destruct (drained n (b ++ ch)) as [es [x|[n' rest]]] eqn:Ed; [done|].
    rewrite IH; [done|]. by eapply drained_rest.
Qed.

Definition stream_bound (e : Envelope) : Prop :=
  _normalize_payload_type (e_payload_type e) ∈ STREAM_BOUND_PAYLOAD_KEYS → e_correlation_id e = Some request_id.

Lemma read_lines_bound lines : ∀ n, Forall stream_bound (fst (read_lines n lines)).
Proof.
  induction lines as [|line lines IH]; intros n; cbn [Client.read_lines]; [constructor|].
  destruct (data_of line) as [js|]; [|apply IH].
  destruct (read_event _ _ _ _ n js) as [|e] eqn:E; [constructor|].
  specialize (IH (S n)). destruct (read_lines (S n) lines) as [es r]. constructor; [|done].
  revert E. unfold read_event. destruct (json_loads_text (lit js)) as [|j]; [done|].
  destruct (validate_envelope _ _ _ j) as [|e']; cbn [rbind]; [done|].
  destruct (assert_stream_correlation_binds request_id e') as [|[]] eqn:Ea; cbn; [done|]. intros [= ->].
  unfold stream_bound. by apply binds_keys.
Qed.

Lemma drain_bound f : ∀ n b, Forall stream_bound (fst (drain f n b)).
Proof.
  induction f as [|f IH]; intros n b; cbn [Client.drain]; [constructor|].
  destruct (split_event b) as [[e r]|]; [|constructor].
  pose proof (read_lines_bound (PyStr.split newline_char e) n) as Hl.
  destruct (read_lines n _) as [es [x|n']]; [done|]. specialize (IH n' r).
  destruct (drain f n' r) as [es' r']. by apply Forall_app.
Qed.
End StreamFacts.

(** Streams are reassembled independently of how the network cuts them: two
    deliveries of the same text, in whatever chunks, yield the same envelopes and
    end the same way; and every yielded response or stream chunk carries the id
    of the request that opened the stream. *)
Theorem stream_ignores_chunking `{PyRuntime, Pydantic} (json_loads_text : text → res string json)
    (validation_text : list json → string) (request_id : string) (fresh : nat → Z * string)
    (chunks chunks' : list string) :
  concat_text chunks = concat_text chunks' →
  consume json_loads_text validation_text request_id fresh 0 "" chunks
  = consume json_loads_text validation_text request_id fresh 0 "" chunks'
  ∧ Forall (stream_bound request_id) (fst (consume json_loads_text validation_text request_id fresh 0 "" chunks)).
Proof.
  intros Heq. rewrite !consume_concat by done. rewrite Heq. split; [done|]. apply drain_bound.
Qed.

(** ** Batches *)
Section BatchFacts.
  Context `{PyRuntime, Pydantic}.
  Variable sanitize_url : string → string.
  Variable validation_text : list json → string.
  Variable k : conf.

Lemma requests_by_id_elem envs id e : PyDict.get id (requests_by_id envs) = Some e → e ∈ envs ∧ str_id e = id.
Proof.
  unfold requests_by_id. induction envs as [|x envs IH] using rev_ind; [done|].
  rewrite fold_left_app. cbn. destruct (decide (id = str_id x)) as [-> | Hne].
  - rewrite PyDict.get_set_eq. intros [= ->]. split; [apply elem_of_app; right; by apply list_elem_of_singleton|done].
  - rewrite PyDict.get_set_ne by done. intros He. destruct (IH He). split; [apply elem_of_app; by left|done].
Qed.

Lemma read_item_bound envs now fresh item e :
  read_item validation_text (requests_by_id envs) now fresh item = Ret e →
  ∃ req d, req ∈ envs ∧ item = JObj d ∧ py_str float_repr (j_get "id" d) = str_id req ∧ bound req e.
Proof.
  unfold read_item. destruct (lift_py (py_in (JStr "error") item)) as [|[]]; cbn [rbind]; [done| |].
  { destruct (match item with JObj d => _ | _ => _ end); cbn [rbind]; [done|]. by destruct (read_error _ _). }
  destruct item as [| | | | | |d]; try done. cbn [dict_get rbind].
  destruct (dict_get "envelope" _ _) as [|env_data]; cbn [rbind]; [done|].
  destruct (validate_envelope _ _ _ env_data) as [|e']; cbn [rbind]; [done|].
  change (default JNull (assoc "id" d)) with (j_get "id" d).
  destruct (match j_get "id" d with JNull => None | _ => _ end) as [req|] eqn:Er; [|done].
  assert (Hreq : PyDict.get (py_str float_repr (j_get "id" d)) (requests_by_id envs) = Some req)
    by (by destruct (j_get "id" d)).
  destruct (assert_correlation_binds (str_id req) e') as [|[]] eqn:Ea; cbn [rbind]; [done|]. intros [= <-].
  apply requests_by_id_elem in Hreq as [Hin Hid]. exists req, d. split_and!; [done|done|done|]. unfold bound. by apply binds_keys.
Qed.

Lemma read_items_bound envs fresh items : ∀ n es,
  read_items validation_text (requests_by_id envs) fresh n items = Ret es →
  length es = length items ∧ Forall (λ e, ∃ req, req ∈ envs ∧ bound req e) es.
Proof.
  induction items as [|item items IH]; intros n es; cbn [read_items]; [by intros [= <-]|].
  destruct (read_item _ _ _ _ item) as [|e] eqn:E; cbn [rbind]; [done|].
  destruct (read_items _ _ _ (S n) items) as [|es'] eqn:Es; cbn [rbind]; [done|]. intros [= <-].
  destruct (IH _ _ Es) as [Hl Hf]. split; [cbn; by f_equal|]. constructor; [|done].
  apply read_item_bound in E as (req & d & Hin & _ & _ & Hb). by exists req.
Qed.
End BatchFacts.

(** Every envelope `batch` returns answers one of the requests of the batch,
    which a response payload proves by its correlation id; an item that names no
    request of the batch makes the whole call raise. *)
Theorem batch_answers_are_bound `{PyRuntime, Pydantic} (sanitize_url : string → string)
    (validation_text : list json → string) (k : conf) (fresh : nat → Z * string) (envs : list Envelope)
    (net : http_outcome) (es : list Envelope) :
  batch sanitize_url validation_text k fresh envs net = Ret es →
  envs ≠ [] ∧ Forall (λ e, ∃ req, req ∈ envs ∧ bound req e) es.
Proof.
  unfold batch. destruct envs as [|env envs]; [done|]. destruct (k_websocket k); [done|].
  destruct (c_connected (k_client k)); cbn [negb]; [|done]. destruct net as [| | |r]; try done.
  destruct (negb _); [done|]. destruct (hr_json r) as [|[| | | | |items|]]; try done.
  intros Hi. split; [done|]. by apply read_items_bound in Hi as [_ ?].
Qed.

(** `batch` returns however many answers the peer sent: to any non-empty
    batch, an empty array with a success status is returned as an empty list
    instead of being refused, although one response per input is promised. *)
Theorem batch_accepts_missing_answers `{PyRuntime, Pydantic} (sanitize_url : string → string)
    (validation_text : list json → string) (k : conf) (fresh : nat → Z * string) (envs : list Envelope)
    (r : http_reply) :
  envs ≠ [] → k_websocket k = false → c_connected (k_client k) = true →
  hr_status r = 200 → hr_json r = Ret (JList []) →
  batch sanitize_url validation_text k fresh envs (HttpReply r) = Ret [].
Proof.
  intros He Hw Hc Hs Hj. unfold batch. destruct envs; [done|]. by rewrite Hw, Hc, Hs, Hj.
Qed.

(** ** Examples *)
Module ToyClient.
#[local] Existing Instance ToyDiscovery.plain_runtime.
#[local] Existing Instance StrictPydantic.strict.
#[local] Existing Instance ToyCodec.toy.
#[local] Existing Instance ToyCrypto.toy.
#[local] Existing Instance ToyDiscovery.models.

Definition k : conf :=
  mkConf ToyDiscovery.cl false 3 1 60 false false 1024 false None "2.2, 2.1" false.
Definition show (u : string) : string := u.
Definition loads (_ : text) : res string json := Raise "Expecting value".
Definition errors (_ : list json) : string := "invalid".
Definition urn : string := "urn:asap:agent:a".
Definition env : Envelope :=
  mkEnvelope (Some "e1") "2.2" None urn urn "TaskRequest" (JObj []) None None false None.
Definition answer (correlation : string) : json :=
  JObj [("asap_version", JStr "2.2"); ("sender", JStr urn); ("recipient", JStr urn);
        ("payload_type", JStr "TaskResponse"); ("correlation_id", JStr correlation)].
Definition reply (r : res string json) : http_outcome := HttpReply (mkReply 200 [] [] r).
Definition good : http_outcome := reply (Ret (JObj [("result", JObj [("envelope", answer "e1")])])).
Definition at_ (net : http_outcome) : tick := mkTick net 0 0 0 None 0 "f" (0, 0, HttpTimeout "").
(** A timeout, then an answer. *)
Definition slow_then_good (i : nat) : tick := at_ (match i with O => HttpTimeout "slow" | _ => good end).
Definition no_ws (b : option CircuitBreaker.t) : option CircuitBreaker.t * ws_outcome := (b, WsTimeout).
Definition start (b : option CircuitBreaker.t) : @cstate octets :=
  mkC b (MetricsCollector.init 0) (ManifestCache.init DEFAULT_TTL 10) None None 1 [].
Definition open_breaker : CircuitBreaker.t := CircuitBreaker.mk 5 60 OPEN 5 (Some 0) true.
Definition do_send := send show loads errors k.

Lemma answered : is_some (match snd (do_send 0 "key" slow_then_good no_ws env (start None)) with
                          | Ret e => e_correlation_id e | Raise _ => None end) = true.
Proof. vm_compute. reflexivity. Qed.
End ToyClient.

#[local] Existing Instance ToyDiscovery.plain_runtime.
#[local] Existing Instance StrictPydantic.strict.
#[local] Existing Instance ToyCodec.toy.
#[local] Existing Instance ToyCrypto.toy.
#[local] Existing Instance ToyDiscovery.models.

Lemma send_retries_are_bounded_witness :
  let '(s', r) := ToyClient.do_send 0 "key" ToyClient.slow_then_good ToyClient.no_ws ToyClient.env (ToyClient.start None) in
  (c_trace s' = [] ∧ (refused 0 None = true ∨ 3 <= 0) ∧ ∃ x, r = Raise x)
  ∨ ∃ h b delays, c_trace s' = rounds h b delays ∧ Z.of_nat (length delays) < 3
      ∧ assoc "X-Idempotency-Key" h = Some "key".
Proof.
  exact (send_retries_are_bounded ToyClient.show ToyClient.loads ToyClient.errors ToyClient.k
    0 "key" ToyClient.slow_then_good ToyClient.no_ws ToyClient.env (ToyClient.start None) eq_refl eq_refl).
Defined.


Lemma unreadable_probe_wedges_breaker_witness :
  let probe := ToyClient.do_send 100 "key" (λ _, ToyClient.at_ (ToyClient.reply (Raise "Expecting value")))
                 ToyClient.no_ws ToyClient.env (ToyClient.start (Some ToyClient.open_breaker)) in
  Forall (λ x, ∃ err, x = Raise err)
    (snd (sends ToyClient.show ToyClient.loads ToyClient.errors ToyClient.k
       [(1000000, "k2", ToyClient.slow_then_good, ToyClient.no_ws, ToyClient.env)] (fst probe))).
Proof.
  apply (unreadable_probe_wedges_breaker
    ToyClient.show ToyClient.loads ToyClient.errors ToyClient.k 100 "key"
    (λ _, ToyClient.at_ (ToyClient.reply (Raise "Expecting value"))) ToyClient.no_ws ToyClient.env
    (ToyClient.start (Some ToyClient.open_breaker)) ToyClient.open_breaker 0
    (mkReply 200 [] [] (Raise "Expecting value")) "Expecting value"); try reflexivity; cbn; lia.
Defined.

Lemma timed_out_send_is_not_counted_witness :
  c_metrics (fst (ToyClient.do_send 0 "key" (λ _, ToyClient.at_ (HttpTimeout "slow")) ToyClient.no_ws ToyClient.env
                    (ToyClient.start None)))
  = Nat.iter 2 (MetricsCollector.increment_counter "asap_transport_retries_total" [] 1) (MetricsCollector.init 0).
Proof.
  apply (timed_out_send_is_not_counted
    ToyClient.show ToyClient.loads ToyClient.errors ToyClient.k 0 "key" (λ _, ToyClient.at_ (HttpTimeout "slow"))
    ToyClient.no_ws ToyClient.env (ToyClient.start None)); try reflexivity; intros i; by eexists.
Defined.

Lemma stream_ignores_chunking_witness :
  consume ToyClient.loads ToyClient.errors "e1"
    (λ _, (0, "f")) 0 "" ["da"; "ta: x"]
  = consume ToyClient.loads ToyClient.errors "e1"
    (λ _, (0, "f")) 0 "" ["data: x"].
Proof.
  exact (proj1 (stream_ignores_chunking
    ToyClient.loads ToyClient.errors "e1" (λ _, (0, "f")) ["da"; "ta: x"] ["data: x"] eq_refl)).
Defined.

Lemma batch_answers_are_bound_witness :
  ∃ es, batch ToyClient.show ToyClient.errors ToyClient.k
          (λ _, (0, "f")) [ToyClient.env]
          (ToyClient.reply (Ret (JList [JObj [("result", ToyClient.answer "e1"); ("id", JStr "e1")]]))) = Ret es
    ∧ Forall (λ e, ∃ req, req ∈ [ToyClient.env] ∧ bound req e) es.
Proof.
  destruct (batch ToyClient.show ToyClient.errors ToyClient.k
          (λ _, (0, "f")) [ToyClient.env]
          (ToyClient.reply (Ret (JList [JObj [("result", ToyClient.answer "e1"); ("id", JStr "e1")]])))) as [x|es] eqn:E.
  - vm_compute in E. discriminate E.
  - exists es. split; [reflexivity|]. exact (proj2 (batch_answers_are_bound _ _ _ _ _ _ _ E)).
Defined.

Lemma batch_accepts_missing_answers_witness :
  batch ToyClient.show ToyClient.errors ToyClient.k
    (λ _, (0, "f")) [ToyClient.env] (ToyClient.reply (Ret (JList []))) = Ret [].
Proof.
  apply (batch_accepts_missing_answers
    ToyClient.show ToyClient.errors ToyClient.k (λ _, (0, "f")) [ToyClient.env] (mkReply 200 [] [] (Ret (JList []))));
    [discriminate|reflexivity|reflexivity|reflexivity|reflexivity].
Defined.
