(* ===== verification/WsClient.v ===== *)
(** * The WebSocket client transport

    `src/src/asap/transport/ws/client.py`, `_recv.py`, `_ack.py` and the constants
    of `codecs.py`: requests that wait for their answers, acknowledgements with
    retransmission, and the routing of incoming frames, as the tasks of one
    event loop interleave.

    A step of the transition system is what a task does between two
    suspensions.  Sending a frame suspends, so a send is two steps, and so is a
    retransmission; a frame is on the wire from the first of them.  A frame
    arrives as the JSON value of its text.  The future of a request is named by
    its request id.  `close` suspends while it waits for the tasks it cancels and
    again while the socket closes, and a wait that times out suspends once more
    before its task resumes, so these are several steps too; a task that closes
    is a count.  `PendingAck` objects are shared between the table of
    acknowledgements and a running retransmission, so they live in a store and
    are named by references.  Times are microseconds. *)

From Stdlib Require Import ZArith QArith Lia Ascii String.
From stdpp Require Import base tactics list gmap strings sets relations.
From S2P Require Import Prelude PyValue Digest Identity ReplayGuard EnvelopeGuard CircuitBreaker Errors JsonRpc Handlers.
From S2P Require Import Client.
Open Scope string_scope.
Open Scope Z_scope.
Open Scope asap_scope.

Definition ASAP_ACK_METHOD : string := "asap.ack".
Definition HEARTBEAT_FRAME_TYPE_PING : string := "ping".

Definition PAYLOAD_TYPES_REQUIRING_ACK : list string :=
  ["TaskRequest"; "task.request"; "TaskCancel"; "task.cancel"; "StateRestore"; "state_restore";
   "MessageSend"; "message.send"; "message_send"].

(** Seconds before the attempt numbered from 1. *)
Definition _reconnect_delay (attempt : nat) (initial_backoff max_backoff : Q) : Q :=
  let d := (initial_backoff * inject_Z (2 ^ Z.of_nat (attempt - 1)))%Q in
  if Qle_bool d max_backoff then d else max_backoff.

Record PendingAck : Type := mkPending {
  pa_envelope_id : string;
  pa_sent_at : Z;
  pa_retries : Z;
  pa_original_envelope : Envelope
}.

(** How a request ends without an answer. *)
Inductive failure : Type :=
| WebSocketRemoteError (code message data : json)
| CorrelationFailure (x : exn)
| ConnectionClosed
| ReceiveTimeout.

(** [TimedOut]: cancelled by the timeout of its wait, whose task has not resumed
    yet. *)
Inductive future : Type :=
| Unset
| TimedOut
| Result (e : Envelope)
| Failed (x : failure).

(** A task suspended in `await self._ws.send(frame)`; [sd_awaits]: it is
    `send_and_receive`. *)
Record sending : Type := mkSending {
  sd_request_id : string;
  sd_envelope : Envelope;
  sd_awaits : bool
}.

(** A round of retransmissions, suspended in the send of [jb_current]. *)
Record job : Type := mkJob {
  jb_current : nat;
  jb_todo : list nat;
  jb_remove : list string
}.

Record settings : Type := mkSettings {
  ws_ack_timeout : Z;
  ws_max_ack_retries : Z;
  ws_has_on_message : bool
}.

Record t : Type := mkWs {
  w_open : bool;                              (* `_ws is not None` *)
  w_closed : bool;
  w_receiving : bool;                         (* the receive loop runs *)
  w_request_counter : Z;
  w_pending : gset string;
  w_pending_request_ids : gmap string string;
  w_futures : gmap string future;             (* every future made, by request id *)
  w_pending_acks : list (string * nat);
  w_store : gmap nat PendingAck;
  w_breaker : option CircuitBreaker.t;
  w_sending : list sending;
  w_job : option job;
  w_pushed : list Envelope;                   (* handed to `on_message` *)
  w_frames : list (string * Envelope);        (* frames on the wire, with their request id *)
  w_stopping : nat;                           (* tasks in `close` that wait for the tasks they cancelled *)
  w_leaving : nat;                            (* tasks in `close` that wait for the socket to close *)
  w_resends : list nat;                       (* history: objects whose envelope was put on the wire again *)
  w_lost : list nat                           (* history: those of them whose send failed or was cancelled *)
}.

Definition init (breaker : option CircuitBreaker.t) : t :=
  mkWs true false true 1 ∅ ∅ ∅ [] ∅ breaker [] None [] [] 0 0 [] [].

(** Updates of the parts. *)
Definition with_requests (p : gset string) (ids : gmap string string) (f : gmap string future) (s : t) : t :=
  mkWs (w_open s) (w_closed s) (w_receiving s) (w_request_counter s) p ids f (w_pending_acks s) (w_store s)
    (w_breaker s) (w_sending s) (w_job s) (w_pushed s) (w_frames s) (w_stopping s) (w_leaving s)
    (w_resends s) (w_lost s).
Definition with_acks (a : list (string * nat)) (h : gmap nat PendingAck) (s : t) : t :=
  mkWs (w_open s) (w_closed s) (w_receiving s) (w_request_counter s) (w_pending s) (w_pending_request_ids s)
    (w_futures s) a h (w_breaker s) (w_sending s) (w_job s) (w_pushed s) (w_frames s) (w_stopping s) (w_leaving s)
    (w_resends s) (w_lost s).
Definition with_breaker (b : option CircuitBreaker.t) (s : t) : t :=
  mkWs (w_open s) (w_closed s) (w_receiving s) (w_request_counter s) (w_pending s) (w_pending_request_ids s)
    (w_futures s) (w_pending_acks s) (w_store s) b (w_sending s) (w_job s) (w_pushed s) (w_frames s) (w_stopping s) (w_leaving s)
    (w_resends s) (w_lost s).
Definition with_job (j : option job) (s : t) : t :=
  mkWs (w_open s) (w_closed s) (w_receiving s) (w_request_counter s) (w_pending s) (w_pending_request_ids s)
    (w_futures s) (w_pending_acks s) (w_store s) (w_breaker s) (w_sending s) j (w_pushed s) (w_frames s) (w_stopping s) (w_leaving s)
    (w_resends s) (w_lost s).
Definition with_sending (l : list sending) (s : t) : t :=
  mkWs (w_open s) (w_closed s) (w_receiving s) (w_request_counter s) (w_pending s) (w_pending_request_ids s)
    (w_futures s) (w_pending_acks s) (w_store s) (w_breaker s) l (w_job s) (w_pushed s) (w_frames s) (w_stopping s) (w_leaving s)
    (w_resends s) (w_lost s).
Definition with_link (open closed receiving : bool) (s : t) : t :=
  mkWs open closed receiving (w_request_counter s) (w_pending s) (w_pending_request_ids s)
    (w_futures s) (w_pending_acks s) (w_store s) (w_breaker s) (w_sending s) (w_job s) (w_pushed s) (w_frames s) (w_stopping s) (w_leaving s)
    (w_resends s) (w_lost s).
Definition push (e : Envelope) (s : t) : t :=
  mkWs (w_open s) (w_closed s) (w_receiving s) (w_request_counter s) (w_pending s) (w_pending_request_ids s)
    (w_futures s) (w_pending_acks s) (w_store s) (w_breaker s) (w_sending s) (w_job s) (w_pushed s ++ [e])
    (w_frames s) (w_stopping s) (w_leaving s)
    (w_resends s) (w_lost s).
Definition with_closing (stopping leaving : nat) (s : t) : t :=
  mkWs (w_open s) (w_closed s) (w_receiving s) (w_request_counter s) (w_pending s) (w_pending_request_ids s)
    (w_futures s) (w_pending_acks s) (w_store s) (w_breaker s) (w_sending s) (w_job s) (w_pushed s) (w_frames s)
    stopping leaving (w_resends s) (w_lost s).
Definition with_history (resends lost : list nat) (s : t) : t :=
  mkWs (w_open s) (w_closed s) (w_receiving s) (w_request_counter s) (w_pending s) (w_pending_request_ids s)
    (w_futures s) (w_pending_acks s) (w_store s) (w_breaker s) (w_sending s) (w_job s) (w_pushed s) (w_frames s)
    (w_stopping s) (w_leaving s) resends lost.

(** ** Requests *)

Definition request_id (n : Z) : string := "ws-req-" ++ PyStr.dec_Z n.

(** `_send_frame` up to its suspension: the id is taken and the frame leaves. *)
Definition send_frame (e : Envelope) (s : t) : string * t :=
  let rid := request_id (w_request_counter s) in
  (rid,
   mkWs (w_open s) (w_closed s) (w_receiving s) (w_request_counter s + 1) (w_pending s) (w_pending_request_ids s)
     (w_futures s) (w_pending_acks s) (w_store s) (w_breaker s) (w_sending s) (w_job s) (w_pushed s)
     (w_frames s ++ [(rid, e)]) (w_stopping s) (w_leaving s) (w_resends s) (w_lost s)).

Definition _requires_ack (e : Envelope) : bool :=
  e_requires_ack e || str_in (e_payload_type e) PAYLOAD_TYPES_REQUIRING_ACK.

(** A new object, under the envelope's id. *)
Definition _register_pending_ack (now : Z) (e : Envelope) (s : t) : t :=
  match e_id e with
  | Some eid =>
      if negb (PyStr.truthy eid) || negb (_requires_ack e) then s
      else
        let ref := fresh (dom (w_store s)) in
        with_acks (PyDict.set eid ref (w_pending_acks s)) (<[ref := mkPending eid now 0 e]> (w_store s)) s
  | None => s
  end.

(** `send` (and the first part of `send_and_receive`), until the frame is on
    its way. *)
Definition start_send (e : Envelope) (awaits : bool) (s : t) : t :=
  let '(rid, s) := send_frame e s in with_sending (w_sending s ++ [mkSending rid e awaits]) s.

(** What `send_and_receive` sets up once its frame is sent. *)
Definition await_answer (rid : string) (e : Envelope) (s : t) : t :=
  with_requests ({[rid]} ∪ w_pending s) (<[rid := str_id e]> (w_pending_request_ids s))
    (<[rid := Unset]> (w_futures s)) s.

Definition remove_sending (rid : string) (l : list sending) : list sending :=
  List.filter (λ x, negb (String.eqb (sd_request_id x) rid)) l.

(** The send is over. *)
Definition resume_send (now : Z) (x : sending) (s : t) : t :=
  let s := with_sending (remove_sending (sd_request_id x) (w_sending s)) s in
  let s := _register_pending_ack now (sd_envelope x) s in
  if sd_awaits x then await_answer (sd_request_id x) (sd_envelope x) s else s.

(** The send raised: the task ends. *)
Definition abandon_send (x : sending) (s : t) : t :=
  with_sending (remove_sending (sd_request_id x) (w_sending s)) s.

(** A future that is done keeps its outcome. *)
Definition settle (x : future) (f : future) : future := match f with Unset => x | _ => f end.

(** `_pending.pop`, `_pending_request_ids.pop`, and the future's outcome. *)
Definition resolve (rid : string) (x : future) (s : t) : t :=
  with_requests (w_pending s ∖ {[rid]}) (delete rid (w_pending_request_ids s))
    (alter (settle x) rid (w_futures s)) s.

(** The timeout of a wait strikes: its future is cancelled. *)
Definition expire_wait (rid : string) (s : t) : t :=
  with_requests (w_pending s) (w_pending_request_ids s) (alter (settle TimedOut) rid (w_futures s)) s.

(** The task of `send_and_receive` resumes after its wait, which ended by an
    answer, an error or the timeout. *)
Definition finish_wait (rid : string) (s : t) : t :=
  with_requests (w_pending s ∖ {[rid]}) (delete rid (w_pending_request_ids s))
    (alter (λ f, match f with TimedOut => Failed ReceiveTimeout | _ => f end) rid (w_futures s)) s.

(** Every waiting request fails. *)
Definition fail_all (x : failure) (s : t) : t :=
  with_requests ∅ ∅
    (map_imap (λ rid f, Some (if bool_decide (rid ∈ w_pending s) then settle (Failed x) f else f)) (w_futures s)) s.

(** ** The receive loop *)
Section Receive.
  Context `{PyRuntime, Pydantic}.
  (** the text of a `ValidationError` *)
  Variable validation_text : list json → string.
  (** `MessageAck.model_validate(payload).original_envelope_id`; [None]: a
      validation error *)
  Variable message_ack : json → option string.
  Variable cfg : settings.

(** What the environment adds to a frame: the clock and the fresh id of the
    envelope that is built, and the error of the pong, if its send fails. *)
Record arrival : Type := mkArrival {
  ar_now : Z;
  ar_fresh : string;
  ar_pong_error : option string
}.

(** `request_id is not None and request_id in self._pending`: a value that is
    no text is no key, and lists and dictionaries cannot be looked up. *)
Definition in_pending (rid : json) (s : t) : res string (option string) :=
  match rid with
  | JStr r => Ret (if bool_decide (r ∈ w_pending s) then Some r else None)
  | JList _ => Raise "unhashable type: 'list'"
  | JObj _ => Raise "unhashable type: 'dict'"
  | _ => Ret None
  end.

Definition _consume_ack_frame (i : arrival) (data : obj) (s : t) : t :=
  match j_get "params" data with
  | JObj params =>
      match j_get "envelope" params with
      | JObj env_dict =>
          match validate_envelope validation_text (ar_now i) (ar_fresh i) (JObj env_dict) with
          | Ret ack_env =>
              if String.eqb (e_payload_type ack_env) "MessageAck" then
                match message_ack (e_payload ack_env) with
                | Some eid => with_acks (PyDict.del eid (w_pending_acks s)) (w_store s) s
                | None => s
                end
              else s
          | Raise _ => s
          end
      | _ => s
      end
  | _ => s
  end.

Definition remote_failure (err : json) : failure :=
  match err with
  | JObj d =>
      WebSocketRemoteError (default (JInt (-32603)) (assoc "code" d)) (default (JStr "Unknown error") (assoc "message" d))
        (j_get "data" d)
  | _ =>
      WebSocketRemoteError (JInt (-32603))
        (JStr (if j_truthy err then py_str float_repr err else "Unknown error")) JNull
  end.

Definition _resolve_error_frame (data : obj) (rid : json) (s : t) : res string t :=
  let! found := in_pending rid s in
  Ret match found with
      | Some r => resolve r (Failed (remote_failure (j_get "error" data))) s
      | None => s
      end.

Definition _resolve_missing_result (data : obj) (rid : json) (s : t) : res string t :=
  let! found := in_pending rid s in
  Ret match found with
      | Some r =>
          resolve r (Failed (WebSocketRemoteError (JInt (-32603)) (JStr "Missing result.envelope in response")
                               (JObj data))) s
      | None => s
      end.

(** The answer, or the error when it does not bind to the request. *)
Definition _resolve_bound_future (e : Envelope) (rid : string) (s : t) : t :=
  let request_envelope_id := default "None" (w_pending_request_ids s !! rid) in
  resolve rid
    match assert_correlation_binds request_envelope_id e with
    | Raise x => Failed (CorrelationFailure x)
    | Ret _ => Result e
    end s.

Definition exn_text (x : exn) : string :=
  match x with XAsap e => x_message e | XRemote r => x_message (r_error r) | XOther _ m => m end.

(** `result["envelope"]` *)
Definition result_envelope (result : json) : res string json :=
  match result with
  | JObj d => Ret (j_get "envelope" d)
  | _ => Raise (type_name result ++ " indices must be integers or slices, not str")
  end.

Definition _resolve_result_frame (i : arrival) (rid result : json) (s : t) : res string t :=
  let! data := result_envelope result in
  match validate_envelope validation_text (ar_now i) (ar_fresh i) data with
  | Raise x => Raise (exn_text x)
  | Ret e =>
      let! found := in_pending rid s in
      Ret match found with
          | Some r => _resolve_bound_future e r s
          | None => if ws_has_on_message cfg then push e s else s
          end
  end.

Definition _is_client_heartbeat_ping (data : obj) : bool :=
  py_eq (j_get "type" data) (JStr HEARTBEAT_FRAME_TYPE_PING) && negb (is_some (assoc "method" data)).

(** One round of the loop after a frame was parsed.  [Raise]: an exception that
    leaves the loop, with its text. *)
Definition route (i : arrival) (frame : json) (s : t) : res string t :=
  match frame with
  | JObj data =>
      if _is_client_heartbeat_ping data then
        match ar_pong_error i with Some e => Raise e | None => Ret s end
      else if py_eq (j_get "method" data) (JStr ASAP_ACK_METHOD) && is_some (assoc "params" data) then
        Ret (_consume_ack_frame i data s)
      else
        let rid := j_get "id" data in
        if is_some (assoc "error" data) then _resolve_error_frame data rid s
        else
          let result := j_get "result" data in
          if negb (j_truthy result) then _resolve_missing_result data rid s
          else
            match py_in (JStr "envelope") result with
            | Raise _ => Raise ("argument of type '" ++ type_name result ++ "' is not iterable")
            | Ret false => _resolve_missing_result data rid s
            | Ret true => _resolve_result_frame i rid result s
            end
  | _ => Raise ("'" ++ type_name frame ++ "' object has no attribute 'get'")
  end.

(** The loop ends with an exception: every request that waits fails. *)
Definition recv_loop_error (text : string) (s : t) : t :=
  let s := fail_all (WebSocketRemoteError (JInt (-32603)) (JStr text) JNull) s in
  with_link (w_open s) (w_closed s) false s.

(** A frame, parsed, or a text that is not JSON, which is skipped. *)
Definition receive (i : arrival) (frame : option json) (s : t) : t :=
  match frame with
  | None => s
  | Some j => match route i j s with Ret s' => s' | Raise text => recv_loop_error text s end
  end.

(** ** Acknowledgements *)

Definition timed_out (now : Z) (p : PendingAck) : bool := ws_ack_timeout cfg <? now - pa_sent_at p.

(** The objects to send again and the ids to give up, in the table's order. *)
Definition classify (now : Z) (s : t) : list nat * list string :=
  foldr (λ (x : string * nat) acc,
    match w_store s !! x.2 with
    | Some p =>
        if negb (timed_out now p) then acc
        else if pa_retries p <? ws_max_ack_retries cfg then (x.2 :: acc.1, acc.2)
        else (acc.1, x.1 :: acc.2)
    | None => acc
    end) ([], []) (w_pending_acks s).

Definition _expire_pending_ack (now : Z) (eid : string) (s : t) : t :=
  let s := with_acks (PyDict.del eid (w_pending_acks s)) (w_store s) s in
  with_breaker (CircuitBreaker.record_failure now <$> w_breaker s) s.

(** `pending.sent_at = now; pending.retries += 1` on the shared object. *)
Definition count_retry (now : Z) (ref : nat) (s : t) : t :=
  with_acks (w_pending_acks s)
    (alter (λ p, mkPending (pa_envelope_id p) now (pa_retries p + 1) (pa_original_envelope p)) ref (w_store s)) s.

(** The round until its next suspension: objects are sent in turn, and the
    expired ids are dropped at the end.  A closed connection sends nothing and
    still counts. *)
Fixpoint run_job (now : Z) (todo : list nat) (remove : list string) (s : t) : t :=
  match todo with
  | [] => with_job None (fold_left (λ s eid, _expire_pending_ack now eid s) remove s)
  | ref :: todo' =>
      if w_open s then
        match w_store s !! ref with
        | Some p =>
            with_job (Some (mkJob ref todo' remove))
              (with_history (w_resends s ++ [ref]) (w_lost s) (snd (send_frame (pa_original_envelope p) s)))
        | None => run_job now todo' remove s
        end
      else run_job now todo' remove (count_retry now ref s)
  end.

Definition _retransmit_or_expire_pending_acks (now : Z) (s : t) : t :=
  let '(todo, remove) := classify now s in run_job now todo remove s.

Definition note_lost (ref : nat) (s : t) : t := with_history (w_resends s) (w_lost s ++ [ref]) s.

(** The send of the current object is over; a failed one is not counted. *)
Definition resume_job (now : Z) (sent : bool) (j : job) (s : t) : t :=
  run_job now (jb_todo j) (jb_remove j) (if sent then count_retry now (jb_current j) s else note_lost (jb_current j) s).

(** The task of the retransmissions is cancelled, in the middle of a send or not. *)
Definition cancel_job (s : t) : t :=
  match w_job s with Some j => with_job None (note_lost (jb_current j) s) | None => s end.

(** ** Connection *)

(** The socket is given up between two connections. *)
Definition link_down (s : t) : t := with_link false (w_closed s) false s.

(** `connect` takes back an earlier `close`. *)
Definition reopen (s : t) : t := with_link (w_open s) false (w_receiving s) s.

(** `_do_connect` once the socket is there; on a transport that was closed in
    the meantime nothing is started. *)
Definition connected (s : t) : t := with_link true (w_closed s) (negb (w_closed s)) s.

(** `close` until it first suspends. *)
Definition close (s : t) : t :=
  with_link (w_open s) true (w_receiving s) (with_closing (S (w_stopping s)) (w_leaving s) (cancel_job s)).

(** The receive loop ends, cancelled. *)
Definition stop_receiving (s : t) : t := with_link (w_open s) (w_closed s) false s.

(** `close` after the tasks it cancelled, until it waits for the socket. *)
Definition close_tables (s : t) : t :=
  let s := fail_all ConnectionClosed (with_acks [] (w_store s) s) in
  with_closing (Nat.pred (w_stopping s)) (if w_open s then S (w_leaving s) else w_leaving s) s.

(** The socket has closed. *)
Definition close_end (s : t) : t :=
  with_link false (w_closed s) (w_receiving s) (with_closing (w_stopping s) (Nat.pred (w_leaving s)) s).

(** ** The transition system *)
Inductive step (s : t) : t → Prop :=
| step_start e awaits : w_open s = true → step s (start_send e awaits s)
| step_resume now x : x ∈ w_sending s → step s (resume_send now x s)
| step_abandon x : x ∈ w_sending s → step s (abandon_send x s)
| step_receive i frame : w_receiving s = true → step s (receive i frame s)
| step_lost text : w_receiving s = true → step s (recv_loop_error text s)
| step_timeout rid : w_futures s !! rid = Some Unset → step s (expire_wait rid s)
| step_finish rid : w_futures s !! rid ≠ Some Unset → step s (finish_wait rid s)
| step_check now : w_job s = None → w_open s = true → w_closed s = false →
    step s (_retransmit_or_expire_pending_acks now s)
| step_resent now sent j : w_job s = Some j → step s (resume_job now sent j s)
| step_down : w_receiving s = false → step s (link_down s)
| step_reopen : w_open s = false → step s (reopen s)
| step_cancel : w_open s = false → step s (cancel_job s)
| step_connected : w_open s = false → step s (connected s)
| step_close : step s (close s)
| step_stop : (0 < w_stopping s)%nat → step s (stop_receiving s)
| step_tables : (0 < w_stopping s)%nat → step s (close_tables s)
| step_closed : (0 < w_leaving s)%nat → step s (close_end s).

End Receive.

(** ** Invariant of the requests *)
Section Requests.
  Context `{PyRuntime, Pydantic} (validation_text : list json → string) (message_ack : json → option string).
  Variable cfg : settings.
  Implicit Types s : t.

(** An answer that may be given for a request that left under [rid]. *)
Definition bound_answer s (rid : string) (e : Envelope) : Prop :=
  ∃ request, (rid, request) ∈ w_frames s ∧ assert_correlation_binds (str_id request) e = Ret tt.

Record requests_ok s : Prop := {
  waiting_iff : ∀ rid, w_futures s !! rid ≠ Some TimedOut → rid ∈ w_pending s ↔ w_futures s !! rid = Some Unset;
  ids_waiting : dom (w_pending_request_ids s) = w_pending s;
  ids_sent : ∀ rid eid, w_pending_request_ids s !! rid = Some eid →
    ∃ request, (rid, request) ∈ w_frames s ∧ eid = str_id request;
  sending_sent : ∀ x, x ∈ w_sending s → (sd_request_id x, sd_envelope x) ∈ w_frames s;
  answers_bound : ∀ rid e, w_futures s !! rid = Some (Result e) → bound_answer s rid e
}.

(** The invariant reads only the requests, the tasks that send and the frames. *)
Lemma requests_ok_ext s s' :
  w_pending s' = w_pending s → w_pending_request_ids s' = w_pending_request_ids s → w_futures s' = w_futures s →
  w_sending s' ⊆ w_sending s → w_frames s ⊆ w_frames s' → requests_ok s → requests_ok s'.
Proof.
  intros Hp Hi Hf Hs Hfr [H1 H2 H3 H4 H5]. split; rewrite ?Hp, ?Hi, ?Hf; try done.
  - intros rid eid (r & ? & ?)%H3. exists r. eauto.
  - intros x Hx. apply Hfr, H4, Hs, Hx.
  - intros rid e Hr. destruct (H5 rid e Hr) as (r & ? & ?). exists r. eauto.
Qed.

Lemma resolve_ok rid x s :
  x ≠ Unset → (∀ e, x = Result e → rid ∈ w_pending s → bound_answer s rid e) →
  requests_ok s → requests_ok (resolve rid x s).
Proof.
  intros Hx Hb [H1 H2 H3 H4 H5]. split; cbn.
  - intros r. destruct (decide (r = rid)) as [->|Hne].
    + rewrite lookup_alter_eq. intros _. split; [set_solver|].
      destruct (w_futures s !! rid) as [[]|]; cbn; intros [= ?]; done.
    + rewrite lookup_alter_ne by done. intros Ht. rewrite <- H1 by done. set_solver.
  - rewrite dom_delete_L, H2. done.
  - intros r eid [_ Hr]%lookup_delete_Some. by apply H3.
  - done.
  - intros r e. destruct (decide (r = rid)) as [->|Hne]; [|rewrite lookup_alter_ne by done; apply H5].
    rewrite lookup_alter_eq. destruct (w_futures s !! rid) as [[| |e'|]|] eqn:Hf; cbn; intros [= Heq]; subst.
    + apply Hb; [done|]. apply H1; by rewrite Hf.
    + by apply H5.
Qed.

(** A timeout, and the end of a wait. *)
Lemma expire_wait_ok rid s : requests_ok s → requests_ok (expire_wait rid s).
Proof.
  intros [H1 H2 H3 H4 H5]. split; cbn; try done.
  - intros r. destruct (decide (r = rid)) as [->|Hne]; [|by rewrite lookup_alter_ne by done; apply H1].
    rewrite lookup_alter_eq. destruct (w_futures s !! rid) as [[]|] eqn:Hf; cbn; try done; intros _;
      rewrite H1 by (by rewrite Hf); by rewrite Hf.
  - intros r e. destruct (decide (r = rid)) as [->|Hne]; [|rewrite lookup_alter_ne by done; apply H5].
    rewrite lookup_alter_eq. destruct (w_futures s !! rid) as [[]|] eqn:Hf; cbn; intros Hq; simplify_eq. by apply H5.
Qed.

Lemma finish_wait_ok rid s :
  w_futures s !! rid ≠ Some Unset → requests_ok s → requests_ok (finish_wait rid s).
Proof.
  intros Hdone [H1 H2 H3 H4 H5]. split; cbn; try done.
  - intros r. destruct (decide (r = rid)) as [->|Hne].
    + rewrite lookup_alter_eq. intros _. split; [set_solver|].
      destruct (w_futures s !! rid) as [[]|]; cbn; intros Hq; by simplify_eq.
    + rewrite lookup_alter_ne by done. intros Ht. rewrite <- H1 by done. set_solver.
  - rewrite dom_delete_L, H2. done.
  - intros r eid [_ Hr]%lookup_delete_Some. by apply H3.
  - intros r e. destruct (decide (r = rid)) as [->|Hne]; [|rewrite lookup_alter_ne by done; apply H5].
    rewrite lookup_alter_eq. destruct (w_futures s !! rid) as [[]|] eqn:Hf; cbn; intros Hq; simplify_eq. by apply H5.
Qed.

Lemma fail_all_ok x s : requests_ok s → requests_ok (fail_all x s).
Proof.
  intros [H1 H2 H3 H4 H5]. split; cbn.
  - intros r. rewrite map_lookup_imap. intros Ht. split; [set_solver|].
    destruct (w_futures s !! r) as [f|] eqn:Hf; cbn; [|done]. case_bool_decide as Hr; [by destruct f|].
    intros [= ->]. exfalso. apply Hr, H1; by rewrite Hf.
  - apply dom_empty_L.
  - intros r eid Hl. by rewrite lookup_empty in Hl.
  - done.
  - intros r e. rewrite map_lookup_imap. destruct (w_futures s !! r) as [f|] eqn:Hf; cbn; [|done].
    case_bool_decide; [destruct f; cbn; try done|]; intros [= ->]; by apply H5.
Qed.

Lemma await_answer_ok rid e s : (rid, e) ∈ w_frames s → requests_ok s → requests_ok (await_answer rid e s).
Proof.
  intros Hfr [H1 H2 H3 H4 H5]. split; cbn.
  - intros r. destruct (decide (r = rid)) as [->|Hne]; [rewrite lookup_insert_eq; set_solver|].
    rewrite lookup_insert_ne by done. intros Ht. rewrite <- H1 by done. set_solver.
  - by rewrite dom_insert_L, H2.
  - intros r eid [[<- <-]|[_ Hr]]%lookup_insert_Some; [eauto|by apply H3].
  - done.
  - intros r e' [[_ ?]|[_ Hr]]%lookup_insert_Some; [done|by apply H5].
Qed.

Lemma remove_sending_sub rid l : remove_sending rid l ⊆ l.
Proof. intros x [Hx _]%list_elem_of_In%filter_In. by apply list_elem_of_In. Qed.

Lemma register_keeps now e s :
  let s' := _register_pending_ack now e s in
  w_pending s' = w_pending s ∧ w_pending_request_ids s' = w_pending_request_ids s ∧ w_futures s' = w_futures s ∧
  w_sending s' = w_sending s ∧ w_frames s' = w_frames s.
Proof. unfold _register_pending_ack. destruct (e_id e); [|done]. by destruct (_ || _). Qed.

Lemma register_ok now e s : requests_ok s → requests_ok (_register_pending_ack now e s).
Proof.
  pose proof (register_keeps now e s) as (Hp & Hi & Hf & Hs & Hfr).
  apply requests_ok_ext; try done; [by rewrite Hs|by rewrite Hfr].
Qed.

Lemma in_pending_found rid s r : in_pending rid s = Ret (Some r) → r ∈ w_pending s.
Proof. destruct rid; cbn; try done. case_bool_decide; by intros [= <-]. Qed.

Lemma bound_future_ok e rid s : rid ∈ w_pending s → requests_ok s → requests_ok (_resolve_bound_future e rid s).
Proof.
  intros Hr Hok. unfold _resolve_bound_future. apply resolve_ok; [by destruct (assert_correlation_binds _ _)| |done].
  intros e' He _. destruct (assert_correlation_binds _ _) as [|[]] eqn:Ha; [done|]. injection He as <-.
  rewrite <- (ids_waiting _ Hok) in Hr. apply elem_of_dom in Hr as [eid Heid].
  destruct (ids_sent _ Hok rid eid Heid) as (q & Hq & ->). rewrite Heid in Ha. by exists q.
Qed.

Lemma consume_ack_ok i data s : requests_ok s → requests_ok (_consume_ack_frame validation_text message_ack i data s).
Proof.
  intros Hok. unfold _consume_ack_frame. repeat case_match; try done.
  all: eapply requests_ok_ext; [..|exact Hok]; done.
Qed.

Lemma route_ok i frame s s' : route validation_text message_ack cfg i frame s = Ret s' → requests_ok s → requests_ok s'.
Proof.
  intros Hr Hok. destruct frame as [| | | | | |data]; try done. cbn [route] in Hr.
  assert (Hfail : ∀ rid f, (let! found := in_pending rid s in
            Ret match found with Some r => resolve r (Failed f) s | None => s end) = Ret s' → requests_ok s').
  { intros rid f Hq. destruct (in_pending rid s) as [|[r|]] eqn:Hp; try done; cbn in Hq; injection Hq as <-; [|done].
    by apply resolve_ok. }
  destruct (_is_client_heartbeat_ping data); [destruct (ar_pong_error i); by simplify_eq|].
  destruct (_ && _); [injection Hr as <-; by apply consume_ack_ok|].
  destruct (is_some _); [by eapply Hfail|].
  destruct (negb _); [by eapply Hfail|].
  destruct (py_in _ _) as [|[]]; [done| |by eapply Hfail].
  unfold _resolve_result_frame in Hr. destruct (result_envelope _) as [|d]; [done|]. cbn [rbind] in Hr.
  destruct (validate_envelope _ _ _ _) as [|e]; [done|].
  destruct (in_pending _ s) as [|[r|]] eqn:Hp; try done; cbn in Hr; injection Hr as <-.
  - apply bound_future_ok; [by eapply in_pending_found|done].
  - destruct (ws_has_on_message cfg); [|done]. eapply requests_ok_ext; [..|exact Hok]; done.
Qed.

Lemma recv_error_ok text s : requests_ok s → requests_ok (recv_loop_error text s).
Proof. intros Hok. eapply requests_ok_ext; [..|apply fail_all_ok, Hok]; done. Qed.

Lemma run_job_keeps now todo remove s :
  let s' := run_job now todo remove s in
  w_pending s' = w_pending s ∧ w_pending_request_ids s' = w_pending_request_ids s ∧ w_futures s' = w_futures s ∧
  w_sending s' = w_sending s ∧ w_frames s ⊆ w_frames s'.
Proof.
  revert s. induction todo as [|ref todo IH]; intros s; cbn [run_job].
  - cbn. revert s. induction remove as [|eid l IH]; intros s; cbn [fold_left]; [done|].
    apply (IH (_expire_pending_ack now eid s)).
  - destruct (w_open s); [|apply (IH (count_retry now ref s))].
    destruct (w_store s !! ref); [|apply IH]. cbn. split_and!; try done. intros x Hx. apply elem_of_app. by left.
Qed.

Lemma cancel_ok s : requests_ok s → requests_ok (cancel_job s).
Proof. intros Hok. unfold cancel_job. destruct (w_job s); [|done]. eapply requests_ok_ext; [..|exact Hok]; done. Qed.

Lemma step_requests_ok s s' : step validation_text message_ack cfg s s' → requests_ok s → requests_ok s'.
Proof.
  intros Hstep Hok. destruct Hstep as [e awaits _|now x Hx|x Hx|i frame _|text _|rid _|rid Hd|now _ _ _|now sent j _|_|_|_|_| |_|_|_].
  - destruct Hok as [H1 H2 H3 H4 H5]. split; cbn; try done.
    + intros rid eid (q & ? & ?)%H3. exists q. rewrite elem_of_app. eauto.
    + intros x [Hx| ->%list_elem_of_singleton]%elem_of_app; rewrite elem_of_app; [left; by apply H4|right; by left].
    + intros rid e' Hr. destruct (H5 rid e' Hr) as (q & ? & ?). exists q. cbn. rewrite elem_of_app. eauto.
  - unfold resume_send. set (s1 := with_sending _ s).
    assert (Hok1 : requests_ok s1).
    { eapply requests_ok_ext; [..|exact Hok]; try done. apply remove_sending_sub. }
    pose proof (register_keeps now (sd_envelope x) s1) as (_ & _ & _ & _ & Hfr).
    apply (register_ok now (sd_envelope x)) in Hok1. destruct (sd_awaits x); [|done].
    apply await_answer_ok; [|done]. rewrite Hfr. by apply (sending_sent _ Hok).
  - eapply requests_ok_ext; [..|exact Hok]; try done. apply remove_sending_sub.
  - destruct frame as [j|]; [|done]. cbn [receive]. destruct (route _ _ _ i j s) as [text|s1] eqn:Hr.
    + by apply recv_error_ok.
    + by eapply route_ok.
  - by apply recv_error_ok.
  - by apply expire_wait_ok.
  - by apply finish_wait_ok.
  - unfold _retransmit_or_expire_pending_acks. destruct (classify cfg now s) as [todo remove].
    destruct (run_job_keeps now todo remove s) as (? & ? & ? & Hse & ?). eapply requests_ok_ext; [..|exact Hok]; try done. by rewrite Hse.
  - unfold resume_job. set (s1 := if sent then _ else _).
    assert (Hok1 : requests_ok s1) by (destruct sent; (eapply requests_ok_ext; [..|exact Hok]; done)).
    destruct (run_job_keeps now (jb_todo j) (jb_remove j) s1) as (? & ? & ? & Hse & ?).
    eapply requests_ok_ext; [..|exact Hok1]; try done. by rewrite Hse.
  - eapply requests_ok_ext; [..|exact Hok]; done.
  - eapply requests_ok_ext; [..|exact Hok]; done.
  - by apply cancel_ok.
  - eapply requests_ok_ext; [..|exact Hok]; done.
  - eapply requests_ok_ext; [..|apply cancel_ok, Hok]; done.
  - eapply requests_ok_ext; [..|exact Hok]; done.
  - unfold close_tables. eapply requests_ok_ext; [..|eapply fail_all_ok, requests_ok_ext; [..|exact Hok]]; done.
  - eapply requests_ok_ext; [..|exact Hok]; done.
Qed.

Lemma init_requests_ok b : requests_ok (init b).
Proof.
  split.
  - intros rid _. split; [by intros ?%not_elem_of_empty|]. cbn [init w_futures]. by rewrite lookup_empty.
  - apply dom_empty_L.
  - intros rid eid. cbn [init w_pending_request_ids]. by rewrite lookup_empty.
  - by intros x ?%elem_of_nil.
  - intros rid e. cbn [init w_futures]. by rewrite lookup_empty.
Qed.

End Requests.

(** ** Invariant of the acknowledgements *)
Section Acks.
  Context `{PyRuntime, Pydantic} (validation_text : list json → string) (message_ack : json → option string).
  Variable cfg : settings.
  Implicit Types s : t.

Abbreviation budget := (Z.max 0 (ws_max_ack_retries cfg)).

Record acks_base s : Prop := {
  refs_nodup : NoDup (w_pending_acks s).*2;
  refs_stored : ∀ x, x ∈ w_pending_acks s → ∃ p, w_store s !! x.2 = Some p ∧ pa_envelope_id p = x.1;
  retries_le : ∀ r p, w_store s !! r = Some p → pa_retries p <= budget
}.

(** Objects that may be sent once more, each once. *)
Definition resendable s (l : list nat) : Prop :=
  NoDup l ∧ ∀ r, r ∈ l → ∃ p, w_store s !! r = Some p ∧ pa_retries p < ws_max_ack_retries cfg.

(** An id under which an object used up its retries. *)
Definition used_up s (eid : string) : Prop :=
  ∃ r p, w_store s !! r = Some p ∧ pa_envelope_id p = eid ∧ ws_max_ack_retries cfg <= pa_retries p.
Definition given_up s (l : list string) : Prop := ∀ eid, eid ∈ l → used_up s eid.

Record acks_ok s : Prop := {
  acks_tables : acks_base s;
  acks_job : ∀ j, w_job s = Some j → resendable s (jb_current j :: jb_todo j) ∧ given_up s (jb_remove j)
}.

Lemma acks_ok_ext s s' :
  w_pending_acks s' = w_pending_acks s → w_store s' = w_store s → w_job s' = w_job s ∨ w_job s' = None →
  acks_ok s → acks_ok s'.
Proof.
  intros Ha Hh Hj [[H1 H2 H3] H4]. split.
  - split; rewrite ?Ha, ?Hh; done.
  - intros j. destruct Hj as [-> | ->]; [|done]. unfold resendable, given_up, used_up. rewrite Hh. apply H4.
Qed.

Lemma elem_set {V} (k : string) (v : V) d x : x ∈ PyDict.set k v d → x = (k, v) ∨ x ∈ d.
Proof.
  induction d as [|[k' v'] d IH]; cbn [PyDict.set].
  - intros ->%list_elem_of_singleton. by left.
  - case_decide as Hk; [subst k'|]; intros [->|Hx]%elem_of_cons; [by left|right; by right|right; by left|].
    destruct (IH Hx); [by left|right; by right].
Qed.

Lemma set_nodup {V} (k : string) (v : V) d : NoDup d.*2 → v ∉ d.*2 → NoDup (PyDict.set k v d).*2.
Proof.
  induction d as [|[k' v'] d IH]; cbn [PyDict.set]; intros H1 Hnew; [apply NoDup_singleton|].
  cbn in H1, Hnew. apply NoDup_cons in H1 as [Hv Hd]. apply not_elem_of_cons in Hnew as [Hne Hnd].
  case_decide; cbn; apply NoDup_cons; split; try done; [|by apply IH].
  intros (x & -> & [Hx|Hx]%elem_set)%list_elem_of_fmap; [by subst x|]. apply Hv, list_elem_of_fmap. eauto.
Qed.

Lemma base_del eid s :
  acks_base s → acks_base (with_acks (PyDict.del eid (w_pending_acks s)) (w_store s) s).
Proof.
  intros [H1 H2 H3]. pose proof (PyDict.del_sublist eid (w_pending_acks s)) as Hs. split; cbn; [|intros x Hx|done].
  - by eapply sublist_NoDup, fmap_sublist.
  - apply H2. by eapply elem_of_sublist.
Qed.

Lemma base_register now e s : acks_base s → acks_base (_register_pending_ack now e s).
Proof.
  intros Hb. unfold _register_pending_ack. destruct (e_id e) as [eid|]; [|done]. destruct (_ || _); [done|].
  destruct Hb as [H1 H2 H3].
  assert (Hfresh : w_store s !! fresh (dom (w_store s)) = None) by (apply not_elem_of_dom, is_fresh).
  set (ref := fresh (dom (w_store s))) in *.
  assert (Hnew : ref ∉ (w_pending_acks s).*2).
  { intros (x & -> & Hx)%list_elem_of_fmap. destruct (H2 x Hx) as (p & Hp & _). congruence. }
  split; cbn.
  - by apply set_nodup.
  - intros x [->|Hx]%elem_set; [eexists; by rewrite lookup_insert_eq|].
    destruct (H2 x Hx) as (p & Hp & He). exists p. split; [|done].
    rewrite lookup_insert_ne; [done|]. intros Heq. congruence.
  - intros r p [[_ <-]|[_ Hr]]%lookup_insert_Some; [cbn; lia|by eapply H3].
Qed.

(** Registering adds a new object and leaves the others. *)
Lemma register_store now e s r p :
  w_store s !! r = Some p → w_store (_register_pending_ack now e s) !! r = Some p.
Proof.
  intros Hr. unfold _register_pending_ack. destruct (e_id e) as [eid|]; [|done]. destruct (_ || _); [done|]. cbn.
  rewrite lookup_insert_ne; [done|]. intros Heq. pose proof (is_fresh (dom (w_store s))) as Hf.
  rewrite Heq in Hf. apply Hf, elem_of_dom. eauto.
Qed.

Lemma register_acks_ok now e s : acks_ok s → acks_ok (_register_pending_ack now e s).
Proof.
  intros [Hb Hj]. split; [by apply base_register|]. intros j Hjob.
  assert (w_job (_register_pending_ack now e s) = w_job s) as Heq
    by (unfold _register_pending_ack; destruct (e_id e); [by destruct (_ || _)|done]).
  rewrite Heq in Hjob. destruct (Hj j Hjob) as [[Hn Hr] Hg]. split; [split; [done|]|].
  - intros r (p & Hp & Hlt)%Hr. exists p. split; [by apply register_store|done].
  - intros eid (r & p & Hp & Hle)%Hg. exists r, p. split; [by apply register_store|done].
Qed.

(** Counting a retry on an object that may be sent once more. *)
Lemma count_retry_ok now r l remove s :
  acks_base s → resendable s (r :: l) → given_up s remove →
  acks_base (count_retry now r s) ∧ resendable (count_retry now r s) l ∧ given_up (count_retry now r s) remove.
Proof.
  intros [H1 H2 H3] [[Hr Hl]%NoDup_cons Hall] Hg.
  assert (Hr0 : r ∈ r :: l) by (by left). destruct (Hall r Hr0) as (p & Hp & Hlt).
  split_and!; [split|split|]; cbn; try done.
  - intros x Hx. destruct (H2 x Hx) as (q & Hq & He). destruct (decide (x.2 = r)) as [Heq|Hne];
      [|exists q; by rewrite lookup_alter_ne].
    rewrite Heq in Hq |- *. rewrite lookup_alter_eq, Hq. eexists. split; [done|]. exact He.
  - intros r' p'. destruct (decide (r' = r)) as [->|Hne]; [|rewrite lookup_alter_ne by done; apply H3].
    rewrite lookup_alter_eq, Hp. intros [= <-]. cbn. lia.
  - intros r' Hr'. assert (r' ≠ r) by set_solver. cbn. rewrite lookup_alter_ne by done. apply Hall. by right.
  - intros eid (r' & p' & Hp' & He & Hle)%Hg.
    destruct (decide (r' = r)) as [->|Hne]; [|exists r', p'; cbn; by rewrite lookup_alter_ne].
    exists r. cbn. rewrite lookup_alter_eq, Hp'. eexists. split; [done|]. cbn. split; [done|lia].
Qed.

Lemma run_job_ok now todo remove s :
  acks_base s → resendable s todo → given_up s remove → acks_ok (run_job now todo remove s).
Proof.
  revert s. induction todo as [|r todo IH]; intros s Hb Hr Hg; cbn [run_job].
  - split; [|done]. enough (Hf : acks_base (fold_left (λ s eid, _expire_pending_ack now eid s) remove s))
      by (destruct Hf; split; done).
    clear Hr Hg. revert s Hb. induction remove as [|eid l IH]; intros s Hb; cbn [fold_left]; [done|].
    apply IH. pose proof (base_del eid s Hb) as [? ? ?]. split; done.
  - destruct (w_open s).
    + destruct Hr as [Hn Hall] eqn:E. clear E. assert (Hr0 : r ∈ r :: todo) by (by left).
      destruct (Hall r Hr0) as (p & Hp & _). rewrite Hp.
      split; [destruct Hb; split; done|]. cbn. intros j [= <-]. cbn. done.
    + destruct (count_retry_ok now r todo remove s Hb Hr Hg) as (? & ? & ?). by apply IH.
Qed.

(** The ids a check gives up: late, and out of retries at that moment. *)
Definition late s (now : Z) (eid : string) : Prop :=
  ∃ r p, (eid, r) ∈ w_pending_acks s ∧ w_store s !! r = Some p ∧ timed_out cfg now p = true ∧
    ws_max_ack_retries cfg <= pa_retries p.

Lemma classify_sound now s :
  let '(todo, remove) := classify cfg now s in
  sublist todo (w_pending_acks s).*2 ∧
  (∀ r, r ∈ todo → ∃ p, w_store s !! r = Some p ∧ pa_retries p < ws_max_ack_retries cfg) ∧
  (∀ eid, eid ∈ remove → late s now eid).
Proof.
  unfold classify, late. induction (w_pending_acks s) as [|[eid r] l IH]; cbn [foldr].
  { split; [constructor|]. split; [by intros r ?%elem_of_nil|by intros eid ?%elem_of_nil]. }
  destruct (foldr _ _ l) as [todo remove]. destruct IH as (Hs & Ht & Hg). cbn [fst snd].
  assert (Hg' : ∀ eid', eid' ∈ remove → ∃ r' p, (eid', r') ∈ (eid, r) :: l ∧ w_store s !! r' = Some p ∧
            timed_out cfg now p = true ∧ ws_max_ack_retries cfg <= pa_retries p).
  { intros eid' (r' & p & Hin & Hp)%Hg. exists r', p. split; [by right|done]. }
  destruct (w_store s !! r) as [p|] eqn:Hp; [|split; [by apply sublist_cons|done]].
  destruct (timed_out cfg now p) eqn:Hto; cbn [negb]; [|split; [by apply sublist_cons|done]].
  destruct (Z.ltb_spec (pa_retries p) (ws_max_ack_retries cfg)) as [Hlt|Hle].
  - split; [by apply sublist_skip|]. split; [|done]. intros r' [->|Hr]%elem_of_cons; [by exists p|by apply Ht].
  - split; [by apply sublist_cons|]. split; [done|].
    intros eid' [->|He]%elem_of_cons; [|by apply Hg']. exists r, p. split; [by left|done].
Qed.

Lemma late_used_up s now eid : acks_base s → late s now eid → used_up s eid.
Proof.
  intros Hb (r & p & Hin & Hp & _ & Hle). destruct (refs_stored _ Hb _ Hin) as (q & Hq & He). cbn in Hq, He.
  exists r, p. split; [done|]. split; [congruence|done].
Qed.

Lemma check_acks_ok now s : acks_base s → acks_ok (_retransmit_or_expire_pending_acks cfg now s).
Proof.
  intros Hb. unfold _retransmit_or_expire_pending_acks. pose proof (classify_sound now s) as Hc.
  destruct (classify cfg now s) as [todo remove]. destruct Hc as (Hs & Ht & Hg).
  apply run_job_ok; [done| |by intros eid He; eapply late_used_up, Hg]. split; [|done]. eapply sublist_NoDup; [by apply refs_nodup|done].
Qed.

Lemma route_acks_ok i frame s s' : route validation_text message_ack cfg i frame s = Ret s' → acks_ok s → acks_ok s'.
Proof.
  intros Hr Hok. destruct frame as [| | | | | |data]; try done. cbn [route] in Hr.
  assert (Hsame : w_pending_acks s' = w_pending_acks s → w_store s' = w_store s → w_job s' = w_job s → acks_ok s').
  { intros ? ? ?. eapply acks_ok_ext; [..|exact Hok]; auto. }
  assert (Hfail : ∀ rid f, (let! found := in_pending rid s in
            Ret match found with Some r => resolve r (Failed f) s | None => s end) = Ret s' → acks_ok s').
  { intros rid f Hq. destruct (in_pending rid s) as [|[r|]]; try done; cbn in Hq; injection Hq as <-; by apply Hsame. }
  destruct (_is_client_heartbeat_ping data); [destruct (ar_pong_error i); by simplify_eq|].
  destruct (_ && _).
  { injection Hr as <-. clear Hsame Hfail. unfold _consume_ack_frame. repeat case_match; try done.
    destruct Hok as [Hb Hj]. split; [by apply base_del|done]. }
  destruct (is_some _); [by eapply Hfail|].
  destruct (negb _); [by eapply Hfail|].
  destruct (py_in _ _) as [|[]]; [done| |by eapply Hfail].
  unfold _resolve_result_frame in Hr. destruct (result_envelope _) as [|d]; [done|]. cbn [rbind] in Hr.
  destruct (validate_envelope _ _ _ _) as [|e]; [done|].
  destruct (in_pending _ s) as [|[r|]]; try done; cbn in Hr; injection Hr as <-; [by apply Hsame|].
  destruct (ws_has_on_message cfg); by apply Hsame.
Qed.

Lemma cancel_acks_ok s : acks_ok s → acks_ok (cancel_job s).
Proof. intros Hok. unfold cancel_job. destruct (w_job s); [|done]. eapply acks_ok_ext; [..|exact Hok]; auto. Qed.

Lemma step_acks_ok s s' : step validation_text message_ack cfg s s' → acks_ok s → acks_ok s'.
Proof.
  intros Hstep Hok. destruct Hstep as [e awaits _|now x Hx|x Hx|i frame _|text _|rid _|rid _|now Hj _ _|now sent j Hj|_|_|_|_| |_|_|_].
  - eapply acks_ok_ext; [..|exact Hok]; auto.
  - unfold resume_send. set (s1 := with_sending _ s).
    assert (Hok1 : acks_ok s1) by (eapply acks_ok_ext; [..|exact Hok]; auto).
    apply (register_acks_ok now (sd_envelope x)) in Hok1. destruct (sd_awaits x); [|done].
    eapply acks_ok_ext; [..|exact Hok1]; auto.
  - eapply acks_ok_ext; [..|exact Hok]; auto.
  - destruct frame as [j|]; [|done]. cbn [receive]. destruct (route _ _ _ i j s) as [text|s1] eqn:Hr.
    + eapply acks_ok_ext; [..|exact Hok]; auto.
    + by eapply route_acks_ok.
  - eapply acks_ok_ext; [..|exact Hok]; auto.
  - eapply acks_ok_ext; [..|exact Hok]; auto.
  - eapply acks_ok_ext; [..|exact Hok]; auto.
  - by apply check_acks_ok, acks_tables.
  - destruct Hok as [Hb Hjob]. destruct (Hjob j Hj) as [Hr Hg]. unfold resume_job. destruct sent.
    + destruct (count_retry_ok now (jb_current j) (jb_todo j) (jb_remove j) s Hb Hr Hg) as (? & ? & ?). by apply run_job_ok.
    + apply run_job_ok; [by destruct Hb| |done]. destruct Hr as [[_ ?]%NoDup_cons Hall]. split; [done|]. intros r ?. apply Hall. by right.
  - eapply acks_ok_ext; [..|exact Hok]; auto.
  - eapply acks_ok_ext; [..|exact Hok]; auto.
  - by apply cancel_acks_ok.
  - eapply acks_ok_ext; [..|exact Hok]; auto.
  - eapply acks_ok_ext; [..|apply cancel_acks_ok, Hok]; auto.
  - eapply acks_ok_ext; [..|exact Hok]; auto.
  - destruct Hok as [[H1 H2 H3] H4]. split; [|exact H4]. split; cbn; [constructor|by intros x ?%elem_of_nil|done].
  - eapply acks_ok_ext; [..|exact Hok]; auto.
Qed.

Lemma init_acks_ok b : acks_ok (init b).
Proof.
  split; [|done]. split; cbn [init w_pending_acks w_store]; [constructor|by intros x ?%elem_of_nil|].
  intros r p. by rewrite lookup_empty.
Qed.

(** ** What a retransmission costs *)

Definition times (r : nat) (l : list nat) : Z := Z.of_nat (count_occ Nat.eq_dec l r).

Lemma times_snoc r l x : times r (l ++ [x]) = times r l + (if decide (x = r) then 1 else 0).
Proof.
  unfold times. rewrite count_occ_app. cbn [count_occ]. destruct (Nat.eq_dec x r), (decide (x = r)); try done; lia.
Qed.

Definition retries_of s (r : nat) : Z := match w_store s !! r with Some p => pa_retries p | None => 0 end.

(** The send a round is suspended in. *)
Definition flying s (r : nat) : Z :=
  match w_job s with Some j => if decide (jb_current j = r) then 1 else 0 | None => 0 end.

(** Every retransmission was counted, or its send is on [extra] or was lost. *)
Definition paid (extra : nat → Z) s : Prop :=
  ∀ r, times r (w_resends s) <= retries_of s r + times r (w_lost s) + extra r.
Abbreviation paid_ok s := (paid (flying s) s).

Lemma paid_ext extra s s' :
  w_store s' = w_store s → w_resends s' = w_resends s → w_lost s' = w_lost s → paid extra s → paid extra s'.
Proof. unfold paid, retries_of. by intros -> -> ->. Qed.

Lemma paid_ok_ext s s' :
  w_store s' = w_store s → w_resends s' = w_resends s → w_lost s' = w_lost s → w_job s' = w_job s →
  paid_ok s → paid_ok s'.
Proof. intros Hh Hr Hl Hj Hp. unfold flying. rewrite Hj. by apply (paid_ext _ s). Qed.

Lemma count_paid now r s : is_Some (w_store s !! r) →
  paid (λ r', if decide (r = r') then 1 else 0) s → paid (λ _, 0) (count_retry now r s).
Proof.
  intros [p Hp] Hpaid r'. specialize (Hpaid r'). unfold retries_of in *. cbv beta in Hpaid. cbn.
  destruct (decide (r = r')) as [<-|Hne]; [rewrite lookup_alter_eq, Hp in *; cbn in *; lia|].
  rewrite lookup_alter_ne by done. lia.
Qed.

Lemma count_paid' now r s : paid (λ _, 0) s → paid (λ _, 0) (count_retry now r s).
Proof.
  intros Hpaid r'. specialize (Hpaid r'). unfold retries_of in *. cbn.
  destruct (decide (r = r')) as [<-|Hne]; [|by rewrite lookup_alter_ne].
  rewrite lookup_alter_eq. destruct (w_store s !! r); cbn in *; lia.
Qed.

Lemma lost_paid r s : paid (λ r', if decide (r = r') then 1 else 0) s → paid (λ _, 0) (note_lost r s).
Proof.
  intros Hpaid r'. specialize (Hpaid r'). change (w_lost (note_lost r s)) with (w_lost s ++ [r])%list. rewrite times_snoc.
  change (retries_of (note_lost r s) r') with (retries_of s r'). change (w_resends (note_lost r s)) with (w_resends s).
  cbv beta in *. destruct (decide (r = r')); lia.
Qed.

Lemma run_job_paid now todo remove s : paid (λ _, 0) s → paid_ok (run_job now todo remove s).
Proof.
  revert s. induction todo as [|r todo IH]; intros s Hpaid; cbn [run_job].
  - assert (Hf : paid (λ _, 0) (fold_left (λ s eid, _expire_pending_ack now eid s) remove s)); [|exact Hf].
    revert s Hpaid. induction remove as [|eid l IH]; intros s Hpaid; cbn [fold_left]; [done|].
    by apply IH, (paid_ext _ s).
  - destruct (w_open s); [|by apply IH, count_paid'].
    destruct (w_store s !! r); [|by apply IH]. intros r'. specialize (Hpaid r').
    cbv beta in Hpaid. unfold flying, retries_of in *. cbn [with_job with_history w_resends w_lost w_job w_store jb_current].
    rewrite times_snoc. cbn [send_frame snd w_store]. destruct (decide (r = r')); lia.
Qed.

Lemma cancel_paid s : paid_ok s → paid_ok (cancel_job s).
Proof.
  intros Hp. unfold cancel_job. destruct (w_job s) as [j|] eqn:Hj; [|done].
  apply (lost_paid (jb_current j) s). unfold flying in Hp. by rewrite Hj in Hp.
Qed.

Lemma register_paid now e s : paid_ok s → paid_ok (_register_pending_ack now e s).
Proof.
  intros Hp. unfold _register_pending_ack. destruct (e_id e) as [eid|]; [|done]. destruct (_ || _); [done|].
  intros r. specialize (Hp r). unfold flying, retries_of in *. cbn.
  destruct (decide (fresh (dom (w_store s)) = r)) as [<-|Hne]; [|by rewrite lookup_insert_ne].
  rewrite lookup_insert_eq. cbn.
  by rewrite (proj1 (not_elem_of_dom (w_store s) _) (is_fresh _)) in Hp.
Qed.

Lemma route_history i frame s s' : route validation_text message_ack cfg i frame s = Ret s' →
  w_store s' = w_store s ∧ w_resends s' = w_resends s ∧ w_lost s' = w_lost s ∧ w_job s' = w_job s.
Proof.
  unfold route, _resolve_error_frame, _resolve_missing_result, _resolve_result_frame, _consume_ack_frame, rbind.
  intros Hr. repeat (case_match; try done); simplify_eq; done.
Qed.

Lemma step_paid s s' : step validation_text message_ack cfg s s' → acks_ok s → paid_ok s → paid_ok s'.
Proof.
  intros Hstep Hok Hp.
  destruct Hstep as [e awaits _|now x Hx|x Hx|i frame _|text _|rid _|rid _|now Hj _ _|now sent j Hj|_|_|_|_| |_|_|_];
    try (eapply paid_ok_ext; [..|exact Hp]; done).
  - unfold resume_send. set (s1 := with_sending _ s). assert (Hp1 : paid_ok s1) by exact Hp.
    apply (register_paid now (sd_envelope x)) in Hp1. by destruct (sd_awaits x).
  - destruct frame as [j|]; [|done]. cbn [receive]. destruct (route _ _ _ i j s) as [text|s1] eqn:Hr; [exact Hp|].
    apply route_history in Hr as (? & ? & ? & ?). by apply (paid_ok_ext s).
  - unfold _retransmit_or_expire_pending_acks. destruct (classify cfg now s). apply run_job_paid.
    unfold flying in Hp. by rewrite Hj in Hp.
  - unfold flying in Hp. rewrite Hj in Hp. apply run_job_paid. destruct sent; [|by apply lost_paid].
    apply count_paid; [|done]. destruct (acks_job _ Hok j Hj) as [[_ Hall] _].
    destruct (Hall (jb_current j) ltac:(by left)) as (p & Hc & _). eauto.
  - by apply cancel_paid.
  - apply cancel_paid in Hp. exact Hp.
Qed.

(** With the counters in their budget, so are the retransmissions. *)
Lemma resends_le s r : acks_ok s → paid_ok s → times r (w_resends s) <= budget + times r (w_lost s).
Proof.
  intros [Hb Hj] Hp. specialize (Hp r). unfold flying, retries_of in Hp.
  destruct (w_job s) as [j|] eqn:Hjob.
  - destruct (decide (jb_current j = r)) as [<-|].
    + destruct (Hj j eq_refl) as [[_ Hall] _]. destruct (Hall (jb_current j) ltac:(by left)) as (p & Hc & Hlt).
      rewrite Hc in Hp. lia.
    + destruct (w_store s !! r) as [p|] eqn:Hr; [apply (retries_le s Hb) in Hr; lia|lia].
  - destruct (w_store s !! r) as [p|] eqn:Hr; [apply (retries_le s Hb) in Hr; lia|lia].
Qed.

Lemma init_paid b : paid_ok (init b).
Proof. intros r. unfold flying, retries_of. cbn. by rewrite lookup_empty. Qed.

(** ** What the breaker hears *)

Definition failures (n : nat) (now : Z) (b : option CircuitBreaker.t) : option CircuitBreaker.t :=
  Nat.iter n (fmap (CircuitBreaker.record_failure now)) b.

Lemma expire_breaker now remove s :
  w_breaker (fold_left (λ s eid, _expire_pending_ack now eid s) remove s) = failures (length remove) now (w_breaker s).
Proof.
  revert s. induction remove as [|eid l IH]; intros s; cbn [fold_left length]; [done|].
  rewrite IH. unfold failures. rewrite Nat.iter_succ_r. done.
Qed.

Lemma run_job_breaker now todo remove s :
  w_breaker (run_job now todo remove s) = w_breaker s ∨
  w_breaker (run_job now todo remove s) = failures (length remove) now (w_breaker s).
Proof.
  revert s. induction todo as [|r todo IH]; intros s; cbn [run_job]; [right; apply expire_breaker|].
  destruct (w_open s); [|apply (IH (count_retry now r s))]. destruct (w_store s !! r); [by left|apply IH].
Qed.

(** The end of a round that gives up the ids [gone]. *)
Lemma run_job_tells now todo remove s :
  w_breaker (run_job now todo remove s) ≠ w_breaker s →
  remove ≠ [] ∧ w_breaker (run_job now todo remove s) = failures (length remove) now (w_breaker s).
Proof. intros Hb. destruct (run_job_breaker now todo remove s) as [?|Hf]; [done|]. split; [by intros ->|done]. Qed.

Lemma route_breaker i frame s s' :
  route validation_text message_ack cfg i frame s = Ret s' → w_breaker s' = w_breaker s.
Proof.
  unfold route, _resolve_error_frame, _resolve_missing_result, _resolve_result_frame, _consume_ack_frame, rbind.
  intros Hr. repeat (case_match; try done); simplify_eq; done.
Qed.

(** The ids a round in state [s] gives up when it ends at [now]. *)
Definition round_gone s (now : Z) (gone : list string) : Prop :=
  (w_job s = None ∧ gone = (classify cfg now s).2 ∧ ∀ eid, eid ∈ gone → late s now eid) ∨
  (∃ j, w_job s = Some j ∧ gone = jb_remove j ∧ given_up s gone).

Lemma step_breaker s s' :
  step validation_text message_ack cfg s s' → acks_ok s → w_breaker s' ≠ w_breaker s →
  ∃ now gone, round_gone s now gone ∧ gone ≠ [] ∧ w_breaker s' = failures (length gone) now (w_breaker s).
Proof.
  intros Hstep Hok Hb.
  destruct Hstep as [e awaits _|now x Hx|x Hx|i frame _|text _|rid _|rid _|now Hj _ _|now sent j Hj|_|_|_|_| |_|_|_];
    try (by destruct Hb).
  - destruct Hb. unfold resume_send, _register_pending_ack. by repeat case_match.
  - destruct Hb. destruct frame as [j|]; [|done]. cbn [receive]. destruct (route _ _ _ i j s) eqn:Hr; [done|].
    by eapply route_breaker.
  - exists now, (classify cfg now s).2. pose proof (classify_sound now s) as Hc.
    unfold _retransmit_or_expire_pending_acks in Hb |- *.
    destruct (classify cfg now s) as [todo remove] eqn:Hcl. destruct Hc as (_ & _ & Hg).
    apply run_job_tells in Hb. split; [|exact Hb]. left. by rewrite Hcl.
  - exists now, (jb_remove j). destruct (acks_job _ Hok j Hj) as [_ Hg].
    split; [right; by exists j|]. unfold resume_job in *.
    destruct sent;
      [apply (run_job_tells now (jb_todo j) (jb_remove j) (count_retry now (jb_current j) s) Hb)
      |apply (run_job_tells now (jb_todo j) (jb_remove j) (note_lost (jb_current j) s) Hb)].
  - destruct Hb. unfold cancel_job. by destruct (w_job s).
  - destruct Hb. cbn. unfold cancel_job. by destruct (w_job s).
Qed.

End Acks.

(** What every step keeps holds of every reachable state. *)
Lemma reachable_keeps {A} (R : A → A → Prop) (P : A → Prop) x y :
  (∀ a b, R a b → P a → P b) → rtc R x y → P x → P y.
Proof. intros HR. induction 1; eauto. Qed.

(** ** Properties *)

(** C19: over every interleaving of sends, answers, losses, timeouts and
    reconnections, and of the pieces `close` is suspended between, a request
    waits exactly while it is in the table of pending requests (one whose timeout
    has just struck apart, until its task resumes), the table of request ids has
    the same entries, and an answer that a request is given binds to an envelope
    that was sent under its request id. *)
Theorem ws_answers_are_bound `{PyRuntime, Pydantic} (validation_text : list json → string)
    (message_ack : json → option string) (cfg : settings) (b : option CircuitBreaker.t) (s : t) :
  rtc (step validation_text message_ack cfg) (init b) s →
  (∀ rid, w_futures s !! rid ≠ Some TimedOut → rid ∈ w_pending s ↔ w_futures s !! rid = Some Unset) ∧
  dom (w_pending_request_ids s) = w_pending s ∧
  (∀ rid e, w_futures s !! rid = Some (Result e) →
     ∃ request, (rid, request) ∈ w_frames s ∧ assert_correlation_binds (str_id request) e = Ret tt).
Proof.
  intros Hs. assert (Hok : requests_ok s).
  { eapply reachable_keeps; [|exact Hs|apply init_requests_ok]. apply step_requests_ok. }
  destruct Hok. done.
Qed.

(** C39: retransmissions stay within their budget, over every interleaving: the
    envelope of an acknowledgement that is waited for is put on the wire again at
    most as often as configured, not counting the sends that failed or were
    cancelled (which the code does not count, so that there may be any number of
    them), and its counter stays within the budget as well.  The breaker hears
    only at the end of a round, of one failure for each id that the round gives
    up, and of nothing else: ids that a check finds late and out of retries when
    it starts, and that are therefore ids of envelopes that used up their
    retries. *)
Theorem ack_budget_respected `{PyRuntime, Pydantic} (validation_text : list json → string)
    (message_ack : json → option string) (cfg : settings) (b : option CircuitBreaker.t) (s : t) :
  rtc (step validation_text message_ack cfg) (init b) s →
  (∀ r, times r (w_resends s) <= Z.max 0 (ws_max_ack_retries cfg) + times r (w_lost s)) ∧
  (∀ r p, w_store s !! r = Some p → pa_retries p <= Z.max 0 (ws_max_ack_retries cfg)) ∧
  (∀ s', step validation_text message_ack cfg s s' → w_breaker s' ≠ w_breaker s →
     ∃ now gone, round_gone cfg s now gone ∧ gone ≠ [] ∧ w_breaker s' = failures (length gone) now (w_breaker s)).
Proof.
  intros Hs. assert (Hok : acks_ok cfg s ∧ paid (flying s) s).
  { eapply (reachable_keeps _ (λ s, acks_ok cfg s ∧ paid (flying s) s)); [|exact Hs|].
    - intros s1 s2 Hstep [Ha Hp]. split; [by eapply step_acks_ok|by eapply step_paid].
    - split; [apply init_acks_ok|apply init_paid]. }
  destruct Hok as [Hok Hp]. split_and!.
  - intros r. by apply resends_le.
  - apply (retries_le cfg s), acks_tables, Hok.
  - intros s' Hstep Hb. by eapply step_breaker.
Qed.

(** A frame that is JSON but no object ends the receive loop: every request
    that waits fails, whoever it was sent to, and no later frame is read until
    the transport connects again. *)
Theorem odd_frame_stops_receiving `{PyRuntime, Pydantic} (validation_text : list json → string)
    (message_ack : json → option string) (cfg : settings) (i : arrival) (l : list json) (s : t) :
  requests_ok s → w_receiving s = true →
  let s' := receive validation_text message_ack cfg i (Some (JList l)) s in
  step validation_text message_ack cfg s s' ∧ w_receiving s' = false ∧ w_pending s' = ∅ ∧
  ∀ rid, rid ∈ w_pending s → w_futures s !! rid ≠ Some TimedOut → ∃ x, w_futures s' !! rid = Some (Failed x).
Proof.
  intros Hok Hr s'. split; [by apply step_receive|]. split_and!; [done|done|].
  intros rid Hrid Ht. pose proof Hrid as Hf%(waiting_iff _ Hok); [|done]. cbn. rewrite map_lookup_imap, Hf. cbn.
  rewrite bool_decide_true by done. eexists. done.
Qed.

(** Retransmissions that cannot be sent are not counted, so a lone envelope
    whose sends keep failing is tried again at every check and never given up:
    after a check and its failed send nothing has changed but the frames. *)
Theorem failing_resends_never_expire (cfg : settings) (now now' : Z) (eid : string) (r : nat) (p : PendingAck) (s : t) :
  w_job s = None → w_open s = true → w_pending_acks s = [(eid, r)] → w_store s !! r = Some p →
  timed_out cfg now p = true → pa_retries p < ws_max_ack_retries cfg →
  ∃ j, w_job (_retransmit_or_expire_pending_acks cfg now s) = Some j ∧
    let s' := resume_job now' false j (_retransmit_or_expire_pending_acks cfg now s) in
    w_job s' = None ∧ w_open s' = true ∧ w_pending_acks s' = [(eid, r)] ∧ w_store s' = w_store s ∧
    w_breaker s' = w_breaker s.
Proof.
  intros Hj Ho Ha Hp Ht Hlt. unfold _retransmit_or_expire_pending_acks, classify.
  rewrite Ha. cbn [foldr fst snd]. rewrite Hp, Ht, (proj2 (Z.ltb_lt _ _) Hlt). cbn [negb run_job fst snd].
  rewrite Ho, Hp. eexists. split; [reflexivity|]. cbn. done.
Qed.

(** ** Examples *)
Module ToyWs.

#[local] Existing Instance StrictPydantic.strict.
#[export] Instance runtime : PyRuntime := {| float_repr := λ _, "0.0"; float_of_str := λ _, None |}.

Definition vtext (_ : list json) : string := "invalid".
Definition ack_of (j : json) : option string :=
  match j with JObj d => as_str (j_get "original_envelope_id" d) | _ => None end.
Definition cfg : settings := mkSettings 10 0 false.
Definition once_more : settings := mkSettings 10 1 false.

Definition mail (id : string) : Envelope :=
  mkEnvelope (Some id) "0.1" None "urn:asap:agent:a" "urn:asap:agent:b" "task.request" JNull None None true None.
Definition fields (payload_type : string) (payload : json) (correlation : json) : json :=
  JObj [("asap_version", JStr "0.1"); ("sender", JStr "urn:asap:agent:b"); ("recipient", JStr "urn:asap:agent:a");
        ("payload_type", JStr payload_type); ("payload", payload); ("correlation_id", correlation)].
(** The answer to the first request, and the acknowledgement of an envelope. *)
Definition answer : json :=
  JObj [("id", JStr "ws-req-1"); ("result", JObj [("envelope", fields "TaskResponse" (JObj []) (JStr "m1"))])].
Definition ack (id : string) : json :=
  JObj [("method", JStr ASAP_ACK_METHOD);
        ("params", JObj [("envelope", fields "MessageAck" (JObj [("original_envelope_id", JStr id)]) JNull)])].

Definition at_ (now : Z) : arrival := mkArrival now "fresh" None.
Definition breaker : option CircuitBreaker.t := Some (CircuitBreaker.init 5 60).

Abbreviation get c j s := (receive vtext ack_of c (at_ 0) (Some j) s).
Definition x1 : sending := mkSending "ws-req-1" (mail "m1") true.

Definition asked : t := start_send (mail "m1") true (init breaker).
(** The request is sent, its task resumes, the answer arrives. *)
Definition waiting : t := resume_send 0 x1 asked.
Definition answered : t := get cfg answer waiting.
(** The answer arrives while the task is still suspended in its send. *)
Definition ignored : t := get cfg answer asked.
Definition too_early : t := resume_send 0 x1 ignored.

(** Two envelopes wait for their acknowledgement; the first has used up its
    retry when a check finds both late and sends the second again; the
    acknowledgement of the first arrives during that send. *)
Definition y1 : sending := mkSending "ws-req-1" (mail "m1") false.
Definition y3 : sending := mkSending "ws-req-3" (mail "m2") false.
Definition job_of (s : t) : job := default (mkJob 0 [] []) (w_job s).
Definition started : t := start_send (mail "m1") false (init breaker).
Definition one : t := resume_send 0 y1 started.
Definition one_checked : t := _retransmit_or_expire_pending_acks once_more 20 one.
Definition one_retried : t := resume_job 20 true (job_of one_checked) one_checked.
Definition second_started : t := start_send (mail "m2") false one_retried.
Definition both : t := resume_send 25 y3 second_started.
Definition checking : t := _retransmit_or_expire_pending_acks once_more 60 both.
Definition acked : t := get once_more (ack "m1") checking.
Definition resent : t := resume_job 60 true (job_of acked) acked.

Abbreviation two_step := (step vtext ack_of once_more).

Lemma asked_reached : rtc (step vtext ack_of cfg) (init breaker) asked.
Proof. apply rtc_once. exact (step_start vtext ack_of cfg (init breaker) (mail "m1") true eq_refl). Qed.

Lemma receiving_both_ways :
  w_sending asked = [x1] ∧ w_receiving waiting = true ∧ w_receiving asked = true ∧ w_sending ignored = [x1].
Proof. split_and!; vm_compute; reflexivity. Qed.

Lemma sending_x1 s : w_sending s = [x1] → x1 ∈ w_sending s.
Proof. intros ->. by left. Qed.

Lemma answered_reached : rtc (step vtext ack_of cfg) (init breaker) answered.
Proof.
  etrans; [exact asked_reached|]. destruct receiving_both_ways as (Hx & Hr & _).
  apply (rtc_l _ _ waiting); [exact (step_resume vtext ack_of cfg asked 0 x1 (sending_x1 asked Hx))|].
  apply rtc_once. exact (step_receive vtext ack_of cfg waiting (at_ 0) (Some answer) Hr).
Qed.

Lemma early_reached : rtc (step vtext ack_of cfg) (init breaker) too_early.
Proof.
  etrans; [exact asked_reached|]. destruct receiving_both_ways as (_ & _ & Hr & Hx).
  apply (rtc_l _ _ ignored); [exact (step_receive vtext ack_of cfg asked (at_ 0) (Some answer) Hr)|].
  apply rtc_once. exact (step_resume vtext ack_of cfg ignored 0 x1 (sending_x1 ignored Hx)).
Qed.

Lemma job_one : w_job one_checked = Some (job_of one_checked).
Proof. vm_compute. reflexivity. Qed.
Lemma open_retried : w_open one_retried = true.
Proof. vm_compute. reflexivity. Qed.
Lemma sending_second : y3 ∈ w_sending second_started.
Proof.
  assert (w_sending second_started = [y3]) as -> by (vm_compute; reflexivity). by left.
Qed.
Lemma can_check_both : w_job both = None ∧ w_open both = true ∧ w_closed both = false.
Proof. split_and!; vm_compute; reflexivity. Qed.
Lemma receiving_checking : w_receiving checking = true.
Proof. vm_compute. reflexivity. Qed.
Lemma job_acked : w_job acked = Some (job_of acked).
Proof. vm_compute. reflexivity. Qed.

Lemma one_reached : rtc two_step (init breaker) one.
Proof.
  apply (rtc_l _ _ started); [exact (step_start vtext ack_of once_more (init breaker) (mail "m1") false eq_refl)|].
  apply rtc_once. apply (step_resume vtext ack_of once_more started 0 y1). by left.
Qed.

Lemma both_reached : rtc two_step (init breaker) both.
Proof.
  etrans; [exact one_reached|].
  apply (rtc_l _ _ one_checked); [exact (step_check vtext ack_of once_more one 20 eq_refl eq_refl eq_refl)|].
  apply (rtc_l _ _ one_retried); [exact (step_resent vtext ack_of once_more one_checked 20 true _ job_one)|].
  apply (rtc_l _ _ second_started);
    [exact (step_start vtext ack_of once_more one_retried (mail "m2") false open_retried)|].
  apply rtc_once. exact (step_resume vtext ack_of once_more second_started 25 y3 sending_second).
Qed.

Lemma acked_reached : rtc two_step (init breaker) acked.
Proof.
  etrans; [exact both_reached|]. destruct can_check_both as (Hj & Ho & Hc).
  apply (rtc_l _ _ checking); [exact (step_check vtext ack_of once_more both 60 Hj Ho Hc)|].
  apply rtc_once. exact (step_receive vtext ack_of once_more checking (at_ 0) (Some (ack "m1")) receiving_checking).
Qed.

End ToyWs.
#[local] Existing Instances StrictPydantic.strict ToyWs.runtime.

Lemma ws_answers_are_bound_witness :
  (∀ rid, w_futures ToyWs.answered !! rid ≠ Some TimedOut →
     rid ∈ w_pending ToyWs.answered ↔ w_futures ToyWs.answered !! rid = Some Unset) ∧
  dom (w_pending_request_ids ToyWs.answered) = w_pending ToyWs.answered ∧
  (∀ rid e, w_futures ToyWs.answered !! rid = Some (Result e) →
     ∃ request, (rid, request) ∈ w_frames ToyWs.answered ∧ assert_correlation_binds (str_id request) e = Ret tt).
Proof. exact (ws_answers_are_bound ToyWs.vtext ToyWs.ack_of ToyWs.cfg ToyWs.breaker _ ToyWs.answered_reached). Defined.

(** Envelope m1 was sent again once and is given up, with one failure for the
    breaker, when the round that sends m2 again ends. *)
Lemma ack_budget_respected_witness :
  times 0 (w_resends ToyWs.acked) = 1 ∧ w_lost ToyWs.acked = [] ∧
  (∀ r, times r (w_resends ToyWs.acked) <= Z.max 0 1 + times r (w_lost ToyWs.acked)) ∧
  ∃ now gone, round_gone ToyWs.once_more ToyWs.acked now gone ∧ gone ≠ [] ∧
    w_breaker ToyWs.resent = failures (length gone) now (w_breaker ToyWs.acked).
Proof.
  destruct (ack_budget_respected ToyWs.vtext ToyWs.ack_of ToyWs.once_more ToyWs.breaker _ ToyWs.acked_reached)
    as (Hr & _ & Hb).
  split; [vm_compute; reflexivity|]. split; [vm_compute; reflexivity|]. split; [exact Hr|].
  apply Hb; [exact (step_resent ToyWs.vtext ToyWs.ack_of ToyWs.once_more ToyWs.acked 60 true _ ToyWs.job_acked)|].
  vm_compute. discriminate.
Defined.

(** An answer that arrives while the send of its request is still suspended
    finds no pending request and is dropped; the request then waits for it in
    vain. *)
Theorem early_answer_is_lost :
  rtc (step ToyWs.vtext ToyWs.ack_of ToyWs.cfg) (init ToyWs.breaker) ToyWs.too_early ∧
  w_futures ToyWs.too_early !! "ws-req-1" = Some Unset ∧ w_pushed ToyWs.too_early = [] ∧
  ∃ e, w_futures ToyWs.answered !! "ws-req-1" = Some (Result e).
Proof.
  split; [exact ToyWs.early_reached|]. split; [vm_compute; reflexivity|]. split; [vm_compute; reflexivity|].
  eexists. vm_compute. reflexivity.
Qed.

(** The ids to give up are chosen before the retransmissions: an envelope that
    is acknowledged while another one is sent again is still reported to the
    breaker as a failure. *)
Theorem late_ack_still_counts :
  rtc (step ToyWs.vtext ToyWs.ack_of ToyWs.once_more) (init ToyWs.breaker) ToyWs.acked ∧
  PyDict.get "m1" (w_pending_acks ToyWs.acked) = None ∧
  step ToyWs.vtext ToyWs.ack_of ToyWs.once_more ToyWs.acked ToyWs.resent ∧
  (CircuitBreaker.consecutive_failures <$> w_breaker ToyWs.acked) = Some 0 ∧
  (CircuitBreaker.consecutive_failures <$> w_breaker ToyWs.resent) = Some 1.
Proof.
  split; [exact ToyWs.acked_reached|]. split; [vm_compute; reflexivity|].
  split; [exact (step_resent ToyWs.vtext ToyWs.ack_of ToyWs.once_more ToyWs.acked 60 true _ ToyWs.job_acked)|].
  split; vm_compute; reflexivity.
Qed.
