(* ===== verification/RequestMetrics.v ===== *)
(** * Accounting and error codes of the request handler

    Properties of `src/src/asap/transport/_request_handler.py` as modelled in
    [RequestHandler]: how requests are counted, which JSON-RPC code a malformed
    request gets, what a client learns of an internal error, and two inputs whose
    error escapes the code that was meant for it. *)

From Stdlib Require Import ZArith QArith Lqa Lia Ascii String.
From stdpp Require Import base tactics list gmap strings.
From S2P Require Import Prelude PyValue Digest Identity ReplayGuard EnvelopeGuard AuditChain Metrics Errors LambdaCodec Compression Metering JsonRpc Handlers Middleware RequestHandler.
Open Scope string_scope.
Open Scope Z_scope.
Open Scope asap_scope.

Section Counting.
  Context {W : Type} `{PyRuntime, Pydantic, Codecs, Runtime}.
  Variable cf : config W.

Abbreviation TOTAL := "asap_requests_total".
Abbreviation SUCCESS := "asap_requests_success_total".
Abbreviation ERROR := "asap_requests_error_total".

Definition metrics_of (s : sstate W) : MetricsCollector.t := d_metrics (s_disp s).

(** The sum of a counter over all its labels. *)
Definition count (name : string) (s : sstate W) : Q := MetricsCollector.counter_total name (metrics_of s).

(** The three counters exist and agree: a request counts as a success or as an
    error. *)
Definition consistent (s : sstate W) : Prop :=
  Forall (λ name, MetricsCollector.has_counter name (metrics_of s) = true) [TOTAL; SUCCESS; ERROR]
  ∧ (count TOTAL s == count SUCCESS s + count ERROR s)%Q.

(** The counters stay consistent and the total grows by [n] or more. *)
Definition counted (n : Q) (s s' : sstate W) : Prop :=
  consistent s → consistent s' ∧ (count TOTAL s + n <= count TOTAL s')%Q.

Lemma counted_refl s : counted 0 s s.
Proof. intros Hs. split; [done|]. lra. Qed.

Lemma counted_trans n m s s1 s2 : counted n s s1 → counted m s1 s2 → counted (n + m) s s2.
Proof. intros H1' H2' Hs. destruct (H1' Hs) as [Hs1 ?]. destruct (H2' Hs1) as [Hs2 ?]. split; [done|]. lra. Qed.

Lemma counted_weaken n m s s' : (m <= n)%Q → counted n s s' → counted m s s'.
Proof. intros Hnm Hc Hs. destruct (Hc Hs). split; [done|]. lra. Qed.

(** A change that leaves the metrics alone. *)
Lemma counted_same s s' : metrics_of s' = metrics_of s → counted 0 s s'.
Proof. unfold counted, consistent, count. intros ->. intros ?. split; [done|]. lra. Qed.

Lemma counted_views s s' :
  (∀ name, name ∈ [TOTAL; SUCCESS; ERROR] → counter_view name (s_disp s') = counter_view name (s_disp s)) →
  counted 0 s s'.
Proof.
  unfold counter_view, counted, consistent, count, metrics_of. intros Hv.
  assert (Hv' : ∀ name, name ∈ [TOTAL; SUCCESS; ERROR] →
    MetricsCollector.counter_total name (d_metrics (s_disp s')) = MetricsCollector.counter_total name (d_metrics (s_disp s))
    ∧ MetricsCollector.has_counter name (d_metrics (s_disp s')) = MetricsCollector.has_counter name (d_metrics (s_disp s))).
  { intros name Hn. specialize (Hv name Hn). by injection Hv. }
  rewrite !Forall_cons. intros ((Ha & Hb & Hc & _) & Heq).
  destruct (Hv' TOTAL) as [T1 T2]; [by repeat (left || right)|].
  destruct (Hv' SUCCESS) as [S1 S2]; [right; left|].
  destruct (Hv' ERROR) as [E1 E2]; [right; right; left|].
  rewrite T1, T2, S1, S2, E1, E2. split; [split; [done|done]|]. lra.
Qed.

Lemma specific_counter_keeps name et m :
  name ∈ [TOTAL; SUCCESS; ERROR] →
  MetricsCollector.counter_total name (specific_counter et m) = MetricsCollector.counter_total name m
  ∧ MetricsCollector.has_counter name (specific_counter et m) = MetricsCollector.has_counter name m.
Proof.
  intros Hn.
  assert (Hk : ∀ n labels, n ∉ [TOTAL; SUCCESS; ERROR] →
    MetricsCollector.counter_total name (MetricsCollector.increment_counter n labels 1 m) = MetricsCollector.counter_total name m
    ∧ MetricsCollector.has_counter name (MetricsCollector.increment_counter n labels 1 m) = MetricsCollector.has_counter name m).
  { intros n labels Hne. rewrite MetricsCollector.has_counter_increment.
    rewrite MetricsCollector.counter_total_increment_ne; [done|]. by intros ->. }
  unfold specific_counter. cbv zeta.
  repeat match goal with |- context [if ?b then _ else _] => destruct b end; try done;
    apply Hk; apply (bool_decide_unpack _); vm_compute; done.
Qed.

(** Incrementing the total and one of its two parts. *)
Lemma counted_pair (part : string) l1 l2 h hv hl s s' :
  part = SUCCESS ∨ part = ERROR →
  metrics_of s' = MetricsCollector.observe_histogram h hv hl
    (MetricsCollector.increment_counter part l2 1
      (MetricsCollector.increment_counter TOTAL l1 1 (metrics_of s))) →
  counted 1 s s'.
Proof.
  unfold counted, consistent, count. intros Hp ->. rewrite !Forall_cons. intros ((Ha & Hb & Hc & _) & Heq).
  rewrite !MetricsCollector.counter_total_observe, !MetricsCollector.has_counter_observe,
    !MetricsCollector.has_counter_increment.
  split; [split; [done|]|].
  - destruct Hp as [-> | ->].
    + rewrite (MetricsCollector.counter_total_increment_ne TOTAL SUCCESS) by done.
      rewrite (MetricsCollector.counter_total_increment_ne ERROR SUCCESS) by done.
      rewrite (MetricsCollector.counter_total_increment_ne ERROR TOTAL) by done.
      rewrite (MetricsCollector.counter_total_increment SUCCESS) by (by rewrite MetricsCollector.has_counter_increment).
      rewrite (MetricsCollector.counter_total_increment_ne SUCCESS TOTAL) by done.
      rewrite MetricsCollector.counter_total_increment by done. lra.
    + rewrite (MetricsCollector.counter_total_increment_ne TOTAL ERROR) by done.
      rewrite (MetricsCollector.counter_total_increment_ne SUCCESS ERROR) by done.
      rewrite (MetricsCollector.counter_total_increment_ne SUCCESS TOTAL) by done.
      rewrite (MetricsCollector.counter_total_increment ERROR) by (by rewrite MetricsCollector.has_counter_increment).
      rewrite (MetricsCollector.counter_total_increment_ne ERROR TOTAL) by done.
      rewrite MetricsCollector.counter_total_increment by done. lra.
  - rewrite (MetricsCollector.counter_total_increment_ne TOTAL part) by (by destruct Hp as [-> | ->]).
    rewrite MetricsCollector.counter_total_increment by done. lra.
Qed.

(** The metrics of an error before the counter of its kind. *)
Definition counted_part (pt et : string) (d : Q) (m : MetricsCollector.t) : MetricsCollector.t :=
  let p := _normalize_payload_type_for_metrics cf pt in
  MetricsCollector.observe_histogram "asap_request_duration_seconds" d [("payload_type", p); ("status", "error")]
    (MetricsCollector.increment_counter ERROR [("payload_type", p); ("error_type", et)] 1
       (MetricsCollector.increment_counter TOTAL [("payload_type", p); ("status", "error")] 1 m)).

Lemma counted_error pt et d s : counted 1 s (on_disp (on_metrics (record_error_metrics cf pt et d)) s).
Proof.
  apply (counted_weaken (1 + 0)); [lra|].
  apply (counted_trans 1 0 _ (on_disp (on_metrics (counted_part pt et d)) s)).
  - eapply (counted_pair ERROR); [by right|reflexivity].
  - apply counted_views. intros name Hn. unfold counter_view. cbn [on_disp s_disp on_metrics d_metrics].
    change (record_error_metrics cf pt et d ?m) with (specific_counter et (counted_part pt et d m)).
    destruct (specific_counter_keeps name et (counted_part pt et d (d_metrics (s_disp s))) Hn) as [-> ->]. done.
Qed.

Lemma counted_success pt d s : counted 1 s (on_disp (on_metrics (record_success_metrics cf pt d)) s).
Proof. eapply (counted_pair SUCCESS); [by left|reflexivity]. Qed.

(** ** Steps of the pipeline *)

(** A refusal of the body is not counted; every other reply is. *)
Definition weight (h : HttpResponse) : Q := if http_refusal (hs_status h) then 0 else 1.

Definition gate {A} (m : ST (sstate W) stop A) : Prop := ∀ s,
  match m s with
  | (s', Raise (Reply h)) => counted (weight h) s s'
  | (s', _) => counted 0 s s'
  end.

Lemma gate_ret {A} (a : A) : gate (st_ret a).
Proof. intros s. apply counted_refl. Qed.
Lemma gate_crash {A} x : gate (st_stop (A := A) (Crash x)).
Proof. intros s. apply counted_refl. Qed.
Lemma gate_bind {A B} (m : ST (sstate W) stop A) (k : A → ST (sstate W) stop B) :
  gate m → (∀ a, gate (k a)) → gate (st_bind m k).
Proof.
  intros Hm Hk s. unfold st_bind. specialize (Hm s). destruct (m s) as [s1 [st|a]]; [done|].
  specialize (Hk a s1). destruct (k a s1) as [s2 [[h|x]|b]].
  - eapply counted_weaken; [|by eapply counted_trans]. lra.
  - by apply (counted_trans 0 0 s s1).
  - by apply (counted_trans 0 0 s s1).
Qed.

Lemma weight_le h : (weight h <= 1)%Q.
Proof. unfold weight. destruct (http_refusal _); lra. Qed.

Lemma gate_record {A} r pt et d : gate (reply_and_record (A := A) cf r pt et d).
Proof.
  intros s. unfold reply_and_record, st_bind, st_lift. destruct r as [x|h]; [apply counted_refl|].
  eapply counted_weaken; [apply weight_le|apply counted_error].
Qed.

(** Record an error, then stop. *)
Lemma gate_record_stop {A} pt et d r :
  gate (run! rec_err cf pt et d in stop_with (A := A) r).
Proof.
  intros s. unfold st_bind, rec_err, st_modify, stop_with, st_stop. cbv beta iota. destruct r as [x|h].
  - eapply counted_weaken; [|apply counted_error]. lra.
  - eapply counted_weaken; [apply weight_le|apply counted_error].
Qed.

Lemma gate_refuse {A} i e env id et text : gate (refuse_envelope (A := A) cf i e env id et text).
Proof. unfold refuse_envelope. destruct e; [apply gate_crash|apply gate_record_stop]. Qed.

Lemma gate_parse request : gate (_parse_and_validate_request cf request).
Proof.
  unfold _parse_and_validate_request. destruct (parse_json_body cf request) as [[e|m|x]|j] eqn:E.
  - intros s. unfold stop_with, st_stop. destruct (JSONResponse _ _ _) as [x|h] eqn:Ej; [apply counted_refl|].
    apply JSONResponse_ret in Ej as [Hs _]. unfold weight. rewrite Hs, (parse_refusal cf request e E).
    apply counted_refl.
  - apply gate_record.
  - apply gate_crash.
  - destruct j; try apply gate_record. destruct (validate_jsonrpc_request d); [apply gate_record|apply gate_ret].
Qed.

Lemma gate_authenticate i request id : gate (_authenticate_request cf i request id).
Proof.
  unfold _authenticate_request. destruct (cf_auth cf) as [auth|]; [|apply gate_ret]. intros s.
  destruct (verify_authentication _ _ _) as [w [[e|x]|a]]; [|by apply counted_same|by apply counted_same].
  set (s1 := on_disp _ s).
  match goal with |- context [reply_and_record cf ?r ?pt ?et ?d s1] =>
    pose proof (gate_record (A := option string) r pt et d s1) as Hg;
    destruct (reply_and_record cf r pt et d s1) as [s2 [[h|x]|a]]
  end.
  - eapply counted_weaken; [|eapply (counted_trans 0 _ s s1); [by apply counted_same|exact Hg]]. lra.
  - by apply (counted_trans 0 0 s s1); [apply counted_same|].
  - by apply (counted_trans 0 0 s s1); [apply counted_same|].
Qed.

Lemma gate_nonce i e id : gate (_validate_nonce cf i e id).
Proof.
  intros s. unfold _validate_nonce. destruct (validate_envelope_nonce _ _ _) as [store [x|u]]; [|by apply counted_same].
  set (s1 := mkS _ _ _).
  match goal with |- context [refuse_envelope cf i ?r e id ?et ?t s1] =>
    pose proof (gate_refuse (A := unit) i r e id et t s1) as Hg;
    destruct (refuse_envelope cf i r e id et t s1) as [s2 [[h|y]|a]]
  end.
  - eapply counted_weaken; [|eapply (counted_trans 0 _ s s1); [by apply counted_same|exact Hg]]. lra.
  - by apply (counted_trans 0 0 s s1); [apply counted_same|].
  - by apply (counted_trans 0 0 s s1); [apply counted_same|].
Qed.

Ltac gate_step :=
  first [ apply gate_ret | apply gate_crash | apply gate_refuse | apply gate_record | apply gate_record_stop
        | match goal with |- gate (match ?x with _ => _ end) => destruct x end ].

Lemma gate_prepare i request : gate (_prepare_request cf i request).
Proof.
  unfold _prepare_request. apply gate_bind; [apply gate_parse|]. intros r. cbv zeta.
  apply gate_bind; [apply gate_authenticate|]. intros a.
  apply gate_bind; [unfold _validate_envelope; cbv zeta; repeat gate_step|]. intros e.
  apply gate_bind; [unfold _verify_sender_matches_auth; repeat gate_step|]. intros _.
  apply gate_bind; [unfold _validate_timestamp; repeat gate_step|]. intros _.
  apply gate_bind; [apply gate_nonce|]. intros _. apply gate_ret.
Qed.

Lemma gate_dispatch i e id : gate (_dispatch_to_handler cf i e id).
Proof.
  intros s. unfold _dispatch_to_handler.
  assert (Hd : ∀ d r, dispatch_async (cf_registry cf) (cf_manifest cf) (i_usage_now i) (i_handler_ms i) e (s_disp s) = (d, r) →
    counted 0 s (on_disp (λ _, d) s)).
  { intros d r E. apply counted_views. intros name Hn. cbn [on_disp s_disp].
    assert (Hnd : not_dispatch_counter name).
    { rewrite !elem_of_cons, elem_of_nil in Hn. destruct Hn as [-> | [-> | [-> | []]]];
        apply (bool_decide_unpack _); vm_compute; exact I. }
    pose proof (keeps_dispatch_async name Hnd (cf_registry cf) (cf_manifest cf) (i_usage_now i)
      (i_handler_ms i) e (s_disp s)) as Hk.
    by rewrite E in Hk. }
  destruct (dispatch_async _ _ _ _ _ _) as [d r] eqn:E. specialize (Hd d r eq_refl).
  destruct r as [[err|rm|ty text]|response]; [|done|done|done].
  destruct (bool_decide _); [|destruct (bool_decide _); [|done]].
  1,2: match goal with |- match (run! rec_err cf ?pt ?et ?du in stop_with ?r) ?s1 with _ => _ end =>
    pose proof (gate_record_stop (A := Envelope) pt et du r s1) as Hg;
    destruct ((run! rec_err cf pt et du in stop_with r) s1) as [s2 [[h|y]|a]]
  end;
  (eapply counted_weaken; [|eapply (counted_trans 0 _ s); [exact Hd|exact Hg]]; lra).
Qed.

Lemma counted_exception i x id pt s : counted 1 s (fst (on_exception cf i x id pt s)).
Proof. unfold on_exception, _handle_internal_error. destruct (as_asap x) as [[e text]|]; apply counted_error. Qed.

(** Requests are accounted for: every message keeps the number of requests
    equal to the number of successes plus the number of errors, and every
    message that gets a JSON-RPC reply or a 503 is counted. *)
Theorem requests_are_accounted (i : inputs) (request : HttpRequest) (s s' : sstate W) (out : res exn HttpResponse) :
  handle_message cf i request s = (s', out) → consistent s →
  consistent s' ∧ (∀ h, out = Ret h → http_refusal (hs_status h) = false →
                   (count TOTAL s + 1 <= count TOTAL s')%Q).
Proof.
  intros Hh.
  enough (Hc : match out with Ret h => counted (weight h) s s' | Raise _ => counted 0 s s' end).
  { intros Hs. destruct out as [x|h].
    - destruct (Hc Hs) as [Hs' _]. by split.
    - destruct (Hc Hs) as [Hs' Hn]. split; [done|]. intros h' [= <-] Hr. unfold weight in Hn. by rewrite Hr in Hn. }
  unfold handle_message in Hh. pose proof (gate_prepare i request s) as Hp.
  assert (Hexc : ∀ s1 x id pt, counted 0 s s1 → on_exception cf i x id pt s1 = (s', out) →
    match out with Ret h => counted (weight h) s s' | Raise _ => counted 0 s s' end).
  { intros s1 x id pt Hs1 Hx. pose proof (counted_exception i x id pt s1) as He. rewrite Hx in He. cbn [fst] in He.
    pose proof (counted_trans 0 1 _ _ _ Hs1 He) as Ht.
    destruct out as [y|h]; (eapply counted_weaken; [|exact Ht]); [lra|]. pose proof (weight_le h). lra. }
  destruct (_prepare_request cf i request s) as [s1 [[h|x]|p]].
  - by injection Hh as <- <-.
  - by eapply Hexc.
  - unfold process in Hh. cbv zeta in Hh. unfold st_bind at 1 in Hh.
    pose proof (gate_dispatch i (pr_envelope p) (pr_request_id p) s1) as Hd.
    destruct (_dispatch_to_handler cf i (pr_envelope p) (pr_request_id p) s1) as [s2 [[h|x]|response]].
    + injection Hh as <- <-. eapply counted_weaken; [|exact (counted_trans _ _ _ _ _ Hp Hd)]. lra.
    + eapply Hexc; [exact (counted_trans _ _ _ _ _ Hp Hd)|exact Hh].
    + unfold st_bind at 1 in Hh. unfold _audit_log_operation, st_modify in Hh.
      set (s3 := match s_audit s2 with None => s2 | Some _ => _ end) in Hh.
      assert (H3 : counted 0 s s3).
      { eapply counted_weaken; [|eapply counted_trans; [exact (counted_trans _ _ _ _ _ Hp Hd)|]];
          [|apply counted_same; unfold s3; by destruct (s_audit s2)]. lra. }
      unfold _build_success_response, st_bind, st_modify in Hh. cbv zeta in Hh.
      pose proof (counted_success (e_payload_type (pr_envelope p)) (i_duration i) s3) as Hs4.
      set (s4 := on_disp _ s3) in Hh, Hs4. pose proof (counted_trans _ _ _ _ _ H3 Hs4) as H4.
      destruct (PyStr.contains _ _).
      * injection Hh as <- <-. eapply counted_weaken; [|exact H4]. match goal with |- context [weight ?h] => pose proof (weight_le h) end. lra.
      * unfold st_lift in Hh. destruct (JSONResponse _ _ _) as [x|h].
        { eapply Hexc; [|exact Hh]. eapply counted_weaken; [|exact H4]. lra. }
        injection Hh as <- <-. eapply counted_weaken; [|exact H4]. pose proof (weight_le h). lra.
Qed.

End Counting.

(** ** Error codes of malformed requests *)
Section Codes.
  Context {W : Type} `{PyRuntime, Pydantic, Codecs, Runtime} `{!PlainSerializer}.
  Variable cf : config W.

Definition params_not_object (body : obj) : bool :=
  match assoc "params" body with Some (JObj _) => false | Some _ => true | None => false end.

(** The code and the id the JSON-RPC specification asks for, when the request
    is malformed and its id, if any, has a valid type. *)
Definition malformed (request : HttpRequest) : option (Z * option rpc_id) :=
  match parse_json_body cf request with
  | Raise (BodyValueError _) => Some (PARSE_ERROR, None)
  | Raise _ => None
  | Ret (JObj body) =>
      match pd_request body with
      | Ret r => if String.eqb (rq_method r) ASAP_METHOD then None else Some (METHOD_NOT_FOUND, Some (rq_id r))
      | Raise errors =>
          if finite_json (JList errors) then
            (λ id, (if params_not_object body then INVALID_PARAMS else INVALID_REQUEST, id))
              <$> pd_error_id (j_get "id" body)
          else None
      end
  | Ret _ => Some (INVALID_REQUEST, None)
  end.

Definition is_error_reply (h : HttpResponse) (code : Z) (id : option rpc_id) : Prop :=
  hs_status h = 200
  ∧ ∃ data, hs_body h = JsonBody (dump_error_response (mkErrorResponse (from_code code (Some data)) id)).

Lemma build_error_response_ok code data id rid :
  pd_error_id id = Some rid → finite_json (JObj data) = true →
  ∃ h, build_error_response code (Some data) id = Ret h ∧ is_error_reply h code rid.
Proof.
  intros Hid Hf. unfold build_error_response, new_error_response. rewrite Hid.
  assert (Hfin : finite_json (dump_error_response (mkErrorResponse (from_code code (Some data)) rid)) = true).
  { cbn in Hf |- *. rewrite Hf. by destruct rid as [[]|]. }
  unfold JSONResponse, unrendered. rewrite Hfin, plain_renders by done.
  eexists. split; [done|]. split; [done|]. by exists data.
Qed.

(** A reply of the first stage is the answer of the handler. *)
Lemma parse_reply_is_answer i request s r h pt et d :
  _parse_and_validate_request cf request = reply_and_record cf r pt et d → r = Ret h →
  ∃ s', handle_message cf i request s = (s', Ret h).
Proof.
  intros Hp ->. unfold handle_message, _prepare_request. unfold st_bind at 1. rewrite Hp. by eexists.
Qed.

Lemma params_error_iff `{!PydanticLaws} body errors : pd_request body = Raise errors →
  params_dict_error errors = params_not_object body.
Proof.
  intros Hb. pose proof (pd_request_errors body errors Hb) as Hiff. unfold params_not_object.
  destruct (params_dict_error errors).
  - destruct (proj1 Hiff eq_refl) as (j & -> & Hj). by destruct j.
  - destruct (assoc "params" body) as [j|]; [|done]. destruct j; try done;
      by (destruct (proj2 Hiff); [eexists|]).
Qed.

(** A malformed request gets the code of the JSON-RPC specification and its
    own id: -32700 for a body that is no JSON, -32600 for one that is no
    request, -32602 when only `params` is not an object, -32601 for an unknown
    method. *)
Theorem malformed_requests_get_their_code `{!PydanticLaws} (i : inputs) (request : HttpRequest) (s : sstate W)
    (code : Z) (id : option rpc_id) :
  malformed request = Some (code, id) →
  ∃ s' h, handle_message cf i request s = (s', Ret h) ∧ is_error_reply h code id.
Proof.
  unfold malformed. intros Hm.
  enough (∃ r pt et d h, _parse_and_validate_request cf request = reply_and_record cf r pt et d
    ∧ r = Ret h ∧ is_error_reply h code id) as (r & pt & et & d & h & Hp & Hr & Hh).
  { destruct (parse_reply_is_answer i request s r h pt et d Hp Hr) as [s' Hs]. by exists s', h. }
  unfold _parse_and_validate_request. destruct (parse_json_body cf request) as [[e|m|x]|j]; [done| |done|].
  - simplify_eq. destruct (build_error_response_ok PARSE_ERROR [("error", JStr m)] JNull None) as (h & Hh & Ho);
      [apply pd_error_id_null|done|]. by do 5 eexists.
  - assert (Hother : ∀ j, as_obj j = None → ∃ h, build_error_response INVALID_REQUEST
      (Some [("error", JStr "JSON-RPC request must be an object"); ("received_type", JStr (type_name j))]) JNull
      = Ret h ∧ is_error_reply h INVALID_REQUEST None).
    { intros j' _. apply build_error_response_ok; [apply pd_error_id_null|done]. }
    destruct j as [| | | | | |body];
      try (injection Hm as <- <-;
           match goal with |- context [type_name ?j] => destruct (Hother j eq_refl) as (h & Hh & Ho) end;
           do 5 eexists; split; [reflexivity|]; split; [exact Hh|exact Ho]).
    unfold validate_jsonrpc_request. destruct (pd_request body) as [errors|r] eqn:Ep.
    + destruct (finite_json (JList errors)) eqn:Ef; [|done].
      destruct (pd_error_id (j_get "id" body)) as [rid|] eqn:Eid; [|done]. cbn in Hm. simplify_eq.
      rewrite (params_error_iff body errors Ep).
      edestruct build_error_response_ok as (h & Hh & Ho); [exact Eid| |do 5 eexists; split; [done|]; split; [exact Hh|exact Ho]].
      cbn in Ef |- *. by rewrite Ef.
    + destruct (String.eqb (rq_method r) ASAP_METHOD); [done|]. simplify_eq. cbn [negb].
      destruct (build_error_response_ok METHOD_NOT_FOUND [("method", JStr (rq_method r))]
        (id_json (Some (rq_id r))) (Some (rq_id r))) as (h & Hh & Ho); [|done|by do 5 eexists].
      destruct (rq_id r); [apply pd_error_id_str|apply pd_error_id_int].
Qed.

(** An internal error before the request is prepared is answered with the code
    -32603 and an empty id. *)
Lemma crash_is_internal_error i request s s' x :
  _prepare_request cf i request s = (s', Raise (Crash x)) → as_asap x = None → cf_debug cf = false →
  ∃ s'' h, handle_message cf i request s = (s'', Ret h) ∧ is_error_reply h INTERNAL_ERROR (Some (IdStr "")).
Proof.
  intros Hp Hx Hd. unfold handle_message. rewrite Hp. unfold on_exception. rewrite Hx.
  unfold _handle_internal_error, internal_error_data, JSONResponse, unrendered. rewrite Hd, plain_renders by done.
  eexists _, _. split; [reflexivity|]. split; [done|]. by eexists.
Qed.

(** A request whose id is a list or an object is not answered with -32600:
    echoing that id makes the error reply itself invalid, and the client gets
    the internal error -32603 with an empty id. *)
Theorem malformed_id_is_internal_error `{!PydanticLaws} (i : inputs) (request : HttpRequest) (s : sstate W)
    (body : obj) (errors : list json) :
  parse_json_body cf request = Ret (JObj body) → pd_request body = Raise errors →
  (∃ l, j_get "id" body = JList l) ∨ (∃ d, j_get "id" body = JObj d) →
  cf_debug cf = false →
  ∃ s' h, handle_message cf i request s = (s', Ret h) ∧ is_error_reply h INTERNAL_ERROR (Some (IdStr "")).
Proof.
  intros Hb Hp Hid Hd. eapply (crash_is_internal_error _ _ _ s (XOther _ _)); [|reflexivity|done].
  unfold _prepare_request. unfold st_bind at 1. unfold _parse_and_validate_request. rewrite Hb.
  unfold validate_jsonrpc_request. rewrite Hp. unfold build_error_response, new_error_response.
  assert (pd_error_id (j_get "id" body) = None) as ->.
  { destruct Hid as [[l ->] | [d ->]]; [apply pd_error_id_list|apply pd_error_id_obj]. }
  reflexivity.
Qed.

(** An envelope whose `payload_type` is not a string is not answered with
    -32602: the validator that normalizes it raises an `AttributeError` that
    pydantic does not convert, and the client gets -32603 with an empty id
    although the request's id was valid. *)
Theorem odd_payload_type_is_internal_error (i : inputs) (request : HttpRequest) (s : sstate W)
    (body : obj) (r : JsonRpcRequest) (envelope_data : obj) :
  parse_json_body cf request = Ret (JObj body) → pd_request body = Ret r → rq_method r = ASAP_METHOD →
  cf_auth cf = None →
  j_get "envelope" (rq_params r) = JObj envelope_data → has_str_payload_type envelope_data = false →
  cf_debug cf = false →
  ∃ s' h, handle_message cf i request s = (s', Ret h) ∧ is_error_reply h INTERNAL_ERROR (Some (IdStr "")).
Proof.
  intros Hb Hp Hm Ha He Ht Hd. eapply (crash_is_internal_error _ _ _ s (XOther _ _)); [|reflexivity|done].
  unfold _prepare_request. unfold st_bind at 1. unfold _parse_and_validate_request. rewrite Hb.
  unfold validate_jsonrpc_request. rewrite Hp, Hm. cbn [String.eqb negb].
  change (negb (String.eqb ASAP_METHOD ASAP_METHOD)) with false. cbv iota.
  unfold st_ret at 1. cbv zeta. unfold st_bind at 1. unfold _authenticate_request. rewrite Ha.
  unfold st_ret at 1. unfold st_bind at 1. unfold _validate_envelope. cbv zeta. rewrite He.
  unfold new_envelope. rewrite Ht. reflexivity.
Qed.

(** In production the answer to an exception that is not of the taxonomy does
    not depend on the exception. *)
Lemma internal_errors_are_opaque i x x' id pt s :
  cf_debug cf = false → as_asap x = None → as_asap x' = None →
  on_exception cf i x id pt s = on_exception cf i x' id pt s.
Proof.
  intros Hd Hx Hx'. unfold on_exception. rewrite Hx, Hx'.
  unfold _handle_internal_error, internal_error_data. by rewrite Hd.
Qed.

End Codes.

(** ** Examples *)
Section Examples.
  Import StrictPydantic ToyCodec.
  #[local] Existing Instance strict.
  #[local] Existing Instance strict_laws.
  #[local] Existing Instance toy.

(** A decoder that knows three bodies, by their length. *)
Definition demo_body (n : nat) : decoded :=
  match n with
  | O => BadJson "Expecting value"
  | 1%nat => Decoded (JObj [("method", JStr "asap.other"); ("params", JObj []); ("id", JInt 7)])
  | 2%nat => Decoded (JObj [("method", JStr "asap.send"); ("params", JObj []); ("id", JList [])])
  | _ => Decoded (JObj [("method", JStr "asap.send"); ("id", JInt 7);
            ("params", JObj [("envelope", JObj [("payload", JObj []); ("payload_type", JInt 5)])])])
  end.

#[local] Instance demo_py : PyRuntime := {| float_repr := λ _, "0.0"; float_of_str := λ _, None |}.
#[local] Instance demo_runtime : Runtime :=
  {| json_loads := λ b, demo_body (length b); fixed1 := λ _, "0.0"; format_exc := λ _, "";
     inject_trace := λ e, e; dump_json_text := λ _, []; reply_serializer := {| render_error := λ _ _, None |} |}.
#[local] Instance demo_plain : PlainSerializer.
Proof. done. Qed.

Definition demo_cf : config unit :=
  mkConfig empty_registry (mkManifest "urn:asap:agent:server" None) None 1000 false.
Definition demo_state : sstate unit := mkS (mkD (MetricsCollector.init 0) None None tt) None None.
Definition demo_inputs : inputs := mkInputs 0 "e1" 0 (mkReading false 0 0 0) 0 0 0 "a1" 0.
Definition demo_request (n : nat) : HttpRequest := mkHttpRequest "POST" "/asap" [] None None [replicate n 0].

Lemma requests_are_accounted_witness :
  consistent (fst (handle_message demo_cf demo_inputs (demo_request 1) demo_state))
  ∧ ∀ h, snd (handle_message demo_cf demo_inputs (demo_request 1) demo_state) = Ret h →
      http_refusal (hs_status h) = false →
      (count "asap_requests_total" demo_state + 1
       <= count "asap_requests_total" (fst (handle_message demo_cf demo_inputs (demo_request 1) demo_state)))%Q.
Proof.
  apply (requests_are_accounted demo_cf demo_inputs (demo_request 1) demo_state _ _ (surjective_pairing _)).
  split; [repeat constructor|reflexivity].
Defined.

Lemma malformed_requests_get_their_code_witness :
  ∃ s' h, handle_message demo_cf demo_inputs (demo_request 1) demo_state = (s', Ret h)
    ∧ is_error_reply h METHOD_NOT_FOUND (Some (IdInt 7)).
Proof.
  apply (malformed_requests_get_their_code demo_cf demo_inputs (demo_request 1) demo_state METHOD_NOT_FOUND
    (Some (IdInt 7))). vm_compute. reflexivity.
Defined.

Lemma malformed_id_is_internal_error_witness :
  ∃ s' h, handle_message demo_cf demo_inputs (demo_request 2) demo_state = (s', Ret h)
    ∧ is_error_reply h INTERNAL_ERROR (Some (IdStr "")).
Proof.
  eapply (malformed_id_is_internal_error demo_cf demo_inputs (demo_request 2) demo_state);
    [vm_compute; reflexivity|vm_compute; reflexivity|left; by eexists|reflexivity].
Defined.

Lemma odd_payload_type_is_internal_error_witness :
  ∃ s' h, handle_message demo_cf demo_inputs (demo_request 3) demo_state = (s', Ret h)
    ∧ is_error_reply h INTERNAL_ERROR (Some (IdStr "")).
Proof.
  eapply (odd_payload_type_is_internal_error demo_cf demo_inputs (demo_request 3) demo_state);
    [vm_compute; reflexivity|vm_compute; reflexivity|reflexivity|reflexivity|vm_compute; reflexivity
    |reflexivity|reflexivity].
Defined.

End Examples.
