(* ===== verification/JsonRpcRoute.v ===== *)
(** * The route `POST /asap`: single requests and batches

    `src/src/asap/transport/routes/jsonrpc.py` over the request handler
    ([RequestHandler]) and the limiter ([RateLimit]).  The sub-requests of a
    batch run one after another here; `asyncio.gather` starts them in this order
    and returns their results in this order. *)

From Stdlib Require Import ZArith QArith Lia Ascii String.
From stdpp Require Import base tactics list gmap strings.
From S2P Require Import Prelude PyValue Digest Identity ReplayGuard EnvelopeGuard AuditChain Metrics Errors LambdaCodec Compression Metering RateLimit JsonRpc Handlers Middleware RequestHandler RequestMetrics.
Open Scope string_scope.
Open Scope Z_scope.
Open Scope asap_scope.

(** What leaves the route as an exception. *)
Inductive route_exn : Type :=
| Limited (e : RateLimitExceeded)
| Failed (x : exn).

Section Route.
  Context {W : Type} `{PyRuntime, Pydantic, Codecs, Runtime, RateStrategy}.
  Variable cf : config W.
  Variable max_batch_size : Z.

Record app_state : Type := mkApp {
  ap_server : sstate W;
  ap_limiter : ASAPRateLimiter.t
}.

(** What the limiter sees of a request. *)
Definition limiter_view (request : HttpRequest) : RateLimit.Request :=
  RateLimit.mkHttp (hq_client request) (header "authorization" request).

Definition _batch_error_response (reason : string) : res exn HttpResponse :=
  JSONResponse 200
    (dump_error_response (mkErrorResponse (from_code INVALID_REQUEST (Some [("reason", JStr reason)])) None)) [].

(** The sub-request of an item: the scope of the batch with the item as body. *)
Definition sub_request (request : HttpRequest) (item : json) : HttpRequest :=
  mkHttpRequest (hq_method request) (hq_path request) (hq_headers request) (hq_credentials request)
    (hq_client request) [Digest.encode (json_dumps float_repr ", " ": " false item)].

Definition json_decode_error : exn := XOther "JSONDecodeError" "Expecting value: line 1 column 1 (char 0)".

(** `_process_one`; the Lambda encoding of a reply is not JSON. *)
Definition _process_one (i : inputs) (request : HttpRequest) (item : json) (s : sstate W) :
    sstate W * res exn json :=
  match item with
  | JObj _ =>
      let '(s', r) := handle_message cf i (sub_request request item) s in
      (s', match r with
           | Raise x => Raise x
           | Ret h => match hs_body h with
                      | JsonBody j => Ret j
                      | LambdaBody _ | EventStream _ => Raise json_decode_error
                      end
           end)
  | _ => (s, Ret (dump_error_response (mkErrorResponse (from_code INVALID_REQUEST None) None)))
  end.

(** The items with their inputs; the first exception is the one `gather`
    raises, but the other sub-requests run all the same. *)
Fixpoint gather (request : HttpRequest) (items : list (inputs * json)) (s : sstate W) :
    sstate W * res exn (list json) :=
  match items with
  | [] => (s, Ret [])
  | (i, item) :: items' =>
      let '(s1, r) := _process_one i request item s in
      let '(s2, rs) := gather request items' s1 in
      (s2, match r, rs with
           | Raise x, _ => Raise x
           | Ret j, Ret js => Ret (j :: js)
           | Ret _, Raise x => Raise x
           end)
  end.

Definition lift_exn {A} (r : res exn A) : res route_exn A :=
  match r with Ret a => Ret a | Raise x => Raise (Failed x) end.

Definition _handle_batch (now : Z) (request : HttpRequest) (items : list (inputs * json)) (a : app_state) :
    app_state * res route_exn HttpResponse :=
  let n := Z.of_nat (length items) in
  if n =? 0 then (a, lift_exn (_batch_error_response "empty batch"))
  else if max_batch_size <? n then
    (a, lift_exn (_batch_error_response
                    ("batch size " ++ PyStr.dec_Z n ++ " exceeds max " ++ PyStr.dec_Z max_batch_size)))
  else
    match ASAPRateLimiter.check_n now (limiter_view request) n (ap_limiter a) with
    | (l, Raise e) => (mkApp (ap_server a) l, Raise (Limited e))
    | (l, Ret _) =>
        let '(s, r) := gather request items (ap_server a) in
        (mkApp s l, match r with
                    | Raise x => Raise (Failed x)
                    | Ret results => lift_exn (JSONResponse 200 (JList results) [])
                    end)
    end.

Definition single (now : Z) (i : inputs) (request : HttpRequest) (a : app_state) :
    app_state * res route_exn HttpResponse :=
  match ASAPRateLimiter.check now (limiter_view request) (ap_limiter a) with
  | (l, Raise e) => (mkApp (ap_server a) l, Raise (Limited e))
  | (l, Ret _) =>
      let '(s, r) := handle_message cf i request (ap_server a) in (mkApp s l, lift_exn r)
  end.

(** `handle_asap_message`; [inps]: the inputs of the sub-requests, the first one
    that of a single request. *)
Definition handle_asap_message (now : Z) (i : inputs) (inps : list inputs) (request : HttpRequest) (a : app_state) :
    app_state * res route_exn HttpResponse :=
  match json_loads (concat (hq_stream request)) with
  | BadUtf8 _ | BadJson _ => single now i request a
  | DecoderRaises x => (a, Raise (Failed x))
  | Decoded (JList items) => _handle_batch now request (zip inps items) a
  | Decoded _ => single now i request a
  end.

(** `handle_asap_stream` *)
Definition handle_asap_stream (now : Z) (i : inputs) (request : HttpRequest) (a : app_state) :
    app_state * res route_exn (HttpResponse * option exn) :=
  match ASAPRateLimiter.check now (limiter_view request) (ap_limiter a) with
  | (l, Raise e) => (mkApp (ap_server a) l, Raise (Limited e))
  | (l, Ret _) => let '(s, r) := handle_stream cf i request (ap_server a) in (mkApp s l, lift_exn r)
  end.

(** ** Lemmas *)

(** The item of a batch as a request of its own: its reply and the state after. *)
Definition alone (i : inputs) (request : HttpRequest) (item : json) (s : sstate W) (s' : sstate W) (j : json) : Prop :=
  match item with
  | JObj _ => ∃ h, handle_message cf i (sub_request request item) s = (s', Ret h) ∧ hs_body h = JsonBody j
  | _ => s' = s ∧ j = dump_error_response (mkErrorResponse (from_code INVALID_REQUEST None) None)
  end.

(** The replies, one per item, each given by the handler in the state its
    predecessors left. *)
Fixpoint answered (request : HttpRequest) (items : list (inputs * json)) (s s' : sstate W) (js : list json) : Prop :=
  match items, js with
  | [], [] => s' = s
  | (i, item) :: items', j :: js' => ∃ s1, alone i request item s s1 j ∧ answered request items' s1 s' js'
  | _, _ => False
  end.

Lemma gather_answered request items s s' js :
  gather request items s = (s', Ret js) → answered request items s s' js.
Proof.
  revert s js. induction items as [|[i item] items IH]; intros s js; cbn [gather answered].
  { by intros [= <- <-]. }
  destruct (_process_one i request item s) as [s1 r] eqn:E1. destruct (gather request items s1) as [s2 rs] eqn:E2.
  destruct r as [x|j]; [done|]. destruct rs as [x|js']; [done|]. intros [= <- <-].
  exists s1. split; [|by apply IH]. unfold _process_one in E1. unfold alone.
  destruct item; try (by simplify_eq).
  destruct (handle_message _ _ _ _) as [s3 [x|h]] eqn:E3; [done|].
  destruct (hs_body h) eqn:Eb; simplify_eq. by exists h.
Qed.

Lemma answered_length request items s s' js : answered request items s s' js → length js = length items.
Proof.
  revert s js. induction items as [|[i item] items IH]; intros s [|j js]; cbn [answered]; try done.
  intros (s1 & _ & Hr). simpl. f_equal. by eapply IH.
Qed.

(** ** Properties *)

(** A batch is its requests one by one: when a batch is answered with
    status 200 and its size is allowed, the limiter charged it for all its items
    and the reply is the list of the replies each item gets on its own, in the
    order of the items, one per item. *)
Theorem batch_answers_each_item (now : Z) (request : HttpRequest) (items : list (inputs * json))
    (a a' : app_state) (h : HttpResponse) :
  0 < Z.of_nat (length items) <= max_batch_size →
  _handle_batch now request items a = (a', Ret h) →
  ASAPRateLimiter.check_n now (limiter_view request) (Z.of_nat (length items)) (ap_limiter a)
    = (ap_limiter a', Ret tt)
  ∧ ∃ results, hs_body h = JsonBody (JList results) ∧ length results = length items
      ∧ answered request items (ap_server a) (ap_server a') results.
Proof.
  intros Hn. unfold _handle_batch. cbv zeta.
  assert ((Z.of_nat (length items) =? 0) = false) as -> by lia.
  assert ((max_batch_size <? Z.of_nat (length items)) = false) as -> by lia.
  destruct (ASAPRateLimiter.check_n _ _ _ _) as [l [e|[]]]; [done|].
  destruct (gather request items (ap_server a)) as [s [x|js]] eqn:E; [done|].
  destruct (JSONResponse 200 (JList js) []) as [x|h'] eqn:Ej; cbn; intros Hr; simplify_eq/=.
  split; [done|]. apply JSONResponse_ret in Ej as [_ Hb]. apply gather_answered in E.
  exists js. split_and!; [done|by eapply answered_length|done].
Qed.

(** An empty or oversized batch is refused as a whole before anything runs. *)
Lemma refused_batch_runs_nothing `{!PlainSerializer} now request items a :
  length items = 0%nat ∨ max_batch_size < Z.of_nat (length items) →
  fst (_handle_batch now request items a) = a
  ∧ ∃ h, snd (_handle_batch now request items a) = Ret h ∧ hs_status h = 200.
Proof.
  intros Hn.
  assert (Hb : ∀ reason, ∃ h, _batch_error_response reason = Ret h ∧ hs_status h = 200).
  { intros reason. unfold _batch_error_response, JSONResponse, unrendered. rewrite plain_renders by done. by eexists. }
  unfold _handle_batch. cbv zeta.
  destruct (Z.of_nat (length items) =? 0) eqn:E0; cbn [fst snd].
  - split; [done|]. edestruct Hb as (h & -> & Hh). by exists h.
  - assert ((max_batch_size <? Z.of_nat (length items)) = true) as -> by (reflect; lia).
    split; [done|]. cbn [snd]. edestruct Hb as (h & -> & Hh). by exists h.
Qed.

(** A reply in the Lambda encoding breaks its batch: when the first item is
    answered that way, which a client asks for with an `Accept` header, the
    route fails with a `JSONDecodeError` although the handlers of all items have
    run. *)
Theorem lambda_reply_breaks_batch (now : Z) (request : HttpRequest) (i : inputs) (item : obj)
    (items : list (inputs * json)) (a : app_state) (l : ASAPRateLimiter.t) (s1 : sstate W) (h : HttpResponse)
    (content : list Z) :
  Z.of_nat (S (length items)) <= max_batch_size →
  ASAPRateLimiter.check_n now (limiter_view request) (Z.of_nat (S (length items))) (ap_limiter a) = (l, Ret tt) →
  handle_message cf i (sub_request request (JObj item)) (ap_server a) = (s1, Ret h) →
  hs_body h = LambdaBody content →
  _handle_batch now request ((i, JObj item) :: items) a
  = (mkApp (fst (gather request items s1)) l, Raise (Failed json_decode_error)).
Proof.
  intros Hn Hl Hh Hb. unfold _handle_batch. cbn [length]. cbv zeta.
  assert ((Z.of_nat (S (length items)) =? 0) = false) as -> by (apply Z.eqb_neq; clear; lia).
  assert ((max_batch_size <? Z.of_nat (S (length items))) = false) as -> by (apply Z.ltb_ge; exact Hn).
  rewrite Hl. cbn [gather]. unfold _process_one. rewrite Hh, Hb.
  by destruct (gather request items s1).
Qed.

End Route.

(** ** Examples *)
Section Examples.
  Import StrictPydantic ToyCodec.
  #[local] Existing Instance strict.
  #[local] Existing Instance strict_laws.
  #[local] Existing Instance toy.

(** A limiter without limits. *)
#[local] Instance no_limits : RateStrategy :=
  {| rate_limit_item := unit; rate_storage := unit; rs_str := λ _, ""; rs_test := λ _ _ _ _, true;
     rs_hit := λ _ _ _ s, (s, true); rs_reset := λ _ _ _, 0 |}.

Definition echo_request : json :=
  JObj [("method", JStr "asap.send"); ("id", JInt 7);
        ("params", JObj [("envelope",
           JObj [("asap_version", JStr "0.1"); ("sender", JStr "urn:asap:agent:a");
                 ("recipient", JStr "urn:asap:agent:b"); ("payload_type", JStr "ping"); ("payload", JObj [])])])].

#[local] Instance echo_py : PyRuntime := {| float_repr := λ _, "0.0"; float_of_str := λ _, None |}.
#[local] Instance echo_runtime : Runtime :=
  {| json_loads := λ b, match b with [] => Decoded (JList [JInt 1; JNull]) | _ => Decoded echo_request end;
     fixed1 := λ _, "0.0"; format_exc := λ _, ""; inject_trace := λ e, e; dump_json_text := λ _, lit "{}";
     reply_serializer := {| render_error := λ _ _, None |} |}.
#[local] Instance echo_plain : PlainSerializer.
Proof. done. Qed.

(** A handler that answers with the envelope it got and counts its calls. *)
Definition echo : Handler nat :=
  mkHandler true (Some ["envelope"; "manifest"]) false (λ e _ n, (S n, Ret (Now e))).

Definition echo_cf : config nat :=
  mkConfig (fst (register "ping" echo empty_registry)) (mkManifest "urn:asap:agent:b" None) None 100000 false.
Definition echo_state : app_state :=
  mkApp (mkS (mkD (MetricsCollector.init 0) None None 0%nat) None None)
    (ASAPRateLimiter.mk (λ _, "k") [] tt).
Definition lambda_request : HttpRequest :=
  mkHttpRequest "POST" "/asap" [("accept", LAMBDA_CONTENT_TYPE)] None None [].

(** The echo handler ran, so its envelope went through every gate. *)
Lemma handler_reached_only_through_gates_witness :
  let request := mkHttpRequest "POST" "/asap" [] None None [[1]] in
  let s' := fst (handle_message echo_cf demo_inputs request (ap_server echo_state)) in
  d_world (s_disp s') = 1%nat
  ∧ ∃ e, gates_passed echo_cf demo_inputs request (ap_server echo_state) e ∧ e_sender e = "urn:asap:agent:a".
Proof.
  cbv zeta. split; [vm_compute; reflexivity|].
  destruct (handler_reached_only_through_gates echo_cf demo_inputs (mkHttpRequest "POST" "/asap" [] None None [[1]]) (ap_server echo_state))
    as [(e & Hg & _)|[_ [Hw|Hw]]]; [|vm_compute in Hw; discriminate Hw..].
  exists e. split; [exact Hg|]. destruct Hg as ((body & rpc & data & Hb & Hr & Hm & Hj & He) & _).
  vm_compute in Hb. injection Hb as <-. vm_compute in Hr. injection Hr as <-. vm_compute in Hj. injection Hj as <-.
  vm_compute in He. injection He as <-. reflexivity.
Defined.

Lemma batch_answers_each_item_witness :
  ∃ a' h, _handle_batch echo_cf 50 0 lambda_request [(demo_inputs, JInt 1); (demo_inputs, JNull)] echo_state = (a', Ret h)
    ∧ ∃ results, hs_body h = JsonBody (JList results) ∧ length results = 2%nat.
Proof.
  eexists _, _. split; [vm_compute; reflexivity|].
  edestruct (batch_answers_each_item echo_cf 50 0 lambda_request
    [(demo_inputs, JInt 1); (demo_inputs, JNull)] echo_state) as (_ & results & Hb & Hl & _);
    [simpl; lia|vm_compute; reflexivity|].
  exists results. split; [exact Hb|exact Hl].
Defined.

Lemma lambda_reply_breaks_batch_witness :
  ∃ a', _handle_batch echo_cf 50 0 lambda_request [(demo_inputs, echo_request)] echo_state
    = (a', Raise (Failed json_decode_error)) ∧ d_world (s_disp (ap_server a')) = 1%nat.
Proof.
  eexists. split; [|].
  - refine (lambda_reply_breaks_batch echo_cf 50 0 lambda_request demo_inputs _ [] echo_state _ _ _ _ _ _ _ _);
      [simpl; lia|reflexivity|vm_compute; reflexivity|reflexivity].
  - reflexivity.
Defined.

End Examples.
