(* ===== verification/WsServer.v ===== *)
(** * The WebSocket server

    `src/src/asap/transport/ws/server.py` and `_dispatch.py`: one connection
    that authenticates at its acceptance, limits its messages, acknowledges
    envelopes and runs them through the request pipeline of [RequestHandler],
    with the close codes of `_actions.py`.

    A text frame that is sent is the JSON value it carries.  [cn_budget] is the
    number of frames the peer still takes before sends raise.  A stream is read
    to its end before its frames are sent.  Log lines are left out. *)

From Stdlib Require Import ZArith QArith Lia Ascii String.
From stdpp Require Import base tactics list gmap strings relations.
From S2P Require Import Prelude PyValue Digest Identity ReplayGuard EnvelopeGuard RateLimit Metrics Errors Compression Metering JsonRpc Handlers Middleware DelegationJwt RequestHandler RequestMetrics.
Open Scope string_scope.
Open Scope Z_scope.
Open Scope asap_scope.

Definition SLA_SUBSCRIBE_METHOD : string := "sla.subscribe".
Definition SLA_UNSUBSCRIBE_METHOD : string := "sla.unsubscribe".
Definition HEARTBEAT_FRAME_TYPE_PONG : string := "pong".
Definition WS_CLOSE_GOING_AWAY : Z := 1001.
Definition WS_CLOSE_POLICY_VIOLATION : Z := 1008.
Definition WS_CLOSE_AUTH_REQUIRED : Z := 4401.
(** microseconds *)
Definition STALE_CONNECTION_TIMEOUT : Z := 90 * second.

Inductive WSCloseAction : Type := CONTINUE | CLOSE_RATE_LIMITED | CLOSE_FATAL.

Definition _ws_close_code (action : WSCloseAction) : Z :=
  match action with CLOSE_RATE_LIMITED => WS_CLOSE_POLICY_VIOLATION | _ => WS_CLOSE_GOING_AWAY end.

(** The bearer token of the handshake's `Authorization` header. *)
Definition _bearer_token_from_websocket (authorization : option string) : option string :=
  match authorization with
  | Some auth =>
      if PyStr.startswith auth "Bearer " then
        let token := PyStr.strip (PyStr.drop 7 auth) in if PyStr.truthy token then Some token else None
      else None
  | None => None
  end.

(** `_enforce_ws_oauth2`: the close that refuses the connection, if any;
    [valid]: whether `validate_bearer_token` finds no error. *)
Definition _enforce_ws_oauth2 (authorization : option string) (valid : string → bool) : option (Z * string) :=
  match _bearer_token_from_websocket authorization with
  | None => Some (WS_CLOSE_AUTH_REQUIRED, "Authentication required")
  | Some token => if valid token then None else Some (WS_CLOSE_AUTH_REQUIRED, "Invalid token")
  end.

(** `str(error)` and `type(error).__name__` *)
Definition exn_str_of (x : exn) : string :=
  match x with XAsap e => str_error e | XRemote r => str_remote r | XOther _ m => m end.
Definition exn_type_of (x : exn) : string :=
  match x with XAsap e => class_name (x_class e) | XRemote r => class_name (x_class (r_error r)) | XOther n _ => n end.

Definition _is_heartbeat_pong (data : obj) : bool :=
  py_eq (j_get "type" data) (JStr HEARTBEAT_FRAME_TYPE_PONG) && negb (is_some (assoc "method" data)).

(** The readings and fresh values one frame consumes. *)
Record ws_inputs : Type := mkWsInputs {
  wi_pipe : inputs;
  wi_bucket_now : Z;
  wi_extract : Z * string;     (* clock and fresh id of the envelope read for its acknowledgement *)
  wi_received : Z * string;    (* clock and fresh id of the two acknowledgements *)
  wi_rejected : Z * string
}.

Section Server.
  Context {W : Type} `{PyRuntime, Pydantic, Codecs, Runtime}.
  Variable cf : config W.
  (** the request of the handshake *)
  Variable handshake : HttpRequest.

Record conn : Type := mkConn {
  cn_server : sstate W;
  cn_bucket : option WebSocketTokenBucket.t;
  cn_subscribed : option bool;              (* [None]: no subscriptions *)
  cn_out : list json;
  cn_budget : option nat
}.

Abbreviation C := (ST conn exn).

Definition on_server (f : sstate W → sstate W) (c : conn) : conn :=
  mkConn (f (cn_server c)) (cn_bucket c) (cn_subscribed c) (cn_out c) (cn_budget c).
Definition set_bucket (b : option WebSocketTokenBucket.t) (c : conn) : conn :=
  mkConn (cn_server c) b (cn_subscribed c) (cn_out c) (cn_budget c).
Definition set_subscribed (b : bool) (c : conn) : conn :=
  mkConn (cn_server c) (cn_bucket c) (option_map (λ _, b) (cn_subscribed c)) (cn_out c) (cn_budget c).

Definition send_text (frame : json) : C unit := λ c,
  match cn_budget c with
  | Some O => (c, Raise (XOther "RuntimeError" "Cannot send once a close message has been sent."))
  | b => (mkConn (cn_server c) (cn_bucket c) (cn_subscribed c) (cn_out c ++ [frame]) (pred <$> b), Ret tt)
  end.

(** A part of the pipeline, with how it stopped as its value. *)
Definition piped {A} (m : ST (sstate W) stop A) : C (res stop A) := λ c,
  let '(s, r) := m (cn_server c) in (on_server (λ _, s) c, Ret r).

Definition metric (f : MetricsCollector.t → MetricsCollector.t) : C unit :=
  st_modify (on_server (on_disp (on_metrics f))).

(** `try: m except Exception: h` *)
Definition catch {A} (m : C A) (h : exn → C A) : C A := λ c,
  match m c with (c', Raise x) => h x c' | out => out end.

(** ** Frames *)
Definition _synthesize_ws_request (raw : bytes) : HttpRequest :=
  mkHttpRequest "POST" (hq_path handshake)
    (hq_headers handshake ++ [("content-length", PyStr.dec_Z (Z.of_nat (length raw)))])
    (hq_credentials handshake) (hq_client handshake) [raw].

Definition _build_ack_notification_frame (fresh : Z * string) (original_envelope_id status sender recipient
    asap_version : string) (error : option string) : json :=
  let payload :=
    JObj [("original_envelope_id", JStr original_envelope_id); ("status", JStr status); ("error", opt_str error)] in
  let ack_envelope :=
    mkEnvelope (Some (snd fresh)) asap_version (Some (Aware (fst fresh) 0)) sender recipient "MessageAck" payload
      None None false None in
  JObj [("jsonrpc", JStr "2.0"); ("method", JStr "asap.ack");
        ("params", JObj [("envelope", pd_dump_envelope ack_envelope)])].

(** The acknowledgement of an envelope that asks for one. *)
Definition send_ack (fresh : Z * string) (envelope_for_ack : option Envelope) (status : string)
    (error : option string) : C unit :=
  match envelope_for_ack with
  | Some e =>
      match e_id e with
      | Some id =>
          if e_requires_ack e && PyStr.truthy id then
            send_text (_build_ack_notification_frame fresh id status (e_recipient e) (e_sender e) (e_asap_version e) error)
          else st_ret tt
      | None => st_ret tt
      end
  | None => st_ret tt
  end.

Definition _maybe_send_received_ack (i : ws_inputs) (envelope_for_ack : option Envelope) : C unit :=
  send_ack (wi_received i) envelope_for_ack "received" None.

Definition _send_ws_dispatch_failure (i : ws_inputs) (envelope_for_ack : option Envelope) (error : exn) : C unit :=
  send_ack (wi_rejected i) envelope_for_ack "rejected" (Some (exn_str_of error)).

(** A `ValidationError` is answered with no envelope; other exceptions leave. *)
Definition _extract_envelope_for_ack (i : ws_inputs) (data : obj) : res exn (option Envelope) :=
  match j_get "params" data with
  | JObj params =>
      match j_get "envelope" params with
      | JObj envelope_dict =>
          match new_envelope (fst (wi_extract i)) (snd (wi_extract i)) envelope_dict with
          | Ret e => Ret (Some e)
          | Raise (ValidationErrors _) => Ret None
          | Raise (Escapes e) => Raise (of_pyexn e)
          end
      | _ => Ret None
      end
  | _ => Ret None
  end.

Definition _send_rate_limit_error (data : obj) : C unit :=
  send_text (JObj [("jsonrpc", JStr "2.0");
                   ("error", JObj [("code", JInt (-32001));
                                   ("message", JStr "Rate limit exceeded; too many messages per second")]);
                   ("id", j_get "id" data)]).

(** The JSON of a reply; the pipeline's replies over WebSocket are JSON. *)
Definition reply_json (h : HttpResponse) : json :=
  match hs_body h with JsonBody j => j | _ => JNull end.

Definition _send_ws_response_frame (h : HttpResponse) : C unit := send_text (reply_json h).

(** `a or b or c` *)
Definition first_truthy (a b c : json) : json := if j_truthy a then a else if j_truthy b then b else c.

Definition item_if (b : bool) (k : string) (v : json) : obj := if b then [(k, v)] else [].
Definition not_none (j : json) : bool := match j with JNull => false | _ => true end.

Definition recoverable_error (raw : obj) (rpc_code : Z) : JsonRpcError :=
  let message := j_get "message" raw in
  mkRpcError rpc_code
    (if j_truthy message then py_str float_repr message else "Service Temporarily Unavailable")
    (Some ([("recoverable", JBool (match assoc "recoverable" raw with Some j => j_truthy j | None => true end))]
           ++ item_if (not_none (j_get "retry_after_ms" raw)) "retry_after_ms" (j_get "retry_after_ms" raw)
           ++ item_if (not_none (j_get "fallback_action" raw)) "fallback_action" (j_get "fallback_action" raw)
           ++ item_if (j_truthy (j_get "details" raw)) "details" (j_get "details" raw))%list).

(** The field `id: str | int` of a reply. *)
Definition reply_id (response_id : json) : res exn rpc_id :=
  match pd_error_id response_id with
  | Some (Some id) => Ret id
  | _ => Raise (XOther "ValidationError" "1 validation error for JsonRpcResponse")
  end.

Definition _send_ws_recoverable_error_frame (h : HttpResponse) (response_id : json) : C unit :=
  match reply_json h with
  | JObj raw =>
      do! rpc_code <- st_lift match py_int (first_truthy (j_get "rpc_code" raw) (j_get "code" raw) (JInt INTERNAL_ERROR)) with
                              | Ret z => Ret z
                              | Raise e => Raise (of_pyexn e)
                              end in
      do! id <- st_lift (reply_id response_id) in
      send_text (dump_error_response (mkErrorResponse (recoverable_error raw rpc_code) (Some id)))
  | j => st_stop (XOther "AttributeError" ("'" ++ type_name j ++ "' object has no attribute 'get'"))
  end.

Definition _send_ws_asap_error_frame (i : ws_inputs) (request_id : rpc_id) (e : ASAPError) (text payload_type : string) :
    C unit :=
  run! metric (record_error_metrics cf payload_type (class_name (x_class e)) (i_duration (wi_pipe i))) in
  match build_jsonrpc_error_for_asap_exception e request_id [("error", JStr text)] with
  | Ret h => _send_ws_response_frame h
  | Raise x => st_stop x
  end.

Definition _send_ws_result_frame (response : Envelope) (response_id : json) : C unit :=
  do! id <- st_lift (reply_id response_id) in
  send_text (dump_response (mkResponse [("envelope", pd_dump_envelope (inject_trace response))] id)).

(** The payload type is recorded as it is, without normalization. *)
Definition internal_metrics (payload_type : string) (duration : Q) (m : MetricsCollector.t) : MetricsCollector.t :=
  MetricsCollector.observe_histogram "asap_request_duration_seconds" duration
    [("payload_type", payload_type); ("status", "error")]
    (MetricsCollector.increment_counter "asap_requests_error_total"
       [("payload_type", payload_type); ("error_type", "internal_error")] 1
       (MetricsCollector.increment_counter "asap_requests_total"
          [("payload_type", payload_type); ("status", "error")] 1 m)).

Definition internal_error_frame (error : exn) (response_id : json) : json :=
  JObj [("jsonrpc", JStr "2.0");
        ("error", JObj [("code", JInt INTERNAL_ERROR); ("message", JStr "Internal error");
                        ("data", JObj (if cf_debug cf
                                       then [("error", JStr (exn_str_of error)); ("type", JStr (exn_type_of error))]
                                       else [("error", JStr "Internal server error")]))]);
        ("id", response_id)].

(** [counted]: a request was prepared, so its metrics are at hand. *)
Definition _send_internal_error_frame (i : ws_inputs) (error : exn) (counted : bool) (payload_type : string)
    (response_id : json) : C WSCloseAction :=
  run! st_when counted (metric (internal_metrics payload_type (i_duration (wi_pipe i)))) in
  catch (run! send_text (internal_error_frame error response_id) in st_ret CONTINUE) (λ _, st_ret CLOSE_FATAL).

(** ** Dispatch *)

(** The frames of a stream, in order. *)
Fixpoint send_results (responses : list Envelope) (response_id : json) : C unit :=
  match responses with
  | [] => st_ret tt
  | r :: rs => run! _send_ws_result_frame r response_id in send_results rs response_id
  end.

Definition _run_ws_stream_dispatch (i : ws_inputs) (p : PreparedRequest) (response_id : json) : C unit :=
  let envelope := pr_envelope p in
  let payload_type := e_payload_type envelope in
  catch
    (do! out <- (λ c,
       let '(d, out, e) := dispatch_stream_async (cf_registry cf) (cf_manifest cf) (i_handler_ms (wi_pipe i)) envelope
                             (s_disp (cn_server c)) in
       (on_server (on_disp (λ _, d)) c, Ret (out, e))) in
     run! send_results (fst out) response_id in
     match snd out with
     | Some x => st_stop x
     | None => metric (record_success_metrics cf payload_type (i_duration (wi_pipe i)))
     end)
    (λ x,
       match as_asap x with
       | Some (e, text) => _send_ws_asap_error_frame i (pr_request_id p) e text payload_type
       | None => run! _send_internal_error_frame i x true payload_type response_id in st_ret tt
       end).

Definition _record_ws_success (i : ws_inputs) (envelope response : Envelope) : C unit :=
  run! metric (record_success_metrics cf (e_payload_type envelope) (i_duration (wi_pipe i))) in
  run! piped (_audit_log_operation (wi_pipe i) (e_payload_type envelope) (e_sender envelope)
         [("envelope_id", opt_str (e_id envelope)); ("response_id", opt_str (e_id response))]) in
  st_ret tt.

Definition _run_ws_dispatch (i : ws_inputs) (p : PreparedRequest) (response_id : json) : C unit :=
  let envelope := pr_envelope p in
  if has_streaming_handler (e_payload_type envelope) (cf_registry cf)
  then _run_ws_stream_dispatch i p response_id
  else
    do! out <- piped (_dispatch_to_handler cf (wi_pipe i) envelope (pr_request_id p)) in
    match out with
    | Raise (Reply h) =>
        if hs_status h =? 503 then _send_ws_recoverable_error_frame h response_id else _send_ws_response_frame h
    | Raise (Crash x) => st_stop x
    | Ret response =>
        run! _record_ws_success i envelope response in
        _send_ws_result_frame response response_id
    end.

(** What follows an exception after or during the preparation; [prepared] is
    the request's id when it was prepared. *)
Definition dispatch_failed (i : ws_inputs) (envelope_for_ack : option Envelope) (prepared : option rpc_id)
    (response_id : json) (x : exn) : C WSCloseAction :=
  let payload_type := match envelope_for_ack with Some e => e_payload_type e | None => "" end in
  run! _send_ws_dispatch_failure i envelope_for_ack x in
  match as_asap x with
  | Some (e, text) =>
      match prepared with
      | Some request_id =>
          run! _send_ws_asap_error_frame i request_id e text payload_type in st_ret CONTINUE
      | None => st_ret CONTINUE
      end
  | None => _send_internal_error_frame i x (is_some prepared) payload_type response_id
  end.

Definition _dispatch_ws_envelope (i : ws_inputs) (raw : bytes) (data : obj) (envelope_for_ack : option Envelope) :
    C WSCloseAction :=
  let response_id := match j_get "id" data with JNull => JStr "" | j => j end in
  do! prepared <- piped (_prepare_request cf (wi_pipe i) (_synthesize_ws_request raw)) in
  match prepared with
  | Ret p =>
      catch (run! _run_ws_dispatch i p response_id in st_ret CONTINUE)
        (dispatch_failed i envelope_for_ack (Some (pr_request_id p)) response_id)
  | Raise (Reply h) =>
      catch (run! _send_ws_response_frame h in st_ret CONTINUE) (dispatch_failed i envelope_for_ack None response_id)
  | Raise (Crash x) => dispatch_failed i envelope_for_ack None response_id x
  end.

(** ** Messages *)

Definition _handle_subscribe (request_id : json) : C unit :=
  run! st_modify (set_subscribed true) in
  send_text (JObj [("jsonrpc", JStr "2.0"); ("result", JObj [("subscribed", JBool true)]); ("id", request_id)]).
Definition _handle_unsubscribe (request_id : json) : C unit :=
  run! st_modify (set_subscribed false) in
  send_text (JObj [("jsonrpc", JStr "2.0"); ("result", JObj [("unsubscribed", JBool true)]); ("id", request_id)]).

(** `method in self._handlers`: lists and dictionaries cannot be looked up. *)
Definition handles (method : json) : res exn bool :=
  match method with
  | JStr m => Ret (String.eqb m SLA_SUBSCRIBE_METHOD || String.eqb m SLA_UNSUBSCRIBE_METHOD)
  | JList _ => Raise (XOther "TypeError" "unhashable type: 'list'")
  | JObj _ => Raise (XOther "TypeError" "unhashable type: 'dict'")
  | _ => Ret false
  end.

Definition subscription_dispatch (data : obj) : C unit :=
  match j_get "method" data with
  | JStr m =>
      if String.eqb m SLA_SUBSCRIBE_METHOD then _handle_subscribe (j_get "id" data)
      else if String.eqb m SLA_UNSUBSCRIBE_METHOD then _handle_unsubscribe (j_get "id" data)
      else st_ret tt
  | _ => st_ret tt
  end.

(** Whether the bucket, if any, lets one more message through. *)
Definition take_token (now : Z) : C bool := λ c,
  match cn_bucket c with
  | None => (c, Ret true)
  | Some b => let '(b, ok) := WebSocketTokenBucket.consume now 1 b in (set_bucket (Some b) c, Ret ok)
  end.

Definition serve_request (i : ws_inputs) (raw : bytes) (data : obj) : C WSCloseAction :=
  do! admitted <- take_token (wi_bucket_now i) in
  if negb admitted then run! _send_rate_limit_error data in st_ret CLOSE_RATE_LIMITED
  else
    do! envelope_for_ack <- st_lift (_extract_envelope_for_ack i data) in
    run! _maybe_send_received_ack i envelope_for_ack in
    _dispatch_ws_envelope i raw data envelope_for_ack.

Definition _process_ws_message (i : ws_inputs) (raw : bytes) : C WSCloseAction := λ c,
  match json_loads raw with
  | BadJson _ | BadUtf8 _ => (c, Ret CONTINUE)
  | DecoderRaises x => (c, Raise x)
  | Decoded (JObj data) =>
      if _is_heartbeat_pong data then (c, Ret CONTINUE)
      else
        (do! subscription <- match cn_subscribed c with
                             | Some _ => st_lift (handles (j_get "method" data))
                             | None => st_ret false
                             end in
         if subscription : bool then run! subscription_dispatch data in st_ret CONTINUE
         else serve_request i raw data) c
  | Decoded j => (c, Raise (XOther "AttributeError" ("'" ++ type_name j ++ "' object has no attribute 'get'")))
  end.

(** ** The connection *)

(** What `receive_text` gives: a frame, or the exception of a lost peer. *)
Inductive received : Type :=
| Frame (i : ws_inputs) (raw : bytes)
| ReceiveError.

(** The life of an accepted connection as other tasks see it. *)
Inductive phase : Type :=
| Receiving                    (* blocked in `receive_text` *)
| Closed (code : Z).

Record connection : Type := mkConnection {
  co_phase : phase;
  co_closed_event : bool;      (* the event the heartbeat sets *)
  co_heartbeat : bool;         (* the heartbeat runs *)
  co_last_received : Z;
  co_active : bool;            (* in `active_connections` *)
  co_conn : conn
}.

(** `handle_websocket_connection` up to its first `receive_text`. *)
Definition accept (now : Z) (rate_limit : option Q) (c : conn) : connection :=
  let bucket :=
    match rate_limit with
    | Some r =>
        match WebSocketTokenBucket.init now r None with
        | Ret b => if qlt_bool 0 r then Some b else None
        | Raise _ => None
        end
    | None => None
    end in
  mkConnection Receiving false true now true (set_bucket bucket c).

(** The `finally`: the connection leaves the sets and is closed. *)
Definition teardown (action : WSCloseAction) (x : connection) : connection :=
  let c := co_conn x in
  mkConnection (Closed (_ws_close_code action)) true false (co_last_received x) false
    (mkConn (cn_server c) (cn_bucket c) (option_map (λ _, false) (cn_subscribed c)) (cn_out c) (cn_budget c)).

(** One round of `_ws_receive_loop`, from a `receive_text` that returns to the
    next one or to the end of the connection. *)
Definition on_received (now : Z) (r : received) (x : connection) : connection :=
  match r with
  | ReceiveError => teardown CLOSE_FATAL x
  | Frame i raw =>
      let '(c, out) := _process_ws_message i raw (co_conn x) in
      let x := mkConnection (co_phase x) (co_closed_event x) (co_heartbeat x) now (co_active x) c in
      match out with
      | Raise _ => teardown CLOSE_FATAL x
      | Ret CONTINUE => if co_closed_event x then teardown CONTINUE x else x
      | Ret action => teardown action x
      end
  end.

(** The heartbeat wakes up: a stale connection is marked, another one is
    pinged; it ends with an exception of its send. *)
Definition on_heartbeat (now : Z) (x : connection) : connection :=
  if STALE_CONNECTION_TIMEOUT <? now - co_last_received x then
    mkConnection (co_phase x) true false (co_last_received x) (co_active x) (co_conn x)
  else
    match send_text (JObj [("type", JStr "ping")]) (co_conn x) with
    | (c, Ret _) => mkConnection (co_phase x) (co_closed_event x) (co_heartbeat x) (co_last_received x) (co_active x) c
    | (c, Raise _) => mkConnection (co_phase x) true false (co_last_received x) (co_active x) c
    end.

Inductive ws_step (x : connection) : connection → Prop :=
| ws_received now r : co_phase x = Receiving → ws_step x (on_received now r x)
| ws_heartbeat now : co_phase x = Receiving → co_heartbeat x = true → co_closed_event x = false →
    ws_step x (on_heartbeat now x).

End Server.

Arguments conn W : clear implicits.
Arguments connection W : clear implicits.

(** ** What a message leaves alone *)
Section Frame.
  Context {W : Type} `{PyRuntime, Pydantic, Codecs, Runtime} {B : Type}.
  Variable cf : config W.
  Variable handshake : HttpRequest.
  Variable view : sstate W → B.
  Hypothesis view_metrics : ∀ f s, view (on_disp (on_metrics f) s) = view s.

Definition cview (c : conn W) : B := view (cn_server c).

Lemma keeps_send j : st_keeps cview (send_text (W := W) j).
Proof. intros c. unfold send_text. by destruct (cn_budget c) as [[]|]. Qed.

Lemma keeps_metric f : st_keeps cview (metric (W := W) f).
Proof. intros c. apply view_metrics. Qed.

Lemma keeps_value {A} (r : res exn A) : st_keeps cview (st_lift r).
Proof. done. Qed.

Lemma keeps_catch {A} (m : ST (conn W) exn A) h :
  st_keeps cview m → (∀ x, st_keeps cview (h x)) → st_keeps cview (catch m h).
Proof.
  intros Hm Hh c. unfold catch. specialize (Hm c). destruct (m c) as [c' [x|a]]; [|done].
  cbn [fst] in Hm. by rewrite (Hh x c').
Qed.

Lemma keeps_ack fresh e status error : st_keeps cview (send_ack (W := W) fresh e status error).
Proof. unfold send_ack. repeat first [apply keeps_send | keeps_step]. Qed.

Lemma keeps_asap i id e text pt : st_keeps cview (_send_ws_asap_error_frame cf i id e text pt).
Proof.
  unfold _send_ws_asap_error_frame, _send_ws_response_frame.
  repeat first [apply keeps_metric | apply keeps_send | keeps_step].
Qed.

Lemma keeps_internal i x b pt id : st_keeps cview (_send_internal_error_frame cf i x b pt id).
Proof.
  unfold _send_internal_error_frame.
  repeat first [apply keeps_metric | apply keeps_send | apply keeps_catch | keeps_step | intros ?].
Qed.

Lemma keeps_failed i e p id x : st_keeps cview (dispatch_failed cf i e p id x).
Proof.
  unfold dispatch_failed, _send_ws_dispatch_failure.
  repeat first [apply keeps_ack | apply keeps_asap | apply keeps_internal | keeps_step].
Qed.

Lemma keeps_token now : st_keeps cview (take_token (W := W) now).
Proof. intros c. unfold take_token. destruct (cn_bucket c); [|done]. by destruct (WebSocketTokenBucket.consume _ _ _). Qed.

Lemma keeps_subscription data : st_keeps cview (subscription_dispatch (W := W) data).
Proof.
  unfold subscription_dispatch, _handle_subscribe, _handle_unsubscribe.
  repeat first [apply keeps_send | keeps_step]; by intros c.
Qed.

End Frame.

(** ** Properties *)
Section Properties.
  Context {W : Type} `{PyRuntime, Pydantic, Codecs, Runtime}.
  Variable cf : config W.
  Variable handshake : HttpRequest.

Abbreviation synthesized raw := (_synthesize_ws_request handshake raw).

(** No handler ran: the pool, the usage records and the audit log are as
    before, and only the token validator may have run. *)
Definition no_handler_ran (request : HttpRequest) (s s' : sstate W) : Prop :=
  frame s' = frame s ∧
  (d_world (s_disp s') = d_world (s_disp s) ∨ d_world (s_disp s') = after_auth cf request (d_world (s_disp s))).

Lemma keeps_no_handler {A} request (m : ST (conn W) exn A) s c :
  st_keeps (cview frame) m → st_keeps (cview (λ s, d_world (s_disp s))) m →
  no_handler_ran request s (cn_server c) → no_handler_ran request s (cn_server (fst (m c))).
Proof.
  intros Hf Hw [Hfr Hwd]. specialize (Hf c). specialize (Hw c). unfold cview in Hf, Hw.
  split; [by rewrite Hf|by rewrite Hw].
Qed.

(** The handler ran on the envelope [e]: the work is that of its dispatch, or of its
    streaming dispatch, from the state in which a handler is entered. *)
Definition handler_ran (i : inputs) (request : HttpRequest) (s s' : sstate W) (e : Envelope) : Prop :=
  work (s_disp s') =
    if has_streaming_handler (e_payload_type e) (cf_registry cf)
    then work (fst (fst (dispatch_stream_async (cf_registry cf) (cf_manifest cf) (i_handler_ms i) e (entered cf request s))))
    else work (fst (dispatched cf i request s e)).

Definition ws_gated (i : inputs) (request : HttpRequest) (s s' : sstate W) : Prop :=
  (∃ e, gates_passed cf i request s e ∧ handler_ran i request s s' e) ∨ no_handler_ran request s s'.

Abbreviation wview := (cview (λ s : sstate W, work (s_disp s))).

Lemma keeps_results rs id : st_keeps wview (send_results rs id).
Proof.
  induction rs as [|r rs IH]; cbn [send_results]; unfold _send_ws_result_frame;
    repeat first [apply keeps_send | keeps_step | apply keeps_value]; done.
Qed.

(** Nothing after the dispatch touches its work. *)
Lemma run_dispatch_work i p id c :
  wview (fst (_run_ws_dispatch cf i p id c)) =
    if has_streaming_handler (e_payload_type (pr_envelope p)) (cf_registry cf)
    then work (fst (fst (dispatch_stream_async (cf_registry cf) (cf_manifest cf) (i_handler_ms (wi_pipe i)) (pr_envelope p) (s_disp (cn_server c)))))
    else work (fst (dispatch_async (cf_registry cf) (cf_manifest cf) (i_usage_now (wi_pipe i)) (i_handler_ms (wi_pipe i))
                      (pr_envelope p) (s_disp (cn_server c)))).
Proof.
  unfold _run_ws_dispatch. cbv zeta. destruct (has_streaming_handler _ _).
  - unfold _run_ws_stream_dispatch, catch. cbv zeta. unfold st_bind at 1.
    destruct (dispatch_stream_async _ _ _ _ _) as [[d out] e]. cbn [fst snd].
    set (rest := st_bind (send_results out id) _).
    assert (Hk : st_keeps wview rest).
    { subst rest. apply keeps_bind; [apply keeps_results|]. intros _. destruct e; [apply keeps_stop|by apply keeps_metric]. }
    specialize (Hk (on_server (on_disp (λ _, d)) c)). destruct (rest _) as [c' [x|u]]; cbn [fst] in Hk |- *; [|exact Hk].
    destruct (as_asap x) as [[e' text]|].
    + rewrite (keeps_asap cf (λ s, work (s_disp s)) (λ _ _, eq_refl)). exact Hk.
    + assert (Hi : st_keeps wview (run! _send_internal_error_frame cf i x true (e_payload_type (pr_envelope p)) id in st_ret tt)).
      { apply keeps_bind; [by apply keeps_internal|]. intros _. apply keeps_ret. }
      rewrite Hi. exact Hk.
  - unfold st_bind at 1. unfold piped, _dispatch_to_handler.
    destruct (dispatch_async _ _ _ _ _ _) as [d r] eqn:Hd. cbn [fst].
    assert (Hlast : ∀ s1 o, work (s_disp s1) = work d →
      wview (fst (match o with
                  | Ret response => (run! _record_ws_success cf i (pr_envelope p) response in _send_ws_result_frame response id)
                  | Raise (Reply h) => if hs_status h =? 503 then _send_ws_recoverable_error_frame h id else _send_ws_response_frame h
                  | Raise (Crash x) => st_stop x
                  end (on_server (λ _, s1) c))) = work d).
    { intros s1 o Hs. enough (Hk : st_keeps wview (match o with
                  | Ret response => (run! _record_ws_success cf i (pr_envelope p) response in _send_ws_result_frame response id)
                  | Raise (Reply h) => if hs_status h =? 503 then _send_ws_recoverable_error_frame h id else _send_ws_response_frame h
                  | Raise (Crash x) => st_stop x
                  end)) by (rewrite Hk; exact Hs).
      destruct o as [[h|x]|response].
      - unfold _send_ws_recoverable_error_frame, _send_ws_response_frame.
        repeat first [apply keeps_send | apply keeps_value | keeps_step]; done.
      - apply keeps_stop.
      - unfold _record_ws_success, _send_ws_result_frame, piped, _audit_log_operation.
        repeat first [apply keeps_send | by apply keeps_metric | apply keeps_value | keeps_step].
        all: intros c'; cbn; unfold cview; cbn; by destruct (s_audit (cn_server c')). }
    destruct r as [x|response]; [|by apply (Hlast _ (Ret response))].
    destruct x as [err|rx|ty text]; [|by apply (Hlast _ (Raise (Crash _)))..].
    destruct (bool_decide _); [|destruct (bool_decide _); [|by apply (Hlast _ (Raise (Crash _)))]];
      unfold st_bind, rec_err, st_modify, stop_with, st_stop.
    + destruct (JSONResponse _ _ _) as [y|h]; [by apply (Hlast _ (Raise (Crash y)))|by apply (Hlast _ (Raise (Reply h)))].
    + destruct (build_jsonrpc_error_for_asap_exception _ _ _) as [y|h];
        [by apply (Hlast _ (Raise (Crash y)))|by apply (Hlast _ (Raise (Reply h)))].
Qed.

Lemma dispatch_gated `{!PydanticLaws} i raw data e c :
  ws_gated (wi_pipe i) (synthesized raw) (cn_server c)
    (cn_server (fst (_dispatch_ws_envelope cf handshake i raw data e c))).
Proof.
  unfold _dispatch_ws_envelope. unfold st_bind at 1. unfold piped at 1.
  destruct (_prepare_request cf (wi_pipe i) (synthesized raw) (cn_server c)) as [s1 [[h|x]|p]] eqn:Hp.
  3: { left. destruct (prepared_passed cf _ _ _ _ _ Hp) as (Hg & Hd & _). exists (pr_envelope p). split; [done|].
       pose proof (run_dispatch_work i p (match j_get "id" data with JNull => JStr "" | j => j end) (on_server (λ _, s1) c)) as Hw.
       cbn [cn_server on_server] in Hw. rewrite Hd in Hw. unfold handler_ran, dispatched. rewrite <- Hw.
       unfold catch. unfold st_bind at 1. destruct (_run_ws_dispatch cf i p _ _) as [c' [x|u]]; cbn [fst]; [|done].
       apply (keeps_failed cf (λ s, work (s_disp s)) (λ _ _, eq_refl)). }
  all: right; apply stopped_frame in Hp; apply keeps_no_handler; [..|exact Hp].
  all: repeat first [apply keeps_send | apply keeps_failed | apply keeps_catch | keeps_step | intros ?]; done.
Qed.

(** C7: Over WebSocket, too, a message reaches a handler only through every
    gate: whatever the frame and the state of the connection, either the envelope
    that the frame carries passed validation, timestamp, nonce and authentication,
    with the credentials of the handshake, and exactly this envelope was
    dispatched, from the state the frame found with only the token validator run
    before; or no handler ran. *)
Theorem ws_handlers_behind_gates `{!PydanticLaws} (i : ws_inputs) (raw : bytes) (c : conn W) :
  let s' := cn_server (fst (_process_ws_message cf handshake i raw c)) in
  (∃ e, gates_passed cf (wi_pipe i) (synthesized raw) (cn_server c) e
     ∧ handler_ran (wi_pipe i) (synthesized raw) (cn_server c) s' e)
  ∨ no_handler_ran (synthesized raw) (cn_server c) s'.
Proof.
  cbv zeta. fold (ws_gated (wi_pipe i) (synthesized raw) (cn_server c) (cn_server (fst (_process_ws_message cf handshake i raw c)))).
  assert (Hrefl : no_handler_ran (synthesized raw) (cn_server c) (cn_server c)) by (split; auto).
  unfold _process_ws_message. destruct (json_loads raw) as [j|m|m|x]; try (by right).
  destruct j as [| | | | | |data]; try (by right). destruct (_is_heartbeat_pong data); [by right|].
  unfold st_bind at 1. set (q := match cn_subscribed c with Some _ => _ | None => _ end).
  assert (Hq : fst (q c) = c) by (unfold q; by destruct (cn_subscribed c)).
  destruct (q c) as [c0 [x|subscription]]; cbn [fst] in Hq; subst c0; [by right|].
  destruct subscription.
  { right. apply keeps_no_handler; [..|done]; repeat first [apply keeps_subscription | keeps_step]. }
  unfold serve_request. unfold st_bind at 1.
  pose proof (keeps_token (λ s, s) (wi_bucket_now i) c) as Ha.
  destruct (take_token (wi_bucket_now i) c) as [c1 [x|admitted]]; cbn [fst] in Ha |- *; unfold cview in Ha.
  { right. by rewrite Ha. }
  destruct admitted; cbn [negb].
  2: { right. apply keeps_no_handler; [..|by rewrite Ha]; unfold _send_rate_limit_error;
         repeat first [apply keeps_send | keeps_step]. }
  unfold st_bind at 1, st_lift at 1. destruct (_extract_envelope_for_ack i data) as [x|e]; [right; cbn [fst]; by rewrite Ha|].
  unfold st_bind at 1. pose proof (keeps_ack (λ s, s) (wi_received i) e "received" None c1) as Hk.
  unfold _maybe_send_received_ack. destruct (send_ack _ _ _ _ c1) as [c2 [x|u]]; cbn [fst] in Hk |- *; unfold cview in Hk.
  { right. by rewrite Hk, Ha. }
  rewrite <- Ha, <- Hk. apply dispatch_gated.
Qed.

(** *** Replies *)
Definition is_ack (j : json) : Prop := ∃ params, j = JObj [("jsonrpc", JStr "2.0"); ("method", JStr "asap.ack"); ("params", params)].

(** A JSON-RPC reply, or the body of an HTTP refusal. *)
Definition is_reply (j : json) : Prop :=
  (∃ error id, j = JObj [("jsonrpc", JStr "2.0"); ("error", error); ("id", id)]) ∨
  (∃ result id, j = JObj [("jsonrpc", JStr "2.0"); ("result", result); ("id", id)]) ∨
  (∃ detail, j = JObj [("detail", JStr detail)]).

Lemma send_open j (c : conn W) : cn_budget c = None →
  send_text j c = (mkConn (cn_server c) (cn_bucket c) (cn_subscribed c) (cn_out c ++ [j])%list None, Ret tt).
Proof. intros Hb. unfold send_text. by rewrite Hb. Qed.

(** A run over an open connection that sends nothing, that sends one reply or
    raises, and the frames of both. *)
Definition quiet {A} (m : ST (conn W) exn A) : Prop :=
  ∀ c, cn_budget c = None → cn_out (fst (m c)) = cn_out c ∧ cn_budget (fst (m c)) = None.

Definition once {A} (m : ST (conn W) exn A) : Prop :=
  ∀ c, cn_budget c = None →
    cn_budget (fst (m c)) = None ∧
    match snd (m c) with
    | Ret _ => ∃ r, cn_out (fst (m c)) = (cn_out c ++ [r])%list ∧ is_reply r
    | Raise _ => cn_out (fst (m c)) = cn_out c
    end.

Lemma unsent_ret {A} (a : A) : quiet (st_ret a).
Proof. done. Qed.
Lemma unsent_lift {A} (r : res exn A) : quiet (st_lift r).
Proof. done. Qed.
Lemma unsent_metric f : quiet (metric f).
Proof. done. Qed.
Lemma unsent_piped {A} (m : ST (sstate W) stop A) : quiet (piped m).
Proof. intros c Hc. unfold piped. by destruct (m (cn_server c)). Qed.
Lemma unsent_when b m : quiet m → quiet (st_when b m).
Proof. by destruct b. Qed.

Lemma unsent_bind {A B} (m : ST (conn W) exn A) (k : A → ST (conn W) exn B) :
  quiet m → (∀ a, quiet (k a)) → quiet (st_bind m k).
Proof.
  intros Hm Hk c Hc. unfold st_bind. destruct (Hm c Hc) as [Ho Hb]. destruct (m c) as [c1 [x|a]]; cbn [fst] in *; [done|].
  destruct (Hk a c1 Hb) as [Ho1 Hb1]. by rewrite Ho1, Hb1.
Qed.

Lemma once_stop {A} x : once (st_stop (A := A) x).
Proof. done. Qed.

Lemma once_send j : is_reply j → once (send_text j).
Proof. intros Hj c Hc. rewrite send_open by done. split; [done|]. by exists j. Qed.

Lemma once_bind {A B} (m : ST (conn W) exn A) (k : A → ST (conn W) exn B) :
  quiet m → (∀ a, once (k a)) → once (st_bind m k).
Proof.
  intros Hm Hk c Hc. unfold st_bind. destruct (Hm c Hc) as [Ho Hb].
  destruct (m c) as [c1 [x|a]]; cbn [fst snd] in *; [done|].
  destruct (Hk a c1 Hb) as [Hb1 Hr]. split; [done|]. by rewrite Ho in Hr.
Qed.

Lemma once_piped {A B} (m : ST (sstate W) stop A) (k : res stop A → ST (conn W) exn B) :
  (∀ s, once (k (snd (m s)))) → once (st_bind (piped m) k).
Proof.
  intros Hk c Hc. unfold st_bind, piped. specialize (Hk (cn_server c)). destruct (m (cn_server c)) as [s r].
  apply (Hk (on_server (λ _, s) c) Hc).
Qed.

Lemma once_then {A B} (m : ST (conn W) exn A) (b : B) : once m → once (st_bind m (λ _, st_ret b)).
Proof. intros Hm c Hc. unfold st_bind. specialize (Hm c Hc). by destruct (m c) as [c1 [x|a]]. Qed.

Lemma unsent_success i e r : quiet (_record_ws_success cf i e r).
Proof.
  unfold _record_ws_success.
  repeat first [apply unsent_metric | apply unsent_piped | apply unsent_ret | apply unsent_bind; [|intros ?]].
Qed.

Lemma once_result e id : once (_send_ws_result_frame e id).
Proof.
  apply once_bind; [apply unsent_lift|]. intros rid. apply once_send. right. left. by do 2 eexists.
Qed.

Lemma once_recoverable h id : once (_send_ws_recoverable_error_frame h id).
Proof.
  unfold _send_ws_recoverable_error_frame. destruct (reply_json h); try apply once_stop.
  do 2 (apply once_bind; [apply unsent_lift|]; intros ?). apply once_send. left. by do 2 eexists.
Qed.

Lemma reply_is_reply h : answer_ok h → is_reply (reply_json h).
Proof.
  intros (j & Hj & Hr). unfold reply_json. rewrite Hj. destruct Hr as [(_ & code & m & d & id & ->)|(_ & detail & ->)].
  - left. by do 2 eexists.
  - right. right. by eexists.
Qed.

Lemma once_asap i id e text pt : once (_send_ws_asap_error_frame cf i id e text pt).
Proof.
  apply once_bind; [apply unsent_metric|]. intros _.
  destruct (build_jsonrpc_error_for_asap_exception _ _ _) as [x|h] eqn:Hb; [apply once_stop|].
  apply once_send, reply_is_reply. by eapply build_asap_ok.
Qed.

Lemma once_internal i x b pt id : once (_send_internal_error_frame cf i x b pt id) ∧
  ∀ c, cn_budget c = None → snd (_send_internal_error_frame cf i x b pt id c) = Ret CONTINUE.
Proof.
  assert (Hr : is_reply (internal_error_frame cf x id)) by (left; by do 2 eexists).
  split.
  - apply once_bind; [apply unsent_when, unsent_metric|]. intros _ c Hc. unfold catch, st_bind.
    rewrite send_open by done. split; [done|]. by exists (internal_error_frame cf x id).
  - intros c Hc. unfold _send_internal_error_frame, catch, st_bind.
    destruct b; cbn; unfold send_text; cbn; by rewrite Hc.
Qed.

Lemma ack_open fresh e status error (c : conn W) : cn_budget c = None →
  cn_budget (fst (send_ack fresh e status error c)) = None ∧
  snd (send_ack fresh e status error c) = Ret tt ∧
  ∃ acks, cn_out (fst (send_ack fresh e status error c)) = (cn_out c ++ acks)%list ∧
    Forall is_ack acks ∧ (length acks <= 1)%nat.
Proof.
  intros Hc. unfold send_ack.
  assert (Hnone : ∃ acks, cn_out c = (cn_out c ++ acks)%list ∧ Forall is_ack acks ∧ (length acks <= 1)%nat)
    by (exists []; rewrite app_nil_r; split_and!; [done|constructor|simpl; lia]).
  destruct e as [e|]; [|done]. destruct (e_id e) as [id|]; [|done]. destruct (_ && _); [|done].
  rewrite send_open by done. split_and!; [done..|]. eexists [_]. split_and!; [done| |simpl; lia].
  repeat constructor. by eexists.
Qed.

(** The frames [acks] and [replies] of a request, and how it ended; [silent]:
    an end without a reply is allowed. *)
Definition outcome (silent : Prop) (acks replies : list json) (r : res exn WSCloseAction) : Prop :=
  Forall is_ack acks ∧ Forall is_reply replies ∧
  match r with
  | Ret CLOSE_FATAL => False
  | Ret _ => length replies = 1%nat ∨ replies = [] ∧ silent
  | Raise _ => replies = []
  end.

Lemma once_outcome silent (m : ST (conn W) exn WSCloseAction) c :
  once m → cn_budget c = None → snd (m c) ≠ Ret CLOSE_FATAL →
  ∃ replies, cn_out (fst (m c)) = (cn_out c ++ replies)%list ∧ outcome silent [] replies (snd (m c)).
Proof.
  intros Hm Hc Hne. destruct (Hm c Hc) as [_ Hr]. unfold outcome. destruct (snd (m c)) as [x|a].
  - exists []. rewrite app_nil_r. done.
  - destruct Hr as (r & Ho & Hr). exists [r]. split_and!; [done..|by constructor|]. destruct a; try (by left). done.
Qed.

Lemma failed_outcome i e prepared id x (c : conn W) : cn_budget c = None →
  ∃ acks replies,
    cn_out (fst (dispatch_failed cf i e prepared id x c)) = (cn_out c ++ acks ++ replies)%list ∧
    (length acks <= 1)%nat ∧
    outcome (prepared = None ∧ is_Some (as_asap x)) acks replies (snd (dispatch_failed cf i e prepared id x c)).
Proof.
  intros Hc. unfold dispatch_failed, _send_ws_dispatch_failure. unfold st_bind at 1 3.
  destruct (ack_open (wi_rejected i) e "rejected" (Some (exn_str_of x)) c Hc) as (Hb & Hr & acks & Ho & Hacks & Hlen).
  destruct (send_ack _ _ _ _ c) as [c1 r1]; cbn [fst snd] in *; subst r1.
  set (pt := match e with Some e => _ | None => _ end).
  assert (Hgo : ∀ m, once m → snd (m c1) ≠ Ret CLOSE_FATAL →
    ∃ acks replies, cn_out (fst (m c1)) = (cn_out c ++ acks ++ replies)%list ∧ (length acks <= 1)%nat ∧
      outcome (prepared = None ∧ is_Some (as_asap x)) acks replies (snd (m c1))).
  { intros m Hm Hne.
    destruct (once_outcome (prepared = None ∧ is_Some (as_asap x)) m c1 Hm Hb Hne) as (replies & Hor & _ & Hrs).
    exists acks, replies. split_and!; [by rewrite Hor, Ho, app_assoc|done|]. by split. }
  destruct (as_asap x) as [[err text]|] eqn:Hx.
  - destruct prepared as [rid|].
    + apply Hgo; [apply once_then, once_asap|]. unfold st_bind. by destruct (_send_ws_asap_error_frame _ _ _ _ _ _ c1) as [? []].
    + exists acks, []. rewrite app_nil_r. split_and!; [done..|]. split_and!; [done..|]. by right.
  - apply Hgo; [apply once_internal|]. by rewrite (proj2 (once_internal _ _ _ _ _)).
Qed.

Section NoStreams.
  Hypothesis no_streams : ∀ payload_type, has_streaming_handler payload_type (cf_registry cf) = false.

Lemma once_dispatch i p id : once (_run_ws_dispatch cf i p id).
Proof.
  unfold _run_ws_dispatch. rewrite no_streams. apply once_piped. intros s.
  pose proof (dispatch_replies cf (wi_pipe i) (pr_envelope p) (pr_request_id p) s) as Ha.
  destruct (snd (_dispatch_to_handler _ _ _ _ s)) as [[h|x]|response].
  - destruct (Z.eqb_spec (hs_status h) 503) as [|Hne]; [apply once_recoverable|].
    apply once_send, reply_is_reply. by destruct Ha as [|[]].
  - apply once_stop.
  - apply once_bind; [apply unsent_success|]. intros _. apply once_result.
Qed.

Definition asap_crash (i : ws_inputs) (raw : bytes) (s : sstate W) : Prop :=
  ∃ s' x, _prepare_request cf (wi_pipe i) (synthesized raw) s = (s', Raise (Crash x)) ∧ is_Some (as_asap x).

(** A dispatch that raises is followed by its rejection and its error reply. *)
Lemma caught_outcome silent i e rid id (m : ST (conn W) exn unit) c : once m → cn_budget c = None →
  let out := catch (run! m in st_ret CONTINUE) (dispatch_failed cf i e (Some rid) id) c in
  ∃ acks replies, cn_out (fst out) = (cn_out c ++ acks ++ replies)%list ∧ (length acks <= 1)%nat ∧
    outcome silent acks replies (snd out).
Proof.
  intros Hm Hc out. unfold out, catch, st_bind. destruct (Hm c Hc) as [Hb Hr].
  destruct (m c) as [c1 [x|u]]; cbn [fst snd] in *.
  - destruct (failed_outcome i e (Some rid) id x c1 Hb) as (acks & replies & Ho & Hlen & Ha & Hrs & Hout).
    exists acks, replies. rewrite Ho, Hr. split_and!; [done..|]. split_and!; [done..|].
    destruct (snd _) as [|[]]; try done; destruct Hout as [|(? & ? & _)]; auto; done.
  - destruct Hr as (r & Ho & Hr). exists [], [r]. split_and!; [done|simpl; lia|]. split_and!; [done|by constructor|by left].
Qed.

Lemma dispatch_outcome i raw data e c : cn_budget c = None →
  let out := _dispatch_ws_envelope cf handshake i raw data e c in
  ∃ acks replies, cn_out (fst out) = (cn_out c ++ acks ++ replies)%list ∧ (length acks <= 1)%nat ∧
    outcome (asap_crash i raw (cn_server c)) acks replies (snd out).
Proof.
  intros Hc out. unfold out, _dispatch_ws_envelope. cbv zeta. set (id := match j_get "id" data with JNull => _ | _ => _ end).
  unfold st_bind at 1 4. unfold piped.
  pose proof (answers_prepare cf (wi_pipe i) (synthesized raw) (cn_server c)) as Ha.
  destruct (_prepare_request cf (wi_pipe i) (synthesized raw) (cn_server c)) as [s1 [[h|x]|p]] eqn:Hp; cbn [snd] in Ha.
  - unfold catch, st_bind, _send_ws_response_frame. rewrite send_open by done.
    exists [], [reply_json h]. split_and!; [done|simpl; lia|]. split_and!; [done| |by left]. constructor; [|done].
    by apply reply_is_reply.
  - destruct (failed_outcome i e None id x (on_server (λ _, s1) c) Hc) as (acks & replies & Ho & Hlen & Ha1 & Hrs & Hout).
    exists acks, replies. split_and!; [done..|]. split_and!; [done..|].
    destruct (snd _) as [|[]]; try done; destruct Hout as [|(? & _ & ?)]; auto; right; (split; [done|]; by exists s1, x).
  - apply (caught_outcome _ i e (pr_request_id p) id _ (on_server (λ _, s1) c) (once_dispatch i p id) Hc).
Qed.

Lemma once_subscription data m : j_get "method" data = JStr m →
  String.eqb m SLA_SUBSCRIBE_METHOD || String.eqb m SLA_UNSUBSCRIBE_METHOD = true → once (subscription_dispatch data).
Proof.
  intros Hm Hs. unfold subscription_dispatch. rewrite Hm.
  assert (Hr : ∀ r id, is_reply (JObj [("jsonrpc", JStr "2.0"); ("result", r); ("id", id)]))
    by (intros r id; right; left; by do 2 eexists).
  destruct (String.eqb m SLA_SUBSCRIBE_METHOD); [|rewrite orb_false_l in Hs; rewrite Hs];
    (apply once_bind; [done|]; intros _; apply once_send, Hr).
Qed.

Lemma serve_outcome i raw data c : cn_budget c = None →
  let out := serve_request cf handshake i raw data c in
  ∃ acks replies, cn_out (fst out) = (cn_out c ++ acks ++ replies)%list ∧ (length acks <= 2)%nat ∧
    outcome (asap_crash i raw (cn_server c)) acks replies (snd out).
Proof.
  intros Hc out. unfold out, serve_request.
  assert (Ha : ∃ c1 b, take_token (wi_bucket_now i) c = (c1, Ret b) ∧ cn_budget c1 = None ∧ cn_out c1 = cn_out c ∧
             cn_server c1 = cn_server c).
  { unfold take_token. destruct (cn_bucket c) as [b|]; [|by exists c, true].
    destruct (WebSocketTokenBucket.consume _ _ b) as [b' ok]. by exists (set_bucket (Some b') c), ok. }
  destruct Ha as (c1 & b & Htoken & Hb1 & Ho1 & Hs1). unfold st_bind at 1 5. rewrite Htoken.
  destruct b; cbn [negb].
  2: { unfold _send_rate_limit_error, st_bind. rewrite send_open by done. eexists [], [_].
       split_and!; [by rewrite <- Ho1|simpl; lia|]. split_and!; [done| |by left]. constructor; [|done]. left. by do 2 eexists. }
  unfold st_bind at 1 4, st_lift at 1 2. destruct (_extract_envelope_for_ack i data) as [x|e].
  { exists [], []. rewrite app_nil_r. split_and!; [done|simpl; lia|]. done. }
  unfold st_bind at 1 2. unfold _maybe_send_received_ack.
  destruct (ack_open (wi_received i) e "received" None c1 Hb1) as (Hb2 & Hr2 & acks & Ho2 & Hacks & Hlen).
  pose proof (keeps_ack (λ s, s) (wi_received i) e "received" None c1) as Hk. unfold cview in Hk.
  destruct (send_ack _ _ _ _ c1) as [c2 r2]; cbn [fst snd] in *; subst r2.
  destruct (dispatch_outcome i raw data e c2 Hb2) as (acks' & replies & Ho3 & Hlen' & Hacks' & Hrs & Hout).
  exists (acks ++ acks')%list, replies. rewrite Hk, Hs1 in Hout.
  split_and!; [by rewrite Ho3, Ho2, Ho1, <- !app_assoc|rewrite length_app; lia|]. split_and!; [by apply Forall_app|done..].
Qed.

(** On an open connection of a server without streaming handlers, every
    JSON object that is not a heartbeat is answered at most once and in order:
    at most two acknowledgements (received, rejected), then exactly one reply
    when the receive loop goes on, also when the rate limit then closes the
    connection.  A message that raises instead sends no reply, and its only
    silent success is a protocol error raised by the preparation itself. *)
Theorem ws_requests_answered_once (i : ws_inputs) (raw : bytes) (data : obj) (c : conn W) :
  cn_budget c = None → json_loads raw = Decoded (JObj data) → _is_heartbeat_pong data = false →
  let out := _process_ws_message cf handshake i raw c in
  ∃ acks replies, cn_out (fst out) = (cn_out c ++ acks ++ replies)%list ∧ (length acks <= 2)%nat ∧
    outcome (asap_crash i raw (cn_server c)) acks replies (snd out).
Proof.
  intros Hc Hj Hp out. unfold out, _process_ws_message. rewrite Hj, Hp.
  assert (Hone : ∀ m : ST (conn W) exn WSCloseAction, once m → snd (m c) ≠ Ret CLOSE_FATAL →
    ∃ acks replies, cn_out (fst (m c)) = (cn_out c ++ acks ++ replies)%list ∧ (length acks <= 2)%nat ∧
      outcome (asap_crash i raw (cn_server c)) acks replies (snd (m c))).
  { intros m Hm Hne. destruct (once_outcome (asap_crash i raw (cn_server c)) m c Hm Hc Hne) as (replies & Ho & Hout).
    exists [], replies. split_and!; [done|simpl; lia|done]. }
  unfold st_bind at 1 3. set (q := match cn_subscribed c with Some _ => _ | None => _ end).
  assert (Hq : fst (q c) = c) by (unfold q; by destruct (cn_subscribed c)).
  destruct (q c) as [c0 [x|subscription]] eqn:Eq; cbn [fst] in Hq; subst c0.
  { apply (Hone (st_stop x)); [apply once_stop|done]. }
  destruct subscription; [|by apply serve_outcome].
  assert (Hm : ∃ m, j_get "method" data = JStr m ∧ (String.eqb m SLA_SUBSCRIBE_METHOD || String.eqb m SLA_UNSUBSCRIBE_METHOD) = true).
  { unfold q in Eq. destruct (cn_subscribed c); [|done]. unfold st_lift, handles in Eq.
    destruct (j_get "method" data) as [| | | |m| |]; try done. exists m. split; [done|]. congruence. }
  destruct Hm as (m & Hm & Hs).
  apply (Hone (run! subscription_dispatch data in st_ret CONTINUE)).
  - apply once_then. by apply (once_subscription data m).
  - unfold st_bind. by destruct (subscription_dispatch data c) as [? []].
Qed.

End NoStreams.

(** *** The connection *)

(** Where a connection stands: an open one is registered and its heartbeat runs
    until the close event; a closed one left every set, with one of two codes. *)
Definition connection_inv (x : connection W) : Prop :=
  match co_phase x with
  | Receiving => co_active x = true ∧ co_heartbeat x = negb (co_closed_event x)
  | Closed code => co_active x = false ∧ co_heartbeat x = false ∧ co_closed_event x = true ∧
      cn_subscribed (co_conn x) ≠ Some true ∧ (code = 1001 ∨ code = 1008)
  end.

Lemma teardown_inv a (x : connection W) : connection_inv (teardown a x).
Proof.
  unfold connection_inv, teardown. cbn. split_and!; try done; [by destruct (cn_subscribed _)|]. destruct a; cbn; auto.
Qed.

Lemma step_inv x x' : connection_inv x → ws_step cf handshake x x' → connection_inv x'.
Proof.
  intros Hinv Hstep. destruct Hstep as [now r Hr|now Hr Hh He].
  - unfold on_received. destruct r as [i raw|]; [|apply teardown_inv].
    destruct (_process_ws_message _ _ _ _ _) as [c [y|a]]; [apply teardown_inv|].
    destruct a; try apply teardown_inv. destruct (co_closed_event _) eqn:Ec; [apply teardown_inv|].
    unfold connection_inv in *. cbn in *. by rewrite Hr, Ec in *.
  - unfold on_heartbeat, connection_inv in *. rewrite Hr in Hinv. destruct Hinv as [Ha Hb].
    destruct (_ <? _); cbn; [by rewrite Hr|].
    destruct (send_text _ _) as [c [y|u]]; cbn; by rewrite Hr.
Qed.

(** Every reachable connection is in one of these two conditions: after the
    close the server neither counts it as active nor sends it breaches. *)
Theorem closed_connections_leave (now : Z) (rate_limit : option Q) (c : conn W) (x : connection W) :
  rtc (ws_step cf handshake) (accept now rate_limit c) x → connection_inv x.
Proof.
  intros Hr. assert (H0' : connection_inv (accept now rate_limit c)) by done. revert H0'.
  induction Hr as [x|x y z Hs _ IH]; [done|]. intros Hx. apply IH. by eapply step_inv.
Qed.

(** The heartbeat only marks a stale connection: it stays registered and
    blocked in `receive_text`, and nothing but the peer's next frame, or the
    loss of the transport, moves it again. *)
Theorem stale_connections_linger (now : Z) (x : connection W) :
  co_phase x = Receiving → co_last_received x + STALE_CONNECTION_TIMEOUT < now →
  co_phase (on_heartbeat now x) = Receiving ∧ co_active (on_heartbeat now x) = co_active x ∧
  ∀ x', ws_step cf handshake (on_heartbeat now x) x' → ∃ t r, x' = on_received cf handshake t r (on_heartbeat now x).
Proof.
  intros Hr Hs. unfold on_heartbeat. rewrite (proj2 (Z.ltb_lt _ _)) by lia. split_and!; [done..|].
  intros x' Hstep. destruct Hstep as [t r _|t _ Hh _]; [by exists t, r|]. done.
Qed.

(** A frame that decodes to an array, such as a batch, closes the connection
    without any reply. *)
Theorem array_frame_closes (now : Z) (i : ws_inputs) (raw : bytes) (items : list json) (x : connection W) :
  json_loads raw = Decoded (JList items) →
  co_phase (on_received cf handshake now (Frame i raw) x) = Closed WS_CLOSE_GOING_AWAY ∧
  cn_out (co_conn (on_received cf handshake now (Frame i raw) x)) = cn_out (co_conn x).
Proof. intros Hj. unfold on_received, _process_ws_message. by rewrite Hj. Qed.

(** A subscription is granted whatever the manifest requires of a caller and
    whatever is left in the bucket. *)
Theorem subscription_is_ungated (i : ws_inputs) (raw : bytes) (data : obj) (c : conn W) (b : bool) :
  json_loads raw = Decoded (JObj data) → j_get "method" data = JStr SLA_SUBSCRIBE_METHOD →
  cn_subscribed c = Some b → cn_budget c = None →
  let out := _process_ws_message cf handshake i raw c in
  cn_subscribed (fst out) = Some true ∧ cn_server (fst out) = cn_server c ∧ cn_bucket (fst out) = cn_bucket c ∧
  snd out = Ret CONTINUE.
Proof.
  intros Hj Hm Hs Hc out. unfold out, _process_ws_message. rewrite Hj.
  replace (_is_heartbeat_pong data) with false.
  - unfold st_bind. rewrite Hs. unfold st_lift, handles. rewrite Hm. cbn -[send_text]. unfold subscription_dispatch.
    rewrite Hm. cbn -[send_text]. unfold _handle_subscribe, st_bind, st_modify. rewrite send_open by done.
    cbn. by rewrite Hs.
  - unfold _is_heartbeat_pong. unfold j_get in Hm. destruct (assoc "method" data); [|done]. by rewrite andb_false_r.
Qed.

End Properties.

(** ** Examples *)
Section Examples.
  #[local] Existing Instances StrictPydantic.strict StrictPydantic.strict_laws ToyCodec.toy demo_py.

(** A decoder that knows a request, an array and a subscription. *)
Definition ws_demo_body (n : nat) : decoded :=
  match n with
  | O => Decoded (JList [])
  | 1%nat => Decoded (JObj [("method", JStr "asap.other"); ("params", JObj []); ("id", JInt 7)])
  | _ => Decoded (JObj [("method", JStr SLA_SUBSCRIBE_METHOD); ("id", JInt 1)])
  end.

#[local] Instance ws_demo_runtime : Runtime :=
  {| json_loads := λ b, ws_demo_body (length b); fixed1 := λ _, "0.0"; format_exc := λ _, "";
     inject_trace := λ e, e; dump_json_text := λ _, []; reply_serializer := {| render_error := λ _ _, None |} |}.

Definition ws_handshake : HttpRequest := mkHttpRequest "GET" "/asap/ws" [] None None [].
Definition ws_demo_inputs : ws_inputs := mkWsInputs demo_inputs 0 (0, "x") (0, "y") (0, "z").
Definition ws_demo_conn : conn unit := mkConn demo_state None (Some false) [] None.
Definition ws_demo_connection : connection unit := accept 0 None ws_demo_conn.

Lemma ws_handlers_behind_gates_witness :
  no_handler_ran demo_cf (_synthesize_ws_request ws_handshake [0]) demo_state
    (cn_server (fst (_process_ws_message demo_cf ws_handshake ws_demo_inputs [0] ws_demo_conn))).
Proof.
  destruct (ws_handlers_behind_gates demo_cf ws_handshake ws_demo_inputs [0] ws_demo_conn) as [(e & Hg & _)|Hn]; [|exact Hn].
  destruct Hg as ((body & rpc & data & Hb & Hr & Hm & _) & _).
  vm_compute in Hb. injection Hb as <-. vm_compute in Hr. injection Hr as <-. vm_compute in Hm. discriminate Hm.
Defined.

Lemma ws_requests_answered_once_witness :
  ∃ acks replies,
    cn_out (fst (_process_ws_message demo_cf ws_handshake ws_demo_inputs [0] ws_demo_conn)) = ([] ++ acks ++ replies)%list ∧
    (length acks <= 2)%nat ∧
    outcome (asap_crash demo_cf ws_handshake ws_demo_inputs [0] demo_state) acks replies
      (snd (_process_ws_message demo_cf ws_handshake ws_demo_inputs [0] ws_demo_conn)).
Proof.
  exact (ws_requests_answered_once demo_cf ws_handshake (λ _, eq_refl) ws_demo_inputs [0]
    [("method", JStr "asap.other"); ("params", JObj []); ("id", JInt 7)] ws_demo_conn eq_refl eq_refl eq_refl).
Defined.

Lemma closed_connections_leave_witness : connection_inv ws_demo_connection.
Proof. exact (closed_connections_leave demo_cf ws_handshake 0 None ws_demo_conn _ (rtc_refl _ _)). Defined.

Lemma stale_connections_linger_witness : co_phase (on_heartbeat (91 * second) ws_demo_connection) = Receiving.
Proof. apply (stale_connections_linger demo_cf ws_handshake); [reflexivity|reflexivity]. Defined.

Lemma array_frame_closes_witness :
  co_phase (on_received demo_cf ws_handshake 0 (Frame ws_demo_inputs []) ws_demo_connection) = Closed 1001.
Proof. apply (array_frame_closes demo_cf ws_handshake 0 ws_demo_inputs [] [] ws_demo_connection). reflexivity. Defined.

Lemma subscription_is_ungated_witness :
  cn_subscribed (fst (_process_ws_message demo_cf ws_handshake ws_demo_inputs [0; 0] ws_demo_conn)) = Some true.
Proof.
  apply (subscription_is_ungated demo_cf ws_handshake ws_demo_inputs [0; 0]
    [("method", JStr SLA_SUBSCRIBE_METHOD); ("id", JInt 1)] ws_demo_conn false); reflexivity.
Defined.

(** The reply of the demonstration request is one error frame. *)
Example ws_demo_frames :
  length (cn_out (fst (_process_ws_message demo_cf ws_handshake ws_demo_inputs [0] ws_demo_conn))) = 1%nat.
Proof. vm_compute. reflexivity. Qed.

End Examples.
