(* ===== verification/Sla.v ===== *)
(** * Service level agreements

    `src/src/asap/economics/sla.py`, the in-memory half of
    `economics/sla_storage.py`, the percentages of `models/validators.py`, the
    breach broadcast of `transport/ws/server.py` and the routes of
    `transport/sla_api.py`.

    Percentages and averages are exact rationals.  A comparison of a naive with
    an aware `datetime` raises, also inside `sorted` and `min`, which compare
    two such elements whenever both kinds occur. *)

From Stdlib Require Import ZArith QArith Qround Qminmax Lia Lqa Ascii String.
From stdpp Require Import base tactics list gmap strings sorting.
From S2P Require Import Prelude PyValue Digest Identity ReplayGuard EnvelopeGuard AuditChain RateLimit Metrics Errors Metering JsonRpc Handlers Middleware DelegationJwt.
Open Scope string_scope.
Open Scope Z_scope.
Open Scope asap_scope.

(** ** Data *)
Record SLADefinition : Type := mkSla {
  sd_availability : option string;
  sd_max_latency_p95_ms : option Z;
  sd_max_error_rate : option string;
  sd_support_hours : option string
}.

Record SLAMetrics : Type := mkSlaMetrics {
  sm_agent_id : string;
  sm_period_start : pydatetime;
  sm_period_end : pydatetime;
  sm_uptime_percent : Q;
  sm_latency_p95_ms : Z;
  sm_error_rate_percent : Q;
  sm_tasks_completed : Z;
  sm_tasks_failed : Z
}.

Inductive breach_type : Type := BREACH_TYPE_AVAILABILITY | BREACH_TYPE_LATENCY | BREACH_TYPE_ERROR_RATE.
Inductive severity : Type := SEVERITY_WARNING | SEVERITY_CRITICAL.

#[export] Instance breach_type_eq_dec : EqDecision breach_type.
Proof. solve_decision. Defined.
#[export] Instance severity_eq_dec : EqDecision severity.
Proof. solve_decision. Defined.

Definition breach_type_value (t : breach_type) : string :=
  match t with
  | BREACH_TYPE_AVAILABILITY => "availability"
  | BREACH_TYPE_LATENCY => "latency"
  | BREACH_TYPE_ERROR_RATE => "error_rate"
  end.
Definition severity_value (s : severity) : string :=
  match s with SEVERITY_WARNING => "warning" | SEVERITY_CRITICAL => "critical" end.

Record SLABreach : Type := mkBreach {
  br_id : string;
  br_agent_id : string;
  br_breach_type : string;
  br_threshold : string;
  br_actual : string;
  br_severity : string;
  br_detected_at : pydatetime;
  br_resolved_at : option pydatetime
}.

Record BreachConditionResult : Type := mkCondition {
  bc_breach_type : breach_type;
  bc_threshold : string;
  bc_actual : string;
  bc_severity : severity
}.

(** The constraints of the fields of [SLAMetrics]. *)
Definition percent_ok (q : Q) : bool := Qle_bool 0 q && Qle_bool q 100.
Definition metrics_valid (m : SLAMetrics) : bool :=
  percent_ok (sm_uptime_percent m) && percent_ok (sm_error_rate_percent m)
  && (0 <=? sm_latency_p95_ms m) && (0 <=? sm_tasks_completed m) && (0 <=? sm_tasks_failed m).

(** ** Percentages *)
Definition is_num_char (c : ascii) : bool := is_some (digit_value c) || Ascii.eqb c ".".

(** The longest prefix of digits and dots, and the rest. *)
Fixpoint span_num (s : string) : string * string :=
  match s with
  | String c s' => if is_num_char c then let '(a, b) := span_num s' in (String c a, b) else ("", s)
  | EmptyString => ("", "")
  end.

(** `\s*%?\s*$` *)
Definition percent_tail (s : string) : bool :=
  match PyStr.lstrip s with
  | String c s' => Ascii.eqb c "%" && negb (PyStr.truthy (PyStr.lstrip s'))
  | EmptyString => true
  end.

(** `re.match(r"^(-?[\d.]+)\s*%?\s*$", s)`: the sign and the digits of its group. *)
Definition match_percentage (s : string) : option (bool * string) :=
  let '(negative, s1) := match s with
                         | String c s' => if Ascii.eqb c "-" then (true, s') else (false, s)
                         | EmptyString => (false, s)
                         end in
  let '(num, rest) := span_num s1 in
  if PyStr.truthy num && percent_tail rest then Some (negative, num) else None.

(** `float` of digits and dots: one dot at most and one digit at least. *)
Fixpoint decimal (point : bool) (acc : Z) (scale : positive) (seen : bool) (s : string) : option Q :=
  match s with
  | EmptyString => if seen then Some (acc # scale) else None
  | String c s' =>
      match digit_value c with
      | Some d => decimal point (acc * 10 + d) (if point then scale * 10 else scale)%positive true s'
      | None => if point then None else decimal true acc scale seen s'
      end
  end.

Definition clamp_percent (q : Q) : Q := Qmin 100 (Qmax 0 q).

Definition parse_percentage (s : string) : res pyexn Q :=
  let s := PyStr.strip s in
  match match_percentage s with
  | None => Raise (ValueError ("Invalid percentage string: " ++ repr_str s))
  | Some (negative, num) =>
      match decimal false 0 1 false num with
      | None => Raise (ValueError ("could not convert string to float: " ++ repr_str num))
      | Some q => Ret (clamp_percent (if negative then - q else q))
      end
  end.

Definition validate_percentage_format (v : string) : res pyexn string :=
  let v := PyStr.strip v in
  match match_percentage v with
  | None => Raise (ValueError ("Invalid percentage string: " ++ repr_str v))
  | Some _ => Ret v
  end.

(** The definitions Pydantic accepts. *)
Definition percentage_field_ok (v : option string) : bool :=
  match v with
  | None => true
  | Some s => match validate_percentage_format s with Ret _ => true | Raise _ => false end
  end.
Definition sla_valid (d : SLADefinition) : bool :=
  percentage_field_ok (sd_availability d) && percentage_field_ok (sd_max_error_rate d)
  && match sd_max_latency_p95_ms d with None => true | Some ms => 0 <=? ms end.

(** ** Breach conditions *)
Definition AVAILABILITY_CRITICAL_BELOW_PERCENT : Q := 95.
Definition LATENCY_CRITICAL_MULTIPLIER : Z := 2.
Definition ERROR_RATE_CRITICAL_PERCENT : Q := 5.
Definition ERROR_RATE_CRITICAL_MULTIPLIER : Q := 2.

Section Breaches.
  Context `{PyRuntime}.

Definition percent_text (q : Q) : string := float_repr (FFin q) ++ "%".
Definition ms_text (ms : Z) : string := PyStr.dec_Z ms ++ "ms".
Definition critical_if (b : bool) : severity := if b then SEVERITY_CRITICAL else SEVERITY_WARNING.

(** The three conditions; a percentage that cannot be read is passed over. *)
Definition availability_breach (sla : SLADefinition) (metrics : SLAMetrics) : list BreachConditionResult :=
  match sd_availability sla with
  | None => []
  | Some s =>
      match parse_percentage s with
      | Raise _ => []
      | Ret required_uptime =>
          if qlt_bool (sm_uptime_percent metrics) required_uptime then
            [mkCondition BREACH_TYPE_AVAILABILITY (percent_text required_uptime) (percent_text (sm_uptime_percent metrics))
               (critical_if (qlt_bool (sm_uptime_percent metrics) AVAILABILITY_CRITICAL_BELOW_PERCENT))]
          else []
      end
  end.

Definition latency_breach (sla : SLADefinition) (metrics : SLAMetrics) : list BreachConditionResult :=
  match sd_max_latency_p95_ms sla with
  | None => []
  | Some max_ms =>
      if max_ms <? sm_latency_p95_ms metrics then
        [mkCondition BREACH_TYPE_LATENCY (ms_text max_ms) (ms_text (sm_latency_p95_ms metrics))
           (critical_if (max_ms * LATENCY_CRITICAL_MULTIPLIER <=? sm_latency_p95_ms metrics))]
      else []
  end.

Definition error_rate_breach (sla : SLADefinition) (metrics : SLAMetrics) : list BreachConditionResult :=
  match sd_max_error_rate sla with
  | None => []
  | Some s =>
      match parse_percentage s with
      | Raise _ => []
      | Ret max_allowed =>
          if qlt_bool max_allowed (sm_error_rate_percent metrics) then
            [mkCondition BREACH_TYPE_ERROR_RATE (percent_text max_allowed) (percent_text (sm_error_rate_percent metrics))
               (critical_if (Qle_bool ERROR_RATE_CRITICAL_PERCENT (sm_error_rate_percent metrics)
                             || Qle_bool (max_allowed * ERROR_RATE_CRITICAL_MULTIPLIER) (sm_error_rate_percent metrics)))]
          else []
      end
  end.

Definition evaluate_breach_conditions (sla : option SLADefinition) (metrics : SLAMetrics) : list BreachConditionResult :=
  match sla with
  | None => []
  | Some sla => (availability_breach sla metrics ++ latency_breach sla metrics ++ error_rate_breach sla metrics)%list
  end.

End Breaches.

(** ** Metrics helpers *)
Definition compute_uptime_percent (ok_count total_count : Z) : Q :=
  if total_count <=? 0 then 100 else clamp_percent (100 * inject_Z ok_count / inject_Z total_count).

(** `int(0.95 * k)`: the product of doubles has the integer part of the exact
    product, whose distance from a greater integer is at least a twentieth. *)
Definition p95_index (k : Z) : Z := 95 * k / 100.

Definition compute_latency_p95_ms (durations_ms : list Z) : Z :=
  match durations_ms with
  | [] => 0
  | _ =>
      let sorted_d := PySort.sorted Z.le durations_ms in
      let n := Z.of_nat (length sorted_d) in
      let idx := if 1 <? n then p95_index (n - 1) else 0 in
      default 0 (sorted_d !! Z.to_nat (Z.min idx (n - 1)))
  end.

Definition compute_error_rate_percent (tasks_completed tasks_failed : Z) : Q :=
  let total := tasks_completed + tasks_failed in
  if total <=? 0 then 0 else clamp_percent (100 * inject_Z tasks_failed / inject_Z total).

Definition hour : Z := 3600 * second.

Definition rolling_window_bounds (window : string) (end_ : Z) : res pyexn (Z * Z) :=
  let! delta := if String.eqb window "1h" then Ret hour
                else if String.eqb window "24h" then Ret (24 * hour)
                else if String.eqb window "7d" then Ret (7 * 24 * hour)
                else if String.eqb window "30d" then Ret (30 * 24 * hour)
                else Raise (ValueError ("window must be one of ('1h', '24h', '7d', '30d'); got " ++ repr_str window)) in
  Ret (end_ - delta, end_).

(** ** Aggregation *)
Definition sumQ {A} (f : A → Q) (l : list A) : Q := foldr (λ x acc, f x + acc)%Q 0%Q l.

Definition tasks_of (m : SLAMetrics) : Z := sm_tasks_completed m + sm_tasks_failed m.

(** The mean of a percentage, weighted by tasks where there are any. *)
Definition weighted (f : SLAMetrics → Q) (metrics : list SLAMetrics) (total_tasks : Z) : Q :=
  if 0 <? total_tasks
  then (sumQ (λ m, (f m * inject_Z (tasks_of m))%Q) metrics / inject_Z total_tasks)%Q
  else (sumQ f metrics / inject_Z (Z.of_nat (length metrics)))%Q.

(** `round(x, 2)` *)
Definition round2 (q : Q) : Q := py_round (q * 100) # 100.

(** Pydantic refuses metrics out of their bounds. *)
Definition new_metrics (m : SLAMetrics) : res pyexn SLAMetrics :=
  if metrics_valid m then Ret m else Raise (ValidationError "1 validation error for SLAMetrics").

Definition aggregate_sla_metrics (metrics : list SLAMetrics) : res pyexn (option SLAMetrics) :=
  match metrics with
  | [] => Ret None
  | m :: _ =>
      let! period_start := dt_min (map sm_period_start metrics) in
      let! period_end := dt_max (map sm_period_end metrics) in
      let total_completed := sum_of sm_tasks_completed metrics in
      let total_failed := sum_of sm_tasks_failed metrics in
      let total_tasks := total_completed + total_failed in
      let! out := new_metrics (mkSlaMetrics (sm_agent_id m) period_start period_end
                    (round2 (weighted sm_uptime_percent metrics total_tasks))
                    (compute_latency_p95_ms (map sm_latency_p95_ms metrics))
                    (round2 (weighted sm_error_rate_percent metrics total_tasks))
                    total_completed total_failed) in
      Ret (Some out)
  end.

(** ** The in-memory storage *)

(** `l[offset : offset + limit]`, or `l[offset:]`. *)
Definition slice {A} (offset : Z) (limit : option Z) (l : list A) : list A :=
  match limit with None => drop (Z.to_nat offset) l | Some n => py_slice offset (offset + n) l end.

Record period : Type := mkPeriod { pd_agent_id : option string; pd_start : option pydatetime; pd_end : option pydatetime }.

Definition in_range (agent_id : string) (from to : pydatetime) (q : period) : res pyexn bool :=
  if negb (opt_eqb (pd_agent_id q) agent_id) then Ret false
  else
    let! early := match pd_start q with None => Ret false | Some start => dt_lt to start end in
    if early : bool then Ret false
    else
      let! late := match pd_end q with None => Ret false | Some end_ => dt_lt end_ from end in
      Ret (negb late).

Definition _metrics_matches (q : period) (m : SLAMetrics) : res pyexn bool :=
  in_range (sm_agent_id m) (sm_period_start m) (sm_period_end m) q.
Definition _breach_matches (q : period) (b : SLABreach) : res pyexn bool :=
  in_range (br_agent_id b) (br_detected_at b) (br_detected_at b) q.

Module InMemorySLAStorage.

Record t : Type := mk { metrics : list SLAMetrics; breaches : list SLABreach }.
Definition init : t := mk [] [].

Definition record_metrics (m : SLAMetrics) (s : t) : t := mk (metrics s ++ [m])%list (breaches s).
Definition record_breach (b : SLABreach) (s : t) : t := mk (metrics s) (breaches s ++ [b])%list.

Definition query_metrics (q : period) (limit : option Z) (offset : Z) (s : t) : res pyexn (list SLAMetrics) :=
  if offset <? 0 then Raise (ValueError "offset must be non-negative")
  else
    let! out := filter_res (_metrics_matches q) (metrics s) in
    let! out := sorted_by sm_period_start out in
    Ret (slice offset limit out).

Definition count_metrics (q : period) (s : t) : res pyexn Z :=
  let! out := filter_res (_metrics_matches q) (metrics s) in Ret (Z.of_nat (length out)).

Definition query_breaches (q : period) (s : t) : res pyexn (list SLABreach) :=
  let! out := filter_res (_breach_matches q) (breaches s) in sorted_by br_detected_at out.

Definition all_ts (s : t) : list pydatetime :=
  (flat_map (λ m, [sm_period_start m; sm_period_end m]) (metrics s) ++ map br_detected_at (breaches s))%list.

(** The total, and the oldest timestamp. *)
Definition stats (s : t) : res pyexn (Z * option pydatetime) :=
  let total := Z.of_nat (length (metrics s)) + Z.of_nat (length (breaches s)) in
  match all_ts s with
  | [] => Ret (total, None)
  | ts => let! oldest := dt_min ts in Ret (total, Some oldest)
  end.

End InMemorySLAStorage.

(** ** The detector *)
Section Detector.
  Context `{PyRuntime} {W : Type}.
  (** the alert hook, over the state of what it calls *)
  Variable on_breach : SLABreach → W → W * res exn unit.

Definition new_breach (now : Z) (id agent_id : string) (cond : BreachConditionResult) : SLABreach :=
  mkBreach ("breach_" ++ id) agent_id (breach_type_value (bc_breach_type cond)) (bc_threshold cond) (bc_actual cond)
    (severity_value (bc_severity cond)) (Aware now 0) None.

(** [ids]: the generated ids, in order. *)
Fixpoint record_conditions (now : Z) (agent_id : string) (ids : nat → string) (k : nat)
    (conditions : list BreachConditionResult) : ST (InMemorySLAStorage.t * W) exn (list SLABreach) :=
  match conditions with
  | [] => st_ret []
  | cond :: rest =>
      let breach := new_breach now (ids k) agent_id cond in
      run! st_modify (λ sw, (InMemorySLAStorage.record_breach breach (fst sw), snd sw)) in
      run! (λ sw, let '(w, r) := on_breach breach (snd sw) in ((fst sw, w), r)) in
      do! recorded <- record_conditions now agent_id ids (S k) rest in
      st_ret (breach :: recorded)
  end.

Definition check_and_record (now : Z) (ids : nat → string) (agent_id : string) (sla : option SLADefinition)
    (metrics : SLAMetrics) : ST (InMemorySLAStorage.t * W) exn (list SLABreach) :=
  record_conditions now agent_id ids 0 (evaluate_breach_conditions sla metrics).

End Detector.

(** ** Broadcast *)

(** `_safe_send` to one subscriber: whether it stays subscribed, or the
    exception that leaves it. *)
Definition _safe_send (sent : res exn unit) : res exn bool :=
  match sent with
  | Ret _ => Ret true
  | Raise (XOther n m) => if str_in n ["RuntimeError"; "OSError"] then Ret false else Raise (XOther n m)
  | Raise x => Raise x
  end.

(** `broadcast_sla_breach`: [send] is what each socket's send does.  Every
    send is started; `gather` raises the first exception. *)
Definition broadcast_sla_breach {S} (send : S → res exn unit) (subscribers : list S) : list S * res exn unit :=
  (List.filter (λ ws, match _safe_send (send ws) with Ret b => b | Raise _ => true end) subscribers,
   foldr (λ ws r, match _safe_send (send ws) with Raise x => Raise x | Ret _ => r end) (Ret tt) subscribers).

(** ** Compliance *)
Section Compliance.
  Context `{PyRuntime}.

Definition count_severity (s : severity) (conditions : list BreachConditionResult) : Z :=
  Z.of_nat (length (filter (λ c, bc_severity c = s) conditions)).

Definition _compute_compliance_percent (sla : option SLADefinition) (metrics : SLAMetrics) : option Q :=
  match sla with
  | None => None
  | Some d =>
      match evaluate_breach_conditions (Some d) metrics with
      | [] => Some 100%Q
      | conditions =>
          let critical_count := inject_Z (count_severity SEVERITY_CRITICAL conditions) in
          let warning_count := inject_Z (count_severity SEVERITY_WARNING conditions) in
          Some (if 0 <? count_severity SEVERITY_CRITICAL conditions
                then Qmax 0 (100 - 25 * critical_count - 5 * warning_count)
                else Qmax 0 (100 - 5 * warning_count))
      end
  end.
End Compliance.

(** ** Properties of the conditions *)
Section Monotone.
  Context `{PyRuntime}.

(** Metrics at least as good on every count. *)
Definition no_worse (m m' : SLAMetrics) : Prop :=
  (sm_uptime_percent m <= sm_uptime_percent m')%Q ∧ sm_latency_p95_ms m' <= sm_latency_p95_ms m ∧
  (sm_error_rate_percent m' <= sm_error_rate_percent m)%Q.

(** What a condition costs, and the cost of one kind of breach. *)
Definition penalty (c : BreachConditionResult) : Z :=
  match bc_severity c with SEVERITY_CRITICAL => 25 | SEVERITY_WARNING => 5 end.
Definition penalties (l : list BreachConditionResult) : Z := sum_of penalty l.

Lemma penalties_app l l' : penalties (l ++ l') = penalties l + penalties l'.
Proof. unfold penalties, sum_of. induction l as [|c l IH]; simpl; [done|]. lia. Qed.

Lemma penalties_counts l : penalties l = 25 * count_severity SEVERITY_CRITICAL l + 5 * count_severity SEVERITY_WARNING l.
Proof.
  unfold penalties, count_severity, penalty, sum_of. induction l as [|c l IH]; simpl; [done|].
  rewrite !filter_cons. destruct (bc_severity c); simpl; lia.
Qed.

Lemma qlt_bool_mono a a' b b' : (a' <= a)%Q → (b <= b')%Q → qlt_bool a b = true → qlt_bool a' b' = true.
Proof.
  unfold qlt_bool. rewrite !negb_true_iff. intros Ha Hb Hlt. apply not_true_iff_false. intros Hle.
  apply not_true_iff_false in Hlt. apply Hlt. apply Qle_bool_iff. apply Qle_bool_iff in Hle. lra.
Qed.

Lemma Qle_bool_mono a a' b b' : (a' <= a)%Q → (b <= b')%Q → Qle_bool a b = true → Qle_bool a' b' = true.
Proof. intros Ha Hb. rewrite !Qle_bool_iff. lra. Qed.

(** One condition: when its test and its criticality follow, so does its cost. *)
Lemma condition_mono (b b' k k' : bool) t th th' ac ac' :
  (b' = true → b = true) → (k' = true → k = true) →
  penalties (if b' then [mkCondition t th' ac' (critical_if k')] else [])
  <= penalties (if b then [mkCondition t th ac (critical_if k)] else []).
Proof.
  intros Hb Hk. destruct b', b, k', k; try (by specialize (Hb eq_refl)); try (by specialize (Hk eq_refl)); cbn; lia.
Qed.

Lemma conditions_mono sla m m' : no_worse m m' →
  penalties (evaluate_breach_conditions sla m') <= penalties (evaluate_breach_conditions sla m).
Proof.
  intros (Hu & Hl & He). destruct sla as [sla|]; [|done]. cbn [evaluate_breach_conditions].
  rewrite !penalties_app. apply Z.add_le_mono; [|apply Z.add_le_mono].
  - unfold availability_breach. destruct (sd_availability sla) as [s|]; [|done].
    destruct (parse_percentage s) as [|q]; [done|].
    apply condition_mono; apply qlt_bool_mono; lra.
  - unfold latency_breach. destruct (sd_max_latency_p95_ms sla) as [ms|]; [|done].
    apply condition_mono; rewrite ?Z.ltb_lt, ?Z.leb_le; lia.
  - unfold error_rate_breach. destruct (sd_max_error_rate sla) as [s|]; [|done].
    destruct (parse_percentage s) as [|q]; [done|].
    apply condition_mono; [apply qlt_bool_mono; lra|].
    rewrite !orb_true_iff. intros [Hc|Hc]; [left|right]; (eapply Qle_bool_mono; [..|exact Hc]; lra).
Qed.

Lemma penalties_nonneg l : 0 <= penalties l.
Proof. unfold penalties, sum_of, penalty. induction l as [|c l IH]; simpl; [done|]. destruct (bc_severity c); lia. Qed.

Lemma penalties_zero l : penalties l = 0 ↔ l = [].
Proof.
  split; [|by intros ->]. destruct l as [|c l]; [done|]. pose proof (penalties_nonneg l) as Hl.
  unfold penalties, sum_of in *. simpl. unfold penalty at 1. destruct (bc_severity c); lia.
Qed.

Lemma compliance_penalties d m : ∃ q, _compute_compliance_percent (Some d) m = Some q ∧
  (q == Qmax 0 (100 - inject_Z (penalties (evaluate_breach_conditions (Some d) m))))%Q.
Proof.
  unfold _compute_compliance_percent. destruct (evaluate_breach_conditions (Some d) m) as [|c l].
  - eexists. split; [done|]. reflexivity.
  - eexists. split; [done|]. rewrite penalties_counts, inject_Z_plus, !inject_Z_mult.
    change (inject_Z 25) with 25%Q. change (inject_Z 5) with 5%Q.
    destruct (Z.ltb_spec 0 (count_severity SEVERITY_CRITICAL (c :: l))) as [Hc|Hc].
    + apply Q.max_compat; [reflexivity|]. ring.
    + replace (count_severity SEVERITY_CRITICAL (c :: l)) with 0 by (unfold count_severity in *; lia).
      apply Q.max_compat; [reflexivity|]. change (inject_Z 0) with 0%Q. ring.
Qed.

(** The compliance of an agent is a percentage that never falls when its
    metrics improve: at least as much uptime, no more latency and no more errors
    give at least the same compliance, between 0 and 100, and it is 100 exactly
    when no condition of the agreement is breached. *)
Theorem compliance_is_monotone (d : SLADefinition) (m m' : SLAMetrics) : no_worse m m' →
  ∃ q q', _compute_compliance_percent (Some d) m = Some q ∧ _compute_compliance_percent (Some d) m' = Some q' ∧
    (0 <= q)%Q ∧ (q <= q')%Q ∧ (q' <= 100)%Q ∧ ((q' == 100)%Q ↔ evaluate_breach_conditions (Some d) m' = []).
Proof.
  intros Hm. pose proof (conditions_mono (Some d) m m' Hm) as Hp.
  destruct (compliance_penalties d m) as (q & Hq & Eq). destruct (compliance_penalties d m') as (q' & Hq' & Eq').
  exists q, q'. set (p := penalties (evaluate_breach_conditions (Some d) m)) in *.
  set (p' := penalties (evaluate_breach_conditions (Some d) m')) in *.
  pose proof (penalties_nonneg (evaluate_breach_conditions (Some d) m')) as Hn. fold p' in Hn.
  rewrite Zle_Qle in Hp, Hn. change (inject_Z 0) with 0%Q in Hn.
  split_and!; [done|done| | | |].
  - rewrite Eq. apply Q.le_max_l.
  - rewrite Eq, Eq'. apply Q.max_le_compat_l. lra.
  - rewrite Eq'. apply Q.max_lub; lra.
  - rewrite <- penalties_zero. fold p'. split; [|intros Hz; rewrite Hz in Eq'; exact Eq'].
    rewrite Eq'. intros H100. destruct (Q.max_spec 0 (100 - inject_Z p')) as [[_ Hx]|[_ Hx]]; rewrite Hx in H100; [|lra].
    apply inject_Z_injective. change (inject_Z 0) with 0%Q. lra.
Qed.
End Monotone.

(** ** Percentiles *)
Definition how_many (P : Z → Prop) `{∀ x, Decision (P x)} (l : list Z) : Z := Z.of_nat (length (filter P l)).

#[local] Instance Zle_total : Total Z.le.
Proof. intros a b. lia. Qed.

Lemma how_many_perm (P : Z → Prop) `{∀ x, Decision (P x)} l l' : l ≡ₚ l' → how_many P l = how_many P l'.
Proof. intros Hl. unfold how_many. by rewrite Hl. Qed.

(** The element at an index of a sorted list splits it. *)
Lemma sorted_rank (s : list Z) k r : Sorted Z.le s → s !! k = Some r →
  Z.of_nat k < how_many (λ d, d <= r) s ∧ how_many (λ d, d < r) s <= Z.of_nat k.
Proof.
  intros Hs Hk. pose proof (Sorted_StronglySorted Z.le s Hs) as Hss.
  assert (Hlen : length (take k s) = k) by (apply length_take_le; apply lookup_lt_Some in Hk; lia).
  assert (Hlo : ∀ x, x ∈ take k s → x <= r).
  { intros x Hx. rewrite <- (take_drop_middle s k r Hk) in Hss.
    eapply StronglySorted_app_1_elem_of; [exact Hss|done|apply list_elem_of_here]. }
  assert (Hhi : ∀ x, x ∈ r :: drop (S k) s → r <= x).
  { intros x [->|Hx]%elem_of_cons; [done|]. rewrite <- (take_drop_middle s k r Hk) in Hss.
    apply StronglySorted_app_1_r, StronglySorted_cons in Hss as [Hf _].
    rewrite Forall_forall in Hf. by apply Hf. }
  rewrite <- (take_drop_middle s k r Hk). unfold how_many. rewrite !filter_app, !length_app. split.
  - rewrite (filter_all _ (take k s)), filter_cons_True by (rewrite ?Forall_forall; eauto; lia). simpl. lia.
  - assert (Hnone : filter (λ d, d < r) (r :: drop (S k) s) = []).
    { destruct (filter (λ d, d < r) (r :: drop (S k) s)) as [|x l] eqn:Hf; [done|].
      assert (Hx : x ∈ filter (λ d, d < r) (r :: drop (S k) s)) by (rewrite Hf; apply list_elem_of_here).
      apply list_elem_of_filter in Hx as [Hlt Hx%Hhi]. lia. }
    rewrite Hnone.
    pose proof (length_filter (λ d, d < r) (take k s)). simpl. lia.
Qed.

Lemma p95_unfold l : l ≠ [] → compute_latency_p95_ms l
  = default 0 (PySort.sorted Z.le l !! Z.to_nat (p95_index (Z.of_nat (length (PySort.sorted Z.le l)) - 1))).
Proof.
  intros Hne. unfold compute_latency_p95_ms. destruct l as [|d l]; [done|].
  set (s := PySort.sorted Z.le (d :: l)). assert (Hs : s ≡ₚ d :: l) by apply PySort.sorted_Permutation.
  apply Permutation_length in Hs. simpl in Hs. set (n := Z.of_nat (length s)).
  assert (Hn : 1 <= n) by (unfold n; lia).
  assert (Hi : p95_index (n - 1) <= n - 1) by (apply Z.div_le_upper_bound; lia).
  destruct (Z.ltb_spec 1 n); [by rewrite Z.min_l by lia|]. replace n with 1 by lia. done.
Qed.

Lemma sorted_unique l l' : l ≡ₚ l' → PySort.sorted Z.le l = PySort.sorted Z.le l'.
Proof.
  intros Hl. apply (Sorted_unique Z.le); try apply (PySort.Sorted_sorted Z.le).
  etrans; [apply PySort.sorted_Permutation|]. etrans; [exact Hl|]. symmetry. apply PySort.sorted_Permutation.
Qed.

(** The reported latency is a 95th percentile of the durations: it is one
    of them, more than 95 percent of the others' number are at most it and at
    most 95 percent are below it, and their order does not matter. *)
Theorem latency_is_percentile (durations : list Z) : durations ≠ [] →
  let r := compute_latency_p95_ms durations in
  let n := Z.of_nat (length durations) in
  r ∈ durations ∧ 95 * (n - 1) < 100 * how_many (λ d, d <= r) durations ∧
  100 * how_many (λ d, d < r) durations <= 95 * (n - 1) ∧
  ∀ durations', durations ≡ₚ durations' → compute_latency_p95_ms durations' = r.
Proof.
  intros Hne r n. set (s := PySort.sorted Z.le durations).
  assert (Hperm : s ≡ₚ durations) by apply PySort.sorted_Permutation.
  assert (Hn : 1 <= n) by (destruct durations; [done|]; unfold n; simpl; lia).
  assert (Hlen : Z.of_nat (length s) = n) by (unfold n; by rewrite Hperm).
  set (k := Z.to_nat (p95_index (n - 1))).
  assert (Hk : 100 * Z.of_nat k <= 95 * (n - 1) < 100 * (Z.of_nat k + 1)).
  { unfold k, p95_index. rewrite Z2Nat.id by (apply Z.div_pos; lia).
    pose proof (Z.div_mod (95 * (n - 1)) 100 ltac:(lia)). pose proof (Z.mod_pos_bound (95 * (n - 1)) 100 ltac:(lia)). lia. }
  assert (Hr : s !! k = Some r).
  { destruct (lookup_lt_is_Some_2 s k) as [x Hx]; [lia|]. rewrite Hx. f_equal. unfold r.
    rewrite (p95_unfold durations) by done. fold s. rewrite Hlen. fold k. by rewrite Hx. }
  pose proof (sorted_rank s k r (PySort.Sorted_sorted _ _) Hr) as [Hle Hlt].
  rewrite (how_many_perm _ s durations) in Hle by done. rewrite (how_many_perm _ s durations) in Hlt by done.
  split_and!; [|lia|lia|].
  - rewrite <- Hperm. by eapply list_elem_of_lookup_2.
  - intros d' Hd'. assert (Hne' : d' ≠ []) by (intros ->; by apply Permutation_nil_r in Hd').
    rewrite (p95_unfold d') by done. unfold r. rewrite (p95_unfold durations) by done.
    by rewrite (sorted_unique d' durations).
Qed.

(** ** Aggregation *)

(** The picked date is one of the dates and no date is better. *)
Lemma dt_pick_best better (v : pydatetime → Z) ds : (∀ x y, better x y = (v x <? v y)) → ds ≠ [] → one_kind ds = true →
  ∃ d, dt_pick better ds = Ret d ∧ d ∈ ds ∧ ∀ x, x ∈ ds → v d <= v x.
Proof.
  intros Hv Hne Hk. unfold dt_pick. destruct ds as [|d0 ds]; [done|]. rewrite Hk. eexists. split; [done|].
  clear Hk Hne. revert d0. induction ds as [|d ds IH]; intros d0; simpl.
  { split; [apply list_elem_of_here|]. by intros x ->%list_elem_of_singleton. }
  rewrite Hv. destruct (Z.ltb_spec (v d) (v d0)) as [Hlt|Hge].
  - destruct (IH d) as [Hin Hmin]. split; [by right|]. intros x [->|Hx]%elem_of_cons; [|by apply Hmin].
    specialize (Hmin d (list_elem_of_here _ _)). lia.
  - destruct (IH d0) as [Hin Hmin]. split.
    + apply elem_of_cons in Hin as [->|Hin]; [apply list_elem_of_here|]. by do 2 right.
    + intros x [->|[->|Hx]%elem_of_cons]%elem_of_cons.
      * apply Hmin, list_elem_of_here.
      * specialize (Hmin d0 (list_elem_of_here _ _)). lia.
      * apply Hmin. by right.
Qed.

Lemma dt_max_best ds : ds ≠ [] → one_kind ds = true → ∃ d, dt_max ds = Ret d ∧ d ∈ ds ∧ ∀ x, x ∈ ds → to_utc x <= to_utc d.
Proof.
  intros Hne Hk. destruct (dt_pick_best (λ x acc, to_utc acc <? to_utc x) (λ d, - to_utc d) ds) as (d & Hd & Hin & Hmin);
    [intros x y; apply Bool.eq_iff_eq_true; rewrite !Z.ltb_lt; lia|done..|].
  exists d. split_and!; [done..|]. intros x Hx%Hmin. lia.
Qed.

Lemma sum_of_nonneg {A} (f : A → Z) l : (∀ x, x ∈ l → 0 <= f x) → 0 <= sum_of f l.
Proof.
  intros Hf. unfold sum_of. induction l as [|x l IH]; simpl; [done|].
  pose proof (Hf x (list_elem_of_here _ _)). assert (0 <= foldr (λ e acc, f e + acc) 0 l) by (apply IH; intros y Hy; apply Hf; by right).
  lia.
Qed.

Lemma sum_of_plus {A} (f g : A → Z) l : sum_of f l + sum_of g l = sum_of (λ x, f x + g x) l.
Proof. unfold sum_of. induction l as [|x l IH]; simpl; lia. Qed.

(** A weighted sum of percentages is at most a hundred times the weight. *)
Lemma sumQ_bounds {A} (f : A → Q) (w : A → Z) l :
  (∀ x, x ∈ l → (0 <= f x)%Q ∧ (f x <= 100)%Q ∧ 0 <= w x) →
  (0 <= sumQ (λ x, f x * inject_Z (w x)) l)%Q ∧ (sumQ (λ x, f x * inject_Z (w x)) l <= 100 * inject_Z (sum_of w l))%Q.
Proof.
  intros Hf. unfold sumQ, sum_of. induction l as [|x l IH]; simpl; [split; discriminate|].
  destruct (Hf x (list_elem_of_here _ _)) as (H1 & H2 & H3).
  destruct IH as [IH1 IH2]; [intros y Hy; apply Hf; by right|].
  rewrite Zle_Qle in H3. change (inject_Z 0) with 0%Q in H3. rewrite inject_Z_plus. split; nra.
Qed.

Lemma ratio_percent a b : (0 <= a)%Q → (a <= 100 * b)%Q → (0 < b)%Q → (0 <= a / b)%Q ∧ (a / b <= 100)%Q.
Proof. intros Ha Hb Hp. split; [apply Qle_shift_div_l|apply Qle_shift_div_r]; lra. Qed.

Lemma weighted_percent f l : l ≠ [] → (∀ m, m ∈ l → (0 <= f m)%Q ∧ (f m <= 100)%Q ∧ 0 <= tasks_of m) →
  (0 <= weighted f l (sum_of tasks_of l))%Q ∧ (weighted f l (sum_of tasks_of l) <= 100)%Q.
Proof.
  intros Hne Hf. unfold weighted. destruct (Z.ltb_spec 0 (sum_of tasks_of l)) as [Hpos|_].
  - destruct (sumQ_bounds f tasks_of l Hf) as [Hlo Hhi]. apply ratio_percent; [done|done|].
    rewrite Zlt_Qlt in Hpos. exact Hpos.
  - destruct (sumQ_bounds f (λ _, 1) l) as [Hlo Hhi]; [intros m Hm; destruct (Hf m Hm) as (? & ? & _); split_and!; [done..|lia]|].
    assert (Hs : sum_of (λ _ : SLAMetrics, 1) l = Z.of_nat (length l)) by (unfold sum_of; clear; induction l; simpl; lia).
    rewrite Hs in Hhi. assert (Hx : (sumQ (λ x, f x * inject_Z 1) l == sumQ f l)%Q).
    { clear. unfold sumQ. induction l as [|x l IH]; simpl; [reflexivity|]. rewrite IH. change (inject_Z 1) with 1%Q. ring. }
    rewrite Hx in Hlo, Hhi. apply ratio_percent; [done|done|].
    change 0%Q with (inject_Z 0). rewrite <- Zlt_Qlt. destruct l; [done|]. simpl. lia.
Qed.

Lemma py_round_bounds q (n : Z) : (0 <= q)%Q → (q <= inject_Z n)%Q → 0 <= py_round q <= n.
Proof.
  intros H0 Hn. pose proof (Qfloor_le q) as Hf. pose proof (Qlt_floor q) as Hf1.
  assert (Hlo : 0 <= Qfloor q) by (change 0 with (Qfloor (inject_Z 0)); by apply Qfloor_resp_le).
  assert (Hhi : Qfloor q <= n) by (rewrite <- (Qfloor_Z n); by apply Qfloor_resp_le).
  unfold py_round. destruct (Qcompare_spec (q - inject_Z (Qfloor q)) (1 # 2)) as [Hc|Hc|Hc]; [|lia|].
  all: assert (Qfloor q < n) by (rewrite Zlt_Qlt; lra).
  - destruct (Z.even _); lia.
  - lia.
Qed.

Lemma round2_percent q : (0 <= q)%Q ∧ (q <= 100)%Q → percent_ok (round2 q) = true.
Proof.
  intros [H0 H1]. destruct (py_round_bounds (q * 100) 10000) as [Ha Hb]; [lra|change (inject_Z 10000) with 10000%Q; lra|].
  unfold percent_ok, round2. rewrite andb_true_iff, !Qle_bool_iff. unfold Qle. simpl. lia.
Qed.

Lemma metrics_valid_spec m : metrics_valid m = true ↔
  ((0 <= sm_uptime_percent m)%Q ∧ (sm_uptime_percent m <= 100)%Q) ∧
  ((0 <= sm_error_rate_percent m)%Q ∧ (sm_error_rate_percent m <= 100)%Q) ∧
  0 <= sm_latency_p95_ms m ∧ 0 <= sm_tasks_completed m ∧ 0 <= sm_tasks_failed m.
Proof. unfold metrics_valid, percent_ok. rewrite !andb_true_iff, !Qle_bool_iff, !Z.leb_le. tauto. Qed.

(** Aggregating valid metrics of one agent never fails and gives valid
    metrics: the weighted and rounded percentages stay between 0 and 100, the
    tasks are added up, and the period covers the period of each. *)
Theorem aggregation_is_valid (l : list SLAMetrics) : l ≠ [] → Forall (λ m, metrics_valid m = true) l →
  one_kind (map sm_period_start l) = true → one_kind (map sm_period_end l) = true →
  ∃ out, aggregate_sla_metrics l = Ret (Some out) ∧ metrics_valid out = true ∧
    tasks_of out = sum_of tasks_of l ∧ sm_latency_p95_ms out ∈ map sm_latency_p95_ms l ∧
    ∀ m, m ∈ l → to_utc (sm_period_start out) <= to_utc (sm_period_start m)
                 ∧ to_utc (sm_period_end m) <= to_utc (sm_period_end out).
Proof.
  intros Hne Hv Hks Hke. rewrite Forall_forall in Hv.
  assert (Hvs : ∀ m, m ∈ l → metrics_valid m = true) by done. clear Hv.
  assert (Hmap : ∀ {B} (f : SLAMetrics → B), map f l ≠ []) by (intros B f; by destruct l).
  destruct (dt_pick_best (λ x acc, to_utc x <? to_utc acc) to_utc (map sm_period_start l) (λ _ _, eq_refl) (Hmap _ _) Hks)
    as (ps & Hps & _ & Hpmin).
  destruct (dt_max_best (map sm_period_end l) (Hmap _ _) Hke) as (pe & Hpe & _ & Hpmax).
  destruct (latency_is_percentile (map sm_latency_p95_ms l) (Hmap _ _)) as [Hlat _].
  assert (Hnn : ∀ m, m ∈ l → 0 <= tasks_of m).
  { intros m Hm%Hvs. apply metrics_valid_spec in Hm. unfold tasks_of. lia. }
  assert (Hsum : sum_of sm_tasks_completed l + sum_of sm_tasks_failed l = sum_of tasks_of l) by apply sum_of_plus.
  assert (Hnew : metrics_valid (mkSlaMetrics (sm_agent_id (hd (mkSlaMetrics "" ps pe 0 0 0 0 0) l)) ps pe
      (round2 (weighted sm_uptime_percent l (sum_of tasks_of l))) (compute_latency_p95_ms (map sm_latency_p95_ms l))
      (round2 (weighted sm_error_rate_percent l (sum_of tasks_of l)))
      (sum_of sm_tasks_completed l) (sum_of sm_tasks_failed l)) = true).
  { unfold metrics_valid. cbn. rewrite !round2_percent.
    - apply list_elem_of_fmap in Hlat as (m & -> & Hm%Hvs%metrics_valid_spec).
      rewrite !(proj2 (Z.leb_le _ _)); [done|..|lia]; apply sum_of_nonneg; intros x Hx%Hvs%metrics_valid_spec; lia.
    - apply weighted_percent; [done|]. intros m Hm. pose proof (Hnn m Hm). apply Hvs, metrics_valid_spec in Hm. tauto.
    - apply weighted_percent; [done|]. intros m Hm. pose proof (Hnn m Hm). apply Hvs, metrics_valid_spec in Hm. tauto. }
  destruct l as [|m0 l0]; [done|]. unfold aggregate_sla_metrics. fold dt_min in Hps. rewrite Hps, Hpe. cbn [rbind].
  rewrite Hsum. unfold new_metrics. cbn [hd] in Hnew. rewrite Hnew. cbn [rbind]. eexists. split; [done|].
  split_and!; [done|by rewrite <- Hsum|done|].
  intros m Hm. split; [apply Hpmin|apply Hpmax]; by apply list_elem_of_fmap_2.
Qed.

(** ** The storage *)
Definition matches (q : period) (m : SLAMetrics) : bool :=
  match _metrics_matches q m with Ret b => b | Raise _ => false end.

Lemma filter_res_ret {A} (f : A → res pyexn bool) l out : filter_res f l = Ret out →
  out = List.filter (λ x, match f x with Ret b => b | Raise _ => false end) l.
Proof.
  revert out. induction l as [|x l IH]; simpl; intros out; [by intros [= <-]|].
  destruct (f x) as [e|b]; [done|]. cbn [rbind]. destruct (filter_res f l) as [e|out']; [done|].
  cbn [rbind]. intros [= <-]. rewrite (IH out' eq_refl). by destruct b.
Qed.

Lemma slice_take {A} (offset n : Z) (l : list A) : 0 <= offset → 0 <= n →
  slice offset (Some n) l = take (Z.to_nat n) (drop (Z.to_nat offset) l).
Proof.
  intros Ho Hn. unfold slice, py_slice, slice_index. rewrite !(proj2 (Z.ltb_ge _ _)) by lia.
  destruct (Z.le_ge_cases (Z.of_nat (length l)) offset).
  - rewrite !drop_ge by lia. by rewrite !take_nil.
  - rewrite (Z.min_l offset) by lia. destruct (Z.le_ge_cases (offset + n) (Z.of_nat (length l))).
    + rewrite Z.min_l by lia. f_equal. lia.
    + rewrite Z.min_r by lia. rewrite !take_ge by (rewrite length_drop; lia). done.
Qed.

#[local] Instance dt_order_total {A} (key : A → pydatetime) : Total (dt_order key).
Proof. intros a b. unfold dt_order. lia. Qed.

Definition page (q : period) (n : Z) (s : InMemorySLAStorage.t) (k : nat) : list SLAMetrics :=
  match InMemorySLAStorage.query_metrics q (Some n) (Z.of_nat k * n) s with Ret l => l | Raise _ => [] end.

(** Reading the history page by page reads each matching record once and
    in order: when the query for everything succeeds, so does every page, the
    pages one after the other are the whole list, that list is sorted by the
    start of the period, holds exactly the matching records, and its length is
    the reported total. *)
Theorem pages_partition_history (q : period) (s : InMemorySLAStorage.t) (all : list SLAMetrics) (n : Z) :
  InMemorySLAStorage.query_metrics q None 0 s = Ret all → 0 < n →
  all ≡ₚ List.filter (matches q) (InMemorySLAStorage.metrics s) ∧ Sorted (dt_order sm_period_start) all ∧
  InMemorySLAStorage.count_metrics q s = Ret (Z.of_nat (length all)) ∧
  (∀ k, InMemorySLAStorage.query_metrics q (Some n) (Z.of_nat k * n) s = Ret (page q n s k)) ∧
  (∀ pages, flat_map (page q n s) (seq 0 pages) = take (pages * Z.to_nat n) all).
Proof.
  unfold InMemorySLAStorage.query_metrics at 1. cbn [Z.ltb Z.compare]. intros Hq Hn.
  destruct (filter_res (_metrics_matches q) (InMemorySLAStorage.metrics s)) as [e|out] eqn:Hf; [done|]. cbn [rbind] in Hq.
  destruct (sorted_by sm_period_start out) as [e|sorted] eqn:Hs; [done|]. cbn [rbind] in Hq.
  unfold slice in Hq. cbn in Hq. injection Hq as <-. rewrite drop_0.
  assert (Hperm : sorted ≡ₚ out).
  { unfold sorted_by in Hs. destruct (one_kind _); [|done]. injection Hs as <-. apply PySort.sorted_Permutation. }
  assert (Hpage : ∀ k, InMemorySLAStorage.query_metrics q (Some n) (Z.of_nat k * n) s
                       = Ret (take (Z.to_nat n) (drop (k * Z.to_nat n) sorted))).
  { intros k. unfold InMemorySLAStorage.query_metrics. rewrite (proj2 (Z.ltb_ge _ _)) by nia. rewrite Hf. cbn [rbind].
    rewrite Hs. cbn [rbind]. rewrite slice_take by nia. do 3 f_equal. nia. }
  split_and!.
  - rewrite Hperm. by rewrite (filter_res_ret _ _ _ Hf).
  - unfold sorted_by in Hs. destruct (one_kind _); [|done]. injection Hs as <-. apply (PySort.Sorted_sorted _).
  - unfold InMemorySLAStorage.count_metrics. rewrite Hf. cbn [rbind]. by rewrite Hperm.
  - intros k. unfold page. by rewrite Hpage.
  - induction pages as [|pages IH]; [done|].
    rewrite seq_S, flat_map_app, IH. cbn [flat_map]. rewrite app_nil_r. unfold page. rewrite Nat.add_0_l, Hpage.
    rewrite take_drop_commute. replace (S pages * Z.to_nat n)%nat with (pages * Z.to_nat n + Z.to_nat n)%nat by lia.
    set (front := take (pages * Z.to_nat n + Z.to_nat n) sorted).
    replace (take (pages * Z.to_nat n) sorted) with (take (pages * Z.to_nat n) front)
      by (unfold front; rewrite take_take; f_equal; lia).
    apply take_drop.
Qed.

(** ** The detector *)
Section DetectorFacts.
  Context `{PyRuntime} {W : Type}.
  Variable on_breach : SLABreach → W → W * res exn unit.

Definition breaches_of (now : Z) (agent_id : string) (ids : nat → string) (k : nat) (l : list BreachConditionResult) :
    list SLABreach := imap (λ j c, new_breach now (ids (k + j)%nat) agent_id c) l.

(** How many breaches were recorded, and how the run ended. *)
Definition recorded_upto (bs : list SLABreach) (n : nat) (w' : W) (r : res exn (list SLABreach)) : Prop :=
  match r with
  | Ret out => n = length bs ∧ out = bs
  | Raise x => ∃ b w1, n ≠ O ∧ bs !! pred n = Some b ∧ on_breach b w1 = (w', Raise x)
  end.

Lemma record_conditions_spec now agent_id ids k l s w : ∃ n w' r,
  record_conditions on_breach now agent_id ids k l (s, w)
  = ((InMemorySLAStorage.mk (InMemorySLAStorage.metrics s)
        (InMemorySLAStorage.breaches s ++ take n (breaches_of now agent_id ids k l)), w'), r) ∧
  recorded_upto (breaches_of now agent_id ids k l) n w' r.
Proof.
  revert k s w. induction l as [|c l IH]; intros k s w.
  { exists O, w, (Ret []). split; [|done]. cbn. rewrite app_nil_r. by destruct s. }
  cbn [record_conditions]. set (b := new_breach now (ids k) agent_id c).
  assert (Hbs : breaches_of now agent_id ids k (c :: l) = b :: breaches_of now agent_id ids (S k) l).
  { unfold breaches_of, b. rewrite imap_cons, Nat.add_0_r. f_equal. apply imap_ext. intros j x _.
    cbn. by replace (k + S j)%nat with (S (k + j)) by lia. }
  unfold st_bind, st_modify. cbn [fst snd].
  destruct (on_breach b w) as [w1 [x|u]] eqn:Hb.
  - exists 1%nat, w1, (Raise x). rewrite Hbs. split; [done|]. by exists b, w.
  - destruct (IH (S k) (InMemorySLAStorage.record_breach b s) w1) as (n & w' & r & Hrun & Hr). rewrite Hrun.
    exists (S n), w', (match r with Raise x => Raise x | Ret out => Ret (b :: out) end). rewrite Hbs. split.
    + destruct r; cbn; by rewrite <- app_assoc.
    + destruct r as [x|out]; cbn in *; [|by destruct Hr as [-> ->]].
      destruct Hr as (b' & w2 & Hn & Hl & Ho). exists b', w2. destruct n; [done|]. done.
Qed.

(** A check records one breach per violated condition, in the order
    availability, latency, error rate, each before its alert; when an alert
    raises, the breaches up to it stay recorded, the later ones are not, and the
    exception leaves the check. *)
Theorem breaches_recorded_in_order (now : Z) (ids : nat → string) (agent_id : string) (sla : option SLADefinition)
    (metrics : SLAMetrics) (s : InMemorySLAStorage.t) (w : W) :
  let bs := breaches_of now agent_id ids 0 (evaluate_breach_conditions sla metrics) in
  ∃ n w' r, check_and_record on_breach now ids agent_id sla metrics (s, w)
    = ((InMemorySLAStorage.mk (InMemorySLAStorage.metrics s) (InMemorySLAStorage.breaches s ++ take n bs), w'), r) ∧
    recorded_upto bs n w' r.
Proof. intros bs. apply record_conditions_spec. Qed.

End DetectorFacts.

(** ** Divergences *)

(** A percentage with two dots passes the validation of the definition and
    cannot be read by the evaluation, which passes over it: the agreement is
    never breached, whatever the metrics. *)
Theorem unreadable_percentage_never_breaches `{PyRuntime} (m : SLAMetrics) :
  let sla := mkSla (Some "99.9.9%") None (Some "0..1%") None in
  sla_valid sla = true ∧ evaluate_breach_conditions (Some sla) m = [].
Proof. by vm_compute. Qed.

(** A range without a zone raises as soon as an aware record of the agent is in
    the store. *)
Theorem naive_range_raises (start : Z) (e : option pydatetime) (agent_id : option string) (limit : option Z) (offset : Z)
    (s : InMemorySLAStorage.t) (us off : Z) (m : SLAMetrics) (rest : list SLAMetrics) :
  0 <= offset → InMemorySLAStorage.metrics s = m :: rest → sm_period_end m = Aware us off →
  opt_eqb agent_id (sm_agent_id m) = true →
  InMemorySLAStorage.query_metrics (mkPeriod agent_id (Some (Naive start)) e) limit offset s = Raise mixed_dates.
Proof.
  intros Ho Hs Hm Ha. unfold InMemorySLAStorage.query_metrics. rewrite (proj2 (Z.ltb_ge _ _)) by lia.
  rewrite Hs. cbn [filter_res]. unfold _metrics_matches, in_range. cbn [pd_agent_id pd_start]. rewrite Ha, Hm. done.
Qed.

(** ** Examples *)
Section Examples.
#[local] Instance sla_demo_py : PyRuntime := {| float_repr := λ _, "0.0"; float_of_str := λ _, None |}.

Example parse_examples :
  map parse_percentage ["99.5%"; " 1 % "; "-3%"; "250"]
  = [Ret (995 # 10); Ret (1 # 1); Ret 0%Q; Ret 100%Q].
Proof. reflexivity. Qed.

Example parse_refused :
  parse_percentage "99,5%" = Raise (ValueError "Invalid percentage string: '99,5%'").
Proof. reflexivity. Qed.

Definition sla_demo : SLADefinition := mkSla (Some "99.5%") (Some 500) (Some "1%") None.
Definition sla_poor : SLAMetrics := mkSlaMetrics "urn:asap:agent:a" (Aware 0 0) (Aware hour 0) 90 1200 3 97 3.
Definition sla_fair : SLAMetrics := mkSlaMetrics "urn:asap:agent:a" (Aware hour 0) (Aware (2 * hour) 0) 99 600 1 99 1.

Example poor_conditions :
  map (λ c, (bc_breach_type c, bc_severity c)) (evaluate_breach_conditions (Some sla_demo) sla_poor)
  = [(BREACH_TYPE_AVAILABILITY, SEVERITY_CRITICAL); (BREACH_TYPE_LATENCY, SEVERITY_CRITICAL);
     (BREACH_TYPE_ERROR_RATE, SEVERITY_CRITICAL)].
Proof. vm_compute. reflexivity. Qed.

Lemma compliance_is_monotone_witness :
  ∃ q q', _compute_compliance_percent (Some sla_demo) sla_poor = Some q ∧
    _compute_compliance_percent (Some sla_demo) sla_fair = Some q' ∧ (q <= q')%Q.
Proof.
  destruct (compliance_is_monotone sla_demo sla_poor sla_fair) as (q & q' & Hq & Hq' & _ & Hle & _);
    [split_and!; vm_compute; discriminate|]. by exists q, q'.
Defined.

Lemma latency_is_percentile_witness : compute_latency_p95_ms [30; 10; 20] ∈ [30; 10; 20].
Proof. apply (latency_is_percentile [30; 10; 20]). discriminate. Defined.

Lemma aggregation_is_valid_witness :
  ∃ out, aggregate_sla_metrics [sla_poor; sla_fair] = Ret (Some out) ∧ metrics_valid out = true ∧ tasks_of out = 200.
Proof.
  destruct (aggregation_is_valid [sla_poor; sla_fair]) as (out & Ho & Hv & Ht & _);
    [discriminate|repeat constructor|reflexivity|reflexivity|]. by exists out.
Defined.

Definition sla_store : InMemorySLAStorage.t := InMemorySLAStorage.mk [sla_fair; sla_poor] [].

Lemma pages_partition_history_witness :
  flat_map (page (mkPeriod None None None) 1 sla_store) (seq 0 2) = [sla_poor; sla_fair].
Proof.
  apply (pages_partition_history (mkPeriod None None None) sla_store [sla_poor; sla_fair] 1); reflexivity.
Defined.

Lemma naive_range_raises_witness :
  InMemorySLAStorage.query_metrics (mkPeriod None (Some (Naive 0)) None) (Some 100) 0 sla_store = Raise mixed_dates.
Proof. apply (naive_range_raises 0 None None (Some 100) 0 sla_store (2 * hour) 0 sla_fair [sla_poor]); (reflexivity || lia). Defined.

End Examples.
