(* ===== verification/OperatorApi.v ===== *)
(** * The operator routes

    `src/src/asap/transport/usage_api.py`, `transport/sla_api.py` and
    `transport/routes/audit.py`: the guards of their routers, every handler over
    the in-memory storages, and the CSV export.

    Query parameters arrive parsed, within the bounds their declarations state;
    time ranges of the usage routes are instants, like the timestamps of
    [Metering].  A JSON reply is the value it carries. *)

From Stdlib Require Import ZArith QArith Lia Ascii String.
From stdpp Require Import base tactics list gmap strings sorting.
From S2P Require Import Prelude PyValue Digest Identity ReplayGuard EnvelopeGuard Capabilities AuditChain RateLimit Metrics Errors Metering JsonRpc Handlers Middleware DelegationJwt Sla.
Open Scope string_scope.
Open Scope Z_scope.
Open Scope asap_scope.

(** What the routes take from Pydantic and from `datetime`: the JSON form of a
    date, `datetime.fromisoformat`, and the validation of usage bodies, which
    fails with its message. *)
Class OperatorRuntime : Type := {
  dt_json : pydatetime → string;
  fromisoformat : string → res pyexn pydatetime;
  pd_usage : json → res string UsageMetrics;
  pd_batch : json → res string (list UsageMetrics)
}.

(** ** The application *)
Inductive op_exn : Type :=
| OpHttp (e : HTTPException)
| OpLimited (e : RateLimitExceeded)
| OpRaise (e : pyexn).

Inductive op_body : Type :=
| OpJson (j : json)
| OpText (s : string).

Record op_response : Type := mkOpResponse {
  or_status : Z;
  or_body : op_body;
  or_headers : list (string * string)
}.

Record op_app `{RateStrategy} : Type := mkOp {
  op_limiter : option ASAPRateLimiter.t;
  op_sla : option InMemorySLAStorage.t;
  op_metering : option InMemoryMeteringStorage.t;
  op_audit : option (list AuditEntry);
  op_manifest : option (string * option SLADefinition)     (* its id and its agreement *)
}.

(** Who calls, and when. *)
Record caller : Type := mkCaller {
  ca_request : Request;
  ca_claims : option OAuth2Claims;
  ca_now : Z
}.

(** The optional filters of the usage routes. *)
Record usage_range : Type := mkRange {
  ur_agent_id : option string; ur_consumer_id : option string; ur_start : option pydatetime; ur_end : option pydatetime
}.

(** `any((agent_id, consumer_id, start, end))` *)
Definition any_filter (r : usage_range) : bool :=
  match ur_agent_id r with Some s => PyStr.truthy s | None => false end
  || match ur_consumer_id r with Some s => PyStr.truthy s | None => false end
  || is_some (ur_start r) || is_some (ur_end r).

Definition range_filters (r : usage_range) : option MeteringQuery :=
  if any_filter r
  then Some (mkQuery (ur_agent_id r) (ur_consumer_id r) None (ur_start r) (ur_end r) None 0)
  else None.

(** ** CSV *)

(** `csv.writer` with its default dialect: a field is quoted when it holds a
    comma, a quote or a line break. *)
Definition csv_special (c : ascii) : bool :=
  Ascii.eqb c "," || Ascii.eqb c dquote || Ascii.eqb c "010" || Ascii.eqb c "013".

Fixpoint str_exists (f : ascii → bool) (s : string) : bool :=
  match s with EmptyString => false | String c s' => f c || str_exists f s' end.

Fixpoint double_quotes (s : string) : string :=
  match s with
  | EmptyString => EmptyString
  | String c s' => if Ascii.eqb c dquote then String c (String c (double_quotes s')) else String c (double_quotes s')
  end.

Definition csv_field (s : string) : string :=
  if str_exists csv_special s then String dquote (double_quotes s ++ String dquote "") else s.

Definition crlf : string := String "013" (String "010" "").

Fixpoint csv_row (fields : list string) : string :=
  match fields with
  | [] => crlf
  | [f] => csv_field f ++ crlf
  | f :: fs => csv_field f ++ String "," (csv_row fs)
  end.

Definition csv_text (rows : list (list string)) : string := foldr (λ r acc, csv_row r ++ acc) "" rows.

Definition csv_header : list string :=
  ["task_id"; "agent_id"; "consumer_id"; "tokens_in"; "tokens_out"; "duration_ms"; "api_calls"; "timestamp"].

Definition csv_event (e : UsageMetrics) : list string :=
  [u_task_id e; u_agent_id e; u_consumer_id e; PyStr.dec_Z (u_tokens_in e); PyStr.dec_Z (u_tokens_out e);
   PyStr.dec_Z (u_duration_ms e); PyStr.dec_Z (u_api_calls e); isoformat_dt (u_timestamp e)].

Section Routes.
  Context `{PyRuntime, RateStrategy, OperatorRuntime}.

Abbreviation O := (ST op_app op_exn).

Definition json_reply (status : Z) (content : obj) : op_response := mkOpResponse status (OpJson (JObj content)) [].

(** ** Guards *)
Definition set_limiter (l : ASAPRateLimiter.t) (a : op_app) : op_app :=
  mkOp _ (Some l) (op_sla a) (op_metering a) (op_audit a) (op_manifest a).
Definition set_metering (s : InMemoryMeteringStorage.t) (a : op_app) : op_app :=
  mkOp _ (op_limiter a) (op_sla a) (Some s) (op_audit a) (op_manifest a).

(** `_rate_limit_usage` and `_rate_limit_sla` *)
Definition rate_limit (c : caller) : O unit := λ a,
  match op_limiter a with
  | None => (a, Ret tt)
  | Some l =>
      let '(l, r) := ASAPRateLimiter.check (ca_now c) (ca_request c) l in
      (set_limiter l a, match r with Ret _ => Ret tt | Raise e => Raise (OpLimited e) end)
  end.

Definition operator (require_auth : bool) (c : caller) : O unit :=
  if require_auth then
    match require_scope SCOPE_ADMIN (ca_claims c) with
    | Ret _ => st_ret tt
    | Raise e => st_stop (OpHttp e)
    end
  else st_ret tt.

(** A storage the application may lack. *)
Definition need {A} (get : op_app → option A) (message : string) : O A := λ a,
  match get a with
  | Some x => (a, Ret x)
  | None => (a, Raise (OpHttp (mkHTTPException 503 message [])))
  end.
Definition get_metering_storage : O InMemoryMeteringStorage.t :=
  need op_metering "Usage API not configured (metering_storage not set)".
Definition get_sla_storage : O InMemorySLAStorage.t :=
  need op_sla "SLA API not configured (sla_storage not set)".

Definition lift_py {A} (r : res pyexn A) : O A :=
  st_lift match r with Ret a => Ret a | Raise e => Raise (OpRaise e) end.

Definition bad_request (detail : string) : op_exn := OpHttp (mkHTTPException 400 detail []).

(** ** JSON forms *)
Definition dump_usage (e : UsageMetrics) : json :=
  JObj [("task_id", JStr (u_task_id e)); ("agent_id", JStr (u_agent_id e)); ("consumer_id", JStr (u_consumer_id e));
        ("tokens_in", JInt (u_tokens_in e)); ("tokens_out", JInt (u_tokens_out e));
        ("duration_ms", JInt (u_duration_ms e)); ("api_calls", JInt (u_api_calls e));
        ("timestamp", JStr (dt_json (u_timestamp e)))].

Definition jq (q : Q) : json := JFloat (FFin q).

Definition dump_aggregate (a : UsageAggregate) : json :=
  match a with
  | ByAgent b =>
      JObj [("agent_id", JStr (ba_agent_id b)); ("period", JStr (ba_period b));
            ("total_tokens", JInt (ba_total_tokens b)); ("total_duration_ms", JInt (ba_total_duration_ms b));
            ("total_tasks", JInt (ba_total_tasks b)); ("total_api_calls", JInt (ba_total_api_calls b));
            ("avg_tokens_per_task", jq (ba_avg_tokens b)); ("avg_duration_ms_per_task", jq (ba_avg_duration b))]
  | ByConsumer b =>
      JObj [("consumer_id", JStr (Metering.bc_consumer_id b)); ("period", JStr (bc_period b));
            ("total_tokens", JInt (bc_total_tokens b)); ("total_duration_ms", JInt (bc_total_duration_ms b));
            ("total_tasks", JInt (bc_total_tasks b)); ("total_api_calls", JInt (bc_total_api_calls b));
            ("avg_tokens_per_task", jq (bc_avg_tokens b))]
  | ByPeriod b =>
      JObj [("period", JStr (bp_period b)); ("total_tokens", JInt (bp_total_tokens b));
            ("total_duration_ms", JInt (bp_total_duration_ms b)); ("total_tasks", JInt (bp_total_tasks b));
            ("total_api_calls", JInt (bp_total_api_calls b)); ("unique_agents", JInt (bp_unique_agents b));
            ("unique_consumers", JInt (bp_unique_consumers b))]
  end.

Definition dump_metrics (m : SLAMetrics) : json :=
  JObj [("agent_id", JStr (sm_agent_id m)); ("period_start", JStr (dt_json (sm_period_start m)));
        ("period_end", JStr (dt_json (sm_period_end m))); ("uptime_percent", jq (sm_uptime_percent m));
        ("latency_p95_ms", JInt (sm_latency_p95_ms m)); ("error_rate_percent", jq (sm_error_rate_percent m));
        ("tasks_completed", JInt (sm_tasks_completed m)); ("tasks_failed", JInt (sm_tasks_failed m))].

Definition dump_breach (b : SLABreach) : json :=
  JObj [("id", JStr (br_id b)); ("agent_id", JStr (br_agent_id b)); ("breach_type", JStr (br_breach_type b));
        ("threshold", JStr (br_threshold b)); ("actual", JStr (br_actual b)); ("severity", JStr (br_severity b));
        ("detected_at", JStr (dt_json (br_detected_at b)));
        ("resolved_at", match br_resolved_at b with Some d => JStr (dt_json d) | None => JNull end)].

Definition dump_entry (e : AuditEntry) : json :=
  JObj [("id", JStr (ae_id e)); ("timestamp", JStr (dt_json (ae_timestamp e))); ("operation", JStr (ae_operation e));
        ("agent_urn", JStr (ae_agent_urn e)); ("details", JObj (ae_details e)); ("prev_hash", JStr (ae_prev_hash e));
        ("hash", JStr (ae_hash e))].

(** ** Usage routes *)
Definition data_reply (extra : obj) (data : list json) : op_response :=
  json_reply 200 (extra ++ [("data", JList data)])%list.

Definition get_usage (filters : MeteringQuery) : O op_response :=
  do! storage <- get_metering_storage in
  do! events <- lift_py (InMemoryMeteringStorage.query filters storage) in
  st_ret (json_reply 200 [("data", JList (map dump_usage events)); ("count", JInt (Z.of_nat (length events)))]).

Definition get_usage_aggregate (group_by : string) (r : usage_range) : O op_response :=
  do! storage <- get_metering_storage in
  if negb (str_in group_by ["agent"; "consumer"; "day"; "week"])
  then st_stop (bad_request "group_by must be one of: agent, consumer, day, week")
  else
    do! aggs <- lift_py (InMemoryMeteringStorage.aggregate group_by (range_filters r) storage) in
    st_ret (data_reply [("group_by", JStr group_by)] (map dump_aggregate aggs)).

Definition dump_summary (s : UsageSummary) : obj :=
  [("total_tasks", JInt (su_total_tasks s)); ("total_tokens", JInt (su_total_tokens s));
   ("total_duration_ms", JInt (su_total_duration_ms s)); ("unique_agents", JInt (su_unique_agents s));
   ("unique_consumers", JInt (su_unique_consumers s)); ("total_api_calls", JInt (su_total_api_calls s))].

Definition get_usage_summary (r : usage_range) : O op_response :=
  do! storage <- get_metering_storage in
  do! summary <- lift_py (InMemoryMeteringStorage.summary (range_filters r) storage) in
  st_ret (json_reply 200 (dump_summary summary)).

(** `get_usage_agents` and `get_usage_consumers` *)
Definition get_usage_by (group_by : string) (r : usage_range) : O op_response :=
  do! storage <- get_metering_storage in
  do! aggs <- lift_py (InMemoryMeteringStorage.aggregate group_by (range_filters r) storage) in
  st_ret (data_reply [] (map dump_aggregate aggs)).
Definition get_usage_agents : usage_range → O op_response := get_usage_by "agent".
Definition get_usage_consumers : usage_range → O op_response := get_usage_by "consumer".

Definition post_usage (body : json) : O op_response :=
  do! storage <- get_metering_storage in
  match pd_usage body with
  | Raise e => st_stop (bad_request e)
  | Ret metrics =>
      run! st_modify (set_metering (InMemoryMeteringStorage.record metrics storage)) in
      st_ret (json_reply 201 [("status", JStr "recorded"); ("task_id", JStr (u_task_id metrics))])
  end.

Definition post_usage_batch (body : json) : O op_response :=
  do! storage <- get_metering_storage in
  match pd_batch body with
  | Raise e => st_stop (bad_request e)
  | Ret events =>
      run! st_modify (set_metering (fold_left (λ s m, InMemoryMeteringStorage.record m s) events storage)) in
      st_ret (json_reply 201 [("status", JStr "recorded"); ("count", JInt (Z.of_nat (length events)));
                              ("task_ids", JList (map (λ e, JStr (u_task_id e)) events))])
  end.

Definition get_usage_stats : O op_response :=
  do! storage <- get_metering_storage in
  do! s <- lift_py (InMemoryMeteringStorage.stats storage) in
  st_ret (json_reply 200
    [("total_events", JInt (st_total_events s));
     ("oldest_timestamp", match st_oldest_timestamp s with Some t => JStr (dt_json t) | None => JNull end);
     ("retention_ttl_seconds", match st_retention_ttl_seconds s with Some n => JInt n | None => JNull end)]).

Definition post_usage_purge (now : Z) : O op_response :=
  do! storage <- get_metering_storage in
  let '(storage, removed) := InMemoryMeteringStorage.purge_expired now storage in
  run! st_modify (set_metering storage) in
  do! removed <- lift_py removed in
  st_ret (json_reply 200 [("status", JStr "purged"); ("removed", JInt removed)]).

Definition post_usage_validate (body : json) : O op_response :=
  st_ret match pd_usage body with
         | Ret m => json_reply 200 [("valid", JBool true); ("task_id", JStr (u_task_id m));
                                    ("agent_id", JStr (u_agent_id m)); ("consumer_id", JStr (u_consumer_id m))]
         | Raise e => json_reply 200 [("valid", JBool false); ("error", JStr e)]
         end.

Definition export_usage (csv : bool) (r : usage_range) (limit : option Z) : O op_response :=
  do! storage <- get_metering_storage in
  do! events <- lift_py (InMemoryMeteringStorage.query
    (mkQuery (ur_agent_id r) (ur_consumer_id r) None (ur_start r) (ur_end r) limit 0) storage) in
  st_ret (if csv
          then mkOpResponse 200 (OpText (csv_text (csv_header :: map csv_event events)))
                 [("Content-Disposition", "attachment; filename=usage_export.csv")]
          else mkOpResponse 200 (OpJson (JObj [("data", JList (map dump_usage events))]))
                 [("Content-Disposition", "attachment; filename=usage_export.json")]).

(** ** Agreement routes *)

(** The row of an agent; the agreement is that of the server's own manifest. *)
Definition sla_row (manifest : option (string * option SLADefinition)) (agent_id : string) (agent_metrics : list SLAMetrics) :
    res pyexn (list json) :=
  let! aggregated := aggregate_sla_metrics agent_metrics in
  match aggregated with
  | None => Ret []
  | Some m =>
      let sla := match manifest with
                 | Some (id, sla) => if String.eqb id agent_id then sla else None
                 | None => None
                 end in
      Ret [JObj [("agent_id", JStr agent_id); ("metrics", dump_metrics m);
                 ("compliance_percent", match _compute_compliance_percent sla m with Some q => jq q | None => JNull end)]]
  end.

Fixpoint sla_rows (manifest : option (string * option SLADefinition)) (groups : list (string * list SLAMetrics)) :
    res pyexn (list json) :=
  match groups with
  | [] => Ret []
  | (agent_id, ms) :: rest =>
      let! row := sla_row manifest agent_id ms in
      let! rows := sla_rows manifest rest in
      Ret (row ++ rows)%list
  end.

Definition get_sla (now : Z) (agent_id : option string) (window : string) : O op_response :=
  do! storage <- get_sla_storage in
  do! manifest <- st_gets op_manifest in
  if negb (str_in window ["1h"; "24h"; "7d"; "30d"])
  then st_stop (bad_request "window must be one of: 1h, 24h, 7d, 30d")
  else
    do! bounds <- lift_py (rolling_window_bounds window now) in
    let '(start, end_) := bounds in
    do! metrics_list <- lift_py (InMemorySLAStorage.query_metrics
                                   (mkPeriod agent_id (Some (Aware start 0)) (Some (Aware end_ 0))) None 0 storage) in
    do! rows <- lift_py (sla_rows manifest (group_by sm_agent_id metrics_list)) in
    st_ret (json_reply 200 [("data", JList rows); ("window", JStr window); ("period_start", JStr (isoformat start));
                            ("period_end", JStr (isoformat end_))]).

(** `limit or 100` *)
Definition limit_shown (limit : option Z) : Z :=
  match limit with Some n => if n =? 0 then 100 else n | None => 100 end.

Definition get_sla_history (q : period) (limit : option Z) (offset : Z) : O op_response :=
  do! storage <- get_sla_storage in
  do! metrics <- lift_py (InMemorySLAStorage.query_metrics q limit offset storage) in
  do! total <- lift_py (InMemorySLAStorage.count_metrics q storage) in
  st_ret (json_reply 200 [("data", JList (map dump_metrics metrics)); ("count", JInt (Z.of_nat (length metrics)));
                          ("total", JInt total); ("offset", JInt offset); ("limit", JInt (limit_shown limit))]).

Definition get_sla_breaches (q : period) (severity : option string) : O op_response :=
  do! storage <- get_sla_storage in
  if match severity with Some s => negb (str_in s ["warning"; "critical"]) | None => false end
  then st_stop (bad_request "severity must be one of: warning, critical")
  else
    do! breaches <- lift_py (InMemorySLAStorage.query_breaches q storage) in
    let breaches := match severity with
                    | Some s => List.filter (λ b, String.eqb (br_severity b) s) breaches
                    | None => breaches
                    end in
    st_ret (json_reply 200 [("data", JList (map dump_breach breaches)); ("count", JInt (Z.of_nat (length breaches)))]).

(** ** The audit route *)

(** `d.replace(tzinfo=timezone.utc)`: the wall clock is kept. *)
Definition replace_utc (d : pydatetime) : pydatetime :=
  match d with Naive us | Aware us _ => Aware us 0 end.

Definition parse_bound (s : option string) : res pyexn (option pydatetime) :=
  match s with
  | Some s => if PyStr.truthy s then let! d := fromisoformat s in Ret (Some (replace_utc d)) else Ret None
  | None => Ret None
  end.

Definition detail_reply (status : Z) (detail : string) : op_response := json_reply status [("detail", JStr detail)].

(** A `ValueError` of `fromisoformat` is answered; it raises nothing else on a
    text. *)
Definition get_audit_log (urn start end_ : option string) (limit offset : Z) : O op_response :=
  do! store <- st_gets op_audit in
  match store with
  | None => st_ret (detail_reply 404 "audit not configured")
  | Some store =>
      if (limit <? 0) || (offset <? 0) then st_ret (detail_reply 400 "limit and offset must be non-negative")
      else
        match (let! s := parse_bound start in let! e := parse_bound end_ in Ret (s, e)) with
        | Raise _ => st_ret (detail_reply 400 "Invalid date format. Use ISO 8601 (e.g. 2026-01-01T00:00:00)")
        | Ret (start_dt, end_dt) =>
            do! entries <- lift_py (InMemoryAuditStore.query urn start_dt end_dt (Z.min limit 1000) offset store) in
            st_ret (json_reply 200 [("entries", JList (map dump_entry entries));
                                    ("count", JInt (Z.of_nat (length entries)))])
        end
  end.

(** ** The routers *)
Inductive op_call : Type :=
| GetUsage (filters : MeteringQuery)
| GetUsageAggregate (group_by : string) (r : usage_range)
| GetUsageSummary (r : usage_range)
| GetUsageAgents (r : usage_range)
| GetUsageConsumers (r : usage_range)
| PostUsage (body : json)
| PostUsageBatch (body : json)
| GetUsageStats
| PostUsagePurge
| PostUsageValidate (body : json)
| ExportUsage (csv : bool) (r : usage_range) (limit : option Z)
| GetSla (agent_id : option string) (window : string)
| GetSlaHistory (q : period) (limit : option Z) (offset : Z)
| GetSlaBreaches (q : period) (severity : option string)
| GetAuditLog (urn start end_ : option string) (limit offset : Z).

Definition handler (c : caller) (call : op_call) : O op_response :=
  match call with
  | GetUsage f => get_usage f
  | GetUsageAggregate g r => get_usage_aggregate g r
  | GetUsageSummary r => get_usage_summary r
  | GetUsageAgents r => get_usage_agents r
  | GetUsageConsumers r => get_usage_consumers r
  | PostUsage b => post_usage b
  | PostUsageBatch b => post_usage_batch b
  | GetUsageStats => get_usage_stats
  | PostUsagePurge => post_usage_purge (ca_now c)
  | PostUsageValidate b => post_usage_validate b
  | ExportUsage csv r limit => export_usage csv r limit
  | GetSla agent_id window => get_sla (ca_now c) agent_id window
  | GetSlaHistory q limit offset => get_sla_history q limit offset
  | GetSlaBreaches q severity => get_sla_breaches q severity
  | GetAuditLog urn s e limit offset => get_audit_log urn s e limit offset
  end.

(** The audit router has no limiter. *)
Definition limited (call : op_call) : bool := match call with GetAuditLog _ _ _ _ _ => false | _ => true end.

(** The dependencies of the router, then the handler. *)
Definition serve_operator (require_auth : bool) (c : caller) (call : op_call) : O op_response :=
  run! (if limited call then rate_limit c else st_ret tt) in
  run! operator require_auth c in
  handler c call.

End Routes.

(** ** Authorization *)
Section Authorization.
  Context `{PyRuntime, RateStrategy, OperatorRuntime}.

(** The data of the application, without its limiter. *)
Definition op_data (a : op_app) :
    option InMemorySLAStorage.t * option InMemoryMeteringStorage.t * option (list AuditEntry)
    * option (string * option SLADefinition) := (op_sla a, op_metering a, op_audit a, op_manifest a).

Definition is_admin (c : caller) : Prop := ∃ claims, ca_claims c = Some claims ∧ SCOPE_ADMIN ∈ oc_scope claims.

Lemma rate_limit_data c a : op_data (fst (rate_limit c a)) = op_data a.
Proof. unfold rate_limit. destruct (op_limiter a); [|done]. by destruct (ASAPRateLimiter.check _ _ _). Qed.

Lemma operator_cases c a :
  is_admin c ∨ ∃ e, operator true c a = (a, Raise (OpHttp e)) ∧ (hx_status_code e = 401 ∨ hx_status_code e = 403).
Proof.
  unfold operator, require_scope. destruct (ca_claims c) as [claims|] eqn:Hc; [|right; eexists; split; [done|by left]].
  destruct (str_in SCOPE_ADMIN (oc_scope claims)) eqn:Hs; cbn [negb].
  - left. exists claims. split; [done|]. by apply str_in_true.
  - right. eexists. split; [done|]. by right.
Qed.

(** With operator authentication on, every usage, agreement and audit
    route answers and records only for a caller whose token carries the admin
    scope; any other call is refused (401 or 403, or 429 by the limiter before)
    and leaves every storage as it was. *)
Theorem operator_routes_need_admin (c : caller) (call : op_call) (a : op_app) :
  is_admin c ∨
  (op_data (fst (serve_operator true c call a)) = op_data a ∧
   match snd (serve_operator true c call a) with
   | Raise (OpHttp e) => hx_status_code e = 401 ∨ hx_status_code e = 403
   | Raise (OpLimited _) => limited call = true
   | _ => False
   end).
Proof.
  unfold serve_operator. unfold st_bind at 1 3.
  assert (Hl : op_data (fst ((if limited call then rate_limit c else st_ret tt) a)) = op_data a)
    by (destruct (limited call); [apply rate_limit_data|done]).
  destruct ((if limited call then rate_limit c else st_ret tt) a) as [a1 [e|u]] eqn:Hr; cbn [fst snd] in *.
  - right. split; [done|]. destruct (limited call); [|done]. unfold rate_limit in Hr.
    destruct (op_limiter a); [|done]. destruct (ASAPRateLimiter.check _ _ _) as [l [x|v]]; by simplify_eq.
  - destruct (operator_cases c a1) as [Ha|(e & Ho & Hs)]; [by left|]. right. unfold st_bind. by rewrite Ho.
Qed.

(** ** Recorded usage is reported *)
Definition everything : usage_range := mkRange None None None None.

Lemma fold_record events s :
  fold_left (λ s m, InMemoryMeteringStorage.record m s) events s
  = InMemoryMeteringStorage.mk (InMemoryMeteringStorage.events s ++ events)%list
      (InMemoryMeteringStorage.retention_ttl_seconds s).
Proof.
  revert s. induction events as [|e events IH]; intros s; simpl; [rewrite app_nil_r; by destruct s|].
  rewrite IH. cbn. by rewrite <- app_assoc.
Qed.

Lemma sum_of_app {E} (f : E → Z) l l' : sum_of f (l ++ l') = sum_of f l + sum_of f l'.
Proof. unfold sum_of. induction l as [|x l IH]; simpl; lia. Qed.

Lemma summary_totals es : ∃ agents consumers,
  _compute_summary es = mkSummary (Z.of_nat (length es)) (sum_of tokens es) (sum_of u_duration_ms es) agents consumers
                          (sum_of u_api_calls es).
Proof. destruct es; by do 2 eexists. Qed.

(** What a batch records is what the summary then reports: after a batch
    is accepted, the summary counts its events and adds their tokens, duration
    and calls to those stored before. *)
Theorem batch_usage_is_summarized (body : json) (events : list UsageMetrics) (a : op_app) (s : InMemoryMeteringStorage.t) :
  pd_batch body = Ret events → op_metering a = Some s →
  let before := InMemoryMeteringStorage.events s in
  let '(a1, r1) := post_usage_batch body a in
  (∃ ids, r1 = Ret (json_reply 201 [("status", JStr "recorded"); ("count", JInt (Z.of_nat (length events)));
                                    ("task_ids", JList ids)])) ∧
  ∃ agents consumers, snd (get_usage_summary everything a1)
    = Ret (json_reply 200
        [("total_tasks", JInt (Z.of_nat (length before) + Z.of_nat (length events)));
         ("total_tokens", JInt (sum_of tokens before + sum_of tokens events));
         ("total_duration_ms", JInt (sum_of u_duration_ms before + sum_of u_duration_ms events));
         ("unique_agents", JInt agents); ("unique_consumers", JInt consumers);
         ("total_api_calls", JInt (sum_of u_api_calls before + sum_of u_api_calls events))]).
Proof.
  intros Hb Hs before. unfold post_usage_batch, get_metering_storage, need, st_bind. rewrite Hs, Hb. cbn.
  split; [by eexists|]. unfold get_usage_summary, get_metering_storage, need, st_bind. cbn.
  rewrite fold_record. unfold InMemoryMeteringStorage.summary. cbn [range_filters any_filter everything InMemoryMeteringStorage.selected].
  cbn. destruct (summary_totals (InMemoryMeteringStorage.events s ++ events)) as (x & y & ->).
  exists x, y. unfold before. cbn. rewrite length_app, Nat2Z.inj_add, !sum_of_app. done.
Qed.

(** A bound with an offset is read as if its wall clock were UTC: an entry
    inside the range a caller asked for is left out. *)
Theorem audit_offset_ignored (s : string) (us off : Z) (e : AuditEntry) (t : Z) (a : op_app) :
  PyStr.truthy s = true → fromisoformat s = Ret (Aware us off) → op_audit a = Some [e] → ae_timestamp e = Aware t 0 →
  us - off <= t < us →
  snd (get_audit_log None (Some s) None 100 0 a) = Ret (json_reply 200 [("entries", JList []); ("count", JInt 0)]).
Proof.
  intros Ht Hf Ha He Hr. unfold get_audit_log, st_bind, st_gets. rewrite Ha. cbn [Z.ltb Z.compare orb].
  unfold parse_bound. rewrite Ht, Hf. cbn [rbind replace_utc]. unfold lift_py, st_lift, InMemoryAuditStore.query.
  cbn [filter_res]. rewrite He. cbn [dt_le]. rewrite (proj2 (Z.leb_gt _ _)) by lia. done.
Qed.
End Authorization.

(** ** The CSV export is readable *)

(** A reader of RFC 4180 texts whose lines end in CR LF. *)
Inductive csv_mode : Type := AtStart | InPlain | InQuoted | AfterQuote | AfterCR.

Fixpoint csv_read (mode : csv_mode) (field : string) (row : list string) (s : string) : option (list (list string)) :=
  match s with
  | EmptyString => match mode, row with AtStart, [] => Some [] | _, _ => None end
  | String c s' =>
      let add m := csv_read m (field ++ String c "") row s' in
      let next := csv_read AtStart "" (row ++ [field])%list s' in
      match mode with
      | AtStart | InPlain =>
          if Ascii.eqb c "," then next
          else if Ascii.eqb c "013" then csv_read AfterCR "" (row ++ [field])%list s'
          else if Ascii.eqb c dquote then match mode with AtStart => csv_read InQuoted field row s' | _ => None end
          else if Ascii.eqb c "010" then None
          else add InPlain
      | InQuoted => if Ascii.eqb c dquote then csv_read AfterQuote field row s' else add InQuoted
      | AfterQuote =>
          if Ascii.eqb c dquote then add InQuoted
          else if Ascii.eqb c "," then next
          else if Ascii.eqb c "013" then csv_read AfterCR "" (row ++ [field])%list s'
          else None
      | AfterCR => if Ascii.eqb c "010" then option_map (cons row) (csv_read AtStart "" [] s') else None
      end
  end.

Definition read_csv (s : string) : option (list (list string)) := csv_read AtStart "" [] s.

(** What follows a field: a comma or the end of the line. *)
Definition csv_end (t : string) : Prop := ∃ s, t = String "," s ∨ t = crlf ++ s.

(** Reading the end of a field does not depend on how the field was read. *)
Lemma read_end mode field row s : mode ≠ InQuoted → mode ≠ AfterCR →
  csv_read mode field row (String "," s) = csv_read AtStart "" (row ++ [field])%list s ∧
  csv_read mode field row (crlf ++ s) = option_map (cons (row ++ [field])%list) (csv_read AtStart "" [] s).
Proof. intros Hq Hr. destruct mode; [| |by destruct Hq| |by destruct Hr]; split; reflexivity. Qed.

Lemma special_false c : csv_special c = false →
  Ascii.eqb c "," = false ∧ Ascii.eqb c dquote = false ∧ Ascii.eqb c "010" = false ∧ Ascii.eqb c "013" = false.
Proof. unfold csv_special. rewrite !orb_false_iff. tauto. Qed.

Lemma read_plain field row s t : str_exists csv_special s = false →
  csv_read InPlain field row (s ++ t) = csv_read InPlain (field ++ s) row t.
Proof.
  revert field. induction s as [|c s IH]; intros field Hs; [by rewrite append_nil|].
  cbn [str_exists] in Hs. apply orb_false_iff in Hs as [(H1 & H2 & H3 & H4)%special_false Hs].
  rewrite append_cons. cbn [csv_read]. rewrite H1, H2, H3, H4, IH by done. by rewrite append_assoc.
Qed.

Lemma read_quoted field row s t :
  csv_read InQuoted field row (double_quotes s ++ String dquote t) = csv_read AfterQuote (field ++ s) row t.
Proof.
  revert field. induction s as [|c s IH]; intros field; cbn [double_quotes]; [by rewrite append_nil|].
  destruct (Ascii.eqb_spec c dquote) as [->|Hc]; rewrite !append_cons; cbn [csv_read].
  - rewrite Ascii.eqb_refl, IH. by rewrite append_assoc.
  - rewrite (proj2 (Ascii.eqb_neq c dquote)) by done. rewrite IH. by rewrite append_assoc.
Qed.

(** A written field is read back, up to what follows it. *)
Lemma read_field f row t : csv_end t → ∃ mode, mode ≠ InQuoted ∧ mode ≠ AfterCR ∧
  csv_read AtStart "" row (csv_field f ++ t) = csv_read mode f row t.
Proof.
  intros Ht. unfold csv_field. destruct (str_exists csv_special f) eqn:Hs.
  - exists AfterQuote. split_and!; [done..|]. rewrite append_cons, append_assoc, append_cons.
    change (csv_read AtStart "" row (String dquote (double_quotes f ++ String dquote ("" ++ t))))
      with (csv_read InQuoted "" row (double_quotes f ++ String dquote t)).
    apply (read_quoted "").
  - destruct f as [|c f]; [by exists AtStart|]. exists InPlain. split_and!; [done..|].
    cbn [str_exists] in Hs. apply orb_false_iff in Hs as [(H1 & H2 & H3 & H4)%special_false Hs].
    rewrite append_cons. cbn [csv_read]. rewrite H1, H2, H3, H4. by apply (read_plain (String c "")).
Qed.

Lemma read_row fs row t : fs ≠ [] →
  csv_read AtStart "" row (csv_row fs ++ t) = option_map (cons (row ++ fs)%list) (csv_read AtStart "" [] t).
Proof.
  revert row. induction fs as [|f fs IH]; intros row Hne; [done|]. destruct fs as [|g fs].
  - cbn [csv_row]. rewrite append_assoc.
    destruct (read_field f row (crlf ++ t)) as (m & Hq & Hr & ->); [exists t; by right|]. by apply read_end.
  - change (csv_row (f :: g :: fs)) with (csv_field f ++ String "," (csv_row (g :: fs))).
    rewrite append_assoc, append_cons.
    destruct (read_field f row (String "," (csv_row (g :: fs) ++ t))) as (m & Hq & Hr & ->); [eexists; by left|].
    rewrite (proj1 (read_end m f row _ Hq Hr)), IH by done. by rewrite <- app_assoc.
Qed.

(** The CSV export is a faithful table: a reader of the CSV format gets
    back the header and every field of every event, commas, quotes and line
    breaks in agent and task names included. *)
Theorem csv_export_reads_back (events : list UsageMetrics) :
  read_csv (csv_text (csv_header :: map csv_event events)) = Some (csv_header :: map csv_event events).
Proof.
  assert (Hall : ∀ rows, Forall (λ r, r ≠ []) rows → read_csv (csv_text rows) = Some rows).
  { intros rows Hr. unfold read_csv. induction Hr as [|r rows Hr _ IH]; [done|].
    cbn [csv_text foldr]. fold (csv_text rows). rewrite read_row by done. by rewrite IH. }
  apply Hall. constructor; [done|]. apply Forall_forall. intros r Hr%list_elem_of_fmap. by destruct Hr as (e & -> & _).
Qed.

(** ** Examples *)
Section Examples.
#[local] Instance op_demo_py : PyRuntime := {| float_repr := λ _, "0.0"; float_of_str := λ _, None |}.
(** One limit, of three calls per key. *)
#[local] Instance op_demo_strategy : RateStrategy :=
    {| rate_limit_item := unit; rate_storage := list string; rs_str := λ _, "3 per minute";
       rs_test := λ _ k _ s, (length (List.filter (String.eqb k) s) <? 3)%nat;
       rs_hit := λ _ k _ s, (k :: s, (length (List.filter (String.eqb k) s) <? 3)%nat);
       rs_reset := λ _ _ _, 0 |}.
Definition op_demo_event : UsageMetrics := mkUsage "t-1" "urn:asap:agent:a" "x, y" 10 5 7 1 (Aware 0 0).
#[local] Instance op_demo_runtime : OperatorRuntime :=
    {| dt_json := isoformat_dt; fromisoformat := λ _, Ret (Aware (2 * hour) (2 * hour));
       pd_usage := λ _, Ret op_demo_event; pd_batch := λ _, Ret [op_demo_event; op_demo_event] |}.

Definition op_demo_app : op_app :=
  mkOp _ None None (Some (InMemoryMeteringStorage.mk [op_demo_event] None))
    (Some [mkEntry "1" (Aware hour 0) "task.request" "urn:asap:agent:a" [] "" ""]) None.

Example csv_demo : csv_row (csv_event op_demo_event)
  = "t-1,urn:asap:agent:a," ++ String dquote ("x, y" ++ String dquote ",10,5,7,1,1970-01-01T00:00:00+00:00") ++ crlf.
Proof. reflexivity. Qed.

Lemma batch_usage_is_summarized_witness : ∃ agents consumers,
  snd (get_usage_summary everything (fst (post_usage_batch JNull op_demo_app)))
  = Ret (json_reply 200
      [("total_tasks", JInt 3); ("total_tokens", JInt 45); ("total_duration_ms", JInt 21);
       ("unique_agents", JInt agents); ("unique_consumers", JInt consumers); ("total_api_calls", JInt 3)]).
Proof.
  exact (proj2 (batch_usage_is_summarized JNull [op_demo_event; op_demo_event] op_demo_app
    (InMemoryMeteringStorage.mk [op_demo_event] None) eq_refl eq_refl)).
Defined.

Lemma audit_offset_ignored_witness :
  snd (get_audit_log None (Some "1970-01-01T02:00:00+02:00") None 100 0 op_demo_app)
  = Ret (json_reply 200 [("entries", JList []); ("count", JInt 0)]).
Proof.
  apply (audit_offset_ignored _ (2 * hour) (2 * hour)
    (mkEntry "1" (Aware hour 0) "task.request" "urn:asap:agent:a" [] "" "") hour); try reflexivity.
  vm_compute. split; [discriminate|reflexivity].
Defined.

(** A caller without claims is refused before any storage is read. *)
Example op_demo_refused :
  snd (serve_operator true (mkCaller (mkHttp None None) None 0) GetUsageStats op_demo_app)
  = Raise (OpHttp (mkHTTPException 401 "Authentication required" [("WWW-Authenticate", "Bearer")])).
Proof. reflexivity. Qed.

End Examples.
