(* ===== verification/OAuth.v ===== *)
(** * OAuth2: key sets, token validation and the middleware

    `src/src/asap/auth/jwks.py`, `auth/_scope_parse.py`, `auth/middleware.py` and
    the way `transport/server.py` builds the middleware.

    The JOSE library is a parameter: [jose_decode] verifies a token against a
    key set under a list of algorithms and gives its claims; [jose_registry] is
    its check of registered claims.  The answers of the key-set endpoint are
    inputs, with the readings of the clock in microseconds.  Log lines are left
    out. *)

From Stdlib Require Import ZArith QArith Lia Ascii String.
From stdpp Require Import base tactics list gmap strings relations.
From S2P Require Import Prelude PyValue Digest Identity ReplayGuard EnvelopeGuard Capabilities AuditChain RateLimit Metrics Errors Metering AgentJwt JsonRpc Handlers Middleware DelegationJwt RequestHandler WsServer Sla OperatorApi.
Open Scope string_scope.
Open Scope Z_scope.
Open Scope asap_scope.

(** ** Scopes *)

(** `s.split()` *)
Fixpoint words_aux (acc s : string) : list string :=
  let flush := if PyStr.truthy acc then [acc] else [] in
  match s with
  | EmptyString => flush
  | String c s' =>
      if PyStr.is_space c then (flush ++ words_aux "" s')%list else words_aux (acc ++ String c "") s'
  end.
Definition words (s : string) : list string := words_aux "" s.

Section Scope.
  Context `{PyRuntime}.

Definition parse_scope (claim : json) : list string :=
  match claim with
  | JList l => map (py_str float_repr) l
  | JStr s => List.filter PyStr.truthy (map PyStr.strip (words s))
  | _ => []
  end.
End Scope.

Example parse_scope_words :
  words " asap:read  asap:execute" = ["asap:read"; "asap:execute"].
Proof. reflexivity. Qed.

(** ** Claims *)
Inductive audience : Type :=
| OneAudience (a : string)
| Audiences (l : list string).

Definition audience_list (a : audience) : list string :=
  match a with OneAudience s => [s] | Audiences l => l end.

Definition issuer_matches_expected (claims : obj) (expected_issuer : string) : bool :=
  match j_get "iss" claims with
  | JStr iss =>
      PyStr.nonblank iss && String.eqb (PyStr.rstrip_char "/" iss) (PyStr.rstrip_char "/" expected_issuer)
  | _ => false
  end.

(** ** Key sets *)
Inductive jose_exn : Type :=
| JoseError (name : string)
| JoseRaises (e : pyexn).

Class Jose : Type := {
  keyset : Type;
  jose_decode : string → keyset → list string → res jose_exn obj;
  jose_registry : Z → obj → res jose_exn unit
}.

(** What a fetch of the key set raises. *)
Inductive fetch_exn : Type :=
| FetchHttp (msg : string)        (* httpx.HTTPError *)
| FetchJose (name : string)       (* the key set is refused by the library *)
| FetchRaises (e : pyexn).        (* anything else, such as a body that is not JSON *)

Definition JWKS_CACHE_TTL_SECONDS : Z := 86400.
Definition _ALLOWED_JWT_ALGORITHMS : list string := ["EdDSA"; "RS256"; "ES256"].

(** ** The validator *)
Section Validator.
  Context `{Jose}.

Definition validate_jwt (now : Z) (token : string) (key_set : keyset) (expected_issuer : option string)
    (expected_audience : option audience) (require_exp : bool) : res jose_exn obj :=
  let! claims := jose_decode token key_set _ALLOWED_JWT_ALGORITHMS in
  let! _ := if require_exp && negb (is_some (assoc "exp" claims)) then Raise (JoseError "missing_claim") else Ret tt in
  let! _ := if require_exp then jose_registry now claims else Ret tt in
  let! _ := match expected_issuer with
            | Some iss => if issuer_matches_expected claims iss then Ret tt else Raise (JoseError "invalid_claim")
            | None => Ret tt
            end in
  let! _ := match expected_audience with
            | Some aud => if audience_matches_expected claims (audience_list aud) then Ret tt else Raise (JoseError "invalid_claim")
            | None => Ret tt
            end in
  Ret claims.

(** `JWKSValidator`; the cache holds the key set and the time it expires. *)
Record JWKSValidator : Type := mkValidator {
  jv_uri : string;
  jv_expected_issuer : option string;
  jv_expected_audience : option audience;
  jv_require_exp : bool;
  jv_cache : option (keyset * Z)
}.

Definition set_cache (c : option (keyset * Z)) (v : JWKSValidator) : JWKSValidator :=
  mkValidator (jv_uri v) (jv_expected_issuer v) (jv_expected_audience v) (jv_require_exp v) c.

(** The two halves of `fetch_keys`: the look-up, and the store after the fetch
    was awaited. *)
Definition cached_keys (now : Z) (uri : string) (v : JWKSValidator) : option keyset :=
  match jv_cache v with
  | Some (ks, expires_at) => if negb (expires_at <=? now) && String.eqb uri (jv_uri v) then Some ks else None
  | None => None
  end.

Definition store_keys (now : Z) (ks : keyset) (v : JWKSValidator) : JWKSValidator :=
  set_cache (Some (ks, now + JWKS_CACHE_TTL_SECONDS * second)) v.

(** One call: when it looks the cache up, what the endpoint would answer, and
    when the answer is stored. *)
Record fetch_in : Type := mkFetch { fi_now : Z; fi_answer : res fetch_exn keyset; fi_stored : Z }.

(** `jwks_uri or self._jwks_uri` *)
Definition uri_or (uri : option string) (v : JWKSValidator) : string :=
  match uri with Some u => if PyStr.truthy u then u else jv_uri v | None => jv_uri v end.

Definition fetch_keys (i : fetch_in) (jwks_uri : option string) : ST JWKSValidator fetch_exn keyset := λ v,
  match cached_keys (fi_now i) (uri_or jwks_uri v) v with
  | Some ks => (v, Ret ks)
  | None =>
      match fi_answer i with
      | Ret ks => (store_keys (fi_stored i) ks v, Ret ks)
      | Raise e => (v, Raise e)
      end
  end.

Definition invalidate_cache (v : JWKSValidator) : JWKSValidator := set_cache None v.

Definition validator_validate_jwt (now : Z) (token : string) (ks : keyset) (v : JWKSValidator) : res jose_exn obj :=
  validate_jwt now token ks (jv_expected_issuer v) (jv_expected_audience v) (jv_require_exp v).

(** What leaves a validation: a network error, a refusal, or anything else. *)
Inductive token_exn : Type :=
| TokenHttp
| TokenJose
| TokenRaises (e : pyexn).

Definition of_fetch (e : fetch_exn) : token_exn :=
  match e with FetchHttp _ => TokenHttp | FetchJose _ => TokenJose | FetchRaises e => TokenRaises e end.
Definition of_jose (e : jose_exn) : token_exn :=
  match e with JoseError _ => TokenJose | JoseRaises e => TokenRaises e end.

Definition fetched (i : fetch_in) (uri : string) : ST JWKSValidator token_exn keyset := λ v,
  let '(v, r) := fetch_keys i (Some uri) v in (v, match r with Ret ks => Ret ks | Raise e => Raise (of_fetch e) end).

(** `validate_token`, and `_validate_token_claims` of the middleware with its own
    [uri]: one retry with fresh keys. *)
Definition validate_token (first second_ : fetch_in) (now now' : Z) (uri token : string) : ST JWKSValidator token_exn obj :=
  do! key_set <- fetched first uri in
  λ v,
    match validator_validate_jwt now token key_set v with
    | Ret claims => (v, Ret claims)
    | Raise (JoseRaises e) => (v, Raise (TokenRaises e))
    | Raise (JoseError _) =>
        (do! key_set <- fetched second_ uri in
         λ v, (v, match validator_validate_jwt now' token key_set v with
                  | Ret claims => Ret claims
                  | Raise e => Raise (of_jose e)
                  end)) (invalidate_cache v)
    end.

End Validator.

(** ** The middleware *)
Definition DEFAULT_CUSTOM_CLAIM : string := "https://github.com/adriannoes/asap-protocol/agent_id".
Definition ERROR_AUTH_REQUIRED : string := "Authentication required".
Definition ERROR_INVALID_TOKEN : string := "Invalid authentication token".
Definition ERROR_IDENTITY_MISMATCH : string := "Identity mismatch: custom claim does not match agent manifest".
Definition AGENT_IDENTITY_ROUTE_PREFIX : string := "/asap/agent/".
Definition OPERATOR_API_PATH_PREFIXES : list string := ["/usage"; "/sla"; "/audit"].

(** The environment variables the middleware reads. *)
Record auth_env : Type := mkEnv {
  env_subject_map : option string;
  env_issuer : option string;
  env_audience : option string;
  env_custom_claim : option string
}.

(** The texts and lists of `ASAP_AUTH_SUBJECT_MAP`; [loads] is `json.loads`, with
    [None] for text that is not JSON. *)
Definition _parse_subject_map (loads : string → option json) (raw : option string) : obj :=
  match raw with
  | Some s =>
      if PyStr.truthy s && PyStr.nonblank s then
        match loads s with
        | Some (JObj d) => List.filter (λ kv, match snd kv with JStr _ | JList _ => true | _ => false end) d
        | _ => []
        end
      else []
  | None => []
  end.

Definition parse_expected_audience_from_env (raw : option string) : option audience :=
  match raw with
  | Some s =>
      if PyStr.truthy s && PyStr.nonblank s then
        match List.filter PyStr.truthy (map PyStr.strip (PyStr.split "," s)) with
        | [] => None
        | [p] => Some (OneAudience p)
        | parts => Some (Audiences parts)
        end
      else None
  | None => None
  end.

Record OAuth2Config : Type := mkOAuth2Config {
  oa_jwks_uri : string;
  oa_required_scope : option string;
  oa_path_prefix : option string;
  oa_custom_claim : option string;
  oa_expected_issuer : option string;
  oa_expected_audience : option audience
}.

Definition path_under_prefix (path prefix : string) : bool :=
  let normalized := let p := PyStr.rstrip_char "/" prefix in if PyStr.truthy p then p else "/" in
  if String.eqb normalized "/" then true
  else String.eqb path normalized || PyStr.startswith path (normalized ++ "/").

(** `a or b` on optional texts and audiences *)
Definition text_or (a b : option string) : option string :=
  match a with Some s => if PyStr.truthy s then Some s else b | None => b end.
Definition audience_or (a b : option audience) : option audience :=
  match a with
  | Some (OneAudience s) => if PyStr.truthy s then a else b
  | Some (Audiences []) => b
  | Some (Audiences _) => a
  | None => b
  end.

(** The bearer token of the `Authorization` header. *)
Definition _get_bearer_token (authorization : option string) : option string :=
  match authorization with
  | Some auth =>
      if PyStr.startswith auth "Bearer " then
        let token := PyStr.strip (PyStr.drop 7 auth) in if PyStr.truthy token then Some token else None
      else None
  | None => None
  end.

Section OAuth2Middleware.
  Context `{PyRuntime, Jose}.

Record OAuth2Middleware : Type := mkOAuth2 {
  mw_jwks_uri : string;
  mw_required_scope : option string;
  mw_path_prefix : option string;
  mw_extra_path_prefixes : list string;
  mw_manifest_id : option string;
  mw_custom_claim_key : string;
  mw_expected_issuer : option string;
  mw_expected_audience : option audience;
  mw_subject_map : obj;
  mw_validator : JWKSValidator
}.

(** The constructor; without a validator it builds one. *)
Definition new_middleware (env : auth_env) (loads : string → option json) (cfg : OAuth2Config) (extra : list string)
    (manifest_id : option string) (validator : option JWKSValidator) : OAuth2Middleware :=
  let expected_issuer := text_or (oa_expected_issuer cfg) (env_issuer env) in
  let expected_audience :=
    audience_or (oa_expected_audience cfg) (parse_expected_audience_from_env (env_audience env)) in
  mkOAuth2 (oa_jwks_uri cfg) (oa_required_scope cfg) (oa_path_prefix cfg) extra manifest_id
    (default (default DEFAULT_CUSTOM_CLAIM (env_custom_claim env)) (text_or (oa_custom_claim cfg) None))
    expected_issuer expected_audience (_parse_subject_map loads (env_subject_map env))
    (match validator with
     | Some v => v
     | None => mkValidator (oa_jwks_uri cfg) expected_issuer expected_audience false None
     end).

Definition set_validator (v : JWKSValidator) (mw : OAuth2Middleware) : OAuth2Middleware :=
  mkOAuth2 (mw_jwks_uri mw) (mw_required_scope mw) (mw_path_prefix mw) (mw_extra_path_prefixes mw)
    (mw_manifest_id mw) (mw_custom_claim_key mw) (mw_expected_issuer mw) (mw_expected_audience mw)
    (mw_subject_map mw) v.

Definition _should_validate (mw : OAuth2Middleware) (path : string) : bool :=
  if PyStr.startswith path AGENT_IDENTITY_ROUTE_PREFIX then false
  else
    match mw_path_prefix mw with
    | None => true
    | Some prefix => path_under_prefix path prefix || existsb (path_under_prefix path) (mw_extra_path_prefixes mw)
    end.

Definition _enforces_global_scope (mw : OAuth2Middleware) (path : string) : bool :=
  match mw_path_prefix mw with None => true | Some prefix => path_under_prefix path prefix end.

Definition _validate_scope (mw : OAuth2Middleware) (scope_list : list string) : bool :=
  match mw_required_scope mw with None => true | Some s => str_in s scope_list end.

(** Whether the claims belong to the server's agent. *)
Definition _validate_identity_binding (mw : OAuth2Middleware) (claims : obj) (sub : string) : bool :=
  match mw_manifest_id mw with
  | None => true
  | Some manifest_id =>
      match j_get (mw_custom_claim_key mw) claims with
      | JNull =>
          match assoc manifest_id (mw_subject_map mw) with
          | Some (JStr allowed) => String.eqb allowed sub
          | Some (JList allowed) => existsb (py_eq (JStr sub)) allowed
          | _ => false
          end
      | claim_value => String.eqb (PyStr.strip (py_str float_repr claim_value)) manifest_id
      end
  end.

Definition invalid_token : HTTPException :=
  mkHTTPException 401 ERROR_INVALID_TOKEN [("WWW-Authenticate", "Bearer")].

(** The readings of one validation: two fetches of the keys, the clock of the two
    decodings, and the clock of the expiry check. *)
Record bearer_in : Type := mkBearer {
  bi_first : fetch_in;
  bi_second : fetch_in;
  bi_decode : Z;
  bi_decode' : Z;
  bi_now : Z
}.

(** A refusal, or an exception no handler of the middleware catches. *)
Inductive auth_stop : Type :=
| Refused (e : HTTPException)
| Escaped (e : pyexn).

(** The checks on verified claims. *)
Definition check_expiry (now : Z) (claims : obj) : res auth_stop Z :=
  match j_get "exp" claims with
  | JNull => Ret 0
  | (JBool _ | JInt _ | JFloat _) as exp =>
      match py_int exp with
      | Ret exp_ts => if exp_ts * second <? now then Raise (Refused invalid_token) else Ret exp_ts
      | Raise (TypeError _) | Raise (ValueError _) => Raise (Refused invalid_token)
      | Raise e => Raise (Escaped e)
      end
  | _ => Raise (Refused invalid_token)
  end.

Definition accept_claims (mw : OAuth2Middleware) (now : Z) (enforce_required_scope : bool) (claims : obj) :
    res auth_stop OAuth2Claims :=
  let! exp_ts := check_expiry now claims in
  match j_get "sub" claims with
  | JStr sub =>
      if negb (PyStr.truthy sub) then Raise (Refused invalid_token)
      else
        let scope_list := parse_scope (j_get "scope" claims) in
        if enforce_required_scope && negb (_validate_scope mw scope_list)
        then Raise (Refused (mkHTTPException 403 ERROR_INSUFFICIENT_SCOPE []))
        else if negb (_validate_identity_binding mw claims sub) then
          Raise (Refused (mkHTTPException 403
            (match mw_manifest_id mw with
             | Some id => if PyStr.truthy id then ERROR_IDENTITY_MISMATCH ++ " (expected: " ++ id ++ ")"
                          else ERROR_IDENTITY_MISMATCH
             | None => ERROR_IDENTITY_MISMATCH
             end) []))
        else Ret (mkOAuth sub scope_list exp_ts)
  | _ => Raise (Refused invalid_token)
  end.

Definition validate_bearer_token (i : bearer_in) (token : string) (enforce_required_scope : bool) :
    ST OAuth2Middleware auth_stop OAuth2Claims := λ mw,
  let '(v, r) := validate_token (bi_first i) (bi_second i) (bi_decode i) (bi_decode' i) (mw_jwks_uri mw) token
                   (mw_validator mw) in
  let mw := set_validator v mw in
  match r with
  | Raise TokenHttp => (mw, Raise (Refused (mkHTTPException 503 "Authentication service unavailable" [])))
  | Raise TokenJose => (mw, Raise (Refused invalid_token))
  | Raise (TokenRaises e) => (mw, Raise (Escaped e))
  | Ret claims => (mw, accept_claims mw (bi_now i) enforce_required_scope claims)
  end.

(** `dispatch`: the claims the request carries on, [None] where the path is not
    validated. *)
Definition oauth_dispatch (i : bearer_in) (path : string) (authorization : option string) :
    ST OAuth2Middleware auth_stop (option OAuth2Claims) := λ mw,
  if negb (_should_validate mw path) then (mw, Ret None)
  else
    match _get_bearer_token authorization with
    | None => (mw, Raise (Refused (mkHTTPException 401 ERROR_AUTH_REQUIRED [("WWW-Authenticate", "Bearer")])))
    | Some token =>
        (do! claims <- validate_bearer_token i token (_enforces_global_scope mw path) in st_ret (Some claims)) mw
    end.

(** The part of `_wire_middleware` that builds the validator and the middleware. *)
Definition wire_oauth2 (env : auth_env) (loads : string → option json) (cfg : OAuth2Config) (manifest_id : string)
    (require_operator_auth : bool) : OAuth2Middleware :=
  let shared_validator := mkValidator (oa_jwks_uri cfg) (oa_expected_issuer cfg) (oa_expected_audience cfg) false None in
  new_middleware env loads cfg (if require_operator_auth then OPERATOR_API_PATH_PREFIXES else []) (Some manifest_id)
    (Some shared_validator).

End OAuth2Middleware.

(** ** Soundness *)
Section Soundness.
  Context `{PyRuntime, Jose}.

(** Key sets a validation may use: the cached one, or one the endpoint gave. *)
Definition keys_of (i : bearer_in) (uri : string) (v : JWKSValidator) (ks : keyset) : Prop :=
  cached_keys (fi_now (bi_first i)) (uri_or (Some uri) v) v = Some ks ∨
  fi_answer (bi_first i) = Ret ks ∨ fi_answer (bi_second i) = Ret ks.

Lemma fetched_keys i uri v v' ks : fetched i uri v = (v', Ret ks) →
  (cached_keys (fi_now i) (uri_or (Some uri) v) v = Some ks ∧ v' = v) ∨
  (cached_keys (fi_now i) (uri_or (Some uri) v) v = None ∧ fi_answer i = Ret ks ∧ v' = store_keys (fi_stored i) ks v).
Proof.
  unfold fetched, fetch_keys. destruct (cached_keys _ _ v) as [k|]; [intros [= <- <-]; by left|].
  destruct (fi_answer i) as [e|k]; [done|]. intros [= <- <-]. by right.
Qed.

(** Only the cache of a validator changes. *)
Definition same_settings (v v' : JWKSValidator) : Prop :=
  jv_uri v' = jv_uri v ∧ jv_expected_issuer v' = jv_expected_issuer v ∧
  jv_expected_audience v' = jv_expected_audience v ∧ jv_require_exp v' = jv_require_exp v.

Lemma fetched_settings i uri v : same_settings v (fst (fetched i uri v)).
Proof. unfold fetched, fetch_keys. destruct (cached_keys _ _ v); [done|]. by destruct (fi_answer i). Qed.

Lemma validate_same now token ks v v' : same_settings v v' →
  validator_validate_jwt now token ks v' = validator_validate_jwt now token ks v.
Proof. intros (_ & Hi & Ha & He). unfold validator_validate_jwt. by rewrite Hi, Ha, He. Qed.

Lemma validate_token_sound i uri token v v' claims :
  validate_token (bi_first i) (bi_second i) (bi_decode i) (bi_decode' i) uri token v = (v', Ret claims) →
  ∃ ks now, keys_of i uri v ks ∧ validator_validate_jwt now token ks v = Ret claims.
Proof.
  unfold validate_token. intros Hr. bind_inv Hr as (v1 & ks & Hf & Hr).
  pose proof (fetched_settings (bi_first i) uri v) as Hs. rewrite Hf in Hs. cbn [fst] in Hs.
  apply fetched_keys in Hf.
  destruct (validator_validate_jwt (bi_decode i) token ks v1) as [[n|e]|c] eqn:Hv; [|done|].
  - bind_inv Hr as (v2 & ks2 & Hf2 & Hr). injection Hr as _ Hr.
    pose proof (fetched_settings (bi_second i) uri (invalidate_cache v1)) as Hs2. rewrite Hf2 in Hs2. cbn [fst] in Hs2.
    apply fetched_keys in Hf2. destruct Hf2 as [[Hc _]|(_ & Ha & _)]; [by unfold cached_keys in Hc|].
    exists ks2, (bi_decode' i). split; [by right; right|].
    destruct (validator_validate_jwt (bi_decode' i) token ks2 v2) as [|c] eqn:Hv2; [done|]. injection Hr as <-.
    rewrite <- Hv2. symmetry. apply validate_same. unfold same_settings in *. cbn in Hs2. by destruct_and!; split_and!; etrans.
  - injection Hr as <- <-. exists ks, (bi_decode i). split; [|by rewrite <- Hv; symmetry; apply validate_same].
    unfold keys_of. destruct Hf as [[? _]|(_ & ? & _)]; auto.
Qed.

Lemma validate_jwt_claims now token ks v claims : validator_validate_jwt now token ks v = Ret claims →
  jose_decode token ks _ALLOWED_JWT_ALGORITHMS = Ret claims ∧
  (∀ iss, jv_expected_issuer v = Some iss → issuer_matches_expected claims iss = true) ∧
  (∀ aud, jv_expected_audience v = Some aud → audience_matches_expected claims (audience_list aud) = true).
Proof.
  unfold validator_validate_jwt, validate_jwt. destruct (jose_decode _ _ _) as [|c]; [done|]. cbn [rbind].
  destruct (jv_require_exp v && _); [done|]. cbn [rbind]. destruct (if jv_require_exp v then _ else _); [done|]. cbn [rbind].
  destruct (jv_expected_issuer v) as [iss|];
    [destruct (issuer_matches_expected c iss) eqn:Hi; [|done]|]; cbn [rbind];
    (destruct (jv_expected_audience v) as [aud|];
       [destruct (audience_matches_expected c (audience_list aud)) eqn:Ha; [|done]|]); cbn [rbind];
    intros [= <-]; split_and!; naive_solver.
Qed.

(** What accepted claims satisfy. *)
Definition claims_ok (mw : OAuth2Middleware) (now : Z) (enforced : bool) (claims : obj) (c : OAuth2Claims) : Prop :=
  (j_get "exp" claims = JNull ∨ ∃ z, py_int (j_get "exp" claims) = Ret z ∧ now <= z * second) ∧
  j_get "sub" claims = JStr (oc_sub c) ∧ oc_sub c ≠ "" ∧ oc_scope c = parse_scope (j_get "scope" claims) ∧
  (∀ s, enforced = true → mw_required_scope mw = Some s → s ∈ oc_scope c) ∧
  _validate_identity_binding mw claims (oc_sub c) = true.

Lemma check_expiry_ok now claims z : check_expiry now claims = Ret z →
  j_get "exp" claims = JNull ∨ ∃ z, py_int (j_get "exp" claims) = Ret z ∧ now <= z * second.
Proof.
  unfold check_expiry. destruct (j_get "exp" claims) as [|b|n|f| | |] eqn:He; try done; [by left| | |];
    (destruct (py_int _) as [[]|w]; try done; destruct (Z.ltb_spec (w * second) now); [done|]; right; by exists w).
Qed.

Lemma accept_claims_ok mw now enforced claims c : accept_claims mw now enforced claims = Ret c →
  claims_ok mw now enforced claims c.
Proof.
  unfold accept_claims. destruct (check_expiry now claims) as [|z] eqn:He; [done|]. cbn [rbind].
  apply check_expiry_ok in He. destruct (j_get "sub" claims) as [| | | |sub| |] eqn:Hsub; try done.
  destruct (PyStr.truthy sub) eqn:Ht; [|done]. cbn [negb].
  destruct (enforced && negb _) eqn:Hs; [done|].
  destruct (_validate_identity_binding mw claims sub) eqn:Hb; [|done]. cbn [negb]. intros [= <-].
  unfold claims_ok. split_and!; try done; [cbn; by intros ->|].
  cbn. intros s -> Hreq. unfold _validate_scope in Hs. rewrite Hreq in Hs. cbn in Hs.
  apply negb_false_iff in Hs. by apply str_in_true.
Qed.

(** The token a request was let through with: where its keys came from, and
    what its verified claims satisfy, with the issuer and the audience they are
    held to. *)
Definition verified_for (i : bearer_in) (mw : OAuth2Middleware) (issuer : option string) (aud : option audience)
    (path : string) (authorization : option string)
    (c : OAuth2Claims) (token : string) (ks : keyset) (claims : obj) : Prop :=
  _get_bearer_token authorization = Some token ∧
  keys_of i (mw_jwks_uri mw) (mw_validator mw) ks ∧
  jose_decode token ks _ALLOWED_JWT_ALGORITHMS = Ret claims ∧
  (∀ iss, issuer = Some iss → issuer_matches_expected claims iss = true) ∧
  (∀ a, aud = Some a → audience_matches_expected claims (audience_list a) = true) ∧
  claims_ok mw (bi_now i) (_enforces_global_scope mw path) claims c.

(** ... to those of the validator the middleware holds. *)
Definition verified (i : bearer_in) (mw : OAuth2Middleware) : string → option string → OAuth2Claims → string → keyset →
    obj → Prop :=
  verified_for i mw (jv_expected_issuer (mw_validator mw)) (jv_expected_audience (mw_validator mw)).

Lemma dispatch_verified i path authorization mw mw' c :
  oauth_dispatch i path authorization mw = (mw', Ret (Some c)) →
  ∃ token ks claims, verified i mw path authorization c token ks claims.
Proof.
  unfold oauth_dispatch. destruct (_should_validate mw path) eqn:Hs; cbn [negb]; [|done].
  destruct (_get_bearer_token authorization) as [token|] eqn:Ht; [|done]. intros Hr.
  bind_inv Hr as (mw1 & c1 & Hv & Hr). injection Hr as <- <-.
  unfold validate_bearer_token in Hv.
  destruct (validate_token _ _ _ _ _ _ _) as [v r] eqn:Hvt. destruct r as [[]|claims]; try done.
  injection Hv as <- Hc. apply accept_claims_ok in Hc.
  apply validate_token_sound in Hvt as (ks & now & Hk & Hd).
  pose proof (validate_jwt_claims _ _ _ _ _ Hd) as (Hdec & Hi & Ha).
  exists token, ks, claims. by split_and!.
Qed.

(** The two ways the code builds the middleware: on its own, where it makes
    its validator itself, and by the server, which shares one with it. *)
Inductive build : Type :=
| Alone (extra : list string) (manifest_id : option string)
| ByServer (manifest_id : string) (require_operator_auth : bool).

Definition made (env : auth_env) (loads : string → option json) (cfg : OAuth2Config) (b : build) : OAuth2Middleware :=
  match b with
  | Alone extra manifest_id => new_middleware env loads cfg extra manifest_id None
  | ByServer manifest_id operator => wire_oauth2 env loads cfg manifest_id operator
  end.

(** What a token is held to: the environment stands in for what the
    configuration leaves out only where the middleware makes its validator. *)
Definition held_issuer (env : auth_env) (cfg : OAuth2Config) (b : build) : option string :=
  match b with
  | Alone _ _ => text_or (oa_expected_issuer cfg) (env_issuer env)
  | ByServer _ _ => oa_expected_issuer cfg
  end.
Definition held_audience (env : auth_env) (cfg : OAuth2Config) (b : build) : option audience :=
  match b with
  | Alone _ _ => audience_or (oa_expected_audience cfg) (parse_expected_audience_from_env (env_audience env))
  | ByServer _ _ => oa_expected_audience cfg
  end.

(** The middleware after the requests it has seen. *)
Inductive has_seen (mw0 : OAuth2Middleware) : OAuth2Middleware → Prop :=
| seen_none : has_seen mw0 mw0
| seen_next mw i path authorization : has_seen mw0 mw → has_seen mw0 (fst (oauth_dispatch i path authorization mw)).

Lemma same_settings_trans v1 v2 v3 : same_settings v1 v2 → same_settings v2 v3 → same_settings v1 v3.
Proof. unfold same_settings. intuition congruence. Qed.

Lemma validate_token_settings i1 i2 now now' uri token v :
  same_settings v (fst (validate_token i1 i2 now now' uri token v)).
Proof.
  unfold validate_token, st_bind. pose proof (fetched_settings i1 uri v) as Hs.
  destruct (fetched i1 uri v) as [v1 [e|ks]]; [done|]. cbn [fst] in Hs.
  destruct (validator_validate_jwt now token ks v1) as [[n|e]|c]; [|done..].
  pose proof (fetched_settings i2 uri (invalidate_cache v1)) as Hs2.
  destruct (fetched i2 uri (invalidate_cache v1)) as [v2 [e|ks2]]; cbn [fst] in *; by eapply same_settings_trans.
Qed.

(** Serving a request changes nothing of the middleware but its key cache. *)
Lemma dispatch_settings i path authorization mw :
  ∃ v, fst (oauth_dispatch i path authorization mw) = set_validator v mw ∧ same_settings (mw_validator mw) v.
Proof.
  assert (Hid : ∃ v, mw = set_validator v mw ∧ same_settings (mw_validator mw) v)
    by (exists (mw_validator mw); by destruct mw).
  unfold oauth_dispatch. destruct (negb _); [done|]. destruct (_get_bearer_token authorization) as [token|]; [|done].
  unfold st_bind, validate_bearer_token.
  pose proof (validate_token_settings (bi_first i) (bi_second i) (bi_decode i) (bi_decode' i) (mw_jwks_uri mw) token
    (mw_validator mw)) as Hs.
  destruct (validate_token _ _ _ _ _ _ _) as [v r]. cbn [fst] in Hs.
  exists v. split; [|done]. destruct r as [[]|claims]; try done. by destruct (accept_claims _ _ _ claims).
Qed.

Lemma seen_settings mw0 mw : has_seen mw0 mw →
  ∃ v, mw = set_validator v mw0 ∧ same_settings (mw_validator mw0) v.
Proof.
  induction 1 as [|mw i path authorization _ (v & -> & Hs)]; [exists (mw_validator mw0); by destruct mw0|].
  destruct (dispatch_settings i path authorization (set_validator v mw0)) as (v' & -> & Hs').
  exists v'. split; [done|]. by eapply same_settings_trans.
Qed.

Lemma made_held env loads cfg b :
  jv_expected_issuer (mw_validator (made env loads cfg b)) = held_issuer env cfg b ∧
  jv_expected_audience (mw_validator (made env loads cfg b)) = held_audience env cfg b.
Proof. by destruct b. Qed.


End Soundness.

(** ** Composition with the operator routes *)
Section Operator.
  Context `{PyRuntime, Jose, RateStrategy, OperatorRuntime}.

Lemma operator_admin c call a a' r : serve_operator true c call a = (a', Ret r) → is_admin c.
Proof.
  intros Hr. unfold serve_operator in Hr. bind_inv Hr as (a1 & [] & _ & Hr). bind_inv Hr as (a2 & [] & Ho & _).
  destruct (operator_cases c a1) as [|(e & He & _)]; [done|]. by rewrite He in Ho.
Qed.

(** With operator authentication on, an operator route answers only a
    request whose bearer token was verified by the middleware, against keys of
    the configured endpoint, and carries the admin scope among its own claims. *)
Theorem operator_needs_admin_token (mw mw' : OAuth2Middleware) (i : bearer_in) (path : string)
    (authorization : option string) (claims : option OAuth2Claims) (req : Request) (now : Z) (call : op_call)
    (a a' : op_app) (r : op_response) :
  oauth_dispatch i path authorization mw = (mw', Ret claims) →
  serve_operator true (mkCaller req claims now) call a = (a', Ret r) →
  ∃ token ks raw, _get_bearer_token authorization = Some token ∧
    keys_of i (mw_jwks_uri mw) (mw_validator mw) ks ∧
    jose_decode token ks _ALLOWED_JWT_ALGORITHMS = Ret raw ∧ SCOPE_ADMIN ∈ parse_scope (j_get "scope" raw).
Proof.
  intros Hd Hs. apply operator_admin in Hs as (c & Hc & Hadmin). cbn in Hc. subst claims.
  apply dispatch_verified in Hd as (token & ks & raw & Ht & Hk & Hdec & _ & _ & (_ & _ & _ & Hscope & _)).
  exists token, ks, raw. split_and!; [done..|]. by rewrite <- Hscope.
Qed.

End Operator.

(** ** Keys *)
Section Keys.
  Context `{PyRuntime, Jose}.

(** A rotation of the provider's keys is survived in one call: when the
    cached keys refuse the token and the endpoint now gives keys that accept it,
    the token is accepted, with one fetch, and the new keys are the cached ones
    for a day. *)
Theorem key_rotation_recovers (i i' : fetch_in) (now now' : Z) (uri token name : string) (v : JWKSValidator)
    (old new : keyset) (claims : obj) :
  cached_keys (fi_now i) (uri_or (Some uri) v) v = Some old →
  validator_validate_jwt now token old v = Raise (JoseError name) →
  fi_answer i' = Ret new → validator_validate_jwt now' token new v = Ret claims →
  ∃ v', validate_token i i' now now' uri token v = (v', Ret claims) ∧
    ∀ t, t < fi_stored i' + JWKS_CACHE_TTL_SECONDS * second → cached_keys t (jv_uri v) v' = Some new.
Proof.
  intros Hc Hold Ha Hnew. unfold validate_token, fetched, fetch_keys, st_bind. rewrite Hc, Hold.
  unfold cached_keys at 1. cbn [invalidate_cache set_cache jv_cache]. rewrite Ha.
  rewrite (validate_same now' token new v) by done. rewrite Hnew. eexists. split; [done|].
  intros t Ht. unfold cached_keys. cbn. rewrite (proj2 (Z.leb_gt _ _)) by lia. by rewrite String.eqb_refl.
Qed.

(** Fetching the keys of another endpoint fills the one cache, and the next
    call for the configured endpoint is served those keys. *)
Theorem foreign_keys_are_served (i i' : fetch_in) (other : string) (ks : keyset) (v : JWKSValidator) :
  PyStr.truthy other = true → other ≠ jv_uri v → fi_answer i = Ret ks →
  fi_now i' < fi_stored i + JWKS_CACHE_TTL_SECONDS * second →
  snd (fetch_keys i' None (fst (fetch_keys i (Some other) v))) = Ret ks.
Proof.
  intros Ht Ho Ha Hn.
  assert (Hmiss : cached_keys (fi_now i) (uri_or (Some other) v) v = None).
  { unfold cached_keys, uri_or. destruct (jv_cache v) as [[k e]|]; [|done].
    rewrite Ht, (proj2 (String.eqb_neq _ _)) by done. by rewrite andb_false_r. }
  unfold fetch_keys at 2. rewrite Hmiss, Ha. cbn [fst]. unfold fetch_keys, cached_keys. cbn.
  rewrite (proj2 (Z.leb_gt _ _)) by lia. by rewrite String.eqb_refl.
Qed.

(** The environment variables for issuer and audience have no effect on the
    server: the validator it shares is built from the configuration alone. *)
Theorem env_issuer_is_ignored (env env' : auth_env) (loads : string → option json) (cfg : OAuth2Config) (id : string)
    (operator : bool) (i : bearer_in) (token : string) (enforced : bool) :
  env_subject_map env = env_subject_map env' → env_custom_claim env = env_custom_claim env' →
  snd (validate_bearer_token i token enforced (wire_oauth2 env loads cfg id operator))
  = snd (validate_bearer_token i token enforced (wire_oauth2 env' loads cfg id operator)).
Proof.
  intros Hs Hc. unfold validate_bearer_token, wire_oauth2, new_middleware. cbn [mw_validator mw_jwks_uri].
  destruct (validate_token _ _ _ _ _ _ _) as [v [[]|claims]]; try done. cbn [snd].
  unfold accept_claims, _validate_scope, _validate_identity_binding. cbn. by rewrite Hs, Hc.
Qed.

(** An infinite expiry raises an exception the middleware does not handle. *)
Theorem infinite_exp_escapes (mw : OAuth2Middleware) (now : Z) (enforced : bool) (claims : obj) (negative : bool) :
  j_get "exp" claims = JFloat (FInf negative) → ∃ e, accept_claims mw now enforced claims = Raise (Escaped e).
Proof. intros He. unfold accept_claims, check_expiry. rewrite He. by eexists. Qed.

End Keys.

(** ** Composition with the WebSocket server *)
Section WebSocket.
  Context `{PyRuntime, Jose}.

Definition bearer_valid (i : bearer_in) (mw : OAuth2Middleware) (token : string) : bool :=
  match snd (validate_bearer_token i token true mw) with Ret _ => true | Raise _ => false end.

(** A WebSocket is accepted only with a token that passes every check of the
    HTTP middleware, the required scope included. *)
Theorem ws_acceptance_needs_token (i : bearer_in) (mw : OAuth2Middleware) (authorization : option string) :
  _enforce_ws_oauth2 authorization (bearer_valid i mw) = None →
  ∃ token ks claims c, _get_bearer_token authorization = Some token ∧
    keys_of i (mw_jwks_uri mw) (mw_validator mw) ks ∧ jose_decode token ks _ALLOWED_JWT_ALGORITHMS = Ret claims ∧
    claims_ok mw (bi_now i) true claims c.
Proof.
  unfold _enforce_ws_oauth2. change (_bearer_token_from_websocket authorization) with (_get_bearer_token authorization).
  destruct (_get_bearer_token authorization) as [token|]; [|done]. unfold bearer_valid, validate_bearer_token.
  destruct (validate_token _ _ _ _ _ _ _) as [v r] eqn:Hvt. destruct r as [[]|claims]; try done. cbn [snd].
  destruct (accept_claims _ _ _ claims) as [|c] eqn:Hc; [done|]. intros _. apply accept_claims_ok in Hc.
  apply validate_token_sound in Hvt as (ks & now & Hk & Hd). apply validate_jwt_claims in Hd as (Hdec & _ & _).
  by exists token, ks, claims, c.
Qed.
End WebSocket.

(** ** Examples *)
Section Examples.
#[local] Instance oauth_demo_py : PyRuntime := {| float_repr := λ _, "0.0"; float_of_str := λ _, None |}.

Definition demo_claims : obj :=
  [("sub", JStr "user-1"); ("scope", JStr "asap:admin"); ("exp", JInt 100); ("iss", JStr "https://idp/");
   (DEFAULT_CUSTOM_CLAIM, JStr "urn:asap:agent:server")].

(** Key sets are numbers; the token of the current keys is "good". *)
#[local] Instance demo_jose : Jose :=
  {| keyset := nat;
     jose_decode := λ t k _, if String.eqb t "good" && (k =? 2)%nat then Ret demo_claims else Raise (JoseError "bad_signature");
     jose_registry := λ _ _, Ret tt |}.

Definition demo_config : OAuth2Config := mkOAuth2Config "https://idp/jwks" None (Some "/asap") None (Some "https://idp") None.
Definition demo_env : auth_env := mkEnv None None None None.
Definition demo_mw : OAuth2Middleware := wire_oauth2 demo_env (λ _, None) demo_config "urn:asap:agent:server" true.
Definition demo_fetch (k : nat) : fetch_in := mkFetch 0 (Ret k) 0.
Definition demo_bearer : bearer_in := mkBearer (demo_fetch 2) (demo_fetch 2) 0 0 0.

(** The server's middleware, after one refused request. *)
Definition demo_later : OAuth2Middleware := fst (oauth_dispatch demo_bearer "/asap" (Some "Bearer bad") demo_mw).


#[local] Existing Instances op_demo_strategy op_demo_runtime.

Lemma operator_needs_admin_token_witness : ∃ token ks raw,
  _get_bearer_token (Some "Bearer good") = Some token ∧
  keys_of demo_bearer (mw_jwks_uri demo_mw) (mw_validator demo_mw) ks ∧
  jose_decode token ks _ALLOWED_JWT_ALGORITHMS = Ret raw ∧ SCOPE_ADMIN ∈ parse_scope (j_get "scope" raw).
Proof.
  exact (operator_needs_admin_token demo_mw _ demo_bearer "/usage/stats" (Some "Bearer good")
    (Some (mkOAuth "user-1" ["asap:admin"] 100)) (mkHttp None None) 0 GetUsageStats op_demo_app _ _ eq_refl eq_refl).
Defined.

Definition stale_validator : JWKSValidator := set_cache (Some (1%nat, 1000)) (mw_validator demo_mw).

Lemma key_rotation_recovers_witness : ∃ v',
  validate_token (demo_fetch 1) (demo_fetch 2) 0 0 "https://idp/jwks" "good" stale_validator = (v', Ret demo_claims) ∧
  cached_keys 5 "https://idp/jwks" v' = Some 2%nat.
Proof.
  destruct (key_rotation_recovers (demo_fetch 1) (demo_fetch 2) 0 0 "https://idp/jwks" "good" "bad_signature"
    stale_validator 1%nat 2%nat demo_claims) as (v' & Hv & Hc); [reflexivity..|].
  exists v'. split; [exact Hv|]. apply Hc. reflexivity.
Defined.

Lemma foreign_keys_are_served_witness :
  snd (fetch_keys (demo_fetch 2) None (fst (fetch_keys (demo_fetch 1) (Some "https://evil/jwks") (mw_validator demo_mw))))
  = Ret 1%nat.
Proof.
  exact (foreign_keys_are_served (demo_fetch 1) (demo_fetch 2) "https://evil/jwks" 1%nat (mw_validator demo_mw)
    eq_refl ltac:(discriminate) eq_refl eq_refl).
Defined.

Lemma env_issuer_is_ignored_witness :
  snd (validate_bearer_token demo_bearer "good" true demo_mw)
  = snd (validate_bearer_token demo_bearer "good" true
           (wire_oauth2 (mkEnv None (Some "https://other") (Some "aud") None) (λ _, None) demo_config "urn:asap:agent:server" true)).
Proof. apply env_issuer_is_ignored; reflexivity. Defined.

Lemma infinite_exp_escapes_witness : ∃ e,
  accept_claims demo_mw 0 true [("exp", JFloat (FInf false))] = Raise (Escaped e).
Proof. apply (infinite_exp_escapes demo_mw 0 true [("exp", JFloat (FInf false))] false). reflexivity. Defined.

Lemma ws_acceptance_needs_token_witness : ∃ token ks claims c,
  _get_bearer_token (Some "Bearer good") = Some token ∧
  keys_of demo_bearer (mw_jwks_uri demo_mw) (mw_validator demo_mw) ks ∧
  jose_decode token ks _ALLOWED_JWT_ALGORITHMS = Ret claims ∧ claims_ok demo_mw 0 true claims c.
Proof. apply (ws_acceptance_needs_token demo_bearer demo_mw (Some "Bearer good")). reflexivity. Defined.

Example path_prefixes :
  (path_under_prefix "/usage/export" "/usage", path_under_prefix "/usagex" "/usage", path_under_prefix "/x" "")
  = (true, false, true).
Proof. reflexivity. Qed.

End Examples.
