(* ===== verification/TokenCaches.v ===== *)
(** * Tokens of the client side: introspection, client credentials, OIDC discovery

    `src/src/asap/auth/introspection.py`, `auth/oauth2.py` and `auth/oidc.py`.

    What an endpoint answers is an input of the operation that asks it, with the
    readings of the wall clock in microseconds; an operation that awaits is split
    there, so that calls can interleave.  The ordered dictionary of the
    introspector is that of [ManifestCache], whose entries and eviction loop are
    the same.  `urlparse` and Authlib are parameters. *)

From Stdlib Require Import ZArith QArith Lia Ascii String.
From stdpp Require Import base tactics list gmap strings.
From S2P Require Import Prelude PyValue Identity ReplayGuard ManifestCache Errors JsonRpc DelegationJwt Webhook OAuth.
Open Scope string_scope.
Open Scope Z_scope.
Open Scope asap_scope.

(** ** Introspection *)
Definition INACTIVE_TOKEN_CACHE_TTL_SECONDS : Z := 60.
Definition MAX_ACTIVE_CACHE_TTL_SECONDS : Z := 3600.
Definition EXPIRY_BUFFER_SECONDS : Z := 30.

Record TokenInfo : Type := mkInfo {
  ti_active : bool;
  ti_sub : option string;
  ti_scope : list string;
  ti_exp : option Z;
  ti_client_id : option string;
  ti_username : option string;
  ti_token_type : option string
}.

(** In microseconds. *)
Definition cache_ttl_seconds (now : Z) (info : TokenInfo) : Z :=
  if negb (ti_active info) then INACTIVE_TOKEN_CACHE_TTL_SECONDS * second
  else
    match ti_exp info with
    | None => INACTIVE_TOKEN_CACHE_TTL_SECONDS * second
    | Some exp =>
        let remaining := exp * second - now - EXPIRY_BUFFER_SECONDS * second in
        if remaining <=? 0 then 0 else Z.min remaining (MAX_ACTIVE_CACHE_TTL_SECONDS * second)
    end.

(** What asking the endpoint raises: an HTTP error, or anything else. *)
Inductive ask_exn : Type :=
| AskHttp (msg : string)
| AskRaises (e : pyexn).

Section Introspection.
  Context `{PyRuntime}.

(** `str(v) if v is not None else None` *)
Definition text_of (k : string) (body : obj) : option string :=
  match j_get k body with JNull => None | v => Some (py_str float_repr v) end.

Definition exp_of (body : obj) : res pyexn (option Z) :=
  match j_get "exp" body with
  | (JBool _ | JInt _ | JFloat _) as exp =>
      match py_int exp with
      | Ret z => Ret (Some z)
      | Raise (TypeError _) | Raise (ValueError _) => Ret None
      | Raise e => Raise e
      end
  | _ => Ret None
  end.

(** [body]: the endpoint's JSON. *)
Definition _do_introspect (answer : res ask_exn json) : res ask_exn TokenInfo :=
  let! body := answer in
  match body with
  | JObj body =>
      let active := match j_get "active" body with JBool b => b | _ => false end in
      match exp_of body with
      | Ret exp =>
          Ret (mkInfo active (text_of "sub" body) (parse_scope (j_get "scope" body)) exp (text_of "client_id" body)
                 (text_of "username" body) (text_of "token_type" body))
      | Raise e => Raise (AskRaises e)
      end
  | v => Raise (AskRaises (AttributeError ("'" ++ type_name v ++ "' object has no attribute 'get'")))
  end.

Definition introspector : Type := @ManifestCache.t TokenInfo.
Definition new_introspector (max_cache_size : Z) : introspector := ManifestCache.init 0 max_cache_size.

(** `info if info.active else None` *)
Definition if_active (info : TokenInfo) : option TokenInfo := if ti_active info then Some info else None.

(** The first locked block of `introspect`: [Some a] answers from the cache. *)
Definition lookup_token (now : Z) (token : string) (c : introspector) : introspector * option (option TokenInfo) :=
  match PyDict.get token (ManifestCache.cache c) with
  | Some entry =>
      if ManifestCache.is_expired now entry then (c, None)
      else (ManifestCache.with_cache (ManifestCache.move_to_end token entry (ManifestCache.cache c)) c,
            Some (if_active (ManifestCache.manifest entry)))
  | None => (c, None)
  end.

(** The second one: [now] is read for the lifetime, [now'] by the entry. *)
Definition store_token (now now' : Z) (token : string) (info : TokenInfo) (c : introspector) : introspector :=
  let ttl := cache_ttl_seconds now info in
  let d := ManifestCache.cache c in
  let d :=
    if PyDict.mem token d then PyDict.del token d
    else if 0 <? ManifestCache.max_size c then ManifestCache.evict (ManifestCache.max_size c) d
    else d in
  ManifestCache.with_cache (PyDict.set token (ManifestCache.new_entry now' info ttl) d) c.

(** One call with nothing in between: the clock before, what the endpoint would
    answer, the clock after. *)
Definition introspect (now : Z) (answer : res ask_exn json) (later later' : Z) (token : string) :
    ST introspector ask_exn (option TokenInfo) := λ c,
  let '(c, hit) := lookup_token now token c in
  match hit with
  | Some a => (c, Ret a)
  | None =>
      match _do_introspect answer with
      | Ret info => (store_token later later' token info c, Ret (if_active info))
      | Raise e => (c, Raise e)
      end
  end.

(** *** Interleavings: the locked blocks of any number of calls *)
Inductive intro_step : Type :=
| Lookup (now : Z) (token : string)
| Store (now now' : Z) (token : string) (info : TokenInfo).

Definition intro_do (c : introspector) (s : intro_step) : introspector :=
  match s with
  | Lookup now token => fst (lookup_token now token c)
  | Store now now' token info => store_token now now' token info c
  end.
Definition intro_run (c : introspector) (l : list intro_step) : introspector := fold_left intro_do l c.

(** The last answer stored for a token. *)
Definition stored_by (token : string) (w : option (Z * Z * TokenInfo)) (s : intro_step) : option (Z * Z * TokenInfo) :=
  match s with
  | Store now now' t info => if decide (token = t) then Some (now, now', info) else w
  | Lookup _ _ => w
  end.
Definition last_stored (token : string) (l : list intro_step) : option (Z * Z * TokenInfo) :=
  fold_left (stored_by token) l None.
End Introspection.

(** ** Client credentials *)
Definition TOKEN_REFRESH_BUFFER_SECONDS : Z := 30.
Definition DEFAULT_TOKEN_LIFETIME_SECONDS : Z := 3600.

Record Token : Type := mkToken { tk_access_token : string; tk_expires_at : Z; tk_token_type : string }.

Definition is_expired (now : Z) (buffer_seconds : Z) (t : Token) : bool :=
  (tk_expires_at t - buffer_seconds) * second <=? now.

(** `int(time.time())` *)
Definition whole_seconds (now : Z) : Z := Z.quot now second.

Definition _parse_token_response (now : Z) (raw_token : obj) : res pyexn Token :=
  let! access_token := match assoc "access_token" raw_token with
                       | Some v => Ret v
                       | None => Raise (KeyError "'access_token'")
                       end in
  let token_type := default (JStr "Bearer") (assoc "token_type" raw_token) in
  let! expires_at :=
    match assoc "expires_at" raw_token, assoc "expires_in" raw_token with
    | Some v, _ => py_int v
    | None, Some v => let! n := py_int v in Ret (whole_seconds now + n)
    | None, None => Ret (whole_seconds now + DEFAULT_TOKEN_LIFETIME_SECONDS)
    end in
  match access_token, token_type with
  | JStr a, JStr ty => Ret (mkToken a expires_at ty)
  | _, _ => Raise (ValidationError "Token")
  end.

(** `scope or self._scope` *)
Definition requested_scope (own scope : option string) : option string := text_or scope own.

(** `get_access_token`: the token endpoint's answer to the requested scope, read
    at [now]. *)
Definition get_access_token (endpoint : option string → res ask_exn obj) (own scope : option string) (now : Z) :
    res ask_exn Token :=
  let! raw_token := endpoint (requested_scope own scope) in
  match _parse_token_response now raw_token with Ret t => Ret t | Raise e => Raise (AskRaises e) end.

(** *** The client as a transition system

    Calls of `get_valid_token` by tasks that run concurrently: a call that finds
    no valid token waits for the lock; the task that gets it looks again and
    then fetches, holding the lock until the endpoint has answered. *)
Record OAuth2ClientCredentials : Type := mkClient {
  cc_scope : option string;
  cc_cached_token : option Token;
  cc_waiting : list (nat * option string);
  cc_fetching : option (nat * option string * Z)
}.

Definition new_credentials (scope : option string) : OAuth2ClientCredentials := mkClient scope None [] None.

Definition valid_cached (now : Z) (c : OAuth2ClientCredentials) : option Token :=
  match cc_cached_token c with
  | Some t => if is_expired now TOKEN_REFRESH_BUFFER_SECONDS t then None else Some t
  | None => None
  end.

Inductive cc_event : Type :=
| Call (task : nat) (scope : option string) (now : Z)      (* up to the lock *)
| Locked (task : nat) (now : Z)                            (* the lock is acquired *)
| Answered (task : nat) (r : res ask_exn Token).           (* the fetch is over *)

(** What a step does besides changing the client: a task returns, or a request is
    sent to the token endpoint. *)
Inductive cc_effect : Type :=
| Returns (task : nat) (r : res ask_exn Token)
| Requests (task : nat) (scope : option string) (now : Z)
| Waits (task : nat).

(** [None]: the event cannot happen. *)
Definition cc_step (c : OAuth2ClientCredentials) (e : cc_event) : option (OAuth2ClientCredentials * cc_effect) :=
  match e with
  | Call task scope now =>
      match valid_cached now c with
      | Some t => Some (c, Returns task (Ret t))
      | None => Some (mkClient (cc_scope c) (cc_cached_token c) (cc_waiting c ++ [(task, scope)])%list (cc_fetching c),
                      Waits task)
      end
  | Locked task now =>
      match cc_fetching c, PyDict.get task (cc_waiting c) with
      | None, Some scope =>
          let waiting := PyDict.del task (cc_waiting c) in
          match valid_cached now c with
          | Some t => Some (mkClient (cc_scope c) (cc_cached_token c) waiting None, Returns task (Ret t))
          | None =>
              let scope := requested_scope (cc_scope c) scope in
              Some (mkClient (cc_scope c) (cc_cached_token c) waiting (Some (task, scope, now)), Requests task scope now)
          end
      | _, _ => None
      end
  | Answered task r =>
      match cc_fetching c with
      | Some (task', _, _) =>
          if (task =? task')%nat then
            Some (mkClient (cc_scope c) (match r with Ret t => Some t | Raise _ => cc_cached_token c end)
                    (cc_waiting c) None, Returns task r)
          else None
      | None => None
      end
  end.

Fixpoint cc_run (c : OAuth2ClientCredentials) (l : list cc_event) :
    option (OAuth2ClientCredentials * list cc_effect) :=
  match l with
  | [] => Some (c, [])
  | e :: l' =>
      match cc_step c e with
      | None => None
      | Some (c, eff) => match cc_run c l' with Some (c, effs) => Some (c, eff :: effs) | None => None end
      end
  end.

(** ** OIDC discovery *)
Definition DISCOVERY_CACHE_TTL_SECONDS : Z := 3600.

Definition _is_private_or_internal_host (host : string) : bool :=
  if negb (PyStr.truthy host) || String.eqb host "localhost" then true
  else
    match Ip.ip_address host with
    | Some addr => Ip.is_private addr || Ip.is_loopback addr || Ip.is_reserved addr || Ip.is_link_local addr
    | None => false
    end.

Record OIDCConfig : Type := mkOIDC {
  oc_issuer : string;
  oc_token_endpoint : string;
  oc_jwks_uri : string;
  oc_scopes_supported : list string
}.

Record OIDCDiscovery : Type := mkDiscovery { od_issuer_url : string; od_cache_entry : option (OIDCConfig * Z) }.

Section Oidc.
  Context `{PyRuntime}.
  Context (urlparse : string → res pyexn url_parts).

Definition _validate_issuer_url (issuer_url : string) (allow_private_issuers : bool) : res pyexn unit :=
  if allow_private_issuers then Ret tt
  else
    let! parsed := urlparse issuer_url in
    match u_hostname parsed with
    | Some host =>
        if PyStr.truthy host && _is_private_or_internal_host host
        then Raise (ValueError ("OIDC issuer_url host '" ++ host ++ "' is private/internal. "
                                ++ "Use allow_private_issuers=True for local development only."))
        else Ret tt
    | None => Ret tt
    end.

Definition new_discovery (issuer_url : string) (allow_private_issuers : bool) : res pyexn OIDCDiscovery :=
  let! _ := _validate_issuer_url issuer_url allow_private_issuers in
  Ret (mkDiscovery (PyStr.rstrip_char "/" issuer_url) None).

(** A required text of the document. *)
Definition required_text (k : string) (data : obj) : res ask_exn string :=
  match j_get k data with
  | JStr s => if PyStr.truthy s then Ret s
              else Raise (AskRaises (ValueError ("Discovery response missing required '" ++ k ++ "'")))
  | _ => Raise (AskRaises (ValueError ("Discovery response missing required '" ++ k ++ "'")))
  end.

Definition _fetch_discovery (answer : res ask_exn json) : res ask_exn OIDCConfig :=
  let! data := answer in
  match data with
  | JObj data =>
      let! issuer := required_text "issuer" data in
      let! token_endpoint := required_text "token_endpoint" data in
      let! jwks_uri := required_text "jwks_uri" data in
      let scopes_list := match j_get "scopes_supported" data with JList l => map (py_str float_repr) l | _ => [] end in
      Ret (mkOIDC issuer token_endpoint jwks_uri scopes_list)
  | v => Raise (AskRaises (AttributeError ("'" ++ type_name v ++ "' object has no attribute 'get'")))
  end.

Definition cached_config (now : Z) (d : OIDCDiscovery) : option OIDCConfig :=
  match od_cache_entry d with
  | Some (config, expires_at) => if negb (expires_at <=? now) then Some config else None
  | None => None
  end.

(** [get url] is the answer of the provider, [well_known] Authlib's URL. *)
Definition discover (well_known : string → string) (now : Z) (get : string → res ask_exn json) (later : Z) :
    ST OIDCDiscovery ask_exn OIDCConfig := λ d,
  match cached_config now d with
  | Some config => (d, Ret config)
  | None =>
      match _fetch_discovery (get (well_known (od_issuer_url d))) with
      | Ret config =>
          (mkDiscovery (od_issuer_url d) (Some (config, later + DISCOVERY_CACHE_TTL_SECONDS * second)), Ret config)
      | Raise e => (d, Raise e)
      end
  end.
End Oidc.

(** ** Introspection: what the cache answers *)
Section IntrospectionFacts.
  Implicit Types (c : introspector).

(** The cached entries are the last stored answers, with their lifetimes. *)
Definition cache_sound (l : list intro_step) (c : introspector) : Prop :=
  ManifestCache.inv c ∧
  ∀ token e, PyDict.get token (ManifestCache.cache c) = Some e →
    ∃ now now' info, last_stored token l = Some (now, now', info) ∧
      e = ManifestCache.new_entry now' info (cache_ttl_seconds now info).

Lemma store_is_set now now' token info c :
  store_token now now' token info c = ManifestCache.set now' token info (Some (cache_ttl_seconds now info)) c.
Proof. done. Qed.

Lemma lookup_inv now token c : ManifestCache.inv c → ManifestCache.inv (fst (lookup_token now token c)).
Proof.
  intros Hi. unfold lookup_token. destruct (PyDict.get token (ManifestCache.cache c)) as [e|] eqn:He; [|done].
  pose proof (ManifestCache.cache_inv_get now token c Hi) as Hg. unfold ManifestCache.get in Hg. rewrite He in Hg.
  by destruct (ManifestCache.is_expired now e).
Qed.

Lemma lookup_same now token c k : ManifestCache.inv c →
  PyDict.get k (ManifestCache.cache (fst (lookup_token now token c))) = PyDict.get k (ManifestCache.cache c).
Proof.
  intros [Hw _]. unfold lookup_token. destruct (PyDict.get token (ManifestCache.cache c)) as [e|] eqn:He; [|done].
  destruct (ManifestCache.is_expired now e); [done|]. by apply ManifestCache.get_move_to_end.
Qed.

Lemma get_base token k c e : ManifestCache.inv c →
  PyDict.get k (ManifestCache.base token c) = Some e → PyDict.get k (ManifestCache.cache c) = Some e.
Proof.
  intros [Hw _]. apply ManifestCache.get_sublist; [|done]. unfold ManifestCache.base. case_match.
  - apply PyDict.del_sublist.
  - case_match; [|done]. destruct (ManifestCache.evict_suffix (ManifestCache.max_size c) (ManifestCache.cache c)) as [pre Hp].
    rewrite Hp at 2. by apply sublist_inserts_l.
Qed.

Lemma cache_sound_step l c s : cache_sound l c → cache_sound (l ++ [s])%list (intro_do c s).
Proof.
  intros [Hi Hc]. unfold cache_sound, last_stored. setoid_rewrite fold_left_app. destruct s as [now token|now now' token info]; cbn.
  - split; [by apply lookup_inv|]. intros k e. rewrite lookup_same by done. apply Hc.
  - rewrite store_is_set. split; [by apply ManifestCache.inv_set|]. intros k e.
    unfold ManifestCache.set. fold (ManifestCache.base token c). cbn.
    destruct (decide (k = token)) as [-> | Hne].
    + rewrite PyDict.get_set_eq. intros [= <-]. by exists now, now', info.
    + rewrite PyDict.get_set_ne by done. intros He%get_base; [|done]. by apply Hc.
Qed.

Lemma cache_sound_run max l : cache_sound l (intro_run (new_introspector max) l).
Proof.
  induction l as [|s l IH] using rev_ind.
  - split; [apply ManifestCache.cache_inv_init|done].
  - unfold intro_run. rewrite fold_left_app. by apply cache_sound_step.
Qed.

Lemma ttl_bounds now info : 0 <= cache_ttl_seconds now info <= MAX_ACTIVE_CACHE_TTL_SECONDS * second.
Proof. unfold cache_ttl_seconds, INACTIVE_TOKEN_CACHE_TTL_SECONDS, MAX_ACTIVE_CACHE_TTL_SECONDS, second. cases; lia. Qed.

Lemma active_not_expired now now' t info exp :
  ti_active info = true → ti_exp info = Some exp → now' <= now + EXPIRY_BUFFER_SECONDS * second →
  now' <= t → t < now' + cache_ttl_seconds now info → t < exp * second.
Proof. intros Ha He. unfold cache_ttl_seconds. rewrite Ha, He. cbn [negb]. case_match; reflect; lia. Qed.

(** Whatever calls interleave, an answer from the cache is the last one
    stored for that token, stored less than an hour before; a token that was
    not active is not reported as active; and a token reported as active is
    not past its expiry, provided the two clock readings of its storing were
    at most 30 seconds apart.  The cache never exceeds its size. *)
Theorem cached_introspection_is_current (max : Z) (l : list intro_step) (t : Z) (token : string) (a : option TokenInfo) :
  let c := intro_run (new_introspector max) l in
  snd (lookup_token t token c) = Some a →
  ∃ now now' info, last_stored token l = Some (now, now', info) ∧ a = if_active info ∧
    t < now' + MAX_ACTIVE_CACHE_TTL_SECONDS * second ∧
    (∀ i exp, a = Some i → ti_exp i = Some exp → now' <= t → now' <= now + EXPIRY_BUFFER_SECONDS * second →
       t < exp * second) ∧
    (0 < max → ManifestCache.size c <= max).
Proof.
  intros c Hl. destruct (cache_sound_run max l) as [[Hw Hb] Hc]. fold c in Hw, Hb, Hc. unfold lookup_token in Hl.
  destruct (PyDict.get token (ManifestCache.cache c)) as [e|] eqn:He; [|done].
  destruct (Hc _ _ He) as (now & now' & info & Hs & ->).
  destruct (ManifestCache.is_expired t _) eqn:Hx; [done|]. injection Hl as <-.
  unfold ManifestCache.is_expired, ManifestCache.new_entry in Hx. cbn in Hx. reflect.
  pose proof (ttl_bounds now info). exists now, now', info. split_and!; [done..|lia| |].
  - unfold if_active. cbn. intros i exp Hi Hexp Ht Hn. destruct (ti_active info) eqn:Ha; [|done]. injection Hi as <-.
    by eapply active_not_expired.
  - intros Hm. assert (Hp : ManifestCache.max_size c = max); [|rewrite Hp in Hb; by apply Hb].
    subst c. clear. unfold intro_run. change max with (ManifestCache.max_size (new_introspector max)) at 2.
    generalize (new_introspector max). induction l as [|s l IH]; intros c; [done|]. cbn. rewrite IH.
    destruct s; cbn; [|done]. unfold lookup_token. by repeat case_match.
Qed.
End IntrospectionFacts.

(** ** Client credentials: one request at a time, and only near expiry *)

(** The token of the last successful fetch, the requests sent and the fetches
    that ended. *)
Definition last_token (l : list cc_event) : option Token :=
  fold_left (λ w e, match e with Answered _ (Ret t) => Some t | _ => w end) l None.
Definition fetches_ended (l : list cc_event) : nat :=
  length (List.filter (λ e, match e with Answered _ _ => true | _ => false end) l).
Definition requests_sent (l : list cc_effect) : nat :=
  length (List.filter (λ e, match e with Requests _ _ _ => true | _ => false end) l).

Definition cc_inv (l : list cc_event) (effs : list cc_effect) (c : OAuth2ClientCredentials) : Prop :=
  cc_cached_token c = last_token l ∧
  requests_sent effs = (fetches_ended l + if is_some (cc_fetching c) then 1 else 0)%nat.

Lemma cc_run_snoc c l e c' effs :
  cc_run c (l ++ [e])%list = Some (c', effs) →
  ∃ c1 effs1 eff, cc_run c l = Some (c1, effs1) ∧ cc_step c1 e = Some (c', eff) ∧ effs = (effs1 ++ [eff])%list.
Proof.
  revert c effs. induction l as [|e0 l IH]; intros c effs; cbn.
  - destruct (cc_step c e) as [[c1 eff]|] eqn:Hs; [|done]. intros [= <- <-]. by exists c, [], eff.
  - destruct (cc_step c e0) as [[c1 eff0]|]; [|done].
    destruct (cc_run c1 (l ++ [e])%list) as [[c2 effs2]|] eqn:Hr; [|done]. intros [= <- <-].
    destruct (IH _ _ Hr) as (c3 & effs3 & eff & Hl & Hs & ->). rewrite Hl. by exists c3, (eff0 :: effs3), eff.
Qed.

Lemma cc_inv_step l effs c e c' eff :
  cc_inv l effs c → cc_step c e = Some (c', eff) → cc_inv (l ++ [e])%list (effs ++ [eff])%list c'.
Proof.
  unfold cc_inv, last_token, fetches_ended, requests_sent. rewrite fold_left_app, !List.filter_app, !length_app.
  intros [Hc Hn] Hs. destruct e as [task scope now|task now|task r]; cbn in *.
  - destruct (valid_cached now c); injection Hs as <- <-; cbn; split; (done || lia).
  - destruct (cc_fetching c); [done|]. destruct (PyDict.get task (cc_waiting c)); [|done].
    destruct (valid_cached now c); injection Hs as <- <-; cbn in *; split; (done || lia).
  - destruct (cc_fetching c) as [[[task' sc] start]|]; [|done]. destruct (task =? task')%nat; [|done].
    injection Hs as <- <-. cbn in *. split; [by destruct r|lia].
Qed.

Lemma cc_inv_run own l c effs : cc_run (new_credentials own) l = Some (c, effs) → cc_inv l effs c.
Proof.
  revert c effs. induction l as [|e l IH] using rev_ind; intros c effs Hr.
  - by injection Hr as <- <-.
  - apply cc_run_snoc in Hr as (c1 & effs1 & eff & Hr & Hs & ->). eapply cc_inv_step; [by apply IH|done].
Qed.

Lemma valid_cached_some now c t : valid_cached now c = Some t →
  cc_cached_token c = Some t ∧ now < (tk_expires_at t - TOKEN_REFRESH_BUFFER_SECONDS) * second.
Proof.
  unfold valid_cached, is_expired. destruct (cc_cached_token c) as [t'|]; [|done].
  case_match; [done|]. intros [= ->]. reflect. split; [done|lia].
Qed.

Lemma valid_cached_none now c t : valid_cached now c = None → cc_cached_token c = Some t →
  (tk_expires_at t - TOKEN_REFRESH_BUFFER_SECONDS) * second <= now.
Proof. unfold valid_cached, is_expired. intros Hv Ht. rewrite Ht in Hv. case_match; [|done]. by reflect. Qed.

(** However many tasks ask for a token at the same time, a request goes
    to the token endpoint only when every earlier one has been answered and
    the last token obtained is within 30 seconds of its expiry; and a task
    is given either the answer to its own request or the last token obtained,
    with more than 30 seconds left. *)
Theorem token_requests_are_spaced (own : option string) (l : list cc_event) (c c' : OAuth2ClientCredentials)
    (effs : list cc_effect) (e : cc_event) (eff : cc_effect) :
  cc_run (new_credentials own) l = Some (c, effs) → cc_step c e = Some (c', eff) →
  match eff with
  | Requests _ _ now =>
      requests_sent effs = fetches_ended l ∧
      ∀ t, last_token l = Some t → (tk_expires_at t - TOKEN_REFRESH_BUFFER_SECONDS) * second <= now
  | Returns task (Ret t) =>
      e = Answered task (Ret t) ∨
      last_token l = Some t ∧
      ∃ now, (e = Locked task now ∨ ∃ scope, e = Call task scope now) ∧
             now < (tk_expires_at t - TOKEN_REFRESH_BUFFER_SECONDS) * second
  | Returns task (Raise x) => e = Answered task (Raise x)
  | Waits _ => True
  end.
Proof.
  intros [Hc Hn]%cc_inv_run Hs. rewrite <- Hc. destruct e as [task scope now|task now|task r]; cbn in Hs.
  - destruct (valid_cached now c) as [t|] eqn:Hv; injection Hs as <- <-; [|done].
    apply valid_cached_some in Hv as [Hv ?]. right. split; [done|]. exists now. eauto.
  - destruct (cc_fetching c) eqn:Hf; [done|]. destruct (PyDict.get task (cc_waiting c)); [|done].
    destruct (valid_cached now c) as [t|] eqn:Hv; injection Hs as <- <-.
    + apply valid_cached_some in Hv as [Hv ?]. right. split; [done|]. exists now. eauto.
    + split; [cbn in Hn; lia|]. intros t Ht. by eapply valid_cached_none.
  - destruct (cc_fetching c) as [[[task' sc] start]|]; [|done]. destruct (Nat.eqb_spec task task'); [|done].
    injection Hs as <- <-. destruct r; auto.
Qed.

(** A cached token is returned whatever scope is asked for: here a call for one
    scope is given the token another call obtained for another scope. *)
Theorem cached_token_ignores_scope (own : option string) (a b : string) (now : Z) (t : Token) :
  PyStr.truthy a = true → now < (tk_expires_at t - TOKEN_REFRESH_BUFFER_SECONDS) * second →
  option_map snd (cc_run (new_credentials own) [Call 0 (Some a) now; Locked 0 now; Answered 0 (Ret t); Call 1 (Some b) now])
  = Some [Waits 0; Requests 0 (Some a) now; Returns 0 (Ret t); Returns 1 (Ret t)].
Proof.
  intros Ha Hn. assert (Hx : is_expired now TOKEN_REFRESH_BUFFER_SECONDS t = false) by (apply Z.leb_gt; lia).
  destruct a as [|ch a]; [done|]. cbn -[is_expired TOKEN_REFRESH_BUFFER_SECONDS]. rewrite !decide_True by done.
  cbn -[is_expired TOKEN_REFRESH_BUFFER_SECONDS]. unfold valid_cached. cbn -[is_expired TOKEN_REFRESH_BUFFER_SECONDS]. by rewrite Hx.
Qed.

(** A token that was just fetched is returned whatever its lifetime. *)
Theorem short_lived_token_is_returned (own : option string) (now lifetime : Z) (access : string) :
  0 <= now → lifetime <= TOKEN_REFRESH_BUFFER_SECONDS →
  ∃ t, get_access_token (λ _, Ret [("access_token", JStr access); ("expires_in", JInt lifetime)]) own None now = Ret t ∧
    option_map snd (cc_run (new_credentials own) [Call 0 None now; Locked 0 now; Answered 0 (Ret t)])
    = Some [Waits 0; Requests 0 (requested_scope own None) now; Returns 0 (Ret t)] ∧
    is_expired now TOKEN_REFRESH_BUFFER_SECONDS t = true.
Proof.
  intros Hn Hl. eexists. split; [done|]. split; [done|]. unfold is_expired, whole_seconds. cbn.
  apply Z.leb_le. pose proof (Z.quot_rem' now second). pose proof (Z.rem_nonneg now second ltac:(done) Hn).
  unfold second, TOKEN_REFRESH_BUFFER_SECONDS in *. lia.
Qed.

(** ** OIDC *)
Section OidcFacts.
  Context `{PyRuntime}.
  Context (urlparse : string → res pyexn url_parts).

Lemma required_text_ok k data s : required_text k data = Ret s → j_get k data = JStr s ∧ PyStr.truthy s = true.
Proof. unfold required_text. intros Hr. cases_in Hr. done. Qed.

(** A discovery client is built only for an issuer whose host, where it has one,
    is neither localhost nor a private, loopback, reserved or link-local
    address; what it then returns names an issuer, a token endpoint and a key
    endpoint and is kept for an hour. *)
Theorem discovery_is_public_and_cached (issuer_url : string) (d d' : OIDCDiscovery) (well_known : string → string)
    (now later t : Z) (get get' : string → res ask_exn json) (config : OIDCConfig) :
  new_discovery urlparse issuer_url false = Ret d →
  discover well_known now get later d = (d', Ret config) → t < later + DISCOVERY_CACHE_TTL_SECONDS * second →
  (∀ parsed host, urlparse issuer_url = Ret parsed → u_hostname parsed = Some host → host ≠ "localhost" ∧ _is_ip_blocked host = false) ∧
  PyStr.truthy (oc_issuer config) = true ∧ PyStr.truthy (oc_token_endpoint config) = true ∧
  PyStr.truthy (oc_jwks_uri config) = true ∧
  discover well_known t get' (t + 1) d' = (d', Ret config).
Proof.
  intros Hd Hr Ht. unfold new_discovery in Hd. destruct (_validate_issuer_url _ _ _) as [|[]] eqn:Hv; [done|].
  injection Hd as <-. split.
  - intros parsed host Hp Hh. unfold _validate_issuer_url in Hv. rewrite Hp in Hv. cbn in Hv. rewrite Hh in Hv.
    destruct (PyStr.truthy host) eqn:Htr.
    + cbn in Hv. unfold _is_private_or_internal_host in Hv. rewrite Htr in Hv. cbn in Hv. unfold _is_ip_blocked.
      destruct (String.eqb_spec host "localhost"); [done|]. split; [done|].
      destruct (Ip.ip_address host) as [a|]; [|done].
      by destruct (Ip.is_private a), (Ip.is_loopback a), (Ip.is_reserved a), (Ip.is_link_local a).
    + destruct host; done.
  - unfold discover, cached_config in Hr. cbn in Hr. destruct (_fetch_discovery _) as [|config'] eqn:Hf; [done|].
    injection Hr as <- <-. unfold _fetch_discovery in Hf. destruct (get _) as [|[]]; try done. cbn in Hf.
    destruct (required_text "issuer" d) as [|i] eqn:E1; [done|]. destruct (required_text "token_endpoint" d) as [|te] eqn:E2; [done|].
    destruct (required_text "jwks_uri" d) as [|ju] eqn:E3; [done|]. injection Hf as <-.
    apply required_text_ok in E1 as [_ ?], E2 as [_ ?], E3 as [_ ?]. split_and!; [done..|].
    unfold discover, cached_config. cbn. by rewrite (proj2 (Z.leb_gt _ _)) by lia.
Qed.

(** The issuer a document names is not compared with the one it was fetched for. *)
Theorem foreign_issuer_is_accepted (d : OIDCDiscovery) (well_known : string → string) (now later : Z)
    (issuer token_endpoint jwks_uri : string) :
  od_cache_entry d = None → PyStr.truthy issuer = true → PyStr.truthy token_endpoint = true → PyStr.truthy jwks_uri = true →
  snd (discover well_known now
         (λ _, Ret (JObj [("issuer", JStr issuer); ("token_endpoint", JStr token_endpoint); ("jwks_uri", JStr jwks_uri)])) later d)
  = Ret (mkOIDC issuer token_endpoint jwks_uri []).
Proof.
  intros Hc Hi Ht Hj. unfold discover, cached_config, _fetch_discovery, required_text. rewrite Hc. cbn. by rewrite Hi, Ht, Hj.
Qed.
End OidcFacts.

(** ** Examples *)
Section Examples.
#[local] Instance token_demo_py : PyRuntime := {| float_repr := λ _, "0.0"; float_of_str := λ _, None |}.

Definition demo_info : TokenInfo := mkInfo true (Some "user-1") ["asap:read"] (Some 1000) None None None.

Lemma cached_introspection_is_current_witness : ∃ now now' info,
  last_stored "tok" [Store 0 0 "tok" demo_info] = Some (now, now', info) ∧ Some demo_info = if_active info ∧
  900 * second < now' + MAX_ACTIVE_CACHE_TTL_SECONDS * second.
Proof.
  destruct (cached_introspection_is_current 10 [Store 0 0 "tok" demo_info] (900 * second) "tok" (Some demo_info) eq_refl)
    as (now & now' & info & Hs & Ha & Hn & _).
  exists now, now', info. auto.
Defined.

Definition demo_token : Token := mkToken "abc" 1000 "Bearer".

Lemma token_requests_are_spaced_witness :
  requests_sent [Waits 0; Requests 0 None 0; Returns 0 (Ret demo_token); Waits 1] = 1%nat ∧
  (1000 - TOKEN_REFRESH_BUFFER_SECONDS) * second <= 970 * second.
Proof.
  destruct (token_requests_are_spaced None
    [Call 0 None 0; Locked 0 0; Answered 0 (Ret demo_token); Call 1 None (970 * second)] _ _ _
    (Locked 1 (970 * second)) (Requests 1 None (970 * second)) eq_refl eq_refl) as [Hn Ht].
  split; [exact Hn|]. apply (Ht demo_token). reflexivity.
Defined.

Lemma cached_token_ignores_scope_witness :
  option_map snd (cc_run (new_credentials None)
    [Call 0 (Some "read") 0; Locked 0 0; Answered 0 (Ret demo_token); Call 1 (Some "admin") 0])
  = Some [Waits 0; Requests 0 (Some "read") 0; Returns 0 (Ret demo_token); Returns 1 (Ret demo_token)].
Proof. apply cached_token_ignores_scope; reflexivity. Defined.

Lemma short_lived_token_is_returned_witness : ∃ t,
  get_access_token (λ _, Ret [("access_token", JStr "abc"); ("expires_in", JInt 5)]) None None 0 = Ret t ∧
  is_expired 0 TOKEN_REFRESH_BUFFER_SECONDS t = true.
Proof.
  destruct (short_lived_token_is_returned None 0 5 "abc" ltac:(lia) ltac:(compute; discriminate)) as (t & Ht & _ & Hx).
  exists t. auto.
Defined.

Definition demo_document : json :=
  JObj [("issuer", JStr "https://idp"); ("token_endpoint", JStr "https://idp/token"); ("jwks_uri", JStr "https://idp/jwks")].

Lemma discovery_is_public_and_cached_witness :
  snd (discover (λ u, u) 5 (λ _, Raise (AskHttp "down")) 6
    (mkDiscovery "https://idp" (Some (mkOIDC "https://idp" "https://idp/token" "https://idp/jwks" [], 3600 * second))))
  = Ret (mkOIDC "https://idp" "https://idp/token" "https://idp/jwks" []).
Proof.
  destruct (discovery_is_public_and_cached (λ _, Ret (mkUrl "https" (Some "idp"))) "https://idp/"
    (mkDiscovery "https://idp" None) _ (λ u, u) 0 0 5 (λ _, Ret demo_document) (λ _, Raise (AskHttp "down"))
    (mkOIDC "https://idp" "https://idp/token" "https://idp/jwks" []) eq_refl eq_refl eq_refl) as (_ & _ & _ & _ & Hd).
  exact (f_equal snd Hd).
Defined.

Lemma foreign_issuer_is_accepted_witness :
  snd (discover (λ u, u) 0 (λ _, Ret (JObj [("issuer", JStr "https://evil"); ("token_endpoint", JStr "https://evil/token"); ("jwks_uri", JStr "https://evil/jwks")])) 0
         (mkDiscovery "https://idp" None))
  = Ret (mkOIDC "https://evil" "https://evil/token" "https://evil/jwks" []).
Proof. apply foreign_issuer_is_accepted; reflexivity. Defined.

End Examples.
