(* ===== verification/Server.v ===== *)
(** * The server: construction, middleware stack, well-known manifest

    `src/src/asap/transport/server.py`, `state/stores/__init__.py` (the choice of the snapshot store),
    `transport/challenge.py` (the default discovery URL) and
    `discovery/wellknown.py`.

    [create_app] gives either the exception of the call or the configured server;
    an object the caller passed is [Given], one the function makes itself is
    [Fresh].  Starlette calls the middleware added last first.  The parser of
    rate-limit strings, `urlparse`, the file watcher and the bodies of the default
    handlers are parameters; log lines are left out. *)

From Stdlib Require Import ZArith QArith Lia Ascii String.
From stdpp Require Import base tactics list gmap strings.
From S2P Require Import Prelude PyValue Digest Identity ReplayGuard EnvelopeGuard Errors JsonRpc ManifestCache Signing Discovery Handlers Middleware Challenge DelegationJwt OAuth.
Open Scope string_scope.
Open Scope Z_scope.
Open Scope asap_scope.

Inductive slot (A : Type) : Type :=
| Given (a : A)
| Fresh.
Arguments Given {A} a.
Arguments Fresh {A}.

Definition or_fresh {A} (o : option A) : slot A := match o with Some a => Given a | None => Fresh end.

(** ** Configuration *)

(** The environment variables the construction reads. *)
Record server_env : Type := mkServerEnv {
  se_max_threads : option string;
  se_max_request_size : option string;
  se_hot_reload : option string;
  se_rate_limit : option string;
  se_storage_backend : option string;
  se_storage_path : option string;
  se_auth : auth_env
}.

Inductive snapshot_backend : Type := MemoryBackend | SqliteBackend (path : string).

Definition DEFAULT_DB_PATH : string := "asap_state.db".

Definition create_snapshot_store (env : server_env) : res pyexn snapshot_backend :=
  let backend := PyStr.lower (PyStr.strip (default "memory" (se_storage_backend env))) in
  let path := PyStr.strip (default DEFAULT_DB_PATH (se_storage_path env)) in
  if String.eqb backend "memory" then Ret MemoryBackend
  else if String.eqb backend "sqlite" then Ret (SqliteBackend path)
  else Raise (ValueError ("Unknown ASAP_STORAGE_BACKEND=" ++ repr_str backend ++ ". Use 'memory' or 'sqlite'.")).

(** `int(text)` *)
Definition int_text (s : string) : res pyexn Z := py_int (JStr s).

(** What `urlparse` gives of the endpoint. *)
Record origin : Type := mkOrigin { or_scheme : string; or_netloc : string }.

Definition default_manifest_discovery_url (urlparse : string → res pyexn origin) (asap_http_endpoint : string) :
    res pyexn string :=
  let! parsed := urlparse (PyStr.strip asap_http_endpoint) in
  if negb (PyStr.truthy (or_scheme parsed)) || negb (PyStr.truthy (or_netloc parsed))
  then Raise (ValueError ("Invalid ASAP endpoint URL for discovery: " ++ repr_str asap_http_endpoint))
  else Ret (PyStr.rstrip_char "/" (or_scheme parsed ++ "://" ++ or_netloc parsed) ++ WELLKNOWN_MANIFEST_PATH).

Section Server.
  Context `{PyRuntime, Jose, Serializer} {W : Type}.
  (** The objects the application may pass. *)
  Context {HostStore AgentStore JtiCache ApprovalStore SnapshotStore MeteringStore MeteringStorage
           SLAStorage AuditStore KeyStore DelegationStorage : Type}.
  Context (urlparse : string → res pyexn origin) (loads : string → option json).
  (** `create_limiter([text])` *)
  Context (create_limiter : string → res pyexn unit).
  (** the handler of `create_echo_handler` *)
  Context (echo_handler : Handler W).

(** What a registry records usage with. *)
Inductive metering : Type :=
| Direct (s : MeteringStore)
| MeteringStorageBridge (s : MeteringStorage).

Record registry : Type := mkReg {
  rg_handlers : HandlerRegistry W;
  rg_executor : option BoundedExecutor.t;
  rg_metering : option metering
}.

Definition create_default_registry (metering_store : option metering) : registry :=
  mkReg (fst (register "task.request" echo_handler empty_registry)) None metering_store.

(** ** Hot reload *)
Record RegistryHolder : Type := mkHolder { rh_registry : registry; rh_executor : option BoundedExecutor.t }.

Definition set_executor (x : option BoundedExecutor.t) (r : registry) : registry :=
  match x with Some _ => mkReg (rg_handlers r) x (rg_metering r) | None => r end.

Definition replace_registry (new_registry : registry) (h : RegistryHolder) : RegistryHolder :=
  mkHolder (set_executor (rh_executor h) new_registry) (rh_executor h).

(** One change the watcher reports; [None]: reloading the module failed. *)
Definition on_change (reloaded : option registry) (h : RegistryHolder) : RegistryHolder :=
  match reloaded with Some r => replace_registry r h | None => h end.

Record app_config : Type := mkAppConfig {
  ac_manifest : Manifest;
  ac_endpoint : string;
  ac_registry : option registry;
  ac_token_validator : option (string → W → W * res exn (option string));
  ac_oauth2_config : option OAuth2Config;
  ac_rate_limit : option string;
  ac_max_request_size : option Z;
  ac_max_threads : option Z;
  ac_require_nonce : bool;
  ac_hot_reload : option bool;
  ac_snapshot_store : option SnapshotStore;
  ac_metering_store : option MeteringStore;
  (** [Some None]: an object that is not a `MeteringStorage` *)
  ac_metering_storage : option (option MeteringStorage);
  ac_delegation_key_store : option KeyStore;
  ac_delegation_storage : option DelegationStorage;
  ac_sla_storage : option (option SLAStorage);
  ac_audit_store : option AuditStore;
  ac_identity_host_store : option HostStore;
  ac_identity_agent_store : option AgentStore;
  ac_identity_jti_cache : option JtiCache;
  ac_identity_jwt_audience : option audience;
  ac_identity_rate_limit : option string;
  ac_identity_approval_store : option ApprovalStore;
  ac_registry_auto_registration : bool;
  ac_challenge_enabled : bool;
  ac_challenge_discovery_url : option string;
  ac_challenge_path_prefixes : option (list string);
  ac_require_operator_auth : bool
}.

(** ** Components *)

(** Both stores of the caller, or a new host store over a new agent store. *)
Inductive identity_stores : Type :=
| GivenStores (h : HostStore) (a : AgentStore)
| FreshStores.

Definition _resolve_identity_stores (host_store : option HostStore) (agent_store : option AgentStore) :
    res pyexn identity_stores :=
  match host_store, agent_store with
  | None, None => Ret FreshStores
  | Some h, Some a => Ret (GivenStores h a)
  | _, _ => Raise (ValueError "identity_host_store and identity_agent_store must both be set or both omitted")
  end.

Record ServerComponents : Type := mkComponents {
  sc_registry_holder : RegistryHolder;
  sc_executor : option BoundedExecutor.t;
  sc_auth_middleware : option (AuthenticationMiddleware W);
  sc_max_request_size : Z;
  sc_nonce_store : bool;
  sc_identity_stores : identity_stores;
  sc_jti_cache : slot JtiCache;
  sc_jwt_audience : audience;
  sc_approval_store : slot ApprovalStore;
  sc_snapshot_store : SnapshotStore + snapshot_backend;
  (** the watcher is started *)
  sc_watched : bool
}.

(** The thread pool: the argument, else the environment, else none. *)
Definition make_executor (env : server_env) (cpu_count : Z) (max_threads : option Z) : res pyexn (option BoundedExecutor.t) :=
  let! max_threads := match max_threads, se_max_threads env with
                      | Some n, _ => Ret (Some n)
                      | None, Some s => if PyStr.truthy s then rmap Some (int_text s) else Ret None
                      | None, None => Ret None
                      end in
  match max_threads with
  | Some n => rmap Some (BoundedExecutor.init cpu_count (Some n))
  | None => Ret None
  end.

Definition effective_metering_store (cfg : app_config) : option metering :=
  match ac_metering_storage cfg with
  | Some (Some s) => Some (MeteringStorageBridge s)
  | _ => Direct <$> ac_metering_store cfg
  end.

Definition resolve_registry (cfg : app_config) : registry :=
  match ac_registry cfg with
  | None => create_default_registry (effective_metering_store cfg)
  | Some r =>
      match effective_metering_store cfg with
      | Some m => mkReg (rg_handlers r) (rg_executor r) (Some m)
      | None => r
      end
  end.

Definition make_auth (cfg : app_config) : res pyexn (option (AuthenticationMiddleware W)) :=
  if _is_auth_required (ac_manifest cfg) then
    match ac_token_validator cfg with
    | None => Raise (ValueError ("token_validator is required when manifest.auth is configured. "
                                 ++ "Provide a function that validates tokens and returns agent IDs."))
    | Some v => rmap Some (new_auth (ac_manifest cfg) (Some v))
    end
  else Ret None.

Definition _build_server_components (env : server_env) (cpu_count : Z) (handlers_file_exists : bool) (cfg : app_config) :
    res pyexn ServerComponents :=
  let! executor := make_executor env cpu_count (ac_max_threads cfg) in
  let registry := set_executor executor (resolve_registry cfg) in
  let hot_reload := match ac_hot_reload cfg with
                    | Some b => b
                    | None => str_in (PyStr.lower (PyStr.strip (default "" (se_hot_reload env)))) ["true"; "1"; "yes"]
                    end in
  let! auth := make_auth cfg in
  let! max_request_size := match ac_max_request_size cfg, se_max_request_size env with
                           | Some n, _ => Ret n
                           | None, Some s => int_text s
                           | None, None => Ret MAX_REQUEST_SIZE
                           end in
  let! stores := _resolve_identity_stores (ac_identity_host_store cfg) (ac_identity_agent_store cfg) in
  let! snapshot := match ac_snapshot_store cfg with
                   | Some s => Ret (inl s)
                   | None => rmap inr (create_snapshot_store env)
                   end in
  Ret (mkComponents (mkHolder registry executor) executor auth max_request_size (ac_require_nonce cfg) stores
         (or_fresh (ac_identity_jti_cache cfg)) (default (OneAudience (m_id (ac_manifest cfg))) (ac_identity_jwt_audience cfg))
         (or_fresh (ac_identity_approval_store cfg)) snapshot
         (hot_reload && is_none (ac_registry cfg) && handlers_file_exists)).

(** ** Routers *)
Inductive router : Type :=
| AgentIdentity | Escalation | CapabilityRoutes | AutoRegistration
| Usage (require_auth : bool) | Sla (require_auth : bool) | Delegations
| Health | JsonRpcRoutes | WebSocketRoutes | Audit (require_auth : bool).

Definition _wire_optional_routers (cfg : app_config) : list router :=
  ([AgentIdentity; Escalation; CapabilityRoutes]
   ++ (if ac_registry_auto_registration cfg then [AutoRegistration] else [])
   ++ match ac_metering_storage cfg with Some (Some _) => [Usage (ac_require_operator_auth cfg)] | _ => [] end
   ++ match ac_sla_storage cfg with Some (Some _) => [Sla (ac_require_operator_auth cfg)] | _ => [] end
   ++ match ac_oauth2_config cfg, ac_delegation_key_store cfg with Some _, Some _ => [Delegations] | _, _ => [] end)%list.

Definition _wire_core_routes (cfg : app_config) : list router :=
  [Health; JsonRpcRoutes; WebSocketRoutes; Audit (ac_require_operator_auth cfg)].

(** ** Middleware *)
Definition make_challenge (cfg : app_config) : res pyexn (option WWWAuthenticateASAPMiddleware) :=
  if ac_challenge_enabled cfg then
    let! disc := match text_or (ac_challenge_discovery_url cfg) None with
                 | Some u => Ret u
                 | None => default_manifest_discovery_url urlparse (ac_endpoint cfg)
                 end in
    Ret (Some (mkChallenge disc (ac_challenge_path_prefixes cfg) None))
  else Ret None.

Record server : Type := mkServer {
  sv_components : ServerComponents;
  sv_routers : list router;
  sv_oauth2 : option OAuth2Middleware;
  sv_challenge : option WWWAuthenticateASAPMiddleware;
  sv_identity_rate_limit : string;
  sv_rate_limit : string;
  sv_delegation_storage : option DelegationStorage
}.

(** The limit the application's limiter is made with. *)
Definition _configure_rate_limiting (env : server_env) (rate_limit : option string) : res pyexn string :=
  let rate_limit_str := match rate_limit with
                        | Some s => s
                        | None => default "10/second;100/minute" (se_rate_limit env)
                        end in
  let! _ := create_limiter rate_limit_str in
  Ret rate_limit_str.

Definition create_app (env : server_env) (cpu_count : Z) (handlers_file_exists : bool) (cfg : app_config) : res pyexn server :=
  let! _ := if ac_require_operator_auth cfg && is_none (ac_oauth2_config cfg)
            then Raise (ValueError ("require_operator_auth=True requires oauth2_config so /usage, /sla, and "
                                    ++ "/audit can validate Bearer JWTs with scope asap:admin"))
            else Ret tt in
  let! components := _build_server_components env cpu_count handlers_file_exists cfg in
  let identity_rl := default "5/second;30/minute" (text_or (ac_identity_rate_limit cfg) None) in
  let! _ := create_limiter identity_rl in
  let optional := _wire_optional_routers cfg in
  let oauth2 := (λ c, wire_oauth2 (se_auth env) loads c (m_id (ac_manifest cfg)) (ac_require_operator_auth cfg))
                <$> ac_oauth2_config cfg in
  let! challenge := make_challenge cfg in
  let! rate_limit_str := _configure_rate_limiting env (ac_rate_limit cfg) in
  Ret (mkServer components (optional ++ _wire_core_routes cfg)%list oauth2 challenge identity_rl rate_limit_str
         (match ac_oauth2_config cfg, ac_delegation_key_store cfg with
          | Some _, Some _ => ac_delegation_storage cfg
          | _, _ => None
          end)).

(** ** Serving a request

    The state of the stack is the OAuth2 middleware and the state of the routes;
    a route also sees the claims that the middleware put on the request.  The stack
    is built when a request comes, so a size limit below one fails there. *)
Definition served : Type := option OAuth2Middleware * W.

Definition detail_reply (e : HTTPException) : res exn HttpResponse :=
  JSONResponse (hx_status_code e) (JObj [("detail", JStr (hx_detail e))]) (hx_headers e).

Definition oauth2_layer (i : bearer_in) (call_next : option OAuth2Claims → HttpRequest → served → served * res exn HttpResponse)
    (request : HttpRequest) : served → served * res exn HttpResponse := λ '(mw, w),
  match mw with
  | None => call_next None request (mw, w)
  | Some m =>
      let '(m', r) := oauth_dispatch i (hq_path request) (header "authorization" request) m in
      match r with
      | Ret claims => call_next claims request (Some m', w)
      | Raise (Refused e) => ((Some m', w), detail_reply e)
      | Raise (Escaped e) => ((Some m', w), Raise (of_pyexn e))
      end
  end.

Definition challenge_layer (c : option WWWAuthenticateASAPMiddleware)
    (call_next : HttpRequest → served → served * res exn HttpResponse) :
    HttpRequest → served → served * res exn HttpResponse :=
  match c with Some m => dispatch m (λ _, None) call_next | None => call_next end.

(** The routes with the claims as an argument. *)
Abbreviation app_routes := (option OAuth2Claims → HttpRequest → W → W * res exn HttpResponse).

Definition run_routes (routes : app_routes) (claims : option OAuth2Claims) (request : HttpRequest) :
    served → served * res exn HttpResponse := λ '(mw, w),
  let '(w', r) := routes claims request w in ((mw, w'), r).

Definition serve (s : server) (i : bearer_in) (routes : app_routes) : HttpRequest → served → served * res exn HttpResponse :=
  match size_limit_init (sc_max_request_size (sv_components s)) with
  | Raise e => λ _ st, (st, Raise (of_pyexn e))
  | Ret max_size =>
      challenge_layer (sv_challenge s)
        (asap_version (oauth2_layer i (λ claims, size_limit max_size (run_routes routes claims))))
  end.

(** ** Shutdown *)

(** What closing a connection raises. *)
Inductive close_result : Type := Closed | OSErrorRaised | OtherRaised (e : pyexn).

(** The connections closed and what leaves the loop. *)
Fixpoint lifespan_close {WS} (close : WS → close_result) (active : list WS) : list WS * option pyexn :=
  match active with
  | [] => ([], None)
  | ws :: rest =>
      match close ws with
      | OtherRaised e => ([], Some e)
      | Closed | OSErrorRaised => let '(l, e) := lifespan_close close rest in (ws :: l, e)
      end
  end.

End Server.

Arguments registry W MeteringStore MeteringStorage : clear implicits.

(** ** The well-known manifest *)
Definition CACHE_MAX_AGE_SECONDS : Z := 300.
Definition CACHE_CONTROL_VALUE : string := "public, max-age=" ++ PyStr.dec_Z CACHE_MAX_AGE_SECONDS.

Section WellKnown.
  Context `{PyRuntime}.

(** [manifest]: the dictionary of `get_manifest_json`. *)
Definition compute_manifest_etag (manifest : json) : string :=
  sha256_hex (json_dumps float_repr ", " ": " true manifest).

Definition _etag_header_value (etag : string) : string := String dquote etag ++ String dquote "".

Inductive manifest_reply : Type :=
| NotModified (headers : list (string * string))
| ManifestReply (body : json) (headers : list (string * string)).

Definition get_manifest_response (manifest : json) (if_none_match : option string) : manifest_reply :=
  let etag_header := _etag_header_value (compute_manifest_etag manifest) in
  let headers := [("etag", etag_header); ("cache-control", CACHE_CONTROL_VALUE)] in
  match if_none_match with
  | Some v => if existsb (λ part, String.eqb (PyStr.strip part) etag_header) (PyStr.split "," v)
              then NotModified headers else ManifestReply manifest headers
  | None => ManifestReply manifest headers
  end.

Definition reply_headers (r : manifest_reply) : list (string * string) :=
  match r with NotModified h | ManifestReply _ h => h end.
End WellKnown.

(** ** Texts *)
Fixpoint all_chars (p : ascii → bool) (s : string) : bool :=
  match s with EmptyString => true | String c s' => p c && all_chars p s' end.

Lemma all_chars_app p a b : all_chars p (a ++ b) = all_chars p a && all_chars p b.
Proof. induction a as [|c a IH]; [done|]. rewrite append_cons. cbn. by rewrite IH, andb_assoc. Qed.

Lemma append_left s : "" ++ s = s.
Proof. done. Qed.

Lemma append_last_inj a b c : a ++ String c "" = b ++ String c "" → a = b.
Proof.
  revert b. induction a as [|x a IH]; intros [|y b]; rewrite ?append_cons, ?append_left; intros Heq; [done| | |].
  - by destruct b.
  - by destruct a.
  - injection Heq as -> Heq. f_equal. by apply IH.
Qed.

Lemma split_plain sep acc s : all_chars (λ c, negb (Ascii.eqb c sep)) s = true →
  PyStr.split_aux sep acc s = [acc ++ s].
Proof.
  revert acc. induction s as [|c s IH]; intros acc; cbn; [by rewrite append_nil|].
  intros [Hc Hs]%andb_true_iff. apply negb_true_iff in Hc. rewrite Hc, IH by done. by rewrite append_assoc.
Qed.

Lemma strip_plain s : all_chars (λ c, negb (PyStr.is_space c)) s = true → PyStr.strip s = s.
Proof.
  intros Hs. unfold PyStr.strip.
  assert (Hl : PyStr.lstrip s = s).
  { destruct s as [|c s]; [done|]. cbn in *. apply andb_true_iff in Hs as [Hc _]. apply negb_true_iff in Hc. by rewrite Hc. }
  rewrite Hl. clear Hl. induction s as [|c s IH]; [done|]. cbn in *. apply andb_true_iff in Hs as [Hc Hs].
  rewrite IH by done. destruct s; [|done]. apply negb_true_iff in Hc. by rewrite Hc.
Qed.

Definition header_char (c : ascii) : bool := negb (PyStr.is_space c) && negb (Ascii.eqb c ",").

Lemma all_chars_impl (p q : ascii → bool) s : (∀ c, p c = true → q c = true) → all_chars p s = true → all_chars q s = true.
Proof. intros Hp. induction s as [|c s IH]; [done|]. cbn. intros [Hc Hs]%andb_true_iff. rewrite (Hp _ Hc). by apply IH. Qed.

Lemma hex_digit_plain n : 0 <= n < 16 → header_char (hex_digit n) = true.
Proof.
  intros Hn. assert (Hc : ∀ k, (k < 16)%nat → header_char (hex_digit (Z.of_nat k)) = true).
  { intros k Hk. do 16 (destruct k as [|k]; [reflexivity|]). lia. }
  rewrite <- (Z2Nat.id n) by lia. apply Hc. lia.
Qed.

Lemma hex_plain m : Forall (λ b, 0 <= b < 256) m → all_chars header_char (hex m) = true.
Proof.
  induction 1 as [|b m Hb _ IH]; [done|]. cbn.
  rewrite IH, !hex_digit_plain; [done|..].
  - change 15 with (Z.ones 4). rewrite Z.land_ones by lia. apply Z.mod_pos_bound. lia.
  - rewrite Z.shiftr_div_pow2 by lia. split; [apply Z.div_pos; lia|]. apply Z.div_lt_upper_bound; lia.
Qed.

(** ** Conditional requests *)
Section WellKnownFacts.
  Context `{PyRuntime}.

Lemma etag_plain manifest : all_chars header_char (_etag_header_value (compute_manifest_etag manifest)) = true.
Proof.
  unfold _etag_header_value, compute_manifest_etag, sha256_hex. cbn -[hex Sha256.digest]. rewrite append_cons. cbn -[hex Sha256.digest].
  rewrite all_chars_app, hex_plain; [done|]. apply digest_range.
Qed.

(** A client that sends back the entity tag it was given is told that the
    manifest has not changed exactly when the two manifests have the same
    canonical hash; otherwise it gets the current manifest, with the new tag. *)
Theorem manifest_revalidation (old new : json) (if_none_match : option string) :
  let headers := reply_headers (get_manifest_response old if_none_match) in
  let answer := get_manifest_response new (assoc "etag" headers) in
  answer = (if String.eqb (compute_manifest_etag old) (compute_manifest_etag new)
            then NotModified headers else ManifestReply new (reply_headers answer)) ∧
  assoc "etag" (reply_headers answer) = Some (_etag_header_value (compute_manifest_etag new)).
Proof.
  cbv zeta.
  assert (Hh : ∀ m v, reply_headers (get_manifest_response m v)
    = [("etag", _etag_header_value (compute_manifest_etag m)); ("cache-control", CACHE_CONTROL_VALUE)]).
  { intros m [v|]; cbn; [by case_match|done]. }
  rewrite !Hh. split; [|done]. cbn [assoc String.eqb]. cbn -[_etag_header_value compute_manifest_etag].
  unfold PyStr.split. rewrite split_plain; [|eapply all_chars_impl; [|apply etag_plain]; unfold header_char; by intros c [_ ?]%andb_true_iff].
  cbn -[_etag_header_value compute_manifest_etag]. rewrite append_left.
  rewrite strip_plain by (eapply all_chars_impl; [|apply etag_plain]; unfold header_char; by intros c [? _]%andb_true_iff).
  rewrite orb_false_r. destruct (String.eqb_spec (compute_manifest_etag old) (compute_manifest_etag new)) as [He|He].
  - rewrite He, String.eqb_refl. done.
  - destruct (String.eqb_spec (_etag_header_value (compute_manifest_etag old)) (_etag_header_value (compute_manifest_etag new))) as [Hx|Hx]; [|done].
    destruct He. unfold _etag_header_value in Hx. rewrite !append_cons in Hx. injection Hx as Hx.
    by apply append_last_inj in Hx.
Qed.
End WellKnownFacts.

(** ** Construction *)
Section ServerFacts.
  Context `{PyRuntime, Jose, Serializer} {W : Type}.
  Context {HostStore AgentStore JtiCache ApprovalStore SnapshotStore MeteringStore MeteringStorage
           SLAStorage AuditStore KeyStore DelegationStorage : Type}.
  Context (urlparse : string → res pyexn origin) (loads : string → option json).
  Context (create_limiter : string → res pyexn unit) (echo_handler : Handler W).

Abbreviation config := (@app_config W HostStore AgentStore JtiCache ApprovalStore SnapshotStore MeteringStore
  MeteringStorage SLAStorage AuditStore KeyStore DelegationStorage).
Abbreviation build := (create_app urlparse loads create_limiter echo_handler).
Implicit Types (cfg : config) (env : server_env).

Definition returns {A} (r : res pyexn A) : Prop := ∃ a, r = Ret a.

(** What a configuration needs, part by part. *)
Record requirements env cfg : Prop := mkRequirements {
  rq_operator : ac_require_operator_auth cfg = true → is_Some (ac_oauth2_config cfg);
  rq_threads :
    match ac_max_threads cfg, se_max_threads env with
    | Some n, _ => 1 <= n
    | None, Some s => PyStr.truthy s = true → ∃ n, int_text s = Ret n ∧ 1 <= n
    | None, None => True
    end;
  rq_auth : is_Some (m_auth_schemes (ac_manifest cfg)) → is_Some (ac_token_validator cfg);
  rq_size : ∀ s, ac_max_request_size cfg = None → se_max_request_size env = Some s → returns (int_text s);
  rq_stores : is_Some (ac_identity_host_store cfg) ↔ is_Some (ac_identity_agent_store cfg);
  rq_snapshot : ac_snapshot_store cfg = None → returns (create_snapshot_store env);
  rq_identity_limit : returns (create_limiter (default "5/second;30/minute" (text_or (ac_identity_rate_limit cfg) None)));
  rq_challenge : returns (make_challenge urlparse cfg);
  rq_limit : returns (_configure_rate_limiting create_limiter env (ac_rate_limit cfg))
}.

Lemma returns_bind {A B} (m : res pyexn A) (k : A → res pyexn B) :
  returns (rbind m k) ↔ ∃ a, m = Ret a ∧ returns (k a).
Proof.
  unfold returns. destruct m as [e|a]; cbn; [|naive_solver]. split; [by intros [? ?]|by intros (? & ? & ?)].
Qed.

Lemma returns_rmap {A B} (f : A → B) (m : res pyexn A) : returns (rmap f m) ↔ returns m.
Proof. unfold returns. destruct m; cbn; naive_solver. Qed.

Lemma returns_ret {A} (a : A) : returns (Ret a).
Proof. by exists a. Qed.

Lemma executor_returns cpu n : returns (rmap Some (BoundedExecutor.init cpu (Some n))) ↔ 1 <= n.
Proof.
  rewrite returns_rmap. unfold BoundedExecutor.init. destruct (Z.ltb_spec n 1); split; try (intros [? ?]; done); try lia.
  intros _. apply returns_ret.
Qed.

Lemma make_executor_returns env cpu threads :
  returns (make_executor env cpu threads) ↔
  match threads, se_max_threads env with
  | Some n, _ => 1 <= n
  | None, Some s => PyStr.truthy s = true → ∃ n, int_text s = Ret n ∧ 1 <= n
  | None, None => True
  end.
Proof.
  unfold make_executor. destruct threads as [n|]; cbn [rbind]; [apply executor_returns|].
  destruct (se_max_threads env) as [s|]; cbn [rbind]; [|split; [done|intros _; apply returns_ret]].
  destruct (PyStr.truthy s); cbn [rbind]; [|split; [done|intros _; apply returns_ret]].
  rewrite returns_bind. split.
  - intros (o & Ho & Hr) _. destruct (int_text s) as [|n]; [done|]. injection Ho as <-. exists n. by rewrite executor_returns in Hr.
  - intros Hn. destruct (Hn eq_refl) as (n & -> & Hle). exists (Some n). split; [done|]. by apply executor_returns.
Qed.

Lemma make_auth_returns cfg :
  returns (make_auth cfg) ↔ (is_Some (m_auth_schemes (ac_manifest cfg)) → is_Some (ac_token_validator cfg)).
Proof.
  unfold make_auth, _is_auth_required. destruct (m_auth_schemes (ac_manifest cfg)) eqn:Hm; cbn.
  - destruct (ac_token_validator cfg); cbn.
    + rewrite returns_rmap. unfold new_auth. rewrite andb_false_r. split; [by intros _ _|intros _; apply returns_ret].
    + split; [by intros [? ?]|]. intros Hs. destruct (Hs ltac:(by eexists)) as [? ?]. done.
  - split; [by intros _ [? ?]|intros _; apply returns_ret].
Qed.

Lemma stores_returns cfg :
  returns (_resolve_identity_stores (ac_identity_host_store cfg) (ac_identity_agent_store cfg)) ↔
  (is_Some (ac_identity_host_store cfg) ↔ is_Some (ac_identity_agent_store cfg)).
Proof.
  unfold _resolve_identity_stores.
  destruct (ac_identity_host_store cfg), (ac_identity_agent_store cfg); split;
    try (intros _; apply returns_ret); try (by intros [? ?]); try done; intros Hs.
  - by destruct (proj1 Hs ltac:(by eexists)).
  - by destruct (proj2 Hs ltac:(by eexists)).
Qed.

Lemma components_return env cpu f cfg :
  returns (_build_server_components echo_handler env cpu f cfg) ↔
  returns (make_executor env cpu (ac_max_threads cfg)) ∧ returns (make_auth cfg) ∧
  (∀ s, ac_max_request_size cfg = None → se_max_request_size env = Some s → returns (int_text s)) ∧
  returns (_resolve_identity_stores (ac_identity_host_store cfg) (ac_identity_agent_store cfg)) ∧
  (ac_snapshot_store cfg = None → returns (create_snapshot_store env)).
Proof.
  split.
  - intros (x & Hx & (a & Ha & (n & Hn & (st & Hst & (sn & Hsn & _)%returns_bind)%returns_bind)%returns_bind)%returns_bind)%returns_bind.
    split_and!; [by exists x|by exists a| |by exists st|].
    + intros s Hm He. rewrite Hm, He in Hn. by exists n.
    + intros Hs. rewrite Hs in Hsn. destruct (create_snapshot_store env); [done|apply returns_ret].
  - intros ([x Hx] & [a Ha] & Hn & [st Hst] & Hsn). apply returns_bind. exists x. split; [done|].
    apply returns_bind. exists a. split; [done|].
    assert (∃ n, match ac_max_request_size cfg, se_max_request_size env with
                 | Some n, _ => Ret n | None, Some s => int_text s | None, None => Ret MAX_REQUEST_SIZE end = Ret n)
      as [n Hn'].
    { destruct (ac_max_request_size cfg) as [n|]; [by exists n|]. destruct (se_max_request_size env) as [s|]; [by apply Hn|by eexists]. }
    apply returns_bind. exists n. split; [done|]. apply returns_bind. exists st. split; [done|]. apply returns_bind.
    destruct (ac_snapshot_store cfg) as [s|].
    + eexists. split; [done|]. apply returns_ret.
    + destruct (Hsn eq_refl) as [b Hb]. rewrite Hb. eexists. split; [done|]. apply returns_ret.
Qed.

(** The server is built exactly when each requirement of the configuration holds:
    no combination of the others makes up for one that fails. *)
Theorem create_app_succeeds_iff (env : server_env) (cpu_count : Z) (handlers_file_exists : bool) (cfg : config) :
  (∃ s, build env cpu_count handlers_file_exists cfg = Ret s) ↔ requirements env cfg.
Proof.
  change (returns (build env cpu_count handlers_file_exists cfg) ↔ requirements env cfg).
  split.
  - intros ([] & Ho & (c & Hc & ([] & Hi & (ch & Hch & (rl & Hl & _)%returns_bind)%returns_bind)%returns_bind)%returns_bind)%returns_bind.
    assert (returns (_build_server_components echo_handler env cpu_count handlers_file_exists cfg)) as Hcs by by exists c.
    apply components_return in Hcs as (Hx & Ha & Hn & Hst & Hsn). split.
    + intros Hop. rewrite Hop in Ho. destruct (ac_oauth2_config cfg); [by eexists|done].
    + by apply make_executor_returns in Hx.
    + by apply make_auth_returns.
    + done.
    + by apply stores_returns.
    + done.
    + by exists tt.
    + by exists ch.
    + by exists rl.
  - intros [Hop Hx Ha Hn Hst Hsn [[] Hi] [ch Hch] [rl Hl]].
    apply returns_bind. exists tt. split.
    { destruct (ac_require_operator_auth cfg); [|done]. by destruct (Hop eq_refl) as [? ->]. }
    destruct (proj2 (components_return env cpu_count handlers_file_exists cfg)) as [c Hc].
    { split_and!; [by apply make_executor_returns|by apply make_auth_returns|done|by apply stores_returns|done]. }
    apply returns_bind. exists c. split; [done|]. apply returns_bind. exists tt. split; [done|].
    apply returns_bind. exists ch. split; [done|]. apply returns_bind. exists rl. split; [done|]. apply returns_ret.
Qed.

(** ** Serving *)
Abbreviation srv := (@server _ W HostStore AgentStore JtiCache ApprovalStore SnapshotStore MeteringStore MeteringStorage DelegationStorage).
Implicit Types (s : srv) (i : bearer_in).

(** The states of a server that has answered any requests. *)
Inductive serving s : @served _ W → Prop :=
| serving_start w : serving s (sv_oauth2 s, w)
| serving_request i routes request st : serving s st → serving s (fst (serve s i routes request st)).

(** A middleware with the settings of [m0]. *)
Definition settings_of (m0 : option OAuth2Middleware) (m : option OAuth2Middleware) : Prop :=
  match m0 with None => m = None | Some m0 => ∃ v, m = Some (set_validator v m0) end.

Lemma settings_refl m : settings_of m m.
Proof. destruct m as [m|]; [|done]. exists (mw_validator m). by destruct m. Qed.

Lemma oauth2_layer_settings i (call_next : option OAuth2Claims → HttpRequest → @served _ W → @served _ W * res exn HttpResponse) request m0 m w :
  settings_of m0 m → (∀ c st, fst (fst (call_next c request st)) = fst st) →
  settings_of m0 (fst (fst (oauth2_layer i call_next request (m, w)))).
Proof.
  intros Hm Hn. unfold oauth2_layer. destruct m as [m|]; [|by rewrite Hn].
  destruct m0 as [m0|]; [|done]. destruct Hm as [v [= ->]].
  destruct (dispatch_settings i (hq_path request) (header "authorization" request) (set_validator v m0)) as (v' & Hv & _).
  destruct (oauth_dispatch _ _ _ _) as [m' r]. cbn in Hv. subst m'.
  exists v'. destruct r as [[]|c]; cbn; [done..|]. by rewrite Hn.
Qed.

Lemma size_routes_settings max routes c request (st : @served _ W) :
  fst (fst (size_limit max (run_routes routes c) request st)) = fst st.
Proof.
  unfold size_limit. destruct (announced_too_large max request); [done|]. destruct st as [m w]. unfold run_routes.
  by destruct (routes c request w).
Qed.

Lemma challenge_state c call_next request (st : @served _ W) :
  fst (challenge_layer c call_next request st) = fst (call_next request st).
Proof. destruct c; [|done]. cbn. unfold dispatch. by destruct (call_next request st). Qed.

Lemma serve_settings s i routes request m0 m w :
  settings_of m0 m → settings_of m0 (fst (fst (serve s i routes request (m, w)))).
Proof.
  intros Hm. unfold serve. destruct (size_limit_init _) as [e|max]; [done|]. rewrite challenge_state. unfold asap_version.
  destruct (negotiate request); [done|].
  pose proof (oauth2_layer_settings i (λ c, size_limit max (run_routes routes c)) request m0 m w Hm
    (λ c st, size_routes_settings max routes c request st)) as Hl.
  by destruct (oauth2_layer _ _ _ _) as [[m1 w1] r].
Qed.

Lemma serving_settings s st : serving s st → settings_of (sv_oauth2 s) (fst st).
Proof.
  induction 1 as [w|i routes request [m w] _ IH]; [apply settings_refl|]. by apply serve_settings.
Qed.

Lemma create_app_parts env cpu f cfg s : build env cpu f cfg = Ret s →
  sv_oauth2 s = (λ c, wire_oauth2 (se_auth env) loads c (m_id (ac_manifest cfg)) (ac_require_operator_auth cfg)) <$> ac_oauth2_config cfg ∧
  sv_routers s = (_wire_optional_routers cfg ++ _wire_core_routes cfg)%list ∧
  (ac_require_operator_auth cfg = true → is_Some (ac_oauth2_config cfg)) ∧
  make_challenge urlparse cfg = Ret (sv_challenge s).
Proof.
  intros Hb. unfold create_app in Hb.
  destruct (if _ && _ then _ else _) as [|[]] eqn:Ho; [done|]. cbn [rbind] in Hb.
  destruct (_build_server_components _ _ _ _ _) as [|c]; [done|]. cbn [rbind] in Hb.
  destruct (create_limiter _) as [|[]]; [done|]. cbn [rbind] in Hb.
  destruct (make_challenge _ _) as [|ch] eqn:Hch; [done|]. cbn [rbind] in Hb.
  destruct (_configure_rate_limiting _ _ _) as [|rl]; [done|]. injection Hb as <-. split_and!; [done..| |done].
  intros Hop. rewrite Hop in Ho. destruct (ac_oauth2_config cfg); [by eexists|done].
Qed.

Lemma prefix_cons c p x : String.prefix (String c p) x = true → ∃ x', x = String c x' ∧ String.prefix p x' = true.
Proof. destruct x as [|d x]; cbn; [done|]. destruct (ascii_dec c d) as [->|]; [|done]. intros ?. by exists x. Qed.

(** An operator path is not one of the agent routes. *)
Lemma operator_path_not_agent prefix path : prefix ∈ OPERATOR_API_PATH_PREFIXES → path_under_prefix path prefix = true →
  PyStr.startswith path AGENT_IDENTITY_ROUTE_PREFIX = false.
Proof.
  intros Hp Hu. apply not_true_is_false. intros Ha. unfold PyStr.startswith, AGENT_IDENTITY_ROUTE_PREFIX in Ha.
  apply prefix_cons in Ha as (p1 & -> & Ha). apply prefix_cons in Ha as (p2 & -> & Ha). apply prefix_cons in Ha as (p3 & -> & _).
  unfold OPERATOR_API_PATH_PREFIXES in Hp. rewrite !elem_of_cons in Hp.
  destruct Hp as [-> | [-> | [-> | []%elem_of_nil]]]; done.
Qed.

Lemma operator_path_validated env cpu f cfg s m prefix path :
  build env cpu f cfg = Ret s → ac_require_operator_auth cfg = true → settings_of (sv_oauth2 s) m →
  prefix ∈ OPERATOR_API_PATH_PREFIXES → path_under_prefix path prefix = true →
  ∃ mw, m = Some mw ∧ _should_validate mw path = true.
Proof.
  intros (Ho & _ & Hop & _)%create_app_parts Hr Hm Hp Hu. destruct (Hop Hr) as [oc Hoc]. rewrite Hoc in Ho. cbn in Ho.
  rewrite Ho in Hm. destruct Hm as [v ->]. eexists. split; [done|]. unfold _should_validate.
  rewrite (operator_path_not_agent prefix) by done. unfold wire_oauth2, new_middleware, set_validator. rewrite Hr. cbn [mw_path_prefix mw_extra_path_prefixes].
  destruct (oa_path_prefix oc); [|done]. apply orb_true_iff. right. apply existsb_exists. exists prefix. split; [|done].
  by apply list_elem_of_In.
Qed.

Definition guarded (r : router) : Prop :=
  match r with Usage b | Sla b | Audit b => b = true | _ => True end.

Lemma routers_guarded cfg : ac_require_operator_auth cfg = true →
  Forall guarded (_wire_optional_routers cfg ++ _wire_core_routes cfg)%list.
Proof.
  intros Hr. unfold _wire_optional_routers, _wire_core_routes. rewrite Hr, !Forall_app.
  split_and!; repeat case_match; by repeat constructor.
Qed.

(** On a validated path, the layers under the challenge do not run the routes
    unless the token is verified. *)
Lemma unverified_stops i max request mw (w : W) : _should_validate mw (hq_path request) = true →
  (∃ c token ks claims, verified i mw (hq_path request) (header "authorization" request) c token ks claims) ∨
  ∃ mw' reply, ∀ routes,
    asap_version (oauth2_layer i (λ claims, size_limit max (run_routes routes claims))) request (Some mw, w) = ((mw', w), reply).
Proof.
  intros Hv. unfold asap_version, oauth2_layer. destruct (negotiate request); [right; by eexists _, _|].
  destruct (oauth_dispatch i (hq_path request) (header "authorization" request) mw) as [mw' r] eqn:Hd.
  destruct r as [[e|e]|claims]; [right; by eexists _, _..|]. left.
  destruct claims as [c|]; [by apply dispatch_verified in Hd as (token & ks & cl & Hver); exists c, token, ks, cl|].
  unfold oauth_dispatch in Hd. rewrite Hv in Hd. cbn [negb] in Hd.
  destruct (_get_bearer_token (header "authorization" request)); [|done]. by bind_inv Hd as (? & ? & _ & ?).
Qed.

(** C36: with operator authentication on, a server at any time of its life
    serves an operator path (usage, SLA, audit) to verified tokens only: every
    operator router it mounts demands the admin scope, and a request for such a
    path whose bearer token is not verified by the middleware never reaches a
    route, which neither changes the state nor determines the reply. *)
Theorem operator_surface_is_guarded (env : server_env) (cpu_count : Z) (f : bool) (cfg : config) (s : srv)
    (m : option OAuth2Middleware) (w : W) (i : bearer_in) (request : HttpRequest) (prefix : string) :
  build env cpu_count f cfg = Ret s → ac_require_operator_auth cfg = true → serving s (m, w) →
  prefix ∈ OPERATOR_API_PATH_PREFIXES → path_under_prefix (hq_path request) prefix = true →
  (∀ r b, r ∈ sv_routers s → r = Usage b ∨ r = Sla b ∨ r = Audit b → b = true) ∧
  ∃ mw, m = Some mw ∧
    ((∃ c token ks claims, verified i mw (hq_path request) (header "authorization" request) c token ks claims) ∨
     ∃ mw' reply, ∀ routes, serve s i routes request (m, w) = ((mw', w), reply)).
Proof.
  intros Hb Hr Hs Hp Hu. apply serving_settings in Hs. cbn [fst] in Hs.
  destruct (operator_path_validated _ _ _ _ _ _ _ _ Hb Hr Hs Hp Hu) as (mw & -> & Hv). split.
  - apply create_app_parts in Hb as (_ & Hrt & _). pose proof (routers_guarded cfg Hr) as Hg. rewrite <- Hrt in Hg.
    intros r b Hin Hb'. pose proof (proj1 (Forall_forall _ _) Hg r Hin) as Hx. destruct Hb' as [-> | [-> | ->]]; exact Hx.
  - exists mw. split; [done|]. unfold serve. destruct (size_limit_init _) as [e|max]; [right; by eexists _, _|].
    destruct (unverified_stops i max request mw w Hv) as [Hver|(mw' & reply & Hst)]; [by left|right].
    unfold challenge_layer. destruct (sv_challenge s) as [ch|]; [|by exists mw', reply].
    unfold dispatch. eexists _, _. intros routes. by rewrite Hst.
Qed.

(** Reloading the handlers gives the server a default registry without the
    metering it was built with, while the thread pool is carried over. *)
Theorem hot_reload_drops_metering (env : server_env) (cpu_count : Z) (f : bool) (cfg : config) (s : srv) (m : metering) :
  build env cpu_count f cfg = Ret s → ac_registry cfg = None → effective_metering_store cfg = Some m →
  let h := sc_registry_holder (sv_components s) in
  let h' := on_change (Some (create_default_registry echo_handler None)) h in
  rg_metering (rh_registry h) = Some m ∧ rg_metering (rh_registry h') = None ∧
  rg_executor (rh_registry h') = rg_executor (rh_registry h).
Proof.
  intros Hb Hn Hm. unfold create_app in Hb. destruct (if _ && _ then _ else _) as [|[]]; [done|]. cbn [rbind] in Hb.
  destruct (_build_server_components _ _ _ _ _) as [|c] eqn:Hc; [done|]. cbn [rbind] in Hb.
  assert (Hs : sv_components s = c).
  { destruct (create_limiter _) as [|[]]; [done|]. cbn [rbind] in Hb. destruct (make_challenge _ _) as [|ch]; [done|]. cbn [rbind] in Hb.
    destruct (_configure_rate_limiting _ _ _) as [|rl]; [done|]. by injection Hb as <-. }
  rewrite Hs. clear Hb Hs. unfold _build_server_components in Hc.
  destruct (make_executor _ _ _) as [|x]; [done|]. cbn [rbind] in Hc. destruct (make_auth _); [done|]. cbn [rbind] in Hc.
  destruct (match ac_max_request_size cfg with Some _ => _ | None => _ end); [done|]. cbn [rbind] in Hc.
  destruct (_resolve_identity_stores _ _); [done|]. cbn [rbind] in Hc.
  destruct (match ac_snapshot_store cfg with Some _ => _ | None => _ end); [done|]. injection Hc as <-. cbn.
  unfold resolve_registry. rewrite Hn, Hm. by destruct x.
Qed.

(** Every connection is closed at shutdown when closing fails with `OSError` at
    most. *)
Lemma shutdown_closes_all {WS} (close : WS → close_result) (active : list WS) :
  (∀ ws e, ws ∈ active → close ws ≠ OtherRaised e) → lifespan_close close active = (active, None).
Proof.
  induction active as [|ws active IH]; intros Hc; cbn; [done|].
  rewrite IH by (intros ws' e Hin; apply Hc; by right).
  destruct (close ws) eqn:E; [done..|]. destruct (Hc ws e ltac:(by left) E).
Qed.

End ServerFacts.

(** ** Examples *)
Section Examples.
#[local] Instance server_demo_py : PyRuntime := {| float_repr := λ _, "0.0"; float_of_str := λ _, None |}.
#[local] Instance server_demo_serializer : Serializer := {| render_error := λ _ _, None |}.
#[local] Existing Instance demo_jose.

Definition server_demo_env : server_env := mkServerEnv None None None None None None demo_env.
Definition server_demo_parse (s : string) : res pyexn origin := Ret (mkOrigin "https" "agent.example").
Definition server_demo_echo : Handler nat :=
  mkHandler true (Some ["envelope"; "manifest"]) false (λ e _ w, (w, Ret (Now e))).

Definition server_demo_config : @app_config nat unit unit unit unit unit nat nat unit unit unit unit :=
  mkAppConfig (mkManifest "urn:asap:agent:server" None) "https://agent.example/asap" None None (Some demo_config) None None
    (Some 4) false None None None (Some (Some 7%nat)) None None None None None None None None None None false true None
    (Some ["/asap/capability"; "/asap/agent"]) true.

Definition server_demo : res pyexn (@server demo_jose nat unit unit unit unit unit nat nat unit) :=
  create_app server_demo_parse (λ _, None) (λ _, Ret tt) server_demo_echo server_demo_env 8 true server_demo_config.

Example unauthenticated_operator_request :
  match server_demo with
  | Ret s =>
      snd (serve s demo_bearer (λ _ _ w, (S w, Ret (mkHttpResponse 200 (JsonBody JNull) [])))
             (mkHttpRequest "GET" "/usage/stats" [] None None []) (sv_oauth2 s, 0%nat))
      = Ret (mkHttpResponse 401 (JsonBody (JObj [("detail", JStr "Authentication required")]))
               [("WWW-Authenticate", "Bearer"); ("ASAP-Version", "2.2")])
  | Raise _ => False
  end.
Proof. vm_compute. reflexivity. Qed.

Lemma operator_surface_is_guarded_witness : ∃ s, server_demo = Ret s ∧
  (∀ r b, r ∈ sv_routers s → r = Usage b ∨ r = Sla b ∨ r = Audit b → b = true).
Proof.
  destruct server_demo as [e|s] eqn:Hs; [discriminate Hs|]. exists s. split; [reflexivity|].
  exact (proj1 (operator_surface_is_guarded server_demo_parse (λ _, None) (λ _, Ret tt) server_demo_echo
    server_demo_env 8 true server_demo_config s (sv_oauth2 s) 0%nat demo_bearer
    (mkHttpRequest "GET" "/usage/stats" [] None None []) "/usage" Hs eq_refl (serving_start s 0%nat)
    ltac:(left) eq_refl)).
Defined.

Lemma hot_reload_drops_metering_witness : ∃ s, server_demo = Ret s ∧
  rg_metering (rh_registry (sc_registry_holder (sv_components s))) = Some (MeteringStorageBridge 7%nat) ∧
  rg_metering (rh_registry (on_change (Some (create_default_registry server_demo_echo None)) (sc_registry_holder (sv_components s)))) = None.
Proof.
  destruct server_demo as [e|s] eqn:Hs; [discriminate Hs|]. exists s. split; [reflexivity|].
  destruct (hot_reload_drops_metering server_demo_parse (λ _, None) (λ _, Ret tt) server_demo_echo server_demo_env 8 true
    server_demo_config s (MeteringStorageBridge 7%nat) Hs eq_refl eq_refl) as (H1 & H2 & _).
  split; [exact H1|exact H2].
Defined.

Lemma shutdown_closes_all_witness :
  lifespan_close (λ n : nat, if (n =? 1)%nat then OSErrorRaised else Closed) [0; 1; 2]%nat = ([0; 1; 2]%nat, None).
Proof. apply shutdown_closes_all. intros ws e _. destruct (ws =? 1)%nat; discriminate. Defined.
End Examples.
