(* ===== verification/McpServer.v ===== *)
(** * The MCP server and its auth bridge

    `src/src/asap/mcp/server.py`, `mcp/protocol.py` and `mcp/auth/`: tools, the
    dispatch of JSON-RPC requests, the loop over standard input, and the server
    that demands an Agent JWT and a grant before it runs a tool.

    The producer and the consumer of the loop share a first-in-first-out queue and
    only the consumer acts, so a run is the consumer over the lines.  Parameters:
    `json.loads`, `jsonschema.validate`, the texts of Pydantic's errors, the ids
    Pydantic accepts and the tools.  A reply is represented by its parts, before
    it is rendered; log lines are left out. *)

From Stdlib Require Import ZArith QArith Lia Ascii String.
From stdpp Require Import base tactics list gmap strings.
From S2P Require Import Prelude PyValue Digest Identity ReplayGuard EnvelopeGuard Capabilities AgentJwt JsonRpc.
Open Scope string_scope.
Open Scope Z_scope.
Open Scope asap_scope.

(** ** Protocol *)
Definition MCP_PROTOCOL_VERSION : string := "2025-11-25".
Definition MCP_PARSE_ERROR : Z := -32700.
Definition MCP_METHOD_NOT_FOUND : Z := -32601.
Definition MCP_INVALID_PARAMS : Z := -32602.
Definition MCP_INTERNAL_ERROR : Z := -32603.
Definition _INTERNAL_TOOL_ERROR_MESSAGE : string := "Internal tool error".
Definition EMPTY_INPUT_SCHEMA : obj := [("type", JStr "object"); ("additionalProperties", JBool false)].

(** What Pydantic makes of an `id: str | int`; booleans and floats are left to it. *)
Class McpIds : Type := {
  lax_id : json → option rpc_id;
  lax_id_str : ∀ s, lax_id (JStr s) = Some (IdStr s);
  lax_id_int : ∀ z, lax_id (JInt z) = Some (IdInt z);
  lax_id_null : lax_id JNull = None;
  lax_id_list : ∀ l, lax_id (JList l) = None;
  lax_id_obj : ∀ d, lax_id (JObj d) = None
}.

(** `id: str | int | None` *)
Definition error_id `{McpIds} (j : json) : option (option rpc_id) :=
  match j with JNull => Some None | _ => Some <$> lax_id j end.

Record JSONRPCRequest : Type := mkMcpRequest { mr_id : rpc_id; mr_method : string; mr_params : option obj }.

(** `dict | None` with default None *)
Definition optional_dict (o : option json) : option (option obj) :=
  match o with
  | None | Some JNull => Some None
  | Some (JObj d) => Some (Some d)
  | Some _ => None
  end.

Definition version_ok (o : option json) : bool :=
  match o with None => true | Some (JStr s) => String.eqb s "2.0" | Some _ => false end.

Definition parse_mcp_request `{McpIds} (raw : obj) : option JSONRPCRequest :=
  if negb (version_ok (assoc "jsonrpc" raw)) then None
  else
    match lax_id (j_get "id" raw), assoc "method" raw, optional_dict (assoc "params" raw) with
    | Some id, Some (JStr m), Some params => Some (mkMcpRequest id m params)
    | _, _, _ => None
    end.

Record CallToolRequestParams : Type := mkCallParams {
  cp_name : string;
  cp_arguments : obj;
  cp_meta : option obj
}.

(** `_meta` is the alias of `meta`, which is accepted by its name too. *)
Definition parse_call_params (params : obj) : option CallToolRequestParams :=
  let meta := match assoc "_meta" params with Some v => Some v | None => assoc "meta" params end in
  match assoc "name" params, assoc "arguments" params, optional_dict meta with
  | Some (JStr n), None, Some m => Some (mkCallParams n [] m)
  | Some (JStr n), Some (JObj a), Some m => Some (mkCallParams n a m)
  | _, _, _ => None
  end.

(** ** Tools *)

(** How a call of a tool ends. *)
Inductive tool_out : Type :=
| OutStr (s : string)
| OutDict (d : obj)
| OutOther (text : string)             (* `str(out)` *)
| ToolTypeError (msg : string)
| ToolRaises (msg : string).           (* any other exception *)

Inductive schema_check : Type :=
| SchemaOk
| SchemaRefuses (msg : string)         (* jsonschema.ValidationError *)
| SchemaRaises (e : pyexn).

Record CallToolResult : Type := mkCallResult { ct_text : string; ct_is_error : bool }.

(** ** The bridge: configuration and helpers *)
Definition AUTH_REQUIRED : string := "asap:auth_required".
Definition INVALID_TOKEN : string := "asap:invalid_token".
Definition CAPABILITY_DENIED : string := "asap:capability_denied".
Definition CONSTRAINT_VIOLATION : string := "asap:constraint_violation".
Definition _META_JWT_KEY : string := "asap_agent_jwt".

Definition tool_error_result (code : string) (detail : option string) : CallToolResult :=
  mkCallResult (match detail with None => code | Some d => code ++ ": " ++ d end) true.

Record MCPAuthConfig : Type := mkMcpAuth {
  au_tool_capability_map : list (string * string);
  au_public_tools : list string;
  au_enforce_grants : bool;
  au_validate_tools_at_startup : bool;
  au_jwt_extractor : option (CallToolRequestParams → option string);
  au_allow_env_jwt_fallback : bool;
  au_expected_audience : option (list string)
}.

(** A text that is not blank, stripped. *)
Definition stripped_text (o : option json) : option string :=
  match o with Some (JStr s) => if PyStr.nonblank s then Some (PyStr.strip s) else None | _ => None end.

(** [env]: `ASAP_AGENT_JWT` *)
Definition default_jwt_extractor (env : option string) (params : CallToolRequestParams) (allow_env_fallback : bool) :
    option string :=
  match stripped_text (assoc _META_JWT_KEY (default [] (cp_meta params))) with
  | Some t => Some t
  | None => if negb allow_env_fallback then None else stripped_text (JStr <$> env)
  end.

Definition resolve_jwt_extractor (env : option string) (config : MCPAuthConfig) : CallToolRequestParams → option string :=
  match au_jwt_extractor config with
  | Some f => f
  | None => λ params, default_jwt_extractor env params (au_allow_env_jwt_fallback config)
  end.

(** `if not token` *)
Definition non_empty (o : option string) : option string :=
  match o with Some s => if PyStr.truthy s then Some s else None | None => None end.

Definition format_constraint_violations (violations : list ConstraintViolation) : string :=
  joined "; " (map v_message violations).

(** ** The server *)
Section Mcp.
  Context `{PyRuntime, Jose, McpIds} {C : Type} `{JtiGuard C} {W : Type}.
  Context (loads : string → option json).
  Context (validate_schema : obj → obj → schema_check).
  (** the text of Pydantic's error about a message *)
  Context (pd_text : obj → string).
  Context (debug_mode : bool) (env_jwt : option string).

Record tool : Type := mkTool {
  tl_name : string;
  tl_handler : obj → W → W * tool_out;
  tl_schema : obj;
  tl_description : string;
  tl_title : option string;
  tl_capability : option string
}.

Record Implementation : Type := mkImpl {
  im_name : string;
  im_version : string;
  im_title : option string;
  im_description : option string
}.

(** [mc_auth]: the configuration of a `ProtectedMCPServer`. *)
Record MCPServer : Type := mkMcp {
  mc_server_info : Implementation;
  mc_instructions : option string;
  mc_tools : list (string * tool);
  mc_auth : option MCPAuthConfig
}.

Definition new_mcp (name version : string) (title description instructions : option string) : MCPServer :=
  mkMcp (mkImpl name version (Some (match title with
                                    | Some t => if PyStr.truthy t then t else name
                                    | None => name
                                    end)) description) instructions [] None.

Definition get_tool_capability (name : string) (s : MCPServer) : option string :=
  match PyDict.get name (mc_tools s) with Some t => tl_capability t | None => None end.

Definition add_tool (name : string) (func : obj → W → W * tool_out) (schema : obj) (description : string)
    (title capability : option string) (s : MCPServer) : MCPServer :=
  let input_schema := match schema with [] => EMPTY_INPUT_SCHEMA | _ => schema end in
  let description := if PyStr.truthy description then description else "Tool " ++ name in
  mkMcp (mc_server_info s) (mc_instructions s)
    (PyDict.set name (mkTool name func input_schema description title capability) (mc_tools s)) (mc_auth s).

Definition resolve_capability (tool_name : string) (config : MCPAuthConfig) (s : MCPServer) : string :=
  match PyDict.get tool_name (au_tool_capability_map config) with
  | Some c => c
  | None => default tool_name (get_tool_capability tool_name s)
  end.

Definition _validate_tool_at_startup (registry : CapabilityRegistry.t) (config : MCPAuthConfig) (s : MCPServer)
    (tool_name : string) : res pyexn unit :=
  let capability := resolve_capability tool_name config s in
  if negb (PyStr.nonblank capability) then
    Raise (ValueError ("Tool " ++ repr_str tool_name ++ " resolves to empty capability name; "
                       ++ "set tool_capability_map or register-time capability metadata"))
  else
    match CapabilityRegistry.describe capability registry with
    | None => Raise (ValueError ("Tool " ++ repr_str tool_name ++ " resolves to unknown capability "
                                 ++ repr_str capability ++ " (not registered; describe returned None)"))
    | Some _ => Ret tt
    end.

Fixpoint _validate_tools_at_startup (registry : CapabilityRegistry.t) (config : MCPAuthConfig) (s : MCPServer)
    (names : list string) : res pyexn unit :=
  match names with
  | [] => Ret tt
  | n :: names' =>
      let! _ := _validate_tool_at_startup registry config s n in
      _validate_tools_at_startup registry config s names'
  end.

(** `register_tool`: of the plain server, or of the protected one, which checks
    the tool it has just added. *)
Definition register_tool (registry : CapabilityRegistry.t) (name : string) (func : obj → W → W * tool_out) (schema : obj)
    (description : string) (title capability : option string) : ST MCPServer pyexn unit := λ s,
  let s' := add_tool name func schema description title capability s in
  (s', match mc_auth s' with
       | Some config => if au_validate_tools_at_startup config then _validate_tool_at_startup registry config s' name else Ret tt
       | None => Ret tt
       end).

(** `ProtectedMCPServer.from_server` *)
Definition protect_server (registry : CapabilityRegistry.t) (s : MCPServer) (config : MCPAuthConfig) : res pyexn MCPServer :=
  let protected := mkMcp (mc_server_info s) (mc_instructions s) (mc_tools s) (Some config) in
  let! _ := if au_validate_tools_at_startup config
            then _validate_tools_at_startup registry config protected (PyDict.keys (mc_tools s)) else Ret tt in
  Ret protected.

(** ** Calling tools

    [mx_calls] lists the calls of tool handlers, latest last. *)
Record mcp_state : Type := mkMcpState {
  mx_world : world C;
  mx_registry : CapabilityRegistry.t;
  mx_app : W;
  mx_calls : list (string * obj)
}.

(** What other tasks did to the grants before one message and do to the stores
    during its verification, and its clocks. *)
Record mcp_in : Type := mkMcpIn {
  mi_others : CapabilityRegistry.t → CapabilityRegistry.t;
  mi_il : interleaving C;
  mi_clock : clock;
  mi_now : Z
}.

Definition by_others (i : mcp_in) (st : mcp_state) : mcp_state :=
  mkMcpState (mx_world st) (mi_others i (mx_registry st)) (mx_app st) (mx_calls st).

Abbreviation H_ := (ST mcp_state pyexn).

Definition parsed_params (params : obj) : H_ CallToolRequestParams :=
  match parse_call_params params with
  | Some p => st_ret p
  | None => st_stop (ValueError ("Invalid params: " ++ pd_text params))
  end.

Definition run_tool (t : tool) (name : string) (arguments : obj) : H_ CallToolResult := λ st,
  let '(w, out) := tl_handler t arguments (mx_app st) in
  (mkMcpState (mx_world st) (mx_registry st) w (mx_calls st ++ [(name, arguments)])%list,
   match out with
   | OutStr s => Ret (mkCallResult s false)
   | OutDict d => Ret (mkCallResult (json_dumps float_repr ", " ": " false (JObj d)) false)
   | OutOther text => Ret (mkCallResult text false)
   | ToolTypeError m => Raise (ValueError ("Tool argument mismatch: " ++ m))
   | ToolRaises m => Ret (mkCallResult (if debug_mode then m else _INTERNAL_TOOL_ERROR_MESSAGE) true)
   end).

(** `MCPServer._handle_tools_call` *)
Definition base_tools_call (s : MCPServer) (params : obj) : H_ CallToolResult :=
  do! parsed <- parsed_params params in
  match PyDict.get (cp_name parsed) (mc_tools s) with
  | None => st_ret (mkCallResult ("Unknown tool: " ++ cp_name parsed) true)
  | Some t =>
      match validate_schema (tl_schema t) (cp_arguments parsed) with
      | SchemaRefuses m => st_stop (ValueError ("Invalid arguments: " ++ m))
      | SchemaRaises e => st_stop e
      | SchemaOk => run_tool t (cp_name parsed) (cp_arguments parsed)
      end
  end.

(** The error result of the grant check, [None] when the call is granted. *)
Definition _check_capability_grant (now : Z) (s : MCPServer) (config : MCPAuthConfig) (parsed : CallToolRequestParams)
    (verify_result : JwtVerifyResult) : H_ (option CallToolResult) :=
  let capability := resolve_capability (cp_name parsed) config s in
  if negb (str_in capability (vr_capabilities verify_result)) then
    st_ret (Some (tool_error_result CAPABILITY_DENIED
                    (Some ("JWT capabilities claim does not include " ++ repr_str capability))))
  else
    match vr_agent verify_result with
    | None => st_ret (Some (tool_error_result CAPABILITY_DENIED (Some "missing agent identity for grant check")))
    | Some agent =>
        do! registry <- st_gets mx_registry in
        do! grant_result <- st_lift (CapabilityRegistry.check_grant now (a_agent_id agent) capability
                                       (Some (cp_arguments parsed)) registry) in
        st_ret (if gc_allowed grant_result then None
                else match gc_violations grant_result with
                     | [] => Some (tool_error_result CAPABILITY_DENIED
                                     (Some ("no active grant for capability " ++ repr_str capability)))
                     | vs => Some (tool_error_result CONSTRAINT_VIOLATION (Some (format_constraint_violations vs)))
                     end)
    end.

Definition verify_call (i : mcp_in) (config : MCPAuthConfig) (token : string) : H_ JwtVerifyResult := λ st,
  let '(w, r) := verify_agent_jwt (mi_il i) (mi_clock i) token (au_expected_audience config) (mx_world st) in
  (mkMcpState w (mx_registry st) (mx_app st) (mx_calls st), r).

(** `ProtectedMCPServer._handle_tools_call` *)
Definition protected_tools_call (i : mcp_in) (s : MCPServer) (config : MCPAuthConfig) (params : obj) : H_ CallToolResult :=
  do! parsed <- parsed_params params in
  if str_in (cp_name parsed) (au_public_tools config) then base_tools_call s params
  else
    match non_empty (resolve_jwt_extractor env_jwt config parsed) with
    | None => st_ret (tool_error_result AUTH_REQUIRED None)
    | Some token =>
        do! verify_result <- verify_call i config token in
        if negb (vr_ok verify_result) then st_ret (tool_error_result INVALID_TOKEN (vr_error verify_result))
        else
          do! grant_error <- (if au_enforce_grants config
                              then _check_capability_grant (mi_now i) s config parsed verify_result
                              else st_ret None) in
          match grant_error with
          | Some e => st_ret e
          | None => base_tools_call s params
          end
    end.

Definition _handle_tools_call (i : mcp_in) (s : MCPServer) (params : obj) : H_ CallToolResult :=
  match mc_auth s with
  | Some config => protected_tools_call i s config params
  | None => base_tools_call s params
  end.

(** ** Dispatch *)
Inductive mcp_result : Type :=
| RInitialize (version : string) (tools : bool) (info : Implementation) (instructions : option string)
| RTools (tools : list (string * string * obj * option string))
| RCall (r : CallToolResult)
| RPing.

Inductive mcp_line : Type :=
| Result (id : rpc_id) (r : mcp_result)
| ErrorLine (id : option rpc_id) (code : Z) (message : string)
| Echoed (raw : obj).

Definition _handle_initialize (s : MCPServer) : mcp_result :=
  RInitialize MCP_PROTOCOL_VERSION (match mc_tools s with [] => false | _ => true end) (mc_server_info s) (mc_instructions s).

Definition _handle_tools_list (s : MCPServer) : mcp_result :=
  RTools (map (λ kt, (tl_name kt.2, tl_description kt.2, tl_schema kt.2, tl_title kt.2)) (mc_tools s)).

Definition exn_text (e : pyexn) : string :=
  match e with
  | TypeError m | ValueError m | KeyError m | AttributeError m | RuntimeError m | OverflowError m | ValidationError m => m
  end.

(** Pydantic's errors are `ValueError`s. *)
Definition is_value_error (e : pyexn) : bool := match e with ValueError _ | ValidationError _ => true | _ => false end.

Definition _dispatch_request (i : mcp_in) (s : MCPServer) (req : JSONRPCRequest) : H_ mcp_line :=
  let params := default [] (mr_params req) in
  let rid := mr_id req in
  if String.eqb (mr_method req) "initialize" then st_ret (Result rid (_handle_initialize s))
  else if String.eqb (mr_method req) "tools/list" then st_ret (Result rid (_handle_tools_list s))
  else if String.eqb (mr_method req) "tools/call" then λ st,
    let '(st, r) := _handle_tools_call i s params st in
    (st, match r with
         | Ret result => Ret (Result rid (RCall result))
         | Raise e => if is_value_error e then Ret (ErrorLine (Some rid) MCP_INVALID_PARAMS (exn_text e)) else Raise e
         end)
  else if String.eqb (mr_method req) "ping" then st_ret (Result rid RPing)
  else st_ret (ErrorLine (Some rid) MCP_METHOD_NOT_FOUND ("Method not found: " ++ mr_method req)).

(** ** The loop *)

(** `line.rstrip("\n\r")` *)
Definition newline : ascii := ascii_of_nat 10.
Definition carriage : ascii := ascii_of_nat 13.
Fixpoint rstrip_newlines (s : string) : string :=
  match s with
  | EmptyString => EmptyString
  | String c s' =>
      match rstrip_newlines s' with
      | EmptyString => if Ascii.eqb c newline || Ascii.eqb c carriage then EmptyString else String c EmptyString
      | s'' => String c s''
      end
  end.

Definition parse_error_message : obj :=
  [("jsonrpc", JStr "2.0"); ("id", JNull);
   ("error", JObj [("code", JInt MCP_PARSE_ERROR); ("message", JStr "Parse error")])].

(** [None] ends the loop. *)
Definition read_stdin (line : string) : option obj :=
  let line := rstrip_newlines line in
  if PyStr.truthy line then
    match loads line with
    | Some (JObj d) => Some d
    | _ => Some parse_error_message
    end
  else None.

(** `raw.get("error", {}).get("code") == PARSE_ERROR` *)
Definition is_parse_error (raw : obj) : res pyexn bool :=
  match default (JObj []) (assoc "error" raw) with
  | JObj e => Ret (py_eq (j_get "code" e) (JInt MCP_PARSE_ERROR))
  | v => Raise (AttributeError ("'" ++ type_name v ++ "' object has no attribute 'get'"))
  end.

Definition expects_reply (raw : obj) : bool := is_some (assoc "id" raw) && j_truthy (j_get "method" raw).

(** The reply to a request; what is raised on the way is answered too, under the
    id of the message, which may itself be refused. *)
Definition answer_request (i : mcp_in) (s : MCPServer) (raw : obj) : H_ mcp_line := λ st,
  let '(st, r) := match parse_mcp_request raw with
                  | Some req => _dispatch_request i s req st
                  | None => (st, Raise (ValidationError (pd_text raw)))
                  end in
  match r with
  | Ret line => (st, Ret line)
  | Raise e =>
      (st, match error_id (j_get "id" raw) with
           | Some rid => Ret (ErrorLine rid MCP_INTERNAL_ERROR (exn_text e))
           | None => Raise (ValidationError (pd_text raw))
           end)
  end.

(** One message; notifications are only logged. *)
Definition handle_raw (i : mcp_in) (s : MCPServer) (raw : obj) : H_ (option mcp_line) :=
  do! parse_error <- st_lift (if is_some (assoc "method" raw) then Ret false else is_parse_error raw) in
  if (parse_error : bool) then st_ret (Some (Echoed raw))
  else if expects_reply raw then do! line <- answer_request i s raw in st_ret (Some line)
  else st_ret None.

(** The lines written, and the exception that ended the server, if any. *)
Fixpoint serve_stdio (s : MCPServer) (lines : list (mcp_in * string)) (st : mcp_state) :
    mcp_state * list mcp_line * option pyexn :=
  match lines with
  | [] => (st, [], None)
  | (i, line) :: lines' =>
      match read_stdin line with
      | None => (st, [], None)
      | Some raw =>
          match handle_raw i s raw (by_others i st) with
          | (st, Raise e) => (st, [], Some e)
          | (st, Ret o) =>
              let '(st, out, e) := serve_stdio s lines' st in
              (st, (match o with Some l => [l] | None => [] end ++ out)%list, e)
          end
      end
  end.

End Mcp.

(** ** Properties *)
Section McpFacts.
  Context `{PyRuntime, Jose, McpIds} {C : Type} `{JtiGuard C} {W : Type}.
  Context (loads : string → option json) (validate_schema : obj → obj → schema_check) (pd_text : obj → string).
  Context (debug_mode : bool) (env_jwt : option string).

Abbreviation server := (@MCPServer W).
Abbreviation state := (@mcp_state C W).
Abbreviation call_base := (base_tools_call validate_schema pd_text debug_mode).
Abbreviation call_tool := (_handle_tools_call validate_schema pd_text debug_mode env_jwt).
Abbreviation handle := (handle_raw validate_schema pd_text debug_mode env_jwt).
Abbreviation serve := (serve_stdio loads validate_schema pd_text debug_mode env_jwt).
Implicit Types (s : server) (st : state) (i : @mcp_in C).

(** What must hold for the call [p] of a protected tool in the state [st]: the token
    of the call verifies there, for an agent that is active afterwards, and, with
    grants enforced, it carries the capability of the tool and the agent holds a
    grant there that allows the arguments. *)
Definition tool_gates i s (config : MCPAuthConfig) (p : CallToolRequestParams) st : Prop :=
  ∃ token w r agent,
    resolve_jwt_extractor env_jwt config p = Some token ∧
    verify_agent_jwt (mi_il i) (mi_clock i) token (au_expected_audience config) (mx_world st) = (w, Ret r) ∧
    vr_ok r = true ∧ vr_agent r = Some agent ∧ a_status agent = StActive ∧
    (au_enforce_grants config = true →
     ∃ out, resolve_capability (cp_name p) config s ∈ vr_capabilities r ∧
       CapabilityRegistry.check_grant (mi_now i) (a_agent_id agent) (resolve_capability (cp_name p) config s)
         (Some (cp_arguments p)) (mx_registry st) = Ret out ∧ gc_allowed out = true).

(** The tool of the call is registered and its schema accepts the arguments; on a
    protected server it is also public or behind the gates. *)
Definition tool_allowed i s (p : CallToolRequestParams) st : Prop :=
  (∃ t, PyDict.get (cp_name p) (mc_tools s) = Some t ∧ validate_schema (tl_schema t) (cp_arguments p) = SchemaOk) ∧
  match mc_auth s with
  | None => True
  | Some config => cp_name p ∈ au_public_tools config ∨ tool_gates i s config p st
  end.

(** The message asks for the call [p]. *)
Definition asks_for (raw : obj) (p : CallToolRequestParams) : Prop :=
  ∃ req, parse_mcp_request raw = Some req ∧ mr_method req = "tools/call" ∧
    parse_call_params (default [] (mr_params req)) = Some p.

(** The calls an operation makes. *)
Definition makes (P : CallToolRequestParams → state → Prop) {A} (m : ST state pyexn A) : Prop :=
  ∀ st, mx_calls (fst (m st)) = mx_calls st ∨
        ∃ p, mx_calls (fst (m st)) = (mx_calls st ++ [(cp_name p, cp_arguments p)])%list ∧ P p st.

Lemma ret_bind {S R A B} (a : A) (k : A → ST S R B) : st_bind (st_ret a) k = k a.
Proof. reflexivity. Qed.

Lemma makes_none P {A} (m : ST state pyexn A) : (∀ st, mx_calls (fst (m st)) = mx_calls st) → makes P m.
Proof. intros Hm st. by left. Qed.

Lemma parsed_params_state params st : fst (parsed_params (C := C) (W := W) pd_text params st) = st.
Proof. unfold parsed_params. by destruct (parse_call_params params). Qed.

Lemma base_makes s params : makes (λ p _,
  parse_call_params params = Some p ∧
  ∃ t, PyDict.get (cp_name p) (mc_tools s) = Some t ∧ validate_schema (tl_schema t) (cp_arguments p) = SchemaOk) (call_base s params).
Proof.
  intros st. unfold base_tools_call, st_bind, parsed_params.
  destruct (parse_call_params params) as [p|] eqn:Hp; [|by left]. cbn.
  destruct (PyDict.get (cp_name p) (mc_tools s)) as [t|] eqn:Ht; [|by left].
  destruct (validate_schema (tl_schema t) (cp_arguments p)) eqn:Hv; [|by left..]. right.
  exists p. unfold run_tool. destruct (tl_handler t (cp_arguments p) (mx_app st)) as [w out].
  split; [done|]. split; [done|by exists t].
Qed.

Lemma verify_call_spec i config token st :
  let '(w, r) := verify_agent_jwt (mi_il i) (mi_clock i) token (au_expected_audience config) (mx_world st) in
  verify_call i config token st = (mkMcpState w (mx_registry st) (mx_app st) (mx_calls st), r).
Proof. unfold verify_call. by destruct (verify_agent_jwt _ _ _ _ _). Qed.

Lemma grant_check_spec now s config p r st st' o :
  _check_capability_grant (C := C) now s config p r st = (st', Ret o) →
  st' = st ∧ (o = None → ∃ agent out, vr_agent r = Some agent ∧ resolve_capability (cp_name p) config s ∈ vr_capabilities r ∧
    CapabilityRegistry.check_grant now (a_agent_id agent) (resolve_capability (cp_name p) config s)
      (Some (cp_arguments p)) (mx_registry st) = Ret out ∧ gc_allowed out = true).
Proof.
  unfold _check_capability_grant. destruct (str_in _ (vr_capabilities r)) eqn:Hc; cbn [negb]; [|by intros [= <- <-]].
  destruct (vr_agent r) as [agent|]; [|by intros [= <- <-]]. unfold st_bind, st_gets, st_lift.
  destruct (CapabilityRegistry.check_grant _ _ _ _ _) as [e|out] eqn:Hg; [done|]. intros [= <- <-]. split; [done|].
  intros Ho. exists agent, out. apply str_in_true in Hc. destruct (gc_allowed out); [done|]. by destruct (gc_violations out).
Qed.

Lemma non_empty_some o t : non_empty o = Some t → o = Some t.
Proof. unfold non_empty. intros Hn. cases_in Hn. done. Qed.

Lemma grant_check_state now s config p r st : fst (_check_capability_grant (C := C) now s config p r st) = st.
Proof.
  unfold _check_capability_grant. destruct (negb _); [done|]. destruct (vr_agent r); [|done]. unfold st_bind, st_gets, st_lift. cbn.
  by destruct (CapabilityRegistry.check_grant _ _ _ _ _).
Qed.

Lemma verified_is_active i config token st w r :
  verify_agent_jwt (mi_il i) (mi_clock i) token (au_expected_audience config) (mx_world st) = (w, Ret r) → vr_ok r = true →
  ∃ agent, vr_agent r = Some agent ∧ a_status agent = StActive.
Proof.
  intros Hv Hok. destruct (verify_agent_trace _ _ _ _ _ _ _ Hv Hok) as (claims & host & verified & session & -> & Ht).
  destruct Ht as (header & payload & sub & pk & iss & w3 & _ & _ & _ & _ & _ & _ & _ & _ & _ & _ & _ & _ & Hs).
  destruct (slide_row _ _ _ _ _ _ Hs) as (_ & Hact & _). by exists session.
Qed.

(** The calls of a protected server's handler, seen from the state it starts in. *)
Lemma protected_makes i s config params :
  makes (λ p st, parse_call_params params = Some p ∧
    (∃ t, PyDict.get (cp_name p) (mc_tools s) = Some t ∧ validate_schema (tl_schema t) (cp_arguments p) = SchemaOk) ∧
    (cp_name p ∈ au_public_tools config ∨ tool_gates i s config p st))
    (protected_tools_call validate_schema pd_text debug_mode env_jwt i s config params).
Proof.
  intros st. unfold protected_tools_call, parsed_params.
  destruct (parse_call_params params) as [p|] eqn:Hp; [|by left]. rewrite ret_bind.
  assert (Hb : ∀ st0, mx_calls (fst (call_base s params st0)) = mx_calls st0 ∨
    mx_calls (fst (call_base s params st0)) = (mx_calls st0 ++ [(cp_name p, cp_arguments p)])%list ∧
    ∃ t, PyDict.get (cp_name p) (mc_tools s) = Some t ∧ validate_schema (tl_schema t) (cp_arguments p) = SchemaOk).
  { intros st0. destruct (base_makes s params st0) as [?|(p' & Hc & Hp' & Ht)]; [by left|right].
    rewrite Hp in Hp'. injection Hp' as <-. done. }
  destruct (str_in (cp_name p) (au_public_tools config)) eqn:Hpub.
  - apply str_in_true in Hpub. destruct (Hb st) as [?|[Hc Ht]]; [by left|right]. exists p. split_and!; [done..|by left].
  - destruct (non_empty _) as [token|] eqn:Hn; [|by left]. apply non_empty_some in Hn. unfold st_bind.
    pose proof (verify_call_spec i config token st) as Hv.
    destruct (verify_agent_jwt _ _ _ _ _) as [w [e|r]] eqn:Hva; rewrite Hv; [by left|].
    destruct (vr_ok r) eqn:Hok; cbn [negb]; [|by left].
    destruct (verified_is_active _ _ _ _ _ _ Hva Hok) as (agent & Hag & Hact).
    destruct (au_enforce_grants config) eqn:He.
    + destruct (_check_capability_grant _ _ _ _ _ _) as [st1 [e|o]] eqn:Hg.
      { left. cbn. pose proof (grant_check_state (mi_now i) s config p r (mkMcpState w (mx_registry st) (mx_app st) (mx_calls st))) as Hs.
        rewrite Hg in Hs. cbn in Hs. by subst st1. }
      apply grant_check_spec in Hg as [-> Hg]. destruct o as [o|]; [by left|].
      destruct (Hb (mkMcpState w (mx_registry st) (mx_app st) (mx_calls st))) as [?|[Hc Ht]]; [by left|right].
      exists p. split_and!; [done..|]. right. exists token, w, r, agent. split_and!; [done..|]. intros _.
      destruct (Hg eq_refl) as (agent' & out & Hag' & Hcap & Hout & Hall). rewrite Hag in Hag'. injection Hag' as <-.
      exists out. done.
    + cbn [st_ret]. destruct (Hb (mkMcpState w (mx_registry st) (mx_app st) (mx_calls st))) as [?|[Hc Ht]]; [by left|right].
      exists p. split_and!; [done..|]. right. exists token, w, r, agent. split_and!; [done..|]. by rewrite He.
Qed.

Lemma call_makes i s params : makes (λ p st, parse_call_params params = Some p ∧ tool_allowed i s p st) (call_tool i s params).
Proof.
  intros st. unfold _handle_tools_call, tool_allowed. destruct (mc_auth s) as [config|].
  - apply protected_makes.
  - destruct (base_makes s params st) as [?|(p & Hc & Hp & Ht)]; [by left|right]. by exists p.
Qed.

Lemma dispatch_makes i s req :
  makes (λ p st, mr_method req = "tools/call" ∧ parse_call_params (default [] (mr_params req)) = Some p ∧ tool_allowed i s p st)
    (_dispatch_request validate_schema pd_text debug_mode env_jwt i s req).
Proof.
  unfold _dispatch_request. destruct (String.eqb _ _); [by apply makes_none|]. destruct (String.eqb _ _); [by apply makes_none|].
  destruct (String.eqb_spec (mr_method req) "tools/call") as [Hm|_]; [|destruct (String.eqb _ _); by apply makes_none].
  intros st. pose proof (call_makes i s (default [] (mr_params req)) st) as Hc.
  destruct (_handle_tools_call _ _ _ _ _ _ _ _); cbn [fst] in *.
  destruct Hc as [?|(p & Hc & Hp & Ha)]; [by left|right; by exists p].
Qed.

Lemma handle_makes i s raw : makes (λ p st, asks_for raw p ∧ tool_allowed i s p st) (handle i s raw).
Proof.
  intros st. unfold handle_raw, st_bind at 1, st_lift.
  destruct (if is_some _ then _ else _) as [|[]]; [by left..|].
  destruct (expects_reply raw); [|by left]. unfold st_bind, answer_request.
  destruct (parse_mcp_request raw) as [req|] eqn:Hreq; [|left; by destruct (error_id _)].
  pose proof (dispatch_makes i s req st) as Hd.
  assert (Hgo : ∀ calls : list (string * obj), (calls = mx_calls st ∨ ∃ p, calls = (mx_calls st ++ [(cp_name p, cp_arguments p)])%list ∧
    mr_method req = "tools/call" ∧ parse_call_params (default [] (mr_params req)) = Some p ∧ tool_allowed i s p st) →
    calls = mx_calls st ∨ ∃ p, calls = (mx_calls st ++ [(cp_name p, cp_arguments p)])%list ∧ asks_for raw p ∧ tool_allowed i s p st).
  { intros calls [?|(p & ? & ? & ? & ?)]; [by left|right]. exists p. split_and!; [done| |done]. by exists req. }
  apply Hgo in Hd. destruct (_dispatch_request _ _ _ _ _ _ _ _) as [st1 [e|l]]; [|done]. by destruct (error_id _).
Qed.

(** The state after the first [k] lines. *)
Definition served_until s (lines : list (mcp_in * string)) st (k : nat) : state := (serve s (take k lines) st).1.1.

(** One more line is either not read, because the server has ended, or handled in the
    state the lines before it left. *)
Lemma served_snoc s lines i line st :
  let before := (serve s lines st).1.1 in
  let after := (serve s (lines ++ [(i, line)]) st).1.1 in
  after = before
  ∨ ∃ raw, read_stdin loads line = Some raw ∧ after = (handle i s raw (by_others i before)).1.
Proof.
  cbv zeta. revert st. induction lines as [|[j l] lines IH]; intros st; cbn [serve_stdio app].
  - destruct (read_stdin loads line) as [raw|]; [|by left]. right. exists raw. split; [done|].
    cbn [fst]. destruct (handle i s raw (by_others i st)) as [st1 [x|o]]; reflexivity.
  - destruct (read_stdin loads l) as [raw0|]; [|by left].
    destruct (handle j s raw0 (by_others j st)) as [st1 [x|o]]; [by left|]. specialize (IH st1).
    destruct (serve s lines st1) as [[st2 out2] e2], (serve s (lines ++ [(i, line)]) st1) as [[st3 out3] e3]. exact IH.
Qed.

(** C11: whatever lines a client sends, each line runs at most one tool, and only
    when the message of that line asks for it.  It runs only when it is registered
    and its schema accepts the arguments of the message; on a protected server,
    also only if it is public or, in the state the lines before it and the other
    tasks left, the token of the message verifies, for an active agent, and, with
    grants enforced, carries the capability of the tool while the agent holds an
    active grant that allows these arguments. *)
Theorem tools_run_behind_gates (s : server) (lines : list (mcp_in * string)) (st : state) (k : nat) (i : mcp_in) (line : string) :
  lines !! k = Some (i, line) →
  let before := served_until s lines st k in
  let after := served_until s lines st (S k) in
  mx_calls after = mx_calls before
  ∨ ∃ raw p, read_stdin loads line = Some raw ∧ asks_for raw p
      ∧ mx_calls after = (mx_calls before ++ [(cp_name p, cp_arguments p)])%list
      ∧ tool_allowed i s p (by_others i before).
Proof.
  intros Hk. cbv zeta. unfold served_until. rewrite (take_S_r _ _ _ Hk).
  destruct (served_snoc s (take k lines) i line st) as [->|(raw & Hr & ->)]; [by left|].
  destruct (handle_makes i s raw (by_others i (serve s (take k lines) st).1.1)) as [Hc|(p & Hc & Ha & Ht)]; [by left|right].
  by exists raw, p.
Qed.

(** ** Replies *)

(** A message the server survives: without a method its `error` member, if any, is
    an object; and the id of a request is a valid one or null. *)
Definition regular (raw : obj) : Prop :=
  (assoc "method" raw = None → ∃ b, is_parse_error raw = Ret b) ∧
  (expects_reply raw = true → is_Some (error_id (j_get "id" raw))).

Definition echoed (raw : obj) : bool :=
  is_none (assoc "method" raw) && match is_parse_error raw with Ret b => b | Raise _ => false end.

(** Whether a message has a reply, and which reply is its own. *)
Definition wants_reply (raw : obj) : bool := echoed raw || expects_reply raw.

Definition replies_to (raw : obj) (l : mcp_line) : Prop :=
  match l with
  | Echoed d => d = raw
  | Result id _ => lax_id (j_get "id" raw) = Some id
  | ErrorLine id _ _ => error_id (j_get "id" raw) = Some id
  end.

Lemma mcp_dispatch_replies i s req st st' l :
  _dispatch_request validate_schema pd_text debug_mode env_jwt i s req st = (st', Ret l) →
  match l with
  | Result id _ => id = mr_id req
  | ErrorLine id _ _ => id = Some (mr_id req)
  | Echoed _ => False
  end.
Proof.
  unfold _dispatch_request. repeat (destruct (String.eqb _ _); [try by intros [= <- <-]|]); [|by intros [= <- <-]].
  destruct (_handle_tools_call _ _ _ _ _ _ _ _) as [st1 [e|r]]; [|by intros [= <- <-]].
  destruct (is_value_error e); [|done]. by intros [= <- <-].
Qed.

Lemma lax_error_id j id : lax_id j = Some id → error_id j = Some (Some id).
Proof. intros Hl. unfold error_id. destruct j; rewrite ?Hl; try done. by rewrite lax_id_null in Hl. Qed.

Lemma parse_request_id raw req : parse_mcp_request raw = Some req → lax_id (j_get "id" raw) = Some (mr_id req).
Proof. unfold parse_mcp_request. intros Hp. cases_in Hp. done. Qed.

Lemma answer_replies i s raw st : is_Some (error_id (j_get "id" raw)) →
  ∃ st' l, answer_request validate_schema pd_text debug_mode env_jwt i s raw st = (st', Ret l) ∧ replies_to raw l.
Proof.
  intros [rid Hr]. unfold answer_request. destruct (parse_mcp_request raw) as [req|] eqn:Hp.
  - destruct (_dispatch_request _ _ _ _ _ _ _ _) as [st1 [e|l]] eqn:Hd.
    + rewrite Hr. by eexists _, _.
    + eexists _, _. split; [done|]. apply mcp_dispatch_replies in Hd. apply parse_request_id in Hp.
      destruct l; cbn; [by subst|by rewrite Hd; apply lax_error_id|done].
  - rewrite Hr. by eexists _, _.
Qed.

Lemma handle_replies i s raw st : regular raw →
  ∃ st' o, handle i s raw st = (st', Ret o) ∧
    if wants_reply raw then ∃ l, o = Some l ∧ replies_to raw l else o = None.
Proof.
  intros [He Hi]. unfold handle_raw, wants_reply, echoed, st_bind, st_lift.
  destruct (assoc "method" raw) as [m|]; cbn [is_some is_none negb andb orb].
  - destruct (expects_reply raw); [|by eexists _, _].
    destruct (answer_replies i s raw st (Hi eq_refl)) as (st' & l & -> & Hl). eexists _, _. split; [done|]. by exists l.
  - destruct (He eq_refl) as [b ->]. destruct b; cbn [orb]; [eexists _, _; split; [done|]; by eexists|].
    destruct (expects_reply raw); [|by eexists _, _].
    destruct (answer_replies i s raw st (Hi eq_refl)) as (st' & l & -> & Hl). eexists _, _. split; [done|]. by exists l.
Qed.

(** C38: on lines that each hold a regular message the server reads them all
    and then ends in order: it writes one line for each request, in the order
    of the requests and under the request's id, and none for notifications,
    whatever the tools do. *)
Theorem mcp_requests_answered_in_order (s : server) (lines : list (mcp_in * string)) (raws : list obj) (st : state) :
  Forall2 (λ il raw, read_stdin loads il.2 = Some raw ∧ regular raw) lines raws →
  ∃ st' out, serve s lines st = (st', out, None) ∧ Forall2 replies_to (List.filter wants_reply raws) out.
Proof.
  intros Hl. revert st. induction Hl as [|[i line] raw lines raws [Hr Hg] _ IH]; intros st; [by eexists _, _|].
  cbn [serve_stdio]. cbn in Hr. rewrite Hr. destruct (handle_replies i s raw (by_others i st) Hg) as (st1 & o & -> & Ho).
  destruct (IH st1) as (st2 & out & -> & Hout). eexists _, _. split; [done|]. cbn [List.filter].
  destruct (wants_reply raw); [|by subst o]. destruct Ho as (l & -> & Hrep). by constructor.
Qed.

(** ** What ends the server early *)

(** A blank line ends the loop although standard input is still open. *)
Theorem blank_line_stops_server (s : server) (i : mcp_in) (line : string) (rest : list (mcp_in * string)) (st : state) :
  rstrip_newlines line = "" → serve s ((i, line) :: rest) st = (st, [], None).
Proof. intros Hl. cbn [serve_stdio]. unfold read_stdin. by rewrite Hl. Qed.

(** A message without a method whose `error` is null kills the server, and so
    does a request whose id is a list. *)
Theorem odd_messages_kill_server (s : server) (i : mcp_in) (line : string) (raw : obj) (rest : list (mcp_in * string))
    (st : state) :
  read_stdin loads line = Some raw →
  (assoc "method" raw = None ∧ assoc "error" raw = Some JNull) ∨
  (∃ m l, assoc "method" raw = Some (JStr m) ∧ PyStr.truthy m = true ∧ assoc "id" raw = Some (JList l)) →
  ∃ st' e, serve s ((i, line) :: rest) st = (st', [], Some e).
Proof.
  intros Hr Hodd. cbn [serve_stdio]. rewrite Hr. unfold handle_raw, st_bind, st_lift.
  destruct Hodd as [[Hm He]|(m & l & Hm & Ht & Hi)].
  - rewrite Hm. unfold is_parse_error. rewrite He. by eexists _, _.
  - rewrite Hm. cbn [is_some is_none negb]. unfold expects_reply, j_get. rewrite Hi, Hm. cbn. unfold j_truthy.
    destruct m; [done|]. unfold answer_request, parse_mcp_request, j_get. rewrite Hi. cbn. rewrite lax_id_list.
    destruct (negb (version_ok _)); by eexists _, _.
Qed.

(** A `TypeError` raised inside a tool is reported as an argument mismatch, with
    its text, also when the debug mode that shows such texts is off. *)
Theorem tool_type_error_is_leaked (t : tool) (name msg : string) (arguments : obj) (st : state) :
  tl_handler t arguments (mx_app st) = (mx_app st, ToolTypeError msg) →
  snd (run_tool (C := C) false t name arguments st) = Raise (ValueError ("Tool argument mismatch: " ++ msg)).
Proof. intros Ht. unfold run_tool. by rewrite Ht. Qed.

End McpFacts.

(** ** Examples *)
Section Examples.
#[local] Instance mcp_demo_py : PyRuntime := {| float_repr := λ _, "0.0"; float_of_str := λ _, None |}.
#[local] Instance mcp_demo_jose : Jose :=
  fixed_jose (jwt_header AGENT_JWT_TYP) (agent_claims demo_tp "a1" (JStr "srv") 0 "1" (Some ["echo"])) (demo_key "K").

Definition mcp_demo_id (j : json) : option rpc_id :=
  match j with JStr s => Some (IdStr s) | JInt z => Some (IdInt z) | _ => None end.
#[local] Instance mcp_demo_ids : McpIds.
Proof. by refine {| lax_id := mcp_demo_id |}. Defined.

Definition mcp_demo_call : obj :=
  [("jsonrpc", JStr "2.0"); ("id", JInt 7); ("method", JStr "tools/call");
   ("params", JObj [("name", JStr "echo"); ("arguments", JObj [("text", JStr "hi")]);
                    ("_meta", JObj [("asap_agent_jwt", JStr "token")])])].
Definition mcp_demo_loads (s : string) : option json :=
  if String.eqb s "call" then Some (JObj mcp_demo_call)
  else if String.eqb s "note" then Some (JObj [("method", JStr "notifications/initialized")])
  else if String.eqb s "bad" then Some (JObj [("error", JNull)])
  else None.

Definition mcp_demo_server : @MCPServer nat :=
  add_tool "echo" (λ a w, (S w, OutStr "hi")) [] "" None None (new_mcp "demo" "1.0" None None None).
Definition mcp_demo_config : MCPAuthConfig := mkMcpAuth [] [] true false None false (Some ["srv"]).
Definition mcp_demo_protected : @MCPServer nat :=
  mkMcp (mc_server_info mcp_demo_server) None (mc_tools mcp_demo_server) (Some mcp_demo_config).
Definition mcp_demo_registry : CapabilityRegistry.t :=
  fst (CapabilityRegistry.grant "a1" "echo" JNull None GActive None None CapabilityRegistry.init).
Definition mcp_demo_state : @mcp_state JtiReplayCache.t nat := mkMcpState (demo_world StActive) mcp_demo_registry 0%nat [].
Definition mcp_demo_in : @mcp_in JtiReplayCache.t := mkMcpIn (λ r, r) il_none (at_time 0) 0.

Definition mcp_demo_serve :=
  serve_stdio (C := JtiReplayCache.t) (W := nat) mcp_demo_loads (λ _ _, SchemaOk) (λ _, "invalid") false None.

(** The granted call runs the tool and is answered; replayed, it is not run. *)
Example mcp_demo_run :
  let '(st, out, e) := mcp_demo_serve mcp_demo_protected [(mcp_demo_in, "call"); (mcp_demo_in, "note"); (mcp_demo_in, "call")]
                         mcp_demo_state in
  (mx_app st, mx_calls st, out, e)
  = (1%nat, [("echo", [("text", JStr "hi")])],
     [Result (IdInt 7) (RCall (mkCallResult "hi" false));
      Result (IdInt 7) (RCall (mkCallResult "asap:invalid_token: jti replay detected" true))], None).
Proof. vm_compute. reflexivity. Qed.

Lemma tools_run_behind_gates_witness :
  let lines := [(mcp_demo_in, "note"); (mcp_demo_in, "call")] in
  let before := served_until mcp_demo_loads (λ _ _, SchemaOk) (λ _, "invalid") false None mcp_demo_protected lines mcp_demo_state 1 in
  ∃ p, tool_allowed (λ _ _, SchemaOk) None mcp_demo_in mcp_demo_protected p (by_others mcp_demo_in before) ∧ cp_name p = "echo".
Proof.
  cbv zeta.
  destruct (tools_run_behind_gates mcp_demo_loads (λ _ _, SchemaOk) (λ _, "invalid") false None mcp_demo_protected
    [(mcp_demo_in, "note"); (mcp_demo_in, "call")] mcp_demo_state 1 mcp_demo_in "call" eq_refl) as [Hc|(raw & p & _ & _ & Hc & Ht)].
  - vm_compute in Hc. discriminate Hc.
  - exists p. split; [exact Ht|]. vm_compute in Hc. injection Hc as Hn _. symmetry. exact Hn.
Defined.

Lemma mcp_requests_answered_in_order_witness : ∃ st' out,
  mcp_demo_serve mcp_demo_protected [(mcp_demo_in, "call"); (mcp_demo_in, "note")] mcp_demo_state = (st', out, None) ∧
  Forall2 replies_to [mcp_demo_call] out.
Proof.
  apply (mcp_requests_answered_in_order mcp_demo_loads (λ _ _, SchemaOk) (λ _, "invalid") false None mcp_demo_protected
    [(mcp_demo_in, "call"); (mcp_demo_in, "note")] [mcp_demo_call; [("method", JStr "notifications/initialized")]] mcp_demo_state).
  repeat constructor; try (intros [=]); by eexists.
Defined.

Lemma blank_line_stops_server_witness :
  mcp_demo_serve mcp_demo_protected [(mcp_demo_in, String newline ""); (mcp_demo_in, "call")] mcp_demo_state
  = (mcp_demo_state, [], None).
Proof. apply blank_line_stops_server. reflexivity. Defined.

Lemma odd_messages_kill_server_witness : ∃ st' e,
  mcp_demo_serve mcp_demo_protected [(mcp_demo_in, "bad"); (mcp_demo_in, "call")] mcp_demo_state = (st', [], Some e).
Proof.
  apply (odd_messages_kill_server mcp_demo_loads (λ _ _, SchemaOk) (λ _, "invalid") false None mcp_demo_protected mcp_demo_in
    "bad" [("error", JNull)]); [reflexivity|]. left. split; reflexivity.
Defined.

Definition mcp_demo_broken : @tool nat := mkTool "broken" (λ _ w, (w, ToolTypeError "secret")) [] "" None None.

Lemma tool_type_error_is_leaked_witness :
  snd (run_tool (C := JtiReplayCache.t) false mcp_demo_broken "broken" [] mcp_demo_state)
  = Raise (ValueError "Tool argument mismatch: secret").
Proof. apply (tool_type_error_is_leaked mcp_demo_broken "broken" "secret"). reflexivity. Defined.
End Examples.
