(* ===== verification/WebAuthn.v ===== *)
(** * WebAuthn ceremonies

    `src/src/asap/auth/webauthn.py` and the in-memory half of
    `auth/webauthn_store.py`: the registration of credentials and the assertions
    that prove presence, as the tasks of one event loop interleave.

    The lock of the verifier is never held across a suspension, so it never
    blocks.  A task suspends where it awaits the credential store; between two
    such points it runs without interruption.  The in-memory store never
    suspends, so over it a ceremony is one step ([finish_webauthn_assertion]);
    over a store that does, the steps of several ceremonies interleave ([event],
    [step]).  The `webauthn` package is a parameter: the checks of an attestation
    and of an assertion, for the configured relying party and origin, and the
    decoder of base64url texts.  Challenges are inputs; log lines and the JSON of
    the options a browser is given are left out, and the error of an unknown
    credential does not print its id. *)

From Stdlib Require Import ZArith Lia Ascii String.
From stdpp Require Import base tactics list gmap strings.
From S2P Require Import Prelude PyValue SelfAuth.
Open Scope string_scope.
Open Scope Z_scope.
Open Scope asap_scope.

Abbreviation bytes := (list Z).

(** ** Credentials *)
Record WebAuthnCredentialRecord : Type := mkCredential {
  wc_credential_id : bytes;
  wc_public_key : bytes;
  wc_sign_count : Z
}.

Module InMemoryWebAuthnCredentialStore.

Definition t : Type := list ((string * bytes) * WebAuthnCredentialRecord).

Definition save_credential (host_id : string) (credential_id public_key : bytes) (sign_count : Z) (rows : t) : t :=
  PyDict.set (host_id, credential_id) (mkCredential credential_id public_key sign_count) rows.

Definition get_credential (host_id : string) (credential_id : bytes) (rows : t) : option WebAuthnCredentialRecord :=
  PyDict.get (host_id, credential_id) rows.

Definition update_sign_count (host_id : string) (credential_id : bytes) (new_count : Z) (rows : t) : t * res pyexn unit :=
  match PyDict.get (host_id, credential_id) rows with
  | None => (rows, Raise (KeyError "no credential"))
  | Some row =>
      (PyDict.set (host_id, credential_id) (mkCredential (wc_credential_id row) (wc_public_key row) new_count) rows, Ret tt)
  end.

Definition list_credentials (host_id : string) (rows : t) : list bytes :=
  omap (λ kv : (string * bytes) * WebAuthnCredentialRecord,
    if String.eqb kv.1.1 host_id then Some kv.1.2 else None) rows.

End InMemoryWebAuthnCredentialStore.
Import InMemoryWebAuthnCredentialStore.

(** ** The verifier *)
Record WebAuthnVerifierImpl : Type := mkImpl {
  wi_store : InMemoryWebAuthnCredentialStore.t;
  wi_pending_registration : list (string * bytes);
  wi_pending_authentication : list (string * bytes)
}.
Definition new_verifier : WebAuthnVerifierImpl := mkImpl [] [] [].

Definition with_store (s : InMemoryWebAuthnCredentialStore.t) (w : WebAuthnVerifierImpl) : WebAuthnVerifierImpl :=
  mkImpl s (wi_pending_registration w) (wi_pending_authentication w).
Definition with_registration (p : list (string * bytes)) (w : WebAuthnVerifierImpl) : WebAuthnVerifierImpl :=
  mkImpl (wi_store w) p (wi_pending_authentication w).
Definition with_authentication (p : list (string * bytes)) (w : WebAuthnVerifierImpl) : WebAuthnVerifierImpl :=
  mkImpl (wi_store w) (wi_pending_registration w) p.

(** An exception of a ceremony. *)
Inductive wa_exn : Type :=
| WebAuthnCeremonyError (detail : string)
| WaRaises (e : pyexn).

Inductive UserVerification : Type := REQUIRED | PREFERRED.

(** What the options of an assertion are made of. *)
Record assertion_options : Type := mkAssertionOptions {
  as_challenge : bytes;
  as_allow_credentials : option (list bytes);
  as_user_verification : UserVerification
}.

(** An assertion under way, between its checks and the read of the credential. *)
Record in_flight : Type := mkFlight {
  fl_host : string;
  fl_assertion : list (string * json);
  fl_challenge : bytes;
  fl_credential_id : bytes;
  fl_require_uv : bool
}.

Section Ceremonies.
  (** `verify_registration_response` and `verify_authentication_response`;
      [None]: the response is invalid.  The latter gives the new sign count. *)
  Context (verify_registration : list (string * json) → bytes → res pyexn (option WebAuthnCredentialRecord)).
  Context (verify_authentication : list (string * json) → bytes → bytes → Z → bool → res pyexn (option Z)).
  (** `base64url_to_bytes`; [None]: it raises `ValueError` or `TypeError` *)
  Context (base64url_to_bytes : string → option bytes).

(** *** Registration *)
Definition start_webauthn_registration (challenge : bytes) (host_id : string) (w : WebAuthnVerifierImpl) : WebAuthnVerifierImpl :=
  with_registration (PyDict.set host_id challenge (wi_pending_registration w)) w.

(** Up to the save of the credential. *)
Definition check_registration (host_id : string) (attestation : list (string * json)) (w : WebAuthnVerifierImpl) :
    WebAuthnVerifierImpl * res wa_exn WebAuthnCredentialRecord :=
  match PyDict.get host_id (wi_pending_registration w) with
  | None => (w, Raise (WebAuthnCeremonyError "webauthn_registration_state_missing"))
  | Some expected_challenge =>
      match verify_registration attestation expected_challenge with
      | Raise e => (w, Raise (WaRaises e))
      | Ret None => (w, Raise (WebAuthnCeremonyError "webauthn_registration_verification_failed"))
      | Ret (Some verified) => (with_registration (PyDict.del host_id (wi_pending_registration w)) w, Ret verified)
      end
  end.

Definition save_registration (host_id : string) (c : WebAuthnCredentialRecord) (w : WebAuthnVerifierImpl) : WebAuthnVerifierImpl :=
  with_store (save_credential host_id (wc_credential_id c) (wc_public_key c) (wc_sign_count c) (wi_store w)) w.

(** The credential id, before its base64url text is made. *)
Definition finish_webauthn_registration (host_id : string) (attestation : list (string * json)) (w : WebAuthnVerifierImpl) :
    WebAuthnVerifierImpl * res wa_exn bytes :=
  match check_registration host_id attestation w with
  | (w, Raise e) => (w, Raise e)
  | (w, Ret c) => (save_registration host_id c w, Ret (wc_credential_id c))
  end.

(** *** Assertion *)
Definition start_webauthn_assertion (challenge : bytes) (host_id : string) (user_verification_required : bool) (w : WebAuthnVerifierImpl) :
    WebAuthnVerifierImpl * assertion_options :=
  let allow := match list_credentials host_id (wi_store w) with [] => None | l => Some l end in
  (with_authentication (PyDict.set host_id challenge (wi_pending_authentication w)) w,
   mkAssertionOptions challenge allow (if user_verification_required then REQUIRED else PREFERRED)).

(** `assertion.get("rawId", assertion.get("id"))` *)
Definition raw_id (assertion : list (string * json)) : json :=
  match assoc "rawId" assertion with Some v => v | None => j_get "id" assertion end.

Definition claim_matches (claimed : option string) (expected_challenge : bytes) : bool :=
  match claimed with
  | None => true
  | Some c => match base64url_to_bytes (PyStr.strip c) with
              | Some b => bool_decide (b = expected_challenge)
              | None => false
              end
  end.

(** Up to the read of the credential; [None]: the assertion fails. *)
Definition begin_assertion (host_id : string) (assertion : list (string * json)) (claimed_challenge_b64url : option string)
    (require_user_verification : bool) (w : WebAuthnVerifierImpl) : option in_flight :=
  match PyDict.get host_id (wi_pending_authentication w) with
  | None => None
  | Some expected_challenge =>
      if negb (claim_matches claimed_challenge_b64url expected_challenge) then None
      else
        match raw_id assertion with
        | JStr raw =>
            match base64url_to_bytes raw with
            | Some credential_id => Some (mkFlight host_id assertion expected_challenge credential_id require_user_verification)
            | None => None
            end
        | _ => None
        end
  end.

(** From the credential that was read to the write of the sign count. *)
Definition check_assertion (fl : in_flight) (w : WebAuthnVerifierImpl) :
    WebAuthnVerifierImpl * res pyexn (option (WebAuthnCredentialRecord * Z)) :=
  match get_credential (fl_host fl) (fl_credential_id fl) (wi_store w) with
  | None => (w, Ret None)
  | Some row =>
      match verify_authentication (fl_assertion fl) (fl_challenge fl) (wc_public_key row) (wc_sign_count row) (fl_require_uv fl) with
      | Raise e => (w, Raise e)
      | Ret None => (w, Ret None)
      | Ret (Some new_sign_count) =>
          (with_authentication (PyDict.del (fl_host fl) (wi_pending_authentication w)) w, Ret (Some (row, new_sign_count)))
      end
  end.

Definition commit_assertion (fl : in_flight) (new_sign_count : Z) (w : WebAuthnVerifierImpl) : WebAuthnVerifierImpl * res pyexn bool :=
  let '(rows, r) := update_sign_count (fl_host fl) (fl_credential_id fl) new_sign_count (wi_store w) in
  (with_store rows w, rmap (λ _, true) r).

(** The whole ceremony, over a store that does not suspend. *)
Definition finish_webauthn_assertion (host_id : string) (assertion : list (string * json)) (claimed_challenge_b64url : option string)
    (require_user_verification : bool) (w : WebAuthnVerifierImpl) : WebAuthnVerifierImpl * res pyexn bool :=
  match begin_assertion host_id assertion claimed_challenge_b64url require_user_verification w with
  | None => (w, Ret false)
  | Some fl =>
      match check_assertion fl w with
      | (w, Raise e) => (w, Raise e)
      | (w, Ret None) => (w, Ret false)
      | (w, Ret (Some (_, new_sign_count))) => commit_assertion fl new_sign_count w
      end
  end.

Definition verify (challenge : string) (response : json) (host_id : option string) (require_user_verification : bool)
    (w : WebAuthnVerifierImpl) : WebAuthnVerifierImpl * res pyexn bool :=
  match host_id, response with
  | Some host_id, JObj assertion => finish_webauthn_assertion host_id assertion (Some challenge) require_user_verification w
  | _, _ => (w, Ret false)
  end.

(** *** Interleaving *)

(** A ceremony that suspends is named by its task. *)
Inductive event : Type :=
| StartRegistration (host : string) (challenge : bytes)
| CheckRegistration (task : nat) (host : string) (attestation : list (string * json))
| SaveRegistration (task : nat)
| StartAssertion (host : string) (challenge : bytes) (uv : bool)
| BeginAssertion (task : nat) (host : string) (assertion : list (string * json)) (claimed : option string) (uv : bool)
| CheckAssertion (task : nat)
| CommitAssertion (task : nat).

Record system : Type := mkSystem {
  sy_verifier : WebAuthnVerifierImpl;
  sy_saving : list (nat * (string * WebAuthnCredentialRecord));
  sy_begun : list (nat * in_flight);
  sy_checked : list (nat * (in_flight * WebAuthnCredentialRecord * Z))
}.
Definition new_system : system := mkSystem new_verifier [] [] [].

(** What a step ends: an assertion with its answer, or nothing. *)
Definition step (s : system) (e : event) : system * option (in_flight * res pyexn bool) :=
  let w := sy_verifier s in
  match e with
  | StartRegistration host challenge =>
      (mkSystem (start_webauthn_registration challenge host w) (sy_saving s) (sy_begun s) (sy_checked s), None)
  | CheckRegistration task host attestation =>
      match check_registration host attestation w with
      | (w, Ret c) => (mkSystem w (PyDict.set task (host, c) (sy_saving s)) (sy_begun s) (sy_checked s), None)
      | (w, Raise _) => (mkSystem w (sy_saving s) (sy_begun s) (sy_checked s), None)
      end
  | SaveRegistration task =>
      match PyDict.get task (sy_saving s) with
      | Some (host, c) =>
          (mkSystem (save_registration host c w) (PyDict.del task (sy_saving s)) (sy_begun s) (sy_checked s), None)
      | None => (s, None)
      end
  | StartAssertion host challenge uv =>
      (mkSystem (start_webauthn_assertion challenge host uv w).1 (sy_saving s) (sy_begun s) (sy_checked s), None)
  | BeginAssertion task host assertion claimed uv =>
      match begin_assertion host assertion claimed uv w with
      | Some fl => (mkSystem w (sy_saving s) (PyDict.set task fl (sy_begun s)) (sy_checked s), None)
      | None => (s, None)
      end
  | CheckAssertion task =>
      match PyDict.get task (sy_begun s) with
      | Some fl =>
          match check_assertion fl w with
          | (w, Ret (Some (row, n))) =>
              (mkSystem w (sy_saving s) (PyDict.del task (sy_begun s)) (PyDict.set task (fl, row, n) (sy_checked s)), None)
          | (w, Ret None) => (mkSystem w (sy_saving s) (PyDict.del task (sy_begun s)) (sy_checked s), Some (fl, Ret false))
          | (w, Raise e) => (mkSystem w (sy_saving s) (PyDict.del task (sy_begun s)) (sy_checked s), Some (fl, Raise e))
          end
      | None => (s, None)
      end
  | CommitAssertion task =>
      match PyDict.get task (sy_checked s) with
      | Some (fl, _, n) =>
          let '(w, r) := commit_assertion fl n w in
          (mkSystem w (sy_saving s) (sy_begun s) (PyDict.del task (sy_checked s)), Some (fl, r))
      | None => (s, None)
      end
  end.

Fixpoint run (s : system) (es : list event) : system :=
  match es with [] => s | e :: es' => run (step s e).1 es' end.

End Ceremonies.

(** ** What a ceremony that succeeds rests on *)
Section Soundness.
  Context (verify_registration : list (string * json) → bytes → res pyexn (option WebAuthnCredentialRecord)).
  Context (verify_authentication : list (string * json) → bytes → bytes → Z → bool → res pyexn (option Z)).
  Context (base64url_to_bytes : string → option bytes).

(** The key of the credential was registered for the host: an attestation of it
    was accepted for a challenge that was issued to the host. *)
Definition registered (past : list event) (host : string) (credential_id public_key : bytes) : Prop :=
  ∃ challenge attestation c, StartRegistration host challenge ∈ past
    ∧ verify_registration attestation challenge = Ret (Some c)
    ∧ wc_credential_id c = credential_id ∧ wc_public_key c = public_key.

(** The assertion was presented for a challenge that was issued to the host. *)
Definition presented (past : list event) (fl : in_flight) : Prop :=
  (∃ uv, StartAssertion (fl_host fl) (fl_challenge fl) uv ∈ past)
  ∧ ∃ task claimed, BeginAssertion task (fl_host fl) (fl_assertion fl) claimed (fl_require_uv fl) ∈ past
      ∧ ∀ text, claimed = Some text → base64url_to_bytes (PyStr.strip text) = Some (fl_challenge fl).

Definition accepted (past : list event) (fl : in_flight) (row : WebAuthnCredentialRecord) (n : Z) : Prop :=
  presented past fl ∧ registered past (fl_host fl) (fl_credential_id fl) (wc_public_key row)
  ∧ verify_authentication (fl_assertion fl) (fl_challenge fl) (wc_public_key row) (wc_sign_count row) (fl_require_uv fl)
    = Ret (Some n).

Record wa_inv (past : list event) (s : system) : Prop := {
  inv_store : Forall (λ kv, registered past kv.1.1 kv.1.2 (wc_public_key kv.2)) (wi_store (sy_verifier s));
  inv_registration : Forall (λ kv, StartRegistration kv.1 kv.2 ∈ past) (wi_pending_registration (sy_verifier s));
  inv_authentication : Forall (λ kv, ∃ uv, StartAssertion kv.1 kv.2 uv ∈ past) (wi_pending_authentication (sy_verifier s));
  inv_saving : Forall (λ kv, registered past kv.2.1 (wc_credential_id kv.2.2) (wc_public_key kv.2.2)) (sy_saving s);
  inv_begun : Forall (λ kv, presented past kv.2) (sy_begun s);
  inv_checked : Forall (λ kv, accepted past kv.2.1.1 kv.2.1.2 kv.2.2) (sy_checked s)
}.

Lemma registered_mono past past' host cid pk : past ⊆ past' → registered past host cid pk → registered past' host cid pk.
Proof. intros Hs (ch & att & c & Hin & ?). exists ch, att, c. split; [by apply Hs|done]. Qed.

Lemma presented_mono past past' fl : past ⊆ past' → presented past fl → presented past' fl.
Proof. intros Hs [[uv Hu] (task & claimed & Hb & Hc)]. split; [exists uv; by apply Hs|]. exists task, claimed. split; [by apply Hs|done]. Qed.

Lemma accepted_mono past past' fl row n : past ⊆ past' → accepted past fl row n → accepted past' fl row n.
Proof. intros Hs (Hp & Hr & Hv). split_and!; [by eapply presented_mono|by eapply registered_mono|done]. Qed.

Lemma wa_inv_mono past past' s : past ⊆ past' → wa_inv past s → wa_inv past' s.
Proof.
  intros Hs []. split; (eapply Forall_impl; [done|]); cbn; intros x Hx.
  - by eapply registered_mono.
  - by apply Hs.
  - destruct Hx as [uv Hx]. exists uv. by apply Hs.
  - by eapply registered_mono.
  - by eapply presented_mono.
  - by eapply accepted_mono.
Qed.

Abbreviation wa_step := (step verify_registration verify_authentication base64url_to_bytes).

Lemma claim_matches_ok claimed expected : claim_matches base64url_to_bytes claimed expected = true →
  ∀ text, claimed = Some text → base64url_to_bytes (PyStr.strip text) = Some expected.
Proof.
  intros Hc text ->. cbn in Hc. destruct (base64url_to_bytes (PyStr.strip text)); [|done]. by apply bool_decide_eq_true in Hc as ->.
Qed.

Lemma begin_assertion_ok past task host assertion claimed uv w fl :
  Forall (λ kv, ∃ uv, StartAssertion kv.1 kv.2 uv ∈ past) (wi_pending_authentication w) →
  begin_assertion base64url_to_bytes host assertion claimed uv w = Some fl →
  presented (past ++ [BeginAssertion task host assertion claimed uv]) fl.
Proof.
  intros Hp. unfold begin_assertion. destruct (PyDict.get host _) as [expected|] eqn:Hg; [|done].
  destruct (claim_matches _ claimed expected) eqn:Hc; cbn [negb]; [|done].
  destruct (raw_id assertion) as [| | | |raw| |]; try done. destruct (base64url_to_bytes raw) as [cid|]; [|done].
  intros [= <-]. apply (Forall_dict_get _ _ _ _ Hp) in Hg as [u Hu]. split; cbn.
  - exists u. apply elem_of_app. by left.
  - exists task, claimed. split; [apply elem_of_app; right; by left|by apply claim_matches_ok].
Qed.

Lemma update_sign_count_keeps (P : (string * bytes) * bytes → Prop) host cid n rows :
  Forall (λ kv, P (kv.1, wc_public_key kv.2)) rows →
  Forall (λ kv, P (kv.1, wc_public_key kv.2)) (update_sign_count host cid n rows).1.
Proof.
  intros Hr. unfold update_sign_count. destruct (PyDict.get _ rows) as [row|] eqn:Hg; [|done].
  cbn [fst]. apply Forall_dict_set; [|done]. by apply (Forall_dict_get _ _ _ _ Hr) in Hg.
Qed.

Lemma step_keeps_inv past s e : wa_inv past s → wa_inv (past ++ [e]) (wa_step s e).1.
Proof.
  intros Hi. assert (Hi' : wa_inv (past ++ [e]) s). { eapply wa_inv_mono; [|done]. set_solver. }
  assert (Hin : e ∈ (past ++ [e])%list) by set_solver.
  destruct s as [[rows preg pauth] saving begun checked], Hi' as [Hst Hreg Hau Hsa Hbe Hch].
  cbn [sy_verifier wi_store wi_pending_registration wi_pending_authentication sy_saving sy_begun sy_checked] in *.
  destruct e as [host ch|task host att|task|host ch uv|task host assertion claimed uv|task|task]; cbn [step sy_verifier].
  - split; cbn; try done. by apply Forall_dict_set.
  - unfold check_registration. cbn. destruct (PyDict.get host preg) as [expected|] eqn:Hg; [|by split].
    destruct (verify_registration att expected) as [|[c|]] eqn:Hv; [by split| |by split]. split; cbn; try done.
    + by apply Forall_dict_del.
    + apply Forall_dict_set; [|done]. cbn. apply (Forall_dict_get _ _ _ _ Hreg) in Hg. by exists expected, att, c.
  - cbn. destruct (PyDict.get task saving) as [[host c]|] eqn:Hg; [|by split]. split; cbn; try done.
    + apply Forall_dict_set; [|done]. by apply (Forall_dict_get _ _ _ _ Hsa) in Hg.
    + by apply Forall_dict_del.
  - split; cbn; try done. apply Forall_dict_set; [|done]. by exists uv.
  - destruct (begin_assertion _ _ _ _ _ _) as [fl|] eqn:Hb; [|by split]. split; cbn; try done.
    apply Forall_dict_set; [|done]. cbn. destruct Hi as [_ _ Hau0 _ _ _]. by eapply begin_assertion_ok.
  - cbn. destruct (PyDict.get task begun) as [fl|] eqn:Hg; [|by split]. apply (Forall_dict_get _ _ _ _ Hbe) in Hg. cbn in Hg.
    assert (Hdel : Forall (λ kv, presented (past ++ [CheckAssertion task]) kv.2) (PyDict.del task begun)) by by apply Forall_dict_del.
    unfold check_assertion, get_credential. cbn. destruct (PyDict.get _ rows) as [row|] eqn:Hc; [|by split].
    destruct (verify_authentication _ _ _ _ _) as [|[n|]] eqn:Hv; [by split| |by split]. split; cbn; try done.
    + by apply Forall_dict_del.
    + apply Forall_dict_set; [|done]. apply (Forall_dict_get _ _ _ _ Hst) in Hc. by split_and!.
  - cbn. destruct (PyDict.get task checked) as [[[fl row] n]|] eqn:Hg; [|by split].
    unfold commit_assertion. cbn [sy_verifier wi_store]. destruct (update_sign_count _ _ _ rows) as [rows' r] eqn:Hu. split; cbn; try done.
    + change rows' with (rows', r).1. rewrite <- Hu.
      by apply (update_sign_count_keeps (λ kp, registered _ kp.1.1 kp.1.2 kp.2)).
    + by apply Forall_dict_del.
Qed.

Lemma wa_run_snoc s es e : run verify_registration verify_authentication base64url_to_bytes s (es ++ [e])
  = (wa_step (run verify_registration verify_authentication base64url_to_bytes s es) e).1.
Proof. revert s. induction es as [|e' es IH]; intros s; [done|]. cbn [app run]. apply IH. Qed.

Lemma run_inv es : wa_inv es (run verify_registration verify_authentication base64url_to_bytes new_system es).
Proof.
  induction es as [|e es IH] using rev_ind; [by split|]. rewrite wa_run_snoc. by apply step_keeps_inv.
Qed.

(** C30: an assertion that succeeds proves the presence of the host, however the
    ceremonies of many tasks interleave.  In any sequence of steps from a new
    verifier, when a task's assertion ends with `True`, the assertion was
    presented for a challenge that was issued to that host, which is the claimed
    one when the caller claims one; it was accepted by the library for that
    challenge under the public key of the credential it names, with user
    verification when that was asked for; and that key was registered for the
    same host, by an attestation that was accepted for a challenge issued to it. *)
Theorem assertions_prove_presence es e fl :
  (wa_step (run verify_registration verify_authentication base64url_to_bytes new_system es) e).2 = Some (fl, Ret true) →
  ∃ row n, accepted es fl row n.
Proof.
  intros He. pose proof (run_inv es) as Hi. set (s := run _ _ _ _ es) in *. clearbody s.
  destruct e as [host ch|task host att|task|host ch uv|task host assertion claimed uv|task|task]; cbn [step] in He.
  - done.
  - by destruct (check_registration _ _ _ _) as [? []].
  - by destruct (PyDict.get task _) as [[? ?]|].
  - done.
  - by destruct (begin_assertion _ _ _ _ _ _).
  - destruct (PyDict.get task _) as [fl'|]; [|done]. by destruct (check_assertion _ _ _) as [? [|[[? ?]|]]].
  - destruct (PyDict.get task _) as [[[fl' row] n]|] eqn:Hg; [|done].
    destruct (commit_assertion fl' n _) as [w r]. cbn in He. injection He as <- _.
    apply (Forall_dict_get _ _ _ _ (inv_checked _ _ Hi)) in Hg. by exists row, n.
Qed.

End Soundness.

(** ** Single use over a store that does not suspend *)
Inductive ceremony : Type :=
| DoStartRegistration (host : string) (challenge : bytes)
| DoFinishRegistration (host : string) (attestation : list (string * json))
| DoStartAssertion (host : string) (challenge : bytes) (uv : bool)
| DoVerify (challenge : string) (response : json) (host : option string) (uv : bool).

Section SingleUse.
  Context (verify_registration : list (string * json) → bytes → res pyexn (option WebAuthnCredentialRecord)).
  Context (verify_authentication : list (string * json) → bytes → bytes → Z → bool → res pyexn (option Z)).
  Context (base64url_to_bytes : string → option bytes).

Definition perform (w : WebAuthnVerifierImpl) (c : ceremony) : WebAuthnVerifierImpl * res pyexn bool :=
  match c with
  | DoStartRegistration host challenge => (start_webauthn_registration challenge host w, Ret false)
  | DoFinishRegistration host attestation => ((finish_webauthn_registration verify_registration host attestation w).1, Ret false)
  | DoStartAssertion host challenge uv => ((start_webauthn_assertion challenge host uv w).1, Ret false)
  | DoVerify challenge response host uv => verify verify_authentication base64url_to_bytes challenge response host uv w
  end.

Definition starts (host : string) (c : ceremony) : bool :=
  match c with DoStartAssertion h _ _ => String.eqb h host | _ => false end.

(** The verification of [c] for [host] succeeds. *)
Definition succeeds (host : string) (w : WebAuthnVerifierImpl) (c : ceremony) : bool :=
  match c with
  | DoVerify _ _ (Some h) _ => String.eqb h host && bool_decide ((perform w c).2 = Ret true)
  | _ => false
  end.

Fixpoint successes (host : string) (w : WebAuthnVerifierImpl) (cs : list ceremony) : nat :=
  match cs with
  | [] => 0
  | c :: cs' => (if succeeds host w c then 1 else 0) + successes host (perform w c).1 cs'
  end.

Definition pending (host : string) (w : WebAuthnVerifierImpl) : nat :=
  match PyDict.get host (wi_pending_authentication w) with Some _ => 1 | None => 0 end.

Ltac unchanged := intros [= <- <-]; split_and!; [done|done|lia|done].

(** An assertion keeps the challenges of the other hosts, and one that succeeds
    takes the challenge of its host. *)
Lemma finish_assertion_pending host assertion claimed uv w w' r :
  PyDict.wf (wi_pending_authentication w) →
  finish_webauthn_assertion verify_authentication base64url_to_bytes host assertion claimed uv w = (w', r) →
  PyDict.wf (wi_pending_authentication w')
  ∧ (∀ h, h ≠ host → pending h w' = pending h w)
  ∧ (pending host w' <= pending host w)%nat
  ∧ (r = Ret true → pending host w = 1%nat ∧ pending host w' = 0%nat).
Proof.
  intros Hw. unfold finish_webauthn_assertion, begin_assertion.
  destruct (PyDict.get host (wi_pending_authentication w)) as [expected|] eqn:Hg; [|unchanged].
  destruct (claim_matches _ _ _); cbn [negb]; [|unchanged].
  destruct (raw_id assertion) as [| | | |raw| |]; try by unchanged.
  destruct (base64url_to_bytes raw) as [cid|]; [|unchanged].
  unfold check_assertion. cbn [fl_host fl_credential_id fl_assertion fl_challenge fl_require_uv].
  destruct (get_credential _ _ _) as [row|]; [|unchanged].
  destruct (verify_authentication _ _ _ _ _) as [|[n|]]; [unchanged| |unchanged].
  unfold commit_assertion. cbn [fl_host fl_credential_id with_authentication wi_store].
  destruct (update_sign_count _ _ _ _) as [rows u]. intros [= <- <-].
  assert (Hz : pending host (with_store rows (with_authentication (PyDict.del host (wi_pending_authentication w)) w)) = 0%nat).
  { unfold pending. cbn. by rewrite PyDict.get_del_eq. }
  split_and!; [by apply PyDict.wf_del| |rewrite Hz; lia|]; [|unfold pending at 1; by rewrite Hg].
  intros h Hh. unfold pending. cbn. by rewrite PyDict.get_del_ne.
Qed.

Lemma perform_pending host w c : PyDict.wf (wi_pending_authentication w) →
  PyDict.wf (wi_pending_authentication (perform w c).1)
  ∧ ((if succeeds host w c then 1 else 0) + pending host (perform w c).1 <= (if starts host c then 1 else 0) + pending host w)%nat.
Proof.
  intros Hw. destruct c as [h ch|h att|h ch uv|ch response h uv]; cbn [perform succeeds starts fst].
  - split; [done|]. cbn. unfold pending. cbn. lia.
  - assert (He : wi_pending_authentication (finish_webauthn_registration verify_registration h att w).1 = wi_pending_authentication w).
    { unfold finish_webauthn_registration, check_registration. destruct (PyDict.get h _); [|done].
      by destruct (verify_registration att _) as [|[c|]]. }
    unfold pending. rewrite He. split; [done|lia].
  - cbn. split; [by apply PyDict.wf_set|]. unfold pending. cbn. destruct (String.eqb_spec h host) as [-> |Hne].
    + rewrite PyDict.get_set_eq. case_match; lia.
    + rewrite PyDict.get_set_ne by done. lia.
  - destruct h as [h|]; cbn [verify]; [|split; [done|cbn; lia]].
    destruct response as [| | | | | |assertion]; try (cbn; rewrite andb_false_r; split; [done|lia]).
    destruct (finish_webauthn_assertion _ _ _ _ _ _ _) as [w' r] eqn:Hf.
    apply finish_assertion_pending in Hf as (Hw' & Ho & Hle & Hs); [|done]. cbn [fst snd]. split; [done|].
    destruct (String.eqb_spec h host) as [-> |Hne]; cbn [andb]; [|by rewrite Ho].
    case_bool_decide as Hr; [destruct (Hs Hr); lia|lia].
Qed.

(** A challenge proves presence once.  Over a credential store that does not
    suspend, in any sequence of ceremonies from a new verifier, the assertions of
    a host that succeed are at most as many as the challenges that were issued to
    it: replaying an assertion that was accepted fails. *)
Theorem challenges_are_single_use host cs :
  (successes host new_verifier cs <= length (List.filter (starts host) cs))%nat.
Proof.
  assert (Hg : ∀ w, PyDict.wf (wi_pending_authentication w) →
    (successes host w cs <= length (List.filter (starts host) cs) + pending host w)%nat).
  { induction cs as [|c cs IH]; intros w Hw; cbn [successes List.filter]; [lia|].
    destruct (perform_pending host w c Hw) as [Hw' Hp]. specialize (IH _ Hw').
    destruct (starts host c); cbn [length]; lia. }
  specialize (Hg new_verifier (PyDict.wf_nil)). change (pending host new_verifier) with 0%nat in Hg. lia.
Qed.

End SingleUse.

(** ** Examples *)
Section Examples.

Definition demo_credential : WebAuthnCredentialRecord := mkCredential [1] [2] 0.
Definition demo_verify_registration (_ : list (string * json)) (_ : bytes) : res pyexn (option WebAuthnCredentialRecord) :=
  Ret (Some demo_credential).
(** An authenticator that does not count its signatures. *)
Definition demo_verify_authentication (_ : list (string * json)) (challenge key : bytes) (_ : Z) (_ : bool) : res pyexn (option Z) :=
  Ret (if bool_decide (challenge = [7]) && bool_decide (key = [2]) then Some 0 else None).
Definition demo_base64url (s : string) : option bytes :=
  if String.eqb s "AQ" then Some [1] else if String.eqb s "Bw" then Some [7] else None.

Definition demo_assertion : list (string * json) := [("rawId", JStr "AQ")].
Definition demo_events : list event :=
  [StartRegistration "h" [9]; CheckRegistration 1 "h" []; SaveRegistration 1; StartAssertion "h" [7] true;
   BeginAssertion 2 "h" demo_assertion (Some "Bw") true; CheckAssertion 2].

Lemma assertions_prove_presence_witness :
  ∃ row n, accepted demo_verify_registration demo_verify_authentication demo_base64url demo_events
    (mkFlight "h" demo_assertion [7] [1] true) row n.
Proof.
  apply (assertions_prove_presence demo_verify_registration demo_verify_authentication demo_base64url demo_events (CommitAssertion 2)).
  vm_compute. reflexivity.
Defined.

Definition demo_ceremonies : list ceremony :=
  [DoStartRegistration "h" [9]; DoFinishRegistration "h" []; DoStartAssertion "h" [7] false;
   DoVerify "Bw" (JObj demo_assertion) (Some "h") false; DoVerify "Bw" (JObj demo_assertion) (Some "h") false].

(** The second use of the assertion fails. *)
Example demo_replay_fails :
  successes demo_verify_registration demo_verify_authentication demo_base64url "h" new_verifier demo_ceremonies = 1%nat
  ∧ successes demo_verify_registration demo_verify_authentication demo_base64url "h" new_verifier (take 4 demo_ceremonies) = 1%nat.
Proof. by vm_compute. Qed.

(** Over a store that suspends, two tasks can use one challenge: the challenge is
    read before the credential is awaited and removed after. *)
Lemma one_challenge_serves_two_tasks :
  let run := run demo_verify_registration demo_verify_authentication demo_base64url in
  let step := step demo_verify_registration demo_verify_authentication demo_base64url in
  let begin task := BeginAssertion task "h" demo_assertion (Some "Bw") true in
  let fl := mkFlight "h" demo_assertion [7] [1] true in
  let s := run new_system (take 4 demo_events ++ [begin 2%nat; begin 3%nat; CheckAssertion 2; CheckAssertion 3])%list in
  (step s (CommitAssertion 2)).2 = Some (fl, Ret true)
  ∧ (step (step s (CommitAssertion 2)).1 (CommitAssertion 3)).2 = Some (fl, Ret true).
Proof. by vm_compute. Qed.

(** A ceremony that ends removes whatever challenge is pending, also one that was
    issued to the host meanwhile. *)
Lemma newer_challenge_is_dropped :
  let run := run demo_verify_registration demo_verify_authentication demo_base64url in
  let s := run new_system (take 5 demo_events ++ [StartAssertion "h" [8] true; CheckAssertion 2])%list in
  wi_pending_authentication (sy_verifier s) = [].
Proof. by vm_compute. Qed.

End Examples.
