(* ===== verification/SqliteSla.v ===== *)
(** * The SQLite SLA storage and the SQLite credential store

    `src/src/asap/economics/sla_storage.py` (SQLiteSLAStorage): the tables
    `sla_metrics` and `sla_breaches`, recording, querying, counting and the
    statistics, compared with the in-memory storage of [Sla] on UTC periods.
    `src/src/asap/auth/webauthn_store.py` (SQLiteWebAuthnCredentialStore): its
    table and operations, compared with the in-memory store of [WebAuthn]. *)

From Stdlib Require Import ZArith QArith Lia Ascii String.
From stdpp Require Import base tactics list gmap strings sorting.
From S2P Require Import Prelude PyValue Digest IsoText Sqlite Identity EnvelopeGuard AuditChain SqliteAudit Metering Sla WebAuthn.
Open Scope Z_scope.
Open Scope asap_scope.

(** ** Rows of the SLA tables *)
Record metric_row : Type := mkMetricRow {
  mr_agent_id : string; mr_period_start : string; mr_period_end : string; mr_uptime : Q;
  mr_latency : Z; mr_error_rate : Q; mr_completed : Z; mr_failed : Z }.
Record breach_row : Type := mkBreachRow {
  bw_id : string; bw_agent_id : string; bw_breach_type : string; bw_threshold : string; bw_actual : string;
  bw_severity : string; bw_detected_at : string; bw_resolved_at : option string }.

Definition _METRICS_WHERE : list (string * string) :=
  [("agent_id", "agent_id = ?"); ("start", "period_end >= ?"); ("end", "period_start <= ?")]%string.
Definition _BREACH_WHERE : list (string * string) :=
  [("agent_id", "agent_id = ?"); ("start", "detected_at >= ?"); ("end", "detected_at <= ?")]%string.

Definition text_ge (a b : string) : bool := match text_cmp a b with Lt => false | _ => true end.
Definition text_le (a b : string) : bool := match text_cmp a b with Gt => false | _ => true end.

Definition metrics_sem (fragment value : string) (r : metric_row) : bool :=
  if String.eqb fragment "agent_id = ?" then String.eqb (mr_agent_id r) value
  else if String.eqb fragment "period_end >= ?" then text_ge (mr_period_end r) value
  else text_le (mr_period_start r) value.
Definition breach_sem (fragment value : string) (r : breach_row) : bool :=
  if String.eqb fragment "agent_id = ?" then String.eqb (bw_agent_id r) value
  else if String.eqb fragment "detected_at >= ?" then text_ge (bw_detected_at r) value
  else text_le (bw_detected_at r) value.

(** `_metrics_filters`, and the same dictionary in `query_breaches`. *)
Definition _metrics_filters (q : period) : list (string * option string) :=
  [("agent_id", pd_agent_id q); ("start", option_map isoformat_dt (pd_start q));
   ("end", option_map isoformat_dt (pd_end q))]%string.

Section Rows.
  Context `{Readers}.

Definition metrics_to_row (m : SLAMetrics) : res sqlexn metric_row :=
  let! latency := sql_int (sm_latency_p95_ms m) in
  let! completed := sql_int (sm_tasks_completed m) in
  let! failed := sql_int (sm_tasks_failed m) in
  Ret (mkMetricRow (sm_agent_id m) (isoformat_dt (sm_period_start m)) (isoformat_dt (sm_period_end m))
         (sm_uptime_percent m) latency (sm_error_rate_percent m) completed failed).

(** `parse_iso(str(text)) or datetime.now(timezone.utc)` *)
Definition parsed_or_now (now : Z) (text : string) : pydatetime := default (Aware now 0) (parse_iso (Some text)).

Definition _row_to_sla_metrics (now : Z) (r : metric_row) : res sqlexn SLAMetrics :=
  match new_metrics (mkSlaMetrics (mr_agent_id r) (parsed_or_now now (mr_period_start r))
          (parsed_or_now now (mr_period_end r)) (mr_uptime r) (mr_latency r) (mr_error_rate r)
          (mr_completed r) (mr_failed r)) with
  | Ret m => Ret m
  | Raise e => Raise (PyExn e)
  end.

Definition breach_to_row (b : SLABreach) : breach_row :=
  mkBreachRow (br_id b) (br_agent_id b) (br_breach_type b) (br_threshold b) (br_actual b) (br_severity b)
    (isoformat_dt (br_detected_at b)) (option_map isoformat_dt (br_resolved_at b)).

Definition _row_to_breach (now : Z) (r : breach_row) : SLABreach :=
  mkBreach (bw_id r) (bw_agent_id r) (bw_breach_type r) (bw_threshold r) (bw_actual r) (bw_severity r)
    (parsed_or_now now (bw_detected_at r))
    (match bw_resolved_at r with
     | Some t => if PyStr.truthy t then parse_iso (Some t) else None
     | None => None
     end).

Fixpoint read_metrics (now : Z) (rows : list metric_row) : res sqlexn (list SLAMetrics) :=
  match rows with
  | [] => Ret []
  | r :: rows' =>
      let! m := _row_to_sla_metrics now r in
      let! ms := read_metrics now rows' in
      Ret (m :: ms)
  end.
End Rows.

Module SQLiteSLAStorage.

Record tables : Type := mkTables { sla_metrics : list metric_row; sla_breaches : list breach_row }.
Definition empty_tables : tables := mkTables [] [].
Abbreviation t := (Repo tables).

Section Store.
  Context `{Readers} `{SqlScan}.

Definition record_metrics (m : SLAMetrics) : t → t * res sqlexn unit :=
  execute empty_tables (λ db,
    let! r := metrics_to_row m in Ret (mkTables (sla_metrics db ++ [r])%list (sla_breaches db), tt)).

Definition record_breach (b : SLABreach) : t → t * res sqlexn unit :=
  execute empty_tables (λ db,
    Ret (mkTables (sla_metrics db) (insert_or_replace bw_id (breach_to_row b) (sla_breaches db)), tt)).

(** `build_where(...)` and the rows it selects. *)
Definition matching_metrics (q : period) (db : tables) : res sqlexn (list metric_row) :=
  match where_parts (_metrics_filters q) _METRICS_WHERE with
  | Raise e => Raise (PyExn e)
  | Ret (conditions, params) => Ret (select (where_holds metrics_sem conditions params) (sla_metrics db))
  end.

(** `LIMIT ? OFFSET ?`, `LIMIT -1 OFFSET ?` or neither. *)
Definition query_metrics (now : Z) (q : period) (limit : option Z) (offset : Z) (r : t) :
    t * res sqlexn (list SLAMetrics) :=
  if offset <? 0 then (r, Raise (PyExn (ValueError "offset must be non-negative")))
  else
    fetch empty_tables (λ db,
      let! rows := matching_metrics q db in
      let! limit := sql_int (default (-1) limit) in
      let! offset := sql_int offset in
      read_metrics now (limit_offset limit offset (PySort.sorted (by_text mr_period_start) rows))) r.

Definition count_metrics (q : period) : t → t * res sqlexn Z :=
  fetch empty_tables (λ db, let! rows := matching_metrics q db in Ret (Z.of_nat (length rows))).

Definition query_breaches (now : Z) (q : period) : t → t * res sqlexn (list SLABreach) :=
  fetch empty_tables (λ db,
    match where_parts (_metrics_filters q) _BREACH_WHERE with
    | Raise e => Raise (PyExn e)
    | Ret (conditions, params) =>
        Ret (map (_row_to_breach now) (PySort.sorted (by_text bw_detected_at)
               (select (where_holds breach_sem conditions params) (sla_breaches db))))
    end).

(** `SELECT MIN(column)` *)
Definition text_min (l : list string) : option string :=
  match l with
  | [] => None
  | x :: l' => Some (fold_left (λ acc y, match text_cmp y acc with Lt => y | _ => acc end) l' x)
  end.

(** The earlier of two dates read from the tables; comparing a naive and an aware
    date raises. *)
Definition older (best : option pydatetime) (raw : option string) : res sqlexn (option pydatetime) :=
  match raw with
  | None => Ret best
  | Some text =>
      match parse_iso (Some text) with
      | None => Ret best
      | Some d =>
          match best with
          | None => Ret (Some d)
          | Some o =>
              match dt_lt d o with
              | Raise e => Raise (PyExn e)
              | Ret b => Ret (Some (if (b : bool) then d else o))
              end
          end
      end
  end.

Definition stats : t → t * res sqlexn (Z * option pydatetime) :=
  fetch empty_tables (λ db,
    let! o1 := older None (text_min (map mr_period_start (scan (sla_metrics db)))) in
    let! oldest := older o1 (text_min (map bw_detected_at (scan (sla_breaches db)))) in
    Ret (Z.of_nat (length (sla_metrics db)) + Z.of_nat (length (sla_breaches db)), oldest)).

End Store.
End SQLiteSLAStorage.

(** ** The credential store *)
Record cred_row : Type := mkCredRow {
  cr_host_id : string; cr_credential_id : bytes; cr_public_key : bytes; cr_sign_count : Z }.
Definition cred_key (r : cred_row) : string * bytes := (cr_host_id r, cr_credential_id r).

(** Each call opens a connection and creates the table if it is missing, so the
    state is the table. *)
Module SQLiteWebAuthnCredentialStore.
Section Store.
  Context `{SqlScan}.

Definition save_credential (host_id : string) (credential_id public_key : bytes) (sign_count : Z) (rows : list cred_row) :
    list cred_row * res sqlexn unit :=
  match sql_int sign_count with
  | Raise e => (rows, Raise e)
  | Ret n => (insert_or_replace cred_key (mkCredRow host_id credential_id public_key n) rows, Ret tt)
  end.

Definition of_credential (host_id : string) (credential_id : bytes) (r : cred_row) : bool :=
  bool_decide (cred_key r = (host_id, credential_id)).

Definition get_credential (host_id : string) (credential_id : bytes) (rows : list cred_row) :
    option WebAuthnCredentialRecord :=
  option_map (λ r, mkCredential (cr_credential_id r) (cr_public_key r) (cr_sign_count r))
    (select_one (of_credential host_id credential_id) rows).

(** The update is committed before the number of rows is checked. *)
Definition update_sign_count (host_id : string) (credential_id : bytes) (new_count : Z) (rows : list cred_row) :
    list cred_row * res sqlexn unit :=
  match sql_int new_count with
  | Raise e => (rows, Raise e)
  | Ret n =>
      let '(rows', rowcount) :=
        update_where (of_credential host_id credential_id)
          (λ r, mkCredRow (cr_host_id r) (cr_credential_id r) (cr_public_key r) n) rows in
      (rows', if rowcount =? 1 then Ret tt else Raise (PyExn (KeyError "no credential")))
  end.

Definition list_credentials (host_id : string) (rows : list cred_row) : list bytes :=
  map cr_credential_id (select (λ r, String.eqb (cr_host_id r) host_id) rows).

End Store.
End SQLiteWebAuthnCredentialStore.

(** ** Agreement of the SLA storages *)
Module SqlSla := SQLiteSLAStorage.
Module MemSla := InMemorySLAStorage.

Section SlaAgreement.
  Context `{Readers} `{SqlScan}.

(** A UTC date within the calendar whose text reads back. *)
Definition utc_date (d : pydatetime) : Prop :=
  dt_zone d = Some 0 ∧ in_datetime (dt_wall d) = true ∧ iso_read (isoformat_dt d) = Some d.

Definition small (z : Z) : Prop := - 2 ^ 63 <= z < 2 ^ 63.

Definition metrics_storable (m : SLAMetrics) : Prop :=
  utc_date (sm_period_start m) ∧ utc_date (sm_period_end m) ∧ small (sm_latency_p95_ms m)
  ∧ small (sm_tasks_completed m) ∧ small (sm_tasks_failed m) ∧ metrics_valid m = true.
Definition breach_storable (b : SLABreach) : Prop :=
  utc_date (br_detected_at b) ∧ ∀ d, br_resolved_at b = Some d → utc_date d.

Definition metric_row_of (m : SLAMetrics) : metric_row :=
  mkMetricRow (sm_agent_id m) (isoformat_dt (sm_period_start m)) (isoformat_dt (sm_period_end m))
    (sm_uptime_percent m) (sm_latency_p95_ms m) (sm_error_rate_percent m) (sm_tasks_completed m) (sm_tasks_failed m).

Lemma metrics_to_row_ok m : metrics_storable m → metrics_to_row m = Ret (metric_row_of m).
Proof. intros (_ & _ & Hl & Hc & Hf & _). unfold metrics_to_row. by rewrite !sql_int_in. Qed.

Lemma utc_le a b : utc_date a → utc_date b → to_utc a = dt_wall a ∧ same_kind a b = true.
Proof. intros (Ha & _) (Hb & _). destruct a, b; simpl in *; simplify_eq. split; [lia|done]. Qed.

Lemma utc_text_cmp a b : utc_date a → utc_date b →
  text_cmp (isoformat_dt a) (isoformat_dt b) = (to_utc a ?= to_utc b)%Z.
Proof.
  intros Ha Hb. rewrite (proj1 (utc_le a b Ha Hb)), (proj1 (utc_le b a Hb Ha)).
  destruct Ha as (Hza & Hra & _), Hb as (Hzb & Hrb & _). apply isoformat_order; [done|done|congruence].
Qed.

Lemma text_ge_utc a b : utc_date a → utc_date b → text_ge (isoformat_dt a) (isoformat_dt b) = negb (to_utc a <? to_utc b).
Proof.
  intros Ha Hb. unfold text_ge. rewrite utc_text_cmp by done.
  destruct (Z.compare_spec (to_utc a) (to_utc b)), (Z.ltb_spec (to_utc a) (to_utc b)); try done; lia.
Qed.

Lemma text_le_utc a b : utc_date a → utc_date b → text_le (isoformat_dt a) (isoformat_dt b) = negb (to_utc b <? to_utc a).
Proof.
  intros Ha Hb. unfold text_le. rewrite utc_text_cmp by done.
  destruct (Z.compare_spec (to_utc a) (to_utc b)), (Z.ltb_spec (to_utc b) (to_utc a)); try done; lia.
Qed.

Lemma truthy_iso d : PyStr.truthy (isoformat_dt d) = true.
Proof.
  rewrite isoformat_dt_eq. unfold iso_local. destruct (civil _) as [[y m] dd]. rewrite append_assoc.
  by destruct (pad_dec 4 y).
Qed.

Lemma parsed_back now d : utc_date d → parsed_or_now now (isoformat_dt d) = d ∧ parse_iso (Some (isoformat_dt d)) = Some d.
Proof.
  intros (_ & _ & Hr). unfold parsed_or_now, parse_iso. rewrite truthy_iso, replace_z_isoformat, Hr. done.
Qed.

Lemma metric_row_back now m : metrics_storable m → _row_to_sla_metrics now (metric_row_of m) = Ret m.
Proof.
  intros (Hs & He & _ & _ & _ & Hv). unfold _row_to_sla_metrics, metric_row_of.
  cbn [mr_agent_id mr_period_start mr_period_end mr_uptime mr_latency mr_error_rate mr_completed mr_failed].
  rewrite (proj1 (parsed_back now _ Hs)), (proj1 (parsed_back now _ He)).
  replace (mkSlaMetrics _ _ _ _ _ _ _ _) with m by (by destruct m). unfold new_metrics. by rewrite Hv.
Qed.

Lemma breach_row_back now b : breach_storable b → _row_to_breach now (breach_to_row b) = b.
Proof.
  intros (Hd & Hr). unfold _row_to_breach, breach_to_row.
  cbn [bw_id bw_agent_id bw_breach_type bw_threshold bw_actual bw_severity bw_detected_at bw_resolved_at].
  rewrite (proj1 (parsed_back now _ Hd)). destruct b as [i a ty th ac se de [re|]]; [|done].
  cbn [br_id br_agent_id br_breach_type br_threshold br_actual br_severity br_detected_at br_resolved_at option_map] in *.
  rewrite truthy_iso, (proj2 (parsed_back now re (Hr re eq_refl))). done.
Qed.

(** The bounds of a query. *)
Definition period_ok (q : period) : Prop :=
  (∀ d, pd_start q = Some d → utc_date d) ∧ (∀ d, pd_end q = Some d → utc_date d).

Definition matches_range (agent_id : string) (from to : pydatetime) (q : period) : bool :=
  opt_eqb (pd_agent_id q) agent_id
  && match pd_start q with None => true | Some s => negb (to_utc to <? to_utc s) end
  && match pd_end q with None => true | Some e => negb (to_utc e <? to_utc from) end.

Lemma in_range_utc agent_id from to q : utc_date from → utc_date to → period_ok q →
  in_range agent_id from to q = Ret (matches_range agent_id from to q).
Proof.
  intros Hf Ht [Hs He]. unfold in_range, matches_range. destruct (opt_eqb (pd_agent_id q) agent_id); [|done].
  destruct (pd_start q) as [s|]; cbn [negb rbind andb].
  - unfold dt_lt at 1. rewrite (proj2 (utc_le to s Ht (Hs s eq_refl))). cbn [rbind].
    destruct (to_utc to <? to_utc s); cbn [negb andb]; [done|].
    destruct (pd_end q) as [e|]; [|done]. unfold dt_lt. by rewrite (proj2 (utc_le e from (He e eq_refl) Hf)).
  - destruct (pd_end q) as [e|]; [|done]. unfold dt_lt. by rewrite (proj2 (utc_le e from (He e eq_refl) Hf)).
Qed.

Lemma where_metrics q cs vs m : metrics_storable m → period_ok q →
  where_parts (_metrics_filters q) _METRICS_WHERE = Ret (cs, vs) →
  where_holds metrics_sem cs vs (metric_row_of m) = matches_range (sm_agent_id m) (sm_period_start m) (sm_period_end m) q.
Proof.
  intros (Hf & Ht & _) [Hs He] Hw. rewrite (proj2 (where_parts_sem metrics_sem _ _ _ _ _ Hw)).
  unfold _metrics_filters, matches_range. cbn [forallb fst snd]. rewrite andb_true_r, andb_assoc.
  destruct q as [a s e]. cbn [pd_agent_id pd_start pd_end] in *.
  refine (f_equal2 andb (f_equal2 andb _ _) _).
  - by destruct a.
  - destruct s as [d|]; [|done]. exact (text_ge_utc _ _ Ht (Hs d eq_refl)).
  - destruct e as [d|]; [|done]. exact (text_le_utc _ _ Hf (He d eq_refl)).
Qed.

Lemma where_breaches q cs vs b : breach_storable b → period_ok q →
  where_parts (_metrics_filters q) _BREACH_WHERE = Ret (cs, vs) →
  where_holds breach_sem cs vs (breach_to_row b) = matches_range (br_agent_id b) (br_detected_at b) (br_detected_at b) q.
Proof.
  intros (Hd & _) [Hs He] Hw. rewrite (proj2 (where_parts_sem breach_sem _ _ _ _ _ Hw)).
  unfold _metrics_filters, matches_range. cbn [forallb fst snd]. rewrite andb_true_r, andb_assoc.
  destruct q as [a s e]. cbn [pd_agent_id pd_start pd_end] in *.
  refine (f_equal2 andb (f_equal2 andb _ _) _).
  - by destruct a.
  - destruct s as [d|]; [|done]. exact (text_ge_utc _ _ Hd (Hs d eq_refl)).
  - destruct e as [d|]; [|done]. exact (text_le_utc _ _ Hd (He d eq_refl)).
Qed.

Lemma where_metrics_total q : ∃ cs vs, where_parts (_metrics_filters q) _METRICS_WHERE = Ret (cs, vs).
Proof. destruct q as [[] [] []]; by eexists _, _. Qed.
Lemma where_breach_total q : ∃ cs vs, where_parts (_metrics_filters q) _BREACH_WHERE = Ret (cs, vs).
Proof. destruct q as [[] [] []]; by eexists _, _. Qed.

Record sla_agrees (r : SqlSla.t) (m : MemSla.t) : Prop := {
  sa_repo : repo_ok r;
  sa_metrics : SqlSla.sla_metrics (contents SqlSla.empty_tables r) = map metric_row_of (MemSla.metrics m);
  sa_breaches : SqlSla.sla_breaches (contents SqlSla.empty_tables r) = map breach_to_row (MemSla.breaches m);
  sa_good_metrics : Forall metrics_storable (MemSla.metrics m);
  sa_good_breaches : Forall breach_storable (MemSla.breaches m)
}.

Lemma mem_matching q m : Forall metrics_storable (MemSla.metrics m) → period_ok q →
  filter_res (_metrics_matches q) (MemSla.metrics m)
  = Ret (base.filter (λ x, matches_range (sm_agent_id x) (sm_period_start x) (sm_period_end x) q = true) (MemSla.metrics m)).
Proof.
  intros Hg Hq. apply filter_res_total. intros x Hx. rewrite Forall_forall in Hg.
  destruct (Hg x Hx) as (? & ? & _). by apply in_range_utc.
Qed.

Lemma one_kind_utc ds : Forall utc_date ds → one_kind ds = true.
Proof.
  destruct 1 as [|d ds Hd Hds]; [done|]. simpl. apply forallb_elem_of. intros x Hx.
  rewrite Forall_forall in Hds. by apply utc_le, Hds.
Qed.

Lemma count_agrees q r m : sla_agrees r m → period_ok q →
  snd (SqlSla.count_metrics q r) = match MemSla.count_metrics q m with Ret n => Ret n | Raise e => Raise (PyExn e) end.
Proof.
  intros [Hr Hm _ Hg _] Hq. unfold SqlSla.count_metrics, MemSla.count_metrics. rewrite fetch_out by done.
  rewrite mem_matching by done. unfold SqlSla.matching_metrics.
  destruct (where_metrics_total q) as (cs & vs & Hw). rewrite Hw. cbn [rbind]. do 2 f_equal.
  rewrite select_perm, Hm, (filter_map_pred metric_row_of _ (λ x,
    matches_range (sm_agent_id x) (sm_period_start x) (sm_period_end x) q)).
  - by rewrite length_map.
  - intros x Hx. rewrite Forall_forall in Hg. apply where_metrics; [by apply Hg|done|done].
Qed.

Lemma read_metrics_back now ms : Forall metrics_storable ms → read_metrics now (map metric_row_of ms) = Ret ms.
Proof.
  induction 1 as [|m ms Hm Hms IH]; [done|]. cbn [map read_metrics]. rewrite metric_row_back by done.
  cbn [rbind]. by rewrite IH.
Qed.

Lemma query_metrics_agrees now q limit offset r m : sla_agrees r m → period_ok q → 0 <= offset < 2 ^ 63 →
  (∀ l, limit = Some l → 0 <= l < 2 ^ 63) →
  NoDup (map (λ x, to_utc (sm_period_start x)) (MemSla.metrics m)) →
  snd (SqlSla.query_metrics now q limit offset r)
  = match MemSla.query_metrics q limit offset m with Ret l => Ret l | Raise e => Raise (PyExn e) end.
Proof.
  intros [Hr Hm _ Hg _] Hq Ho Hl Hn. unfold SqlSla.query_metrics, MemSla.query_metrics.
  rewrite (proj2 (Z.ltb_ge _ _)) by lia. rewrite fetch_out by done. rewrite mem_matching by done. cbn [rbind].
  set (sel := base.filter _ (MemSla.metrics m)).
  assert (Hgs : Forall metrics_storable sel) by (by apply Forall_filtered).
  unfold SqlSla.matching_metrics. destruct (where_metrics_total q) as (cs & vs & Hw). rewrite Hw. cbn [rbind].
  assert (Hlim : small (default (-1) limit)).
  { unfold small. destruct limit as [l|]; simpl; [specialize (Hl l eq_refl)|]; lia. }
  rewrite !sql_int_in by (done || lia). cbn [rbind]. rewrite Hm.
  destruct (sorted_selection metric_row_of mr_period_start (λ x, to_utc (sm_period_start x)) metrics_storable
    (λ a b Ha Hb, utc_text_cmp _ _ (proj1 Ha) (proj1 Hb)) (MemSla.metrics m) (where_holds metrics_sem cs vs)
    (λ x, matches_range (sm_agent_id x) (sm_period_start x) (sm_period_end x) q) Hg) as (qs & -> & Hgq & Hp & Hs).
  { intros x Hx. by apply where_metrics. }
  assert (Heq : qs = PySort.sorted (dt_order sm_period_start) sel).
  { apply (sorted_unique_by (λ x, to_utc (sm_period_start x))); [done| |by rewrite PySort.sorted_Permutation|].
    - apply PySort.Sorted_sorted. intros a b. unfold dt_order. lia.
    - rewrite (Permutation_map (λ x, to_utc (sm_period_start x)) Hp). eapply sublist_NoDup; [exact Hn|].
      apply (fmap_sublist (λ x, to_utc (sm_period_start x))), sublist_filter. }
  unfold sorted_by. rewrite one_kind_utc by (apply Forall_map; eapply Forall_impl; [exact Hgs|]; by intros x []).
  cbn [rbind]. rewrite <- Heq.
  assert (Hpage : limit_offset (default (-1) limit) offset (map metric_row_of qs) = map metric_row_of (slice offset limit qs)
                  ∧ Forall metrics_storable (slice offset limit qs)).
  { unfold limit_offset, slice. destruct limit as [l|]; simpl.
    - specialize (Hl l eq_refl). rewrite (proj2 (Z.ltb_ge _ _)) by lia. rewrite py_slice_page by lia.
      rewrite <- fmap_drop, <- fmap_take. split; [done|]. by apply Forall_take, Forall_drop.
    - rewrite <- fmap_drop. split; [done|]. by apply Forall_drop. }
  destruct Hpage as [-> Hgp]. by apply read_metrics_back.
Qed.

Lemma query_breaches_agrees now q r m : sla_agrees r m → period_ok q →
  NoDup (map (λ x, to_utc (br_detected_at x)) (MemSla.breaches m)) →
  snd (SqlSla.query_breaches now q r)
  = match MemSla.query_breaches q m with Ret l => Ret l | Raise e => Raise (PyExn e) end.
Proof.
  intros [Hr _ Hb _ Hg] Hq Hn. unfold SqlSla.query_breaches, MemSla.query_breaches. rewrite fetch_out by done.
  destruct (where_breach_total q) as (cs & vs & Hw). rewrite Hw, Hb.
  rewrite (filter_res_total _ (λ x, matches_range (br_agent_id x) (br_detected_at x) (br_detected_at x) q))
    by (intros x Hx; rewrite Forall_forall in Hg; destruct (Hg x Hx) as [? _]; by apply in_range_utc).
  cbn [rbind]. set (sel := base.filter _ (MemSla.breaches m)).
  assert (Hgs : Forall breach_storable sel) by (by apply Forall_filtered).
  destruct (sorted_selection breach_to_row bw_detected_at (λ x, to_utc (br_detected_at x)) breach_storable
    (λ a b Ha Hb, utc_text_cmp _ _ (proj1 Ha) (proj1 Hb)) (MemSla.breaches m) (where_holds breach_sem cs vs)
    (λ x, matches_range (br_agent_id x) (br_detected_at x) (br_detected_at x) q) Hg) as (qs & -> & Hgq & Hp & Hs).
  { intros x Hx. by apply where_breaches. }
  assert (Heq : qs = PySort.sorted (dt_order br_detected_at) sel).
  { apply (sorted_unique_by (λ x, to_utc (br_detected_at x))); [done| |by rewrite PySort.sorted_Permutation|].
    - apply PySort.Sorted_sorted. intros a b. unfold dt_order. lia.
    - rewrite (Permutation_map (λ x, to_utc (br_detected_at x)) Hp). eapply sublist_NoDup; [exact Hn|].
      apply (fmap_sublist (λ x, to_utc (br_detected_at x))), sublist_filter. }
  unfold sorted_by. rewrite one_kind_utc by (apply Forall_map; eapply Forall_impl; [exact Hgs|]; by intros x []).
  rewrite <- Heq, map_map. f_equal. clear -Hgq. induction Hgq as [|x l Hx Hl IH]; [done|]. simpl.
  by rewrite breach_row_back, IH.
Qed.

End SlaAgreement.

(** ** Properties *)

(** The SQLite SLA storage agrees with the in-memory one on UTC dates: recording
    metrics, and a breach under a new id, keeps them in agreement; the count is the
    same; and so are the metrics and breaches of a query, page by page, when their
    sort keys differ. *)
Theorem sqlite_sla_refines_memory `{Readers} `{SqlScan} (r : SqlSla.t) (m : MemSla.t) (x : SLAMetrics)
    (b : SLABreach) (q : period) (limit : option Z) (offset now : Z) :
  sla_agrees r m → metrics_storable x → breach_storable b → br_id b ∉ map br_id (MemSla.breaches m) →
  period_ok q → 0 <= offset < 2 ^ 63 → (∀ l, limit = Some l → 0 <= l < 2 ^ 63) →
  NoDup (map (λ x, to_utc (sm_period_start x)) (MemSla.metrics m)) →
  NoDup (map (λ x, to_utc (br_detected_at x)) (MemSla.breaches m)) →
  sla_agrees (fst (SqlSla.record_metrics x r)) (MemSla.record_metrics x m)
  ∧ sla_agrees (fst (SqlSla.record_breach b r)) (MemSla.record_breach b m)
  ∧ snd (SqlSla.count_metrics q r)
    = match MemSla.count_metrics q m with Ret n => Ret n | Raise e => Raise (PyExn e) end
  ∧ snd (SqlSla.query_metrics now q limit offset r)
    = match MemSla.query_metrics q limit offset m with Ret l => Ret l | Raise e => Raise (PyExn e) end
  ∧ snd (SqlSla.query_breaches now q r)
    = match MemSla.query_breaches q m with Ret l => Ret l | Raise e => Raise (PyExn e) end.
Proof.
  intros Ha Hx Hb Hid Hq Ho Hl Hn1 Hn2.
  split_and!; [| |by apply count_agrees|by apply query_metrics_agrees|by apply query_breaches_agrees].
  - destruct Ha as [Hr Hm Hbr Hg Hgb]. unfold SqlSla.record_metrics.
    set (stmt := λ db : SqlSla.tables, _). destruct (execute_ok SqlSla.empty_tables stmt r Hr) as (Hok & Hc & _).
    subst stmt. cbn beta in *. rewrite metrics_to_row_ok in Hc, Hok |- * by done. cbn [rbind] in *.
    split; rewrite ?Hc; simpl; [done|by rewrite Hm, map_app|done| |done].
    apply Forall_app. split; [done|]. constructor; [done|constructor].
  - destruct Ha as [Hr Hm Hbr Hg Hgb]. unfold SqlSla.record_breach.
    set (stmt := λ db : SqlSla.tables, _). destruct (execute_ok SqlSla.empty_tables stmt r Hr) as (Hok & Hc & _).
    subst stmt. cbn beta in *. split; rewrite ?Hc; simpl; [done|done| |done|].
    + unfold insert_or_replace. rewrite Hbr, map_app. f_equal. apply filter_all, Forall_forall.
      intros y (z & -> & Hz)%list_elem_of_fmap Heq. apply Hid, list_elem_of_fmap. by exists z.
    + apply Forall_app. split; [done|]. constructor; [done|constructor].
Qed.

(** Recording a breach again replaces it on SQLite and adds a second copy in
    memory. *)
Lemma repeated_breach_diverges `{Readers} `{SqlScan} (b : SLABreach) :
  let r := fst (SqlSla.record_breach b (fst (SqlSla.record_breach b (mkRepo false None)))) in
  let m := MemSla.record_breach b (MemSla.record_breach b MemSla.init) in
  length (SqlSla.sla_breaches (contents SqlSla.empty_tables r)) = 1%nat ∧ length (MemSla.breaches m) = 2%nat.
Proof.
  simpl. unfold insert_or_replace. simpl. rewrite filter_cons. simpl.
  destruct (decide (br_id b ≠ br_id b)); [done|]. done.
Qed.

(** The SQLite credential store agrees with the in-memory one, whose dictionary the
    rows stand for: saving, reading, updating the counter (which fails for the same
    credentials) and, up to order, listing. *)
Definition cred_entry (r : cred_row) : (string * bytes) * WebAuthnCredentialRecord :=
  (cred_key r, mkCredential (cr_credential_id r) (cr_public_key r) (cr_sign_count r)).

Definition creds_agree (rows : list cred_row) (m : InMemoryWebAuthnCredentialStore.t) : Prop :=
  keys_unique cred_key rows ∧ map cred_entry rows ≡ₚ m.

Module SqlCred := SQLiteWebAuthnCredentialStore.
Module MemCred := InMemoryWebAuthnCredentialStore.

Lemma creds_wf rows m : creds_agree rows m → PyDict.wf m.
Proof. intros [Hk Hp]. unfold PyDict.wf, PyDict.keys. rewrite <- Hp, <- list_fmap_compose. exact Hk. Qed.

Lemma creds_get rows m k : creds_agree rows m →
  PyDict.get k m = option_map (λ r, (cred_entry r).2) (row_of cred_key k rows).
Proof.
  intros Ha. pose proof (creds_wf _ _ Ha) as Hwf. destruct Ha as [Hk Hp].
  destruct (row_of cred_key k rows) as [r|] eqn:E; simpl.
  - apply row_of_Some in E as [Hin <-]; [|done]. apply PyDict.elem_get; [done|].
    rewrite <- Hp. apply list_elem_of_fmap. by exists r.
  - apply PyDict.get_None. unfold PyDict.keys. rewrite <- Hp, <- list_fmap_compose.
    intros (r & -> & Hin)%list_elem_of_fmap. by eapply row_of_None in E.
Qed.

Lemma of_credential_key h c r : SqlCred.of_credential h c r = true ↔ cred_key r = (h, c).
Proof. unfold SqlCred.of_credential. apply bool_decide_eq_true. Qed.

Lemma filter_cred_entry k rows :
  map cred_entry (base.filter (λ r, cred_key r ≠ k) rows) = base.filter (λ kv, kv.1 ≠ k) (map cred_entry rows).
Proof.
  induction rows as [|r l IH]; [done|]. cbn [map]. rewrite !filter_cons.
  destruct (decide (cred_key r = k)) as [He|He].
  - rewrite !decide_False by (simpl; naive_solver). exact IH.
  - rewrite !decide_True by (simpl; naive_solver). cbn [map]. by rewrite IH.
Qed.

Lemma creds_set rows m k v r : creds_agree rows m → cred_entry r = (k, v) →
  creds_agree (insert_or_replace cred_key r rows) (PyDict.set k v m).
Proof.
  intros Ha Hr. pose proof (creds_wf _ _ Ha) as Hwf. destruct Ha as [Hk Hp].
  assert (Hkr : cred_key r = k) by (unfold cred_entry in Hr; by simplify_eq).
  split; [by apply keys_unique_replace|]. rewrite PyDict.set_Permutation, <- Hp by done.
  unfold insert_or_replace. rewrite map_app, Hkr, filter_cred_entry. simpl. by rewrite Hr.
Qed.

(** Updating the row of a key is replacing it, up to order. *)
Lemma update_is_replace rows r n : keys_unique cred_key rows → row_of cred_key (cred_key r) rows = Some r →
  map (λ x, if SqlCred.of_credential (cr_host_id r) (cr_credential_id r) x
            then mkCredRow (cr_host_id x) (cr_credential_id x) (cr_public_key x) n else x) rows
  ≡ₚ insert_or_replace cred_key (mkCredRow (cr_host_id r) (cr_credential_id r) (cr_public_key r) n) rows.
Proof.
  intros Hk Hrow. apply row_of_Some in Hrow as [Hin _]; [|done]. unfold insert_or_replace.
  apply list_elem_of_split in Hin as (l1 & l2 & ->). unfold keys_unique in Hk.
  rewrite map_app in Hk. simpl in Hk.
  assert (Hother : ∀ x, x ∈ (l1 ++ l2)%list → cred_key x ≠ cred_key r).
  { intros x Hx Heq. rewrite <- Permutation_middle in Hk. apply NoDup_cons in Hk as [Hn _].
    apply Hn. rewrite <- Heq, <- map_app. apply list_elem_of_fmap. by exists x. }
  assert (Hid : ∀ l, (∀ x, x ∈ l → cred_key x ≠ cred_key r) →
    map (λ x, if SqlCred.of_credential (cr_host_id r) (cr_credential_id r) x
              then mkCredRow (cr_host_id x) (cr_credential_id x) (cr_public_key x) n else x) l = l
    ∧ base.filter (λ x, cred_key x ≠ cred_key r) l = l).
  { intros l Hl. split; [|by apply filter_all, Forall_forall]. induction l as [|x l IH]; [done|]. simpl.
    rewrite IH by (intros y Hy; apply Hl; by right).
    destruct (SqlCred.of_credential _ _ x) eqn:E; [|done]. apply of_credential_key in E.
    destruct (Hl x); [by left|done]. }
  destruct (Hid l1) as [Hm1 Hf1]; [intros; apply Hother, elem_of_app; by left|].
  destruct (Hid l2) as [Hm2 Hf2]; [intros; apply Hother, elem_of_app; by right|].
  change (cred_key (mkCredRow (cr_host_id r) (cr_credential_id r) (cr_public_key r) n)) with (cred_key r).
  rewrite map_app, filter_app. cbn [map]. rewrite Hm1, Hm2, Hf1, filter_cons, decide_False by naive_solver.
  rewrite Hf2. rewrite (proj2 (of_credential_key _ _ r)) by done.
  rewrite (Permutation_app_comm (l1 ++ l2)%list). simpl. apply symmetry, Permutation_middle.
Qed.

Theorem sqlite_credentials_refine_memory `{SqlScan} (rows : list cred_row) (m : MemCred.t) (host_id : string)
    (credential_id public_key : bytes) (n : Z) :
  creds_agree rows m → - 2 ^ 63 <= n < 2 ^ 63 →
  creds_agree (fst (SqlCred.save_credential host_id credential_id public_key n rows))
              (MemCred.save_credential host_id credential_id public_key n m)
  ∧ SqlCred.get_credential host_id credential_id rows = MemCred.get_credential host_id credential_id m
  ∧ creds_agree (fst (SqlCred.update_sign_count host_id credential_id n rows))
                (fst (MemCred.update_sign_count host_id credential_id n m))
  ∧ snd (SqlCred.update_sign_count host_id credential_id n rows)
    = match snd (MemCred.update_sign_count host_id credential_id n m) with Ret u => Ret u | Raise e => Raise (PyExn e) end
  ∧ SqlCred.list_credentials host_id rows ≡ₚ MemCred.list_credentials host_id m.
Proof.
  intros Ha Hn. pose proof (creds_get rows m (host_id, credential_id) Ha) as Hget.
  unfold SqlCred.save_credential, SqlCred.update_sign_count. rewrite sql_int_in by done. cbn [fst snd].
  split_and!.
  - by apply creds_set.
  - unfold SqlCred.get_credential, MemCred.get_credential. rewrite Hget.
    rewrite (select_one_key cred_key (host_id, credential_id)) by (apply Ha || (intros; apply of_credential_key)).
    by destruct (row_of cred_key (host_id, credential_id) rows).
  - unfold MemCred.update_sign_count, update_where. rewrite Hget.
    destruct (row_of cred_key (host_id, credential_id) rows) as [r|] eqn:E; cbn [option_map fst cred_entry snd].
    + pose proof E as E'. apply row_of_Some in E' as [Hin Hkey]; [|apply Ha].
      unfold cred_key in Hkey. simplify_eq. pose proof (update_is_replace rows r n (proj1 Ha) E) as Hu.
      destruct (creds_set rows m (cr_host_id r, cr_credential_id r)
        (mkCredential (cr_credential_id r) (cr_public_key r) n)
        (mkCredRow (cr_host_id r) (cr_credential_id r) (cr_public_key r) n) Ha eq_refl) as [Hk' Hp'].
      split; [unfold keys_unique in *; by rewrite Hu|]. by rewrite (Permutation_map cred_entry Hu).
    + replace (map _ rows) with rows; [done|]. symmetry. rewrite <- (map_id rows) at 2. apply map_ext_in.
      intros x Hx. destruct (SqlCred.of_credential host_id credential_id x) eqn:Ex; [|done].
      apply of_credential_key in Ex. destruct (proj1 (row_of_None _ _) E x); [by apply list_elem_of_In|done].
  - unfold MemCred.update_sign_count, update_where. rewrite Hget.
    assert (Hf : base.filter (λ r, SqlCred.of_credential host_id credential_id r = true) rows
                 = base.filter (λ r, cred_key r = (host_id, credential_id)) rows)
      by (apply list_filter_iff; intros; apply of_credential_key).
    pose proof (filter_key_le1 cred_key (host_id, credential_id) rows (proj1 Ha)) as Hle. rewrite Hf.
    unfold row_of in *. destruct (base.filter (λ r, cred_key r = _) rows) as [|a [|b l]]; simpl in *; [done|done|lia].
  - unfold SqlCred.list_credentials, MemCred.list_credentials. rewrite <- (proj2 Ha), select_perm.
    clear. induction rows as [|r rows IH]; [done|]. rewrite filter_cons. simpl.
    destruct (String.eqb (cr_host_id r) host_id); simpl; by rewrite IH.
Qed.

#[local] Instance demo_scan : SqlScan := {| scan := λ R l, reverse l; scan_perm := λ R l, reverse_Permutation l |}.
#[local] Instance demo_readers : Readers := {|
  iso_read := λ s, if String.eqb s (isoformat 0) then Some (Aware 0 0) else None;
  loads := λ _, None |}.

Lemma sqlite_credentials_refine_memory_witness :
  SqlCred.get_credential "h" [1] (fst (SqlCred.save_credential "h" [1] [2] 7 []))
  = MemCred.get_credential "h" [1] (MemCred.save_credential "h" [1] [2] 7 []).
Proof.
  assert (H1 : creds_agree (fst (SqlCred.save_credential "h" [1] [2] 7 [])) (MemCred.save_credential "h" [1] [2] 7 [])).
  { apply sqlite_credentials_refine_memory; [|lia]. split; [constructor|done]. }
  apply (sqlite_credentials_refine_memory _ _ "h" [1] [2] 7 H1). lia.
Defined.

Definition demo_metrics : SLAMetrics := mkSlaMetrics "urn:a" (Aware 0 0) (Aware 0 0) 99 10 1 5 0.
Definition demo_breach : SLABreach := mkBreach "b1" "urn:a" "latency" "1" "2" "warning" (Aware 0 0) None.

Lemma sqlite_sla_refines_memory_witness :
  snd (SqlSla.count_metrics (mkPeriod None None None) (mkRepo false None)) = Ret 0.
Proof.
  assert (Hd : utc_date (Aware 0 0)) by (vm_compute; done).
  apply (sqlite_sla_refines_memory (mkRepo false None) MemSla.init demo_metrics demo_breach
           (mkPeriod None None None) None 0 0).
  - split; try done; constructor.
  - split_and!; try exact Hd; vm_compute; done.
  - split; [exact Hd|done].
  - set_solver.
  - done.
  - lia.
  - done.
  - constructor.
  - constructor.
Defined.
