(* ===== verification/Market.v ===== *)
(** * The marketplace client

    `src/src/asap/discovery/registry.py` (the Lite Registry and its cache) and
    `src/src/asap/client/` (retries on 429, the registry cache's lifetime,
    revocation, trust, [MarketClient] and [ResolvedAgent]).

    What a GET answers is an input, for each URL and attempt: a status that is an
    error, with the header `Retry-After` and the time to its HTTP date, another
    failure, or the parsed body.  The lock of a URL is held while its registry is
    fetched, so calls for one URL run one after another, and calls for different
    URLs touch different entries of the cache.  Clock readings are in
    microseconds, delays rationals of seconds.  Of a manifest, [manifest_view] is
    what the code reads.  The date of a verification and the `updated_at` of a
    registry are carried as the texts JSON gives them; log lines are left out. *)

From Stdlib Require Import ZArith QArith Lia Ascii String.
From stdpp Require Import base tactics list gmap strings.
From S2P Require Import Prelude PyValue Identity Errors EnvelopeGuard Digest Handlers JsonRpc Signing DelegationJwt Discovery Client.
Open Scope string_scope.
Open Scope Z_scope.
Open Scope asap_scope.

(** ** The Lite Registry *)
Definition DEFAULT_REGISTRY_URL : string := "https://asap-protocol.github.io/registry/registry.json".
Definition DEFAULT_REGISTRY_TTL_SECONDS : Z := 900.
Definition REGISTRY_CATEGORIES : list string :=
  ["Research"; "Coding"; "Productivity"; "Data"; "Security"; "Infrastructure"; "Creative"; "Finance"; "Other"].

Inductive VerificationState : Type := VsVerified | VsPending | VsRejected.
#[export] Instance VerificationState_eq_dec : EqDecision VerificationState.
Proof. solve_decision. Defined.

Record VerificationStatus : Type := mkVerification {
  vs_status : VerificationState;
  vs_verified_at : option string
}.

Record RegistryEntry : Type := mkEntry {
  re_id : string;
  re_name : string;
  re_description : string;
  re_endpoints : list (string * string);
  re_skills : list string;
  re_category : option string;
  re_tags : list string;
  re_asap_version : string;
  re_repository_url : option string;
  re_documentation_url : option string;
  re_built_with : option string;
  re_verification : option VerificationStatus;
  re_online_check : option bool;
  re_hardware_class : option string;
  re_inference_modes : list string;
  re_hardware_io : list string
}.

Record LiteRegistry : Type := mkRegistryFile {
  lr_version : string;
  lr_updated_at : string;
  lr_agents : list RegistryEntry
}.

Definition normalize_category (v : option string) : option string :=
  match v with
  | None => None
  | Some v =>
      if negb (PyStr.nonblank v) then None
      else
        let v := PyStr.strip v in
        Some (default v (List.find (λ canonical, String.eqb (PyStr.lower v) (PyStr.lower canonical)) REGISTRY_CATEGORIES))
  end.

Definition find_by_skill (registry : LiteRegistry) (skill : string) : list RegistryEntry :=
  List.filter (λ e, str_in skill (re_skills e)) (lr_agents registry).
Definition find_by_hardware_class (registry : LiteRegistry) (cls : string) : list RegistryEntry :=
  List.filter (λ e, bool_decide (re_hardware_class e = Some cls)) (lr_agents registry).
Definition find_by_inference_mode (registry : LiteRegistry) (mode : string) : list RegistryEntry :=
  List.filter (λ e, str_in mode (re_inference_modes e)) (lr_agents registry).
Definition find_by_io (registry : LiteRegistry) (io_type : string) : list RegistryEntry :=
  List.filter (λ e, str_in io_type (re_hardware_io e)) (lr_agents registry).
Definition find_by_id (registry : LiteRegistry) (agent_id : string) : option RegistryEntry :=
  List.find (λ e, String.eqb (re_id e) agent_id) (lr_agents registry).

(** What the code reads of a manifest. *)
Record manifest_view : Type := mkView {
  mv_id : string;
  mv_name : string;
  mv_description : string;
  mv_skills : list string;
  mv_asap_version : string;
  (** `capabilities.hardware`: its class and I/O types *)
  mv_hardware : option (option string * list string);
  (** `capabilities.inference.modes` *)
  mv_inference : option (list string);
  mv_endpoint_asap : string;
  mv_endpoint_events : option string
}.

(** `hardware_class`, `hardware_io` and `inference_modes`, or their defaults. *)
Definition derive_registry_hardware_fields (manifest : manifest_view) : option string * list string * list string :=
  let '(cls, io) := match mv_hardware manifest with Some h => h | None => (None, []) end in
  (cls, io, default [] (mv_inference manifest)).

Definition given_text (o : option string) : option string :=
  match o with
  | Some s => if PyStr.truthy s && PyStr.truthy (PyStr.strip s) then Some (PyStr.strip s) else None
  | None => None
  end.

(** The validator of the id; the other fields have the types of the record. *)
Definition generate_registry_entry (manifest : manifest_view) (endpoints : list (string * string))
    (repository_url documentation_url built_with category : option string) (tags : list string) : res pyexn RegistryEntry :=
  let '(cls, io, modes) := derive_registry_hardware_fields manifest in
  let! id := validate_agent_urn (mv_id manifest) in
  Ret (mkEntry id (mv_name manifest) (mv_description manifest) endpoints (mv_skills manifest) (normalize_category category)
         tags (mv_asap_version manifest) (given_text repository_url) (given_text documentation_url) (given_text built_with)
         None None cls modes io).

(** *** Fetching *)
Inductive fetched (A : Type) : Type :=
| GotStatus (status : Z) (retry_after : option string) (date : option Q)
| GotError (e : exn)
| Got (a : A).
Arguments GotStatus {A} status retry_after date.
Arguments GotError {A} e.
Arguments Got {A} a.

Definition http_status_error (status : Z) : exn := XOther "HTTPStatusError" (PyStr.dec_Z status).

(** `raise_for_status()` *)
Definition got {A} (f : fetched A) : res exn A :=
  match f with GotStatus status _ _ => Raise (http_status_error status) | GotError e => Raise e | Got a => Ret a end.

Definition registry_cache : Type := list (string * (Z * LiteRegistry)).

Definition discover_from_registry (registry_url : string) (ttl_seconds now : Z) (net : fetched LiteRegistry) (c : registry_cache) :
    registry_cache * fetched LiteRegistry :=
  let fetch (c : registry_cache) :=
    match net with
    | Got registry => (PyDict.set registry_url (now + ttl_seconds * 1000000, registry) c, net)
    | _ => (c, net)
    end in
  match PyDict.get registry_url c with
  | Some (expiry, registry) => if now <? expiry then (c, Got registry) else fetch (PyDict.del registry_url c)
  | None => fetch c
  end.

Definition reset_registry_cache (c : registry_cache) : registry_cache := [].

(** ** Retries on 429 *)
Definition MAX_429_RETRIES : nat := 3.
Definition BASE_DELAY_SECONDS : Q := 1.

Definition clamp (lo hi q : Q) : Q :=
  let q := if Qle_bool q hi then q else hi in if Qle_bool lo q then q else lo.

Section Delay.
  Context `{PyRuntime}.

(** The delay the header asks for, if it is usable. *)
Definition asked_delay (retry_after : option string) (date : option Q) : option Q :=
  match retry_after with
  | None => None
  | Some raw =>
      if negb (PyStr.truthy raw) then None
      else if is_delta_seconds raw then
        match float_of_str raw with
        | Some (FFin q) => if qlt_bool 0 q then Some q else None
        | Some (FInf false) => Some 300%Q
        | _ => None
        end
      else match date with Some d => if qlt_bool 0 d then Some d else None | None => None end
  end.

Definition _delay_seconds_for_429 (retry_after : option string) (date : option Q) (attempt : nat) : Q :=
  match asked_delay retry_after date with
  | Some q => clamp (1 # 10) 300 q
  | None => clamp (1 # 10) 60 (BASE_DELAY_SECONDS * inject_Z (2 ^ Z.of_nat attempt))
  end.

(** Attempts from [attempt] on, of which [left] more may follow the first; the
    delays waited and the last answer. *)
Fixpoint retry_429 {S A} (ask : nat → S → S * fetched A) (attempt left : nat) (s : S) : S * list Q * fetched A :=
  match ask attempt s with
  | (s, GotStatus status retry_after date) =>
      match left with
      | O => (s, [], GotStatus status retry_after date)
      | Datatypes.S left' =>
          if status =? 429 then
            let '(s, delays, r) := retry_429 ask (Datatypes.S attempt) left' s in
            (s, _delay_seconds_for_429 retry_after date attempt :: delays, r)
          else (s, [], GotStatus status retry_after date)
      end
  | (s, r) => (s, [], r)
  end.

(** ** The registry of the client *)
Definition DEFAULT_REGISTRY_CACHE_TTL : Z := 300.

Definition _cache_ttl_seconds (env : option string) : Z :=
  match env with
  | None => DEFAULT_REGISTRY_CACHE_TTL
  | Some raw => match py_int (JStr raw) with
                | Ret value => if 0 <? value then value else DEFAULT_REGISTRY_CACHE_TTL
                | Raise _ => DEFAULT_REGISTRY_CACHE_TTL
                end
  end.

(** [net]: the clock and the answer of each attempt. *)
Definition get_registry (registry_url : string) (ttl_seconds : option Z) (ttl_env : option string)
    (net : nat → Z * fetched LiteRegistry) (c : registry_cache) : registry_cache * list Q * res exn LiteRegistry :=
  let ttl := default (_cache_ttl_seconds ttl_env) ttl_seconds in
  let '(c, delays, r) := retry_429 (λ attempt c, discover_from_registry registry_url ttl (net attempt).1 (net attempt).2 c)
                           0 MAX_429_RETRIES c in
  (c, delays, got r).

Definition get_with_429_retry {A} (max_retries : nat) (net : nat → fetched A) : list Q * fetched A :=
  let '(_, delays, r) := retry_429 (λ attempt (_ : unit), (tt, net attempt)) 0 max_retries tt in (delays, r).

End Delay.

(** ** Revocation and trust *)
Definition DEFAULT_REVOKED_URL : string :=
  "https://raw.githubusercontent.com/asap-protocol/asap-protocol/main/revoked_agents.json".

Definition revoked_url_of (revoked_url env : option string) : string :=
  match revoked_url with
  | Some u => if PyStr.truthy u then u else default DEFAULT_REVOKED_URL env
  | None => default DEFAULT_REVOKED_URL env
  end.

(** [in_list urn payload]: the entry of the list names the agent. *)
Definition in_list (urn : string) (payload : json) : bool :=
  match payload with
  | JObj d =>
      match default (JList []) (assoc "revoked" d) with
      | JList l => existsb (λ e, match e with JObj x => py_eq (j_get "urn" x) (JStr urn) | _ => false end) l
      | _ => false
      end
  | _ => false
  end.

(** [net]: the answer of the URL, whose body may be no JSON. *)
Definition is_revoked (urn : string) (revoked_url env : option string) (net : string → fetched (res exn json)) : res exn bool :=
  let! body := got (net (revoked_url_of revoked_url env)) in
  let! payload := body in
  Ret (in_list urn payload).

Definition _get_ca_key_b64 (env : option string) : res exn string :=
  match env with
  | Some key => if PyStr.truthy key then Ret key
                else Raise (XOther "RuntimeError" "ASAP_CA_PUBLIC_KEY environment variable is required. Set it to the base64-encoded ASAP CA public key (fail closed).")
  | None => Raise (XOther "RuntimeError" "ASAP_CA_PUBLIC_KEY environment variable is required. Set it to the base64-encoded ASAP CA public key (fail closed).")
  end.

(** ** Resolving *)
Definition _manifest_url_from_entry (entry : RegistryEntry) : res exn string :=
  match PyDict.get "manifest" (re_endpoints entry) with
  | Some (String _ _ as manifest) => Ret manifest
  | _ =>
      match PyDict.get "http" (re_endpoints entry) with
      | Some (String _ _ as http_base) => Ret (PyStr.rstrip_char "/" http_base ++ WELLKNOWN_MANIFEST_PATH)
      | _ => Raise (XOther "ValueError" ("Registry entry " ++ re_id entry ++ " has no 'manifest' or 'http' endpoint. endpoints=["
                                         ++ joined ", " (map repr_str (PyDict.keys (re_endpoints entry))) ++ "]"))
      end
  end.

Definition DEFAULT_SENDER_URN : string := "urn:asap:agent:sdk-consumer".

Record MarketClient : Type := mkMarket {
  mc_registry_url : string;
  mc_revoked_url : option string;
  mc_auth_token : option string;
  mc_sender_urn : string;
  mc_registry_cache_ttl : option Z
}.

Record market_env : Type := mkMarketEnv {
  me_registry_cache_ttl : option string;
  me_revoked_url : option string;
  me_ca_public_key : option string
}.

Record AgentSummary : Type := mkSummary { su_urn : string; su_name : string; su_skill_ids : list string }.

Section Market.
  Context `{PyRuntime} {M : Type} `{Crypto M} (view : M → manifest_view).

Definition verify_agent_trust (env : market_env) (signed_manifest : SignedManifest M) : res exn bool :=
  let! key := _get_ca_key_b64 (me_ca_public_key env) in
  verify_ca_signature signed_manifest [inl key].

Record ResolvedAgent : Type := mkResolved { ra_manifest : M; ra_entry : RegistryEntry }.

(** The answers of the network to one call. *)
Record market_net : Type := mkNet {
  mn_registry : nat → Z * fetched LiteRegistry;
  (** the manifest at a URL, attempt by attempt; its text may not parse *)
  mn_manifest : string → nat → fetched (res exn (SignedManifest M));
  mn_revoked : string → fetched (res exn json);
  (** whether the trust check fails before the revocation check does *)
  mn_trust_first : bool
}.

(** `asyncio.gather`: the first exception of the two. *)
Definition gather {A B} (left_first : bool) (a : res exn A) (b : res exn B) : res exn (A * B) :=
  match a, b with
  | Ret x, Ret y => Ret (x, y)
  | Raise e, Raise e' => Raise (if left_first then e else e')
  | Raise e, Ret _ | Ret _, Raise e => Raise e
  end.

Definition vet (mc : MarketClient) (env : market_env) (net : market_net) (urn : string) (registry : LiteRegistry) : res exn ResolvedAgent :=
  match find_by_id registry urn with
  | None => Raise (XOther "ValueError" ("Agent not found in registry: " ++ urn))
  | Some entry =>
      let! manifest_url := _manifest_url_from_entry entry in
      let! response := got (get_with_429_retry MAX_429_RETRIES (mn_manifest net manifest_url)).2 in
      let! signed := response in
      let! both := gather (mn_trust_first net) (verify_agent_trust env signed)
                     (is_revoked urn (mc_revoked_url mc) (me_revoked_url env) (mn_revoked net)) in
      if (both.2 : bool) then Raise (raised (AgentRevokedException urn [])) else Ret (mkResolved (sm_manifest signed) entry)
  end.

Definition resolve (mc : MarketClient) (env : market_env) (net : market_net) (urn : string) (c : registry_cache) :
    registry_cache * res exn ResolvedAgent :=
  let '(c, _, r) := get_registry (mc_registry_url mc) (mc_registry_cache_ttl mc) (me_registry_cache_ttl env) (mn_registry net) c in
  (c, let! registry := r in vet mc env net urn registry).

Definition list_agents (mc : MarketClient) (env : market_env) (net : market_net) (c : registry_cache) :
    registry_cache * res exn (list AgentSummary) :=
  let '(c, _, r) := get_registry (mc_registry_url mc) (mc_registry_cache_ttl mc) (me_registry_cache_ttl env) (mn_registry net) c in
  (c, let! registry := r in Ret (map (λ e, mkSummary (re_id e) (re_name e) (re_skills e)) (lr_agents registry))).

(** ** Running a task *)

(** [task_request]: the validation of the payload; [send]: the client of the
    endpoint with its token; [task_response]: the result of a reply that is a
    `TaskResponse`, else the name of its type. *)
Definition run (task_request : json → res exn json) (send : string → option string → Envelope → res exn Envelope)
    (task_response : Envelope → option (list (string * json)) + string) (version : string) (env_id correlation : string) (now : pydatetime)
    (mc : MarketClient) (agent : ResolvedAgent) (payload : json) (auth_token : option string) : res exn (list (string * json)) :=
  let! request := task_request payload in
  let envelope := mkEnvelope (Some env_id) version (Some now) (mc_sender_urn mc) (mv_id (view (ra_manifest agent))) "task.request"
                    request (Some correlation) None false None in
  match PyDict.get "http" (re_endpoints (ra_entry agent)) with
  | Some (String _ _ as http_endpoint) =>
      let token := match auth_token with Some t => Some t | None => mc_auth_token mc end in
      let! response_envelope := send http_endpoint token envelope in
      match task_response response_envelope with
      | inl result => Ret (default [] result)
      | inr name => Raise (XOther "TypeError" ("expected TaskResponse payload from " ++ re_id (ra_entry agent) ++ ", got " ++ name))
      end
  | _ => Raise (XOther "ValueError" ("Agent " ++ re_id (ra_entry agent) ++ " has no 'http' endpoint; cannot run task."))
  end.

End Market.

(** ** Bounded retries *)
Section Facts.
  Context `{PyRuntime}.

Lemma clamp_bounds lo hi q : (lo <= hi)%Q → (lo <= clamp lo hi q <= hi)%Q.
Proof.
  intros Hl. unfold clamp. destruct (Qle_bool q hi) eqn:Hq.
  - apply Qle_bool_iff in Hq. destruct (Qle_bool lo q) eqn:Hlo; [by apply Qle_bool_iff in Hlo|]. split; [apply Qle_refl|done].
  - destruct (Qle_bool lo hi) eqn:Hlo; [split; [done|apply Qle_refl]|]. apply Qle_bool_iff in Hl. congruence.
Qed.

Lemma delay_bounds retry_after date attempt : (1 # 10 <= _delay_seconds_for_429 retry_after date attempt <= 300)%Q.
Proof.
  unfold _delay_seconds_for_429. destruct (asked_delay _ _); [by apply clamp_bounds|].
  destruct (clamp_bounds (1 # 10) 60 (BASE_DELAY_SECONDS * inject_Z (2 ^ Z.of_nat attempt))) as [H1 H2]; [done|].
  split; [done|]. by eapply Qle_trans.
Qed.

(** However the server answers, a request is repeated at most the given number of
    times, only after a 429, each time after a delay between a tenth of a second
    and five minutes; and a 429 is the outcome only when all repetitions are
    used. *)
Theorem retries_are_bounded {S A} (ask : nat → S → S * fetched A) attempt left s :
  let '(_, delays, r) := retry_429 ask attempt left s in
  (length delays <= left)%nat
  ∧ Forall (λ d, (1 # 10 <= d <= 300)%Q) delays
  ∧ ∀ retry_after date, r = GotStatus 429 retry_after date → length delays = left.
Proof.
  revert attempt s. induction left as [|left IH]; intros attempt s; cbn [retry_429].
  - destruct (ask attempt s) as [s' [status ra date|e|a]]; (split_and!; [done|constructor|done]).
  - destruct (ask attempt s) as [s' [status ra date|e|a]]; try (split_and!; [cbn; lia|constructor|done]).
    destruct (Z.eqb_spec status 429) as [Hs|Hs].
    + specialize (IH (Datatypes.S attempt) s'). destruct (retry_429 ask (Datatypes.S attempt) left s') as [[s'' delays] r].
      destruct IH as (Hl & Hd & Hr). split_and!; [cbn; lia|by constructor; [apply delay_bounds|]|].
      intros ra' date' Hr'. cbn. by rewrite (Hr ra' date').
    + split_and!; [cbn; lia|constructor|]. by intros ra' date' [= ? _ _].
Qed.

(** ** The cache *)

(** A registry that was fetched answers every call for its URL until its time is
    up, whatever the network says then; entries of other URLs are not touched. *)
Theorem fetched_registry_is_cached url ttl now net c registry c' :
  0 < ttl → discover_from_registry url ttl now net c = (c', Got registry) →
  (∃ expiry, now < expiry ∧
    ∀ now' ttl' net', now' < expiry → discover_from_registry url ttl' now' net' c' = (c', Got registry))
  ∧ ∀ url', url' ≠ url → PyDict.get url' c' = PyDict.get url' c.
Proof.
  intros Ht Hd.
  assert (Hget : (∃ expiry, PyDict.get url c' = Some (expiry, registry) ∧ now < expiry)
                 ∧ ∀ url', url' ≠ url → PyDict.get url' c' = PyDict.get url' c).
  { unfold discover_from_registry in Hd. destruct (PyDict.get url c) as [[e r]|] eqn:Hg.
    - destruct (Z.ltb_spec now e) as [He|He]; [injection Hd as <- <-; split; [by exists e|done]|].
      destruct net; [done..|]. injection Hd as <- <-. split.
      + exists (now + ttl * 1000000). rewrite PyDict.get_set_eq. split; [done|lia].
      + intros url' Hne. by rewrite PyDict.get_set_ne, PyDict.get_del_ne.
    - destruct net; [done..|]. injection Hd as <- <-. split.
      + exists (now + ttl * 1000000). rewrite PyDict.get_set_eq. split; [done|lia].
      + intros url' Hne. by rewrite PyDict.get_set_ne. }
  destruct Hget as [(e & Hg & Hn) Ho]. split; [|done]. exists e. split; [done|].
  intros now' ttl' net' Hlt. unfold discover_from_registry. rewrite Hg. by rewrite (proj2 (Z.ltb_lt _ _) Hlt).
Qed.

(** ** Resolving *)
Section Resolve.
  Context {M : Type} `{Crypto M}.

(** Where the registry of a call comes from: in one of its attempts the cache had it
    for the client's URL and it had not expired, or the network gave it. *)
Definition registry_of_call (mc : MarketClient) (net : market_net (M := M)) (c : registry_cache) (registry : LiteRegistry) : Prop :=
  ∃ k, (k <= MAX_429_RETRIES)%nat ∧
    ((∃ expiry, (mc_registry_url mc, (expiry, registry)) ∈ c ∧ (mn_registry net k).1 < expiry)
     ∨ (mn_registry net k).2 = Got registry).

Lemma discover_source url ttl now f c c' out : discover_from_registry url ttl now f c = (c', out) →
  (∀ registry, out = Got registry → (∃ expiry, (url, (expiry, registry)) ∈ c ∧ now < expiry) ∨ f = Got registry)
  ∧ ((∀ registry, out ≠ Got registry) → c' ⊆ c).
Proof.
  unfold discover_from_registry. destruct (PyDict.get url c) as [[expiry registry]|] eqn:Hg.
  - destruct (Z.ltb_spec now expiry).
    { intros [= <- <-]. split; [|done]. intros r [= <-]. left. exists expiry. split; [by apply PyDict.get_Some_elem|done]. }
    intros Hd. destruct f as [st ra dt|e|a]; injection Hd as <- <-; (split; [auto|]); intros Hf; [..|by destruct (Hf a)];
      apply PyDict.del_subseteq.
  - intros Hd. destruct f as [st ra dt|e|a]; injection Hd as <- <-; (split; [auto|]); intros Hf; [done..|by destruct (Hf a)].
Qed.

Lemma retry_source mc (net : market_net (M := M)) ttl attempt left c c' delays registry c0 :
  retry_429 (λ attempt c, discover_from_registry (mc_registry_url mc) ttl (mn_registry net attempt).1 (mn_registry net attempt).2 c)
    attempt left c = (c', delays, Got registry) →
  c ⊆ c0 → (left + attempt <= MAX_429_RETRIES)%nat → registry_of_call mc net c0 registry.
Proof.
  revert attempt c delays. induction left as [|left IH]; intros attempt c delays Hr Hc Hl; cbn [retry_429] in Hr;
    (destruct (discover_from_registry _ _ _ _ c) as [c1 out] eqn:Hd); apply discover_source in Hd as [Hgot Hsub];
    (assert (Hdone : ∀ r, out = Got r → r = registry → registry_of_call mc net c0 registry);
      [intros r -> ->; exists attempt; split; [lia|]; destruct (Hgot _ eq_refl) as [(e & He & Hn)|Hn]; [left; exists e; auto|by right]|]).
  - destruct out as [st ra dt|e|a]; simplify_eq. by eapply Hdone.
  - destruct out as [st ra dt|e|a]; simplify_eq; [|by eapply Hdone].
    destruct (st =? 429); [|done].
    destruct (retry_429 _ _ left c1) as [[c2 ds] r2] eqn:Hr2. injection Hr as <- <- ->.
    eapply IH; [exact Hr2| |lia]. etrans; [by apply Hsub|done].
Qed.

(** C31: an agent that resolves was vetted.  Whatever the network answers, when
    [resolve] returns an agent, the registry that the call found unexpired in the
    cache or was given by the network lists an entry with the URN that was asked
    for; the manifest was fetched from the URL of that entry; its signature
    is a proper one under the CA key of the environment and its trust level is
    `verified`; and a revocation list was fetched during the call that does not
    name the URN.  Without a CA key nothing resolves. *)
Theorem resolved_agents_are_vetted mc env (net : market_net (M := M)) urn c c' agent :
  resolve mc env net urn c = (c', Ret agent) →
  ∃ registry manifest_url signed key pk payload,
    registry_of_call mc net c registry ∧ ra_entry agent ∈ lr_agents registry ∧ re_id (ra_entry agent) = urn
    ∧ _manifest_url_from_entry (ra_entry agent) = Ret manifest_url
    ∧ (get_with_429_retry MAX_429_RETRIES (mn_manifest net manifest_url)).2 = Got (Ret signed)
    ∧ ra_manifest agent = sm_manifest signed
    ∧ me_ca_public_key env = Some key ∧ PyStr.truthy key = true
    ∧ properly_signed signed pk ∧ public_key_to_base64 pk = key ∧ detect_trust_level signed = VERIFIED
    ∧ mn_revoked net (revoked_url_of (mc_revoked_url mc) (me_revoked_url env)) = Got (Ret payload)
    ∧ in_list urn payload = false.
Proof.
  unfold resolve, get_registry. destruct (retry_429 _ _ _ _) as [[c1 delays] out] eqn:Hreg.
  destruct out as [| |registry]; cbn [got rbind]; [done..|]. intros [= _ Hv].
  apply (retry_source _ _ _ _ _ _ _ _ _ c) in Hreg; [|done|unfold MAX_429_RETRIES; lia].
  unfold vet in Hv. destruct (find_by_id registry urn) as [entry|] eqn:Hf; [|done].
  destruct (_manifest_url_from_entry entry) as [|url] eqn:Hu; cbn [rbind] in Hv; [done|].
  destruct (get_with_429_retry _ (mn_manifest net url)).2 as [| |body] eqn:Hm; cbn [got rbind] in Hv; [done..|].
  destruct body as [|signed]; cbn [rbind] in Hv; [done|].
  destruct (verify_agent_trust env signed) as [|t] eqn:Ht, (is_revoked _ _ _ _) as [|r] eqn:Hr; cbn [gather rbind] in Hv; try done.
  cbn [snd] in Hv. destruct r; [done|]. injection Hv as <-.
  unfold verify_agent_trust, _get_ca_key_b64 in Ht. destruct (me_ca_public_key env) as [key|] eqn:Hk; [|done].
  destruct (PyStr.truthy key) eqn:Htr; [|done]. cbn [rbind] in Ht.
  apply verify_ca_signature_inv in Ht as (_ & pk & Hs & Hca & Hl). apply list_elem_of_singleton in Hca.
  unfold is_revoked in Hr. destruct (mn_revoked net _) as [| |[|payload]] eqn:Hn; cbn [got rbind] in Hr; try done.
  injection Hr as Hr. apply List.find_some in Hf as [Hin Hid%String.eqb_eq]. rewrite <- list_elem_of_In in Hin.
  by exists registry, url, signed, key, pk, payload.
Qed.

End Resolve.
End Facts.

(** ** Examples *)
Section Examples.
#[local] Instance market_runtime : PyRuntime := {| float_repr := λ _, "1.5"; float_of_str := λ _, None |}.
#[local] Existing Instance ToyCrypto.toy.

Definition demo_signed : SignedManifest octets := sign_with_ca [1; 2] 7 9.
(** The manifest [[1; 2]] is that of the agent `b`. *)
Definition demo_view (m : octets) : manifest_view :=
  mkView (if bool_decide (m = [1; 2]) then "urn:asap:agent:b" else "urn:asap:agent:c") "B" "" [] "2.1" None None "https://b/asap" None.
Definition demo_entry : RegistryEntry :=
  mkEntry "urn:asap:agent:a" "A" "an agent" [("http", "https://a"); ("manifest", "https://a/m.json")] [] None [] "2.1"
    None None None None None None [] [].
Definition demo_market : MarketClient := mkMarket DEFAULT_REGISTRY_URL None None DEFAULT_SENDER_URN None.
Definition demo_env : market_env := mkMarketEnv None None (Some (public_key_to_base64 (ToyCrypto.toy_public 9))).
Definition revoked_b : json := JObj [("revoked", JList [JObj [("urn", JStr "urn:asap:agent:b")]])].
(** The registry asks for a pause once. *)
Definition demo_net (revoked : json) : market_net (M := octets) :=
  mkNet (λ attempt, (Z.of_nat attempt, if decide (attempt = 0)%nat then GotStatus 429 None None else Got (mkRegistryFile "1.0" "2026-01-01T00:00:00Z" [demo_entry])))
    (λ _ _, Got (Ret demo_signed)) (λ _, Got (Ret revoked)) true.

Lemma resolved_agents_are_vetted_witness :
  ∃ registry manifest_url signed key pk payload,
    registry_of_call demo_market (demo_net revoked_b) [] registry ∧ demo_entry ∈ lr_agents registry
    ∧ re_id demo_entry = "urn:asap:agent:a"
    ∧ _manifest_url_from_entry demo_entry = Ret manifest_url
    ∧ (get_with_429_retry MAX_429_RETRIES (mn_manifest (demo_net revoked_b) manifest_url)).2 = Got (Ret signed)
    ∧ [1; 2] = sm_manifest signed
    ∧ me_ca_public_key demo_env = Some key ∧ PyStr.truthy key = true
    ∧ properly_signed signed pk ∧ public_key_to_base64 pk = key ∧ detect_trust_level signed = VERIFIED
    ∧ mn_revoked (demo_net revoked_b) (revoked_url_of (mc_revoked_url demo_market) (me_revoked_url demo_env)) = Got (Ret payload)
    ∧ in_list "urn:asap:agent:a" payload = false.
Proof.
  assert (Hr : ∃ c, resolve demo_market demo_env (demo_net revoked_b) "urn:asap:agent:a" [] = (c, Ret (mkResolved [1; 2] demo_entry)))
    by (eexists; vm_compute; reflexivity).
  destruct Hr as [c Hr]. exact (resolved_agents_are_vetted demo_market demo_env (demo_net revoked_b) "urn:asap:agent:a" [] c _ Hr).
Defined.

(** The manifest is not compared with the URN: the entry of one agent leads to the
    manifest of another, also of one that is revoked, and tasks are addressed to it. *)
Lemma resolve_ignores_the_manifest_id :
  ∃ c, resolve demo_market demo_env (demo_net revoked_b) "urn:asap:agent:a" [] = (c, Ret (mkResolved [1; 2] demo_entry))
    ∧ mv_id (demo_view [1; 2]) = "urn:asap:agent:b"
    ∧ in_list "urn:asap:agent:b" revoked_b = true.
Proof. eexists. split_and!; vm_compute; reflexivity. Qed.

(** A revocation list of another shape counts as empty. *)
Lemma malformed_revocations_revoke_nobody urn :
  in_list urn (JList [JObj [("urn", JStr urn)]]) = false
  ∧ in_list urn (JObj [("revoked", JObj [("urn", JStr urn)])]) = false
  ∧ in_list urn (JObj [("revoked", JList [JStr urn])]) = false.
Proof. done. Qed.

End Examples.
