(* ===== verification/Parts.v ===== *)
(** * Content parts

    `src/src/asap/models/parts.py`: the kinds of content and their union.  The
    parts have only texts and dictionaries, which Pydantic does not convert, so
    their parsing from JSON is written out with its messages. *)

From Stdlib Require Import ZArith QArith Lia Ascii String.
From stdpp Require Import base tactics list gmap strings.
From S2P Require Import Prelude PyValue Identity Errors Digest Signing.
Open Scope string_scope.
Open Scope Z_scope.
Open Scope asap_scope.

(** ** Parts *)
Module Parts.

Definition FILE_URI_PREFIX : string := "file://".

Inductive PartType : Type :=
| TextPart (content : string)
| DataPart (data : list (string * json)) (schema_uri : option string)
| FilePart (uri mime_type : string) (inline_data : option string)
| ResourcePart (resource_uri : string)
| TemplatePart (template : string) (variables : list (string * json)).

Definition validate_uri (v : string) : res pyexn string :=
  if PyStr.contains v ".." then Raise (ValueError ("URI must not contain path traversal (..): " ++ repr_str v))
  else if PyStr.startswith (PyStr.lower (PyStr.strip v)) FILE_URI_PREFIX then
    Raise (ValueError "file:// URIs are not allowed for security (path traversal risk)")
  else Ret v.

Definition mime_char (c : ascii) : bool :=
  let n := PyStr.code c in ((97 <=? n) && (n <=? 122) || (48 <=? n) && (n <=? 57))%nat || Ascii.eqb c "-".
Definition mime_sub_char (c : ascii) : bool := mime_char c || Ascii.eqb c "." || Ascii.eqb c "+".

(** `[..]+$`: at the end, or before a last line feed *)
Fixpoint sub_type (some : bool) (s : string) : bool :=
  match s with
  | EmptyString => some
  | String c s' => if mime_sub_char c then sub_type true s' else some && Ascii.eqb c (ascii_of_nat 10) && String.eqb s' ""
  end.
(** `^[a-z0-9-]+/[a-z0-9.+\-]+$` *)
Fixpoint main_type (some : bool) (s : string) : bool :=
  match s with
  | EmptyString => false
  | String c s' => if mime_char c then main_type true s' else some && Ascii.eqb c "/" && sub_type false s'
  end.

Definition validate_mime_type (v : string) : res pyexn string :=
  if main_type false (PyStr.lower v) then Ret v else Raise (ValueError ("Invalid MIME type format: " ++ v)).

(** `base64.b64decode(v, validate=True)` succeeds: symbols, then at most two `=`,
    in groups of four. *)
Fixpoint symbols_then_pads (s : string) : option nat :=
  match s with
  | EmptyString => Some O
  | String c s' =>
      match Base64.unsym c with
      | Some _ => symbols_then_pads s'
      | None => if String.eqb s "=" then Some 1%nat else if String.eqb s "==" then Some 2%nat else None
      end
  end.
Definition strict_base64 (s : string) : bool :=
  is_some (symbols_then_pads s) && (String.length s mod 4 =? 0)%nat.

Definition validate_base64 (v : option string) : res pyexn (option string) :=
  match v with
  | Some s => if strict_base64 s then Ret v else Raise (ValueError "inline_data must be valid base64")
  | None => Ret None
  end.

(** *** Reading and writing *)

(** A text, a dictionary, or an optional text under a key. *)
Definition need_str (k : string) (d : list (string * json)) : res pyexn string :=
  match assoc k d with Some (JStr s) => Ret s | Some _ => Raise (ValidationError (k ++ ": Input should be a valid string"))
  | None => Raise (ValidationError (k ++ ": Field required")) end.
Definition need_dict (k : string) (d : list (string * json)) : res pyexn (list (string * json)) :=
  match assoc k d with Some (JObj x) => Ret x | Some _ => Raise (ValidationError (k ++ ": Input should be a valid dictionary"))
  | None => Raise (ValidationError (k ++ ": Field required")) end.
Definition maybe_str (k : string) (d : list (string * json)) : res pyexn (option string) :=
  match assoc k d with Some (JStr s) => Ret (Some s) | Some JNull | None => Ret None
  | Some _ => Raise (ValidationError (k ++ ": Input should be a valid string")) end.

(** `extra="forbid"` *)
Definition only (allowed : list string) (d : list (string * json)) : res pyexn unit :=
  match List.find (λ kv, negb (str_in kv.1 allowed)) d with
  | Some (k, _) => Raise (ValidationError (k ++ ": Extra inputs are not permitted"))
  | None => Ret tt
  end.

(** `Part.validate_python(j)`: the class is chosen by `type`.  Of several errors the
    first is reported. *)
Definition validate_part (j : json) : res pyexn PartType :=
  match j with
  | JObj d =>
      match assoc "type" d with
      | Some (JStr tag) =>
          if String.eqb tag "text" then
            let! content := need_str "content" d in
            let! _ := only ["type"; "content"] d in Ret (TextPart content)
          else if String.eqb tag "data" then
            let! data := need_dict "data" d in
            let! schema_uri := maybe_str "schema_uri" d in
            let! _ := only ["type"; "data"; "schema_uri"] d in Ret (DataPart data schema_uri)
          else if String.eqb tag "file" then
            let! uri := need_str "uri" d in
            let! uri := validate_uri uri in
            let! mime_type := need_str "mime_type" d in
            let! mime_type := validate_mime_type mime_type in
            let! inline_data := maybe_str "inline_data" d in
            let! inline_data := validate_base64 inline_data in
            let! _ := only ["type"; "uri"; "mime_type"; "inline_data"] d in Ret (FilePart uri mime_type inline_data)
          else if String.eqb tag "resource" then
            let! resource_uri := need_str "resource_uri" d in
            let! _ := only ["type"; "resource_uri"] d in Ret (ResourcePart resource_uri)
          else if String.eqb tag "template" then
            let! template := need_str "template" d in
            let! variables := need_dict "variables" d in
            let! _ := only ["type"; "template"; "variables"] d in Ret (TemplatePart template variables)
          else Raise (ValidationError "Input tag does not match any of the expected tags")
      | Some _ => Raise (ValidationError "Input tag does not match any of the expected tags")
      | None => Raise (ValidationError "Unable to extract tag using discriminator 'type'")
      end
  | _ => Raise (ValidationError "Input should be a valid dictionary")
  end.

Definition opt_text (o : option string) : json := match o with Some s => JStr s | None => JNull end.

(** `part.model_dump()` *)
Definition dump_part (p : PartType) : json :=
  match p with
  | TextPart content => JObj [("type", JStr "text"); ("content", JStr content)]
  | DataPart data schema_uri => JObj [("type", JStr "data"); ("data", JObj data); ("schema_uri", opt_text schema_uri)]
  | FilePart uri mime_type inline_data =>
      JObj [("type", JStr "file"); ("uri", JStr uri); ("mime_type", JStr mime_type); ("inline_data", opt_text inline_data)]
  | ResourcePart resource_uri => JObj [("type", JStr "resource"); ("resource_uri", JStr resource_uri)]
  | TemplatePart template variables => JObj [("type", JStr "template"); ("template", JStr template); ("variables", JObj variables)]
  end.

(** What the validators promise of a part. *)
Definition part_ok (p : PartType) : Prop :=
  match p with
  | FilePart uri mime_type inline_data =>
      PyStr.contains uri ".." = false ∧ PyStr.startswith (PyStr.lower (PyStr.strip uri)) FILE_URI_PREFIX = false
      ∧ main_type false (PyStr.lower mime_type) = true
      ∧ match inline_data with Some s => strict_base64 s = true | None => True end
  | _ => True
  end.

Lemma file_checks uri mime inline :
  (let! _ := validate_uri uri in let! _ := validate_mime_type mime in let! _ := validate_base64 inline in Ret tt) = Ret tt
  ↔ part_ok (FilePart uri mime inline).
Proof.
  unfold validate_uri, validate_mime_type, validate_base64, part_ok.
  destruct (PyStr.contains uri ".."); cbn [rbind]; [split; [done|by intros [? _]]|].
  destruct (PyStr.startswith _ _); cbn [rbind]; [split; [done|by intros (_ & ? & _)]|].
  destruct (main_type false _); cbn [rbind]; [|split; [done|by intros (_ & _ & ? & _)]].
  destruct inline as [s|]; [destruct (strict_base64 s)|]; cbn [rbind]; split; try done. by intros (_ & _ & _ & ?).
Qed.

Lemma validate_uri_ret uri x : validate_uri uri = Ret x → x = uri.
Proof. unfold validate_uri. destruct (PyStr.contains _ _); [done|]. destruct (PyStr.startswith _ _); [done|]. by intros [= <-]. Qed.
Lemma validate_mime_ret m x : validate_mime_type m = Ret x → x = m.
Proof. unfold validate_mime_type. destruct (main_type _ _); [by intros [= <-]|done]. Qed.
Lemma validate_base64_ret v x : validate_base64 v = Ret x → x = v.
Proof. unfold validate_base64. destruct v as [s|]; [destruct (strict_base64 s); [by intros [= <-]|done]|by intros [= <-]]. Qed.

(** Parts read back as they were written, and whatever is read is within the
    promises of the validators: a file part that is accepted has no `..` in its
    URI, is not a `file://` URI in any case or padding, and its inline data is
    base64. *)
Theorem parts_roundtrip p : part_ok p ↔ validate_part (dump_part p) = Ret p.
Proof.
  split.
  - destruct p as [c|d [u|]|uri mime inline|u|t v]; try done. intros Hok%file_checks.
    assert (Hi : ∀ rest, maybe_str "inline_data" (("inline_data", opt_text inline) :: rest) = Ret inline) by (by destruct inline).
    cbn -[validate_uri validate_mime_type validate_base64 maybe_str only].
    destruct (validate_uri uri) as [e|x] eqn:E1; cbn [rbind] in *; [done|]. apply validate_uri_ret in E1 as ->.
    destruct (validate_mime_type mime) as [e|x] eqn:E2; cbn [rbind] in *; [done|]. apply validate_mime_ret in E2 as ->.
    replace (maybe_str "inline_data" _) with (Ret (E := pyexn) inline) by (by destruct inline). cbn [rbind].
    destruct (validate_base64 inline) as [e|x] eqn:E3; cbn [rbind] in *; [done|]. apply validate_base64_ret in E3 as ->. done.
  - destruct p as [c|d u|uri mime inline|u|t v]; try done. intros Hv. apply file_checks. revert Hv.
    cbn -[validate_uri validate_mime_type validate_base64 maybe_str only].
    destruct (validate_uri uri) as [e|x] eqn:E1; cbn [rbind]; [done|].
    destruct (validate_mime_type mime) as [e|x'] eqn:E2; cbn [rbind]; [done|].
    replace (maybe_str "inline_data" _) with (Ret (E := pyexn) inline) by (by destruct inline). cbn [rbind].
    by destruct (validate_base64 inline) as [e|x''] eqn:E3.
Qed.

Lemma read_part_ok j p : validate_part j = Ret p → part_ok p.
Proof.
  unfold validate_part. destruct j as [| | | | | |d]; try done. destruct (assoc "type" d) as [[]|]; try done.
  repeat match goal with |- context [if String.eqb ?a ?b then _ else _] => destruct (String.eqb a b) end; try done;
    repeat match goal with
      | |- context [rbind ?m _] => destruct m eqn:?; cbn [rbind]; [done|]
      end; intros [= <-]; try done.
  apply file_checks.
  repeat match goal with
    | H : validate_uri _ = Ret _ |- _ => pose proof (validate_uri_ret _ _ H); subst; rewrite H; clear H
    | H : validate_mime_type _ = Ret _ |- _ => pose proof (validate_mime_ret _ _ H); subst; rewrite H; clear H
    | H : validate_base64 _ = Ret _ |- _ => pose proof (validate_base64_ret _ _ H); subst; rewrite H; clear H
    end. done.
Qed.

(** The description of `uri` lists `asap://`, `https://` and `data:`; any other
    scheme but `file://` passes too, also a percent-encoded way up. *)
Lemma any_scheme_accepted :
  map validate_uri ["http://10.0.0.1/x"; "javascript:alert(1)"; "file:/etc/passwd"; "https://a/%2e%2e/b"]
  = map Ret ["http://10.0.0.1/x"; "javascript:alert(1)"; "file:/etc/passwd"; "https://a/%2e%2e/b"].
Proof. vm_compute. reflexivity. Qed.

(** The pattern of MIME types lets a last line feed through. *)
Lemma mime_newline_accepted : validate_mime_type ("text/plain" ++ newline) = Ret ("text/plain" ++ newline).
Proof. vm_compute. reflexivity. Qed.

End Parts.
