(* ===== verification/Fields.v ===== *)
(** * Fields of a model

    How a subclass of `ASAPBaseModel` (`src/src/asap/models/base.py`) reads a
    dictionary and is written back: a [codec] for the type of a field, [fields] for
    the fields of a class in their order.  The models are frozen, forbid unknown
    keys and validate their defaults.

    Pydantic converts some values that are not of the declared type (the text `5`
    to an integer, for instance), and whether its bounds let NaN through is its own
    matter: both are a parameter, [Coercions], of which only what it does with a
    value of the declared type is assumed.  A failure carries the place of the first
    error; an exception that Pydantic does not turn into a `ValidationError` (one
    that is not a `ValueError`) escapes. *)

From Stdlib Require Import ZArith QArith Lia Ascii String.
From stdpp Require Import base tactics list gmap strings.
From S2P Require Import Prelude PyValue Errors JsonRpc.
Open Scope string_scope.
Open Scope Z_scope.
Open Scope asap_scope.

Inductive model_failure : Type :=
| Invalid (loc : string)
| Escaping (e : res pyexn ASAPError).

Class Coercions : Type := {
  to_int : json → option Z;
  to_float : json → option pyfloat;
  to_bool : json → option bool;
  nan_in_bounds : bool
}.

Class CoercionLaws `{Coercions} : Prop := {
  to_int_int : ∀ z, to_int (JInt z) = Some z;
  to_float_float : ∀ f, to_float (JFloat f) = Some f;
  to_bool_bool : ∀ b, to_bool (JBool b) = Some b
}.

(** ** Types of fields *)
Record codec (A : Type) : Type := mkCodec {
  decode : json → res model_failure A;
  encode : A → json;
  (** what a value that was read satisfies *)
  fits : A → Prop
}.
Arguments mkCodec {A} _ _ _.
Arguments decode {A} _ _.
Arguments encode {A} _ _.
Arguments fits {A} _ _.

Class Lawful {A} (c : codec A) : Prop := {
  decode_encode : ∀ a, fits c a → decode c (encode c a) = Ret a;
  decode_fits : ∀ j a, decode c j = Ret a → fits c a
}.
Class NotNull {A} (c : codec A) : Prop := encode_not_null : ∀ a, encode c a ≠ JNull.

Definition ok_or {A} (loc : string) (o : option A) : res model_failure A :=
  match o with Some a => Ret a | None => Raise (Invalid loc) end.

Definition text : codec string :=
  mkCodec (λ j, match j with JStr s => Ret s | _ => Raise (Invalid "string_type") end) JStr (λ _, True).
Definition dict : codec obj :=
  mkCodec (λ j, match j with JObj d => Ret d | _ => Raise (Invalid "dict_type") end) JObj (λ _, True).

(** `A | None` *)
Definition opt {A} (c : codec A) : codec (option A) :=
  mkCodec (λ j, match j with JNull => Ret None | _ => let! a := decode c j in Ret (Some a) end)
          (λ o, match o with Some a => encode c a | None => JNull end)
          (λ o, match o with Some a => fits c a | None => True end).

Fixpoint decode_all {A} (c : codec A) (l : list json) : res model_failure (list A) :=
  match l with
  | [] => Ret []
  | j :: l' => let! a := decode c j in let! r := decode_all c l' in Ret (a :: r)
  end.
(** `list[A]` *)
Definition list_of {A} (c : codec A) : codec (list A) :=
  mkCodec (λ j, match j with JList l => decode_all c l | _ => Raise (Invalid "list_type") end)
          (λ l, JList (map (encode c) l)) (Forall (fits c)).

(** A field constraint or a field validator. *)
Definition such_that {A} (p : A → bool) (c : codec A) : codec A :=
  mkCodec (λ j, let! a := decode c j in if p a then Ret a else Raise (Invalid "value_error"))
          (encode c) (λ a, fits c a ∧ p a = true).

(** A `str` enumeration, or a `Literal` *)
Definition enum {A} (members : list A) (value : A → string) : codec A :=
  mkCodec (λ j, match j with
                | JStr s => ok_or "enum" (List.find (λ a, String.eqb (value a) s) members)
                | _ => Raise (Invalid "enum") end)
          (λ a, JStr (value a)) (λ a, a ∈ members).

Section Numbers.
  Context `{Coercions}.

Definition integer : codec Z := mkCodec (λ j, ok_or "int_type" (to_int j)) JInt (λ _, True).
Definition number : codec pyfloat := mkCodec (λ j, ok_or "float_type" (to_float j)) JFloat (λ _, True).
Definition boolean : codec bool := mkCodec (λ j, ok_or "bool_type" (to_bool j)) JBool (λ _, True).

(** `ge=lo` and `le=hi` of a float *)
Definition within (lo hi : pyfloat) (f : pyfloat) : bool :=
  match f with FNan => nan_in_bounds | _ => negb (num_lt f lo) && negb (num_lt hi f) end.
Definition at_least (n : Z) : codec Z := such_that (λ z, n <=? z) integer.
End Numbers.

(** ** Classes *)
Record fields (A : Type) : Type := mkFields {
  keys : list string;
  pick : obj → res model_failure A;
  dump : A → obj;
  valid : A → Prop
}.
Arguments mkFields {A} _ _ _ _.
Arguments keys {A} _.
Arguments pick {A} _ _.
Arguments dump {A} _ _.
Arguments valid {A} _ _.

Class LawfulFields {A} (f : fields A) : Prop := {
  pick_dump : ∀ a d, valid f a → (∀ k, k ∈ keys f → assoc k d = assoc k (dump f a)) → pick f d = Ret a;
  pick_valid : ∀ d a, pick f d = Ret a → valid f a;
  dump_keys : ∀ a k j, (k, j) ∈ dump f a → k ∈ keys f
}.

(** `k: A = Field(default)`; without a default the field is required.  The default
    is validated as well. *)
Definition field {A} (k : string) (c : codec A) (default : option json) : fields A :=
  mkFields [k]
    (λ d, match (match assoc k d with Some j => Some j | None => default end) with
          | Some j => match decode c j with Raise (Invalid loc) => Raise (Invalid (k ++ "." ++ loc)) | r => r end
          | None => Raise (Invalid (k ++ ".missing"))
          end)
    (λ a, [(k, encode c a)]) (fits c).
Definition required {A} (k : string) (c : codec A) : fields A := field k c None.
Definition defaulted {A} (k : string) (c : codec A) (j : json) : fields A := field k c (Some j).
Definition nullable {A} (k : string) (c : codec A) : fields (option A) := field k (opt c) (Some JNull).

(** One field after the others. *)
Definition both {A B} (f : fields A) (g : fields B) : fields (A * B) :=
  mkFields (keys f ++ keys g)%list
    (λ d, let! a := pick f d in let! b := pick g d in Ret (a, b))
    (λ p, dump f p.1 ++ dump g p.2)%list (λ p, valid f p.1 ∧ valid g p.2).
Notation "f ⊗ g" := (both f g) (at level 60, right associativity) : asap_scope.

(** The fields as a record. *)
Definition record {A B} (to : A → B) (from : B → A) (f : fields A) : fields B :=
  mkFields (keys f) (λ d, let! a := pick f d in Ret (to a)) (λ b, dump f (from b)) (λ b, valid f (from b)).

(** `@model_validator(mode="after")` *)
Definition validated {A} (check : A → res model_failure unit) (f : fields A) : fields A :=
  mkFields (keys f) (λ d, let! a := pick f d in let! _ := check a in Ret a) (dump f)
           (λ a, valid f a ∧ check a = Ret tt).

(** `extra="forbid"` *)
Definition no_extra (ks : list string) (d : obj) : res model_failure unit :=
  match List.find (λ kv, negb (str_in kv.1 ks)) d with
  | Some (k, _) => Raise (Invalid (k ++ ".extra_forbidden"))
  | None => Ret tt
  end.

(** `Class.model_validate(d)` *)
Definition model_validate {A} (f : fields A) (d : obj) : res model_failure A :=
  let! _ := no_extra (keys f) d in pick f d.

(** A model as the type of a field. *)
Definition model {A} (f : fields A) : codec A :=
  mkCodec (λ j, match j with JObj d => model_validate f d | _ => Raise (Invalid "model_type") end)
          (λ a, JObj (dump f a)) (valid f).

(** `extra="allow"`: the other keys are kept beside the fields. *)
Definition others (ks : list string) (d : obj) : obj := filter (λ kv, str_in kv.1 ks = false) d.
Definition open_model {A} (f : fields A) : codec (A * obj) :=
  mkCodec (λ j, match j with
                | JObj d => let! a := pick f d in Ret (a, others (keys f) d)
                | _ => Raise (Invalid "model_type") end)
          (λ p, JObj (dump f p.1 ++ p.2)%list)
          (λ p, valid f p.1 ∧ Forall (λ kv, str_in kv.1 (keys f) = false) p.2).

(** ** The laws *)
#[export] Instance text_lawful : Lawful text.
Proof. split; [done|]. done. Qed.
#[export] Instance dict_lawful : Lawful dict.
Proof. split; [done|]. done. Qed.
#[export] Instance text_not_null : NotNull text.
Proof. done. Qed.
#[export] Instance dict_not_null : NotNull dict.
Proof. done. Qed.
#[export] Instance list_not_null {A} (c : codec A) : NotNull (list_of c).
Proof. done. Qed.
#[export] Instance enum_not_null {A} members (value : A → string) : NotNull (enum members value).
Proof. done. Qed.
#[export] Instance such_that_not_null {A} p (c : codec A) `{!NotNull c} : NotNull (such_that p c).
Proof. done. Qed.
#[export] Instance model_not_null {A} (f : fields A) : NotNull (model f).
Proof. done. Qed.
#[export] Instance open_model_not_null {A} (f : fields A) : NotNull (open_model f).
Proof. done. Qed.

#[export] Instance such_that_lawful {A} p (c : codec A) `{!Lawful c} : Lawful (such_that p c).
Proof.
  split; cbn.
  - intros a [Hf Hp]. by rewrite (decode_encode (c := c)) by done; cbn; rewrite Hp.
  - intros j a. destruct (decode c j) as [e|b] eqn:E; cbn; [done|]. destruct (p b) eqn:Hp; [|done].
    intros [= <-]. split; [by eapply decode_fits|done].
Qed.

#[export] Instance opt_lawful {A} (c : codec A) `{!Lawful c, !NotNull c} : Lawful (opt c).
Proof.
  split; cbn.
  - intros [a|] Hf; [|done]. pose proof (encode_not_null (c := c) a). rewrite (decode_encode (c := c)) by done.
    by destruct (encode c a).
  - intros j [a|]; [|done]. destruct (decode c j) as [e|b] eqn:E; destruct j; cbn; try done;
      intros [= <-]; by eapply decode_fits.
Qed.

Lemma decode_all_encode {A} (c : codec A) `{!Lawful c} l : Forall (fits c) l → decode_all c (map (encode c) l) = Ret l.
Proof. induction 1 as [|a l Ha _ IH]; [done|]. cbn. by rewrite decode_encode by done; cbn; rewrite IH. Qed.
Lemma decode_all_fits {A} (c : codec A) `{!Lawful c} js l : decode_all c js = Ret l → Forall (fits c) l.
Proof.
  revert l. induction js as [|j js IH]; intros l; cbn; [intros [= <-]; constructor|].
  destruct (decode c j) as [e|a] eqn:E; cbn; [done|]. destruct (decode_all c js) as [e|r]; cbn; [done|].
  intros [= <-]. constructor; [by eapply decode_fits|by apply IH].
Qed.
#[export] Instance list_lawful {A} (c : codec A) `{!Lawful c} : Lawful (list_of c).
Proof. split; cbn; [by apply decode_all_encode|]. intros j l. destruct j; try done. by apply decode_all_fits. Qed.

Lemma enum_lawful {A} members (value : A → string) :
  Forall (λ a, List.find (λ b, String.eqb (value b) (value a)) members = Some a) members → Lawful (enum members value).
Proof.
  intros Hv. split; cbn.
  - intros a Ha. by rewrite (proj1 (Forall_forall _ _) Hv a Ha).
  - intros j a. destruct j; try done. destruct (List.find _ members) as [b|] eqn:E; [|done]. intros [= <-].
    apply List.find_some in E as [E _]. by apply list_elem_of_In.
Qed.

Section NumberLaws.
  Context `{CoercionLaws}.

#[export] Instance integer_lawful : Lawful integer.
Proof. split; [|done]. intros z _. cbn. by rewrite to_int_int. Qed.
#[export] Instance number_lawful : Lawful number.
Proof. split; [|done]. intros f _. cbn. by rewrite to_float_float. Qed.
#[export] Instance boolean_lawful : Lawful boolean.
Proof. split; [|done]. intros b _. cbn. by rewrite to_bool_bool. Qed.
#[export] Instance integer_not_null : NotNull integer.
Proof. done. Qed.
#[export] Instance number_not_null : NotNull number.
Proof. done. Qed.
#[export] Instance boolean_not_null : NotNull boolean.
Proof. done. Qed.
#[export] Instance at_least_lawful n : Lawful (at_least n).
Proof. unfold at_least. apply _. Qed.
#[export] Instance at_least_not_null n : NotNull (at_least n).
Proof. unfold at_least. apply _. Qed.
End NumberLaws.

Lemma assoc_app {A} k (d d' : list (string * A)) :
  assoc k (d ++ d')%list = match assoc k d with Some v => Some v | None => assoc k d' end.
Proof. induction d as [|[k' v] d IH]; [done|]. cbn. by destruct (String.eqb k k'). Qed.
Lemma assoc_absent {A} k (d : list (string * A)) : (∀ v, (k, v) ∉ d) → assoc k d = None.
Proof.
  induction d as [|[k' v] d IH]; intros Hd; [done|]. cbn. destruct (String.eqb k k') eqn:E.
  - apply String.eqb_eq in E as ->. destruct (Hd v). left.
  - apply IH. intros w Hw. destruct (Hd w). by right.
Qed.

Lemma assoc_key {A} k (d : list (string * A)) : k ∉ map fst d ↔ assoc k d = None.
Proof.
  induction d as [|[k' v] d IH]; cbn; [split; [done|intros _; apply not_elem_of_nil]|]. rewrite not_elem_of_cons, IH.
  destruct (String.eqb_spec k k'); naive_solver.
Qed.

#[export] Instance field_lawful {A} k (c : codec A) default `{!Lawful c} : LawfulFields (field k c default).
Proof.
  split; cbn.
  - intros a d Hf Hd. rewrite (Hd k) by left. rewrite String.eqb_refl. by rewrite decode_encode.
  - intros d a. destruct (match assoc k d with Some j => Some j | None => default end) as [j|]; [|done].
    destruct (decode c j) as [[]|b] eqn:E; try done. intros [= <-]. by eapply decode_fits.
  - intros a k' j Hk. apply list_elem_of_singleton in Hk. injection Hk as -> _. left.
Qed.
#[export] Instance required_lawful {A} k (c : codec A) `{!Lawful c} : LawfulFields (required k c).
Proof. unfold required. apply _. Qed.
#[export] Instance defaulted_lawful {A} k (c : codec A) j `{!Lawful c} : LawfulFields (defaulted k c j).
Proof. unfold defaulted. apply _. Qed.
#[export] Instance nullable_lawful {A} k (c : codec A) `{!Lawful c, !NotNull c} : LawfulFields (nullable k c).
Proof. unfold nullable. apply _. Qed.

(** Two groups of fields have no key in common. *)
Definition apart (ks ks' : list string) : bool := forallb (λ k, negb (str_in k ks')) ks.

Lemma apart_spec ks ks' k : apart ks ks' = true → k ∈ ks → k ∉ ks'.
Proof.
  intros Ha Hk Hk'. apply forallb_forall with (x := k) in Ha; [|by apply list_elem_of_In].
  by rewrite (proj2 (str_in_true k ks') Hk') in Ha.
Qed.

Lemma both_lawful {A B} (f : fields A) (g : fields B) `{!LawfulFields f, !LawfulFields g} :
  apart (keys f) (keys g) = true → LawfulFields (both f g).
Proof.
  intros Ha. split; cbn.
  - intros [a b] d [Hf Hg] Hd. cbn in *.
    rewrite (pick_dump (f := f) a d), (pick_dump (f := g) b d); [done|done| |done|].
    + intros k Hk. rewrite Hd by (apply elem_of_app; by right). rewrite assoc_app.
      rewrite (assoc_absent k (dump f a)); [done|]. intros j Hj%dump_keys. by eapply apart_spec.
    + intros k Hk. rewrite Hd by (apply elem_of_app; by left). rewrite assoc_app.
      rewrite (assoc_absent k (dump g b)); [by destruct (assoc k (dump f a))|].
      intros j Hj%dump_keys. by eapply apart_spec.
  - intros d [a b]. destruct (pick f d) as [e|a'] eqn:Ef; cbn; [done|]. destruct (pick g d) as [e|b'] eqn:Eg; cbn; [done|].
    intros [= <- <-]. split; by eapply pick_valid.
  - intros [a b] k j. cbn. rewrite !elem_of_app. intros [Hk%dump_keys|Hk%dump_keys]; [by left|by right].
Qed.

Lemma record_lawful {A B} (to : A → B) (from : B → A) (f : fields A) `{!LawfulFields f} :
  (∀ b, to (from b) = b) → (∀ a, from (to a) = a) → LawfulFields (record to from f).
Proof.
  intros Ht Hf. split; cbn.
  - intros b d Hv Hd. rewrite (pick_dump (f := f) (from b) d) by done. cbn. by rewrite Ht.
  - intros d b. destruct (pick f d) as [e|a] eqn:E; cbn; [done|]. intros [= <-]. rewrite Hf. by eapply pick_valid.
  - intros b k j. apply dump_keys.
Qed.

#[export] Instance validated_lawful {A} check (f : fields A) `{!LawfulFields f} : LawfulFields (validated check f).
Proof.
  split; cbn.
  - intros a d [Hv Hc] Hd. rewrite (pick_dump (f := f) a d) by done. cbn. by rewrite Hc.
  - intros d a. destruct (pick f d) as [e|b] eqn:E; cbn; [done|]. destruct (check b) as [e|[]] eqn:Ec; cbn; [done|].
    intros [= <-]. split; [by eapply pick_valid|done].
  - intros a k j. apply dump_keys.
Qed.

Lemma no_extra_dump ks d : (∀ k j, (k, j) ∈ d → k ∈ ks) → no_extra ks d = Ret tt.
Proof.
  intros Hd. unfold no_extra. destruct (List.find _ d) as [[k j]|] eqn:E; [|done].
  apply List.find_some in E as [E Hk]. apply list_elem_of_In, Hd, str_in_true in E. cbn in Hk. by rewrite E in Hk.
Qed.

(** What a model writes it reads back, exactly when the value is one it could have
    read. *)
Lemma model_roundtrip {A} (f : fields A) `{!LawfulFields f} a : valid f a ↔ model_validate f (dump f a) = Ret a.
Proof.
  unfold model_validate. rewrite no_extra_dump by (intros k j; apply dump_keys). cbn.
  split; [intros Hv; by apply pick_dump|apply pick_valid].
Qed.
Lemma model_reads_valid {A} (f : fields A) `{!LawfulFields f} d a : model_validate f d = Ret a → valid f a.
Proof. unfold model_validate. destruct (no_extra _ d); cbn; [done|]. apply pick_valid. Qed.

#[export] Instance model_lawful {A} (f : fields A) `{!LawfulFields f} : Lawful (model f).
Proof.
  split; cbn; [intros a; by apply model_roundtrip|].
  intros j a. destruct j; try done. by apply model_reads_valid.
Qed.

Lemma others_dump ks d : (∀ k j, (k, j) ∈ d → k ∈ ks) → filter (λ kv : string * json, str_in kv.1 ks = false) d = [].
Proof.
  induction d as [|[k j] d IH]; intros Hd; [done|]. rewrite filter_cons_False.
  - apply IH. intros k' j' Hk. apply (Hd k' j'). by right.
  - cbn. rewrite (proj2 (str_in_true k ks)); [done|]. apply (Hd k j). left.
Qed.

#[export] Instance open_model_lawful {A} (f : fields A) `{!LawfulFields f} : Lawful (open_model f).
Proof.
  split; cbn.
  - intros [a x] [Hv Hx]. cbn in *. rewrite (pick_dump (f := f) a _ Hv).
    + cbn. unfold others. rewrite filter_app, (filter_all _ x) by done.
      rewrite others_dump; [done|]. intros k j. apply dump_keys.
    + intros k Hk. rewrite assoc_app, (assoc_absent k x); [by destruct (assoc k (dump f a))|].
      intros j Hj. apply (proj1 (Forall_forall _ _) Hx) in Hj. cbn in Hj. apply str_in_true in Hk. by rewrite Hk in Hj.
  - intros j [a x]. destruct j as [| | | | | |d]; try done. destruct (pick f d) as [e|b] eqn:E; cbn; [done|].
    intros [= <- <-]. split; [by eapply pick_valid|]. unfold others. apply Forall_forall.
    intros kv [Hk _]%list_elem_of_filter. exact Hk.
Qed.

(** Finds the laws of a class from those of its fields. *)
Ltac lawful :=
  lazymatch goal with
  | |- LawfulFields (both _ _) => apply both_lawful; [lawful|lawful|vm_compute; reflexivity]
  | |- LawfulFields (record _ _ _) => apply record_lawful; [lawful|intros []; reflexivity|intros; repeat destruct_pair; reflexivity]
  | |- LawfulFields (validated _ _) => apply validated_lawful; lawful
  | |- _ => apply _
  end
with destruct_pair := match goal with p : _ * _ |- _ => destruct p end.
