(* ===== verification/Payloads.v ===== *)
(** * Payloads of messages

    `src/src/asap/models/payloads.py`: the fourteen classes of payloads, their
    constraints and validators, and the registry by which an envelope finds the
    class of its payload (`_parse_payload` and `payload_dict` of
    `src/src/asap/models/envelope.py`). *)

From Stdlib Require Import ZArith QArith Lia Ascii String.
From stdpp Require Import base tactics list gmap strings.
From S2P Require Import Prelude PyValue TaskMachine Errors JsonRpc Fields.
Open Scope string_scope.
Open Scope Z_scope.
Open Scope asap_scope.

(** ** Enumerations *)
Inductive MessageRole : Type := ROLE_USER | ROLE_ASSISTANT | ROLE_SYSTEM.
Definition role_value (r : MessageRole) : string :=
  match r with ROLE_USER => "user" | ROLE_ASSISTANT => "assistant" | ROLE_SYSTEM => "system" end.

Inductive UpdateType : Type := UPDATE_PROGRESS | UPDATE_INPUT_REQUIRED | UPDATE_STATUS_CHANGE.
Definition update_value (u : UpdateType) : string :=
  match u with
  | UPDATE_PROGRESS => "progress" | UPDATE_INPUT_REQUIRED => "input_required" | UPDATE_STATUS_CHANGE => "status_change"
  end.

Inductive AckStatus : Type := ACK_RECEIVED | ACK_PROCESSED | ACK_REJECTED.
Definition ack_value (a : AckStatus) : string :=
  match a with ACK_RECEIVED => "received" | ACK_PROCESSED => "processed" | ACK_REJECTED => "rejected" end.

Definition task_status : codec TaskStatus :=
  enum [SUBMITTED; WORKING; COMPLETED; FAILED; CANCELLED; INPUT_REQUIRED] status_value.
Definition message_role : codec MessageRole := enum [ROLE_USER; ROLE_ASSISTANT; ROLE_SYSTEM] role_value.
Definition update_type : codec UpdateType :=
  enum [UPDATE_PROGRESS; UPDATE_INPUT_REQUIRED; UPDATE_STATUS_CHANGE] update_value.
Definition ack_status : codec AckStatus := enum [ACK_RECEIVED; ACK_PROCESSED; ACK_REJECTED] ack_value.

(** ** Classes *)
Record TaskRequestConfig : Type := mkConfig {
  cfg_timeout_seconds : option Z;
  cfg_priority : option string;
  cfg_idempotency_key : option string;
  cfg_streaming : option bool;
  cfg_persist_state : option bool;
  cfg_model : option string;
  cfg_temperature : option pyfloat
}.
Record TaskMetrics : Type := mkTaskMetrics {
  tm_duration_ms : option Z;
  tm_tokens_in : option Z;
  tm_tokens_out : option Z;
  tm_tokens_used : option Z;
  tm_api_calls : option Z
}.
Record TaskRequest : Type := mkTaskRequest {
  tr_conversation_id : string;
  tr_parent_task_id : option string;
  tr_skill_id : string;
  tr_input : obj;
  tr_config : option TaskRequestConfig
}.
Record TaskStream : Type := mkTaskStream {
  ts_chunk : string;
  ts_progress : option pyfloat;
  ts_final : bool;
  ts_status : option TaskStatus
}.
(** the metrics with their other keys *)
Record TaskResponse : Type := mkTaskResponse {
  tp_task_id : string;
  tp_status : TaskStatus;
  tp_result : option obj;
  tp_final_state : option obj;
  tp_metrics : option (TaskMetrics * obj)
}.
Record TaskUpdate : Type := mkTaskUpdate {
  tu_task_id : string;
  tu_update_type : UpdateType;
  tu_status : TaskStatus;
  tu_progress : option obj;
  tu_input_request : option obj
}.
Record TaskCancel : Type := mkTaskCancel { tc_task_id : string; tc_reason : option string }.
Record MessageSend : Type := mkMessageSend {
  ms_task_id : string;
  ms_message_id : string;
  ms_sender : string;
  ms_role : MessageRole;
  ms_parts : list string
}.
Record StateQuery : Type := mkStateQuery { sq_task_id : string; sq_version : option Z }.
Record StateRestore : Type := mkStateRestore { sr_task_id : string; sr_snapshot_id : string }.
Record ArtifactNotify : Type := mkArtifactNotify { an_artifact_id : string; an_task_id : string; an_name : option string }.
Record McpToolCall : Type := mkMcpToolCall {
  mc_request_id : string;
  mc_tool_name : string;
  mc_arguments : obj;
  mc_mcp_context : option obj
}.
Record McpToolResult : Type := mkMcpToolResult {
  mr_request_id : string;
  mr_success : bool;
  mr_result : option obj;
  mr_error : option string
}.
Record McpResourceFetch : Type := mkMcpResourceFetch { mf_resource_uri : string }.
Record McpResourceData : Type := mkMcpResourceData { md_resource_uri : string; md_content : obj }.
Record MessageAck : Type := mkMessageAck {
  ma_original_envelope_id : string;
  ma_status : AckStatus;
  ma_error : option string
}.

(** ** Validators *)
Definition num_le (a b : pyfloat) : bool := num_lt a b || num_eq a b.

Definition validate_progress_percent (v : option obj) : res pyexn (option obj) :=
  match v with
  | Some d =>
      match assoc "percent" d with
      | Some percent =>
          match num_of percent with
          | None => Raise (ValueError "progress.percent must be a number")
          | Some n =>
              if num_le (FFin 0) n && num_le n (FFin 100) then Ret v
              else Raise (ValueError "progress.percent must be between 0 and 100")
          end
      | None => Ret v
      end
  | None => Ret v
  end.

Definition validate_result_error_exclusivity (r : McpToolResult) : res pyexn unit :=
  if mr_success r then
    if is_none (mr_result r) then Raise (ValueError "result must be provided when success=True")
    else if is_some (mr_error r) then Raise (ValueError "error must be None when success=True")
    else Ret tt
  else
    if is_none (mr_error r) then Raise (ValueError "error must be provided when success=False")
    else if is_some (mr_result r) then Raise (ValueError "result must be None when success=False")
    else Ret tt.

Definition passes {A} (r : res pyexn A) : bool := match r with Ret _ => true | Raise _ => false end.
Definition or_invalid (r : res pyexn unit) : res model_failure unit :=
  match r with Ret _ => Ret tt | Raise _ => Raise (Invalid "value_error") end.

(** ** Fields of the classes *)
Section Models.
  Context `{Coercions}.

Definition task_request_config : fields TaskRequestConfig :=
  record (λ '(a, (b, (c, (d, (e, (f, g)))))), mkConfig a b c d e f g)
    (λ x, (cfg_timeout_seconds x, (cfg_priority x, (cfg_idempotency_key x, (cfg_streaming x,
           (cfg_persist_state x, (cfg_model x, cfg_temperature x)))))))
    (nullable "timeout_seconds" (at_least 1)
     ⊗ nullable "priority" text
     ⊗ nullable "idempotency_key" text
     ⊗ nullable "streaming" boolean
     ⊗ nullable "persist_state" boolean
     ⊗ nullable "model" text
     ⊗ nullable "temperature" (such_that (within (FFin 0) (FFin 2)) number)).

Definition task_metrics : fields TaskMetrics :=
  record (λ '(a, (b, (c, (d, e)))), mkTaskMetrics a b c d e)
    (λ x, (tm_duration_ms x, (tm_tokens_in x, (tm_tokens_out x, (tm_tokens_used x, tm_api_calls x)))))
    (nullable "duration_ms" (at_least 0)
     ⊗ nullable "tokens_in" (at_least 0)
     ⊗ nullable "tokens_out" (at_least 0)
     ⊗ nullable "tokens_used" (at_least 0)
     ⊗ nullable "api_calls" (at_least 0)).

Definition task_request : fields TaskRequest :=
  record (λ '(a, (b, (c, (d, e)))), mkTaskRequest a b c d e)
    (λ x, (tr_conversation_id x, (tr_parent_task_id x, (tr_skill_id x, (tr_input x, tr_config x)))))
    (required "conversation_id" text
     ⊗ nullable "parent_task_id" text
     ⊗ required "skill_id" text
     ⊗ required "input" dict
     ⊗ nullable "config" (model task_request_config)).

Definition task_stream : fields TaskStream :=
  record (λ '(a, (b, (c, d))), mkTaskStream a b c d)
    (λ x, (ts_chunk x, (ts_progress x, (ts_final x, ts_status x))))
    (defaulted "chunk" text (JStr "")
     ⊗ nullable "progress" (such_that (within (FFin 0) (FFin 1)) number)
     ⊗ defaulted "final" boolean (JBool false)
     ⊗ nullable "status" task_status).

Definition task_response : fields TaskResponse :=
  record (λ '(a, (b, (c, (d, e)))), mkTaskResponse a b c d e)
    (λ x, (tp_task_id x, (tp_status x, (tp_result x, (tp_final_state x, tp_metrics x)))))
    (required "task_id" text
     ⊗ required "status" task_status
     ⊗ nullable "result" dict
     ⊗ nullable "final_state" dict
     ⊗ nullable "metrics" (open_model task_metrics)).

Definition task_update : fields TaskUpdate :=
  record (λ '(a, (b, (c, (d, e)))), mkTaskUpdate a b c d e)
    (λ x, (tu_task_id x, (tu_update_type x, (tu_status x, (tu_progress x, tu_input_request x)))))
    (required "task_id" text
     ⊗ required "update_type" update_type
     ⊗ required "status" task_status
     ⊗ field "progress" (such_that (λ v, passes (validate_progress_percent v)) (opt dict)) (Some JNull)
     ⊗ nullable "input_request" dict).

Definition task_cancel : fields TaskCancel :=
  record (λ '(a, b), mkTaskCancel a b) (λ x, (tc_task_id x, tc_reason x))
    (required "task_id" text ⊗ nullable "reason" text).

Definition message_send : fields MessageSend :=
  record (λ '(a, (b, (c, (d, e)))), mkMessageSend a b c d e)
    (λ x, (ms_task_id x, (ms_message_id x, (ms_sender x, (ms_role x, ms_parts x)))))
    (required "task_id" text
     ⊗ required "message_id" text
     ⊗ required "sender" text
     ⊗ required "role" message_role
     ⊗ required "parts" (list_of text)).

Definition state_query : fields StateQuery :=
  record (λ '(a, b), mkStateQuery a b) (λ x, (sq_task_id x, sq_version x))
    (required "task_id" text ⊗ nullable "version" integer).

Definition state_restore : fields StateRestore :=
  record (λ '(a, b), mkStateRestore a b) (λ x, (sr_task_id x, sr_snapshot_id x))
    (required "task_id" text ⊗ required "snapshot_id" text).

Definition artifact_notify : fields ArtifactNotify :=
  record (λ '(a, (b, c)), mkArtifactNotify a b c) (λ x, (an_artifact_id x, (an_task_id x, an_name x)))
    (required "artifact_id" text ⊗ required "task_id" text ⊗ nullable "name" text).

Definition mcp_tool_call : fields McpToolCall :=
  record (λ '(a, (b, (c, d))), mkMcpToolCall a b c d)
    (λ x, (mc_request_id x, (mc_tool_name x, (mc_arguments x, mc_mcp_context x))))
    (required "request_id" text ⊗ required "tool_name" text ⊗ required "arguments" dict ⊗ nullable "mcp_context" dict).

Definition mcp_tool_result : fields McpToolResult :=
  validated (λ r, or_invalid (validate_result_error_exclusivity r))
    (record (λ '(a, (b, (c, d))), mkMcpToolResult a b c d)
      (λ x, (mr_request_id x, (mr_success x, (mr_result x, mr_error x))))
      (required "request_id" text ⊗ required "success" boolean ⊗ nullable "result" dict ⊗ nullable "error" text)).

Definition mcp_resource_fetch : fields McpResourceFetch :=
  record mkMcpResourceFetch mf_resource_uri (required "resource_uri" text).

Definition mcp_resource_data : fields McpResourceData :=
  record (λ '(a, b), mkMcpResourceData a b) (λ x, (md_resource_uri x, md_content x))
    (required "resource_uri" text ⊗ required "content" dict).

Definition message_ack : fields MessageAck :=
  record (λ '(a, (b, c)), mkMessageAck a b c) (λ x, (ma_original_envelope_id x, (ma_status x, ma_error x)))
    (required "original_envelope_id" text ⊗ required "status" ack_status ⊗ nullable "error" text).
End Models.

(** ** The union and the registry *)
Inductive PayloadType : Type :=
| PTaskRequest (p : TaskRequest)
| PTaskStream (p : TaskStream)
| PTaskResponse (p : TaskResponse)
| PTaskUpdate (p : TaskUpdate)
| PTaskCancel (p : TaskCancel)
| PMessageSend (p : MessageSend)
| PStateQuery (p : StateQuery)
| PStateRestore (p : StateRestore)
| PArtifactNotify (p : ArtifactNotify)
| PMcpToolCall (p : McpToolCall)
| PMcpToolResult (p : McpToolResult)
| PMcpResourceFetch (p : McpResourceFetch)
| PMcpResourceData (p : McpResourceData)
| PMessageAck (p : MessageAck).

Section Registry.
  Context `{Coercions}.

(** The class of a payload with its place in the union. *)
Inductive payload_class : Type :=
| PayloadClass {A} (f : fields A) (wrap : A → PayloadType).

Definition class_validate (c : payload_class) (d : obj) : res model_failure PayloadType :=
  match c with PayloadClass f wrap => let! a := model_validate f d in Ret (wrap a) end.

Definition PAYLOAD_TYPE_REGISTRY : list (string * payload_class) :=
  [("taskrequest", PayloadClass task_request PTaskRequest);
   ("taskstream", PayloadClass task_stream PTaskStream);
   ("taskresponse", PayloadClass task_response PTaskResponse);
   ("taskupdate", PayloadClass task_update PTaskUpdate);
   ("taskcancel", PayloadClass task_cancel PTaskCancel);
   ("messagesend", PayloadClass message_send PMessageSend);
   ("statequery", PayloadClass state_query PStateQuery);
   ("staterestore", PayloadClass state_restore PStateRestore);
   ("artifactnotify", PayloadClass artifact_notify PArtifactNotify);
   ("mcptoolcall", PayloadClass mcp_tool_call PMcpToolCall);
   ("mcptoolresult", PayloadClass mcp_tool_result PMcpToolResult);
   ("mcpresourcefetch", PayloadClass mcp_resource_fetch PMcpResourceFetch);
   ("mcpresourcedata", PayloadClass mcp_resource_data PMcpResourceData);
   ("messageack", PayloadClass message_ack PMessageAck)].

(** A payload of a known class, or the dictionary as it came. *)
Inductive payload : Type :=
| Typed (p : PayloadType)
| Untyped (d : obj).

Definition _parse_payload (payload_type : string) (d : obj) : res model_failure payload :=
  match assoc (_normalize_payload_type payload_type) PAYLOAD_TYPE_REGISTRY with
  | None => Ret (Untyped d)
  | Some payload_class => let! p := class_validate payload_class d in Ret (Typed p)
  end.

(** `p.model_dump()` *)
Definition dump_payload (p : PayloadType) : obj :=
  match p with
  | PTaskRequest p => dump task_request p
  | PTaskStream p => dump task_stream p
  | PTaskResponse p => dump task_response p
  | PTaskUpdate p => dump task_update p
  | PTaskCancel p => dump task_cancel p
  | PMessageSend p => dump message_send p
  | PStateQuery p => dump state_query p
  | PStateRestore p => dump state_restore p
  | PArtifactNotify p => dump artifact_notify p
  | PMcpToolCall p => dump mcp_tool_call p
  | PMcpToolResult p => dump mcp_tool_result p
  | PMcpResourceFetch p => dump mcp_resource_fetch p
  | PMcpResourceData p => dump mcp_resource_data p
  | PMessageAck p => dump message_ack p
  end.

Definition payload_dict (p : payload) : obj :=
  match p with Typed p => dump_payload p | Untyped d => d end.

(** ** What the classes promise *)
Definition bounded_by (lo : Z) (o : option Z) : Prop := match o with Some z => lo ≤ z | None => True end.
Definition float_between (lo hi : Q) (o : option pyfloat) : Prop :=
  match o with
  | Some (FFin q) => lo <= q ∧ q <= hi
  | Some (FInf _) => False
  | Some FNan => nan_in_bounds = true
  | None => True
  end%Q.

Definition payload_key (p : PayloadType) : string :=
  match p with
  | PTaskRequest _ => "taskrequest" | PTaskStream _ => "taskstream" | PTaskResponse _ => "taskresponse"
  | PTaskUpdate _ => "taskupdate" | PTaskCancel _ => "taskcancel" | PMessageSend _ => "messagesend"
  | PStateQuery _ => "statequery" | PStateRestore _ => "staterestore" | PArtifactNotify _ => "artifactnotify"
  | PMcpToolCall _ => "mcptoolcall" | PMcpToolResult _ => "mcptoolresult" | PMcpResourceFetch _ => "mcpresourcefetch"
  | PMcpResourceData _ => "mcpresourcedata" | PMessageAck _ => "messageack"
  end.

Definition payload_ok (p : PayloadType) : Prop :=
  match p with
  | PTaskRequest r =>
      match tr_config r with
      | Some c => bounded_by 1 (cfg_timeout_seconds c) ∧ float_between 0 2 (cfg_temperature c)
      | None => True
      end
  | PTaskStream s => float_between 0 1 (ts_progress s)
  | PTaskResponse r =>
      match tp_metrics r with
      | Some (m, extra) =>
          bounded_by 0 (tm_duration_ms m) ∧ bounded_by 0 (tm_tokens_in m) ∧ bounded_by 0 (tm_tokens_out m)
          ∧ bounded_by 0 (tm_tokens_used m) ∧ bounded_by 0 (tm_api_calls m)
          ∧ Forall (λ kv, kv.1 ∉ ["duration_ms"; "tokens_in"; "tokens_out"; "tokens_used"; "api_calls"]) extra
      | None => True
      end
  | PTaskUpdate u =>
      match tu_progress u with
      | Some d => match assoc "percent" d with
                  | Some j => ∃ q, num_of j = Some (FFin q) ∧ (0 <= q)%Q ∧ (q <= 100)%Q
                  | None => True end
      | None => True
      end
  | PMcpToolResult r =>
      if mr_success r then is_Some (mr_result r) ∧ mr_error r = None
      else is_Some (mr_error r) ∧ mr_result r = None
  | _ => True
  end.
End Registry.

(** ** Laws of the classes *)
#[export] Instance task_status_lawful : Lawful task_status.
Proof. apply enum_lawful. repeat constructor. Qed.
#[export] Instance message_role_lawful : Lawful message_role.
Proof. apply enum_lawful. repeat constructor. Qed.
#[export] Instance update_type_lawful : Lawful update_type.
Proof. apply enum_lawful. repeat constructor. Qed.
#[export] Instance ack_status_lawful : Lawful ack_status.
Proof. apply enum_lawful. repeat constructor. Qed.
#[export] Instance task_status_not_null : NotNull task_status.
Proof. done. Qed.

Section Laws.
  Context `{CoercionLaws}.

#[export] Instance task_request_config_lawful : LawfulFields task_request_config.
Proof. unfold task_request_config. lawful. Qed.
#[export] Instance task_metrics_lawful : LawfulFields task_metrics.
Proof. unfold task_metrics. lawful. Qed.
#[export] Instance task_request_lawful : LawfulFields task_request.
Proof. unfold task_request. lawful. Qed.
#[export] Instance task_stream_lawful : LawfulFields task_stream.
Proof. unfold task_stream. lawful. Qed.
#[export] Instance task_response_lawful : LawfulFields task_response.
Proof. unfold task_response. lawful. Qed.
#[export] Instance task_update_lawful : LawfulFields task_update.
Proof. unfold task_update. lawful. Qed.
#[export] Instance task_cancel_lawful : LawfulFields task_cancel.
Proof. unfold task_cancel. lawful. Qed.
#[export] Instance message_send_lawful : LawfulFields message_send.
Proof. unfold message_send. lawful. Qed.
#[export] Instance state_query_lawful : LawfulFields state_query.
Proof. unfold state_query. lawful. Qed.
#[export] Instance state_restore_lawful : LawfulFields state_restore.
Proof. unfold state_restore. lawful. Qed.
#[export] Instance artifact_notify_lawful : LawfulFields artifact_notify.
Proof. unfold artifact_notify. lawful. Qed.
#[export] Instance mcp_tool_call_lawful : LawfulFields mcp_tool_call.
Proof. unfold mcp_tool_call. lawful. Qed.
#[export] Instance mcp_tool_result_lawful : LawfulFields mcp_tool_result.
Proof. unfold mcp_tool_result. lawful. Qed.
#[export] Instance mcp_resource_fetch_lawful : LawfulFields mcp_resource_fetch.
Proof. unfold mcp_resource_fetch. lawful. Qed.
#[export] Instance mcp_resource_data_lawful : LawfulFields mcp_resource_data.
Proof. unfold mcp_resource_data. lawful. Qed.
#[export] Instance message_ack_lawful : LawfulFields message_ack.
Proof. unfold message_ack. lawful. Qed.

Definition payload_valid (p : PayloadType) : Prop :=
  match p with
  | PTaskRequest p => valid task_request p
  | PTaskStream p => valid task_stream p
  | PTaskResponse p => valid task_response p
  | PTaskUpdate p => valid task_update p
  | PTaskCancel p => valid task_cancel p
  | PMessageSend p => valid message_send p
  | PStateQuery p => valid state_query p
  | PStateRestore p => valid state_restore p
  | PArtifactNotify p => valid artifact_notify p
  | PMcpToolCall p => valid mcp_tool_call p
  | PMcpToolResult p => valid mcp_tool_result p
  | PMcpResourceFetch p => valid mcp_resource_fetch p
  | PMcpResourceData p => valid mcp_resource_data p
  | PMessageAck p => valid message_ack p
  end.

(** *** Meaning of the constraints *)
Lemma fits_at_least n o : fits (opt (at_least n)) o ↔ bounded_by n o.
Proof. destruct o as [z|]; cbn; [|done]. rewrite Z.leb_le. tauto. Qed.

Lemma within_between lo hi o :
  fits (opt (such_that (within (FFin lo) (FFin hi)) number)) o ↔ float_between lo hi o.
Proof.
  destruct o as [[q|[]|]|]; cbn; try (split; [by intros [? ?]|done]); try tauto.
  unfold qlt_bool. rewrite !negb_involutive, andb_true_iff, !Qle_bool_iff. tauto.
Qed.

Lemma fits_status s : fits task_status s.
Proof. cbn. destruct s; set_solver. Qed.
Lemma fits_role r : fits message_role r.
Proof. cbn. destruct r; set_solver. Qed.
Lemma fits_update u : fits update_type u.
Proof. cbn. destruct u; set_solver. Qed.
Lemma fits_ack a : fits ack_status a.
Proof. cbn. destruct a; set_solver. Qed.
Lemma fits_text_list (l : list string) : fits (list_of text) l.
Proof. cbn. by apply Forall_forall. Qed.
Lemma fits_opt {A} (c : codec A) o : (∀ a, fits c a) → fits (opt c) o.
Proof. intros Hc. destruct o; cbn; auto. Qed.

Lemma num_le_fin q n : num_le (FFin q) n = true → (∃ p, n = FFin p ∧ (q <= p)%Q) ∨ n = FInf false.
Proof.
  destruct n as [p|[]|]; cbn; try done; [|by right]. intros Hl. left. exists p. split; [done|].
  apply orb_true_iff in Hl as [Hl|Hl]; [|apply Qeq_bool_eq in Hl; rewrite Hl; apply Qle_refl].
  unfold qlt_bool in Hl. apply negb_true_iff in Hl. apply Qnot_lt_le. intros Hlt.
  apply Qlt_le_weak, Qle_bool_iff in Hlt. congruence.
Qed.
Lemma num_le_Qle p q : (p <= q)%Q → num_le (FFin p) (FFin q) = true.
Proof.
  intros Hle. unfold num_le. cbn. apply orb_true_iff. unfold qlt_bool.
  destruct (Qle_bool q p) eqn:E; [right|by left]. apply Qle_bool_iff in E. apply Qeq_bool_iff. by apply Qle_antisym.
Qed.

Lemma percent_spec d :
  passes (validate_progress_percent (Some d)) = true
  ↔ match assoc "percent" d with
    | Some j => ∃ q, num_of j = Some (FFin q) ∧ (0 <= q)%Q ∧ (q <= 100)%Q
    | None => True end.
Proof.
  unfold validate_progress_percent. destruct (assoc "percent" d) as [j|]; [|done].
  destruct (num_of j) as [n|]; [|split; [done|by intros (? & ? & _)]].
  destruct (num_le (FFin 0) n && num_le n (FFin 100)) eqn:E; cbn; split; try done.
  - intros _. apply andb_true_iff in E as [E1 E2]. apply num_le_fin in E1 as [(p & -> & Hp)| ->]; [|done].
    apply num_le_fin in E2 as [(r & [= <-] & Hr)|[=]]. by exists p.
  - intros (q & [= ->] & H1 & H2). by rewrite !num_le_Qle in E.
Qed.

Lemma exclusivity_spec r :
  or_invalid (validate_result_error_exclusivity r) = Ret tt
  ↔ (if mr_success r then is_Some (mr_result r) ∧ mr_error r = None else is_Some (mr_error r) ∧ mr_result r = None).
Proof.
  unfold validate_result_error_exclusivity. destruct (mr_success r), (mr_result r), (mr_error r); cbn; split; try done;
    try (by intros [_ [=]]); by intros [[? [=]] _].
Qed.

Lemma forall_absent ks (x : obj) : Forall (λ kv, str_in kv.1 ks = false) x ↔ Forall (λ kv, kv.1 ∉ ks) x.
Proof. rewrite !Forall_forall. setoid_rewrite <-str_in_true. by setoid_rewrite not_true_iff_false. Qed.

Lemma payload_valid_ok p : payload_valid p ↔ payload_ok p.
Proof.
  destruct p as [r|s|r|u|c|m|q|q|n|c|r|f|d|a]; cbn [payload_valid payload_ok].
  - unfold task_request. cbn [record valid both fst snd required nullable field].
    destruct (tr_config r) as [c|]; cbn [fits opt model]; [|cbn; destruct (tr_parent_task_id r); naive_solver].
    unfold task_request_config. cbn [record valid both fst snd nullable field].
    rewrite fits_at_least, within_between.
    pose proof (λ o, fits_opt text o (λ _, I)) as Ht. pose proof (λ o, fits_opt boolean o (λ _, I)) as Hb.
    specialize (Ht (tr_parent_task_id r)) as Hp. cbn in Hp. cbn. naive_solver.
  - unfold task_stream. cbn [record valid both fst snd defaulted nullable field].
    rewrite within_between. pose proof (fits_opt _ (ts_status s) fits_status). cbn [fits text boolean]. tauto.
  - unfold task_response. cbn [record valid both fst snd required nullable field].
    pose proof (λ o, fits_opt dict o (λ _, I)) as Hd. pose proof (fits_status (tp_status r)) as Hs.
    pose proof (Hd (tp_result r)) as Hr. pose proof (Hd (tp_final_state r)) as Hf.
    destruct (tp_metrics r) as [[m x]|].
    + cbn [opt open_model fits fst snd] in *.
      unfold task_metrics. cbn [record valid both fst snd nullable field keys app]. rewrite !fits_at_least.
      rewrite forall_absent. cbn [fits text] in *. tauto.
    + cbn [opt fits text] in *. tauto.
  - unfold task_update. cbn [record valid both fst snd required nullable field].
    pose proof (fits_status (tu_status u)). pose proof (fits_update (tu_update_type u)).
    pose proof (fits_opt dict (tu_input_request u) (λ _, I)). pose proof (fits_opt dict (tu_progress u) (λ _, I)).
    cbn [such_that fits]. destruct (tu_progress u) as [d|]; [rewrite percent_spec|]; cbn [fits text passes] in *; tauto.
  - unfold task_cancel. cbn. by destruct (tc_reason c).
  - unfold message_send. cbn [record valid both fst snd required field].
    pose proof (fits_role (ms_role m)). pose proof (fits_text_list (ms_parts m)). cbn [fits text] in *. tauto.
  - unfold state_query. cbn. by destruct (sq_version q).
  - by cbn.
  - cbn. by destruct (an_name n).
  - cbn. by destruct (mc_mcp_context c).
  - unfold mcp_tool_result. cbn [validated valid]. rewrite exclusivity_spec.
    cbn [record valid both fst snd required nullable field].
    pose proof (fits_opt dict (mr_result r) (λ _, I)). pose proof (fits_opt text (mr_error r) (λ _, I)).
    cbn [fits text boolean] in *. tauto.
  - by cbn.
  - by cbn.
  - unfold message_ack. cbn [record valid both fst snd required nullable field].
    pose proof (fits_ack (ma_status a)). pose proof (fits_opt text (ma_error a) (λ _, I)). cbn [fits text] in *. tauto.
Qed.

Lemma class_of_roundtrip {A} (f : fields A) `{!LawfulFields f} (wrap : A → PayloadType) a :
  Inj eq eq wrap →
  valid f a ↔ (let! p := class_validate (PayloadClass f wrap) (dump f a) in Ret (Typed p)) = Ret (Typed (wrap a)).
Proof.
  intros Hw. rewrite (model_roundtrip f a). cbn [class_validate]. destruct (model_validate f (dump f a)) as [e|b]; cbn [rbind].
  - split; done.
  - split; [by intros [= ->]|]. intros Hp. injection Hp as Hp. by rewrite (inj wrap _ _ Hp).
Qed.

Lemma class_of_sound {A} (f : fields A) `{!LawfulFields f} (wrap : A → PayloadType) d p :
  class_validate (PayloadClass f wrap) d = Ret p → ∃ a, p = wrap a ∧ valid f a.
Proof.
  cbn. destruct (model_validate f d) as [e|a] eqn:E; cbn; [done|]. intros [= <-]. exists a.
  split; [done|]. by eapply model_reads_valid.
Qed.

Lemma registry_sound k c d p :
  assoc k PAYLOAD_TYPE_REGISTRY = Some c → class_validate c d = Ret p → payload_key p = k ∧ payload_ok p.
Proof.
  unfold PAYLOAD_TYPE_REGISTRY. intros Hc Hd.
  repeat (cbn [assoc] in Hc; destruct (String.eqb k _) eqn:E in Hc;
    [apply String.eqb_eq in E as ->; injection Hc as <-; apply class_of_sound in Hd as (a & -> & Ha); [|apply _];
     split; [done|by apply payload_valid_ok]|clear E]).
  done.
Qed.

Lemma registered_roundtrip p :
  ∃ c, assoc (payload_key p) PAYLOAD_TYPE_REGISTRY = Some c
    ∧ (payload_ok p ↔ (let! q := class_validate c (dump_payload p) in Ret (Typed q)) = Ret (Typed p)).
Proof.
  pose proof (payload_valid_ok p) as Hp.
  destruct p; eexists; (split; [reflexivity|]); rewrite <-Hp; apply (class_of_roundtrip _); by intros ?? [=].
Qed.

(** C5: The type of a payload decides how it is read, however it is spelled
    (`TaskRequest`, `task.request`, `task_request`): a payload of a known type is
    read back from what it dumps to exactly when it keeps the promises of its class;
    whatever is read for a known type is of that class and keeps them, so progress is
    within its bounds and a tool result has a result or an error and never both; and
    a dictionary of an unknown type is left as it is. *)
Theorem payloads_are_typed payload_type :
  (∀ p, payload_key p = _normalize_payload_type payload_type →
        payload_ok p ↔ _parse_payload payload_type (dump_payload p) = Ret (Typed p))
  ∧ (∀ d p, _parse_payload payload_type d = Ret (Typed p) →
            payload_key p = _normalize_payload_type payload_type ∧ payload_ok p)
  ∧ (∀ d, _normalize_payload_type payload_type ∉ map fst PAYLOAD_TYPE_REGISTRY
          ↔ _parse_payload payload_type d = Ret (Untyped d)).
Proof.
  unfold _parse_payload. generalize (_normalize_payload_type payload_type) as k. intros k. split_and!.
  - intros p <-. destruct (registered_roundtrip p) as (c & -> & Hc). done.
  - intros d p. destruct (assoc k _) as [c|] eqn:E; [|done]. destruct (class_validate c d) as [e|q] eqn:Ec; [done|].
    cbn. intros [= ->]. by eapply registry_sound.
  - intros d. rewrite assoc_key. destruct (assoc k PAYLOAD_TYPE_REGISTRY) as [c|]; [|done].
    split; [done|]. by destruct (class_validate c d).
Qed.
End Laws.

(** A validator that converts nothing. *)
Module StrictCoercions.
#[export] Instance strict : Coercions := {
  to_int j := match j with JInt z => Some z | _ => None end;
  to_float j := match j with JFloat f => Some f | JInt z => Some (FFin (inject_Z z)) | _ => None end;
  to_bool j := match j with JBool b => Some b | _ => None end;
  nan_in_bounds := true
}.
#[export] Instance strict_laws : CoercionLaws.
Proof. done. Qed.
End StrictCoercions.

Section PayloadExamples.
Import StrictCoercions.

Definition demo_result : McpToolResult := mkMcpToolResult "r1" true (Some [("n", JInt 3)]) None.

Lemma payloads_are_typed_witness :
  _parse_payload "mcp.tool_result" (dump_payload (PMcpToolResult demo_result)) = Ret (Typed (PMcpToolResult demo_result))
  ∧ ¬ (∃ p, _parse_payload "McpToolResult"
              [("request_id", JStr "r1"); ("success", JBool true); ("result", JObj []); ("error", JStr "late")] = Ret (Typed p)).
Proof.
  split.
  - apply (proj1 (payloads_are_typed "mcp.tool_result")); [vm_compute; reflexivity|]. split; [by eexists|done].
  - intros [p Hp]. vm_compute in Hp. discriminate Hp.
Defined.

(** A progress that is a truth value passes as a number, and so does NaN in a
    stream when Pydantic's bounds let it through. *)
Example odd_progress_accepted :
  passes (validate_progress_percent (Some [("percent", JBool true)])) = true
  ∧ _parse_payload "TaskStream" [("progress", JFloat FNan)] = Ret (Typed (PTaskStream (mkTaskStream "" (Some FNan) false None)))
  ∧ _parse_payload "TaskUpdate" [("task_id", JStr "t"); ("update_type", JStr "progress"); ("status", JStr "working");
                                 ("progress", JObj [("percent", JFloat FNan)])] = Raise (Invalid "progress.value_error").
Proof. vm_compute. done. Qed.

(** The types of which an answer must name its request are known ones. *)
Example correlation_keys_are_registered :
  forallb (λ k, is_some (assoc k PAYLOAD_TYPE_REGISTRY)) CORRELATION_REQUIRED_PAYLOAD_KEYS = true.
Proof. reflexivity. Qed.
End PayloadExamples.
