(* ===== verification/Entities.v ===== *)
(** * Entities

    The entities of `src/src/asap/models/entities.py` beside tasks and snapshots
    ([TaskMachine], [Snapshot]) and the enumerations they use
    (`src/src/asap/models/enums.py`): agents, manifests with what they declare,
    conversations, messages and artifacts.

    Date-times are carried as the texts they are written as; which texts Pydantic
    reads as one is the parameter [moment].  `packaging.Version` is the parameter
    [is_version]. *)

From Stdlib Require Import ZArith QArith Lia Ascii String.
From stdpp Require Import base tactics list gmap strings.
From S2P Require Import Prelude PyValue Errors JsonRpc Sla Market Fields Payloads.
Open Scope string_scope.
Open Scope Z_scope.
Open Scope asap_scope.

(** ** Enumerations *)
Inductive HardwareClass : Type := HwCloud | HwSbc | HwEdgeAccelerator | HwMicrocontroller | HwDesktop.
Definition hardware_class_value (c : HardwareClass) : string :=
  match c with
  | HwCloud => "cloud" | HwSbc => "sbc" | HwEdgeAccelerator => "edge_accelerator"
  | HwMicrocontroller => "microcontroller" | HwDesktop => "desktop"
  end.

Inductive HardwareIoType : Type :=
| IoGpio | IoI2c | IoSpi | IoUart | IoCsiCamera | IoUsbCamera | IoAudioIn | IoAudioOut | IoBluetooth | IoLora | IoBle.
Definition hardware_io_value (t : HardwareIoType) : string :=
  match t with
  | IoGpio => "gpio" | IoI2c => "i2c" | IoSpi => "spi" | IoUart => "uart" | IoCsiCamera => "csi_camera"
  | IoUsbCamera => "usb_camera" | IoAudioIn => "audio_in" | IoAudioOut => "audio_out" | IoBluetooth => "bluetooth"
  | IoLora => "lora" | IoBle => "ble"
  end.

Inductive InferenceMode : Type := InfCloud | InfLocalCpu | InfLocalCuda | InfLocalMetal | InfLocalNpu.
Definition inference_mode_value (m : InferenceMode) : string :=
  match m with
  | InfCloud => "cloud" | InfLocalCpu => "local_cpu" | InfLocalCuda => "local_cuda" | InfLocalMetal => "local_metal"
  | InfLocalNpu => "local_npu"
  end.

Definition verification_value (s : VerificationState) : string :=
  match s with VsVerified => "verified" | VsPending => "pending" | VsRejected => "rejected" end.

Definition hardware_class : codec HardwareClass :=
  enum [HwCloud; HwSbc; HwEdgeAccelerator; HwMicrocontroller; HwDesktop] hardware_class_value.
Definition hardware_io : codec HardwareIoType :=
  enum [IoGpio; IoI2c; IoSpi; IoUart; IoCsiCamera; IoUsbCamera; IoAudioIn; IoAudioOut; IoBluetooth; IoLora; IoBle]
    hardware_io_value.
Definition inference_mode : codec InferenceMode :=
  enum [InfCloud; InfLocalCpu; InfLocalCuda; InfLocalMetal; InfLocalNpu] inference_mode_value.
Definition verification_state : codec VerificationState := enum [VsVerified; VsPending; VsRejected] verification_value.

(** ** Classes *)
Record CommonMetadata : Type := mkCommonMetadata {
  cm_purpose : option string;
  cm_ttl_hours : option Z;
  cm_source : option string;
  cm_timestamp : option string;
  cm_tags : option (list string)
}.
Record LocalModelInfo : Type := mkLocalModel {
  lm_id : option string;
  lm_quantization : option string;
  lm_throughput_tokens_per_second : option pyfloat
}.
Record HardwareCapability : Type := mkHardware {
  hw_class_ : option HardwareClass;
  hw_model : option string;
  hw_io : list HardwareIoType
}.
Record InferenceCapability : Type := mkInference {
  inf_modes : list InferenceMode;
  inf_local_models : list LocalModelInfo
}.
Record Skill : Type := mkSkill {
  sk_id : string;
  sk_description : string;
  sk_input_schema : option obj;
  sk_output_schema : option obj
}.
Record Capability : Type := mkCapability {
  cap_asap_version : string;
  cap_skills : list Skill;
  cap_state_persistence : bool;
  cap_streaming : bool;
  cap_mcp_tools : list string;
  cap_hardware : option HardwareCapability;
  cap_inference : option InferenceCapability
}.
Record Endpoint : Type := mkEndpoint { ep_asap : string; ep_events : option string }.
Record AuthScheme : Type := mkAuthScheme { au_schemes : list string; au_oauth2 : option obj }.
Record Agent : Type := mkAgent { ag_id : string; ag_manifest_uri : string; ag_capabilities : list string }.
Record Manifest : Type := mkManifest {
  mf_id : string;
  mf_name : string;
  mf_version : string;
  mf_description : string;
  mf_capabilities : Capability;
  mf_endpoints : Endpoint;
  mf_supported_versions : list string;
  mf_auth : option AuthScheme;
  mf_signature : option string;
  mf_sla : option SLADefinition;
  mf_verification : option VerificationStatus;
  mf_ttl_seconds : Z
}.
Record Conversation : Type := mkConversation {
  cv_id : string;
  cv_participants : list string;
  cv_created_at : string;
  cv_metadata : option CommonMetadata
}.
Record Message : Type := mkMessage {
  msg_id : string;
  msg_task_id : string;
  msg_sender : string;
  msg_role : MessageRole;
  msg_parts : list string;
  msg_timestamp : string
}.
Record Artifact : Type := mkArtifact {
  art_id : string;
  art_task_id : string;
  art_name : string;
  art_parts : list string;
  art_created_at : string
}.

(** ** Validators *)
Definition SUPPORTED_AUTH_SCHEMES : list string := ["bearer"; "basic"].

Definition _validate_auth_scheme (auth : AuthScheme) : res model_failure unit :=
  match List.find (λ scheme, negb (str_in (PyStr.lower scheme) SUPPORTED_AUTH_SCHEMES)) (au_schemes auth) with
  | Some scheme => Raise (Escaping (UnsupportedAuthSchemeError scheme SUPPORTED_AUTH_SCHEMES []))
  | None => Ret tt
  end.
Definition validate_auth_schemes (m : Manifest) : res model_failure unit :=
  match mf_auth m with Some auth => _validate_auth_scheme auth | None => Ret tt end.

Definition urn : codec string := such_that (λ v, passes (validate_agent_urn v)) text.

(** `_validate_percentage_format` runs before the type is checked: `v.strip()` on
    what is not a text is an `AttributeError`, which escapes. *)
Definition percentage : codec (option string) :=
  mkCodec (λ j, match j with
                | JNull => Ret None
                | JStr s => if passes (validate_percentage_format s) then Ret (Some s) else Raise (Invalid "value_error")
                | _ => Raise (Escaping (Raise (AttributeError ("'" ++ type_name j ++ "' object has no attribute 'strip'"))))
                end)
          (λ o, match o with Some s => JStr s | None => JNull end) (λ o, percentage_field_ok o = true).

(** A field with an alias, either name accepted but not both (the other would be an
    unknown key), written by its alias. *)
Definition aliased {A} (name alias : string) (c : codec A) (default : json) : fields A :=
  mkFields [alias; name]
    (λ d, match assoc alias d, assoc name d with
          | Some _, Some _ => Raise (Invalid (name ++ ".extra_forbidden"))
          | Some j, None | None, Some j =>
              match decode c j with Raise (Invalid loc) => Raise (Invalid (alias ++ "." ++ loc)) | r => r end
          | None, None => decode c default
          end)
    (λ a, [(alias, encode c a)]) (fits c).

(** `min_length=1` *)
Definition not_empty {A} (l : list A) : bool := match l with [] => false | _ => true end.

Section Entities.
  Context `{Coercions} (moment : codec string) (is_version : string → bool).

Definition common_metadata : fields CommonMetadata :=
  record (λ '(a, (b, (c, (d, e)))), mkCommonMetadata a b c d e)
    (λ x, (cm_purpose x, (cm_ttl_hours x, (cm_source x, (cm_timestamp x, cm_tags x)))))
    (nullable "purpose" text
     ⊗ nullable "ttl_hours" (at_least 1)
     ⊗ nullable "source" text
     ⊗ nullable "timestamp" text
     ⊗ nullable "tags" (list_of text)).

(** `ge=0` alone *)
Definition not_negative (f : pyfloat) : bool := match f with FNan => nan_in_bounds | _ => negb (num_lt f (FFin 0)) end.

Definition local_model_info : fields LocalModelInfo :=
  record (λ '(a, (b, c)), mkLocalModel a b c) (λ x, (lm_id x, (lm_quantization x, lm_throughput_tokens_per_second x)))
    (nullable "id" text
     ⊗ nullable "quantization" text
     ⊗ nullable "throughput_tokens_per_second" (such_that not_negative number)).

Definition hardware_capability : fields HardwareCapability :=
  record (λ '(a, (b, c)), mkHardware a b c) (λ x, (hw_class_ x, (hw_model x, hw_io x)))
    (aliased "class_" "class" (opt hardware_class) JNull
     ⊗ nullable "model" (such_that (λ s, (String.length s <=? 100)%nat) text)
     ⊗ defaulted "io" (list_of hardware_io) (JList [])).

Definition inference_capability : fields InferenceCapability :=
  record (λ '(a, b), mkInference a b) (λ x, (inf_modes x, inf_local_models x))
    (defaulted "modes" (list_of inference_mode) (JList [])
     ⊗ defaulted "local_models" (list_of (model local_model_info)) (JList [])).

Definition skill : fields Skill :=
  record (λ '(a, (b, (c, d))), mkSkill a b c d) (λ x, (sk_id x, (sk_description x, (sk_input_schema x, sk_output_schema x))))
    (required "id" text ⊗ required "description" text ⊗ nullable "input_schema" dict ⊗ nullable "output_schema" dict).

Definition capability : fields Capability :=
  record (λ '(a, (b, (c, (d, (e, (f, g)))))), mkCapability a b c d e f g)
    (λ x, (cap_asap_version x, (cap_skills x, (cap_state_persistence x, (cap_streaming x,
           (cap_mcp_tools x, (cap_hardware x, cap_inference x)))))))
    (defaulted "asap_version" text (JStr "0.1")
     ⊗ defaulted "skills" (list_of (model skill)) (JList [])
     ⊗ defaulted "state_persistence" boolean (JBool false)
     ⊗ defaulted "streaming" boolean (JBool false)
     ⊗ defaulted "mcp_tools" (list_of text) (JList [])
     ⊗ nullable "hardware" (model hardware_capability)
     ⊗ nullable "inference" (model inference_capability)).

Definition endpoint : fields Endpoint :=
  record (λ '(a, b), mkEndpoint a b) (λ x, (ep_asap x, ep_events x)) (required "asap" text ⊗ nullable "events" text).

Definition auth_scheme : fields AuthScheme :=
  record (λ '(a, b), mkAuthScheme a b) (λ x, (au_schemes x, au_oauth2 x))
    (required "schemes" (list_of text) ⊗ nullable "oauth2" dict).

Definition verification_status : fields VerificationStatus :=
  record (λ '(a, b), mkVerification a b) (λ x, (vs_status x, vs_verified_at x))
    (required "status" verification_state ⊗ nullable "verified_at" moment).

Definition sla_definition : fields SLADefinition :=
  record (λ '(a, (b, (c, d))), mkSla a b c d)
    (λ x, (sd_availability x, (sd_max_latency_p95_ms x, (sd_max_error_rate x, sd_support_hours x))))
    (defaulted "availability" percentage JNull
     ⊗ nullable "max_latency_p95_ms" (at_least 0)
     ⊗ defaulted "max_error_rate" percentage JNull
     ⊗ nullable "support_hours" text).

Definition agent : fields Agent :=
  record (λ '(a, (b, c)), mkAgent a b c) (λ x, (ag_id x, (ag_manifest_uri x, ag_capabilities x)))
    (required "id" urn ⊗ required "manifest_uri" text ⊗ required "capabilities" (such_that not_empty (list_of text))).

Definition manifest : fields Manifest :=
  validated validate_auth_schemes
    (record (λ '(a, (b, (c, (d, (e, (f, (g, (h, (i, (j, (k, l))))))))))), mkManifest a b c d e f g h i j k l)
      (λ x, (mf_id x, (mf_name x, (mf_version x, (mf_description x, (mf_capabilities x, (mf_endpoints x,
             (mf_supported_versions x, (mf_auth x, (mf_signature x, (mf_sla x, (mf_verification x, mf_ttl_seconds x))))))))))))
      (required "id" urn
       ⊗ required "name" text
       ⊗ required "version" (such_that is_version text)
       ⊗ required "description" text
       ⊗ required "capabilities" (model capability)
       ⊗ required "endpoints" (model endpoint)
       ⊗ defaulted "supported_versions" (such_that not_empty (list_of text)) (JList [JStr "2.2"])
       ⊗ nullable "auth" (model auth_scheme)
       ⊗ nullable "signature" text
       ⊗ nullable "sla" (model sla_definition)
       ⊗ nullable "verification" (model verification_status)
       ⊗ defaulted "ttl_seconds" (at_least 1) (JInt 300))).

Definition conversation : fields Conversation :=
  record (λ '(a, (b, (c, d))), mkConversation a b c d) (λ x, (cv_id x, (cv_participants x, (cv_created_at x, cv_metadata x))))
    (required "id" text
     ⊗ required "participants" (such_that not_empty (list_of text))
     ⊗ required "created_at" moment
     ⊗ nullable "metadata" (model common_metadata)).

Definition message : fields Message :=
  record (λ '(a, (b, (c, (d, (e, f))))), mkMessage a b c d e f)
    (λ x, (msg_id x, (msg_task_id x, (msg_sender x, (msg_role x, (msg_parts x, msg_timestamp x))))))
    (required "id" text
     ⊗ required "task_id" text
     ⊗ required "sender" text
     ⊗ required "role" message_role
     ⊗ required "parts" (list_of text)
     ⊗ required "timestamp" moment).

Definition artifact : fields Artifact :=
  record (λ '(a, (b, (c, (d, e)))), mkArtifact a b c d e)
    (λ x, (art_id x, (art_task_id x, (art_name x, (art_parts x, art_created_at x)))))
    (required "id" text
     ⊗ required "task_id" text
     ⊗ required "name" text
     ⊗ required "parts" (list_of text)
     ⊗ required "created_at" moment).

(** The well-known document: `manifest.model_dump(mode="json", by_alias=True)` *)
Definition get_manifest_json (m : Manifest) : obj := dump manifest m.

(** ** What the classes promise *)
Definition capability_ok (c : Capability) : Prop :=
  match cap_hardware c with Some h => match hw_model h with Some s => (String.length s ≤ 100)%nat | None => True end | None => True end
  ∧ match cap_inference c with
    | Some i => Forall (λ l, match lm_throughput_tokens_per_second l with Some f => not_negative f = true | None => True end)
                       (inf_local_models i)
    | None => True end.

Definition manifest_ok (m : Manifest) : Prop :=
  validate_agent_urn (mf_id m) = Ret (mf_id m)
  ∧ is_version (mf_version m) = true
  ∧ capability_ok (mf_capabilities m)
  ∧ mf_supported_versions m ≠ []
  ∧ match mf_auth m with Some a => Forall (λ s, PyStr.lower s ∈ SUPPORTED_AUTH_SCHEMES) (au_schemes a) | None => True end
  ∧ match mf_sla m with Some d => sla_valid d = true | None => True end
  ∧ match mf_verification m with Some v => match vs_verified_at v with Some t => fits moment t | None => True end | None => True end
  ∧ 1 ≤ mf_ttl_seconds m.
End Entities.

(** What the registry and the client read of a manifest. *)
Definition view_of_manifest (m : Manifest) : manifest_view :=
  let c := mf_capabilities m in
  mkView (mf_id m) (mf_name m) (mf_description m) (map sk_id (cap_skills c)) (cap_asap_version c)
    (option_map (λ h, (option_map hardware_class_value (hw_class_ h), map hardware_io_value (hw_io h))) (cap_hardware c))
    (option_map (λ i, map inference_mode_value (inf_modes i)) (cap_inference c))
    (ep_asap (mf_endpoints m)) (ep_events (mf_endpoints m)).

(** ** Laws *)
#[export] Instance hardware_class_lawful : Lawful hardware_class.
Proof. apply enum_lawful. repeat constructor. Qed.
#[export] Instance hardware_io_lawful : Lawful hardware_io.
Proof. apply enum_lawful. repeat constructor. Qed.
#[export] Instance inference_mode_lawful : Lawful inference_mode.
Proof. apply enum_lawful. repeat constructor. Qed.
#[export] Instance verification_state_lawful : Lawful verification_state.
Proof. apply enum_lawful. repeat constructor. Qed.
#[export] Instance hardware_class_not_null : NotNull hardware_class.
Proof. done. Qed.
#[export] Instance urn_lawful : Lawful urn.
Proof. unfold urn. apply _. Qed.

#[export] Instance percentage_lawful : Lawful percentage.
Proof.
  split; cbn.
  - intros [s|]; [|done]. cbn. by destruct (validate_percentage_format s).
  - intros j a. destruct j; try done; [by intros [= <-]|]. destruct (validate_percentage_format s) eqn:E; cbn; [done|].
    intros [= <-]. cbn. by rewrite E.
Qed.

Lemma aliased_lawful {A} name alias (c : codec A) default `{!Lawful c} :
  String.eqb name alias = false → LawfulFields (aliased name alias c default).
Proof.
  intros Hn. split; cbn.
  - intros a d Hf Hd. rewrite (Hd alias) by left. rewrite (Hd name) by (right; left). cbn.
    by rewrite Hn, String.eqb_refl, decode_encode.
  - intros d a Hp. assert (Hd : ∃ j, decode c j = Ret a); [|destruct Hd as [j Hj]; by eapply decode_fits].
    destruct (assoc alias d) as [j|], (assoc name d) as [j'|]; try done; [exists j|exists j'|by exists default];
      by destruct (decode c _) as [[]|].
  - intros a k j Hk. apply list_elem_of_singleton in Hk. injection Hk as -> _. left.
Qed.

Section Laws.
  Context `{CoercionLaws} (moment : codec string) (is_version : string → bool) `{!Lawful moment, !NotNull moment}.

#[export] Instance common_metadata_lawful : LawfulFields common_metadata.
Proof. unfold common_metadata. lawful. Qed.
#[export] Instance local_model_info_lawful : LawfulFields local_model_info.
Proof. unfold local_model_info. lawful. Qed.
#[export] Instance hardware_capability_lawful : LawfulFields hardware_capability.
Proof. unfold hardware_capability. pose proof (aliased_lawful "class_" "class" (opt hardware_class) JNull eq_refl). lawful. Qed.
#[export] Instance inference_capability_lawful : LawfulFields inference_capability.
Proof. unfold inference_capability. lawful. Qed.
#[export] Instance skill_lawful : LawfulFields skill.
Proof. unfold skill. lawful. Qed.
#[export] Instance capability_lawful : LawfulFields capability.
Proof. unfold capability. lawful. Qed.
#[export] Instance endpoint_lawful : LawfulFields endpoint.
Proof. unfold endpoint. lawful. Qed.
#[export] Instance auth_scheme_lawful : LawfulFields auth_scheme.
Proof. unfold auth_scheme. lawful. Qed.
#[export] Instance verification_status_lawful : LawfulFields (verification_status moment).
Proof. unfold verification_status. lawful. Qed.
#[export] Instance sla_definition_lawful : LawfulFields sla_definition.
Proof. unfold sla_definition. lawful. Qed.
#[export] Instance agent_lawful : LawfulFields agent.
Proof. unfold agent. lawful. Qed.
#[export] Instance manifest_lawful : LawfulFields (manifest moment is_version).
Proof. unfold manifest. lawful. Qed.
#[export] Instance conversation_lawful : LawfulFields (conversation moment).
Proof. unfold conversation. lawful. Qed.
#[export] Instance message_lawful : LawfulFields (message moment).
Proof. unfold message. lawful. Qed.
#[export] Instance artifact_lawful : LawfulFields (artifact moment).
Proof. unfold artifact. lawful. Qed.
End Laws.

(** ** Manifests *)
Section Manifests.
  Context `{CoercionLaws} (moment : codec string) (is_version : string → bool) `{!Lawful moment, !NotNull moment}.

Lemma fits_list {A} (c : codec A) l : (∀ a, fits c a) → fits (list_of c) l.
Proof. intros Hc. apply Forall_forall. auto. Qed.

Lemma valid_skill s : valid skill s.
Proof. cbn. by destruct (sk_input_schema s), (sk_output_schema s). Qed.
Lemma valid_endpoint e : valid endpoint e.
Proof. cbn. by destruct (ep_events e). Qed.
Lemma valid_auth_scheme a : valid auth_scheme a.
Proof. cbn. destruct (au_oauth2 a); (split; [by apply Forall_forall|done]). Qed.

Lemma urn_spec v : fits urn v ↔ validate_agent_urn v = Ret v.
Proof.
  cbn. unfold validate_agent_urn. destruct (_ <? _)%nat; cbn; [split; [by intros []|done]|].
  destruct (negb _); cbn; [split; [by intros []|done]|done].
Qed.

Lemma not_empty_spec (l : list string) : fits (such_that not_empty (list_of text)) l ↔ l ≠ [].
Proof.
  cbn [such_that fits]. pose proof (fits_text_list l). destruct l; cbn [not_empty]; split; try done; by intros [_ [=]].
Qed.

Lemma valid_local_model l :
  valid local_model_info l ↔ match lm_throughput_tokens_per_second l with Some f => not_negative f = true | None => True end.
Proof. cbn. destruct (lm_id l), (lm_quantization l), (lm_throughput_tokens_per_second l); tauto. Qed.

Lemma fits_hw_class (o : option HardwareClass) : fits (opt hardware_class) o.
Proof. apply fits_opt. intros []; cbn; set_solver. Qed.
Lemma fits_hw_io (l : list HardwareIoType) : fits (list_of hardware_io) l.
Proof. apply fits_list. intros []; cbn; set_solver. Qed.
Lemma fits_modes (l : list InferenceMode) : fits (list_of inference_mode) l.
Proof. apply fits_list. intros []; cbn; set_solver. Qed.

Lemma valid_hardware h :
  valid hardware_capability h ↔ match hw_model h with Some s => (String.length s ≤ 100)%nat | None => True end.
Proof.
  unfold hardware_capability. cbn [record valid both fst snd aliased nullable defaulted field].
  pose proof (fits_hw_class (hw_class_ h)). pose proof (fits_hw_io (hw_io h)).
  destruct (hw_model h); cbn [opt such_that fits text]; [rewrite Nat.leb_le|]; tauto.
Qed.
Lemma valid_inference i :
  valid inference_capability i
  ↔ Forall (λ l, match lm_throughput_tokens_per_second l with Some f => not_negative f = true | None => True end) (inf_local_models i).
Proof.
  unfold inference_capability. cbn [record valid both fst snd defaulted field].
  pose proof (fits_modes (inf_modes i)).
  assert (fits (list_of (model local_model_info)) (inf_local_models i)
          ↔ Forall (λ l, match lm_throughput_tokens_per_second l with Some f => not_negative f = true | None => True end)
                   (inf_local_models i)) by (apply Forall_iff; intros; apply valid_local_model).
  tauto.
Qed.

Lemma valid_capability c : valid capability c ↔ capability_ok c.
Proof.
  unfold capability, capability_ok. cbn [record valid both fst snd nullable defaulted field].
  pose proof (fits_list (model skill) (cap_skills c) valid_skill). pose proof (fits_text_list (cap_mcp_tools c)).
  destruct (cap_hardware c) as [h|], (cap_inference c) as [i|]; cbn [opt model fits text boolean] in *;
    rewrite ?valid_hardware, ?valid_inference; tauto.
Qed.

Lemma valid_sla d : valid sla_definition d ↔ sla_valid d = true.
Proof.
  unfold sla_definition, sla_valid. cbn [record valid both fst snd nullable defaulted field]. rewrite fits_at_least.
  pose proof (fits_opt text (sd_support_hours d) (λ _, I)). rewrite !andb_true_iff. cbn [percentage fits].
  destruct (sd_max_latency_p95_ms d) as [ms|]; cbn [bounded_by]; rewrite ?Z.leb_le; tauto.
Qed.

Lemma valid_verification v :
  valid (verification_status moment) v ↔ match vs_verified_at v with Some t => fits moment t | None => True end.
Proof.
  unfold verification_status. cbn [record valid both fst snd nullable required field opt fits].
  assert (fits verification_state (vs_status v)) by (cbn; destruct (vs_status v); set_solver). tauto.
Qed.

Lemma auth_spec m :
  validate_auth_schemes m = Ret tt
  ↔ match mf_auth m with Some a => Forall (λ s, PyStr.lower s ∈ SUPPORTED_AUTH_SCHEMES) (au_schemes a) | None => True end.
Proof.
  unfold validate_auth_schemes, _validate_auth_scheme. destruct (mf_auth m) as [a|]; [|done].
  destruct (List.find _ _) as [s|] eqn:E; split; try done.
  - apply List.find_some in E as [Hs%list_elem_of_In Hn]. intros Hf. apply (proj1 (Forall_forall _ _) Hf) in Hs.
    apply str_in_true in Hs. by rewrite Hs in Hn.
  - intros _. apply Forall_forall. intros s Hs. apply str_in_true.
    pose proof (List.find_none _ _ E s (proj1 (list_elem_of_In _ _) Hs)) as Hn. by apply negb_false_iff in Hn.
Qed.

Lemma valid_manifest m : valid (manifest moment is_version) m ↔ manifest_ok moment is_version m.
Proof.
  unfold manifest, manifest_ok. cbn [validated valid]. rewrite auth_spec.
  cbn [record valid both fst snd required nullable defaulted field model fits].
  rewrite urn_spec, valid_capability, not_empty_spec. cbn [such_that at_least fits text integer].
  pose proof (valid_endpoint (mf_endpoints m)). pose proof (fits_opt text (mf_signature m) (λ _, I)).
  pose proof (fits_opt (model auth_scheme) (mf_auth m) valid_auth_scheme).
  rewrite Z.leb_le.
  destruct (mf_sla m) as [d|], (mf_verification m) as [v|]; cbn [opt model fits];
    rewrite ?valid_sla, ?valid_verification; cbn [opt model fits] in *; tauto.
Qed.

(** C21: A manifest that an agent publishes under the well-known path is read back as it
    was by whoever fetches it, exactly when it keeps the promises of its class (also
    its hardware class, which is written by its alias); and a manifest that is read
    from any document keeps them: its id is an agent URN, its version one that
    `packaging` knows, it supports some version of the protocol, and the only
    authentication schemes it names are those that are supported. *)
Theorem manifest_is_read_back m d :
  (manifest_ok moment is_version m
     ↔ model_validate (manifest moment is_version) (get_manifest_json moment is_version m) = Ret m)
  ∧ (model_validate (manifest moment is_version) d = Ret m → manifest_ok moment is_version m).
Proof.
  rewrite <-valid_manifest. split; [apply (model_roundtrip _)|apply (model_reads_valid _)].
Qed.
End Manifests.

(** ** Examples *)
Section ManifestExamples.
Import StrictCoercions.

Definition demo_capability : Capability :=
  mkCapability "0.1" [mkSkill "echo" "Echoes" None None] false true []
    (Some (mkHardware (Some HwSbc) (Some "pi5") [IoGpio; IoBle])) (Some (mkInference [InfLocalCpu] [])).
Definition demo_entity_manifest (auth : option AuthScheme) : Manifest :=
  mkManifest "urn:asap:agent:pets" "Pets" "1.0.0" "Pets for all" demo_capability
    (mkEndpoint "https://pets.example/asap" None) ["2.2"] auth None
    (Some (mkSla (Some "99.5%") (Some 500) None None)) (Some (mkVerification VsPending None)) 300.
Definition demo_is_version (s : string) : bool := String.eqb s "1.0.0".

Lemma manifest_is_read_back_witness :
  model_validate (manifest text demo_is_version)
    (get_manifest_json text demo_is_version (demo_entity_manifest (Some (mkAuthScheme ["Bearer"] None))))
  = Ret (demo_entity_manifest (Some (mkAuthScheme ["Bearer"] None)))
  ∧ mv_hardware (view_of_manifest (demo_entity_manifest None)) = Some (Some "sbc", ["gpio"; "ble"]).
Proof.
  split; [|reflexivity].
  apply (manifest_is_read_back text demo_is_version _ []). unfold manifest_ok.
  split_and!; try (vm_compute; reflexivity); try done; cbn.
  - split; cbn; [lia|done].
  - constructor; [|done]. apply str_in_true. vm_compute. reflexivity.
Defined.

(** The description of `AuthScheme` shows `oauth2` among the schemes and has a field
    for its configuration; a manifest with it is refused, and by an error that
    `validate_manifest_schema` does not turn into a `ManifestValidationError`. *)
Lemma oauth2_manifest_escapes :
  model_validate (manifest text demo_is_version)
    (get_manifest_json text demo_is_version (demo_entity_manifest (Some (mkAuthScheme ["bearer"; "oauth2"] None))))
  = Raise (Escaping (UnsupportedAuthSchemeError "oauth2" SUPPORTED_AUTH_SCHEMES [])).
Proof. vm_compute. reflexivity. Qed.

(** An availability that is a number is no validation error either: the validator
    calls `strip` on it. *)
Lemma numeric_availability_escapes :
  model_validate sla_definition [("availability", JFloat (FFin (199 # 2)))]
  = Raise (Escaping (Raise (AttributeError "'float' object has no attribute 'strip'"))).
Proof. vm_compute. reflexivity. Qed.

(** Both spellings of the hardware class are read, but not both at once. *)
Example hardware_class_spellings :
  map (model_validate hardware_capability) [[("class", JStr "sbc")]; [("class_", JStr "sbc")]]
  = map Ret [mkHardware (Some HwSbc) None []; mkHardware (Some HwSbc) None []]
  ∧ model_validate hardware_capability [("class", JStr "sbc"); ("class_", JStr "sbc")] = Raise (Invalid "class_.extra_forbidden").
Proof. vm_compute. done. Qed.
End ManifestExamples.
