(* ===== verification/McpClient.v ===== *)
(** * The MCP client

    `src/src/asap/mcp/client.py`: a client that starts a server as a subprocess,
    writes a request per line and takes the next line of the server for its answer;
    and the results of `src/src/asap/mcp/protocol.py` that it reads.

    The server is the environment: while the client waits for a line, the lines that
    arrive are an input of the operation, and so are a failing write and the end of
    the output.  Lines that were not read stay in the pipe.  A line is its text, or
    bytes that are not UTF-8, or one that exceeds the limit of the stream reader.
    Operations run one after another; two reads at once are an error of asyncio. *)

From Stdlib Require Import ZArith QArith Lia Ascii String Sorted.
From stdpp Require Import base tactics list gmap strings.
From S2P Require Import Prelude PyValue Identity Errors JsonRpc McpServer Fields Payloads Entities.
Open Scope string_scope.
Open Scope Z_scope.
Open Scope asap_scope.

(** ** Results of the protocol

    The models ignore unknown keys; a field with an alias is read by the alias, or
    else by its name. *)
Definition by_alias {A} (name alias : string) (c : codec A) (default : option json) : fields A :=
  mkFields [alias; name]
    (λ d, match (match assoc alias d, assoc name d with Some j, _ | None, Some j => Some j | None, None => default end) with
          | Some j => match decode c j with Raise (Invalid loc) => Raise (Invalid (alias ++ "." ++ loc)) | r => r end
          | None => Raise (Invalid (alias ++ ".missing"))
          end)
    (λ a, [(alias, encode c a)]) (fits c).

Record ServerInfo : Type := mkServerInfo {
  si_name : string;
  si_version : string;
  si_title : option string;
  si_description : option string;
  si_icons : option (list obj);
  si_website_url : option string
}.
Record InitializeResult : Type := mkInitResult {
  ir_protocol_version : string;
  ir_capabilities : obj;
  ir_server_info : ServerInfo;
  ir_instructions : option string
}.
Record Tool : Type := mkListedTool {
  to_name : string;
  to_description : string;
  to_input_schema : obj;
  to_title : option string;
  to_icons : option (list obj);
  to_output_schema : option obj;
  to_annotations : option obj
}.
Record ToolResult : Type := mkToolResult {
  tx_content : list obj;
  tx_is_error : bool;
  tx_structured_content : option obj
}.

Section Protocol.
  Context `{Coercions}.

(** A model of the protocol as the type of a field. *)
Definition lenient {A} (f : fields A) : codec A :=
  mkCodec (λ j, match j with JObj d => pick f d | _ => Raise (Invalid "model_type") end) (λ a, JObj (dump f a)) (valid f).

Definition implementation : fields ServerInfo :=
  record (λ '(a, (b, (c, (d, (e, f))))), mkServerInfo a b c d e f)
    (λ x, (si_name x, (si_version x, (si_title x, (si_description x, (si_icons x, si_website_url x))))))
    (required "name" text
     ⊗ required "version" text
     ⊗ nullable "title" text
     ⊗ nullable "description" text
     ⊗ nullable "icons" (list_of dict)
     ⊗ by_alias "website_url" "websiteUrl" (opt text) (Some JNull)).

Definition initialize_result : fields InitializeResult :=
  record (λ '(a, (b, (c, d))), mkInitResult a b c d)
    (λ x, (ir_protocol_version x, (ir_capabilities x, (ir_server_info x, ir_instructions x))))
    (by_alias "protocol_version" "protocolVersion" text (Some (JStr MCP_PROTOCOL_VERSION))
     ⊗ defaulted "capabilities" dict (JObj [])
     ⊗ by_alias "server_info" "serverInfo" (lenient implementation) None
     ⊗ nullable "instructions" text).

Definition listed_tool : fields Tool :=
  record (λ '(a, (b, (c, (d, (e, (f, g)))))), mkListedTool a b c d e f g)
    (λ x, (to_name x, (to_description x, (to_input_schema x, (to_title x, (to_icons x, (to_output_schema x, to_annotations x)))))))
    (required "name" text
     ⊗ required "description" text
     ⊗ by_alias "input_schema" "inputSchema" dict None
     ⊗ nullable "title" text
     ⊗ nullable "icons" (list_of dict)
     ⊗ by_alias "output_schema" "outputSchema" (opt dict) (Some JNull)
     ⊗ nullable "annotations" dict).

Definition list_tools_result : fields (list Tool * option string) :=
  both (defaulted "tools" (list_of (lenient listed_tool)) (JList []))
       (by_alias "next_cursor" "nextCursor" (opt text) (Some JNull)).

Definition call_tool_result : fields ToolResult :=
  record (λ '(a, (b, c)), mkToolResult a b c) (λ x, (tx_content x, (tx_is_error x, tx_structured_content x)))
    (defaulted "content" (list_of dict) (JList [])
     ⊗ by_alias "is_error" "isError" boolean (Some (JBool false))
     ⊗ by_alias "structured_content" "structuredContent" (opt dict) (Some JNull)).
End Protocol.

(** ** The client *)
Inductive mcp_exn : Type :=
| Py (e : pyexn)
| PydanticError (e : model_failure)
| OSError (msg : string)
| Waits.                       (* without a time limit and without a line the call does not end *)

Inductive wire : Type :=
| Line (s : string)
| NotUtf8
| TooLong.

(** What happens during an operation: a write that fails, what the server writes
    while the client waits, and whether it closes its output. *)
Record io : Type := mkIo {
  io_spawn : option string;
  io_drain : option string;
  io_arrives : list wire;
  io_eof : bool;
  io_drain_after : option string
}.

Record process : Type := mkProcess {
  ps_stdin : list obj;         (* the messages written, oldest first *)
  ps_stdout : list wire        (* the lines that were not read *)
}.

Record MCPClient : Type := mkMcpClient {
  cl_command : list string;
  cl_client_info : string * string;
  cl_receive_timeout : option pyfloat;
  cl_use_str_ids : bool;
  cl_process : option process;
  cl_initialized : bool;
  cl_request_id : Z;
  cl_init_result : option InitializeResult
}.

Definition set_process (p : option process) (c : MCPClient) : MCPClient :=
  mkMcpClient (cl_command c) (cl_client_info c) (cl_receive_timeout c) (cl_use_str_ids c) p (cl_initialized c)
    (cl_request_id c) (cl_init_result c).
Definition set_initialized (b : bool) (r : option InitializeResult) (c : MCPClient) : MCPClient :=
  mkMcpClient (cl_command c) (cl_client_info c) (cl_receive_timeout c) (cl_use_str_ids c) (cl_process c) b
    (cl_request_id c) r.

(** `os.path.basename` *)
Fixpoint basename_from (acc s : string) : string :=
  match s with
  | EmptyString => acc
  | String c s' => if Ascii.eqb c "/" then basename_from "" s' else basename_from (acc ++ String c "") s'
  end.
Definition basename (s : string) : string := basename_from "" s.

(** [sorted_text]: the text of the sorted list of allowed binaries *)
Definition new_client (sorted_text : list string → string) (server_command : list string) (name version : string)
    (receive_timeout : option pyfloat) (use_str_ids : bool) (allowed_binaries : option (list string)) : res pyexn MCPClient :=
  let c := mkMcpClient server_command (name, version) receive_timeout use_str_ids None false 0 None in
  match allowed_binaries, server_command with
  | Some allowed, first :: _ =>
      if str_in (basename first) allowed then Ret c
      else Raise (ValueError ("server_command binary '" ++ basename first ++ "' not in allowed_binaries " ++ sorted_text allowed
                              ++ ". Use allowed_binaries=None to disable validation."))
  | _, _ => Ret c
  end.

Section Client.
  Context `{Coercions, PyRuntime} (loads : string → option json).

Abbreviation M := (ST MCPClient mcp_exn).

Definition runtime_failure {A} (msg : string) : M A := st_stop (Py (RuntimeError msg)).

Definition _next_id : M json := λ c,
  let n := cl_request_id c + 1 in
  (mkMcpClient (cl_command c) (cl_client_info c) (cl_receive_timeout c) (cl_use_str_ids c) (cl_process c)
     (cl_initialized c) n (cl_init_result c),
   Ret (if cl_use_str_ids c then JStr (PyStr.dec_Z n) else JInt n)).

(** [drain]: the error of `drain`; the line is in the buffer by then *)
Definition _send (drain : option string) (payload : obj) : M unit :=
  do! c <- st_get in
  match cl_process c with
  | None => runtime_failure "Not connected; call connect() first"
  | Some p =>
      run! st_modify (set_process (Some (mkProcess (ps_stdin p ++ [payload])%list (ps_stdout p)))) in
      match drain with Some e => st_stop (OSError e) | None => st_ret tt end
  end.

(** `await stdout.readline()`; [None]: the end of the output *)
Definition readline (i : io) (p : process) : M (option wire) :=
  do! c <- st_get in
  match (ps_stdout p ++ io_arrives i)%list with
  | l :: rest => run! st_modify (set_process (Some (mkProcess (ps_stdin p) rest))) in st_ret (Some l)
  | [] =>
      if io_eof i then st_ret None
      else match cl_receive_timeout c with
           | Some t => runtime_failure ("No response within " ++ float_repr t ++ "s")
           | None => st_stop Waits
           end
  end.

Definition read_message (line : string) : option obj :=
  let line := rstrip_newlines line in
  if PyStr.truthy line then match loads line with Some (JObj d) => Some d | _ => None end else None.

Definition _receive (i : io) : M (option obj) :=
  do! c <- st_get in
  match cl_process c with
  | None => runtime_failure "Not connected; call connect() first"
  | Some p =>
      do! raw_line <- readline i p in
      match raw_line with
      | None => st_ret None
      | Some (Line s) => st_ret (read_message s)
      | Some NotUtf8 => st_stop (Py (ValueError "'utf-8' codec can't decode bytes"))
      | Some TooLong => st_stop (Py (ValueError "Separator is not found, and chunk exceed the limit"))
      end
  end.

(** `err.get('message', err)`, as text *)
Definition error_message (err : json) : M json :=
  match err with
  | JObj d => st_ret (default err (assoc "message" d))
  | _ => st_stop (Py (AttributeError ("'" ++ type_name err ++ "' object has no attribute 'get'")))
  end.

Definition request (req_id : json) (method : string) (params : obj) : obj :=
  [("jsonrpc", JStr "2.0"); ("id", req_id); ("method", JStr method); ("params", JObj params)].

(** `raw["result"]` *)
Definition result_of (raw : obj) : M json :=
  match assoc "result" raw with Some r => st_ret r | None => st_stop (Py (KeyError "'result'")) end.

Definition as_model {A} (r : res model_failure A) : M A :=
  match r with Ret a => st_ret a | Raise e => st_stop (PydanticError e) end.

Definition initialize_params (c : MCPClient) : obj :=
  [("protocolVersion", JStr MCP_PROTOCOL_VERSION); ("capabilities", JObj []);
   ("clientInfo", JObj [("name", JStr (cl_client_info c).1); ("version", JStr (cl_client_info c).2)])].

Definition connect (i : io) : M InitializeResult :=
  do! c <- st_get in
  if is_some (cl_process c) then runtime_failure "Already connected"
  else
    match io_spawn i with
    | Some e => st_stop (OSError e)
    | None =>
        run! st_modify (set_process (Some (mkProcess [] []))) in
        do! req_id <- _next_id in
        run! _send (io_drain i) (request req_id "initialize" (initialize_params c)) in
        do! raw <- _receive i in
        match raw with
        | None => runtime_failure "No response to initialize"
        | Some raw =>
            match assoc "error" raw with
            | Some err =>
                do! m <- error_message err in
                runtime_failure ("Initialize failed: " ++ py_str float_repr m)
            | None =>
                do! result <- result_of raw in
                do! init <- as_model (decode (lenient initialize_result) result) in
                run! st_modify (set_initialized true (Some init)) in
                run! _send (io_drain_after i) [("jsonrpc", JStr "2.0"); ("method", JStr "notifications/initialized")] in
                st_ret init
            end
        end
    end.

Definition list_tools (i : io) : M (list Tool) :=
  do! c <- st_get in
  if negb (cl_initialized c) then runtime_failure "Not initialized; call connect() first"
  else
    do! req_id <- _next_id in
    run! _send (io_drain i) (request req_id "tools/list" []) in
    do! raw <- _receive i in
    match raw with
    | None => runtime_failure "No response to tools/list"
    | Some raw =>
        match assoc "error" raw with
        | Some err => do! m <- error_message err in runtime_failure ("tools/list failed: " ++ py_str float_repr m)
        | None =>
            do! result <- result_of raw in
            match result with
            | JObj d => do! r <- as_model (pick list_tools_result d) in st_ret r.1
            | _ => st_stop (Py (TypeError "argument after ** must be a mapping"))
            end
        end
    end.

Definition call_params (name : string) (arguments : option obj) (meta : option obj) : obj :=
  [("name", JStr name); ("arguments", JObj (default [] arguments));
   ("_meta", match meta with Some m => JObj m | None => JNull end)].

(** What `call_tool` makes of an answer. *)
Definition tool_answer (raw : obj) : res mcp_exn ToolResult :=
  match assoc "error" raw with
  | Some (JObj d) =>
      Ret (mkToolResult [[("type", JStr "text");
                          ("text", default (JStr (py_str float_repr (JObj d))) (assoc "message" d))]] true None)
  | Some err => Raise (Py (AttributeError ("'" ++ type_name err ++ "' object has no attribute 'get'")))
  | None =>
      match assoc "result" raw with
      | None => Raise (Py (KeyError "'result'"))
      | Some result => match decode (lenient call_tool_result) result with Ret r => Ret r | Raise e => Raise (PydanticError e) end
      end
  end.

Definition call_tool (i : io) (name : string) (arguments meta : option obj) : M ToolResult :=
  do! c <- st_get in
  if negb (cl_initialized c) then runtime_failure "Not initialized; call connect() first"
  else
    do! req_id <- _next_id in
    run! _send (io_drain i) (request req_id "tools/call" (call_params name arguments meta)) in
    do! raw <- _receive i in
    match raw with
    | None => runtime_failure "No response to tools/call"
    | Some raw => st_lift (tool_answer raw)
    end.

(** [closing]: the error of `wait_closed` *)
Definition disconnect (closing : option string) : M unit :=
  do! c <- st_get in
  run! (if is_some (cl_process c)
        then match closing with
             | Some e => st_stop (OSError e)
             | None => st_modify (set_process None)
             end
        else st_ret tt) in
  st_modify (λ c, set_initialized false (cl_init_result c) c).

(** `async with`: nothing is undone when `connect` fails. *)
Definition __aenter__ (i : io) : M InitializeResult := connect i.
Definition __aexit__ (closing : option string) : M unit := disconnect closing.
End Client.

(** ** What a call is answered with *)
Section Facts.
  Context `{Coercions, PyRuntime} (loads : string → option json).

Record tool_call : Type := mkToolCall { tk_name : string; tk_arguments : option obj; tk_meta : option obj }.

(** Calls one after another, whether they succeed or not. *)
Fixpoint session (calls : list (io * tool_call)) (c : MCPClient) : MCPClient * list (res mcp_exn ToolResult) :=
  match calls with
  | [] => (c, [])
  | (i, t) :: rest =>
      let '(c, r) := call_tool loads i (tk_name t) (tk_arguments t) (tk_meta t) c in
      let '(c, rs) := session rest c in (c, r :: rs)
  end.

(** The lines a server writes, as the messages they hold. *)
Definition says (l : wire) (raw : obj) : Prop := ∃ s, l = Line s ∧ read_message loads s = Some raw.

(** A first-in-first-out queue: per call the messages that arrive, and the one it takes. *)
Fixpoint in_turn (queue : list obj) (arrivals : list (list obj)) : list (option obj) * list obj :=
  match arrivals with
  | [] => ([], queue)
  | new :: rest =>
      match (queue ++ new)%list with
      | [] => let '(out, q) := in_turn [] rest in (None :: out, q)
      | x :: q => let '(out, q) := in_turn q rest in (Some x :: out, q)
      end
  end.

Definition timed_out (limit : pyfloat) : res mcp_exn ToolResult :=
  Raise (Py (RuntimeError ("No response within " ++ float_repr limit ++ "s"))).
Definition answer_or_timeout (limit : pyfloat) (o : option obj) : res mcp_exn ToolResult :=
  match o with Some raw => tool_answer raw | None => timed_out limit end.

(** A connected client with a time limit, and what waits in its pipe. *)
Definition connected (c : MCPClient) (limit : pyfloat) (queue : list obj) : Prop :=
  cl_initialized c = true ∧ cl_receive_timeout c = Some limit
  ∧ ∃ p, cl_process c = Some p ∧ Forall2 says (ps_stdout p) queue.

Definition arrive (call : io * tool_call) (new : list obj) : Prop :=
  io_drain call.1 = None ∧ io_eof call.1 = false ∧ Forall2 says (io_arrives call.1) new.

Lemma call_step c limit queue i t new :
  connected c limit queue → arrive (i, t) new →
  let '(c', r) := call_tool loads i (tk_name t) (tk_arguments t) (tk_meta t) c in
  match (queue ++ new)%list with
  | [] => r = timed_out limit ∧ connected c' limit []
  | x :: q => r = tool_answer x ∧ connected c' limit q
  end.
Proof.
  intros (Hi & Ht & p & Hp & Hq) (Hd & He & Hn). cbn in *.
  pose proof (Forall2_app Hq Hn) as Hall.
  unfold call_tool, _receive, readline, _send, _next_id, st_bind, st_get, st_modify, st_ret, st_stop, runtime_failure, st_lift.
  rewrite Hi. cbn. rewrite Hp, Hd. cbn.
  destruct (ps_stdout p ++ io_arrives i)%list as [|l rest] eqn:El, (queue ++ new)%list as [|x q]; try by inversion Hall.
  - rewrite He, Ht. cbn. split; [done|]. split_and!; [done..|]. eexists. split; [done|]. cbn.
    apply app_eq_nil in El as [-> _]. constructor.
  - apply Forall2_cons in Hall as [(s & -> & Hs) Hr]. cbn. rewrite Hs. cbn. split; [done|].
    split_and!; [done..|]. by eexists.
Qed.

(** A call takes the next line of the server, whatever it answers: over a session
    of calls the answers are handed out first in, first out.  A call for which no
    line is there in time fails, and its answer, when it comes, goes to the next
    call. *)
Theorem answers_are_taken_in_turn calls : ∀ c limit queue arrivals,
  connected c limit queue → Forall2 arrive calls arrivals →
  (session calls c).2 = map (answer_or_timeout limit) (in_turn queue arrivals).1
  ∧ connected (session calls c).1 limit (in_turn queue arrivals).2.
Proof.
  induction calls as [|[i t] calls IH]; intros c limit queue arrivals Hc Ha.
  { apply Forall2_nil_inv_l in Ha as ->. done. }
  apply Forall2_cons_inv_l in Ha as (new & rest & Hn & Hr & ->). cbn [session in_turn].
  pose proof (call_step _ _ _ _ _ _ Hc Hn) as Hs.
  destruct (call_tool loads i (tk_name t) (tk_arguments t) (tk_meta t) c) as [c' r].
  destruct (queue ++ new)%list as [|x q]; destruct Hs as [-> Hc'];
    specialize (IH c' limit _ rest Hc' Hr) as [IH1 IH2].
  - destruct (session calls c') as [c'' rs], (in_turn [] rest) as [out q']. cbn in *. by rewrite IH1.
  - destruct (session calls c') as [c'' rs], (in_turn q rest) as [out q']. cbn in *. by rewrite IH1.
Qed.

(** A server that answers each call in time, and nothing else, keeps the client in
    step: every call has its own answer. *)
Corollary calls_in_step c limit calls raws :
  connected c limit [] → Forall2 arrive calls (map (λ r, [r]) raws) →
  (session calls c).2 = map tool_answer raws ∧ connected (session calls c).1 limit [].
Proof.
  intros Hc Ha. destruct (answers_are_taken_in_turn _ _ _ _ _ Hc Ha) as [H1 H2]. rewrite H1.
  assert (Hq : in_turn [] (map (λ r, [r]) raws) = (map Some raws, [])).
  { clear. induction raws as [|r raws IH]; [done|]. cbn. by rewrite IH. }
  rewrite Hq in *. split; [|done]. cbn. rewrite map_map. done.
Qed.

(** One answer that is left in the pipe puts the client out of step for good: each
    call is given the answer to the one before. *)
Corollary out_of_step_for_good c limit late calls raws :
  connected c limit [late] → Forall2 arrive calls (map (λ r, [r]) raws) →
  (session calls c).2 = map tool_answer (take (length raws) (late :: raws)).
Proof.
  intros Hc Ha. destruct (answers_are_taken_in_turn _ _ _ _ _ Hc Ha) as [-> _].
  assert (Hq : ∀ late, (in_turn [late] (map (λ r, [r]) raws)).1 = map Some (take (length raws) (late :: raws))).
  { clear. induction raws as [|r raws IH]; intros late; [done|]. cbn. specialize (IH r).
    destruct (in_turn [r] _) as [out q]. cbn in *. by rewrite IH. }
  rewrite Hq, map_map. done.
Qed.

(** *** Identifiers of requests *)
Definition render (c : MCPClient) (n : Z) : json := if cl_use_str_ids c then JStr (PyStr.dec_Z n) else JInt n.

(** The ids of what was written to the server, notifications left out, are those of
    numbers that only grow, none above the client's counter. *)
Definition ids_grow (c : MCPClient) : Prop :=
  match cl_process c with
  | Some p => ∃ ns, omap (assoc "id") (ps_stdin p) = map (render c) ns ∧ StronglySorted Z.lt ns
                    ∧ Forall (λ n, n ≤ cl_request_id c) ns
  | None => True
  end.

Inductive client_op : Type :=
| OpConnect (i : io)
| OpListTools (i : io)
| OpCallTool (i : io) (t : tool_call)
| OpDisconnect (closing : option string).

Definition client_step (op : client_op) (c : MCPClient) : MCPClient :=
  match op with
  | OpConnect i => (connect loads i c).1
  | OpListTools i => (list_tools loads i c).1
  | OpCallTool i t => (call_tool loads i (tk_name t) (tk_arguments t) (tk_meta t) c).1
  | OpDisconnect closing => (disconnect closing c).1
  end.

(** The next id is of a number above the counter, and so above all that were sent. *)
Lemma inv_request {A} drain method params (k : ST MCPClient mcp_exn A) :
  st_inv ids_grow k →
  st_inv ids_grow (do! req_id <- _next_id in run! _send drain (request req_id method params) in k).
Proof.
  intros Hk c Hc. unfold _next_id, _send, st_bind, st_get, st_modify, st_ret, st_stop, runtime_failure. cbn.
  destruct (cl_process c) as [p|] eqn:Hp; [|done].
  assert (Hg : ids_grow (set_process (Some (mkProcess (ps_stdin p ++ [request (render c (cl_request_id c + 1)) method params])%list
                                             (ps_stdout p)))
                (mkMcpClient (cl_command c) (cl_client_info c) (cl_receive_timeout c) (cl_use_str_ids c) (Some p) (cl_initialized c)
                   (cl_request_id c + 1) (cl_init_result c)))).
  { unfold ids_grow in *. rewrite Hp in Hc. destruct Hc as (ns & Hi & Hs & Hb). cbn.
    exists (ns ++ [cl_request_id c + 1])%list. rewrite omap_app, Hi, map_app. split_and!.
    - done.
    - apply StronglySorted_snoc; [done|]. eapply Forall_impl; [done|]. cbn. lia.
    - apply Forall_app. split; [eapply Forall_impl; [done|]; cbn; lia|repeat constructor; lia]. }
  destruct drain; [exact Hg|]. by apply Hk.
Qed.

Lemma inv_receive i : st_inv ids_grow (_receive loads i).
Proof.
  intros c Hc. unfold _receive, readline, st_bind, st_get, st_modify, st_ret, st_stop, runtime_failure.
  destruct (cl_process c) as [p|] eqn:Hp; [|done].
  destruct (ps_stdout p ++ io_arrives i)%list as [|l rest].
  - destruct (io_eof i); [done|]. by destruct (cl_receive_timeout c).
  - unfold ids_grow in *. rewrite Hp in Hc. by destruct l.
Qed.

Lemma inv_notify drain method : st_inv ids_grow (_send drain [("jsonrpc", JStr "2.0"); ("method", JStr method)]).
Proof.
  intros c Hc. unfold _send, st_bind, st_get, st_modify, st_ret, st_stop, runtime_failure.
  destruct (cl_process c) as [p|] eqn:Hp; [|done].
  assert (Hg : ids_grow (set_process (Some (mkProcess (ps_stdin p ++ [[("jsonrpc", JStr "2.0"); ("method", JStr method)]])%list
                                             (ps_stdout p))) c)).
  { unfold ids_grow in *. rewrite Hp in Hc. cbn. by rewrite omap_app, app_nil_r. }
  by destruct drain.
Qed.

Lemma inv_error_message err : st_inv ids_grow (error_message err).
Proof. destruct err; first [apply inv_ret|apply inv_stop]. Qed.
Lemma inv_result_of raw : st_inv ids_grow (result_of raw).
Proof. unfold result_of. repeat inv_step. Qed.
Lemma inv_as_model {A} (r : res model_failure A) : st_inv ids_grow (as_model r).
Proof. unfold as_model. repeat inv_step. Qed.

Lemma inv_initialized b r : st_inv ids_grow (st_modify (R := mcp_exn) (set_initialized b r)).
Proof. by apply inv_modify. Qed.
#[local] Hint Resolve inv_error_message inv_result_of inv_as_model inv_receive inv_notify inv_initialized : asap.

Lemma inv_connect i : st_inv ids_grow (connect loads i).
Proof.
  unfold connect. apply inv_get_bind. intros c Hc. destruct (is_some (cl_process c)); [done|]. destruct (io_spawn i); [done|].
  unfold st_bind at 1, st_modify at 1. apply inv_request.
  - unfold runtime_failure. repeat inv_step.
  - cbn. exists []. split_and!; constructor.
Qed.
Lemma inv_list_tools i : st_inv ids_grow (list_tools loads i).
Proof.
  unfold list_tools. apply inv_bind; [apply inv_get|intros c]. destruct (negb _); [apply inv_stop|].
  apply inv_request. unfold runtime_failure. repeat inv_step.
Qed.
Lemma inv_call_tool i name arguments meta : st_inv ids_grow (call_tool loads i name arguments meta).
Proof.
  unfold call_tool. apply inv_bind; [apply inv_get|intros c]. destruct (negb _); [apply inv_stop|].
  apply inv_request. unfold runtime_failure. repeat inv_step. by intros s Hs.
Qed.
Lemma inv_disconnect closing : st_inv ids_grow (disconnect closing).
Proof.
  unfold disconnect. repeat inv_step; by apply inv_modify.
Qed.

(** Over any sequence of operations, failed ones and reconnections among them, a
    client never uses an id twice with a server. *)
Theorem request_ids_grow ops c : ids_grow c → ids_grow (fold_left (λ c op, client_step op c) ops c).
Proof.
  revert c. induction ops as [|op ops IH]; intros c Hc; [done|]. cbn. apply IH.
  destruct op as [i|i|i t|closing]; cbn [client_step];
    [by apply inv_connect|by apply inv_list_tools|by apply inv_call_tool|by apply inv_disconnect].
Qed.

(** What the client writes is what the server of this library reads: the request
    with its id, and in it the name, the arguments and the metadata of the call. *)
Theorem calls_are_understood `{McpIds} (c : MCPClient) n name arguments meta :
  let req_id := render c n in
  parse_mcp_request (request req_id "tools/call" (call_params name arguments meta))
  = Some (mkMcpRequest (if cl_use_str_ids c then IdStr (PyStr.dec_Z n) else IdInt n) "tools/call"
            (Some (call_params name arguments meta)))
  ∧ parse_call_params (call_params name arguments meta) = Some (mkCallParams name (default [] arguments) meta).
Proof.
  unfold parse_mcp_request, render. cbn -[lax_id]. split.
  - unfold j_get. cbn -[lax_id]. destruct (cl_use_str_ids c); [by rewrite lax_id_str|by rewrite lax_id_int].
  - by destruct meta.
Qed.

Definition running (c : MCPClient) : Prop := is_some (cl_process c) = true.

Lemma running_next_id : st_inv running _next_id.
Proof. by intros c Hc. Qed.
Lemma running_send drain payload : st_inv running (_send drain payload).
Proof.
  intros c Hc. unfold _send, st_bind, st_get, st_modify, st_ret, st_stop, runtime_failure, running in *.
  destruct (cl_process c) as [p|] eqn:Hp; [by destruct drain|]. cbn. by rewrite Hp.
Qed.
Lemma running_receive i : st_inv running (_receive loads i).
Proof.
  intros c Hc. unfold _receive, readline, st_bind, st_get, st_modify, st_ret, st_stop, runtime_failure, running in *.
  destruct (cl_process c) as [p|] eqn:Hp; [|cbn; by rewrite Hp].
  destruct (ps_stdout p ++ io_arrives i)%list as [|l rest]; [|by destruct l].
  destruct (io_eof i); [cbn; by rewrite Hp|]. destruct (cl_receive_timeout c); cbn; by rewrite Hp.
Qed.
Lemma running_error_message err : st_inv running (error_message err).
Proof. destruct err; first [apply inv_ret|apply inv_stop]. Qed.
Lemma running_result_of raw : st_inv running (result_of raw).
Proof. unfold result_of. repeat inv_step. Qed.
Lemma running_as_model {A} (r : res model_failure A) : st_inv running (as_model r).
Proof. unfold as_model. repeat inv_step. Qed.
Lemma running_initialized b r : st_inv running (st_modify (R := mcp_exn) (set_initialized b r)).
Proof. by apply inv_modify. Qed.
#[local] Hint Resolve running_next_id running_send running_receive running_error_message running_result_of running_as_model
  running_initialized : asap.

(** A connection that fails after the server was started leaves it running: the
    client cannot connect again before it disconnects, and `async with` does not
    disconnect when entering fails. *)
Lemma failed_connect_keeps_process i c e :
  cl_process c = None → io_spawn i = None → (__aenter__ loads i c).2 = Raise e →
  is_some (cl_process (__aenter__ loads i c).1) = true
  ∧ ∀ i', (connect loads i' (__aenter__ loads i c).1).2 = Raise (Py (RuntimeError "Already connected")).
Proof.
  intros Hp Hs He. assert (Hk : is_some (cl_process (__aenter__ loads i c).1) = true).
  { unfold __aenter__, connect, st_bind at 1, st_get. rewrite Hp, Hs. cbn [is_some is_none negb].
    unfold st_bind at 1, st_modify at 1.
    match goal with |- is_some (cl_process (fst (?m ?s))) = true => cut (st_inv running m); [intros Hm; by apply Hm|] end.
    unfold runtime_failure. repeat inv_step. }
  split; [done|]. intros i'. unfold connect, st_bind, st_get. by rewrite Hk.
Qed.
End Facts.

(** ** An example *)
Section ClientExample.
Import StrictCoercions.
#[local] Instance client_runtime : PyRuntime := {| float_repr _ := "60.0"; float_of_str _ := None |}.

Definition answer_json (s : string) : json :=
  JObj [("jsonrpc", JStr "2.0"); ("id", JStr "0"); ("result", JObj [("content", JList [JObj [("type", JStr "text"); ("text", JStr s)]])])].
Definition client_loads (s : string) : option json := Some (answer_json s).
Definition demo_client : MCPClient :=
  mkMcpClient ["server"] ("asap-mcp-client", "1.0.0") (Some (FFin 60)) true (Some (mkProcess [] [])) true 1 None.
Definition arriving (l : list string) : io := mkIo None None (map Line l) false None.
Definition said (s : string) : ToolResult := mkToolResult [[("type", JStr "text"); ("text", JStr s)]] false None.
Definition delete_or_read (name : string) : tool_call := mkToolCall name None None.

(** The first call times out; its answer arrives during the second and is returned
    as the answer to that, although it names another request. *)
Lemma late_answer_serves_next_call :
  (session client_loads [(arriving [], delete_or_read "delete"); (arriving ["deleted"; "contents"], delete_or_read "read")]
     demo_client).2
  = [Raise (Py (RuntimeError "No response within 60.0s")); Ret (said "deleted")].
Proof. vm_compute. reflexivity. Qed.

(** A path that ends in a slash has an empty base name. *)
Example base_names : map basename ["/usr/bin/python3"; "python3"; "bin/"] = ["python3"; "python3"; ""].
Proof. reflexivity. Qed.
End ClientExample.
