(* ===== verification/OpenApiMapper.v ===== *)
(** * OpenAPI operations as capabilities

    `src/src/asap/adapters/openapi/capability_mapper.py`: from a parsed document
    to one capability per operation, with the input schema the request handler
    routes arguments by.

    The records hold what the code reads of the models of openapi-pydantic; a
    schema model is its JSON dump.  A reference is followed by recursive calls, of
    which Python allows a limited number, [frames]; log lines are left out. *)

From Stdlib Require Import ZArith Lia Ascii String.
From stdpp Require Import base tactics list gmap strings.
From S2P Require Import Prelude PyValue Identity JsonRpc.
Open Scope string_scope.
Open Scope Z_scope.
Open Scope asap_scope.

(** ** Documents *)
Inductive or_ref (A : Type) : Type :=
| Reference (ref : string)
| Model (a : A).
Arguments Reference {A} ref.
Arguments Model {A} a.

(** [mt_schema]: `media_type_schema` *)
Record MediaType : Type := mkMedia { mt_schema : option (or_ref obj) }.

Record ParamModel : Type := mkParam {
  pm_name : string;
  pm_in : string;
  pm_schema : option (or_ref obj);
  pm_content : list (string * MediaType);
  pm_description : option string;
  pm_required : bool
}.

(** A request body or a response. *)
Record Content : Type := mkContent { ct_content : list (string * MediaType) }.

Record Operation : Type := mkOperation {
  op_operationId : option string;
  op_summary : option string;
  op_description : option string;
  op_parameters : list (or_ref ParamModel);
  op_requestBody : option (or_ref Content);
  op_responses : list (string * or_ref Content)
}.

Record PathItem : Type := mkPathItem {
  pi_summary : option string;
  pi_description : option string;
  pi_parameters : list (or_ref ParamModel);
  pi_operations : list (string * Operation)
}.

Record Components : Type := mkComps {
  co_schemas : list (string * obj);
  co_parameters : list (string * or_ref ParamModel);
  co_requestBodies : list (string * or_ref Content);
  co_responses : list (string * or_ref Content)
}.

Record OpenAPIDocument : Type := mkDocument { doc_paths : list (string * PathItem); doc_components : option Components }.

(** ** Capabilities *)
Definition _HTTP_METHODS : list string := ["get"; "put"; "post"; "delete"; "options"; "head"; "patch"; "trace"].

Inductive OpenAPIExecutionKind : Type := SYNC | STREAMING.

Record Skill : Type := mkSkill {
  sk_id : string;
  sk_description : string;
  sk_input_schema : option obj;
  sk_output_schema : option obj
}.

Record OpenAPICapability : Type := mkCapability {
  oc_skill : Skill;
  oc_http_method : string;
  oc_path_template : string;
  oc_execution_kind : OpenAPIExecutionKind;
  oc_operation_id : option string
}.

Record OpenAPIOperationContext : Type := mkContext {
  ox_http_method : string;
  ox_path_template : string;
  ox_capability_name : string;
  ox_operation_id : option string;
  ox_operation : Operation
}.

Inductive DefaultCapabilitiesFilter : Type :=
| FilterVerb (s : string)                    (* "all" is this case too *)
| FilterVerbs (l : list string)
| FilterPredicate (f : OpenAPIOperationContext → bool)
| FilterOther (type_name : string).

Definition _predicate_from_default_capabilities (spec : DefaultCapabilitiesFilter) :
    res pyexn (OpenAPIOperationContext → bool) :=
  match spec with
  | FilterVerb s =>
      if String.eqb s "all" then Ret (λ _, true)
      else let verb := PyStr.lower (PyStr.strip s) in Ret (λ ctx, String.eqb (ox_http_method ctx) verb)
  | FilterPredicate f => Ret f
  | FilterVerbs l =>
      let verbs := map (λ m, PyStr.lower (PyStr.strip m)) l in Ret (λ ctx, str_in (ox_http_method ctx) verbs)
  | FilterOther t =>
      Raise (TypeError ("default_capabilities must be 'all', an HTTP method string, a sequence of methods, "
                        ++ "or a callable; got <class '" ++ t ++ "'>."))
  end.

(** ** Schemas *)
Definition _ref_fragment (ref prefix : string) : option string :=
  if PyStr.startswith ref prefix then Some (PyStr.drop (String.length prefix) ref) else None.

Definition SCHEMAS_PREFIX : string := "#/components/schemas/".

(** The component a reference names. *)
Definition component_schema (raw_by_name : list (string * obj)) (ref : string) : option (string * obj) :=
  match _ref_fragment ref SCHEMAS_PREFIX with
  | Some name => option_map (pair name) (PyDict.get name raw_by_name)
  | None => None
  end.

(** [fuel] is 51 less the depth. *)
Fixpoint expand_refs (raw_by_name : list (string * obj)) (fuel : nat) (seen : list string) (node : json) : json :=
  match fuel with
  | O => node
  | S fuel' =>
      match node with
      | JObj d =>
          match j_get "$ref" d with
          | JStr ref =>
              match component_schema raw_by_name ref with
              | Some (name, base) =>
                  if str_in name seen then JObj [("$ref", JStr ref)]
                  else expand_refs raw_by_name fuel' (name :: seen) (JObj base)
              | None => JObj (map (λ kv, (kv.1, expand_refs raw_by_name fuel' seen kv.2)) d)
              end
          | _ => JObj (map (λ kv, (kv.1, expand_refs raw_by_name fuel' seen kv.2)) d)
          end
      | JList l => JList (map (expand_refs raw_by_name fuel' seen) l)
      | _ => node
      end
  end.
Definition EXPAND_FUEL : nat := 51.

Definition obj_of (j : json) : obj := match j with JObj d => d | _ => [] end.

Definition materialize (raw_by_name : list (string * obj)) (schema_or_ref : option (or_ref obj)) : option obj :=
  match schema_or_ref with
  | None => None
  | Some (Reference ref) =>
      match component_schema raw_by_name ref with
      | None => Some [("$ref", JStr ref)]
      | Some (name, base) => Some (obj_of (expand_refs raw_by_name EXPAND_FUEL [name] (JObj base)))
      end
  | Some (Model dumped) => Some (obj_of (expand_refs raw_by_name EXPAND_FUEL [] (JObj dumped)))
  end.

(** ** References

    `_resolve_parameter`, `_resolve_request_body` and `_resolve_response` follow
    references the same way, each in its own part of the components. *)
Definition too_deep : pyexn := RuntimeError "maximum recursion depth exceeded".

Fixpoint resolve_ref {A} (frames : nat) (prefix : string) (bag : option (list (string * or_ref A))) (o : or_ref A) :
    res pyexn (option A) :=
  match frames with
  | O => Raise too_deep
  | S frames' =>
      match o with
      | Model a => Ret (Some a)
      | Reference ref =>
          match _ref_fragment ref prefix, bag with
          | Some key, Some b =>
              match PyDict.get key b with
              | Some target => resolve_ref frames' prefix bag target
              | None => Ret None
              end
          | _, _ => Ret None
          end
      end
  end.

Definition _resolve_parameter (frames : nat) (components : option Components) : or_ref ParamModel → res pyexn (option ParamModel) :=
  resolve_ref frames "#/components/parameters/" (co_parameters <$> components).
Definition _resolve_response (frames : nat) (components : option Components) : or_ref Content → res pyexn (option Content) :=
  resolve_ref frames "#/components/responses/" (co_responses <$> components).
Definition _resolve_request_body (frames : nat) (components : option Components) (o : option (or_ref Content)) :
    res pyexn (option Content) :=
  match o with
  | None => Ret None
  | Some b => resolve_ref frames "#/components/requestBodies/" (co_requestBodies <$> components) b
  end.

(** ** Parameters *)
Fixpoint merge_entries (frames : nat) (components : option Components) (merged : list (string * string * ParamModel))
    (entries : list (or_ref ParamModel)) : res pyexn (list (string * string * ParamModel)) :=
  match entries with
  | [] => Ret merged
  | entry :: entries' =>
      let! resolved := _resolve_parameter frames components entry in
      merge_entries frames components
        (match resolved with
         | Some p => PyDict.set (pm_name p, pm_in p) p merged
         | None => merged
         end) entries'
  end.

Definition _merge_parameters (frames : nat) (path_item : PathItem) (operation : Operation) (components : option Components) :
    res pyexn (list ParamModel) :=
  let! merged := merge_entries frames components [] (pi_parameters path_item) in
  let! merged := merge_entries frames components merged (op_parameters operation) in
  Ret merged.*2.

Definition JSON_MEDIA : string := "application/json".

(** The schema of a parameter: its own, or that of its JSON content. *)
Definition param_schema (m : ParamModel) : option (or_ref obj) :=
  match pm_schema m with
  | Some s => Some s
  | None => match PyDict.get JSON_MEDIA (pm_content m) with Some mt => mt_schema mt | None => None end
  end.

Definition PARAM_IN : string := "x-openapi-param-in".

Definition prop_schema (raw_by_name : list (string * obj)) (m : ParamModel) : obj :=
  let base := default [("type", JStr "string")] (materialize raw_by_name (param_schema m)) in
  let prop := PyDict.set PARAM_IN (JStr (pm_in m)) base in
  match pm_description m with
  | Some desc =>
      if PyStr.truthy desc && is_none (assoc "description" prop) then PyDict.set "description" (JStr desc) prop else prop
  | None => prop
  end.

Definition _parameter_properties (raw_by_name : list (string * obj)) (parameters : list ParamModel) :
    obj * list string :=
  fold_left (λ acc m,
    (PyDict.set (pm_name m) (JObj (prop_schema raw_by_name m)) acc.1,
     if pm_required m && negb (str_in (pm_name m) acc.2) then (acc.2 ++ [pm_name m])%list else acc.2))
    parameters ([], []).

Definition param_object (raw_by_name : list (string * obj)) (parameters : list ParamModel) : obj :=
  let '(param_props, param_req) := _parameter_properties raw_by_name parameters in
  ([("type", JStr "object"); ("properties", JObj param_props)]
   ++ match param_req with [] => [] | _ => [("required", JList (map JStr param_req))] end)%list.

Definition _build_input_schema (raw_by_name : list (string * obj)) (parameters : list ParamModel) (body_schema : option obj) :
    option obj :=
  let parts := (match fst (_parameter_properties raw_by_name parameters) with
                | [] => []
                | _ => [param_object raw_by_name parameters]
                end ++ match body_schema with Some ((_ :: _) as b) => [b] | _ => [] end)%list in
  match parts with
  | [] => None
  | [p] => Some p
  | _ => Some [("allOf", JList (map JObj parts))]
  end.

(** ** Bodies and responses *)
Definition _body_json_schema (raw_by_name : list (string * obj)) (request_body : option Content) : option obj :=
  match request_body with
  | None => None
  | Some b => match PyDict.get JSON_MEDIA (ct_content b) with
              | Some media => materialize raw_by_name (mt_schema media)
              | None => None
              end
  end.

Fixpoint first_success (frames : nat) (components : option Components) (raw_by_name : list (string * obj))
    (responses : list (string * or_ref Content)) (codes : list string) : res pyexn (option obj) :=
  match codes with
  | [] => Ret None
  | code :: codes' =>
      match PyDict.get code responses with
      | None => first_success frames components raw_by_name responses codes'
      | Some r =>
          let! resp := _resolve_response frames components r in
          match resp with
          | None => first_success frames components raw_by_name responses codes'
          | Some resp =>
              match PyDict.get JSON_MEDIA (ct_content resp) with
              | None => first_success frames components raw_by_name responses codes'
              | Some media => Ret (materialize raw_by_name (mt_schema media))
              end
          end
      end
  end.

Definition _success_response_schema (frames : nat) (operation : Operation) (components : option Components)
    (raw_by_name : list (string * obj)) : res pyexn (option obj) :=
  first_success frames components raw_by_name (op_responses operation) ["200"; "201"].

Fixpoint any_event_stream (frames : nat) (components : option Components) (responses : list (string * or_ref Content)) :
    res pyexn bool :=
  match responses with
  | [] => Ret false
  | (_, r) :: responses' =>
      let! resp := _resolve_response frames components r in
      match resp with
      | Some c =>
          if existsb (λ kv, String.eqb (PyStr.lower kv.1) "text/event-stream") (ct_content c) then Ret true
          else any_event_stream frames components responses'
      | None => any_event_stream frames components responses'
      end
  end.

Definition detect_openapi_execution_kind (frames : nat) (operation : Operation) (components : option Components) :
    res pyexn OpenAPIExecutionKind :=
  let! streams := any_event_stream frames components (op_responses operation) in
  Ret (if (streams : bool) then STREAMING else SYNC).

(** ** Names *)
Fixpoint lstrip_slash (s : string) : string :=
  match s with String c s' => if Ascii.eqb c "/" then lstrip_slash s' else s | EmptyString => EmptyString end.

Fixpoint flatten_path (s : string) : string :=
  match s with
  | EmptyString => EmptyString
  | String c s' =>
      if Ascii.eqb c "/" then String "_" (flatten_path s')
      else if Ascii.eqb c "{" || Ascii.eqb c "}" then flatten_path s'
      else String c (flatten_path s')
  end.

Definition _fallback_capability_name (method path_template : string) : string :=
  let trimmed := PyStr.rstrip_char "/" (lstrip_slash path_template) in
  PyStr.lower method ++ "_" ++ (if PyStr.truthy trimmed then flatten_path trimmed else "rootpath").

Definition text_attr (o : option string) : option string :=
  match o with Some s => if PyStr.nonblank s then Some (PyStr.strip s) else None | None => None end.

Fixpoint first_text (l : list (option string)) (fallback : string) : string :=
  match l with
  | [] => fallback
  | o :: l' => match text_attr o with Some s => s | None => first_text l' fallback end
  end.

Definition _operation_description (operation : Operation) (path_item : PathItem) (fallback : string) : string :=
  first_text [op_summary operation; op_description operation; pi_summary path_item; pi_description path_item] fallback.

(** ** The mapping *)
Definition capability_name (method path_template : string) (operation : Operation) : string :=
  default (_fallback_capability_name method path_template) (text_attr (op_operationId operation)).

Definition map_operation (frames : nat) (components : option Components) (predicate : OpenAPIOperationContext → bool)
    (path_template method : string) (path_item : PathItem) (operation : Operation) : res pyexn (list OpenAPICapability) :=
  let raw := default [] (co_schemas <$> components) in
  let op_id := text_attr (op_operationId operation) in
  let cap_name := capability_name method path_template operation in
  if negb (predicate (mkContext method path_template cap_name op_id operation)) then Ret []
  else
    let! params := _merge_parameters frames path_item operation components in
    let! rb := _resolve_request_body frames components (op_requestBody operation) in
    let input_schema := _build_input_schema raw params (_body_json_schema raw rb) in
    let! output_schema := _success_response_schema frames operation components raw in
    let! kind := detect_openapi_execution_kind frames operation components in
    Ret [mkCapability (mkSkill cap_name (_operation_description operation path_item cap_name) input_schema output_schema)
           method path_template kind op_id].

Fixpoint map_all {A B} (f : A → res pyexn (list B)) (l : list A) : res pyexn (list B) :=
  match l with
  | [] => Ret []
  | x :: l' => let! a := f x in let! b := map_all f l' in Ret (a ++ b)%list
  end.

Definition map_openapi_to_capabilities (frames : nat) (doc : OpenAPIDocument) (default_capabilities : DefaultCapabilitiesFilter) :
    res pyexn (list OpenAPICapability) :=
  match doc_paths doc with
  | [] => Ret []
  | paths =>
      let! predicate := _predicate_from_default_capabilities default_capabilities in
      map_all (λ pt : string * PathItem,
        map_all (λ method,
          match PyDict.get method (pi_operations pt.2) with
          | Some operation => map_operation frames (doc_components doc) predicate pt.1 method pt.2 operation
          | None => Ret []
          end) _HTTP_METHODS) paths
  end.

(** ** What is mapped *)

(** The operations of a document, path by path, in the order of the verbs. *)
Definition operations (doc : OpenAPIDocument) : list (string * PathItem * string * Operation) :=
  concat (map (λ pt : string * PathItem,
    omap (λ method, (λ operation, (pt.1, pt.2, method, operation)) <$> PyDict.get method (pi_operations pt.2)) _HTTP_METHODS)
    (doc_paths doc)).

Definition context_of (o : string * PathItem * string * Operation) : OpenAPIOperationContext :=
  let '(path_template, _, method, operation) := o in
  mkContext method path_template (capability_name method path_template operation) (text_attr (op_operationId operation)) operation.

(** The identity of a capability and of the context it is made from. *)
Definition cap_key (c : OpenAPICapability) : string * string * string * option string :=
  (oc_http_method c, oc_path_template c, sk_id (oc_skill c), oc_operation_id c).
Definition context_key (x : OpenAPIOperationContext) : string * string * string * option string :=
  (ox_http_method x, ox_path_template x, ox_capability_name x, ox_operation_id x).

Lemma map_all_ok {A B} (f : A → res pyexn (list B)) l r : map_all f l = Ret r →
  ∃ rs, Forall2 (λ x y, f x = Ret y) l rs ∧ r = concat rs.
Proof.
  revert r. induction l as [|x l IH]; cbn [map_all]; intros r.
  - intros [= <-]. exists []. by split.
  - destruct (f x) as [|a] eqn:Hx; cbn [rbind]; [done|]. destruct (map_all f l) as [|b]; cbn [rbind]; [done|].
    intros [= <-]. destruct (IH b) as (rs & Hf & ->); [done|]. exists (a :: rs). split; [by constructor|done].
Qed.

Lemma map_operation_key frames co predicate path method item operation r :
  map_operation frames co predicate path method item operation = Ret r →
  map cap_key r = map context_key (List.filter predicate [context_of (path, item, method, operation)]).
Proof.
  unfold map_operation, context_of. cbn [List.filter]. destruct (predicate _); cbn [negb]; [|by intros [= <-]].
  repeat (match goal with |- rbind ?m _ = _ → _ => destruct m; cbn [rbind]; [done|] end). by intros [= <-].
Qed.

Lemma map_path_keys frames co predicate (pt : string * PathItem) methods r :
  map_all (λ method, match PyDict.get method (pi_operations pt.2) with
                     | Some operation => map_operation frames co predicate pt.1 method pt.2 operation
                     | None => Ret [] end) methods = Ret r →
  map cap_key r = map context_key (List.filter predicate (map context_of
    (omap (λ method, (λ operation, (pt.1, pt.2, method, operation)) <$> PyDict.get method (pi_operations pt.2)) methods))).
Proof.
  revert r. induction methods as [|m methods IH]; cbn [map_all]; intros r; [by intros [= <-]|].
  destruct (match PyDict.get m _ with Some _ => _ | None => _ end) as [|a] eqn:Ha; cbn [rbind]; [done|].
  destruct (map_all _ methods) as [|b]; cbn [rbind]; [done|]. intros [= <-]. rewrite map_app, (IH b) by done.
  destruct (PyDict.get m (pi_operations pt.2)) as [operation|] eqn:Hg.
  - apply map_operation_key in Ha. cbn [omap list_omap]. rewrite Hg. cbn [fmap option_fmap option_map map].
    rewrite Ha, <- map_app. f_equal. cbn [List.filter]. by destruct (predicate _).
  - injection Ha as <-. cbn [omap list_omap]. by rewrite Hg.
Qed.

Lemma filter_concat {A} (f : A → bool) ls : List.filter f (concat ls) = concat (map (List.filter f) ls).
Proof. induction ls as [|l ls IH]; [done|]. cbn. by rewrite List.filter_app, IH. Qed.

(** The mapping of a document gives exactly the selected operations.  When it
    returns, the capabilities are those of the operations the filter selects, one
    each, in the order of the paths and, in a path, of the HTTP verbs; each has
    the verb, the path template, the operation id and the name (the operation id,
    or the verb and the flattened path) of its operation. *)
Theorem every_selected_operation_is_mapped frames doc spec predicate caps :
  _predicate_from_default_capabilities spec = Ret predicate →
  map_openapi_to_capabilities frames doc spec = Ret caps →
  map cap_key caps = map context_key (List.filter predicate (map context_of (operations doc))).
Proof.
  intros Hp. unfold map_openapi_to_capabilities, operations. rewrite Hp.
  destruct (doc_paths doc) as [|pt0 pts]; [by intros [= <-]|]. cbn [rbind]. generalize (pt0 :: pts). clear pt0 pts.
  intros paths (rs & Hf & ->)%map_all_ok. induction Hf as [|pt r paths rs Hr Hf IH]; [done|].
  cbn [concat map]. apply map_path_keys in Hr. rewrite !map_app, Hr, IH, List.filter_app, map_app. done.
Qed.

(** A schema without references is left as it is. *)
Fixpoint no_refs (j : json) : bool :=
  match j with
  | JObj d => is_none (assoc "$ref" d) && forallb (λ kv, no_refs kv.2) d
  | JList l => forallb no_refs l
  | _ => true
  end.

Lemma expand_refs_identity raw fuel seen node : no_refs node = true → expand_refs raw fuel seen node = node.
Proof.
  revert node. induction fuel as [|fuel IH]; intros node Hn; [done|]. destruct node as [| | | | |l|d]; try done; cbn [no_refs] in Hn.
  - cbn [expand_refs]. f_equal. transitivity (map id l); [|apply map_id]. apply map_ext_in. intros x Hx.
    apply IH. rewrite forallb_forall in Hn. by apply Hn.
  - apply andb_prop in Hn as [Hr Hn]. rewrite forallb_forall in Hn. cbn [expand_refs].
    assert (Hj : j_get "$ref" d = JNull). { unfold j_get. by destruct (assoc "$ref" d). } rewrite Hj. f_equal.
    transitivity (map id d); [|apply map_id]. apply map_ext_in. intros [k v] Hx. cbn. by rewrite IH by (by apply (Hn (k, v))).
Qed.

(** ** Examples *)

(** A parameter that refers to itself exhausts the stack, however deep it is. *)
Lemma cyclic_parameter_overflows frames :
  let r := Reference "#/components/parameters/P" in
  _resolve_parameter frames (Some (mkComps [] [("P", r)] [] [])) r = Raise too_deep.
Proof. cbn zeta. unfold _resolve_parameter. induction frames as [|frames IH]; [done|]. exact IH. Qed.

(** Two parameters of one name in two places: one is lost. *)
Lemma same_name_parameters_collapse :
  let q := mkParam "id" "query" None [] None false in
  let p := mkParam "id" "path" None [] None true in
  ∃ merged, _merge_parameters 9 (mkPathItem None None [Model p] []) (mkOperation None None None [Model q] None []) None = Ret merged
    ∧ map pm_in merged = ["path"; "query"]
    ∧ map fst (_parameter_properties [] merged).1 = ["id"]
    ∧ _build_input_schema [] merged None
      = Some [("type", JStr "object");
              ("properties", JObj [("id", JObj [("type", JStr "string"); (PARAM_IN, JStr "query")])]);
              ("required", JList [JStr "id"])].
Proof. eexists. split; [reflexivity|]. by vm_compute. Qed.

Definition demo_get : Operation := mkOperation (Some "getPet") None None [Model (mkParam "petId" "path" None [] None true)] None [].
Definition demo_post : Operation := mkOperation None (Some "Add a pet") None [] None [].
Definition demo_doc : OpenAPIDocument :=
  mkDocument [("/pets/{petId}", mkPathItem None None [] [("get", demo_get)]); ("/pets", mkPathItem None None [] [("post", demo_post)])] None.

Lemma every_selected_operation_is_mapped_witness :
  ∃ caps, map_openapi_to_capabilities 9 demo_doc (FilterVerb "all") = Ret caps
    ∧ map cap_key caps = [("get", "/pets/{petId}", "getPet", Some "getPet"); ("post", "/pets", "post_pets", None)].
Proof.
  eexists. split; [reflexivity|].
  rewrite (every_selected_operation_is_mapped 9 demo_doc (FilterVerb "all") (λ _, true)); reflexivity.
Defined.
