(* ===== verification/OpenApiHandler.v ===== *)
(** * Calling an upstream API

    `src/src/asap/adapters/openapi/handler.py`: the arguments of a capability call
    are routed to the path, the query, the headers, the cookies and the body of
    one HTTP request, whose answer is turned into a result or an error.

    The HTTP client is a parameter: what it answers to a request; the state of the
    handler is the list of requests it has made.  An input schema whose
    `properties` is no object, or whose `allOf` is no list, is no JSON Schema; the
    model then raises a `TypeError`, whichever exception the code meets.  Log
    lines are left out. *)

From Stdlib Require Import ZArith Lia Ascii String.
From stdpp Require Import base tactics list gmap strings.
From S2P Require Import Prelude PyValue Digest Identity Errors JsonRpc Challenge OpenApiMapper.
Open Scope string_scope.
Open Scope Z_scope.
Open Scope asap_scope.

(** ** Errors *)
Definition _UNKNOWN_CAPABILITY : string := "asap:adapters/openapi/unknown_capability".
Definition _INVOCATION : string := "asap:adapters/openapi/invocation".
Definition _PATH_PARAMS : string := "asap:adapters/openapi/path_parameters".
Definition _UPSTREAM : string := "asap:adapters/openapi/upstream_connection".
Definition _UPSTREAM_5XX : string := "asap:adapters/openapi/upstream_server_error".
Definition _UPSTREAM_4XX : string := "asap:adapters/openapi/upstream_client_error".
Definition _RESOLVE_HEADERS : string := "asap:adapters/openapi/resolve_headers".
Definition _UPSTREAM_CLIENT_ERROR_BODY_MAX_LEN : nat := 200.
Definition _DOT_PATH_SEGMENTS : list string := ["."; ".."].

(** A `FatalError` or a `RecoverableError` of the adapter. *)
Record adapter_error : Type := mkAdapterError {
  ae_recoverable : bool;
  ae_code : string;
  ae_message : string;
  ae_details : obj;
  ae_rpc_code : Z
}.

Inductive adapter_exn : Type :=
| Failed (e : adapter_error)
| EscapedExn (e : pyexn).

Definition UnknownOpenAPICapabilityError (capability_name : string) : adapter_error :=
  mkAdapterError false _UNKNOWN_CAPABILITY ("Unknown OpenAPI capability " ++ repr_str capability_name ++ ".")
    [("capability_name", JStr capability_name)] RPC_HANDLER_NOT_FOUND.

Definition OpenAPIInvocationError (message : string) (details : obj) : adapter_error :=
  mkAdapterError false _INVOCATION message details RPC_REMOTE_GENERIC.

Definition names_json (l : list string) : json := JList (map JStr l).

Definition OpenAPIPathParameterError (path_template : string) (missing invalid : list string) : adapter_error :=
  let '(message, details) :=
    match missing, invalid with
    | _ :: _, _ =>
        ("Missing path parameter(s) for template " ++ repr_str path_template ++ ": " ++ joined ", " missing ++ ".",
         [("path_template", JStr path_template); ("missing", names_json missing)])
    | [], _ :: _ =>
        ("Invalid path parameter value(s) for template " ++ repr_str path_template ++ ": " ++ joined ", " invalid
         ++ " (must not be None, empty, whitespace-only, or a '.'/'..' path segment).",
         [("path_template", JStr path_template); ("invalid", names_json invalid)])
    | [], [] =>
        ("Path parameter error for template " ++ repr_str path_template ++ ".", [("path_template", JStr path_template)])
    end in
  mkAdapterError false _PATH_PARAMS message details RPC_REMOTE_GENERIC.

Definition for_missing (path_template : string) (missing : list string) : res pyexn adapter_error :=
  match missing with
  | [] => Raise (ValueError "for_missing requires a non-empty missing= list.")
  | _ => Ret (OpenAPIPathParameterError path_template missing [])
  end.
Definition for_invalid (path_template : string) (invalid : list string) : res pyexn adapter_error :=
  match invalid with
  | [] => Raise (ValueError "for_invalid requires a non-empty invalid= list.")
  | _ => Ret (OpenAPIPathParameterError path_template [] invalid)
  end.
Definition for_static_dot_segment (path_template : string) : adapter_error :=
  OpenAPIPathParameterError path_template [] [path_template].

(** `raise` of what a factory builds. *)
Definition raise_built {A} (r : res pyexn adapter_error) : res adapter_exn A :=
  match r with Ret e => Raise (Failed e) | Raise e => Raise (EscapedExn e) end.

(** ** Index *)
Fixpoint index_from (out : list (string * OpenAPICapability)) (caps : list OpenAPICapability) :
    res pyexn (list (string * OpenAPICapability)) :=
  match caps with
  | [] => Ret out
  | item :: caps' =>
      let skill_id := sk_id (oc_skill item) in
      if PyDict.mem skill_id out then Raise (ValueError ("Duplicate OpenAPI capability id " ++ repr_str skill_id ++ "."))
      else index_from (PyDict.set skill_id item out) caps'
  end.
Definition index_capabilities (caps : list OpenAPICapability) : res pyexn (list (string * OpenAPICapability)) :=
  index_from [] caps.

(** ** Routing by the input schema *)
Definition no_schema {A} : res pyexn A := Raise (TypeError "malformed input schema").

(** `obj.get("type") == "object" and "properties" in obj` *)
Definition object_properties (d : obj) : option json :=
  if py_eq (j_get "type" d) (JStr "object") then assoc "properties" d else None.

(** The location a property declares. *)
Definition prop_location (sub : json) : option string :=
  match sub with
  | JObj d => match j_get PARAM_IN d with JStr loc => Some loc | _ => None end
  | _ => None
  end.

Definition _param_props_from_object (d : obj) (param_in : list (string * string)) : res pyexn (list (string * string)) :=
  match object_properties d with
  | None => Ret param_in
  | Some (JObj props) =>
      Ret (fold_left (λ acc kv, match prop_location kv.2 with Some loc => PyDict.set kv.1 loc acc | None => acc end)
             props param_in)
  | Some _ => no_schema
  end.

(** The property names of the body parts, in the order they are met. *)
Fixpoint _collect_body_property_keys (part : json) : res pyexn (list string) :=
  match part with
  | JObj d =>
      match object_properties d with
      | Some (JObj props) => Ret props.*1
      | Some _ => no_schema
      | None =>
          (fix find (l : list (string * json)) : res pyexn (list string) :=
             match l with
             | [] => Ret []
             | (k, v) :: l' =>
                 if String.eqb k "allOf" then
                   match v with
                   | JList children =>
                       (fix each (cs : list json) : res pyexn (list string) :=
                          match cs with
                          | [] => Ret []
                          | c :: cs' =>
                              let! a := _collect_body_property_keys c in let! b := each cs' in Ret (a ++ b)%list
                          end) children
                   | _ => no_schema
                   end
                 else find l'
             end) d
      end
  | _ => Ret []
  end.

Fixpoint collect_parts (parts : list json) : res pyexn (list string) :=
  match parts with
  | [] => Ret []
  | p :: parts' => let! a := _collect_body_property_keys p in let! b := collect_parts parts' in Ret (a ++ b)%list
  end.

(** The locations of the parameters and the names of the body's members. *)
Definition _parse_input_schema_routing (input_schema : option obj) : res pyexn (list (string * string) * list string) :=
  match input_schema with
  | None => Ret ([], [])
  | Some schema =>
      match assoc "allOf" schema with
      | Some (JList parts) =>
          let! param_in := match parts with JObj d :: _ => _param_props_from_object d [] | _ => Ret [] end in
          let! body_keys := collect_parts (tail parts) in
          Ret (param_in, body_keys)
      | Some _ => no_schema
      | None =>
          match object_properties schema with
          | Some (JObj props) =>
              Ret (fold_left (λ acc kv,
                     match kv.2 with
                     | JObj _ => match prop_location kv.2 with
                                 | Some loc => (PyDict.set kv.1 loc acc.1, acc.2)
                                 | None => (acc.1, acc.2 ++ [kv.1])%list
                                 end
                     | _ => acc
                     end) props ([], []))
          | Some _ => no_schema
          | None => Ret ([], [])
          end
      end
  end.

(** `sorted(...)` of names *)
Definition name_le (a b : string) : Prop := String.leb a b = true.
#[local] Instance name_le_dec a b : Decision (name_le a b).
Proof. unfold name_le. apply _. Defined.
Definition sorted_names (l : list string) : list string := PySort.sorted name_le (remove_dups l).

Section Handler.
  Context `{PyRuntime}.

Definition text_value (v : json) : string := py_str float_repr v.

(** The parts of a request an argument can go to. *)
Record split_args : Type := mkSplit {
  sa_path : obj;
  sa_query : obj;
  sa_headers : list (string * string);
  sa_cookies : list string;
  sa_body : obj
}.

Definition place_argument (param_in : list (string * string)) (acc : split_args) (key : string) (val : json) :
    res adapter_exn split_args :=
  match PyDict.get key param_in with
  | Some loc =>
      if String.eqb loc "path" then
        Ret (mkSplit (sa_path acc ++ [(key, val)])%list (sa_query acc) (sa_headers acc) (sa_cookies acc) (sa_body acc))
      else if String.eqb loc "query" then
        Ret (mkSplit (sa_path acc) (sa_query acc ++ [(key, val)])%list (sa_headers acc) (sa_cookies acc) (sa_body acc))
      else if String.eqb loc "header" then
        Ret (mkSplit (sa_path acc) (sa_query acc) (sa_headers acc ++ [(key, text_value val)])%list (sa_cookies acc) (sa_body acc))
      else if String.eqb loc "cookie" then
        Ret (mkSplit (sa_path acc) (sa_query acc) (sa_headers acc) (sa_cookies acc ++ [(key ++ "=" ++ text_value val)%string])%list
               (sa_body acc))
      else
        Raise (Failed (OpenAPIInvocationError
          ("Unsupported OpenAPI parameter location " ++ repr_str loc ++ " for " ++ repr_str key ++ ".")
          [("name", JStr key); ("in", JStr loc)]))
  | None =>
      Ret (mkSplit (sa_path acc) (sa_query acc) (sa_headers acc) (sa_cookies acc) (sa_body acc ++ [(key, val)])%list)
  end.

Fixpoint place_arguments (param_in : list (string * string)) (acc : split_args) (args : obj) : res adapter_exn split_args :=
  match args with
  | [] => Ret acc
  | (key, val) :: args' =>
      let! acc := place_argument param_in acc key val in
      place_arguments param_in acc args'
  end.

Definition _split_arguments_for_request (input_schema : option obj) (args : obj) :
    res adapter_exn (obj * obj * list (string * string) * option obj) :=
  match _parse_input_schema_routing input_schema with
  | Raise e => Raise (EscapedExn e)
  | Ret (param_in, body_keys) =>
      let allowed := (PyDict.keys param_in ++ body_keys)%list in
      if is_none input_schema && negb (bool_decide (args = [])) then
        Raise (Failed (OpenAPIInvocationError "Unexpected arguments for capability with no input schema."
                         [("unexpected", names_json (sorted_names args.*1))]))
      else
        let extras := List.filter (λ k, negb (str_in k allowed)) args.*1 in
        match extras with
        | _ :: _ =>
            Raise (Failed (OpenAPIInvocationError ("Unexpected argument name(s): " ++ joined ", " (sorted_names extras) ++ ".")
                             [("unexpected", names_json (sorted_names extras)); ("allowed", names_json (sorted_names allowed))]))
        | [] =>
            let! parts := place_arguments param_in (mkSplit [] [] [] [] []) args in
            let headers := match sa_cookies parts with
                           | [] => sa_headers parts
                           | pairs => PyDict.set "Cookie" (joined "; " pairs) (sa_headers parts)
                           end in
            Ret (sa_path parts, sa_query parts, headers, match body_keys with [] => None | _ => Some (sa_body parts) end)
        end
  end.

(** ** Headers *)
Definition _merge_request_headers (resolve_first : option (list (string * string))) (operation : list (string * string)) :
    option (list (string * string)) :=
  match default [] resolve_first, operation with
  | [], [] => None
  | first, _ => Some (dict_merge (dict_merge [] first) operation)
  end.

(** What a callback gives; a key or value is a text, or something of a named type. *)
Inductive resolved : Type :=
| CallbackRaises (error_type text : string)
| CallbackOther (type_name : string)
| CallbackDict (items : list ((string + string) * (string + string))).

Definition resolve_error (message : string) (details : obj) : adapter_exn :=
  Failed (mkAdapterError true _RESOLVE_HEADERS message details RPC_REMOTE_GENERIC).

Definition type_of (x : string + string) : string := match x with inl _ => "str" | inr t => t end.

Fixpoint check_items (out : list (string * string)) (items : list ((string + string) * (string + string))) :
    res adapter_exn (list (string * string)) :=
  match items with
  | [] => Ret out
  | (inl key, inl val) :: items' => check_items (PyDict.set key val out) items'
  | (key, val) :: _ =>
      Raise (resolve_error "resolve_headers dict must use only str keys and str values."
               [("key_type", JStr (type_of key)); ("value_type", JStr (type_of val))])
  end.

Definition _headers_from_resolve_callback (raw : resolved) : res adapter_exn (list (string * string)) :=
  match raw with
  | CallbackRaises t m => Raise (resolve_error ("resolve_headers callback failed: " ++ m ++ ".") [("error_type", JStr t)])
  | CallbackOther t => Raise (resolve_error "resolve_headers must return dict[str, str]." [("got_type", JStr t)])
  | CallbackDict items => check_items [] items
  end.

(** ** Paths *)
Definition _is_invalid_path_param_value (value : json) : bool :=
  match value with
  | JNull => true
  | JStr s => negb (PyStr.nonblank s) || str_in s _DOT_PATH_SEGMENTS
  | v => str_in (text_value v) _DOT_PATH_SEGMENTS
  end.

Definition _filled_path_has_dot_segment (path : string) : bool :=
  existsb (λ segment, str_in segment _DOT_PATH_SEGMENTS) (PyStr.split "/" path).

(** `re.findall(r"\{([^}]+)\}", s)`; [inside]: the text after an open brace. *)
Fixpoint placeholders (inside : option string) (s : string) : list string :=
  match s with
  | EmptyString => []
  | String c s' =>
      match inside with
      | None => placeholders (if Ascii.eqb c "{" then Some EmptyString else None) s'
      | Some acc =>
          if Ascii.eqb c "}" then
            if PyStr.truthy acc then acc :: placeholders None s' else placeholders None s'
          else placeholders (Some (acc ++ String c "")) s'
      end
  end.

(** `list(dict.fromkeys(l))`: the first occurrences. *)
Fixpoint distinct_from (seen l : list string) : list string :=
  match l with
  | [] => []
  | x :: l' => if str_in x seen then distinct_from seen l' else x :: distinct_from (x :: seen) l'
  end.

(** `quote(s, safe="")` over the UTF-8 bytes of the text. *)
Definition unreserved (b : Z) : bool :=
  ((48 <=? b) && (b <=? 57)) || ((65 <=? b) && (b <=? 90)) || ((97 <=? b) && (b <=? 122))
  || (b =? 45) || (b =? 46) || (b =? 95) || (b =? 126).
Definition upper_hex (n : Z) : ascii := ascii_of_nat (Z.to_nat (if n <? 10 then 48 + n else 55 + n)).
Fixpoint quote_bytes (l : list Z) : string :=
  match l with
  | [] => EmptyString
  | b :: l' =>
      if unreserved b then String (ascii_of_nat (Z.to_nat b)) (quote_bytes l')
      else String "%" (String (upper_hex (Z.shiftr b 4)) (String (upper_hex (Z.land b 15)) (quote_bytes l')))
  end.
Definition quote_path (s : string) : string := quote_bytes (encode s).

(** `s.replace(pat, rep)`; every step takes at least one character of [s]. *)
Fixpoint after_prefix (pat s : string) : option string :=
  match pat, s with
  | EmptyString, _ => Some s
  | String a pat', String b s' => if Ascii.eqb a b then after_prefix pat' s' else None
  | String _ _, EmptyString => None
  end.
Fixpoint replace_fuel (fuel : nat) (pat rep s : string) : string :=
  match fuel with
  | O => s
  | S fuel' =>
      match after_prefix pat s with
      | Some rest => rep ++ replace_fuel fuel' pat rep rest
      | None => match s with
                | EmptyString => EmptyString
                | String c s' => String c (replace_fuel fuel' pat rep s')
                end
      end
  end.
Definition replace_text (pat rep s : string) : string := replace_fuel (String.length s) pat rep s.

Definition placeholder (name : string) : string := "{" ++ name ++ "}".

Definition _fill_path_template (path_template : string) (path_params : obj) : res adapter_exn string :=
  let names_order := distinct_from [] (placeholders None path_template) in
  match List.filter (λ n, is_none (assoc n path_params)) names_order with
  | (_ :: _) as missing => raise_built (for_missing path_template missing)
  | [] =>
      match List.filter (λ n, _is_invalid_path_param_value (j_get n path_params)) names_order with
      | (_ :: _) as invalid_names => raise_built (for_invalid path_template invalid_names)
      | [] =>
          let out := fold_left (λ out name, replace_text (placeholder name) (quote_path (text_value (j_get name path_params))) out)
                       names_order path_template in
          if _filled_path_has_dot_segment out then
            match names_order with
            | _ :: _ => raise_built (for_invalid path_template names_order)
            | [] => Raise (Failed (for_static_dot_segment path_template))
            end
          else Ret out
      end
  end.

(** ** The call *)
Record upstream_request : Type := mkUpstream {
  uq_method : string;
  uq_url : string;
  uq_params : option obj;
  uq_headers : option (list (string * string));
  uq_json : option obj
}.

Record upstream_response : Type := mkUpstreamReply {
  ur_status_code : Z;
  ur_url : string;
  ur_text : string;
  ur_content_type : option string;
  ur_json : res pyexn json
}.

Inductive sent : Type :=
| Answered (r : upstream_response)
| RequestError (msg : string)
| SendRaises (e : pyexn).

Record OpenAPIUpstreamHandler : Type := mkHandler {
  oh_base_url : string;
  oh_capabilities : list (string * OpenAPICapability);
  (** the callback, a function of the session *)
  oh_resolve_headers : option (json → resolved);
  oh_asap_challenge_discovery_url : option string
}.

Definition from_capabilities (base_url : string) (capabilities : list OpenAPICapability) (resolve_headers : option (json → resolved))
    (asap_challenge_discovery_url : option string) : res pyexn OpenAPIUpstreamHandler :=
  let! index := index_capabilities capabilities in
  Ret (mkHandler (PyStr.rstrip_char "/" base_url) index resolve_headers asap_challenge_discovery_url).

Definition upper_char (c : ascii) : ascii :=
  let n := PyStr.code c in if ((97 <=? n) && (n <=? 122))%nat then ascii_of_nat (n - 32) else c.
Fixpoint upper (s : string) : string :=
  match s with EmptyString => EmptyString | String c s' => String (upper_char c) (upper s') end.

(** `s[:n]` *)
Fixpoint take_text (n : nat) (s : string) : string :=
  match n, s with S n', String c s' => String c (take_text n' s') | _, _ => EmptyString end.

(** `raise_for_status()`: only a status of the two hundreds passes. *)
Definition status_error (h : OpenAPIUpstreamHandler) (capability_name : string) (r : upstream_response) :
    option adapter_error :=
  let status := ur_status_code r in
  if (200 <=? status) && (status <=? 299) then None
  else
    let details := [("capability_name", JStr capability_name); ("url", JStr (ur_url r)); ("status_code", JInt status)] in
    let message := "Upstream HTTP " ++ PyStr.dec_Z status ++ "." in
    if 500 <=? status then Some (mkAdapterError true _UPSTREAM_5XX message details RPC_REMOTE_GENERIC)
    else
      let details := (details ++ [("body_snippet", JStr (take_text _UPSTREAM_CLIENT_ERROR_BODY_MAX_LEN (ur_text r)))])%list in
      let details :=
        match oh_asap_challenge_discovery_url h with
        | Some u => if (status =? 401) && PyStr.truthy u
                    then (details ++ [("_www_authenticate_asap", JStr (format_www_authenticate_asap u))])%list else details
        | None => details
        end in
      Some (mkAdapterError false _UPSTREAM_4XX message details RPC_REMOTE_GENERIC).

Definition read_result (r : upstream_response) : res adapter_exn obj :=
  let content_type := default "" (ur_content_type r) in
  if PyStr.contains (PyStr.lower content_type) "application/json" then
    match ur_json r with
    | Ret (JObj data) => Ret data
    | Ret data => Ret [("_json", data)]
    | Raise e => Raise (EscapedExn e)
    end
  else Ret [("_text", JStr (ur_text r)); ("_status_code", JInt (ur_status_code r)); ("content_type", JStr content_type)].

(** The request a call makes. *)
Definition build_request (h : OpenAPIUpstreamHandler) (cap : OpenAPICapability) (args : obj) (session : json) :
    res adapter_exn upstream_request :=
  let! parts := _split_arguments_for_request (sk_input_schema (oc_skill cap)) args in
  let '(path_vals, query, headers, json_body) := parts in
  let! resolved_path := _fill_path_template (oc_path_template cap) path_vals in
  let resolved_path := if PyStr.startswith resolved_path "/" then resolved_path else "/" ++ resolved_path in
  let! resolved_auth := match oh_resolve_headers h with
                        | Some fn => let! l := _headers_from_resolve_callback (fn session) in Ret (Some l)
                        | None => Ret None
                        end in
  Ret (mkUpstream (upper (oc_http_method cap)) (oh_base_url h ++ resolved_path)
         (match query with [] => None | _ => Some query end) (_merge_request_headers resolved_auth headers) json_body).

Definition execute (upstream : upstream_request → sent) (h : OpenAPIUpstreamHandler) (capability_name : string) (args : obj) (session : json) :
    ST (list upstream_request) adapter_exn obj := λ log,
  match PyDict.get capability_name (oh_capabilities h) with
  | None => (log, Raise (Failed (UnknownOpenAPICapabilityError capability_name)))
  | Some cap =>
      match build_request h cap args session with
      | Raise e => (log, Raise e)
      | Ret req =>
          ((log ++ [req])%list,
           match upstream req with
           | RequestError msg =>
               Raise (Failed (mkAdapterError true _UPSTREAM ("Upstream request failed: " ++ msg ++ ".")
                                [("capability_name", JStr capability_name); ("url", JStr (uq_url req))] RPC_CONNECTION_ERROR))
           | SendRaises e => Raise (EscapedExn e)
           | Answered r =>
               if ur_status_code r =? 204 then Ret []
               else
                 match status_error h capability_name r with
                 | Some e => Raise (Failed e)
                 | None => read_result r
                 end
           end)
      end
  end.

End Handler.

(** ** Counting separators *)
Fixpoint count_char (c : ascii) (s : string) : nat :=
  match s with EmptyString => 0 | String d s' => (if Ascii.eqb d c then 1 else 0) + count_char c s' end.

Lemma count_app c a b : count_char c (a ++ b) = (count_char c a + count_char c b)%nat.
Proof. induction a as [|d a IH]; [done|]. rewrite append_cons. cbn. rewrite IH. lia. Qed.

Lemma after_prefix_some pat s rest : after_prefix pat s = Some rest → s = pat ++ rest.
Proof.
  revert s. induction pat as [|a pat IH]; intros s; cbn [after_prefix]; [intros [= Hs]; by subst|].
  destruct s as [|b s]; [done|]. destruct (Ascii.eqb_spec a b) as [Hab|]; [|done].
  intros Hr%IH. subst. by rewrite append_cons.
Qed.

Lemma count_replace c fuel pat rep s : count_char c pat = 0%nat → count_char c rep = 0%nat →
  count_char c (replace_fuel fuel pat rep s) = count_char c s.
Proof.
  intros Hp Hr. revert s. induction fuel as [|fuel IH]; intros s; [done|]. cbn [replace_fuel].
  destruct (after_prefix pat s) as [rest|] eqn:Ha.
  - apply after_prefix_some in Ha as ->. rewrite !count_app, IH, Hp, Hr. done.
  - destruct s as [|d s]; [done|]. cbn. by rewrite IH.
Qed.

(** More fuel than characters changes nothing. *)
Lemma replace_enough pat rep s fuel : pat ≠ EmptyString → (String.length s <= fuel)%nat →
  replace_fuel fuel pat rep s = replace_text pat rep s.
Proof.
  intros Hp Hf. unfold replace_text.
  assert (Hg : ∀ f g s, (String.length s <= f)%nat → (String.length s <= g)%nat → replace_fuel f pat rep s = replace_fuel g pat rep s).
  { clear s fuel Hf. induction f as [|f IH]; intros g s Hf Hg.
    - destruct s; [|cbn in Hf; lia]. destruct g; [done|]. cbn. by destruct pat.
    - destruct g as [|g]. { destruct s; [|cbn in Hg; lia]. cbn. by destruct pat. }
      cbn [replace_fuel]. destruct (after_prefix pat s) as [rest|] eqn:Ha.
      + apply after_prefix_some in Ha as ->. rewrite length_append in *.
        assert (0 < String.length pat)%nat by (destruct pat; [done|cbn; lia]). f_equal. apply IH; lia.
      + destruct s as [|c s]; [done|]. cbn in *. f_equal. apply IH; lia. }
  apply Hg; lia.
Qed.

(** The characters that separate the parts of a URL. *)
Definition separators : list ascii := ["/"; "?"; "#"]%char.

Lemma hex_not_separator sep n : sep ∈ separators → 0 <= n < 16 → Ascii.eqb (upper_hex n) sep = false.
Proof.
  intros Hs Hn. assert (Hc : ∀ k, (k < 16)%nat → Ascii.eqb (upper_hex (Z.of_nat k)) sep = false).
  { intros k Hk. unfold separators in Hs. rewrite !elem_of_cons in Hs.
    destruct Hs as [-> | [-> | [-> | []%elem_of_nil]]]; do 16 (destruct k as [|k]; [reflexivity|]); lia. }
  rewrite <- (Z2Nat.id n) by lia. apply Hc. lia.
Qed.

Lemma unreserved_not_separator sep b : sep ∈ separators → unreserved b = true →
  Ascii.eqb (ascii_of_nat (Z.to_nat b)) sep = false.
Proof.
  intros Hs Hu. assert (Hr : 0 <= b < 127). { unfold unreserved in Hu. destruct (Z.leb_spec 0 b), (Z.ltb_spec b 127); try lia; crush. }
  destruct (Ascii.eqb_spec (ascii_of_nat (Z.to_nat b)) sep) as [He|]; [|done].
  assert (Hn : Z.to_nat b = nat_of_ascii sep). { rewrite <- He, nat_ascii_embedding; [done|lia]. }
  unfold separators in Hs. rewrite !elem_of_cons in Hs.
  destruct Hs as [-> | [-> | [-> | []%elem_of_nil]]]; cbn in Hn; assert (Hb : b = Z.of_nat (Z.to_nat b)) by lia;
    rewrite Hn in Hb; subst b; done.
Qed.

Lemma quote_no_separator sep l : sep ∈ separators → Forall (λ b, 0 <= b < 256) l → count_char sep (quote_bytes l) = 0%nat.
Proof.
  intros Hs. induction 1 as [|b l Hb _ IH]; [done|]. cbn [quote_bytes].
  destruct (unreserved b) eqn:Hu; cbn [count_char].
  - by rewrite unreserved_not_separator, IH.
  - rewrite IH, !hex_not_separator; try done.
    + unfold separators in Hs. rewrite !elem_of_cons in Hs. by destruct Hs as [-> | [-> | [-> | []%elem_of_nil]]].
    + change 15 with (Z.ones 4). rewrite Z.land_ones by lia. apply Z.mod_pos_bound. lia.
    + rewrite Z.shiftr_div_pow2 by lia. split; [apply Z.div_pos; lia|]. apply Z.div_lt_upper_bound; lia.
Qed.

Lemma utf8_char_bytes c : Forall (λ b, 0 <= b < 256) (utf8_char c).
Proof.
  destruct c as [b0 b1 b2 b3 b4 b5 b6 b7].
  destruct b0, b1, b2, b3, b4, b5, b6, b7; vm_compute; repeat constructor; discriminate.
Qed.

Lemma encode_bytes s : Forall (λ b, 0 <= b < 256) (encode s).
Proof. induction s as [|c s IH]; [constructor|]. cbn [encode]. apply Forall_app. split; [apply utf8_char_bytes|done]. Qed.

Lemma quote_path_no_separator sep s : sep ∈ separators → count_char sep (quote_path s) = 0%nat.
Proof. intros Hs. apply quote_no_separator; [done|apply encode_bytes]. Qed.

Lemma distinct_from_sub seen l x : x ∈ distinct_from seen l → x ∈ l.
Proof.
  revert seen. induction l as [|y l IH]; intros seen; cbn [distinct_from]; [done|].
  case_match; [intros Hx%IH; by right|]. intros [-> | Hx%IH]%elem_of_cons; [left|by right].
Qed.

Lemma count_placeholder sep n : sep ∈ separators → count_char sep n = 0%nat → count_char sep (placeholder n) = 0%nat.
Proof.
  intros Hs Hn. unfold placeholder. rewrite !count_app, Hn. unfold separators in Hs. rewrite !elem_of_cons in Hs.
  by destruct Hs as [-> | [-> | [-> | []%elem_of_nil]]].
Qed.

Lemma count_fill sep (f : string → string) names out : sep ∈ separators →
  (∀ n, n ∈ names → count_char sep n = 0%nat) →
  count_char sep (fold_left (λ out name, replace_text (placeholder name) (quote_path (f name)) out) names out)
  = count_char sep out.
Proof.
  intros Hs. revert out. induction names as [|n names IH]; intros out Hn; [done|]. cbn [fold_left].
  rewrite IH by (intros m Hm; apply Hn; by right). apply count_replace; [|by apply quote_path_no_separator].
  apply count_placeholder, Hn; [done|left].
Qed.

(** ** The request of a call *)
Section Requests.
  Context `{PyRuntime}.

(** The template with every placeholder, in the order of their first occurrences,
    replaced by the quoted text of the argument of that name. *)
Definition filled (template : string) (params : obj) : string :=
  fold_left (λ out name, replace_text (placeholder name) (quote_path (text_value (j_get name params))) out)
    (distinct_from [] (placeholders None template)) template.

Lemma fill_path_ok template params path : _fill_path_template template params = Ret path →
  path = filled template params
  ∧ (∀ segment, segment ∈ PyStr.split "/" path → segment ≠ "." ∧ segment ≠ "..")
  ∧ (∀ name, name ∈ distinct_from [] (placeholders None template) →
       is_Some (assoc name params) ∧ _is_invalid_path_param_value (j_get name params) = false)
  ∧ ∀ sep, sep ∈ separators → (∀ name, name ∈ placeholders None template → count_char sep name = 0%nat) →
      count_char sep path = count_char sep template.
Proof.
  unfold _fill_path_template, raise_built, for_missing, for_invalid.
  destruct (List.filter (λ n, is_none (assoc n params)) _) as [|m ms] eqn:Hm; [|done].
  destruct (List.filter (λ n, _is_invalid_path_param_value _) _) as [|i rest] eqn:Hi; [|done].
  destruct (_filled_path_has_dot_segment _) eqn:Hd; [by destruct (distinct_from _ _)|]. intros [= <-]. split_and!.
  - done.
  - intros segment Hin. unfold _filled_path_has_dot_segment in Hd.
    assert (Hs : str_in segment _DOT_PATH_SEGMENTS = false).
    { destruct (str_in segment _) eqn:E; [|done]. rewrite (proj2 (existsb_exists _ _)) in Hd; [done|].
      exists segment. by rewrite <- list_elem_of_In. }
    split; intros ->; done.
  - intros name Hin. split.
    + destruct (assoc name params) eqn:E; [done|]. assert (Hf : In name []); [|done].
      rewrite <- Hm. apply filter_In. rewrite <- list_elem_of_In, E. done.
    + destruct (_is_invalid_path_param_value _) eqn:E; [|done].
      assert (Hf : In name []). { rewrite <- Hi. apply filter_In. by rewrite <- list_elem_of_In. } done.
  - intros sep Hs Hn. apply count_fill; [done|]. intros n Hin%distinct_from_sub. by apply Hn.
Qed.

Lemma build_request_url h cap args session req : build_request h cap args session = Ret req →
  ∃ parts path, _split_arguments_for_request (sk_input_schema (oc_skill cap)) args = Ret parts
    ∧ _fill_path_template (oc_path_template cap) parts.1.1.1 = Ret path
    ∧ uq_method req = upper (oc_http_method cap)
    ∧ uq_url req = oh_base_url h ++ (if PyStr.startswith path "/" then path else "/" ++ path).
Proof.
  unfold build_request. destruct (_split_arguments_for_request _ _) as [|[[[pv q] hd] b]] eqn:Hs; cbn [rbind]; [done|].
  destruct (_fill_path_template _ _) as [|path] eqn:Hf; cbn [rbind]; [done|].
  intros Hb. exists (pv, q, hd, b), path. split_and!; [done|done|..];
    destruct (oh_resolve_headers h) as [fn|]; cbn in Hb; try (destruct (_headers_from_resolve_callback _); cbn in Hb); by simplify_eq.
Qed.

(** C37: the arguments of a call cannot move its request.  Executing a
    capability makes at most one upstream request; it is made only for a
    registered capability, with its HTTP method, at the base URL followed by the
    path template in which every placeholder is replaced by the quoted text of
    the argument routed to it.  All placeholders have an argument, which passed
    the path-value check; no segment of the path is `.` or `..`; and the path has
    exactly as many slashes, question marks and hash signs as the template,
    whatever the arguments are, as long as the names of the placeholders have
    none. *)
Theorem upstream_requests_keep_the_template upstream h name args session log :
  let log' := (execute upstream h name args session log).1 in
  log' = log
  ∨ ∃ cap req parts,
      PyDict.get name (oh_capabilities h) = Some cap ∧ log' = (log ++ [req])%list
      ∧ _split_arguments_for_request (sk_input_schema (oc_skill cap)) args = Ret parts
      ∧ let template := oc_path_template cap in
        let values := parts.1.1.1 in
        let path := filled template values in
        uq_method req = upper (oc_http_method cap)
        ∧ uq_url req = oh_base_url h ++ (if PyStr.startswith path "/" then path else "/" ++ path)
        ∧ (∀ segment, segment ∈ PyStr.split "/" path → segment ≠ "." ∧ segment ≠ "..")
        ∧ (∀ n, n ∈ distinct_from [] (placeholders None template) →
             is_Some (assoc n values) ∧ _is_invalid_path_param_value (j_get n values) = false)
        ∧ ∀ sep, sep ∈ separators →
            (∀ n, n ∈ placeholders None template → count_char sep n = 0%nat) →
            count_char sep path = count_char sep template.
Proof.
  unfold execute. destruct (PyDict.get name _) as [cap|] eqn:Hg; [|by left].
  destruct (build_request h cap args session) as [|req] eqn:Hb; [by left|]. right.
  apply build_request_url in Hb as (parts & path & Hs & Hf & Hm & Hu). apply fill_path_ok in Hf as (-> & Hd & Hv & Hc).
  exists cap, req, parts. done.
Qed.

(** ** Routing of the arguments *)
Definition LOCATIONS : list string := ["path"; "query"; "header"; "cookie"].

(** The arguments declared at [loc]; `None` is the body. *)
Definition args_at (param_in : list (string * string)) (loc : option string) (args : obj) : obj :=
  List.filter (λ kv, bool_decide (PyDict.get kv.1 param_in = loc)) args.

Definition routable (param_in : list (string * string)) (body_keys : list string) (key : string) : Prop :=
  match PyDict.get key param_in with Some loc => loc ∈ LOCATIONS | None => key ∈ body_keys end.

Definition with_cookies (pairs : list string) (headers : list (string * string)) : list (string * string) :=
  match pairs with [] => headers | l => PyDict.set "Cookie" (joined "; " l) headers end.

(** What a request is made of, when every argument has a place. *)
Definition routed (param_in : list (string * string)) (body_keys : list string) (args : obj) :
    obj * obj * list (string * string) * option obj :=
  (args_at param_in (Some "path") args,
   args_at param_in (Some "query") args,
   with_cookies (map (λ kv, (kv.1 ++ "=" ++ text_value kv.2)%string) (args_at param_in (Some "cookie") args))
     (map (λ kv, (kv.1, text_value kv.2)) (args_at param_in (Some "header") args)),
   match body_keys with [] => None | _ => Some (args_at param_in None args) end).

Definition split_app (a b : split_args) : split_args :=
  mkSplit (sa_path a ++ sa_path b) (sa_query a ++ sa_query b) (sa_headers a ++ sa_headers b)
    (sa_cookies a ++ sa_cookies b) (sa_body a ++ sa_body b).

Definition places (param_in : list (string * string)) (args : obj) : split_args :=
  mkSplit (args_at param_in (Some "path") args) (args_at param_in (Some "query") args)
    (map (λ kv, (kv.1, text_value kv.2)) (args_at param_in (Some "header") args))
    (map (λ kv, (kv.1 ++ "=" ++ text_value kv.2)%string) (args_at param_in (Some "cookie") args))
    (args_at param_in None args).

Lemma split_app_assoc a b c : split_app a (split_app b c) = split_app (split_app a b) c.
Proof. unfold split_app. cbn. by rewrite !app_assoc. Qed.

Lemma place_argument_ok param_in acc key val :
  match PyDict.get key param_in with Some loc => loc ∈ LOCATIONS | None => True end →
  place_argument param_in acc key val = Ret (split_app acc (places param_in [(key, val)])).
Proof.
  unfold place_argument, split_app, places, args_at, LOCATIONS. cbn [List.filter fst].
  destruct (PyDict.get key param_in) as [loc|].
  - rewrite !elem_of_cons. intros [-> | [-> | [-> | [-> | []%elem_of_nil]]]]; cbn; by rewrite ?app_nil_r.
  - intros _. cbn. by rewrite !app_nil_r.
Qed.

Lemma places_cons param_in kv args : places param_in (kv :: args) = split_app (places param_in [kv]) (places param_in args).
Proof.
  assert (Ha : ∀ loc, args_at param_in loc (kv :: args) = (args_at param_in loc [kv] ++ args_at param_in loc args)%list).
  { intros loc. unfold args_at. cbn [List.filter]. by destruct (bool_decide _). }
  unfold places, split_app. cbn [sa_path sa_query sa_headers sa_cookies sa_body]. by rewrite !Ha, !map_app.
Qed.

Lemma place_arguments_ok param_in args : ∀ acc,
  Forall (λ kv, match PyDict.get kv.1 param_in with Some loc => loc ∈ LOCATIONS | None => True end) args →
  place_arguments param_in acc args = Ret (split_app acc (places param_in args)).
Proof.
  induction args as [|[key val] args IH]; intros acc; cbn [place_arguments].
  - intros _. unfold split_app, places, args_at. cbn. rewrite !app_nil_r. by destruct acc.
  - intros [Hk Ha]%Forall_cons. cbn [fst] in Hk. rewrite place_argument_ok by done. cbn [rbind].
    rewrite IH, (places_cons _ (key, val) args) by done. by rewrite split_app_assoc.
Qed.

Lemma place_arguments_located param_in args : ∀ acc out, place_arguments param_in acc args = Ret out →
  Forall (λ kv, match PyDict.get kv.1 param_in with Some loc => loc ∈ LOCATIONS | None => True end) args.
Proof.
  induction args as [|[key val] args IH]; intros acc out; cbn [place_arguments]; [constructor|].
  destruct (place_argument param_in acc key val) as [|acc'] eqn:Hp; cbn [rbind]; [done|].
  intros Hr%IH. constructor; [|done]. cbn [fst]. unfold place_argument in Hp. destruct (PyDict.get key param_in) as [loc|]; [|done].
  unfold LOCATIONS. rewrite !elem_of_cons.
  repeat (case_match eqn:He; [apply String.eqb_eq in He; tauto|clear He]). done.
Qed.

Lemma no_extras (allowed l : list string) : List.filter (λ k, negb (str_in k allowed)) l = [] ↔ Forall (.∈ allowed) l.
Proof.
  induction l as [|k l IH]; cbn [List.filter]; [done|]. rewrite Forall_cons, <- IH.
  destruct (str_in k allowed) eqn:E; cbn [negb].
  - apply str_in_true in E. tauto.
  - split; [done|]. intros [Hk%str_in_true _]. congruence.
Qed.

Lemma allowed_iff (param_in : list (string * string)) (body_keys : list string) k :
  k ∈ (PyDict.keys param_in ++ body_keys)%list
  ∧ match PyDict.get k param_in with Some loc => loc ∈ LOCATIONS | None => True end
  ↔ routable param_in body_keys k.
Proof.
  unfold routable. rewrite elem_of_app. destruct (PyDict.get k param_in) as [loc|] eqn:Hg.
  - split; [tauto|]. intros Hl. split; [|done]. left. apply PyDict.get_Some_elem in Hg.
    apply list_elem_of_fmap. by exists (k, loc).
  - apply PyDict.get_None in Hg. tauto.
Qed.

(** Every argument of a call reaches exactly the place the input schema
    declares for it.  Given the routes read from the schema, the split succeeds
    if and only if a schema is there or there are no arguments, and every
    argument is a parameter of a known location or a member of the body; the
    result then is the arguments declared in the path, those in the query, those
    in the headers as texts with one `Cookie` header for those in cookies, and
    the remaining ones as the body, which is sent exactly when the body has
    members. *)
Theorem arguments_are_partitioned schema args param_in body_keys parts :
  _parse_input_schema_routing schema = Ret (param_in, body_keys) →
  _split_arguments_for_request schema args = Ret parts ↔
    (schema = None → args = []) ∧ Forall (routable param_in body_keys) args.*1 ∧ parts = routed param_in body_keys args.
Proof.
  intros Hr. unfold _split_arguments_for_request. rewrite Hr.
  assert (Hroute : Forall (routable param_in body_keys) args.*1 ↔
    Forall (.∈ (PyDict.keys param_in ++ body_keys)%list) args.*1
    ∧ Forall (λ kv, match PyDict.get kv.1 param_in with Some loc => loc ∈ LOCATIONS | None => True end) args).
  { rewrite !Forall_fmap, <- Forall_and. apply Forall_iff. intros kv. symmetry. apply allowed_iff. }
  rewrite Hroute, <- no_extras. destruct (is_none schema && _) eqn:Hn.
  - reflect. destruct schema; [done|]. split; [done|]. intros [Ha _]. exfalso. auto.
  - assert (Hs : schema = None → args = []). { intros ->. cbn in Hn. by apply negb_false_iff, bool_decide_eq_true in Hn. }
    destruct (List.filter _ _) as [|x xs]; [|by split; [done|intros (_ & [? _] & _)]].
    destruct (place_arguments _ _ _) as [e|out] eqn:Hp; cbn [rbind].
    + split; [done|]. intros (_ & [_ Hl] & _). by rewrite place_arguments_ok in Hp.
    + pose proof Hp as Hl%place_arguments_located. rewrite place_arguments_ok in Hp by done. injection Hp as <-.
      assert (Hw : routed param_in body_keys args = routed param_in body_keys args) by done.
      unfold routed at 1, with_cookies in Hw. cbn. destruct (map _ (args_at _ (Some "cookie") _)) as [|c cs];
        rewrite <- Hw; (split; [intros [= <-]; by split_and!|by intros (_ & _ & ->)]).
Qed.

End Requests.

(** ** What an upstream error tells the caller *)
(** An upstream error does not depend on its body beyond its first 200
    characters, and for a server error not on its body at all; a server error is
    recoverable and any other fatal. *)
Theorem upstream_errors_hide_the_body h name r body :
  let r' := mkUpstreamReply (ur_status_code r) (ur_url r) body (ur_content_type r) (ur_json r) in
  (500 <= ur_status_code r
   ∨ take_text _UPSTREAM_CLIENT_ERROR_BODY_MAX_LEN body = take_text _UPSTREAM_CLIENT_ERROR_BODY_MAX_LEN (ur_text r)) →
  status_error h name r' = status_error h name r
  ∧ ∀ e, status_error h name r = Some e → ae_recoverable e = (500 <=? ur_status_code r).
Proof.
  intros r' Hb. unfold status_error, r'. cbn [ur_status_code ur_url ur_text]. split.
  - destruct (_ && _); [done|]. destruct (Z.leb_spec 500 (ur_status_code r)); [done|]. destruct Hb as [Hb|Hb]; [lia|]. by rewrite Hb.
  - intros e. destruct (_ && _); [done|]. destruct (500 <=? _); intros [= <-]; done.
Qed.

(** ** The routes of a built schema *)
Lemma j_get_set_eq k v d : j_get k (PyDict.set k v d) = v.
Proof. unfold j_get. by rewrite assoc_get, PyDict.get_set_eq. Qed.

Lemma j_get_set_ne k k' v d : k ≠ k' → j_get k (PyDict.set k' v d) = j_get k d.
Proof. intros Hk. unfold j_get. by rewrite !assoc_get, PyDict.get_set_ne. Qed.

Lemma prop_location_built raw m : prop_location (JObj (prop_schema raw m)) = Some (pm_in m).
Proof.
  unfold prop_location, prop_schema. cbn zeta. destruct (pm_description m) as [desc|]; [|by rewrite j_get_set_eq].
  destruct (_ && _); [rewrite j_get_set_ne by done|]; by rewrite j_get_set_eq.
Qed.

Lemma set_new {K V} `{EqDecision K} (k : K) (v : V) d : k ∉ d.*1 → PyDict.set k v d = (d ++ [(k, v)])%list.
Proof.
  induction d as [|[k' v'] d IH]; [done|]. cbn. intros [Hne Hin]%not_elem_of_cons.
  rewrite decide_False by done. by rewrite IH.
Qed.

(** With distinct names, building the properties keeps the parameters in order. *)
Lemma parameter_properties_distinct raw ps : NoDup (map pm_name ps) →
  (_parameter_properties raw ps).1 = map (λ m, (pm_name m, JObj (prop_schema raw m))) ps.
Proof.
  intros Hd. unfold _parameter_properties.
  assert (Hg : ∀ ps (acc : obj * list string), NoDup (acc.1.*1 ++ map pm_name ps) →
    (fold_left (λ acc m, (PyDict.set (pm_name m) (JObj (prop_schema raw m)) acc.1,
       if pm_required m && negb (str_in (pm_name m) acc.2) then (acc.2 ++ [pm_name m])%list else acc.2)) ps acc).1
    = (acc.1 ++ map (λ m, (pm_name m, JObj (prop_schema raw m))) ps)%list).
  { clear. induction ps as [|m ps IH]; intros acc Hd; [by rewrite app_nil_r|]. cbn [fold_left map] in *.
    assert (Hn : pm_name m ∉ acc.1.*1). { apply NoDup_app in Hd as (_ & Hd & _). intros Hin. apply (Hd _ Hin). left. }
    rewrite IH; cbn [fst]; rewrite set_new by done; [by rewrite <- app_assoc|].
    by rewrite fmap_app, <- app_assoc. }
  by rewrite Hg.
Qed.

(** The routes the handler reads from the properties of the parameters. *)
Lemma routes_of_properties raw ps acc : NoDup (acc.*1 ++ map pm_name ps) →
  fold_left (λ acc kv, match prop_location kv.2 with Some loc => PyDict.set kv.1 loc acc | None => acc end)
    (map (λ m, (pm_name m, JObj (prop_schema raw m))) ps) acc
  = (acc ++ map (λ m, (pm_name m, pm_in m)) ps)%list.
Proof.
  revert acc. induction ps as [|m ps IH]; intros acc Hd; [by rewrite app_nil_r|].
  cbn [fold_left map fst snd] in *. rewrite prop_location_built.
  assert (Hn : pm_name m ∉ acc.*1). { apply NoDup_app in Hd as (_ & Hd & _). intros Hin. apply (Hd _ Hin). left. }
  rewrite set_new by done. rewrite IH; [by rewrite <- app_assoc|]. by rewrite fmap_app, <- app_assoc.
Qed.

Lemma routes_of_lone_schema raw ps acc (keys : list string) : NoDup (acc.*1 ++ map pm_name ps) →
  fold_left (λ acc kv,
      match kv.2 with
      | JObj _ => match prop_location kv.2 with
                  | Some loc => (PyDict.set kv.1 loc acc.1, acc.2)
                  | None => (acc.1, acc.2 ++ [kv.1])%list
                  end
      | _ => acc
      end) (map (λ m, (pm_name m, JObj (prop_schema raw m))) ps) (acc, keys)
  = ((acc ++ map (λ m, (pm_name m, pm_in m)) ps)%list, keys).
Proof.
  revert acc. induction ps as [|m ps IH]; intros acc Hd; [by rewrite app_nil_r|].
  cbn [fold_left map fst snd] in *. rewrite prop_location_built.
  assert (Hn : pm_name m ∉ acc.*1). { apply NoDup_app in Hd as (_ & Hd & _). intros Hin. apply (Hd _ Hin). left. }
  rewrite set_new by done. rewrite IH; [by rewrite <- app_assoc|]. by rewrite fmap_app, <- app_assoc.
Qed.

Lemma object_properties_built raw ps :
  object_properties (param_object raw ps) = Some (JObj (_parameter_properties raw ps).1).
Proof. unfold param_object. by destruct (_parameter_properties raw ps) as [props req]. Qed.

(** The input schema the mapper builds for an operation is read back by the
    request handler as the operation declares it.  When the operation has
    parameters, with distinct names, every parameter is routed to its own
    location, in the order of declaration, and the members of the body are the
    properties of the body schema, if there is one. *)
Theorem built_schema_routes raw ps body :
  ps ≠ [] → NoDup (map pm_name ps) →
  match body with
  | None => True
  | Some b => is_Some (object_properties b) ∧ ∀ v, object_properties b = Some v → as_obj v ≠ None
  end →
  _parse_input_schema_routing (_build_input_schema raw ps body)
  = Ret (map (λ m, (pm_name m, pm_in m)) ps,
         match body with
         | Some b => match object_properties b with Some (JObj props) => props.*1 | _ => [] end
         | None => []
         end).
Proof.
  intros Hne Hd Hb. unfold _build_input_schema. pose proof (parameter_properties_distinct raw ps Hd) as Hp.
  assert (Hc : ∃ x l, (_parameter_properties raw ps).1 = x :: l). { rewrite Hp. destruct ps; [done|]. cbn. eauto. }
  destruct Hc as (x & l & Hc). rewrite Hc.
  destruct body as [b|].
  - destruct Hb as [[v Hv] Ho]. specialize (Ho v Hv). destruct b as [|kv b]; [done|]. rewrite Hv.
    destruct v as [| | | | | |props]; try done.
    set (first := param_object raw ps). change (_parse_input_schema_routing _) with
      (let! param_in := _param_props_from_object first [] in
       let! body_keys := collect_parts [JObj (kv :: b)] in Ret (param_in, body_keys)).
    unfold _param_props_from_object, first. rewrite object_properties_built, Hp, routes_of_properties by done.
    cbn [app rbind collect_parts _collect_body_property_keys]. rewrite Hv. cbn. by rewrite app_nil_r.
  - cbn [app]. unfold _parse_input_schema_routing.
    assert (Ha : assoc "allOf" (param_object raw ps) = None).
    { unfold param_object. destruct (_parameter_properties raw ps) as [props [|r req]]; done. }
    by rewrite Ha, object_properties_built, Hp, routes_of_lone_schema.
Qed.

(** ** Examples *)
#[local] Instance demo_runtime : PyRuntime := {| float_repr := λ _, "1.5"; float_of_str := λ _, None |}.

Definition demo_params : list ParamModel :=
  [mkParam "petId" "path" None [] None true; mkParam "tag" "query" None [] (Some "a tag") false;
   mkParam "sid" "cookie" None [] None false].
Definition demo_body : obj := [("type", JStr "object"); ("properties", JObj [("name", JObj [("type", JStr "string")])])].
Definition demo_routes : list (string * string) := [("petId", "path"); ("tag", "query"); ("sid", "cookie")].

Lemma built_schema_routes_witness :
  _parse_input_schema_routing (_build_input_schema [] demo_params (Some demo_body)) = Ret (demo_routes, ["name"]).
Proof.
  apply (built_schema_routes [] demo_params (Some demo_body)).
  - done.
  - apply (bool_decide_eq_true_1 _). vm_compute. reflexivity.
  - split; [by eexists|]. intros v [= <-]. done.
Defined.

Definition demo_args : obj := [("petId", JStr "a/../b"); ("name", JStr "Rex"); ("tag", JInt 3)].

Lemma arguments_are_partitioned_witness :
  _split_arguments_for_request (_build_input_schema [] demo_params (Some demo_body)) demo_args
  = Ret ([("petId", JStr "a/../b")], [("tag", JInt 3)], [], Some [("name", JStr "Rex")]).
Proof.
  apply (arguments_are_partitioned _ demo_args demo_routes ["name"]); [reflexivity|]. split_and!; [done| |reflexivity].
  repeat constructor; unfold routable; cbn; unfold LOCATIONS; set_solver.
Defined.

Definition demo_capability : OpenAPICapability :=
  mkCapability (mkSkill "getPet" "a pet" (_build_input_schema [] demo_params (Some demo_body)) None) "get" "/pets/{petId}" SYNC None.
Definition demo_handler : OpenAPIUpstreamHandler := mkHandler "https://api" [("getPet", demo_capability)] None None.
Definition demo_upstream (_ : upstream_request) : sent :=
  Answered (mkUpstreamReply 200 "u" "{}" (Some "application/json") (Ret (JObj [("ok", JBool true)]))).

(** The request of the example: slashes and dots of the value stay in one segment. *)
Lemma demo_call :
  execute demo_upstream demo_handler "getPet" demo_args JNull []
  = ([mkUpstream "GET" "https://api/pets/a%2F..%2Fb" (Some [("tag", JInt 3)]) None (Some [("name", JStr "Rex")])],
     Ret [("ok", JBool true)]).
Proof. by vm_compute. Qed.

(** The value of a cookie argument is not encoded: it can add cookies. *)
Lemma cookie_value_adds_cookies :
  _split_arguments_for_request (_build_input_schema [] demo_params None) [("sid", JStr "1; admin=true")]
  = Ret ([], [], [("Cookie", "sid=1; admin=true")], None).
Proof. by vm_compute. Qed.

(** A body that is a composition, in an operation without parameters, is its own
    input schema, whose first part is then read as the parameters: the members of
    that part are refused. *)
Lemma body_composition_loses_first_part :
  let part n := JObj [("type", JStr "object"); ("properties", JObj [(n, JObj [("type", JStr "string")])])] in
  let body := [("allOf", JList [part "name"; part "tag"])] in
  _parse_input_schema_routing (_build_input_schema [] [] (Some body)) = Ret ([], ["tag"])
  ∧ ∃ e, _split_arguments_for_request (_build_input_schema [] [] (Some body)) [("name", JStr "Rex")] = Raise (Failed e)
      ∧ ae_message e = "Unexpected argument name(s): name.".
Proof. split; [by vm_compute|]. eexists. by vm_compute. Qed.
