(* ===== verification/OpenApiAdapter.v ===== *)
(** * The OpenAPI adapter

    `src/src/asap/adapters/openapi/spec_loader.py` (loading a document),
    `approval.py` (which operations need WebAuthn) and `factory.py` (the manifest
    and the handler made from a document), with the `task.request` handler of
    `handler.py`.

    Parameters: what the HTTP client, the file system and `json` give
    ([spec_world]), the parser of openapi-pydantic ([parse_obj]), `urlparse` and
    `urljoin`, the validation of a `Manifest` and of a `TaskRequest` by Pydantic.
    `OpenAPISpecError` is a `ValueError`.  The warning about unknown keyword
    arguments and log lines are left out. *)

From Stdlib Require Import ZArith Lia Ascii String.
From stdpp Require Import base tactics list gmap strings.
From S2P Require Import Prelude PyValue Identity Errors EnvelopeGuard Handlers JsonRpc AgentJwt SelfAuth Server OpenApiMapper OpenApiHandler.
Open Scope string_scope.
Open Scope Z_scope.
Open Scope asap_scope.

(** ** Approval strength *)
Definition _HTTP_VERBS_FROZEN : list string := ["GET"; "PUT"; "POST"; "DELETE"; "OPTIONS"; "HEAD"; "PATCH"; "TRACE"].
Definition _VALID_STRENGTH : list string := ["session"; "webauthn"].

Definition normal_key (raw_key : string) : string :=
  let key := PyStr.strip raw_key in
  if str_in (upper (PyStr.strip key)) _HTTP_VERBS_FROZEN then upper key else PyStr.strip key.

(** A key or value that is no text is another JSON value. *)
Fixpoint normalize_from (out : list (string * string)) (mapping : list (json * json)) :
    res pyexn (list (string * string)) :=
  match mapping with
  | [] => Ret out
  | (JStr raw_key, raw_val) :: mapping' =>
      if negb (PyStr.nonblank raw_key) then normalize_from out mapping'
      else
        match raw_val with
        | JStr raw =>
            if negb (PyStr.nonblank raw)
            then Raise (ValueError ("approval_strength value for " ++ repr_str raw_key ++ " must be a non-empty string"))
            else
              let val := PyStr.lower (PyStr.strip raw) in
              if negb (str_in val _VALID_STRENGTH)
              then Raise (ValueError ("Invalid approval_strength " ++ repr_str raw ++ " for key " ++ repr_str raw_key
                                      ++ "; expected 'session' or 'webauthn'"))
              else normalize_from (PyDict.set (normal_key raw_key) val out) mapping'
        | _ => Raise (ValueError ("approval_strength value for " ++ repr_str raw_key ++ " must be a non-empty string"))
        end
  | _ :: mapping' => normalize_from out mapping'
  end.
Definition normalize_approval_strength_map (mapping : list (json * json)) : res pyexn (list (string * string)) :=
  normalize_from [] mapping.

Definition resolve_approval_strength (http_method : string) (operation_id : option string) (mapping : list (string * string)) :
    option string :=
  let by_verb := PyDict.get (upper (PyStr.strip http_method)) mapping in
  match operation_id with
  | Some id => match PyDict.get id mapping with Some s => Some s | None => by_verb end
  | None => by_verb
  end.

Definition needs_webauthn (mapping : list (string * string)) (cap : OpenAPICapability) : bool :=
  bool_decide (resolve_approval_strength (oc_http_method cap) (oc_operation_id cap) mapping = Some "webauthn").

(** [ordered] is also the set of the names seen. *)
Fixpoint collect_names (mapping : list (string * string)) (ordered : list string) (capabilities : list OpenAPICapability) :
    list string :=
  match capabilities with
  | [] => ordered
  | cap :: capabilities' =>
      let name := sk_id (oc_skill cap) in
      collect_names mapping
        (if needs_webauthn mapping cap && negb (str_in name ordered) then (ordered ++ [name])%list else ordered) capabilities'
  end.

Definition collect_webauthn_required_capability_names (capabilities : list OpenAPICapability) (approval_strength : list (json * json)) :
    res pyexn (list string) :=
  let! normalized := normalize_approval_strength_map approval_strength in
  Ret (collect_names normalized [] capabilities).

(** ** Loading a document *)

(** The parts of a parsed document the adapter reads; the URL of a server may be
    missing. *)
Record parsed_spec : Type := mkSpec {
  ps_doc : OpenAPIDocument;
  ps_servers : list (option string);
  ps_title : option string;
  ps_version : option string
}.

(** What fetching a URL gives: a JSON value, or one of the failures. *)
Inductive fetched : Type :=
| FetchStatus (status : Z)
| FetchError
| FetchNotJson
| FetchJson (j : json)
| FetchRaises (e : pyexn).

Inductive file_read : Type :=
| NoFile
| ReadError
| ReadNotJson
| ReadJson (j : json)
| ReadRaises (e : pyexn).

Record spec_world : Type := mkWorld {
  sw_fetch : string → fetched;
  sw_read : string → file_read;
  sw_urlparse : string → res pyexn origin;
  sw_urljoin : string → string → string;
  (** [inr]: the text of the Pydantic error *)
  sw_parse_obj : obj → parsed_spec + string
}.

Definition spec_error {A} (msg : string) : res pyexn A := Raise (ValueError msg).

Definition _is_http_url (w : spec_world) (value : string) : res pyexn bool :=
  let! parsed := sw_urlparse w value in
  Ret (str_in (or_scheme parsed) ["http"; "https"] && PyStr.truthy (or_netloc parsed)).

Definition _load_json_from_url (w : spec_world) (url : string) : res pyexn obj :=
  match sw_fetch w url with
  | FetchStatus status =>
      spec_error ("Failed to fetch OpenAPI document from " ++ repr_str url ++ " (HTTP " ++ PyStr.dec_Z status ++ ").")
  | FetchError => spec_error ("HTTP error while fetching OpenAPI document from " ++ repr_str url ++ ".")
  | FetchNotJson => spec_error ("OpenAPI URL did not return JSON: " ++ repr_str url ++ ".")
  | FetchJson (JObj data) => Ret data
  | FetchJson _ => spec_error ("OpenAPI root must be a JSON object: " ++ repr_str url ++ ".")
  | FetchRaises e => Raise e
  end.

Definition _load_json_from_path (w : spec_world) (path : string) : res pyexn obj :=
  match sw_read w path with
  | NoFile => spec_error ("OpenAPI spec file not found: " ++ path)
  | ReadError => spec_error ("Cannot read OpenAPI spec file: " ++ path)
  | ReadNotJson => spec_error ("OpenAPI spec file is not valid JSON: " ++ path)
  | ReadJson (JObj data) => Ret data
  | ReadJson _ => spec_error ("OpenAPI root must be a JSON object: " ++ path)
  | ReadRaises e => Raise e
  end.

Definition _ensure_openapi_version_3_x (data : obj) : res pyexn unit :=
  match j_get "openapi" data with
  | JNull => spec_error "Missing required 'openapi' field (expected OpenAPI 3.x)."
  | JStr version =>
      if PyStr.startswith version "3." then Ret tt
      else spec_error ("Unsupported OpenAPI version " ++ repr_str version ++ "; only 3.x is supported.")
  | _ => spec_error "'openapi' version field must be a string."
  end.

Definition _parse_openapi_document (w : spec_world) (data : obj) : res pyexn parsed_spec :=
  match sw_parse_obj w data with
  | inl doc => Ret doc
  | inr exc => spec_error ("Invalid OpenAPI document: " ++ exc)
  end.

(** A source is a text or a `Path`. *)
Inductive spec_source : Type := SourceText (s : string) | SourcePath (path : string).

Definition load_spec (w : spec_world) (url_or_path : spec_source) : res pyexn parsed_spec :=
  let! data := match url_or_path with
               | SourcePath path => _load_json_from_path w path
               | SourceText s =>
                   let! http := _is_http_url w s in
                   if (http : bool) then _load_json_from_url w s else _load_json_from_path w s
               end in
  let! _ := _ensure_openapi_version_3_x data in
  _parse_openapi_document w data.

(** ** The factory *)
(** `s if s is not None and s.strip()` *)
Definition given (o : option string) : option string :=
  match o with Some s => if PyStr.nonblank s then Some (PyStr.strip s) else None | None => None end.

Definition _infer_upstream_base_url (w : spec_world) (doc : parsed_spec) (override resolution_base : option string) :
    res pyexn string :=
  match given override with
  | Some o => Ret (PyStr.rstrip_char "/" o)
  | None =>
      match ps_servers doc with
      | [] => spec_error "OpenAPI document has no `servers`; pass upstream_base_url= to create_from_openapi."
      | first :: _ =>
          match first, given first with
          | Some raw_url, Some candidate =>
              if PyStr.startswith candidate "http://" || PyStr.startswith candidate "https://"
              then Ret (PyStr.rstrip_char "/" candidate)
              else
                match given resolution_base with
                | None => spec_error ("Relative OpenAPI server URL " ++ repr_str raw_url ++ " requires upstream_base_url= "
                                      ++ "when the spec is loaded from a local path.")
                | Some base => Ret (PyStr.rstrip_char "/" (sw_urljoin w base candidate))
                end
          | _, _ => spec_error "OpenAPI `servers[0].url` is missing or empty."
          end
      end
  end.

(** The manifest of the adapter; `state_persistence` is false and the ASAP
    version 0.1. *)
Record adapter_manifest : Type := mkAdapterManifest {
  am_id : string;
  am_name : string;
  am_version : string;
  am_description : string;
  am_skills : list Skill;
  am_streaming : bool;
  am_endpoint : string
}.

Definition kind_is_streaming (k : OpenAPIExecutionKind) : bool := match k with STREAMING => true | SYNC => false end.

(** [validate]: the validation of the `Manifest` model. *)
Definition _build_manifest (validate : adapter_manifest → res pyexn unit) (doc : parsed_spec) (caps : list OpenAPICapability)
    (manifest_id manifest_name asap_endpoint : string) : res pyexn adapter_manifest :=
  let name := default (default "OpenAPI Adapter" (given (ps_title doc))) (given (Some manifest_name)) in
  let version := default "1.0.0" (given (ps_version doc)) in
  let manifest := mkAdapterManifest (PyStr.strip manifest_id) name version ("ASAP adapter for OpenAPI spec " ++ repr_str name)
    (map oc_skill caps) (existsb (λ c, kind_is_streaming (oc_execution_kind c)) caps) (PyStr.strip asap_endpoint) in
  let! _ := validate manifest in
  Ret manifest.

Section Adapter.
  Context `{PyRuntime}.
  Context (w : spec_world) (validate : adapter_manifest → res pyexn unit).
  (** `TaskRequest.model_validate`: the skill and the input *)
  Context (task_request : json → res pyexn (string * obj)).

(** `create_openapi_task_handler(upstream)`; [task_id] and [now] stand for
    `generate_id()` and the time of the envelope. *)
Definition openapi_task_request_handler (upstream : upstream_request → sent) (h : OpenAPIUpstreamHandler) (task_id env_id : string)
    (now : pydatetime) (envelope : Envelope) (manifest_id : string) : ST (list upstream_request) adapter_exn Envelope := λ log,
  match task_request (e_payload envelope) with
  | Raise e => (log, Raise (EscapedExn e))
  | Ret (skill_id, input) =>
      match execute upstream h skill_id input JNull log with
      | (log, Raise e) => (log, Raise e)
      | (log, Ret result) =>
          (log, Ret (mkEnvelope (Some env_id) (e_asap_version envelope) (Some now) manifest_id (e_sender envelope) "task.response"
                       (JObj [("task_id", JStr ("task_" ++ task_id)); ("status", JStr "completed"); ("result", JObj result);
                              ("final_state", JNull); ("metrics", JNull)])
                       (e_id envelope) (e_trace_id envelope) false None))
      end
  end.

Record OpenAPIAdapterBundle : Type := mkBundle {
  ob_manifest : adapter_manifest;
  (** what the `task.request` handler of the registry proxies to *)
  ob_upstream : OpenAPIUpstreamHandler;
  ob_capabilities : list OpenAPICapability;
  ob_require_webauthn_for : list string;
  ob_upstream_base_url : string
}.

Record adapter_options : Type := mkOptions {
  ao_spec_url : option string;
  ao_spec_path : option spec_source;
  ao_upstream_base_url : option string;
  ao_default_capabilities : DefaultCapabilitiesFilter;
  ao_approval_strength : list (json * json);
  ao_resolve_headers : option (json → resolved);
  ao_manifest_id : string;
  ao_manifest_name : string;
  ao_asap_endpoint : string;
  ao_asap_challenge_discovery_url : option string
}.

Definition one_source : res pyexn (parsed_spec * option string) :=
  spec_error "Exactly one of spec_url or spec_path must be set.".

Definition create_from_openapi (frames : nat) (o : adapter_options) : res pyexn OpenAPIAdapterBundle :=
  let! loaded := match ao_spec_url o, ao_spec_path o with
                 | Some url, None => let! doc := load_spec w (SourceText url) in Ret (doc, Some url)
                 | None, Some path => let! doc := load_spec w path in Ret (doc, None)
                 | _, _ => one_source
                 end in
  let '(doc, resolution_base) := loaded in
  let! caps := map_openapi_to_capabilities frames (ps_doc doc) (ao_default_capabilities o) in
  let! base := _infer_upstream_base_url w doc (ao_upstream_base_url o) resolution_base in
  let! require_wa := match ao_approval_strength o with
                     | [] => Ret []
                     | m => collect_webauthn_required_capability_names caps m
                     end in
  let! manifest := _build_manifest validate doc caps (ao_manifest_id o) (ao_manifest_name o) (ao_asap_endpoint o) in
  let! challenge_url := match ao_asap_challenge_discovery_url o with
                        | Some u => Ret u
                        | None => default_manifest_discovery_url (sw_urlparse w) (ao_asap_endpoint o)
                        end in
  let! upstream := from_capabilities base caps (ao_resolve_headers o) (Some challenge_url) in
  Ret (mkBundle manifest upstream caps require_wa base).

End Adapter.

(** ** The operations that need an assertion *)
Lemma collect_names_spec mapping caps : ∀ ordered, NoDup ordered →
  NoDup (collect_names mapping ordered caps)
  ∧ ∀ n, n ∈ collect_names mapping ordered caps ↔
      n ∈ ordered ∨ ∃ cap, cap ∈ caps ∧ sk_id (oc_skill cap) = n ∧ needs_webauthn mapping cap = true.
Proof.
  induction caps as [|cap caps IH]; intros ordered Hd; cbn [collect_names].
  - split; [done|]. intros n. split; [by left|]. by intros [Hn|(cap & []%elem_of_nil & _)].
  - match goal with |- context [collect_names mapping ?o caps] => set (ordered' := o) end.
    assert (Ho : NoDup ordered' ∧ ∀ n, n ∈ ordered' ↔ n ∈ ordered ∨ (n = sk_id (oc_skill cap) ∧ needs_webauthn mapping cap = true)).
    { subst ordered'. destruct (needs_webauthn mapping cap); cbn [andb]; [|naive_solver].
      destruct (str_in _ ordered) eqn:Hs; cbn [negb].
      - apply str_in_true in Hs. split; [done|]. naive_solver.
      - assert (Hn : sk_id (oc_skill cap) ∉ ordered) by (intros Hin%str_in_true; congruence).
        split; [by apply NoDup_app_single|]. intros n. rewrite elem_of_app, list_elem_of_singleton. naive_solver. }
    destruct Ho as [Hd' Ho]. destruct (IH ordered' Hd') as [Hn Hi]. split; [done|]. intros n. rewrite Hi, Ho.
    setoid_rewrite elem_of_cons. naive_solver.
Qed.

(** An operation declared to need WebAuthn cannot be approved without it.
    The names computed from the approval-strength map have no repetition and are
    exactly the capabilities whose operation id, or else HTTP verb, the
    normalized map gives the strength `webauthn`; and when they configure the
    approval gate, a request that names such a capability passes the gate only if
    the verifier accepted the response to the challenge in its body. *)
Theorem webauthn_operations_need_assertion caps strengths names normalized :
  normalize_approval_strength_map strengths = Ret normalized →
  collect_webauthn_required_capability_names caps strengths = Ret names →
  NoDup names
  ∧ (∀ n, n ∈ names ↔ ∃ cap, cap ∈ caps ∧ sk_id (oc_skill cap) = n
        ∧ resolve_approval_strength (oc_http_method cap) (oc_operation_id cap) normalized = Some "webauthn")
  ∧ ∀ window requested n raw verifier host_id browser status,
      n ∈ names → n ∈ requested →
      check_webauthn_for_approval_path requested raw (Some (mkFresh window names)) verifier host_id browser
        = Ret (mkWaCheck None status) →
      ∃ block challenge response, j_get "webauthn" raw = JObj block ∧ j_get "challenge" block = JStr challenge
        ∧ j_get "response" block = response ∧ response ≠ JNull
        ∧ wa_verify verifier challenge response host_id (browser && uses_real_webauthn_verifier verifier) = Ret true.
Proof.
  intros Hm. unfold collect_webauthn_required_capability_names. rewrite Hm. cbn [rbind]. intros [= <-].
  destruct (collect_names_spec normalized caps [] NoDup_nil_2) as [Hd Hi]. split_and!; [done|..].
  - intros n. rewrite Hi. unfold needs_webauthn. setoid_rewrite bool_decide_eq_true. split; [|by right].
    by intros [[]%elem_of_nil|?].
  - intros window requested n raw verifier host_id browser status Hn Hr Hg.
    apply webauthn_gate_passes in Hg as [[Hno _]|Hyes]; [|done]. by destruct (Hno _ n eq_refl Hr).
Qed.

(** The normalized map holds only the two strengths. *)
Lemma normalized_strengths mapping out r : Forall (λ kv : string * string, kv.2 ∈ _VALID_STRENGTH) out →
  normalize_from out mapping = Ret r → Forall (λ kv, kv.2 ∈ _VALID_STRENGTH) r.
Proof.
  revert out. induction mapping as [|[k v] mapping IH]; intros out Ho; cbn [normalize_from]; [by intros [= <-]|].
  destruct k as [| | | |key| |]; eauto. destruct (PyStr.nonblank key); cbn [negb]; [|eauto].
  destruct v as [| | | |raw| |]; try done. destruct (PyStr.nonblank raw); cbn [negb]; [|done].
  destruct (str_in _ _VALID_STRENGTH) eqn:Hs; cbn [negb]; [|done]. apply IH. apply str_in_true in Hs.
  revert Ho Hs. generalize (PyStr.lower (PyStr.strip raw)) (normal_key key). clear.
  intros val k Ho Hs. induction Ho as [|[k' v'] out Hv Ho IH]; cbn [PyDict.set]; [by constructor; [|constructor]|].
  case_decide; constructor; done.
Qed.

(** An operation id that spells an HTTP verb is looked up under a key the map
    never has: the strength given to it is lost. *)
Lemma verb_named_operation_loses_its_strength :
  normalize_approval_strength_map [(JStr "delete", JStr "webauthn")] = Ret [("DELETE", "webauthn")]
  ∧ resolve_approval_strength "post" (Some "delete") [("DELETE", "webauthn")] = None.
Proof. by vm_compute. Qed.

(** ** The bundle *)
Lemma index_from_ok out caps index : PyDict.wf out → index_from out caps = Ret index →
  PyDict.wf index
  ∧ index = (out ++ map (λ c, (sk_id (oc_skill c), c)) caps)%list.
Proof.
  revert out. induction caps as [|c caps IH]; intros out Hw; cbn [index_from].
  - intros [= <-]. by rewrite app_nil_r.
  - unfold PyDict.mem. destruct (PyDict.get _ out) eqn:Hg; cbn [is_some]; [done|]. intros Hi.
    apply IH in Hi as [Hd ->]; [|by apply PyDict.wf_set]. split; [done|].
    rewrite set_new by by apply PyDict.get_None in Hg. by rewrite <- app_assoc.
Qed.

Lemma index_keys caps : PyDict.keys (map (λ c, (sk_id (oc_skill c), c)) caps) = map sk_id (map oc_skill caps).
Proof. unfold PyDict.keys. induction caps as [|c caps IH]; [done|]. cbn. f_equal. exact IH. Qed.

Section BundleFacts.
  Context `{PyRuntime}.
  Context (w : spec_world) (validate : adapter_manifest → res pyexn unit).

(** What the adapter advertises is what it serves.  When it is made from a
    document, the skills of the manifest are those of the selected operations, in
    order, with distinct ids, and it declares streaming exactly when one of the
    operations streams; the task handler finds under the id of a skill exactly
    the operation it was made from, and knows no other name; and the manifest
    passed its validation. *)
Theorem advertised_skills_are_served frames o b :
  create_from_openapi w validate frames o = Ret b →
  am_skills (ob_manifest b) = map oc_skill (ob_capabilities b)
  ∧ NoDup (map sk_id (am_skills (ob_manifest b)))
  ∧ (am_streaming (ob_manifest b) = true ↔ ∃ cap, cap ∈ ob_capabilities b ∧ oc_execution_kind cap = STREAMING)
  ∧ validate (ob_manifest b) = Ret tt
  ∧ (∀ cap, cap ∈ ob_capabilities b → PyDict.get (sk_id (oc_skill cap)) (oh_capabilities (ob_upstream b)) = Some cap)
  ∧ ∀ name upstream args session log, name ∉ map sk_id (am_skills (ob_manifest b)) →
      execute upstream (ob_upstream b) name args session log = (log, Raise (Failed (UnknownOpenAPICapabilityError name))).
Proof.
  unfold create_from_openapi. destruct (match ao_spec_url o, ao_spec_path o with Some _, None => _ | None, Some _ => _ | _, _ => _ end)
    as [|[doc rb]]; cbn [rbind]; [done|].
  destruct (map_openapi_to_capabilities _ _ _) as [|caps]; cbn [rbind]; [done|].
  destruct (_infer_upstream_base_url _ _ _ _) as [|base]; cbn [rbind]; [done|].
  destruct (match ao_approval_strength o with [] => _ | _ => _ end) as [|wa]; cbn [rbind]; [done|].
  unfold _build_manifest. set (m := mkAdapterManifest _ _ _ _ _ _ _).
  destruct (validate m) as [|[]] eqn:Hv; cbn [rbind]; [done|].
  destruct (match ao_asap_challenge_discovery_url o with Some _ => _ | None => _ end) as [|url]; cbn [rbind]; [done|].
  unfold from_capabilities, index_capabilities. destruct (index_from [] caps) as [|index] eqn:Hi; cbn [rbind]; [done|].
  intros [= <-]. cbn. apply index_from_ok in Hi as [Hd ->]; [|by apply PyDict.wf_nil].
  pose proof (index_keys caps) as Hk.
  split_and!; [done| | |done|..].
  - rewrite <- Hk. exact Hd.
  - rewrite existsb_exists. setoid_rewrite <- list_elem_of_In. split; intros (c & Hc & Hs); exists c; split; try done.
    + by destruct (oc_execution_kind c).
    + by rewrite Hs.
  - intros cap Hc. apply PyDict.elem_get; [done|]. apply list_elem_of_In, in_map_iff. exists cap. by rewrite <- list_elem_of_In.
  - intros name upstream args session log Hn. unfold execute. cbn.
    rewrite (proj2 (PyDict.get_None name _)); [done|]. by rewrite Hk.
Qed.

End BundleFacts.

(** ** Examples *)
#[local] Instance adapter_runtime : PyRuntime := {| float_repr := λ _, "1.5"; float_of_str := λ _, None |}.

Definition demo_strengths : list (json * json) := [(JStr "getPet", JStr "WebAuthn "); (JStr "post", JStr "session")].
Definition demo_caps : list OpenAPICapability :=
  [mkCapability (mkSkill "getPet" "a pet" None None) "get" "/pets" SYNC (Some "getPet");
   mkCapability (mkSkill "post_pets" "a pet" None None) "post" "/pets" STREAMING None].
Definition demo_answer : obj := [("webauthn", JObj [("challenge", JStr "c"); ("response", JStr "r")])].

Lemma webauthn_operations_need_assertion_witness :
  collect_webauthn_required_capability_names demo_caps demo_strengths = Ret ["getPet"]
  ∧ ∃ block challenge response, j_get "webauthn" demo_answer = JObj block ∧ j_get "challenge" block = JStr challenge
      ∧ j_get "response" block = response ∧ response ≠ JNull
      ∧ wa_verify PlaceholderWebAuthnVerifier challenge response None
          (false && uses_real_webauthn_verifier PlaceholderWebAuthnVerifier) = Ret true.
Proof.
  split; [reflexivity|].
  refine (proj2 (proj2 (webauthn_operations_need_assertion demo_caps demo_strengths ["getPet"]
            [("getPet", "webauthn"); ("POST", "session")] _ _)) 300 ["getPet"] "getPet" demo_answer
            PlaceholderWebAuthnVerifier None false 400 _ _ _); try reflexivity; left.
Defined.

Definition demo_world : spec_world :=
  mkWorld (λ _, FetchJson (JObj [("openapi", JStr "3.1.0")])) (λ _, NoFile) (λ _, Ret (mkOrigin "https" "api")) (λ a b, a ++ b)
    (λ _, inl (mkSpec demo_doc [Some "https://api/v1/"] (Some "Pets") None)).
Definition demo_options : adapter_options :=
  mkOptions (Some "https://api/openapi.json") None None (FilterVerb "all") demo_strengths None "urn:asap:agent:pets" "" "https://api/asap" None.

Lemma advertised_skills_are_served_witness :
  match create_from_openapi demo_world (λ _, Ret tt) 9 demo_options with
  | Ret b => NoDup (map sk_id (am_skills (ob_manifest b))) ∧ map sk_id (am_skills (ob_manifest b)) = ["getPet"; "post_pets"]
             ∧ ob_require_webauthn_for b = ["getPet"]
  | Raise _ => False
  end.
Proof.
  destruct (create_from_openapi demo_world (λ _, Ret tt) 9 demo_options) as [e|b] eqn:Hb; [by vm_compute in Hb|].
  split; [exact (proj1 (proj2 (advertised_skills_are_served demo_world (λ _, Ret tt) 9 demo_options b Hb)))|].
  vm_compute in Hb. by injection Hb as <-.
Defined.
