(* ===== verification/ClientSetup.v ===== *)
(** * Construction and life cycle of the client

    `ASAPClient` of `src/src/asap/transport/client/_core.py`: its constructor with
    the checks of the address and the versions, entering and leaving its context, the
    check of a connection and `send_batch`.

    `urlparse` is a parameter ([None]: it raises); the schemes it returns are in lower
    case.  The registry of circuit breakers is shared by all clients, the manifest
    cache is the client's own.  Opening and closing connections may fail as an input
    says; log lines are left out. *)

From Stdlib Require Import ZArith QArith Lia Ascii String.
From stdpp Require Import base tactics list gmap strings.
From S2P Require Import Prelude PyValue Digest Identity Errors EnvelopeGuard Digest CircuitBreaker Handlers Middleware ManifestCache OpenApiHandler Discovery.
Open Scope string_scope.
Open Scope Z_scope.
Open Scope asap_scope.

Module Setup.

(** ** Configuration *)
Record RetryConfig : Type := mkRetry {
  rc_max_retries : Z;
  rc_base_delay : Q;
  rc_max_delay : Q;
  rc_jitter : bool;
  rc_circuit_breaker_enabled : bool;
  rc_circuit_breaker_threshold : Z;
  rc_circuit_breaker_timeout : Z
}.
(** [DEFAULT_MAX_RETRIES] and so on; times of the breaker are in microseconds. *)
Definition default_retry : RetryConfig := mkRetry 3 1 60 true false 5 60000000.

(** The single parameters, which count only without a `retry_config`. *)
Record retry_args : Type := mkRetryArgs {
  ra_max_retries : option Z;
  ra_base_delay : option Q;
  ra_max_delay : option Q;
  ra_jitter : option bool;
  ra_circuit_breaker_enabled : option bool;
  ra_circuit_breaker_threshold : option Z;
  ra_circuit_breaker_timeout : option Z
}.
Definition retry_values (config : option RetryConfig) (a : retry_args) : RetryConfig :=
  match config with
  | Some c => c
  | None =>
      mkRetry (default (rc_max_retries default_retry) (ra_max_retries a))
        (default (rc_base_delay default_retry) (ra_base_delay a)) (default (rc_max_delay default_retry) (ra_max_delay a))
        (default (rc_jitter default_retry) (ra_jitter a))
        (default (rc_circuit_breaker_enabled default_retry) (ra_circuit_breaker_enabled a))
        (default (rc_circuit_breaker_threshold default_retry) (ra_circuit_breaker_threshold a))
        (default (rc_circuit_breaker_timeout default_retry) (ra_circuit_breaker_timeout a))
  end.

Inductive transport_mode : Type := ModeHttp | ModeWebsocket | ModeAuto.

Record ParseResult : Type := mkParsed {
  up_scheme : string;
  up_netloc : string;
  up_path : string;
  up_hostname : option string
}.

(** `urlunparse((scheme, netloc, path, "", "", ""))` with a network location *)
Definition urlunparse (scheme netloc path : string) : string :=
  scheme ++ "://" ++ netloc
  ++ (if PyStr.truthy path && negb (PyStr.startswith path "/") then "/" ++ path else path).

Record client_args : Type := mkArgs {
  ca_base_url : string;
  ca_timeout : Q;
  ca_transport_mode : transport_mode;
  ca_require_https : bool;
  ca_retry_config : option RetryConfig;
  ca_retry : retry_args;
  ca_pool_connections : option Z;
  ca_pool_maxsize : option Z;
  ca_pool_timeout : option Q;
  ca_manifest_cache_size : option Z;
  ca_verify_signatures : bool;
  ca_trusted_manifest_keys : list (string * string);
  ca_supported_transport_versions : option (list string);
  ca_auth_token : option string;
  ca_auto_register : bool
}.

Record ASAPClient {M : Type} : Type := mkClient {
  ac_base_url : string;
  ac_http_base_url : string;
  ac_use_websocket : bool;
  ac_ws_url : string;
  ac_timeout : Q;
  ac_pool : Z * Z * Q;
  ac_retry : RetryConfig;
  ac_circuit_breaker : option nat;
  ac_manifest_cache : ManifestCache.t M;
  ac_verify_signatures : bool;
  ac_trusted_manifest_keys : list (string * string);
  ac_transport_versions : list string;
  ac_asap_version_header_value : string;
  ac_auth_token : option string;
  ac_auto_register : bool;
  (** open connections *)
  ac_client : bool;
  ac_ws_transport : bool
}.
Arguments ASAPClient : clear implicits.

Definition _is_localhost (parsed : ParseResult) : bool :=
  match up_hostname parsed with
  | Some hostname => PyStr.truthy hostname && str_in (PyStr.lower hostname) ["localhost"; "127.0.0.1"; "::1"; "[::1]"]
  | None => false
  end.

Definition use_websocket_of (mode : transport_mode) (scheme : string) : bool :=
  match mode with ModeWebsocket => true | ModeAuto => str_in scheme ["ws"; "wss"] | ModeHttp => false end.
Definition allowed_schemes (mode : transport_mode) : list string :=
  match mode with ModeHttp => ["http"; "https"] | _ => ["http"; "https"; "ws"; "wss"] end.

Definition or_slash (path : string) : string := if PyStr.truthy path then path else "/".

(** `s.endswith(suffix)` *)
Definition endswith (s suffix : string) : bool :=
  let n := (String.length s - String.length suffix)%nat in String.eqb (String.substring n (String.length suffix) s) suffix.

Definition ws_url_of (base_url scheme : string) (parsed : ParseResult) : string :=
  let ws_url := PyStr.rstrip_char "/" base_url in
  if str_in scheme ["http"; "https"] then
    urlunparse (if String.eqb scheme "https" then "wss" else "ws") (up_netloc parsed)
      (PyStr.rstrip_char "/" (or_slash (up_path parsed)) ++ "/asap/ws")
  else if negb (endswith ws_url "/asap/ws") then PyStr.rstrip_char "/" ws_url ++ "/asap/ws"
  else ws_url.

Definition http_base_url_of (base_url scheme : string) (parsed : ParseResult) (use_websocket : bool) : string :=
  if use_websocket && str_in scheme ["ws"; "wss"] then
    urlunparse (if String.eqb scheme "wss" then "https" else "http") (up_netloc parsed)
      (or_slash (PyStr.rstrip_char "/" (replace_text "/asap/ws" "" (or_slash (up_path parsed)))))
  else PyStr.rstrip_char "/" base_url.

(** `sorted(ASAP_SUPPORTED_TRANSPORT_VERSIONS, reverse=True)` *)
Definition default_versions : list string := ["2.2"; "2.1"].

Definition transport_versions (given : option (list string)) : res pyexn (list string) :=
  match given with
  | None => Ret default_versions
  | Some [] => Raise (ValueError "supported_transport_versions must be non-empty when provided")
  | Some tv =>
      if forallb (λ v, str_in v ASAP_SUPPORTED_TRANSPORT_VERSIONS) tv then Ret tv
      else Raise (ValueError "Unsupported ASAP transport versions")
  end.

Definition DEFAULT_TTL : Z := 300000000.

Section Client.
  Context {M : Type} (urlparse : string → option ParseResult) (sanitize_url : string → string).

(** The constructor: the registry of breakers changes before the versions are checked. *)
Definition new_client (a : client_args) (reg : CircuitBreakerRegistry.t) : CircuitBreakerRegistry.t * res pyexn (ASAPClient M) :=
  let base_url := ca_base_url a in
  match urlparse base_url with
  | None => (reg, Raise (ValueError "Invalid URL"))
  | Some parsed =>
      if negb (PyStr.truthy (up_scheme parsed)) || negb (PyStr.truthy (up_netloc parsed)) then
        (reg, Raise (ValueError ("Invalid base_url format: " ++ base_url ++ ". Must be a valid URL (e.g., http://localhost:8000)")))
      else
        let scheme := PyStr.lower (up_scheme parsed) in
        if negb (str_in scheme (allowed_schemes (ca_transport_mode a))) then
          (reg, Raise (ValueError ("Invalid URL scheme: " ++ up_scheme parsed ++ ". Allowed: "
                                   ++ joined ", " (allowed_schemes (ca_transport_mode a)) ++ ". Received: " ++ base_url)))
        else
          let use_websocket := use_websocket_of (ca_transport_mode a) scheme in
          let ws_url := if use_websocket then ws_url_of base_url scheme parsed else "" in
          let is_https := str_in scheme ["https"; "wss"] in
          if ca_require_https a && negb is_https && negb (_is_localhost parsed) then
            (reg, Raise (ValueError ("Encrypted transport (https/wss) is required for non-localhost connections. Received: "
                                     ++ base_url ++ ". Please use HTTPS/WSS or set require_https=False to override "
                                     ++ "(not recommended for production).")))
          else
            let retry := retry_values (ca_retry_config a) (ca_retry a) in
            let base := PyStr.rstrip_char "/" base_url in
            let '(reg, breaker) :=
              if rc_circuit_breaker_enabled retry then
                let '(reg, ref) := CircuitBreakerRegistry.get_or_create (sanitize_url base) (rc_circuit_breaker_threshold retry)
                                     (rc_circuit_breaker_timeout retry) reg in (reg, Some ref)
              else (reg, None) in
            (reg,
             let! tv := transport_versions (ca_supported_transport_versions a) in
             Ret (mkClient M base (http_base_url_of base_url scheme parsed use_websocket) use_websocket ws_url (ca_timeout a)
                    (default 100 (ca_pool_connections a), default 100 (ca_pool_maxsize a), default 5%Q (ca_pool_timeout a))
                    retry breaker (ManifestCache.init DEFAULT_TTL (default DEFAULT_MAX_SIZE (ca_manifest_cache_size a)))
                    (ca_verify_signatures a) (ca_trusted_manifest_keys a) tv (joined ", " tv) (ca_auth_token a) (ca_auto_register a)
                    false false))
  end.

(** ** The context *)
Definition set_open (http ws : bool) (c : ASAPClient M) : ASAPClient M :=
  mkClient M (ac_base_url c) (ac_http_base_url c) (ac_use_websocket c) (ac_ws_url c) (ac_timeout c) (ac_pool c) (ac_retry c)
    (ac_circuit_breaker c) (ac_manifest_cache c) (ac_verify_signatures c) (ac_trusted_manifest_keys c) (ac_transport_versions c)
    (ac_asap_version_header_value c) (ac_auth_token c) (ac_auto_register c) http ws.

Definition is_connected (c : ASAPClient M) : bool := ac_client c || ac_ws_transport c.

(** The headers of the WebSocket handshake. *)
Definition ws_extra_headers (c : ASAPClient M) : list (string * string) :=
  match ac_auth_token c with
  | Some t => if PyStr.truthy t then [("Authorization", "Bearer " ++ t)] else []
  | None => []
  end.

(** [ssl]: the error of `create_ssl_context` for mTLS; [connect]: that of the WebSocket
    transport; the transport is assigned before it connects. *)
Definition __aenter__ (ssl connect : option exn) : ST (ASAPClient M) exn unit := λ c,
  match ssl with
  | Some e => (c, Raise e)
  | None =>
      if ac_use_websocket c then
        let c := set_open (ac_client c) true c in
        match connect with
        | Some e => (c, Raise e)
        | None => (set_open true true c, Ret tt)
        end
      else (set_open true (ac_ws_transport c) c, Ret tt)
  end.

(** [ws_close], [aclose]: the errors of closing *)
Definition __aexit__ (ws_close aclose : option exn) : ST (ASAPClient M) exn unit := λ c,
  match (if ac_ws_transport c then ws_close else None) with
  | Some e => (c, Raise e)
  | None =>
      let c := set_open (ac_client c) false c in
      match (if ac_client c then aclose else None) with
      | Some e => (c, Raise e)
      | None => (set_open false false c, Ret tt)
      end
  end.

Definition not_connected_error (c : ASAPClient M) : exn :=
  connection_error "Client not connected. Use 'async with' context." None (sanitize_url (ac_base_url c)).

(** [head]: the status of the reply, or the error of the request; every error means no *)
Definition _validate_connection (head : Z + exn) (c : ASAPClient M) : res exn bool :=
  if negb (ac_client c) then Raise (not_connected_error c)
  else Ret match head with inl status => (200 <=? status) && (status <? 400) | inr _ => false end.

(** ** `send_batch`

    The sends run side by side; [sends] are their outcomes in the order of the
    envelopes, each with its place in the order of completion. *)
Fixpoint first_failure (best : option (nat * exn)) (sends : list (nat * res exn Envelope)) : option (nat * exn) :=
  match sends with
  | [] => best
  | (at_, Raise e) :: rest =>
      first_failure (match best with
                     | Some (b, _) => if (at_ <? b)%nat then Some (at_, e) else best
                     | None => Some (at_, e) end) rest
  | (_, Ret _) :: rest => first_failure best rest
  end.

Fixpoint answers (sends : list (nat * res exn Envelope)) : list (res exn Envelope) :=
  match sends with [] => [] | (_, r) :: rest => r :: answers rest end.

Definition send_batch (sends : list (nat * res exn Envelope)) (return_exceptions : bool) (c : ASAPClient M) :
    res exn (list (res exn Envelope)) :=
  match sends with
  | [] => Raise (XOther "ValueError" "envelopes list cannot be empty")
  | _ =>
      if ac_ws_transport c then
        Raise (XOther "NotImplementedError" "send_batch is not supported with WebSocket transport; use send() in a loop.")
      else if negb (ac_client c) then Raise (not_connected_error c)
      else if return_exceptions then Ret (answers sends)
      else match first_failure None sends with Some (_, e) => Raise e | None => Ret (answers sends) end
  end.

(** ** Facts *)

(** Where a client connects, as one of these forms: nothing is downgraded on the way
    from the address to the two URLs it uses. *)
Definition goes_to (c : ASAPClient M) (scheme : string) (parsed : ParseResult) (base_url : string) : Prop :=
  let base := PyStr.rstrip_char "/" base_url in
  let ws_scheme := if String.eqb scheme "https" then "wss" else "ws" in
  let http_scheme := if String.eqb scheme "wss" then "https" else "http" in
  ac_base_url c = base
  ∧ (scheme ∈ ["http"; "https"] →
       ac_http_base_url c = base
       ∧ (ac_use_websocket c = true → ∃ path, ac_ws_url c = ws_scheme ++ "://" ++ up_netloc parsed ++ path))
  ∧ (scheme ∈ ["ws"; "wss"] →
       ac_use_websocket c = true
       ∧ (ac_ws_url c = base ∨ ac_ws_url c = PyStr.rstrip_char "/" base ++ "/asap/ws")
       ∧ ∃ path, ac_http_base_url c = http_scheme ++ "://" ++ up_netloc parsed ++ path).

Lemma ws_url_goes base_url scheme parsed :
  (scheme ∈ ["http"; "https"] →
     ∃ path, ws_url_of base_url scheme parsed
             = (if String.eqb scheme "https" then "wss" else "ws") ++ "://" ++ up_netloc parsed ++ path)
  ∧ (scheme ∈ ["ws"; "wss"] →
     ws_url_of base_url scheme parsed = PyStr.rstrip_char "/" base_url
     ∨ ws_url_of base_url scheme parsed = PyStr.rstrip_char "/" (PyStr.rstrip_char "/" base_url) ++ "/asap/ws").
Proof.
  unfold ws_url_of. split; intros Hs.
  - rewrite (proj2 (str_in_true _ _) Hs). eexists. reflexivity.
  - assert (Hn : str_in scheme ["http"; "https"] = false).
    { repeat (apply elem_of_cons in Hs as [->|Hs]; [reflexivity|]). by apply elem_of_nil in Hs. }
    rewrite Hn. destruct (endswith _ _); cbn [negb]; auto.
Qed.

Lemma http_url_goes base_url scheme parsed mode :
  (scheme ∈ ["http"; "https"] →
     http_base_url_of base_url scheme parsed (use_websocket_of mode scheme) = PyStr.rstrip_char "/" base_url)
  ∧ (scheme ∈ ["ws"; "wss"] → use_websocket_of mode scheme = true →
     ∃ path, http_base_url_of base_url scheme parsed (use_websocket_of mode scheme)
             = (if String.eqb scheme "wss" then "https" else "http") ++ "://" ++ up_netloc parsed ++ path).
Proof.
  unfold http_base_url_of. split; intros Hs.
  - assert (Hn : str_in scheme ["ws"; "wss"] = false).
    { repeat (apply elem_of_cons in Hs as [->|Hs]; [reflexivity|]). by apply elem_of_nil in Hs. }
    by rewrite Hn, andb_false_r.
  - intros ->. rewrite (proj2 (str_in_true _ _) Hs). eexists. reflexivity.
Qed.

Lemma ws_scheme_uses_websocket mode scheme :
  scheme ∈ ["ws"; "wss"] → scheme ∈ allowed_schemes mode → use_websocket_of mode scheme = true.
Proof.
  intros Hs Ha. destruct mode; [|done|by apply str_in_true]. exfalso. cbn in Ha.
  repeat (apply elem_of_cons in Hs as [->|Hs]; [set_solver|]). by apply elem_of_nil in Hs.
Qed.

(** A client exists only for an address with a scheme it knows and a host.  One that
    requires encryption and whose host is not the local one has an encrypted scheme,
    and then both its HTTP address and its WebSocket address are encrypted and lead
    to the same host.  The versions it offers are supported ones, at least one. *)
Theorem clients_are_encrypted a reg c :
  (new_client a reg).2 = Ret c →
  ∃ parsed, urlparse (ca_base_url a) = Some parsed ∧ up_netloc parsed ≠ ""
    ∧ let scheme := PyStr.lower (up_scheme parsed) in
      scheme ∈ allowed_schemes (ca_transport_mode a)
      ∧ (ca_require_https a = true → _is_localhost parsed = false → scheme ∈ ["https"; "wss"])
      ∧ goes_to c scheme parsed (ca_base_url a)
      ∧ ac_transport_versions c ≠ [] ∧ (∀ v, v ∈ ac_transport_versions c → v ∈ ASAP_SUPPORTED_TRANSPORT_VERSIONS)
      ∧ is_connected c = false.
Proof.
  unfold new_client. destruct (urlparse (ca_base_url a)) as [parsed|]; [|done].
  destruct (negb (PyStr.truthy (up_scheme parsed)) || negb (PyStr.truthy (up_netloc parsed))) eqn:En; [done|].
  destruct (str_in (PyStr.lower (up_scheme parsed)) (allowed_schemes (ca_transport_mode a))) eqn:Es; cbn [negb]; [|done].
  destruct (ca_require_https a && negb _ && negb (_is_localhost parsed)) eqn:Er; [done|].
  destruct (if rc_circuit_breaker_enabled _ then _ else _) as [reg' breaker]. cbn [snd].
  destruct (transport_versions _) as [e|tv] eqn:Et; cbn [rbind]; [done|]. intros [= <-].
  exists parsed. split; [done|].
  apply orb_false_iff in En as [_ Hn]. split; [intros E; by rewrite E in Hn|]. cbv zeta.
  apply str_in_true in Es. split; [done|]. split.
  { intros Hh Hl. rewrite Hh, Hl in Er. apply str_in_true. by destruct (str_in _ ["https"; "wss"]). }
  split; [|split_and!; [..|done]].
  - unfold goes_to. cbn [ac_base_url ac_http_base_url ac_use_websocket ac_ws_url]. split; [done|].
    destruct (ws_url_goes (ca_base_url a) (PyStr.lower (up_scheme parsed)) parsed) as [W1 W2].
    destruct (http_url_goes (ca_base_url a) (PyStr.lower (up_scheme parsed)) parsed (ca_transport_mode a)) as [H1 H2].
    split; intros Hs.
    + split; [auto|]. intros ->. auto.
    + pose proof (ws_scheme_uses_websocket _ _ Hs Es) as Hu. rewrite Hu in *. auto.
  - cbn [ac_transport_versions]. revert Et. unfold transport_versions.
    destruct (ca_supported_transport_versions a) as [[|v l]|]; [done| |intros [= <-]; done].
    destruct (forallb _ _); [|done]. by intros [= <-].
  - cbn [ac_transport_versions]. revert Et. unfold transport_versions.
    destruct (ca_supported_transport_versions a) as [[|v l]|]; [done| |intros [= <-]; intros v Hv; set_solver].
    destruct (forallb _ (v :: l)) eqn:Ef; [|done]. intros [= <-] w Hw. apply str_in_true.
    apply (proj1 (forallb_forall _ _) Ef). by apply list_elem_of_In.
Qed.

(** Leaving the context disconnects, when closing works; a client that was only
    constructed has nothing open. *)
Lemma exit_disconnects c : is_connected (__aexit__ None None c).1 = false.
Proof. unfold __aexit__. destruct (ac_ws_transport c), (ac_client c); reflexivity. Qed.

(** A WebSocket that does not connect leaves the client as if it were connected, and
    `async with` does not leave a context it did not enter. *)
Lemma failed_websocket_looks_connected c e :
  ac_use_websocket c = true → is_connected (__aenter__ None (Some e) c).1 = true.
Proof. intros Hw. unfold __aenter__. rewrite Hw. unfold is_connected. cbn. apply orb_true_r. Qed.

Lemma answers_order sends : answers sends = map snd sends.
Proof. induction sends as [|[n r] sends IH]; cbn; [done|]. by rewrite IH. Qed.

Lemma first_failure_spec sends best :
  first_failure best sends = None ↔ best = None ∧ Forall (λ s, ∃ e, s.2 = Ret e) sends.
Proof.
  revert best. induction sends as [|[n [e|v]] sends IH]; intros best; cbn.
  - split; [intros ->; auto|by intros [-> _]].
  - rewrite IH. split.
    + intros [Hn _]. exfalso. by repeat case_match.
    + intros [_ Hf]. apply Forall_cons in Hf as [[v Hv] _]. discriminate Hv.
  - rewrite IH, Forall_cons. split; [intros [-> ?]; eauto|by intros [-> [_ ?]]].
Qed.

Lemma first_failure_elem sends best n e :
  first_failure best sends = Some (n, e) → best = Some (n, e) ∨ (n, Raise e) ∈ sends.
Proof.
  revert best. induction sends as [|[m [x|v]] sends IH]; intros best; cbn; [auto| |].
  - intros [Hb|Hin]%IH; [|right; by right]. repeat case_match; simplify_eq; auto; right; left.
  - intros [->|Hin]%IH; [auto|right; by right].
Qed.

(** A batch of sends that returns has one answer per envelope in their order; without
    `return_exceptions` it returns exactly when every send succeeded, and otherwise
    raises the error of one of them. *)
Theorem send_batch_outcome sends c :
  sends ≠ [] → ac_client c = true → ac_ws_transport c = false →
  send_batch sends true c = Ret (map snd sends)
  ∧ (send_batch sends false c = Ret (map snd sends) ↔ Forall (λ s, ∃ e, s.2 = Ret e) sends)
  ∧ (∀ e, send_batch sends false c = Raise e → ∃ n, (n, Raise e) ∈ sends).
Proof.
  intros Hs Hc Hw. unfold send_batch. rewrite Hc, Hw, answers_order. destruct sends as [|s l]; [done|]. cbn [negb].
  split; [done|]. pose proof (first_failure_spec (s :: l) None) as Hf.
  destruct (first_failure None (s :: l)) as [[n e]|] eqn:E; split.
  - split; [done|]. intros Ha. pose proof (proj2 Hf (conj eq_refl Ha)) as Hn. discriminate Hn.
  - intros x [= <-]. apply first_failure_elem in E as [[=]|E]. eauto.
  - split; [intros _; by apply Hf|done].
  - done.
Qed.
End Client.
End Setup.
