(* ===== verification/DnsSd.v ===== *)
(** * Local discovery

    `src/src/asap/discovery/dnssd.py`: how an agent advertises itself on the local
    network (DNSSDAdvertiser) and how a browser turns what it sees into agents
    (DNSSDDiscovery).

    The `zeroconf` package and the network are the environment.  What a call of them
    raises is an input; what the network holds for this advertiser is the list
    [network].  What a browser learns of a service is a function of its name ([zc]),
    with [published] as the law that it is what was registered. *)

From Stdlib Require Import ZArith Lia Ascii String.
From stdpp Require Import base tactics list gmap strings.
From S2P Require Import Prelude PyValue Errors JsonRpc OpenApiHandler Entities.
Open Scope string_scope.
Open Scope Z_scope.
Open Scope asap_scope.

Module DnsSd.

Definition ASAP_SERVICE_TYPE : string := "_asap._tcp.local.".
Definition TXT_KEY_VERSION : string := "version".
Definition TXT_KEY_CAPABILITIES : string := "capabilities".
Definition TXT_KEY_MANIFEST_URL : string := "manifest_url".
Definition _TXT_VALUE_MAX_LEN : nat := 255.

Inductive dns_exn : Type :=
| OSError (msg : string)
| UnicodeDecodeError
| Zeroconf (msg : string)
| Py (e : pyexn).

(** ** Names and texts *)

(** A character that the class `[\w\-.]` matches. *)
Definition name_char (c : ascii) : bool :=
  is_alnum c || Ascii.eqb c "_" || Ascii.eqb c "-" || Ascii.eqb c ".".

(** `re.sub(r"[^\w\-.]", "-", name)` *)
Fixpoint hyphenated (name : string) : string :=
  match name with
  | EmptyString => EmptyString
  | String c s => String (if name_char c then c else "-"%char) (hyphenated s)
  end.

Fixpoint lstrip_hyphens (s : string) : string :=
  match s with String c s' => if Ascii.eqb c "-" then lstrip_hyphens s' else s | EmptyString => s end.

Definition _sanitize_instance_name (name : string) : string :=
  let sanitized := hyphenated name in
  let short := String.substring 0 63 (PyStr.rstrip_char "-" (lstrip_hyphens sanitized)) in
  if PyStr.truthy short then short else "asap-agent".

(** `value[:_TXT_VALUE_MAX_LEN]` *)
Definition clip (value : string) : string := String.substring 0 _TXT_VALUE_MAX_LEN value.

Definition _skill_ids_from_manifest (manifest : Manifest) : string :=
  clip (String.concat "," (map sk_id (cap_skills (mf_capabilities manifest)))).

(** ** The advertiser *)

Record ServiceInfo : Type := mkServiceInfo {
  si_type : string;
  si_name : string;
  si_addresses : list string;
  si_port : Z;
  si_properties : list (string * string);
  si_server : string
}.
#[export] Instance service_info_eq_dec : EqDecision ServiceInfo.
Proof. solve_decision. Defined.

Record DNSSDAdvertiser : Type := mkAdvertiser {
  ad_manifest : Manifest;
  ad_manifest_url : string;
  ad_port : Z;
  ad_host : option string;
  ad_zeroconf : bool;
  ad_service_info : option ServiceInfo
}.

Definition new_advertiser (manifest : Manifest) (manifest_url : string) (port : Z) (host : option string) : DNSSDAdvertiser :=
  mkAdvertiser manifest manifest_url port host false None.

Definition set_host (host : string) (a : DNSSDAdvertiser) : DNSSDAdvertiser :=
  mkAdvertiser (ad_manifest a) (ad_manifest_url a) (ad_port a) (Some host) (ad_zeroconf a) (ad_service_info a).
Definition set_service (zeroconf : bool) (info : option ServiceInfo) (a : DNSSDAdvertiser) : DNSSDAdvertiser :=
  mkAdvertiser (ad_manifest a) (ad_manifest_url a) (ad_port a) (ad_host a) zeroconf info.

(** What the machine and the package do during [start]: the address of the host's
    own name ([None]: OSError), its full name, whether `inet_aton` reads the address,
    and what building the record, opening the socket and registering raise. *)
Record start_input : Type := mkStartInput {
  in_own_address : option string;
  in_fqdn : string;
  in_aton : string → bool;
  in_build : option dns_exn;
  in_open : option dns_exn;
  in_register : option dns_exn
}.

Definition _get_default_host (i : start_input) : string :=
  match in_own_address i with Some ip => ip | None => "127.0.0.1" end.

Definition _build_properties (a : DNSSDAdvertiser) : list (string * string) :=
  [(TXT_KEY_VERSION, clip (mf_version (ad_manifest a)));
   (TXT_KEY_CAPABILITIES, _skill_ids_from_manifest (ad_manifest a));
   (TXT_KEY_MANIFEST_URL, clip (ad_manifest_url a))].

Definition _create_service_info (i : start_input) (a : DNSSDAdvertiser) : res dns_exn ServiceInfo :=
  match ad_host a with
  | None => Raise (Py (RuntimeError "_create_service_info requires a resolved host address"))
  | Some host =>
      let instance_name := _sanitize_instance_name (mf_name (ad_manifest a)) in
      if in_aton i host then
        match in_build i with
        | Some e => Raise e
        | None =>
            Ret (mkServiceInfo ASAP_SERVICE_TYPE (instance_name ++ "." ++ ASAP_SERVICE_TYPE) [host] (ad_port a)
                   (_build_properties a) (in_fqdn i))
        end
      else Raise (OSError "illegal IP address string passed to inet_aton")
  end.

Abbreviation network := (list ServiceInfo).

Definition start (i : start_input) (s : DNSSDAdvertiser * network) : (DNSSDAdvertiser * network) * res dns_exn unit :=
  let '(a, net) := s in
  if ad_zeroconf a then (s, Ret tt)
  else
    let a := match ad_host a with Some _ => a | None => set_host (_get_default_host i) a end in
    match _create_service_info i a with
    | Raise e => ((a, net), Raise e)
    | Ret info =>
        let a := set_service false (Some info) a in
        match in_open i with
        | Some e => ((a, net), Raise e)
        | None =>
            let a := set_service true (Some info) a in
            match in_register i with
            | Some e => ((a, net), Raise e)
            | None => ((a, (net ++ [info])%list), Ret tt)
            end
        end
    end.

(** [unregister]: what `unregister_service` raises, [close]: what `close` raises. *)
Definition stop (unregister close : option dns_exn) (s : DNSSDAdvertiser * network) :
    (DNSSDAdvertiser * network) * res dns_exn unit :=
  let '(a, net) := s in
  match ad_zeroconf a, ad_service_info a with
  | true, Some info =>
      match unregister with
      | Some e => (s, Raise e)
      | None =>
          let net := filter (λ other, other ≠ info) net in
          match close with
          | Some e => ((a, net), Raise e)
          | None => ((set_service false None a, net), Ret tt)
          end
      end
  | _, _ => (s, Ret tt)
  end.

(** ** What a browser sees *)

Record AgentInfo : Type := mkAgentInfo {
  ag_name : string;
  ag_version : string;
  ag_capabilities : string;
  ag_manifest_url : string;
  ag_host : string;
  ag_port : Z
}.

(** A key or value of a TXT record: text, or bytes.  Of the bytes of a key we have
    the text they encode, if they are UTF-8; of those of a value the text that
    decoding with `errors="replace"` yields. *)
Inductive txt_key : Type := KeyText (s : string) | KeyBytes (utf8 : option string).
Inductive txt_value : Type := ValueText (s : string) | ValueBytes (replaced : string).

Record seen_service : Type := mkSeen {
  sv_properties : option (list (txt_key * option txt_value));
  sv_addresses : list string;
  sv_server : option string;
  sv_port : option Z
}.

Definition _decode_txt_value (val : txt_value) : string :=
  match val with ValueBytes s => s | ValueText s => s end.

Fixpoint _get_prop (props : list (txt_key * option txt_value)) (key : string) : res dns_exn string :=
  match props with
  | [] => Ret ""
  | (_, None) :: rest => _get_prop rest key
  | (KeyText k, Some v) :: rest => if String.eqb k key then Ret (_decode_txt_value v) else _get_prop rest key
  | (KeyBytes None, Some _) :: _ => Raise UnicodeDecodeError
  | (KeyBytes (Some k), Some v) :: rest => if String.eqb k key then Ret (_decode_txt_value v) else _get_prop rest key
  end.

Definition instance_of (name : string) : string :=
  if PyStr.contains name ASAP_SERVICE_TYPE then replace_text ("." ++ ASAP_SERVICE_TYPE) "" name else name.

Definition _service_info_to_agent_info (zc : string → string → option seen_service) (service_type name : string) :
    res dns_exn (option AgentInfo) :=
  match zc service_type name with
  | None => Ret None
  | Some info =>
      let props := match sv_properties info with Some p => p | None => [] end in
      rbind (_get_prop props TXT_KEY_VERSION) (λ version,
      rbind (_get_prop props TXT_KEY_CAPABILITIES) (λ capabilities,
      rbind (_get_prop props TXT_KEY_MANIFEST_URL) (λ manifest_url,
      if negb (PyStr.truthy manifest_url) then Ret None
      else
        let host := match sv_addresses info with
                    | h :: _ => h
                    | [] => match sv_server info with
                            | Some server => if PyStr.truthy server then server else "localhost"
                            | None => "localhost"
                            end
                    end in
        let port := match sv_port info with Some p => p | None => 0 end in
        Ret (Some (mkAgentInfo (instance_of name) version capabilities manifest_url host port)))))
  end.

(** ** Browsing *)

Inductive ServiceStateChange : Type := Added | Removed | Updated.

Record DNSSDDiscovery : Type := mkDiscovery { ds_on_added : bool; ds_on_removed : bool }.

(** The two collections of [_run_browse], and the calls of the callbacks. *)
Record browse_state : Type := mkBrowse {
  br_collected : list AgentInfo;
  br_agents_by_name : list (string * AgentInfo);
  br_added_calls : list AgentInfo;
  br_removed_calls : list AgentInfo
}.

(** One change that the browser reports, with what a lookup answers then. *)
Record change : Type := mkChange {
  ch_service_type : string;
  ch_name : string;
  ch_state : ServiceStateChange;
  ch_lookup : string → string → option seen_service
}.

Definition handler (d : DNSSDDiscovery) (c : change) (b : browse_state) : browse_state * res dns_exn unit :=
  match ch_state c with
  | Added =>
      match _service_info_to_agent_info (ch_lookup c) (ch_service_type c) (ch_name c) with
      | Raise e => (b, Raise e)
      | Ret (Some agent) =>
          if PyStr.truthy (ag_manifest_url agent) then
            (mkBrowse (br_collected b ++ [agent])%list (PyDict.set (ch_name c) agent (br_agents_by_name b))
               (if ds_on_added d then br_added_calls b ++ [agent] else br_added_calls b)%list (br_removed_calls b), Ret tt)
          else (b, Ret tt)
      | Ret None => (b, Ret tt)
      end
  | Removed =>
      match PyDict.get (ch_name c) (br_agents_by_name b) with
      | None => (b, Ret tt)
      | Some agent =>
          (mkBrowse (br_collected b) (PyDict.del (ch_name c) (br_agents_by_name b)) (br_added_calls b)
             (if ds_on_removed d then br_removed_calls b ++ [agent] else br_removed_calls b)%list, Ret tt)
      end
  | Updated => (b, Ret tt)
  end.

Definition browse_from (d : DNSSDDiscovery) (changes : list change) (b : browse_state) : browse_state :=
  fold_left (λ b c, (handler d c b).1) changes b.

(** The changes reported within the window; one whose handler raises adds nothing. *)
Definition _run_browse (d : DNSSDDiscovery) (changes : list change) : list AgentInfo :=
  br_collected (browse_from d changes (mkBrowse [] [] [] [])).

(** ** What is advertised is found *)

(** A browser that looks up a registered service learns its address, its port and its
    properties, whose keys and values travel as UTF-8. *)
Definition published (zc : string → string → option seen_service) (info : ServiceInfo) : Prop :=
  ∃ server, zc (si_type info) (si_name info)
  = Some (mkSeen (Some (map (λ kv, (KeyBytes (Some kv.1), Some (ValueBytes kv.2))) (si_properties info)))
            (si_addresses info) server (Some (si_port info))).

Fixpoint dotless (s : string) : bool :=
  match s with EmptyString => true | String c s' => negb (Ascii.eqb c ".") && dotless s' end.

Lemma clip_fits s : (String.length s <= _TXT_VALUE_MAX_LEN)%nat → clip s = s.
Proof.
  unfold clip. generalize _TXT_VALUE_MAX_LEN. induction s as [|c s IH]; intros [|n] Hn; cbn in *; try done; [lia|].
  f_equal. apply IH. lia.
Qed.

Lemma clip_empty s : PyStr.truthy (clip s) = PyStr.truthy s.
Proof. by destruct s. Qed.

Lemma contains_app a b : PyStr.contains (a ++ b) b = true.
Proof.
  induction a as [|c a IH].
  - destruct b as [|c b]; [done|]. change ("" ++ String c b) with (String c b). cbn [PyStr.contains].
    apply orb_true_iff. left. induction (String c b) as [|x l IHl]; [done|]. cbn. by destruct (ascii_dec x x).
  - rewrite append_cons. cbn [PyStr.contains]. by rewrite IH, orb_true_r.
Qed.

Lemma after_prefix_same pat s : after_prefix pat (pat ++ s) = Some s.
Proof. induction pat as [|c pat IH]; [done|]. rewrite append_cons. cbn. by rewrite Ascii.eqb_refl. Qed.

(** A name without dots is what comes before the service type. *)
Lemma instance_is_read_back s : dotless s = true → instance_of (s ++ "." ++ ASAP_SERVICE_TYPE) = s.
Proof.
  intros Hs. unfold instance_of. rewrite <- (append_assoc s "." ASAP_SERVICE_TYPE), contains_app.
  rewrite append_assoc. unfold replace_text. set (pat := "." ++ ASAP_SERVICE_TYPE).
  assert (Hf : (String.length s < String.length (s ++ pat))%nat).
  { rewrite length_append. subst pat. vm_compute (String.length ("." ++ ASAP_SERVICE_TYPE)). lia. }
  revert Hf. generalize (String.length (s ++ pat)). induction s as [|c s IH]; intros fuel Hf.
  - destruct fuel as [|fuel]; [cbn in Hf; lia|]. cbn [replace_fuel]. change ("" ++ pat) with (pat ++ "").
    rewrite after_prefix_same. by destruct fuel.
  - cbn in Hs. apply andb_true_iff in Hs as [Hc Hs]. destruct fuel as [|fuel]; [cbn in Hf; lia|].
    rewrite append_cons. cbn [replace_fuel]. apply negb_true_iff, Ascii.eqb_neq in Hc.
    change pat with (String "." ASAP_SERVICE_TYPE) at 1. cbn [after_prefix].
    destruct (Ascii.eqb_spec "." c) as [Hd|_]; [by destruct Hc|].
    f_equal. apply IH; [done|cbn in Hf; lia].
Qed.

(** An agent that was registered is found: at the address and the port it listens on,
    with its version, its skills and the address of its manifest, each cut off after
    255 characters, and under its name where that has no dot. *)
Theorem advertised_agent_is_found i a info zc host :
  ad_host a = Some host → _create_service_info i a = Ret info → published zc info → ad_manifest_url a ≠ "" →
  ∃ name,
    _service_info_to_agent_info zc ASAP_SERVICE_TYPE (si_name info)
    = Ret (Some (mkAgentInfo name (clip (mf_version (ad_manifest a)))
                   (clip (String.concat "," (map sk_id (cap_skills (mf_capabilities (ad_manifest a))))))
                   (clip (ad_manifest_url a)) host (ad_port a)))
    ∧ (dotless (_sanitize_instance_name (mf_name (ad_manifest a))) = true →
       name = _sanitize_instance_name (mf_name (ad_manifest a))).
Proof.
  unfold _create_service_info. intros -> Hi [server Hp] Hu.
  destruct (in_aton i host); [|done]. destruct (in_build i); [done|]. injection Hi as <-.
  cbn [si_type si_name si_properties si_addresses si_port] in *.
  eexists. split; [|intros Hd; by apply instance_is_read_back].
  unfold _service_info_to_agent_info. rewrite Hp. cbn -[clip instance_of PyStr.truthy append _skill_ids_from_manifest].
  rewrite clip_empty. by destruct (ad_manifest_url a).
Qed.

(** ** Registered while started *)

(** The advertiser is started exactly when the network has its service, once. *)
Definition in_step (s : DNSSDAdvertiser * network) : Prop :=
  s.2 = (if ad_zeroconf s.1 then match ad_service_info s.1 with Some info => [info] | None => [] end else [])
  ∧ (ad_zeroconf s.1 = true → is_Some (ad_service_info s.1)).

Inductive adv_op : Type := OpStart (i : start_input) | OpStop (unregister close : option dns_exn).
Definition adv_step (op : adv_op) (s : DNSSDAdvertiser * network) : (DNSSDAdvertiser * network) * res dns_exn unit :=
  match op with OpStart i => start i s | OpStop u c => stop u c s end.
(** Registering, and closing after the service was withdrawn, do not fail. *)
Definition op_fine (op : adv_op) : Prop :=
  match op with OpStart i => in_register i = None | OpStop _ close => close = None end.

Lemma withdrawn (info : ServiceInfo) : filter (λ other, other ≠ info) [info] = [].
Proof. rewrite filter_cons. by case_decide. Qed.

Lemma step_in_step op s : op_fine op → in_step s → in_step (adv_step op s).1.
Proof.
  destruct s as [a net], op as [i|u c]; cbn [op_fine adv_step]; unfold in_step; cbn [fst snd]; intros Hop [-> Hs].
  - unfold start. destruct (ad_zeroconf a) eqn:Hz; [cbn; by rewrite Hz|].
    set (b := match ad_host a with Some _ => a | None => _ end).
    assert (Hb : ad_zeroconf b = false) by (subst b; by destruct (ad_host a)).
    destruct (_create_service_info i b) as [e|info]; [cbn; by rewrite Hb|].
    destruct (in_open i); [done|]. rewrite Hop. cbn. eauto.
  - unfold stop. destruct (ad_zeroconf a) eqn:Hz; [|cbn; by rewrite Hz].
    destruct (Hs eq_refl) as [info Hi]. rewrite Hi.
    destruct u; [cbn; rewrite Hz, Hi; eauto|]. subst c. cbv beta iota zeta. by rewrite withdrawn.
Qed.

(** Starting and stopping in any order, whichever other call fails, the agent is on
    the network exactly while the advertiser is started, and never twice. *)
Theorem registered_while_started ops manifest url port host :
  Forall op_fine ops →
  in_step (fold_left (λ s op, (adv_step op s).1) ops (new_advertiser manifest url port host, [])).
Proof.
  intros Hops. assert (Hi : in_step (new_advertiser manifest url port host, [])) by done.
  revert Hi. generalize (new_advertiser manifest url port host, @nil ServiceInfo).
  induction Hops as [|op ops Hop _ IH]; intros s Hs; [done|]. cbn. by apply IH, step_in_step.
Qed.

(** ** What a browse reports *)

Definition reports (d : DNSSDDiscovery) (b : browse_state) : Prop :=
  PyDict.wf (br_agents_by_name b)
  ∧ Forall (λ a, PyStr.truthy (ag_manifest_url a) = true) (br_collected b)
  ∧ br_added_calls b = (if ds_on_added d then br_collected b else [])
  ∧ (∀ a, a ∈ map snd (br_agents_by_name b) ∨ a ∈ br_removed_calls b → a ∈ br_collected b).

Lemma elem_of_set_values {V} (k : string) (v : V) d a : a ∈ map snd (PyDict.set k v d) → a = v ∨ a ∈ map snd d.
Proof.
  induction d as [|[k' v'] d IH]; cbn; [by rewrite list_elem_of_singleton; left|].
  case_decide; cbn; rewrite !elem_of_cons; intros [->|Ha]; eauto. destruct (IH Ha); eauto.
Qed.
Lemma elem_of_del_values {V} (k : string) (d : list (string * V)) a : a ∈ map snd (PyDict.del k d) → a ∈ map snd d.
Proof.
  induction d as [|[k' v'] d IH]; cbn; [done|]. case_decide; cbn; rewrite ?elem_of_cons; [by right|].
  intros [->|Ha]; eauto.
Qed.

Lemma handler_reports d c b : reports d b → reports d (handler d c b).1.
Proof.
  intros (Hw & Hf & Ha & Hi). unfold handler. destruct (ch_state c); [| |done].
  - destruct (_service_info_to_agent_info _ _ _) as [e|[agent|]]; [done| |done].
    destruct (PyStr.truthy (ag_manifest_url agent)) eqn:Ht; [|done]. unfold reports. cbn. split_and!.
    + by apply PyDict.wf_set.
    + apply Forall_app. auto.
    + rewrite Ha. by destruct (ds_on_added d).
    + intros x Hx. apply elem_of_app. rewrite list_elem_of_singleton. destruct Hx as [Hx|Hx]; [|eauto].
      apply elem_of_set_values in Hx as [->|Hx]; eauto.
  - destruct (PyDict.get (ch_name c) (br_agents_by_name b)) as [agent|] eqn:Hg; [|done]. unfold reports. cbn. split_and!; try done.
    + by apply PyDict.wf_del.
    + intros x [Hx|Hx]; [apply Hi; left; by eapply elem_of_del_values|].
      destruct (ds_on_removed d); [|eauto]. apply elem_of_app in Hx as [Hx|Hx%list_elem_of_singleton]; [eauto|].
      subst. apply Hi. left. apply PyDict.get_Some_elem in Hg. apply list_elem_of_fmap. by exists (ch_name c, agent).
Qed.

(** Whatever the browser reports: every agent that is returned has the address of a
    manifest, the callback for new agents saw exactly those that are returned, in
    their order, and the callback for agents that left saw only such agents. *)
Theorem browse_reports d changes :
  let b := browse_from d changes (mkBrowse [] [] [] []) in
  Forall (λ a, PyStr.truthy (ag_manifest_url a) = true) (_run_browse d changes)
  ∧ br_added_calls b = (if ds_on_added d then _run_browse d changes else [])
  ∧ (∀ a, a ∈ br_removed_calls b → a ∈ _run_browse d changes).
Proof.
  cbn zeta. unfold _run_browse. assert (H0 : reports d (mkBrowse [] [] [] [])).
  { split_and!; cbn; [constructor..|by destruct (ds_on_added d)|set_solver]. }
  assert (Hr : ∀ b, reports d b → reports d (browse_from d changes b)).
  { unfold browse_from. induction changes as [|c changes IH]; intros b Hb; cbn; [done|]. by apply IH, handler_reports. }
  destruct (Hr _ H0) as (_ & ? & ? & Hi). split_and!; eauto.
Qed.

(** ** Limits *)

(** After a registration that failed the advertiser counts as started: starting it
    again returns and registers nothing. *)
Lemma failed_register_stays_started i j a net e :
  ad_zeroconf a = false → in_register i = Some e → (∀ h, in_aton i h = true) → in_build i = None → in_open i = None →
  let '(s, r) := start i (a, net) in
  r = Raise e ∧ s.2 = net ∧ start j s = (s, Ret tt).
Proof.
  intros Hz Hr Ha Hb Ho. unfold start at 1. rewrite Hz.
  set (b := match ad_host a with Some _ => a | None => _ end).
  assert (Hh : is_Some (ad_host b)) by (subst b; destruct (ad_host a) eqn:E; [rewrite E|]; cbn; eauto).
  unfold _create_service_info. destruct Hh as [h ->]. by rewrite Ha, Hb, Ho, Hr.
Qed.

(** A TXT record carries `key=value` in at most 255 bytes; a value of 255 characters
    leaves no room for its key. *)
Lemma long_url_exceeds_record a : (String.length (ad_manifest_url a) >= 255)%nat →
  ∃ v, (TXT_KEY_MANIFEST_URL, v) ∈ _build_properties a ∧ String.length (TXT_KEY_MANIFEST_URL ++ "=" ++ v) = 268%nat.
Proof.
  intros Hl. exists (clip (ad_manifest_url a)). split; [unfold _build_properties; set_solver|].
  assert (Hc : String.length (clip (ad_manifest_url a)) = 255%nat).
  { unfold clip, _TXT_VALUE_MAX_LEN. revert Hl. generalize 255%nat. induction (ad_manifest_url a) as [|c s IH]; intros [|n] Hl; cbn in *; try done; [lia|].
    f_equal. apply IH. lia. }
  rewrite !length_append, Hc. done.
Qed.

(** A key that is not UTF-8 before the ones that are looked for hides an agent. *)
Lemma odd_key_hides_agent d name zc v rest addrs server port b :
  zc ASAP_SERVICE_TYPE name = Some (mkSeen (Some ((KeyBytes None, Some v) :: rest)) addrs server port) →
  handler d (mkChange ASAP_SERVICE_TYPE name Added zc) b = (b, Raise UnicodeDecodeError).
Proof. intros Hz. unfold handler, _service_info_to_agent_info. cbn. by rewrite Hz. Qed.

Definition demo_advertiser : DNSSDAdvertiser :=
  new_advertiser (demo_entity_manifest None) "https://pets.example/manifest.json" 8000 (Some "10.0.0.7").
Definition demo_start : start_input := mkStartInput None "pets.local" (λ _, true) None None None.

(** A browser that sees the demonstration agent added and removed. *)
Example demo_browse :
  let '((_, net), _) := start demo_start (demo_advertiser, []) in
  let zc := λ ty name,
    match List.find (λ info, String.eqb (si_type info) ty && String.eqb (si_name info) name) net with
    | Some info => Some (mkSeen (Some (map (λ kv, (KeyBytes (Some kv.1), Some (ValueBytes kv.2))) (si_properties info)))
                           (si_addresses info) None (Some (si_port info)))
    | None => None
    end in
  _run_browse (mkDiscovery true true)
    [mkChange ASAP_SERVICE_TYPE "Pets._asap._tcp.local." Added zc; mkChange ASAP_SERVICE_TYPE "Pets._asap._tcp.local." Removed zc]
  = [mkAgentInfo "Pets" "1.0.0" "echo" "https://pets.example/manifest.json" "10.0.0.7" 8000].
Proof. vm_compute. reflexivity. Qed.

End DnsSd.
