(* ===== verification/AutoRegistration.v ===== *)
(** * Self-service registration

    `src/src/asap/registry/auto_registration.py`, `receipt_cache.py` and
    `anti_spam.py`, with the rest of `discovery/validation.py`: the route that
    takes the URL of a manifest, checks the agent behind it and opens a pull
    request for its registry entry.

    What the scope check, the rate limiter, the resolver, the network, the
    compliance harness and the pull-request backend answer is an input of a
    request ([registration_input]), with the readings of the clock in
    microseconds; what the route does is logged ([effect]).  `urlparse`,
    `urlunparse` and `packaging.version` are parameters.  The score of a report is
    a rational.  Log lines are left out. *)

From Stdlib Require Import ZArith QArith Lia Ascii String.
From stdpp Require Import base tactics list gmap strings.
From S2P Require Import Prelude PyValue Digest Errors Handlers JsonRpc Signing Webhook Discovery Market OpenApiHandler.
Open Scope string_scope.
Open Scope Z_scope.
Open Scope asap_scope.

(** ** The receipt cache *)
Module RegistrationReceiptTTLCache.
Section Cache.
  Context {V : Type}.

(** [rc_ttl] in microseconds *)
Record t : Type := mk { rc_maxsize : Z; rc_ttl : Z; rc_store : list (string * (Z * V)) }.

Definition init (maxsize ttl : Z) : res pyexn t :=
  if maxsize <? 1 then Raise (ValueError "maxsize must be >= 1")
  else if ttl <=? 0 then Raise (ValueError "ttl must be > 0")
  else Ret (mk maxsize ttl []).

Definition with_store (s : list (string * (Z * V))) (c : t) : t := mk (rc_maxsize c) (rc_ttl c) s.

Fixpoint _drop_expired_from_head (now : Z) (s : list (string * (Z * V))) : list (string * (Z * V)) :=
  match s with
  | (k, (expires_at, v)) :: s' => if now <? expires_at then s else _drop_expired_from_head now s'
  | [] => []
  end.

(** [head]: the clock when the head is cleaned; [now]: when the entry is read. *)
Definition getitem (head now : Z) (key : string) (c : t) : t * res pyexn V :=
  let s := _drop_expired_from_head head (rc_store c) in
  match PyDict.get key s with
  | None => (with_store s c, Raise (KeyError key))
  | Some (expires_at, val) =>
      if expires_at <=? now then (with_store (PyDict.del key s) c, Raise (KeyError key))
      else (with_store (PyDict.del key s ++ [(key, (expires_at, val))])%list c, Ret val)
  end.

(** `while len(store) >= maxsize: store.popitem(last=False)` *)
Fixpoint evict_oldest (maxsize : Z) (s : list (string * (Z * V))) : list (string * (Z * V)) :=
  match s with
  | [] => []
  | _ :: s' => if maxsize <=? Z.of_nat (length s) then evict_oldest maxsize s' else s
  end.

Definition setitem (now head : Z) (key : string) (value : V) (c : t) : t :=
  let s := _drop_expired_from_head head (rc_store c) in
  let s := PyDict.del key s in
  with_store (evict_oldest (rc_maxsize c) s ++ [(key, (now + rc_ttl c, value))])%list c.

Definition contains (now : Z) (key : string) (c : t) : t * bool :=
  match PyDict.get key (rc_store c) with
  | None => (c, false)
  | Some (expires_at, _) => if expires_at <=? now then (with_store (PyDict.del key (rc_store c)) c, false) else (c, true)
  end.

Definition delitem (key : string) (c : t) : t * res pyexn unit :=
  match PyDict.get key (rc_store c) with
  | None => (c, Raise (KeyError key))
  | Some _ => (with_store (PyDict.del key (rc_store c)) c, Ret tt)
  end.

End Cache.
Arguments t : clear implicits.
End RegistrationReceiptTTLCache.
Import RegistrationReceiptTTLCache.

Definition _DEFAULT_MAXSIZE : Z := 10000.
Definition _DEFAULT_TTL_SEC : Z := 3600 * 1000000.

(** ** Validation of manifests *)
Section Validation.
  Context {M : Type} `{Crypto M, ManifestModels M}.

Definition validate_signed_manifest_response (data : list (string * json)) (verify_signature : bool) : res exn M :=
  match assoc "manifest" data, assoc "signature" data with
  | Some _, Some _ =>
      match md_signed (JObj data) with
      | Raise e => Raise (manifest_validation_error ("Invalid signed manifest schema: " ++ e))
      | Ret signed =>
          let! _ := if verify_signature then verify_manifest signed None else Ret true in
          Ret (sm_manifest signed)
      end
  | _, _ => validate_manifest_schema (JObj data)
  end.

(** [version_lt a b]: `Version(a) < Version(b)`; [inr]: the text of `InvalidVersion`. *)
Definition check_version_compatibility (version_lt : string → string → bool + string) (protocol_version : string)
    (manifest : manifest_view) (min_asap_version : option string) : res exn unit :=
  let required := default protocol_version min_asap_version in
  let raw := mv_asap_version manifest in
  match version_lt raw required with
  | inl true => Raise (manifest_validation_error ("Agent ASAP version '" ++ raw ++ "' is older than required '" ++ required ++ "'."))
  | inl false => Ret tt
  | inr e => Raise (manifest_validation_error ("Invalid ASAP version in manifest: '" ++ raw ++ "'. " ++ e))
  end.

Definition manifest_supports_skill (manifest : manifest_view) (skill_id : string) : bool :=
  existsb (String.eqb skill_id) (mv_skills manifest).

Definition require_skill (manifest : manifest_view) (skill_id : string) : res exn unit :=
  if manifest_supports_skill manifest skill_id then Ret tt
  else Raise (manifest_validation_error ("Agent does not support required skill '" ++ skill_id ++ "'. Available skills: "
         ++ match mv_skills manifest with [] => "none" | l => "[" ++ joined ", " (map repr_str l) ++ "]" end ++ ".")).

End Validation.

(** ** The route *)
Definition REGISTRY_REGISTER_SCOPE : string := "asap:registry".
Definition TRUST_LEVEL_SELF_SIGNED : string := "self-signed".
(** `VerificationStatus(status=VerificationState.PENDING, verified_at=None)` *)
Definition auto_register_verification : option VerificationStatus := Some (mkVerification VsPending None).

Record RegistrationReceipt : Type := mkReceiptOf {
  rr_agent_id : string;
  rr_urn : string;
  rr_harness_score : Q;
  rr_pr_url : option string;
  rr_status : string;
  rr_trust_level : string
}.

Definition deterministic_registration_agent_id (manifest_url : string) : string :=
  "urn:asap:registry:auto:" ++ sha256_hex (PyStr.strip manifest_url).
Definition manifest_url_cache_key (manifest_url : string) : string := sha256_hex (PyStr.strip manifest_url).

Record ComplianceReport : Type := mkReport { cr_score : Q; cr_failed_checks : list json; cr_summary : string }.

Inductive effect : Type :=
| FetchManifest (url : string)
| RunHarness (url : string)
| OpenPullRequest (entry : RegistryEntry) (manifest_url : string).

(** A reply that is an error: an `HTTPException`, or an exception that escapes. *)
Inductive failure : Type :=
| HttpFailure (status : Z) (detail : json) (headers : list (string * string))
| Uncaught (e : exn).

Definition http {A} (status : Z) (detail : string) : res failure A := Raise (HttpFailure status (JStr detail) []).

Inductive manifest_reply : Type :=
| ManifestStatus (status : Z)
| ManifestRequestError (text : string)
| ManifestRaises (e : exn)
| ManifestNotJson
| ManifestJson (data : json).

Inductive pull_request : Type :=
| PrOpened (url : option string)
| PrHttp (status : Z) (detail : string)
| PrValueError (text : string)
| PrFails.

Record registration_input : Type := mkInput {
  ri_claims : res failure unit;
  (** the limiter's refusal: its detail and `retry_after` *)
  ri_limited : option (string * Z);
  (** the clock at `in`, at the two readings of `[]`, and at the two of the store *)
  ri_contains : Z;
  ri_head : Z;
  ri_get : Z;
  ri_set : Z;
  ri_set_head : Z;
  (** the resolver, for the manifest, the harness and the two endpoints *)
  ri_dns_manifest : res string (list string);
  ri_dns_harness : res string (list string);
  ri_dns_http : res string (list string);
  ri_dns_ws : res string (list string);
  ri_manifest : manifest_reply;
  ri_report : res exn ComplianceReport;
  ri_pull_request : pull_request
}.

Definition str_webhook (e : ASAPError) : string := x_message e.

(** The three parts of a URL the harness URL is made of. *)
Record url3 : Type := mkUrl3 { u3_scheme : string; u3_netloc : string; u3_path : string }.

(** `s.endswith(suffix)` *)
Definition ends_with (s suffix : string) : bool :=
  (String.length suffix <=? String.length s)%nat
  && String.eqb (String.substring (String.length s - String.length suffix) (String.length suffix) s) suffix.

(** `s[:-n]` *)
Definition drop_last (n : nat) (s : string) : string := String.substring 0 (String.length s - n) s.

Section Registration.
  Context {M : Type} `{Crypto M, ManifestModels M} (view : M → manifest_view).
  Context (urlparse : string → res pyexn url_parts) (with_scheme : string → string → string).
  Context (urlparse3 : string → res pyexn url3) (urlunparse : string → string → string → string).

Definition harness_base_url_from_manifest (manifest : manifest_view) : res pyexn string :=
  let! u := urlparse3 (mv_endpoint_asap manifest) in
  let path := PyStr.rstrip_char "/" (u3_path u) in
  let path := if ends_with path "/asap" then drop_last 5 path else path in
  let path := if PyStr.truthy path then path else "/" in
  let base := PyStr.rstrip_char "/" (urlunparse (u3_scheme u) (u3_netloc u) path) in
  Ret (if PyStr.truthy base then base else u3_scheme u ++ "://" ++ u3_netloc u).

(** A URL that is rejected is a 400 with the given prefix. *)
Definition checked (prefix : string) (r : res webhook_exn unit) : res failure unit :=
  match r with
  | Ret _ => Ret tt
  | Raise (Rejected e) => http 400 (prefix ++ str_webhook e)
  | Raise (Escapes e) => Raise (Uncaught (of_pyexn e))
  end.

Definition is_signature_error (x : exn) : bool := has_class ClsSignatureVerificationError x.
Definition is_manifest_error (x : exn) : bool :=
  match x with XOther n _ => String.eqb n "ManifestValidationError" | _ => false end.

(** `fetch_manifest_at_url` under the `except` clauses of the route, after the
    URL was checked. *)
Definition read_manifest (reply : manifest_reply) : res failure M :=
  match reply with
  | ManifestStatus status => http 400 ("Failed to fetch manifest: HTTP " ++ PyStr.dec_Z status)
  | ManifestRequestError text => http 502 ("Manifest fetch failed: " ++ text)
  | ManifestRaises e => Raise (Uncaught e)
  | ManifestNotJson => http 400 "Manifest response is not JSON"
  | ManifestJson (JObj data) =>
      match validate_signed_manifest_response data true with
      | Ret m => Ret m
      | Raise x => if is_signature_error x || is_manifest_error x then http 400 (exn_text x) else Raise (Uncaught x)
      end
  | ManifestJson _ => http 400 "Manifest JSON must be an object"
  end.

Definition _validate_persisted_registry_endpoints (i : registration_input) (manifest : manifest_view) : res failure unit :=
  let! _ := checked "HTTP endpoint blocked: "
              (validate_agent_endpoint_url urlparse with_scheme (mv_endpoint_asap manifest) true (ri_dns_http i)) in
  match mv_endpoint_events manifest with
  | Some (String _ _ as events) =>
      checked "WebSocket endpoint blocked: " (validate_agent_endpoint_url urlparse with_scheme events true (ri_dns_ws i))
  | _ => Ret tt
  end.

Definition _build_registry_entry (manifest : manifest_view) (manifest_url : string) : res pyexn RegistryEntry :=
  let endpoints := [("http", mv_endpoint_asap manifest); ("manifest", manifest_url)] in
  let endpoints := match mv_endpoint_events manifest with
                   | Some (String _ _ as events) => (endpoints ++ [("ws", events)])%list
                   | _ => endpoints
                   end in
  let! entry := generate_registry_entry manifest endpoints None None None None [] in
  let tags := sorted_names (re_tags entry ++ [TRUST_LEVEL_SELF_SIGNED])%list in
  Ret (mkEntry (re_id entry) (re_name entry) (re_description entry) (re_endpoints entry) (re_skills entry) (re_category entry) tags
         (re_asap_version entry) (re_repository_url entry) (re_documentation_url entry) (re_built_with entry)
         auto_register_verification (re_online_check entry) (re_hardware_class entry) (re_inference_modes entry) (re_hardware_io entry)).

Definition failed_gate (report : ComplianceReport) : failure :=
  HttpFailure 422 (JObj [("error", JStr "compliance_gate_failed"); ("score", JFloat (FFin (cr_score report)));
                         ("failed_checks", JList (cr_failed_checks report)); ("summary", JStr (cr_summary report))]) [].

(** From the fetch on: the effects, and the receipt. *)
Definition register_new (i : registration_input) (manifest_url : string) : list effect * res failure RegistrationReceipt :=
  match checked "" (validate_callback_url urlparse manifest_url true (ri_dns_manifest i)) with
  | Raise e => ([], Raise e)
  | Ret _ =>
      let fx := [FetchManifest manifest_url] in
      match read_manifest (ri_manifest i) with
      | Raise e => (fx, Raise e)
      | Ret m =>
          let manifest := view m in
          match harness_base_url_from_manifest manifest with
          | Raise e => (fx, Raise (Uncaught (of_pyexn e)))
          | Ret harness_url =>
              match checked "Harness base URL blocked: " (validate_callback_url urlparse harness_url true (ri_dns_harness i)) with
              | Raise e => (fx, Raise e)
              | Ret _ =>
                  let fx := (fx ++ [RunHarness harness_url])%list in
                  match ri_report i with
                  | Raise e => (fx, Raise (Uncaught e))
                  | Ret report =>
                      if qlt_bool (cr_score report) 1 then (fx, Raise (failed_gate report))
                      else
                        match _validate_persisted_registry_endpoints i manifest with
                        | Raise e => (fx, Raise e)
                        | Ret _ =>
                            match _build_registry_entry manifest manifest_url with
                            | Raise e => (fx, Raise (Uncaught (of_pyexn e)))
                            | Ret entry =>
                                let fx := (fx ++ [OpenPullRequest entry manifest_url])%list in
                                (fx,
                                 match ri_pull_request i with
                                 | PrOpened pr_url =>
                                     Ret (mkReceiptOf (deterministic_registration_agent_id manifest_url) (mv_id manifest)
                                            (cr_score report) pr_url "queued" TRUST_LEVEL_SELF_SIGNED)
                                 | PrHttp status detail => http status detail
                                 | PrValueError text => http 400 text
                                 | PrFails => http 502 "Pull request flow failed. Check server logs for details."
                                 end)
                            end
                        end
                  end
              end
          end
      end
  end.

Abbreviation receipts := (option (RegistrationReceiptTTLCache.t RegistrationReceipt)).

(** The two dependencies of the route. *)
Definition admitted_by_gates (i : registration_input) : res failure unit :=
  let! _ := ri_claims i in
  match ri_limited i with
  | Some (detail, retry_after) => Raise (HttpFailure 429 (JStr detail) [("Retry-After", PyStr.dec_Z retry_after)])
  | None => Ret tt
  end.

Definition register_agent (i : registration_input) (manifest_url : string) (cache : receipts) :
    receipts * list effect * res failure RegistrationReceipt :=
  match admitted_by_gates i with
  | Raise e => (cache, [], Raise e)
  | Ret _ =>
      let cache_key := manifest_url_cache_key manifest_url in
      let '(cache, present) := match cache with
                               | Some c => let '(c, b) := contains (ri_contains i) cache_key c in (Some c, b)
                               | None => (None, false)
                               end in
      match cache, present with
      | Some c, true =>
          let '(c, r) := getitem (ri_head i) (ri_get i) cache_key c in
          (Some c, [], match r with Ret receipt => Ret receipt | Raise e => Raise (Uncaught (of_pyexn e)) end)
      | _, _ =>
          let '(fx, r) := register_new i manifest_url in
          match r, cache with
          | Ret receipt, Some c => (Some (setitem (ri_set i) (ri_set_head i) cache_key receipt c), fx, r)
          | _, _ => (cache, fx, r)
          end
      end
  end.

End Registration.

(** ** The cache is bounded and keeps what it stores *)
Section CacheFacts.
  Context {V : Type}.
  Implicit Types (s : list (string * (Z * V))) (c : RegistrationReceiptTTLCache.t V).

Lemma drop_expired_suffix now s : ∃ gone, s = (gone ++ _drop_expired_from_head now s)%list.
Proof.
  induction s as [|[k [e v]] s [gone IH]]; cbn [_drop_expired_from_head]; [by exists []|].
  destruct (now <? e); [by exists []|]. exists ((k, (e, v)) :: gone). cbn. by rewrite <- IH.
Qed.

Lemma drop_expired_keeps now s k e v : (k, (e, v)) ∈ s → now < e → (k, (e, v)) ∈ _drop_expired_from_head now s.
Proof.
  induction s as [|[k' [e' v']] s IH]; cbn [_drop_expired_from_head]; intros Hin Hn; [done|].
  destruct (Z.ltb_spec now e'); [done|]. apply elem_of_cons in Hin as [[= -> -> ->] | Hin]; [lia|auto].
Qed.

Lemma evict_oldest_suffix maxsize s : ∃ gone, s = (gone ++ evict_oldest maxsize s)%list.
Proof.
  induction s as [|x s [gone IH]]; cbn [evict_oldest]; [by exists []|].
  destruct (maxsize <=? _); [|by exists []]. exists (x :: gone). cbn. by rewrite <- IH.
Qed.

Lemma evict_length maxsize s : 1 <= maxsize → Z.of_nat (length (evict_oldest maxsize s)) < maxsize.
Proof.
  intros Hm. induction s as [|x s IH]; cbn [evict_oldest]; [cbn; lia|].
  destruct (Z.leb_spec maxsize (Z.of_nat (length (x :: s)))); [done|lia].
Qed.

Lemma wf_tail (gone s : list (string * (Z * V))) : PyDict.wf (gone ++ s)%list → PyDict.wf s.
Proof. unfold PyDict.wf, PyDict.keys. rewrite fmap_app. intros Hd%NoDup_app. tauto. Qed.

Lemma wf_snoc (s : list (string * (Z * V))) k x : PyDict.wf s → PyDict.get k s = None → PyDict.wf (s ++ [(k, x)])%list.
Proof.
  unfold PyDict.wf. intros Hw Hg%PyDict.get_None. unfold PyDict.keys in *. rewrite fmap_app. by apply NoDup_app_single.
Qed.

Lemma get_suffix_None k (gone s : list (string * (Z * V))) : PyDict.get k (gone ++ s)%list = None → PyDict.get k s = None.
Proof. rewrite !PyDict.get_None. unfold PyDict.keys. rewrite fmap_app, not_elem_of_app. tauto. Qed.

Definition cache_valid c : Prop :=
  1 <= rc_maxsize c ∧ PyDict.wf (rc_store c) ∧ Z.of_nat (length (rc_store c)) <= rc_maxsize c.

Lemma del_length k s : (length (PyDict.del k s) <= length s)%nat.
Proof. apply sublist_length, PyDict.del_sublist. Qed.

Lemma del_present_length k s x : PyDict.get k s = Some x → S (length (PyDict.del k s)) = length s.
Proof. induction s as [|[k' v] s IH]; cbn; [done|]. case_decide; [done|]. intros Hg. cbn. by rewrite IH. Qed.

Lemma init_valid maxsize ttl c : init maxsize ttl = Ret c → cache_valid c.
Proof.
  unfold init. destruct (Z.ltb_spec maxsize 1); [done|]. destruct (ttl <=? 0); [done|]. intros [= <-].
  split_and!; cbn; [lia|apply PyDict.wf_nil|lia].
Qed.

Lemma drop_valid now s : PyDict.wf s → PyDict.wf (_drop_expired_from_head now s)
  ∧ (length (_drop_expired_from_head now s) <= length s)%nat.
Proof.
  intros Hw. destruct (drop_expired_suffix now s) as [gone Hg]. split.
  - rewrite Hg in Hw. by eapply wf_tail.
  - rewrite Hg at 2. rewrite length_app. lia.
Qed.

(** Every operation keeps the cache a dictionary of at most its maximal size. *)
Theorem receipt_cache_is_bounded c key v now head :
  cache_valid c →
  cache_valid (setitem now head key v c) ∧ cache_valid (getitem head now key c).1
  ∧ cache_valid (contains now key c).1 ∧ cache_valid (delitem key c).1.
Proof.
  intros (Hm & Hw & Hl). destruct (drop_valid head (rc_store c) Hw) as [Hw' Hl']. split_and!.
  - unfold setitem. set (s := PyDict.del key _). split_and!; cbn; [done|..].
    + destruct (evict_oldest_suffix (rc_maxsize c) s) as [gone Hg]. assert (Hs : PyDict.wf s) by (subst s; by apply PyDict.wf_del).
      apply wf_snoc; [rewrite Hg in Hs; by eapply wf_tail|]. eapply (get_suffix_None _ gone). rewrite <- Hg. by apply PyDict.get_del_eq.
    + rewrite length_app. cbn. pose proof (evict_length (rc_maxsize c) s Hm). lia.
  - unfold getitem. destruct (PyDict.get key _) as [[e x]|] eqn:Hg; [destruct (e <=? now)|]; split_and!; cbn; try done; try lia.
    + by apply PyDict.wf_del.
    + pose proof (del_length key (_drop_expired_from_head head (rc_store c))). lia.
    + apply wf_snoc; [by apply PyDict.wf_del|by apply PyDict.get_del_eq].
    + rewrite length_app. cbn. apply del_present_length in Hg. lia.
  - unfold contains. destruct (PyDict.get key _) as [[e x]|]; [|done]. destruct (e <=? now); [|done].
    pose proof (del_length key (rc_store c)). split_and!; cbn; [done|by apply PyDict.wf_del|lia].
  - unfold delitem. destruct (PyDict.get key _); [|done].
    pose proof (del_length key (rc_store c)). split_and!; cbn; [done|by apply PyDict.wf_del|lia].
Qed.

(** What was stored last is found until its time is up. *)
Lemma stored_is_found c key v now head now' head' :
  cache_valid c → now' < now + rc_ttl c → head' < now + rc_ttl c →
  let c' := setitem now head key v c in
  contains now' key c' = (c', true) ∧ (getitem head' now' key c').2 = Ret v.
Proof.
  intros Hv Hn Hh c'. destruct (receipt_cache_is_bounded c key v now head Hv) as [(_ & Hw & _) _]. fold c' in Hw.
  assert (Hin : (key, (now + rc_ttl c, v)) ∈ rc_store c').
  { unfold c', setitem. cbn. apply elem_of_app. right. by left. }
  split.
  - unfold contains. rewrite (PyDict.elem_get _ _ _ Hw Hin). by rewrite (proj2 (Z.leb_gt _ _) Hn).
  - unfold getitem. destruct (drop_valid head' _ Hw) as [Hw' _].
    rewrite (PyDict.elem_get _ _ _ Hw' (drop_expired_keeps _ _ _ _ _ Hin Hh)). by rewrite (proj2 (Z.leb_gt _ _) Hn).
Qed.

End CacheFacts.

(** ** What stands before a pull request *)
Section RouteFacts.
  Context {M : Type} `{Crypto M, ManifestModels M} (view : M → manifest_view).
  Context (urlparse : string → res pyexn url_parts) (with_scheme : string → string → string).
  Context (urlparse3 : string → res pyexn url3) (urlunparse : string → string → string → string).

Lemma checked_inv prefix r : checked prefix r = Ret tt → r = Ret tt.
Proof. by destruct r as [[]|[]]. Qed.

Lemma checked_url_ok prefix url answer : checked prefix (validate_callback_url urlparse url true answer) = Ret tt →
  ∃ ips, answer = Ret ips ∧ url_ok urlparse url true ips.
Proof. intros Hc%checked_inv. by eapply validate_callback_url_ok. Qed.

(** A manifest that is accepted was valid, and properly signed if it came signed. *)
Definition manifest_vetted (reply : manifest_reply) (m : M) : Prop :=
  ∃ data, reply = ManifestJson (JObj data)
    ∧ ((∃ signed pk, md_signed (JObj data) = Ret signed ∧ sm_manifest signed = m ∧ properly_signed signed pk)
       ∨ ((assoc "manifest" data = None ∨ assoc "signature" data = None) ∧ md_manifest (JObj data) = Ret m)).

Lemma read_manifest_ok reply m : read_manifest reply = Ret m → manifest_vetted reply m.
Proof.
  unfold read_manifest. destruct reply as [| | | |data]; try done. destruct data as [| | | | | |data]; try done.
  destruct (validate_signed_manifest_response data true) as [x|m'] eqn:Hv; [by destruct (_ || _)|]. intros [= ->].
  exists data. split; [done|]. unfold validate_signed_manifest_response, validate_manifest_schema in Hv.
  destruct (assoc "manifest" data) eqn:Hm, (assoc "signature" data) eqn:Hs;
    try (right; destruct (md_manifest (JObj data)); [done|]; injection Hv as ->; auto).
  left. destruct (md_signed (JObj data)) as [|signed] eqn:Hd; [done|].
  destruct (verify_manifest signed None) as [|b] eqn:Hvm; cbn [rbind] in Hv; [done|]. injection Hv as <-.
  apply verify_manifest_inv in Hvm as (_ & pk & _ & Hp). by exists signed, pk.
Qed.

Abbreviation reg_new := (register_new view urlparse with_scheme urlparse3 urlunparse).
Abbreviation reg_agent := (register_agent view urlparse with_scheme urlparse3 urlunparse).

Lemma built_entry_is_pending mv url e :
  _build_registry_entry mv url = Ret e → re_verification e = Some (mkVerification VsPending None).
Proof.
  unfold _build_registry_entry. destruct (generate_registry_entry _ _ _ _ _ _ _) as [|e']; cbn [rbind]; [done|].
  by intros [= <-].
Qed.

(** The gates between the URL of a manifest and a pull request. *)
Definition gates_passed (i : registration_input) (manifest_url : string) (entry : RegistryEntry) : Prop :=
  ∃ m harness_url report ips ips',
    ri_dns_manifest i = Ret ips ∧ url_ok urlparse manifest_url true ips
    ∧ manifest_vetted (ri_manifest i) m
    ∧ harness_base_url_from_manifest urlparse3 urlunparse (view m) = Ret harness_url
    ∧ ri_dns_harness i = Ret ips' ∧ url_ok urlparse harness_url true ips'
    ∧ ri_report i = Ret report ∧ (1 <= cr_score report)%Q
    ∧ _validate_persisted_registry_endpoints urlparse with_scheme i (view m) = Ret tt
    ∧ _build_registry_entry (view m) manifest_url = Ret entry.

Lemma register_new_gated i url entry u : OpenPullRequest entry u ∈ (reg_new i url).1 → u = url ∧ gates_passed i url entry.
Proof.
  unfold register_new.
  destruct (checked "" _) as [|[]] eqn:Hm; cbn [fst]; [by intros ?%elem_of_nil|].
  destruct (read_manifest _) as [|m] eqn:Hr; cbn [fst]; [by intros ?%list_elem_of_singleton|].
  destruct (harness_base_url_from_manifest _ _ _) as [|harness] eqn:Hh; cbn [fst]; [by intros ?%list_elem_of_singleton|].
  destruct (checked "Harness base URL blocked: " _) as [|[]] eqn:Hc; cbn [fst]; [by intros ?%list_elem_of_singleton|].
  assert (Hno : OpenPullRequest entry u ∉ [FetchManifest url; RunHarness harness]) by (rewrite !elem_of_cons, elem_of_nil; naive_solver).
  destruct (ri_report i) as [|report] eqn:Hrep; cbn [fst app]; [done|].
  destruct (qlt_bool (cr_score report) 1) eqn:Hs; cbn [fst]; [done|].
  destruct (_validate_persisted_registry_endpoints _ _ _ _) as [|[]] eqn:He; cbn [fst]; [done|].
  destruct (_build_registry_entry _ _) as [|entry'] eqn:Hb; cbn [fst]; [done|].
  rewrite !elem_of_cons, elem_of_nil. intros [?|[?|[[= -> ->]|?]]]; [done..| |done]. split; [done|].
  apply checked_url_ok in Hm as (ips & ? & ?), Hc as (ips' & ? & ?). apply read_manifest_ok in Hr.
  exists m, harness, report, ips, ips'. split_and!; try done. unfold qlt_bool in Hs. apply negb_false_iff in Hs. by apply Qle_bool_iff.
Qed.

(** C32: the registry bot opens a pull request only behind every gate.  Whatever a
    request carries and whatever the network answers, a pull request is opened
    for it only if its caller passed the scope check and the rate limit, the URL
    of the manifest is an HTTPS one whose host and resolved addresses are not
    internal, the manifest behind it is valid, and properly signed if it came with
    a signature, the agent's base URL is external too and scored full marks in
    the compliance harness, and both endpoints that will be stored passed the
    same address checks; the entry is the one built from that manifest, with a
    pending verification. *)
Theorem auto_registration_is_gated i url cache entry u :
  OpenPullRequest entry u ∈ (reg_agent i url cache).1.2 →
  ri_claims i = Ret tt ∧ ri_limited i = None ∧ u = url ∧ gates_passed i url entry
  ∧ re_verification entry = Some (mkVerification VsPending None) ∧ TRUST_LEVEL_SELF_SIGNED ∈ re_tags entry.
Proof.
  unfold register_agent, admitted_by_gates.
  destruct (ri_claims i) as [|[]] eqn:Hc; cbn [rbind fst snd]; [by intros ?%elem_of_nil|].
  destruct (ri_limited i) as [[detail after]|] eqn:Hl; cbn [rbind fst snd]; [by intros ?%elem_of_nil|]. intros Hin.
  assert (Hn : OpenPullRequest entry u ∈ (reg_new i url).1).
  { destruct cache as [c|].
    - destruct (contains _ _ c) as [c' []].
      + destruct (getitem _ _ _ c') as [c'' r]. by apply elem_of_nil in Hin.
      + destruct (reg_new i url) as [fx [|receipt]]; done.
    - destruct (reg_new i url) as [fx [|receipt]]; done. }
  apply register_new_gated in Hn as [-> Hg]. split_and!; try done.
  - destruct Hg as (m & _ & _ & _ & _ & _ & _ & _ & _ & _ & _ & _ & _ & _ & Hb). by eapply built_entry_is_pending.
  - destruct Hg as (m & _ & _ & _ & _ & _ & _ & _ & _ & _ & _ & _ & _ & _ & Hb). unfold _build_registry_entry in Hb.
    destruct (generate_registry_entry _ _ _ _ _ _ _) as [|e]; cbn [rbind] in Hb; [done|]. injection Hb as <-. cbn.
    unfold sorted_names. rewrite PySort.sorted_Permutation. apply elem_of_remove_dups, elem_of_app. right. by left.
Qed.

(** A registration that succeeded is answered from the cache until its receipt
    expires: the same receipt, and nothing is fetched, run or opened again. *)
Theorem registration_is_idempotent i i' url c c' fx receipt :
  cache_valid c → reg_agent i url (Some c) = (Some c', fx, Ret receipt) → fx ≠ [] →
  ri_claims i' = Ret tt → ri_limited i' = None →
  ri_contains i' < ri_set i + rc_ttl c → ri_head i' < ri_set i + rc_ttl c → ri_get i' < ri_set i + rc_ttl c →
  ∃ c'', reg_agent i' url (Some c') = (Some c'', [], Ret receipt).
Proof.
  intros Hv Hr Hfx Hcl Hli Hco Hhe Hge. unfold register_agent in Hr.
  destruct (admitted_by_gates i); [done|].
  pose proof (receipt_cache_is_bounded c (manifest_url_cache_key url) receipt (ri_contains i) 0 Hv) as (_ & _ & Hv1 & _).
  assert (Ht : rc_ttl (contains (ri_contains i) (manifest_url_cache_key url) c).1 = rc_ttl c).
  { unfold contains. destruct (PyDict.get _ _) as [[e x]|]; [|done]. by destruct (e <=? _). }
  destruct (contains (ri_contains i) (manifest_url_cache_key url) c) as [c1 []]; cbn [fst] in *.
  - destruct (getitem _ _ _ c1) as [? ?]. by injection Hr as <- <- _.
  - destruct (reg_new i url) as [fx' [|rc]]; [done|]. injection Hr as <- <- <-.
    unfold register_agent, admitted_by_gates. rewrite Hcl, Hli. cbn [rbind]. rewrite <- Ht in *.
    destruct (stored_is_found c1 (manifest_url_cache_key url) rc (ri_set i) (ri_set_head i) (ri_contains i') (ri_head i') Hv1 Hco Hhe)
      as [Hc _].
    destruct (stored_is_found c1 (manifest_url_cache_key url) rc (ri_set i) (ri_set_head i) (ri_get i') (ri_head i') Hv1 Hge Hhe)
      as [_ Hg].
    rewrite Hc. destruct (getitem _ _ _ _) as [c'' r]. cbn in Hg. subst r. by exists c''.
Qed.

End RouteFacts.

(** ** Examples *)
Section Examples.
#[local] Existing Instance ToyCrypto.toy.

(** Manifests are numbers; a document names one under `id`, or under `manifest` when it is signed. *)
#[local] Instance demo_models : ManifestModels octets :=
  {| md_manifest := λ j, match j with JObj d => match j_get "id" d with JInt z => Ret [z] | _ => Raise "no id" end | _ => Raise "no object" end;
     md_signed := λ _, Raise "no signed manifest" |}.

Definition demo_manifest_view (_ : octets) : manifest_view :=
  mkView "urn:asap:agent:pets" "Pets" "An agent" ["feed"] "2.1" None None "https://pets.example/asap" None.
Definition demo_urlparse (_ : string) : res pyexn url_parts := Ret (mkUrl "https" (Some "pets.example")).
Definition demo_urlparse3 (_ : string) : res pyexn url3 := Ret (mkUrl3 "https" "pets.example" "/asap").
Definition demo_urlunparse (scheme netloc path : string) : string := scheme ++ "://" ++ netloc ++ path.
Definition public : res string (list string) := Ret ["93.184.216.34"].
Definition demo_input (now : Z) : registration_input :=
  mkInput (Ret tt) None now now now now now public public public public (ManifestJson (JObj [("id", JInt 1)]))
    (Ret (mkReport 1 [] "ok")) (PrOpened (Some "https://github.com/pr/1")).
Definition demo_register (now : Z) := 
  register_agent demo_manifest_view demo_urlparse (λ _ u, u) demo_urlparse3 demo_urlunparse (demo_input now) "https://pets.example/m.json".
Definition demo_receipt : RegistrationReceipt :=
  mkReceiptOf (deterministic_registration_agent_id "https://pets.example/m.json") "urn:asap:agent:pets" 1 (Some "https://github.com/pr/1")
    "queued" "self-signed".
Definition demo_new_entry : RegistryEntry :=
  mkEntry "urn:asap:agent:pets" "Pets" "An agent" [("http", "https://pets.example/asap"); ("manifest", "https://pets.example/m.json")]
    ["feed"] None ["self-signed"] "2.1" None None None (Some (mkVerification VsPending None)) None None [] [].

(** The document of the example is not signed: nobody proved to hold a key, and
    yet the entry and the receipt call it self-signed. *)
Lemma unsigned_manifest_is_registered :
  demo_register 0 None
  = (None, [FetchManifest "https://pets.example/m.json"; RunHarness "https://pets.example";
            OpenPullRequest demo_new_entry "https://pets.example/m.json"], Ret demo_receipt)
  ∧ rr_trust_level demo_receipt = "self-signed" ∧ re_tags demo_new_entry = ["self-signed"].
Proof. split_and!; vm_compute; reflexivity. Qed.

Lemma auto_registration_is_gated_witness :
  re_verification demo_new_entry = Some (mkVerification VsPending None)
  ∧ gates_passed demo_manifest_view demo_urlparse (λ _ u, u) demo_urlparse3 demo_urlunparse (demo_input 0) "https://pets.example/m.json"
      demo_new_entry.
Proof.
  assert (Hin : OpenPullRequest demo_new_entry "https://pets.example/m.json" ∈ (demo_register 0 None).1.2).
  { vm_compute. right. right. left. }
  destruct (auto_registration_is_gated demo_manifest_view demo_urlparse (λ _ u, u) demo_urlparse3 demo_urlunparse (demo_input 0)
    "https://pets.example/m.json" None demo_new_entry "https://pets.example/m.json" Hin) as (_ & _ & _ & Hg & Hp & _).
  split; [exact Hp|exact Hg].
Defined.

(** A receipt that expires between the test and the read raises. *)
Lemma receipt_expires_between_reads :
  let key := manifest_url_cache_key "https://pets.example/m.json" in
  let c := mk 10 100 [(key, (100, demo_receipt))] in
  let i := mkInput (Ret tt) None 99 99 100 100 100 public public public public ManifestNotJson (Ret (mkReport 1 [] "ok")) PrFails in
  (register_agent demo_manifest_view demo_urlparse (λ _ u, u) demo_urlparse3 demo_urlunparse i "https://pets.example/m.json" (Some c)).2
  = Raise (Uncaught (of_pyexn (KeyError key))).
Proof. vm_compute. reflexivity. Qed.

End Examples.
