(* ===== verification/Harness.v ===== *)
(** * The compliance harness

    `src/src/asap/testing/compliance.py`: the checks that an agent must pass before
    the registry opens a pull request for it, and the exit code of
    `src/src/asap/cli/compliance_check.py`.

    The agent under test is the environment: what it answers may depend on all the
    requests it has seen.  A reply has its status, its headers (names in lower case)
    and its body as JSON, or the text of the error with which `json()` fails.  The
    text of a percentage is a parameter. *)

From Stdlib Require Import ZArith QArith Lia Ascii String.
From stdpp Require Import base tactics list gmap strings.
From S2P Require Import Prelude PyValue Identity Errors JsonRpc AutoRegistration.
Open Scope string_scope.
Open Scope Z_scope.
Open Scope asap_scope.

Module Harness.

Record CheckResult : Type := mkCheck {
  ck_name : string;
  ck_category : string;
  ck_passed : bool;
  ck_message : string
}.

Record ComplianceReport : Type := mkReport {
  cp_version : string;
  cp_categories_run : list string;
  cp_checks : list CheckResult;
  cp_score : Q;
  cp_summary : string
}.

(** ** Requests and replies *)
Inductive body : Type :=
| NoBody
| JsonBody (j : json)
| RawBody (s : string).

Record probe : Type := mkProbe {
  pb_method : string;
  pb_path : string;
  pb_body : body;
  pb_headers : list (string * string)
}.

Record answer : Type := mkAnswer {
  an_status : Z;
  an_headers : list (string * string);
  an_json : res string json
}.
Inductive outcome : Type :=
| Answers (a : answer)
| Fails (msg : string)             (* `str(exc)` of a transport error *)
| ConnectFails (msg : string)
| TimesOut (msg : string).

Definition failure_text (o : outcome) : option string :=
  match o with Answers _ => None | Fails m | ConnectFails m | TimesOut m => Some m end.

Definition _DUMMY_ENVELOPE : json :=
  JObj [("sender", JStr "urn:asap:agent:compliance-test"); ("recipient", JStr "urn:asap:agent:server");
        ("payload_type", JStr "task.request"); ("payload", JObj [])].
Definition rpc_wrap (id : string) : json :=
  JObj [("jsonrpc", JStr "2.0"); ("method", JStr "asap.send"); ("params", JObj [("envelope", _DUMMY_ENVELOPE)]); ("id", JStr id)].
Definition _RPC_WRAP : json := rpc_wrap "compliance-1".

Section Checks.
  Context `{PyRuntime}.
  (** the agent: its answer to a request after those it has seen *)
  Context (agent : list probe → probe → outcome).

Abbreviation M A := (list probe → list probe * A).

Definition ask (p : probe) : M outcome := λ seen, ((seen ++ [p])%list, agent seen p).
Definition bind {A B} (m : M A) (k : A → M B) : M B := λ seen, let '(seen, a) := m seen in k a seen.
Definition ret {A} (a : A) : M A := λ seen, (seen, a).

(** `try: ... except Exception as exc: passed=False, message=str(exc)` around one request
    and what is made of its answer: [inr] is the text of an exception. *)
Definition check_one (name category : string) (p : probe) (judge : answer → (bool * string) + string) : M (list CheckResult) :=
  bind (ask p) (λ o, ret
    [match o with
     | Answers a => match judge a with
                    | inl (passed, message) => mkCheck name category passed message
                    | inr exc => mkCheck name category false exc
                    end
     | Fails m | ConnectFails m | TimesOut m => mkCheck name category false m
     end]).

Definition header (name : string) (a : answer) : string := default "" (assoc name (an_headers a)).

(** `data.get("error", {}).get("code")` *)
Definition error_code (data : json) : json + string :=
  match data with
  | JObj d =>
      match default (JObj []) (assoc "error" d) with
      | JObj e => inl (default JNull (assoc "code" e))
      | e => inr ("'" ++ type_name e ++ "' object has no attribute 'get'")
      end
  | _ => inr ("'" ++ type_name data ++ "' object has no attribute 'get'")
  end.

Definition judge_code (code : Z) (label : string) (a : answer) : (bool * string) + string :=
  match an_json a with
  | Raise e => inr e
  | Ret data => match error_code data with
                | inl c => inl (py_eq c (JInt code), label ++ py_str float_repr c)
                | inr e => inr e
                end
  end.

(** `key in data` *)
Definition contains_key (key : string) (data : json) : bool + string :=
  match data with
  | JObj d => inl (is_some (assoc key d))
  | JList l => inl (existsb (λ x, py_eq (JStr key) x) l)
  | JStr s => inl (PyStr.contains s key)
  | _ => inr ("argument of type '" ++ type_name data ++ "' is not iterable")
  end.

Definition identity_endpoint (name method path : string) : M (list CheckResult) :=
  check_one name "identity" (mkProbe method path NoBody [])
    (λ a, inl (existsb (Z.eqb (an_status a)) [200; 401; 403], method ++ " " ++ path ++ " returned " ++ PyStr.dec_Z (an_status a))).

Definition check_identity : M (list CheckResult) :=
  bind (identity_endpoint "identity_register_endpoint" "POST" "/asap/agent/register") (λ a,
  bind (identity_endpoint "identity_capability_list" "GET" "/asap/capability/list") (λ b, ret (a ++ b)%list)).

Definition check_streaming : M (list CheckResult) :=
  check_one "streaming_sse_endpoint" "streaming" (mkProbe "POST" "/asap/stream" (JsonBody _RPC_WRAP) [])
    (λ a, let ct := header "content-type" a in
          inl (PyStr.contains ct "text/event-stream" || (an_status a =? 200), "POST /asap/stream content-type: " ++ ct)).

Definition method_not_found_probe : probe :=
  mkProbe "POST" "/asap"
    (JsonBody (JObj [("jsonrpc", JStr "2.0"); ("method", JStr "nonexistent.method"); ("params", JObj []); ("id", JStr "e1")])) [].
Definition parse_error_probe : probe := mkProbe "POST" "/asap" (RawBody "not json") [("content-type", "application/json")].
Definition bad_envelope_probe : probe :=
  mkProbe "POST" "/asap"
    (JsonBody (JObj [("jsonrpc", JStr "2.0"); ("method", JStr "asap.send");
                     ("params", JObj [("envelope", JObj [("sender", JStr "x"); ("recipient", JStr "y"); ("payload_type", JStr "bad")])]);
                     ("id", JStr "e3")])) [].

Definition judge_error_key (a : answer) : (bool * string) + string :=
  match an_json a with
  | Raise e => inr e
  | Ret data => match contains_key "error" data with
                | inl b => inl (b, "Error response has structured data")
                | inr e => inr e
                end
  end.

Definition check_errors : M (list CheckResult) :=
  bind (check_one "error_method_not_found" "errors" method_not_found_probe (judge_code (-32601) "Method not found error code: ")) (λ a,
  bind (check_one "error_parse_error" "errors" parse_error_probe (judge_code (-32700) "Parse error code: ")) (λ b,
  bind (check_one "error_data_structured" "errors" bad_envelope_probe judge_error_key) (λ c, ret (a ++ b ++ c)%list))).

Definition version_probe : probe := mkProbe "POST" "/asap" (JsonBody _RPC_WRAP) [("ASAP-Version", "2.2")].
Definition bad_version_probe : probe :=
  mkProbe "POST" "/asap"
    (JsonBody (JObj [("jsonrpc", JStr "2.0"); ("method", JStr "asap.send"); ("params", JObj [("envelope", JObj [])]); ("id", JStr "v2")]))
    [("ASAP-Version", "99.0")].

Definition check_versioning : M (list CheckResult) :=
  bind (check_one "versioning_header_present" "versioning" version_probe
          (λ a, let ver := header "asap-version" a in inl (negb (String.eqb ver ""), "Response ASAP-Version: " ++ ver))) (λ a,
  bind (check_one "versioning_incompatible_rejected" "versioning" bad_version_probe
          (judge_code (-32000) "Incompatible version error code: ")) (λ b, ret (a ++ b)%list)).

Definition batch_probe : probe := mkProbe "POST" "/asap" (JsonBody (JList [rpc_wrap "b1"; rpc_wrap "b2"])) [].
Definition empty_batch_probe : probe := mkProbe "POST" "/asap" (JsonBody (JList [])) [].

Definition judge_batch (a : answer) : (bool * string) + string :=
  match an_json a with
  | Raise e => inr e
  | Ret (JList l) => inl ((length l =? 2)%nat, "Batch returned array")
  | Ret data => inl (false, "Batch returned " ++ type_name data)
  end.
Definition judge_empty_batch (a : answer) : (bool * string) + string :=
  match an_json a with
  | Raise e => inr e
  | Ret data => match contains_key "error" data with
                | inl b => inl (b, if b then "Empty batch correctly rejected" else "Not rejected")
                | inr e => inr e
                end
  end.

Definition check_batch : M (list CheckResult) :=
  bind (check_one "batch_array_response" "batch" batch_probe judge_batch) (λ a,
  bind (check_one "batch_empty_rejected" "batch" empty_batch_probe judge_empty_batch) (λ b, ret (a ++ b)%list)).

Definition audit_probe : probe := mkProbe "GET" "/audit" NoBody [].

(** Both results come from one reply; an exception after the first adds another of its name. *)
Definition check_audit : M (list CheckResult) :=
  bind (ask audit_probe) (λ o, ret
    match o with
    | Answers a =>
        let exists_ := mkCheck "audit_endpoint_exists" "audit" (existsb (Z.eqb (an_status a)) [200; 404])
                         ("GET /audit returned " ++ PyStr.dec_Z (an_status a)) in
        let failed exc := mkCheck "audit_endpoint_exists" "audit" false exc in
        if an_status a =? 200 then
          match an_json a with
          | Raise e => [exists_; failed e]
          | Ret data =>
              match contains_key "entries" data with
              | inl b => [exists_; mkCheck "audit_response_format" "audit" b
                                     (if b then "Audit response has entries field" else "Missing entries field")]
              | inr e => [exists_; failed e]
              end
          end
        else [exists_]
    | Fails m | ConnectFails m | TimesOut m => [mkCheck "audit_endpoint_exists" "audit" false m]
    end).

(** ** The run *)
Definition CATEGORY_CHECKS : list (string * M (list CheckResult)) :=
  [("identity", check_identity); ("streaming", check_streaming); ("errors", check_errors);
   ("versioning", check_versioning); ("batch", check_batch); ("audit", check_audit)].
Definition ALL_CATEGORIES : list string := ["identity"; "streaming"; "errors"; "versioning"; "batch"; "audit"].

Fixpoint run_checks (cats : list string) : M (list CheckResult) :=
  match cats with
  | [] => ret []
  | cat :: rest =>
      bind (match assoc cat CATEGORY_CHECKS with Some checker => checker | None => ret [] end) (λ a,
      bind (run_checks rest) (λ b, ret (a ++ b)%list))
  end.

Definition count_passed (checks : list CheckResult) : nat := length (List.filter ck_passed checks).
Definition score_of (checks : list CheckResult) : Q :=
  match checks with
  | [] => 0
  | _ => (inject_Z (Z.of_nat (count_passed checks)) / inject_Z (Z.of_nat (length checks)))%Q
  end.

Context (percent : Q → string).

Definition run_compliance_harness_with_client (categories : option (list string)) : M ComplianceReport :=
  let cats := match categories with Some (c :: l) => c :: l | _ => ALL_CATEGORIES end in
  bind (run_checks cats) (λ checks, ret
    (mkReport "2.0" cats checks (score_of checks)
       (PyStr.dec_Z (Z.of_nat (count_passed checks)) ++ "/" ++ PyStr.dec_Z (Z.of_nat (length checks)) ++ " checks passed ("
          ++ percent (score_of checks) ++ ")"))).

Definition preflight_probe : probe := mkProbe "GET" "/" NoBody [].

Inductive harness_exn : Type :=
| TransportError (o : outcome)
| RedirectError (status : Z).

(** Redirects are not followed: one in answer to the first request is an error. *)
Definition run_compliance_harness_v2_from_url (categories : option (list string)) : M (res harness_exn ComplianceReport) :=
  bind (ask preflight_probe) (λ o,
    match o with
    | Answers a =>
        if (300 <=? an_status a) && (an_status a <? 400) then ret (Raise (RedirectError (an_status a)))
        else bind (run_compliance_harness_with_client categories) (λ r, ret (Ret r))
    | _ => ret (Raise (TransportError o))
    end).

(** `compliance-check`: 2 for a transport error, 1 for a failed check when asked to.
    `raise_for_status` of a redirect is no transport error and escapes ([None]). *)
Definition compliance_check (exit_on_fail : bool) (r : res harness_exn ComplianceReport) : option Z :=
  match r with
  | Raise (TransportError _) => Some 2
  | Raise (RedirectError _) => None
  | Ret report => Some (if exit_on_fail && qlt_bool (cp_score report) 1 then 1 else 0)
  end.
End Checks.

(** ** What a full score certifies *)
Section Facts.
  Context `{PyRuntime} (agent : list probe → probe → outcome) (percent : Q → string).

(** The agent answers each of the requests, in this order, as required. *)
Fixpoint satisfied (seen : list probe) (reqs : list (probe * (answer → Prop))) : Prop :=
  match reqs with
  | [] => True
  | (p, P) :: rest => (∃ a, agent seen p = Answers a ∧ P a) ∧ satisfied (seen ++ [p])%list rest
  end.

Definition all_passed (l : list CheckResult) : Prop := Forall (λ c, ck_passed c = true) l.

(** Checks that make exactly these requests and pass exactly when they are met. *)
Definition certifies (m : list probe → list probe * list CheckResult) (reqs : list (probe * (answer → Prop))) : Prop :=
  ∀ seen, (m seen).1 = (seen ++ map fst reqs)%list ∧ (all_passed (m seen).2 ↔ satisfied seen reqs) ∧ (m seen).2 ≠ [].

Lemma satisfied_app seen r r' : satisfied seen (r ++ r')%list ↔ satisfied seen r ∧ satisfied (seen ++ map fst r)%list r'.
Proof.
  revert seen. induction r as [|[p P] r IH]; intros seen; cbn; [rewrite app_nil_r; tauto|].
  rewrite IH, <- app_assoc. cbn. tauto.
Qed.

Lemma certifies_one name category p judge (P : answer → Prop) :
  (∀ a, P a ↔ ∃ m, judge a = inl (true, m)) → certifies (check_one agent name category p judge) [(p, P)].
Proof.
  intros HP seen. unfold check_one, bind, ask, ret. cbn. split; [done|]. split; [|done].
  unfold all_passed. rewrite Forall_singleton. destruct (agent seen p) as [a|m|m|m]; cbn;
    [|split; [done|by intros [(a & [=] & _) _]]..].
  destruct (judge a) as [[[] m]|e] eqn:E; cbn; split; try done.
  - intros _. split; [|done]. exists a. split; [done|]. apply HP. eauto.
  - intros [(a' & [= <-] & Ha) _]. apply HP in Ha as [m' Hm]. congruence.
  - intros [(a' & [= <-] & Ha) _]. apply HP in Ha as [m' Hm]. congruence.
Qed.

Lemma certifies_then m m' r r' :
  certifies m r → certifies m' r' → certifies (bind m (λ a, bind m' (λ b, ret (a ++ b)%list))) (r ++ r')%list.
Proof.
  intros Hm Hm' seen. unfold bind, ret. destruct (Hm seen) as (H1 & H2 & H3). destruct (m seen) as [seen1 a]. cbn in *.
  destruct (Hm' seen1) as (H1' & H2' & H3'). destruct (m' seen1) as [seen2 b]. cbn in *. subst. split_and!.
  - by rewrite map_app, app_assoc.
  - unfold all_passed. rewrite Forall_app, satisfied_app. unfold all_passed in *. tauto.
  - destruct a; [done|]. done.
Qed.

Definition says_code (code : Z) (a : answer) : Prop :=
  ∃ d e c, an_json a = Ret (JObj d) ∧ default (JObj []) (assoc "error" d) = JObj e ∧ default JNull (assoc "code" e) = c
           ∧ py_eq c (JInt code) = true.
Definition says_key (key : string) (a : answer) : Prop := ∃ data, an_json a = Ret data ∧ contains_key key data = inl true.
Definition status_in (l : list Z) (a : answer) : Prop := an_status a ∈ l.

Definition requirements : list (probe * (answer → Prop)) :=
  [(mkProbe "POST" "/asap/agent/register" NoBody [], status_in [200; 401; 403]);
   (mkProbe "GET" "/asap/capability/list" NoBody [], status_in [200; 401; 403]);
   (mkProbe "POST" "/asap/stream" (JsonBody _RPC_WRAP) [],
    λ a, PyStr.contains (header "content-type" a) "text/event-stream" = true ∨ an_status a = 200);
   (method_not_found_probe, says_code (-32601));
   (parse_error_probe, says_code (-32700));
   (bad_envelope_probe, says_key "error");
   (version_probe, λ a, header "asap-version" a ≠ "");
   (bad_version_probe, says_code (-32000));
   (batch_probe, λ a, ∃ x y, an_json a = Ret (JList [x; y]));
   (empty_batch_probe, says_key "error");
   (audit_probe, λ a, an_status a = 404 ∨ an_status a = 200 ∧ says_key "entries" a)].

Lemma judge_code_spec code label a : says_code code a ↔ ∃ m, judge_code code label a = inl (true, m).
Proof.
  unfold says_code, judge_code, error_code. destruct (an_json a) as [e|data]; [split; [by intros (? & ? & ? & [=] & _)|by intros [? [=]]]|].
  destruct data as [| | | | | |d]; try (split; [by intros (? & ? & ? & [=] & _)|by intros [? [=]]]).
  destruct (default (JObj []) (assoc "error" d)) as [| | | | | |e] eqn:E;
    try (split; [intros (d' & e' & ? & [= <-] & He & _); congruence|by intros [? [=]]]).
  split.
  - intros (d' & e' & c & [= <-] & He & <- & Hc). rewrite E in He. injection He as <-. rewrite Hc. eauto.
  - intros [m [= Hc _]]. exists d, e, (default JNull (assoc "code" e)). done.
Qed.

Lemma existsb_status l n : existsb (Z.eqb n) l = true ↔ n ∈ l.
Proof.
  rewrite existsb_exists. split.
  - intros (x & Hx & E). apply Z.eqb_eq in E as ->. by apply list_elem_of_In.
  - intros Hn. exists n. split; [by apply list_elem_of_In|apply Z.eqb_refl].
Qed.

Lemma certifies_audit :
  certifies (check_audit agent) [(audit_probe, λ a, an_status a = 404 ∨ an_status a = 200 ∧ says_key "entries" a)].
Proof.
  intros seen. unfold check_audit, bind, ask, ret. cbn [fst snd]. split; [done|]. cbn [satisfied].
  destruct (agent seen audit_probe) as [a|m|m|m];
    [|split; [|done]; unfold all_passed; rewrite Forall_singleton; split; [done|by intros [(a & [=] & _) _]]..].
  destruct (an_status a =? 200) eqn:E.
  - apply Z.eqb_eq in E. rewrite E.
    assert (Hk : (∃ a0, Answers a = Answers a0 ∧ (an_status a0 = 404 ∨ an_status a0 = 200 ∧ says_key "entries" a0)) ∧ True
                 ↔ says_key "entries" a).
    { split; [intros [(a0 & [= <-] & [?|[_ ?]]) _]; [lia|done]|]. intros Hs. split; [|done]. exists a. auto. }
    rewrite Hk. unfold says_key.
    destruct (an_json a) as [e|data]; [|destruct (contains_key "entries" data) as [[]|e] eqn:K]; (split; [|done]);
      unfold all_passed; rewrite !Forall_cons, Forall_nil; cbn [ck_passed]; split.
    + by intros (_ & ? & _).
    + by intros (? & [=] & _).
    + intros _. by exists data.
    + done.
    + by intros (_ & ? & _).
    + intros (? & [= <-] & Hc). congruence.
    + by intros (_ & ? & _).
    + intros (? & [= <-] & Hc). congruence.
  - apply Z.eqb_neq in E. split; [|done]. unfold all_passed. rewrite Forall_singleton. cbn [ck_passed].
    rewrite existsb_status. split.
    + intros Hs. split; [|done]. exists a. split; [done|]. left. set_solver.
    + intros [(a' & [= <-] & Ha) _]. destruct Ha as [->|[? _]]; [|done]. set_solver.
Qed.

Lemma certifies_status name method path :
  certifies (identity_endpoint agent name method path) [(mkProbe method path NoBody [], status_in [200; 401; 403])].
Proof.
  apply certifies_one. intros a. unfold status_in. rewrite <- existsb_status.
  destruct (existsb (Z.eqb (an_status a)) [200; 401; 403]); split; [eauto|done|done|by intros [m [=]]].
Qed.
Lemma says_key_spec key a (f : bool → string) :
  says_key key a
  ↔ ∃ m, match an_json a with
         | Raise e => inr e
         | Ret data => match contains_key key data with inl b => inl (b, f b) | inr e => inr e end
         end = inl (true, m).
Proof.
  unfold says_key. destruct (an_json a) as [e|data]; [split; [by intros (? & [=] & _)|by intros [? [=]]]|].
  destruct (contains_key key data) as [b|e] eqn:E; split.
  - intros (d & [= <-] & Hd). rewrite E in Hd. injection Hd as ->. eauto.
  - intros [m [= -> _]]. eauto.
  - intros (d & [= <-] & Hd). congruence.
  - by intros [m [=]].
Qed.
Lemma certifies_errors :
  certifies (check_errors agent)
    [(method_not_found_probe, says_code (-32601)); (parse_error_probe, says_code (-32700)); (bad_envelope_probe, says_key "error")].
Proof.
  unfold check_errors. intros seen.
  pose proof (certifies_one "error_method_not_found" "errors" method_not_found_probe _ _
                (judge_code_spec (-32601) "Method not found error code: ")) as H1.
  pose proof (certifies_one "error_parse_error" "errors" parse_error_probe _ _ (judge_code_spec (-32700) "Parse error code: ")) as H2.
  pose proof (certifies_one "error_data_structured" "errors" bad_envelope_probe judge_error_key (says_key "error")
                (λ a, says_key_spec "error" a (λ _, "Error response has structured data"))) as H3.
  exact (certifies_then _ _ _ _ H1 (certifies_then _ _ _ _ H2 H3) seen).
Qed.
Lemma certifies_versioning :
  certifies (check_versioning agent) [(version_probe, λ a, header "asap-version" a ≠ ""); (bad_version_probe, says_code (-32000))].
Proof.
  apply (certifies_then _ _ [_] [_]); [|apply certifies_one, judge_code_spec]. apply certifies_one. intros a.
  cbv zeta. destruct (String.eqb_spec (header "asap-version" a) "") as [E|E]; cbn [negb]; split.
  - intros Hn. by destruct Hn.
  - intros [m Hm]. discriminate Hm.
  - eauto.
  - done.
Qed.
Lemma certifies_batch :
  certifies (check_batch agent) [(batch_probe, λ a, ∃ x y, an_json a = Ret (JList [x; y])); (empty_batch_probe, says_key "error")].
Proof.
  apply (certifies_then _ _ [_] [_]).
  - apply certifies_one. intros a. unfold judge_batch.
    destruct (an_json a) as [e|[| | | | |l|]]; try (split; [by intros (? & ? & [=])|by intros [m [=]]]).
    destruct l as [|x [|y [|z l]]]; cbn [length Nat.eqb]; split; try (by intros (? & ? & [=])); try (by intros [m [=]]); eauto.
  - apply certifies_one. intros a.
    apply (says_key_spec "error" a (λ b, if b then "Empty batch correctly rejected" else "Not rejected")).
Qed.

Lemma certifies_streaming :
  certifies (check_streaming agent)
    [(mkProbe "POST" "/asap/stream" (JsonBody _RPC_WRAP) [],
      λ a, PyStr.contains (header "content-type" a) "text/event-stream" = true ∨ an_status a = 200)].
Proof.
  apply certifies_one. intros a. cbv zeta. rewrite <- Z.eqb_eq, <- orb_true_iff.
  destruct (PyStr.contains (header "content-type" a) "text/event-stream" || (an_status a =? 200));
    split; [eauto|done|done|]. intros [m Hm]. discriminate Hm.
Qed.
Lemma certifies_identity :
  certifies (check_identity agent)
    [(mkProbe "POST" "/asap/agent/register" NoBody [], status_in [200; 401; 403]);
     (mkProbe "GET" "/asap/capability/list" NoBody [], status_in [200; 401; 403])].
Proof. apply (certifies_then _ _ [_] [_]); apply certifies_status. Qed.

Lemma certifies_cons m cat rest r r' :
  assoc cat (CATEGORY_CHECKS agent) = Some m → certifies m r → certifies (run_checks agent rest) r' →
  certifies (run_checks agent (cat :: rest)) (r ++ r')%list.
Proof. intros Ha Hm Hr. cbn [run_checks]. rewrite Ha. by apply certifies_then. Qed.
Lemma certifies_last m cat r :
  assoc cat (CATEGORY_CHECKS agent) = Some m → certifies m r → certifies (run_checks agent [cat]) r.
Proof.
  intros Ha Hm seen. cbn [run_checks]. rewrite Ha. unfold bind, ret. destruct (Hm seen) as (H1 & H2 & H3).
  destruct (m seen) as [s l]. cbn in *. by rewrite app_nil_r.
Qed.

Lemma certifies_all : certifies (run_checks agent ALL_CATEGORIES) requirements.
Proof.
  apply (certifies_cons (check_identity agent) _ _ [_; _] (drop 2 requirements)); [done|apply certifies_identity|].
  apply (certifies_cons (check_streaming agent) _ _ [_] (drop 3 requirements)); [done|apply certifies_streaming|].
  apply (certifies_cons (check_errors agent) _ _ [_; _; _] (drop 6 requirements)); [done|apply certifies_errors|].
  apply (certifies_cons (check_versioning agent) _ _ [_; _] (drop 8 requirements)); [done|apply certifies_versioning|].
  apply (certifies_cons (check_batch agent) _ _ [_; _] (drop 10 requirements)); [done|apply certifies_batch|].
  apply (certifies_last (check_audit agent)); [done|apply certifies_audit].
Qed.

Lemma count_passed_le l : (count_passed l ≤ length l)%nat.
Proof. unfold count_passed. induction l as [|c l IH]; cbn; [done|]. destruct (ck_passed c); cbn; lia. Qed.
Lemma count_passed_all l : count_passed l = length l ↔ all_passed l.
Proof.
  unfold all_passed. induction l as [|c l IH]; [done|]. rewrite Forall_cons, <- IH. unfold count_passed in *. cbn.
  destruct (ck_passed c); cbn; [split; [intros [= ->]; done|by intros [_ ->]]|].
  pose proof (count_passed_le l) as Hl. unfold count_passed in Hl. split; [lia|by intros []].
Qed.

Lemma score_bounds l : (0 <= score_of l)%Q ∧ (score_of l <= 1)%Q ∧ ((score_of l == 1)%Q ↔ l ≠ [] ∧ all_passed l).
Proof.
  rewrite <- count_passed_all. pose proof (count_passed_le l) as Hl. unfold score_of. destruct l as [|c l']; [split_and!; [done..|]|].
  { split; [intros E; discriminate E|by intros []]. }
  set (l := c :: l') in *. assert (Hn : (0 < length l)%nat) by (cbn; lia). clearbody l.
  unfold Qle, Qeq, Qdiv, Qmult, Qinv, inject_Z.
  destruct (Z.of_nat (length l)) as [|n|n] eqn:En; [lia| |lia]. cbn. rewrite !Z.mul_1_r.
  split_and!; [lia..|]. split.
  - intros E. split; [by destruct l|lia].
  - intros [_ E]. lia.
Qed.

(** A report on all categories has the full score exactly when the agent, asked in
    this order and nothing else, answered every request of the list as it must:
    unknown methods, broken JSON and unsupported versions with their error codes, a
    batch with as many answers, and so on.  The score is always between zero and
    one, and a report without checks never has the full score. *)
Theorem full_score_certifies seen :
  let '(seen', report) := run_compliance_harness_with_client agent percent None seen in
  seen' = (seen ++ map fst requirements)%list
  ∧ (0 <= cp_score report)%Q ∧ (cp_score report <= 1)%Q
  ∧ ((cp_score report == 1)%Q ↔ satisfied seen requirements).
Proof.
  unfold run_compliance_harness_with_client, bind, ret. destruct (certifies_all seen) as (H1 & H2 & H3).
  destruct (run_checks agent ALL_CATEGORIES seen) as [seen' l]. cbn [fst snd cp_score] in *.
  destruct (score_bounds l) as (H4 & H5 & H6). split_and!; [done..|]. rewrite H6, <- H2. tauto.
Qed.

(** An agent that redirects is not followed: the harness stops after one request. *)
Lemma redirects_are_not_followed seen a categories :
  agent seen preflight_probe = Answers a → 300 ≤ an_status a < 400 →
  run_compliance_harness_v2_from_url agent percent categories seen
  = ((seen ++ [preflight_probe])%list, Raise (RedirectError (an_status a))).
Proof.
  intros Ha Hs. unfold run_compliance_harness_v2_from_url, bind, ask, ret. rewrite Ha.
  by rewrite (proj2 (Z.leb_le _ _)), (proj2 (Z.ltb_lt _ _)) by lia.
Qed.
End Facts.
End Harness.

(** ** Examples *)
Section HarnessExamples.
Import Harness.
#[local] Instance harness_runtime : PyRuntime := {| float_repr _ := "0.0"; float_of_str _ := None |}.

(** An agent that has no audit log passes the check named after its existence, and a
    plain reply passes for a stream. *)
Lemma missing_audit_passes :
  map ck_passed (check_audit (λ _ _, Answers (mkAnswer 404 [] (Raise "no JSON"))) []).2 = [true]
  ∧ map ck_passed (check_streaming (λ _ _, Answers (mkAnswer 200 [("content-type", "text/html")] (Raise "no JSON"))) []).2 = [true].
Proof. vm_compute. done. Qed.

(** A redirect makes the command end with an exception instead of an exit code. *)
Lemma redirect_has_no_exit_code :
  compliance_check true (run_compliance_harness_v2_from_url (λ _ _, Answers (mkAnswer 302 [] (Raise ""))) (λ _, "") None []).2 = None.
Proof. reflexivity. Qed.
End HarnessExamples.
