(* ===== verification/Compliance.v ===== *)
(** * Validators of the compliance suite

    `src/asap-compliance/asap_compliance/validators/`: `schema.py`, `state.py`,
    `sla.py` and `handshake.py`, the checks of an agent from outside.

    What the agent answers is an input: the error of the request, or a status, a
    content type and the body as JSON.  `Envelope.model_validate`,
    `HealthStatus.model_validate` and `packaging.Version` are parameters, and so are
    the texts of validation errors and of numbers in messages.  An exception a
    validator does not catch is its result. *)

From Stdlib Require Import ZArith QArith Lia Ascii String.
From stdpp Require Import base tactics list gmap strings.
From S2P Require Import Prelude PyValue TaskMachine Identity Errors EnvelopeGuard Digest Handlers JsonRpc Signing Discovery Market AutoRegistration Fields Payloads.
Open Scope string_scope.
Open Scope Z_scope.
Open Scope asap_scope.

Module Compliance.

Record CheckResult : Type := mkCheck { ck_name : string; ck_passed : bool; ck_message : string }.
Definition passed_all (l : list CheckResult) : bool := forallb ck_passed l.

(** ** `schema.py` *)
Section Schema.
  Context `{Coercions}.

(** The name of a class with the class. *)
Definition named : Type := string * payload_class.
Definition TaskRequest_ : named := ("TaskRequest", PayloadClass task_request PTaskRequest).
Definition TaskResponse_ : named := ("TaskResponse", PayloadClass task_response PTaskResponse).
Definition TaskUpdate_ : named := ("TaskUpdate", PayloadClass task_update PTaskUpdate).
Definition TaskCancel_ : named := ("TaskCancel", PayloadClass task_cancel PTaskCancel).
Definition MessageSend_ : named := ("MessageSend", PayloadClass message_send PMessageSend).
Definition StateQuery_ : named := ("StateQuery", PayloadClass state_query PStateQuery).
Definition StateRestore_ : named := ("StateRestore", PayloadClass state_restore PStateRestore).
Definition ArtifactNotify_ : named := ("ArtifactNotify", PayloadClass artifact_notify PArtifactNotify).
Definition McpToolCall_ : named := ("McpToolCall", PayloadClass mcp_tool_call PMcpToolCall).
Definition McpToolResult_ : named := ("McpToolResult", PayloadClass mcp_tool_result PMcpToolResult).
Definition McpResourceFetch_ : named := ("McpResourceFetch", PayloadClass mcp_resource_fetch PMcpResourceFetch).
Definition McpResourceData_ : named := ("McpResourceData", PayloadClass mcp_resource_data PMcpResourceData).
Definition MessageAck_ : named := ("MessageAck", PayloadClass message_ack PMessageAck).

Definition PAYLOAD_TYPE_TO_MODEL : list (string * named) :=
  [("taskrequest", TaskRequest_); ("task.request", TaskRequest_);
   ("task_response", TaskResponse_); ("taskresponse", TaskResponse_); ("task.response", TaskResponse_);
   ("task_update", TaskUpdate_); ("taskupdate", TaskUpdate_); ("task.update", TaskUpdate_);
   ("task_cancel", TaskCancel_); ("taskcancel", TaskCancel_); ("task.cancel", TaskCancel_);
   ("message_send", MessageSend_); ("messagesend", MessageSend_); ("message.send", MessageSend_);
   ("state_query", StateQuery_); ("statequery", StateQuery_); ("state.query", StateQuery_);
   ("state_restore", StateRestore_); ("staterestore", StateRestore_); ("state.restore", StateRestore_);
   ("artifact_notify", ArtifactNotify_); ("artifactnotify", ArtifactNotify_); ("artifact.notify", ArtifactNotify_);
   ("mcp_tool_call", McpToolCall_); ("mcptoolcall", McpToolCall_); ("mcp.tool_call", McpToolCall_);
   ("mcp_tool_result", McpToolResult_); ("mcptoolresult", McpToolResult_); ("mcp.tool_result", McpToolResult_);
   ("mcp_resource_fetch", McpResourceFetch_); ("mcpresourcefetch", McpResourceFetch_); ("mcp.resource_fetch", McpResourceFetch_);
   ("mcp_resource_data", McpResourceData_); ("mcpresourcedata", McpResourceData_); ("mcp.resource_data", McpResourceData_);
   ("message_ack", MessageAck_); ("messageack", MessageAck_); ("message.ack", MessageAck_)].

(** `.replace(".", "_").replace("-", "_")` *)
Fixpoint underscored (s : string) : string :=
  match s with
  | EmptyString => EmptyString
  | String c s' => String (if Ascii.eqb c "." || Ascii.eqb c "-" then "_" else c)%char (underscored s')
  end.
(** `re.sub(r"_+", "_", s)`; [after]: the character before was an underscore *)
Fixpoint collapsed (after : bool) (s : string) : string :=
  match s with
  | EmptyString => EmptyString
  | String c s' =>
      if Ascii.eqb c "_" then if after then collapsed true s' else String c (collapsed true s')
      else String c (collapsed false s')
  end.
(** `.strip("_")` *)
Fixpoint lstrip_underscores (s : string) : string :=
  match s with String c s' => if Ascii.eqb c "_" then lstrip_underscores s' else s | EmptyString => s end.
Fixpoint rstrip_underscores (s : string) : string :=
  match s with
  | EmptyString => EmptyString
  | String c s' =>
      match rstrip_underscores s' with
      | EmptyString => if Ascii.eqb c "_" then EmptyString else String c EmptyString
      | r => String c r
      end
  end.
Definition _normalize_payload_type (payload_type : string) : string :=
  rstrip_underscores (lstrip_underscores (collapsed false (underscored (PyStr.lower payload_type)))).

(** A later key replaces an earlier one. *)
Definition _NORMALIZED_LOOKUP : list (string * named) :=
  fold_left (λ d kv, PyDict.set (_normalize_payload_type kv.1) kv.2 d) PAYLOAD_TYPE_TO_MODEL [].

Definition _get_payload_model (payload_type : string) : option named :=
  match assoc payload_type PAYLOAD_TYPE_TO_MODEL with
  | Some model => Some model
  | None => assoc (_normalize_payload_type payload_type) _NORMALIZED_LOOKUP
  end.

(** [validate]: `Envelope.model_validate`; [err_text]: the text of a validation error;
    [sorted_text]: that of the sorted list of missing fields *)
Context (validate : obj → res model_failure unit) (err_text : model_failure → string) (sorted_text : list string → string).

Definition required_fields : list string := ["asap_version"; "sender"; "recipient"; "payload_type"; "payload"].

Definition validate_envelope (data : obj) : res model_failure (bool * list CheckResult) :=
  match List.filter (λ k, negb (is_some (assoc k data))) required_fields with
  | _ :: _ as missing =>
      Ret (false, [mkCheck "envelope_required_fields" false ("Missing required fields: " ++ sorted_text missing)])
  | [] =>
      let found := mkCheck "envelope_required_fields" true "All required fields present" in
      match assoc "payload" data with
      | Some (JObj _) =>
          match validate data with
          | Ret _ => Ret (true, [found; mkCheck "envelope_schema" true "Envelope valid"])
          | Raise (Invalid loc) => Ret (false, [found; mkCheck "envelope_schema" false ("Invalid envelope: " ++ err_text (Invalid loc))])
          | Raise e => Raise e
          end
      | _ => Ret (false, [found; mkCheck "envelope_payload_type" false "payload must be a dict"])
      end
  end.

Definition validate_payload (payload : obj) (payload_type : string) : res model_failure (bool * list CheckResult) :=
  match _get_payload_model payload_type with
  | None => Ret (false, [mkCheck "payload_type_known" false ("Unknown payload_type: " ++ payload_type)])
  | Some (name, model) =>
      let known := mkCheck "payload_type_known" true ("payload_type " ++ payload_type ++ " maps to " ++ name) in
      match class_validate model payload with
      | Ret _ => Ret (true, [known; mkCheck "payload_schema" true (name ++ " schema valid")])
      | Raise (Invalid loc) => Ret (false, [known; mkCheck "payload_schema" false ("Invalid " ++ name ++ ": " ++ err_text (Invalid loc))])
      | Raise e => Raise e
      end
  end.

Definition validate_extensions_passed_through (data : obj) : res model_failure (list CheckResult) :=
  match assoc "extensions" data with
  | None => Ret [mkCheck "extensions_optional" true "extensions is optional"]
  | Some _ =>
      match validate data with
      | Ret _ => Ret [mkCheck "extensions_passed_through" true "extensions accepted"]
      | Raise (Invalid loc) => Ret [mkCheck "extensions_passed_through" false ("extensions rejected: " ++ err_text (Invalid loc))]
      | Raise e => Raise e
      end
  end.

Definition validate_unknown_fields_rejected (payload : obj) (payload_type : string) : res model_failure (list CheckResult) :=
  match _get_payload_model payload_type with
  | None => Ret [mkCheck "unknown_fields_rejected" false ("Cannot test: unknown payload_type " ++ payload_type)]
  | Some (_, model) =>
      match class_validate model (PyDict.set "_unknown_field_compliance_test" (JStr "x") payload) with
      | Ret _ => Ret [mkCheck "unknown_fields_rejected" false "Expected extra fields to be rejected (extra='forbid')"]
      | Raise (Invalid _) => Ret [mkCheck "unknown_fields_rejected" true "Unknown fields correctly rejected"]
      | Raise e => Raise e
      end
  end.

Record SchemaResult : Type := mkSchemaResult { sx_envelope_ok : bool; sx_payload_ok : bool; sx_checks : list CheckResult }.
Definition schema_passed (r : SchemaResult) : bool := sx_envelope_ok r && sx_payload_ok r.

(** An envelope that is valid has a text for its type and a dictionary for its payload. *)
Definition validate_schema (data : obj) : res model_failure SchemaResult :=
  let! env := validate_envelope data in
  let! pld := match env.1, assoc "payload_type" data, assoc "payload" data with
              | true, Some (JStr payload_type), Some (JObj payload) =>
                  let! p := validate_payload payload payload_type in
                  if p.1 then
                    let! extra := validate_unknown_fields_rejected payload payload_type in
                    Ret (true, (p.2 ++ extra)%list)
                  else Ret p
              | _, _, _ => Ret (false, [])
              end in
  let! ext := validate_extensions_passed_through data in
  Ret (mkSchemaResult env.1 pld.1 (env.2 ++ pld.2 ++ ext)%list).
End Schema.

(** *** The suite and the library *)
Section SchemaFacts.
  Context `{Coercions}.

Lemma keep_underscored s : keep_alnum (underscored s) = keep_alnum s.
Proof.
  induction s as [|c s IH]; [done|]. cbn [underscored keep_alnum]. rewrite IH.
  destruct (Ascii.eqb_spec c ".") as [->|]; [done|]. destruct (Ascii.eqb_spec c "-") as [->|]; done.
Qed.
Lemma keep_collapsed b s : keep_alnum (collapsed b s) = keep_alnum s.
Proof.
  revert b. induction s as [|c s IH]; intros b; [done|]. cbn [collapsed keep_alnum].
  destruct (Ascii.eqb_spec c "_") as [->|]; [destruct b; cbn [keep_alnum]|cbn [keep_alnum]]; by rewrite IH.
Qed.
Lemma keep_lstrip s : keep_alnum (lstrip_underscores s) = keep_alnum s.
Proof.
  induction s as [|c s IH]; [done|]. cbn [lstrip_underscores]. destruct (Ascii.eqb_spec c "_") as [->|]; [|done]. by rewrite IH.
Qed.
Lemma keep_rstrip s : keep_alnum (rstrip_underscores s) = keep_alnum s.
Proof.
  induction s as [|c s IH]; [done|]. cbn [rstrip_underscores keep_alnum]. rewrite <- IH.
  destruct (rstrip_underscores s) as [|d r]; [|done]. by destruct (Ascii.eqb_spec c "_") as [->|].
Qed.
Lemma keep_normalized pt : keep_alnum (_normalize_payload_type pt) = JsonRpc._normalize_payload_type pt.
Proof. unfold _normalize_payload_type. by rewrite keep_rstrip, keep_lstrip, keep_collapsed, keep_underscored. Qed.

Definition library_class (k : string) : option payload_class := assoc k PAYLOAD_TYPE_REGISTRY.

Lemma direct_agrees : Forall (λ kv, library_class (JsonRpc._normalize_payload_type kv.1) = Some kv.2.2) PAYLOAD_TYPE_TO_MODEL.
Proof. repeat constructor. Qed.
Lemma normalized_agrees : Forall (λ kv, library_class (keep_alnum kv.1) = Some kv.2.2) _NORMALIZED_LOOKUP.
Proof.
  unfold _NORMALIZED_LOOKUP. generalize (Forall_nil_2 (λ kv : string * named, library_class (keep_alnum kv.1) = Some kv.2.2)).
  generalize (@nil (string * named)). induction direct_agrees as [|[k m] l Hm _ IH]; intros d Hd; [done|].
  cbn [fold_left]. apply IH. apply Forall_dict_set; [|done]. cbn [fst snd] in *. by rewrite keep_normalized.
Qed.

Lemma assoc_Forall {A} (P : string * A → Prop) k v d : Forall P d → assoc k d = Some v → P (k, v).
Proof.
  induction 1 as [|[k' v'] d Hp _ IH]; [done|]. cbn. destruct (String.eqb_spec k k') as [->|]; [by intros [= ->]|done].
Qed.

(** Whatever class the suite finds for a type, the library reads the type with the
    same class. *)
Lemma suite_class_is_library_class pt m : _get_payload_model pt = Some m → library_class (JsonRpc._normalize_payload_type pt) = Some m.2.
Proof.
  unfold _get_payload_model. destruct (assoc pt PAYLOAD_TYPE_TO_MODEL) as [m'|] eqn:E.
  - intros [= <-]. exact (assoc_Forall _ _ _ _ direct_agrees E).
  - intros Hm. rewrite <- keep_normalized. exact (assoc_Forall _ _ _ _ normalized_agrees Hm).
Qed.

Context (validate : obj → res model_failure unit) (err_text : model_failure → string) (sorted_text : list string → string).

Lemma unknown_key_refused {A} (f : fields A) (wrap : A → PayloadType) d :
  str_in "_unknown_field_compliance_test" (keys f) = false →
  ∃ loc, class_validate (PayloadClass f wrap) (PyDict.set "_unknown_field_compliance_test" (JStr "x") d) = Raise (Invalid loc).
Proof.
  intros Hk. cbn. unfold model_validate, no_extra.
  destruct (List.find _ _) as [[k j]|] eqn:E; [cbn; eauto|].
  exfalso. set (u := "_unknown_field_compliance_test") in *.
  assert (Hin : List.In (u, JStr "x") (PyDict.set u (JStr "x") d)).
  { apply list_elem_of_In. apply PyDict.get_Some_elem. apply PyDict.get_set_eq. }
  apply (List.find_none _ _ E) in Hin. cbn in Hin. by rewrite Hk in Hin.
Qed.

Definition closed_class (m : named) : Prop :=
  match m.2 with PayloadClass f _ => str_in "_unknown_field_compliance_test" (keys f) = false end.

Lemma models_are_closed : Forall (λ kv, closed_class kv.2) PAYLOAD_TYPE_TO_MODEL.
Proof. repeat constructor. Qed.
Lemma lookup_is_closed : Forall (λ kv, closed_class kv.2) _NORMALIZED_LOOKUP.
Proof.
  unfold _NORMALIZED_LOOKUP. generalize (Forall_nil_2 (λ kv : string * named, closed_class kv.2)).
  generalize (@nil (string * named)). induction models_are_closed as [|[k m] l Hm _ IH]; intros d Hd; [done|].
  cbn [fold_left]. apply IH. by apply Forall_dict_set.
Qed.
Lemma found_is_closed pt m : _get_payload_model pt = Some m → closed_class m.
Proof.
  unfold _get_payload_model. destruct (assoc pt PAYLOAD_TYPE_TO_MODEL) as [m'|] eqn:E.
  - intros [= <-]. exact (assoc_Forall _ _ _ _ models_are_closed E).
  - exact (assoc_Forall _ _ _ _ lookup_is_closed).
Qed.

Lemma unknown_fields_check payload pt m :
  _get_payload_model pt = Some m →
  validate_unknown_fields_rejected payload pt = Ret [mkCheck "unknown_fields_rejected" true "Unknown fields correctly rejected"].
Proof.
  intros Hm. unfold validate_unknown_fields_rejected. rewrite Hm. apply found_is_closed in Hm.
  destruct m as [n [A f wrap]]. cbn [closed_class snd] in Hm.
  destruct (unknown_key_refused f wrap payload Hm) as [loc ->]. done.
Qed.

(** A message that the suite passes is one the library accepts: its envelope is
    valid, its payload has a type that the library knows, the library reads it with
    the same class, and no single check has failed behind the verdict. *)
Theorem schema_verdict_is_sound data r :
  validate_schema validate err_text sorted_text data = Ret r → schema_passed r = true →
  passed_all (sx_checks r) = true ∧ (∃ u, validate data = Ret u)
  ∧ ∃ pt d p, assoc "payload_type" data = Some (JStr pt) ∧ assoc "payload" data = Some (JObj d)
              ∧ _parse_payload pt d = Ret (Typed p).
Proof.
  unfold validate_schema. destruct (validate_envelope _ _ _ data) as [e|[ok env]] eqn:He; [done|]. cbn [rbind fst snd].
  intros Hr Hp.
  assert (Hv : ok = true → passed_all env = true ∧ (∃ u, validate data = Ret u)).
  { intros ->. revert He. unfold validate_envelope. destruct (List.filter _ _); [|done].
    destruct (assoc "payload" data) as [[]|]; try done. destruct (validate data) as [[loc|x]|u]; try done.
    intros [= <-]. split; [done|eauto]. }
  destruct ok; [|destruct (validate_extensions_passed_through _ _ data); [done|]; injection Hr as <-; done].
  destruct (Hv eq_refl) as [Henv [u Hu]]. clear Hv.
  destruct (assoc "payload_type" data) as [[| | | |pt| |]|] eqn:Ht;
    try (destruct (validate_extensions_passed_through _ _ data); [done|]; injection Hr as <-; done).
  destruct (assoc "payload" data) as [[| | | | | |d]|] eqn:Hd;
    try (destruct (validate_extensions_passed_through _ _ data); [done|]; injection Hr as <-; done).
  unfold validate_payload in Hr. destruct (_get_payload_model pt) as [[n cls]|] eqn:Hm; cbn [rbind fst snd] in Hr;
    [|destruct (validate_extensions_passed_through _ _ data); [done|]; injection Hr as <-; done].
  pose proof (suite_class_is_library_class _ _ Hm) as Hl. rewrite (unknown_fields_check d pt _ Hm) in Hr.
  destruct (class_validate cls d) as [[loc|x]|p] eqn:Hc; cbn [rbind fst snd] in Hr; [|done|];
    unfold validate_extensions_passed_through in Hr; rewrite Hu in Hr;
    destruct (assoc "extensions" data); injection Hr as <-; try done;
    (split_and!; [|eauto|exists pt, d, p; split_and!; [done..|]; unfold _parse_payload; unfold library_class in Hl;
       rewrite Hl; cbn [snd]; by rewrite Hc]);
    unfold passed_all in *; cbn [sx_checks]; rewrite !forallb_app, Henv; done.
Qed.
End SchemaFacts.

Section SchemaExamples.
Import StrictCoercions.

(** The suite has no entry for streamed chunks, which the library knows. *)
Lemma stream_is_unknown_to_suite :
  map (λ pt, is_some (_get_payload_model pt)) ["TaskStream"; "task.stream"; "task_stream"] = [false; false; false]
  ∧ _parse_payload "TaskStream" [] = Ret (Typed (PTaskStream (mkTaskStream "" None false None))).
Proof. vm_compute. done. Qed.

(** Spellings that the suite finds and those that only the library knows. *)
Example spellings :
  map (λ pt, is_some (_get_payload_model pt)) ["TaskRequest"; "Task-Request"; "task request"; "__task..request"; "task_request"]
  = [true; true; false; true; true].
Proof. vm_compute. reflexivity. Qed.
End SchemaExamples.

(** ** `state.py` and `sla.py` *)
Inductive http : Type :=
| RequestErr (e : string)                                  (* `httpx.RequestError` *)
| Reply (status : Z) (content_type : string) (body : res string json).

Record ComplianceConfig : Type := mkConfig {
  cg_agent_url : string;
  cg_timeout_seconds : Q;
  cg_sla_skill_id : string;
  cg_skip_checks : list string
}.

Definition _asap_url (config : ComplianceConfig) : string := PyStr.rstrip_char "/" (cg_agent_url config) ++ "/asap".

(** [conversation_id], [what]: the constants in which the two modules differ *)
Definition _build_task_request_envelope `{Coercions} (conversation_id what : string) (config : ComplianceConfig) : obj :=
  [("asap_version", JStr "0.1"); ("sender", JStr "urn:asap:agent:compliance-harness");
   ("recipient", JStr "urn:asap:agent:under-test"); ("payload_type", JStr "task.request");
   ("payload", JObj (dump task_request (mkTaskRequest conversation_id None (cg_sla_skill_id config) [("compliance", JStr what)] None)))].

(** [key], [id]: two generated ids *)
Definition _build_jsonrpc_request (key id : string) (envelope : obj) : obj :=
  [("jsonrpc", JStr "2.0"); ("method", JStr "asap.send");
   ("params", JObj [("envelope", JObj envelope); ("idempotency_key", JStr key)]); ("id", JStr ("req-" ++ id))].

Definition _PROTOCOL_VALID_TRANSITIONS : list (string * list string) :=
  [("submitted", ["working"; "cancelled"]);
   ("working", ["completed"; "failed"; "cancelled"; "input_required"]);
   ("input_required", ["working"; "cancelled"]);
   ("completed", []); ("failed", []); ("cancelled", [])].
Definition _PROTOCOL_TERMINAL_STATES : list string := ["completed"; "failed"; "cancelled"].

Definition no_attribute (j : json) (name : string) : pyexn :=
  AttributeError ("'" ++ type_name j ++ "' object has no attribute '" ++ name ++ "'").

Section Task.
  Context `{Coercions, PyRuntime} (secs : Q → string).

Definition _parse_task_response (response_body : json) : res pyexn (option TaskResponse) :=
  match response_body with
  | JObj body =>
      match assoc "result" body with
      | Some (JObj result) =>
          match assoc "envelope" result with
          | Some (JObj envelope) =>
              match default (JStr "") (assoc "payload_type" envelope) with
              | JStr pt =>
                  if negb (str_in (PyStr.lower pt) ["task.response"; "taskresponse"]) then Ret None
                  else match assoc "payload" envelope with
                       | Some (JObj payload) =>
                           match model_validate task_response payload with Ret r => Ret (Some r) | Raise _ => Ret None end
                       | _ => Ret None
                       end
              | j => Raise (no_attribute j "lower")
              end
          | _ => Ret None
          end
      | _ => Ret None
      end
  | j => Raise (no_attribute j "get")
  end.

(** `error_info.get("message", str(data)) if isinstance(error_info, dict) else str(data)` *)
Definition error_info (data : json) : string :=
  match data with
  | JObj d =>
      match default (JObj []) (assoc "error" d) with
      | JObj e => match assoc "message" e with Some m => py_str float_repr m | None => py_str float_repr data end
      | _ => py_str float_repr data
      end
  | _ => ""
  end.

(** The part both modules share: the answer to one task request, or the check that failed.
    [unreachable] names the check of a failed request, [bad_reply] that of a bad status or
    body, [no_task] that of an answer without a task. *)
Definition read_task (unreachable bad_reply no_task : string) (o : http) : res pyexn (CheckResult + TaskResponse) :=
  match o with
  | RequestErr e => Ret (inl (mkCheck unreachable false ("Request failed: " ++ e)))
  | Reply status _ body =>
      if negb (status =? 200) then Ret (inl (mkCheck bad_reply false ("ASAP endpoint returned " ++ PyStr.dec_Z status)))
      else match body with
           | Raise e => Ret (inl (mkCheck bad_reply false ("Invalid JSON response: " ++ e)))
           | Ret data =>
               let! task_response := _parse_task_response data in
               Ret match task_response with
                   | None => inl (mkCheck no_task false ("No TaskResponse in response: " ++ error_info data))
                   | Some r => inr r
                   end
           end
  end.

Definition _check_agent_state_compliance (o : http) : res pyexn (list CheckResult) :=
  let! r := read_task "state_agent_reachable" "state_agent_response" "state_task_response" o in
  match r with
  | inl c => Ret [c]
  | inr task_response =>
      let status_val := status_value (tp_status task_response) in
      let terminal_ok := str_in status_val _PROTOCOL_TERMINAL_STATES in
      Ret [mkCheck "state_terminal_status" terminal_ok
             (if terminal_ok then "TaskResponse status '" ++ status_val ++ "' is valid terminal"
              else "TaskResponse status '" ++ status_val ++ "' must be completed/failed/cancelled");
           mkCheck "state_observed_compliance" terminal_ok
             (if terminal_ok then "Agent returned valid terminal status (no invalid transitions observed)"
              else "Agent returned invalid status")]
  end.

Record StateResult : Type := mkStateResult { st_transitions_ok : bool; st_terminal_ok : bool; st_checks : list CheckResult }.
Definition state_passed (r : StateResult) : bool := st_transitions_ok r && st_terminal_ok r.

Definition validate_state_machine_async (o : http) : res pyexn StateResult :=
  let! agent_results := _check_agent_state_compliance o in
  Ret (mkStateResult (passed_all agent_results) (passed_all agent_results) agent_results).

(** [elapsed]: the duration of the request *)
Definition _check_task_completes_within_timeout (config : ComplianceConfig) (elapsed : Q) (o : http) : res pyexn (list CheckResult) :=
  let! r := read_task "sla_task_timeout" "sla_task_timeout" "sla_task_timeout" o in
  match r with
  | inl c => Ret [c]
  | inr task_response =>
      let within_timeout := Qle_bool elapsed (cg_timeout_seconds config) in
      let status_val := status_value (tp_status task_response) in
      let status_ok := str_in status_val ["completed"; "failed"; "cancelled"] in
      Ret [mkCheck "sla_task_timeout" within_timeout
             (if within_timeout then "Task completed in " ++ secs elapsed ++ "s (timeout=" ++ secs (cg_timeout_seconds config) ++ "s)"
              else "Task exceeded timeout: " ++ secs elapsed ++ "s > " ++ secs (cg_timeout_seconds config) ++ "s");
           mkCheck "sla_task_terminal_status" status_ok
             ((if status_ok then "Task reached terminal status: " else "Task status not terminal: ") ++ status_val)]
  end.

Definition progress_update : obj :=
  [("task_id", JStr "task_01HX5K4N0000000000000000"); ("update_type", JStr "progress"); ("status", JStr "working");
   ("progress", JObj [("percent", JInt 50); ("message", JStr "Processing..."); ("eta_seconds", JInt 10)])].

Definition _check_progress_schema : list CheckResult :=
  [match model_validate task_update progress_update with
   | Ret _ => mkCheck "sla_progress_schema" true "TaskUpdate progress schema valid"
   | Raise _ => mkCheck "sla_progress_schema" false "Invalid TaskUpdate schema"
   end].

Record SlaResult : Type := mkSlaResult { sl_timeout_ok : bool; sl_progress_schema_ok : bool; sl_checks : list CheckResult }.
Definition sla_passed (r : SlaResult) : bool := sl_timeout_ok r && sl_progress_schema_ok r.

Definition validate_sla_async (config : ComplianceConfig) (elapsed : Q) (o : http) : res pyexn SlaResult :=
  let progress_results := _check_progress_schema in
  let progress_schema_ok := passed_all progress_results in
  if str_in "sla" (cg_skip_checks config) then
    Ret (mkSlaResult true progress_schema_ok
           (progress_results ++ [mkCheck "sla_task_timeout" true "SLA timeout check skipped (skip_checks)"])%list)
  else
    let! timeout_results := _check_task_completes_within_timeout config elapsed o in
    Ret (mkSlaResult match List.find (λ r, String.eqb (ck_name r) "sla_task_timeout") timeout_results with
                     | Some c => ck_passed c | None => false end
           progress_schema_ok (progress_results ++ timeout_results)%list).
End Task.

(** *** What the verdicts mean *)
Lemma protocol_terminal s : str_in (status_value s) _PROTOCOL_TERMINAL_STATES = is_terminal s.
Proof. destruct s; vm_compute; reflexivity. Qed.

(** The table the suite writes down for itself is the one of the library. *)
Theorem suite_transitions_are_the_librarys s s' :
  str_in (status_value s') (default [] (assoc (status_value s) _PROTOCOL_VALID_TRANSITIONS)) = can_transition s s'
  ∧ str_in (status_value s) _PROTOCOL_TERMINAL_STATES = is_terminal s.
Proof. split; [destruct s, s'; vm_compute; reflexivity|apply protocol_terminal]. Qed.

Section TaskFacts.
  Context `{Coercions, PyRuntime} (secs : Q → string).

Definition finished (o : http) : Prop :=
  ∃ ct data r, o = Reply 200 ct (Ret data) ∧ _parse_task_response data = Ret (Some r) ∧ is_terminal (tp_status r) = true.

Lemma read_task_spec a b c o r : read_task a b c o = Ret (inr r) ↔ ∃ ct data, o = Reply 200 ct (Ret data) ∧ _parse_task_response data = Ret (Some r).
Proof.
  unfold read_task. destruct o as [e|status ct body]; [split; [done|by intros (? & ? & [=] & _)]|].
  destruct (Z.eqb_spec status 200) as [->|Hs]; cbn [negb]; [|split; [done|intros (? & ? & [= -> _ _] & _); done]].
  destruct body as [e|data]; [split; [done|by intros (? & ? & [=] & _)]|].
  destruct (_parse_task_response data) as [e|[r'|]] eqn:E; cbn [rbind]; split; try done.
  - intros (? & ? & [= <- <-] & Hp). congruence.
  - intros [= ->]. eauto.
  - intros (? & ? & [= <- <-] & Hp). congruence.
  - intros (? & ? & [= <- <-] & Hp). congruence.
Qed.

Lemma read_task_fails a b c o k : read_task a b c o = Ret (inl k) → ck_passed k = false ∧ (ck_name k = a ∨ ck_name k = b ∨ ck_name k = c).
Proof.
  unfold read_task. destruct o as [e|status ct body]; [intros [= <-]; auto|].
  destruct (negb (status =? 200)); [intros [= <-]; auto|]. destruct body as [e|data]; [intros [= <-]; auto|].
  destruct (_parse_task_response data) as [e|[r'|]]; cbn [rbind]; try done. intros [= <-]. auto.
Qed.

(** The state validator passes an agent exactly when it answered with a task that has
    ended. *)
Theorem state_verdict o r :
  validate_state_machine_async o = Ret r → state_passed r = true ↔ finished o.
Proof.
  unfold validate_state_machine_async, _check_agent_state_compliance, finished.
  destruct (read_task _ _ _ o) as [e|[k|t]] eqn:E; cbn [rbind]; [done| |].
  - pose proof (read_task_fails _ _ _ _ _ E) as [Hk _]. intros [= <-]. unfold state_passed. cbn. rewrite Hk. split; [done|].
    intros (ct & data & r' & Ho & Hp & _). assert (Hx := proj2 (read_task_spec "state_agent_reachable" "state_agent_response"
      "state_task_response" o r') (ex_intro _ ct (ex_intro _ data (conj Ho Hp)))). congruence.
  - apply read_task_spec in E as (ct & data & -> & Hp). intros [= <-]. unfold state_passed. cbn [st_transitions_ok st_terminal_ok passed_all forallb ck_passed].
    rewrite protocol_terminal. destruct (is_terminal (tp_status t)) eqn:Ht; cbn; split; try done; [eauto 10|].
    intros (? & ? & ? & [= <- <-] & Hp' & Ht'). congruence.
Qed.
End TaskFacts.

Section TaskExamples.
Import StrictCoercions.
#[local] Instance suite_runtime : PyRuntime := {| float_repr _ := "0.0"; float_of_str _ := None |}.

Definition task_reply (status : string) : http :=
  Reply 200 "application/json"
    (Ret (JObj [("result", JObj [("envelope", JObj [("payload_type", JStr "task.response");
                                                   ("payload", JObj [("task_id", JStr "t"); ("status", JStr status)])])])])).
Definition suite_config : ComplianceConfig := mkConfig "https://a.example" 30 "echo" [].

(** The verdict on service levels does not look at the check of the final status. *)
Lemma unfinished_task_passes_sla :
  match validate_sla_async (λ _, "") suite_config 1 (task_reply "working") with
  | Ret r => sla_passed r = true ∧ passed_all (sl_checks r) = false
  | Raise _ => False
  end.
Proof. vm_compute. done. Qed.

(** An answer that is a list, as to a batch, or a payload type that is no text, ends the
    validator with an exception instead of a failed check. *)
Lemma list_answer_kills_suite :
  validate_state_machine_async (Reply 200 "application/json" (Ret (JList [])))
  = Raise (AttributeError "'list' object has no attribute 'get'").
Proof. reflexivity. Qed.
End TaskExamples.

(** ** `handshake.py` *)
Section Handshake.
  Context {M : Type} `{Crypto M, ManifestModels M} (view : M → manifest_view).
  (** `urljoin`; `HealthStatus.model_validate`; `Version(a) < Version(b)` and whether `Version(a)` exists *)
  Context (urljoin : string → string → string) (health : json → res string unit).
  Context (version_lt : string → string → bool + string) (version_error : string → option string).

Definition CONTENT_TYPE_JSON : string := "application/json".
Definition _base_url (config : ComplianceConfig) : string := PyStr.rstrip_char "/" (cg_agent_url config).
Definition _health_url (config : ComplianceConfig) : string := urljoin (_base_url config ++ "/") ".well-known/asap/health".
Definition _manifest_url (config : ComplianceConfig) : string := urljoin (_base_url config ++ "/") ".well-known/asap/manifest.json".

Definition content_type_check (name content_type : string) : CheckResult :=
  if PyStr.contains content_type CONTENT_TYPE_JSON then mkCheck name true "Content-Type is application/json"
  else mkCheck name false ("Content-Type is '" ++ content_type ++ "', expected application/json").

(** `response.json()` stands inside the `try`, but only `ValidationError` is caught. *)
Definition _check_connection (o : http) : res exn (list CheckResult) :=
  match o with
  | RequestErr e => Ret [mkCheck "health_reachable" false ("Health endpoint unreachable: " ++ e)]
  | Reply status content_type body =>
      let status_check := if status =? 200 then mkCheck "health_status" true "Health returned 200"
                          else mkCheck "health_status" false ("Health returned " ++ PyStr.dec_Z status ++ ", expected 200") in
      match body with
      | Raise e => Raise (XOther "JSONDecodeError" e)
      | Ret data =>
          Ret [status_check; content_type_check "health_content_type" content_type;
               match health data with
               | Ret _ => mkCheck "health_schema" true "Health schema valid"
               | Raise e => mkCheck "health_schema" false ("Invalid health schema: " ++ e)
               end]
      end
  end.

(** `validate_signed_manifest_response` on any JSON: `in` works on a list and on a text
    too, and on nothing else. *)
Definition manifest_of (data : json) : res exn M :=
  match data with
  | JObj d => validate_signed_manifest_response d true
  | JList _ | JStr _ =>
      let mem k := match data with
                   | JList l => existsb (λ x, py_eq (JStr k) x) l
                   | JStr s => PyStr.contains s k
                   | _ => false end in
      if mem "manifest" && mem "signature" then
        match md_signed data with
        | Raise e => Raise (manifest_validation_error ("Invalid signed manifest schema: " ++ e))
        | Ret signed => let! _ := verify_manifest signed None in Ret (sm_manifest signed)
        end
      else validate_manifest_schema data
  | _ => Raise (XOther "TypeError" ("argument of type '" ++ type_name data ++ "' is not iterable"))
  end.

Definition _check_manifest (o : http) : res exn (list CheckResult * option M) :=
  match o with
  | RequestErr e => Ret ([mkCheck "manifest_reachable" false ("Manifest endpoint unreachable: " ++ e)], None)
  | Reply status content_type body =>
      if negb (status =? 200) then
        Ret ([mkCheck "manifest_status" false ("Manifest returned " ++ PyStr.dec_Z status ++ ", expected 200")], None)
      else
        let ok := mkCheck "manifest_status" true "Manifest returned 200" in
        if negb (PyStr.contains content_type CONTENT_TYPE_JSON) then
          Ret ([ok; content_type_check "manifest_content_type" content_type], None)
        else
          match body with
          | Raise e => Ret ([ok; mkCheck "manifest_json" false ("Invalid JSON: " ++ e)], None)
          | Ret data =>
              match manifest_of data with
              | Ret m =>
                  Ret ([ok; mkCheck "manifest_schema" true "Manifest schema valid";
                        mkCheck "manifest_signature" true "Signature valid (or unsigned manifest accepted)";
                        mkCheck "manifest_parsed" true ("Manifest id=" ++ mv_id (view m))], Some m)
              | Raise x =>
                  if is_manifest_error x then
                    Ret ([ok; mkCheck "manifest_schema" false ("Invalid manifest schema: " ++ exn_text x)], None)
                  else if is_signature_error x then
                    Ret ([ok; mkCheck "manifest_signature" false ("Signature verification failed: " ++ exn_text x)], None)
                  else Raise x
              end
          end
  end.

Definition _check_version (manifest : option M) : res exn (list CheckResult) :=
  match manifest with
  | None => Ret [mkCheck "version_reported" false "Cannot check version: manifest not available"]
  | Some m =>
      let asap_version := mv_asap_version (view m) in
      let reported := mkCheck "version_reported" true ("Agent reports asap_version=" ++ asap_version) in
      let format := match version_error asap_version with
                    | None => mkCheck "version_format" true "Version format valid (PEP 440)"
                    | Some e => mkCheck "version_format" false ("Invalid version format: " ++ e)
                    end in
      match check_version_compatibility version_lt "0.1" (view m) (Some "0.1") with
      | Ret _ => Ret [reported; mkCheck "version_compatible" true ("Version " ++ asap_version ++ " >= 0.1"); format]
      | Raise x => if is_manifest_error x then Ret [reported; mkCheck "version_compatible" false (exn_text x); format] else Raise x
      end
  end.

Record HandshakeResult : Type := mkHandshake {
  hk_connection_ok : bool;
  hk_manifest_ok : bool;
  hk_version_ok : bool;
  hk_checks : list CheckResult
}.
Definition handshake_passed (r : HandshakeResult) : bool := hk_connection_ok r && hk_manifest_ok r && hk_version_ok r.

(** [get]: what the agent answers under a URL *)
Definition validate_handshake_async (get : string → http) (config : ComplianceConfig) : res exn HandshakeResult :=
  let! conn_results := _check_connection (get (_health_url config)) in
  let! manifest := _check_manifest (get (_manifest_url config)) in
  let! version_results := _check_version manifest.2 in
  Ret (mkHandshake (passed_all conn_results) (passed_all manifest.1) (passed_all version_results)
         (conn_results ++ manifest.1 ++ version_results)%list).

(** A handshake passes exactly when the agent is healthy in a form that the client
    reads, its manifest is one that the discovery of the library accepts (signed
    properly, if it is signed), and its protocol version is one that is understood
    and not too old; and then no single check has failed. *)
Theorem handshake_verdict get config r :
  validate_handshake_async get config = Ret r →
  (handshake_passed r = true ↔ passed_all (hk_checks r) = true)
  ∧ (handshake_passed r = true →
     ∃ ct j ct' j' m, get (_health_url config) = Reply 200 ct (Ret j) ∧ (∃ u, health j = Ret u)
       ∧ get (_manifest_url config) = Reply 200 ct' (Ret j') ∧ manifest_of j' = Ret m
       ∧ version_lt (mv_asap_version (view m)) "0.1" = inl false ∧ version_error (mv_asap_version (view m)) = None).
Proof.
  unfold validate_handshake_async. destruct (_check_connection _) as [e|conn] eqn:Ec; cbn [rbind]; [done|].
  destruct (_check_manifest _) as [e|[ml m]] eqn:Em; cbn [rbind fst snd]; [done|].
  destruct (_check_version m) as [e|vl] eqn:Ev; cbn [rbind]; [done|]. intros [= <-].
  unfold handshake_passed. cbn [hk_connection_ok hk_manifest_ok hk_version_ok hk_checks].
  split. { unfold passed_all. rewrite !forallb_app, !andb_true_iff. tauto. }
  rewrite !andb_true_iff. intros [[Hc Hm] Hv].
  assert (Hconn : ∃ ct j, get (_health_url config) = Reply 200 ct (Ret j) ∧ ∃ u, health j = Ret u).
  { revert Ec. unfold _check_connection. destruct (get (_health_url config)) as [e|status ct [e|j]]; try done; intros [= <-]; [done|].
    revert Hc. cbn [passed_all forallb]. destruct (Z.eqb_spec status 200) as [->|]; [|done].
    destruct (health j) as [e|u] eqn:Eh; [cbn; by rewrite !andb_false_r|]. eauto. }
  destruct Hconn as (ct & j & Hg & Hh).
  destruct m as [m|]; [|injection Ev as <-; done].
  assert (Hman : ∃ ct' j', get (_manifest_url config) = Reply 200 ct' (Ret j') ∧ manifest_of j' = Ret m).
  { revert Em. unfold _check_manifest. destruct (get (_manifest_url config)) as [e|status ct' body]; [done|].
    destruct (Z.eqb_spec status 200) as [->|]; cbn [negb]; [|done]. destruct (negb (PyStr.contains ct' _)); [done|].
    destruct body as [e|j']; [done|]. destruct (manifest_of j') as [x|m'] eqn:Ej.
    - destruct (is_manifest_error x); [done|]. by destruct (is_signature_error x).
    - intros [= _ <-]. eauto. }
  destruct Hman as (ct' & j' & Hg' & Hj).
  exists ct, j, ct', j', m. split_and!; [done..| |].
  - revert Ev Hv. unfold _check_version.
    destruct (check_version_compatibility _ _ _ _) as [x|u] eqn:Ek.
    + destruct (is_manifest_error x); [|done]. intros [= <-]. done.
    + intros _ _. revert Ek. unfold check_version_compatibility. change (default "0.1" (Some "0.1")) with "0.1".
      by destruct (version_lt (mv_asap_version (view m)) "0.1") as [[]|e].
  - revert Ev Hv. unfold _check_version.
    destruct (check_version_compatibility _ _ _ _) as [x|u]; [destruct (is_manifest_error x); [|done]|]; intros [= <-];
      cbn [passed_all forallb ck_passed]; destruct (version_error _); cbn; rewrite ?andb_false_r; done.
Qed.

(** A health page that is not JSON ends the validator with an exception. *)
Lemma html_health_kills_handshake get config ct e status :
  get (_health_url config) = Reply status ct (Raise e) →
  validate_handshake_async get config = Raise (XOther "JSONDecodeError" e).
Proof. intros Hg. unfold validate_handshake_async. by rewrite Hg. Qed.
End Handshake.
End Compliance.
