(* ===== verification/IssueText.v ===== *)
(** * The text of an issue form

    `sanitize_input` of `src/scripts/lib/registry_io.py` and `parse_issue_body` of
    the three IssueOps scripts (`process_registration.py`, `process_removal.py`,
    `process_revocation.py`), which read the fields of a GitHub issue form.

    The regular expressions are written out as scanners: each reads the text from
    the left, drops the leftmost match and goes on behind it, as `re.sub` and
    `re.split` do.  Texts are sequences of characters below 256. *)

From Stdlib Require Import ZArith Lia Ascii String.
From stdpp Require Import base tactics list gmap strings.
From S2P Require Import Prelude PyValue Errors.
Open Scope string_scope.
Open Scope asap_scope.

Definition backtick : ascii := ascii_of_nat 96.
Definition fence : string := String backtick (String backtick (String backtick "")).
Definition lf : ascii := ascii_of_nat 10.

(** ** Sanitizing *)

(** What follows the first occurrence of [mark]. *)
Fixpoint after (mark s : string) : option string :=
  if String.prefix mark s then Some (PyStr.drop (String.length mark) s)
  else match s with EmptyString => None | String _ s' => after mark s' end.

(** `re.sub(r"```[\s\S]*?```", "", s)`; [fuel]: the length of the text. *)
Fixpoint drop_blocks (fuel : nat) (s : string) : string :=
  match fuel with
  | O => s
  | S fuel =>
      match s with
      | EmptyString => EmptyString
      | String c s' =>
          if String.prefix fence s then
            match after fence (PyStr.drop 3 s) with
            | Some rest => drop_blocks fuel rest
            | None => String c (drop_blocks fuel s')
            end
          else String c (drop_blocks fuel s')
      end
  end.

(** `re.sub(r"`[^`]*`", "", s)` *)
Fixpoint drop_spans (fuel : nat) (s : string) : string :=
  match fuel with
  | O => s
  | S fuel =>
      match s with
      | EmptyString => EmptyString
      | String c s' =>
          if Ascii.eqb c backtick then
            match after (String backtick "") s' with
            | Some rest => drop_spans fuel rest
            | None => String c (drop_spans fuel s')
            end
          else String c (drop_spans fuel s')
      end
  end.

(** `re.sub(r"<[^>]+>", "", s)`: a tag has a character before its `>`. *)
Fixpoint drop_tags (fuel : nat) (s : string) : string :=
  match fuel with
  | O => s
  | S fuel =>
      match s with
      | EmptyString => EmptyString
      | String c s' =>
          if Ascii.eqb c "<" then
            match s', after ">" s' with
            | String d _, Some rest => if Ascii.eqb d ">" then String c (drop_tags fuel s') else drop_tags fuel rest
            | _, _ => String c (drop_tags fuel s')
            end
          else String c (drop_tags fuel s')
      end
  end.

(** `[\x00-\x08\x0b\x0c\x0e-\x1f\x7f]` *)
Definition is_control (c : ascii) : bool :=
  let n := PyStr.code c in
  ((n <=? 8) || (n =? 11) || (n =? 12) || (14 <=? n) && (n <=? 31) || (n =? 127))%nat.

Fixpoint drop_control (s : string) : string :=
  match s with
  | EmptyString => EmptyString
  | String c s' => if is_control c then drop_control s' else String c (drop_control s')
  end.

Definition sanitize_input (text : string) (max_length : nat) : string :=
  if negb (PyStr.truthy text) then ""
  else
    let clean := drop_blocks (String.length text) text in
    let clean := drop_spans (String.length clean) clean in
    let clean := drop_tags (String.length clean) clean in
    let clean := drop_control clean in
    String.substring 0 max_length (PyStr.strip clean).

(** ** The fields of a form *)
Definition cons_head (c : ascii) (parts : list string) : list string :=
  match parts with [] => [String c ""] | p :: ps => String c p :: ps end.

(** `re.split(r"(?im)^###\s+", s)`.  [bol]: the text starts a line; [skipping]:
    the white space of a header is being read. *)
Fixpoint split_headers (skipping bol : bool) (s : string) : list string :=
  match s with
  | EmptyString => [""]
  | String c s' =>
      if skipping && PyStr.is_space c then split_headers true (Ascii.eqb c lf) s'
      else
        match s' with
        | String d (String e (String f s'')) =>
            if bol && Ascii.eqb c "#" && Ascii.eqb d "#" && Ascii.eqb e "#" && PyStr.is_space f
            then "" :: split_headers true (Ascii.eqb f lf) s''
            else cons_head c (split_headers false (Ascii.eqb c lf) s')
        | _ => cons_head c (split_headers false (Ascii.eqb c lf) s')
        end
  end.

(** `s.partition("\n")`, without the separator *)
Fixpoint partition_line (s : string) : string * string :=
  match s with
  | EmptyString => ("", "")
  | String c s' => if Ascii.eqb c lf then ("", s') else let '(a, b) := partition_line s' in (String c a, b)
  end.

Section Form.
  (** the map from headers to fields, and the length a field is cut to *)
  Context (header_to_field : list (string * string)) (max_len : string → nat).

Definition read_part (fields : list (string * string)) (part : string) : list (string * string) :=
  let part := PyStr.strip part in
  if negb (PyStr.truthy part) then fields
  else
    let '(first_line, rest) := partition_line part in
    let header := PyStr.strip first_line in
    let value := PyStr.strip rest in
    match PyDict.get header header_to_field with
    | Some field => PyDict.set field (sanitize_input value (max_len field)) fields
    | None => fields
    end.

Definition parse_issue_body (body : string) : list (string * string) :=
  if negb (PyStr.truthy body) || negb (PyStr.truthy (PyStr.strip body)) then []
  else fold_left read_part (split_headers false true body) [].

(** `(parsed.get(k) or "").strip()` *)
Definition field (k : string) (parsed : list (string * string)) : string :=
  PyStr.strip (default "" (PyDict.get k parsed)).

End Form.

Example sanitized :
  sanitize_input ("a " ++ fence ++ "x" ++ fence ++ " <b>bold</b> <> `code` c" ++ String (ascii_of_nat 7) " <a") 100 = "a  bold <>  c <a".
Proof. vm_compute. reflexivity. Qed.

Example parsed_form :
  parse_issue_body [("Agent URN", "urn"); ("Reason", "reason")] (λ _, 200)%nat
    ("intro" ++ newline ++ "### Agent URN" ++ newline ++ newline ++ " urn:a " ++ newline ++ newline ++ "### Reason" ++ newline ++ "spam"
     ++ newline ++ "####x" ++ newline ++ "### Other" ++ newline ++ "y")
  = [("urn", "urn:a"); ("reason", "spam" ++ newline ++ "####x")].
Proof. vm_compute. reflexivity. Qed.

(** ** Facts *)
Abbreviation chars := list_ascii_of_string.
Definition occurs (c : ascii) (s : string) : nat := length (base.filter (λ x, x = c) (chars s)).

(** No `<` opens a tag: behind it there is no `>`, or at once. *)
Fixpoint tag_free (s : string) : bool :=
  match s with
  | EmptyString => true
  | String c s' =>
      (negb (Ascii.eqb c "<")
       || match s' with EmptyString => true | String d _ => Ascii.eqb d ">" end
       || (occurs ">" s' =? 0)%nat)
      && tag_free s'
  end.

Lemma occurs_sublist c s t : chars s `sublist_of` chars t → (occurs c s <= occurs c t)%nat.
Proof.
  unfold occurs. intros Hs. apply sublist_length.
  induction Hs as [|x l k _ IH|x l k _ IH]; [constructor|rewrite !filter_cons|rewrite filter_cons];
    case_decide; try done; by constructor.
Qed.

Lemma occurs_cons c x s : occurs c (String x s) = ((if decide (x = c) then 1 else 0) + occurs c s)%nat.
Proof. unfold occurs. cbn [list_ascii_of_string]. rewrite filter_cons. by case_decide. Qed.

Lemma drop_sublist n s : chars (PyStr.drop n s) `sublist_of` chars s.
Proof. revert s. induction n as [|n IH]; intros [|c s]; cbn; try done. by constructor. Qed.

Lemma drop_length n s : (String.length (PyStr.drop n s) <= String.length s)%nat.
Proof. revert s. induction n as [|n IH]; intros [|c s]; cbn; try done. specialize (IH s). lia. Qed.

Lemma after_eq mark s :
  after mark s = (if String.prefix mark s then Some (PyStr.drop (String.length mark) s)
                  else match s with EmptyString => None | String _ s' => after mark s' end).
Proof. by destruct s. Qed.

Lemma after_shorter mark s r :
  after mark s = Some r → chars r `sublist_of` chars s ∧ (String.length r <= String.length s)%nat.
Proof.
  induction s as [|c s IH]; rewrite after_eq; destruct (String.prefix mark _); try done.
  - intros [= <-]. split; [apply drop_sublist|apply drop_length].
  - intros [= <-]. split; [apply drop_sublist|apply drop_length].
  - intros [Hs Hl]%IH. split; [by constructor|cbn; lia].
Qed.

Lemma after_None c s : after (String c "") s = None → occurs c s = 0%nat.
Proof.
  induction s as [|x s IH]; [done|]. cbn -[occurs]. destruct (Ascii.ascii_dec c x) as [->|Hne].
  - by destruct s.
  - intros Hr. rewrite occurs_cons, decide_False by congruence. auto.
Qed.

(** Behind a match the scanner goes on with a part of the text. *)
Lemma scan_on (f : string → string) mark c s r :
  (∀ s, chars (f s) `sublist_of` chars s) → after mark s = Some r → chars (f r) `sublist_of` chars (String c s).
Proof. intros Hf [Hr _]%after_shorter. cbn. constructor. etransitivity; [apply Hf|done]. Qed.

Lemma drop_spans_sublist fuel s : chars (drop_spans fuel s) `sublist_of` chars s.
Proof.
  revert s. induction fuel as [|fuel IH]; intros [|c s]; cbn -[after list_ascii_of_string]; try done.
  destruct (Ascii.eqb c backtick); [|exact (sublist_skip _ _ _ (IH s))].
  destruct (after _ s) eqn:E; [by eapply scan_on|exact (sublist_skip _ _ _ (IH s))].
Qed.

Lemma drop_tags_sublist fuel s : chars (drop_tags fuel s) `sublist_of` chars s.
Proof.
  revert s. induction fuel as [|fuel IH]; intros [|c s]; cbn -[after list_ascii_of_string]; try done.
  destruct (Ascii.eqb c "<"); [|exact (sublist_skip _ _ _ (IH s))].
  destruct s as [|d s]; [exact (sublist_skip _ _ _ (IH ""))|].
  destruct (after ">" (String d s)) eqn:E; [|exact (sublist_skip _ _ _ (IH (String d s)))].
  destruct (Ascii.eqb d ">"); [exact (sublist_skip _ _ _ (IH (String d s)))|by eapply scan_on].
Qed.

Lemma drop_control_sublist s : chars (drop_control s) `sublist_of` chars s.
Proof. induction s as [|c s IH]; cbn; [done|]. destruct (is_control c); by constructor. Qed.

Lemma lstrip_sublist s : chars (PyStr.lstrip s) `sublist_of` chars s.
Proof. induction s as [|c s IH]; cbn; [done|]. destruct (PyStr.is_space c); by constructor. Qed.

Lemma rstrip_prefix s : ∃ t, s = PyStr.rstrip s ++ t.
Proof.
  induction s as [|c s [t IH]]; [by exists ""|]. cbn. destruct (PyStr.rstrip s) as [|x y] eqn:E.
  - destruct (PyStr.is_space c); [by exists (String c s)|exists s; done].
  - exists t. rewrite append_cons. by f_equal.
Qed.

Lemma substring_prefix n s : ∃ t, s = String.substring 0 n s ++ t.
Proof.
  revert n. induction s as [|c s IH]; intros [|n]; cbn; try (by eexists). destruct (IH n) as [t Ht]. exists t. rewrite append_cons. by f_equal.
Qed.

Lemma chars_app a b : chars (a ++ b) = (chars a ++ chars b)%list.
Proof. induction a as [|c a IH]; [done|]. rewrite append_cons. cbn. by rewrite IH. Qed.

Lemma prefix_sublist s p t : s = p ++ t → chars p `sublist_of` chars s.
Proof. intros ->. rewrite chars_app. apply sublist_inserts_r. done. Qed.

(** *** Stripping *)
Lemma rstrip_idemp s : PyStr.rstrip (PyStr.rstrip s) = PyStr.rstrip s.
Proof.
  induction s as [|c s IH]; [done|]. cbn. destruct (PyStr.rstrip s) as [|x y] eqn:E.
  - destruct (PyStr.is_space c) eqn:Hc; [done|]. cbn. by rewrite Hc.
  - cbn in *. destruct (PyStr.rstrip y); [destruct (PyStr.is_space x)|]; congruence.
Qed.

Lemma lstrip_rstrip s : PyStr.lstrip (PyStr.rstrip (PyStr.lstrip s)) = PyStr.rstrip (PyStr.lstrip s).
Proof.
  induction s as [|c s IH]; [done|]. cbn. destruct (PyStr.is_space c) eqn:Hc; [done|].
  cbn. destruct (PyStr.rstrip s); rewrite ?Hc; cbn; by rewrite Hc.
Qed.

Lemma strip_idemp s : PyStr.strip (PyStr.strip s) = PyStr.strip s.
Proof. unfold PyStr.strip. by rewrite lstrip_rstrip, rstrip_idemp. Qed.

(** *** Spans *)
Lemma drop_spans_occurs fuel s : (String.length s <= fuel)%nat → (occurs backtick (drop_spans fuel s) <= 1)%nat.
Proof.
  revert s. induction fuel as [|fuel IH]; intros [|c s]; cbn -[after occurs]; intros Hl; try (cbn; lia).
  destruct (Ascii.eqb_spec c backtick) as [->|Hc].
  - destruct (after _ s) as [r|] eqn:E.
    + apply IH. destruct (after_shorter _ _ _ E). lia.
    + rewrite occurs_cons, decide_True by done.
      pose proof (occurs_sublist backtick _ _ (drop_spans_sublist fuel s)). rewrite (after_None _ _ E) in *. lia.
  - rewrite occurs_cons, decide_False by done. apply IH. lia.
Qed.

(** *** Tags *)
Definition closes (s : string) : bool := match s with EmptyString => true | String d _ => Ascii.eqb d ">" end.

Lemma tag_free_cons c s : tag_free (String c s) =
  (negb (Ascii.eqb c "<") || closes s || (occurs ">" s =? 0)%nat) && tag_free s.
Proof. done. Qed.

Lemma drop_tags_free fuel s : (String.length s <= fuel)%nat → tag_free (drop_tags fuel s) = true.
Proof.
  revert s. induction fuel as [|fuel IH]; intros [|c s] Hl; cbn -[after tag_free] in *; try done; [lia|].
  assert (Hs : tag_free (drop_tags fuel s) = true) by (apply IH; lia).
  destruct (Ascii.eqb c "<") eqn:Ec; [|by rewrite tag_free_cons, Ec].
  destruct s as [|d s]; [rewrite tag_free_cons, Ec, Hs; by destruct fuel|].
  destruct (after ">" (String d s)) as [r|] eqn:E.
  - destruct (Ascii.eqb d ">") eqn:Ed.
    + rewrite tag_free_cons, Hs, andb_true_r. apply Ascii.eqb_eq in Ed as ->.
      destruct fuel as [|fuel]; cbn; by rewrite orb_true_r.
    + apply IH. destruct (after_shorter _ _ _ E). cbn in *. lia.
  - rewrite tag_free_cons, Hs, andb_true_r.
    pose proof (occurs_sublist ">" _ _ (drop_tags_sublist fuel (String d s))) as Ho. rewrite (after_None _ _ E) in Ho.
    replace (occurs ">" (drop_tags fuel (String d s))) with 0%nat by lia. by rewrite orb_true_r.
Qed.

Lemma tag_free_control s : tag_free s = true → tag_free (drop_control s) = true.
Proof.
  induction s as [|c s IH]; [done|]. rewrite tag_free_cons. intros [Hc Hs]%andb_true_iff. specialize (IH Hs).
  cbn [drop_control]. destruct (is_control c); [done|]. rewrite tag_free_cons, IH, andb_true_r.
  apply orb_true_iff in Hc as [Hc|Ho]; [apply orb_true_iff in Hc as [Hc|Hc]|].
  - by rewrite Hc.
  - destruct s as [|d s]; cbn in *; [by rewrite orb_true_r|]. apply Ascii.eqb_eq in Hc as ->. cbn. by rewrite orb_true_r.
  - apply Nat.eqb_eq in Ho. pose proof (occurs_sublist ">" _ _ (drop_control_sublist s)).
    replace (occurs ">" (drop_control s)) with 0%nat by lia. by rewrite orb_true_r.
Qed.

Lemma tag_free_prefix s p t : s = p ++ t → tag_free s = true → tag_free p = true.
Proof.
  intros ->. induction p as [|c p IH]; [done|]. rewrite append_cons, !tag_free_cons. intros [Hc Hs]%andb_true_iff.
  rewrite (IH Hs), andb_true_r. apply orb_true_iff in Hc as [Hc|Ho]; [apply orb_true_iff in Hc as [Hc|Hc]|].
  - by rewrite Hc.
  - destruct p as [|d p]; [cbn; by rewrite orb_true_r|]. rewrite append_cons in Hc. cbn [closes] in *. by rewrite Hc, orb_true_r.
  - apply Nat.eqb_eq in Ho. pose proof (occurs_sublist ">" p (p ++ t) (prefix_sublist _ _ _ eq_refl)).
    replace (occurs ">" p) with 0%nat by lia. by rewrite orb_true_r.
Qed.

Lemma tag_free_lstrip s : tag_free s = true → tag_free (PyStr.lstrip s) = true.
Proof.
  induction s as [|c s IH]; [done|]. intros Hs. cbn [PyStr.lstrip]. destruct (PyStr.is_space c); [|done].
  rewrite tag_free_cons in Hs. apply andb_true_iff in Hs as [_ Hs]. auto.
Qed.

Lemma drop_control_clean s : Forall (λ c, is_control c = false) (chars (drop_control s)).
Proof.
  induction s as [|c s IH]; [constructor|]. cbn. destruct (is_control c) eqn:E; [done|]. cbn. by constructor.
Qed.

(** *** What a sanitized field can hold: at most [max_length] characters, none of
    them a control character, no HTML tag, and not two backticks, so neither a
    code span nor a code block. *)
Theorem sanitized_field_is_inert text max_length :
  let clean := sanitize_input text max_length in
  (String.length clean <= max_length)%nat ∧ Forall (λ c, is_control c = false) (chars clean)
  ∧ tag_free clean = true ∧ (occurs backtick clean <= 1)%nat.
Proof.
  unfold sanitize_input. destruct (PyStr.truthy text); cbn [negb];
    [|split_and!; [cbn; lia|constructor|done|cbn; lia]].
  set (a := drop_blocks _ _). set (b := drop_spans _ a). set (c := drop_tags _ b). set (d := drop_control c).
  destruct (substring_prefix max_length (PyStr.strip d)) as [t Ht]. set (out := String.substring 0 max_length (PyStr.strip d)) in *.
  assert (Hsub : chars out `sublist_of` chars d).
  { etransitivity; [by eapply prefix_sublist|]. unfold PyStr.strip. destruct (rstrip_prefix (PyStr.lstrip d)) as [u Hu].
    etransitivity; [by eapply prefix_sublist|apply lstrip_sublist]. }
  split_and!.
  - subst out. clear. revert max_length. induction (PyStr.strip d) as [|x s IH]; intros [|n]; cbn; try lia. specialize (IH n). lia.
  - apply Forall_forall. intros x Hx. 
    apply (proj1 (Forall_forall _ _) (drop_control_clean c)). by eapply sublist_subseteq.
  - eapply tag_free_prefix; [exact Ht|]. unfold PyStr.strip. destruct (rstrip_prefix (PyStr.lstrip d)) as [u Hu].
    eapply tag_free_prefix; [exact Hu|]. by apply tag_free_lstrip, tag_free_control, drop_tags_free.
  - pose proof (occurs_sublist backtick _ _ Hsub). pose proof (occurs_sublist backtick _ _ (drop_control_sublist c)).
    pose proof (occurs_sublist backtick _ _ (drop_tags_sublist (String.length b) b)).
    pose proof (drop_spans_occurs (String.length a) a ltac:(done)). subst b c d. lia.
Qed.
