(* ===== verification/IssueOps.v ===== *)
(** * Registry changes by issue

    `src/scripts/lib/safe_url.py`, `src/scripts/lib/registry_io.py`,
    `src/scripts/process_registration.py`, `process_removal.py`,
    `process_revocation.py` and `validate_revoked.py`: a GitHub workflow runs one
    of the scripts on the body of an issue; it changes `registry.json` or
    `revoked_agents.json` and writes `result.json`.

    A file is what reading it and parsing its JSON gives ([file] of [RegistryPr]);
    `json.dumps` of a value made of texts, numbers, lists and dictionaries with
    text keys is read back as that value.  The resolver, the answer to the GET of
    a manifest, the clock and the failures of the disk are inputs; debug ids are
    inputs too, and log lines are left out. *)

From Stdlib Require Import ZArith Lia Ascii String.
From stdpp Require Import base tactics list gmap strings.
From S2P Require Import Prelude PyValue Identity Errors Digest Handlers JsonRpc Signing Discovery Webhook Client OpenApiHandler Market AutoRegistration RegistryPr IssueText.
Open Scope string_scope.
Open Scope Z_scope.
Open Scope asap_scope.

(** ** Addresses a script may store or fetch *)
Module SafeUrl.

Definition _BLOCKED_HOSTS : list string :=
  ["localhost"; "127.0.0.1"; "::1"; "0.0.0.0"; "metadata.google.internal"; "metadata.aws.internal"; "169.254.169.254"].
Definition _NAT64_NETWORK : Z * Z := (Ip.v6 0x64 0xff9b 0, 96).

Definition _embedded_ipv4_in_ipv6 (z : Z) : option Z :=
  match Ip.ipv4_mapped z with
  | Some m => Some m
  | None => if Ip.in_net 128 z _NAT64_NETWORK then Some (Z.land z 0xffffffff) else None
  end.

Definition v4_blocked (z : Z) : bool :=
  Ip.is_private (Ip.IPv4 z) || Ip.is_loopback (Ip.IPv4 z) || Ip.is_link_local (Ip.IPv4 z).

Definition _literal_ip_is_blocked (addr : Ip.address) : bool :=
  match addr with
  | Ip.IPv4 z => v4_blocked z
  | Ip.IPv6 z =>
      match _embedded_ipv4_in_ipv6 z with
      | Some embedded => v4_blocked embedded
      | None => Ip.is_private addr || Ip.is_loopback addr || Ip.is_link_local addr
      end
  end.

Section Urls.
  Context (urlparse : string → res pyexn url_parts) (with_scheme : string → string → string).
  (** `getaddrinfo`: the addresses, or [None] for an error *)
  Context (resolve : string → option (list string)).

(** The loop over the answer; an address that does not parse ends it with False. *)
Fixpoint all_allowed (ips : list string) : bool :=
  match ips with
  | [] => true
  | ip :: rest =>
      match Ip.ip_address ip with
      | None => false
      | Some addr => if _literal_ip_is_blocked addr then false else all_allowed rest
      end
  end.

Definition is_safe_http_url (url : string) : res pyexn bool :=
  let! parsed := urlparse url in
  if negb (str_in (u_scheme parsed) ["http"; "https"]) then Ret false
  else
    let hostname := PyStr.lower (default "" (u_hostname parsed)) in
    if str_in hostname _BLOCKED_HOSTS then Ret false
    else if match Ip.ip_address hostname with Some addr => _literal_ip_is_blocked addr | None => false end then Ret false
    else Ret (match resolve hostname with None => false | Some resolved => all_allowed resolved end).

Definition is_safe_endpoint_url (url : string) : res pyexn bool :=
  let! parsed := urlparse url in
  let url := match PyDict.get (PyStr.lower (u_scheme parsed)) _WS_TO_HTTP_SCHEMES with
             | Some scheme => with_scheme scheme url
             | None => url
             end in
  is_safe_http_url url.

End Urls.
End SafeUrl.
Import SafeUrl.

Example nat64_is_unwrapped :
  map (λ s, option_map _literal_ip_is_blocked (Ip.ip_address s))
    ["64:ff9b::a00:1"; "64:ff9b::808:808"; "::ffff:127.0.0.1"; "2001:4860:4860::8888"; "fd00::1"; "192.168.0.1"]
  = [Some true; Some false; Some true; Some false; Some true; Some true].
Proof. vm_compute. reflexivity. Qed.

(** ** Files *)
Module RegistryIo.

Definition _DEFAULT_REGISTRY_VERSION : string := "1.0".

(** What the disk does with a temporary file: an exception of each step, if any. *)
Record disk : Type := mkDisk { dk_mkstemp : option exn; dk_write : option exn; dk_rename : option exn; dk_result : option exn }.

(** The files of the checkout; [sf_tmp]: how many temporary files are around. *)
Record files : Type := mkFiles { sf_registry : file; sf_revoked : file; sf_result : file; sf_tmp : nat }.

Abbreviation io A := (ST files exn A).

Definition set_registry (f : file) (s : files) : files := mkFiles f (sf_revoked s) (sf_result s) (sf_tmp s).
Definition set_revoked (f : file) (s : files) : files := mkFiles (sf_registry s) f (sf_result s) (sf_tmp s).
Definition set_result (f : file) (s : files) : files := mkFiles (sf_registry s) (sf_revoked s) f (sf_tmp s).
Definition set_tmp (n : nat) (s : files) : files := mkFiles (sf_registry s) (sf_revoked s) (sf_result s) n.

Section Io.
  Context (dk : disk).

Definition fails (e : option exn) : io unit := match e with Some e => st_stop e | None => st_ret tt end.

(** `mkstemp`, the write, the rename; an exception after the first removes the
    temporary file and is raised again. *)
Definition replace_file (put : file → files → files) (content : json) : io unit :=
  run! fails (dk_mkstemp dk) in
  run! st_modify (λ s, set_tmp (S (sf_tmp s)) s) in
  λ s,
    match (run! fails (dk_write dk) in
           run! fails (dk_rename dk) in
           st_modify (λ s, set_tmp (pred (sf_tmp s)) (put (Json content) s))) s with
    | (s, Ret _) => (s, Ret tt)
    | (s, Raise e) => (set_tmp (pred (sf_tmp s)) s, Raise e)
    end.

Definition write_validation_result (valid : bool) (errors : string) (debug_id : option string) : io unit :=
  let out := ([("valid", JBool valid); ("errors", JStr errors)]
                ++ match debug_id with Some (String _ _ as d) => [("debug_id", JStr d)] | _ => [] end)%list in
  run! fails (dk_result dk) in
  st_modify (set_result (Json (JObj out))).

(** `json.loads(p.read_text())` of a file that exists *)
Definition read_json (f : file) : res exn json :=
  match f with
  | Missing => Raise (XOther "FileNotFoundError" "")
  | Unreadable e => Raise (XOther "OSError" e)
  | NotUtf8 e => Raise (XOther "UnicodeDecodeError" e)
  | NotJson e => Raise (XOther "JSONDecodeError" e)
  | Json j => Ret j
  end.

(** The value of `agents` is handed on as it is. *)
Definition load_registry (f : file) : res exn json :=
  match f with
  | Missing => Ret (JList [])
  | _ =>
      let! raw := read_json f in
      match raw with
      | JList _ => Ret raw
      | JObj d => Ret (match assoc "agents" d with Some agents => agents | None => JList [] end)
      | _ => Ret (JList [])
      end
  end.

Definition _registry_version_from_existing (f : file) : string :=
  match f with
  | Json (JObj d) =>
      match j_get "version" d with
      | JStr version => if PyStr.truthy (PyStr.strip version) then PyStr.strip version else _DEFAULT_REGISTRY_VERSION
      | _ => _DEFAULT_REGISTRY_VERSION
      end
  | _ => _DEFAULT_REGISTRY_VERSION
  end.

(** [now]: the text of the clock, `_utc_now_iso_z()`. *)
Definition save_registry (now : string) (agents : list json) : io unit :=
  do! target <- st_gets sf_registry in
  let payload := JObj [("version", JStr (_registry_version_from_existing target)); ("updated_at", JStr now);
                       ("agents", JList agents)] in
  replace_file set_registry payload.

Definition no_revocations : json := JObj [("revoked", JList []); ("version", JStr "1.0")].

Definition load_revoked (f : file) : res exn json :=
  match f with
  | Missing => Ret no_revocations
  | _ =>
      let! raw := read_json f in
      match raw with
      | JObj d => Ret (match assoc "revoked" d with Some _ => raw | None => no_revocations end)
      | _ => Ret no_revocations
      end
  end.

Definition save_revoked (data : json) : io unit := replace_file set_revoked data.

End Io.
End RegistryIo.
Import RegistryIo.

(** ** The scripts *)
Record issue : Type := mkIssue { is_body : string; is_author : string; is_debug_id : string; is_now : string }.

Definition fail_with (dk : disk) (i : issue) (errors : list string) : io unit :=
  write_validation_result dk false (String.concat "; " errors) (Some (is_debug_id i)).

(** `main`: any exception becomes an error result; [true]: exit code 0. *)
Definition script_main (dk : disk) (i : issue) (run : io unit) (s : files) : files * bool :=
  match run s with
  | (s, Ret _) => (s, true)
  | (s, Raise _) => (fst (write_validation_result dk false "Internal processing error" (Some (is_debug_id i)) s), false)
  end.

(** *** Registration *)
Definition registration_headers : list (string * string) :=
  [("Agent name (slug-friendly)", "name"); ("Description", "description"); ("Manifest URL", "manifest_url");
   ("HTTP Endpoint", "http_endpoint"); ("WebSocket Endpoint (optional)", "websocket_endpoint"); ("Skills", "skills");
   ("Built with (framework)", "built_with"); ("Category", "category"); ("Tags", "tags");
   ("Repository URL (optional)", "repository_url"); ("Documentation URL (optional)", "documentation_url");
   ("Confirmation", "confirm")].

Definition parse_registration (body : string) : list (string * string) :=
  parse_issue_body registration_headers (λ f, if String.eqb f "description" then 2000 else 500)%nat body.

(** `[x.strip() for x in text.split(",") if x.strip()]` *)
Definition comma_list (text : string) : list string :=
  List.filter PyStr.truthy (map PyStr.strip (PyStr.split "," text)).

Definition or_none (s : string) : option string := if PyStr.truthy s then Some s else None.

Definition expected_id (author name : string) : string := "urn:asap:agent:" ++ PyStr.lower author ++ ":" ++ name.

Definition repr_list (l : list string) : string := "[" ++ String.concat ", " (map repr_str l) ++ "]".
Definition repr_opt (o : option string) : string := match o with Some s => repr_str s | None => "None" end.

Section Registration.
  Context {M : Type} `{Crypto M, ManifestModels M} (view : M → manifest_view).
  Context (urlparse : string → res pyexn url_parts) (with_scheme : string → string → string).
  Context (resolve : string → option (list string)) (get : string → manifest_reply).
  (** `error_count()` of a `ValidationError` *)
  Context (error_count : exn → string).

Definition blocked (url : string) : string := "Blocked URL (private/metadata): " ++ url.

Definition _append_unsafe_endpoint_errors (http_endpoint websocket_endpoint : string) : res pyexn (list string) :=
  let! http_ok := is_safe_endpoint_url urlparse with_scheme resolve http_endpoint in
  let! ws_ok := if PyStr.truthy websocket_endpoint then is_safe_endpoint_url urlparse with_scheme resolve websocket_endpoint
                else Ret true in
  Ret ((if http_ok then [] else [blocked http_endpoint]) ++ (if ws_ok then [] else [blocked websocket_endpoint]))%list.

Definition http_error : string := "HTTPError".

Definition fetch_manifest (url : string) : res exn M :=
  match is_safe_http_url urlparse resolve url with
  | Raise e => Raise (of_pyexn e)
  | Ret false => Raise (value_error (blocked url))
  | Ret true =>
      match get url with
      | ManifestStatus _ => Raise (XOther http_error "")
      | ManifestRequestError text => Raise (XOther http_error text)
      | ManifestRaises e => Raise e
      | ManifestNotJson => Raise (value_error ("Manifest response is not JSON: " ++ url))
      | ManifestJson (JObj data) =>
          match validate_signed_manifest_response data true with
          | Ret m => Ret m
          | Raise x => Raise (if is_signature_error x then manifest_validation_error (exn_text x) else x)
          end
      | ManifestJson _ => Raise (value_error ("Manifest JSON must be an object: " ++ url))
      end
  end.

(** The `except` clauses around it: the text of the error, or the exception goes on. *)
Definition manifest_error (manifest_url : string) (x : exn) : res exn string :=
  match x with
  | XOther name text =>
      if String.eqb name "ManifestValidationError" then
        Ret ("Manifest failed schema validation. " ++ text ++ " Ensure it follows the ASAP Manifest format.")
      else if String.eqb name "ValidationError" then
        Ret ("Manifest failed schema validation (" ++ error_count x ++ " error(s)). Ensure it follows the ASAP Manifest format.")
      else if is_value_error name then
        Ret (if PyStr.contains text "Blocked URL" || PyStr.contains text "private/metadata" then blocked manifest_url else text)
      else if String.eqb name http_error then Ret ("Manifest URL unreachable: " ++ manifest_url)
      else Raise x
  | _ => Raise x
  end.

Record form : Type := mkForm {
  fm_name : string; fm_manifest_url : string; fm_http_endpoint : string; fm_websocket_endpoint : string; fm_skills : string;
  fm_built_with : option string; fm_category : option string; fm_tags : string;
  fm_repository_url : option string; fm_documentation_url : option string
}.

Definition read_form (body : string) : form :=
  let parsed := parse_registration body in
  mkForm (field "name" parsed) (field "manifest_url" parsed) (field "http_endpoint" parsed) (field "websocket_endpoint" parsed)
    (field "skills" parsed) (or_none (field "built_with" parsed)) (or_none (field "category" parsed)) (field "tags" parsed)
    (or_none (field "repository_url" parsed)) (or_none (field "documentation_url" parsed)).

Definition required (name value : string) : list string :=
  if PyStr.truthy value then [] else ["Missing required field: " ++ name].

Definition missing_fields (f : form) : list string :=
  (required "name" (fm_name f) ++ required "manifest_url" (fm_manifest_url f) ++ required "http_endpoint" (fm_http_endpoint f)
   ++ required "skills" (fm_skills f))%list.

(** The form against the manifest. *)
Definition mismatches (f : form) (author : string) (m : manifest_view) : list string :=
  let expected := expected_id author (fm_name f) in
  concat
    [if String.eqb (mv_id m) expected then []
     else ["Manifest id must be " ++ repr_str expected ++ ", got " ++ repr_str (mv_id m)];
     if String.eqb (mv_name m) (fm_name f) then []
     else ["Manifest name must match issue name " ++ repr_str (fm_name f) ++ ", got " ++ repr_str (mv_name m)];
     map (λ sk, "Skill " ++ repr_str sk ++ " not declared in manifest (manifest has " ++ repr_list (mv_skills m) ++ ")")
       (List.filter (λ sk, negb (str_in sk (mv_skills m))) (comma_list (fm_skills f)));
     if String.eqb (mv_endpoint_asap m) (fm_http_endpoint f) then []
     else ["HTTP endpoint must match manifest (manifest has " ++ repr_str (mv_endpoint_asap m) ++ ")"];
     if PyStr.truthy (fm_websocket_endpoint f) && negb (bool_decide (mv_endpoint_events m = Some (fm_websocket_endpoint f)))
     then ["WebSocket endpoint must match manifest (manifest has " ++ repr_opt (mv_endpoint_events m) ++ ")"] else []].

(** `{a.get("id") for a in agents if isinstance(a, dict)}`; [None]: an id is not hashable. *)
Fixpoint existing_ids (agents : list json) : option (list json) :=
  match agents with
  | [] => Some []
  | JObj d :: rest =>
      match j_get "id" d with
      | JList _ | JObj _ => None
      | id => option_map (cons id) (existing_ids rest)
      end
  | _ :: rest => existing_ids rest
  end.

(** `for a in agents` over whatever the file holds under `agents` *)
Definition elements (agents : json) : res exn (list json) :=
  match agents with
  | JList l => Ret l
  | JObj d => Ret (map (λ kv, JStr kv.1) d)
  | JStr s => Ret (map (λ c, JStr (String c "")) (list_ascii_of_string s))
  | _ => Raise (XOther "TypeError" "object is not iterable")
  end.

Definition form_endpoints (f : form) : list (string * string) :=
  ([("http", fm_http_endpoint f); ("manifest", fm_manifest_url f)]
     ++ (if PyStr.truthy (fm_websocket_endpoint f) then [("ws", fm_websocket_endpoint f)] else []))%list.

Definition build_entry (f : form) (m : manifest_view) : res pyexn RegistryEntry :=
  generate_registry_entry m (form_endpoints f) (fm_repository_url f) (fm_documentation_url f) (fm_built_with f) (fm_category f)
    (if PyStr.truthy (fm_tags f) then comma_list (fm_tags f) else []).

Definition run_registration (dk : disk) (i : issue) : io unit :=
  let f := read_form (is_body i) in
  match missing_fields f with
  | _ :: _ as errors => fail_with dk i errors
  | [] =>
      match fetch_manifest (fm_manifest_url f) with
      | Raise x => do! error <- st_lift (manifest_error (fm_manifest_url f) x) in fail_with dk i [error]
      | Ret manifest =>
          let m := view manifest in
          match mismatches f (is_author i) m with
          | _ :: _ as errors => fail_with dk i errors
          | [] =>
              do! unsafe <- st_lift (match _append_unsafe_endpoint_errors (fm_http_endpoint f) (fm_websocket_endpoint f) with
                                     | Ret l => Ret l | Raise e => Raise (of_pyexn e) end) in
              match unsafe with
              | _ :: _ => fail_with dk i unsafe
              | [] =>
                  do! registry <- st_gets sf_registry in
                  do! agents <- st_lift (load_registry registry) in
                  do! items <- st_lift (elements agents) in
                  match existing_ids items with
                  | None => st_stop (XOther "TypeError" "unhashable type")
                  | Some ids =>
                      if existsb (py_eq (JStr (mv_id m))) ids then
                        fail_with dk i ["Agent id " ++ repr_str (mv_id m) ++ " is already registered"]
                      else
                        match build_entry f m with
                        | Raise _ => fail_with dk i ["Registry entry validation failed (1 error(s)). Check manifest and endpoint format."]
                        | Ret entry =>
                            match agents with
                            | JList l =>
                                run! save_registry dk (is_now i) (l ++ [_entry_payload entry])%list in
                                write_validation_result dk true "" None
                            | _ => st_stop (XOther "AttributeError" "object has no attribute 'append'")
                            end
                        end
                  end
              end
          end
      end
  end.

End Registration.

(** *** Removal *)
Definition parse_removal (body : string) : list (string * string) :=
  parse_issue_body [("Agent name (slug-friendly)", "name")] (λ _, 100%nat) body.

(** `isinstance(a, dict) and a.get("id") == expected_id` *)
Definition has_id (id : string) (a : json) : bool :=
  match a with JObj d => py_eq (j_get "id" d) (JStr id) | _ => false end.

(** The position of the first element that passes, and the element. *)
Fixpoint find_index (f : json → bool) (l : list json) : option (nat * json) :=
  match l with
  | [] => None
  | x :: l' => if f x then Some (O, x) else option_map (λ ix, (S ix.1, ix.2)) (find_index f l')
  end.

(** `agents.remove(x)` where [x] is the element at [k]: the first one that equals
    it or is it. *)
Fixpoint list_remove (k : nat) (x : json) (l : list json) : list json :=
  match l with
  | [] => []
  | y :: l' =>
      match k with
      | O => l'
      | S k' => if py_eq y x then l' else y :: list_remove k' x l'
      end
  end.

Definition run_removal (dk : disk) (i : issue) : io unit :=
  let name := field "name" (parse_removal (is_body i)) in
  if negb (PyStr.truthy name) then fail_with dk i ["Missing required field: name"]
  else
    let id := expected_id (is_author i) name in
    do! registry <- st_gets sf_registry in
    do! agents <- st_lift (load_registry registry) in
    do! items <- st_lift (elements agents) in
    match find_index (has_id id) items with
    | None =>
        fail_with dk i ["Agent " ++ repr_str id ++ " not found in the registry. "
                          ++ "Make sure you typed the exact name and that you are the original author."]
    | Some (k, found) =>
        run! save_registry dk (is_now i) (list_remove k found items) in
        write_validation_result dk true "" None
    end.

(** *** Revocation *)
Definition parse_revocation (body : string) : list (string * string) :=
  parse_issue_body [("Agent URN", "urn"); ("Reason", "reason")] (λ f, if String.eqb f "reason" then 500 else 200)%nat body.

Record RevokedEntry : Type := mkRevoked { rv_urn : string; rv_reason : string; rv_revoked_at : string }.
Record RevokedAgentsList : Type := mkRevokedList { rl_revoked : list RevokedEntry; rl_version : string }.

Definition only_keys (allowed : list string) (d : list (string * json)) : bool := forallb (λ kv, str_in kv.1 allowed) d.

(** `model_validate`: the fields are texts, and no other field is allowed. *)
Definition revoked_entry (j : json) : option RevokedEntry :=
  match j with
  | JObj d =>
      match j_get "urn" d, j_get "reason" d, j_get "revoked_at" d with
      | JStr urn, JStr reason, JStr at_ => if only_keys ["urn"; "reason"; "revoked_at"] d then Some (mkRevoked urn reason at_) else None
      | _, _, _ => None
      end
  | _ => None
  end.

Definition revoked_list (j : json) : option RevokedAgentsList :=
  match j with
  | JObj d =>
      match assoc "revoked" d, assoc "version" d with
      | (None | Some (JList _)) as r, (None | Some (JStr _)) as v =>
          let entries := match r with Some (JList l) => l | _ => [] end in
          let version := match v with Some (JStr s) => s | _ => "1.0" end in
          if only_keys ["revoked"; "version"] d
          then option_map (λ es, mkRevokedList es version) (mapM revoked_entry entries) else None
      | _, _ => None
      end
  | _ => None
  end.

Definition revoked_entry_payload (e : RevokedEntry) : json :=
  JObj [("urn", JStr (rv_urn e)); ("reason", JStr (rv_reason e)); ("revoked_at", JStr (rv_revoked_at e))].
Definition revoked_payload (l : RevokedAgentsList) : json :=
  JObj [("revoked", JList (map revoked_entry_payload (rl_revoked l))); ("version", JStr (rl_version l))].

(** `any(a.get("id") == urn for a in agents)`: an element that has no `get` raises. *)
Fixpoint any_id (urn : string) (items : list json) : res exn bool :=
  match items with
  | [] => Ret false
  | JObj d :: rest => if py_eq (j_get "id" d) (JStr urn) then Ret true else any_id urn rest
  | _ :: _ => Raise (XOther "AttributeError" "object has no attribute 'get'")
  end.

(** [shown]: the text of the `ValidationError`. *)
Definition run_revocation (dk : disk) (shown : json → string) (i : issue) : io unit :=
  let parsed := parse_revocation (is_body i) in
  let urn := field "urn" parsed in
  let reason := field "reason" parsed in
  match ((if PyStr.truthy urn then [] else ["Missing required field: Agent URN"])
           ++ (if PyStr.truthy reason then [] else ["Missing required field: Reason"]))%list with
  | _ :: _ as errors => fail_with dk i errors
  | [] =>
      if negb (PyStr.startswith urn "urn:asap:agent:") then
        fail_with dk i ["Invalid URN format: must start with 'urn:asap:agent:'. Got: " ++ String.substring 0 50 urn ++ "..."]
      else
        do! registry <- st_gets sf_registry in
        do! agents <- st_lift (load_registry registry) in
        do! items <- st_lift (elements agents) in
        do! registered <- st_lift (any_id urn items) in
        if negb registered then
          fail_with dk i ["Agent " ++ repr_str urn ++ " not found in the registry. "
                            ++ "The agent must be registered before it can be revoked."]
        else
          do! revoked <- st_gets sf_revoked in
          do! data <- st_lift (load_revoked revoked) in
          match revoked_list data with
          | None => fail_with dk i ["revoked_agents.json schema invalid: " ++ shown data]
          | Some l =>
              if existsb (λ e, String.eqb (rv_urn e) urn) (rl_revoked l) then
                fail_with dk i ["Agent " ++ repr_str urn ++ " is already in the revocation list."]
              else
                run! save_revoked dk (revoked_payload
                       (mkRevokedList (rl_revoked l ++ [mkRevoked urn reason (is_now i)])%list (rl_version l))) in
                write_validation_result dk true "" None
          end
  end.

(** *** `validate_revoked.py` *)
Definition validate_revoked (path : string) (errors : json → list string) (f : file) : res exn (list string) :=
  match f with
  | Missing => Ret ["File not found: " ++ path]
  | Unreadable e => Raise (XOther "OSError" e)
  | NotUtf8 e => Raise (XOther "UnicodeDecodeError" e)
  | NotJson e => Ret ["Invalid JSON: " ++ e]
  | Json (JObj d as raw) => Ret (match revoked_list raw with Some _ => [] | None => errors raw end)
  | Json _ => Ret ["Root must be a JSON object with 'revoked' and 'version'."]
  end.

(** ** Facts *)
Section UrlFacts.
  Context (urlparse : string → res pyexn url_parts) (with_scheme : string → string → string).
  Context (resolve : string → option (list string)).

(** The URL has an HTTP scheme, its host is not on the list nor a blocked literal,
    and every address the resolver gives for it is allowed. *)
Definition url_checked (url : string) : Prop :=
  ∃ parsed ips,
    urlparse url = Ret parsed ∧ u_scheme parsed ∈ ["http"; "https"] ∧
    let host := PyStr.lower (default "" (u_hostname parsed)) in
    host ∉ _BLOCKED_HOSTS ∧ (∀ a, Ip.ip_address host = Some a → _literal_ip_is_blocked a = false)
    ∧ resolve host = Some ips
    ∧ Forall (λ ip, ∃ a, Ip.ip_address ip = Some a ∧ _literal_ip_is_blocked a = false) ips.

Lemma all_allowed_Forall ips : all_allowed ips = true →
  Forall (λ ip, ∃ a, Ip.ip_address ip = Some a ∧ _literal_ip_is_blocked a = false) ips.
Proof.
  induction ips as [|ip ips IH]; cbn -[Ip.ip_address _literal_ip_is_blocked]; [constructor|].
  destruct (Ip.ip_address ip) as [a|] eqn:E; [|done]. destruct (_literal_ip_is_blocked a) eqn:B; [done|].
  intros Hi. constructor; [by exists a|auto].
Qed.

Lemma safe_http_url_checked url : is_safe_http_url urlparse resolve url = Ret true → url_checked url.
Proof.
  unfold is_safe_http_url. destruct (urlparse url) as [e|parsed] eqn:Hp; cbn [rbind]; [done|].
  destruct (str_in (u_scheme parsed) _) eqn:Hs; cbn [negb]; [|done]. set (host := PyStr.lower _).
  destruct (str_in host _BLOCKED_HOSTS) eqn:Hb; [done|].
  destruct (match Ip.ip_address host with Some _ => _ | None => _ end) eqn:Hl; [done|].
  destruct (resolve host) as [ips|] eqn:Hr; [|done]. intros [= Ha]. exists parsed, ips. apply str_in_true in Hs. cbn zeta. fold host.
  split_and!; try done.
  - intros Hin%str_in_true. congruence.
  - intros a Ea. by rewrite Ea in Hl.
  - by apply all_allowed_Forall.
Qed.

(** The same for an endpoint, whose WebSocket scheme is first read as HTTP. *)
Definition endpoint_checked (url : string) : Prop :=
  ∃ parsed, urlparse url = Ret parsed ∧
    url_checked (match PyDict.get (PyStr.lower (u_scheme parsed)) _WS_TO_HTTP_SCHEMES with
                 | Some scheme => with_scheme scheme url
                 | None => url
                 end).

Lemma safe_endpoint_checked url : is_safe_endpoint_url urlparse with_scheme resolve url = Ret true → endpoint_checked url.
Proof.
  unfold is_safe_endpoint_url. destruct (urlparse url) as [e|parsed] eqn:Hp; cbn [rbind]; [done|].
  intros Hs%safe_http_url_checked. by exists parsed.
Qed.
End UrlFacts.

(** *** The disk *)
Definition disk_fails (dk : disk) : option exn :=
  match dk_mkstemp dk, dk_write dk, dk_rename dk with
  | Some e, _, _ | None, Some e, _ | None, None, Some e => Some e
  | None, None, None => None
  end.

(** A replacement is all or nothing, and leaves no temporary file. *)
Lemma replace_file_out dk put content s :
  (∀ n f s, set_tmp n (put f s) = put f (set_tmp n s)) →
  replace_file dk put content s = match disk_fails dk with Some e => (s, Raise e) | None => (put (Json content) s, Ret tt) end.
Proof.
  intros Hq. unfold replace_file, disk_fails, fails, st_bind, st_modify, st_ret, st_stop.
  destruct s as [r v t n]. destruct (dk_mkstemp dk); [done|]. cbn. destruct (dk_write dk); [done|]. destruct (dk_rename dk); [done|].
  by rewrite Hq.
Qed.

(** All that a script may change besides its result. *)
Definition kept (s : files) : file * file * nat := (sf_registry s, sf_revoked s, sf_tmp s).

Lemma write_result_keeps dk valid errors id : st_keeps kept (write_validation_result dk valid errors id).
Proof.
  intros s. unfold write_validation_result, fails, st_bind, st_modify. destruct (dk_result dk); done.
Qed.

Lemma fail_with_keeps dk i errors : st_keeps kept (fail_with dk i errors).
Proof. apply write_result_keeps. Qed.

Lemma main_keeps dk i run s : kept (script_main dk i run s).1 = kept (run s).1.
Proof. unfold script_main. destruct (run s) as [s1 [e|[]]]; [|done]. apply write_result_keeps. Qed.

Lemma save_registry_out dk now agents s :
  save_registry dk now agents s
  = match disk_fails dk with
    | Some e => (s, Raise e)
    | None => (set_registry (Json (JObj [("version", JStr (_registry_version_from_existing (sf_registry s))); ("updated_at", JStr now);
                                         ("agents", JList agents)])) s, Ret tt)
    end.
Proof. unfold save_registry, st_bind, st_gets. by rewrite replace_file_out. Qed.

(** After a save the registry reads as what was saved, under the version it had. *)
Definition holds_agents (s s' : files) (agents : list json) : Prop :=
  load_registry (sf_registry s') = Ret (JList agents)
  ∧ _registry_version_from_existing (sf_registry s') = _registry_version_from_existing (sf_registry s)
  ∧ sf_revoked s' = sf_revoked s ∧ sf_tmp s' = sf_tmp s.

Lemma version_reads_back s rest :
  _registry_version_from_existing (Json (JObj (("version", JStr (_registry_version_from_existing s)) :: rest)))
  = _registry_version_from_existing s.
Proof.
  assert (Hv : ∀ v, PyStr.truthy (PyStr.strip v) = true → PyStr.strip v = v →
    _registry_version_from_existing (Json (JObj (("version", JStr v) :: rest))) = v).
  { intros v Ht Hs. unfold _registry_version_from_existing, j_get. cbn -[PyStr.strip]. by rewrite Ht, Hs. }
  apply Hv; unfold _registry_version_from_existing;
    destruct s as [| | | |[]]; try done; destruct (j_get "version" d); try done;
    match goal with |- context [PyStr.strip ?x] => destruct (PyStr.truthy (PyStr.strip x)) eqn:Ht; [|done] end;
    by rewrite strip_idemp.
Qed.

Lemma saved_outcome dk now agents valid errors id s :
  let s' := (st_bind (save_registry dk now agents) (λ _, write_validation_result dk valid errors id) s).1 in
  kept s' = kept s ∨ holds_agents s s' agents.
Proof.
  cbn zeta. unfold st_bind. rewrite save_registry_out. destruct (disk_fails dk); [by left|]. right.
  set (s1 := set_registry _ s). pose proof (write_result_keeps dk valid errors id s1) as Hk.
  destruct (write_validation_result dk valid errors id s1) as [s2 r]. cbn [fst] in *. injection Hk as H1 H2 H3.
  unfold holds_agents. rewrite H1, H2, H3. split_and!; try done. apply version_reads_back.
Qed.

(** A script that goes on after reading leaves everything but its result alone,
    or ends in the outcome of its last step. *)
Lemma lift_then {A} (Q : files → Prop) (r : res exn A) (k : A → io unit) s :
  (∀ e, r = Raise e → Q s) → (∀ a, r = Ret a → Q (k a s).1) → Q (st_bind (st_lift r) k s).1.
Proof. intros He Hk. unfold st_bind, st_lift. destruct r as [e|a]; [by apply (He e)|by apply Hk]. Qed.

(** What holds behind the script's [run] holds behind `main`, if it is only about
    the files that a result does not touch. *)
Lemma main_outcome (Q : files → Prop) dk i run s :
  (∀ x y, kept y = kept x → Q x → Q y) → Q (run s).1 → Q (script_main dk i run s).1.
Proof. intros HQ. apply HQ, main_keeps. Qed.

Lemma holds_agents_kept s x y agents : kept y = kept x → holds_agents s x agents → holds_agents s y agents.
Proof. unfold holds_agents, kept. by intros [= -> -> ->]. Qed.

(** *** Registration *)
Section RegistrationFacts.
  Context {M : Type} `{Crypto M, ManifestModels M} (view : M → manifest_view).
  Context (urlparse : string → res pyexn url_parts) (with_scheme : string → string → string).
  Context (resolve : string → option (list string)) (get : string → manifest_reply).
  Context (error_count : exn → string).

Lemma fetch_manifest_ok url m : fetch_manifest urlparse resolve get url = Ret m →
  url_checked urlparse resolve url ∧ manifest_vetted (get url) m.
Proof.
  unfold fetch_manifest. destruct (is_safe_http_url urlparse resolve url) as [e|[]] eqn:Hs; try done.
  apply safe_http_url_checked in Hs. intros Hr. split; [done|].
  destruct (get url) as [| | | |[| | | | | |data]]; try done.
  destruct (validate_signed_manifest_response data true) as [x|m'] eqn:Hv; [done|]. injection Hr as ->.
  apply read_manifest_ok. cbn. by rewrite Hv.
Qed.

Lemma mismatches_nil f author m : mismatches f author m = [] →
  mv_id m = expected_id author (fm_name f) ∧ mv_name m = fm_name f
  ∧ (∀ sk, sk ∈ comma_list (fm_skills f) → sk ∈ mv_skills m) ∧ mv_endpoint_asap m = fm_http_endpoint f
  ∧ (fm_websocket_endpoint f ≠ "" → mv_endpoint_events m = Some (fm_websocket_endpoint f)).
Proof.
  unfold mismatches. cbn [concat]. intros (H1 & (H2 & (H3 & (H4 & H5)%app_nil)%app_nil)%app_nil)%app_nil.
  destruct (String.eqb_spec (mv_id m) (expected_id author (fm_name f))); [|done].
  destruct (String.eqb_spec (mv_name m) (fm_name f)); [|done].
  destruct (String.eqb_spec (mv_endpoint_asap m) (fm_http_endpoint f)); [|done]. split_and!; try done.
  - intros sk Hsk. destruct (str_in sk (mv_skills m)) eqn:E; [by apply str_in_true|]. apply map_eq_nil in H3.
    assert (Hin : In sk []); [|done]. rewrite <- H3. apply filter_In. split; [by apply list_elem_of_In|by rewrite E].
  - intros Hne. rewrite app_nil_r in H5. destruct (fm_websocket_endpoint f); [done|]. cbn in H5.
    case_bool_decide; done.
Qed.

Lemma existing_ids_spec l ids id : existing_ids l = Some ids → existsb (py_eq (JStr id)) ids = false →
  ∀ a, a ∈ l → has_id id a = false.
Proof.
  revert ids. induction l as [|x l IH]; intros ids; cbn [existing_ids]; [by intros _ _ ? ?%elem_of_nil|].
  intros Hx He a [->|Ha]%elem_of_cons.
  - destruct x as [| | | | | |d]; try done. cbn. destruct (j_get "id" d) eqn:E; try done.
    destruct (existing_ids l); [|done]. injection Hx as <-. cbn in He. apply orb_false_iff in He as [He _].
    cbn. by rewrite String.eqb_sym.
  - destruct x as [| | | | | |d]; try by eapply IH.
    destruct (j_get "id" d); try done; (destruct (existing_ids l) as [ids'|]; [|done]); injection Hx as <-;
      cbn [existsb] in He; apply orb_false_iff in He as [_ He]; by eapply (IH ids').
Qed.

(** What stands behind a change of the registry: the agent [entry], added last to
    the agents [l] of before. *)
Definition registered_entry (i : issue) (l : list json) (entry : RegistryEntry) : Prop :=
  ∃ m, let f := read_form (is_body i) in
    url_checked urlparse resolve (fm_manifest_url f) ∧ manifest_vetted (get (fm_manifest_url f)) m
    ∧ re_id entry = expected_id (is_author i) (fm_name f) ∧ mv_id (view m) = re_id entry
    ∧ (∀ a, a ∈ l → has_id (re_id entry) a = false)
    ∧ (∀ sk, sk ∈ comma_list (fm_skills f) → sk ∈ mv_skills (view m))
    ∧ re_endpoints entry = form_endpoints f ∧ mv_endpoint_asap (view m) = fm_http_endpoint f
    ∧ endpoint_checked urlparse with_scheme resolve (fm_http_endpoint f)
    ∧ (fm_websocket_endpoint f ≠ "" → mv_endpoint_events (view m) = Some (fm_websocket_endpoint f)
                                       ∧ endpoint_checked urlparse with_scheme resolve (fm_websocket_endpoint f))
    ∧ re_verification entry = None.

Lemma unsafe_nil http ws : _append_unsafe_endpoint_errors urlparse with_scheme resolve http ws = Ret [] →
  endpoint_checked urlparse with_scheme resolve http ∧ (ws ≠ "" → endpoint_checked urlparse with_scheme resolve ws).
Proof.
  unfold _append_unsafe_endpoint_errors.
  destruct (is_safe_endpoint_url urlparse with_scheme resolve http) as [e|[]] eqn:H1; cbn [rbind]; [done| |].
  - apply safe_endpoint_checked in H1. destruct ws as [|c ws]; [by split|]. cbn [PyStr.truthy].
    destruct (is_safe_endpoint_url urlparse with_scheme resolve (String c ws)) as [e|[]] eqn:H2; cbn [rbind]; [done| |done].
    apply safe_endpoint_checked in H2. by split.
  - destruct (if PyStr.truthy ws then _ else _) as [e|[]]; done.
Qed.

Lemma built_entry f m entry : build_entry f m = Ret entry →
  re_id entry = mv_id m ∧ re_endpoints entry = form_endpoints f ∧ re_verification entry = None.
Proof.
  unfold build_entry, generate_registry_entry. destruct (derive_registry_hardware_fields m) as [[cls io_] modes].
  unfold validate_agent_urn. destruct (_ <? _)%nat; [done|]. destruct (negb _); [done|]. cbn [rbind]. by intros [= <-].
Qed.

(** C34: Registration by issue adds nothing but the author's own agent.  Whatever the
    issue says, whatever the network answers and whichever write fails, the script
    leaves the registry as it was, or adds one entry behind those it had, under
    the version it had: its id is the URN of the issue's author and the name asked
    for, which is the id of the manifest and of no agent listed before; the
    manifest came from an address that is not internal and is properly signed if
    it came with a signature; the skills asked for are declared in it, its
    endpoints are those of the form and lead to no internal address; and the entry
    carries no verification.  The revocation list stays, and so does no temporary
    file. *)
Theorem registration_adds_own_agent dk i s :
  let s' := (script_main dk i (run_registration view urlparse with_scheme resolve get error_count dk i) s).1 in
  kept s' = kept s ∨
  ∃ l entry, load_registry (sf_registry s) = Ret (JList l) ∧ registered_entry i l entry
             ∧ holds_agents s s' (l ++ [_entry_payload entry])%list.
Proof.
  cbn zeta. set (run := run_registration _ _ _ _ _ _ _ _).
  set (Q := λ x, kept x = kept s ∨ ∃ l entry, load_registry (sf_registry s) = Ret (JList l) ∧ registered_entry i l entry
             ∧ holds_agents s x (l ++ [_entry_payload entry])%list).
  apply (main_outcome Q).
  { intros x y Hk [Hx|(l & entry & ? & ? & Hx)]; [left; congruence|right]. exists l, entry. by eauto using holds_agents_kept. }
  unfold run, run_registration. set (f := read_form (is_body i)).
  destruct (missing_fields f); [|left; apply fail_with_keeps].
  destruct (fetch_manifest urlparse resolve get (fm_manifest_url f)) as [x|m] eqn:Hm.
  { apply lift_then; [by left|]. intros error _. left. apply fail_with_keeps. }
  apply fetch_manifest_ok in Hm as [Hu Hv]. destruct (mismatches f (is_author i) (view m)) eqn:Hmis; [|left; apply fail_with_keeps].
  apply mismatches_nil in Hmis as (Hid & _ & Hsk & Hhttp & Hws).
  apply lift_then; [by left|]. intros unsafe Hun.
  destruct unsafe; [|left; apply fail_with_keeps].
  destruct (_append_unsafe_endpoint_errors _ _ _ _ _) as [e|un] eqn:Hen; [done|]. injection Hun as ->. apply unsafe_nil in Hen as [Hh Hw].
  unfold st_bind at 1, st_gets. apply lift_then; [by left|]. intros agents Hl. apply lift_then; [by left|]. intros items Hi.
  destruct (existing_ids items) as [ids|] eqn:Hx; [|by left].
  destruct (existsb _ ids) eqn:He; [left; apply fail_with_keeps|].
  destruct (build_entry f (view m)) as [e|entry] eqn:Hb; [left; apply fail_with_keeps|].
  destruct agents as [| | | | |l|]; try by left. injection Hi as ->.
  destruct (saved_outcome dk (is_now i) (items ++ [_entry_payload entry])%list true "" None s) as [Hk|Hs]; [by left|right].
  exists items, entry. split; [done|split; [|exact Hs]]. apply built_entry in Hb as (B1 & B2 & B3).
  exists m. cbn zeta. fold f. rewrite B1. split_and!; try done.
  - by eapply existing_ids_spec.
  - intros Hne. split; [by apply Hws|by apply Hw].
Qed.

End RegistrationFacts.

(** *** Removal *)
Lemma find_index_spec f l k x : find_index f l = Some (k, x) →
  ∃ before rest, l = (before ++ x :: rest)%list ∧ length before = k ∧ f x = true ∧ ∀ y, y ∈ before → f y = false.
Proof.
  revert k. induction l as [|y l IH]; intros k; cbn; [done|]. destruct (f y) eqn:E.
  - intros [= <- <-]. exists [], l. split_and!; try done. by intros ? ?%elem_of_nil.
  - destruct (find_index f l) as [[k' x']|]; [|done]. intros [= <- ->].
    destruct (IH k' eq_refl) as (b & r & -> & Hl & Hf & Hb). exists (y :: b), r. split_and!; try done; [cbn; lia|].
    intros z [->|Hz]%elem_of_cons; auto.
Qed.

(** An object that JSON gives has each key once. *)
Definition dict_wf (a : json) : Prop := match a with JObj d => PyDict.wf d | _ => True end.

Lemma eq_keys d e : PyDict.wf d → py_eq (JObj d) (JObj e) = true → PyDict.keys d ≡ₚ PyDict.keys e.
Proof.
  intros Hd Hq. cbn [py_eq] in Hq. apply andb_true_iff in Hq as [Hl%Nat.eqb_eq Hall]. rewrite forallb_forall in Hall.
  unfold PyDict.keys. apply submseteq_length_Permutation; [|rewrite !length_fmap; lia]. apply NoDup_submseteq; [done|].
  intros k ([k' v] & -> & Hi)%list_elem_of_fmap. specialize (Hall (k', v) (proj1 (list_elem_of_In _ _) Hi)). cbn [fst snd] in *.
  rewrite assoc_get in Hall. destruct (PyDict.get k' e) as [w|] eqn:E; [|done].
  apply PyDict.get_Some_elem in E. apply list_elem_of_fmap. by exists (k', w).
Qed.

(** An object equal to one with the id has the id. *)
Lemma equal_has_id id y x : dict_wf y → py_eq y x = true → has_id id x = true → has_id id y = true.
Proof.
  intros Hw. destruct x as [| | | | | |e]; try done. destruct y as [| | | | | |d]; try done. unfold has_id, j_get.
  intros Hq Hx. pose proof (eq_keys d e Hw Hq) as Hk. rewrite !assoc_get in *.
  destruct (PyDict.get "id" e) as [v|] eqn:He; [|done].
  assert (Hi : "id" ∈ PyDict.keys d).
  { rewrite Hk. apply PyDict.get_Some_elem in He. apply list_elem_of_fmap. by exists ("id", v). }
  destruct (PyDict.get "id" d) as [w|] eqn:Hd; [|by apply PyDict.get_None in Hd].
  cbn [py_eq] in Hq. apply andb_true_iff in Hq as [_ Hall]. rewrite forallb_forall in Hall.
  apply PyDict.get_Some_elem in Hd. specialize (Hall _ (proj1 (list_elem_of_In _ _) Hd)). cbn [fst snd] in Hall.
  rewrite assoc_get, He in Hall. destruct v; try done. apply String.eqb_eq in Hx as ->. done.
Qed.

Lemma list_remove_found id before x rest :
  Forall dict_wf before → has_id id x = true → (∀ y, y ∈ before → has_id id y = false) →
  list_remove (length before) x (before ++ x :: rest) = (before ++ rest)%list.
Proof.
  intros Hw Hx Hb. induction before as [|y before IH]; [done|]. apply Forall_cons in Hw as [Hy Hw]. cbn [length app list_remove].
  destruct (py_eq y x) eqn:E.
  - pose proof (equal_has_id id y x Hy E Hx) as Hid. rewrite Hb in Hid; [done|by left].
  - f_equal. apply IH; [done|]. intros z Hz. apply Hb. by right.
Qed.

(** Removal by issue takes out nothing but the author's own agent: the registry
    stays as it was, or loses exactly the first entry under the URN of the issue's
    author and the name asked for, the others keeping their order, under the
    version it had. *)
Theorem removal_removes_own_agent dk i s :
  (∀ l, load_registry (sf_registry s) = Ret (JList l) → Forall dict_wf l) →
  let s' := (script_main dk i (run_removal dk i) s).1 in
  kept s' = kept s ∨
  ∃ before a rest, let id := expected_id (is_author i) (field "name" (parse_removal (is_body i))) in
    load_registry (sf_registry s) = Ret (JList (before ++ a :: rest)%list)
    ∧ has_id id a = true ∧ (∀ b, b ∈ before → has_id id b = false)
    ∧ holds_agents s s' (before ++ rest)%list.
Proof.
  intros Hwf. cbn zeta. set (id := expected_id _ _).
  set (Q := λ x, kept x = kept s ∨ ∃ before a rest, load_registry (sf_registry s) = Ret (JList (before ++ a :: rest)%list)
    ∧ has_id id a = true ∧ (∀ b, b ∈ before → has_id id b = false) ∧ holds_agents s x (before ++ rest)%list).
  apply (main_outcome Q).
  { intros x y Hk [Hx|(b & a & r & ? & ? & ? & Hx)]; [left; congruence|right]. exists b, a, r. by eauto using holds_agents_kept. }
  unfold run_removal. fold id. destruct (PyStr.truthy _); cbn [negb]; [|left; apply fail_with_keeps].
  unfold st_bind at 1, st_gets. apply lift_then; [by left|]. intros agents Hl. apply lift_then; [by left|]. intros items Hi.
  destruct (find_index (has_id id) items) as [[k a]|] eqn:Hf; [|left; apply fail_with_keeps].
  apply find_index_spec in Hf as (before & rest & -> & <- & Ha & Hb).
  assert (agents = JList (before ++ a :: rest)%list) as ->.
  { destruct agents as [| | | |str|l|d]; try done; cbn in Hi; [|by injection Hi as ->|];
      injection Hi as Hi; exfalso; revert Ha; assert (Hin : a ∈ (before ++ a :: rest)%list) by set_solver; rewrite <- Hi in Hin;
      apply list_elem_of_fmap in Hin as (? & -> & _); done. }
  pose proof (Hwf _ Hl) as Hw. apply Forall_app in Hw as [Hw _].
  rewrite (list_remove_found id) by done.
  destruct (saved_outcome dk (is_now i) (before ++ rest)%list true "" None s) as [Hk|Hs]; [by left|right].
  exists before, a, rest. split; [done|split; [done|split; [done|exact Hs]]].
Qed.

(** *** Revocation *)
Definition listed (u : string) (l : list RevokedEntry) : bool := existsb (λ e, String.eqb (rv_urn e) u) l.

Lemma revoked_entry_urn j e u : revoked_entry j = Some e →
  match j with JObj x => py_eq (j_get "urn" x) (JStr u) | _ => false end = String.eqb (rv_urn e) u.
Proof.
  destruct j as [| | | | | |d]; try done. cbn [revoked_entry].
  destruct (j_get "urn" d); try done. destruct (j_get "reason" d); try done. destruct (j_get "revoked_at" d); try done.
  destruct (only_keys _ d); [|done]. by intros [= <-].
Qed.

Lemma revoked_list_listed j l u : revoked_list j = Some l → in_list u j = listed u (rl_revoked l).
Proof.
  assert (Hm : ∀ js es, mapM revoked_entry js = Some es →
    existsb (λ e, match e with JObj x => py_eq (j_get "urn" x) (JStr u) | _ => false end) js = listed u es).
  { intros js es He%mapM_Some. induction He as [|j' e js es He _ IH]; [done|]. cbn [existsb listed] in *.
    by rewrite (revoked_entry_urn _ _ _ He), IH. }
  destruct j as [| | | | | |d]; try done. cbn [revoked_list in_list].
  destruct (assoc "revoked" d) as [[]|]; try done; destruct (assoc "version" d) as [[]|]; try done;
    (destruct (only_keys _ d); [|done]); cbn [default];
    match goal with |- context [mapM revoked_entry ?x] => destruct (mapM revoked_entry x) as [es|] eqn:E; [|done] end;
    intros [= <-]; by apply Hm in E.
Qed.

Lemma payload_listed l u : in_list u (revoked_payload l) = listed u (rl_revoked l).
Proof.
  destruct l as [es version]. unfold listed. cbn [rl_revoked].
  change (existsb (λ e, match e with JObj x => py_eq (j_get "urn" x) (JStr u) | _ => false end) (map revoked_entry_payload es)
          = existsb (λ e, String.eqb (rv_urn e) u) es).
  induction es as [|e es IH]; [done|]. cbn [map existsb]. rewrite IH. done.
Qed.

Lemma load_revoked_listed j data u : load_revoked (Json j) = Ret data → in_list u data = in_list u j.
Proof.
  cbn. destruct j as [| | | | | |d]; cbn; try (by intros [= <-]).
  destruct (assoc "revoked" d) eqn:E; intros [= <-]; cbn; by rewrite ?E.
Qed.

(** A revocation by issue is seen by every client and is never undone.  The script
    leaves the revocation list as it was, or the URN of the issue, which is that of
    a registered agent, is added to it: a client that reads the file finds it
    revoked, every agent that was listed before is still listed, and no other was
    added.  The registry is not touched. *)
Theorem revocation_is_seen_and_kept dk shown i s :
  let s' := (script_main dk i (run_revocation dk shown i) s).1 in
  let urn := field "urn" (parse_revocation (is_body i)) in
  sf_registry s' = sf_registry s ∧
  (sf_revoked s' = sf_revoked s ∨
   ∃ j', sf_revoked s' = Json j' ∧ is_revoked urn None None (λ _, Got (Ret j')) = Ret true
     ∧ (∃ l, load_registry (sf_registry s) = Ret l ∧ (let! items := elements l in any_id urn items) = Ret true)
     ∧ (∀ u, in_list u j' = true ↔ u = urn ∨ match sf_revoked s with Json j => in_list u j = true | _ => False end)).
Proof.
  cbn zeta. set (urn := field "urn" _).
  set (Q := λ x, sf_registry x = sf_registry s ∧
    (sf_revoked x = sf_revoked s ∨
     ∃ j', sf_revoked x = Json j' ∧ is_revoked urn None None (λ _, Got (Ret j')) = Ret true
     ∧ (∃ l, load_registry (sf_registry s) = Ret l ∧ (let! items := elements l in any_id urn items) = Ret true)
     ∧ (∀ u, in_list u j' = true ↔ u = urn ∨ match sf_revoked s with Json j => in_list u j = true | _ => False end))).
  assert (Hkeep : ∀ x, kept x = kept s → Q x) by (intros x [= H1 H2 _]; split; [done|by left]).
  apply (main_outcome Q). { intros x y [= H1 H2 _]. unfold Q. by rewrite H1, H2. }
  unfold run_revocation. fold urn. set (reason := field "reason" _).
  destruct (_ ++ _)%list; [|apply Hkeep, fail_with_keeps].
  destruct (PyStr.startswith urn _); cbn [negb]; [|apply Hkeep, fail_with_keeps].
  unfold st_bind at 1, st_gets. apply lift_then; [by intros; apply Hkeep|]. intros agents Hl.
  apply lift_then; [by intros; apply Hkeep|]. intros items Hi. apply lift_then; [by intros; apply Hkeep|]. intros [] Ha;
    cbn [negb]; [|apply Hkeep, fail_with_keeps].
  unfold st_bind at 1. apply lift_then; [by intros; apply Hkeep|]. intros data Hd.
  destruct (revoked_list data) as [l|] eqn:Hr; [|apply Hkeep, fail_with_keeps].
  destruct (existsb _ (rl_revoked l)) eqn:Hx; [apply Hkeep, fail_with_keeps|].
  unfold st_bind, save_revoked. rewrite replace_file_out by done. destruct (disk_fails dk); [by apply Hkeep|].
  set (j' := revoked_payload _). set (s1 := set_revoked (Json j') s).
  pose proof (write_result_keeps dk true "" None s1) as Hk.
  destruct (write_validation_result dk true "" None s1) as [s2 r]. cbn [fst] in *. injection Hk as K1 K2 _.
  split; [done|right]. exists j'. rewrite K2.
  assert (Hj : ∀ u, in_list u j' = listed u (rl_revoked l) || String.eqb urn u).
  { intros u. unfold j'. rewrite payload_listed. cbn [rl_revoked]. unfold listed. rewrite existsb_app. cbn. by rewrite orb_false_r. }
  split_and!; [done| |exists agents; split; [done|]; rewrite Hi; exact Ha|].
  - change (Ret (E := exn) (in_list urn j') = Ret true). by rewrite Hj, String.eqb_refl, orb_true_r.
  - intros u. rewrite Hj, <- (revoked_list_listed _ _ u Hr), orb_true_iff, String.eqb_eq.
    assert (Hold : in_list u data = true ↔ match sf_revoked s with Json j => in_list u j = true | _ => False end).
    { destruct (sf_revoked s) as [| | | |j]; try done; [by injection Hd as <-|by rewrite (load_revoked_listed _ _ u Hd)]. }
    rewrite Hold. naive_solver.
Qed.

(** Unlike the other two, the script for revocations does not skip an element of
    the registry that is no object: with one before the agent it ends in an error,
    and the agent cannot be revoked. *)
Lemma odd_element_blocks_revocation dk shown i s agents x rest :
  load_registry (sf_registry s) = Ret agents → elements agents = Ret (x :: rest) → as_obj x = None →
  kept (script_main dk i (run_revocation dk shown i) s).1 = kept s.
Proof.
  intros Hl Hi Hx. rewrite main_keeps. unfold run_revocation.
  destruct (_ ++ _)%list; [|apply fail_with_keeps]. destruct (negb _); [apply fail_with_keeps|].
  unfold st_bind, st_gets, st_lift. rewrite Hl, Hi. by destruct x.
Qed.

(** ** Examples *)
Section Examples.
#[local] Existing Instance ToyCrypto.toy.
#[local] Instance demo_manifests : ManifestModels octets :=
  {| md_manifest := λ j, match j with JObj d => match j_get "id" d with JInt z => Ret [z] | _ => Raise "no id" end | _ => Raise "no object" end;
     md_signed := λ _, Raise "not signed" |}.

Definition good_disk : disk := mkDisk None None None None.
Definition form_body (fields : list (string * string)) : string :=
  String.concat newline (map (λ kv, "### " ++ kv.1 ++ newline ++ newline ++ kv.2 ++ newline) fields).
Definition demo_issue (fields : list (string * string)) : issue := mkIssue (form_body fields) "Ann" "ASAP-1-abc" "2026-01-01T00:00:00Z".
Definition demo_obj (id : string) : json := JObj [("id", JStr id)].
Definition demo_files (ids : list string) : files :=
  mkFiles (Json (JObj [("version", JStr " 2.0 "); ("agents", JList (map demo_obj ids))])) Missing Missing 0.

Definition removal_issue : issue := demo_issue [("Agent name (slug-friendly)", "pets")].

Example removal_run :
  script_main good_disk removal_issue (run_removal good_disk removal_issue)
    (demo_files ["urn:asap:agent:ann:cats"; "urn:asap:agent:ann:pets"; "urn:asap:agent:bob:pets"])
  = (mkFiles (Json (JObj [("version", JStr "2.0"); ("updated_at", JStr "2026-01-01T00:00:00Z");
                          ("agents", JList (map demo_obj ["urn:asap:agent:ann:cats"; "urn:asap:agent:bob:pets"]))]))
       Missing (Json (JObj [("valid", JBool true); ("errors", JStr "")])) 0, true).
Proof. vm_compute. reflexivity. Qed.

Lemma removal_removes_own_agent_witness :
  let s := demo_files ["urn:asap:agent:ann:pets"] in
  let s' := (script_main good_disk removal_issue (run_removal good_disk removal_issue) s).1 in
  kept s' = kept s ∨
  ∃ before a rest, let id := expected_id (is_author removal_issue) (field "name" (parse_removal (is_body removal_issue))) in
    load_registry (sf_registry s) = Ret (JList (before ++ a :: rest)%list)
    ∧ has_id id a = true ∧ (∀ b, b ∈ before → has_id id b = false)
    ∧ holds_agents s s' (before ++ rest)%list.
Proof.
  apply (removal_removes_own_agent good_disk removal_issue (demo_files ["urn:asap:agent:ann:pets"])).
  intros l [= <-]. repeat constructor. set_solver.
Defined.

Definition revocation_issue : issue := demo_issue [("Agent URN", "urn:asap:agent:bob:pets"); ("Reason", "spam")].

Example revocation_run :
  let s := demo_files ["urn:asap:agent:bob:pets"] in
  let '(s', ok) := script_main good_disk revocation_issue (run_revocation good_disk (λ _, "") revocation_issue) s in
  ok = true ∧ sf_revoked s' = Json (JObj [("revoked", JList [JObj [("urn", JStr "urn:asap:agent:bob:pets"); ("reason", JStr "spam");
                                                                   ("revoked_at", JStr "2026-01-01T00:00:00Z")]]); ("version", JStr "1.0")]).
Proof. vm_compute. split; reflexivity. Qed.

Definition registration_issue : issue :=
  demo_issue [("Agent name (slug-friendly)", "pets"); ("Manifest URL", "https://pets.example/m.json");
              ("HTTP Endpoint", "https://pets.example/asap"); ("Skills", "feed")].
Definition demo_register_issue (author : string) (s : files) : files * bool :=
  let i := mkIssue (is_body registration_issue) author "ASAP-1-abc" "2026-01-01T00:00:00Z" in
  script_main good_disk i
    (run_registration (M := octets)
       (λ _, mkView "urn:asap:agent:ann:pets" "pets" "an agent" ["feed"; "walk"] "2.1" None None "https://pets.example/asap" None)
       (λ _, Ret (mkUrl "https" (Some "pets.example"))) (λ _ u, u) (λ _, Some ["93.184.216.34"])
       (λ _, ManifestJson (JObj [("id", JInt 1)])) (λ _, "1") good_disk i) s.

(** The author's case does not matter; another author cannot register the agent. *)
Example registration_run :
  let s := demo_files ["urn:asap:agent:bob:pets"] in
  (∃ entry, load_registry (sf_registry (demo_register_issue "Ann" s).1)
            = Ret (JList [demo_obj "urn:asap:agent:bob:pets"; _entry_payload entry]) ∧ re_id entry = "urn:asap:agent:ann:pets")
  ∧ kept (demo_register_issue "Bob" s).1 = kept s.
Proof.
  cbn zeta. split; [|vm_compute; reflexivity].
  exists (mkEntry "urn:asap:agent:ann:pets" "pets" "an agent"
            [("http", "https://pets.example/asap"); ("manifest", "https://pets.example/m.json")] ["feed"; "walk"] None [] "2.1"
            None None None None None None [] []).
  split; vm_compute; reflexivity.
Qed.

End Examples.
