(* ===== verification/Telemetry.v ===== *)
(** * Adoption telemetry

    `src/scripts/telemetry/`: the collectors (`collect_npm.py`, `collect_pypi.py`,
    `collect_github.py`, `collect_registry.py`) and `aggregate.py`, which joins
    them into a weekly snapshot, checks it against a JSON Schema, and renders a
    dashboard from the snapshots of past weeks.

    The answer to a request is an input ([net]), and every request is logged with
    the bearer token it carries.  `pypistats` is a parameter; so are `urlparse`,
    the resolver and `quote`.  A date is its ISO text, which orders as the date
    does.  The directory is a dictionary from file names to files ([file] of
    [RegistryPr]); its order is that of `glob`, which is left open.  The schema
    validator is written out for the keywords the schema uses.  Argument parsing
    and the stand-alone `main` of each collector are left out. *)

From Stdlib Require Import ZArith QArith Lia Ascii String.
From stdpp Require Import base tactics list gmap strings sorting.
From S2P Require Import Prelude PyValue Identity Errors Digest IsoText Handlers JsonRpc Signing Discovery Webhook Client OpenApiHandler Market AutoRegistration RegistryPr IssueText IssueOps.
Open Scope string_scope.
Open Scope Z_scope.
Open Scope asap_scope.
Import SafeUrl.

(** ** Values *)

(** `isinstance(x, int)`, which a `bool` passes. *)
Definition as_int (j : json) : option Z :=
  match j with JInt z => Some z | JBool b => Some (if b then 1 else 0) | _ => None end.
Definition is_int (j : json) : bool := is_some (as_int j).
Definition int_val (j : json) : Z := default 0 (as_int j).
(** An f-string of it. *)
Definition int_text (j : json) : string :=
  match j with JBool true => "True" | JBool false => "False" | _ => PyStr.dec_Z (int_val j) end.
(** `d.get(k)` where [d] may be no dictionary *)
Definition get_obj (k : string) (d : list (string * json)) : option (list (string * json)) := as_obj (j_get k d).

Definition sumZ (l : list Z) : Z := foldr Z.add 0 l.

(** ** Requests *)
Record request : Type := mkReq { rq_url : string; rq_bearer : option string }.

Inductive reply : Type :=
| ReplyRaises (e : exn)
| ReplyRedirect
| ReplyStatus (status : Z)
| ReplyNotJson (text : string)
| ReplyJson (j : json).

(** Exceptions that `except httpx.HTTPError` catches. *)
Definition is_http_error (x : exn) : bool :=
  match x with XOther name _ => str_in name ["HTTPError"; "HTTPStatusError"; "ConnectError"; "TimeoutException"] | _ => false end.
(** `except ValueError`, which `JSONDecodeError` passes. *)
Definition is_value_exn (x : exn) : bool := match x with XOther name _ => is_value_error name | _ => false end.

Section Collectors.
  Context `{PyRuntime} (net : request → reply).

Abbreviation web A := (ST (list request) exn A).

Definition send (r : request) : web reply :=
  run! st_modify (λ log, log ++ [r])%list in st_ret (net r).

(** `raise_for_status` and `json` *)
Definition body_of (r : reply) : res exn json :=
  match r with
  | ReplyRaises e => Raise e
  | ReplyRedirect => Raise (XOther "HTTPStatusError" "Redirect response")
  | ReplyStatus status => Raise (http_status_error status)
  | ReplyNotJson text => Raise (XOther "JSONDecodeError" text)
  | ReplyJson j => Ret j
  end.

Definition get_json (r : request) : web json := do! x <- send r in st_lift (body_of x).

(** *** npm *)
Definition DEFAULT_PACKAGES : list string := ["@asap-protocol/client"; "@asap-protocol/mastra"; "@asap-protocol/openai-agents"].
Definition DEFAULT_PERIOD : string := "last-week".

Section Npm.
  Context (quote : string → string).

Definition _downloads_url (package period : string) : string :=
  "https://api.npmjs.org/downloads/range" ++ "/" ++ period ++ "/" ++ quote package.

(** `isdigit` accepts superscripts, which `int` refuses. *)
Definition digits_int (s : string) : res exn Z :=
  if (INT_MAX_STR_DIGITS <? String.length s)%nat then Raise (value_error "Exceeds the limit (4300 digits) for integer string conversion")
  else if forallb is_digit (list_ascii_of_string s) then Ret (digits_value 0 s)
  else Raise (value_error ("invalid literal for int() with base 10: " ++ repr_str s)).
Definition isdigit_text (s : string) : bool := PyStr.truthy s && all_digits s.

Fixpoint sum_rows (rows : list json) (total : Z) : res exn Z :=
  match rows with
  | [] => Ret total
  | JObj row :: rest =>
      match j_get "downloads" row with
      | JStr s => if isdigit_text s then let! n := digits_int s in sum_rows rest (total + n) else sum_rows rest total
      | n => sum_rows rest (total + int_val n)
      end
  | _ :: rest => sum_rows rest total
  end.

Definition sum_downloads_from_range_payload (payload : json) : res exn Z :=
  match payload with
  | JObj d =>
      match assoc "error" d with
      | Some err => Raise (value_error ("npm API error: " ++ py_str float_repr err))
      | None =>
          match j_get "downloads" d with
          | JList rows => sum_rows rows 0
          | _ => Raise (value_error "npm API response missing 'downloads' array")
          end
      end
  | _ => Raise (value_error "npm API response must be a JSON object")
  end.

Definition fetch_last_week_downloads (package period : string) : web (list (string * json)) :=
  do! payload <- get_json (mkReq (_downloads_url package period) None) in
  do! count <- st_lift (sum_downloads_from_range_payload payload) in
  st_ret [("package", JStr package); ("period", JStr period); ("downloads", JInt count)].

(** The loop of a collector: one result per package, under its name. *)
Fixpoint collect_each (fetch : string → web (list (string * json))) (packages : list string) (results : list (string * json)) :
    web (list (string * json)) :=
  match packages with
  | [] => st_ret results
  | pkg :: rest => do! r <- fetch pkg in collect_each fetch rest (PyDict.set pkg (JObj r) results)
  end.

Definition collect_npm_weekly (now : string) (packages : list string) : web (list (string * json)) :=
  do! results <- collect_each (λ pkg, fetch_last_week_downloads pkg DEFAULT_PERIOD) packages [] in
  st_ret [("source", JStr "npm_downloads_api"); ("period", JStr DEFAULT_PERIOD); ("collected_at", JStr now); ("packages", JObj results)].

End Npm.

(** *** PyPI *)
Definition DEFAULT_PYPI_PACKAGES : list string := ["asap-protocol"; "asap-compliance"].
Definition _RECENT_KEYS : list string := ["last_day"; "last_week"; "last_month"].

(** `s.replace(",", "")` *)
Fixpoint drop_commas (s : string) : string :=
  match s with EmptyString => "" | String c s' => if Ascii.eqb c "," then drop_commas s' else String c (drop_commas s') end.

(** `int(val)` of a float: towards zero *)
Definition int_of_float (f : pyfloat) : res exn Z :=
  match f with
  | FFin q => Ret (Z.quot (Qnum q) (Zpos (Qden q)))
  | FInf _ => Raise (XOther "OverflowError" "cannot convert float infinity to integer")
  | FNan => Raise (value_error "cannot convert float NaN to integer")
  end.

Definition recent_count (key : string) (v : json) : res exn Z :=
  match v with
  | JInt z => Ret z
  | JFloat f => int_of_float f
  | JStr s =>
      let stripped := PyStr.strip (drop_commas s) in
      if negb (isdigit_text stripped) then Raise (value_error ("pypistats recent " ++ repr_str key ++ " is not an integer string"))
      else digits_int stripped
  | _ => Raise (value_error ("pypistats recent " ++ repr_str key ++ " must be numeric"))
  end.

Fixpoint normalize_keys (keys : list string) (data : list (string * json)) : res exn (list (string * json)) :=
  match keys with
  | [] => Ret []
  | key :: rest =>
      match assoc key data with
      | None => Raise (value_error ("pypistats recent data missing key " ++ repr_str key))
      | Some v => let! n := recent_count key v in let! out := normalize_keys rest data in Ret ((key, JInt n) :: out)
      end
  end.

Definition normalize_recent_counts (data : json) : res exn (list (string * json)) :=
  match data with
  | JObj d => normalize_keys _RECENT_KEYS d
  | _ => Raise (value_error "pypistats recent 'data' must be a JSON object")
  end.

Section Pypi.
  (** `pypistats.recent(package, format="json")`, and the JSON of a text *)
  Context (recent : string → res exn (string + json)) (loads : string → option json).

Definition recent_payload (raw : string + json) : res exn json :=
  match raw with
  | inr j => Ret j
  | inl text =>
      if negb (PyStr.startswith (PyStr.strip text) "{") then Raise (value_error ("pypistats API: " ++ text))
      else match loads text with Some j => Ret j | None => Raise (XOther "JSONDecodeError" text) end
  end.

Definition fetch_pypi_recent (package : string) : res exn (list (string * json)) :=
  let! raw := recent package in
  let! payload := recent_payload raw in
  match payload with
  | JObj d =>
      let name := j_get "package" d in
      if negb (py_eq name (JStr package)) then
        Raise (value_error ("pypistats package mismatch: expected " ++ repr_str package ++ ", got " ++ py_repr float_repr name))
      else
        let! counts := normalize_recent_counts (j_get "data" d) in
        Ret [("package", JStr package); ("downloads", JObj counts)]
  | _ => Raise (value_error "pypistats JSON response must be an object")
  end.

Definition collect_pypi_recent (now : string) (packages : list string) : web (list (string * json)) :=
  do! results <- collect_each (λ pkg, st_lift (fetch_pypi_recent pkg)) packages [] in
  st_ret [("source", JStr "pypistats_recent"); ("collected_at", JStr now); ("packages", JObj results)].

End Pypi.

(** *** GitHub *)
Definition DEFAULT_ADAPTER_LABEL : string := "adapter-request".
Definition GITHUB_API_BASE : string := "https://api.github.com".

Section GitHub.
  Context (owner repo token : string).

(** The client's base URL and headers. *)
Definition github_get (path : string) : web json :=
  get_json (mkReq (GITHUB_API_BASE ++ "/repos/" ++ owner ++ "/" ++ repo ++ path) (Some token)).

Fixpoint summary_counts (keys : list string) (payload : list (string * json)) : res exn (list (string * json)) :=
  match keys with
  | [] => Ret []
  | key :: rest =>
      let raw := j_get key payload in
      if negb (is_int raw) then Raise (value_error ("GitHub /repos missing or invalid integer " ++ repr_str key))
      else let! out := summary_counts rest payload in Ret ((key, raw) :: out)
  end.

Definition fetch_repo_summary : web (list (string * json)) :=
  do! payload <- github_get "" in
  st_lift (match payload with
           | JObj d => summary_counts ["stargazers_count"; "forks_count"; "open_issues_count"; "watchers_count"] d
           | _ => Raise (value_error "GitHub /repos response must be a JSON object")
           end).

Definition fetch_traffic_clones : web (list (string * json)) :=
  do! payload <- github_get "/traffic/clones" in
  st_lift (match payload with
           | JObj d =>
               let count := j_get "count" d in
               let uniques := j_get "uniques" d in
               if negb (is_int count) || negb (is_int uniques) then Raise (value_error "GitHub /traffic/clones missing count or uniques")
               else match j_get "clones" d with
                    | JList clones => Ret [("count", count); ("uniques", uniques); ("clones", JList clones)]
                    | _ => Raise (value_error "GitHub /traffic/clones missing clones array")
                    end
           | _ => Raise (value_error "GitHub /traffic/clones response must be a JSON object")
           end).

Definition referrer_row (item : json) : option json :=
  match item with
  | JObj d =>
      let views := j_get "views" d in
      let uniq := j_get "uniques" d in
      match j_get "referrer" d with
      | JStr ref => if is_int views && is_int uniq then Some (JObj [("referrer", JStr ref); ("views", views); ("uniques", uniq)]) else None
      | _ => None
      end
  | _ => None
  end.

Definition fetch_popular_referrers : web (list json) :=
  do! payload <- github_get "/traffic/popular/referrers" in
  st_lift (match payload with
           | JList items => Ret (omap referrer_row items)
           | _ => Raise (value_error "GitHub /traffic/popular/referrers must be a JSON array")
           end).

(** An object that is not a pull request. *)
Definition issue_object (item : json) : option (list (string * json)) :=
  match item with
  | JObj d => match assoc "pull_request" d with Some _ => None | None => Some d end
  | _ => None
  end.

Definition issues_path (label : string) (page : nat) : string :=
  "/issues?state=open&labels=" ++ label ++ "&per_page=100&page=" ++ PyStr.dec_Z (Z.of_nat page).

(** `while True` over the pages; [None]: out of fuel. *)
Fixpoint issue_pages (fuel page : nat) (label : string) (out : list (list (string * json))) :
    web (option (list (list (string * json)))) :=
  match fuel with
  | O => st_ret None
  | S fuel =>
      do! payload <- github_get (issues_path label page) in
      match payload with
      | JList [] => st_ret (Some out)
      | JList items =>
          let out := (out ++ omap issue_object items)%list in
          if (length items <? 100)%nat then st_ret (Some out) else issue_pages fuel (S page) label out
      | _ => st_stop (value_error "GitHub /issues response must be a JSON array")
      end
  end.

Definition fetch_open_labeled_issues (fuel : nat) (label : string) : web (option (list (list (string * json)))) :=
  issue_pages fuel 1 label [].

End GitHub.

(** *** Frameworks named in issues *)

(** The part of regular expressions the two patterns use, matched greedily with
    backtracking; [k] is what has to match behind. *)
Inductive re : Type :=
| One (p : ascii → bool)
| Many (p : ascii → bool)
| Seq (a b : re)
| Opt (a : re).

Fixpoint many {A} (p : ascii → bool) (s : string) (k : string → option A) : option A :=
  match s with
  | String c s' => if p c then match many p s' k with Some r => Some r | None => k s end else k s
  | EmptyString => k s
  end.

Fixpoint re_run {A} (r : re) (s : string) (k : string → option A) : option A :=
  match r with
  | One p => match s with String c s' => if p c then k s' else None | EmptyString => None end
  | Many p => many p s k
  | Seq a b => re_run a s (λ s', re_run b s' k)
  | Opt a => match re_run a s k with Some x => Some x | None => k s end
  end.

Definition plus (p : ascii → bool) : re := Seq (One p) (Many p).
(** A literal, in any case. *)
Fixpoint lit (s : string) : re :=
  match s with
  | EmptyString => Many (λ _, false)
  | String c "" => One (λ x, Ascii.eqb (PyStr.lower_char x) (PyStr.lower_char c))
  | String c s' => Seq (One (λ x, Ascii.eqb (PyStr.lower_char x) (PyStr.lower_char c))) (lit s')
  end.

(** `(.+)$`: the rest of the line, if there is any. *)
Definition rest_of_line (s : string) : option string :=
  let line := (partition_line s).1 in if PyStr.truthy line then Some line else None.

(** `re.search` of a pattern that starts with `^`, in multi-line mode. *)
Fixpoint search_lines (r : re) (bol : bool) (s : string) : option string :=
  match (if bol then re_run r s rest_of_line else None) with
  | Some x => Some x
  | None => match s with EmptyString => None | String c s' => search_lines r (Ascii.eqb c lf) s' end
  end.

Definition space : re := Many PyStr.is_space.
(** `^###\s*Framework(?:\s+name)?\s*\n+\s*(.+)$` *)
Definition _FRAMEWORK_HEADING_RE : re :=
  Seq (lit "###") (Seq space (Seq (lit "Framework") (Seq (Opt (Seq (plus PyStr.is_space) (lit "name")))
    (Seq space (Seq (plus (Ascii.eqb lf)) space))))).
(** `^\s*Framework\s*:\s*(.+)$` *)
Definition _FRAMEWORK_LINE_RE : re := Seq space (Seq (lit "Framework") (Seq space (Seq (lit ":") space))).

Definition parse_framework_from_issue_body (body : string) : option string :=
  if negb (PyStr.truthy body) || negb (PyStr.truthy (PyStr.strip body)) then None
  else
    match search_lines _FRAMEWORK_HEADING_RE true body with
    | Some x => Some (PyStr.strip x)
    | None => option_map PyStr.strip (search_lines _FRAMEWORK_LINE_RE true body)
    end.

Definition slug_char (c : ascii) : bool :=
  let n := PyStr.code c in ((97 <=? n) && (n <=? 122) || (48 <=? n) && (n <=? 57))%nat.
(** `re.sub(r"[^a-z0-9]+", "-", s)` *)
Fixpoint slugged (in_run : bool) (s : string) : string :=
  match s with
  | EmptyString => ""
  | String c s' => if slug_char c then String c (slugged false s') else if in_run then slugged true s' else String "-" (slugged true s')
  end.

Definition slug_framework_label (raw : string) : string :=
  let s := PyStr.rstrip_char "-" (lstrip_dashes (slugged false (PyStr.lower (PyStr.strip raw)))) in
  if PyStr.truthy s then s else "unknown".

(** One issue: a count per framework, and how many could not be read. *)
Definition count_issue (acc : list (string * Z) * Z) (issue : list (string * json)) : list (string * Z) * Z :=
  let body_str := match j_get "body" issue with JStr s => s | _ => "" end in
  match parse_framework_from_issue_body body_str with
  | None => (acc.1, acc.2 + 1)
  | Some parsed =>
      let key := slug_framework_label parsed in
      (PyDict.set key (default 0 (PyDict.get key acc.1) + 1) acc.1, acc.2)
  end.

Definition key_le (a b : string * Z) : Prop := String.leb a.1 b.1 = true.
#[local] Instance key_le_dec a b : Decision (key_le a b).
Proof. unfold key_le. apply _. Defined.

Definition counts_json (d : list (string * Z)) : json := JObj (map (λ kv, (kv.1, JInt kv.2)) d).

Definition summarize_adapter_requests (issues : list (list (string * json))) : list (string * json) :=
  let '(by_framework, unparsed) := fold_left count_issue issues ([], 0) in
  ([("label", JStr DEFAULT_ADAPTER_LABEL); ("open_count", JInt (Z.of_nat (length issues)));
    ("by_framework", counts_json (PySort.sorted key_le by_framework))]
     ++ (if unparsed =? 0 then [] else [("unparsed_open_count", JInt unparsed)]))%list.

(** [fuel]: how many pages of issues are read at most. *)
Definition collect_github_signals (fuel : nat) (now owner repo token : string) : web (option (list (string * json))) :=
  do! repo_summary <- fetch_repo_summary owner repo token in
  do! clone_stats <- fetch_traffic_clones owner repo token in
  do! referrers <- fetch_popular_referrers owner repo token in
  do! issues <- fetch_open_labeled_issues owner repo token fuel DEFAULT_ADAPTER_LABEL in
  st_ret (option_map (λ issues,
    [("source", JStr "github_rest_api"); ("repository", JStr (owner ++ "/" ++ repo)); ("collected_at", JStr now);
     ("repo", JObj repo_summary); ("traffic_clones", JObj clone_stats); ("traffic_referrers", JList referrers);
     ("adapter_requests", JObj (summarize_adapter_requests issues))]) issues).

(** *** The registry *)
Definition count_registry_agents (raw : json) : res exn Z :=
  let refused := Raise (value_error "registry must be a JSON array or an object with an 'agents' array") in
  match raw with
  | JList l => Ret (Z.of_nat (length l))
  | JObj d => match j_get "agents" d with JList agents => Ret (Z.of_nat (length agents)) | _ => refused end
  | _ => refused
  end.

Definition detect_registry_format (raw : json) : res exn string :=
  match raw with
  | JList _ => Ret "array"
  | JObj d => match j_get "agents" d with JList _ => Ret "lite_registry" | _ => Raise (value_error "unsupported registry shape") end
  | _ => Raise (value_error "unsupported registry shape")
  end.

Definition resolve_previous_agent_count (raw : json) : res exn Z :=
  match raw with
  | JObj d => match as_int (j_get "agent_count" d) with Some previous => Ret previous | None => count_registry_agents raw end
  | _ => count_registry_agents raw
  end.

Definition collect_registry_snapshot (now : string) (raw : json) (registry_ref : string) (previous_count : option Z) :
    res exn (list (string * json)) :=
  let! count := count_registry_agents raw in
  let! fmt := detect_registry_format raw in
  let opt_int (o : option Z) := match o with Some z => JInt z | None => JNull end in
  Ret [("source", JStr "registry_mirror"); ("registry_ref", JStr registry_ref); ("format", JStr fmt); ("collected_at", JStr now);
       ("agent_count", JInt count); ("previous_agent_count", opt_int previous_count);
       ("growth", opt_int (option_map (λ p, count - p) previous_count))].

(** What the code reads of `urlparse(url)`: scheme and netloc. *)
Context (urlsplit : string → res pyexn url3) (urlparse : string → res pyexn url_parts) (resolve : string → option (list string)).

Definition py {A} (r : res pyexn A) : res exn A := match r with Ret a => Ret a | Raise e => Raise (of_pyexn e) end.

(** The three checks of a URL, with the texts of their errors. *)
Definition public_https (url no_https no_host unsafe : string) : res exn unit :=
  let! parsed := py (urlsplit url) in
  if negb (String.eqb (u3_scheme parsed) "https") then Raise (value_error no_https)
  else if negb (PyStr.truthy (u3_netloc parsed)) then Raise (value_error no_host)
  else
    let! safe := py (is_safe_http_url urlparse resolve url) in
    if safe then Ret tt else Raise (value_error unsafe).

Definition fetch_registry_json (url : string) : web json :=
  run! st_lift (public_https url "registry fetch requires https://" "registry URL must include a host" ("blocked registry URL: " ++ url)) in
  do! response <- send (mkReq url None) in
  st_lift (match response with
           | ReplyRedirect => Raise (value_error "registry URL must not redirect (use the final HTTPS URL)")
           | r => body_of r
           end).

(** *** The site *)
Definition validate_site_endpoint (endpoint : string) : res exn unit :=
  public_https endpoint "TELEMETRY_SITE_ENDPOINT must use https://" "TELEMETRY_SITE_ENDPOINT must include a host"
    "TELEMETRY_SITE_ENDPOINT must be a public HTTPS URL".

Definition no_ctr : list (string * json) := [("ctr_per_cta", JObj []); ("fetch_error", JBool true)].

(** What is made of the answer. *)
Definition site_details_of (response : reply) : res exn (list (string * json)) :=
  match response with
  | ReplyRedirect => Raise (value_error "TELEMETRY_SITE_ENDPOINT must not redirect when sending Authorization")
  | ReplyNotJson _ => Ret no_ctr
  | r =>
      match body_of r with
      | Raise e => if is_value_exn e then Raise e else if is_http_error e then Ret no_ctr else Raise e
      | Ret (JObj payload) =>
          match j_get "site" payload with
          | JObj site => Ret (match j_get "ctr_per_cta" site with JObj _ => site | _ => no_ctr end)
          | _ => Ret no_ctr
          end
      | Ret _ => Ret no_ctr
      end
  end.

Definition fetch_site_ctr (endpoint bearer : string) : web (list (string * json)) :=
  run! st_lift (validate_site_endpoint endpoint) in
  do! response <- send (mkReq endpoint (Some bearer)) in
  st_lift (site_details_of response).

End Collectors.

(** ** Snapshots *)

(** `"type": "integer"`: not a `bool`, and a float without fraction passes. *)
Definition schema_integer (j : json) : bool :=
  match j with
  | JInt _ => true
  | JFloat (FFin q) => Z.rem (Qnum q) (Zpos (Qden q)) =? 0
  | _ => false
  end.
Definition schema_string (j : json) : bool := match j with JStr _ => true | _ => false end.
Definition schema_bool (j : json) : bool := match j with JBool _ => true | _ => false end.
(** An object with its required keys, whose properties, where present, pass. *)
Definition schema_object (required : list string) (properties : list (string * (json → bool))) (j : json) : bool :=
  match j with
  | JObj d => forallb (λ k, is_some (assoc k d)) required
              && forallb (λ p, match assoc p.1 d with Some v => p.2 v | None => true end) properties
  | _ => false
  end.
(** `"additionalProperties": {"type": "integer"}` *)
Definition schema_counts (j : json) : bool :=
  match j with JObj d => forallb (λ kv, schema_integer kv.2) d | _ => false end.
Definition any_object (j : json) : bool := match j with JObj _ => true | _ => false end.

Definition site_properties : list (string * (json → bool)) :=
  [("ctr_per_cta", any_object); ("fetch_error", schema_bool); ("note", schema_string); ("skipped", schema_bool); ("reason", schema_string)].

Definition SNAPSHOT_SCHEMA : json → bool :=
  schema_object ["snapshot_version"; "collected_at"; "npm"; "pypi"; "github"; "registry"; "site"; "adapter_requests"]
    [("snapshot_version", λ j, schema_integer j && py_eq j (JInt 1));
     ("collected_at", λ j, match j with JStr s => (10 <=? String.length s)%nat | _ => false end);
     ("npm", schema_counts);
     ("pypi", schema_object ["packages"] [("packages", any_object)]);
     ("github", schema_object ["adapter_requests"] [("adapter_requests", schema_object ["by_framework"] [("by_framework", schema_counts)])]);
     ("registry", schema_object ["agent_count"] [("agent_count", schema_integer)]);
     ("site", schema_object ["ctr_per_cta"] site_properties);
     ("adapter_requests", schema_counts)].

Definition validate_snapshot (instance : list (string * json)) : bool := SNAPSHOT_SCHEMA (JObj instance).

(** *** The directory *)
Definition dir : Type := list (string * file).

Definition all_of (p : ascii → bool) (s : string) : bool := forallb p (list_ascii_of_string s).

(** `^snapshot-(\d{4}-\d{2}-\d{2})\.json$` on a name of the glob: the text of the date. *)
Definition snapshot_name (name : string) : option string :=
  let d := String.substring 9 10 name in
  if (String.length name =? 24)%nat && String.eqb (String.substring 0 9 name) "snapshot-" && String.eqb (String.substring 19 5 name) ".json"
     && all_of is_digit (String.substring 0 4 d) && String.eqb (String.substring 4 1 d) "-"
     && all_of is_digit (String.substring 5 2 d) && String.eqb (String.substring 7 1 d) "-" && all_of is_digit (String.substring 8 2 d)
  then Some d else None.

Definition is_leap (y : Z) : bool := (y mod 4 =? 0) && (negb (y mod 100 =? 0) || (y mod 400 =? 0)).
Definition month_days (y m : Z) : Z :=
  if m =? 2 then (if is_leap y then 29 else 28) else if existsb (Z.eqb m) [4; 6; 9; 11] then 30 else 31.

(** `date.fromisoformat` of a text of that form *)
Definition date_of (d : string) : res exn string :=
  let y := digits_value 0 (String.substring 0 4 d) in
  let m := digits_value 0 (String.substring 5 2 d) in
  let day := digits_value 0 (String.substring 8 2 d) in
  if (1 <=? y) && (1 <=? m) && (m <=? 12) && (1 <=? day) && (day <=? month_days y m) then Ret d
  else Raise (value_error ("Invalid isoformat string: " ++ repr_str d)).

Definition date_le (a b : string * file) : Prop := String.leb a.1 b.1 = true.
#[local] Instance date_le_dec a b : Decision (date_le a b).
Proof. unfold date_le. apply _. Defined.

(** The files the glob `snapshot-*.json` gives, in its order. *)
Fixpoint dated (files : dir) : res exn (list (string * file)) :=
  match files with
  | [] => Ret []
  | (name, f) :: rest =>
      if String.eqb name "snapshot-latest.json" then dated rest
      else match snapshot_name name with
           | None => dated rest
           | Some d => let! day := date_of d in let! rows := dated rest in Ret ((day, f) :: rows)
           end
  end.

Definition list_snapshot_files (output_dir : dir) : res exn (list (string * file)) :=
  let! rows := dated output_dir in Ret (PySort.sorted date_le rows).

Definition resolve_previous_snapshot_path (output_dir : dir) (current : string) : res exn (option file) :=
  let! rows := list_snapshot_files output_dir in
  Ret (last (map snd (List.filter (λ r, String.ltb r.1 current) rows))).

(** Errors of the disk and of JSON give none; others escape. *)
Definition registry_count_from_snapshot (f : file) : res exn (option Z) :=
  match f with
  | Missing | Unreadable _ | NotJson _ => Ret None
  | NotUtf8 e => Raise (XOther "UnicodeDecodeError" e)
  | Json (JObj raw) => Ret (match get_obj "registry" raw with Some reg => as_int (j_get "agent_count" reg) | None => None end)
  | Json _ => Ret None
  end.

(** *** Summaries *)
Definition build_npm_summary (report : list (string * json)) : list (string * json) :=
  match get_obj "packages" report with
  | None => []
  | Some pkgs =>
      fold_left (λ out kv, match kv.2 with
                           | JObj body => let dl := j_get "downloads" body in if is_int dl then PyDict.set kv.1 dl out else out
                           | _ => out
                           end) pkgs []
  end.

(** `key=lambda kv: (-kv[1], kv[0])` *)
Definition count_le (a b : string * json) : Prop :=
  (int_val b.2 <? int_val a.2) || ((int_val a.2 =? int_val b.2) && String.leb a.1 b.1) = true.
#[local] Instance count_le_dec a b : Decision (count_le a b).
Proof. unfold count_le. apply _. Defined.

Definition adapter_counts (block : list (string * json)) : list (string * json) :=
  let out := match get_obj "by_framework" block with
             | Some by_fw => fold_left (λ out kv, if is_int kv.2 then PyDict.set kv.1 kv.2 out else out) by_fw []
             | None => []
             end in
  let unparsed := j_get "unparsed_open_count" block in
  if is_int unparsed && (0 <? int_val unparsed) then PyDict.set "_unparsed" unparsed out else out.

Definition flatten_adapter_request_counts (github_report : list (string * json)) : list (string * json) :=
  match get_obj "adapter_requests" github_report with
  | None => []
  | Some block => PySort.sorted count_le (adapter_counts block)
  end.

Definition sum_npm_weekly_downloads (raw_hist : list (string * json)) : Z :=
  match get_obj "npm" raw_hist with Some npm_vals => sumZ (map (λ kv, int_val kv.2) npm_vals) | None => 0 end.

Definition last_week (pkg_val : json) : option Z :=
  match pkg_val with
  | JObj pkg => match get_obj "downloads" pkg with Some dl => as_int (j_get "last_week" dl) | None => None end
  | _ => None
  end.

Definition sum_pypi_last_week (raw_hist : list (string * json)) : option Z :=
  match get_obj "pypi" raw_hist with
  | None => None
  | Some pypi_obj =>
      match get_obj "packages" pypi_obj with
      | None => None
      | Some pkgs => match omap (λ kv, last_week kv.2) pkgs with [] => None | found => Some (sumZ found) end
      end
  end.

Definition placeholder (owner repo reason : string) : list (string * json) :=
  [("source", JStr "github_rest_api"); ("skipped", JBool true); ("reason", JStr reason); ("repository", JStr (owner ++ "/" ++ repo));
   ("adapter_requests", JObj [("label", JStr "adapter-request"); ("open_count", JInt 0); ("by_framework", JObj [])])].

(** *** The dashboard *)
Definition dash : string := "—".

Definition opt_cell (o : option json) : string := match o with Some j => int_text j | None => dash end.
(** The integer under a key of an object under keys, if it is one. *)
Fixpoint int_at (path : list string) (key : string) (d : list (string * json)) : option json :=
  match path with
  | [] => let v := j_get key d in if is_int v then Some v else None
  | k :: path' => match get_obj k d with Some d' => int_at path' key d' | None => None end
  end.

(** One row of the table; [None]: the file cannot be read as an object. *)
Definition history_row (snap_date : string) (f : file) : res exn (option string) :=
  match f with
  | Missing | Unreadable _ | NotJson _ => Ret None
  | NotUtf8 e => Raise (XOther "UnicodeDecodeError" e)
  | Json (JObj raw_hist) =>
      Ret (Some ("| " ++ snap_date ++ " | " ++ PyStr.dec_Z (sum_npm_weekly_downloads raw_hist) ++ " | "
                   ++ match sum_pypi_last_week raw_hist with Some z => PyStr.dec_Z z | None => dash end ++ " | "
                   ++ opt_cell (int_at ["github"; "repo"] "stargazers_count" raw_hist) ++ " | "
                   ++ opt_cell (int_at ["registry"] "agent_count" raw_hist) ++ " |"))
  | Json _ => Ret None
  end.

Fixpoint history_rows (selected : list (string * file)) : res exn (list string) :=
  match selected with
  | [] => Ret []
  | (d, f) :: rest =>
      let! row := history_row d f in
      let! rows := history_rows rest in
      Ret (match row with Some r => r :: rows | None => rows end)
  end.

(** `key=lambda kv: (kv[0] == "_unparsed", -kv[1], kv[0])` *)
Definition is_unparsed (kv : string * json) : bool := String.eqb kv.1 "_unparsed".
Definition shown_le (a b : string * json) : Prop :=
  (negb (is_unparsed a) && is_unparsed b) || (Bool.eqb (is_unparsed a) (is_unparsed b) && bool_decide (count_le a b)) = true.
#[local] Instance shown_le_dec a b : Decision (shown_le a b).
Proof. unfold shown_le. apply _. Defined.

Definition adapter_lines (snapshot : list (string * json)) : list string :=
  let counts := default [] (get_obj "adapter_requests" snapshot) in
  let items := PySort.sorted shown_le (List.filter (λ kv, is_int kv.2 && (0 <? int_val kv.2)) counts) in
  (["" : string; "## Adapter requests (open issues, by framework)"; ""]
     ++ match items with
        | [] => ["_No open adapter-request issues counted in this snapshot._"]
        | _ => "| Framework (slug) | Open requests |" :: "|------------------|---------------|"
                 :: map (λ kv, ("| `" ++ kv.1 ++ "` | " ++ int_text kv.2 ++ " |")%string) items
        end)%list.

Section Dashboard.
  Context `{PyRuntime}.

Definition degraded (snapshot : list (string * json)) : list string :=
  ((match get_obj "github" snapshot with
    | Some gh =>
        if j_truthy (j_get "skipped" gh) then
          let reason := match assoc "reason" gh with Some r => py_str float_repr r | None => "unknown" end in
          [("GitHub telemetry skipped (" ++ reason ++ "); adapter-request counts may be zeroed.")%string]
        else []
    | None => []
    end)
   ++ match get_obj "site" snapshot with
      | Some site => if j_truthy (j_get "fetch_error" site)
                     then ["Site CTR fetch failed; see `site.fetch_error` in the snapshot JSON."] else []
      | None => []
      end)%list.

(** `l[-n:]` *)
Definition last_n {A} (n : nat) (l : list A) : list A := if (n =? 0)%nat then l else drop (length l - n) l.

Definition render_dashboard (snapshot : list (string * json)) (history : list (string * file)) (weeks : nat) : res exn string :=
  let selected := last_n weeks history in
  let! rows := history_rows selected in
  let warnings := degraded snapshot in
  Ret (String.concat newline
         (["# ASAP adoption telemetry dashboard"; ""; "_Generated by `scripts/telemetry/aggregate.py`. Do not edit by hand._"; "";
           "## 12-week trend (public-source signals)"; "";
           "| Week ending (UTC) | npm Σ weekly DL | PyPI `last_week` | GitHub stars | Registry agents |";
           "|------------------|-----------------|------------------|--------------|-----------------|"]
            ++ (match selected with [] => ["| _(no snapshots yet)_ | — | — | — | — |"] | _ => [] end)
            ++ rows
            ++ (if (length selected <? 2)%nat then
                  [""; ("> **Growth**: With only one snapshot on disk, week-over-week deltas are omitted. "
                          ++ "Keep weekly artifacts (or run locally into `private/telemetry/`) to populate this table.")%string]
                else [])
            ++ adapter_lines snapshot
            ++ (match warnings with [] => [] | _ => "" :: "## Data quality warnings" :: "" :: map (λ n, ("- " ++ n)%string) warnings end)
            ++ [""])%list).

End Dashboard.

(** *** `main` *)
Record arguments : Type := mkArgs {
  ar_registry_url : string; ar_github_owner : string; ar_github_repo : string; ar_site_endpoint : string; ar_allow_github_skip : bool;
  (** the environment, stripped *)
  ev_telemetry_github_token : string; ev_github_token : string; ev_telemetry_token : string
}.

(** The requests made, and the output directory. *)
Record tstate : Type := mkTs { ts_log : list request; ts_dir : dir; ts_dashboard : option string; ts_latest : option string }.

Section Main.
  Context `{PyRuntime} (net : request → reply) (quote : string → string).
  Context (recent : string → res exn (string + json)) (loads : string → option json).
  Context (urlsplit : string → res pyexn url3) (urlparse : string → res pyexn url_parts) (resolve : string → option (list string)).
  (** pages of issues that are read at most *)
  Context (fuel : nat).

Abbreviation run A := (ST tstate exn A).

(** A collector, which only makes requests. *)
Definition collector {A} (m : ST (list request) exn A) : run A :=
  λ s, let '(log, r) := m (ts_log s) in (mkTs log (ts_dir s) (ts_dashboard s) (ts_latest s), r).

(** `try: m except <caught>: return 1` *)
Definition or_exit {A} (caught : exn → bool) (m : run A) (k : A → run Z) : run Z :=
  λ s, match m s with
       | (s, Ret a) => k a s
       | (s, Raise e) => if caught e then (s, Ret 1) else (s, Raise e)
       end.

(** A collector that ran out of pages never returns; here it raises. *)
Definition github_report (now : string) (a : arguments) (token : string) : run (list (string * json)) :=
  do! r <- collector (collect_github_signals net fuel now (ar_github_owner a) (ar_github_repo a) token) in
  match r with Some report => st_ret report | None => st_stop (XOther "OutOfFuel" "") end.

Definition http_or_value (x : exn) : bool := is_http_error x || is_value_exn x.

Definition collect_github_or_placeholder (now : string) (a : arguments) (token : string) : run (list (string * json)) :=
  if negb (PyStr.truthy token) then
    st_ret (placeholder (ar_github_owner a) (ar_github_repo a) "TELEMETRY_GITHUB_TOKEN / GITHUB_TOKEN not set")
  else
    λ s, match github_report now a token s with
         | (s, Raise e) =>
             if http_or_value e then (s, Ret (placeholder (ar_github_owner a) (ar_github_repo a) "GitHub telemetry failed; see CI logs."))
             else (s, Raise e)
         | x => x
         end.

Definition or_text (a b : string) : string := if PyStr.truthy a then a else b.

Definition copied_keys : list string := ["fetch_error"; "note"; "skipped"; "reason"].

Definition snapshot_site (site_details : list (string * json)) : list (string * json) :=
  (("ctr_per_cta", default (JObj []) (assoc "ctr_per_cta" site_details))
     :: omap (λ k, option_map (pair k) (assoc k site_details)) copied_keys)%list.

Definition make_snapshot (now : string) (npm pypi github registry site : list (string * json)) : list (string * json) :=
  [("snapshot_version", JInt 1); ("collected_at", JStr now); ("npm", JObj (build_npm_summary npm)); ("pypi", JObj pypi);
   ("github", JObj github); ("registry", JObj registry); ("site", JObj (snapshot_site site));
   ("adapter_requests", JObj (flatten_adapter_request_counts github))].

Definition skipped_site : list (string * json) :=
  [("ctr_per_cta", JObj []);
   ("note", JStr "Site metrics skipped (set TELEMETRY_SITE_ENDPOINT and TELEMETRY_TOKEN to pull /api/telemetry).")].

(** The files are written, and the link if the system lets it. *)
Definition write_outputs (snap_day : string) (snapshot : list (string * json)) (symlink_ok : bool) : run Z :=
  let name := "snapshot-" ++ snap_day ++ ".json" in
  run! st_modify (λ s, mkTs (ts_log s) (PyDict.set name (Json (JObj snapshot)) (ts_dir s)) (ts_dashboard s) (ts_latest s)) in
  do! d <- st_gets ts_dir in
  do! history <- st_lift (list_snapshot_files d) in
  do! text <- st_lift (render_dashboard snapshot history 12) in
  run! st_modify (λ s, mkTs (ts_log s) (ts_dir s) (Some text) (if symlink_ok then Some name else ts_latest s)) in
  st_ret 0.

(** [now]: the text of the clock; [snap_day]: the date of the run. *)
Definition main (a : arguments) (snap_day now : string) (symlink_ok : bool) : run Z :=
  do! d <- st_gets ts_dir in
  do! prev <- st_lift (resolve_previous_snapshot_path d snap_day) in
  do! previous <- st_lift (match prev with Some f => registry_count_from_snapshot f | None => Ret None end) in
  do! npm <- collector (collect_npm_weekly net quote now DEFAULT_PACKAGES) in
  do! pypi <- collector (collect_pypi_recent recent loads now DEFAULT_PYPI_PACKAGES) in
  let finish (github : list (string * json)) : run Z :=
    or_exit http_or_value (collector (fetch_registry_json net urlsplit urlparse resolve (ar_registry_url a))) (λ raw,
    do! registry <- st_lift (collect_registry_snapshot now raw (ar_registry_url a) previous) in
    let after_site (site : list (string * json)) : run Z :=
      let snapshot := make_snapshot now npm pypi github registry site in
      if validate_snapshot snapshot then write_outputs snap_day snapshot symlink_ok else st_ret 1 in
    if PyStr.truthy (ar_site_endpoint a) && PyStr.truthy (ev_telemetry_token a)
    then or_exit is_value_exn (collector (fetch_site_ctr net urlsplit urlparse resolve (ar_site_endpoint a) (ev_telemetry_token a))) after_site
    else after_site skipped_site) in
  if ar_allow_github_skip a then
    do! github <- collect_github_or_placeholder now a (or_text (ev_telemetry_github_token a) (ev_github_token a)) in finish github
  else if negb (PyStr.truthy (ev_telemetry_github_token a)) then st_ret 1
  else or_exit http_or_value (github_report now a (ev_telemetry_github_token a)) finish.

End Main.

(** ** Facts: where tokens go *)
Section TokenFacts.
  Context `{PyRuntime} (net : request → reply) (quote : string → string).
  Context (recent : string → res exn (string + json)) (loads : string → option json).
  Context (urlsplit : string → res pyexn url3) (urlparse : string → res pyexn url_parts) (resolve : string → option (list string)).
  Context (fuel : nat) (a : arguments).

(** The endpoint of the site: HTTPS, with a host, and not an internal address. *)
Definition public_site (url : string) : Prop :=
  (∃ parsed, urlsplit url = Ret parsed ∧ u3_scheme parsed = "https" ∧ u3_netloc parsed ≠ "") ∧ url_checked urlparse resolve url.

(** A request that carries a token is one to GitHub's API with a GitHub token, or
    the one to the site with its own. *)
Definition token_ok (q : request) : Prop :=
  match rq_bearer q with
  | None => True
  | Some b =>
      (String.prefix (GITHUB_API_BASE ++ "/repos/") (rq_url q) = true ∧ b ∈ [ev_telemetry_github_token a; ev_github_token a])
      ∨ (b = ev_telemetry_token a ∧ rq_url q = ar_site_endpoint a ∧ public_site (rq_url q))
  end.

Abbreviation log_ok := (Forall token_ok).

Lemma send_inv q : token_ok q → st_inv log_ok (send net q).
Proof. intros Hq log Hl. cbn. apply Forall_app. by repeat constructor. Qed.

Lemma inv_lift {S R A} (P : S → Prop) (r : res R A) : st_inv P (st_lift r).
Proof. by intros s Hs. Qed.

Lemma prefix_append p s : String.prefix p (p ++ s) = true.
Proof. induction p as [|c p IH]; [by destruct s|]. rewrite append_cons. cbn. by destruct (Ascii.ascii_dec c c). Qed.

Lemma get_json_inv q : token_ok q → st_inv log_ok (get_json net q).
Proof. intros Hq. apply inv_bind; [by apply send_inv|]. intros x. apply inv_lift. Qed.

Ltac tele := repeat first [apply inv_bind; [|intros ?] | apply inv_lift | apply inv_ret | apply inv_stop].

Lemma collect_each_inv fetch packages results :
  (∀ p, st_inv log_ok (fetch p)) → st_inv log_ok (collect_each fetch packages results).
Proof.
  intros Hf. revert results. induction packages as [|p rest IH]; intros results; cbn [collect_each]; [apply inv_ret|].
  apply inv_bind; [apply Hf|]. intros r. apply IH.
Qed.

Lemma npm_inv now packages : st_inv log_ok (collect_npm_weekly net quote now packages).
Proof.
  unfold collect_npm_weekly. apply inv_bind; [|intros; apply inv_ret]. apply collect_each_inv. intros p.
  unfold fetch_last_week_downloads. apply inv_bind; [by apply get_json_inv|]. intros j. tele.
Qed.

Lemma pypi_inv now packages : st_inv log_ok (collect_pypi_recent recent loads now packages).
Proof. unfold collect_pypi_recent. apply inv_bind; [|intros; apply inv_ret]. apply collect_each_inv. intros p. apply inv_lift. Qed.

Lemma github_get_inv owner repo token path :
  token ∈ [ev_telemetry_github_token a; ev_github_token a] → st_inv log_ok (github_get net owner repo token path).
Proof.
  intros Ht. apply get_json_inv. left. split; [|done]. cbn [rq_url]. unfold GITHUB_API_BASE.
  rewrite <- append_assoc. apply prefix_append.
Qed.

Lemma issue_pages_inv owner repo token n page label out :
  token ∈ [ev_telemetry_github_token a; ev_github_token a] → st_inv log_ok (issue_pages net owner repo token n page label out).
Proof.
  intros Ht. revert page out. induction n as [|n IH]; intros page out; cbn [issue_pages]; [apply inv_ret|].
  apply inv_bind; [by apply github_get_inv|]. intros [| | | | |[|x l]|]; tele. destruct (_ <? _)%nat; [apply inv_ret|apply IH].
Qed.

Lemma github_inv now owner repo token :
  token ∈ [ev_telemetry_github_token a; ev_github_token a] → st_inv log_ok (collect_github_signals net fuel now owner repo token).
Proof.
  intros Ht. unfold collect_github_signals, fetch_repo_summary, fetch_traffic_clones, fetch_popular_referrers, fetch_open_labeled_issues.
  repeat (apply inv_bind; [|intros ?]); try apply inv_lift; try apply inv_ret; try (by apply github_get_inv).
  by apply issue_pages_inv.
Qed.

Lemma registry_inv url : st_inv log_ok (fetch_registry_json net urlsplit urlparse resolve url).
Proof. unfold fetch_registry_json. tele. by apply send_inv. Qed.

Lemma public_https_ok url e1 e2 e3 : public_https urlsplit urlparse resolve url e1 e2 e3 = Ret tt → public_site url.
Proof.
  unfold public_https, py. destruct (urlsplit url) as [e|parsed] eqn:Hp; cbn [rbind]; [done|].
  destruct (String.eqb_spec (u3_scheme parsed) "https"); cbn [negb]; [|done].
  destruct (u3_netloc parsed) eqn:Hn; cbn [PyStr.truthy negb]; [done|].
  destruct (is_safe_http_url urlparse resolve url) as [err|[]] eqn:Hs; cbn [rbind]; try done. intros _.
  split; [|by apply safe_http_url_checked]. exists parsed. by rewrite Hn.
Qed.

Lemma site_inv : st_inv log_ok (fetch_site_ctr net urlsplit urlparse resolve (ar_site_endpoint a) (ev_telemetry_token a)).
Proof.
  unfold fetch_site_ctr. intros log Hl. unfold st_bind at 1, st_lift at 1.
  destruct (validate_site_endpoint urlsplit urlparse resolve (ar_site_endpoint a)) as [e|[]] eqn:Hv; [done|].
  apply public_https_ok in Hv. revert log Hl.
  change (st_inv log_ok (st_bind (send net (mkReq (ar_site_endpoint a) (Some (ev_telemetry_token a)))) (λ r, st_lift (site_details_of r)))).
  apply inv_bind; [|intros; apply inv_lift]. apply send_inv. right. by split_and!.
Qed.

Abbreviation state_ok := (λ s, log_ok (ts_log s)).

Lemma collector_inv {A} (m : ST (list request) exn A) : st_inv log_ok m → st_inv state_ok (collector m).
Proof. intros Hm s Hs. unfold collector. specialize (Hm (ts_log s) Hs). by destruct (m (ts_log s)) as [log r]. Qed.

Lemma or_exit_inv {A} caught (m : ST tstate exn A) k :
  st_inv state_ok m → (∀ x, st_inv state_ok (k x)) → st_inv state_ok (or_exit caught m k).
Proof.
  intros Hm Hk s Hs. unfold or_exit. specialize (Hm s Hs). destruct (m s) as [s1 [e|x]]; [by destruct (caught e)|by apply Hk].
Qed.

Lemma github_report_inv now token :
  token ∈ [ev_telemetry_github_token a; ev_github_token a] → st_inv state_ok (github_report net fuel now a token).
Proof.
  intros Ht. unfold github_report. apply inv_bind; [by apply collector_inv, github_inv|]. intros [r|]; [apply inv_ret|apply inv_stop].
Qed.

Lemma placeholder_inv now token :
  token ∈ [ev_telemetry_github_token a; ev_github_token a] → st_inv state_ok (collect_github_or_placeholder net fuel now a token).
Proof.
  intros Ht. unfold collect_github_or_placeholder. destruct (negb _); [apply inv_ret|]. intros s Hs.
  pose proof (github_report_inv now token Ht s Hs) as Hg. destruct (github_report _ _ _ _ _ s) as [s1 [e|r]]; [|done].
  by destruct (http_or_value e).
Qed.

Lemma write_outputs_inv day snapshot link : st_inv state_ok (write_outputs day snapshot link).
Proof.
  unfold write_outputs. repeat first [apply inv_bind; [|intros ?] | apply inv_lift | apply inv_ret | apply inv_gets | by apply inv_modify].
Qed.

(** Tokens go where they belong.  Whatever the services answer, each request of a
    run that carries a bearer token carries a GitHub token to GitHub's API, or the
    telemetry token to the configured site, and then only if the site's URL is
    HTTPS, names a host and leads to no internal address; no other request carries
    any. *)
Theorem tokens_stay_home snap_day now link s :
  log_ok (ts_log s) →
  log_ok (ts_log (main net quote recent loads urlsplit urlparse resolve fuel a snap_day now link s).1).
Proof.
  enough (Hi : st_inv state_ok (main net quote recent loads urlsplit urlparse resolve fuel a snap_day now link)) by apply Hi.
  unfold main. apply inv_bind; [apply inv_gets|intros d]. apply inv_bind; [apply inv_lift|intros prev].
  apply inv_bind; [apply inv_lift|intros previous]. apply inv_bind; [apply collector_inv, npm_inv|intros npm].
  apply inv_bind; [apply collector_inv, pypi_inv|intros pypi]. cbn zeta.
  set (finish := λ github : list (string * json), or_exit http_or_value _ _).
  assert (Hf : ∀ github, st_inv state_ok (finish github)).
  { intros github. apply or_exit_inv; [apply collector_inv, registry_inv|intros raw]. apply inv_bind; [apply inv_lift|intros registry].
    assert (Hs : ∀ site, st_inv state_ok (if validate_snapshot (make_snapshot now npm pypi github registry site)
                   then write_outputs snap_day (make_snapshot now npm pypi github registry site) link else st_ret 1)).
    { intros site. destruct (validate_snapshot _); [apply write_outputs_inv|apply inv_ret]. }
    destruct (PyStr.truthy _ && PyStr.truthy _); [|apply Hs]. apply or_exit_inv; [apply collector_inv, site_inv|apply Hs]. }
  destruct (ar_allow_github_skip a).
  - apply inv_bind; [|apply Hf]. apply placeholder_inv. unfold or_text.
    destruct (PyStr.truthy (ev_telemetry_github_token a)); [by left|right; by left].
  - destruct (negb _); [apply inv_ret|]. apply or_exit_inv; [|apply Hf]. apply github_report_inv. by left.
Qed.

End TokenFacts.

(** ** Facts: history *)
Section HistoryFacts.

Lemma leb_cmp a b : String.leb a b = true ↔ text_cmp a b ≠ Gt.
Proof. unfold String.leb, text_cmp. destruct (String.compare a b); done. Qed.

Lemma date_le_trans : Transitive date_le.
Proof. intros a b c. unfold date_le. rewrite !leb_cmp. apply text_le_trans. Qed.

Lemma date_le_refl : Reflexive date_le.
Proof. intros a. unfold date_le. rewrite leb_cmp, text_cmp_refl. done. Qed.

Lemma date_le_total : Total date_le.
Proof.
  intros a b. unfold date_le. destruct (String.leb a.1 b.1) eqn:E; [by left|right].
  destruct (String.leb_total a.1 b.1); congruence.
Qed.

Lemma dated_rows d rows : dated d = Ret rows →
  ∀ day f, (day, f) ∈ rows ↔ ∃ name, (name, f) ∈ d ∧ name ≠ "snapshot-latest.json" ∧ snapshot_name name = Some day.
Proof.
  revert rows. induction d as [|[name f] d IH]; intros rows; cbn [dated].
  - intros [= <-] day f. split; [by intros ?%elem_of_nil|by intros (? & ?%elem_of_nil & _)].
  - assert (Hskip : ∀ day f', name = "snapshot-latest.json" ∨ snapshot_name name = None →
      (∃ n, (n, f') ∈ d ∧ n ≠ "snapshot-latest.json" ∧ snapshot_name n = Some day)
      ↔ ∃ n, (n, f') ∈ (name, f) :: d ∧ n ≠ "snapshot-latest.json" ∧ snapshot_name n = Some day).
    { intros day f' Hs. setoid_rewrite elem_of_cons. split; [naive_solver|]. intros (n & [[= -> ->]|Hn] & Hl & Hd); [|eauto].
      destruct Hs; congruence. }
    destruct (String.eqb_spec name "snapshot-latest.json") as [He|He].
    { intros Hr day f'. rewrite <- (Hskip day f') by auto. by apply IH. }
    destruct (snapshot_name name) as [dt|] eqn:Hn.
    2: { intros Hr day f'. rewrite <- (Hskip day f') by auto. by apply IH. }
    assert (Hd : ∀ x, date_of dt = Ret x → x = dt).
    { intros x. unfold date_of. destruct (_ && _); [by intros [= <-]|done]. }
    destruct (date_of dt) as [e|x] eqn:Ed; cbn [rbind]; [done|]. rewrite (Hd x eq_refl).
    destruct (dated d) as [e|rows'] eqn:Er; cbn [rbind]; [done|]. intros [= <-] day f'.
    rewrite elem_of_cons, (IH rows' eq_refl). setoid_rewrite elem_of_cons. split.
    + intros [[= -> ->]|(n & ? & ? & ?)]; [exists name; eauto|exists n; eauto].
    + intros (n & [[= -> ->]|Hin] & Hl & Hs); [left; congruence|right; eauto].
Qed.

Lemma Sorted_last {A} (R : A → A → Prop) `{!Reflexive R, !Transitive R} l x : Sorted R l → last l = Some x → Forall (λ y, R y x) l.
Proof.
  intros Hs%Sorted_StronglySorted Hl; [|done]. revert Hl. induction Hs as [|y l Hs IH Hy]; [done|].
  destruct l as [|z l]; cbn; [by intros [= ->]; repeat constructor|]. intros Hl. constructor; [|by apply IH].
  eapply Forall_forall in Hy; [exact Hy|]. apply last_Some in Hl as [l' ->]. set_solver.
Qed.

Lemma Sorted_filter {A} (R : A → A → Prop) `{!Transitive R} (f : A → bool) l : Sorted R l → Sorted R (List.filter f l).
Proof.
  intros Hs%Sorted_StronglySorted; [|done]. apply StronglySorted_Sorted. induction Hs as [|y l Hs IH Hy]; cbn; [constructor|].
  destruct (f y); [|done]. constructor; [done|]. apply Forall_forall. intros z Hz%list_elem_of_In.
  apply filter_In in Hz as [Hz _]. eapply Forall_forall in Hy; [exact Hy|by apply list_elem_of_In].
Qed.

(** The snapshot that growth is measured against is the latest one before the day
    of the run: a dated file of the directory, from before that day, such that no
    other file from before that day is dated later; and there is none only if no
    file is dated before. *)
Theorem previous_is_latest_before d current prev :
  resolve_previous_snapshot_path d current = Ret prev →
  let dated_before day f := ∃ name, (name, f) ∈ d ∧ name ≠ "snapshot-latest.json" ∧ snapshot_name name = Some day
                                    ∧ String.ltb day current = true in
  match prev with
  | Some f => ∃ day, dated_before day f ∧ ∀ day' f', dated_before day' f' → String.leb day' day = true
  | None => ∀ day f, ¬ dated_before day f
  end.
Proof.
  cbn zeta. unfold resolve_previous_snapshot_path, list_snapshot_files.
  destruct (dated d) as [e|rows] eqn:Hd; cbn [rbind]; [done|]. intros [= <-].
  set (kept := List.filter _ _).
  assert (Hk : ∀ day f, (day, f) ∈ kept ↔ ∃ name, (name, f) ∈ d ∧ name ≠ "snapshot-latest.json" ∧ snapshot_name name = Some day
                                            ∧ String.ltb day current = true).
  { intros day f. unfold kept. rewrite list_elem_of_In, filter_In, <- list_elem_of_In, PySort.elem_of_sorted, (dated_rows _ _ Hd). naive_solver. }
  assert (Hs : Sorted date_le kept) by (apply Sorted_filter; [apply date_le_trans|apply PySort.Sorted_sorted, date_le_total]).
  rewrite fmap_last. destruct (last kept) as [[day f]|] eqn:Hl; cbn.
  - assert (Hin : (day, f) ∈ kept) by (apply last_Some in Hl as [l' Hl]; rewrite Hl; set_solver).
    exists day. split; [by apply Hk|]. intros day' f' Hb%Hk.
    pose proof (@Sorted_last _ date_le date_le_refl date_le_trans _ _ Hs Hl) as Hall. eapply Forall_forall in Hall; [|exact Hb]. exact Hall.
  - apply last_None in Hl. intros day f Hb%Hk. rewrite Hl in Hb. by apply elem_of_nil in Hb.
Qed.

End HistoryFacts.

(** ** Facts: adapter requests *)
Section CountFacts.

Lemma sumZ_Permutation l m : l ≡ₚ m → sumZ l = sumZ m.
Proof. unfold sumZ. induction 1; simpl; lia. Qed.

Lemma sumZ_set {V} (f : V → Z) k v (d : list (string * V)) :
  sumZ (map (λ kv, f kv.2) (PyDict.set k v d))
  = sumZ (map (λ kv, f kv.2) d) + f v - match PyDict.get k d with Some w => f w | None => 0 end.
Proof. unfold sumZ. induction d as [|[k' w] d IH]; simpl; [lia|]. case_decide; simpl; [lia|]. rewrite IH. lia. Qed.

(** A slug has no underscore. *)
Lemma slug_no_underscore raw : occurs "_" (slug_framework_label raw) = 0%nat.
Proof.
  unfold slug_framework_label. set (s := slugged false _).
  assert (Hs : ∀ x b, occurs "_" (slugged b x) = 0%nat).
  { induction x as [|c x IH]; intros b; [done|]. cbn [slugged]. destruct (slug_char c) eqn:E.
    - rewrite occurs_cons, decide_False; [apply IH|]. intros ->. done.
    - destruct b; [apply IH|]. rewrite occurs_cons. cbn. apply IH. }
  specialize (Hs (PyStr.lower (PyStr.strip raw)) false). fold s in Hs.
  assert (Hl : (occurs "_" (lstrip_dashes s) <= occurs "_" s)%nat).
  { clear Hs. induction s as [|c s' IH]; [done|]. cbn [lstrip_dashes]. destruct (Ascii.eqb c "-"); [|done]. rewrite occurs_cons. lia. }
  assert (Hr : ∀ x, (occurs "_" (PyStr.rstrip_char "-" x) <= occurs "_" x)%nat).
  { intros x. induction x as [|c x IH]; [done|]. rewrite occurs_cons. cbn [PyStr.rstrip_char].
    destruct (PyStr.rstrip_char "-" x); [destruct (Ascii.eqb c "-")|]; rewrite ?occurs_cons in *; cbn in *; lia. }
  specialize (Hr (lstrip_dashes s)). destruct (PyStr.truthy _); [lia|done].
Qed.

Record counted (acc : list (string * Z) * Z) (n : nat) : Prop := {
  ct_total : sumZ (map snd acc.1) + acc.2 = Z.of_nat n;
  ct_wf : PyDict.wf acc.1;
  ct_pos : Forall (λ kv, 0 < kv.2) acc.1;
  ct_unparsed : 0 <= acc.2;
  ct_keys : "_unparsed" ∉ PyDict.keys acc.1
}.

Lemma count_issue_counted acc n issue : counted acc n → counted (count_issue acc issue) (S n).
Proof.
  intros [Ht Hw Hp Hu Hk]. unfold count_issue. destruct (parse_framework_from_issue_body _) as [raw|].
  2: { split; cbn [fst snd]; try done; lia. }
  set (key := slug_framework_label raw). destruct acc as [d u]. cbn [fst snd] in *. split; cbn [fst snd].
  - assert (Hs : ∀ v, sumZ (map snd (PyDict.set key v d)) = sumZ (map snd d) + v - match PyDict.get key d with Some w => w | None => 0 end)
      by (intros v; exact (sumZ_set (λ z, z) key v d)).
    rewrite Hs. destruct (PyDict.get key d); cbn [default]; unfold id; cbn [from_option]; lia.
  - by apply PyDict.wf_set.
  - assert (Hv : 0 <= default 0 (PyDict.get key d)).
    { destruct (PyDict.get key d) as [v|] eqn:E; [|done]. apply PyDict.get_Some_elem in E.
      eapply Forall_forall in Hp; [|exact E]. cbn in *. lia. }
    clear -Hp Hv. revert Hv. generalize (default 0 (PyDict.get key d)) as z. intros z Hz.
    induction Hp as [|[k v] d' Hkv Hd IH]; cbn [PyDict.set].
    + constructor; [cbn [snd]; lia|constructor].
    + case_decide; constructor; [cbn [snd]; lia|done|exact Hkv|exact IH].
  - done.
  - intros Hin. assert (Hne : key ≠ "_unparsed").
    { intros He. pose proof (slug_no_underscore raw) as Ho. fold key in Ho. by rewrite He in Ho. }
    destruct (decide (key ∈ PyDict.keys d)); [by rewrite PyDict.keys_set_in in Hin|].
    rewrite PyDict.keys_set_new in Hin by done. set_solver.
Qed.

Lemma counted_all issues acc n : counted acc n → counted (fold_left count_issue issues acc) (n + length issues).
Proof.
  revert acc n. induction issues as [|i issues IH]; intros acc n Hc; cbn; [by rewrite Nat.add_0_r|].
  replace (n + S (length issues))%nat with (S n + length issues)%nat by lia. by apply IH, count_issue_counted.
Qed.

Lemma fold_set_wf (d : list (string * json)) out :
  Forall (λ kv, is_int kv.2 = true) d → NoDup (PyDict.keys out ++ PyDict.keys d)%list →
  fold_left (λ out kv, if is_int kv.2 then PyDict.set kv.1 kv.2 out else out) d out = (out ++ d)%list.
Proof.
  revert out. induction d as [|[k v] d IH]; intros out Hi Hn; cbn [fold_left]; [by rewrite app_nil_r|].
  apply Forall_cons in Hi as [Hv Hi]. cbn [fst snd] in *. rewrite Hv, set_absent.
  - rewrite IH; [by rewrite <- app_assoc|done|]. unfold PyDict.keys in *. rewrite fmap_app, <- app_assoc. exact Hn.
  - apply PyDict.get_None. intros Hk. apply NoDup_app in Hn as (_ & Hn & _). apply (Hn k Hk). by left.
Qed.

(** The dashboard's counts add up: the adapter requests a snapshot carries are as
    many as the open issues that the collector read, each counted under the slug of
    its framework or as unparsed. *)
Theorem adapter_counts_add_up issues report :
  get_obj "adapter_requests" report = Some (summarize_adapter_requests issues) →
  sumZ (map (λ kv, int_val kv.2) (flatten_adapter_request_counts report)) = Z.of_nat (length issues).
Proof.
  intros Hr. unfold flatten_adapter_request_counts. rewrite Hr.
  rewrite (sumZ_Permutation _ (map (λ kv, int_val kv.2) (adapter_counts (summarize_adapter_requests issues))))
    by (apply Permutation_map, PySort.sorted_Permutation).
  unfold summarize_adapter_requests.
  pose proof (counted_all issues ([], 0) 0) as Hc. destruct (fold_left count_issue issues ([], 0)) as [d u].
  destruct Hc as [Ht Hw Hp Hu Hk]; [by split; cbn; try done; [constructor|apply not_elem_of_nil]|]. cbn [fst snd length] in *.
  set (sd := PySort.sorted key_le d). assert (Hsd : sd ≡ₚ d) by apply PySort.sorted_Permutation.
  set (js := map (λ kv : string * Z, (kv.1, JInt kv.2)) sd).
  assert (Hkeys : PyDict.keys js = map fst sd) by (unfold js, PyDict.keys; clear; induction sd as [|[k v] l IH]; cbn; [done|by f_equal]).
  assert (Hfold : fold_left (λ out kv, if is_int kv.2 then PyDict.set kv.1 kv.2 out else out) js [] = js).
  { rewrite fold_set_wf; [done| |].
    - unfold js. apply Forall_forall. intros [k v] ([k' z] & [= -> ->] & _)%list_elem_of_fmap. done.
    - cbn. rewrite Hkeys, Hsd. exact Hw. }
  assert (Hsum : sumZ (map (λ kv, int_val kv.2) js) = sumZ (map snd d)).
  { unfold js. rewrite map_map. cbn. apply sumZ_Permutation. by rewrite Hsd. }
  unfold adapter_counts, counts_json. fold sd js.
  destruct (Z.eqb_spec u 0) as [->|Hne].
  - change (sumZ (map (λ kv, int_val kv.2) (fold_left (λ out kv, if is_int kv.2 then PyDict.set kv.1 kv.2 out else out) js []))
            = Z.of_nat (length issues)). rewrite Hfold, Hsum. lia.
  - change (sumZ (map (λ kv, int_val kv.2) (if 0 <? u then PyDict.set "_unparsed" (JInt u)
              (fold_left (λ out kv, if is_int kv.2 then PyDict.set kv.1 kv.2 out else out) js [])
              else fold_left (λ out kv, if is_int kv.2 then PyDict.set kv.1 kv.2 out else out) js [])) = Z.of_nat (length issues)).
    rewrite (proj2 (Z.ltb_lt 0 u)) by lia. rewrite Hfold, sumZ_set, Hsum.
    assert (Hg : PyDict.get "_unparsed" js = None).
    { apply PyDict.get_None. rewrite Hkeys. intros Hin. apply Hk. unfold PyDict.keys. by rewrite <- Hsd. }
    rewrite Hg. cbn. lia.
Qed.

End CountFacts.

(** ** Facts: pages of issues *)
Section PageFacts.
  Context (net : request → reply) (owner repo token label : string).

Definition page_request (page : nat) : request :=
  mkReq (GITHUB_API_BASE ++ "/repos/" ++ owner ++ "/" ++ repo ++ issues_path label page) (Some token).

(** The service has these pages: full ones, and a last one that is not full. *)
Inductive served : nat → list (list json) → Prop :=
| served_last page items : net (page_request page) = ReplyJson (JList items) → (length items < 100)%nat → served page [items]
| served_full page items rest : net (page_request page) = ReplyJson (JList items) → (100 <= length items)%nat →
    served (S page) rest → served page (items :: rest).

Lemma github_get_out path log j :
  net (mkReq (GITHUB_API_BASE ++ "/repos/" ++ owner ++ "/" ++ repo ++ path) (Some token)) = ReplyJson j →
  (github_get net owner repo token path log).2 = Ret j.
Proof. intros Hn. unfold github_get, get_json, send, st_bind, st_modify, st_ret, st_lift. by rewrite Hn. Qed.

Lemma bind_result {S R A B} (m : ST S R A) (k : A → ST S R B) s x :
  (m s).2 = Ret x → (st_bind m k s).2 = (k x (m s).1).2.
Proof. intros Hm. unfold st_bind. destruct (m s) as [s1 [r|y]]; cbn in *; congruence. Qed.

Lemma issue_pages_served page pages fuel out log :
  served page pages → (length pages <= fuel)%nat →
  (issue_pages net owner repo token fuel page label out log).2 = Ret (Some (out ++ omap issue_object (concat pages))%list).
Proof.
  intros Hs. revert fuel out log. induction Hs as [page items Hn Hl|page items rest Hn Hl Hs IH]; intros fuel out log Hf;
    (destruct fuel as [|fuel]; [cbn in Hf; lia|]); cbn [issue_pages]; rewrite (bind_result _ _ _ _ (github_get_out _ log _ Hn)).
  - cbn [concat]. rewrite app_nil_r. destruct items as [|x items]; [cbn; by rewrite app_nil_r|].
    by rewrite (proj2 (Nat.ltb_lt _ _) Hl).
  - destruct items as [|x items]; [cbn in Hl; lia|]. rewrite (proj2 (Nat.ltb_ge _ _) Hl), IH by (cbn in Hf; lia).
    cbn [concat]. rewrite omap_app, <- app_assoc. done.
Qed.

(** Reading the issues ends as soon as a page is not full, with as many requests as
    pages, and gives every object of every page that is no pull request, in order. *)
Theorem issues_are_read_to_the_end pages fuel log :
  served 1 pages → (length pages <= fuel)%nat →
  (fetch_open_labeled_issues net owner repo token fuel label log).2 = Ret (Some (omap issue_object (concat pages))).
Proof. intros Hs Hf. unfold fetch_open_labeled_issues. by rewrite (issue_pages_served 1 pages). Qed.

End PageFacts.

(** ** Facts: publication *)
Section PublicationFacts.
  Context `{PyRuntime} (net : request → reply) (quote : string → string).
  Context (recent : string → res exn (string + json)) (loads : string → option json).
  Context (urlsplit : string → res pyexn url3) (urlparse : string → res pyexn url_parts) (resolve : string → option (list string)).
  Context (fuel : nat) (a : arguments) (snap_day now : string) (link : bool).

Definition outputs (s : tstate) : dir * option string * option string := (ts_dir s, ts_dashboard s, ts_latest s).

(** The snapshot of the day, with its growth measured against the latest before. *)
Definition published (s s' : tstate) (r : res exn Z) : Prop :=
  ∃ npm pypi github registry site raw prev previous,
    let snapshot := make_snapshot now npm pypi github registry site in
    validate_snapshot snapshot = true
    ∧ resolve_previous_snapshot_path (ts_dir s) snap_day = Ret prev
    ∧ match prev with Some f => registry_count_from_snapshot f | None => Ret None end = Ret previous
    ∧ collect_registry_snapshot now raw (ar_registry_url a) previous = Ret registry
    ∧ ts_dir s' = PyDict.set ("snapshot-" ++ snap_day ++ ".json") (Json (JObj snapshot)) (ts_dir s)
    ∧ (r = Ret 0 → ∃ history text, list_snapshot_files (ts_dir s') = Ret history
                     ∧ render_dashboard snapshot history 12 = Ret text ∧ ts_dashboard s' = Some text).

(** How a run ends: nothing is written and the exit code is not 0, or the day's
    snapshot is there. *)
Definition ends (s s' : tstate) (r : res exn Z) : Prop := (outputs s' = outputs s ∧ r ≠ Ret 0) ∨ published s s' r.

Abbreviation ends_well s m := (ends s (m.1) (m.2)).

Lemma collector_outputs {A} (m : ST (list request) exn A) s : outputs (collector m s).1 = outputs s.
Proof. unfold collector. by destruct (m (ts_log s)) as [log r]. Qed.

Lemma bind_ends {A} (m : ST tstate exn A) (k : A → ST tstate exn Z) s s0 :
  outputs s = outputs s0 → (∀ s, outputs (m s).1 = outputs s) →
  (∀ x s1, outputs s1 = outputs s0 → (m s).2 = Ret x → ends_well s0 (k x s1)) → ends_well s0 (st_bind m k s).
Proof.
  intros Hs Hm Hk. unfold st_bind. specialize (Hm s). destruct (m s) as [s1 [e|x]]; cbn [fst snd] in *; [left; split; [congruence|done]|].
  apply Hk; [congruence|done].
Qed.

Lemma or_exit_ends {A} caught (m : ST tstate exn A) (k : A → ST tstate exn Z) s s0 :
  outputs s = outputs s0 → (∀ s, outputs (m s).1 = outputs s) →
  (∀ x s1, outputs s1 = outputs s0 → ends_well s0 (k x s1)) → ends_well s0 (or_exit caught m k s).
Proof.
  intros Hs Hm Hk. unfold or_exit. specialize (Hm s). destruct (m s) as [s1 [e|x]]; cbn [fst snd] in *.
  - destruct (caught e); left; cbn [fst snd]; (split; [congruence|done]).
  - apply Hk. congruence.
Qed.

Lemma github_report_outputs token s : outputs (github_report net fuel now a token s).1 = outputs s.
Proof.
  unfold github_report, st_bind. pose proof (collector_outputs (collect_github_signals net fuel now (ar_github_owner a) (ar_github_repo a) token) s).
  destruct (collector _ s) as [s1 [e|[r|]]]; done.
Qed.

Lemma placeholder_outputs token s : outputs (collect_github_or_placeholder net fuel now a token s).1 = outputs s.
Proof.
  unfold collect_github_or_placeholder. destruct (negb _); [done|]. pose proof (github_report_outputs token s) as Hg.
  destruct (github_report _ _ _ _ _ s) as [s1 [e|r]]; [|done]. by destruct (http_or_value e).
Qed.

Lemma write_outputs_published npm pypi github registry site raw prev previous s s0 :
  outputs s = outputs s0 → validate_snapshot (make_snapshot now npm pypi github registry site) = true →
  resolve_previous_snapshot_path (ts_dir s0) snap_day = Ret prev →
  match prev with Some f => registry_count_from_snapshot f | None => Ret None end = Ret previous →
  collect_registry_snapshot now raw (ar_registry_url a) previous = Ret registry →
  let m := write_outputs snap_day (make_snapshot now npm pypi github registry site) link s in published s0 m.1 m.2.
Proof.
  intros Hs Hv Hp Hq Hr. cbn zeta. exists npm, pypi, github, registry, site, raw, prev, previous. cbn zeta.
  injection Hs as Hd Hb Hl. set (snapshot := make_snapshot _ _ _ _ _ _) in *.
  unfold write_outputs, st_bind, st_modify, st_gets, st_lift, st_ret. cbn [ts_dir ts_log ts_dashboard ts_latest]. rewrite Hd.
  destruct (list_snapshot_files _) as [e|history] eqn:Eh; [split_and!; done|].
  destruct (render_dashboard snapshot history 12) as [e|text] eqn:Er; [split_and!; done|].
  cbn [fst snd ts_dir ts_dashboard]. split_and!; try done. intros _. by exists history, text.
Qed.

(** What is published was checked.  A run either writes nothing and does not report
    success, or puts the day's snapshot into the directory, and nothing else there:
    a snapshot that passed the schema, whose registry growth is measured against
    the count of the latest snapshot before the day; and it reports success only
    with the dashboard of that snapshot and history written. *)
Theorem published_snapshots_are_checked s :
  let m := main net quote recent loads urlsplit urlparse resolve fuel a snap_day now link s in ends s m.1 m.2.
Proof.
  cbn zeta. unfold main. apply bind_ends; [done|done|]. intros d s1 H1 [= <-].
  apply bind_ends; [done|done|]. intros prev s2 H2 Hp. apply bind_ends; [done|done|]. intros previous s3 H3 Hq.
  apply bind_ends; [done|apply collector_outputs|]. intros npm s4 H4 _.
  apply bind_ends; [done|apply collector_outputs|]. intros pypi s5 H5 _. cbn zeta.
  set (finish := λ github : list (string * json), or_exit http_or_value _ _).
  assert (Hf : ∀ github x, outputs x = outputs s → ends_well s (finish github x)).
  { intros github x Hx. apply or_exit_ends; [done|apply collector_outputs|]. intros raw s6 H6.
    apply bind_ends; [done|done|]. intros registry s7 H7 Hr.
    assert (Hsite : ∀ site y, outputs y = outputs s → ends_well s
        ((if validate_snapshot (make_snapshot now npm pypi github registry site)
          then write_outputs snap_day (make_snapshot now npm pypi github registry site) link else st_ret 1) y)).
    { intros site y Hy. destruct (validate_snapshot _) eqn:Hv; [|left; split; [done|done]].
      right. exact (write_outputs_published npm pypi github registry site raw prev previous y s Hy Hv Hp Hq Hr). }
    destruct (PyStr.truthy _ && PyStr.truthy _); [|by apply Hsite].
    apply or_exit_ends; [done|apply collector_outputs|]. intros site y Hy. by apply Hsite. }
  destruct (ar_allow_github_skip a).
  - apply bind_ends; [done|apply placeholder_outputs|]. intros github x Hx _. by apply Hf.
  - destruct (negb _); [left; by split|]. apply or_exit_ends; [done|apply github_report_outputs|]. intros github x Hx. by apply Hf.
Qed.

End PublicationFacts.

(** ** Examples *)
Section Examples.
#[local] Instance demo_runtime : PyRuntime := {| float_repr := λ _, ""; float_of_str := λ _, None |}.

Example frameworks :
  map parse_framework_from_issue_body
    ["### Framework name" ++ newline ++ newline ++ "  Lang Graph " ++ newline ++ "more"; "x" ++ newline ++ " framework:  CrewAI"; "nothing";
     "###framework" ++ newline ++ "a"; "### Frameworks" ++ newline ++ "a"]
  = [Some "Lang Graph"; Some "CrewAI"; None; Some "a"; None]
  ∧ map slug_framework_label ["Lang Graph!"; "***"; "A_b"] = ["lang-graph"; "unknown"; "a-b"].
Proof. vm_compute. split; reflexivity. Qed.

(** The docstring of `normalize_recent_counts` promises a `ValueError` for a count
    of an invalid type; `Infinity`, which JSON lets through, raises another error. *)
Lemma infinite_count_overflows d :
  normalize_recent_counts (JObj (("last_day", JFloat (FInf false)) :: d))
  = Raise (XOther "OverflowError" "cannot convert float infinity to integer").
Proof. done. Qed.

Definition demo_net (q : request) : reply :=
  if PyStr.contains (rq_url q) "npmjs" then ReplyJson (JObj [("downloads", JList [JObj [("downloads", JInt 3)]; JObj [("downloads", JStr "4")]])])
  else if PyStr.contains (rq_url q) "clones" then ReplyJson (JObj [("count", JInt 1); ("uniques", JInt 1); ("clones", JList [])])
  else if PyStr.contains (rq_url q) "referrers" then ReplyJson (JList [])
  else if PyStr.contains (rq_url q) "/issues" then
    ReplyJson (JList [JObj [("body", JStr "Framework: CrewAI")]; JObj [("body", JNull)]; JObj [("pull_request", JNull)]])
  else if PyStr.contains (rq_url q) "api.github.com" then
    ReplyJson (JObj [("stargazers_count", JInt 9); ("forks_count", JInt 1); ("open_issues_count", JInt 1); ("watchers_count", JInt 1)])
  else if PyStr.contains (rq_url q) "registry" then ReplyJson (JObj [("agents", JList [JNull; JNull])])
  else ReplyJson (JObj [("site", JObj [("ctr_per_cta", JObj [])])]).
Definition demo_recent (p : string) : res exn (string + json) :=
  Ret (inr (JObj [("package", JStr p); ("data", JObj [("last_day", JInt 1); ("last_week", JStr "1,007"); ("last_month", JFloat (FFin 9))])])).
Definition demo_args : arguments := mkArgs "https://raw.example/registry.json" "o" "r" "https://site.example/t" false "ghp" "" "tok".
Definition demo_dir : dir :=
  [("snapshot-2026-02-01.json", Json (JObj [("registry", JObj [("agent_count", JInt 5)])])); ("notes.md", NotJson "");
   ("snapshot-2026-01-01.json", Json (JObj [("registry", JObj [("agent_count", JInt 1)])]))].
Definition demo_main :=
  main demo_net (λ s, s) demo_recent (λ _, None) (λ _, Ret (mkUrl3 "https" "host.example" "/")) (λ _, Ret (mkUrl "https" (Some "host.example")))
    (λ _, Some ["93.184.216.34"]) 5 demo_args "2026-01-15" "2026-01-15T00:00:00+00:00" true (mkTs [] demo_dir None None).

(** The count of January is the one before the run, not that of February. *)
Example demo_snapshot :
  demo_main.2 = Ret 0 ∧ ts_latest demo_main.1 = Some "snapshot-2026-01-15.json"
  ∧ match PyDict.get "snapshot-2026-01-15.json" (ts_dir demo_main.1) with
    | Some (Json (JObj d)) =>
        match get_obj "registry" d with Some r => j_get "growth" r = JInt 1 | None => False end
        ∧ j_get "adapter_requests" d = JObj [("_unparsed", JInt 1); ("crewai", JInt 1)]
        ∧ j_get "npm" d = JObj (map (λ p, (p, JInt 7)) DEFAULT_PACKAGES)
    | _ => False
    end.
Proof. vm_compute. split_and!; reflexivity. Qed.

Lemma tokens_stay_home_witness :
  Forall (token_ok (λ _, Ret (mkUrl3 "https" "host.example" "/")) (λ _, Ret (mkUrl "https" (Some "host.example")))
            (λ _, Some ["93.184.216.34"]) demo_args) (ts_log demo_main.1).
Proof.
  apply (tokens_stay_home demo_net (λ s, s) demo_recent (λ _, None) (λ _, Ret (mkUrl3 "https" "host.example" "/"))
           (λ _, Ret (mkUrl "https" (Some "host.example"))) (λ _, Some ["93.184.216.34"]) 5 demo_args "2026-01-15"
           "2026-01-15T00:00:00+00:00" true (mkTs [] demo_dir None None)).
  constructor.
Defined.

Lemma previous_is_latest_before_witness :
  let f := Json (JObj [("registry", JObj [("agent_count", JInt 1)])]) in
  ∃ day, (∃ name, (name, f) ∈ demo_dir ∧ name ≠ "snapshot-latest.json" ∧ snapshot_name name = Some day ∧ String.ltb day "2026-01-15" = true)
    ∧ ∀ day' f', (∃ name, (name, f') ∈ demo_dir ∧ name ≠ "snapshot-latest.json" ∧ snapshot_name name = Some day'
                          ∧ String.ltb day' "2026-01-15" = true) → String.leb day' day = true.
Proof.
  apply (previous_is_latest_before demo_dir "2026-01-15" (Some (Json (JObj [("registry", JObj [("agent_count", JInt 1)])])))).
  vm_compute. reflexivity.
Defined.

Lemma adapter_counts_add_up_witness :
  let issues := [[("body", JStr "Framework: CrewAI")]; [("body", JNull)]; [("body", JStr "framework : crewai")]] in
  sumZ (map (λ kv, int_val kv.2) (flatten_adapter_request_counts [("adapter_requests", JObj (summarize_adapter_requests issues))])) = 3.
Proof.
  exact (adapter_counts_add_up [[("body", JStr "Framework: CrewAI")]; [("body", JNull)]; [("body", JStr "framework : crewai")]]
           [("adapter_requests", JObj (summarize_adapter_requests
              [[("body", JStr "Framework: CrewAI")]; [("body", JNull)]; [("body", JStr "framework : crewai")]]))] eq_refl).
Defined.

Lemma issues_are_read_to_the_end_witness :
  (fetch_open_labeled_issues demo_net "o" "r" "ghp" 1 "adapter-request" []).2
  = Ret (Some (omap issue_object (concat [[JObj [("body", JStr "Framework: CrewAI")]; JObj [("body", JNull)]; JObj [("pull_request", JNull)]]]))).
Proof.
  apply (issues_are_read_to_the_end demo_net "o" "r" "ghp" "adapter-request"); [|cbn; lia].
  apply served_last; [reflexivity|cbn; lia].
Defined.

End Examples.
