(* ===== verification/LogTrace.v ===== *)
(** * Redaction of logs and traces from logs

    `sanitize_for_logging` and the switches of
    `src/src/asap/observability/logging.py`, `utils/sanitization.py` and
    `observability/trace_parser.py`.

    Parameters: `urlparse` and `urlunparse`, the substitution used when they fail,
    `json.loads`, `datetime.fromisoformat` and the rendering of durations.  The
    set-up of structlog is left out. *)

From Stdlib Require Import ZArith QArith Lia Ascii String.
From stdpp Require Import base tactics list gmap strings sorting.
From S2P Require Import Prelude PyValue Digest OpenApiHandler.
Open Scope string_scope.
Open Scope Z_scope.
Open Scope asap_scope.

(** ** Redaction *)
Definition REDACTED_PLACEHOLDER : string := "***REDACTED***".
Definition _SENSITIVE_KEY_PATTERNS : list string :=
  ["password"; "token"; "secret"; "key"; "authorization"; "auth"; "credential"; "api_key"; "apikey"; "access_token"; "refresh_token"].

Definition _is_sensitive_key (key : string) : bool :=
  existsb (PyStr.contains (PyStr.lower key)) _SENSITIVE_KEY_PATTERNS.

(** A dictionary is sanitized; any other value is left alone. *)
Fixpoint sanitize_item (j : json) : json :=
  match j with
  | JObj d =>
      JObj (map (λ kv,
        (kv.1,
         if _is_sensitive_key kv.1 then JStr REDACTED_PLACEHOLDER
         else match kv.2 with
              | JList l => JList (map sanitize_item l)
              | _ => sanitize_item kv.2
              end)) d)
  | _ => j
  end.

Definition sanitize_for_logging (data : list (string * json)) : list (string * json) :=
  match sanitize_item (JObj data) with JObj d => d | _ => [] end.

Definition truthy_switch (value : option string) : bool :=
  str_in (PyStr.lower (PyStr.strip (default "" value))) ["true"; "1"; "yes"; "on"].
Definition is_debug_mode (env : option string) : bool := truthy_switch env.
Definition is_debug_log_mode (env : option string) : bool := truthy_switch env.

(** *** Tokens, nonces and URLs *)
Definition SANITIZE_PREFIX_LENGTH : nat := 8.

Definition sanitize_token (token : string) : string :=
  if negb (PyStr.truthy token) then ""
  else if (String.length token <=? SANITIZE_PREFIX_LENGTH)%nat then token
  else take_text SANITIZE_PREFIX_LENGTH token ++ "...".
Definition sanitize_nonce (nonce : string) : string := sanitize_token nonce.

(** What the code reads of a parsed URL; the rest is [pu_rest]. *)
Record parsed_url : Type := mkParsed {
  pu_username : option string;
  pu_password : option string;
  pu_hostname : option string;
  pu_port : option Z;
  pu_rest : string * string * string * string * string
}.

Definition text_of (o : option string) : string := default "None" o.

(** [None]: parsing raises `TypeError` or `ValueError`. *)
Definition sanitize_url (urlparse : string → option parsed_url) (urlunparse : parsed_url → string → string) (mask : string → string)
    (url : string) : string :=
  if negb (PyStr.truthy url) then ""
  else
    match urlparse url with
    | Some parsed =>
        match pu_password parsed with
        | Some (String _ _) =>
            let netloc := text_of (pu_username parsed) ++ ":***@" ++ text_of (pu_hostname parsed) in
            let netloc := match pu_port parsed with
                          | Some port => if port =? 0 then netloc else netloc ++ ":" ++ PyStr.dec_Z port
                          | None => netloc
                          end in
            urlunparse parsed netloc
        | _ => url
        end
    | None => mask url
    end.

(** ** Traces *)
Definition EVENT_RECEIVED : string := "asap.request.received".
Definition EVENT_PROCESSED : string := "asap.request.processed".

Record TraceHop : Type := mkHop { th_sender : string; th_recipient : string; th_duration_ms : option pyfloat }.

Definition _shorten_urn (urn : string) : string :=
  if PyStr.contains urn ":" then default "" (last (PyStr.split ":" urn)) else urn.

Section Traces.
  (** [None]: `JSONDecodeError` *)
  Context (loads : string → option json).
  (** seconds since the epoch of an ISO text; [None]: it does not parse *)
  Context (fromisoformat : string → option Q).
  (** `{x:.0f}` *)
  Context (format0 : pyfloat → string).

Definition urn_text (short_urns : bool) (urn : string) : string := if short_urns then _shorten_urn urn else urn.
Definition duration_text (d : option pyfloat) : string :=
  match d with Some d => "(" ++ format0 d ++ "ms)" | None => "(?)" end.

Definition format_hop (short_urns : bool) (h : TraceHop) : string :=
  urn_text short_urns (th_sender h) ++ " -> " ++ urn_text short_urns (th_recipient h) ++ " " ++ duration_text (th_duration_ms h).

Definition parse_log_line (line : string) : option (list (string * json)) :=
  let line := PyStr.strip line in
  if negb (PyStr.truthy line) then None
  else match loads line with Some (JObj d) => Some d | _ => None end.

Definition filter_records_by_trace_id (lines : list string) (trace_id : string) : list (list (string * json)) :=
  omap (λ line,
    if negb (PyStr.contains line trace_id) then None
    else match parse_log_line line with
         | Some parsed => if py_eq (j_get "trace_id" parsed) (JStr trace_id) then Some parsed else None
         | None => None
         end) lines.

(** The records of the two events, by envelope. *)
Definition by_envelope (event : string) (records : list (list (string * json))) : list (string * list (string * json)) :=
  fold_left (λ acc r,
    match j_get "envelope_id" r with
    | JStr envelope_id => if py_eq (j_get "event" r) (JStr event) then PyDict.set envelope_id r acc else acc
    | _ => acc
    end) records [].

Definition _timestamp_to_sort_key (ts : string) : Q := default 0%Q (fromisoformat ts).

(** The hop of a received record, with its sort key; [None]: it names no two agents. *)
Definition hop_of (processed : list (string * list (string * json))) (kv : string * list (string * json)) : option (Q * TraceHop) :=
  let rec := kv.2 in
  match j_get "sender" rec, j_get "recipient" rec with
  | JStr sender, JStr recipient =>
      let duration_ms := match PyDict.get kv.1 processed with
                         | Some proc => match assoc "duration_ms" proc with Some d => num_of d | None => None end
                         | None => None
                         end in
      let sort_key := match j_get "timestamp" rec with JStr ts => _timestamp_to_sort_key ts | _ => 0%Q end in
      Some (sort_key, mkHop sender recipient duration_ms)
  | _, _ => None
  end.

Definition key_le (a b : Q * TraceHop) : Prop := (a.1 <= b.1)%Q.
#[local] Instance key_le_dec a b : Decision (key_le a b).
Proof. unfold key_le. destruct (Qlt_le_dec b.1 a.1) as [Hl|Hl]; [right; by apply Qlt_not_le|by left]. Defined.

Definition build_hops (records : list (list (string * json))) : list TraceHop :=
  let received_by_envelope := by_envelope EVENT_RECEIVED records in
  let processed_by_envelope := by_envelope EVENT_PROCESSED records in
  (PySort.sorted key_le (omap (hop_of processed_by_envelope) received_by_envelope)).*2.

Definition format_ascii_diagram (hops : list TraceHop) (short_urns : bool) : string :=
  match hops with
  | [] => ""
  | first :: _ =>
      urn_text short_urns (th_sender first) ++ " -> "
      ++ joined " -> " (map (λ hop, urn_text short_urns (th_recipient hop) ++ " " ++ duration_text (th_duration_ms hop)) hops)
  end.

Definition extract_trace_ids (lines : list string) : list string :=
  sorted_names (omap (λ line,
    if negb (PyStr.contains line EVENT_RECEIVED) && negb (PyStr.contains line EVENT_PROCESSED) then None
    else match parse_log_line line with
         | Some parsed =>
             if py_eq (j_get "event" parsed) (JStr EVENT_RECEIVED) || py_eq (j_get "event" parsed) (JStr EVENT_PROCESSED)
             then match j_get "trace_id" parsed with JStr (String _ _ as tid) => Some tid | _ => None end
             else None
         | None => None
         end) lines).

Definition trace_to_json_export (trace_id : string) (hops : list TraceHop) : list (string * json) :=
  [("trace_id", JStr trace_id);
   ("hops", JList (map (λ h, JObj [("sender", JStr (th_sender h)); ("recipient", JStr (th_recipient h));
                                   ("duration_ms", match th_duration_ms h with Some d => JFloat d | None => JNull end)]) hops))].

Definition parse_trace_from_lines (lines : list string) (trace_id : string) : list TraceHop * string :=
  let hops := build_hops (filter_records_by_trace_id lines trace_id) in
  (hops, format_ascii_diagram hops true).

(** ** Facts about traces *)
Lemma filter_records_spec lines trace_id r : r ∈ filter_records_by_trace_id lines trace_id →
  j_get "trace_id" r = JStr trace_id ∧ ∃ line, line ∈ lines ∧ parse_log_line line = Some r.
Proof.
  unfold filter_records_by_trace_id. intros (line & Hin & Hl)%list_elem_of_omap.
  destruct (negb _); [done|]. destruct (parse_log_line line) as [d|] eqn:Hp; [|done].
  destruct (py_eq (j_get "trace_id" d) (JStr trace_id)) eqn:He; [|done]. injection Hl as ->. split; [|by exists line].
  destruct (j_get "trace_id" r); try done. cbn in He. by apply String.eqb_eq in He as ->.
Qed.

(** A trace has one hop for every received envelope that names its agents, in the
    order of the times they were received. *)
Theorem hops_are_ordered records :
  ∃ keyed, build_hops records = keyed.*2 ∧ Sorted key_le keyed
    ∧ keyed ≡ₚ omap (hop_of (by_envelope EVENT_PROCESSED records)) (by_envelope EVENT_RECEIVED records)
    ∧ (length (build_hops records) <= length (by_envelope EVENT_RECEIVED records))%nat.
Proof.
  eexists. split; [reflexivity|]. split; [|split; [apply PySort.sorted_Permutation|]].
  - apply PySort.Sorted_sorted. intros a b. unfold key_le. destruct (Qlt_le_dec (b.1) (a.1)); [right; by apply Qlt_le_weak|by left].
  - unfold build_hops. rewrite length_fmap, PySort.sorted_Permutation. generalize (by_envelope EVENT_RECEIVED records).
    intros l. induction l as [|x l IH]; cbn; [lia|]. destruct (hop_of _ x); cbn; lia.
Qed.

End Traces.

(** ** What redaction leaves *)
Fixpoint redacted (j : json) : bool :=
  match j with
  | JObj d =>
      forallb (λ kv,
        if _is_sensitive_key kv.1 then match kv.2 with JStr s => String.eqb s REDACTED_PLACEHOLDER | _ => false end
        else match kv.2 with
             | JList l => forallb redacted l
             | _ => redacted kv.2
             end) d
  | _ => true
  end.

(** The value of a key, as [sanitize_item] and [redacted] treat it. *)
Definition sanitize_member (v : json) : json := match v with JList l => JList (map sanitize_item l) | v => sanitize_item v end.
Definition redacted_member (v : json) : bool := match v with JList l => forallb redacted l | v => redacted v end.

Lemma forallb_map_true {A B} (f : A → B) (p : B → bool) l : Forall (λ x, p (f x) = true) l → forallb p (map f l) = true.
Proof. induction 1 as [|x l Hx _ IH]; [done|]. cbn. by rewrite Hx. Qed.

Lemma member_redacted v : (redacted (sanitize_item v) = true ∧ redacted_member (sanitize_member v) = true).
Proof.
  induction v as [| | | | |l IH|d IH] using json_nested_ind; try done.
  - split; [done|]. cbn [sanitize_member redacted_member]. apply forallb_map_true. eapply Forall_impl; [exact IH|]. by intros x [Hx _].
  - assert (Hd : redacted (sanitize_item (JObj d)) = true).
    { cbn [sanitize_item redacted]. apply forallb_map_true. eapply Forall_impl; [exact IH|]. intros [k v] [_ Hv]. cbn [fst snd] in *.
      destruct (_is_sensitive_key k); [done|exact Hv]. }
    split; [done|exact Hd].
Qed.

Lemma map_fixed {A} (f : A → A) l : Forall (λ x, f x = x) l → map f l = l.
Proof. induction 1 as [|x l Hx _ IH]; [done|]. cbn. by rewrite Hx, IH. Qed.

Lemma member_fixed v : (redacted v = true → sanitize_item v = v) ∧ (redacted_member v = true → sanitize_member v = v).
Proof.
  induction v as [| | | | |l IH|d IH] using json_nested_ind; try done.
  - split; [done|]. cbn [sanitize_member redacted_member]. intros Hr. f_equal. apply map_fixed. rewrite forallb_forall in Hr.
    apply Forall_forall. intros x Hx. rewrite Forall_forall in IH. apply (IH x Hx), Hr. by apply list_elem_of_In.
  - assert (Hd : redacted (JObj d) = true → sanitize_item (JObj d) = JObj d).
    { cbn [sanitize_item redacted]. intros Hr. f_equal. apply map_fixed. rewrite forallb_forall in Hr.
      apply Forall_forall. intros [k v] Hx. rewrite Forall_forall in IH. destruct (IH _ Hx) as [_ Hm].
      apply list_elem_of_In in Hx. specialize (Hr _ Hx). cbn [fst snd] in *. f_equal.
      destruct (_is_sensitive_key k); [|by apply Hm].
      destruct v; try done. by apply String.eqb_eq in Hr as ->. }
    split; exact Hd.
Qed.

(** Redaction is a projection onto records without secrets.  In what
    [sanitize_for_logging] returns, every dictionary reached through dictionaries
    and lists of dictionaries has the placeholder under each sensitive key; the
    keys are those of the input, in order; and an input that already is redacted
    is returned as it is, so redacting twice changes nothing. *)
Theorem redaction_is_a_projection data :
  redacted (JObj (sanitize_for_logging data)) = true
  ∧ (sanitize_for_logging data).*1 = data.*1
  ∧ (redacted (JObj data) = true → sanitize_for_logging data = data)
  ∧ sanitize_for_logging (sanitize_for_logging data) = sanitize_for_logging data.
Proof.
  assert (Hp : ∀ d, redacted (JObj d) = true → sanitize_for_logging d = d).
  { intros d Hr. unfold sanitize_for_logging. by rewrite (proj1 (member_fixed (JObj d)) Hr). }
  assert (Hr : redacted (JObj (sanitize_for_logging data)) = true) by exact (proj1 (member_redacted (JObj data))).
  split_and!; [done| |by apply Hp|by apply Hp].
  unfold sanitize_for_logging. cbn [sanitize_item]. rewrite <- list_fmap_compose. apply list_fmap_ext. done.
Qed.

(** A list inside a list is not looked into. *)
Lemma nested_lists_are_not_redacted :
  sanitize_for_logging [("rows", JList [JList [JObj [("password", JStr "hunter2")]]])]
  = [("rows", JList [JList [JObj [("password", JStr "hunter2")]]])].
Proof. by vm_compute. Qed.
