(* ===== verification/A2h.v ===== *)
(** * The Agent-to-Human client

    `src/src/asap/integrations/a2h.py`: the messages to a gateway, the polling
    for an answer and the approval provider that [Approval] asks.

    The state is the list of requests that were made; what the gateway answers to
    a request is a function of it and of the earlier ones.  Parsing the replies
    with Pydantic is a parameter.  Texts of forms and channels are JSON values; a
    `datetime` that is dumped stays one ([PDatetime]), and the JSON encoder of the
    HTTP client raises on it.  Times are microseconds; the readings of the clock
    are inputs of the polling, and the message of a time-out does not print the
    waiting time. *)

From Stdlib Require Import ZArith Lia Ascii String.
From stdpp Require Import base tactics list gmap strings.
From S2P Require Import Prelude PyValue Capabilities Approval.
Open Scope string_scope.
Open Scope Z_scope.
Open Scope asap_scope.

(** ** Messages *)
Inductive IntentType : Type := INFORM | COLLECT | AUTHORIZE | ESCALATE | RESULT | RESPONSE | ERROR.
Inductive InteractionState : Type := PENDING | SENT | WAITING_INPUT | ANSWERED | EXPIRED | CANCELLED | FAILED.
Inductive AssuranceLevel : Type := LOW | MEDIUM | HIGH.

#[export] Instance InteractionState_eq_dec : EqDecision InteractionState.
Proof. solve_decision. Defined.

Definition intent_value (t : IntentType) : string :=
  match t with
  | INFORM => "INFORM" | COLLECT => "COLLECT" | AUTHORIZE => "AUTHORIZE" | ESCALATE => "ESCALATE"
  | RESULT => "RESULT" | RESPONSE => "RESPONSE" | ERROR => "ERROR"
  end.
Definition level_value (l : AssuranceLevel) : string := match l with LOW => "LOW" | MEDIUM => "MEDIUM" | HIGH => "HIGH" end.
Definition state_value (s : InteractionState) : string :=
  match s with
  | PENDING => "PENDING" | SENT => "SENT" | WAITING_INPUT => "WAITING_INPUT" | ANSWERED => "ANSWERED"
  | EXPIRED => "EXPIRED" | CANCELLED => "CANCELLED" | FAILED => "FAILED"
  end.

(** `AssuranceLevel(text)` *)
Definition assurance_of (text : string) : res pyexn AssuranceLevel :=
  if String.eqb text "LOW" then Ret LOW
  else if String.eqb text "MEDIUM" then Ret MEDIUM
  else if String.eqb text "HIGH" then Ret HIGH
  else Raise (ValueError (repr_str text ++ " is not a valid AssuranceLevel")).

Definition TERMINAL_STATES : list InteractionState := [EXPIRED; CANCELLED; FAILED].

(** What `model_dump` gives: JSON, or a `datetime`. *)
Inductive pyval : Type :=
| PJson (j : json)
| PDatetime (t : Z).

(** The channel a message is bound to; its expiry is a `datetime`. *)
Record ChannelBinding : Type := mkChannel { cb_dump : list (string * json); cb_expires_at : option Z }.

Record A2HMessage : Type := mkMessage {
  a2_type : IntentType;
  a2_message_id : string;
  a2_agent_id : string;
  a2_principal_id : string;
  a2_responds_to : option string;
  a2_channel : option ChannelBinding;
  a2_render : option string;
  a2_links : option (list (string * json));
  a2_params : option (list (string * json));
  a2_ttl_sec : Z;
  a2_assurance : option AssuranceLevel;
  a2_explanation_bundle : option string;
  a2_components : option json;
  a2_created_at : option Z
}.

Definition opt_field {A} (k : string) (f : A → pyval) (o : option A) : list (string * pyval) :=
  match o with Some a => [(k, f a)] | None => [] end.

(** `message.model_dump(exclude_none=True)` *)
Definition dump_message (m : A2HMessage) : list (string * pyval) :=
  ([("type", PJson (JStr (intent_value (a2_type m)))); ("message_id", PJson (JStr (a2_message_id m)));
    ("agent_id", PJson (JStr (a2_agent_id m))); ("principal_id", PJson (JStr (a2_principal_id m))); ("a2h_version", PJson (JStr "1.0"))]
   ++ opt_field "responds_to" (λ s, PJson (JStr s)) (a2_responds_to m)
   ++ opt_field "channel" (λ c, match cb_expires_at c with Some t => PDatetime t | None => PJson (JObj (cb_dump c)) end) (a2_channel m)
   ++ opt_field "render" (λ s, PJson (JObj [("body", JStr s)])) (a2_render m)
   ++ opt_field "links" (λ d, PJson (JObj d)) (a2_links m)
   ++ opt_field "params" (λ d, PJson (JObj d)) (a2_params m)
   ++ [("ttl_sec", PJson (JInt (a2_ttl_sec m)))]
   ++ opt_field "assurance" (λ l, PJson (JObj [("level", JStr (level_value l))])) (a2_assurance m)
   ++ opt_field "explanation_bundle" (λ s, PJson (JObj [("why", JStr s)])) (a2_explanation_bundle m)
   ++ opt_field "components" PJson (a2_components m)
   ++ opt_field "created_at" PDatetime (a2_created_at m))%list.

(** `json.dumps` of the HTTP client: the value that is sent. *)
Fixpoint encode_json (d : list (string * pyval)) : res pyexn (list (string * json)) :=
  match d with
  | [] => Ret []
  | (k, PJson j) :: d' => let! e := encode_json d' in Ret ((k, j) :: e)
  | (_, PDatetime _) :: _ => Raise (TypeError "Object of type datetime is not JSON serializable")
  end.

Record A2HResponse : Type := mkA2HResponse {
  ar_responds_to : option string;
  ar_interaction_id : option string;
  ar_decision : option string;
  ar_decided_at : option Z;
  ar_data : option pydict;
  ar_evidence : option (list (string * json))
}.
Record InteractionStatus : Type := mkInteraction { is_state : InteractionState; is_response : option A2HResponse }.

(** ** Requests *)
Record a2h_request : Type := mkA2HRequest {
  aq_method : string;
  aq_url : string;
  aq_headers : list (string * string);
  aq_body : option (list (string * json))
}.

Inductive gateway_reply : Type :=
| GwStatus (status : Z)
| GwError (text : string)
| GwNotJson (text : string)
| GwJson (j : json).

Inductive a2h_exn : Type :=
| HttpStatus (status : Z)
| HttpError (text : string)
| PyRaises (e : pyexn)
| TimedOut (message : string).

Record A2HClient : Type := mkA2HClient {
  a2c_gateway_url : string;
  a2c_api_key : option string;
  a2c_oauth_token : option string;
  a2c_agent_id : string
}.
Definition new_a2h_client (gateway_url : string) (api_key oauth_token : option string) (agent_id : string) : A2HClient :=
  mkA2HClient (PyStr.rstrip_char "/" gateway_url) api_key oauth_token agent_id.

Definition if_truthy {A} (o : option string) (f : string → A) : list A :=
  match o with Some s => if PyStr.truthy s then [f s] else [] | None => [] end.

Definition _headers (c : A2HClient) : list (string * string) :=
  ([("Content-Type", "application/json")] ++ if_truthy (a2c_api_key c) (λ k, ("X-A2H-API-Key", k))
   ++ if_truthy (a2c_oauth_token c) (λ t, ("Authorization", ("Bearer " ++ t)%string)))%list.

Section Client.
  Context (c : A2HClient).
  (** the answer to a request, after the earlier ones *)
  Context (gateway : list a2h_request → a2h_request → gateway_reply).
  (** `IntentResponse`, `InteractionStatus`, `GatewayCapabilities`; [inr]: the
      text of the validation error *)
  Context (parse_intent : json → string + string) (parse_status : json → InteractionStatus + string).
  Context (parse_capabilities : json → json + string).

Abbreviation A2H := (ST (list a2h_request) a2h_exn).

(** The body is encoded before anything is sent. *)
Definition _request (method path : string) (body : option (list (string * pyval))) : A2H gateway_reply := λ log,
  match match body with Some b => rmap Some (encode_json b) | None => Ret None end with
  | Raise e => (log, Raise (PyRaises e))
  | Ret body =>
      let req := mkA2HRequest method (a2c_gateway_url c ++ path) (_headers c) body in
      ((log ++ [req])%list,
       match gateway log req with
       | GwStatus status => Raise (HttpStatus status)
       | GwError text => Raise (HttpError text)
       | r => Ret r
       end)
  end.

(** `Model.model_validate(resp.json())` *)
Definition validated {A} (parse : json → A + string) (r : gateway_reply) : res a2h_exn A :=
  match r with
  | GwJson j => match parse j with inl a => Ret a | inr e => Raise (PyRaises (ValidationError e)) end
  | GwNotJson text => Raise (PyRaises (ValueError text))
  | GwStatus status => Raise (HttpStatus status)
  | GwError text => Raise (HttpError text)
  end.

Definition request_as {A} (parse : json → A + string) (method path : string) (body : option (list (string * pyval))) : A2H A := λ log,
  let '(log, r) := _request method path body log in (log, let! reply := r in validated parse reply).

Definition _build_message (intent_type : IntentType) (message_id : string) (now : Z) (principal_id : string) (body : option string)
    (channel : option ChannelBinding) (components : option json) (assurance : option AssuranceLevel) (explanation responds_to : option string)
    (params : option (list (string * json))) (conversation_id : option string) : A2HMessage :=
  let nonempty (o : option string) := match o with Some s => if PyStr.truthy s then Some s else None | None => None end in
  mkMessage intent_type message_id (a2c_agent_id c) principal_id responds_to channel (nonempty body)
    ((λ id, [("a2a_thread", JStr ("asap:conversation/" ++ id))]) <$> nonempty conversation_id) params 300 assurance
    (nonempty explanation) components (Some now).

Definition _send_intent (m : A2HMessage) : A2H string := request_as parse_intent "POST" "/v1/intent" (Some (dump_message m)).

Definition get_status (interaction_id : string) : A2H InteractionStatus :=
  request_as parse_status "GET" ("/v1/status/" ++ interaction_id) None.

Definition discover : A2H json := request_as parse_capabilities "GET" "/.well-known/a2h" None.

Definition cancel (interaction_id : string) : A2H bool := λ log,
  match _request "POST" ("/v1/cancel/" ++ interaction_id) None log with
  | (log, Raise (HttpStatus status)) =>
      (log, if (status =? 404) || (status =? 409) then Ret false else Raise (HttpStatus status))
  | (log, Raise e) => (log, Raise e)
  | (log, Ret _) => (log, Ret true)
  end.

(** The rounds of the polling from round [k] on, at most [fuel] of them; [clock
    k] is read in round [k].  [None]: the rounds did not suffice. *)
Fixpoint poll_loop (fuel : nat) (interaction_id : string) (max_wait start : Z) (clock : nat → Z) (k : nat) (log : list a2h_request) :
    list a2h_request * option (res a2h_exn A2HResponse) :=
  match fuel with
  | O => (log, None)
  | S fuel' =>
      match get_status interaction_id log with
      | (log, Raise e) => (log, Some (Raise e))
      | (log, Ret status) =>
          if bool_decide (is_state status = ANSWERED) then
            (log, Some (match is_response status with
                        | Some r => Ret r
                        | None => Raise (PyRaises (ValueError ("Interaction " ++ interaction_id ++ " answered but response is None")))
                        end))
          else if bool_decide (is_state status ∈ TERMINAL_STATES) then
            (log, Some (Raise (PyRaises (ValueError ("Interaction " ++ interaction_id ++ " ended with state: " ++ state_value (is_state status))))))
          else if max_wait <? clock k - start then
            (log, Some (Raise (TimedOut ("Polling timed out for interaction " ++ interaction_id))))
          else poll_loop fuel' interaction_id max_wait start clock (S k) log
      end
  end.

Definition poll_rounds (poll_interval max_wait : Z) : nat := (Z.to_nat (max_wait / poll_interval) + 2)%nat.

(** ** Intents *)
Definition inform (message_id : string) (now : Z) (principal_id body : string) (channel : option ChannelBinding) (conversation_id : option string) :
    A2H string :=
  _send_intent (_build_message INFORM message_id now principal_id (Some body) channel None None None None None conversation_id).

Definition send_result (message_id : string) (now : Z) (principal_id body : string) (responds_to : option string)
    (channel : option ChannelBinding) (conversation_id : option string) : A2H string :=
  _send_intent (_build_message RESULT message_id now principal_id (Some body) channel None None None responds_to None conversation_id).

(** Send the message, then poll; [None]: the rounds did not suffice. *)
Definition ask (message : A2HMessage) (poll_interval max_wait start : Z) (clock : nat → Z) (log : list a2h_request) :
    list a2h_request * option (res a2h_exn A2HResponse) :=
  match _send_intent message log with
  | (log, Raise e) => (log, Some (Raise e))
  | (log, Ret interaction_id) => poll_loop (poll_rounds poll_interval max_wait) interaction_id max_wait start clock 0 log
  end.

Definition authorize (message_id : string) (now : Z) (principal_id body : string) (assurance : option AssuranceLevel)
    (channel : option ChannelBinding) (explanation conversation_id : option string) :=
  ask (_build_message AUTHORIZE message_id now principal_id (Some body) channel None assurance explanation None None conversation_id).

Definition collect (message_id : string) (now : Z) (principal_id : string) (components : json) (body : option string)
    (channel : option ChannelBinding) (conversation_id : option string) :=
  ask (_build_message COLLECT message_id now principal_id body channel (Some components) None None None None conversation_id).

Definition escalate (message_id : string) (now : Z) (principal_id : string) (targets : list string) (body : option string)
    (channel : option ChannelBinding) (conversation_id : option string) :=
  ask (_build_message ESCALATE message_id now principal_id body channel None None None None
         (Some [("targets", JList (map JStr targets))]) conversation_id).

(** ** The approval provider *)
Definition approval_of (r : A2HResponse) : ApprovalResult :=
  Approval.mkResult (bool_decide (ar_decision r = Some "APPROVE")) (ar_data r).

Definition request_approval (message_id : string) (now : Z) (context principal_id assurance_level : string)
    (poll_interval timeout start : Z) (clock : nat → Z) (log : list a2h_request) :
    list a2h_request * option (res a2h_exn ApprovalResult) :=
  match assurance_of assurance_level with
  | Raise e => (log, Some (Raise (PyRaises e)))
  | Ret level =>
      match authorize message_id now principal_id context (Some level) None None None poll_interval timeout start clock log with
      | (log, Some (Ret r)) => (log, Some (Ret (approval_of r)))
      | (log, Some (Raise e)) => (log, Some (Raise e))
      | (log, None) => (log, None)
      end
  end.

Definition notify (message_id : string) (now : Z) (principal_id body : string) : A2H string :=
  inform message_id now principal_id body None None.

(** ** Polling ends *)

(** If every round takes at least the interval, the rounds that were reserved
    suffice: the polling returns an answer or raises. *)
Theorem polling_ends interaction_id poll_interval max_wait start clock log :
  0 < poll_interval → 0 <= max_wait → (∀ k, start + Z.of_nat k * poll_interval <= clock k) →
  (poll_loop (poll_rounds poll_interval max_wait) interaction_id max_wait start clock 0 log).2 ≠ None.
Proof.
  intros Hi Hm Hc. unfold poll_rounds.
  assert (Hg : ∀ fuel k log, (Z.to_nat (max_wait / poll_interval) + 2 <= fuel + k)%nat → (0 < fuel)%nat →
    (poll_loop fuel interaction_id max_wait start clock k log).2 ≠ None).
  { induction fuel as [|fuel IH]; intros k l Hf Hpos; [lia|]. cbn [poll_loop].
    destruct (get_status interaction_id l) as [l' [e|status]]; [done|]. repeat case_bool_decide; try done.
    destruct (Z.ltb_spec max_wait (clock k - start)) as [|Hlt]; [done|].
    assert (Hk : (k <= Z.to_nat (max_wait / poll_interval))%nat).
    { specialize (Hc k). assert (Z.of_nat k * poll_interval <= max_wait) by lia.
      assert (Z.of_nat k <= max_wait / poll_interval) by (apply Z.div_le_lower_bound; lia). lia. }
    apply IH; lia. }
  apply Hg; lia.
Qed.

(** What polling returns is the response of a status that says `ANSWERED`, the
    reply to the last request, which asked for this interaction. *)
Theorem polled_answer_is_answered fuel interaction_id max_wait start clock k log log' r :
  poll_loop fuel interaction_id max_wait start clock k log = (log', Some (Ret r)) →
  ∃ before j status, log' = (before ++ [mkA2HRequest "GET" (a2c_gateway_url c ++ "/v1/status/" ++ interaction_id) (_headers c) None])%list
    ∧ gateway before (mkA2HRequest "GET" (a2c_gateway_url c ++ "/v1/status/" ++ interaction_id) (_headers c) None) = GwJson j
    ∧ parse_status j = inl status ∧ is_state status = ANSWERED ∧ is_response status = Some r.
Proof.
  revert k log. induction fuel as [|fuel IH]; intros k log; cbn [poll_loop]; [done|].
  destruct (get_status interaction_id log) as [l' [e|status]] eqn:Hg; [done|]. case_bool_decide as Ha.
  - intros [= -> Hr]. destruct (is_response status) as [r'|] eqn:Hresp; [|done]. injection Hr as ->.
    unfold get_status, request_as, _request in Hg. cbn [rmap rbind] in Hg.
    destruct (gateway log _) as [| | |j] eqn:Hgw; cbn [rbind validated] in Hg; try done.
    destruct (parse_status j) as [s|] eqn:Hp; [|done]. injection Hg as <- <-. by exists log, j, s.
  - case_bool_decide; [done|]. destruct (max_wait <? _); [done|]. apply IH.
Qed.

(** ** No intent is sent *)
Lemma encode_datetime d k t : (k, PDatetime t) ∈ d → ∃ e, encode_json d = Raise e.
Proof.
  induction d as [|[k' v] d IH]; intros Hin; [by apply elem_of_nil in Hin|]. cbn [encode_json].
  destruct v as [j|t']; [|eauto]. apply elem_of_cons in Hin as [?|Hin]; [done|].
  destruct (IH Hin) as [e ->]. by exists e.
Qed.

(** Every message the client builds carries its time of creation, which the
    encoder refuses: no intent ever leaves the client. *)
Theorem no_intent_is_sent ty id now p body ch comps a ex rt params conv log :
  ∃ e, _send_intent (_build_message ty id now p body ch comps a ex rt params conv) log = (log, Raise (PyRaises e)).
Proof.
  unfold _send_intent, request_as, _request. set (m := _build_message _ _ _ _ _ _ _ _ _ _ _ _).
  assert (Hin : ("created_at", PDatetime now) ∈ dump_message m).
  { unfold dump_message, m. cbn [a2_created_at _build_message opt_field]. rewrite !elem_of_app. do 10 right. by left. }
  destruct (encode_datetime _ _ _ Hin) as [e He]. rewrite He. cbn [rmap rbind]. by exists e.
Qed.

End Client.
