(* ===== verification/Frameworks.v ===== *)
(** * The base of the framework integrations

    `src/src/asap/integrations/_base.py`: the schemas tools are declared with, the
    cache of resolved agents on a shared market client, and the invocation that
    turns every failure into a text.

    Resolving and running an agent are parameters, as [Market] gives them; the
    state of the outside world is threaded through them.  A Pydantic model is its
    name and fields ([tool_model]).  An exception is one of [Handlers.exn] or of
    the interpreter; its classes decide the text.  `str()` of a result that is no
    dictionary does not occur: `run` returns dictionaries. *)

From Stdlib Require Import ZArith QArith Lia Ascii String.
From stdpp Require Import base tactics list gmap strings.
From S2P Require Import Prelude PyValue Identity Digest Errors Handlers JsonRpc Discovery.
Open Scope string_scope.
Open Scope Z_scope.
Open Scope asap_scope.

(** ** Schemas *)
Inductive field_type : Type := TStr | TInt | TFloat | TBool | TList | TDict.
(** The default of a field: none at all, `None`, an empty value, or one made per
    instance. *)
Inductive field_default : Type := DRequired | DNone | DEmpty | DFactory.

Record tool_field : Type := mkField { tf_type : field_type; tf_default : field_default; tf_description : json }.
Record tool_model : Type := mkModel { tm_name : string; tm_fields : list (string * tool_field) }.

Definition default_input_schema (name : string) : tool_model :=
  mkModel name [("input", mkField TDict DRequired (JStr "Skill input payload (key-value)"))].

(** `prop.get("description") or key` *)
Definition truthy_json (j : json) : bool :=
  match j with
  | JNull => false
  | JBool b => b
  | JInt z => negb (z =? 0)
  | JFloat (FFin q) => negb (Qeq_bool q 0)
  | JFloat _ => true
  | JStr s => PyStr.truthy s
  | JList l => match l with [] => false | _ => true end
  | JObj d => match d with [] => false | _ => true end
  end.
Definition description_of (key : string) (prop : list (string * json)) : json :=
  if truthy_json (j_get "description" prop) then j_get "description" prop else JStr key.

Definition _schema_property_to_field (key : string) (prop : list (string * json)) (required : list string) : tool_field :=
  let typ := default (JStr "string") (assoc "type" prop) in
  let desc := description_of key prop in
  let scalar := if str_in key required then DNone else DEmpty in
  if py_eq typ (JStr "string") then mkField TStr scalar desc
  else if py_eq typ (JStr "integer") then mkField TInt scalar desc
  else if py_eq typ (JStr "number") then mkField TFloat scalar desc
  else if py_eq typ (JStr "boolean") then mkField TBool scalar desc
  else if py_eq typ (JStr "array") then mkField TList DFactory desc
  else mkField TDict DFactory desc.

(** The properties and the required names of an object schema; other shapes of
    the two members are no JSON Schema, and are read as empty. *)
Definition schema_properties (schema : list (string * json)) : list (string * json) :=
  match j_get "properties" schema with JObj props => props | _ => [] end.
Definition schema_required (schema : list (string * json)) : list string :=
  match j_get "required" schema with JList l => omap as_str l | _ => [] end.

Definition field_defs (schema : list (string * json)) : list (string * tool_field) :=
  omap (λ kv : string * json,
    match kv.2 with JObj prop => Some (kv.1, _schema_property_to_field kv.1 prop (schema_required schema)) | _ => None end)
    (schema_properties schema).

Definition json_schema_to_pydantic (schema : list (string * json)) (model_name default_name : string) : tool_model :=
  if negb (py_eq (j_get "type" schema) (JStr "object")) then default_input_schema default_name
  else match field_defs schema with [] => default_input_schema default_name | fields => mkModel model_name fields end.

Fixpoint dashes_to_underscores (s : string) : string :=
  match s with
  | EmptyString => EmptyString
  | String ch s' => String (if Ascii.eqb ch "-" then "_"%char else ch) (dashes_to_underscores s')
  end.

(** The first skill of a manifest: its id and input schema. *)
Definition skill : Type := string * option (list (string * json)).

Definition usable_schema (skills : list skill) : option (string * list (string * json)) :=
  match skills with
  | (id, Some ((_ :: _) as schema)) :: _ => Some (id, schema)
  | _ => None
  end.

Definition build_args_schema_from_manifest (skills : list skill) (model_prefix : string) : option tool_model :=
  (λ s, json_schema_to_pydantic s.2 (model_prefix ++ "_" ++ dashes_to_underscores s.1) "AsapToolInput") <$> usable_schema skills.

Definition build_fn_schema_from_manifest (skills : list skill) (model_prefix default_name : string) : tool_model :=
  match usable_schema skills with
  | Some s => json_schema_to_pydantic s.2 (model_prefix ++ "_" ++ dashes_to_underscores s.1) default_name
  | None => default_input_schema default_name
  end.

(** *** SmolAgents *)
Definition SMOLAGENTS_TYPES : list string :=
  ["string"; "boolean"; "integer"; "number"; "image"; "audio"; "array"; "object"; "any"; "null"].
Definition DEFAULT_SMOLAGENTS_INPUTS : list (string * (string * json)) :=
  [("input", ("object", JStr "Skill input payload (key-value dict matching agent schema)"))].

(** `smol_type in SMOLAGENTS_TYPES`: a list or a dictionary has no hash. *)
Definition smol_type (prop : list (string * json)) : res pyexn string :=
  match default (JStr "string") (assoc "type" prop) with
  | JStr s => Ret (if str_in s SMOLAGENTS_TYPES then s else "string")
  | JList _ => Raise (TypeError "unhashable type: 'list'")
  | JObj _ => Raise (TypeError "unhashable type: 'dict'")
  | _ => Ret "string"
  end.

Fixpoint smol_fields (props : list (string * json)) : res pyexn (list (string * (string * json))) :=
  match props with
  | [] => Ret []
  | (key, JObj prop) :: props' =>
      let! t := smol_type prop in
      let! rest := smol_fields props' in
      Ret ((key, (t, description_of key prop)) :: rest)
  | _ :: props' => smol_fields props'
  end.

Definition json_schema_to_smolagents_inputs (schema : list (string * json)) (default_inputs : option (list (string * (string * json)))) :
    res pyexn (list (string * (string * json))) :=
  let fallback := default DEFAULT_SMOLAGENTS_INPUTS default_inputs in
  if negb (py_eq (j_get "type" schema) (JStr "object")) then Ret fallback
  else
    let! result := smol_fields (schema_properties schema) in
    Ret (match result with [] => fallback | _ => result end).

Definition build_smolagents_inputs_from_manifest (skills : list skill) : res pyexn (list (string * (string * json))) :=
  match usable_schema skills with
  | Some s => json_schema_to_smolagents_inputs s.2 None
  | None => Ret DEFAULT_SMOLAGENTS_INPUTS
  end.

(** `c.isdigit()` below 256: superscripts count. *)
Definition is_digit_char (c : ascii) : bool :=
  let n := PyStr.code c in ((48 <=? n) && (n <=? 57))%nat || bool_decide (n ∈ [178; 179; 185]%nat).
Definition name_char (c : ascii) : bool := is_alnum c || Ascii.eqb c "_".
Fixpoint underscored (s : string) : string :=
  match s with
  | EmptyString => EmptyString
  | String c s' => String (if name_char c then c else "_"%char) (underscored s')
  end.
Fixpoint lstrip_underscores (s : string) : string :=
  match s with String c s' => if Ascii.eqb c "_" then lstrip_underscores s' else s | EmptyString => EmptyString end.

Definition sanitize_tool_name (name : string) : string :=
  let sanitized := PyStr.rstrip_char "_" (lstrip_underscores (underscored name)) in
  let sanitized := if PyStr.truthy sanitized then sanitized else "asap_agent" in
  match sanitized with
  | String c _ => if is_digit_char c then "asap_" ++ sanitized else sanitized
  | EmptyString => sanitized
  end.

(** ** Invocation *)
Definition build_task_payload (conversation_id skill_id : string) (input_payload : list (string * json)) : list (string * json) :=
  [("conversation_id", JStr conversation_id); ("skill_id", JStr skill_id); ("input", JObj input_payload)].

(** `isinstance(exc, ValueError)` *)
Definition is_value_error (x : exn) : bool :=
  match x with XOther n _ => str_in n ["ValueError"; "ValidationError"; "JSONDecodeError"; "UnicodeDecodeError"] | _ => false end.
Definition is_runtime_error (x : exn) : bool :=
  match x with XOther n _ => str_in n ["RuntimeError"; "RecursionError"; "NotImplementedError"] | _ => false end.
Definition is_os_error (x : exn) : bool :=
  match x with XOther n _ => str_in n ["OSError"; "ConnectionError"; "TimeoutError"; "FileNotFoundError"; "PermissionError"] | _ => false end.
Definition is_revoked_error : exn → bool := has_class ClsAgentRevokedException.
Definition is_signature_error : exn → bool := has_class ClsSignatureVerificationError.

Definition format_invoke_error (x : exn) : string :=
  if is_revoked_error x then "Error: Agent revoked: " ++ exn_text x
  else if is_signature_error x then "Error: Agent signature verification failed: " ++ exn_text x
  else if is_value_error x then "Error: Invalid skill input or task request: " ++ exn_text x
  else "Error: ASAP invocation failed: " ++ exn_text x.

Definition _format_resolve_error (x : exn) (urn : string) : string :=
  if is_revoked_error x then "Error: Agent revoked: " ++ exn_text x
  else if is_signature_error x then "Error: Agent signature verification failed: " ++ exn_text x
  else if is_value_error x then "Error: Failed to resolve agent " ++ urn ++ ": " ++ exn_text x
  else "Error: ASAP resolve failed for " ++ urn ++ ": " ++ exn_text x.

(** The input of a call: keywords, else the first positional argument. *)
Definition coerce_tool_input (args : list json) (kwargs : list (string * json)) : list (string * json) :=
  match kwargs with
  | _ :: _ => kwargs
  | [] => match args with
          | [] => []
          | JObj d :: _ => d
          | v :: _ => [("input", JObj [("raw", v)])]
          end
  end.

Section Invoke.
  Context `{PyRuntime} {Agent World : Type}.
  Context (skills_of : Agent → list string).
  (** `client.resolve(urn)` and `agent.run(payload)` *)
  Context (resolve : string → ST World exn Agent) (run : Agent → list (string * json) → ST World exn (list (string * json))).

Definition first_skill_id (a : Agent) : string := match skills_of a with id :: _ => id | [] => "" end.

(** The private attributes of a tool: the resolved agent and its skill. *)
Record tool_cache : Type := mkTool { tc_resolved : option Agent; tc_skill_id : string }.

Definition _resolve_or_cache (urn : string) (t : tool_cache) : World → World * tool_cache * res exn Agent := λ w,
  match tc_resolved t with
  | Some a => (w, t, Ret a)
  | None =>
      match resolve urn w with
      | (w, Raise e) => (w, t, Raise e)
      | (w, Ret a) => (w, mkTool (Some a) (first_skill_id a), Ret a)
      end
  end.

(** `tool_input.get("input", tool_input)`, wrapped if it is no dictionary *)
Definition input_payload (tool_input : list (string * json)) : list (string * json) :=
  match assoc "input" tool_input with
  | None => tool_input
  | Some (JObj d) => d
  | Some v => [("value", v)]
  end.

(** [inl]: the result; [inr]: a text *)
Definition invoke_skill_async (conversation_id urn : string) (t : tool_cache) (tool_input : list (string * json)) :
    World → World * tool_cache * (list (string * json) + string) := λ w,
  match _resolve_or_cache urn t w with
  | (w, t, Raise e) => (w, t, inr (_format_resolve_error e urn))
  | (w, t, Ret agent) =>
      if negb (PyStr.truthy (tc_skill_id t)) then (w, t, inr "Error: Agent has no skills; cannot build task request.")
      else
        match run agent (build_task_payload conversation_id (tc_skill_id t) (input_payload tool_input)) w with
        | (w, Ret result) => (w, t, inl result)
        | (w, Raise e) => (w, t, inr (format_invoke_error e))
        end
  end.

Definition to_str_result (value : string + list (string * json)) : string :=
  match value with inl s => s | inr d => json_dumps float_repr ", " ": " false (JObj d) end.

Definition invoke_skill_json_async (conversation_id urn : string) (t : tool_cache) (tool_input : list (string * json)) :
    World → World * tool_cache * string := λ w,
  let '(w, t, r) := invoke_skill_async conversation_id urn t tool_input w in
  (w, t, match r with inl d => to_str_result (inr d) | inr s => s end).

(** ** Resolution on a shared client *)
Inductive cached : Type := Resolving | Resolved (a : Agent) (skill_id : string).

(** [resolve] may itself use the cache, which is part of its world. *)
Definition shared : Type := list (string * cached).

Definition runtime_error (text : string) : exn := XOther "RuntimeError" text.

(** [resolving]: what the resolution does to the cache while it runs. *)
Definition resolve_and_cache_skill (running_loop : bool) (resolving : shared → World → shared * World * res exn Agent) (urn : string)
    (cache : shared) (w : World) : shared * World * res exn (Agent * string) :=
  if running_loop then (cache, w, Raise (runtime_error ("event loop running; defer resolve of " ++ repr_str urn)))
  else
    match PyDict.get urn cache with
    | Some (Resolved a s) => (cache, w, Ret (a, s))
    | Some Resolving => (cache, w, Raise (runtime_error ("Re-entrant resolve detected for URN " ++ repr_str urn ++ "; aborting.")))
    | None =>
        let '(cache, w, r) := resolving (PyDict.set urn Resolving cache) w in
        let cache := match PyDict.get urn cache with Some Resolving => PyDict.del urn cache | _ => cache end in
        match r with
        | Raise e => (cache, w, Raise e)
        | Ret a => (PyDict.set urn (Resolved a (first_skill_id a)) cache, w, Ret (a, first_skill_id a))
        end
    end.

Definition is_resolve_exception (x : exn) : bool := is_os_error x || is_value_error x || is_revoked_error x || is_signature_error x.

Definition eager_resolve_or_defer (r : res exn (Agent * string)) : res exn (option Agent * string) :=
  match r with
  | Ret (a, s) => Ret (Some a, s)
  | Raise e => if is_runtime_error e || is_resolve_exception e then Ret (None, "") else Raise e
  end.

Definition eager_resolve_or_raise (urn : string) (r : res exn (Agent * string)) : res exn (option Agent * string) :=
  match r with
  | Ret (a, s) => Ret (Some a, s)
  | Raise e => if is_runtime_error e then Ret (None, "")
               else Raise (XOther "ValueError" ("Failed to resolve agent " ++ urn ++ ": " ++ exn_text e))
  end.

(** ** Theorems *)

(** The resolution that leaves the cache alone. *)
Definition plainly (urn : string) (cache : shared) (w : World) : shared * World * res exn Agent :=
  let '(w, r) := resolve urn w in (cache, w, r).

(** Every agent in the cache is one that resolving its URN gave at some time. *)
Definition cache_sound (cache : shared) : Prop :=
  PyDict.wf cache
  ∧ ∀ urn c, PyDict.get urn cache = Some c → ∃ a w w', c = Resolved a (first_skill_id a) ∧ resolve urn w = (w', Ret a).

(** On a client that several tools share, a call with a URN gives an agent that
    this URN resolved to, never that of another tool; a call that fails leaves no
    trace in the cache, so that the next one resolves again. *)
Theorem shared_cache_keeps_agents_apart loop urn cache w cache' w' r :
  cache_sound cache → resolve_and_cache_skill loop (plainly urn) urn cache w = (cache', w', r) →
  cache_sound cache'
  ∧ (∀ a s, r = Ret (a, s) → s = first_skill_id a ∧ PyDict.get urn cache' = Some (Resolved a s) ∧ ∃ w1 w2, resolve urn w1 = (w2, Ret a))
  ∧ (∀ e, r = Raise e → ∀ u, PyDict.get u cache' = PyDict.get u cache).
Proof.
  intros [Hw Hs]. unfold resolve_and_cache_skill. destruct loop; [by intros [= <- <- <-]|].
  destruct (PyDict.get urn cache) as [[|a s]|] eqn:Hg.
  - by intros [= <- <- <-].
  - intros [= <- <- <-]. destruct (Hs _ _ Hg) as (a' & w1 & w2 & [= -> ->] & Hr).
    split_and!; [done| |done]. intros a s [= <- <-]. split_and!; [done|done|by exists w1, w2].
  - unfold plainly. destruct (resolve urn w) as [w1 [e|a]] eqn:Hr; rewrite PyDict.get_set_eq.
    + intros [= <- <- <-].
      assert (Hu : ∀ u, PyDict.get u (PyDict.del urn (PyDict.set urn Resolving cache)) = PyDict.get u cache).
      { intros u. destruct (decide (u = urn)) as [->|Hne].
        - rewrite PyDict.get_del_eq by by apply PyDict.wf_set. done.
        - by rewrite PyDict.get_del_ne, PyDict.get_set_ne. }
      split_and!; [|done|done]. split; [by apply PyDict.wf_del, PyDict.wf_set|]. intros u c. rewrite Hu. apply Hs.
    + intros [= <- <- <-]. split_and!; [|intros a' s [= <- <-]; split_and!; [done|apply PyDict.get_set_eq|by exists w, w1]|done].
      split; [by apply PyDict.wf_set, PyDict.wf_del, PyDict.wf_set|]. intros u c.
      destruct (decide (u = urn)) as [->|Hne].
      * rewrite PyDict.get_set_eq. intros [= <-]. by exists a, w, w1.
      * rewrite PyDict.get_set_ne, PyDict.get_del_ne, PyDict.get_set_ne by done. apply Hs.
Qed.

(** An agent that a tool resolved is never looked at again: whatever resolving it
    would say later, also that it is revoked, the tool runs it. *)
Theorem resolved_tools_skip_revocation conversation_id urn agent s tool_input w : PyStr.truthy s = true →
  invoke_skill_async conversation_id urn (mkTool (Some agent) s) tool_input w
  = match run agent (build_task_payload conversation_id s (input_payload tool_input)) w with
    | (w', Ret result) => (w', mkTool (Some agent) s, inl result)
    | (w', Raise e) => (w', mkTool (Some agent) s, inr (format_invoke_error e))
    end.
Proof. intros Hs. unfold invoke_skill_async, _resolve_or_cache. cbn. by rewrite Hs. Qed.

End Invoke.

(** ** Names of tools *)
Definition starts_well (s : string) : bool :=
  match s with String c _ => name_char c && negb (is_digit_char c) | EmptyString => false end.
Fixpoint all_name_chars (s : string) : bool := match s with String c s' => name_char c && all_name_chars s' | EmptyString => true end.

Lemma underscored_chars s : all_name_chars (underscored s) = true.
Proof. induction s as [|c s IH]; [done|]. cbn. rewrite IH. destruct (name_char c) eqn:E; [by rewrite E|done]. Qed.

Lemma lstrip_chars s : all_name_chars s = true → all_name_chars (lstrip_underscores s) = true.
Proof. induction s as [|c s IH]; [done|]. cbn. intros [Hc Hs]%andb_prop. case_match; [auto|]. cbn. by rewrite Hc, Hs. Qed.

Lemma rstrip_chars s : all_name_chars s = true → all_name_chars (PyStr.rstrip_char "_" s) = true.
Proof.
  induction s as [|c s IH]; [done|]. cbn. intros [Hc Hs]%andb_prop. specialize (IH Hs).
  destruct (PyStr.rstrip_char "_" s) as [|c' s'] eqn:E; [case_match; [done|cbn; by rewrite Hc]|]. cbn in IH |- *. by rewrite Hc.
Qed.

(** A sanitized tool name is not empty, consists of letters, numbers and
    underscores and does not start with a digit. *)
Theorem tool_names_are_sanitized name :
  all_name_chars (sanitize_tool_name name) = true ∧ starts_well (sanitize_tool_name name) = true.
Proof.
  unfold sanitize_tool_name. set (s := PyStr.rstrip_char "_" _).
  assert (Hs : all_name_chars s = true) by (apply rstrip_chars, lstrip_chars, underscored_chars). clearbody s.
  destruct s as [|c s]; [done|]. cbn [PyStr.truthy]. cbn in Hs. apply andb_prop in Hs as [Hc Hs].
  destruct (is_digit_char c) eqn:Hd.
  - split; [|done]. change ("asap_" ++ String c s) with (String "a" (String "s" (String "a" (String "p" (String "_" (String c s)))))).
    cbn. by rewrite Hc, Hs.
  - cbn. by rewrite Hc, Hs, Hd.
Qed.

(** ** Examples *)

(** A property whose type is a list, as for nullable fields, makes the tool's
    inputs fail, although any unknown type is meant to become `string`. *)
Lemma type_list_breaks_smolagents :
  json_schema_to_smolagents_inputs
    [("type", JStr "object"); ("properties", JObj [("q", JObj [("type", JList [JStr "string"; JStr "null"])])])] None
  = Raise (TypeError "unhashable type: 'list'").
Proof. done. Qed.

(** A fraction or a superscript is kept, and may come first: the name then is no
    identifier. *)
Lemma fractions_stay_in_tool_names :
  let half := String (ascii_of_nat 189) "x" in sanitize_tool_name half = half.
Proof. by vm_compute. Qed.

(** A resolution that fails because no CA key is configured counts as deferred. *)
Lemma missing_ca_key_is_deferred urn :
  eager_resolve_or_raise (Agent := unit) urn (Raise (XOther "RuntimeError" "ASAP_CA_PUBLIC_KEY environment variable is required."))
  = Ret (None, "").
Proof. done. Qed.
