(* ===== verification/System.v ===== *)
(** * The server as a whole

    The requests a host and its agents make, the decisions of users and of the
    A2H channel, and the revocation of a host by the operator, as events on the
    application state; and what holds over any sequence of them. *)

From Stdlib Require Import ZArith Lia Ascii String.
From stdpp Require Import base tactics list gmap strings.
From S2P Require Import Prelude PyValue Identity ReplayGuard Capabilities AgentJwt Approval SelfAuth Routes Registration.
Open Scope Z_scope.
Open Scope asap_scope.

(** ** Requests of a host *)
Inductive host_request : Type :=
| RequestRegister (env : register_env)
| RequestStatus (sc : status_clock) (agent_id : string)
| RequestRevoke (agent_id : string)
| RequestRotateKey (agent_id : string) (new_public_key : jwk)
| RequestReactivate (now : Z).

(** Polling the status looks the token's id up; the other requests consume it. *)
Definition consumes_token (q : host_request) : bool :=
  match q with RequestStatus _ _ => false | _ => true end.

Section System.
  Context `{PyRuntime, Jose} {C : Type} `{JtiGuard C}.

Definition handle_host_request (cf : config) (fresh : option FreshSessionConfig) (ck : clock)
    (rq : HttpRequest) (q : host_request) : ST (app C) (res pyexn Response) Response :=
  match q with
  | RequestRegister env => handle_agent_register cf fresh ck env rq
  | RequestStatus sc aid => handle_agent_status cf fresh ck sc rq aid
  | RequestRevoke aid => handle_agent_revoke cf ck rq aid
  | RequestRotateKey aid key => handle_agent_rotate_key cf ck rq aid key
  | RequestReactivate now => handle_agent_reactivate cf ck now rq
  end.

(** ** Events *)
Inductive event : Type :=
| EvHost (ck : clock) (rq : HttpRequest) (q : host_request)
| EvExecute (ck : clock) (now : Z) (rq : HttpRequest)
| EvList (ck : clock) (rq : HttpRequest) (query : string) (cursor limit : nat)
| EvRequestCapability (ck : clock) (rc : request_clock) (pending_now : Z) (user_code : string) (rq : HttpRequest)
| EvApprove (now : Z) (agent_id user_id : string)
| EvDeny (now : Z) (agent_id reason : string)
| EvA2H (now1 now2 : Z) (answer : ApprovalResult) (task : a2h_task)
| EvHostRevoke (now : Z) (host_id : string).

Definition on_approval_store (f : InMemoryApprovalStore.t → InMemoryApprovalStore.t) (ap : app C) : app C :=
  mkApp (ap_world ap) (ap_registry ap) (option_map f (ap_approvals ap)) (ap_tasks ap).

Definition do_event (cf : config) (fresh : option FreshSessionConfig) (ap : app C) (e : event) : app C :=
  match e with
  | EvHost ck rq q => fst (serve (handle_host_request cf fresh ck rq q) ap)
  | EvExecute ck now rq => fst (serve (handle_capability_execute cf ck now rq) ap)
  | EvList ck rq query cursor limit => fst (serve (handle_capability_list cf ck rq query cursor limit) ap)
  | EvRequestCapability ck rc pnow code rq => fst (serve (handle_request_capability cf ck rc pnow code rq) ap)
  | EvApprove now aid u => on_approval_store (λ s, fst (InMemoryApprovalStore.approve now aid u s)) ap
  | EvDeny now aid r => on_approval_store (λ s, fst (InMemoryApprovalStore.deny now aid r s)) ap
  | EvA2H now1 now2 answer t =>
      on_approval_store (λ s, fst (resolve_via_a2h now1 now2 answer (at_agent_id t) (at_principal_id t)
                                     (Some (at_expected_specs t)) s)) ap
  | EvHostRevoke now hid =>
      let w := ap_world ap in
      let '(hosts, agents) := InMemoryHostStore.revoke now hid (w_hosts w) (Some (w_agents w)) in
      mkApp (mkWorld hosts (default (w_agents w) agents) (w_cache w)) (ap_registry ap) (ap_approvals ap)
        (ap_tasks ap)
  end.

(** Somebody approves the pending request of the agent. *)
Definition approves (aid : string) (e : event) : bool :=
  match e with
  | EvApprove _ a _ => String.eqb a aid
  | EvA2H _ _ answer t => String.eqb (at_agent_id t) aid && res_approved answer
  | _ => false
  end.

(** A registration that draws the id of the agent again. *)
Definition redraws (aid : string) (e : event) : bool :=
  match e with
  | EvHost _ _ (RequestRegister env) => String.eqb (re_agent_id env) aid
  | _ => false
  end.

(** ** Agents that wait for an approval, or were turned down *)
Definition dormant (a : AgentSession) : Prop := a_status a ∈ [StPending; StRejected; StRevoked].

Record awaiting (aid : string) (g : string → option CapabilityGrant) (ap : app C) : Prop := mkAwaiting {
  aw_keyed : agents_keyed (agents_of ap);
  aw_row : ∃ a, agents_of ap !! aid = Some a ∧ dormant a;
  aw_approval : ∀ s row, ap_approvals ap = Some s → s !! aid = Some row → ar_status row ≠ ApApproved;
  aw_grants : ∀ cap, CapabilityRegistry.lookup aid cap (ap_registry ap) = g cap
}.

Lemma awaiting_ext aid g (ap ap' : app C) :
  agents_of ap' = agents_of ap → ap_registry ap' = ap_registry ap → ap_approvals ap' = ap_approvals ap →
  awaiting aid g ap → awaiting aid g ap'.
Proof. intros Ha Hr Hp [? ? ? ?]. split; rewrite ?Ha, ?Hr, ?Hp; done. Qed.

(** The three stores together. *)
Definition stores (ap : app C) := (agents_of ap, ap_registry ap, ap_approvals ap).

Lemma awaiting_stores aid g (ap ap' : app C) : stores ap' = stores ap → awaiting aid g ap → awaiting aid g ap'.
Proof. intros He. injection He as Ha Hr Hp. by apply awaiting_ext. Qed.

(** Goes through a computation step by step. *)
Lemma awaiting_bind {A B} aid g (m : ST (app C) (res pyexn Response) A)
    (k : A → ST (app C) (res pyexn Response) B) (ap : app C) :
  awaiting aid g (fst (m ap)) →
  (∀ a ap1, m ap = (ap1, Ret a) → awaiting aid g ap1 → awaiting aid g (fst (k a ap1))) →
  awaiting aid g (fst (st_bind m k ap)).
Proof. intros Hm Hk. unfold st_bind. destruct (m ap) as [ap1 [o|a]]; [done|]. by apply Hk. Qed.

(** A step that leaves the stores alone. *)
Lemma awaiting_keeps {A B} aid g (m : ST (app C) (res pyexn Response) A)
    (k : A → ST (app C) (res pyexn Response) B) (ap : app C) :
  st_keeps stores m → awaiting aid g ap →
  (∀ a ap1, m ap = (ap1, Ret a) → awaiting aid g ap1 → awaiting aid g (fst (k a ap1))) →
  awaiting aid g (fst (st_bind m k ap)).
Proof. intros Hm Ha Hk. apply awaiting_bind; [|done]. by eapply awaiting_stores; [apply Hm|]. Qed.

Lemma keeps_still {A} (m : ST (app C) (res pyexn Response) A) : still m → st_keeps stores m.
Proof. intros Hm ap. by rewrite (Hm ap). Qed.

(** Writing rows that are dormant when they are the agent's. *)
Lemma awaiting_save {A} aid g (k : res save_error unit → ST (app C) (res pyexn Response) A) a key (ap : app C) :
  awaiting aid g ap → (a_agent_id a = aid → dormant a) →
  (∀ r ap1, awaiting aid g ap1 → awaiting aid g (fst (k r ap1))) →
  awaiting aid g (fst (st_bind (save_agent a key) k ap)).
Proof.
  intros Haw Hd Hk. destruct (save_agent_bind k a key ap) as [r ->]. apply Hk.
  destruct Haw as [Hkeyed (x & Hx & Hdx) Hp Hg].
  assert (Hst : agents_keyed (fst (InMemoryAgentStore.save a (Some key) (agents_of ap))))
    by (eapply agent_step_keyed; [done|apply step_save]).
  split; [done| |done|done].
  change (agents_of (set_agents ?m ap)) with m in *.
  destruct (save_cases a (Some key) (agents_of ap)) as [->|[->|(row & Hs & Hrow & _)]]; [by exists x..|].
  rewrite Hs in Hst |- *. cbn [fst] in *. destruct (decide (a_agent_id row = aid)) as [Hr|Hne].
  - rewrite Hr, lookup_insert_eq. exists row. split; [done|]. destruct Hrow as [->|(e & He & ->)]; [by apply Hd|].
    cbn in Hr. apply Hkeyed in He as Hid. assert (agents_of ap !! aid = Some e) by congruence.
    assert (e = x) as -> by congruence. done.
  - rewrite lookup_insert_ne by done. by exists x.
Qed.

Lemma awaiting_new_agent {A} aid g (k : unit → ST (app C) (res pyexn Response) A) a (ap : app C) :
  awaiting aid g ap → a_agent_id a ≠ aid →
  (∀ ap1, awaiting aid g ap1 → awaiting aid g (fst (k tt ap1))) →
  awaiting aid g (fst (st_bind (save_new_agent a) k ap)).
Proof.
  intros Haw Hne Hk. unfold st_bind. destruct (save_new_agent_run a ap) as [[o ->]| ->]; [done|]. apply Hk.
  destruct Haw as [Hkeyed (x & Hx & Hdx) Hp Hg].
  split; [by apply agents_keyed_insert| |done|done]. change (agents_of (set_agents ?m ap)) with m.
  exists x. by rewrite lookup_insert_ne.
Qed.

(** Grants of other agents. *)
Lemma apply_other aid hid specs (r : CapabilityRegistry.t) aid' cap : aid' ≠ aid →
  CapabilityRegistry.lookup aid' cap (fst (apply_capability_specs_to_registry aid hid specs r)) =
  CapabilityRegistry.lookup aid' cap r.
Proof.
  intros Hne. unfold apply_capability_specs_to_registry, st_bind, st_gets. cbn [fst].
  destruct (apply_specs_effect (grant_by_name (CapabilityRegistry.get_grants aid r)) aid hid specs r aid' cap)
    as [_ [->|[-> _]]]; done.
Qed.

Lemma awaiting_registry {A} aid g (m : ST CapabilityRegistry.t pyexn A) (ap : app C) :
  awaiting aid g ap →
  (∀ cap, CapabilityRegistry.lookup aid cap (fst (m (ap_registry ap))) =
          CapabilityRegistry.lookup aid cap (ap_registry ap)) →
  awaiting aid g (fst (on_registry m ap)).
Proof.
  intros [Hk Hx Hp Hg] Hm. unfold on_registry, st_bind, st_get. destruct (m (ap_registry ap)) as [r' out].
  assert (Hr : awaiting aid g (set_registry r' ap)) by (split; [done..|]; intros cap; cbn; by rewrite Hm).
  by destruct out.
Qed.

Lemma awaiting_grant_requested aid g aid' hid specs (ap : app C) :
  awaiting aid g ap → aid' ≠ aid → awaiting aid g (fst (grant_requested aid' hid specs ap)).
Proof.
  intros Haw Hne. unfold grant_requested. destruct specs as [|sp specs]; [done|].
  apply awaiting_registry; [done|]. intros cap. by apply apply_other.
Qed.

(** Approval requests that are not approved stay so under every operation that
    does not approve them. *)
Definition unapproved (aid : string) (s : InMemoryApprovalStore.t) : Prop :=
  ∀ row, s !! aid = Some row → ar_status row ≠ ApApproved.

Lemma refresh_unapproved now row : ar_status row ≠ ApApproved → ar_status (refresh_expired now row) ≠ ApApproved.
Proof. unfold refresh_expired. by repeat case_match. Qed.

Lemma unapproved_get now aid' aid s : unapproved aid s → unapproved aid (fst (InMemoryApprovalStore.get now aid' s)).
Proof.
  intros Hu row. unfold InMemoryApprovalStore.get. destruct (s !! aid') as [raw|] eqn:Hr; [|apply Hu].
  cbn [fst]. rewrite lookup_insert. case_decide; [subst|apply Hu]. intros [= <-].
  by apply refresh_unapproved, Hu.
Qed.

Lemma unapproved_resolve verb f now aid' aid s :
  (aid' = aid → ∀ c, ar_status (f c) ≠ ApApproved) → unapproved aid s →
  unapproved aid (fst (InMemoryApprovalStore.resolve verb f now aid' s)).
Proof.
  intros Hf Hu. destruct (decide (aid' = aid)) as [->|Hne].
  2: { intros row. rewrite resolve_other by done. apply Hu. }
  unfold InMemoryApprovalStore.resolve. destruct (s !! aid) as [raw|] eqn:Hr; [|done].
  assert (Hw : ∀ x, ar_status x ≠ ApApproved → unapproved aid (<[aid := x]> s))
    by (intros x Hx row; rewrite lookup_insert_eq; by intros [= <-]).
  destruct (bool_decide (_ = ApExpired)); cbn [fst]; [by apply Hw, refresh_unapproved, Hu|].
  destruct (negb _); cbn [fst]; [done|]. apply Hw. by apply Hf.
Qed.

Lemma unapproved_create now aid' m cs ei iv uc vu vc bm sp kind aid s :
  unapproved aid s →
  unapproved aid (fst (InMemoryApprovalStore.create now aid' m cs ei iv uc vu vc bm sp kind s)).
Proof.
  intros Hu. unfold InMemoryApprovalStore.create. destruct (_ || _); [done|]. intros row. cbn [fst].
  rewrite lookup_insert. case_decide; [by intros [= <-]|apply Hu].
Qed.

Lemma unapproved_create_answer rc create aid' aid s :
  unapproved aid (fst (create s)) → unapproved aid (fst (create_and_answer rc create aid' s)).
Proof.
  unfold create_and_answer. destruct (create s) as [s1 [e|u]]; cbn [fst]; [done|]. intros Hu.
  pose proof (unapproved_get (rc_fresh rc) aid' aid s1 Hu) as Hg.
  by destruct (InMemoryApprovalStore.get (rc_fresh rc) aid' s1) as [s2 [row|]].
Qed.

Lemma unapproved_device rc code aid' caps ei iv uri sp kind aid s :
  unapproved aid s → unapproved aid (fst (create_device_authorization rc code aid' caps ei iv uri sp kind s)).
Proof.
  intros Hu. unfold create_device_authorization. pose proof (unapproved_get (rc_get rc) aid' aid s Hu) as Hg.
  destruct (InMemoryApprovalStore.get (rc_get rc) aid' s) as [s1 existing]. cbn [fst] in Hg.
  destruct (extends _ _ existing) as [e|]; [|by apply unapproved_create_answer, unapproved_create].
  destruct (merged_pending_payload e caps sp) as [caps' specs']. destruct (pending_payload_unchanged _ _ _); [done|].
  by apply unapproved_create_answer, unapproved_create.
Qed.

Lemma unapproved_ciba rc aid' caps bm ei iv sp kind aid s :
  unapproved aid s → unapproved aid (fst (create_ciba_approval rc aid' caps bm ei iv sp kind s)).
Proof.
  intros Hu. unfold create_ciba_approval. pose proof (unapproved_get (rc_get rc) aid' aid s Hu) as Hg.
  destruct (InMemoryApprovalStore.get (rc_get rc) aid' s) as [s1 existing]. cbn [fst] in Hg.
  destruct (extends _ _ existing) as [e|]; [|by apply unapproved_create_answer, unapproved_create].
  destruct (merged_pending_payload e caps sp) as [caps' specs']. destruct (pending_payload_unchanged _ _ _); [done|].
  by apply unapproved_create_answer, unapproved_create.
Qed.

Lemma unapproved_a2h now1 now2 answer aid' p specs aid s :
  (aid' = aid → res_approved answer = false) → unapproved aid s →
  unapproved aid (fst (resolve_via_a2h now1 now2 answer aid' p specs s)).
Proof.
  intros Hne Hu. unfold resolve_via_a2h.
  assert (Hd : ∀ s, unapproved aid s → unapproved aid (fst (
     if res_approved answer then InMemoryApprovalStore.approve now2 aid' p s
     else InMemoryApprovalStore.deny now2 aid' (decline_reason answer) s))).
  { clear s Hu. intros s Hu. destruct (res_approved answer) eqn:Ha.
    - apply unapproved_resolve; [|done]. intros He. by apply Hne in He.
    - by apply unapproved_resolve. }
  destruct specs as [expected|]; [|by apply Hd].
  pose proof (unapproved_get now1 aid' aid s Hu) as Hg.
  destruct (InMemoryApprovalStore.get now1 aid' s) as [s1 state]. destruct (negb _); [done|]. by apply Hd.
Qed.

Lemma awaiting_on_approvals {A} aid g s (f : InMemoryApprovalStore.t → InMemoryApprovalStore.t * A) (ap : app C) :
  awaiting aid g ap → (unapproved aid s → unapproved aid (fst (f s))) → ap_approvals ap = Some s →
  awaiting aid g (fst (on_approvals s f ap)).
Proof.
  intros [Hk Hx Hp Hg] Hf Hs. unfold on_approvals, st_bind, st_modify. destruct (f s) as [s' out]. cbn [fst st_ret].
  split; [done|done| |done]. intros s2 row [= <-]. cbn in Hf. apply Hf. intros row' Hr. by eapply Hp.
Qed.

Lemma awaiting_approval_store aid g f (ap : app C) :
  awaiting aid g ap → (∀ s, unapproved aid s → unapproved aid (f s)) → awaiting aid g (on_approval_store f ap).
Proof.
  intros [Hk Hx Hp Hg] Hf. split; [done|done| |done]. cbn. destruct (ap_approvals ap) as [s|]; [|done].
  intros s2 row [= <-]. apply Hf. intros row' Hr. by eapply Hp.
Qed.

(** Verifying an Agent JWT writes only to active rows. *)
Definition row_is (aid : string) (a : AgentSession) (w : world C) : Prop :=
  agents_keyed (w_agents w) ∧ w_agents w !! aid = Some a.

Lemma row_is_agents aid a (w w' : world C) : w_agents w' = w_agents w → row_is aid a w → row_is aid a w'.
Proof. intros He. unfold row_is. by rewrite He. Qed.

Lemma inv_touch aid a now id k ts hid : dormant a →
  st_inv (row_is aid a) (do! w <- st_get in
    let '(agents, touched) := InMemoryAgentStore.touch_if_current now id k ts hid (w_agents w) in
    run! st_modify (with_agents agents) in
    match touched with
    | None => reject "agent session changed during verification"
    | Some session => st_ret session
    end).
Proof.
  intros Hd. apply inv_get_bind. intros w [Hk Hw].
  assert (Hst : row_is aid a (with_agents (fst (InMemoryAgentStore.touch_if_current now id k ts hid (w_agents w))) w)).
  { split; [eapply agent_step_keyed; [done|apply step_touch]|]. cbn.
    destruct (touch_cases now id k ts hid (w_agents w)) as [[-> _]|(x & Hx & (Hact & _) & ->)]; [done|]. cbn.
    destruct (decide (id = aid)) as [->|]; [|by rewrite lookup_insert_ne].
    rewrite Hw in Hx. injection Hx as <-. unfold dormant in Hd. rewrite Hact in Hd. set_solver. }
  destruct (InMemoryAgentStore.touch_if_current now id k ts hid (w_agents w)) as [agents touched].
  by destruct touched.
Qed.

Lemma inv_reject {A} P e : st_inv P (reject (C := C) (A := A) e).
Proof. apply inv_stop. Qed.
Lemma inv_reject_if P e : st_inv P (reject_if (C := C) e).
Proof. destruct e; [apply inv_stop|apply inv_ret]. Qed.
Lemma inv_call {A} P (m : res pyexn A) : st_inv P (call (C := C) m).
Proof. destruct m; [apply inv_stop|apply inv_ret]. Qed.
Lemma inv_guarded {A} P p (m : res string A) : st_inv P (guarded (C := C) p m).
Proof. destruct m; [apply inv_stop|apply inv_ret]. Qed.
Lemma inv_dict_of P j : st_inv P (dict_of (C := C) j).
Proof. destruct j; first [apply inv_stop|apply inv_ret]. Qed.
Lemma inv_check_jti aid a now b p j : st_inv (row_is aid a) (check_jti now b p j).
Proof.
  intros w. apply row_is_agents. pose proof (keeps_check_jti now b p j w) as Hk. by injection Hk.
Qed.
#[local] Hint Resolve inv_reject inv_reject_if inv_call inv_guarded inv_dict_of inv_check_jti : asap.

Lemma inv_slide aid a ck verified : dormant a →
  st_inv (row_is aid a) (slide_session_if_still_current il_none ck verified).
Proof.
  intros Hd. unfold slide_session_if_still_current.
  inv_step; [by apply inv_modify|]. inv_step; [inv_step|]. inv_step; [|inv_step]. 
  inv_step; [inv_step|]. inv_step; [repeat inv_step|]. inv_step; [inv_step|].
  inv_step; [repeat inv_step|]. inv_step; [inv_step|]. inv_step; [by apply inv_modify|].
  by apply inv_touch.
Qed.

Lemma inv_verify_agent aid a ck token aud : dormant a →
  ∀ w, row_is aid a w → row_is aid a (fst (verify_agent_jwt il_none ck token aud w)).
Proof.
  intros Hd w Hw. unfold verify_agent_jwt, finish.
  match goal with |- row_is _ _ (fst (match ?m w with _ => _ end)) =>
    assert (Hm : st_inv (row_is aid a) m); [|specialize (Hm w Hw); by destruct (m w) as [w' [o|r]]] end.
  repeat first [apply inv_slide; exact Hd | apply inv_modify; intros ?; exact id | inv_step].
Qed.

(** ** The handlers keep a dormant agent dormant *)
Lemma awaiting_world aid g (ap : app C) w' :
  (∀ a, dormant a → row_is aid a (ap_world ap) → row_is aid a w') → awaiting aid g ap →
  awaiting aid g (mkApp w' (ap_registry ap) (ap_approvals ap) (ap_tasks ap)).
Proof.
  intros Hw [Hk (a & Ha & Hd) Hp Hg]. destruct (Hw a Hd) as [Hk' Ha']; [done|].
  split; [done| |done|done]. by exists a.
Qed.

Lemma awaiting_agent_bearer aid g cf ck rq (ap : app C) :
  awaiting aid g ap → awaiting aid g (fst (verify_agent_bearer cf ck rq ap)).
Proof.
  intros Haw. unfold verify_agent_bearer. destruct (bearer_token_from_request rq) as [token|]; [|done].
  apply awaiting_bind.
  - unfold verifying, st_bind, st_get.
    pose proof (λ a Hd, inv_verify_agent aid a ck token (Some (cf_audience cf)) Hd (ap_world ap)) as Hv.
    destruct (verify_agent_jwt il_none ck token _ (ap_world ap)) as [w' out]. cbn [fst] in Hv.
    pose proof (awaiting_world aid g ap w' Hv Haw) as Hw. by destruct out.
  - intros r ap1 _ Haw1. destruct (negb _); [|done]. by destruct (match vr_error r with Some _ => _ | _ => _ end).
Qed.

Lemma awaiting_host_bearer {A} aid g cf ck rq b (k : JwtVerifyResult → ST (app C) (res pyexn Response) A) ap :
  awaiting aid g ap →
  (∀ r ap1, verify_host_bearer cf ck rq true b ap = (ap1, Ret r) → awaiting aid g ap1 →
     awaiting aid g (fst (k r ap1))) →
  awaiting aid g (fst (st_bind (verify_host_bearer cf ck rq true b) k ap)).
Proof.
  intros Haw Hk. apply awaiting_bind; [|done]. pose proof (verify_host_bearer_run cf ck rq b ap) as Hr.
  destruct (verify_host_bearer cf ck rq true b ap) as [ap1 o]. destruct Hr as (_ & Ha & Hr & Hp & _ & _).
  by eapply awaiting_ext.
Qed.

(** A still step, with the state it leaves. *)
Lemma awaiting_still {A B} aid g (m : ST (app C) (res pyexn Response) A)
    (k : A → ST (app C) (res pyexn Response) B) (ap : app C) :
  still m → awaiting aid g ap →
  (∀ a, m ap = (ap, Ret a) → awaiting aid g (fst (k a ap))) → awaiting aid g (fst (st_bind m k ap)).
Proof.
  intros Hm Ha Hk. unfold st_bind. specialize (Hm ap). destruct (m ap) as [ap1 [o|a]]; cbn in Hm; subst; [done|].
  by apply Hk.
Qed.

Ltac aw_still := eapply awaiting_still; [|eassumption|].

Lemma awaiting_revoke aid g cf ck rq aid' (ap : app C) :
  awaiting aid g ap → awaiting aid g (fst (handle_agent_revoke cf ck rq aid' ap)).
Proof.
  intros Haw. unfold handle_agent_revoke. apply awaiting_host_bearer; [done|]. intros r ap1 _ Haw1.
  aw_still; [apply still_lift|]. intros hid _. aw_still; [apply still_own_agent|]. intros session _.
  cbn [st_bind st_modify st_ret fst]. destruct Haw1 as [Hk (a & Ha & Hd) Hp Hg].
  split; [eapply agent_step_keyed; [exact Hk|apply step_revoke]| |done|done].
  change (agents_of (set_agents ?m ap1)) with m. rewrite revoke_lookup, Ha. case_decide; [|by exists a].
  exists (with_status StRevoked a). split; [done|]. unfold dormant. cbn. set_solver.
Qed.

Lemma awaiting_rotate aid g cf ck rq aid' key (ap : app C) :
  awaiting aid g ap → awaiting aid g (fst (handle_agent_rotate_key cf ck rq aid' key ap)).
Proof.
  intros Haw. unfold handle_agent_rotate_key. apply awaiting_host_bearer; [done|]. intros r ap1 _ Haw1.
  aw_still; [apply still_lift|]. intros hid _. aw_still; [apply still_own_agent|]. intros session _.
  aw_still; [apply still_when|]. intros _ _. aw_still; [by destruct (okp_import_key key)|]. intros _ _.
  aw_still; [apply still_lift|]. intros new_tp _. aw_still; [apply still_lift|]. intros old_tp _.
  destruct (String.eqb new_tp old_tp); [done|].
  aw_still; [done|]. intros ap2 _. aw_still; [apply still_lift|]. intros taken _.
  aw_still; [apply still_when|]. intros _ _. aw_still; [done|]. intros ap3 [= <-].
  unfold InMemoryAgentStore.get. destruct (agents_of ap1 !! aid') as [fresh|] eqn:Hf; [|done].
  aw_still; [apply still_when|]. intros _ _.
  apply awaiting_save; [done| |by intros [[]|]]. cbn. intros Hid.
  destruct Haw1 as [Hk (a & Ha & Hd) _ _]. apply Hk in Hf as Hid'.
  assert (fresh = a) as -> by congruence. done.
Qed.

Lemma decay_other aid aid' host (r : CapabilityRegistry.t) cap : aid' ≠ aid →
  CapabilityRegistry.lookup aid' cap (fst (decay_grants aid host r)) = CapabilityRegistry.lookup aid' cap r.
Proof.
  intros Hne. unfold decay_grants, st_bind, st_gets.
  destruct (deny_all_run aid (CapabilityRegistry.get_grants aid r) r) as (r1 & -> & Hd1).
  destruct (grant_defaults_run aid (h_host_id host) (h_default_capabilities host) r1) as (r2 & -> & Hd2).
  cbn [fst st_ret]. rewrite Hd2, Hd1. by rewrite !bool_decide_false by (by intros [? _]).
Qed.

Lemma reactivate_dormant now a h re : dormant a → reactivate_agent now a h ≠ Ret re.
Proof.
  intros Hd. unfold reactivate_agent, reactivatable. rewrite bool_decide_false; [done|].
  unfold dormant in Hd. set_unfold. naive_solver congruence.
Qed.

Lemma awaiting_reactivate aid g cf ck now rq (ap : app C) :
  awaiting aid g ap → awaiting aid g (fst (handle_agent_reactivate cf ck now rq ap)).
Proof.
  intros Haw. unfold handle_agent_reactivate. apply awaiting_host_bearer; [done|]. intros r ap1 _ Haw1.
  aw_still; [by destruct (vr_claims r)|]. intros claims _.
  aw_still; [by destruct (hr_json rq)|]. intros raw _.
  aw_still; [by destruct (reactivate_body raw)|]. intros aid' _.
  aw_still; [done|]. intros ap2 [= <-].
  aw_still; [by destruct (InMemoryAgentStore.get _ _)|]. intros agent _.
  aw_still; [by destruct (j_get "iss" claims)|]. intros iss _.
  aw_still; [by destruct (InMemoryHostStore.get_by_public_key _ _)|]. intros host _.
  aw_still; [apply still_when|]. intros _ _. aw_still; [done|]. intros ap3 [= <-].
  aw_still; [by destruct (InMemoryAgentStore.get _ _)|]. intros fresh Hfresh.
  unfold InMemoryAgentStore.get in Hfresh. destruct (agents_of ap1 !! aid') as [f|] eqn:Hf; [|done].
  assert (f = fresh) as -> by (unfold st_ret in Hfresh; congruence).
  aw_still; [by destruct (reactivate_agent _ _ _) as [[]|]|]. intros re Hre.
  assert (Hre' : reactivate_agent now fresh host = Ret re).
  { destruct (reactivate_agent now fresh host) as [[]|x]; try done. unfold st_ret in Hre. congruence. }
  assert (Hne : a_agent_id re ≠ aid ∧ aid' ≠ aid).
  { destruct Haw1 as [Hk (a & Ha & Hd) _ _]. apply Hk in Hf as Hid.
    assert (a_agent_id re = a_agent_id fresh) as ->.
    { unfold reactivate_agent in Hre'. repeat case_match; try done. by injection Hre' as <-. }
    rewrite Hid. assert (aid' ≠ aid); [|done]. intros He. assert (fresh = a) as -> by congruence.
    by apply (reactivate_dormant now a host re) in Hd. }
  destruct Hne as [Hne1 Hne2].
  apply awaiting_save; [done|by intros ?|]. intros saved ap4 Haw4.
  aw_still; [by destruct saved as [[]|]|]. intros _ _.
  apply awaiting_bind; [|by intros gs ap5 _ ?].
  apply awaiting_registry; [done|]. intros cap. by apply decay_other.
Qed.

Lemma awaiting_fresh_gate {A} aid g c f now claims (k : unit → ST (app C) (res pyexn Response) A) ap :
  awaiting aid g ap → (∀ ap1, awaiting aid g ap1 → awaiting aid g (fst (k tt ap1))) →
  awaiting aid g (fst (st_bind (st_when c (approval_fresh_session_response f now claims)) k ap)).
Proof.
  intros Haw Hk. apply awaiting_keeps; [apply keeps_when, keeps_fresh|done|]. by intros [] ap1 _; apply Hk.
Qed.

Lemma awaiting_settle_escalation aid g aid' hid session appr (ap : app C) :
  awaiting aid g ap → (aid' = aid → dormant session) →
  awaiting aid g (fst (settle_escalation aid' hid session appr ap)).
Proof.
  intros Haw Hd. unfold settle_escalation. destruct appr as [row|]; [|done].
  destruct (_ && _) eqn:Hc; [|done]. reflect.
  assert (Hne : aid' ≠ aid).
  { intros He. specialize (Hd He). unfold dormant in Hd. set_unfold. naive_solver congruence. }
  assert (Hrm : ∀ ap1 : app C, awaiting aid g ap1 → awaiting aid g (mkApp (ap_world ap1) (ap_registry ap1)
            (option_map (InMemoryApprovalStore.remove aid') (ap_approvals ap1)) (ap_tasks ap1))).
  { intros ap1 [Hk Hx Hp Hg]. split; [done|done| |done]. cbn. destruct (ap_approvals ap1) as [s|]; [|done].
    intros s2 r [= <-]. unfold InMemoryApprovalStore.remove. rewrite lookup_delete_ne by done. by apply Hp. }
  destruct (ar_status row); [done| |by apply Hrm..].
  unfold apply_approved. apply awaiting_bind; [|by intros; apply Hrm].
  apply awaiting_bind; [by apply awaiting_grant_requested|done].
Qed.

Lemma awaiting_settle_registration aid g now aid' hid session appr (ap : app C) :
  awaiting aid g ap → (∀ row, aid' = aid → appr = Some row → ar_status row ≠ ApApproved) →
  awaiting aid g (fst (settle_registration now aid' hid session appr ap)).
Proof.
  intros Haw Hna. unfold settle_registration. destruct appr as [row|]; [|done]. destruct (negb _); [done|].
  unfold st_bind at 1. cbn [st_get]. unfold InMemoryAgentStore.get.
  destruct (agents_of ap !! aid') as [fresh|] eqn:Hf; [|by destruct (ar_status row)].
  destruct (negb _); [by destruct (ar_status row)|]. pose proof (aw_keyed _ _ _ Haw _ _ Hf) as Hid.
  destruct (ar_status row) eqn:Hr; try done.
  - assert (Hne : aid' ≠ aid) by (intros He; by apply (Hna row He)).
    apply awaiting_save; [done|by rewrite <- Hid in Hne|]. intros [[]|] ap1 Haw1; try done.
    unfold apply_approved. apply awaiting_bind; [by apply awaiting_grant_requested|done].
  - apply awaiting_save; [done| |by intros [[]|] ap1 Haw1]. intros _. unfold dormant. cbn. set_solver.
Qed.

Lemma awaiting_status aid g cf fresh ck sc rq aid' (ap : app C) :
  awaiting aid g ap → awaiting aid g (fst (handle_agent_status cf fresh ck sc rq aid' ap)).
Proof.
  intros Haw. unfold handle_agent_status. apply awaiting_host_bearer; [done|]. intros r ap1 _ Haw1.
  aw_still; [apply still_lift|]. intros hid _. aw_still; [apply still_own_agent|].
  intros session [Hs _]%own_agent_ret.
  assert (Hd : aid' = aid → dormant session).
  { intros ->. destruct Haw1 as [_ (a & Ha & Hda) _ _]. congruence. }
  aw_still; [done|]. intros ap2 [= <-]. apply awaiting_bind.
  { destruct (ap_approvals ap1) as [s|] eqn:Hap; [|done]. apply awaiting_on_approvals; [done| |done].
    apply unapproved_get. }
  intros appr ap2 Happr Haw2.
  assert (Hna : ∀ row, aid' = aid → appr = Some row → ar_status row ≠ ApApproved).
  { intros row -> ->. destruct (ap_approvals ap1) as [s|] eqn:Hap; [|done].
    unfold on_approvals, InMemoryApprovalStore.get in Happr. destruct (s !! aid) as [raw|] eqn:Hraw; [|done].
    cbn in Happr. unfold st_bind, st_modify, st_ret in Happr. injection Happr as _ <-.
    apply refresh_unapproved. by eapply (aw_approval _ _ _ Haw1). }
  apply awaiting_bind.
  { destruct (vr_claims r) as [claims|], appr as [row|]; try done.
    eapply awaiting_stores; [apply keeps_when, keeps_fresh|done]. }
  intros _ ap3 _ Haw3. apply awaiting_bind; [by apply awaiting_settle_escalation|].
  intros appr2 ap4 Hap2 Haw4.
  assert (Hna2 : ∀ row, aid' = aid → appr2 = Some row → ar_status row ≠ ApApproved).
  { intros row He ->. destruct appr as [row0|]; [|done]. apply (Hna row He). unfold settle_escalation in Hap2.
    destruct (_ && _) in Hap2; [|by injection Hap2 as _ ->]. destruct (ar_status row0); try done.
    - by injection Hap2 as _ ->.
    - bind_inv Hap2 as (? & ? & _ & Hap2). bind_inv Hap2 as (? & ? & _ & Hap2). done. }
  apply awaiting_bind; [by apply awaiting_settle_registration|]. by intros _ ap5 _ Haw5.
Qed.

Lemma awaiting_register_session aid g cf env host pub raw needs (ap : app C) :
  re_agent_id env ≠ aid → awaiting aid g ap →
  awaiting aid g (fst (register_session cf env host pub raw needs ap)).
Proof.
  intros Hne Haw. unfold register_session. destruct (parse_capability_registration_body raw) as [names specs].
  apply awaiting_new_agent; [done|done|]. intros ap1 Haw1. destruct needs; cbn [negb].
  - unfold approvals, st_bind, st_get. destruct (ap_approvals ap1) as [s|] eqn:Hs; [|done]. cbn [st_ret].
    match goal with |- context [on_approvals s ?f ap1] =>
      pose proof (awaiting_on_approvals aid g s f ap1 Haw1) as Ho end.
    match goal with |- context [on_approvals s ?f ap1] => destruct (on_approvals s f ap1) as [ap2 [o|created]] end.
    { apply Ho; [|done]. intros Hu. destruct (select_approval_method _ _ _ _);
        [by apply unapproved_device|by apply unapproved_ciba]. }
    destruct created as [e|obj]; cbn [lift_exn st_ret escape st_stop].
    1: apply Ho; [|done]. 2: assert (Haw2 : awaiting aid g ap2); [apply Ho; [|done]|].
    1, 2: intros Hu; destruct (select_approval_method _ _ _ _); [by apply unapproved_device|by apply unapproved_ciba].
    destruct (cf_a2h_channel cf); cbn [st_when st_modify st_ret fst]; [|done].
    by apply (awaiting_ext aid g ap2).
  - apply awaiting_bind; [by apply awaiting_grant_requested|]. intros gs ap2 _ Haw2.
    by apply awaiting_new_agent.
Qed.

Lemma awaiting_register aid g cf fresh ck env rq (ap : app C) :
  re_agent_id env ≠ aid → awaiting aid g ap → awaiting aid g (fst (handle_agent_register cf fresh ck env rq ap)).
Proof.
  intros Hne Haw. unfold handle_agent_register. apply awaiting_host_bearer; [done|]. intros r ap1 _ Haw1.
  aw_still; [by destruct (vr_claims r)|]. intros claims _.
  aw_still; [by destruct (j_get _ claims)|]. intros pub _.
  aw_still; [by destruct (okp_import_key pub)|]. intros _ _.
  aw_still; [by destruct (j_get _ claims)|]. intros hpub _.
  aw_still; [by destruct (j_get "iss" claims); try destruct (PyStr.nonblank _)|]. intros iss _.
  apply awaiting_keeps; [destruct (vr_host r); [done|apply keeps_first_seen]|done|]. intros host ap2 _ Haw2.
  aw_still; [apply still_lift|]. intros tp _. aw_still; [done|]. intros ap3 _.
  aw_still; [apply still_lift|]. intros [sess|] _; [done|].
  apply awaiting_keeps; [|done|intros _ ap4 _ Haw4; by apply awaiting_register_session].
  apply keeps_when. apply keeps_bind; [apply keeps_approvals|]. intros _.
  apply keeps_bind; [apply keeps_fresh|]. intros _. apply keeps_webauthn.
Qed.

(** The agent of a verified token is not dormant. *)
Lemma verified_agent_active cf ck rq (ap ap1 : app C) r aid g session :
  verify_agent_bearer cf ck rq ap = (ap1, Ret r) → vr_agent r = Some session →
  awaiting aid g ap → awaiting aid g ap1 → a_agent_id session ≠ aid.
Proof.
  intros (token & _ & Hv & Hok & _)%verify_agent_bearer_ret Hs [Hk0 _ _ _] [Hk (a & Ha & Hd) _ _] He.
  destruct (verify_agent_trace _ _ _ _ _ _ _ Hv Hok) as (claims & host & verified & s & -> & Ht).
  cbn in Hs. injection Hs as ->.
  destruct Ht as (? & ? & ? & ? & ? & ? & _ & _ & _ & _ & _ & _ & _ & _ & _ & _ & _ & _ & Hs).
  destruct (slide_row _ _ _ _ _ _ Hs) as (Hrow & Hact & _). pose proof (Hk _ _ Hrow) as Hid.
  assert (session = a) as -> by (unfold agents_of in Ha; congruence).
  unfold dormant in Hd. set_unfold. naive_solver congruence.
Qed.

Lemma awaiting_execute aid g cf ck now rq (ap : app C) :
  awaiting aid g ap → awaiting aid g (fst (handle_capability_execute cf ck now rq ap)).
Proof.
  intros Haw. unfold handle_capability_execute.
  apply awaiting_bind; [by apply awaiting_agent_bearer|]. intros r ap1 _ Haw1.
  aw_still; [by destruct (vr_agent r)|]. intros agent _.
  aw_still; [by destruct (hr_json rq)|]. intros raw _.
  aw_still; [by destruct (execute_body raw)|]. intros [capability arguments] _.
  aw_still; [done|]. intros ap2 _. aw_still; [apply still_lift|]. intros check _.
  destruct (negb _); [|done]. by destruct (gc_violations check).
Qed.

Lemma awaiting_list aid g cf ck rq q cur lim (ap : app C) :
  awaiting aid g ap → awaiting aid g (fst (handle_capability_list cf ck rq q cur lim ap)).
Proof.
  intros Haw. unfold handle_capability_list. aw_still; [done|]. intros ap0 _. cbv zeta.
  apply awaiting_bind; [|intros aid' ap1 _ Haw1; by aw_still].
  destruct (bearer_token_from_request rq) as [token|]; [|done].
  apply awaiting_bind; [|by intros r ap1 _ Haw1].
  unfold verifying_unguarded, st_bind, st_get.
  set (w0 := mkWorld (w_hosts (ap_world ap)) (w_agents (ap_world ap)) None).
  pose proof (λ a Hd, inv_verify_agent aid a ck token (Some (cf_audience cf)) Hd w0) as Hv.
  destruct (verify_agent_jwt il_none ck token _ w0) as [w' out]. cbn [fst] in Hv.
  pose proof (awaiting_world aid g ap (mkWorld (w_hosts w') (w_agents w') (w_cache (ap_world ap))) Hv Haw) as Hw.
  by destruct out.
Qed.

Lemma awaiting_request_capability aid g cf ck rc pnow code rq (ap : app C) :
  awaiting aid g ap → awaiting aid g (fst (handle_request_capability cf ck rc pnow code rq ap)).
Proof.
  intros Haw. unfold handle_request_capability.
  apply awaiting_bind; [by apply awaiting_agent_bearer|]. intros r ap1 Hr Haw1.
  aw_still; [by destruct (vr_agent r), (vr_host r)|]. intros [agent host] Hb.
  assert (Hne : a_agent_id agent ≠ aid).
  { eapply verified_agent_active; [exact Hr| |done|done]. destruct (vr_agent r), (vr_host r); try done.
    by injection Hb as -> ->. }
  aw_still; [apply still_when|]. intros _ _. aw_still; [by destruct (hr_json rq) as [|[]]|]. intros raw _.
  aw_still; [by destruct (request_capability_body raw)|]. intros requested _.
  destruct (parse_capability_registration_body _) as [names specs].
  aw_still; [apply still_when|]. intros _ _. aw_still; [done|]. intros ap2 _. cbv zeta.
  destruct (partition_escalation_capability_specs _ _ _) as [needs auto].
  apply awaiting_bind; [apply awaiting_registry; [done|]; intros cap; by apply apply_other|].
  intros payloads ap3 _ Haw3. destruct needs as [|n needs]; [done|].
  apply awaiting_keeps; [apply keeps_approvals|done|]. intros store ap4 Hst Haw4.
  assert (Hstore : ap_approvals ap4 = Some store).
  { unfold approvals, st_bind, st_get in Hst. destruct (ap_approvals ap3) eqn:E; [|done]. injection Hst as <- <-. done. }
  apply awaiting_bind.
  { apply awaiting_on_approvals; [done| |done]. intros Hu.
    destruct (select_approval_method _ _ _ _); [by apply unapproved_device|by apply unapproved_ciba]. }
  intros created ap5 _ Haw5. aw_still; [apply still_lift|]. intros approval_obj _.
  apply awaiting_keeps; [apply keeps_approvals|done|]. intros store2 ap6 Hst2 Haw6.
  assert (Hstore2 : ap_approvals ap6 = Some store2).
  { unfold approvals, st_bind, st_get in Hst2. destruct (ap_approvals ap5) eqn:E; [|done]. injection Hst2 as <- <-. done. }
  apply awaiting_bind; [apply awaiting_on_approvals; [done|apply unapproved_get|done]|].
  intros pending ap7 _ Haw7.
  apply awaiting_keeps; [by apply keeps_when, keeps_modify|done|]. by intros _ ap8 _ Haw8.
Qed.

Lemma awaiting_host_revoke aid g cf fresh now hid (ap : app C) :
  awaiting aid g ap → awaiting aid g (do_event cf fresh ap (EvHostRevoke now hid)).
Proof.
  intros Haw. cbn [do_event]. unfold InMemoryHostStore.revoke.
  destruct (InMemoryHostStore.hosts _ !! hid) as [h|]; [|by apply (awaiting_ext aid g ap)].
  destruct (bool_decide _); [by apply (awaiting_ext aid g ap)|]. cbn [from_option id].
  destruct Haw as [Hk (a & Ha & Hd) Hp Hg].
  split; [eapply agent_step_keyed; [exact Hk|apply step_revoke_by_host]| |done|done].
  unfold agents_of in *. cbn [ap_world w_agents]. rewrite revoke_by_host_lookup, Ha by done.
  eexists. split; [done|]. case_decide; [|done]. unfold dormant. cbn. set_solver.
Qed.

(** No event wakes a dormant agent, approvals of its request apart. *)
Lemma awaiting_event aid g cf fresh e (ap : app C) :
  approves aid e = false → redraws aid e = false → awaiting aid g ap → awaiting aid g (do_event cf fresh ap e).
Proof.
  intros Hap Hre Haw. destruct e as [ck rq q|ck now rq|ck rq q cur lim|ck rc pnow code rq|now a u|now a r|n1 n2 ans t|now hid];
    [..|by apply awaiting_host_revoke]; cbn [do_event approves redraws] in *.
  - rewrite serve_fst. destruct q as [env|sc a|a|a key|now]; cbn [handle_host_request].
    + apply awaiting_register; [|done]. by apply String.eqb_neq.
    + by apply awaiting_status.
    + by apply awaiting_revoke.
    + by apply awaiting_rotate.
    + by apply awaiting_reactivate.
  - rewrite serve_fst. by apply awaiting_execute.
  - rewrite serve_fst. by apply awaiting_list.
  - rewrite serve_fst. by apply awaiting_request_capability.
  - apply awaiting_approval_store; [done|]. intros s. apply unapproved_resolve. intros ->.
    by rewrite String.eqb_refl in Hap.
  - apply awaiting_approval_store; [done|]. intros s. by apply unapproved_resolve.
  - apply awaiting_approval_store; [done|]. intros s. apply unapproved_a2h. intros He.
    rewrite He, String.eqb_refl in Hap. done.
Qed.

End System.

(** ** Properties *)

(** C1: host isolation: whatever a register, status, revoke, rotate-key or
    reactivate request does, with any outcome, each agent row it changes
    belongs to the host that the request's bearer token authenticates, before
    the request (if the row was there) and after it.  A registration draws an
    id that is not in use. *)
Theorem host_requests_touch_only_own_agents `{PyRuntime, Jose} {C : Type} `{JtiGuard C}
    (cf : config) (fresh : option FreshSessionConfig) (ck : clock) (rq : HttpRequest) (q : host_request)
    (ap : app C) (aid : string) :
  agents_keyed (agents_of ap) →
  (∀ env, q = RequestRegister env → agents_of ap !! re_agent_id env = None) →
  let ap' := fst (serve (handle_host_request cf fresh ck rq q) ap) in
  agents_of ap' !! aid ≠ agents_of ap !! aid →
  ∃ host_id a', authenticated cf ck rq (consumes_token q) ap host_id ∧
    agents_of ap' !! aid = Some a' ∧ a_host_id a' = host_id ∧
    ∀ a, agents_of ap !! aid = Some a → a_host_id a = host_id.
Proof.
  intros Hk Hnew. cbv zeta. rewrite serve_fst.
  destruct q as [env|sc a|a|a key|now]; cbn [handle_host_request consumes_token].
  - by apply own_change_register, Hnew.
  - by apply own_change_status.
  - apply own_change_revoke.
  - by apply own_change_rotate.
  - by apply own_change_reactivate.
Qed.

(** C2: consent: start from an agent that is pending and whose request nobody
    has approved, and let any requests, decisions and revocations happen.
    Either one of them is an approval of that agent's request, by a user or
    through the A2H channel, or the agent is still not active (pending,
    rejected or revoked) and holds exactly the grants it held. *)
Theorem activation_needs_approval `{PyRuntime, Jose} {C : Type} `{JtiGuard C}
    (cf : config) (fresh : option FreshSessionConfig) (events : list event) (ap : app C) (aid : string)
    (a : AgentSession) :
  agents_keyed (agents_of ap) → agents_of ap !! aid = Some a → a_status a = StPending →
  (∀ s row, ap_approvals ap = Some s → s !! aid = Some row → ar_status row ≠ ApApproved) →
  (∀ e, e ∈ events → redraws aid e = false) →
  let ap' := fold_left (do_event cf fresh) events ap in
  (∃ e, e ∈ events ∧ approves aid e = true) ∨
  ((∃ a', agents_of ap' !! aid = Some a' ∧ a_status a' ∈ [StPending; StRejected; StRevoked]) ∧
   ∀ cap, CapabilityRegistry.lookup aid cap (ap_registry ap') = CapabilityRegistry.lookup aid cap (ap_registry ap)).
Proof.
  intros Hk Ha Hp Hap Hre. cbv zeta.
  destruct (decide (Exists (λ e, approves aid e = true) events)) as [He|Hne];
    [left; by apply Exists_exists in He|right].
  set (g := λ cap, CapabilityRegistry.lookup aid cap (ap_registry ap)).
  assert (Haw : awaiting aid g ap).
  { split; [done| |done|done]. exists a. split; [done|]. unfold dormant. rewrite Hp. set_solver. }
  assert (Hend : awaiting aid g (fold_left (do_event cf fresh) events ap)).
  { clearbody g. clear Hk Ha Hp Hap. revert ap Haw. induction events as [|e es IH]; intros ap Haw; [done|].
    apply IH; [set_solver|by intros Hx; apply Hne; right|]. apply awaiting_event; [|set_solver|done].
    destruct (approves aid e) eqn:Hae; [|done]. exfalso. apply Hne. by left. }
  destruct Hend as [_ Hrow _ Hg]. split; [done|]. exact Hg.
Qed.

(** ** Witnesses *)
#[local] Existing Instance AgentJwt.demo_runtime.

Lemma host_requests_touch_only_own_agents_witness :
  ∃ host_id a', @authenticated _ demo_host_jose _ _ demo_config (at_time 0) (demo_request JNull) true demo_app host_id ∧
    agents_of (fst (serve (@handle_host_request _ demo_host_jose _ _ demo_config None (at_time 0)
      (demo_request JNull) (RequestRevoke "a1")) demo_app)) !! "a1"%string = Some a' ∧ a_host_id a' = host_id.
Proof.
  destruct (@host_requests_touch_only_own_agents _ demo_host_jose _ _ demo_config None (at_time 0)
    (demo_request JNull) (RequestRevoke "a1") demo_app "a1") as (host_id & a' & Hauth & Ha & Hh & _).
  - apply demo_agents_keyed.
  - intros env. discriminate.
  - vm_compute. discriminate.
  - exists host_id, a'. split; [exact Hauth|]. split; [exact Ha|exact Hh].
Defined.

(** An agent of the demo host that is pending; its request is denied between
    two status requests. *)
Definition demo_pending_app : app JtiReplayCache.t :=
  mkApp (demo_world StPending) demo_registry
    (Some {[ "a1"%string := mkRequest "a1" DeviceAuthorization ["file:read"%string]
               [[("name"%string, JStr "file:read")]] Approval.Registration ApPending (Some "ABCD1234"%string)
               None None None 600 5 0 None None ]}) [].
Definition demo_events : list event :=
  let poll := EvHost (at_time 0) (demo_request JNull) (RequestStatus (mkSClock 1 1 1 1) "a1") in
  [poll; EvDeny 2 "a1" "no"; poll].

Lemma activation_needs_approval_witness :
  ∃ a', agents_of (fold_left (@do_event _ demo_host_jose _ _ demo_config None) demo_events demo_pending_app)
          !! "a1"%string = Some a' ∧ a_status a' ∈ [StPending; StRejected; StRevoked].
Proof.
  destruct (@activation_needs_approval _ demo_host_jose _ _ demo_config None demo_events demo_pending_app "a1"
              (demo_agent StPending "K")) as [(e & He & Hap)|[Hrow _]].
  - apply demo_agents_keyed.
  - reflexivity.
  - reflexivity.
  - intros s row [= <-]. rewrite lookup_singleton_eq. intros [= <-]. discriminate.
  - intros e He. unfold demo_events in He. repeat (apply elem_of_cons in He as [->|He]; [reflexivity|]).
    by apply elem_of_nil in He.
  - exfalso. unfold demo_events in He. repeat (apply elem_of_cons in He as [->|He]; [discriminate Hap|]).
    by apply elem_of_nil in He.
  - exact Hrow.
Defined.

(** The agent of the example ends up rejected. *)
Example demo_events_reject :
  option_map a_status (agents_of (fold_left (@do_event _ demo_host_jose _ _ demo_config None) demo_events
                                    demo_pending_app) !! "a1"%string) = Some StRejected.
Proof. vm_compute. reflexivity. Qed.
